(* ===== verification/_CoqProject ===== *)
-Q . S2P
Prelude.v
Div64.v
TimeArith.v
Types.v
World.v
Timeout.v
Hooks.v
Bytes.v
Msg.v
FixedPoint.v
Servo.v
BmcCmp.v
ClockQuality.v
Bmc.v
BmcTable.v
BmcDecision.v
Common.v
States.v
Fsm.v
OpenClose.v
Protocol.v
Identity.v
Safety.v
MainLoop.v
Startup.v
Wrh.v
WrhLoop.v
WrMsg.v
WrStates.v
WrHooks.v
L1Sync.v
Extensions.v
ExtClosed.v
WrHandshake.v
WrCalib.v
L1SyncSpec.v
Scan.v
Conf.v
ConfLex.v
ConfInv.v
ConfSpec.v
UnixMain.v
UnixStart.v
UnixNet.v
UnixNetSpec.v
Sim.v
SimQueue.v
SimLoop.v
SimSafe.v
SimSpec.v
UnixTime.v
WrsNet.v
WrsNetSpec.v
WrsTime.v
WrsTimeSpec.v
WrsMain.v
WrsMainSpec.v
Shmem.v
ShmemSpec.v
