(* ===== verification/Prelude.v ===== *)
(** * A verification development for ppsi

    ppsi is the PTP (IEEE 1588) daemon of the White Rabbit project.  One
    instance runs per network port; all share a set of globals.  A port is a
    state machine (fsm.c) that runs on received frames and on timeouts: the
    states (proto-standard/state-*.c) handle messages, feed the servo
    (servo.c) with timestamps and send messages (msg.c); the best master
    clock algorithm (bmc.c) ranks the masters heard on all ports and decides
    the state each port is to be in.  Protocol extensions hook into the
    states through a table of functions, and the platform provides clock,
    network and timers.

    ** How the program is modelled

    - C integers are [Z] with the wrap-around of their type written out
      (Prelude.v: [u8] ... [i64]); [unsigned long] is a parameter of the
      configuration.  Pointers to instances are indices into a list.
    - Types.v has the structures of include/ppsi as records, the build options
      as the class [Config], and the operations of the platform
      (struct pp_time_operations, struct pp_network_operations) as the class
      [Platform]: functions on an abstract environment, of which nothing is
      assumed unless a theorem says so.
    - World.v has the state monad [M] over everything a handler can reach, its
      primitives ([rd], [wr], [op], [c_assert], ...), and the judgements
      [triple], [port_triple] (on a view of one port) and [guar].  A failed [assert] is recorded in the world.
      [same_view] relates worlds that agree on a part; the tactic [walk]
      proves that code leaves a part alone by following its text.
    - Hooks.v has struct pp_ext_hooks; [if_hook] is the test for a [NULL]
      entry.  Theorems about all extensions take their contract as the class
      [HooksSafe] of Safety.v, which plain PTP and the extensions fulfil.

    ** The files

    - Prelude: machine integers, record update, shared lemmas and tactics.
    - Div64 (lib/div64.c), TimeArith (lib/time-arith.c, pp-time.h): division
      and time arithmetic.
    - Types, World, Hooks: above.  Bytes: byte strings and big-endian fields.
    - Timeout (timeout.c, timeout_prot.h, jiffies.h): counters and deadlines.
    - Msg (msg.c, msg-p2p.c, msgtype.c, the sending part of common-fun.c and
      fsm-lib.c): messages.
    - FixedPoint, Servo (servo.c): fixed-point routines, delays, filter,
      controller.
    - BmcCmp (data set comparison of bmc.c), ClockQuality
      (bmc_clock_quality.c), Bmc (the rest of bmc.c); BmcTable and BmcDecision
      hold the theorems on the foreign master table and on the decision.
    - Common (common-fun.c, common-fun-p2p.c, fsm-lib.c), States (state-*.c),
      Fsm (fsm.c, fsm-table.c, hooks.c), OpenClose (open-close.c).
    - Protocol: theorems on frames and message exchanges.  Identity: the clock
      identity.  Safety: the invariant of the system and the state machine.
    - MainLoop (arch-unix/main-loop.c, common-fun.h) and Startup: the loop,
      initialisation and the program as a whole.
    - Wrh (proto-ext-common/wrh-servo.c, wrh.h): the servo of the extensions;
      the hardware operations are the class [WrhOper].  WrhLoop: the servo as
      a controller, what its lock flag means, and the closed loop.
    - WrMsg (wr-msg.c), WrStates (state-wr-*.c, wr-state-machine.c,
      common-fun.c, wr-servo.c) and WrHooks (hooks.c) of
      proto-ext-whiterabbit; WrHandshake and WrCalib hold their theorems.
    - L1Sync (proto-ext-l1sync) and its theorems, L1SyncSpec.
    - Extensions: the tables of hooks of both extensions, tied together, keep
      the contract [HooksSafe].  ExtClosed: the tables whose functions call
      back into themselves are unique, and the whole program is safe with
      them.
    - Scan: C strings as lists of character codes and [sscanf] of the C
      library, for the conversions the parser uses.
    - Conf (lib/conf.c, include/ppsi/conf.h, arch-unix/unix-conf.c,
      [pp_diag_parse] of diag.c, the defaults of open-close.c): the
      configuration parser; the build and [double] are the class
      [ConfBuild].  ConfLex: texts as statements and words.  ConfInv: the
      invariant of the configuration.  ConfSpec: the theorems.
    - UnixMain (lib/cmdline.c, lib/drop.c, [main] of
      arch-unix/unix-startup.c): from the command line to the main loop; what
      files, allocator and kernel give is the record [machine].
      [unix_wrh_oper] is the table of hardware operations of arch-unix; the
      call of its null pointer is recorded.  UnixStart: the theorems.
    - UnixNet (time-unix/unix-socket.c): the sockets; the kernel is the class
      [Kernel], an operation per system call.  UnixNetSpec: the theorems,
      with what they need of the kernel as the classes [KernelLaws] (a new
      descriptor is a new one) and [MsgFits] (a received message fits the
      buffer).
    - Sim (time-sim, the structures and options of arch-sim): the simulator,
      in which a master and a slave run as two machines in simulated time;
      [rand] is the class [CRand], the sockets are [Kernel].  SimQueue: the
      queue of packets in flight and the invariant of the environment.
      SimLoop (arch-sim/main-loop.c, sim-startup.c): the simulator as an
      instance of [Platform], on environments that carry their invariant
      (a subset type), and of [WrhOper]; set-up and main loop on the world
      with the data sets of both machines.  SimSafe and SimSpec: the theorems,
      and runs of the whole program with plain PTP, White Rabbit and L1Sync.
    - UnixTime (time-unix/unix-time.c): the clock of the operating system; the
      kernel's clock calls are the class [TimexKernel], what the theorems need
      of them [TimexLaws].
    - WrsNet (time-wrs/wrs-socket.c): hardware timestamps on the sockets of
      UnixNet; [WrsKernel] has the system calls beyond [Kernel] and the ports
      in the memory shared with the HAL.  WrsNetSpec: the theorems.
    - WrsTime (time-wrs/wrs-time.c): counters, timing modes, locking, time
      registers and DAC of the switch, in the monad [TM] of the world with
      the static variables; the HAL and the registers are the class [WrsHal].
      WrsTimeSpec: the theorems.
    - WrsMain (arch-wrs: main-loop.c, wrs-startup.c, wrs-port.c,
      wrs-calibration.c, wrs-ipcserver.c): the program of the switch; what the
      machine does in a turn of its loop is a [wrs_event], the HAL's shared
      memory the class [HalShm].  The operations the hooks call are [WrhOper]
      and [Platform] there, as everywhere.  WrsMainSpec: the theorems.
    - Shmem (arch-wrs/shmem.c): the shared memory with its sequence lock; the
      constants of libwr/shmem.h, which the repository does not have, are the
      class [ShmHeader].  ShmemSpec: the theorems.

    ** What the theorems show

    - The program: from allocated memory through initialisation and any
      sequence of events no assertion fails, states and tables stay well
      formed (Startup, Safety).
    - The best master clock algorithm: the data set comparison is a total
      preorder on comparable sets given by a key; Erbest and Ebest are minima
      of it; table operations keep one record per source and do exactly what
      they are for; the decision recommends only allowed states, at most one
      slave port, and never jumps to MASTER or SLAVE (BmcCmp, BmcTable,
      BmcDecision).
    - Messages: what is packed is what is unpacked; errors of sending are
      reported (Msg).  Frames are ignored exactly when they should be, and the
      exchanges set the timestamps the servo needs (Protocol).
    - The servo: the round trip delay is free of the clock offset; filter,
      controller and fixed-point routines are exact or within a stated error
      (Servo, FixedPoint).
    - The extensions: the program stays safe with them (ExtClosed); a run of
      the White Rabbit machine refines an abstract handshake in which WR mode
      is on only after both sides have locked and calibrated (WrHandshake);
      the fixed delays cross the link exactly (WrCalib); messages round trip
      (WrMsg, L1SyncSpec); L1Sync comes up only when both sides have what they
      require (L1SyncSpec); the servo reports lock only at a small offset and
      brings a clock that follows it to its master in four updates (WrhLoop).
    - Configuration: whatever a text holds, a value that is accepted is in its
      range and ports and names are well formed; a text is the sequence of its
      statements; a configuration that is written down is read back
      (ConfSpec).  Each port runs as configured (UnixStart).
    - The daemon: entered by [main] with any command line and fed by the
      sockets it is safe; no descriptor is leaked whatever call fails; only
      frames meant for a port reach it; a frame sent is the frame received;
      the wait for packets ends in time (UnixNetSpec).
    - The simulator: the array of packets refines a sorted list; a Follow_Up
      stays behind its Sync; clocks keep their rate; the two machines run
      safely from [main] on (SimSpec).  The runs evaluated there pass through
      initialisation, best master selection, the exchanges, the servo and the
      handshakes of both extensions.
    - The switch: its program is safe for any answers of the HAL and any links
      that come and go; a lost link leaves nothing behind; what the HAL is told
      of the ports; the checks for frames are not starved (WrsMainSpec).
      Receive timestamps are exact across the transitions of both counters,
      transmit timestamps belong to the frame that was sent, nothing leaks
      (WrsNetSpec); the time registers are read consistently, and setting the
      time comes nearer to it (WrsTimeSpec).  Readers of the shared memory see
      one state, and its blocks do not overlap (ShmemSpec).
    - The clock of arch-unix: what is set is read back (UnixTime).
    - Timers: expiry, bounds of randomised resets and next delays across the
      wrap-around of the millisecond counter (Timeout).
    - Arithmetic: division, normalisation, conversions (Div64, TimeArith).

    ** Bounds and fuel

    The loops of __div64_32 have fuel 64, which is enough for every argument;
    the polynomial expansion of servo.c has fuel 64 and is shown to end with
    its condition false.  Each round of the loop that ages foreign masters
    removes a record or passes one; its fuel is twice the number of records
    and two, and it is shown to end by its condition.  The parser of a text has the length of the text
    plus one as fuel (each round passes a terminator), the search of a word in
    a list the length of the list; both are shown to give the list function
    without fuel (ConfLex).  The loop of the simulator need not end (it counts
    answers of the master); its model stops after a number of steps, and the
    theorems hold for any number.  The loop that reads the time registers of the
    switch has its rounds as fuel, and two are shown to be enough while they
    count; a wait for a PLL or a writer has as many rounds as the code or the
    machine gives it.  Other loops are folds over the ports or records.

    ** What is not modelled

    Diagnostics and dumps (printing only), arch-wrpc and the bare
    architectures (hardware registers and code of other repositories; they are
    the [Platform] parameter), the vendored mini-rpc library and configuration
    system, absolute calibration (CONFIG_ABSCAL).  A store the configuration parser makes
    outside of an object is recorded ([cf_wild] of Conf.v) and not followed
    further; theorems exclude it.  In the same way [se_wild] of Sim.v records
    that the array of packets or a delay overflowed, and [se_null] of Sim.v and
    [null_called] of UnixMain.v that the null pointer [locking_disable] of
    arch-sim and arch-unix was called; what follows is not claimed.  The
    deviations of the code from its intent that the theorems show are stated
    as examples next to them. *)

From stdpp Require Export base list numbers option.
From Stdlib Require Export ZArith Lia.
Open Scope Z_scope.

(** ** Machine integers

    A C integer of width [w] is a [Z]; every C operation that may leave the
    range is followed by the wrap-around of its type.  Signed overflow is
    modelled as two's complement (what gcc produces for this code base);
    theorems that need the mathematical value carry the range hypothesis. *)

Definition u8 (z : Z) : Z := z mod 256.
Definition u16 (z : Z) : Z := z mod 65536.
Definition u32 (z : Z) : Z := z mod 4294967296.
Definition u64 (z : Z) : Z := z mod 18446744073709551616.
Definition i8 (z : Z) : Z := (z + 128) mod 256 - 128.
Definition i16 (z : Z) : Z := (z + 32768) mod 65536 - 32768.
Definition i32 (z : Z) : Z := (z + 2147483648) mod 4294967296 - 2147483648.
Definition i64 (z : Z) : Z :=
  (z + 9223372036854775808) mod 18446744073709551616 - 9223372036854775808.

Definition INT64_MAX : Z := 9223372036854775807.
Definition INT64_MIN : Z := -9223372036854775808.
Definition INT_MAX : Z := 2147483647.

Create HintDb wrap.

Lemma u8_id z : 0 <= z < 256 -> u8 z = z.
Proof. unfold u8. apply Z.mod_small. Qed.
Lemma u16_id z : 0 <= z < 65536 -> u16 z = z.
Proof. unfold u16. apply Z.mod_small. Qed.
Lemma u32_id z : 0 <= z < 4294967296 -> u32 z = z.
Proof. unfold u32. apply Z.mod_small. Qed.
Lemma u64_id z : 0 <= z < 18446744073709551616 -> u64 z = z.
Proof. unfold u64. apply Z.mod_small. Qed.
Lemma i8_id z : -128 <= z < 128 -> i8 z = z.
Proof. unfold i8. intros. rewrite Z.mod_small; lia. Qed.
Lemma i16_id z : -32768 <= z < 32768 -> i16 z = z.
Proof. unfold i16. intros. rewrite Z.mod_small; lia. Qed.
Lemma i32_id z : -2147483648 <= z < 2147483648 -> i32 z = z.
Proof. unfold i32. intros. rewrite Z.mod_small; lia. Qed.
Lemma i64_id z : -9223372036854775808 <= z < 9223372036854775808 -> i64 z = z.
Proof. unfold i64. intros. rewrite Z.mod_small; lia. Qed.

Lemma u8_range z : 0 <= u8 z < 256.
Proof. apply Z.mod_pos_bound. lia. Qed.
Lemma u16_range z : 0 <= u16 z < 65536.
Proof. apply Z.mod_pos_bound. lia. Qed.
Lemma u32_range z : 0 <= u32 z < 4294967296.
Proof. apply Z.mod_pos_bound. lia. Qed.
Lemma u64_range z : 0 <= u64 z < 18446744073709551616.
Proof. apply Z.mod_pos_bound. lia. Qed.
Lemma i8_range z : -128 <= i8 z < 128.
Proof. unfold i8. pose proof (Z.mod_pos_bound (z + 128) 256). lia. Qed.
Lemma i16_range z : -32768 <= i16 z < 32768.
Proof. unfold i16. pose proof (Z.mod_pos_bound (z + 32768) 65536). lia. Qed.
Lemma i32_range z : -2147483648 <= i32 z < 2147483648.
Proof. unfold i32. pose proof (Z.mod_pos_bound (z + 2147483648) 4294967296). lia. Qed.
Lemma i64_range z : -9223372036854775808 <= i64 z < 9223372036854775808.
Proof.
  unfold i64.
  pose proof (Z.mod_pos_bound (z + 9223372036854775808) 18446744073709551616). lia.
Qed.

#[export] Hint Resolve u8_range u16_range u32_range u64_range
  i8_range i16_range i32_range i64_range : wrap.

(** [nowrap] removes every wrap-around whose argument [lia] places in range. *)
Ltac nowrap :=
  repeat match goal with
    | |- context [i64 ?z] => rewrite (i64_id z) by lia
    | |- context [u64 ?z] => rewrite (u64_id z) by lia
    | |- context [i32 ?z] => rewrite (i32_id z) by lia
    | |- context [u32 ?z] => rewrite (u32_id z) by lia
    | |- context [i16 ?z] => rewrite (i16_id z) by lia
    | |- context [u16 ?z] => rewrite (u16_id z) by lia
    | |- context [i8 ?z] => rewrite (i8_id z) by lia
    | |- context [u8 ?z] => rewrite (u8_id z) by lia
    end.

(** Linear arithmetic with quotients and remainders by constants. *)
Ltac dlia := Z.to_euclidean_division_equations; lia.
Ltac dnia := Z.to_euclidean_division_equations; nia.

(** Case analysis on every comparison of the goal. *)
Ltac zcases := repeat (match goal with
  | |- context [?x =? ?y] => destruct (Z.eqb_spec x y)
  | |- context [?x <? ?y] => destruct (Z.ltb_spec x y)
  | |- context [?x <=? ?y] => destruct (Z.leb_spec x y)
  end; cbn [negb andb orb]).

(** ** Loops

    A C [while] loop runs on fuel; the component that uses one proves that
    the fuel it supplies reaches the exit condition. *)

Fixpoint while {S : Type} (fuel : nat) (cond : S -> bool) (body : S -> S) (s : S) : S :=
  match fuel with
  | O => s
  | S fuel' => if cond s then while fuel' cond body (body s) else s
  end.

Section While.
Context {S : Type} (cond : S -> bool) (body : S -> S).

(** Partial and total correctness in one rule: the invariant holds at the
    exit and, when [measure] bounds the number of iterations, the loop has
    really exited (its condition is false). *)
Lemma while_rule (I : S -> Prop) (measure : S -> Z) :
  (forall s, I s -> cond s = true -> I (body s) /\ 0 <= measure (body s) < measure s) ->
  forall fuel s, I s -> 0 <= measure s -> measure s < Z.of_nat fuel ->
  I (while fuel cond body s) /\ cond (while fuel cond body s) = false.
Proof.
  intros Hstep fuel. induction fuel as [|n IH]; intros s HI Hm Hf; [lia|].
  cbn [while]. destruct (cond s) eqn:E; [|done].
  destruct (Hstep s HI E). apply IH; [done|lia|lia].
Qed.

Lemma while_false fuel s : cond s = false -> while fuel cond body s = s.
Proof. destruct fuel; cbn; [done|]. by intros ->. Qed.
End While.

(** ** Exhaustive checks over small ranges *)

Definition Zrange (lo : Z) (n : nat) : list Z := map (fun k => lo + Z.of_nat k) (seq 0 n).

Lemma Zrange_forall (f : Z -> bool) lo n :
  forallb f (Zrange lo n) = true -> forall z, lo <= z < lo + Z.of_nat n -> f z = true.
Proof.
  intros H z Hz. rewrite forallb_forall in H. apply H. unfold Zrange.
  apply in_map_iff. exists (Z.to_nat (z - lo)). split; [lia|]. apply in_seq. lia.
Qed.

(** ** Record update

    [x <| f := v |>] is the structure assignment [x.f = v].  A record type
    declares its eta expansion once; the setters are derived from it. *)

Class Eta (R : Type) := eta : R -> R.

Class Setter {R T : Type} (p : R -> T) := { setter : (T -> T) -> R -> R }.

Ltac derive_setter :=
  match goal with
  | |- @Setter ?R ?T ?p =>
      let r := fresh "r" in
      let f := fresh "f" in
      let h := constr:(fun (f : T -> T) (r : R) => ltac:(
        let e := eval hnf in (eta r) in
        lazymatch eval pattern (p r) in e with
        | ?h _ => let b := eval cbv beta in (h (f (p r))) in exact b
        end)) in
      exact (Build_Setter R T p h)
  end.

#[export] Hint Extern 1 (@Setter _ _ _) => derive_setter : typeclass_instances.

Definition upd {R T : Type} (p : R -> T) {s : Setter p} (f : T -> T) (r : R) : R := setter f r.
Arguments upd {R T} p {s} f r /.
Arguments setter {R T} p {_} f r /.

Declare Scope upd_scope.
Open Scope upd_scope.
Notation "x <| p := v |>" := (upd p (fun _ => v) x)
  (at level 1, left associativity, p at next level, format "x <| p  :=  v |>") : upd_scope.
Notation "x <| p ::= f |>" := (upd p f x)
  (at level 1, left associativity, p at next level, format "x <| p  ::=  f |>") : upd_scope.
