(* ===== verification/Div64.v ===== *)
(** * 64-by-32 bit division (lib/div64.c)

    [__div64_32] is the only 64-bit division of the program: it is used by
    the time conversions, the servo and the timeouts.  It divides by shifts
    and subtractions.  The theorem below states that it is Euclidean
    division, with all intermediate values inside [uint64_t]. *)

From S2P Require Import Prelude.

(** Variables of the C function after the first block: [rem], [b], [d], [res]. *)
Record div_state := mk_div { d_rem : Z; d_b : Z; d_d : Z; d_res : Z }.

(** [while ((int64_t)b > 0 && b < rem) { b = b+b; d = d+d; }] *)
Definition div_up_cond (s : div_state) : bool :=
  (0 <? i64 (d_b s)) && (d_b s <? d_rem s).
Definition div_up_body (s : div_state) : div_state :=
  mk_div (d_rem s) (u64 (d_b s + d_b s)) (u64 (d_d s + d_d s)) (d_res s).

(** [if (rem >= b) { rem -= b; res += d; }] *)
Definition div_sub (s : div_state) : div_state :=
  if d_b s <=? d_rem s
  then mk_div (u64 (d_rem s - d_b s)) (d_b s) (d_d s) (u64 (d_res s + d_d s))
  else s.

(** Body of the [do ... while (d)] loop. *)
Definition div_down_body (s : div_state) : div_state :=
  let s1 := div_sub s in
  mk_div (d_rem s1) (Z.shiftr (d_b s1) 1) (Z.shiftr (d_d s1) 1) (d_res s1).
Definition div_down_cond (s : div_state) : bool := negb (d_d s =? 0).

(** [uint32_t __div64_32(uint64_t *n, uint32_t base)]: the new value of [*n]
    and the returned remainder.  64 iterations are enough for both loops. *)
Definition div64_32 (n base : Z) : Z * Z :=
  let high := u32 (Z.shiftr n 32) in
  let '(rem, res) :=
    if base <=? high then
      let high' := high / base in
      (u64 (n - u64 (Z.shiftl (u32 (high' * base)) 32)), u64 (Z.shiftl high' 32))
    else (n, 0) in
  let s1 := while 64 div_up_cond div_up_body (mk_div rem base 1 res) in
  let s2 := while 64 div_down_cond div_down_body (div_down_body s1) in
  (d_res s2, u32 (d_rem s2)).

Section Correct.
Variables n base : Z.
Hypothesis Hn : 0 <= n < 18446744073709551616.
Hypothesis Hbase : 0 < base < 4294967296.

(** What the loops maintain: [n = res * base + rem], [b = base * d] with
    [d] a power of two. *)
Definition div_inv (s : div_state) : Prop :=
  n = d_res s * base + d_rem s /\ 0 <= d_rem s /\ 0 <= d_res s.

Definition up_inv (s : div_state) : Prop :=
  div_inv s /\ d_b s < 18446744073709551616 /\
  exists k, 0 <= k /\ d_d s = 2 ^ k /\ d_b s = base * 2 ^ k.

(** State of the subtracting loop with [k] more halvings to do. *)
Definition down_inv (k : Z) (s : div_state) : Prop :=
  div_inv s /\ d_d s = 2 ^ k /\ d_b s = base * 2 ^ k /\ d_rem s < 2 * d_b s.

Lemma pow2_small k : 0 <= k -> base * 2 ^ k < 18446744073709551616 -> k <= 63.
Proof.
  intros Hk H. destruct (decide (k <= 63)) as [|Hgt]; [done|].
  assert (2 ^ 64 <= 2 ^ k) by (apply Z.pow_le_mono_r; lia). nia.
Qed.

Lemma up_step s : up_inv s -> div_up_cond s = true ->
  up_inv (div_up_body s) /\
  0 <= 63 - Z.log2 (d_d (div_up_body s)) < 63 - Z.log2 (d_d s).
Proof.
  intros ((Heq & Hr & Hres) & Hb & k & Hk & Hd & Hbk).
  unfold div_up_cond. rewrite andb_true_iff, !Z.ltb_lt. intros [Hpos Hlt].
  assert (d_b s < 9223372036854775808) as Hb'.
  { destruct (decide (d_b s < 9223372036854775808)); [done|].
    unfold i64 in Hpos. exfalso. dlia. }
  assert (0 < 2 ^ k) by (apply Z.pow_pos_nonneg; lia).
  assert (2 ^ (k + 1) = 2 * 2 ^ k) as Hs by (rewrite Z.pow_add_r by lia; lia).
  unfold div_up_body; cbn. rewrite Hbk, Hd in *.
  rewrite (u64_id (_ + _)) by nia. rewrite (u64_id (_ + _)) by nia.
  replace (2 ^ k + 2 ^ k) with (2 ^ (k + 1)) by lia.
  assert (k + 1 <= 63) by (apply pow2_small; [lia|]; nia).
  rewrite !Z.log2_pow2 by lia. split; [|lia].
  split; [split; cbn; lia|]. cbn. split; [nia|].
  exists (k + 1). repeat split; [lia|nia].
Qed.

Lemma up_exit s : up_inv s -> div_up_cond s = false ->
  exists k, 0 <= k <= 63 /\ down_inv k s.
Proof.
  intros (Hinv & Hb & k & Hk & Hd & Hbk) Hc. pose proof Hinv as (Heq & Hr & Hres).
  assert (0 < 2 ^ k) by (apply Z.pow_pos_nonneg; lia).
  exists k. split; [split; [lia|apply pow2_small; lia]|].
  do 3 (split; [done|]).
  unfold div_up_cond in Hc. apply andb_false_iff in Hc.
  rewrite !Z.ltb_ge in Hc. destruct Hc as [Hneg|]; [|nia].
  assert (d_b s >= 9223372036854775808); [|nia].
  unfold i64 in Hneg. rewrite Hbk in *. clear -Hneg Hb H Hbase. dnia.
Qed.

(** One round of the subtracting loop, before the halving. *)
Lemma down_subtract k s : 0 <= k -> down_inv k s ->
  let s1 := div_sub s in
  div_inv s1 /\ d_rem s1 < base * 2 ^ k /\ d_b s1 = base * 2 ^ k /\ d_d s1 = 2 ^ k.
Proof.
  intros Hk ((Heq & Hr & Hres) & Hd & Hb & Hlt). cbn zeta. unfold div_sub.
  assert (0 < 2 ^ k) by (apply Z.pow_pos_nonneg; lia).
  destruct (Z.leb_spec (d_b s) (d_rem s)); unfold div_inv; cbn; [|repeat split; lia].
  rewrite Hb, Hd in *. generalize dependent (2 ^ k). intros p Hd Hb Hlt Hp Hle.
  assert (d_rem s <= n /\ d_res s <= n) by nia.
  rewrite (u64_id (d_rem s - _)), (u64_id (d_res s + _)) by nia.
  repeat split; nia.
Qed.

Lemma down_step k s : 0 < k -> down_inv k s -> down_inv (k - 1) (div_down_body s).
Proof.
  intros Hk Hs. destruct (down_subtract k s ltac:(lia) Hs) as (Hi & Hr & Hb & Hd).
  unfold div_down_body. set (s1 := div_sub s) in *.
  assert (2 ^ k = 2 ^ (k - 1) * 2) as Hp.
  { replace k with (k - 1 + 1) at 1 by lia. rewrite Z.pow_add_r; lia. }
  rewrite !Z.shiftr_div_pow2, Hb, Hd by lia. change (2 ^ 1) with 2.
  rewrite Hp, Z.mul_assoc, !Z.div_mul by lia.
  split; [exact Hi|]. cbn. repeat split. nia.
Qed.

Lemma down_last s : down_inv 0 s ->
  div_inv (div_down_body s) /\ d_rem (div_down_body s) < base /\ d_d (div_down_body s) = 0.
Proof.
  intros Hs. destruct (down_subtract 0 s ltac:(lia) Hs) as (Hi & Hr & Hb & Hd).
  unfold div_down_body. set (s1 := div_sub s) in *. cbn.
  rewrite Hd. split; [exact Hi|]. split; [lia|done].
Qed.

Lemma down_loop fuel : forall k s, 0 <= k < Z.of_nat fuel -> down_inv k s ->
  let s' := while fuel div_down_cond div_down_body (div_down_body s) in
  div_inv s' /\ d_rem s' < base.
Proof.
  induction fuel as [|fuel IH]; intros k s Hk Hs; [lia|]. cbn zeta.
  destruct (decide (k = 0)) as [->|Hk0].
  - destruct (down_last s Hs) as (Hi & Hr & Hd). rewrite while_false; [done|].
    unfold div_down_cond. by rewrite Hd.
  - cbn [while]. pose proof (down_step k s ltac:(lia) Hs) as Hs'.
    assert (div_down_cond (div_down_body s) = true) as ->.
    { destruct Hs' as (_ & Hd & _). unfold div_down_cond. rewrite Hd.
      assert (0 < 2 ^ (k - 1)) by (apply Z.pow_pos_nonneg; lia). lia. }
    apply (IH (k - 1)); [lia|done].
Qed.

(** The first block removes the multiple of [base * 2^32]. *)
Lemma div_reduce : let high := u32 (Z.shiftr n 32) in
  let '(rem, res) :=
    if base <=? high then
      (u64 (n - u64 (Z.shiftl (u32 (high / base * base)) 32)),
       u64 (Z.shiftl (high / base) 32))
    else (n, 0) in
  n = res * base + rem /\ 0 <= rem /\ 0 <= res.
Proof.
  cbn zeta. rewrite Z.shiftr_div_pow2 by lia. change (2 ^ 32) with 4294967296.
  rewrite (u32_id (n / _)) by dlia. set (h := n / 4294967296).
  assert (0 <= h < 4294967296 /\ h * 4294967296 <= n) as Hh by (unfold h; dlia).
  destruct (Z.leb_spec base h); [|lia].
  assert (0 <= h / base /\ h / base * base <= h) as Hq by dnia.
  rewrite !Z.shiftl_mul_pow2 by lia. change (2 ^ 32) with 4294967296.
  generalize dependent (h / base). intros q Hq.
  rewrite (u32_id (q * base)) by nia. rewrite (u64_id (q * base * _)) by nia.
  rewrite (u64_id (n - _)) by nia. rewrite (u64_id (q * _)) by nia. nia.
Qed.

Lemma div64_32_euclid : exists q r, div64_32 n base = (q, r) /\
  n = q * base + r /\ 0 <= r < base /\ 0 <= q.
Proof.
  unfold div64_32. pose proof div_reduce as Hpre. cbn zeta in *.
  set (p := if base <=? _ then _ else _) in *. destruct p as [rem res].
  destruct (while_rule div_up_cond div_up_body up_inv
    (fun s => 63 - Z.log2 (d_d s)) up_step 64 (mk_div rem base 1 res)) as [H1 H2];
    [|cbn; lia|cbn; lia|].
  { split; [done|]. cbn. split; [lia|]. exists 0. lia. }
  destruct (up_exit _ H1 H2) as (k & Hk & Hs).
  destruct (down_loop 64 k _ ltac:(lia) Hs) as [(Heq & Hr & Hres) Hlt].
  eexists _, _. split; [reflexivity|]. rewrite u32_id by lia. lia.
Qed.
End Correct.

(** [__div64_32] divides: the quotient is stored and the remainder returned. *)
Lemma div64_32_spec n base :
  0 <= n < 18446744073709551616 -> 0 < base < 4294967296 ->
  div64_32 n base = (n / base, n mod base).
Proof.
  intros Hn Hb. destruct (div64_32_euclid n base Hn Hb) as (q & r & -> & He & Hr & Hq).
  f_equal; [apply (Z.div_unique_pos n base q r)|apply (Z.mod_unique_pos n base q r)]; lia.
Qed.

(** ** Properties *)

(** C40. [__div64_32] divides every [uint64_t] by every non-zero [uint32_t]: the value left in
    [*n] is the quotient and the returned value the remainder (the fuel of 64 of its two shift
    loops is enough for that). *)
Theorem div64_32_correct n base :
  0 <= n < 18446744073709551616 -> 0 < base < 4294967296 ->
  fst (div64_32 n base) = n / base /\ snd (div64_32 n base) = n mod base.
Proof. intros. by rewrite div64_32_spec. Qed.

Lemma div64_32_correct_witness : div64_32 18446744073709551615 1000 = (18446744073709551, 615).
Proof.
  pose proof (div64_32_correct 18446744073709551615 1000 ltac:(lia) ltac:(lia)) as [H1 H2].
  rewrite (surjective_pairing (div64_32 _ _)), H1, H2. reflexivity.
Defined.
