(* ===== verification/TimeArith.v ===== *)
(** * Time arithmetic (lib/time-arith.c, include/ppsi/pp-time.h)

    The internal time format is a signed pair of seconds and nanoseconds
    scaled by 2^16.  [tval] is the exact value of a pair in scaled
    nanoseconds; the theorems relate every operation to it. *)

From S2P Require Import Prelude Div64.

(** ** Data *)

Record pp_time := mk_time { secs : Z; scaled_nsecs : Z }.
#[export] Instance eta_pp_time : Eta pp_time := fun t => mk_time (secs t) (scaled_nsecs t).
#[export] Instance pp_time_eq_dec : EqDecision pp_time.
Proof. solve_decision. Defined.

(** [struct FixedDelta]: a 64-bit number of picoseconds scaled by 2^16. *)
Record FixedDelta := mk_fd { fd_lsb : Z; fd_msb : Z }.
#[export] Instance eta_FixedDelta : Eta FixedDelta := fun d => mk_fd (fd_lsb d) (fd_msb d).

Definition SNS_PER_S : Z := Z.shiftl (1000 * 1000 * 1000) 16.
Definition TIME_FRACBITS : Z := 16.
Definition TIME_ROUNDING_VALUE : Z := Z.shiftl 1 (TIME_FRACBITS - 1).
Definition TIME_INTERVAL_FRACBITS : Z := 16.
Definition TIME_INTERVAL_ROUNDING_VALUE : Z := Z.shiftl 1 (TIME_INTERVAL_FRACBITS - 1).
Definition TIME_INTERVAL_MIN_PICOS_VALUE_AS_INT64 : Z := i64 0xFE0C000000000000.
Definition TIME_INTERVAL_MAX_PICOS_VALUE_AS_INT64 : Z := 0x1F3FFFFFFFFFC18.
Definition PP_NSEC_PER_SEC : Z := 1000 * 1000 * 1000.
Definition PP_PSEC_PER_SEC : Z := 1000 * PP_NSEC_PER_SEC.

(** ** Operations *)

Definition is_incorrect (t : pp_time) : bool :=
  Z.land (Z.shiftr (secs t) 56) 0xc0 =? 0x80.

Definition mark_incorrect (t : pp_time) : pp_time :=
  let t1 := t <| secs ::= fun s => Z.land s (Z.lnot (i64 (Z.shiftl 0xc0 56))) |> in
  t1 <| secs ::= fun s => Z.lor s (i64 (Z.shiftl 0x8f 56)) |>.

Definition clear_time : pp_time := mk_time 0 0.

(** The two loops of [normalize_pp_time].  Each iteration moves the
    nanoseconds by one second, so [|ns| / SNS_PER_S + 1] iterations suffice. *)
Definition norm_fuel (t : pp_time) : nat := Z.to_nat (Z.abs (scaled_nsecs t) / SNS_PER_S + 2).

Definition norm_borrow (t : pp_time) : pp_time :=
  while (norm_fuel t) (fun t => scaled_nsecs t <? 0)
    (fun t => mk_time (i64 (secs t - 1)) (i64 (scaled_nsecs t + SNS_PER_S))) t.

Definition norm_carry (t : pp_time) : pp_time :=
  while (norm_fuel t) (fun t => SNS_PER_S <? scaled_nsecs t)
    (fun t => mk_time (i64 (secs t + 1)) (i64 (scaled_nsecs t - SNS_PER_S))) t.

Definition norm_sign (t : pp_time) : Z :=
  if ((secs t <? 0) && negb (is_incorrect t)) || ((secs t =? 0) && (scaled_nsecs t <? 0))
  then -1 else 1.

Definition time_scale (k : Z) (t : pp_time) : pp_time :=
  mk_time (i64 (secs t * k)) (i64 (scaled_nsecs t * k)).

Definition normalize_pp_time (t : pp_time) : pp_time :=
  let sign := norm_sign t in
  time_scale sign (norm_carry (norm_borrow (time_scale sign t))).

Definition pp_time_add (t1 t2 : pp_time) : pp_time :=
  normalize_pp_time
    (mk_time (i64 (secs t1 + secs t2)) (i64 (scaled_nsecs t1 + scaled_nsecs t2))).

Definition pp_time_sub (t1 t2 : pp_time) : pp_time :=
  normalize_pp_time
    (mk_time (i64 (secs t1 - secs t2)) (i64 (scaled_nsecs t1 - scaled_nsecs t2))).

Definition pp_time_add_interval (t1 : pp_time) (t2 : Z) : pp_time :=
  pp_time_add t1 (normalize_pp_time (mk_time 0 t2)).

Definition pp_time_sub_interval (t1 : pp_time) (t2 : Z) : pp_time :=
  pp_time_sub t1 (normalize_pp_time (mk_time 0 t2)).

Definition pp_time_div2 (t : pp_time) : pp_time :=
  let sign := if secs t <? 0 then -1 else 1 in
  let ns := Z.shiftr (scaled_nsecs t) 1 in
  let ns := if Z.land (secs t) 1 =? 0 then ns
            else i64 (ns + Z.quot (sign * SNS_PER_S) 2) in
  mk_time (Z.shiftr (secs t) 1) ns.

Definition pp_time_to_picos (t : pp_time) : Z :=
  let '(sgn, ut) :=
    if (secs t <? 0) || ((secs t =? 0) && (scaled_nsecs t <? 0))
    then (-1, mk_time (i64 (- secs t)) (i64 (- scaled_nsecs t)))
    else (1, t) in
  i64 (sgn * u64 (i64 (secs ut * PP_PSEC_PER_SEC) +
    Z.shiftr (u64 (i64 (scaled_nsecs ut * 1000) + TIME_ROUNDING_VALUE)) TIME_FRACBITS)).

Definition fixedDelta_to_pp_time (fd : FixedDelta) : pp_time :=
  let v := Z.lor (u64 (Z.shiftl (fd_msb fd) 32)) (fd_lsb fd) in
  normalize_pp_time (mk_time 0 (i64 (fst (div64_32 v 1000)))).

Definition picos_to_pp_time (picos : Z) : pp_time :=
  let sign := if picos <? 0 then -1 else 1 in
  let picos_u := u64 (i64 (picos * sign)) in
  let '(nsec, picos_u) := div64_32 picos_u 1000 in
  let '(sec, nsec) := div64_32 nsec PP_NSEC_PER_SEC in
  let ns := i64 (u64 (Z.shiftl nsec TIME_FRACBITS)) in
  let t := u64 (u64 (Z.shiftl picos_u TIME_FRACBITS) + TIME_ROUNDING_VALUE) in
  let t := fst (div64_32 t 1000) in
  let ns := i64 (ns + t) in
  let ns := i64 (ns * sign) in
  mk_time (i64 (sec * sign)) ns.

(** [pp_time_hardwarize]: [(ticks, picos)]; [None] is the error path, which
    leaves the outputs unwritten. *)
Definition pp_time_hardwarize (time : pp_time) (clock_period_ps : Z) : option (Z * Z) :=
  let sign := if scaled_nsecs time <? 0 then -1 else 1 in
  let scaled := u64 (i64 (scaled_nsecs time * sign)) in
  if clock_period_ps <=? 0 then None
  else
    let ps := Z.shiftr (u64 (u64 (scaled * 1000) + TIME_INTERVAL_ROUNDING_VALUE))
                TIME_INTERVAL_FRACBITS in
    let adj_ps := fst (div64_32 ps clock_period_ps) in
    let adj_ps := u64 (adj_ps * clock_period_ps) in
    let picos := i32 (i32 (u64 (ps - adj_ps)) * sign) in
    let adj_ps := fst (div64_32 adj_ps 1000) in
    let ticks := i32 (i32 adj_ps * sign) in
    Some (ticks, picos).

Definition pp_time_to_interval (ts : pp_time) : Z :=
  i64 (i64 (Z.shiftl (i64 (secs ts * PP_NSEC_PER_SEC)) TIME_INTERVAL_FRACBITS)
       + scaled_nsecs ts).

Definition picos_to_interval (picos : Z) : Z :=
  if picos <=? TIME_INTERVAL_MIN_PICOS_VALUE_AS_INT64 then i64 (Z.shiftl 1 (64 - 1))
  else if TIME_INTERVAL_MAX_PICOS_VALUE_AS_INT64 <=? picos then
    Z.lor (i64 (Z.shiftl (Z.quot TIME_INTERVAL_MAX_PICOS_VALUE_AS_INT64 1000)
                 TIME_INTERVAL_FRACBITS))
      (Z.quot (i64 (Z.shiftl (Z.rem TIME_INTERVAL_MAX_PICOS_VALUE_AS_INT64 1000)
                 TIME_INTERVAL_FRACBITS)) 1000)
  else
    let sign := if picos <? 0 then -1 else 1 in
    let picos_u := u64 (i64 (picos * sign)) in
    let '(ns_u, picos_u) := div64_32 picos_u 1000 in
    let scaled_ns := i64 (u64 (Z.shiftl ns_u TIME_INTERVAL_FRACBITS)) in
    let scaled_ns :=
      i64 (scaled_ns + u32 (Z.shiftl (u32 picos_u) TIME_INTERVAL_FRACBITS) / 1000) in
    i64 (scaled_ns * sign).

Definition interval_to_picos (interval : Z) : Z :=
  let '(neg, interval) := if interval <? 0 then (true, i64 (- interval)) else (false, interval) in
  let picos := i64 (Z.shiftr (u64 (i64 (interval * 1000) + TIME_INTERVAL_ROUNDING_VALUE))
                     TIME_INTERVAL_FRACBITS) in
  if neg : bool then i64 (- picos) else picos.

(** [is_timestamp_incorrect]: the loop over t1..t6. *)
Fixpoint ts_incorrect_from (i mask ts_mask : Z) (ts : list pp_time) : Z :=
  match ts with
  | [] => 0
  | t :: ts' =>
      if ts_mask =? 0 then 0
      else if negb (Z.land mask ts_mask =? 0) && is_incorrect t then i + 1
      else ts_incorrect_from (i + 1) (Z.shiftl mask 1) (Z.land ts_mask (Z.lnot mask)) ts'
  end.

Definition is_timestamp_incorrect (ts : list pp_time) (ts_mask : Z) : Z :=
  ts_incorrect_from 0 1 ts_mask (take 6 ts).

(** The returned flag and the new value of [*err_count]. *)
Definition is_timestamp_incorrect_thres (ts : list pp_time) (err_count ts_mask : Z) : Z * Z :=
  let res := is_timestamp_incorrect ts ts_mask in
  if res =? 0 then (0, 0) else (1, i32 (err_count + 1)).

(** ** The reference values of unit-tests/test-time-arith.ref *)

Example ref_picos_to_interval :
  map picos_to_interval [0; 1; 1000; 2000; -1; -2000; 50765654; 12345678912345; -12345678912345]
  = [0; 65; 65536; 131072; -65; -131072; 3326977900; 809086413199441; -809086413199441].
Proof. vm_compute. reflexivity. Qed.

Example ref_fixedDelta :
  map (fun v => let t := fixedDelta_to_pp_time (mk_fd (u32 v) (u32 (Z.shiftr v 32))) in
                (secs t, scaled_nsecs t))
    [0; 1; 1000; 2000; -1; -2000; 50765654; 12345678912345; -12345678912345]
  = [(0, 0); (0, 0); (0, 1); (0, 2); (281, 31128073709551); (281, 31128073709549);
     (0, 50765); (0, 12345678912); (281, 31115728030639)].
Proof. vm_compute. reflexivity. Qed.

Example ref_picos_to_pp_time :
  map (fun v => let t := picos_to_pp_time v in (secs t, scaled_nsecs t))
    [0; 1; 1000; 2000; -1; -2000; 50765654; 12345678912345; -12345678912345]
  = [(0, 32); (0, 98); (0, 65568); (0, 131104); (0, -98); (0, -131104);
     (0, 3326977933); (12, 22654413199474); (-12, -22654413199474)].
Proof. vm_compute. reflexivity. Qed.

(** ** The value of a time *)

(** Exact value in scaled nanoseconds. *)
Definition tval (t : pp_time) : Z := secs t * SNS_PER_S + scaled_nsecs t.

Lemma SNS_PER_S_val : SNS_PER_S = 65536000000000.
Proof. reflexivity. Qed.

(** [unfold_time] exposes the fields and the literal constants of the time
    format to arithmetic. *)
Ltac unfold_time :=
  unfold tval, SNS_PER_S, TIME_ROUNDING_VALUE, TIME_INTERVAL_ROUNDING_VALUE, TIME_FRACBITS,
    TIME_INTERVAL_FRACBITS, PP_NSEC_PER_SEC, PP_PSEC_PER_SEC in *; cbn [secs scaled_nsecs] in *;
  change (Z.shiftl (1000 * 1000 * 1000) 16) with 65536000000000 in *;
  change (Z.shiftl 1 (16 - 1)) with 32768 in *.

(** The top-byte test of [is_incorrect] as a comparison. *)
Lemma incorrect_byte b : -128 <= b < 128 -> (Z.land b 0xc0 =? 0x80) = (b <? -64).
Proof.
  intros Hb.
  pose proof (Zrange_forall (fun b => Bool.eqb (Z.land b 0xc0 =? 0x80) (b <? -64)) (-128) 256
    ltac:(vm_compute; reflexivity) b ltac:(lia)) as H.
  by apply eqb_prop in H.
Qed.

Lemma is_incorrect_ltb t : -9223372036854775808 <= secs t < 9223372036854775808 ->
  is_incorrect t = (secs t <? -4611686018427387904).
Proof.
  intros Hs. unfold is_incorrect. rewrite Z.shiftr_div_pow2 by lia.
  change (2 ^ 56) with 72057594037927936. rewrite incorrect_byte by dlia.
  destruct (Z.ltb_spec (secs t / 72057594037927936) (-64)),
    (Z.ltb_spec (secs t) (-4611686018427387904)); dlia || done.
Qed.

(** ** Normalisation *)

Definition small_time (t : pp_time) : Prop :=
  Z.abs (secs t) <= 2305843009213693952 /\ Z.abs (scaled_nsecs t) <= 4611686018427387904.

(** Seconds and nanoseconds have the same sign and the nanoseconds are at
    most one second. *)
Definition normal_time (t : pp_time) : Prop :=
  (0 <= secs t /\ 0 <= scaled_nsecs t <= SNS_PER_S) \/
  (secs t <= 0 /\ - SNS_PER_S <= scaled_nsecs t <= 0).

Lemma small_correct t : small_time t -> is_incorrect t = false.
Proof. intros [??]. rewrite is_incorrect_ltb by lia. lia. Qed.

(** Room for the carries of the loops; holds of marked times as well. *)
Definition room_time (t : pp_time) : Prop :=
  Z.abs (secs t) <= 9223372036854000000 /\ Z.abs (scaled_nsecs t) <= 4611686018427387904.

Lemma small_room t : small_time t -> room_time t.
Proof. unfold small_time, room_time. lia. Qed.

Lemma norm_borrow_spec t : room_time t -> scaled_nsecs t < 0 ->
  let t' := norm_borrow t in
  tval t' = tval t /\ 0 <= scaled_nsecs t' < SNS_PER_S.
Proof.
  intros [Hs Hn] Hneg t'.
  set (I u := tval u = tval t /\ scaled_nsecs t <= scaled_nsecs u < SNS_PER_S).
  assert (I t' /\ (scaled_nsecs t' <? 0) = false) as [(Hv & Hlt) Hex].
  { eapply (while_rule (fun t => scaled_nsecs t <? 0) _ I
              (fun u => (SNS_PER_S - 1 - scaled_nsecs u) / SNS_PER_S)); subst I; cbn beta.
    - intros [us un] (Hv & Hge). rewrite Z.ltb_lt. unfold_time. intros Hlt.
      nowrap. repeat split; try lia; dlia.
    - unfold_time. lia.
    - unfold_time. dlia.
    - unfold norm_fuel; unfold_time. dlia. }
  unfold_time. lia.
Qed.

Lemma norm_borrow_id t : 0 <= scaled_nsecs t -> norm_borrow t = t.
Proof. intros. apply while_false. lia. Qed.

Lemma norm_carry_id t : scaled_nsecs t <= SNS_PER_S -> norm_carry t = t.
Proof. intros. apply while_false. lia. Qed.

Lemma norm_carry_spec t : room_time t -> 0 <= scaled_nsecs t ->
  let t' := norm_carry t in
  tval t' = tval t /\ 0 <= scaled_nsecs t' <= SNS_PER_S /\ secs t <= secs t'.
Proof.
  intros [Hs Hn] Hpos t'.
  set (I u := tval u = tval t /\ 0 <= scaled_nsecs u <= scaled_nsecs t).
  assert (I t' /\ (SNS_PER_S <? scaled_nsecs t') = false) as [(Hv & Hlt) Hex].
  { eapply (while_rule (fun t => SNS_PER_S <? scaled_nsecs t) _ I
              (fun u => scaled_nsecs u / SNS_PER_S)); subst I; cbn beta.
    - intros [us un] (Hv & Hge). rewrite Z.ltb_lt. unfold_time. intros Hlt.
      nowrap. repeat split; try lia; dlia.
    - unfold_time. lia.
    - unfold_time. dlia.
    - unfold norm_fuel; unfold_time. dlia. }
  unfold_time. lia.
Qed.

(** Both loops of [normalize_pp_time]. *)
Lemma norm_loops_spec t : room_time t ->
  let t' := norm_carry (norm_borrow t) in
  tval t' = tval t /\ 0 <= scaled_nsecs t' <= SNS_PER_S /\
  (scaled_nsecs t' < SNS_PER_S \/ secs t <= secs t').
Proof.
  intros Ht. destruct (decide (scaled_nsecs t < 0)) as [Hneg|].
  - destruct (norm_borrow_spec t Ht Hneg) as [Hv Hr]. cbn zeta.
    rewrite norm_carry_id by lia. lia.
  - cbn zeta. rewrite norm_borrow_id by lia.
    destruct (norm_carry_spec t Ht ltac:(lia)) as (? & ? & ?). auto.
Qed.

Lemma time_scale_spec k t : k = 1 \/ k = -1 -> Z.abs (secs t) <= 4611686018427387904 ->
  Z.abs (scaled_nsecs t) <= 4611686018427387904 ->
  time_scale k t = mk_time (k * secs t) (k * scaled_nsecs t).
Proof. intros [-> | ->] ??; unfold time_scale; nowrap; f_equal; lia. Qed.

(** The value is preserved, the nanoseconds are within one second, and a
    time whose two fields do not pull it across zero comes out normal. *)
Lemma normalize_spec t : small_time t ->
  tval (normalize_pp_time t) = tval t /\
  Z.abs (scaled_nsecs (normalize_pp_time t)) <= SNS_PER_S /\
  ((0 < secs t -> 0 <= tval t) -> (secs t < 0 -> tval t <= 0) ->
   normal_time (normalize_pp_time t)).
Proof.
  intros Ht. unfold normalize_pp_time. set (k := norm_sign t).
  assert ((k = 1 /\ (0 < secs t \/ secs t = 0 /\ 0 <= scaled_nsecs t)) \/
          (k = -1 /\ (secs t < 0 \/ secs t = 0 /\ scaled_nsecs t <= 0))) as Hk.
  { subst k; unfold norm_sign. rewrite (small_correct _ Ht). repeat case_match; lia. }
  destruct Ht as [Hs Hn]. rewrite (time_scale_spec k t) by lia.
  set (t1 := mk_time _ _).
  assert (small_time t1) as Ht1 by (unfold small_time; subst t1; cbn; destruct Hk as [[-> _]|[-> _]]; lia).
  destruct (norm_loops_spec t1 (small_room _ Ht1)) as (Hv & Hr & Hstrict).
  set (t2 := norm_carry (norm_borrow t1)) in *. clearbody t2.
  assert (Z.abs (secs t2) <= 4611686018427387904).
  { destruct Ht1. subst t1. unfold_time. lia. }
  rewrite (time_scale_spec k t2) by (unfold_time; lia).
  subst t1. unfold normal_time; unfold_time.
  destruct Hk as [[-> ?]|[-> ?]]; lia.
Qed.

(** ** Addition and subtraction *)

(** Bounds under which the sums of the code stay in [int64_t]: about 36
    billion years of seconds. *)
Definition half_time (t : pp_time) : Prop :=
  Z.abs (secs t) <= 1152921504606846976 /\ Z.abs (scaled_nsecs t) <= 2305843009213693952.

Lemma add_small t1 t2 : half_time t1 -> half_time t2 ->
  small_time (mk_time (i64 (secs t1 + secs t2)) (i64 (scaled_nsecs t1 + scaled_nsecs t2))).
Proof. unfold half_time, small_time. cbn. intros. nowrap. lia. Qed.

Lemma sub_small t1 t2 : half_time t1 -> half_time t2 ->
  small_time (mk_time (i64 (secs t1 - secs t2)) (i64 (scaled_nsecs t1 - scaled_nsecs t2))).
Proof. unfold half_time, small_time. cbn. intros. nowrap. lia. Qed.

Lemma pp_time_add_tval t1 t2 : half_time t1 -> half_time t2 ->
  tval (pp_time_add t1 t2) = tval t1 + tval t2.
Proof.
  intros H1 H2. unfold pp_time_add.
  destruct (normalize_spec _ (add_small _ _ H1 H2)) as (-> & _). destruct H1, H2.
  unfold_time. nowrap. lia.
Qed.

Lemma pp_time_sub_tval t1 t2 : half_time t1 -> half_time t2 ->
  tval (pp_time_sub t1 t2) = tval t1 - tval t2.
Proof.
  intros H1 H2. unfold pp_time_sub.
  destruct (normalize_spec _ (sub_small _ _ H1 H2)) as (-> & _). destruct H1, H2.
  unfold_time. nowrap. lia.
Qed.

Lemma pp_time_add_normal t1 t2 : half_time t1 -> half_time t2 ->
  normal_time t1 -> normal_time t2 -> normal_time (pp_time_add t1 t2).
Proof.
  intros H1 H2 N1 N2. unfold pp_time_add.
  destruct (normalize_spec _ (add_small _ _ H1 H2)) as (_ & _ & Hn).
  unfold normal_time in N1, N2. destruct H1, H2.
  apply Hn; unfold_time; nowrap; lia.
Qed.

Lemma pp_time_sub_normal t1 t2 : half_time t1 -> half_time t2 ->
  normal_time t1 -> normal_time t2 -> normal_time (pp_time_sub t1 t2).
Proof.
  intros H1 H2 N1 N2. unfold pp_time_sub.
  destruct (normalize_spec _ (sub_small _ _ H1 H2)) as (_ & _ & Hn).
  unfold normal_time in N1, N2. destruct H1, H2.
  apply Hn; unfold_time; nowrap; lia.
Qed.

(** ** Intervals and picoseconds *)

(** The range of picoseconds an interval can hold; outside it the code saturates. *)
Definition clamp_picos (p : Z) : Z :=
  Z.max TIME_INTERVAL_MIN_PICOS_VALUE_AS_INT64 (Z.min TIME_INTERVAL_MAX_PICOS_VALUE_AS_INT64 p).

Lemma shiftl16 z : Z.shiftl z 16 = z * 65536.
Proof. by rewrite Z.shiftl_mul_pow2 by lia. Qed.
Lemma shiftr16 z : Z.shiftr z 16 = z / 65536.
Proof. by rewrite Z.shiftr_div_pow2 by lia. Qed.

Lemma picos_to_interval_in_range p :
  TIME_INTERVAL_MIN_PICOS_VALUE_AS_INT64 < p < TIME_INTERVAL_MAX_PICOS_VALUE_AS_INT64 ->
  picos_to_interval p = Z.quot (p * 65536) 1000.
Proof.
  intros Hp. unfold picos_to_interval.
  rewrite (proj2 (Z.leb_gt _ _)) by lia. rewrite (proj2 (Z.leb_gt _ _)) by lia.
  change TIME_INTERVAL_MIN_PICOS_VALUE_AS_INT64 with (-140737488355328000) in Hp.
  change TIME_INTERVAL_MAX_PICOS_VALUE_AS_INT64 with 140737488355327000 in Hp.
  set (a := Z.abs p).
  assert (u64 (i64 (p * (if p <? 0 then -1 else 1))) = a) as ->
    by (subst a; case_match; nowrap; lia).
  rewrite div64_32_spec by lia. unfold_time. rewrite !shiftl16.
  assert (0 <= a mod 1000 < 1000) by dlia.
  assert (a = 1000 * (a / 1000) + a mod 1000) by dlia.
  assert (a / 1000 * 65536 + (a mod 1000 * 65536) / 1000 = a * 65536 / 1000) as Hsum by dlia.
  assert (0 <= (a mod 1000 * 65536) / 1000 <= 65536) by dlia.
  nowrap. rewrite Hsum. assert (0 <= a * 65536 / 1000 < 9223372036854775808) by dlia.
  case_match; nowrap.
  - replace (p * 65536) with (- (a * 65536)) by lia. rewrite Z.quot_opp_l, Z.quot_div_nonneg; lia.
  - replace (p * 65536) with (a * 65536) by lia. rewrite Z.quot_div_nonneg; lia.
Qed.

(** Every [int64_t] number of picoseconds, saturation included. *)
Lemma picos_to_interval_spec p : picos_to_interval p = Z.quot (clamp_picos p * 65536) 1000.
Proof.
  unfold clamp_picos.
  destruct (decide (p <= TIME_INTERVAL_MIN_PICOS_VALUE_AS_INT64)) as [Hlo|].
  { rewrite Z.max_l by (apply Z.min_case_strong; lia). unfold picos_to_interval.
    rewrite (proj2 (Z.leb_le _ _)) by lia. reflexivity. }
  destruct (decide (TIME_INTERVAL_MAX_PICOS_VALUE_AS_INT64 <= p)) as [Hhi|].
  { rewrite Z.min_l by lia. unfold picos_to_interval.
    rewrite (proj2 (Z.leb_gt _ _)) by lia. rewrite (proj2 (Z.leb_le _ _)) by lia. reflexivity. }
  rewrite Z.min_r by lia. rewrite Z.max_r by lia. apply picos_to_interval_in_range. lia.
Qed.

Lemma interval_to_picos_abs i : Z.abs i <= 9000000000000000 ->
  interval_to_picos i = Z.sgn i * ((Z.abs i * 1000 + 32768) / 65536).
Proof.
  intros Hi. unfold interval_to_picos.
  destruct (Z.ltb_spec i 0); unfold_time; rewrite shiftr16.
  - replace (Z.abs i) with (-i) in * by lia. rewrite Z.sgn_neg by lia.
    assert (0 <= (-i * 1000 + 32768) / 65536 < 9223372036854775808) by dlia. nowrap. lia.
  - replace (Z.abs i) with i in * by lia.
    assert (0 <= (i * 1000 + 32768) / 65536 < 9223372036854775808) by dlia. nowrap.
    destruct (decide (i = 0)) as [->|]; [reflexivity|]. rewrite Z.sgn_pos by lia. lia.
Qed.

Lemma interval_picos_inverse p : Z.abs p <= 137000000000000 ->
  interval_to_picos (picos_to_interval p) = p.
Proof.
  intros Hp. rewrite picos_to_interval_in_range.
  2: { change TIME_INTERVAL_MIN_PICOS_VALUE_AS_INT64 with (-140737488355328000).
       change TIME_INTERVAL_MAX_PICOS_VALUE_AS_INT64 with 140737488355327000. lia. }
  rewrite interval_to_picos_abs by dlia.
  destruct (decide (p = 0)) as [->|]; [reflexivity|].
  assert (Z.sgn (Z.quot (p * 65536) 1000) = Z.sgn p) as -> by dlia.
  assert ((Z.abs (Z.quot (p * 65536) 1000) * 1000 + 32768) / 65536 = Z.abs p) as -> by dlia. lia.
Qed.

(** ** Splitting a time for the hardware *)

(** The nanoseconds rounded to picoseconds, and their sign. *)
Definition round_ps (t : pp_time) : Z := (Z.abs (scaled_nsecs t) * 1000 + 32768) / 65536.
Definition ns_sign (t : pp_time) : Z := if scaled_nsecs t <? 0 then -1 else 1.

Lemma hardwarize_value t k : 0 < k < 2147483 -> Z.abs (scaled_nsecs t) <= SNS_PER_S ->
  pp_time_hardwarize t (1000 * k) =
  Some (ns_sign t * (k * (round_ps t / (1000 * k))), ns_sign t * (round_ps t mod (1000 * k))).
Proof.
  intros Hk Hn. unfold pp_time_hardwarize. set (ps := round_ps t).
  rewrite (proj2 (Z.leb_gt _ _)) by lia. fold (ns_sign t). set (sgn := ns_sign t).
  assert (sgn = 1 \/ sgn = -1) as Hsgn by (subst sgn; unfold ns_sign; case_match; auto).
  assert (u64 (i64 (scaled_nsecs t * sgn)) = Z.abs (scaled_nsecs t)) as ->
    by (subst sgn; unfold ns_sign; unfold_time; case_match; nowrap; lia).
  assert (0 <= ps <= 1000000000000) by (subst ps; unfold round_ps; unfold_time; dlia).
  unfold_time. rewrite shiftr16.
  assert (ps = (Z.abs (scaled_nsecs t) * 1000 + 32768) / 65536) as Hps by done.
  set (a := Z.abs (scaled_nsecs t)) in *. assert (0 <= a) by lia.
  nowrap. rewrite <- Hps. rewrite (div64_32_spec ps) by lia. cbn [fst].
  rewrite (Z.mod_eq ps (1000 * k)) by lia. set (q := ps / (1000 * k)).
  assert (1000 * k * q <= ps < 1000 * k * q + 1000 * k) as Hq by (subst q; dnia).
  assert (0 <= q) by (subst q; apply Z.div_pos; lia).
  clearbody q. rewrite (u64_id (q * (1000 * k))) by nia.
  rewrite div64_32_spec by nia. cbn [fst].
  replace (q * (1000 * k) / 1000) with (q * k) by (replace (q * (1000 * k)) with (q * k * 1000) by lia; by rewrite Z.div_mul).
  assert (0 <= q * k <= 1000000000) by nia.
  rewrite (u64_id (ps - _)) by nia. rewrite (i32_id (ps - _)) by nia.
  rewrite (i32_id (q * k)) by nia.
  destruct Hsgn as [-> | ->]; rewrite !(i32_id (_ * _)) by nia; do 2 f_equal; lia.
Qed.

Lemma hardwarize_split t k : 0 < k < 2147483 -> Z.abs (scaled_nsecs t) <= SNS_PER_S ->
  let ps := (Z.abs (scaled_nsecs t) * 1000 + 32768) / 65536 in
  exists ticks picos, pp_time_hardwarize t (1000 * k) = Some (ticks, picos) /\
    1000 * ticks + picos = (if scaled_nsecs t <? 0 then - ps else ps) /\
    Z.abs picos < 1000 * k /\ ticks mod k = 0.
Proof.
  intros Hk Hn ps. rewrite hardwarize_value by done. eexists _, _. split; [reflexivity|].
  change (round_ps t) with ps. pose proof (Z.mod_pos_bound ps (1000 * k) ltac:(lia)).
  pose proof (Z.div_mod ps (1000 * k) ltac:(lia)). unfold ns_sign. case_match; repeat split; try lia.
  - replace (-1 * (k * (ps / (1000 * k)))) with (- (ps / (1000 * k)) * k) by lia. apply Z.mod_mul. lia.
  - replace (1 * (k * (ps / (1000 * k)))) with (ps / (1000 * k) * k) by lia. apply Z.mod_mul. lia.
Qed.

(** A time below one second, in picoseconds. *)
Lemma to_picos_small t : secs t = 0 -> Z.abs (scaled_nsecs t) <= SNS_PER_S ->
  pp_time_to_picos t = ns_sign t * round_ps t.
Proof.
  intros Hs Hn. unfold pp_time_to_picos, ns_sign, round_ps. rewrite Hs. cbn [Z.ltb Z.compare Z.eqb andb orb].
  destruct (Z.ltb_spec (scaled_nsecs t) 0); unfold_time; rewrite ?Hs; change (i64 (- 0)) with 0; rewrite shiftr16; nowrap;
    rewrite Z.mul_0_l, Z.add_0_l, u64_id, i64_id by dlia; [rewrite Z.abs_neq by lia|rewrite Z.abs_eq by lia]; done.
Qed.

(** ** Incorrect timestamps *)

Lemma mark_incorrect_secs t : 0 <= secs t < 72057594037927936 ->
  mark_incorrect t = mk_time (secs t - 8142508126285856768) (scaled_nsecs t).
Proof.
  intros Hs. change (mark_incorrect t) with
    (mk_time (Z.lor (Z.land (secs t) (Z.ones 62)) (Z.shiftl (-113) 56)) (scaled_nsecs t)).
  f_equal.
  rewrite Z.land_ones by lia. rewrite Z.mod_small by (change (2 ^ 62) with 4611686018427387904; lia).
  assert (Z.land (secs t) (Z.shiftl (-113) 56) = 0) as Hd.
  { apply Z.bits_inj'. intros n Hn. rewrite Z.land_spec, Z.bits_0.
    destruct (decide (n < 56)).
    - rewrite (Z.shiftl_spec_low _ 56 n) by lia. apply andb_false_r.
    - destruct (decide (secs t = 0)) as [->|]; [by rewrite Z.bits_0|].
      rewrite Z.bits_above_log2; [done|lia|]. apply Z.log2_lt_pow2; [lia|].
      pose proof (Z.pow_le_mono_r 2 56 n ltac:(lia) ltac:(lia)).
      change (2 ^ 56) with 72057594037927936 in *. lia. }
  rewrite <- Z.lxor_lor, <- Z.add_nocarry_lxor by done. reflexivity.
Qed.

(** A time is marked when its seconds are far below any value the code computes. *)
Definition marked (t : pp_time) : Prop :=
  -9223372036854000000 <= secs t <= -5000000000000000000.

Lemma marked_incorrect t : marked t -> is_incorrect t = true.
Proof. unfold marked. intros. rewrite is_incorrect_ltb by lia. lia. Qed.

Lemma normalize_marked t : marked t -> Z.abs (scaled_nsecs t) <= 4611686018427387904 ->
  tval (normalize_pp_time t) = tval t /\ Z.abs (scaled_nsecs (normalize_pp_time t)) <= SNS_PER_S.
Proof.
  intros Hm Hn. unfold normalize_pp_time.
  assert (norm_sign t = 1) as ->.
  { unfold norm_sign. rewrite (marked_incorrect _ Hm). unfold marked in Hm.
    destruct (Z.eqb_spec (secs t) 0); [lia|]. by rewrite andb_false_r. }
  unfold marked in Hm.
  assert (time_scale 1 t = t) as -> by (destruct t; unfold time_scale; cbn in *; nowrap; f_equal; lia).
  destruct (norm_loops_spec t ltac:(unfold room_time; lia)) as (Hv & Hr & _).
  set (t2 := norm_carry (norm_borrow t)) in *. clearbody t2. unfold time_scale.
  unfold_time. nowrap. lia.
Qed.

(** Adding or subtracting an interval keeps a marked time marked. *)
Lemma add_interval_marked t i : 0 <= secs t < 72057594037927936 ->
  Z.abs (scaled_nsecs t) <= SNS_PER_S -> Z.abs i <= 4000000000000000000 ->
  is_incorrect (pp_time_add_interval (mark_incorrect t) i) = true /\
  is_incorrect (pp_time_sub_interval (mark_incorrect t) i) = true.
Proof.
  intros Hs Hn Hi. rewrite mark_incorrect_secs by done.
  unfold pp_time_add_interval, pp_time_sub_interval, pp_time_add, pp_time_sub.
  destruct (normalize_spec (mk_time 0 i)) as (Hv & Ha & _); [unfold small_time; cbn; lia|].
  set (d := normalize_pp_time (mk_time 0 i)) in *. clearbody d. cbn [secs scaled_nsecs].
  assert (Z.abs (secs d) < 1000000) by (unfold_time; lia).
  split; apply marked_incorrect.
  - destruct (normalize_marked (mk_time (i64 (secs t - 8142508126285856768 + secs d))
      (i64 (scaled_nsecs t + scaled_nsecs d)))) as (Hv1 & Ha1);
      unfold marked; unfold_time; nowrap; try lia. revert Hv1 Ha1. nowrap. lia.
  - destruct (normalize_marked (mk_time (i64 (secs t - 8142508126285856768 - secs d))
      (i64 (scaled_nsecs t - scaled_nsecs d)))) as (Hv1 & Ha1);
      unfold marked; unfold_time; nowrap; try lia. revert Hv1 Ha1. nowrap. lia.
Qed.

Lemma land_pow2_testbit m i : 0 <= i -> negb (Z.land (2 ^ i) m =? 0) = Z.testbit m i.
Proof.
  intros Hi. destruct (Z.testbit m i) eqn:E.
  - apply negb_true_iff, Z.eqb_neq. intros H.
    assert (Z.testbit (Z.land (2 ^ i) m) i = true) as Hb
      by (rewrite Z.land_spec, Z.pow2_bits_true, E by lia; done).
    by rewrite H, Z.bits_0 in Hb.
  - apply negb_false_iff, Z.eqb_eq. apply Z.bits_inj'. intros n Hn.
    rewrite Z.land_spec, Z.bits_0. destruct (decide (n = i)) as [->|].
    + by rewrite E, andb_false_r.
    + by rewrite Z.pow2_bits_false by lia.
Qed.

Lemma clear_bit_testbit m i k : 0 <= i < k ->
  Z.testbit (Z.land m (Z.lnot (2 ^ i))) k = Z.testbit m k.
Proof.
  intros. rewrite Z.land_spec, Z.lnot_spec, Z.pow2_bits_false by lia. apply andb_true_r.
Qed.

(** The [k]-th stamp, when the mask selects it, is correct. *)
Definition stamp_ok (m i : Z) (ts : list pp_time) (k : nat) : Prop :=
  forall t, ts !! k = Some t -> Z.testbit m (i + Z.of_nat k) = true -> is_incorrect t = false.

Lemma ts_incorrect_from_spec ts : forall i m, 0 <= i ->
  let r := ts_incorrect_from i (2 ^ i) m ts in
  (r = 0 /\ forall k, stamp_ok m i ts k) \/
  (exists k, r = i + Z.of_nat k + 1 /\ ~ stamp_ok m i ts k /\ (k < length ts)%nat /\
     forall k', (k' < k)%nat -> stamp_ok m i ts k').
Proof.
  induction ts as [|t ts IH]; intros i m Hi; cbn [ts_incorrect_from].
  { left. split; [done|]. intros k t Hk. by rewrite lookup_nil in Hk. }
  destruct (Z.eqb_spec m 0) as [->|Hm].
  { left. split; [done|]. intros k t' _. by rewrite Z.bits_0. }
  rewrite land_pow2_testbit by lia. destruct (Z.testbit m i) eqn:Eb; cbn [andb];
    destruct (is_incorrect t) eqn:Et.
  { right. exists 0%nat. cbn. repeat split; try lia.
    intros H. specialize (H t eq_refl). rewrite Z.add_0_r in H. rewrite H in Et; done. }
  all: rewrite Z.shiftl_mul_pow2, Z.pow_1_r by lia;
    replace (2 ^ i * 2) with (2 ^ (i + 1)) by (rewrite Z.pow_add_r; lia);
    assert (forall k, stamp_ok (Z.land m (Z.lnot (2 ^ i))) (i + 1) ts k <->
              stamp_ok m i (t :: ts) (S k)) as Hk by
    (intros k; unfold stamp_ok; cbn;
     replace (i + Z.of_nat (S k)) with (i + 1 + Z.of_nat k) by lia;
     rewrite clear_bit_testbit by lia; done);
    assert (stamp_ok m i (t :: ts) 0) as H0 by
    (intros t'; cbn; rewrite Z.add_0_r; intros [= <-]; congruence);
    destruct (IH (i + 1) (Z.land m (Z.lnot (2 ^ i))) ltac:(lia)) as [[-> H]|(k & -> & Hn & Hl & Hlt)];
    [left; split; [done|]; intros [|k]; [done|]; by apply Hk
    |right; exists (S k); repeat split; [lia|by rewrite <- Hk|cbn; lia|]; intros [|k'] ?;
       [done|apply Hk, Hlt; lia]].
Qed.

(** ** Properties *)

(** [normalize_pp_time] terminates and preserves the exact value of every time in range;
    the nanoseconds it leaves are at most one second, and both fields carry the sign of the
    value unless the nanoseconds outweighed the seconds. *)
Theorem normalize_correct t : small_time t ->
  tval (normalize_pp_time t) = tval t /\
  Z.abs (scaled_nsecs (normalize_pp_time t)) <= SNS_PER_S /\
  ((0 < secs t -> 0 <= tval t) -> (secs t < 0 -> tval t <= 0) ->
   normal_time (normalize_pp_time t)).
Proof. apply normalize_spec. Qed.

Lemma normalize_correct_witness :
  tval (normalize_pp_time (mk_time 3 (-70000000000000))) = 126608000000000.
Proof.
  destruct (normalize_correct (mk_time 3 (-70000000000000))) as [-> _];
    [unfold small_time; cbn; lia|reflexivity].
Defined.

(** [pp_time_add] and [pp_time_sub] are exact on the values, and keep times normal, so
    that adding a time and subtracting it again gives back the first one's value. *)
Theorem time_add_sub_correct t1 t2 :
  half_time t1 -> half_time t2 -> normal_time t1 -> normal_time t2 ->
  tval (pp_time_add t1 t2) = tval t1 + tval t2 /\ normal_time (pp_time_add t1 t2) /\
  tval (pp_time_sub t1 t2) = tval t1 - tval t2 /\ normal_time (pp_time_sub t1 t2).
Proof.
  intros H1 H2 N1 N2. split; [by apply pp_time_add_tval|].
  split; [by apply pp_time_add_normal|]. split; [by apply pp_time_sub_tval|].
  by apply pp_time_sub_normal.
Qed.

Lemma time_add_sub_correct_witness :
  tval (pp_time_add (mk_time 1 65535999999999) (mk_time (-2) (-5))) = -6.
Proof.
  destruct (time_add_sub_correct (mk_time 1 65535999999999) (mk_time (-2) (-5)))
    as [-> _]; unfold half_time, normal_time; unfold_time; lia.
Defined.

(** A timestamp marked as incorrect by the network layer is still recognised by
    [is_incorrect] after a correction was added or subtracted, while no time of the range
    the arithmetic is exact on is mistaken for an incorrect one. *)
Theorem incorrect_mark_persists t i :
  0 <= secs t < 72057594037927936 -> Z.abs (scaled_nsecs t) <= SNS_PER_S ->
  Z.abs i <= 4000000000000000000 ->
  is_incorrect t = false /\ is_incorrect (mark_incorrect t) = true /\
  is_incorrect (pp_time_add_interval (mark_incorrect t) i) = true /\
  is_incorrect (pp_time_sub_interval (mark_incorrect t) i) = true.
Proof.
  intros Hs Hn Hi. split; [|split; [|by apply add_interval_marked]].
  - rewrite is_incorrect_ltb; lia.
  - rewrite mark_incorrect_secs by done. apply marked_incorrect. unfold marked; cbn. lia.
Qed.

Lemma incorrect_mark_persists_witness :
  is_incorrect (pp_time_add_interval (mark_incorrect (mk_time 1600000000 5)) (-7)) = true.
Proof.
  apply (incorrect_mark_persists (mk_time 1600000000 5) (-7));
    cbn -[SNS_PER_S]; unfold_time; lia.
Defined.

(** [picos_to_interval] is the truncated scaling by 2^16/1000 of the picoseconds,
    saturated to the range of a TimeInterval, and [interval_to_picos] recovers the
    picoseconds exactly (137 seconds and below, where its own product fits [int64_t]). *)
Theorem interval_picos_roundtrip p :
  picos_to_interval p = Z.quot (clamp_picos p * 65536) 1000 /\
  (Z.abs p <= 137000000000000 -> interval_to_picos (picos_to_interval p) = p).
Proof. split; [apply picos_to_interval_spec|apply interval_picos_inverse]. Qed.

Lemma interval_picos_roundtrip_witness :
  interval_to_picos (picos_to_interval (-12345678912345)) = -12345678912345.
Proof. apply (interval_picos_roundtrip (-12345678912345)). lia. Defined.

(** For a clock period that is a whole number of nanoseconds, [pp_time_hardwarize] splits
    the nanoseconds, rounded to the picosecond, without loss into the hardware ticks (a
    multiple of the period) and a rest below one period; a period that is not positive takes
    the error path. *)
Theorem hardwarize_correct t k : 0 < k < 2147483 -> Z.abs (scaled_nsecs t) <= SNS_PER_S ->
  let ps := (Z.abs (scaled_nsecs t) * 1000 + 32768) / 65536 in
  pp_time_hardwarize t (- k) = None /\
  exists ticks picos, pp_time_hardwarize t (1000 * k) = Some (ticks, picos) /\
    1000 * ticks + picos = (if scaled_nsecs t <? 0 then - ps else ps) /\
    Z.abs picos < 1000 * k /\ ticks mod k = 0.
Proof.
  intros Hk Hn. split; [|by apply hardwarize_split].
  unfold pp_time_hardwarize. by rewrite (proj2 (Z.leb_le _ _)) by lia.
Qed.

Lemma hardwarize_correct_witness :
  exists ticks picos, pp_time_hardwarize (mk_time 0 (-1000000)) 8000 = Some (ticks, picos) /\
    1000 * ticks + picos = -15259 /\ Z.abs picos < 8000 /\ ticks mod 8 = 0.
Proof.
  apply (hardwarize_correct (mk_time 0 (-1000000)) 8); cbn -[SNS_PER_S]; unfold_time; lia.
Defined.

(** [is_timestamp_incorrect] returns 0 exactly when every timestamp among t1..t6 that the
    mask selects is correct, and otherwise the number of the first incorrect one; the
    threshold variant then counts the error and otherwise resets its counter. *)
Theorem is_timestamp_incorrect_correct ts m err_count : length ts = 6%nat ->
  (is_timestamp_incorrect ts m = 0 /\ (forall k, stamp_ok m 0 ts k) /\
   is_timestamp_incorrect_thres ts err_count m = (0, 0)) \/
  (exists k, is_timestamp_incorrect ts m = Z.of_nat k + 1 /\ (k < 6)%nat /\
     ~ stamp_ok m 0 ts k /\ (forall k', (k' < k)%nat -> stamp_ok m 0 ts k') /\
     is_timestamp_incorrect_thres ts err_count m = (1, i32 (err_count + 1))).
Proof.
  intros Hl. unfold is_timestamp_incorrect_thres, is_timestamp_incorrect.
  rewrite take_ge by lia.
  destruct (ts_incorrect_from_spec ts 0 m ltac:(lia)) as [[H0 H]|(k & Hk & Hn & Hlen & Hlt)].
  - left. change (2 ^ 0) with 1 in H0. rewrite H0. done.
  - right. exists k. change (2 ^ 0) with 1 in Hk. rewrite Hk.
    rewrite (proj2 (Z.eqb_neq _ _)) by lia. rewrite Hl in Hlen.
    repeat split; (done || lia).
Qed.

Lemma is_timestamp_incorrect_correct_witness :
  let ts := [mk_time 1 0; mark_incorrect (mk_time 2 0); mk_time 3 0; mk_time 0 0;
             mark_incorrect (mk_time 4 0); mk_time 0 0] in
  is_timestamp_incorrect ts 0x1e = 2 /\
  ((is_timestamp_incorrect ts 0x1e = 0 /\ (forall k, stamp_ok 0x1e 0 ts k) /\
    is_timestamp_incorrect_thres ts 3 0x1e = (0, 0)) \/
   (exists k, is_timestamp_incorrect ts 0x1e = Z.of_nat k + 1 /\ (k < 6)%nat /\
     ~ stamp_ok 0x1e 0 ts k /\ (forall k', (k' < k)%nat -> stamp_ok 0x1e 0 ts k') /\
     is_timestamp_incorrect_thres ts 3 0x1e = (1, i32 (3 + 1)))).
Proof.
  split; [vm_compute; reflexivity|].
  apply is_timestamp_incorrect_correct. reflexivity.
Defined.

(** The defects of this component, on concrete inputs. *)

(** One second worth of nanoseconds is not carried into the seconds. *)
Example normalize_keeps_full_second :
  normalize_pp_time (mk_time 4 SNS_PER_S) = mk_time 4 SNS_PER_S.
Proof. vm_compute. reflexivity. Qed.

(** Half of minus one second is computed as minus one second and a half. *)
Example div2_negative_odd : tval (pp_time_div2 (mk_time (-1) 0)) = -3 * SNS_PER_S / 2.
Proof. vm_compute. reflexivity. Qed.

(** The rounding constant added before the division by 1000 is half of 2^16, not of 1000. *)
Example picos_roundtrip_off_by_one : pp_time_to_picos (picos_to_pp_time 62) = 63.
Proof. vm_compute. reflexivity. Qed.
