(* ===== verification/Types.v ===== *)
(** * Data sets, instances and the state monad

    The records of include/ppsi/ieee1588_types.h and include/ppsi/pp-instance.h
    with the fields the protocol code uses, the configuration switches and the
    platform operations the code is parametric in, and the state monad in
    which every handler is written.

    A [Boolean] of the C code is an [uint8_t] and stays a [Z] (the code stores
    -1 in some of them); [truth] is the C test.  Buffers are lists of bytes. *)

From S2P Require Import Prelude TimeArith.

Definition truth (z : Z) : bool := negb (z =? 0).
Definition of_bool (b : bool) : Z := if b then 1 else 0.

(** ** Constants *)

Definition PPS_END_OF_TABLE : Z := 0.
Definition PPS_INITIALIZING : Z := 1.
Definition PPS_FAULTY : Z := 2.
Definition PPS_DISABLED : Z := 3.
Definition PPS_LISTENING : Z := 4.
Definition PPS_PRE_MASTER : Z := 5.
Definition PPS_MASTER : Z := 6.
Definition PPS_PASSIVE : Z := 7.
Definition PPS_UNCALIBRATED : Z := 8.
Definition PPS_SLAVE : Z := 9.
(** Built without CONFIG_ABSCAL. *)
Definition PPS_LAST_STATE : Z := 10.

Definition PPM_SYNC : Z := 0.
Definition PPM_DELAY_REQ : Z := 1.
Definition PPM_PDELAY_REQ : Z := 2.
Definition PPM_PDELAY_RESP : Z := 3.
Definition PPM_FOLLOW_UP : Z := 8.
Definition PPM_DELAY_RESP : Z := 9.
Definition PPM_PDELAY_R_FUP : Z := 10.
Definition PPM_ANNOUNCE : Z := 11.
Definition PPM_SIGNALING : Z := 12.
Definition PPM_MANAGEMENT : Z := 13.
Definition PP_NR_MESSAGES_TYPES : Z := 14.
Definition PPM_NO_MESSAGE : Z := 15.

(** Indices of the timeout counters. *)
Definition PP_TO_REQUEST : nat := 0.
Definition PP_TO_SYNC_SEND : nat := 1.
Definition PP_TO_BMC : nat := 2.
Definition PP_TO_ANN_RECEIPT : nat := 3.
Definition PP_TO_ANN_SEND : nat := 4.
Definition PP_TO_QUALIFICATION : nat := 5.
Definition PP_TO_PROT_STATE : nat := 6.
Definition PP_TO_IN_STATE : nat := 7.
Definition PP_TO_GM_BY_BMCA : nat := 8.
Definition PP_TO_L1E_TX_SYNC : nat := 9.
Definition PP_TO_L1E_RX_SYNC : nat := 10.
Definition PP_TO_WR_EXT_0 : nat := 11.

Definition PPSI_PROTO_RAW : Z := 0.
Definition PPSI_PROTO_UDP : Z := 1.
Definition PPSI_PROTO_VLAN : Z := 2.
Definition MECH_E2E : Z := 1.
Definition MECH_P2P : Z := 2.

Definition PP_SEND_OK : Z := 0.
Definition PP_SEND_ERROR : Z := -1.
Definition PP_SEND_NO_STAMP : Z := 1.
Definition PP_SEND_DROP : Z := -2.

Definition PP_NP_GEN : Z := 0.
Definition PP_NP_EVT : Z := 1.

Definition PP_CLASS_SLAVE_ONLY : Z := 255.
Definition PP_CLASS_DEFAULT : Z := 248.
Definition PP_PTP_CLASS_GM_LOCKED : Z := 6.
Definition PP_DEFAULT_UTC_OFFSET : Z := 37.
Definition TIME_SRC_INTERNAL_OSCILLATOR : Z := 0xA0.
Definition PP_ALTERNATE_MASTER_FLAG : Z := 1.
Definition PP_TWO_STEP_FLAG : Z := 2.
Definition PP_DEFAULT_NEXT_DELAY_MS : Z := 1000.
Definition PP_FOREIGN_MASTER_TIME_WINDOW : Z := 4.
Definition PP_FLAG_NO_ADJUST : Z := 1.
Definition PPI_FLAG_WAITING_FOR_F_UP : Z := 2.
Definition PPI_FLAG_WAITING_FOR_RF_UP : Z := 4.
Definition PPI_FLAGS_WAITING : Z := 6.

(** [pp_pdstate_t] and [pp_exstate_t]. *)
Inductive pp_pdstate_t :=
  | PP_PDSTATE_NONE | PP_PDSTATE_WAIT_MSG | PP_PDSTATE_PDETECTION
  | PP_PDSTATE_PDETECTED | PP_PDSTATE_FAILURE.
#[export] Instance pp_pdstate_eq_dec : EqDecision pp_pdstate_t.
Proof. solve_decision. Defined.

Inductive pp_exstate_t := PP_EXSTATE_DISABLE | PP_EXSTATE_ACTIVE | PP_EXSTATE_PTP.
#[export] Instance pp_exstate_eq_dec : EqDecision pp_exstate_t.
Proof. solve_decision. Defined.

(** The extension an instance was set up with selects its hooks. *)
Inductive pp_extension := PPSI_EXT_NONE | PPSI_EXT_WR | PPSI_EXT_L1S.
#[export] Instance pp_extension_eq_dec : EqDecision pp_extension.
Proof. solve_decision. Defined.

(** ** Identities and data sets *)

(** [ClockIdentity]: eight bytes. *)
Abbreviation ClockIdentity := (list Z).
Definition zero_id : ClockIdentity := replicate 8 0.

Record PortIdentity := mk_pid { clockIdentity : ClockIdentity; portNumber : Z }.
#[export] Instance eta_PortIdentity : Eta PortIdentity :=
  fun p => mk_pid (clockIdentity p) (portNumber p).
#[export] Instance PortIdentity_eq_dec : EqDecision PortIdentity.
Proof. solve_decision. Defined.

Record ClockQuality := mk_cq {
  clockClass : Z; clockAccuracy : Z; offsetScaledLogVariance : Z }.
#[export] Instance eta_ClockQuality : Eta ClockQuality :=
  fun q => mk_cq (clockClass q) (clockAccuracy q) (offsetScaledLogVariance q).
#[export] Instance ClockQuality_eq_dec : EqDecision ClockQuality.
Proof. solve_decision. Defined.

Record MsgHeader := mk_hdr {
  h_transportSpecific : Z; h_messageType : Z; h_versionPTP : Z; h_messageLength : Z;
  h_domainNumber : Z; h_flagField : list Z; h_cField : pp_time;
  h_sourcePortIdentity : PortIdentity; h_sequenceId : Z; h_logMessageInterval : Z }.
#[export] Instance eta_MsgHeader : Eta MsgHeader := fun h =>
  mk_hdr (h_transportSpecific h) (h_messageType h) (h_versionPTP h) (h_messageLength h)
    (h_domainNumber h) (h_flagField h) (h_cField h) (h_sourcePortIdentity h)
    (h_sequenceId h) (h_logMessageInterval h).

Record MsgAnnounce := mk_ann {
  ann_originTimestamp : pp_time; ann_currentUtcOffset : Z; ann_grandmasterPriority1 : Z;
  ann_grandmasterClockQuality : ClockQuality; ann_grandmasterPriority2 : Z;
  ann_grandmasterIdentity : ClockIdentity; ann_stepsRemoved : Z; ann_timeSource : Z;
  ann_ext_specific : list Z }.
#[export] Instance eta_MsgAnnounce : Eta MsgAnnounce := fun a =>
  mk_ann (ann_originTimestamp a) (ann_currentUtcOffset a) (ann_grandmasterPriority1 a)
    (ann_grandmasterClockQuality a) (ann_grandmasterPriority2 a) (ann_grandmasterIdentity a)
    (ann_stepsRemoved a) (ann_timeSource a) (ann_ext_specific a).

Record defaultDS_t := mk_defaultDS {
  def_clockIdentity : ClockIdentity; def_numberPorts : Z; def_clockQuality : ClockQuality;
  def_priority1 : Z; def_priority2 : Z; def_domainNumber : Z; def_slaveOnly : Z;
  def_externalPortConfigurationEnabled : Z }.
#[export] Instance eta_defaultDS : Eta defaultDS_t := fun d =>
  mk_defaultDS (def_clockIdentity d) (def_numberPorts d) (def_clockQuality d) (def_priority1 d)
    (def_priority2 d) (def_domainNumber d) (def_slaveOnly d)
    (def_externalPortConfigurationEnabled d).

Record currentDS_t := mk_currentDS {
  cur_stepsRemoved : Z; cur_offsetFromMaster : Z; cur_meanDelay : Z }.
#[export] Instance eta_currentDS : Eta currentDS_t := fun c =>
  mk_currentDS (cur_stepsRemoved c) (cur_offsetFromMaster c) (cur_meanDelay c).

Record parentDS_t := mk_parentDS {
  par_parentPortIdentity : PortIdentity;
  par_observedParentOffsetScaledLogVariance : Z;
  par_observedParentClockPhaseChangeRate : Z;
  par_grandmasterIdentity : ClockIdentity; par_grandmasterClockQuality : ClockQuality;
  par_grandmasterPriority1 : Z; par_grandmasterPriority2 : Z;
  par_newGrandmaster : Z }.
#[export] Instance eta_parentDS : Eta parentDS_t := fun p =>
  mk_parentDS (par_parentPortIdentity p) (par_observedParentOffsetScaledLogVariance p)
    (par_observedParentClockPhaseChangeRate p) (par_grandmasterIdentity p)
    (par_grandmasterClockQuality p) (par_grandmasterPriority1 p) (par_grandmasterPriority2 p)
    (par_newGrandmaster p).
Definition zero_parentDS : parentDS_t :=
  mk_parentDS (mk_pid zero_id 0) 0 0 zero_id (mk_cq 0 0 0) 0 0 0.

Record timePropertiesDS_t := mk_timePropertiesDS {
  currentUtcOffset : Z; currentUtcOffsetValid : Z; leap59 : Z; leap61 : Z;
  timeTraceable : Z; frequencyTraceable : Z; ptpTimescale : Z; timeSource : Z }.
#[export] Instance eta_timePropertiesDS : Eta timePropertiesDS_t := fun p =>
  mk_timePropertiesDS (currentUtcOffset p) (currentUtcOffsetValid p) (leap59 p) (leap61 p)
    (timeTraceable p) (frequencyTraceable p) (ptpTimescale p) (timeSource p).

Record portDS_t := mk_portDS {
  portIdentity : PortIdentity; logMinDelayReqInterval : Z; logAnnounceInterval : Z;
  announceReceiptTimeout : Z; logSyncInterval : Z; versionNumber : Z;
  logMinPdelayReqInterval : Z; minorVersionNumber : Z; delayAsymmetry : Z;
  meanLinkDelay : Z; masterOnly : Z; delayAsymCoeff : Z }.
#[export] Instance eta_portDS : Eta portDS_t := fun p =>
  mk_portDS (portIdentity p) (logMinDelayReqInterval p) (logAnnounceInterval p)
    (announceReceiptTimeout p) (logSyncInterval p) (versionNumber p)
    (logMinPdelayReqInterval p) (minorVersionNumber p) (delayAsymmetry p)
    (meanLinkDelay p) (masterOnly p) (delayAsymCoeff p).

(** [struct pp_runtime_opts]. *)
Record pp_runtime_opts := mk_opts {
  opt_clockClass : Z; opt_clockAccuracy : Z; opt_offsetScaledLogVariance : Z;
  opt_timeSource : Z; opt_ptpTimeScale : Z; opt_frequencyTraceable : Z;
  opt_timeTraceable : Z; opt_flags : Z; opt_ap : Z; opt_ai : Z; opt_s : Z;
  opt_priority1 : Z; opt_priority2 : Z; opt_domainNumber : Z; opt_ptpPpsThresholdMs : Z;
  opt_gmDelayToGenPpsSec : Z; opt_externalPortConfigurationEnabled : Z; opt_slaveOnly : Z;
  opt_forcePpsGen : Z; opt_ptpFallbackPpsGen : Z }.
#[export] Instance eta_opts : Eta pp_runtime_opts := fun o =>
  mk_opts (opt_clockClass o) (opt_clockAccuracy o) (opt_offsetScaledLogVariance o)
    (opt_timeSource o) (opt_ptpTimeScale o) (opt_frequencyTraceable o) (opt_timeTraceable o)
    (opt_flags o) (opt_ap o) (opt_ai o) (opt_s o) (opt_priority1 o) (opt_priority2 o)
    (opt_domainNumber o) (opt_ptpPpsThresholdMs o) (opt_gmDelayToGenPpsSec o)
    (opt_externalPortConfigurationEnabled o) (opt_slaveOnly o) (opt_forcePpsGen o)
    (opt_ptpFallbackPpsGen o).

(** [struct pp_frgn_master]. *)
Record pp_frgn_master := mk_frgn {
  fm_sequenceId : Z; fm_stepsRemoved : Z; fm_currentUtcOffset : Z;
  fm_receivePortIdentity : PortIdentity; fm_sourcePortIdentity : PortIdentity;
  fm_grandmasterClockQuality : ClockQuality; fm_grandmasterIdentity : ClockIdentity;
  fm_grandmasterPriority1 : Z; fm_grandmasterPriority2 : Z; fm_timeSource : Z;
  fm_flagField : list Z; fm_qualified : Z; fm_lastAnnounceMsgMs : Z;
  fm_ext_specific : list Z; fm_peer_mac : list Z }.
#[export] Instance eta_frgn : Eta pp_frgn_master := fun f =>
  mk_frgn (fm_sequenceId f) (fm_stepsRemoved f) (fm_currentUtcOffset f)
    (fm_receivePortIdentity f) (fm_sourcePortIdentity f) (fm_grandmasterClockQuality f)
    (fm_grandmasterIdentity f) (fm_grandmasterPriority1 f) (fm_grandmasterPriority2 f)
    (fm_timeSource f) (fm_flagField f) (fm_qualified f) (fm_lastAnnounceMsgMs f)
    (fm_ext_specific f) (fm_peer_mac f).

(** All bytes zero: [memset], and the static [empty_frn_master]. *)
Definition empty_frgn : pp_frgn_master :=
  mk_frgn 0 0 0 (mk_pid zero_id 0) (mk_pid zero_id 0) (mk_cq 0 0 0) zero_id 0 0 0
    [0; 0] 0 0 (replicate 4 0) (replicate 6 0).

Record pp_avg_fltr := mk_fltr { flt_m : Z; flt_y : Z; flt_s_exp : Z }.
#[export] Instance eta_fltr : Eta pp_avg_fltr := fun f => mk_fltr (flt_m f) (flt_y f) (flt_s_exp f).

(** [struct pp_servo]; the name string is diagnostics only. *)
Record pp_servo := mk_servo {
  obs_drift : Z; mpd_fltr : pp_avg_fltr;
  delayMM : pp_time; delayMS : pp_time; meanDelay : pp_time; offsetFromMaster : pp_time;
  srv_flags : Z;
  srv_state : Z; servo_locked : Z; got_sync : Z; update_count : Z; update_time : pp_time;
  srv_t1 : pp_time; srv_t2 : pp_time; srv_t3 : pp_time; srv_t4 : pp_time; srv_t5 : pp_time;
  srv_t6 : pp_time }.
#[export] Instance eta_servo : Eta pp_servo := fun s =>
  mk_servo (obs_drift s) (mpd_fltr s) (delayMM s) (delayMS s) (meanDelay s)
    (offsetFromMaster s) (srv_flags s) (srv_state s) (servo_locked s) (got_sync s)
    (update_count s) (update_time s) (srv_t1 s) (srv_t2 s) (srv_t3 s) (srv_t4 s) (srv_t5 s)
    (srv_t6 s).

(** [timeOutInstCnt_t]. *)
Inductive to_rand_t := TO_RAND_NONE | TO_RAND_70_130 | TO_RAND_0_200.
#[export] Instance to_rand_eq_dec : EqDecision to_rand_t.
Proof. solve_decision. Defined.
Record timeOutInstCnt_t := mk_tmo { which_rand : to_rand_t; initValueMs : Z; tmo : Z }.
#[export] Instance eta_tmo : Eta timeOutInstCnt_t := fun t =>
  mk_tmo (which_rand t) (initValueMs t) (tmo t).
Definition zero_tmo : timeOutInstCnt_t := mk_tmo TO_RAND_NONE 0 0.

(** The fields of [struct pp_instance_cfg] the protocol reads. *)
Record pp_instance_cfg := mk_cfg {
  cfg_announce_interval : Z; cfg_announce_receipt_timeout : Z; cfg_sync_interval : Z;
  cfg_min_delay_req_interval : Z; cfg_min_pdelay_req_interval : Z;
  cfg_desiredState : Z; cfg_iface_name : list Z;
  cfg_l1syncInterval : Z; cfg_l1syncReceiptTimeout : Z }.
#[export] Instance eta_cfg : Eta pp_instance_cfg := fun c =>
  mk_cfg (cfg_announce_interval c) (cfg_announce_receipt_timeout c) (cfg_sync_interval c)
    (cfg_min_delay_req_interval c) (cfg_min_pdelay_req_interval c) (cfg_desiredState c)
    (cfg_iface_name c) (cfg_l1syncInterval c) (cfg_l1syncReceiptTimeout c).

(** The timestamps and correction data sets of an instance. *)
Record asymmetryCorrectionPortDS_t := mk_asymDS {
  constantAsymmetry : Z; scaledDelayCoefficient : Z; asym_enable : Z }.
#[export] Instance eta_asymDS : Eta asymmetryCorrectionPortDS_t := fun d =>
  mk_asymDS (constantAsymmetry d) (scaledDelayCoefficient d) (asym_enable d).
Record timestampCorrectionPortDS_t := mk_tsDS {
  egressLatency : Z; ingressLatency : Z; semistaticLatency : Z }.
#[export] Instance eta_tsDS : Eta timestampCorrectionPortDS_t := fun d =>
  mk_tsDS (egressLatency d) (ingressLatency d) (semistaticLatency d).

(** ** Data of the extensions *)

(** States of the White Rabbit handshake ([wr_state_t], a [Z] in the code's
    comparisons), its roles and what was learnt of the parent. *)
Definition WRS_IDLE : Z := 0.
Definition WRS_PRESENT : Z := 1.
Definition WRS_S_LOCK : Z := 2.
Definition WRS_M_LOCK : Z := 3.
Definition WRS_LOCKED : Z := 4.
Definition WRS_CALIBRATION : Z := 5.
Definition WRS_CALIBRATED : Z := 6.
Definition WRS_RESP_CALIB_REQ : Z := 7.
Definition WRS_WR_LINK_ON : Z := 8.
Definition WRS_MAX_STATES : Z := 9.

Definition WR_ROLE_NONE : Z := 0.
Definition WR_MASTER : Z := 1.
Definition WR_SLAVE : Z := 2.

Definition NON_WR : Z := 0.
Definition WR_M_ONLY : Z := 1.
Definition WR_S_ONLY : Z := 2.
Definition WR_M_AND_S : Z := 3.

Inductive ParentDetection := PD_NO_DETECTION | PD_WR_PARENT | PD_NOT_WR_PARENT.
#[export] Instance ParentDetection_eq_dec : EqDecision ParentDetection.
Proof. solve_decision. Defined.

(** [struct wr_dsport]; fields that are never read are left out. *)
Record wr_dsport := mk_wrp {
  wr_state : Z; wr_next_state : Z; wrModeOn : Z; parentWrModeOn : Z;
  deltaTx : FixedDelta; deltaRx : FixedDelta; otherNodeDeltaTx : FixedDelta; otherNodeDeltaRx : FixedDelta;
  wrConfig : Z; wrMode : Z; wrPortState : Z; calibrated : Z; wrStateTimeout : Z; wrStateRetry : Z;
  calPeriod : Z; calRetry : Z; parentWrConfig : Z; parentIsWRnode : Z; parentCalibrated : Z;
  otherNodeCalSendPattern : Z; otherNodeCalPeriod : Z; otherNodeCalRetry : Z;
  parentAnnPortIdentity : PortIdentity; parentAnnSequenceId : Z; parentDetection : ParentDetection }.
#[export] Instance eta_wrp : Eta wr_dsport := fun p =>
  mk_wrp (wr_state p) (wr_next_state p) (wrModeOn p) (parentWrModeOn p) (deltaTx p) (deltaRx p)
    (otherNodeDeltaTx p) (otherNodeDeltaRx p) (wrConfig p) (wrMode p) (wrPortState p) (calibrated p)
    (wrStateTimeout p) (wrStateRetry p) (calPeriod p) (calRetry p) (parentWrConfig p) (parentIsWRnode p)
    (parentCalibrated p) (otherNodeCalSendPattern p) (otherNodeCalPeriod p) (otherNodeCalRetry p)
    (parentAnnPortIdentity p) (parentAnnSequenceId p) (parentDetection p).

(** [wrh_servo_t] of include/hw-specific/wrh.h. *)
Record wrh_servo_t := mk_wrh {
  n_err_state : Z; n_err_offset : Z; n_err_delta_rtt : Z; cur_setpoint_ps : Z;
  clock_period_ps : Z; tracking_enabled : Z; readyForSync : Z; doRestart : Z;
  delayMM_ps : Z; delayMS_ps : Z; skew_ps : Z; offsetMS_ps : Z; prev_delayMS_ps : Z; missed_iters : Z }.
#[export] Instance eta_wrh : Eta wrh_servo_t := fun s =>
  mk_wrh (n_err_state s) (n_err_offset s) (n_err_delta_rtt s) (cur_setpoint_ps s) (clock_period_ps s)
    (tracking_enabled s) (readyForSync s) (doRestart s) (delayMM_ps s) (delayMS_ps s) (skew_ps s)
    (offsetMS_ps s) (prev_delayMS_ps s) (missed_iters s).

(** [wr_servo_ext_t]: fixed delays of both ends and the uncorrected stamps. *)
Record wr_servo_ext := mk_wre {
  delta_txm : pp_time; delta_rxm : pp_time; delta_txs : pp_time; delta_rxs : pp_time;
  rawT1 : pp_time; rawT2 : pp_time; rawT3 : pp_time; rawT4 : pp_time; rawT5 : pp_time; rawT6 : pp_time;
  rawDelayMM : pp_time }.
#[export] Instance eta_wre : Eta wr_servo_ext := fun s =>
  mk_wre (delta_txm s) (delta_rxm s) (delta_txs s) (delta_rxs s) (rawT1 s) (rawT2 s) (rawT3 s) (rawT4 s)
    (rawT5 s) (rawT6 s) (rawDelayMM s).

(** [L1SyncBasicPortDS_t]. *)
Record L1SyncBasicPortDS_t := mk_l1b {
  L1SyncEnabled : Z; txCoherentIsRequired : Z; rxCoherentIsRequired : Z; congruentIsRequired : Z;
  optParamsEnabled : Z; logL1SyncInterval : Z; L1SyncReceiptTimeout : Z;
  L1SyncLinkAlive : Z; isTxCoherent : Z; isRxCoherent : Z; isCongruent : Z; L1SyncState : Z;
  peerTxCoherentIsRequired : Z; peerRxCoherentIsRequired : Z; peerCongruentIsRequired : Z;
  peerIsTxCoherent : Z; peerIsRxCoherent : Z; peerIsCongruent : Z; l1e_next_state : Z }.
#[export] Instance eta_l1b : Eta L1SyncBasicPortDS_t := fun b =>
  mk_l1b (L1SyncEnabled b) (txCoherentIsRequired b) (rxCoherentIsRequired b) (congruentIsRequired b)
    (optParamsEnabled b) (logL1SyncInterval b) (L1SyncReceiptTimeout b) (L1SyncLinkAlive b)
    (isTxCoherent b) (isRxCoherent b) (isCongruent b) (L1SyncState b) (peerTxCoherentIsRequired b)
    (peerRxCoherentIsRequired b) (peerCongruentIsRequired b) (peerIsTxCoherent b) (peerIsRxCoherent b)
    (peerIsCongruent b) (l1e_next_state b).

(** [l1e_ext_portDS_t]; of the optional parameters only the flags are used. *)
Record l1e_ext_portDS_t := mk_l1e {
  l1_basic : L1SyncBasicPortDS_t;
  timestampsCorrectedTx : Z; phaseOffsetTxValid : Z; frequencyOffsetTxValid : Z;
  execute_state_machine : Z }.
#[export] Instance eta_l1e : Eta l1e_ext_portDS_t := fun d =>
  mk_l1e (l1_basic d) (timestampsCorrectedTx d) (phaseOffsetTxValid d) (frequencyOffsetTxValid d)
    (execute_state_machine d).

(** What [portDS->ext_dsport] and [ext_data] point to: an instance uses the
    parts of the extension it was set up with. *)
Record ext_data_t := mk_ext {
  wrp : wr_dsport; wrh_servo : wrh_servo_t; wre_servo : wr_servo_ext; l1e_portDS : l1e_ext_portDS_t }.
#[export] Instance eta_ext : Eta ext_data_t := fun d =>
  mk_ext (wrp d) (wrh_servo d) (wre_servo d) (l1e_portDS d).

(** [struct pp_instance].  [current_state_item] is the index of the table
    item it points to.  [tx_ptp] is the PTP payload of the transmit buffer;
    the received payload is the [buf] argument of the handlers. *)
Record pp_instance := mk_inst {
  state : Z; next_state : Z; next_delay : Z; is_new_state : bool;
  current_state_item : option Z; protocol_extension : pp_extension;
  ppi_flags : Z; proto : Z; delayMechanism : Z;
  tx_ptp : list Z; tx_offset : Z; rx_offset : Z; ch_addr : list Z;
  peer : list Z; activePeer : list Z; peer_vid : Z;
  t1 : pp_time; t2 : pp_time; t3 : pp_time; t4 : pp_time; t5 : pp_time; t6 : pp_time;
  syncCF : Z; last_rcv_time : pp_time; last_snt_time : pp_time;
  frgn_rec_num : Z; frgn_rec_best : Z; frgn_master_time_window_ms : Z;
  frgn_master : list pp_frgn_master;
  portDS : portDS_t; servo : pp_servo;
  asymmetryCorrectionPortDS : asymmetryCorrectionPortDS_t;
  timestampCorrectionPortDS : timestampCorrectionPortDS_t;
  desiredState : Z;
  tmo_cfg : list timeOutInstCnt_t; recv_sync_sequence_id : Z; sent_seq : list Z;
  received_ptp_header : MsgHeader;
  link_up : Z; port_idx : Z; vlans : list Z; nvlans : Z; cfg : pp_instance_cfg;
  ptp_tx_count : Z; ptp_rx_count : Z; received_dresp : Z; received_dresp_fup : Z;
  bmca_execute : Z; pdstate : pp_pdstate_t; extState : pp_exstate_t;
  ptp_fallback : Z; ext_data : ext_data_t }.
#[export] Instance eta_inst : Eta pp_instance := fun p =>
  mk_inst (state p) (next_state p) (next_delay p) (is_new_state p) (current_state_item p)
    (protocol_extension p) (ppi_flags p) (proto p) (delayMechanism p) (tx_ptp p)
    (tx_offset p) (rx_offset p) (ch_addr p) (peer p) (activePeer p) (peer_vid p)
    (t1 p) (t2 p) (t3 p) (t4 p) (t5 p) (t6 p) (syncCF p) (last_rcv_time p)
    (last_snt_time p) (frgn_rec_num p) (frgn_rec_best p) (frgn_master_time_window_ms p)
    (frgn_master p) (portDS p) (servo p) (asymmetryCorrectionPortDS p)
    (timestampCorrectionPortDS p) (desiredState p) (tmo_cfg p) (recv_sync_sequence_id p)
    (sent_seq p) (received_ptp_header p) (link_up p) (port_idx p) (vlans p) (nvlans p)
    (cfg p) (ptp_tx_count p) (ptp_rx_count p) (received_dresp p) (received_dresp_fup p)
    (bmca_execute p) (pdstate p) (extState p) (ptp_fallback p) (ext_data p).

(** [struct pp_globals], with the data sets it points to. *)
Record pp_globals := mk_glbs {
  rt_opts : pp_runtime_opts; defaultDS : defaultDS_t; currentDS : currentDS_t;
  parentDS : parentDS_t; timePropertiesDS : timePropertiesDS_t;
  ebest_idx : Z; ebest_updated : Z; nlinks : Z }.
#[export] Instance eta_glbs : Eta pp_globals := fun g =>
  mk_glbs (rt_opts g) (defaultDS g) (currentDS g) (parentDS g) (timePropertiesDS g)
    (ebest_idx g) (ebest_updated g) (nlinks g).

(** ** Configuration switches

    The Kconfig options the code tests, and the two facts about the target
    it depends on (width of [long], byte order). *)
Class Config := {
  CONFIG_HAS_P2P : bool;
  CONFIG_HAS_CODEOPT_EXT_PORT_CONF_FORCE_DISABLED : bool;
  CONFIG_HAS_CODEOPT_EPC_ENABLED : bool;
  CONFIG_HAS_CODEOPT_SO_FORCE_DISABLED : bool;
  CONFIG_HAS_CODEOPT_SO_ENABLED : bool;
  CONFIG_HAS_CODEOPT_MO_FORCE_DISABLED : bool;
  CONFIG_HAS_CODEOPT_SINGLE_PORT : bool;
  CONFIG_HAS_CODEOPT_SINGLE_FMASTER : bool;
  CONFIG_CODEOPT_WRPC_SIZE : bool;
  CONFIG_ARCH_IS_WRS : bool;
  CONFIG_ARCH_IS_WRPC : bool;
  CONFIG_VLAN_ARRAY_SIZE : Z;
  CONFIG_NR_FOREIGN_RECORDS : nat;
  LONG_MODULUS : Z;
  BIG_ENDIAN_HOST : bool;
  (** What a read of a record outside a foreign master table finds. *)
  past_frgn_table : pp_frgn_master;
  nr_foreign_bounds : (1 <= CONFIG_NR_FOREIGN_RECORDS <= 20)%nat;
  (** Kconfig offers the single-master optimisation for tables of one record. *)
  single_fmaster_nr : CONFIG_HAS_CODEOPT_SINGLE_FMASTER = true -> CONFIG_NR_FOREIGN_RECORDS = 1%nat;
  long_width : LONG_MODULUS = 4294967296 \/ LONG_MODULUS = 18446744073709551616 }.

(** ** Platform operations

    [struct pp_time_operations] and [struct pp_network_operations] are filled
    by the time-* and arch-* directories; the protocol code only sees their
    results.  They act on an environment of their own.  An operation that
    reports failure through a non-zero return value gives [None]. *)
Class Platform := {
  env : Type;
  t_calc_timeout : nat -> Z -> env -> Z * env;
  t_get : nat -> env -> pp_time * env;
  t_set : nat -> option pp_time -> env -> env;
  t_adjust : nat -> Z -> Z -> env -> env;
  t_adjust_offset : nat -> Z -> env -> env;
  t_adjust_freq : option (nat -> Z -> env -> env);
  t_init_servo : option (nat -> env -> Z * env);
  t_get_utc_time : nat -> env -> option (Z * Z * Z) * env;
  t_get_utc_offset : nat -> env -> option (Z * Z * Z) * env;
  t_set_utc_offset : nat -> Z -> Z -> Z -> env -> env;
  t_get_GM_lock_state : env -> option Z * env;
  t_enable_timing_output : bool -> env -> env;
  (** Return value and MAC address of the channel. *)
  n_init : nat -> env -> (Z * list Z) * env;
  (** Instance, payload, length, message format; return value and the
      timestamp it stores in [last_snt_time], if it does. *)
  n_send : nat -> list Z -> Z -> nat -> env -> (Z * option pp_time) * env }.

(** ** The state monad *)

Section World.
Context `{Config, Platform}.

(** Everything a handler can reach: the globals, the instances, the platform,
    and the static variables of the C files: the random seed of timeout.c, the
    last timing mode per degradation entry of bmc_clock_quality.c, and the
    tracking switch of wrh-servo.c.  The last field records whether an [assert] of the code failed. *)
Record world := mk_world {
  glbs : pp_globals; insts : list pp_instance; the_env : env;
  tmo_seed : Z; clockDeg_lastTimingModeState : list Z; wrh_tracking_enabled : Z;
  assert_failed : bool }.

#[global] Instance eta_world : Eta world := fun w =>
  mk_world (glbs w) (insts w) (the_env w) (tmo_seed w) (clockDeg_lastTimingModeState w)
    (wrh_tracking_enabled w) (assert_failed w).

Definition M (A : Type) : Type := world -> A * world.

#[global] Instance M_ret : MRet M := fun A a w => (a, w).
#[global] Instance M_bind : MBind M := fun A B k m w => let '(a, w') := m w in k a w'.

End World.

Arguments mk_world {_} _ _ _ _ _ _ _.
