(* ===== verification/World.v ===== *)
(** * The handlers' monad: primitives and program logic

    Access to instances and globals the way the C code dereferences [ppi] and
    [GLBS(ppi)], loops over ports, calls to the platform, and the two
    judgements the theorems are stated with: [triple] (pre- and
    postcondition) and [guar] (every run relates the world before to the
    world after). *)

From S2P Require Import Prelude TimeArith Types.

(** ** Zero-initialised structures *)

Definition zero_hdr : MsgHeader :=
  mk_hdr 0 0 0 0 0 [0; 0] clear_time (mk_pid zero_id 0) 0 0.
Definition zero_portDS : portDS_t := mk_portDS (mk_pid zero_id 0) 0 0 0 0 0 0 0 0 0 0 0.
Definition zero_servo : pp_servo :=
  mk_servo 0 (mk_fltr 0 0 0) clear_time clear_time clear_time clear_time 0 0 0 0 0 clear_time
    clear_time clear_time clear_time clear_time clear_time clear_time.
Definition zero_cfg : pp_instance_cfg := mk_cfg 0 0 0 0 0 0 [] 0 0.
Definition zero_wrp : wr_dsport :=
  mk_wrp 0 0 0 0 (mk_fd 0 0) (mk_fd 0 0) (mk_fd 0 0) (mk_fd 0 0) 0 0 0 0 0 0 0 0 0 0 0 0 0 0
    (mk_pid zero_id 0) 0 PD_NO_DETECTION.
Definition zero_wrh : wrh_servo_t := mk_wrh 0 0 0 0 0 0 0 0 0 0 0 0 0 0.
Definition zero_wre : wr_servo_ext :=
  mk_wre clear_time clear_time clear_time clear_time clear_time clear_time clear_time clear_time
    clear_time clear_time clear_time.
Definition zero_l1e : l1e_ext_portDS_t :=
  mk_l1e (mk_l1b 0 0 0 0 0 0 0 0 0 0 0 0 0 0 0 0 0 0 0) 0 0 0 0.
Definition zero_ext : ext_data_t := mk_ext zero_wrp zero_wrh zero_wre zero_l1e.
Definition zero_inst : pp_instance :=
  mk_inst 0 0 0 false None PPSI_EXT_NONE 0 0 0 [] 0 0 [] [] [] 0
    clear_time clear_time clear_time clear_time clear_time clear_time 0 clear_time clear_time
    0 0 0 [] zero_portDS zero_servo (mk_asymDS 0 0 0) (mk_tsDS 0 0 0) 0 [] 0 []
    zero_hdr 0 0 [] 0 zero_cfg 0 0 0 0 0 PP_PDSTATE_NONE PP_EXSTATE_DISABLE 0 zero_ext.

(** Small tactics on the C truth tests. *)
Lemma truth_of_bool b : truth (of_bool b) = b.
Proof. by destruct b. Qed.
Lemma truth_false z : truth z = false <-> z = 0.
Proof. unfold truth. destruct (Z.eqb_spec z 0); naive_solver. Qed.
Lemma truth_true z : truth z = true <-> z <> 0.
Proof. unfold truth. destruct (Z.eqb_spec z 0); naive_solver. Qed.

Section Monad.
Context `{Config, Platform}.

(** [INST(ppg, i)]. *)
Definition inst (w : world) (i : nat) : pp_instance := default zero_inst (insts w !! i).
Definition set_inst (w : world) (i : nat) (g : pp_instance -> pp_instance) : world :=
  w <| insts ::= alter g i |>.

Definition rd {T} (i : nat) (f : pp_instance -> T) : M T := fun w => (f (inst w i), w).
Definition wr (i : nat) (g : pp_instance -> pp_instance) : M unit := fun w => (tt, set_inst w i g).
Definition rdG {T} (f : pp_globals -> T) : M T := fun w => (f (glbs w), w).
Definition wrG (g : pp_globals -> pp_globals) : M unit := fun w => (tt, w <| glbs ::= g |>).
(** A read that looks at several instances. *)
Definition rdw {T} (f : world -> T) : M T := fun w => (f w, w).
(** A platform operation. *)
Definition op {T} (f : env -> T * env) : M T :=
  fun w => let '(r, e) := f (the_env w) in (r, w <| the_env := e |>).
Definition op_ (f : env -> env) : M unit := op (fun e => (tt, f e)).
(** The static variables. *)
Definition rd_seed : M Z := fun w => (tmo_seed w, w).
Definition wr_seed (s : Z) : M unit := fun w => (tt, w <| tmo_seed := s |>).
Definition rd_lastTimingMode (k : nat) : M Z :=
  fun w => (nth k (clockDeg_lastTimingModeState w) 0, w).
Definition wr_lastTimingMode (k : nat) (v : Z) : M unit :=
  fun w => (tt, w <| clockDeg_lastTimingModeState ::= <[k := v]> |>).

(** [assert(cond, ...)]: a failed assertion prints forever; it is recorded. *)
Definition c_assert (b : bool) : M unit :=
  fun w => (tt, if b then w else w <| assert_failed := true |>).

Definition when (b : bool) (m : M unit) : M unit := if b then m else mret tt.

Fixpoint for_each {X} (l : list X) (body : X -> M unit) : M unit :=
  match l with
  | [] => mret tt
  | x :: l' => body x;; for_each l' body
  end.

(** ** Judgements *)

Definition triple {A} (P : world -> Prop) (m : M A) (Q : A -> world -> Prop) : Prop :=
  forall w, P w -> Q (m w).1 (m w).2.

(** Guarantee: every run of [m] takes [w] to a world related to it. *)
Definition guar {A} (R : relation world) (m : M A) : Prop := forall w, R w (m w).2.

(** The relation of an invariant: if it holds before, it holds after. *)
Definition inv_rel (I : world -> Prop) : relation world := fun w w' => I w -> I w'.

#[global] Instance inv_rel_preorder I : PreOrder (inv_rel I).
Proof. split; unfold inv_rel; repeat intro; auto. Qed.

Lemma guar_triple {A} (I : world -> Prop) (m : M A) :
  guar (inv_rel I) m <-> triple I m (fun _ => I).
Proof. split; repeat intro; by apply H1. Qed.

Lemma bind_unfold {A B} (m : M A) (k : A -> M B) w : (m ≫= k) w = k (m w).1 (m w).2.
Proof. unfold mbind, M_bind. by destruct (m w). Qed.

(** The primitives as rewrite steps. *)
Lemma bind_assoc {A B C} (m : M A) (f : A -> M B) (k : B -> M C) w :
  ((m ≫= f) ≫= k) w = (m ≫= (fun a => f a ≫= k)) w.
Proof. unfold mbind, M_bind. by destruct (m w). Qed.
Lemma bind_rd {T B} i (f : pp_instance -> T) (k : T -> M B) w : (rd i f ≫= k) w = k (f (inst w i)) w.
Proof. done. Qed.
Lemma bind_rd_id {B} i (k : pp_instance -> M B) w : (rd i id ≫= k) w = k (inst w i) w.
Proof. done. Qed.
Lemma bind_rdG {T B} (f : pp_globals -> T) (k : T -> M B) w : (rdG f ≫= k) w = k (f (glbs w)) w.
Proof. done. Qed.
Lemma bind_rdw {T B} (f : world -> T) (k : T -> M B) w : (rdw f ≫= k) w = k (f w) w.
Proof. done. Qed.
Lemma bind_wrG {B} f (k : unit -> M B) w : (wrG f ≫= k) w = k tt (w <| glbs ::= f |>).
Proof. reflexivity. Qed.
Lemma bind_wr {B} i f (k : unit -> M B) w : (wr i f ≫= k) w = k tt (set_inst w i f).
Proof. done. Qed.
Lemma bind_ret {A B} (a : A) (k : A -> M B) w : (mret a ≫= k) w = k a w.
Proof. done. Qed.
Lemma bind_assert {B} b (k : unit -> M B) w : b = true -> (c_assert b ≫= k) w = k tt w.
Proof. by intros ->. Qed.

Lemma triple_ret {A} (P : world -> Prop) (a : A) Q :
  (forall w, P w -> Q a w) -> triple P (mret a) Q.
Proof. repeat intro. cbn. auto. Qed.

Lemma triple_bind {A B} P (m : M A) R (k : A -> M B) Q :
  triple P m R -> (forall a, triple (R a) (k a) Q) -> triple P (m ≫= k) Q.
Proof. intros Hm Hk w Hw. rewrite bind_unfold. by apply Hk, Hm. Qed.

Lemma triple_conseq {A} (P P' : world -> Prop) (m : M A) (Q Q' : A -> world -> Prop) :
  triple P m Q -> (forall w, P' w -> P w) -> (forall a w, Q a w -> Q' a w) -> triple P' m Q'.
Proof. unfold triple. eauto. Qed.

Section Guar.
Context (R : relation world) `{!PreOrder R}.

Lemma guar_ret {A} (a : A) : guar R (mret a).
Proof. intros w. cbn. reflexivity. Qed.

Lemma guar_bind {A B} (m : M A) (k : A -> M B) :
  guar R m -> (forall a, guar R (k a)) -> guar R (m ≫= k).
Proof. intros Hm Hk w. rewrite bind_unfold. etrans; [apply Hm|apply Hk]. Qed.

Lemma guar_rd {T} i (f : pp_instance -> T) : guar R (rd i f).
Proof. intros w. cbn. reflexivity. Qed.
Lemma guar_rdG {T} (f : pp_globals -> T) : guar R (rdG f).
Proof. intros w. cbn. reflexivity. Qed.
Lemma guar_rdw {T} (f : world -> T) : guar R (rdw f).
Proof. intros w. cbn. reflexivity. Qed.
Lemma guar_rd_seed : guar R rd_seed.
Proof. intros w. cbn. reflexivity. Qed.
Lemma guar_rd_lastTimingMode k : guar R (rd_lastTimingMode k).
Proof. intros w. cbn. reflexivity. Qed.

Lemma guar_if {A} (b : bool) (m1 m2 : M A) : guar R m1 -> guar R m2 -> guar R (if b then m1 else m2).
Proof. by destruct b. Qed.
Lemma guar_when b m : guar R m -> guar R (when b m).
Proof. destruct b; intros; [done|apply guar_ret]. Qed.
Lemma guar_option {T A} (o : option T) (m1 : T -> M A) m2 :
  (forall x, guar R (m1 x)) -> guar R m2 ->
  guar R (match o with Some x => m1 x | None => m2 end).
Proof. destruct o; auto. Qed.
Lemma guar_for_each {X} (l : list X) body : (forall x, guar R (body x)) -> guar R (for_each l body).
Proof.
  intros Hb. induction l as [|x l IH]; cbn; [apply guar_ret|].
  apply guar_bind; [apply Hb|intros _; apply IH].
Qed.

End Guar.

(** ** Access lemmas *)

Lemma inst_set_same w i g : (i < length (insts w))%nat -> inst (set_inst w i g) i = g (inst w i).
Proof.
  intros Hi. unfold inst, set_inst, upd, setter. cbn [insts].
  destruct (lookup_lt_is_Some_2 (insts w) i Hi) as [p Hp].
  by rewrite list_lookup_alter_eq, Hp.
Qed.

Lemma inst_set_other w i j g : i <> j -> inst (set_inst w i g) j = inst w j.
Proof.
  intros Hij. unfold inst, set_inst, upd, setter. cbn [insts]. by rewrite list_lookup_alter_ne.
Qed.

Lemma set_inst_oob w i g : (length (insts w) <= i)%nat -> set_inst w i g = w.
Proof.
  intros Hi. unfold set_inst. destruct w as [gl ins e s c t a]. cbn [insts] in *.
  unfold upd, setter. cbn. f_equal.
  apply list_eq. intros j. destruct (decide (i = j)) as [->|].
  - rewrite list_lookup_alter_eq, !lookup_ge_None_2 by done. done.
  - by rewrite list_lookup_alter_ne.
Qed.

Lemma length_set_inst w i g : length (insts (set_inst w i g)) = length (insts w).
Proof. unfold set_inst; cbn. apply length_alter. Qed.

Lemma glbs_set_inst w i g : glbs (set_inst w i g) = glbs w.
Proof. done. Qed.

End Monad.

Arguments inst {_} w i.
Arguments set_inst {_} w i g.

(** ** Helpers of include/ppsi/ppsi.h *)

Section Helpers.
Context `{Config, Platform}.

Definition is_externalPortConfigurationEnabled (def : defaultDS_t) : bool :=
  negb CONFIG_HAS_CODEOPT_EXT_PORT_CONF_FORCE_DISABLED &&
  (CONFIG_HAS_CODEOPT_EPC_ENABLED || truth (def_externalPortConfigurationEnabled def)).

Definition is_delayMechanismP2P (ppi : pp_instance) : bool :=
  CONFIG_HAS_P2P && (delayMechanism ppi =? MECH_P2P).

Definition is_delayMechanismE2E (ppi : pp_instance) : bool :=
  negb CONFIG_HAS_P2P || (delayMechanism ppi =? MECH_E2E).

Definition is_slaveOnly (def : defaultDS_t) : bool :=
  negb CONFIG_HAS_CODEOPT_SO_FORCE_DISABLED && negb CONFIG_HAS_CODEOPT_EPC_ENABLED &&
  truth (def_slaveOnly def).

Definition is_masterOnly (port : portDS_t) : bool :=
  if CONFIG_HAS_CODEOPT_MO_FORCE_DISABLED then false else truth (masterOnly port).

Definition get_numberPorts (def : defaultDS_t) : Z :=
  if CONFIG_HAS_CODEOPT_SINGLE_PORT then 1 else def_numberPorts def.

(** The port indices the loops [for (i = 0; i < get_numberPorts(..); i++)] visit. *)
Definition ports (def : defaultDS_t) : list nat := seq 0 (Z.to_nat (get_numberPorts def)).

Definition pp_can_adjust (opts : pp_runtime_opts) : bool :=
  Z.land (opt_flags opts) PP_FLAG_NO_ADJUST =? 0.

(** The data sets, as the C accessors [DSDEF(ppi)] etc. *)
Definition DSDEF : M defaultDS_t := rdG defaultDS.
Definition DSCUR : M currentDS_t := rdG currentDS.
Definition DSPAR : M parentDS_t := rdG parentDS.
Definition DSPRO : M timePropertiesDS_t := rdG timePropertiesDS.
Definition OPTS : M pp_runtime_opts := rdG rt_opts.
Definition DSPOR (i : nat) : M portDS_t := rd i portDS.
Definition SRV (i : nat) : M pp_servo := rd i servo.
Definition setCUR (g : currentDS_t -> currentDS_t) : M unit := wrG (fun x => x <| currentDS ::= g |>).
Definition setPAR (g : parentDS_t -> parentDS_t) : M unit := wrG (fun x => x <| parentDS ::= g |>).
Definition setPRO (g : timePropertiesDS_t -> timePropertiesDS_t) : M unit :=
  wrG (fun x => x <| timePropertiesDS ::= g |>).
Definition setDEF (g : defaultDS_t -> defaultDS_t) : M unit := wrG (fun x => x <| defaultDS ::= g |>).
Definition setPOR (i : nat) (g : portDS_t -> portDS_t) : M unit :=
  wr i (fun p => p <| portDS ::= g |>).
Definition setSRV (i : nat) (g : pp_servo -> pp_servo) : M unit :=
  wr i (fun p => p <| servo ::= g |>).

End Helpers.

(** ** Views

    A view is the part of the world a theorem is about: a projection [c] of
    every instance, a projection [g] of the globals, and the assertion flag.
    Code that only writes outside the view leaves it unchanged. *)

Section View.
Context `{Config, Platform}.
Context {K G : Type} (c : pp_instance -> K) (g : pp_globals -> G).

Definition view (w : world) : list K * G * bool := (map c (insts w), g (glbs w), assert_failed w).
Definition same_view : relation world := fun w w' => view w' = view w.

#[global] Instance same_view_preorder : PreOrder same_view.
Proof. split; unfold same_view; repeat intro; congruence. Qed.

Lemma guar_view_wr i f : (forall p, c (f p) = c p) -> guar same_view (wr i f).
Proof.
  intros Hf w. unfold same_view, view. cbn. f_equal. f_equal. apply list_eq. intros j.
  rewrite !list_lookup_fmap. destruct (decide (i = j)) as [->|].
  - rewrite list_lookup_alter_eq. destruct (insts w !! j); cbn; [by rewrite Hf|done].
  - by rewrite list_lookup_alter_ne.
Qed.
Lemma guar_view_wrG f : (forall x, g (f x) = g x) -> guar same_view (wrG f).
Proof. intros Hf w. unfold same_view, view. cbn. by rewrite Hf. Qed.
Lemma guar_view_op {T} (f : env -> T * env) : guar same_view (op f).
Proof. intros w. unfold same_view, view, op. by destruct (f (the_env w)). Qed.
Lemma guar_view_op_ f : guar same_view (op_ f).
Proof. apply guar_view_op. Qed.
Lemma guar_view_wr_seed s : guar same_view (wr_seed s).
Proof. by intros w. Qed.
Lemma guar_view_wr_lastTimingMode k v : guar same_view (wr_lastTimingMode k v).
Proof. by intros w. Qed.

Lemma same_view_parts w w' : same_view w w' ->
  length (insts w') = length (insts w) /\ g (glbs w') = g (glbs w) /\ assert_failed w' = assert_failed w.
Proof.
  unfold same_view, view. intros Hv. split; [|split].
  - rewrite <- !(length_map c). exact (f_equal (fun v => length v.1.1) Hv).
  - exact (f_equal (fun v => v.1.2) Hv).
  - exact (f_equal snd Hv).
Qed.

Lemma same_view_inst w w' i : same_view w w' -> (i < length (insts w))%nat ->
  c (inst w' i) = c (inst w i) /\ (i < length (insts w'))%nat.
Proof.
  unfold same_view, view. intros [= Hm _ _] Hi.
  assert (length (insts w') = length (insts w)) as Hl by (rewrite <- !(length_map c), Hm; done).
  split; [|lia]. unfold inst.
  destruct (lookup_lt_is_Some_2 (insts w) i Hi) as [p Hp].
  destruct (lookup_lt_is_Some_2 (insts w') i ltac:(lia)) as [p' Hp'].
  rewrite Hp, Hp'. cbn.
  assert (map c (insts w') !! i = map c (insts w) !! i) as He by (by rewrite Hm).
  rewrite !list_lookup_fmap, Hp, Hp' in He. cbn in He. congruence.
Qed.

End View.

(** A coarser view. *)
Lemma same_view_comp `{Config, Platform} {K G K'} (c : pp_instance -> K) (g : pp_globals -> G) (h : K -> K') w w' :
  same_view c g w w' -> same_view (fun p => h (c p)) g w w'.
Proof.
  unfold same_view, view. intros Hv.
  assert (map (fun p => h (c p)) (insts w') = map (fun p => h (c p)) (insts w)) as ->.
  { pose proof (f_equal (fun v => map h v.1.1) Hv) as E. cbn in E. by rewrite !map_map in E. }
  f_equal; [f_equal|]; [exact (f_equal (fun v => v.1.2) Hv)|exact (f_equal snd Hv)].
Qed.

Create HintDb guar.
#[export] Hint Resolve guar_ret guar_rd guar_rdG guar_rdw guar_rd_seed guar_rd_lastTimingMode
  guar_view_op guar_view_op_ guar_view_wr_seed guar_view_wr_lastTimingMode : guar.
#[export] Hint Extern 1 (PreOrder _) => apply _ : guar.
#[export] Hint Unfold DSDEF DSCUR DSPAR DSPRO OPTS DSPOR SRV : guar.

(** ** Triples over a view of one port

    From the view [a] of port [i], [m] ends with a result and a view that [Q]
    allows. *)
Section Triple.
Context `{Config, Platform} {V : Type} (v : pp_instance -> V) (i : nat).

Definition port_triple {A} (a : V) (m : M A) (Q : A -> V -> Prop) : Prop :=
  forall w, (i < length (insts w))%nat -> v (inst w i) = a ->
    (i < length (insts (m w).2))%nat /\ Q (m w).1 (v (inst (m w).2 i)).

Lemma tr_ret {A} a (x : A) (Q : A -> V -> Prop) : Q x a -> port_triple a (mret x) Q.
Proof. intros HQ w Hi <-. done. Qed.
Lemma tr_mono {A} a (m : M A) (Q Q' : A -> V -> Prop) :
  port_triple a m Q -> (forall x b, Q x b -> Q' x b) -> port_triple a m Q'.
Proof. intros Hm HQ w Hi Hv. destruct (Hm w Hi Hv). auto. Qed.
Lemma tr_bind {A B} a (m : M A) (k : A -> M B) Q :
  port_triple a m (fun x b => port_triple b (k x) Q) -> port_triple a (m ≫= k) Q.
Proof. intros Hm w Hi Hv. rewrite bind_unfold. destruct (Hm w Hi Hv) as [Hl Hk]. by apply Hk. Qed.
Lemma tr_quiet {A} a (m : M A) (Q : A -> V -> Prop) :
  guar (same_view v (fun _ => tt)) m -> (forall x, Q x a) -> port_triple a m Q.
Proof. intros Hm HQ w Hi <-. destruct (same_view_inst _ _ _ _ i (Hm w) Hi) as [-> Hl]. auto. Qed.
Lemma tr_quiet_bind {A B} a (m : M A) (k : A -> M B) Q :
  guar (same_view v (fun _ => tt)) m -> (forall x, port_triple a (k x) Q) -> port_triple a (m ≫= k) Q.
Proof. intros Hm Hk. by apply tr_bind, tr_quiet. Qed.
Lemma tr_if {A} a (b : bool) (m m' : M A) Q : (b = true -> port_triple a m Q) -> (b = false -> port_triple a m' Q) ->
  port_triple a (if b then m else m') Q.
Proof. destruct b; auto. Qed.
Lemma tr_when a (b : bool) (m : M unit) (Q : unit -> V -> Prop) :
  (b = true -> port_triple a m Q) -> (b = false -> Q tt a) -> port_triple a (when b m) Q.
Proof. destruct b; cbn [when]; auto using tr_ret. Qed.
Lemma tr_rd {T B} (f : pp_instance -> T) (h : V -> T) a (k : T -> M B) Q :
  (forall p, f p = h (v p)) -> port_triple a (k (h a)) Q -> port_triple a (rd i f ≫= k) Q.
Proof. intros Hf Hk w Hi Hv. rewrite bind_rd, Hf, Hv. by apply Hk. Qed.
Lemma tr_rd_any {T B} (f : pp_instance -> T) a (k : T -> M B) Q :
  (forall p, v p = a -> port_triple a (k (f p)) Q) -> port_triple a (rd i f ≫= k) Q.
Proof. intros Hk w Hi Hv. rewrite bind_rd. by apply (Hk (inst w i)). Qed.
Lemma tr_wr a f a' (Q : unit -> V -> Prop) : (forall p, v p = a -> v (f p) = a') -> Q tt a' -> port_triple a (wr i f) Q.
Proof.
  intros Hf HQ w Hi Hv. cbn [wr fst snd]. rewrite inst_set_same, length_set_inst by done. by rewrite (Hf _ Hv).
Qed.
End Triple.

(** [walk] proves a guarantee of a handler by following its text. *)
Ltac walk := repeat first
  [ progress intros
  | solve [eauto 2 with guar]
  | progress autounfold with guar
  | match goal with
    | |- guar _ (mbind _ _) => apply guar_bind
    | |- guar _ (when _ _) => apply guar_when
    | |- guar _ (for_each _ _) => apply guar_for_each
    | |- guar _ (wr _ _) => apply guar_view_wr; intros; reflexivity
    | |- guar _ (wrG _) => apply guar_view_wrG; intros; reflexivity
    | |- guar _ (match ?x with _ => _ end) => destruct x eqn:?
    end
  | progress cbn beta zeta ].

(** ** A concrete configuration and platform

    A 64-bit little-endian build with four foreign masters and all optional
    features compiled in, on a platform whose clock stands still unless it is
    set and which stores what is sent.  The examples and witnesses run on it. *)
Module Demo.

#[refine] Definition demo_config : Config := {|
  CONFIG_HAS_P2P := true;
  CONFIG_HAS_CODEOPT_EXT_PORT_CONF_FORCE_DISABLED := false;
  CONFIG_HAS_CODEOPT_EPC_ENABLED := false;
  CONFIG_HAS_CODEOPT_SO_FORCE_DISABLED := false;
  CONFIG_HAS_CODEOPT_SO_ENABLED := false;
  CONFIG_HAS_CODEOPT_MO_FORCE_DISABLED := false;
  CONFIG_HAS_CODEOPT_SINGLE_PORT := false;
  CONFIG_HAS_CODEOPT_SINGLE_FMASTER := false;
  CONFIG_CODEOPT_WRPC_SIZE := false;
  CONFIG_ARCH_IS_WRS := false;
  CONFIG_ARCH_IS_WRPC := false;
  CONFIG_VLAN_ARRAY_SIZE := 4;
  CONFIG_NR_FOREIGN_RECORDS := 4;
  LONG_MODULUS := 18446744073709551616;
  BIG_ENDIAN_HOST := false;
  past_frgn_table := empty_frgn <| fm_sequenceId := 0xdead |> |}.
Proof. all: auto with lia. Defined.

Record demo_env := mk_env { d_now : Z; d_sent : list (list Z); d_pps : bool }.

Definition demo_platform : Platform := {|
  env := demo_env;
  t_calc_timeout := fun _ ms e => (d_now e + ms, e);
  t_get := fun _ e => (mk_time (d_now e / 1000) (d_now e mod 1000 * 65536000000), e);
  t_set := fun _ _ e => e;
  t_adjust := fun _ _ _ e => e;
  t_adjust_offset := fun _ _ e => e;
  t_adjust_freq := Some (fun _ _ e => e);
  t_init_servo := None;
  t_get_utc_time := fun _ e => (Some (15, 0, 0), e);
  t_get_utc_offset := fun _ e => (Some (37, 0, 0), e);
  t_set_utc_offset := fun _ _ _ _ e => e;
  t_get_GM_lock_state := fun e => (Some 2, e);
  t_enable_timing_output := fun b e => mk_env (d_now e) (d_sent e) b;
  n_init := fun i e => ((0, [2; 0; 0; 0; 0; Z.of_nat i]), e);
  n_send := fun _ pkt len _ e =>
    ((len, Some (mk_time (d_now e / 1000) 0)), mk_env (d_now e) (d_sent e ++ [pkt]) (d_pps e)) |}.

Definition demo_opts : pp_runtime_opts :=
  mk_opts 248 254 0xC71D 0xA0 0 0 0 0 10 1000 6 128 128 0 500 0 0 0 0 0.
Definition demo_id (k : Z) : ClockIdentity := [2; 0; 0; 255; 254; 0; 0; k].
Definition demo_globals (nports : Z) : pp_globals :=
  mk_glbs demo_opts
    (mk_defaultDS (demo_id 1) nports (mk_cq 248 254 0xC71D) 128 128 0 0 0)
    (mk_currentDS 0 0 0) zero_parentDS (mk_timePropertiesDS 37 0 0 0 0 0 0 0xA0) (-1) 0 nports.
(** An instance in [st], with its arrays allocated. *)
Definition demo_inst (k st : Z) : pp_instance :=
  zero_inst <| state := st |> <| next_state := st |> <| port_idx := k |> <| link_up := 1 |>
    <| delayMechanism := MECH_E2E |> <| frgn_rec_best := -1 |>
    <| frgn_master := replicate 4 empty_frgn |> <| tmo_cfg := replicate 14 zero_tmo |>
    <| sent_seq := replicate 14 0 |> <| tx_ptp := replicate 128 0 |>
    <| portDS := zero_portDS <| portIdentity := mk_pid (demo_id 1) (k + 1) |> |>.

Definition demo_world (l : list pp_instance) (now : Z) : @world demo_platform :=
  @mk_world demo_platform (demo_globals (Z.of_nat (length l))) l (mk_env now [] false)
    0 [-1; -1; -1; -1] 1 false.

(** The same world at another time. *)
Definition at_time (now : Z) (w : @world demo_platform) : @world demo_platform :=
  @mk_world demo_platform (glbs w) (insts w) (mk_env now (d_sent (the_env w)) (d_pps (the_env w)))
    (tmo_seed w) (clockDeg_lastTimingModeState w) (wrh_tracking_enabled w) (assert_failed w).

End Demo.
