(* ===== verification/Timeout.v ===== *)
(** * Timeouts (timeout.c, include/ppsi/jiffies.h, include/ppsi/timeout_prot.h)

    Every instance has an array of counters; the counters that are not
    instance dependent live in instance 0.  Deadlines are compared on the
    wrapping [unsigned long] clock of the platform. *)

From S2P Require Import Prelude TimeArith Types World.

Section Timeout.
Context `{Config, Platform}.

(** ** Wrapping time (jiffies.h) *)

Definition ulong (z : Z) : Z := z mod LONG_MODULUS.
Definition slong (z : Z) : Z := (z + LONG_MODULUS / 2) mod LONG_MODULUS - LONG_MODULUS / 2.

Definition time_after (a b : Z) : bool := slong (ulong (b - a)) <? 0.
Definition time_before (a b : Z) : bool := time_after b a.
Definition time_after_eq (a b : Z) : bool := 0 <=? slong (ulong (a - b)).
Definition time_before_eq (a b : Z) : bool := time_after_eq b a.

(** ** Counters *)

Definition TIMEOUT_DISABLE_VALUE : Z := -1.
Definition TIMEOUT_MAX_LOG_VALUE : Z := 21.
Definition TIMEOUT_MIN_LOG_VALUE : Z := -9.
Definition TIMEOUT_MAX_VALUE_MS : Z := Z.shiftl 1 TIMEOUT_MAX_LOG_VALUE * 1000.
Definition TIMEOUT_MIN_VALUE_MS : Z := Z.shiftr 1000 (- TIMEOUT_MIN_LOG_VALUE).

Definition PP_TO_COUNT : nat := if CONFIG_ARCH_IS_WRS then 14 else 12.

(** The control flags of [timeOutConfigs]:
    (TMO_CF_INSTANCE_DEPENDENT, TMO_CF_ALLOW_COMMON_SET). *)
Definition timeOutConfigs : list (bool * bool) :=
  [ (true, true)   (* REQUEST *);     (true, true)   (* SYNC_SEND *);
    (false, false) (* BMC *);         (true, true)   (* ANN_RECEIPT *);
    (true, true)   (* ANN_SEND *);    (true, true)   (* QUAL *);
    (true, false)  (* PROT_STATE *);  (true, false)  (* IN_STATE *);
    (false, false) (* GM_BY_BMCA *);  (true, false)  (* L1E_TX_SYNC *);
    (true, false)  (* L1E_RX_SYNC *); (true, false)  (* WR_EXT *) ] ++
  (if CONFIG_ARCH_IS_WRS then [(false, false); (false, false)] else []).

Definition tmo_instance_dependent (index : nat) : bool :=
  fst (nth index timeOutConfigs (false, false)).
Definition tmo_allow_common_set (index : nat) : bool :=
  snd (nth index timeOutConfigs (false, false)).

(** [__pp_get_counter]: the instance whose array holds the counter. *)
Definition cnt_inst (i index : nat) : nat := if tmo_instance_dependent index then i else 0%nat.
Definition pp_get_counter (i index : nat) : M timeOutInstCnt_t :=
  rd (cnt_inst i index) (fun p => nth index (tmo_cfg p) zero_tmo).
Definition set_counter (i index : nat) (g : timeOutInstCnt_t -> timeOutInstCnt_t) : M unit :=
  wr (cnt_inst i index) (fun p => p <| tmo_cfg ::= alter g index |>).

Definition pp_timeout_disable_all (i : nat) : M unit :=
  for_each (seq 0 PP_TO_COUNT) (fun k =>
    wr i (fun p => p <| tmo_cfg ::=
      alter (fun c => c <| initValueMs := TIMEOUT_DISABLE_VALUE |> <| tmo := 0 |>) k |>)).

(** The disabled value goes to the caller's own array, also for a counter
    that is not instance dependent. *)
Definition pp_timeout_get_timer (i index : nat) (rand : to_rand_t) : M nat :=
  set_counter i index (fun c => c <| which_rand := rand |>);;
  wr i (fun p => p <| tmo_cfg ::=
    alter (fun c => c <| initValueMs := TIMEOUT_DISABLE_VALUE |>) index |>);;
  mret index.

Definition pp_timeout_log_to_ms (logValue : Z) : Z :=
  if 0 <=? logValue then
    if TIMEOUT_MAX_LOG_VALUE <? logValue then TIMEOUT_MAX_VALUE_MS
    else i32 (Z.shiftl 1 logValue * 1000)
  else
    if logValue <? TIMEOUT_MIN_LOG_VALUE then TIMEOUT_MIN_VALUE_MS
    else Z.shiftr 1000 (- logValue).

Definition set_rand (i index : nat) (r : to_rand_t) : M unit :=
  wr i (fun p => p <| tmo_cfg ::= alter (fun c => c <| which_rand := r |>) index |>).
Definition set_initValueMs (i index : nat) (ms : Z) : M unit :=
  wr i (fun p => p <| tmo_cfg ::= alter (fun c => c <| initValueMs := ms |>) index |>).

Definition pp_timeout_init (i : nat) : M unit :=
  port ← DSPOR i;
  p2p ← rd i is_delayMechanismP2P;
  let logDelayRequest :=
    if p2p : bool then logMinPdelayReqInterval port else logMinDelayReqInterval port in
  set_rand i PP_TO_REQUEST (if p2p then TO_RAND_NONE else TO_RAND_0_200);;
  set_rand i PP_TO_ANN_SEND TO_RAND_70_130;;
  set_rand i PP_TO_SYNC_SEND TO_RAND_70_130;;
  set_initValueMs i PP_TO_REQUEST (pp_timeout_log_to_ms logDelayRequest);;
  set_initValueMs i PP_TO_SYNC_SEND (pp_timeout_log_to_ms (logSyncInterval port));;
  (let ms := pp_timeout_log_to_ms (logAnnounceInterval port) in
   gcnt ← rd 0%nat (fun p => nth PP_TO_BMC (tmo_cfg p) zero_tmo);
   when ((initValueMs gcnt =? TIMEOUT_DISABLE_VALUE) || (ms <? initValueMs gcnt))
     (set_initValueMs 0%nat PP_TO_BMC ms));;
  def ← DSDEF;
  (if is_externalPortConfigurationEnabled def then
     set_initValueMs i PP_TO_QUALIFICATION TIMEOUT_DISABLE_VALUE;;
     set_initValueMs i PP_TO_ANN_RECEIPT TIMEOUT_DISABLE_VALUE
   else
     set_initValueMs i PP_TO_ANN_RECEIPT
       (i32 (1000 * i32 (Z.shiftl (announceReceiptTimeout port) (logAnnounceInterval port))));;
     cur ← DSCUR;
     set_initValueMs i PP_TO_QUALIFICATION
       (i32 (i32 (Z.shiftl 1000 (logAnnounceInterval port)) * (cur_stepsRemoved cur + 1))));;
  set_initValueMs i PP_TO_ANN_SEND (pp_timeout_log_to_ms (logAnnounceInterval port)).

Definition pp_timeout_get (i index : nat) : M Z :=
  c ← pp_get_counter i index; mret (initValueMs c).

Definition calc_timeout (i : nat) (millisec : Z) : M Z :=
  v ← op (t_calc_timeout i millisec); mret (ulong v).

(** [__pp_timeout_set] *)
Definition pp_timeout_set0 (i index : nat) (millisec : Z) : M unit :=
  v ← calc_timeout i millisec;
  set_counter i index (fun c => c <| tmo := v |>).

Definition pp_timeout_set_rename (i index : nat) (millisec : Z) : M unit :=
  set_counter i index (fun c => c <| initValueMs := millisec |>);;
  pp_timeout_set0 i index millisec.

(** *** Randomised reset *)

(** The least 32 bits of the clock identity, read as the host reads them. *)
Definition seed_of_identity (id : ClockIdentity) : Z :=
  let b k := nth k id 0 in
  if BIG_ENDIAN_HOST
  then Z.shiftl (b 4%nat) 24 + Z.shiftl (b 5%nat) 16 + Z.shiftl (b 6%nat) 8 + b 7%nat
  else Z.shiftl (b 7%nat) 24 + Z.shiftl (b 6%nat) 16 + Z.shiftl (b 5%nat) 8 + b 4%nat.

Definition lcg (seed : Z) : Z := u32 (u32 (seed * 1103515245) + 12345).

(** The new seed and [rval]. *)
Definition next_rval (seed : Z) : Z * Z :=
  let seed1 := lcg seed in
  let rval := seed1 / 65536 mod 2048 in
  let seed2 := lcg seed1 in
  let rval := u32 (Z.shiftl rval 10) in
  (seed2, Z.lxor rval (seed2 / 65536 mod 1024)).

(** The randomised value for a positive reference value. *)
Definition randomize (r : to_rand_t) (rval millisec : Z) : Z :=
  let millisec := Z.quot (i32 (Z.shiftl millisec 1)) 5 in
  if 0 <? millisec then
    match r with
    | TO_RAND_70_130 => i32 (u32 (i32 (millisec * 2) + rval mod millisec))
    | TO_RAND_0_200 => i32 (rval mod u32 (i32 (millisec * 5)))
    | TO_RAND_NONE => millisec
    end
  else millisec.

(** [__pp_timeout_reset] *)
Definition pp_timeout_reset_N (i index : nat) (multiplier : Z) : M unit :=
  c ← pp_get_counter i index;
  if initValueMs c =? TIMEOUT_DISABLE_VALUE then mret tt
  else
    let millisec := i32 (u32 (initValueMs c * multiplier)) in
    millisec ←
      (if negb (bool_decide (which_rand c = TO_RAND_NONE)) && (0 <? millisec) then
         seed ← rd_seed;
         def ← DSDEF;
         let seed := if seed =? 0 then seed_of_identity (def_clockIdentity def) else seed in
         let '(seed', rval) := next_rval seed in
         wr_seed seed';;
         mret (randomize (which_rand c) rval millisec)
       else mret millisec);
    pp_timeout_set0 i index millisec.

Definition pp_timeout_reset (i index : nat) : M unit := pp_timeout_reset_N i index 1.

Definition pp_timeout_setall (i : nat) : M unit :=
  for_each (seq 0 PP_TO_COUNT) (fun k =>
    when (tmo_allow_common_set k) (pp_timeout_reset i k));;
  pp_timeout_set0 i PP_TO_ANN_SEND 20.

Definition pp_timeout (i index : nat) : M bool :=
  c ← pp_get_counter i index;
  if initValueMs c =? TIMEOUT_DISABLE_VALUE then mret false
  else
    now ← calc_timeout i 0;
    mret (time_after_eq now (tmo c)).

(** *** Time to wait *)

Definition pp_next_delay_1 (i i1 : nat) : M Z :=
  c ← pp_get_counter i i1;
  now ← calc_timeout i 0;
  mret (if time_before (tmo c) now then 0 else i32 (ulong (tmo c - now))).

Definition delay_until (now tmo_min : Z) : Z :=
  if time_before now tmo_min then i32 (ulong (tmo_min - now)) else 0.

Definition earlier (a b : Z) : Z := if time_after a b then b else a.

Definition pp_next_delay_2 (i i1 i2 : nat) : M Z :=
  c1 ← pp_get_counter i i1;
  c2 ← pp_get_counter i i2;
  now ← calc_timeout i 0;
  mret (delay_until now (earlier (tmo c1) (tmo c2))).

Definition pp_next_delay_3 (i i1 i2 i3 : nat) : M Z :=
  c1 ← pp_get_counter i i1;
  c2 ← pp_get_counter i i2;
  c3 ← pp_get_counter i i3;
  now ← calc_timeout i 0;
  mret (delay_until now (earlier (earlier (tmo c1) (tmo c2)) (tmo c3))).

(** *** Wrappers of timeout_prot.h *)

Definition pp_timeout_set (i index : nat) (millisec : Z) : M unit :=
  pp_timeout_set_rename i index millisec.
Definition pp_timeout_is_disabled (i index : nat) : M bool :=
  v ← pp_timeout_get i index; mret (v =? TIMEOUT_DISABLE_VALUE).
Definition pp_timeout_disable (i index : nat) : M unit :=
  pp_timeout_set i index TIMEOUT_DISABLE_VALUE.
(** The global timers are those of instance 0. *)
Definition pp_gtimeout_set (index : nat) (millisec : Z) : M unit := pp_timeout_set 0 index millisec.
Definition pp_gtimeout_is_disabled (index : nat) : M bool := pp_timeout_is_disabled 0 index.
Definition pp_gtimeout_disable (index : nat) : M unit := pp_timeout_disable 0 index.
Definition pp_gtimeout (index : nat) : M bool := pp_timeout 0 index.
Definition pp_gtimeout_reset (index : nat) : M unit := pp_timeout_reset_N 0 index 1.

(** ** What timeouts leave alone *)

Section Frame.
Context {K G : Type} (c : pp_instance -> K) (g : pp_globals -> G).
Hypothesis c_tmo : forall p h, c (p <| tmo_cfg ::= h |>) = c p.

Lemma view_set_counter i k h : guar (same_view c g) (set_counter i k h).
Proof. apply guar_view_wr. intros. apply c_tmo. Qed.
Lemma view_set_rand i k r : guar (same_view c g) (set_rand i k r).
Proof. apply guar_view_wr. intros. apply c_tmo. Qed.
Lemma view_set_initValueMs i k v : guar (same_view c g) (set_initValueMs i k v).
Proof. apply guar_view_wr. intros. apply c_tmo. Qed.
Lemma view_calc_timeout i ms : guar (same_view c g) (calc_timeout i ms).
Proof. unfold calc_timeout. walk. Qed.
Lemma view_get_counter i k : guar (same_view c g) (pp_get_counter i k).
Proof. unfold pp_get_counter. walk. Qed.

Hint Resolve view_set_counter view_set_rand view_set_initValueMs view_calc_timeout
  view_get_counter : guar.

Lemma view_timeout_init i : guar (same_view c g) (pp_timeout_init i).
Proof. unfold pp_timeout_init. walk. Qed.
Lemma view_timeout_set0 i k ms : guar (same_view c g) (pp_timeout_set0 i k ms).
Proof. unfold pp_timeout_set0. walk. Qed.
Hint Resolve view_timeout_set0 : guar.
Lemma view_timeout_set i k ms : guar (same_view c g) (pp_timeout_set i k ms).
Proof. unfold pp_timeout_set, pp_timeout_set_rename. walk. Qed.
Lemma view_timeout_reset_N i k m : guar (same_view c g) (pp_timeout_reset_N i k m).
Proof. unfold pp_timeout_reset_N. walk. Qed.
Lemma view_timeout i k : guar (same_view c g) (pp_timeout i k).
Proof. unfold pp_timeout. walk. Qed.
Lemma view_next_delay_1 i a : guar (same_view c g) (pp_next_delay_1 i a).
Proof. unfold pp_next_delay_1. walk. Qed.
Lemma view_next_delay_2 i a b : guar (same_view c g) (pp_next_delay_2 i a b).
Proof. unfold pp_next_delay_2. walk. Qed.
Lemma view_next_delay_3 i a b d : guar (same_view c g) (pp_next_delay_3 i a b d).
Proof. unfold pp_next_delay_3. walk. Qed.
Lemma view_timeout_setall i : guar (same_view c g) (pp_timeout_setall i).
Proof.
  unfold pp_timeout_setall. apply guar_bind; [apply _| |walk].
  apply guar_for_each; [apply _|]. intros k. apply guar_when; [apply _|]. apply view_timeout_reset_N.
Qed.
Lemma view_timeout_disable_all i : guar (same_view c g) (pp_timeout_disable_all i).
Proof.
  unfold pp_timeout_disable_all. apply guar_for_each; [apply _|]. intros k.
  apply guar_view_wr. intros. apply c_tmo.
Qed.

End Frame.

(** ** Wrap-around *)

Lemma long_even : LONG_MODULUS = 2 * (LONG_MODULUS / 2) /\ 0 < LONG_MODULUS / 2.
Proof. destruct long_width as [-> | ->]; vm_compute; split; reflexivity. Qed.

Lemma slong_ulong_diff a b : Z.abs (a - b) < LONG_MODULUS / 2 ->
  slong (ulong (ulong a - ulong b)) = a - b.
Proof.
  intros Hd. pose proof long_even as [He Hp]. unfold slong, ulong.
  set (h := LONG_MODULUS / 2) in *. rewrite He in *.
  rewrite <- Zminus_mod. rewrite Zplus_mod_idemp_l. rewrite Z.mod_small by lia. lia.
Qed.

Lemma time_after_eq_spec a b : Z.abs (a - b) < LONG_MODULUS / 2 ->
  time_after_eq (ulong a) (ulong b) = (b <=? a).
Proof. intros Hd. unfold time_after_eq. rewrite slong_ulong_diff by done. lia. Qed.

Lemma time_after_spec a b : Z.abs (a - b) < LONG_MODULUS / 2 ->
  time_after (ulong a) (ulong b) = (b <? a).
Proof. intros Hd. unfold time_after. rewrite slong_ulong_diff by lia. lia. Qed.

Lemma earlier_spec a b : Z.abs (a - b) < LONG_MODULUS / 2 ->
  earlier (ulong a) (ulong b) = ulong (Z.min a b).
Proof.
  intros Hd. unfold earlier. rewrite time_after_spec by done.
  destruct (Z.ltb_spec b a); f_equal; lia.
Qed.

Lemma delay_until_spec now t : Z.abs (t - now) < 2147483648 ->
  delay_until (ulong now) (ulong t) = Z.max 0 (t - now).
Proof.
  intros Hd. pose proof long_even as [He Hp].
  assert (2147483648 <= LONG_MODULUS / 2) by (destruct long_width as [-> | ->]; vm_compute; discriminate).
  unfold delay_until, time_before. rewrite time_after_spec by lia.
  destruct (Z.ltb_spec now t); [|lia].
  unfold ulong. rewrite <- Zminus_mod. rewrite Z.mod_small by lia. rewrite i32_id by lia. lia.
Qed.

(** ** Logarithmic intervals *)

Lemma log_to_ms_pos l : 0 <= l -> pp_timeout_log_to_ms l = 1000 * 2 ^ Z.min l 21.
Proof.
  intros Hl. unfold pp_timeout_log_to_ms, TIMEOUT_MAX_LOG_VALUE.
  rewrite (proj2 (Z.leb_le _ _)) by done.
  destruct (Z.ltb_spec 21 l); [by rewrite Z.min_r by lia|].
  rewrite Z.min_l by lia. rewrite Z.shiftl_1_l.
  assert (0 < 2 ^ l <= 2 ^ 21) by (split; [apply Z.pow_pos_nonneg|apply Z.pow_le_mono_r]; lia).
  change (2 ^ 21) with 2097152 in *. rewrite i32_id; lia.
Qed.

Lemma log_to_ms_neg l : l < 0 -> pp_timeout_log_to_ms l = 1000 / 2 ^ Z.min (- l) 9.
Proof.
  intros Hl. unfold pp_timeout_log_to_ms, TIMEOUT_MIN_LOG_VALUE.
  rewrite (proj2 (Z.leb_gt _ _)) by done.
  destruct (Z.ltb_spec l (-9)); [by rewrite Z.min_r by lia|].
  rewrite Z.min_l by lia. by rewrite Z.shiftr_div_pow2 by lia.
Qed.

Lemma log_to_ms_range l : 1 <= pp_timeout_log_to_ms l <= 2097152000.
Proof.
  destruct (decide (0 <= l)).
  - rewrite log_to_ms_pos by done.
    assert (2 ^ 0 <= 2 ^ Z.min l 21 <= 2 ^ 21) by (split; apply Z.pow_le_mono_r; lia).
    change (2 ^ 0) with 1 in *. change (2 ^ 21) with 2097152 in *. lia.
  - rewrite log_to_ms_neg by lia.
    assert (2 ^ 0 <= 2 ^ Z.min (- l) 9 <= 2 ^ 9) by (split; apply Z.pow_le_mono_r; lia).
    change (2 ^ 0) with 1 in *. change (2 ^ 9) with 512 in *.
    split; [apply Z.div_le_lower_bound; lia|]. etrans; [apply Z.div_le_upper_bound with (q := 1000)|]; nia.
Qed.

(** ** Randomisation *)

Lemma lcg_range s : 0 <= lcg s < 4294967296.
Proof. apply u32_range. Qed.

Lemma rval_range s : 0 <= snd (next_rval s) < 2097152.
Proof.
  unfold next_rval. cbn [snd]. set (a := lcg s / 65536 mod 2048). set (b := _ mod 1024).
  assert (0 <= a < 2048) by (apply Z.mod_pos_bound; lia).
  assert (0 <= b < 1024) by (apply Z.mod_pos_bound; lia).
  rewrite Z.shiftl_mul_pow2 by lia. change (2 ^ 10) with 1024. rewrite u32_id by lia.
  split; [apply Z.lxor_nonneg; lia|].
  change 2097152 with (2 ^ 21). destruct (decide (Z.lxor (a * 1024) b = 0)) as [->|]; [done|].
  assert (0 <= Z.lxor (a * 1024) b) by (apply Z.lxor_nonneg; lia).
  apply Z.log2_lt_pow2; [lia|]. eapply Z.le_lt_trans; [apply Z.log2_lxor; lia|].
  apply Z.max_lub_lt.
  - destruct (decide (a = 0)) as [->|]; [done|]. apply Z.log2_lt_pow2; [lia|].
    change (2 ^ 21) with 2097152. lia.
  - destruct (decide (b = 0)) as [->|]; [done|]. apply Z.log2_lt_pow2; [lia|].
    change (2 ^ 21) with 2097152. lia.
Qed.

Lemma randomize_bounds rval ms : 0 <= rval < 2097152 -> 0 < ms < 536870912 ->
  4 * ms - 8 <= 5 * randomize TO_RAND_70_130 rval ms <= 6 * ms /\
  0 <= randomize TO_RAND_0_200 rval ms <= 2 * ms.
Proof.
  intros Hr Hm. unfold randomize. rewrite Z.shiftl_mul_pow2, Z.pow_1_r by lia.
  rewrite (i32_id (ms * 2)) by lia. rewrite Z.quot_div_nonneg by lia.
  set (q := ms * 2 / 5). assert (5 * q <= ms * 2 < 5 * q + 5) by (subst q; dlia). clearbody q.
  destruct (Z.ltb_spec 0 q); [|lia].
  pose proof (Z.mod_pos_bound rval q ltac:(lia)). pose proof (Z.mod_pos_bound rval (q * 5) ltac:(lia)).
  nowrap. lia.
Qed.

(** ** Deadlines

    What the protocol relies on: [calc_timeout] adds milliseconds to a
    counter that other calls do not move (unix_calc_timeout,
    wrpc_calc_timeout and sim_calc_timeout are of this form). *)
Class PlatformClock := {
  clk : env -> Z;
  clk_law : forall i ms e, t_calc_timeout i ms e = (clk e + ms, e) }.

(** The counter [index] of instance [i] exists. *)
Definition has_counter (w : world) (i index : nat) : Prop :=
  (cnt_inst i index < length (insts w))%nat /\
  (index < length (tmo_cfg (inst w (cnt_inst i index))))%nat.

Definition counter (w : world) (i index : nat) : timeOutInstCnt_t :=
  nth index (tmo_cfg (inst w (cnt_inst i index))) zero_tmo.

Lemma nth_alter {A} (f : A -> A) k l d : (k < length l)%nat -> nth k (alter f k l) d = f (nth k l d).
Proof.
  intros Hk. rewrite !nth_lookup, list_lookup_alter_eq.
  by destruct (lookup_lt_is_Some_2 l k Hk) as [x ->].
Qed.

Lemma nth_alter_ne {A} (f : A -> A) k j l d : k <> j -> nth j (alter f k l) d = nth j l d.
Proof. intros Hk. by rewrite !nth_lookup, list_lookup_alter_ne. Qed.

Lemma counter_set_counter w i k g : has_counter w i k ->
  let w' := (set_counter i k g w).2 in counter w' i k = g (counter w i k) /\ has_counter w' i k.
Proof.
  intros [Hi Hk]. unfold counter, has_counter, set_counter, wr. cbn [snd].
  rewrite inst_set_same by done. rewrite length_set_inst. cbn.
  rewrite nth_alter, length_alter by done. done.
Qed.

Context {CLK : PlatformClock}.

Lemma calc_timeout_clk i ms w : calc_timeout i ms w = (ulong (clk (the_env w) + ms), w).
Proof.
  unfold calc_timeout. rewrite bind_unfold. unfold op. rewrite clk_law. cbn.
  by destruct w.
Qed.

Lemma set_counter_env i k g w : the_env (set_counter i k g w).2 = the_env w.
Proof. done. Qed.

Lemma counter_timeout_set0 w i k ms : has_counter w i k ->
  let w' := (pp_timeout_set0 i k ms w).2 in
  counter w' i k = (counter w i k) <| tmo := ulong (clk (the_env w) + ms) |> /\
  has_counter w' i k /\ the_env w' = the_env w.
Proof.
  intros Hc. unfold pp_timeout_set0. rewrite bind_unfold, calc_timeout_clk. cbn [fst snd].
  destruct (counter_set_counter w i k (fun c => c <| tmo := ulong (clk (the_env w) + ms) |>) Hc)
    as [Ha Hb]. by split.
Qed.

Lemma counter_timeout_set w i k ms : has_counter w i k ->
  let w' := (pp_timeout_set i k ms w).2 in
  counter w' i k =
    (counter w i k) <| initValueMs := ms |> <| tmo := ulong (clk (the_env w) + ms) |> /\
  has_counter w' i k /\ the_env w' = the_env w.
Proof.
  intros Hc. unfold pp_timeout_set, pp_timeout_set_rename. rewrite bind_unfold.
  destruct (counter_set_counter w i k (fun c => c <| initValueMs := ms |>) Hc) as [Ha Hb].
  destruct (counter_timeout_set0 _ i k ms Hb) as (Hd & He & Hf).
  rewrite Hd, Ha. rewrite set_counter_env in *. by split.
Qed.

Lemma timeout_unfold w i k : (pp_timeout i k w).1 =
  negb (initValueMs (counter w i k) =? TIMEOUT_DISABLE_VALUE) &&
  time_after_eq (ulong (clk (the_env w))) (tmo (counter w i k)).
Proof.
  unfold pp_timeout. rewrite bind_unfold. unfold pp_get_counter, rd. cbn [fst snd].
  fold (counter w i k). case_match; [done|]. rewrite bind_unfold, calc_timeout_clk. cbn.
  by rewrite Z.add_0_r.
Qed.

Lemma next_delay_2_unfold w i a b : (pp_next_delay_2 i a b w).1 =
  delay_until (ulong (clk (the_env w))) (earlier (tmo (counter w i a)) (tmo (counter w i b))).
Proof.
  unfold pp_next_delay_2. rewrite !bind_unfold. unfold pp_get_counter, rd. cbn [fst snd].
  rewrite calc_timeout_clk. cbn. by rewrite Z.add_0_r.
Qed.

Lemma next_delay_3_unfold w i a b d : (pp_next_delay_3 i a b d w).1 =
  delay_until (ulong (clk (the_env w)))
    (earlier (earlier (tmo (counter w i a)) (tmo (counter w i b))) (tmo (counter w i d))).
Proof.
  unfold pp_next_delay_3. rewrite !bind_unfold. unfold pp_get_counter, rd. cbn [fst snd].
  rewrite calc_timeout_clk. cbn. by rewrite Z.add_0_r.
Qed.

(** The deadline a reset of a counter with reference value [v] computes. *)
Lemma timeout_reset_deadline w i k : has_counter w i k ->
  let c := counter w i k in
  0 < initValueMs c < 536870912 ->
  exists d, counter (pp_timeout_reset i k w).2 i k = c <| tmo := ulong (clk (the_env w) + d) |> /\
    match which_rand c with
    | TO_RAND_NONE => d = initValueMs c
    | TO_RAND_70_130 => 4 * initValueMs c - 8 <= 5 * d <= 6 * initValueMs c
    | TO_RAND_0_200 => 0 <= d <= 2 * initValueMs c
    end.
Proof.
  intros Hc c Hv. unfold pp_timeout_reset, pp_timeout_reset_N. rewrite bind_unfold.
  unfold pp_get_counter, rd. cbn [fst snd]. fold (counter w i k). fold c.
  rewrite (proj2 (Z.eqb_neq _ _)) by (unfold TIMEOUT_DISABLE_VALUE; lia).
  rewrite Z.mul_1_r. nowrap. rewrite bind_unfold.
  rewrite (proj2 (Z.ltb_lt _ _)) by lia. rewrite andb_true_r.
  case_bool_decide as Hr; cbn [negb].
  - cbn [mret M_ret fst snd]. exists (initValueMs c). rewrite Hr.
    destruct (counter_timeout_set0 w i k (initValueMs c) Hc) as (-> & _). done.
  - rewrite !bind_unfold. unfold rd_seed, DSDEF, rdG. cbn [fst snd].
    set (s := if _ =? 0 then _ else _).
    destruct (next_rval s) as [s' rv] eqn:Es. rewrite bind_unfold.
    assert (0 <= rv < 2097152) as Hrv by (pose proof (rval_range s) as Hs; by rewrite Es in Hs).
    destruct (randomize_bounds rv (initValueMs c) Hrv Hv) as [B1 B2].
    cbn [mret M_ret fst snd wr_seed].
    exists (randomize (which_rand c) rv (initValueMs c)).
    destruct (counter_timeout_set0 (wr_seed s' w).2 i k
      (randomize (which_rand c) rv (initValueMs c)) Hc) as (Hd & _).
    split; [exact Hd|]. destruct (which_rand c); [done|lia|lia].
Qed.

End Timeout.

(** The clock of the example platform obeys the law. *)
#[global] Instance demo_clock : @PlatformClock Demo.demo_platform :=
  @Build_PlatformClock Demo.demo_platform Demo.d_now (fun i ms e => eq_refl).

(** ** Properties *)

(** [pp_timeout_log_to_ms] is 1000 * 2^log milliseconds, with the exponent clipped to
    -9..21, so that every interval it returns is at least one millisecond and fits an [int]. *)
Theorem log_to_ms_correct (l : Z) :
  (0 <= l -> pp_timeout_log_to_ms l = 1000 * 2 ^ Z.min l 21) /\
  (l < 0 -> pp_timeout_log_to_ms l = 1000 / 2 ^ Z.min (- l) 9) /\
  1 <= pp_timeout_log_to_ms l <= 2097152000.
Proof. split; [apply log_to_ms_pos|]. split; [apply log_to_ms_neg|apply log_to_ms_range]. Qed.

(** A counter set to [ms] milliseconds expires exactly when the platform clock has advanced
    by [ms], whatever the wrap-around of the [unsigned long] clock, and until then
    [pp_next_delay_2] with itself gives the remaining time; a disabled counter never expires. *)
Theorem timeout_set_expires `{Config, Platform, !PlatformClock} w i index ms e :
  has_counter w i index -> 0 <= ms < 1000000000 ->
  0 <= clk e - clk (the_env w) < 1000000000 ->
  let w' := (pp_timeout_set i index ms w).2 <| the_env := e |> in
  (pp_timeout i index w').1 = (ms <=? clk e - clk (the_env w)) /\
  (pp_next_delay_2 i index index w').1 = Z.max 0 (ms - (clk e - clk (the_env w))) /\
  (pp_timeout i index (pp_timeout_disable i index w).2).1 = false.
Proof.
  intros Hc Hms He w'.
  assert (2147483648 <= LONG_MODULUS / 2)
    by (destruct long_width as [-> | ->]; vm_compute; discriminate).
  destruct (counter_timeout_set w i index ms Hc) as (Hs & _ & _).
  assert (counter w' i index = counter (pp_timeout_set i index ms w).2 i index) as Hw by done.
  rewrite timeout_unfold, next_delay_2_unfold, Hw, Hs. cbn [the_env w' upd tmo initValueMs setter].
  rewrite (proj2 (Z.eqb_neq _ _)) by (unfold TIMEOUT_DISABLE_VALUE; lia). cbn [negb andb].
  rewrite time_after_eq_spec, earlier_spec, Z.min_id, delay_until_spec by lia.
  split; [|split; [lia|]].
  - destruct (Z.leb_spec (clk (the_env w) + ms) (clk e)), (Z.leb_spec ms (clk e - clk (the_env w))); lia || done.
  - rewrite timeout_unfold. unfold pp_timeout_disable.
    destruct (counter_timeout_set w i index TIMEOUT_DISABLE_VALUE Hc) as (-> & _ & _). done.
Qed.

Lemma timeout_set_expires_witness :
  let w := @Demo.demo_world [Demo.demo_inst 0 PPS_LISTENING] 5000 in
  let w' := Demo.at_time 5299
    (@pp_timeout_set Demo.demo_config Demo.demo_platform 0 PP_TO_ANN_RECEIPT 300 w).2 in
  (@pp_timeout Demo.demo_config Demo.demo_platform 0 PP_TO_ANN_RECEIPT w').1 = false.
Proof.
  pose proof (@timeout_set_expires Demo.demo_config Demo.demo_platform demo_clock
    (Demo.demo_world [Demo.demo_inst 0 PPS_LISTENING] 5000) 0 PP_TO_ANN_RECEIPT 300
    (Demo.mk_env 5299 [] false)) as T.
  destruct T as [T _]; [split; vm_compute; lia|lia|vm_compute; split; congruence|].
  etransitivity; [exact T|reflexivity].
Defined.

(** Resetting a counter leaves its mode and reference value alone and moves the deadline to
    the reference value from now, 80 to 120 per cent of it, or 0 to 200 per cent of it,
    according to the counter's randomisation mode. *)
Theorem timeout_reset_window `{Config, Platform, !PlatformClock} w i index :
  has_counter w i index ->
  let c := counter w i index in
  0 < initValueMs c < 536870912 ->
  exists d, counter (pp_timeout_reset i index w).2 i index =
      c <| tmo := ulong (clk (the_env w) + d) |> /\
    match which_rand c with
    | TO_RAND_NONE => d = initValueMs c
    | TO_RAND_70_130 => 4 * initValueMs c - 8 <= 5 * d <= 6 * initValueMs c
    | TO_RAND_0_200 => 0 <= d <= 2 * initValueMs c
    end.
Proof. apply timeout_reset_deadline. Qed.

Lemma timeout_reset_window_witness :
  let p := (Demo.demo_inst 0 PPS_MASTER) <| tmo_cfg := replicate 14 (mk_tmo TO_RAND_70_130 1000 0) |> in
  let w := Demo.demo_world [p] 5000 in
  exists d, @counter Demo.demo_config Demo.demo_platform
      (@pp_timeout_reset Demo.demo_config Demo.demo_platform 0 PP_TO_SYNC_SEND w).2 0 PP_TO_SYNC_SEND
      = mk_tmo TO_RAND_70_130 1000 (@ulong Demo.demo_config (5000 + d)) /\ 3992 <= 5 * d <= 6000.
Proof.
  destruct (@timeout_reset_window Demo.demo_config Demo.demo_platform demo_clock
    (Demo.demo_world [(Demo.demo_inst 0 PPS_MASTER)
       <| tmo_cfg := replicate 14 (mk_tmo TO_RAND_70_130 1000 0) |>] 5000) 0 PP_TO_SYNC_SEND)
    as (d & Hd & Hr); [split; vm_compute; lia|vm_compute; split; congruence|].
  exists d. split; [exact Hd|exact Hr].
Defined.

(** The delay the state machine is re-entered after is the time to the earliest of the
    deadlines, and zero when one of them has passed. *)
Theorem next_delay_correct `{Config, Platform, !PlatformClock} w i a b d ta tb td :
  tmo (counter w i a) = ulong ta -> tmo (counter w i b) = ulong tb ->
  tmo (counter w i d) = ulong td ->
  Z.abs (ta - clk (the_env w)) < 1000000000 -> Z.abs (tb - clk (the_env w)) < 1000000000 ->
  Z.abs (td - clk (the_env w)) < 1000000000 ->
  (pp_next_delay_2 i a b w).1 = Z.max 0 (Z.min ta tb - clk (the_env w)) /\
  (pp_next_delay_3 i a b d w).1 = Z.max 0 (Z.min (Z.min ta tb) td - clk (the_env w)).
Proof.
  intros Ha Hb Hd Ba Bb Bd. rewrite next_delay_2_unfold, next_delay_3_unfold, Ha, Hb, Hd.
  assert (2147483648 <= LONG_MODULUS / 2)
    by (destruct long_width as [-> | ->]; vm_compute; discriminate).
  rewrite (earlier_spec ta) by lia. rewrite earlier_spec by lia. rewrite !delay_until_spec by lia.
  done.
Qed.

Lemma next_delay_correct_witness :
  let c t := mk_tmo TO_RAND_NONE 1000 t in
  let w := Demo.demo_world [(Demo.demo_inst 0 PPS_MASTER)
    <| tmo_cfg := [c 5400; c 4900; c 6000] |>] 5000 in
  (@pp_next_delay_3 Demo.demo_config Demo.demo_platform 0 0 0 0 w).1 = 400 /\
  (@pp_next_delay_2 Demo.demo_config Demo.demo_platform 0 0 0 w).1 = 400.
Proof.
  cbv zeta. split;
  pose proof (@next_delay_correct Demo.demo_config Demo.demo_platform demo_clock
    (Demo.demo_world [(Demo.demo_inst 0 PPS_MASTER) <| tmo_cfg := [mk_tmo TO_RAND_NONE 1000 5400;
       mk_tmo TO_RAND_NONE 1000 4900; mk_tmo TO_RAND_NONE 1000 6000] |>] 5000)
    0 0 0 0 5400 5400 5400 eq_refl eq_refl eq_refl eq_refl eq_refl eq_refl) as [T2 T3];
    [rewrite T3|rewrite T2]; reflexivity.
Defined.

(** The disabled value of a counter shared by all instances goes to the caller's array. *)
Example get_timer_shared :
  let w := Demo.demo_world [Demo.demo_inst 0 PPS_LISTENING; Demo.demo_inst 1 PPS_LISTENING] 0 in
  let w' := (@pp_timeout_get_timer Demo.demo_config Demo.demo_platform 1 PP_TO_GM_BY_BMCA
    TO_RAND_NONE w).2 in
  (@pp_timeout_is_disabled Demo.demo_config Demo.demo_platform 1 PP_TO_GM_BY_BMCA w').1 = false.
Proof. vm_compute. reflexivity. Qed.
