(* ===== verification/Hooks.v ===== *)
(** * Extension hooks (struct pp_ext_hooks of include/ppsi/ppsi.h)

    A protocol extension augments the standard states through a table of
    optional functions.  The protocol code is written against this table: an
    instance finds its own through the extension it was set up with.  The
    table of plain PTP is [pp_hooks] of proto-standard/hooks.c, defined in
    Fsm.v. *)

From S2P Require Import Prelude TimeArith Types World.

Section Hooks.
Context `{Config, Platform}.

(** A pointer to a foreign master record: the instance that holds the table
    and the index. *)
Definition frgn_ref : Type := nat * Z.

(** A [NULL] entry is [None]; a received frame is its bytes and its length. *)
Record pp_ext_hooks := mk_hooks {
  hk_init : option (nat -> list Z -> Z -> M Z);
  hk_open : option (nat -> M Z);
  hk_close : option (nat -> M Z);
  hk_listening : option (nat -> list Z -> Z -> M Z);
  hk_new_slave : option (nat -> list Z -> Z -> M Z);
  hk_handle_resp : option (nat -> M Z);
  hk_handle_announce : option (nat -> M Z);
  hk_handle_sync : option (nat -> M Z);
  hk_handle_followup : option (nat -> M Z);
  hk_handle_preq : option (nat -> M Z);
  hk_handle_presp : option (nat -> M Z);
  hk_handle_signaling : option (nat -> list Z -> Z -> M Z);
  hk_handle_dreq : option (nat -> M Z);
  hk_pack_announce : option (nat -> M Z);
  hk_unpack_announce : option (nat -> list Z -> MsgAnnounce -> M MsgAnnounce);
  hk_ready_for_slave : option (nat -> M Z);
  hk_state_decision : option (nat -> Z -> M Z);
  hk_state_change : option (nat -> M unit);
  hk_run_ext_state_machine : option (nat -> list Z -> Z -> M Z);
  hk_get_ingress_latency : option (nat -> M Z);
  hk_get_egress_latency : option (nat -> M Z);
  hk_is_correction_field_compliant : option (nat -> M Z);
  hk_get_tmo_lstate_detection : option (nat -> M Z);
  hk_extension_state_changed : option (nat -> M Z);
  hk_bmca_s1 : option (nat -> frgn_ref -> M Z) }.

Definition no_hooks : pp_ext_hooks :=
  mk_hooks None None None None None None None None None None None None None None None None
    None None None None None None None None None.

(** The tables of the extensions. *)
Class Hooks := hooks_of : pp_extension -> pp_ext_hooks.

Context {HK : Hooks}.

(** [ppi->ext_hooks->h], if available. *)
Definition ext_hook {T} (i : nat) (h : pp_ext_hooks -> option T) : M (option T) :=
  rd i (fun p => h (hooks_of (protocol_extension p))).

(** [if (is_ext_hook_available(ppi, h)) ... else ...] *)
Definition if_hook {T A} (i : nat) (h : pp_ext_hooks -> option T) (f : T -> M A) (d : M A) : M A :=
  o ← ext_hook i h;
  match o with Some x => f x | None => d end.

Lemma guar_if_hook {T A} (R : relation world) `{!PreOrder R} i (h : pp_ext_hooks -> option T)
  (f : T -> M A) d :
  (forall x e, h (hooks_of e) = Some x -> guar R (f x)) -> guar R d -> guar R (if_hook i h f d).
Proof.
  intros Hf Hd w. unfold if_hook. rewrite bind_unfold. unfold ext_hook, rd. cbn [fst snd].
  destruct (h (hooks_of (protocol_extension (inst w i)))) eqn:E; [by eapply Hf|apply Hd].
Qed.

End Hooks.

Arguments pp_ext_hooks {_}.

(** The example platform without extensions. *)
Definition demo_hooks : @Hooks Demo.demo_platform := fun _ => no_hooks.
