(* ===== verification/Bytes.v ===== *)
(** * Frames as byte lists

    Reads and writes of multi-byte fields at fixed offsets of a buffer, in
    network byte order (the [htons]/[htonl]/[htonll] of the code) and in host
    order where the code omits the conversion. *)

From S2P Require Import Prelude.

(** ** Big-endian encoding *)

Fixpoint be (n : nat) (v : Z) : list Z :=
  match n with
  | O => []
  | S n' => be n' (v / 256) ++ [v mod 256]
  end.

Definition of_be (l : list Z) : Z := fold_left (fun acc b => acc * 256 + b) l 0.

(** ** Slices and writes *)

Definition slice (k n : nat) (buf : list Z) : list Z := take n (drop k buf).
Definition write (k : nat) (l : list Z) (buf : list Z) : list Z := list_inserts k l buf.

Definition get8 (buf : list Z) (k : nat) : Z := nth k buf 0.
Definition get16 (buf : list Z) (k : nat) : Z := of_be (slice k 2 buf).
Definition get32 (buf : list Z) (k : nat) : Z := of_be (slice k 4 buf).
Definition get64 (buf : list Z) (k : nat) : Z := of_be (slice k 8 buf).
Definition put8 (k : nat) (v : Z) (buf : list Z) : list Z := write k (be 1 v) buf.
Definition put16 (k : nat) (v : Z) (buf : list Z) : list Z := write k (be 2 v) buf.
Definition put32 (k : nat) (v : Z) (buf : list Z) : list Z := write k (be 4 v) buf.
Definition put64 (k : nat) (v : Z) (buf : list Z) : list Z := write k (be 8 v) buf.

(** A 16-bit access without byte swapping on a host of the given order. *)
Definition host_order (big : bool) (l : list Z) : list Z := if big then l else reverse l.
Definition get16h (big : bool) (buf : list Z) (k : nat) : Z := of_be (host_order big (slice k 2 buf)).
Definition put16h (big : bool) (k : nat) (v : Z) (buf : list Z) : list Z :=
  write k (host_order big (be 2 v)) buf.

(** ** Lemmas *)

Lemma length_be n v : length (be n v) = n.
Proof. revert v. induction n; intros; cbn; [done|]. rewrite length_app, IHn. cbn. lia. Qed.

Lemma of_be_snoc l b : of_be (l ++ [b]) = of_be l * 256 + b.
Proof. unfold of_be. by rewrite fold_left_app. Qed.

Lemma of_be_be n v : of_be (be n v) = v mod 256 ^ Z.of_nat n.
Proof.
  revert v. induction n as [|n IH]; intros v; cbn [be].
  - cbn. by rewrite Z.mod_1_r.
  - rewrite of_be_snoc, IH. rewrite Nat2Z.inj_succ, Z.pow_succ_r by lia.
    assert (0 < 256 ^ Z.of_nat n) by (apply Z.pow_pos_nonneg; lia).
    rewrite (Z.rem_mul_r v 256 (256 ^ Z.of_nat n)) by lia. lia.
Qed.

(** Two fields put side by side. *)
Lemma testbit_small b k n : 0 <= b < 2 ^ k -> 0 <= k <= n -> Z.testbit b n = false.
Proof.
  intros Hb Hn. apply Z.testbit_false; [lia|]. rewrite Z.div_small; [done|]. split; [lia|].
  apply Z.lt_le_trans with (2 ^ k); [lia|]. apply Z.pow_le_mono_r; lia.
Qed.
Lemma lor_shiftl_add a b k : 0 <= k -> 0 <= b < 2 ^ k -> Z.lor (Z.shiftl a k) b = a * 2 ^ k + b.
Proof.
  intros Hk Hb. rewrite <- Z.shiftl_mul_pow2 by lia.
  assert (Z.land (Z.shiftl a k) b = 0) as Hd.
  { apply Z.bits_inj'. intros n Hn. rewrite Z.land_spec, Z.bits_0. destruct (decide (n < k)).
    - by rewrite Z.shiftl_spec_low by lia.
    - by rewrite (testbit_small b k n), andb_false_r by lia. }
  rewrite Z.add_nocarry_lxor by done. apply Z.bits_inj'. intros n Hn. rewrite Z.lor_spec, Z.lxor_spec.
  destruct (decide (n < k)); [by rewrite Z.shiftl_spec_low by lia|].
  rewrite (testbit_small b k n) by lia. by destruct (Z.testbit _ _).
Qed.

(** A byte list. *)
Definition bytes (l : list Z) : Prop := Forall (fun b => 0 <= b < 256) l.

Lemma bytes_be n v : bytes (be n v).
Proof.
  revert v. induction n; intros v; cbn; [constructor|].
  apply Forall_app. split; [apply IHn|]. constructor; [apply Z.mod_pos_bound; lia|constructor].
Qed.

Lemma of_be_range l : bytes l -> 0 <= of_be l < 256 ^ Z.of_nat (length l).
Proof.
  induction l as [|b l IH] using rev_ind; intros Hb; [cbn; lia|].
  apply Forall_app in Hb as [Hl Hb]. inversion Hb as [|? ? Hb1 _]. specialize (IH Hl).
  rewrite of_be_snoc, length_app. cbn [length]. rewrite Nat2Z.inj_add. cbn.
  rewrite Z.pow_add_r by lia. lia.
Qed.

Lemma length_write k l buf : length (write k l buf) = length buf.
Proof. apply length_inserts. Qed.

Lemma write_app k l buf : (k + length l <= length buf)%nat ->
  write k l buf = take k buf ++ l ++ drop (k + length l) buf.
Proof.
  intros Hk. unfold write. apply list_eq. intros j.
  destruct (decide (j < k)%nat); [|destruct (decide (j < k + length l)%nat)].
  - rewrite list_lookup_inserts_lt by lia.
    rewrite lookup_app_l by (rewrite length_take; lia). by rewrite lookup_take_lt by lia.
  - rewrite list_lookup_inserts by lia.
    rewrite lookup_app_r by (rewrite length_take; lia). rewrite length_take.
    rewrite lookup_app_l by lia. f_equal. lia.
  - rewrite list_lookup_inserts_ge by lia.
    rewrite lookup_app_r by (rewrite length_take; lia). rewrite length_take.
    rewrite lookup_app_r by lia. rewrite lookup_drop. f_equal. lia.
Qed.

Lemma slice_write_same k l buf : (k + length l <= length buf)%nat ->
  slice k (length l) (write k l buf) = l.
Proof.
  intros Hk. rewrite write_app by done. unfold slice.
  rewrite drop_app_length' by (rewrite length_take; lia).
  by rewrite take_app_length.
Qed.

Lemma slice_write_other k n j l buf : (k + n <= j \/ j + length l <= k)%nat ->
  slice k n (write j l buf) = slice k n buf.
Proof.
  intros Hd. unfold slice, write. apply list_eq. intros x.
  destruct (decide (x < n)%nat); [|by rewrite !lookup_take_ge by lia].
  rewrite !lookup_take_lt, !lookup_drop by lia.
  destruct Hd; [by rewrite list_lookup_inserts_lt by lia|by rewrite list_lookup_inserts_ge by lia].
Qed.

Lemma get8_slice buf k : (k < length buf)%nat -> get8 buf k = of_be (slice k 1 buf).
Proof.
  intros Hk. unfold get8, slice.
  destruct (lookup_lt_is_Some_2 buf k Hk) as [b Hb].
  rewrite nth_lookup, Hb. rewrite (drop_S buf b k Hb). done.
Qed.

Lemma bytes_write k l buf : bytes l -> bytes buf -> bytes (write k l buf).
Proof.
  intros Hl Hb. apply Forall_lookup. intros j x Hj.
  unfold write in Hj. apply list_lookup_inserts_Some in Hj.
  destruct Hj as [[_ Hj]|(_ & _ & Hj)].
  - by apply (Forall_lookup_1 _ _ _ _ Hb Hj).
  - by apply (Forall_lookup_1 _ _ _ _ Hl Hj).
Qed.

Lemma slice_bytes k n buf : bytes buf -> bytes (slice k n buf).
Proof. intros. unfold slice. apply Forall_take, Forall_drop. done. Qed.

Lemma length_slice k n buf : (k + n <= length buf)%nat -> length (slice k n buf) = n.
Proof. intros. unfold slice. rewrite length_take, length_drop. lia. Qed.

(** [field] computes what a read finds in a buffer built by writes: each
    write is either the field itself or does not overlap it. *)
Lemma slice_put_same k n v buf : (k + n <= length buf)%nat -> slice k n (write k (be n v) buf) = be n v.
Proof.
  intros Hk. pose proof (slice_write_same k (be n v) buf) as Hs. rewrite length_be in Hs. auto.
Qed.

Lemma slice_write_zeros k n j m buf : (j <= k)%nat -> (k + n <= j + m)%nat ->
  (j + m <= length buf)%nat -> slice k n (write j (replicate m 0) buf) = replicate n 0.
Proof.
  intros H1 H2 H3. unfold slice, write. apply list_eq. intros x.
  destruct (decide (x < n)%nat).
  - rewrite lookup_take_lt, lookup_drop by lia.
    rewrite list_lookup_inserts by (rewrite ?length_replicate; lia).
    rewrite !lookup_replicate_2 by lia. done.
  - rewrite lookup_take_ge by lia. symmetry. apply lookup_ge_None_2. rewrite length_replicate. lia.
Qed.

Ltac blen :=
  repeat rewrite length_write; repeat rewrite length_be; repeat rewrite length_replicate;
  cbn [length]; lia.
Ltac slices :=
  repeat match goal with
    | |- context [slice ?k ?n (write ?k (be ?n ?v) ?b)] => rewrite (slice_put_same k n v b) by blen
    | |- context [slice ?k ?n (write ?j (replicate ?m 0) ?b)] =>
        rewrite (slice_write_zeros k n j m b) by blen
    | |- context [slice ?k ?n (write ?j ?l ?b)] => rewrite (slice_write_other k n j l b) by blen
    end.
Ltac field :=
  unfold get16, get32, get64, put8, put16, put32, put64 in *;
  rewrite ?get8_slice by blen; slices; rewrite ?of_be_be;
  change (256 ^ Z.of_nat 1) with 256; change (256 ^ Z.of_nat 2) with 65536;
  change (256 ^ Z.of_nat 4) with 4294967296; change (256 ^ Z.of_nat 8) with 18446744073709551616.
