(* ===== verification/Msg.v ===== *)
(** * PTP messages (proto-standard/msg.c, msg-p2p.c, msgtype.c, common-fun.c)

    Packing and unpacking of the messages, and sending.  The part of each
    [msg_pack_*] that only depends on data is a function on the transmit
    buffer ([pack_*]); the monadic function applies it to [ppi->tx_ptp].  The
    round trips relate the two directions through the wire format. *)

From S2P Require Import Prelude TimeArith Types World Hooks Bytes.

(** ** Message formats (msgtype.c) *)

Definition PPM_SYNC_FMT : nat := 0.
Definition PPM_DELAY_REQ_FMT : nat := 1.
Definition PPM_PDELAY_REQ_FMT : nat := 2.
Definition PPM_PDELAY_RESP_FMT : nat := 3.
Definition PPM_FOLLOW_UP_FMT : nat := 4.
Definition PPM_DELAY_RESP_FMT : nat := 5.
Definition PPM_PDELAY_R_FUP_FMT : nat := 6.
Definition PPM_ANNOUNCE_FMT : nat := 7.
Definition PPM_SIGNALING_FMT : nat := 8.
Definition PPM_SIGNALING_NO_FWD_FMT : nat := 9.
Definition PPM_MANAGEMENT_FMT : nat := 10.
Definition PPM_MSG_FMT_MAX : nat := 11.

Definition PP_LOG_ANNOUNCE : Z := 0.
Definition PP_LOG_SYNC : Z := 1.
Definition PP_LOG_REQUEST : Z := 2.

Definition PP_HEADER_LENGTH : Z := 34.
Definition PP_ANNOUNCE_LENGTH : Z := 64.
Definition PP_SYNC_LENGTH : Z := 44.
Definition PP_FOLLOW_UP_LENGTH : Z := 44.
Definition PP_PDELAY_REQ_LENGTH : Z := 54.
Definition PP_DELAY_REQ_LENGTH : Z := 44.
Definition PP_DELAY_RESP_LENGTH : Z := 54.
Definition PP_PDELAY_RESP_LENGTH : Z := 54.
Definition PP_PDELAY_RESP_FOLLOW_UP_LENGTH : Z := 54.
Definition PP_MANAGEMENT_LENGTH : Z := 48.

(** [struct pp_msgtype_info]; a length of -1 is stored in an [uint16_t]. *)
Record pp_msgtype_info := mk_mf {
  mf_msg_type : Z; mf_msglen : Z; mf_chtype : Z; mf_delay_mechanism : Z;
  mf_controlField : Z; mf_logMessageInterval : Z }.

Definition msgtype_info : list pp_msgtype_info :=
  [ mk_mf PPM_SYNC PP_SYNC_LENGTH PP_NP_EVT MECH_E2E 0 PP_LOG_SYNC;
    mk_mf PPM_DELAY_REQ PP_DELAY_REQ_LENGTH PP_NP_EVT MECH_E2E 1 0x7f;
    mk_mf PPM_PDELAY_REQ PP_PDELAY_REQ_LENGTH PP_NP_EVT MECH_P2P 5 0x7f;
    mk_mf PPM_PDELAY_RESP PP_PDELAY_RESP_LENGTH PP_NP_EVT MECH_P2P 5 0x7f;
    mk_mf PPM_FOLLOW_UP PP_FOLLOW_UP_LENGTH PP_NP_GEN MECH_E2E 2 PP_LOG_SYNC;
    mk_mf PPM_DELAY_RESP PP_DELAY_RESP_LENGTH PP_NP_GEN MECH_E2E 3 PP_LOG_REQUEST;
    mk_mf PPM_PDELAY_R_FUP PP_PDELAY_RESP_FOLLOW_UP_LENGTH PP_NP_GEN MECH_P2P 5 0x7f;
    mk_mf PPM_ANNOUNCE PP_ANNOUNCE_LENGTH PP_NP_GEN MECH_E2E 5 PP_LOG_ANNOUNCE;
    mk_mf PPM_SIGNALING (u16 (-1)) PP_NP_GEN MECH_E2E 5 0x7f;
    mk_mf PPM_SIGNALING (u16 (-1)) PP_NP_GEN MECH_P2P 5 0x7f;
    mk_mf PPM_MANAGEMENT (u16 (-1)) PP_NP_GEN MECH_E2E 4 0x7f ].

Definition msg_fmt (k : nat) : pp_msgtype_info := nth k msgtype_info (mk_mf 0 0 0 0 0 0).

(** ** Timestamps *)

Definition pack_origin_timestamp (t : pp_time) (buf : list Z) : list Z :=
  put32 40 (Z.shiftr (scaled_nsecs t) 16)
    (put32 36 (secs t) (put16 34 (Z.shiftr (secs t) 32) buf)).

Definition unpack_origin_timestamp (buf : list Z) : pp_time :=
  mk_time (Z.lor (Z.shiftl (get16 buf 34) 32) (get32 buf 36))
    (Z.shiftl (get32 buf 40) 16).

(** ** Header *)

Definition msg_unpack_header (buf : list Z) : MsgHeader :=
  mk_hdr (Z.shiftr (get8 buf 0) 4) (Z.land (get8 buf 0) 0x0F) (Z.land (get8 buf 1) 0x0F)
    (get16 buf 2) (get8 buf 4) (slice 6 2 buf) (mk_time 0 (i64 (get64 buf 8)))
    (mk_pid (slice 20 8 buf) (get16 buf 28)) (get16 buf 30) (i8 (get8 buf 33)).

(** [msg_init_header] *)
Definition init_header (port : portDS_t) (domain : Z) (buf : list Z) : list Z :=
  let buf := write 0 (replicate 34 0) buf in
  let buf := put8 1 (Z.lor (Z.shiftl (minorVersionNumber port) 4)
                       (Z.land (versionNumber port) 0xF)) buf in
  let buf := put8 4 domain buf in
  let buf := write 20 (clockIdentity (portIdentity port)) buf in
  put16 28 (portNumber (portIdentity port)) buf.

(** [__msg_pack_header] *)
Definition log_interval (port : portDS_t) (log : Z) : Z :=
  if log =? PP_LOG_ANNOUNCE then logAnnounceInterval port
  else if log =? PP_LOG_SYNC then logSyncInterval port
  else if log =? PP_LOG_REQUEST then logMinDelayReqInterval port
  else log.

Definition pack_header (port : portDS_t) (mf : pp_msgtype_info) (buf : list Z) : list Z :=
  let buf := put8 0 (mf_msg_type mf) buf in
  let buf := put16 2 (mf_msglen mf) buf in
  let buf := put64 8 0 buf in
  let buf := put16 6 0 buf in
  let buf := put8 32 (mf_controlField mf) buf in
  put8 33 (log_interval port (mf_logMessageInterval mf)) buf.

(** ** Message bodies *)

(** [msg_set_announce_flags]: the two flag bytes. *)
Definition announce_flags (prop : timePropertiesDS_t) : list Z :=
  let bit k z := if truth z then Z.shiftl 1 k else 0 in
  [ 0;
    Z.lor (bit 0 (leap61 prop)) (Z.lor (bit 1 (leap59 prop))
      (Z.lor (bit 2 (currentUtcOffsetValid prop)) (Z.lor (bit 3 (ptpTimescale prop))
        (Z.lor (bit 4 (timeTraceable prop)) (bit 5 (frequencyTraceable prop)))))) ].

Definition pack_announce (prop : timePropertiesDS_t) (par : parentDS_t) (cur : currentDS_t)
    (buf : list Z) : list Z :=
  let buf := write 6 (announce_flags prop) buf in
  let buf := write 34 (replicate 30 0) buf in
  let buf := put16 44 (currentUtcOffset prop) buf in
  let buf := put8 47 (par_grandmasterPriority1 par) buf in
  let buf := put8 48 (clockClass (par_grandmasterClockQuality par)) buf in
  let buf := put8 49 (clockAccuracy (par_grandmasterClockQuality par)) buf in
  let buf := put16 50 (offsetScaledLogVariance (par_grandmasterClockQuality par)) buf in
  let buf := put8 52 (par_grandmasterPriority2 par) buf in
  let buf := write 53 (par_grandmasterIdentity par) buf in
  let buf := put8 61 (Z.shiftr (cur_stepsRemoved cur) 8) buf in
  let buf := put8 62 (cur_stepsRemoved cur) buf in
  put8 63 (timeSource prop) buf.

(** [msg_unpack_announce] before the extension's hook. *)
Definition unpack_announce (buf : list Z) : MsgAnnounce :=
  mk_ann (unpack_origin_timestamp buf) (i16 (get16 buf 44)) (get8 buf 47)
    (mk_cq (get8 buf 48) (get8 buf 49) (get16 buf 50)) (get8 buf 52) (slice 53 8 buf)
    (u16 (Z.shiftl (get8 buf 61) 8 + get8 buf 62)) (get8 buf 63) (replicate 4 0).

Definition pack_sync (t : pp_time) (buf : list Z) : list Z :=
  pack_origin_timestamp t (write 34 (replicate 10 0) (put8 6 PP_TWO_STEP_FLAG buf)).

Definition pack_follow_up (seq : Z) (t : pp_time) (buf : list Z) : list Z :=
  put64 8 (Z.land (scaled_nsecs t) 0xffff) (pack_origin_timestamp t (put16 30 seq buf)).

Definition pack_delay_req (correction_field : Z) (t : pp_time) (buf : list Z) : list Z :=
  pack_origin_timestamp t (write 34 (replicate 10 0) (put64 8 correction_field buf)).

(** Body of Delay_Resp, and of Pdelay_Resp after its flag. *)
Definition pack_resp (correction_field : Z) (hdr : MsgHeader) (t : pp_time) (buf : list Z) : list Z :=
  let buf := put64 8 correction_field buf in
  let buf := put16 30 (h_sequenceId hdr) buf in
  let buf := pack_origin_timestamp t buf in
  let buf := write 44 (clockIdentity (h_sourcePortIdentity hdr)) buf in
  put16 52 (portNumber (h_sourcePortIdentity hdr)) buf.

Definition pack_pdelay_req (correction_field : Z) (t : pp_time) (buf : list Z) : list Z :=
  write 44 (replicate 10 0) (pack_origin_timestamp t (put64 8 correction_field buf)).

(** [msg_unpack_delay_resp], [msg_unpack_pdelay_resp] and
    [msg_unpack_pdelay_resp_follow_up]: timestamp and requesting port. *)
Definition unpack_resp (buf : list Z) : pp_time * PortIdentity :=
  (unpack_origin_timestamp buf, mk_pid (slice 44 8 buf) (get16 buf 52)).

(** ** Signaling *)

Record MsgSignaling := mk_sig { sig_targetPortIdentity : PortIdentity; sig_tlv : list Z }.

Definition pack_signaling (big : bool) (target : PortIdentity) (tlv_type tlv_length_field : Z)
    (buf : list Z) : list Z :=
  let buf := write 34 (clockIdentity target) buf in
  let buf := put16h big 42 (portNumber target) buf in
  let buf := put16 44 tlv_type buf in
  put16 46 tlv_length_field buf.

Definition msg_unpack_signaling (big : bool) (buf : list Z) : MsgSignaling :=
  mk_sig (mk_pid (slice 34 8 buf) (get16h big buf 42)) (drop 44 buf).

(** ** The monadic layer *)

Section Msg.
Context `{Config, Platform} {HK : Hooks}.

(** Apply a pure writer to the transmit buffer. *)
Definition wbuf (i : nat) (g : list Z -> list Z) : M unit := wr i (fun p => p <| tx_ptp ::= g |>).

Definition msg_init_header (i : nat) : M unit :=
  port ← DSPOR i;
  def ← DSDEF;
  wbuf i (init_header port (def_domainNumber def)).

(** [__msg_set_seq_id] *)
Definition msg_set_seq_id (i : nat) (mf : pp_msgtype_info) : M unit :=
  let k := Z.to_nat (mf_msg_type mf) in
  wr i (fun p => p <| sent_seq ::= alter (fun s => u16 (s + 1)) k |>);;
  s ← rd i (fun p => nth k (sent_seq p) 0);
  wbuf i (put16 30 s).

(** [__msg_pack_header] *)
Definition msg_pack_header (i : nat) (mf : pp_msgtype_info) : M Z :=
  port ← DSPOR i;
  wbuf i (pack_header port mf);;
  mret (mf_msglen mf).

(** [__msg_pack_signaling] *)
Definition msg_pack_signaling_fmt (i : nat) (fmt : nat) (target : PortIdentity)
    (tlv_type tlv_length_field : Z) : M Z :=
  if (PPM_MSG_FMT_MAX <=? fmt)%nat then mret 0
  else
    let mf := msg_fmt fmt in
    len ← msg_pack_header i mf;
    msg_set_seq_id i mf;;
    wbuf i (pack_signaling BIG_ENDIAN_HOST target tlv_type tlv_length_field);;
    mret len.
Definition msg_pack_signaling (i : nat) := msg_pack_signaling_fmt i PPM_SIGNALING_FMT.
Definition msg_pack_signaling_no_fowardable (i : nat) :=
  msg_pack_signaling_fmt i PPM_SIGNALING_NO_FWD_FMT.

(** [is_ext_hook_available(..) && !is_correction_field_compliant(ppi)]: the
    extension does not follow the standard use of the correction field. *)
Definition cf_not_compliant (i : nat) : M bool :=
  if_hook i hk_is_correction_field_compliant (fun h => v ← h i; mret (negb (truth v))) (mret false).

(** The length and the adjusted timestamp. *)
Definition msg_pack_sync (i : nat) (orig_tstamp : pp_time) : M Z :=
  let mf := msg_fmt PPM_SYNC_FMT in
  len ← msg_pack_header i mf;
  msg_set_seq_id i mf;;
  ts ← rd i timestampCorrectionPortDS;
  wbuf i (pack_sync (pp_time_add_interval orig_tstamp (egressLatency ts)));;
  mret len.

Definition msg_pack_announce (i : nat) : M Z :=
  let mf := msg_fmt PPM_ANNOUNCE_FMT in
  len ← msg_pack_header i mf;
  msg_set_seq_id i mf;;
  prop ← DSPRO; par ← DSPAR; cur ← DSCUR;
  wbuf i (pack_announce prop par cur);;
  if_hook i hk_pack_announce (fun h => h i) (mret len).

Definition msg_unpack_announce (i : nat) (buf : list Z) : M MsgAnnounce :=
  if_hook i hk_unpack_announce (fun h => h i buf (unpack_announce buf)) (mret (unpack_announce buf)).

Definition msg_pack_follow_up (i : nat) (prec_orig_tstamp : pp_time) : M Z :=
  len ← msg_pack_header i (msg_fmt PPM_FOLLOW_UP_FMT);
  s ← rd i (fun p => nth (Z.to_nat PPM_SYNC) (sent_seq p) 0);
  wbuf i (pack_follow_up s prec_orig_tstamp);;
  mret len.

(** Correction field of a (p)delay request. *)
Definition req_correction (i : nat) : M Z :=
  nc ← cf_not_compliant i;
  port ← DSPOR i;
  mret (if nc : bool then 0 else i64 (- delayAsymmetry port)).

Definition msg_pack_delay_req (i : nat) (now : pp_time) : M Z :=
  let mf := msg_fmt PPM_DELAY_REQ_FMT in
  len ← msg_pack_header i mf;
  msg_set_seq_id i mf;;
  cf ← req_correction i;
  ts ← rd i timestampCorrectionPortDS;
  wbuf i (pack_delay_req cf (pp_time_add_interval now (egressLatency ts)));;
  mret len.

(** Correction field of a (p)delay response. *)
Definition resp_correction (i : nat) (hdr : MsgHeader) (rcv_tstamp : pp_time) : M Z :=
  nc ← cf_not_compliant i;
  let sub_ns := Z.land (scaled_nsecs rcv_tstamp) 0xffff in
  mret (if nc : bool then sub_ns else i64 (pp_time_to_interval (h_cField hdr) - sub_ns)).

Definition msg_pack_delay_resp (i : nat) (hdr : MsgHeader) (rcv_tstamp : pp_time) : M Z :=
  len ← msg_pack_header i (msg_fmt PPM_DELAY_RESP_FMT);
  cf ← resp_correction i hdr rcv_tstamp;
  wbuf i (pack_resp cf hdr rcv_tstamp);;
  mret len.

(** *** Peer delay (msg-p2p.c) *)

(** The correction field of the received header is updated in place. *)
Definition msg_pack_pdelay_resp_follow_up (i : nat) (prec_orig_tstamp : pp_time) : M Z :=
  len ← msg_pack_header i (msg_fmt PPM_PDELAY_R_FUP_FMT);
  wr i (fun p => p <| received_ptp_header ::= fun h => h <| h_cField ::= fun c =>
    normalize_pp_time (c <| scaled_nsecs ::= fun n =>
      i64 (n + Z.land (scaled_nsecs prec_orig_tstamp) 0xffff) |>) |> |>);;
  hdr ← rd i received_ptp_header;
  wbuf i (put8 4 (h_domainNumber hdr));;
  wbuf i (pack_resp (scaled_nsecs (h_cField hdr)) hdr prec_orig_tstamp);;
  mret len.

Definition msg_pack_pdelay_req (i : nat) (now : pp_time) : M Z :=
  let mf := msg_fmt PPM_PDELAY_REQ_FMT in
  len ← msg_pack_header i mf;
  msg_set_seq_id i mf;;
  cf ← req_correction i;
  wbuf i (pack_pdelay_req cf now);;
  mret len.

Definition msg_pack_pdelay_resp (i : nat) (hdr : MsgHeader) (rcv_tstamp : pp_time) : M Z :=
  len ← msg_pack_header i (msg_fmt PPM_PDELAY_RESP_FMT);
  cf ← resp_correction i hdr rcv_tstamp;
  wbuf i (fun b => pack_resp cf hdr rcv_tstamp (put8 6 PP_TWO_STEP_FLAG b));;
  mret len.

(** ** Sending (common-fun.c) *)

(** [__send_and_log] *)
Definition send_and_log (i : nat) (msglen chtype : Z) (fmt : nat) : M Z :=
  buf ← rd i tx_ptp;
  off ← rd i tx_offset;
  '(ret, stamp) ← op (n_send i buf (i32 (msglen + off)) fmt);
  (match stamp with Some t => wr i (fun p => p <| last_snt_time := t |>) | None => mret tt end);;
  if ret =? PP_SEND_DROP then mret 0
  else if ret <? msglen then mret PP_SEND_ERROR
  else
    adjust ← if_hook i hk_get_egress_latency (fun h => h i)
               (rd i (fun p => egressLatency (timestampCorrectionPortDS p)));
    wr i (fun p => p <| last_snt_time ::= fun t => pp_time_add_interval t adjust |>);;
    t ← rd i last_snt_time;
    if (chtype =? PP_NP_EVT) && is_incorrect t then mret PP_SEND_NO_STAMP
    else
      wr i (fun p => p <| ptp_tx_count ::= fun n => (n + 1) mod LONG_MODULUS |>);;
      mret 0.

Definition t_now (i : nat) : M pp_time := op (t_get i).

Definition msg_issue_announce (i : nat) : M Z :=
  len ← msg_pack_announce i;
  send_and_log i len PP_NP_GEN PPM_ANNOUNCE_FMT.

Definition msg_issue_sync_followup (i : nat) : M Z :=
  now ← t_now i;
  len ← msg_pack_sync i now;
  e ← send_and_log i len PP_NP_EVT PPM_SYNC_FMT;
  if truth e then mret e
  else
    t ← rd i last_snt_time;
    len ← msg_pack_follow_up i t;
    send_and_log i len PP_NP_GEN PPM_FOLLOW_UP_FMT.

Definition msg_issue_delay_req (i : nat) : M Z :=
  now ← t_now i;
  len ← msg_pack_delay_req i now;
  send_and_log i len PP_NP_EVT PPM_DELAY_REQ_FMT.

Definition msg_issue_pdelay_req (i : nat) : M Z :=
  wr i (fun p => p <| t4 ::= mark_incorrect |>);;
  now ← t_now i;
  wr i (fun p => p <| received_dresp_fup := 0 |> <| received_dresp := 0 |>);;
  len ← msg_pack_pdelay_req i now;
  send_and_log i len PP_NP_EVT PPM_PDELAY_REQ_FMT.

Definition msg_issue_request (i : nat) : M Z :=
  p2p ← rd i is_delayMechanismP2P;
  if p2p : bool then msg_issue_pdelay_req i else msg_issue_delay_req i.

Definition msg_issue_delay_resp (i : nat) (t : pp_time) : M Z :=
  hdr ← rd i received_ptp_header;
  len ← msg_pack_delay_resp i hdr t;
  send_and_log i len PP_NP_GEN PPM_DELAY_RESP_FMT.

Definition msg_issue_pdelay_resp_followup (i : nat) (t : pp_time) : M Z :=
  len ← msg_pack_pdelay_resp_follow_up i t;
  send_and_log i len PP_NP_GEN PPM_PDELAY_R_FUP_FMT.

Definition msg_issue_pdelay_resp (i : nat) (t : pp_time) : M Z :=
  hdr ← rd i received_ptp_header;
  len ← msg_pack_pdelay_resp i hdr t;
  send_and_log i len PP_NP_EVT PPM_PDELAY_RESP_FMT.

(** *** Sending on several vlans (fsm-lib.c) *)

Definition vlan_issue (i : nat) (issue : nat -> M Z) : M Z :=
  n ← rd i nvlans;
  vl ← rd i vlans;
  let vlan := if truth CONFIG_VLAN_ARRAY_SIZE && (n =? 1) then nth 0 vl 0 else 0 in
  if (CONFIG_VLAN_ARRAY_SIZE <=? 1) || (n <=? 1) then
    wr i (fun p => p <| peer_vid := u16 vlan |>);;
    issue i
  else
    for_each (seq 0 (Z.to_nat n)) (fun k =>
      wr i (fun p => p <| peer_vid := u16 (nth k (vlans p) 0) |>);;
      issue i;;
      mret tt);;
    mret 0.
Definition pp_vlan_issue_announce (i : nat) : M Z := vlan_issue i msg_issue_announce.
Definition pp_vlan_issue_sync_followup (i : nat) : M Z := vlan_issue i msg_issue_sync_followup.

End Msg.

(** ** What sending leaves alone *)

(** A projection of an instance that no message function writes: it ignores
    the transmit buffer, the sequence numbers, the timestamps and the peer
    delay bookkeeping. *)
Record msg_frame {K} (c : pp_instance -> K) : Prop := {
  fr_tx : forall p g, c (p <| tx_ptp ::= g |>) = c p;
  fr_seq : forall p g, c (p <| sent_seq ::= g |>) = c p;
  fr_snt : forall p g, c (p <| last_snt_time ::= g |>) = c p;
  fr_cnt : forall p g, c (p <| ptp_tx_count ::= g |>) = c p;
  fr_t4 : forall p g, c (p <| t4 ::= g |>) = c p;
  fr_dresp : forall p x y, c (p <| received_dresp_fup := x |> <| received_dresp := y |>) = c p;
  fr_vid : forall p x, c (p <| peer_vid := x |>) = c p;
  fr_hdr : forall p g, c (p <| received_ptp_header ::= fun h => h <| h_cField ::= g |> |>) = c p }.

Section Frame.
Context `{Config, Platform} {HK : Hooks}.
Context {K G : Type} (c : pp_instance -> K) (g : pp_globals -> G) (Hc : msg_frame c).

(** The hooks that sending may call leave the view alone. *)
Hypothesis hooks_quiet : forall e i,
  (forall h, hk_is_correction_field_compliant (hooks_of e) = Some h -> guar (same_view c g) (h i)) /\
  (forall h, hk_get_egress_latency (hooks_of e) = Some h -> guar (same_view c g) (h i)) /\
  (forall h, hk_pack_announce (hooks_of e) = Some h -> guar (same_view c g) (h i)).

Lemma view_wbuf i f : guar (same_view c g) (wbuf i f).
Proof. apply guar_view_wr. intros. apply Hc. Qed.
Lemma view_set_seq_id i mf : guar (same_view c g) (msg_set_seq_id i mf).
Proof.
  unfold msg_set_seq_id. cbn zeta. apply guar_bind; [apply _|apply guar_view_wr; intros; apply Hc|].
  walk. apply view_wbuf.
Qed.
Lemma view_pack_header i mf : guar (same_view c g) (msg_pack_header i mf).
Proof. unfold msg_pack_header. walk. apply view_wbuf. Qed.
Lemma view_cf i : guar (same_view c g) (cf_not_compliant i).
Proof.
  unfold cf_not_compliant. apply guar_if_hook; [apply _| |walk].
  intros h e He. apply guar_bind; [apply _|destruct (hooks_quiet e i) as (? & ? & ?); eauto|walk].
Qed.
Hint Resolve view_wbuf view_set_seq_id view_pack_header view_cf : guar.

Lemma view_req_correction i : guar (same_view c g) (req_correction i).
Proof. unfold req_correction. walk. Qed.
Lemma view_resp_correction i hdr t : guar (same_view c g) (resp_correction i hdr t).
Proof. unfold resp_correction. walk. Qed.
Hint Resolve view_req_correction view_resp_correction : guar.

Lemma view_send_and_log i len ch fmt : guar (same_view c g) (send_and_log i len ch fmt).
Proof.
  unfold send_and_log. walk.
  - apply guar_view_wr. intros. apply (fr_snt c Hc).
  - apply guar_if_hook; [apply _| |walk]. intros h e He. destruct (hooks_quiet e i) as (? & ? & ?); eauto.
  - apply guar_view_wr. intros. apply (fr_snt c Hc).
  - apply guar_view_wr. intros. apply (fr_cnt c Hc).
Qed.
Hint Resolve view_send_and_log : guar.

Lemma view_t_now i : guar (same_view c g) (t_now i).
Proof. unfold t_now. walk. Qed.
Hint Resolve view_t_now : guar.

Lemma view_issue_announce i : guar (same_view c g) (msg_issue_announce i).
Proof.
  unfold msg_issue_announce, msg_pack_announce. walk.
  apply guar_if_hook; [apply _| |walk]. intros h e He. destruct (hooks_quiet e i) as (? & ? & ?); eauto.
Qed.
Lemma view_issue_sync_followup i : guar (same_view c g) (msg_issue_sync_followup i).
Proof. unfold msg_issue_sync_followup, msg_pack_sync, msg_pack_follow_up. walk. Qed.
Lemma view_issue_request i : guar (same_view c g) (msg_issue_request i).
Proof.
  unfold msg_issue_request, msg_issue_pdelay_req, msg_issue_delay_req, msg_pack_delay_req,
    msg_pack_pdelay_req. walk.
  - apply guar_view_wr. intros. apply (fr_t4 c Hc).
  - apply guar_view_wr. intros. apply (fr_dresp c Hc).
Qed.
Lemma view_issue_delay_resp i t : guar (same_view c g) (msg_issue_delay_resp i t).
Proof. unfold msg_issue_delay_resp, msg_pack_delay_resp. walk. Qed.
Lemma view_issue_pdelay_resp i t : guar (same_view c g) (msg_issue_pdelay_resp i t).
Proof. unfold msg_issue_pdelay_resp, msg_pack_pdelay_resp. walk. Qed.
Lemma view_issue_pdelay_resp_followup i t : guar (same_view c g) (msg_issue_pdelay_resp_followup i t).
Proof.
  unfold msg_issue_pdelay_resp_followup, msg_pack_pdelay_resp_follow_up. walk.
  apply guar_view_wr. intros. apply (fr_hdr c Hc).
Qed.
Lemma view_vlan_issue i issue : (forall j, guar (same_view c g) (issue j)) ->
  guar (same_view c g) (vlan_issue i issue).
Proof.
  intros Hi. unfold vlan_issue. walk; try apply Hi; apply guar_view_wr; intros; apply (fr_vid c Hc).
Qed.

End Frame.

(** ** Round trips *)

Lemma slice_write_id k l buf : length l = 8%nat -> (k + 8 <= length buf)%nat ->
  slice k 8 (write k l buf) = l.
Proof. intros Hl Hk. rewrite <- Hl. apply slice_write_same. lia. Qed.

(** Timestamps the wire can carry: 48 bits of seconds, 32 bits of nanoseconds. *)
Definition wire_time (t : pp_time) : Prop :=
  0 <= secs t < 281474976710656 /\ 0 <= scaled_nsecs t < 281474976710656.

Lemma unpack_pack_timestamp t buf : wire_time t -> (44 <= length buf)%nat ->
  unpack_origin_timestamp (pack_origin_timestamp t buf) =
  mk_time (secs t) (scaled_nsecs t / 65536 * 65536).
Proof.
  intros [Hs Hn] Hl. unfold unpack_origin_timestamp, pack_origin_timestamp. field.
  rewrite !Z.shiftr_div_pow2, !Z.shiftl_mul_pow2 by lia.
  change (2 ^ 32) with 4294967296. change (2 ^ 16) with 65536.
  rewrite (Z.mod_small (secs t / 4294967296)) by dlia.
  rewrite (Z.mod_small (scaled_nsecs t / 65536)) by dlia.
  f_equal. rewrite Z.lor_comm.
  change 4294967296 with (2 ^ 32). rewrite <- Z.shiftl_mul_pow2 by lia.
  rewrite <- Z.shiftr_div_pow2, <- Z.land_ones by lia.
  rewrite <- (Z.ldiff_ones_r (secs t) 32) by lia.
  rewrite Z.lor_comm. apply Z.lor_ldiff_and.
Qed.

Lemma unpack_resp_pack cf hdr t buf : wire_time t -> (54 <= length buf)%nat ->
  length (clockIdentity (h_sourcePortIdentity hdr)) = 8%nat ->
  0 <= portNumber (h_sourcePortIdentity hdr) < 65536 ->
  unpack_resp (pack_resp cf hdr t buf) =
  (mk_time (secs t) (scaled_nsecs t / 65536 * 65536), h_sourcePortIdentity hdr).
Proof.
  intros Ht Hl Hid Hp. unfold unpack_resp, pack_resp. f_equal.
  - unfold unpack_origin_timestamp, put16, put64, get16, get32.
    rewrite !(slice_write_other _ _ 52), !(slice_write_other _ _ 44) by (rewrite ?length_be; lia).
    apply unpack_pack_timestamp; [done|blen].
  - unfold pack_origin_timestamp. field. rewrite slice_write_id; [|done|blen].
    rewrite Z.mod_small by lia. by destruct (h_sourcePortIdentity hdr).
Qed.

Lemma resp_header_cf cf hdr t buf : (54 <= length buf)%nat ->
  length (clockIdentity (h_sourcePortIdentity hdr)) = 8%nat ->
  h_cField (msg_unpack_header (pack_resp cf hdr t buf)) = mk_time 0 (i64 cf) /\
  h_sequenceId (msg_unpack_header (pack_resp cf hdr t buf)) = u16 (h_sequenceId hdr).
Proof.
  intros Hl Hid. unfold msg_unpack_header, pack_resp, pack_origin_timestamp. cbn [h_cField h_sequenceId].
  unfold get16, get64, put16, put32, put64. slices. rewrite !of_be_be.
  change (256 ^ Z.of_nat 8) with 18446744073709551616. change (256 ^ Z.of_nat 2) with 65536.
  split; [|done]. f_equal. unfold i64. rewrite Zplus_mod_idemp_l. done.
Qed.

(** A port identity as the wire carries it. *)
Definition wire_pid (p : PortIdentity) : Prop :=
  length (clockIdentity p) = 8%nat /\ 0 <= portNumber p < 65536.

Lemma length_pack_header port mf buf : length (pack_header port mf buf) = length buf.
Proof. unfold pack_header, put8, put16, put64. by rewrite !length_write. Qed.

Lemma length_init_header port d buf : length (init_header port d buf) = length buf.
Proof. unfold init_header, put8, put16. by rewrite !length_write. Qed.

Lemma low_nibble v : 0 <= v < 16 -> Z.land v 0x0F = v /\ Z.shiftr v 4 = 0.
Proof.
  intros Hv. change 0x0F with (Z.ones 4). rewrite Z.land_ones, Z.shiftr_div_pow2 by lia.
  change (2 ^ 4) with 16. split; [apply Z.mod_small|apply Z.div_small]; lia.
Qed.

Lemma unpack_pack_header port mf d buf : (34 <= length buf)%nat -> wire_pid (portIdentity port) ->
  versionNumber port = 2 -> minorVersionNumber port = 0 -> 0 <= d < 256 ->
  0 <= mf_msg_type mf < 16 -> 0 <= mf_msglen mf < 65536 ->
  -128 <= log_interval port (mf_logMessageInterval mf) < 128 ->
  let h := msg_unpack_header (pack_header port mf (init_header port d buf)) in
  h = mk_hdr 0 (mf_msg_type mf) 2 (mf_msglen mf) d [0; 0] (mk_time 0 0) (portIdentity port)
        (h_sequenceId h) (log_interval port (mf_logMessageInterval mf)).
Proof.
  intros Hl [Hid Hp] Hv Hm Hd Ht Hlen Hlog h. subst h. unfold msg_unpack_header. cbn [h_sequenceId].
  unfold pack_header, init_header. rewrite Hv, Hm. field.
  rewrite slice_write_id by (done || blen).
  rewrite !(Z.mod_small (mf_msg_type mf)), (Z.mod_small d), (Z.mod_small (mf_msglen mf)),
    (Z.mod_small (portNumber _)) by lia.
  destruct (low_nibble (mf_msg_type mf) Ht) as [-> ->].
  change (slice 6 2 ?b) with (take 2 (drop 6 b)).
  f_equal; try reflexivity.
  - by destruct (portIdentity port).
  - unfold i8. rewrite Zplus_mod_idemp_l. apply i8_id. done.
Qed.

Definition wire_cq (q : ClockQuality) : Prop :=
  0 <= clockClass q < 256 /\ 0 <= clockAccuracy q < 256 /\ 0 <= offsetScaledLogVariance q < 65536.

Lemma unpack_pack_announce prop par cur buf : (64 <= length buf)%nat ->
  -32768 <= currentUtcOffset prop < 32768 -> wire_cq (par_grandmasterClockQuality par) ->
  0 <= par_grandmasterPriority1 par < 256 -> 0 <= par_grandmasterPriority2 par < 256 ->
  length (par_grandmasterIdentity par) = 8%nat -> 0 <= cur_stepsRemoved cur < 65536 ->
  0 <= timeSource prop < 256 ->
  unpack_announce (pack_announce prop par cur buf) =
  mk_ann (mk_time 0 0) (currentUtcOffset prop) (par_grandmasterPriority1 par)
    (par_grandmasterClockQuality par) (par_grandmasterPriority2 par)
    (par_grandmasterIdentity par) (cur_stepsRemoved cur) (timeSource prop) (replicate 4 0) /\
  slice 6 2 (pack_announce prop par cur buf) = announce_flags prop.
Proof.
  intros Hl Hu (Hc & Ha & Ho) H1 H2 Hid Hs Ht.
  assert (length (announce_flags prop) = 2%nat) as Hf by done.
  unfold pack_announce, unpack_announce. split.
  - unfold unpack_origin_timestamp. field. rewrite slice_write_id by (done || blen).
    rewrite (Z.mod_small (clockClass _)), (Z.mod_small (clockAccuracy _)),
      (Z.mod_small (offsetScaledLogVariance _)), (Z.mod_small (par_grandmasterPriority1 _)),
      (Z.mod_small (par_grandmasterPriority2 _)), (Z.mod_small (timeSource _)) by lia.
    f_equal.
    + unfold i16. rewrite Zplus_mod_idemp_l. by apply i16_id.
    + by destruct (par_grandmasterClockQuality par).
    + rewrite Z.shiftl_mul_pow2, Z.shiftr_div_pow2 by lia. change (2 ^ 8) with 256.
      rewrite (Z.mod_small (_ / 256)) by dlia. rewrite u16_id by dlia. dlia.
  - field. rewrite <- Hf. apply slice_write_same. rewrite Hf. lia.
Qed.

Lemma sub_ns_mod n : Z.land n 0xffff = n mod 65536.
Proof. change 0xffff with (Z.ones 16). by rewrite Z.land_ones. Qed.

Lemma unpack_timestamp_other b k l : (k + length l <= 34)%nat ->
  unpack_origin_timestamp (write k l b) = unpack_origin_timestamp b.
Proof.
  intros Hk. unfold unpack_origin_timestamp, get16, get32.
  by rewrite !(slice_write_other _ _ k l) by lia.
Qed.

(** A Follow_Up carries the timestamp without loss: the fraction of a
    nanosecond travels in the correction field. *)
Lemma follow_up_fields seq t buf : wire_time t -> (44 <= length buf)%nat ->
  let f := pack_follow_up seq t buf in
  unpack_origin_timestamp f = mk_time (secs t) (scaled_nsecs t / 65536 * 65536) /\
  h_cField (msg_unpack_header f) = mk_time 0 (scaled_nsecs t mod 65536) /\
  h_sequenceId (msg_unpack_header f) = u16 seq.
Proof.
  intros Ht Hl f. subst f. unfold pack_follow_up. rewrite sub_ns_mod. split.
  - unfold put64. rewrite unpack_timestamp_other by (rewrite length_be; lia).
    apply unpack_pack_timestamp; [done|]. unfold put16. blen.
  - destruct Ht as [_ Hn]. unfold msg_unpack_header, pack_origin_timestamp. cbn [h_cField h_sequenceId].
    field. pose proof (Z.mod_pos_bound (scaled_nsecs t) 65536 ltac:(lia)).
    rewrite Z.mod_small by lia. rewrite i64_id by lia. done.
Qed.

(** Signaling messages between hosts of the same byte order. *)
Lemma signaling_target big target ty len buf : (48 <= length buf)%nat -> wire_pid target ->
  sig_targetPortIdentity (msg_unpack_signaling big (pack_signaling big target ty len buf)) = target.
Proof.
  intros Hl [Hid Hp]. unfold msg_unpack_signaling, pack_signaling. cbn [sig_targetPortIdentity].
  assert (length (host_order big (be 2 (portNumber target))) = 2%nat) as Hh
    by (destruct big; [done|]; cbn [host_order]; by rewrite length_reverse, length_be).
  unfold get16h, put16h, put16.
  rewrite !(slice_write_other _ _ 46), !(slice_write_other _ _ 44) by (rewrite length_be; lia).
  rewrite (slice_write_other 34 8 42) by lia. rewrite slice_write_id by (done || lia).
  pose proof (slice_write_same 42 (host_order big (be 2 (portNumber target)))
    (write 34 (clockIdentity target) buf)) as Hs.
  rewrite Hh in Hs. rewrite Hs by blen.
  assert (host_order big (host_order big (be 2 (portNumber target))) = be 2 (portNumber target)) as ->
    by (destruct big; [done|apply reverse_involutive]).
  rewrite of_be_be. rewrite Z.mod_small by (change (256 ^ Z.of_nat 2) with 65536; lia).
  by destruct target.
Qed.

(** ** Whole frames *)

(** The constant part of the header is in place: what [msg_init_header]
    writes and no later packing touches. *)
Definition header_ready (port : portDS_t) (d : Z) (buf : list Z) : Prop :=
  (64 <= length buf)%nat /\ slice 1 1 buf = [2] /\ slice 4 1 buf = [d] /\
  slice 20 8 buf = clockIdentity (portIdentity port) /\
  slice 28 2 buf = be 2 (portNumber (portIdentity port)).

Lemma init_header_ready port d buf : (64 <= length buf)%nat ->
  length (clockIdentity (portIdentity port)) = 8%nat ->
  versionNumber port = 2 -> minorVersionNumber port = 0 -> 0 <= d < 256 ->
  header_ready port d (init_header port d buf).
Proof.
  intros Hl Hid Hv Hm Hd. unfold header_ready. rewrite length_init_header. split; [done|].
  unfold init_header. rewrite Hv, Hm. unfold put8, put16. slices.
  rewrite slice_write_id by (done || blen). cbn [be app]. rewrite (Z.mod_small d) by lia. done.
Qed.

(** The frame [msg_pack_announce] leaves in the buffer. *)
Definition announce_frame (port : portDS_t) (prop : timePropertiesDS_t) (par : parentDS_t)
    (cur : currentDS_t) (seq : Z) (buf : list Z) : list Z :=
  pack_announce prop par cur (put16 30 seq (pack_header port (msg_fmt PPM_ANNOUNCE_FMT) buf)).

Lemma announce_frame_header port d prop par cur seq buf : header_ready port d buf ->
  wire_pid (portIdentity port) -> 0 <= seq < 65536 -> -128 <= logAnnounceInterval port < 128 ->
  length (par_grandmasterIdentity par) = 8%nat ->
  msg_unpack_header (announce_frame port prop par cur seq buf) =
  mk_hdr 0 PPM_ANNOUNCE 2 PP_ANNOUNCE_LENGTH d (announce_flags prop) (mk_time 0 0)
    (portIdentity port) seq (logAnnounceInterval port).
Proof.
  intros (Hl & H1 & H4 & H20 & H28) [Hid Hp] Hs Hlog Hgm.
  assert (length (announce_flags prop) = 2%nat) as Hf by done.
  unfold msg_unpack_header, announce_frame, pack_announce, pack_header. field.
  rewrite H1, H4, H20, H28.
  pose proof (fun b => slice_write_same 6 (announce_flags prop) b) as Hw. rewrite Hf in Hw.
  rewrite Hw by blen. cbn [mf_msg_type mf_msglen mf_logMessageInterval msg_fmt msgtype_info nth
    PPM_ANNOUNCE_FMT].
  rewrite of_be_be. change (256 ^ Z.of_nat 2) with 65536.
  rewrite (Z.mod_small (portNumber _)), (Z.mod_small seq) by lia. f_equal; try reflexivity.
  - by destruct (portIdentity port).
  - unfold log_interval, PP_LOG_ANNOUNCE. cbn [Z.eqb]. unfold i8. rewrite Zplus_mod_idemp_l.
    by apply i8_id.
Qed.

Lemma announce_frame_body port prop par cur seq buf : (64 <= length buf)%nat ->
  -32768 <= currentUtcOffset prop < 32768 -> wire_cq (par_grandmasterClockQuality par) ->
  0 <= par_grandmasterPriority1 par < 256 -> 0 <= par_grandmasterPriority2 par < 256 ->
  length (par_grandmasterIdentity par) = 8%nat -> 0 <= cur_stepsRemoved cur < 65536 ->
  0 <= timeSource prop < 256 ->
  unpack_announce (announce_frame port prop par cur seq buf) =
  mk_ann (mk_time 0 0) (currentUtcOffset prop) (par_grandmasterPriority1 par)
    (par_grandmasterClockQuality par) (par_grandmasterPriority2 par)
    (par_grandmasterIdentity par) (cur_stepsRemoved cur) (timeSource prop) (replicate 4 0).
Proof.
  intros. unfold announce_frame. apply unpack_pack_announce; try done.
  unfold put16. rewrite length_write, length_pack_header. done.
Qed.

Section Run.
Context `{Config, Platform} {HK : Hooks}.

Lemma set_seq_id_run i mf w : (i < length (insts w))%nat ->
  (Z.to_nat (mf_msg_type mf) < length (sent_seq (inst w i)))%nat ->
  let s := u16 (nth (Z.to_nat (mf_msg_type mf)) (sent_seq (inst w i)) 0 + 1) in
  let w' := (msg_set_seq_id i mf w).2 in
  inst w' i = (inst w i) <| sent_seq ::= alter (fun s => u16 (s + 1)) (Z.to_nat (mf_msg_type mf)) |>
    <| tx_ptp ::= put16 30 s |> /\ glbs w' = glbs w /\ length (insts w') = length (insts w).
Proof.
  intros Hi Hk s w'. subst w'. unfold msg_set_seq_id, wbuf, wr, rd. rewrite !bind_unfold.
  cbn [fst snd]. rewrite inst_set_same by (by rewrite length_set_inst).
  rewrite !inst_set_same by done. rewrite !length_set_inst. split; [|done].
  cbn [sent_seq upd setter]. rewrite nth_lookup, list_lookup_alter_eq.
  subst s. rewrite nth_lookup.
  destruct (lookup_lt_is_Some_2 _ _ Hk) as [x Hx]. by rewrite Hx.
Qed.

Lemma pack_header_run i mf w : (i < length (insts w))%nat ->
  let r := msg_pack_header i mf w in
  r.1 = mf_msglen mf /\ inst r.2 i = (inst w i) <| tx_ptp ::= pack_header (portDS (inst w i)) mf |> /\
  glbs r.2 = glbs w /\ length (insts r.2) = length (insts w).
Proof.
  intros Hi r. subst r. unfold msg_pack_header, wbuf, DSPOR, wr, rd. rewrite !bind_unfold.
  cbn [mret M_ret fst snd]. by rewrite inst_set_same, length_set_inst.
Qed.

(** The frame built by [msg_pack_announce] when the extension adds nothing. *)
Lemma pack_announce_run i w : (i < length (insts w))%nat -> length (sent_seq (inst w i)) = 14%nat ->
  hk_pack_announce (hooks_of (protocol_extension (inst w i))) = None ->
  let p := inst w i in
  let seq := u16 (nth 11 (sent_seq p) 0 + 1) in
  let r := msg_pack_announce i w in
  r.1 = PP_ANNOUNCE_LENGTH /\
  tx_ptp (inst r.2 i) = announce_frame (portDS p) (timePropertiesDS (glbs w)) (parentDS (glbs w))
    (currentDS (glbs w)) seq (tx_ptp p) /\ nth 11 (sent_seq (inst r.2 i)) 0 = seq.
Proof.
  intros Hi Hseq Hh p seq r. subst r. unfold msg_pack_announce. cbn zeta. rewrite bind_unfold.
  destruct (pack_header_run i (msg_fmt PPM_ANNOUNCE_FMT) w Hi) as (E1 & E2 & E3 & E4).
  set (w1 := (msg_pack_header i (msg_fmt PPM_ANNOUNCE_FMT) w).2) in *. rewrite E1. clear E1.
  rewrite bind_unfold.
  destruct (set_seq_id_run i (msg_fmt PPM_ANNOUNCE_FMT) w1) as (F1 & F2 & F3);
    [lia|rewrite E2; change (11 < length (sent_seq (inst w i)))%nat; lia|].
  set (w2 := (msg_set_seq_id i (msg_fmt PPM_ANNOUNCE_FMT) w1).2) in *. clearbody w2.
  unfold DSPRO, DSPAR, DSCUR, rdG, wbuf, wr, if_hook, ext_hook, rd.
  rewrite !bind_unfold. cbn [fst snd]. rewrite F2, E3.
  rewrite inst_set_same by lia. rewrite F1, E2. cbn [protocol_extension upd setter].
  fold p in Hh. fold p. rewrite Hh. cbn [mret M_ret fst snd].
  rewrite inst_set_same by lia. rewrite F1, E2. cbn [tx_ptp sent_seq upd setter].
  split; [done|]. split; [reflexivity|].
  change (Z.to_nat (mf_msg_type (msg_fmt PPM_ANNOUNCE_FMT))) with 11%nat. subst seq.
  rewrite !nth_lookup, list_lookup_alter_eq. fold p.
  destruct (lookup_lt_is_Some_2 (sent_seq p) 11) as [x Hx]; [subst p; lia|]. by rewrite Hx.
Qed.

End Run.

(** The bits of the second flag byte of an Announce. *)
Lemma announce_flags_bits prop :
  let b := nth 1 (announce_flags prop) 0 in
  Z.testbit b 0 = truth (leap61 prop) /\ Z.testbit b 1 = truth (leap59 prop) /\
  Z.testbit b 2 = truth (currentUtcOffsetValid prop) /\ Z.testbit b 3 = truth (ptpTimescale prop) /\
  Z.testbit b 4 = truth (timeTraceable prop) /\ Z.testbit b 5 = truth (frequencyTraceable prop).
Proof.
  unfold announce_flags. cbn [nth].
  destruct (truth (leap61 prop)), (truth (leap59 prop)), (truth (currentUtcOffsetValid prop)),
    (truth (ptpTimescale prop)), (truth (timeTraceable prop)), (truth (frequencyTraceable prop)); by vm_compute.
Qed.

Lemma announce_flags_high prop k : 6 <= k -> Z.testbit (nth 1 (announce_flags prop) 0) k = false.
Proof.
  intros Hk. set (b := nth 1 _ 0). assert (0 <= b < 2 ^ 6) as Hb.
  { unfold b, announce_flags. cbn [nth].
    destruct (truth (leap61 prop)), (truth (leap59 prop)), (truth (currentUtcOffsetValid prop)),
      (truth (ptpTimescale prop)), (truth (timeTraceable prop)), (truth (frequencyTraceable prop)); by vm_compute. }
  rewrite <- (Z.mod_small b (2 ^ 6)) by done. by apply Z.mod_pow2_bits_high.
Qed.

(** ** Properties *)

(** C35. The Announce message a master builds, in a transmit buffer whose header [msg_init_header]
    prepared and on a port whose extension adds nothing to it (plain PTP and L1Sync; White Rabbit
    appends its TLV), decodes in the receiver's [msg_unpack_header] and [msg_unpack_announce] to
    the master's own data sets, whose members are within their wire formats: port identity,
    domain, next sequence number, announce interval, the six time properties flags each in its bit
    (leap61, leap59, UTC offset valid, PTP timescale, time traceable, frequency traceable) with
    every other flag clear, UTC offset, grandmaster attributes, steps removed and time source. *)
Theorem announce_roundtrip `{Config, Platform} {HK : Hooks} w i d :
  let p := inst w i in
  let prop := timePropertiesDS (glbs w) in
  let par := parentDS (glbs w) in
  let cur := currentDS (glbs w) in
  (i < length (insts w))%nat -> length (sent_seq p) = 14%nat ->
  hk_pack_announce (hooks_of (protocol_extension p)) = None ->
  header_ready (portDS p) d (tx_ptp p) -> wire_pid (portIdentity (portDS p)) ->
  -128 <= logAnnounceInterval (portDS p) < 128 ->
  -32768 <= currentUtcOffset prop < 32768 -> wire_cq (par_grandmasterClockQuality par) ->
  0 <= par_grandmasterPriority1 par < 256 -> 0 <= par_grandmasterPriority2 par < 256 ->
  length (par_grandmasterIdentity par) = 8%nat -> 0 <= cur_stepsRemoved cur < 65536 ->
  0 <= timeSource prop < 256 ->
  let frame := tx_ptp (inst (msg_pack_announce i w).2 i) in
  let flags := h_flagField (msg_unpack_header frame) in
  msg_unpack_header frame =
    mk_hdr 0 PPM_ANNOUNCE 2 PP_ANNOUNCE_LENGTH d flags (mk_time 0 0)
      (portIdentity (portDS p)) (u16 (nth 11 (sent_seq p) 0 + 1)) (logAnnounceInterval (portDS p)) /\
  length flags = 2%nat /\ nth 0 flags 0 = 0 /\ (forall k, 6 <= k -> Z.testbit (nth 1 flags 0) k = false) /\
  Z.testbit (nth 1 flags 0) 0 = truth (leap61 prop) /\
  Z.testbit (nth 1 flags 0) 1 = truth (leap59 prop) /\
  Z.testbit (nth 1 flags 0) 2 = truth (currentUtcOffsetValid prop) /\
  Z.testbit (nth 1 flags 0) 3 = truth (ptpTimescale prop) /\
  Z.testbit (nth 1 flags 0) 4 = truth (timeTraceable prop) /\
  Z.testbit (nth 1 flags 0) 5 = truth (frequencyTraceable prop) /\
  unpack_announce frame =
    mk_ann (mk_time 0 0) (currentUtcOffset prop) (par_grandmasterPriority1 par)
      (par_grandmasterClockQuality par) (par_grandmasterPriority2 par)
      (par_grandmasterIdentity par) (cur_stepsRemoved cur) (timeSource prop) (replicate 4 0).
Proof.
  intros p prop par cur Hi Hs Hh Hr Hp Hlog Hu Hq H1 H2 Hid Hst Hts frame.
  destruct (pack_announce_run i w Hi Hs Hh) as (_ & Hf & _). subst frame. rewrite Hf.
  rewrite (announce_frame_header _ d) by (done || apply u16_range). cbn [h_flagField].
  split; [done|]. split; [done|]. split; [done|]. split; [apply announce_flags_high|].
  pose proof (announce_flags_bits prop) as Hb. split_and!; try apply Hb.
  apply announce_frame_body; try done. apply Hr.
Qed.

Lemma announce_roundtrip_witness :
  let w := Demo.demo_world [(Demo.demo_inst 0 PPS_MASTER) <| tx_ptp :=
    init_header (mk_portDS (mk_pid (Demo.demo_id 1) 1) 0 1 3 0 2 0 0 0 0 0 0) 7 (replicate 128 0) |>
    <| portDS := mk_portDS (mk_pid (Demo.demo_id 1) 1) 0 1 3 0 2 0 0 0 0 0 0 |> ] 0 in
  h_sourcePortIdentity (msg_unpack_header (tx_ptp (inst
    (@msg_pack_announce Demo.demo_platform demo_hooks 0 w).2 0)))
  = mk_pid (Demo.demo_id 1) 1.
Proof.
  intros w.
  destruct (@announce_roundtrip Demo.demo_config Demo.demo_platform demo_hooks w 0 7) as [-> _];
    try (vm_compute; repeat split; congruence); try (vm_compute; lia); try reflexivity.
  unfold header_ready. repeat split; vm_compute; try reflexivity; lia.
Defined.

(** C36. Two-step synchronisation loses nothing on the wire. For a transmission timestamp of the
    wire format with at most a second in its nanoseconds, and a correction field of the Sync with
    at most a second in its nanoseconds and 2^48 seconds, the slave's [t1], computed as in
    [slave_handle_followup] from the Follow_Up's timestamp and correction field, has exactly the
    value, to 2^-16 ns, of the master's transmission timestamp plus the Sync's correction field.
    *)
Theorem follow_up_exact seq t c0 buf : wire_time t -> scaled_nsecs t <= SNS_PER_S ->
  (44 <= length buf)%nat -> half_time c0 -> Z.abs (scaled_nsecs c0) <= SNS_PER_S ->
  Z.abs (secs c0) <= 281474976710656 ->
  let f := pack_follow_up seq t buf in
  tval (pp_time_add (pp_time_add c0 (unpack_origin_timestamp f)) (h_cField (msg_unpack_header f)))
  = tval c0 + tval t.
Proof.
  intros Ht Hn Hl Hc Hcn Hcs f. destruct (follow_up_fields seq t buf Ht Hl) as (E1 & E2 & _).
  subst f. rewrite E1, E2.
  pose proof (Z.mod_pos_bound (scaled_nsecs t) 65536 ltac:(lia)) as Hm.
  assert (0 <= scaled_nsecs t / 65536 * 65536 <= SNS_PER_S) as Hq by (unfold wire_time in Ht; dlia).
  destruct Ht as [Hs _].
  assert (half_time (mk_time (secs t) (scaled_nsecs t / 65536 * 65536))) as Hh
    by (unfold half_time; unfold_time; lia).
  pose proof (pp_time_add_tval c0 _ Hc Hh) as Ea.
  pose proof (normalize_spec _ (add_small c0 _ Hc Hh)) as (_ & Hb & _).
  fold (pp_time_add c0 (mk_time (secs t) (scaled_nsecs t / 65536 * 65536))) in Hb.
  set (a := pp_time_add c0 _) in *. clearbody a.
  rewrite pp_time_add_tval.
  - rewrite Ea. unfold_time. pose proof (Z.div_mod (scaled_nsecs t) 65536 ltac:(lia)). lia.
  - unfold half_time. unfold_time. lia.
  - unfold half_time. unfold_time. lia.
Qed.

Lemma follow_up_exact_witness :
  let t := mk_time 1600000000 12345678901234 in
  let f := pack_follow_up 7 t (replicate 128 0) in
  tval (pp_time_add (pp_time_add (mk_time 0 99) (unpack_origin_timestamp f))
          (h_cField (msg_unpack_header f))) = 99 + tval t.
Proof.
  apply (follow_up_exact 7 (mk_time 1600000000 12345678901234) (mk_time 0 99) (replicate 128 0));
    try (unfold wire_time, half_time; unfold_time; lia). cbn. lia.
Defined.

(** The Delay_Resp of a standard-conforming master gives the slave the exact reception time:
    the sub-nanosecond part goes into the correction field together with the request's own
    correction, and subtracting the field as [slave_handle_response] does yields the master's
    timestamp minus the request's correction field; the echo of the request's sequence number
    and port identity is what the slave matches. *)
Theorem delay_resp_exact hdr t buf : wire_time t -> scaled_nsecs t <= SNS_PER_S ->
  (54 <= length buf)%nat -> wire_pid (h_sourcePortIdentity hdr) ->
  0 <= h_sequenceId hdr < 65536 -> secs (h_cField hdr) = 0 ->
  Z.abs (scaled_nsecs (h_cField hdr)) <= 1000000000000000000 ->
  let cf := i64 (pp_time_to_interval (h_cField hdr) - Z.land (scaled_nsecs t) 0xffff) in
  let f := pack_resp cf hdr t buf in
  tval (pp_time_sub (fst (unpack_resp f)) (h_cField (msg_unpack_header f)))
    = tval t - tval (h_cField hdr) /\
  snd (unpack_resp f) = h_sourcePortIdentity hdr /\
  h_sequenceId (msg_unpack_header f) = h_sequenceId hdr.
Proof.
  intros Ht Hn Hl [Hid Hp] Hs H0 Hc cf f. subst f.
  destruct (resp_header_cf cf hdr t buf Hl Hid) as [-> ->].
  rewrite unpack_resp_pack by done. cbn [fst snd]. rewrite (u16_id (h_sequenceId hdr)) by done.
  split; [|done]. subst cf. rewrite sub_ns_mod.
  assert (pp_time_to_interval (h_cField hdr) = scaled_nsecs (h_cField hdr)) as Hi.
  { unfold pp_time_to_interval. rewrite H0, Z.mul_0_l. change (i64 0) with 0.
    rewrite Z.shiftl_0_l. change (i64 0) with 0. rewrite i64_id; lia. }
  pose proof (Z.mod_pos_bound (scaled_nsecs t) 65536 ltac:(lia)) as Hm.
  pose proof (Z.div_mod (scaled_nsecs t) 65536 ltac:(lia)) as Hd.
  rewrite Hi. rewrite !(i64_id (scaled_nsecs (h_cField hdr) - _)) by lia.
  destruct Ht as [Hts Htn].
  rewrite pp_time_sub_tval by (unfold half_time; unfold_time; lia).
  unfold_time. rewrite H0. lia.
Qed.

Lemma delay_resp_exact_witness :
  let hdr := mk_hdr 0 1 2 44 0 [0; 0] (mk_time 0 (-1000)) (mk_pid (Demo.demo_id 9) 3) 77 127 in
  let t := mk_time 1600000000 12345678901234 in
  let f := pack_resp (i64 (pp_time_to_interval (h_cField hdr) - Z.land (scaled_nsecs t) 0xffff))
             hdr t (replicate 128 0) in
  snd (unpack_resp f) = mk_pid (Demo.demo_id 9) 3.
Proof.
  apply (delay_resp_exact
    (mk_hdr 0 1 2 44 0 [0; 0] (mk_time 0 (-1000)) (mk_pid (Demo.demo_id 9) 3) 77 127)
    (mk_time 1600000000 12345678901234) (replicate 128 0));
    try (unfold wire_time, wire_pid; cbn [h_cField h_sequenceId h_sourcePortIdentity clockIdentity
      portNumber Demo.demo_id length]; unfold_time; lia); reflexivity || (cbn; lia).
Defined.

(** The latency of a port on transmission: that of its data set, or the one the hook of its
    extension returns, which looks at nothing but the data set. *)
Definition egress_latency_is `{Config, Platform} {HK : Hooks} (i : nat) (p : pp_instance) (latency : Z) : Prop :=
  match hk_get_egress_latency (hooks_of (protocol_extension p)) with
  | None => latency = egressLatency (timestampCorrectionPortDS p)
  | Some h => forall w, timestampCorrectionPortDS (inst w i) = timestampCorrectionPortDS p -> h i w = (latency, w)
  end.

(** C37. [__send_and_log] reports a frame the network layer dropped as sent, a short write as
    [PP_SEND_ERROR], and otherwise corrects the transmission timestamp by the egress latency
    before it judges it: an event frame without a valid stamp is [PP_SEND_NO_STAMP], any other
    frame is counted. The latency is the one of the port's data set or, when the extension has a
    hook for it, the value the hook returns: 0 with White Rabbit, the data set's with L1Sync
    ([extensions_egress_latency]). *)
Theorem send_and_log_outcomes `{Config, Platform} {HK : Hooks} w i len ch fmt ret stamp e latency :
  (i < length (insts w))%nat -> egress_latency_is i (inst w i) latency ->
  n_send i (tx_ptp (inst w i)) (i32 (len + tx_offset (inst w i))) fmt (the_env w) = ((ret, stamp), e) ->
  let r := send_and_log i len ch fmt w in
  let t := pp_time_add_interval (default (last_snt_time (inst w i)) stamp) latency in
  (ret = PP_SEND_DROP -> r.1 = 0 /\ ptp_tx_count (inst r.2 i) = ptp_tx_count (inst w i)) /\
  (ret <> PP_SEND_DROP -> ret < len ->
     r.1 = PP_SEND_ERROR /\ ptp_tx_count (inst r.2 i) = ptp_tx_count (inst w i)) /\
  (ret <> PP_SEND_DROP -> len <= ret ->
     last_snt_time (inst r.2 i) = t /\
     if (ch =? PP_NP_EVT) && is_incorrect t
     then r.1 = PP_SEND_NO_STAMP /\ ptp_tx_count (inst r.2 i) = ptp_tx_count (inst w i)
     else r.1 = 0 /\ ptp_tx_count (inst r.2 i) = (ptp_tx_count (inst w i) + 1) mod LONG_MODULUS).
Proof.
  intros Hi Hh Hn r t. subst r. unfold send_and_log, rd. rewrite !bind_unfold. cbn [fst snd].
  unfold op. rewrite Hn. cbn [fst snd].
  set (w1 := w <| the_env := e |>).
  set (m := match stamp with Some t => _ | None => _ end). rewrite bind_unfold.
  set (w2 := (m w1).2).
  assert (inst w2 i = (inst w i) <| last_snt_time ::= fun t => default t stamp |> /\
          length (insts w2) = length (insts w)) as [E2 L2].
  { subst w2 m. destruct stamp; cbn [mret M_ret fst snd wr].
    - split; [etrans; [by apply inst_set_same|reflexivity]|exact (length_set_inst w1 _ _)].
    - split; [by destruct (inst w i) eqn:E; unfold inst in *; cbn in *; rewrite E|done]. }
  clearbody w2. clear m.
  destruct (Z.eqb_spec ret PP_SEND_DROP) as [->|Hd].
  { cbn [mret M_ret fst snd]. rewrite E2. by split_and!. }
  destruct (Z.ltb_spec ret len).
  { cbn [mret M_ret fst snd]. rewrite E2. split_and!; try done; intros; lia. }
  split_and!; [done|intros; lia|intros _ _].
  unfold if_hook, ext_hook, rd, wr. rewrite !bind_unfold. cbn [fst snd]. rewrite E2.
  cbn [protocol_extension upd setter].
  match goal with |- context [match ?o with Some x => @?f x | None => ?d end w2] =>
    assert (match o with Some x => f x | None => d end w2 = (latency, w2)) as Hlat end.
  { revert Hh. unfold egress_latency_is. destruct (hk_get_egress_latency _) as [h|].
    - intros Hh. apply Hh. by rewrite E2.
    - intros ->. by rewrite E2. }
  rewrite Hlat. cbn [fst snd].
  rewrite inst_set_same by lia. rewrite E2. cbn [last_snt_time upd setter]. fold t.
  destruct ((ch =? PP_NP_EVT) && is_incorrect t) eqn:Ec.
  - cbn [mret M_ret fst snd]. rewrite inst_set_same by lia. rewrite E2. done.
  - rewrite bind_unfold. cbn [mret M_ret fst snd].
    rewrite inst_set_same by (rewrite length_set_inst; lia).
    rewrite inst_set_same by lia. rewrite E2. done.
Qed.

Lemma send_and_log_outcomes_witness :
  let w := Demo.demo_world [Demo.demo_inst 0 PPS_MASTER] 3000 in
  (@send_and_log Demo.demo_config Demo.demo_platform demo_hooks 0 44 PP_NP_EVT PPM_SYNC_FMT w).1 = 0.
Proof.
  intros w.
  destruct (@send_and_log_outcomes Demo.demo_config Demo.demo_platform demo_hooks w 0 44 PP_NP_EVT
    PPM_SYNC_FMT 44 (Some (mk_time 3 0)) (Demo.mk_env 3000 [replicate 128 0] false) 0)
    as (_ & _ & T); [vm_compute; lia|reflexivity|reflexivity|].
  destruct T as [_ T]; [discriminate|lia|].
  match type of T with (if ?b then _ else _) =>
    assert (b = false) as Hb by (vm_compute; reflexivity); rewrite Hb in T end.
  exact (proj1 T).
Defined.

(** A Signaling message reaches the port it names between hosts of the same byte order. *)
Theorem signaling_roundtrip big target ty len buf : (48 <= length buf)%nat -> wire_pid target ->
  sig_targetPortIdentity (msg_unpack_signaling big (pack_signaling big target ty len buf)) = target /\
  get16 (sig_tlv (msg_unpack_signaling big (pack_signaling big target ty len buf))) 0 = u16 ty.
Proof.
  intros Hl Hp. split; [by apply signaling_target|].
  unfold msg_unpack_signaling, pack_signaling. cbn [sig_tlv].
  assert (forall b, get16 (drop 44 b) 0 = of_be (slice 44 2 b)) as Hs
    by (intros b; unfold get16, slice; by rewrite drop_drop).
  rewrite Hs. unfold put16, put16h. rewrite (slice_write_other 44 2 46) by (rewrite length_be; lia).
  rewrite slice_put_same by blen. rewrite of_be_be. done.
Qed.

Lemma signaling_roundtrip_witness :
  sig_targetPortIdentity (msg_unpack_signaling false
    (pack_signaling false (mk_pid (Demo.demo_id 2) 258) 3 8 (replicate 128 0)))
  = mk_pid (Demo.demo_id 2) 258.
Proof.
  apply (signaling_roundtrip false (mk_pid (Demo.demo_id 2) 258) 3 8 (replicate 128 0));
    [cbn; lia|split; [reflexivity|cbn; lia]].
Defined.

(** Between hosts of different byte order it does not: the port number is not converted. *)
Example signaling_mixed_order :
  portNumber (sig_targetPortIdentity (msg_unpack_signaling true
    (pack_signaling false (mk_pid (Demo.demo_id 2) 1) 3 8 (replicate 128 0)))) = 256.
Proof. vm_compute. reflexivity. Qed.
