(* ===== verification/FixedPoint.v ===== *)
(** * Fixed-point arithmetic of the servo (proto-standard/servo.c)

    Multiplication of a relative difference (a value scaled by 2^62) with a
    time interval through 32-bit halves, the delay asymmetry computed with
    it, and the series for the asymmetry coefficient. *)

From S2P Require Import Prelude.

(** ** Fixed-point arithmetic *)

(** [__getMsbSet]: one plus the index of the highest set bit. *)
Definition getMsbSet (value : Z) : Z := if value =? 0 then 0 else Z.log2 value + 1.

Definition HI32 (x : Z) : Z := Z.shiftr x 32.
Definition LO32 (x : Z) : Z := Z.land x 0xffffffff.

Definition mulRelativeDifference (op1 op2 : Z) : Z :=
  let shift := 64 - getMsbSet (if op1 <? op2 then op1 else op2) in
  let shift := if 32 <? shift then 32 else shift in
  let mask := u64 (i32 (i32 (Z.shiftl 1 (32 - shift)) - 1)) in
  let op1_high := HI32 op1 in
  let op1_low := LO32 op1 in
  let op2_high := HI32 op2 in
  let op2_low := LO32 op2 in
  let upper := u64 (Z.shiftl (u64 (op1_high * op2_high)) shift) in
  let mid1 := u64 (op1_high * op2_low) in
  let mid2 := u64 (op2_high * op1_low) in
  let lower := Z.shiftr (u64 (op1_low * op2_low)) 1 in
  let middle := u64 (mid1 + mid2) in
  let upper := if (middle <? mid1) || (middle <? mid2) then u64 (upper + Z.shiftl 1 32) else upper in
  let upper := u64 (upper + Z.shiftr (Z.land middle (u64 (Z.lnot mask))) (32 - shift)) in
  let tmp := lower in
  let lower := u64 (lower + u64 (Z.shiftl (Z.land middle mask) (32 - 1))) in
  let upper := if lower <? tmp then u64 (upper + 1) else upper in
  Z.shiftr (u64 (upper + Z.shiftr lower (64 - shift - 1))) (shift - 2).

Definition calculateDelayAsymmetry (scaledDelayAsymCoeff scaledMeanDelay constAsymmetry : Z) : Z :=
  let negMeanDelay := scaledMeanDelay <? 0 in
  let scaledMeanDelay := if negMeanDelay then i64 (- scaledMeanDelay) else scaledMeanDelay in
  let negDelayAsymCoeff := scaledDelayAsymCoeff <? 0 in
  let scaledDelayAsymCoeff :=
    if negDelayAsymCoeff then i64 (- scaledDelayAsymCoeff) else scaledDelayAsymCoeff in
  let delayAsym := i64 (mulRelativeDifference scaledDelayAsymCoeff scaledMeanDelay) in
  i64 (constAsymmetry +
       (if negb (Bool.eqb negDelayAsymCoeff negMeanDelay) then i64 (- delayAsym) else delayAsym)).

(** State of the polynomial expansion: the sum, the term and [sub]. *)
Record asym_state := mk_asym { as_coeff : Z; as_term : Z; as_sub : bool }.

Definition asym_step (delayCoeff : Z) (negative : bool) (s : asym_state) : asym_state :=
  let '(coeff, sub) :=
    if negative then (i64 (as_coeff s + as_term s + 1), as_sub s)
    else (i64 (if as_sub s then as_coeff s - as_term s else as_coeff s + as_term s), negb (as_sub s)) in
  mk_asym coeff (Z.shiftr (mulRelativeDifference delayCoeff (as_term s)) 1) sub.

(** The variables after the loop, up to the sign. Each term is at most half of the one before, so
    64 iterations suffice. *)
Definition asym_series (delayCoeff : Z) : asym_state :=
  let negative := delayCoeff <? 0 in
  let delayCoeff := if negative then i64 (- delayCoeff) else delayCoeff in
  let half := Z.shiftr delayCoeff 1 in
  let term := Z.shiftr (mulRelativeDifference delayCoeff half) 1 in
  while 64 (fun s => 2 <? as_term s) (asym_step delayCoeff negative) (mk_asym half term true).

Definition pp_servo_calculateDelayAsymCoefficient (delayCoeff : Z) : Z :=
  let s := asym_series delayCoeff in
  if delayCoeff <? 0 then i64 (- as_coeff s) else as_coeff s.

(** ** Fixed-point multiplication is exact *)

(** The shift leaves room: [v] has at most [64 - shift] significant bits. *)
Lemma shift_bits v : 0 <= v < 4611686018427387904 ->
  let s := if 32 <? 64 - getMsbSet v then 32 else 64 - getMsbSet v in
  2 <= s <= 32 /\ v < 2 ^ (64 - s).
Proof.
  intros Hv s. subst s. unfold getMsbSet. destruct (Z.eqb_spec v 0) as [->|Hn]; [by vm_compute|].
  assert (0 <= Z.log2 v) by apply Z.log2_nonneg.
  assert (Z.log2 v < 62) by (apply Z.log2_lt_pow2; [lia|]; change (2 ^ 62) with 4611686018427387904; lia).
  pose proof (Z.log2_spec v ltac:(lia)) as [_ Hs].
  destruct (Z.ltb_spec 32 (64 - (Z.log2 v + 1))); split; try lia.
  - eapply Z.lt_le_trans; [exact Hs|]. apply Z.pow_le_mono_r; lia.
  - replace (64 - (64 - (Z.log2 v + 1))) with (Z.succ (Z.log2 v)) by lia. done.
Qed.

Lemma HI_LO x : 0 <= x < 9223372036854775808 ->
  x = HI32 x * 4294967296 + LO32 x /\ 0 <= HI32 x < 2147483648 /\ 0 <= LO32 x < 4294967296.
Proof.
  intros Hx. unfold HI32, LO32. change 0xffffffff with (Z.ones 32).
  rewrite Z.shiftr_div_pow2, Z.land_ones by lia. change (2 ^ 32) with 4294967296. dlia.
Qed.

Lemma low_mask k : 0 <= k <= 30 ->
  u64 (i32 (i32 (Z.shiftl 1 k) - 1)) = Z.ones k /\
  u64 (Z.lnot (Z.ones k)) = Z.shiftl (Z.ones (64 - k)) k.
Proof.
  intros Hk. rewrite Z.shiftl_1_l, Z.ones_equiv.
  assert (1 <= 2 ^ k <= 2 ^ 30) by (split; [apply (Z.pow_le_mono_r 2 0)|apply Z.pow_le_mono_r]; lia).
  change (2 ^ 30) with 1073741824 in *. split; [nowrap; lia|].
  rewrite Z.shiftl_mul_pow2, Z.ones_equiv by lia. unfold Z.lnot.
  assert (2 ^ (64 - k) * 2 ^ k = 18446744073709551616)
    by (rewrite <- Z.pow_add_r by lia; replace (64 - k + k) with 64 by lia; done).
  unfold u64. symmetry. apply (Z.mod_unique_pos _ _ (-1)); lia.
Qed.

Lemma split_middle mid k : 0 <= k <= 30 -> 0 <= mid < 18446744073709551616 ->
  Z.shiftr (Z.land mid (Z.shiftl (Z.ones (64 - k)) k)) k = mid / 2 ^ k /\
  Z.land mid (Z.ones k) = mid mod 2 ^ k.
Proof.
  intros Hk Hm. split; [|apply Z.land_ones; lia].
  rewrite Z.shiftr_land, Z.shiftr_shiftl_l, Z.sub_diag, Z.shiftl_0_r by lia.
  rewrite Z.land_ones, Z.shiftr_div_pow2 by lia. apply Z.mod_small.
  assert (0 < 2 ^ k) by (apply Z.pow_pos_nonneg; lia).
  split; [apply Z.div_pos; lia|]. apply Z.div_lt_upper_bound; [lia|].
  rewrite <- Z.pow_add_r by lia. replace (k + (64 - k)) with 64 by lia. change (2 ^ 64) with 18446744073709551616. lia.
Qed.

(** The recombination of the four partial products, with [K = 2^(32-s)]. *)
Lemma recombine ac mid bd K S : 0 < K -> 0 < S -> K * S = 4294967296 -> 0 <= ac -> 0 <= mid -> 0 <= bd ->
  ac * S + mid / K + (bd / 2 + mid mod K * 2147483648) / (K * 2147483648) =
  (ac * 18446744073709551616 + mid * 4294967296 + bd) / (K * 4294967296).
Proof.
  intros HK HS HKS Hac Hmid Hbd.
  pose proof (Z.div_mod mid K ltac:(lia)) as Hdm. pose proof (Z.mod_pos_bound mid K HK).
  set (q := mid / K) in *. set (r := mid mod K) in *.
  replace (ac * 18446744073709551616 + mid * 4294967296 + bd)
    with ((ac * S + q) * (K * 4294967296) + (r * 4294967296 + bd)) by (rewrite Hdm; nia).
  rewrite Z.div_add_l by lia. f_equal.
  replace (K * 4294967296) with (2 * (K * 2147483648)) by lia.
  rewrite <- (Z.div_div _ 2 (K * 2147483648)) by lia. f_equal.
  replace (r * 4294967296 + bd) with (r * 2147483648 * 2 + bd) by lia.
  rewrite Z.div_add_l by lia. lia.
Qed.

Lemma mulRelativeDifference_spec op1 op2 :
  0 <= op1 < 9223372036854775808 -> 0 <= op2 < 9223372036854775808 ->
  Z.min op1 op2 < 4611686018427387904 ->
  mulRelativeDifference op1 op2 = op1 * op2 / 4611686018427387904.
Proof.
  intros H1 H2 Hm. unfold mulRelativeDifference.
  assert ((if op1 <? op2 then op1 else op2) = Z.min op1 op2) as ->
    by (destruct (Z.ltb_spec op1 op2); lia).
  set (m := Z.min op1 op2) in *.
  destruct (shift_bits m ltac:(lia)) as [Hs Hv].
  set (s := if 32 <? 64 - getMsbSet m then 32 else 64 - getMsbSet m) in *. clearbody s.
  destruct (low_mask (32 - s) ltac:(lia)) as [-> ->].
  destruct (HI_LO op1 H1) as (E1 & Ra & Rb). destruct (HI_LO op2 H2) as (E2 & Rc & Rd).
  set (a := HI32 op1) in *. set (b := LO32 op1) in *.
  set (c := HI32 op2) in *. set (d := LO32 op2) in *. clearbody a b c d.
  assert (0 < 2 ^ s) as PS by (apply Z.pow_pos_nonneg; lia).
  assert (0 < 2 ^ (32 - s)) as PK by (apply Z.pow_pos_nonneg; lia).
  assert (2 ^ (32 - s) * 2 ^ s = 4294967296) as PKS
    by (rewrite <- Z.pow_add_r by lia; replace (32 - s + s) with 32 by lia; done).
  assert (2 ^ (64 - s) = 2 ^ (32 - s) * 4294967296) as P64
    by (replace (64 - s) with (32 - s + 32) by lia; rewrite Z.pow_add_r by lia; done).
  assert (op1 * op2 < 9223372036854775808 * 2 ^ (64 - s)) as HP.
  { destruct (Z.min_spec op1 op2) as [[? Hmin]|[? Hmin]]; fold m in Hmin; rewrite <- Hmin in *; nia. }
  assert (op1 * op2 = a * c * 18446744073709551616 + (a * d + c * b) * 4294967296 + b * d) as EP
    by (rewrite E1, E2; ring).
  assert (0 <= a * c /\ 0 <= a * d < 9223372036854775808 /\ 0 <= c * b < 9223372036854775808 /\
          0 <= b * d < 18446744073709551616) as (Nac & Nad & Ncb & Nbd) by nia.
  assert (0 <= a * c * 2 ^ s < 9223372036854775808) as Nup by (split; [nia|]; rewrite P64 in HP; nia).
  rewrite !(u64_id (a * d)), !(u64_id (c * b)), (u64_id (b * d)), (u64_id (a * c)) by nia.
  rewrite (u64_id (a * d + c * b)) by lia.
  set (mid := a * d + c * b) in *.
  rewrite (proj2 (Z.ltb_ge mid (a * d))), (proj2 (Z.ltb_ge mid (c * b))) by lia. cbn [orb].
  destruct (split_middle mid (32 - s) ltac:(lia) ltac:(lia)) as [-> ->].
  rewrite (Z.shiftl_mul_pow2 (a * c)), (Z.shiftl_mul_pow2 _ (32 - 1)), (Z.shiftr_div_pow2 (b * d)) by lia.
  change (2 ^ (32 - 1)) with 2147483648. change (2 ^ 1) with 2.
  set (K := 2 ^ (32 - s)) in *. set (S := 2 ^ s) in *.
  assert (K <= 1073741824) as HK30.
  { subst K. change 1073741824 with (2 ^ 30). apply Z.pow_le_mono_r; lia. }
  pose proof (Z.mod_pos_bound mid K PK) as Hr. pose proof (Z.div_pos mid K ltac:(lia) PK) as Hq.
  assert (0 <= b * d / 2 < 9223372036854775808) as Hlo by dlia.
  rewrite (u64_id (a * c * S)) by lia. rewrite (u64_id (mid mod K * 2147483648)) by lia.
  rewrite (u64_id (b * d / 2 + _)) by lia.
  rewrite (proj2 (Z.ltb_ge _ (b * d / 2))) by lia.
  pose proof (recombine (a * c) mid (b * d) K S PK PS PKS Nac ltac:(lia) ltac:(lia)) as Hrec.
  rewrite <- EP in Hrec. rewrite P64 in HP.
  assert (op1 * op2 / (K * 4294967296) < 9223372036854775808) as Hup
    by (apply Z.div_lt_upper_bound; lia).
  assert (0 <= (b * d / 2 + mid mod K * 2147483648) / (K * 2147483648)) as Hl0
    by (apply Z.div_pos; lia).
  rewrite (u64_id (a * c * S + _)) by lia.
  rewrite (Z.shiftr_div_pow2 _ (64 - s - 1)) by lia.
  replace (2 ^ (64 - s - 1)) with (K * 2147483648)
    by (subst K; change 2147483648 with (2 ^ 31); rewrite <- Z.pow_add_r by lia; f_equal; lia).
  rewrite Hrec. rewrite u64_id by (split; [apply Z.div_pos|]; lia).
  rewrite Z.shiftr_div_pow2 by lia. rewrite Z.div_div by (apply Z.pow_pos_nonneg || idtac; lia).
  f_equal. subst K. change 4294967296 with (2 ^ 32). rewrite <- !Z.pow_add_r by lia.
  replace (32 - s + 32 + (s - 2)) with 62 by lia. reflexivity.
Qed.

Lemma calculateDelayAsymmetry_spec coeff delay const :
  Z.abs coeff <= 4611686018427387904 -> Z.abs delay < 4611686018427387904 ->
  Z.abs const <= 1000000000000000000 ->
  calculateDelayAsymmetry coeff delay const =
  const + Z.quot (coeff * delay) 4611686018427387904.
Proof.
  intros Hc Hd Hk. unfold calculateDelayAsymmetry.
  assert ((if delay <? 0 then i64 (- delay) else delay) = Z.abs delay) as ->
    by (destruct (Z.ltb_spec delay 0); nowrap; lia).
  assert ((if coeff <? 0 then i64 (- coeff) else coeff) = Z.abs coeff) as ->
    by (destruct (Z.ltb_spec coeff 0); nowrap; lia).
  rewrite mulRelativeDifference_spec by lia.
  set (q := Z.abs coeff * Z.abs delay / 4611686018427387904).
  assert (0 <= q < 4611686018427387904) as Hq.
  { subst q. split; [apply Z.div_pos; nia|]. apply Z.div_lt_upper_bound; nia. }
  rewrite (i64_id q) by lia. rewrite (i64_id (- q)) by lia.
  assert (Z.quot (coeff * delay) 4611686018427387904 =
    if negb (Bool.eqb (coeff <? 0) (delay <? 0)) then - q else q) as ->.
  { subst q. rewrite <- Z.abs_mul.
    destruct (Z.ltb_spec coeff 0), (Z.ltb_spec delay 0); cbn [Bool.eqb negb].
    - rewrite Z.abs_eq by nia. apply Z.quot_div_nonneg; nia.
    - rewrite Z.abs_neq by nia. rewrite <- Z.quot_div_nonneg by nia.
      rewrite Z.quot_opp_l by lia. lia.
    - rewrite Z.abs_neq by nia. rewrite <- Z.quot_div_nonneg by nia.
      rewrite Z.quot_opp_l by lia. lia.
    - rewrite Z.abs_eq by nia. apply Z.quot_div_nonneg; nia. }
  destruct (negb _); rewrite i64_id; lia.
Qed.

(** ** The asymmetry coefficient

    With [N = 2^62] and the delay coefficient [alpha = C / N], the code sums
    the series of [alpha / (alpha + 2)].  [resid] is the residual of a partial
    sum [r]: it vanishes for the exact value. *)

Abbreviation N62 := 4611686018427387904.

(** One term of the series after another. *)
Definition next_term (C t : Z) : Z := Z.shiftr (mulRelativeDifference C t) 1.

Lemma next_term_spec C t : 0 <= C <= N62 -> 0 <= t < N62 ->
  exists e, C * t = 2 * N62 * next_term C t + e /\ 0 <= e < 2 * N62 /\
    0 <= next_term C t /\ 2 * next_term C t <= t.
Proof.
  intros HC Ht. unfold next_term. rewrite mulRelativeDifference_spec by lia.
  rewrite Z.shiftr_div_pow2 by lia. change (2 ^ 1) with 2. rewrite Z.div_div by lia.
  pose proof (Z.div_mod (C * t) (N62 * 2) ltac:(lia)) as Hd.
  pose proof (Z.mod_pos_bound (C * t) (N62 * 2) ltac:(lia)).
  exists ((C * t) mod (N62 * 2)). set (q := C * t / (N62 * 2)) in *.
  set (r := (C * t) mod (N62 * 2)) in *. clearbody q r. repeat split; nia.
Qed.

(** Room for the rounding errors accumulated so far, as a function of the term. *)
Definition err_room (t : Z) : Z := 2 * N62 * (62 - Z.log2 t).

Lemma log2_half t t' : 2 < t -> 0 <= t' -> 2 * t' <= t -> Z.log2 t' <= Z.log2 t - 1.
Proof.
  intros Ht Ht' Hh. assert (1 <= Z.log2 t) by (apply Z.log2_le_pow2; lia).
  destruct (decide (t' = 0)) as [->|]; [cbn; lia|].
  assert (Z.log2 (2 * t') <= Z.log2 t) by (apply Z.log2_le_mono; lia).
  rewrite Z.log2_double in * by lia. lia.
Qed.

Section Series.
Context (C : Z) (HC : 0 <= C <= N62).

Definition resid_pos (r : Z) : Z := N62 * C - r * (2 * N62 + C).
Definition resid_neg (r : Z) : Z := N62 * C - r * (2 * N62 - C).

Definition pos_inv (s : asym_state) : Prop :=
  0 <= as_term s <= 1152921504606846976 /\ Z.abs (as_coeff s) + 2 * as_term s <= N62 /\
  let sg := if as_sub s then 1 else -1 in
  Z.abs (sg * resid_pos (as_coeff s) + 2 * N62 * as_term s) <= err_room (as_term s).

Definition neg_inv (s : asym_state) : Prop :=
  0 <= as_term s <= 1152921504606846976 /\ 0 <= as_coeff s /\
  as_coeff s + 2 * as_term s <= N62 + (62 - Z.log2 (as_term s)) /\
  Z.abs (resid_neg (as_coeff s) - 2 * N62 * as_term s) <= err_room (as_term s).

Lemma pos_step s : pos_inv s -> (2 <? as_term s) = true ->
  pos_inv (asym_step C false s) /\
  0 <= Z.log2 (as_term (asym_step C false s)) < Z.log2 (as_term s).
Proof.
  intros (Ht & Hr & He) Hgt. apply Z.ltb_lt in Hgt.
  destruct (next_term_spec C (as_term s) HC ltac:(lia)) as (e & Ee & Be & Bn & Bh).
  unfold asym_step, pos_inv. cbn [as_term as_coeff as_sub].
  fold (next_term C (as_term s)). set (t' := next_term C (as_term s)) in *.
  pose proof (log2_half _ t' Hgt Bn Bh) as Hlog. pose proof (Z.log2_nonneg t').
  unfold err_room in *. set (t := as_term s) in *. set (r := as_coeff s) in *.
  split; [|lia]. unfold resid_pos in *.
  destruct (as_sub s); cbn [negb]; rewrite i64_id by lia; (split; [lia|split; [lia|]]).
  - replace (-1 * (N62 * C - (r - t) * (2 * N62 + C)) + 2 * N62 * t')
      with (- (1 * (N62 * C - r * (2 * N62 + C)) + 2 * N62 * t) - C * t + 2 * N62 * t') by ring.
    rewrite Ee. lia.
  - replace (1 * (N62 * C - (r + t) * (2 * N62 + C)) + 2 * N62 * t')
      with (- (-1 * (N62 * C - r * (2 * N62 + C)) + 2 * N62 * t) - C * t + 2 * N62 * t') by ring.
    rewrite Ee. lia.
Qed.

Lemma neg_step s : neg_inv s -> (2 <? as_term s) = true ->
  neg_inv (asym_step C true s) /\
  0 <= Z.log2 (as_term (asym_step C true s)) < Z.log2 (as_term s).
Proof.
  intros (Ht & Hr0 & Hr & He) Hgt. apply Z.ltb_lt in Hgt.
  destruct (next_term_spec C (as_term s) HC ltac:(lia)) as (e & Ee & Be & Bn & Bh).
  unfold asym_step, neg_inv. cbn [as_term as_coeff as_sub].
  fold (next_term C (as_term s)). set (t' := next_term C (as_term s)) in *.
  pose proof (log2_half _ t' Hgt Bn Bh) as Hlog. pose proof (Z.log2_nonneg t').
  unfold err_room in *. set (t := as_term s) in *. set (r := as_coeff s) in *.
  assert (Z.log2 t <= 60) by (change 60 with (Z.log2 1152921504606846976); apply Z.log2_le_mono; lia).
  split; [|lia]. rewrite i64_id by lia. unfold resid_neg in *.
  split; [lia|split; [lia|split; [lia|]]].
  replace (N62 * C - (r + t + 1) * (2 * N62 - C) - 2 * N62 * t')
    with ((N62 * C - r * (2 * N62 - C) - 2 * N62 * t) + C * t - (2 * N62 - C) - 2 * N62 * t') by ring.
  rewrite Ee. lia.
Qed.

Lemma series_start : let h := Z.shiftr C 1 in
  pos_inv (mk_asym h (next_term C h) true) /\ neg_inv (mk_asym h (next_term C h) true).
Proof.
  cbn zeta. rewrite Z.shiftr_div_pow2 by lia. change (2 ^ 1) with 2.
  assert (2 * (C / 2) <= C < 2 * (C / 2) + 2) as Hh by dlia. set (h := C / 2) in *. clearbody h.
  destruct (next_term_spec C h HC ltac:(lia)) as (e & Ee & Be & Bn & Bh).
  set (t := next_term C h) in *. clearbody t.
  assert (t <= 1152921504606846976) by lia.
  assert (Z.log2 t <= 60) by (change 60 with (Z.log2 1152921504606846976); apply Z.log2_le_mono; lia).
  pose proof (Z.log2_nonneg t).
  unfold pos_inv, neg_inv, err_room, resid_pos, resid_neg. cbn [as_term as_coeff as_sub].
  assert (0 <= C * h <= N62 * h) by nia.
  split; (split; [lia|]); repeat split; lia.
Qed.

Lemma term_measure t : 0 <= t <= 1152921504606846976 -> 0 <= Z.log2 t < Z.of_nat 64.
Proof.
  intros Ht. pose proof (Z.log2_nonneg t).
  assert (Z.log2 t <= 60) by (change 60 with (Z.log2 1152921504606846976); apply Z.log2_le_mono; lia).
  lia.
Qed.

Lemma series_pos :
  let s := while 64 (fun s => 2 <? as_term s) (asym_step C false)
             (mk_asym (Z.shiftr C 1) (next_term C (Z.shiftr C 1)) true) in
  as_term s <= 2 /\ Z.abs (resid_pos (as_coeff s)) <= 128 * N62 /\ Z.abs (as_coeff s) <= N62.
Proof.
  intros s. destruct series_start as [Hp _].
  destruct (while_rule (fun s => 2 <? as_term s) (asym_step C false) pos_inv
    (fun s => Z.log2 (as_term s)) pos_step 64 _ Hp) as [Hi Hx].
  1,2: destruct Hp as (Ht & _); apply term_measure in Ht; apply Ht.
  fold s in Hi, Hx. apply Z.ltb_ge in Hx. destruct Hi as (Ht & Hr & He).
  unfold err_room in He. pose proof (Z.log2_nonneg (as_term s)). destruct (as_sub s); lia.
Qed.

Lemma series_neg :
  let s := while 64 (fun s => 2 <? as_term s) (asym_step C true)
             (mk_asym (Z.shiftr C 1) (next_term C (Z.shiftr C 1)) true) in
  as_term s <= 2 /\ Z.abs (resid_neg (as_coeff s)) <= 128 * N62 /\ 0 <= as_coeff s <= N62 + 62.
Proof.
  intros s. destruct series_start as [_ Hp].
  destruct (while_rule (fun s => 2 <? as_term s) (asym_step C true) neg_inv
    (fun s => Z.log2 (as_term s)) neg_step 64 _ Hp) as [Hi Hx].
  1,2: destruct Hp as (Ht & _); apply term_measure in Ht; apply Ht.
  fold s in Hi, Hx. apply Z.ltb_ge in Hx. destruct Hi as (Ht & Hr0 & Hr & He).
  unfold err_room in He. pose proof (Z.log2_nonneg (as_term s)). lia.
Qed.

End Series.

(** ** Properties *)

(** [__mulRelativeDifference] is exact: for every pair of non-negative 63-bit operands of
    which one is below 2^62 (one, in the unit of a relative difference), the recombined
    32-bit products give the full 126-bit product divided by 2^62. *)
Theorem mulRelativeDifference_exact op1 op2 :
  0 <= op1 < 9223372036854775808 -> 0 <= op2 < 9223372036854775808 ->
  Z.min op1 op2 < N62 ->
  mulRelativeDifference op1 op2 = op1 * op2 / N62.
Proof. apply mulRelativeDifference_spec. Qed.

Lemma mulRelativeDifference_exact_witness :
  mulRelativeDifference 9223372036854775807 4611686018427387903 = 9223372036854775805.
Proof.
  rewrite (mulRelativeDifference_exact 9223372036854775807 4611686018427387903);
    [reflexivity|lia|lia|lia].
Defined.

(** The delay asymmetry is the configured constant plus the product of the asymmetry
    coefficient and the mean delay, truncated towards zero, whatever the signs. *)
Theorem calculateDelayAsymmetry_exact coeff delay const :
  Z.abs coeff <= N62 -> Z.abs delay < N62 -> Z.abs const <= 1000000000000000000 ->
  calculateDelayAsymmetry coeff delay const = const + Z.quot (coeff * delay) N62.
Proof. apply calculateDelayAsymmetry_spec. Qed.

Lemma calculateDelayAsymmetry_exact_witness :
  calculateDelayAsymmetry (-1152921504606846976) 1000000007 5 = -249999996.
Proof.
  rewrite (calculateDelayAsymmetry_exact (-1152921504606846976) 1000000007 5);
    [reflexivity|lia|lia|lia].
Defined.

(** The residual of the series, on both sides. *)
Lemma asym_residual c : Z.abs c <= N62 ->
  let r := pp_servo_calculateDelayAsymCoefficient c in
  as_term (asym_series c) <= 2 /\ Z.abs (N62 * c - r * (2 * N62 + c)) <= 128 * N62.
Proof.
  intros Hc r. subst r. unfold pp_servo_calculateDelayAsymCoefficient, asym_series.
  destruct (Z.ltb_spec c 0) as [Hn|Hn].
  - rewrite (i64_id (- c)) by lia. fold (next_term (- c) (Z.shiftr (- c) 1)).
    destruct (series_neg (- c) ltac:(lia)) as (Ht & He & Hr).
    set (s := while _ _ _ _) in *. rewrite i64_id by lia. unfold resid_neg in He. split; [done|].
    replace (N62 * c - - as_coeff s * (2 * N62 + c))
      with (- (N62 * - c - as_coeff s * (2 * N62 - - c))) by ring. lia.
  - fold (next_term c (Z.shiftr c 1)).
    destruct (series_pos c ltac:(lia)) as (Ht & He & Hr). split; [exact Ht|exact He].
Qed.

(** C39. The asymmetry coefficient. For every delay coefficient [alpha] between -1 and 1 ([c] is
    [alpha] scaled by 2^62) the loop that sums the series ends with its condition false, the last
    term being at most 2 (it is not cut off by its fuel of 64), and the sum [r] satisfies [r =
    alpha / (alpha + 2)] up to 128 units of 2^-62: the residual [alpha - r (alpha + 2)] is at most
    128 in that unit. *)
Theorem asym_coefficient_accuracy c : Z.abs c <= N62 ->
  let r := pp_servo_calculateDelayAsymCoefficient c in
  (2 <? as_term (asym_series c)) = false /\
  Z.abs (N62 * c - r * (2 * N62 + c)) <= 128 * N62.
Proof. intros Hc. destruct (asym_residual c Hc) as [Ht Hr]. split; [by apply Z.ltb_ge|exact Hr]. Qed.

Lemma asym_coefficient_accuracy_witness :
  Z.abs (N62 * 2305843009213693952 -
    pp_servo_calculateDelayAsymCoefficient 2305843009213693952 * (2 * N62 + 2305843009213693952))
  <= 128 * N62.
Proof. apply (asym_coefficient_accuracy 2305843009213693952). lia. Defined.
