(* ===== verification/Servo.v ===== *)
(** * Servo (proto-standard/servo.c)

    Delay calculation, the mean delay filter, the PI controller and the entry
    points called by the slave states. *)

From S2P Require Import Prelude Div64 TimeArith Types World FixedPoint.

(** ** The mean delay filter *)

(** [while (y >> (63 - s)) --s;] *)
Definition filter_bits (y s : Z) : Z :=
  while 64 (fun s => truth (Z.shiftr y (63 - s))) (fun s => i32 (s - 1)) s.

(** New filter and new [meanDelay->scaled_nsecs]. *)
Definition mpd_filter (opt_s : Z) (f : pp_avg_fltr) (ns : Z) : pp_avg_fltr * Z :=
  let f := if flt_s_exp f <? 1 then f <| flt_y := if ns <? 0 then 0 else ns |> else f in
  let s := filter_bits (flt_y f) opt_s in
  let lim := Z.shiftl 1 s in
  let f := if lim <? flt_s_exp f then f <| flt_s_exp := lim |> else f in
  let f := if flt_s_exp f <? lim then f <| flt_s_exp ::= fun e => e + 1 |> else f in
  let ns := if ns <? 0 then flt_y f else ns in
  let ns := if ns <? 0 then 0 else ns in
  let ns := if i64 (3 * flt_y f) <? ns
            then i64 (i64 (flt_y f * 2) + flt_s_exp f + 1) else ns in
  let y := u64 (i64 (i64 (flt_y f * (flt_s_exp f - 1)) + ns)) in
  let y := i64 (fst (div64_32 y (u32 (flt_s_exp f)))) in
  (f <| flt_y := y |>, y).

(** ** The PI controller *)

Definition PP_ADJ_FREQ_MAX : Z := 512000.

(** [P_term] and [I_term]: division of the magnitude, sign restored. *)
Definition signed_div64_32 (v base : Z) : Z :=
  if 0 <? v then fst (div64_32 (u64 v) base)
  else i64 (- i64 (fst (div64_32 (u64 (i64 (- v))) base))).

(** New [obs_drift] and the returned adjustment. *)
Definition pi_controller (ap ai drift ns : Z) : Z * Z :=
  let drift := i64 (drift + ns) in
  let tmp := i64 (Z.shiftl (i64 (PP_ADJ_FREQ_MAX * ai)) 16) in
  let drift := if tmp <? drift then tmp else if drift <? i64 (- tmp) then i64 (- tmp) else drift in
  let I_term := signed_div64_32 drift (u32 ai) in
  let P_term := signed_div64_32 ns (u32 ap) in
  (drift, i64 (P_term + I_term)).

Section Servo.
Context `{Config, Platform}.

(** ** Initialisation *)

Definition PP_SERVO_FLAG_VALID : Z := 1.

(** [PP_SERVO_RESET_DATA]: everything from [state] on is cleared. *)
Definition servo_reset_data (s : pp_servo) : pp_servo :=
  s <| srv_state := 0 |> <| servo_locked := 0 |> <| got_sync := 0 |> <| update_count := 0 |>
    <| update_time := clear_time |> <| srv_t1 := clear_time |> <| srv_t2 := clear_time |>
    <| srv_t3 := clear_time |> <| srv_t4 := clear_time |> <| srv_t5 := clear_time |>
    <| srv_t6 := clear_time |>.

Definition pp_servo_init (i : nat) : M unit :=
  setSRV i (fun s => (servo_reset_data s) <| mpd_fltr ::= fun f => f <| flt_s_exp := 0 |> |>);;
  (match t_init_servo with
   | Some init =>
       d ← op (init i);
       let d := if d =? -1 then 0 else d in
       setSRV i (fun s => s <| obs_drift := i32 (Z.shiftl (i32 (- d)) 10) |>)
   | None =>
       opts ← OPTS;
       when (pp_can_adjust opts) (op_ (t_adjust i 0 0));;
       setSRV i (fun s => s <| obs_drift := 0 |>)
   end);;
  setSRV i (fun s => s <| srv_flags ::= fun f => Z.lor f PP_SERVO_FLAG_VALID |>).

(** ** Delays *)

(** [is_timestamp_incorrect_thres] on the stamps of the instance; its error
    counters only throttle a message. *)
Definition stamps_incorrect (i : nat) (mask : Z) : M bool :=
  rd i (fun p => truth (fst (is_timestamp_incorrect_thres
    [t1 p; t2 p; t3 p; t4 p; t5 p; t6 p] 0 mask))).

Definition p2p_delayMM (s : pp_servo) : pp_time :=
  pp_time_sub (pp_time_sub (srv_t6 s) (srv_t3 s)) (pp_time_sub (srv_t5 s) (srv_t4 s)).
Definition e2e_delayMM (s : pp_servo) : pp_time :=
  pp_time_sub (pp_time_sub (srv_t4 s) (srv_t1 s)) (pp_time_sub (srv_t3 s) (srv_t2 s)).

Definition calculate_delayMM (i : nat) (mask : Z) (f : pp_servo -> pp_time) : M bool :=
  bad ← stamps_incorrect i mask;
  if bad : bool then mret false
  else setSRV i (fun s => s <| delayMM := f s |>);; mret true.
Definition calculate_p2p_delayMM (i : nat) : M bool := calculate_delayMM i 0x3C p2p_delayMM.
Definition calculate_e2e_delayMM (i : nat) : M bool := calculate_delayMM i 0xF e2e_delayMM.

(** [update_meanDelay] (common-fun.c, replaced by common-fun-p2p.c). *)
Definition update_meanDelay (i : nat) (mean : Z) : M unit :=
  st ← rd i state;
  mech ← rd i delayMechanism;
  if CONFIG_HAS_P2P && (mech =? MECH_P2P) then
    setPOR i (fun p => p <| meanLinkDelay := mean |>);;
    when (st =? PPS_SLAVE) (setCUR (fun c => c <| cur_meanDelay := mean |>))
  else when (st =? PPS_SLAVE) (setCUR (fun c => c <| cur_meanDelay := mean |>)).

Definition pp_servo_calculate_delays (i : nat) : M bool :=
  bad ← stamps_incorrect i 0x3;
  if bad : bool then mret false
  else
    p2p ← rd i is_delayMechanismP2P;
    ok ← (if p2p : bool then calculate_p2p_delayMM i else calculate_e2e_delayMM i);
    if negb ok then mret false
    else
      srv ← SRV i;
      let delayMM_ps := pp_time_to_picos (delayMM srv) in
      let meanDelay_ps := Z.shiftr delayMM_ps 1 in
      asym ← rd i asymmetryCorrectionPortDS;
      port ← DSPOR i;
      let asymmetry :=
        if truth (asym_enable asym)
        then calculateDelayAsymmetry (delayAsymCoeff port) (picos_to_interval meanDelay_ps)
               (constantAsymmetry asym)
        else constantAsymmetry asym in
      setPOR i (fun p => p <| delayAsymmetry := asymmetry |>);;
      let delayMS_ps := i64 (meanDelay_ps + interval_to_picos asymmetry) in
      let ms := picos_to_pp_time delayMS_ps in
      setSRV i (fun s => s <| delayMS := ms |>
        <| offsetFromMaster := pp_time_add (pp_time_sub (srv_t1 s) (srv_t2 s)) ms |>);;
      srv ← SRV i;
      st ← rd i state;
      when (st =? PPS_SLAVE)
        (setCUR (fun c => c <| cur_offsetFromMaster := pp_time_to_interval (offsetFromMaster srv) |>));;
      setSRV i (fun s => s <| meanDelay := picos_to_pp_time meanDelay_ps |>);;
      update_meanDelay i (picos_to_interval meanDelay_ps);;
      mret true.

(** ** Timing output *)

(** The absolute offset in microseconds as the code computes it: a negative
    number of picoseconds goes through [uint64_t]. *)
Definition offset_us (offset_ps : Z) : Z :=
  let us := i32 (fst (div64_32 (u64 offset_ps) 1000000)) in
  if us <? 0 then i32 (- us) else us.

Definition control_timing_output (i : nat) : M unit :=
  srv ← SRV i;
  opts ← OPTS;
  let us := offset_us (pp_time_to_picos (offsetFromMaster srv)) in
  let thres := i32 (opt_ptpPpsThresholdMs opts * 1000) in
  if us <=? thres then op_ (t_enable_timing_output true)
  else when (negb (truth (opt_forcePpsGen opts)))
    (when (i32 (thres + Z.quot thres 5) <? us) (op_ (t_enable_timing_output false))).

(** ** Update *)

Definition TIME_ADJUST_THRESHOLD_SCALED_NS : Z := Z.shiftl 20000000 TIME_INTERVAL_FRACBITS.

(** The offset is too big for the frequency controller. *)
Definition needs_jump (ofm : pp_time) : bool :=
  truth (secs ofm) || (TIME_ADJUST_THRESHOLD_SCALED_NS <? scaled_nsecs ofm) ||
  (scaled_nsecs ofm <? - TIME_ADJUST_THRESHOLD_SCALED_NS).

Definition pp_servo_offset_master (i : nat) : M bool :=
  srv ← SRV i;
  opts ← OPTS;
  let ofm := offsetFromMaster srv in
  if negb (needs_jump ofm) then mret false
  else if negb (pp_can_adjust opts) then mret false
  else
    now ← op (t_get i);
    op_ (t_set i (Some (pp_time_add now ofm)));;
    pp_servo_init i;;
    mret true.

Definition pp_servo_pi_controller (i : nat) : M Z :=
  srv ← SRV i;
  opts ← OPTS;
  let '(drift, adj) :=
    pi_controller (opt_ap opts) (opt_ai opts) (obs_drift srv) (scaled_nsecs (offsetFromMaster srv)) in
  setSRV i (fun s => s <| obs_drift := drift |>);;
  mret adj.

Definition pp_servo_mpd_fltr (i : nat) : M unit :=
  srv ← SRV i;
  opts ← OPTS;
  let '(f, ns) := mpd_filter (opt_s opts) (mpd_fltr srv) (scaled_nsecs (meanDelay srv)) in
  setSRV i (fun s => s <| mpd_fltr := f |> <| meanDelay ::= fun t => t <| scaled_nsecs := ns |> |>);;
  srv ← SRV i;
  update_meanDelay i (pp_time_to_interval (meanDelay srv)).

(** [__pp_servo_update] *)
Definition pp_servo_update (i : nat) : M unit :=
  ok ← pp_servo_calculate_delays i;
  if negb ok then mret tt
  else
    srv ← SRV i;
    if truth (secs (meanDelay srv)) then mret tt
    else
      pp_servo_mpd_fltr i;;
      jumped ← pp_servo_offset_master i;
      when (negb jumped) (
        adj ← pp_servo_pi_controller i;
        let adj32 := i32 (Z.shiftr adj 16) in
        opts ← OPTS;
        when (pp_can_adjust opts)
          (match t_adjust_freq with
           | Some adjust => op_ (adjust i adj32)
           | None => op_ (t_adjust_offset i adj32)
           end));;
      now ← op (t_get i);
      setSRV i (fun s => s <| update_count ::= fun n => u32 (n + 1) |> <| update_time := now |>).

(** ** Entry points *)

Definition pp_servo_got_sync (i : nat) (allowTimingOutput : bool) : M unit :=
  p ← rd i (fun p => p);
  setSRV i (fun s => s <| srv_t1 := t1 p |> <| srv_t2 := t2 p |>);;
  if is_delayMechanismP2P p && truth (got_sync (servo p)) then
    setSRV i (fun s => s <| got_sync := 0 |>);;
    pp_servo_update i;;
    when allowTimingOutput (control_timing_output i)
  else setSRV i (fun s => s <| got_sync := 1 |>).

Definition pp_servo_got_resp (i : nat) (allowTimingOutput : bool) : M Z :=
  srv ← SRV i;
  if negb (truth (got_sync srv)) then mret 0
  else
    setSRV i (fun s => s <| got_sync := 0 |>);;
    bad ← stamps_incorrect i 0xC;
    if bad : bool then mret 0
    else
      p ← rd i (fun p => p);
      setSRV i (fun s => s <| srv_t3 := t3 p |> <| srv_t4 := t4 p |>);;
      pp_servo_update i;;
      when allowTimingOutput (control_timing_output i);;
      mret 1.

Definition pp_servo_got_presp (i : nat) : M Z :=
  bad ← stamps_incorrect i 0x3C;
  if bad : bool then mret 0
  else
    p ← rd i (fun p => p);
    setSRV i (fun s => s <| srv_t3 := t3 p |> <| srv_t4 := t4 p |> <| srv_t5 := t5 p |>
      <| srv_t6 := t6 p |> <| got_sync := 1 |>);;
    mret 1.

End Servo.

(** ** What the servo leaves alone *)

Record servo_frame {K} (c : pp_instance -> K) : Prop := {
  sf_srv : forall p g, c (p <| servo ::= g |>) = c p;
  sf_asym : forall p x, c (p <| portDS ::= fun q => q <| delayAsymmetry := x |> |>) = c p;
  sf_link : forall p x, c (p <| portDS ::= fun q => q <| meanLinkDelay := x |> |>) = c p }.

Section Frame.
Context `{Config, Platform}.
Context {K G : Type} (c : pp_instance -> K) (g : pp_globals -> G) (Hc : servo_frame c).
Hypothesis g_cur : forall x h, g (x <| currentDS ::= h |>) = g x.

Lemma view_setSRV i h : guar (same_view c g) (setSRV i h).
Proof. apply guar_view_wr. intros. apply Hc. Qed.
Lemma view_setCUR h : guar (same_view c g) (setCUR h).
Proof. apply guar_view_wrG. intros. apply g_cur. Qed.
Lemma view_stamps i m : guar (same_view c g) (stamps_incorrect i m).
Proof. unfold stamps_incorrect. walk. Qed.
Hint Resolve view_setSRV view_setCUR view_stamps : guar.

Lemma view_servo_init i : guar (same_view c g) (pp_servo_init i).
Proof. unfold pp_servo_init. walk. Qed.
Lemma view_update_meanDelay i x : guar (same_view c g) (update_meanDelay i x).
Proof.
  unfold update_meanDelay. walk. apply guar_view_wr. intros. apply (sf_link c Hc).
Qed.
Hint Resolve view_servo_init view_update_meanDelay : guar.
Lemma view_calculate_delays i : guar (same_view c g) (pp_servo_calculate_delays i).
Proof.
  unfold pp_servo_calculate_delays, calculate_p2p_delayMM, calculate_e2e_delayMM, calculate_delayMM.
  walk. apply guar_view_wr. intros. apply (sf_asym c Hc).
Qed.
Lemma view_control_timing_output i : guar (same_view c g) (control_timing_output i).
Proof. unfold control_timing_output. walk. Qed.
Hint Resolve view_calculate_delays view_control_timing_output : guar.
Lemma view_servo_update i : guar (same_view c g) (pp_servo_update i).
Proof.
  unfold pp_servo_update, pp_servo_mpd_fltr, pp_servo_offset_master, pp_servo_pi_controller. walk.
Qed.
Hint Resolve view_servo_update : guar.
Lemma view_got_sync i b : guar (same_view c g) (pp_servo_got_sync i b).
Proof. unfold pp_servo_got_sync. walk. Qed.
Lemma view_got_resp i b : guar (same_view c g) (pp_servo_got_resp i b).
Proof. unfold pp_servo_got_resp. walk. Qed.
Lemma view_got_presp i : guar (same_view c g) (pp_servo_got_presp i).
Proof. unfold pp_servo_got_presp. walk. Qed.

End Frame.

(** ** Delays *)

(** A timestamp as the servo meets it: normalised, at most 2^50 seconds. *)
Definition stamp (t : pp_time) : Prop := normal_time t /\ Z.abs (secs t) <= 1125899906842624.

Lemma stamp_half t : stamp t -> half_time t.
Proof. intros [Hn Hs]. unfold half_time, normal_time in *. unfold_time. lia. Qed.

Lemma stamp_sub a b : stamp a -> stamp b ->
  tval (pp_time_sub a b) = tval a - tval b /\ half_time (pp_time_sub a b).
Proof.
  intros Ha Hb. pose proof (stamp_half a Ha) as Ja. pose proof (stamp_half b Hb) as Jb.
  pose proof (pp_time_sub_tval a b Ja Jb) as Hv.
  pose proof (pp_time_sub_normal a b Ja Jb (proj1 Ha) (proj1 Hb)) as Hn. split; [done|].
  destruct Ha as [_ Ha], Hb as [_ Hb]. unfold half_time, normal_time in *. unfold_time. lia.
Qed.

Lemma delayMM_exact a b c d : stamp a -> stamp b -> stamp c -> stamp d ->
  tval (pp_time_sub (pp_time_sub a b) (pp_time_sub c d)) = (tval a - tval b) - (tval c - tval d).
Proof.
  intros Ha Hb Hc Hd. destruct (stamp_sub a b Ha Hb) as [E1 J1]. destruct (stamp_sub c d Hc Hd) as [E2 J2].
  rewrite pp_time_sub_tval by done. lia.
Qed.

(** ** Filter *)

(** The number of bits the filter may use: [y] times 2^s fits 63 bits. *)
Lemma filter_bits_spec y s : 0 <= y < 9223372036854775808 -> 0 <= s <= 20 ->
  0 <= filter_bits y s <= s /\ Z.shiftl y (filter_bits y s) < 9223372036854775808.
Proof.
  intros Hy Hs. unfold filter_bits.
  destruct (while_rule (fun s => truth (Z.shiftr y (63 - s))) (fun s => i32 (s - 1))
    (fun k => 0 <= k <= s) (fun k => k)) with (fuel := 64%nat) (s := s) as [Hi Hx]; try lia.
  { intros k Hk Hc. destruct (decide (k = 0)) as [->|].
    - rewrite truth_true, Z.shiftr_div_pow2 in Hc by lia. change (2 ^ (63 - 0)) with 9223372036854775808 in Hc.
      rewrite Z.div_small in Hc by lia. done.
    - rewrite i32_id by lia. lia. }
  set (k := while _ _ _ _) in *. split; [done|].
  apply truth_false in Hx. rewrite Z.shiftr_div_pow2 in Hx by lia.
  rewrite Z.shiftl_mul_pow2 by lia.
  assert (0 < 2 ^ (63 - k)) by (apply Z.pow_pos_nonneg; lia).
  assert (2 ^ (63 - k) * 2 ^ k = 9223372036854775808) as He
    by (rewrite <- Z.pow_add_r by lia; replace (63 - k + k) with 63 by lia; done).
  apply Z.div_small_iff in Hx; [|lia].
  assert (0 < 2 ^ k) by (apply Z.pow_pos_nonneg; lia). nia.
Qed.

(** The average stays between the previous average and the new sample. *)
Lemma weighted_between y x s : 1 <= s -> 0 <= y -> 0 <= x ->
  Z.min y x <= (y * (s - 1) + x) / s <= Z.max y x.
Proof.
  intros Hs Hy Hx. split.
  - apply Z.div_le_lower_bound; [lia|]. destruct (Z.min_spec y x) as [[? ->]|[? ->]]; nia.
  - apply Z.lt_succ_r. apply Z.div_lt_upper_bound; [lia|].
    destruct (Z.max_spec y x) as [[? ->]|[? ->]]; nia.
Qed.

(** The sample the filter uses in place of [ns]: the current average for a
    negative delay, slightly more than twice the average for an outlier. *)
Definition trimmed (y s_exp ns : Z) : Z :=
  if ns <? 0 then y else if 3 * y <? ns then 2 * y + s_exp + 1 else ns.

Definition fltr_ok (f : pp_avg_fltr) : Prop :=
  0 <= flt_y f <= 36028797018963968 /\ 0 <= flt_s_exp f <= 64.

Lemma mpd_filter_spec opt f ns : 0 <= opt <= 6 -> fltr_ok f -> Z.abs ns <= 36028797018963968 ->
  let y0 := if flt_s_exp f <? 1 then Z.max 0 ns else flt_y f in
  let r := mpd_filter opt f ns in
  1 <= flt_s_exp (fst r) <= 64 /\
  flt_y (fst r) = snd r /\
  snd r = (y0 * (flt_s_exp (fst r) - 1) + trimmed y0 (flt_s_exp (fst r)) ns) / flt_s_exp (fst r).
Proof.
  intros Ho [Hy Hs] Hn y0 r. subst r. unfold mpd_filter.
  set (f1 := if flt_s_exp f <? 1 then _ else f).
  assert (flt_y f1 = y0 /\ flt_s_exp f1 = flt_s_exp f) as [Ey Es].
  { subst f1 y0. destruct (Z.ltb_spec (flt_s_exp f) 1); [|done]. cbn.
    destruct (Z.ltb_spec ns 0); split; try done; lia. }
  assert (0 <= y0 <= 36028797018963968) as By by (subst y0; destruct (Z.ltb_spec (flt_s_exp f) 1); lia).
  rewrite Ey. clearbody y0.
  destruct (filter_bits_spec y0 opt ltac:(lia) ltac:(lia)) as [Hb _].
  set (s := filter_bits y0 opt) in *. clearbody s.
  rewrite Z.shiftl_1_l.
  assert (1 <= 2 ^ s <= 64) as Bs.
  { split; [apply (Z.pow_le_mono_r 2 0); lia|]. change 64 with (2 ^ 6). apply Z.pow_le_mono_r; lia. }
  set (lim := 2 ^ s) in *. clearbody lim.
  set (f2 := if lim <? flt_s_exp f1 then _ else f1).
  set (f3 := if flt_s_exp f2 <? lim then _ else f2).
  assert (flt_y f3 = y0 /\ 1 <= flt_s_exp f3 <= 64) as [E3 B3].
  { subst f3 f2. destruct (Z.ltb_spec lim (flt_s_exp f1)); cbn;
      [rewrite Z.ltb_irrefl; cbn; lia|].
    destruct (Z.ltb_spec (flt_s_exp f1) lim); cbn; lia. }
  clearbody f3. cbn [fst snd upd setter flt_y flt_s_exp]. rewrite E3.
  set (e := flt_s_exp f3) in *.
  rewrite (i64_id (3 * y0)), (i64_id (y0 * 2)), (i64_id (y0 * 2 + e + 1)) by lia.
  set (x := if 3 * y0 <? _ then _ else _).
  assert (x = trimmed y0 e ns) as ->.
  { subst x. unfold trimmed. destruct (Z.ltb_spec ns 0).
    - rewrite (proj2 (Z.ltb_ge y0 0)) by lia. rewrite (proj2 (Z.ltb_ge (3 * y0) y0)) by lia. done.
    - rewrite (proj2 (Z.ltb_ge ns 0)) by lia. destruct (Z.ltb_spec (3 * y0) ns); lia. }
  assert (0 <= trimmed y0 e ns <= 200000000000000000) as Bx
    by (unfold trimmed; repeat case_match; lia).
  assert (0 <= y0 * (e - 1) <= 2305843009213693952) as Bm by nia.
  nowrap. rewrite div64_32_spec by lia. cbn [fst].
  pose proof (weighted_between y0 (trimmed y0 e ns) e ltac:(lia) ltac:(lia) ltac:(lia)) as Hw.
  rewrite i64_id by lia. done.
Qed.

(** ** PI controller *)

Lemma signed_div_quot v b : Z.abs v < 9223372036854775808 -> 0 < b < 4294967296 ->
  signed_div64_32 v b = Z.quot v b.
Proof.
  intros Hv Hb. unfold signed_div64_32. destruct (Z.ltb_spec 0 v).
  - rewrite u64_id by lia. rewrite div64_32_spec by lia. cbn [fst]. rewrite Z.quot_div_nonneg; lia.
  - rewrite (i64_id (- v)) by lia. rewrite u64_id by lia. rewrite div64_32_spec by lia. cbn [fst].
    pose proof (Z.div_pos (- v) b ltac:(lia) ltac:(lia)).
    assert (- v / b <= - v) by (apply Z.div_le_upper_bound; nia).
    nowrap. rewrite <- Z.quot_div_nonneg, Z.quot_opp_l by lia. lia.
Qed.

Lemma pi_controller_spec ap ai drift ns : 0 < ap < 32768 -> 0 < ai < 32768 ->
  Z.abs drift <= 33554432000 * ai -> Z.abs ns <= SNS_PER_S ->
  let lim := 33554432000 * ai in
  let drift' := Z.max (- lim) (Z.min lim (drift + ns)) in
  pi_controller ap ai drift ns = (drift', Z.quot ns ap + Z.quot drift' ai) /\
  Z.abs (Z.quot drift' ai) <= 33554432000.
Proof.
  intros Hap Hai Hd Hn lim drift'. rewrite SNS_PER_S_val in Hn.
  assert (Z.abs drift' <= lim) as Bd by lia.
  assert (Z.abs (Z.quot drift' ai) <= 33554432000) as BI.
  { rewrite <- Z.quot_abs by lia. rewrite (Z.abs_eq ai) by lia.
    rewrite Z.quot_div_nonneg by lia. apply Z.div_le_upper_bound; lia. }
  split; [|done]. unfold pi_controller, PP_ADJ_FREQ_MAX.
  rewrite Z.shiftl_mul_pow2 by lia. change (2 ^ 16) with 65536. nowrap.
  replace (512000 * ai * 65536) with lim by lia.
  set (x := if lim <? drift + ns then _ else _).
  assert (x = drift') as -> by (subst x drift'; repeat case_match; lia).
  rewrite !signed_div_quot by lia.
  assert (Z.abs (Z.quot ns ap) <= 65536000000000).
  { rewrite <- Z.quot_abs by lia. rewrite Z.quot_div_nonneg by lia. apply Z.div_le_upper_bound; nia. }
  rewrite i64_id by lia. done.
Qed.

(** ** Properties *)

(** C38. The round-trip delay is exact and independent of the clock offset: when the frame of
    the master takes [dms], the answer takes [dsm], and the slave's clock is ahead by
    [theta], the end-to-end round trip computed from t1..t4 is [dms + dsm] to the last bit;
    likewise for the peer-to-peer stamps t3..t6. *)
Theorem delayMM_offset_free s dms dsm theta :
  stamp (srv_t1 s) -> stamp (srv_t2 s) -> stamp (srv_t3 s) -> stamp (srv_t4 s) ->
  stamp (srv_t5 s) -> stamp (srv_t6 s) ->
  (tval (srv_t2 s) = tval (srv_t1 s) + dms + theta ->
   tval (srv_t4 s) = tval (srv_t3 s) + dsm - theta ->
   tval (e2e_delayMM s) = dms + dsm) /\
  (tval (srv_t4 s) = tval (srv_t3 s) + dsm - theta ->
   tval (srv_t6 s) = tval (srv_t5 s) + dms + theta ->
   tval (p2p_delayMM s) = dms + dsm).
Proof.
  intros S1 S2 S3 S4 S5 S6. unfold e2e_delayMM, p2p_delayMM.
  rewrite !delayMM_exact by done. lia.
Qed.

Lemma delayMM_offset_free_witness :
  let s := zero_servo <| srv_t1 := mk_time 100 0 |> <| srv_t2 := mk_time 107 5000 |>
    <| srv_t3 := mk_time 108 7 |> <| srv_t4 := mk_time 101 4007 |> in
  tval (e2e_delayMM s) = 9000.
Proof.
  intros s. apply (delayMM_offset_free s 5000 4000 (7 * SNS_PER_S)); try reflexivity;
    unfold stamp, normal_time; subst s; cbn -[SNS_PER_S]; unfold_time; lia.
Defined.

(** The mean delay filter is a weighted average of the previous average and the trimmed
    sample: it never overflows, its weight stays in 1..64, and the new average, which
    replaces the measured delay, lies between the previous one and the trimmed sample; it
    is never negative. *)
Theorem mpd_filter_average opt f ns : 0 <= opt <= 6 -> fltr_ok f -> Z.abs ns <= 36028797018963968 ->
  let y0 := if flt_s_exp f <? 1 then Z.max 0 ns else flt_y f in
  let r := mpd_filter opt f ns in
  let x := trimmed y0 (flt_s_exp (fst r)) ns in
  1 <= flt_s_exp (fst r) <= 64 /\ flt_y (fst r) = snd r /\
  Z.min y0 x <= snd r <= Z.max y0 x /\ 0 <= snd r.
Proof.
  intros Ho Hf Hn y0 r x. destruct (mpd_filter_spec opt f ns Ho Hf Hn) as (H1 & H2 & H3).
  fold r in H1, H2, H3. fold y0 in H3. fold x in H3.
  assert (0 <= y0) by (subst y0; destruct Hf; destruct (_ <? 1); lia).
  assert (0 <= x) by (subst x; unfold trimmed; repeat case_match; lia).
  pose proof (weighted_between y0 x (flt_s_exp (fst r)) ltac:(lia) ltac:(lia) ltac:(lia)) as Hw.
  rewrite <- H3 in Hw. clearbody r x y0.
  split; [exact H1|]. split; [exact H2|]. split; [exact Hw|lia].
Qed.

Lemma mpd_filter_average_witness :
  snd (mpd_filter 6 (mk_fltr 0 1000000 3) 9000000) = 1250001 /\
  (1 <= flt_s_exp (fst (mpd_filter 6 (mk_fltr 0 1000000 3) 9000000)) <= 64).
Proof.
  split; [vm_compute; reflexivity|].
  apply (mpd_filter_average 6 (mk_fltr 0 1000000 3) 9000000); [lia| |lia].
  unfold fltr_ok; cbn; lia.
Defined.

(** The PI controller integrates the offset with anti-windup and returns the proportional
    plus the integral part exactly: the drift stays within 512000 ppb times the integral
    divisor, so the integral part never asks for more than 512000 ppb. *)
Theorem pi_controller_exact ap ai drift ns : 0 < ap < 32768 -> 0 < ai < 32768 ->
  Z.abs drift <= 33554432000 * ai -> Z.abs ns <= SNS_PER_S ->
  let lim := 33554432000 * ai in
  let drift' := Z.max (- lim) (Z.min lim (drift + ns)) in
  pi_controller ap ai drift ns = (drift', Z.quot ns ap + Z.quot drift' ai) /\
  Z.abs (Z.quot drift' ai) <= Z.shiftl PP_ADJ_FREQ_MAX 16.
Proof. apply pi_controller_spec. Qed.

Lemma pi_controller_exact_witness :
  pi_controller 10 1000 (-33554432000000) (-6553600) = (-33554432000000, -655360 - 33554432000).
Proof.
  destruct (pi_controller_exact 10 1000 (-33554432000000) (-6553600)) as [-> _];
    try lia; [rewrite SNS_PER_S_val; lia|reflexivity].
Defined.

(** The delays are only computed from correct timestamps: when t1 or t2 is marked
    incorrect, [pp_servo_calculate_delays] reports failure and changes nothing, and the
    servo update does nothing at all. *)
Theorem servo_update_bad_stamps `{Config, Platform} w i :
  is_incorrect (t1 (inst w i)) || is_incorrect (t2 (inst w i)) = true ->
  pp_servo_calculate_delays i w = (false, w) /\ pp_servo_update i w = (tt, w).
Proof.
  intros Hb. assert (pp_servo_calculate_delays i w = (false, w)) as Hd.
  { unfold pp_servo_calculate_delays. rewrite bind_unfold. unfold stamps_incorrect, rd. cbn [fst snd].
    unfold is_timestamp_incorrect_thres, is_timestamp_incorrect. cbn [take ts_incorrect_from].
    change (3 =? 0) with false. change (Z.land 1 3 =? 0) with false. cbn [negb andb].
    destruct (is_incorrect (t1 (inst w i))); [done|]. cbn [orb] in Hb. by rewrite Hb. }
  split; [done|]. unfold pp_servo_update. rewrite bind_unfold, Hd. done.
Qed.

Lemma servo_update_bad_stamps_witness :
  let w := Demo.demo_world [(Demo.demo_inst 0 PPS_SLAVE) <| t2 ::= mark_incorrect |>] 0 in
  @pp_servo_update Demo.demo_config Demo.demo_platform 0 w = (tt, w).
Proof.
  apply (@servo_update_bad_stamps Demo.demo_config Demo.demo_platform
    (Demo.demo_world [(Demo.demo_inst 0 PPS_SLAVE) <| t2 ::= mark_incorrect |>] 0) 0).
  vm_compute. reflexivity.
Defined.

(** A slave one microsecond behind is taken to be far more than 500 ms away. *)
Example offset_us_negative : offset_us (-1000000) = 140462612.
Proof. vm_compute. reflexivity. Qed.
