(* ===== verification/BmcCmp.v ===== *)
(** * Data set comparison (proto-standard/bmc.c)

    The comparisons of the best master clock algorithm, figures 27 and 28 of
    IEEE 1588.  Which records count as qualified depends on the state of the
    ports; here it is a parameter, [isq].

    The specification is an order on keys: lists of numbers compared
    lexicographically.  The comparison cascades of the code are shown to be
    this order, hence a total order, under the conditions the standard
    guarantees. *)

From S2P Require Import Prelude TimeArith Types.

(** ** Comparison functions *)

(** [memcmp], with the difference of the first bytes that differ. *)
Fixpoint memcmp (a b : list Z) : Z :=
  match a, b with
  | x :: a', y :: b' => if x =? y then memcmp a' b' else x - y
  | _, _ => 0
  end.

Definition bmc_idcmp (a b : ClockIdentity) : Z := memcmp a b.

Definition bmc_pidcmp (a b : PortIdentity) : Z :=
  let ret := bmc_idcmp (clockIdentity a) (clockIdentity b) in
  if negb (ret =? 0) then ret else portNumber a - portNumber b.

Section Cmp.
(** [is_qualified(ppi, .)] *)
Context (isq : pp_frgn_master -> bool).

(** [None]: both are qualified and the comparison goes on. *)
Definition are_qualified (a b : pp_frgn_master) : option Z :=
  if isq a && negb (isq b) then Some (-1)
  else if isq b && negb (isq a) then Some 1
  else if negb (isq a) && negb (isq b) then Some 0
  else None.

Definition bmc_gm_cmp (a b : pp_frgn_master) : Z :=
  match are_qualified a b with
  | Some ret => ret
  | None =>
      let qa := fm_grandmasterClockQuality a in
      let qb := fm_grandmasterClockQuality b in
      if negb (fm_grandmasterPriority1 a =? fm_grandmasterPriority1 b)
      then fm_grandmasterPriority1 a - fm_grandmasterPriority1 b
      else if negb (clockClass qa =? clockClass qb)
      then clockClass qa - clockClass qb
      else if negb (clockAccuracy qa =? clockAccuracy qb)
      then clockAccuracy qa - clockAccuracy qb
      else if negb (offsetScaledLogVariance qa =? offsetScaledLogVariance qb)
      then offsetScaledLogVariance qa - offsetScaledLogVariance qb
      else if negb (fm_grandmasterPriority2 a =? fm_grandmasterPriority2 b)
      then fm_grandmasterPriority2 a - fm_grandmasterPriority2 b
      else bmc_idcmp (fm_grandmasterIdentity a) (fm_grandmasterIdentity b)
  end.

Definition bmc_topology_cmp (a b : pp_frgn_master) : Z :=
  match are_qualified a b with
  | Some ret => ret
  | None =>
      let diff := fm_stepsRemoved a - fm_stepsRemoved b in
      if (1 <? diff) || (diff <? -1) then diff
      else if 0 <? diff then
        if bmc_pidcmp (fm_sourcePortIdentity a) (fm_receivePortIdentity a) =? 0 then 0 else 1
      else if diff <? 0 then
        if bmc_pidcmp (fm_sourcePortIdentity b) (fm_receivePortIdentity b) =? 0 then 0 else -1
      else
        let diff := bmc_pidcmp (fm_sourcePortIdentity a) (fm_sourcePortIdentity b) in
        if negb (diff =? 0) then diff
        else bmc_pidcmp (fm_receivePortIdentity a) (fm_receivePortIdentity b)
  end.

Definition bmc_dataset_cmp (a b : pp_frgn_master) : Z :=
  if bmc_idcmp (fm_grandmasterIdentity a) (fm_grandmasterIdentity b) =? 0
  then bmc_topology_cmp a b
  else bmc_gm_cmp a b.

End Cmp.

(** ** Lexicographic order *)

Lemma memcmp_refl a : memcmp a a = 0.
Proof. induction a as [|x a IH]; cbn; [done|]. by rewrite Z.eqb_refl. Qed.

Lemma memcmp_antisym a b : memcmp b a = - memcmp a b.
Proof.
  revert b. induction a as [|x a IH]; intros [|y b]; cbn; try done.
  rewrite Z.eqb_sym. destruct (Z.eqb_spec x y); [done|lia].
Qed.

Lemma memcmp_eq a b : length a = length b -> memcmp a b = 0 -> a = b.
Proof.
  revert b. induction a as [|x a IH]; intros [|y b]; cbn; try done. intros Hl.
  destruct (Z.eqb_spec x y) as [->|]; [|lia]. intros Hm. f_equal. apply IH; [lia|done].
Qed.

Lemma memcmp_eq_iff a b : length a = length b -> memcmp a b = 0 <-> a = b.
Proof. split; [by apply memcmp_eq|intros ->; apply memcmp_refl]. Qed.

Lemma memcmp_le_trans a b c : length a = length b -> length b = length c ->
  memcmp a b <= 0 -> memcmp b c <= 0 -> memcmp a c <= 0.
Proof.
  revert b c. induction a as [|x a IH]; intros [|y b] [|z c]; cbn; try done. intros Hl1 Hl2.
  destruct (Z.eqb_spec x y) as [->|], (Z.eqb_spec y z) as [->|]; try lia.
  - apply IH; lia.
  - rewrite (proj2 (Z.eqb_neq _ _)) by lia. lia.
  - destruct (Z.eqb_spec x z); lia.
Qed.

Lemma memcmp_app a1 a2 b1 b2 : length a1 = length b1 ->
  memcmp (a1 ++ a2) (b1 ++ b2) = if memcmp a1 b1 =? 0 then memcmp a2 b2 else memcmp a1 b1.
Proof.
  revert b1. induction a1 as [|x a IH]; intros [|y b]; cbn; try done. intros Hl.
  destruct (Z.eqb_spec x y) as [->|]; [apply IH; lia|].
  destruct (Z.eqb_spec (x - y) 0); [lia|done].
Qed.

(** ** Keys *)

Definition pid_key (p : PortIdentity) : list Z := clockIdentity p ++ [portNumber p].

Definition gm_key (a : pp_frgn_master) : list Z :=
  let q := fm_grandmasterClockQuality a in
  [fm_grandmasterPriority1 a; clockClass q; clockAccuracy q; offsetScaledLogVariance q;
   fm_grandmasterPriority2 a] ++ fm_grandmasterIdentity a.

Definition topo_key (a : pp_frgn_master) : list Z :=
  fm_stepsRemoved a :: pid_key (fm_sourcePortIdentity a) ++ pid_key (fm_receivePortIdentity a).

(** Records with identities of eight bytes. *)
Definition wf_pid (p : PortIdentity) : Prop := length (clockIdentity p) = 8%nat.
Definition wf_frgn (a : pp_frgn_master) : Prop :=
  wf_pid (fm_sourcePortIdentity a) /\ wf_pid (fm_receivePortIdentity a) /\
  length (fm_grandmasterIdentity a) = 8%nat.

Lemma pidcmp_key a b : wf_pid a -> wf_pid b -> bmc_pidcmp a b = memcmp (pid_key a) (pid_key b).
Proof.
  intros Ha Hb. unfold bmc_pidcmp, bmc_idcmp, pid_key. rewrite memcmp_app by (by rewrite Ha).
  destruct (Z.eqb_spec (memcmp (clockIdentity a) (clockIdentity b)) 0); cbn [negb]; [|done].
  cbn. destruct (Z.eqb_spec (portNumber a) (portNumber b)); lia.
Qed.

Lemma pidcmp_eq a b : wf_pid a -> wf_pid b -> bmc_pidcmp a b = 0 <-> a = b.
Proof.
  intros Ha Hb. rewrite pidcmp_key by done. unfold pid_key.
  rewrite memcmp_eq_iff by (rewrite !length_app; cbn; by rewrite Ha, Hb).
  split; [|by intros ->]. intros He. apply app_inj_tail in He as [? ?]. destruct a, b; cbn in *; by subst.
Qed.

Lemma pidcmp_antisym a b : wf_pid a -> wf_pid b -> bmc_pidcmp b a = - bmc_pidcmp a b.
Proof. intros. rewrite !pidcmp_key by done. apply memcmp_antisym. Qed.

Section Order.
Context (isq : pp_frgn_master -> bool).

Lemma are_qualified_both a b : isq a = true -> isq b = true -> are_qualified isq a b = None.
Proof. intros Ha Hb. unfold are_qualified. by rewrite Ha, Hb. Qed.

(** The grandmaster comparison is the order of [gm_key]. *)
Lemma gm_cmp_key a b : isq a = true -> isq b = true ->
  bmc_gm_cmp isq a b = memcmp (gm_key a) (gm_key b).
Proof.
  intros Ha Hb. unfold bmc_gm_cmp. rewrite are_qualified_both by done. unfold gm_key. cbn [app memcmp].
  repeat match goal with |- context [if negb ?b then _ else _] => destruct b; cbn [negb]; [|done] end.
  done.
Qed.

(** A record received from the receiving port itself is an error of the
    topology comparison. *)
Definition not_self (a : pp_frgn_master) : Prop :=
  fm_sourcePortIdentity a <> fm_receivePortIdentity a.

(** The topology comparison has the sign of the order of [topo_key]. *)
Lemma topology_cmp_key a b : isq a = true -> isq b = true -> wf_frgn a -> wf_frgn b ->
  not_self a -> not_self b ->
  Z.sgn (bmc_topology_cmp isq a b) = Z.sgn (memcmp (topo_key a) (topo_key b)).
Proof.
  intros Ha Hb (Wa1 & Wa2 & _) (Wb1 & Wb2 & _) Na Nb. unfold bmc_topology_cmp.
  rewrite are_qualified_both by done. unfold topo_key. cbn [memcmp].
  set (diff := fm_stepsRemoved a - fm_stepsRemoved b).
  assert (bmc_pidcmp (fm_sourcePortIdentity a) (fm_receivePortIdentity a) <> 0) as Ea
    by (by rewrite pidcmp_eq).
  assert (bmc_pidcmp (fm_sourcePortIdentity b) (fm_receivePortIdentity b) <> 0) as Eb
    by (by rewrite pidcmp_eq).
  rewrite (proj2 (Z.eqb_neq _ 0) Ea), (proj2 (Z.eqb_neq _ 0) Eb).
  destruct (Z.eqb_spec (fm_stepsRemoved a) (fm_stepsRemoved b)) as [He|He].
  - assert (diff = 0) as -> by lia. cbn -[bmc_pidcmp memcmp].
    rewrite memcmp_app by (unfold pid_key; rewrite !length_app, Wa1, Wb1; done).
    rewrite <- !pidcmp_key by done. by destruct (_ =? 0).
  - repeat case_match; lia.
Qed.

End Order.

(** ** The order of the data sets *)

Definition ds_key (a : pp_frgn_master) : list Z := gm_key a ++ topo_key a.

(** What the standard guarantees of records compared with each other: they
    are well formed, no port received its own Announce, and all Announces of
    one grandmaster agree on its attributes. *)
Definition comparable (a b : pp_frgn_master) : Prop :=
  wf_frgn a /\ wf_frgn b /\ not_self a /\ not_self b /\
  (fm_grandmasterIdentity a = fm_grandmasterIdentity b -> gm_key a = gm_key b).

Lemma comparable_sym a b : comparable a b -> comparable b a.
Proof. intros (? & ? & ? & ? & Hg). unfold comparable. split_and!; auto. intros. symmetry. auto. Qed.

Lemma length_gm_key a : wf_frgn a -> length (gm_key a) = 13%nat.
Proof. intros (_ & _ & Hl). unfold gm_key. rewrite length_app, Hl. done. Qed.
Lemma length_ds_key a : wf_frgn a -> length (ds_key a) = 32%nat.
Proof.
  intros Hw. unfold ds_key, topo_key, pid_key. cbn [length].
  rewrite length_app, length_gm_key by done. destruct Hw as (H1 & H2 & _).
  cbn [length]. rewrite !length_app, H1, H2. done.
Qed.

Section DsOrder.
Context (isq : pp_frgn_master -> bool).

Lemma dataset_cmp_key a b : isq a = true -> isq b = true -> comparable a b ->
  Z.sgn (bmc_dataset_cmp isq a b) = Z.sgn (memcmp (ds_key a) (ds_key b)).
Proof.
  intros Qa Qb (Wa & Wb & Na & Nb & Hg). unfold bmc_dataset_cmp, ds_key.
  rewrite memcmp_app by (by rewrite !length_gm_key).
  pose proof Wa as (_ & _ & La). pose proof Wb as (_ & _ & Lb).
  unfold bmc_idcmp. destruct (Z.eqb_spec (memcmp (fm_grandmasterIdentity a) (fm_grandmasterIdentity b)) 0) as [He|He].
  - apply memcmp_eq in He; [|congruence]. rewrite (Hg He), memcmp_refl. cbn [Z.eqb].
    by apply topology_cmp_key.
  - rewrite gm_cmp_key by done.
    destruct (Z.eqb_spec (memcmp (gm_key a) (gm_key b)) 0) as [Hk|]; [|done].
    apply memcmp_eq in Hk; [|by rewrite !length_gm_key]. exfalso. apply He.
    unfold gm_key in Hk. apply app_inj_1 in Hk as [_ ->]; [|done]. apply memcmp_refl.
Qed.

(** Without qualification the records are not compared further. *)
Lemma dataset_cmp_unqualified a b : isq a && isq b = false ->
  bmc_dataset_cmp isq a b = (if isq a then -1 else if isq b then 1 else 0).
Proof.
  intros Hq. unfold bmc_dataset_cmp, bmc_topology_cmp, bmc_gm_cmp, are_qualified.
  by destruct (isq a), (isq b), (bmc_idcmp _ _ =? 0).
Qed.

Lemma dataset_cmp_le a b : comparable a b ->
  bmc_dataset_cmp isq a b <= 0 <->
  isq b = false \/ (isq a = true /\ memcmp (ds_key a) (ds_key b) <= 0).
Proof.
  intros Hc. destruct (isq a && isq b) eqn:Hq.
  - apply andb_true_iff in Hq as [Qa Qb]. pose proof (dataset_cmp_key a b Qa Qb Hc).
    rewrite Qb. split; intros; [right; split; [done|]|]; destruct_or?; try done; lia.
  - rewrite dataset_cmp_unqualified by done.
    destruct (isq a), (isq b); try done; split; intros; destruct_or?; destruct_and?; try done; try lia; auto.
Qed.

Lemma dataset_cmp_antisym a b : comparable a b ->
  Z.sgn (bmc_dataset_cmp isq b a) = - Z.sgn (bmc_dataset_cmp isq a b).
Proof.
  intros Hc. destruct (isq a && isq b) eqn:Hq.
  - apply andb_true_iff in Hq as [Qa Qb]. rewrite !dataset_cmp_key by auto using comparable_sym.
    rewrite memcmp_antisym. apply Z.sgn_opp.
  - rewrite !dataset_cmp_unqualified by (done || by rewrite andb_comm). by destruct (isq a), (isq b).
Qed.

Lemma dataset_cmp_trans a b c : comparable a b -> comparable b c -> comparable a c ->
  bmc_dataset_cmp isq a b <= 0 -> bmc_dataset_cmp isq b c <= 0 -> bmc_dataset_cmp isq a c <= 0.
Proof.
  intros Hab Hbc Hac. rewrite !dataset_cmp_le by done. destruct Hab as (Wa & Wb & _), Hbc as (_ & Wc & _).
  intros [Qb|[Qa Hab]] [Qc|[Qb' Hbc]]; auto; [congruence|]. right. split; [done|].
  eapply memcmp_le_trans; [..|exact Hab|exact Hbc]; by rewrite !length_ds_key.
Qed.

Lemma dataset_cmp_refl_le a : wf_frgn a -> not_self a -> bmc_dataset_cmp isq a a <= 0.
Proof.
  intros. apply dataset_cmp_le; [unfold comparable; split_and!; done|]. rewrite memcmp_refl. destruct (isq a); auto with lia.
Qed.

End DsOrder.

(** C7. The data set comparison is a total order on records that are pairwise [comparable]: their
    identities have eight bytes, none was received by the very port it is from, and Announces of
    one grandmaster agree on its attributes (for records that do not agree, the comparison can be
    circular, [dataset_cmp_cycle]). Swapping the arguments flips the sign; it is transitive; a
    qualified record beats an unqualified one; and two qualified records tie only if their ranking
    attributes and port identities are all equal. *)
Theorem dataset_cmp_order (isq : pp_frgn_master -> bool) (a b c : pp_frgn_master) :
  comparable a b -> comparable b c -> comparable a c ->
  let cmp := bmc_dataset_cmp isq in
  Z.sgn (cmp b a) = - Z.sgn (cmp a b) /\
  (cmp a b <= 0 -> cmp b c <= 0 -> cmp a c <= 0) /\
  (isq a = true -> isq b = false -> cmp a b < 0) /\
  (isq a = true -> isq b = true -> cmp a b = 0 -> ds_key a = ds_key b).
Proof.
  intros Hab Hbc Hac cmp. unfold cmp. repeat split.
  - by apply dataset_cmp_antisym.
  - by apply dataset_cmp_trans.
  - intros Qa Qb. rewrite dataset_cmp_unqualified by (by rewrite Qa, Qb). rewrite Qa. lia.
  - intros Qa Qb Hz. pose proof (dataset_cmp_key isq a b Qa Qb Hab) as Hk. rewrite Hz in Hk.
    destruct Hab as (Wa & Wb & _). apply memcmp_eq; [by rewrite !length_ds_key|]. lia.
Qed.

Definition demo_frgn (k prio : Z) : pp_frgn_master :=
  empty_frgn <| fm_qualified := 1 |> <| fm_sourcePortIdentity := mk_pid [k; 0; 0; 0; 0; 0; 0; 1] 1 |>
    <| fm_grandmasterIdentity := [k; 0; 0; 0; 0; 0; 0; 1] |> <| fm_grandmasterPriority1 := prio |>.

Lemma dataset_cmp_order_witness :
  bmc_dataset_cmp (fun f => truth (fm_qualified f)) (demo_frgn 3 1) (demo_frgn 1 7) <= 0.
Proof.
  apply (dataset_cmp_order (fun f => truth (fm_qualified f)) (demo_frgn 3 1) (demo_frgn 2 5) (demo_frgn 1 7));
    try (unfold comparable; split_and!; vm_compute; intuition congruence); vm_compute; congruence.
Defined.

(** Without agreement on the grandmaster the comparison can be circular:
    two Announces of one grandmaster that differ in its priority. *)
Example dataset_cmp_cycle :
  let isq f := truth (fm_qualified f) in
  let a := demo_frgn 1 3 in
  let b := demo_frgn 2 5 in
  let c := (demo_frgn 1 7) <| fm_sourcePortIdentity := mk_pid [0; 0; 0; 0; 0; 0; 0; 2] 1 |> in
  bmc_dataset_cmp isq a b < 0 /\ bmc_dataset_cmp isq b c < 0 /\ bmc_dataset_cmp isq c a < 0.
Proof. by vm_compute. Qed.
