(* ===== verification/ClockQuality.v ===== *)
(** * Clock quality (proto-standard/bmc_clock_quality.c)

    How the attributes of a grandmaster degrade when its reference is lost,
    and the default attributes per clock class. *)

From S2P Require Import Prelude TimeArith Types World.

(** ** Constants of constants.h, ieee1588_types.h and bmc.h *)

Definition PP_PTP_CLASS_GM_HOLDOVER : Z := 7.
Definition PP_PTP_CLASS_GM_UNLOCKED_A : Z := 52.
Definition PP_PTP_CLASS_GM_UNLOCKED_B : Z := 187.
Definition PP_ARB_CLASS_GM_LOCKED : Z := 13.
Definition PP_ARB_CLASS_GM_HOLDOVER : Z := 14.
Definition PP_ARB_CLASS_GM_UNLOCKED_A : Z := 58.
Definition PP_ARB_CLASS_GM_UNLOCKED_B : Z := 193.
Definition CLOCK_ACCURACY_25_NS : Z := 0x20.
Definition CLOCK_ACCURACY_100_NS : Z := 0x21.
Definition CLOCK_ACCURACY_UNKNOWN : Z := 0xFE.
(** The variances of the locked clocks, and of all the others. *)
Definition PP_PTP_VARIANCE_GM_LOCKED : Z := 0xB900.
Definition PP_VARIANCE_DEFAULT : Z := 0xC71D.
Definition TIME_SRC_ATOMIC_CLOCK : Z := 0x10.
Definition TIME_SRC_GNSS : Z := 0x20.
Definition PP_TIMING_MODE_STATE_UNLOCKED : Z := 0.
Definition PP_TIMING_MODE_STATE_HOLDOVER : Z := 1.
Definition PP_TIMING_MODE_STATE_LOCKED : Z := 2.

(** ** Tables *)

Record deviceAttributesDegradation_t := mk_deg {
  deg_clockQuality : ClockQuality; deg_timeSource : Z; deg_ptpTimeScale : Z;
  deg_frequencyTraceable : Z; deg_timeTraceable : Z }.

Record clockDegradation_t := mk_clkdeg {
  cd_clockClass : Z; cd_enable_timing_output : bool;
  cd_holdover : deviceAttributesDegradation_t; cd_unlocked : deviceAttributesDegradation_t }.

(** Default attributes of a clock class. *)
Record defaultDeviceAttributes_t := mk_dev {
  dev_clockClass : Z; dev_clockAccuracy : Z; dev_offsetScaledLogVariance : Z;
  dev_timeSource : Z; dev_ptpTimeScale : Z; dev_frequencyTraceable : Z; dev_timeTraceable : Z }.

Section ClockQuality.
Context `{Config, Platform}.

(** A free running attribute set of the arbitrary timescale. *)
Definition arb_free (class acc : Z) : deviceAttributesDegradation_t :=
  mk_deg (mk_cq class acc PP_VARIANCE_DEFAULT) TIME_SRC_INTERNAL_OSCILLATOR 0 0 0.

Definition clockDegradation : list clockDegradation_t :=
  [ mk_clkdeg PP_PTP_CLASS_GM_LOCKED true
      (mk_deg (mk_cq PP_PTP_CLASS_GM_HOLDOVER CLOCK_ACCURACY_100_NS PP_VARIANCE_DEFAULT)
         TIME_SRC_INTERNAL_OSCILLATOR 1 1 1)
      (mk_deg (mk_cq PP_PTP_CLASS_GM_UNLOCKED_B CLOCK_ACCURACY_UNKNOWN PP_VARIANCE_DEFAULT)
         TIME_SRC_INTERNAL_OSCILLATOR 1 0 0) ] ++
  (if CONFIG_CODEOPT_WRPC_SIZE then [] else
   [ mk_clkdeg PP_ARB_CLASS_GM_LOCKED false
       (arb_free PP_ARB_CLASS_GM_HOLDOVER CLOCK_ACCURACY_25_NS)
       (arb_free PP_ARB_CLASS_GM_UNLOCKED_B CLOCK_ACCURACY_UNKNOWN);
     mk_clkdeg PP_ARB_CLASS_GM_UNLOCKED_A false
       (arb_free PP_ARB_CLASS_GM_UNLOCKED_A CLOCK_ACCURACY_UNKNOWN)
       (arb_free PP_ARB_CLASS_GM_UNLOCKED_A CLOCK_ACCURACY_UNKNOWN) ]) ++
  [ mk_clkdeg PP_ARB_CLASS_GM_UNLOCKED_B false
      (arb_free PP_ARB_CLASS_GM_UNLOCKED_B CLOCK_ACCURACY_UNKNOWN)
      (arb_free PP_ARB_CLASS_GM_UNLOCKED_B CLOCK_ACCURACY_UNKNOWN) ].

Definition defaultDeviceAttributes : list defaultDeviceAttributes_t :=
  let int_osc := TIME_SRC_INTERNAL_OSCILLATOR in
  let var := PP_VARIANCE_DEFAULT in
  [ mk_dev PP_PTP_CLASS_GM_LOCKED CLOCK_ACCURACY_100_NS PP_PTP_VARIANCE_GM_LOCKED TIME_SRC_GNSS 1 1 1;
    mk_dev PP_PTP_CLASS_GM_HOLDOVER CLOCK_ACCURACY_100_NS var int_osc 1 1 1 ] ++
  (if CONFIG_CODEOPT_WRPC_SIZE then [] else
   [ mk_dev PP_PTP_CLASS_GM_UNLOCKED_A CLOCK_ACCURACY_UNKNOWN var int_osc 1 0 0 ]) ++
  [ mk_dev PP_PTP_CLASS_GM_UNLOCKED_B CLOCK_ACCURACY_UNKNOWN var int_osc 1 0 0 ] ++
  (if CONFIG_CODEOPT_WRPC_SIZE then [] else
   [ mk_dev PP_ARB_CLASS_GM_LOCKED CLOCK_ACCURACY_25_NS PP_PTP_VARIANCE_GM_LOCKED
       TIME_SRC_ATOMIC_CLOCK 0 0 0;
     mk_dev PP_ARB_CLASS_GM_HOLDOVER CLOCK_ACCURACY_25_NS var int_osc 0 0 0;
     mk_dev PP_ARB_CLASS_GM_UNLOCKED_A CLOCK_ACCURACY_25_NS var int_osc 0 0 0 ]) ++
  [ mk_dev PP_ARB_CLASS_GM_UNLOCKED_B CLOCK_ACCURACY_25_NS var int_osc 0 0 0;
    mk_dev (-1) CLOCK_ACCURACY_UNKNOWN var int_osc 0 0 0 ].

(** ** Operations *)

(** The options are [int]s or [Boolean]s, the data sets hold bytes and a
    16-bit variance. *)
Definition bmc_apply_configured_device_attributes : M unit :=
  wrG (fun g =>
    let o := rt_opts g in
    g <| timePropertiesDS ::= fun tp =>
          tp <| timeSource := u8 (opt_timeSource o) |>
             <| ptpTimescale := opt_ptpTimeScale o |>
             <| frequencyTraceable := opt_frequencyTraceable o |>
             <| timeTraceable := opt_timeTraceable o |> |>
      <| defaultDS ::= fun d =>
          d <| def_clockQuality := mk_cq (u8 (opt_clockClass o)) (u8 (opt_clockAccuracy o))
                                     (u16 (opt_offsetScaledLogVariance o)) |>
            <| def_priority1 := u8 (opt_priority1 o) |>
            <| def_priority2 := u8 (opt_priority2 o) |>
            <| def_domainNumber := u8 (opt_domainNumber o) |> |>).

(** The [else] branch of a change: the attributes of [devAttr], where they
    are not better than the configured ones. *)
Definition degrade (devAttr : deviceAttributesDegradation_t) (g : pp_globals) : pp_globals :=
  let o := rt_opts g in
  let q := deg_clockQuality devAttr in
  g <| defaultDS ::= fun d => d <| def_clockQuality ::= fun cq =>
         mk_cq (clockClass q)
           (if u8 (opt_clockAccuracy o) <? clockAccuracy q then clockAccuracy q else clockAccuracy cq)
           (if u16 (opt_offsetScaledLogVariance o) <? offsetScaledLogVariance q
            then offsetScaledLogVariance q else offsetScaledLogVariance cq) |> |>
    <| timePropertiesDS ::= fun tp =>
         tp <| timeSource := if opt_timeSource o <? deg_timeSource devAttr
                             then deg_timeSource devAttr else timeSource tp |>
            <| ptpTimescale := if truth (opt_ptpTimeScale o)
                               then deg_ptpTimeScale devAttr else ptpTimescale tp |>
            <| frequencyTraceable := if truth (opt_frequencyTraceable o)
                               then deg_frequencyTraceable devAttr else frequencyTraceable tp |>
            <| timeTraceable := if truth (opt_timeTraceable o)
                               then deg_timeTraceable devAttr else timeTraceable tp |> |>.

(** The entry of the clock class, and its index. *)
Fixpoint find_degradation (class : Z) (l : list clockDegradation_t) (k : nat) :
    option (nat * clockDegradation_t) :=
  match l with
  | [] => None
  | e :: l' => if class =? cd_clockClass e then Some (k, e) else find_degradation class l' (S k)
  end.

Definition bmc_update_clock_quality : M unit :=
  o ← OPTS;
  match find_degradation (opt_clockClass o) clockDegradation 0 with
  | None => mret tt
  | Some (k, clkDeg) =>
      st ← op t_get_GM_lock_state;
      match st with
      | None => mret tt
      | Some timing_mode_state =>
          last ← rd_lastTimingMode k;
          when (negb (last =? timing_mode_state))
            ((if timing_mode_state =? PP_TIMING_MODE_STATE_LOCKED then
                bmc_apply_configured_device_attributes;;
                when (cd_enable_timing_output clkDeg) (op_ (t_enable_timing_output true))
              else
                wrG (degrade (if timing_mode_state =? PP_TIMING_MODE_STATE_UNLOCKED
                              then cd_unlocked clkDeg else cd_holdover clkDeg)));;
             wr_lastTimingMode k timing_mode_state)
      end
  end.

(** The [while] loop: it stops at the entry of the class, or at the last. *)
Fixpoint find_attributes (class : Z) (l : list defaultDeviceAttributes_t) : defaultDeviceAttributes_t :=
  match l with
  | [] => mk_dev (-1) 0 0 0 0 0 0
  | e :: l' =>
      if negb (dev_clockClass e =? class) && negb (dev_clockClass e =? -1)
      then find_attributes class l' else e
  end.

(** [Boolean] is unsigned: its comparison with -1 is the comparison of a
    value in 0..255 with -1. *)
Definition bmc_set_default_device_attributes : M unit :=
  wrG (fun g =>
    let o := rt_opts g in
    let d := find_attributes (opt_clockClass o) defaultDeviceAttributes in
    let dflt v x := if v =? -1 then x else v in
    g <| rt_opts := o
      <| opt_clockAccuracy := dflt (opt_clockAccuracy o) (dev_clockAccuracy d) |>
      <| opt_offsetScaledLogVariance :=
           dflt (opt_offsetScaledLogVariance o) (dev_offsetScaledLogVariance d) |>
      <| opt_timeSource := dflt (opt_timeSource o) (dev_timeSource d) |>
      <| opt_ptpTimeScale := dflt (u8 (opt_ptpTimeScale o)) (dev_ptpTimeScale d) |>
      <| opt_frequencyTraceable := dflt (u8 (opt_frequencyTraceable o)) (dev_frequencyTraceable d) |>
      <| opt_timeTraceable := dflt (u8 (opt_timeTraceable o)) (dev_timeTraceable d) |> |>).

(** ** What the update leaves alone *)

Section Frame.
Context {K G : Type} (c : pp_instance -> K) (gv : pp_globals -> G).
Hypothesis gv_quality : forall x h, gv (x <| defaultDS ::= fun d => d <| def_clockQuality ::= h |> |>) = gv x.
Hypothesis gv_prio : forall x q p1 p2 n, gv (x <| defaultDS ::= fun d =>
  d <| def_clockQuality := q |> <| def_priority1 := p1 |> <| def_priority2 := p2 |>
    <| def_domainNumber := n |> |>) = gv x.
Hypothesis gv_tp : forall x h, gv (x <| timePropertiesDS ::= h |>) = gv x.

Lemma view_update_clock_quality : guar (same_view c gv) bmc_update_clock_quality.
Proof.
  unfold bmc_update_clock_quality. walk.
  - unfold bmc_apply_configured_device_attributes. apply guar_view_wrG. intros x.
    etrans; [|apply (gv_tp x)]. apply gv_prio.
  - apply guar_view_wrG. intros x. unfold degrade. etrans; [apply gv_tp|]. apply gv_quality.
Qed.
End Frame.

(** ** Degradation *)

(** The attributes in use are not better than the configured ones. *)
Definition not_better (g : pp_globals) : Prop :=
  let o := rt_opts g in let q := def_clockQuality (defaultDS g) in
  opt_clockClass o <= clockClass q /\ opt_clockAccuracy o <= clockAccuracy q /\
  opt_offsetScaledLogVariance o <= offsetScaledLogVariance q.

(** Configured attributes fit the fields they are copied to. *)
Definition quality_configured (g : pp_globals) : Prop :=
  let o := rt_opts g in
  0 <= opt_clockClass o <= 255 /\ 0 <= opt_clockAccuracy o <= 255 /\
  0 <= opt_offsetScaledLogVariance o <= 65535.

Lemma find_degradation_worse class k j e :
  find_degradation class clockDegradation k = Some (j, e) ->
  class <= clockClass (deg_clockQuality (cd_holdover e)) /\
  class <= clockClass (deg_clockQuality (cd_unlocked e)) /\ cd_clockClass e = class.
Proof.
  unfold clockDegradation. destruct CONFIG_CODEOPT_WRPC_SIZE; cbn [app find_degradation cd_clockClass];
    repeat match goal with |- context [?x =? ?y] => destruct (Z.eqb_spec x y) end;
    intros Hf; inversion Hf; subst; cbn; vm_compute; intuition congruence.
Qed.

Lemma apply_configured_quality w : quality_configured (glbs w) ->
  let o := rt_opts (glbs w) in
  def_clockQuality (defaultDS (glbs (bmc_apply_configured_device_attributes w).2)) =
    mk_cq (opt_clockClass o) (opt_clockAccuracy o) (opt_offsetScaledLogVariance o).
Proof.
  intros (Hc & Ha & Hv). cbn.
  by rewrite (u8_id (opt_clockClass _)), (u8_id (opt_clockAccuracy _)), u16_id by lia.
Qed.

Lemma apply_configured_not_better w : quality_configured (glbs w) ->
  not_better (glbs (bmc_apply_configured_device_attributes w).2).
Proof.
  intros (Hc & Ha & Hv). unfold not_better. cbn.
  rewrite (u8_id (opt_clockClass _)), (u8_id (opt_clockAccuracy _)), u16_id by lia. lia.
Qed.

Lemma degrade_not_better devAttr g : quality_configured g -> not_better g ->
  opt_clockClass (rt_opts g) <= clockClass (deg_clockQuality devAttr) -> not_better (degrade devAttr g).
Proof.
  intros (Hc & Ha & Hv) (Nc & Na & Nv) Hd. unfold not_better. cbn.
  rewrite u8_id, u16_id by lia. repeat case_match; lia.
Qed.

End ClockQuality.

Section Update.
Context `{Config, Platform}.

Lemma update_clock_quality_opts w :
  rt_opts (glbs (bmc_update_clock_quality w).2) = rt_opts (glbs w).
Proof.
  pose proof (view_update_clock_quality (fun _ => tt) rt_opts ltac:(done) ltac:(done) ltac:(done) w) as Hv.
  unfold same_view, view in Hv. congruence.
Qed.

Lemma update_clock_quality_run w k e st :
  find_degradation (opt_clockClass (rt_opts (glbs w))) clockDegradation 0 = Some (k, e) ->
  (t_get_GM_lock_state (the_env w)).1 = Some st ->
  glbs (bmc_update_clock_quality w).2 =
  if nth k (clockDeg_lastTimingModeState w) 0 =? st then glbs w
  else if st =? PP_TIMING_MODE_STATE_LOCKED
  then glbs (bmc_apply_configured_device_attributes w).2
  else degrade (if st =? PP_TIMING_MODE_STATE_UNLOCKED then cd_unlocked e else cd_holdover e) (glbs w).
Proof.
  intros He Hs. unfold bmc_update_clock_quality, OPTS, rdG. rewrite bind_unfold. cbn [fst snd].
  rewrite He, bind_unfold. unfold op at 1 2. destruct (t_get_GM_lock_state (the_env w)) as [o e'].
  cbn [fst] in Hs. subst o. cbn [fst snd]. rewrite bind_unfold. unfold rd_lastTimingMode at 1 2.
  cbn [fst snd]. change (clockDeg_lastTimingModeState (w <| the_env := e' |>))
    with (clockDeg_lastTimingModeState w).
  destruct (nth k (clockDeg_lastTimingModeState w) 0 =? st); [reflexivity|]. cbn [negb when].
  destruct (st =? PP_TIMING_MODE_STATE_LOCKED); [|reflexivity].
  destruct (cd_enable_timing_output e); reflexivity.
Qed.

Lemma update_clock_quality_idle w :
  find_degradation (opt_clockClass (rt_opts (glbs w))) clockDegradation 0 = None \/
  (t_get_GM_lock_state (the_env w)).1 = None -> glbs (bmc_update_clock_quality w).2 = glbs w.
Proof.
  intros Hc. unfold bmc_update_clock_quality, OPTS, rdG. rewrite bind_unfold. cbn [fst snd].
  destruct (find_degradation _ _ _) as [[k e]|]; [|done]. destruct Hc as [|Hs]; [done|].
  rewrite bind_unfold. unfold op at 1 2. destruct (t_get_GM_lock_state (the_env w)) as [o e'].
  cbn [fst] in Hs. by subst o.
Qed.

End Update.

(** Updating the clock quality keeps the attributes in use (class, accuracy, variance) no
    better than the configured ones, in every lock state the platform reports and also when
    it reports none; and when the reference has been regained after another state, the
    configured attributes are back in the default data set exactly. *)
Theorem clock_quality_degrades `{Config, Platform} (w : world) (k : nat) (e : clockDegradation_t) :
  quality_configured (glbs w) -> not_better (glbs w) ->
  let w' := (bmc_update_clock_quality w).2 in
  not_better (glbs w') /\ quality_configured (glbs w') /\
  (find_degradation (opt_clockClass (rt_opts (glbs w))) clockDegradation 0 = Some (k, e) ->
   (t_get_GM_lock_state (the_env w)).1 = Some PP_TIMING_MODE_STATE_LOCKED ->
   nth k (clockDeg_lastTimingModeState w) 0 <> PP_TIMING_MODE_STATE_LOCKED ->
   def_clockQuality (defaultDS (glbs w')) =
     mk_cq (opt_clockClass (rt_opts (glbs w))) (opt_clockAccuracy (rt_opts (glbs w)))
       (opt_offsetScaledLogVariance (rt_opts (glbs w)))).
Proof.
  intros Hq Hn w'. unfold w'. split; [|split].
  - destruct (find_degradation (opt_clockClass (rt_opts (glbs w))) clockDegradation 0) as [[j d]|] eqn:Hf;
      [|by rewrite update_clock_quality_idle by auto].
    destruct (t_get_GM_lock_state (the_env w)).1 as [st|] eqn:Hs;
      [|by rewrite update_clock_quality_idle by auto].
    rewrite (update_clock_quality_run w j d st Hf Hs). apply find_degradation_worse in Hf as (? & ? & ?).
    repeat case_match; auto using apply_configured_not_better, degrade_not_better.
  - unfold quality_configured. rewrite update_clock_quality_opts. apply Hq.
  - intros Hf Hs Hl. erewrite update_clock_quality_run by done.
    rewrite (proj2 (Z.eqb_neq _ _) Hl), Z.eqb_refl. by apply apply_configured_quality.
Qed.

Lemma clock_quality_degrades_witness :
  let w := (Demo.demo_world [] 0) <| glbs ::= fun g => g <| rt_opts ::= fun o =>
             o <| opt_clockClass := 6 |> <| opt_clockAccuracy := 0x21 |> |> |> in
  clockClass (def_clockQuality (defaultDS (glbs
    (@bmc_update_clock_quality Demo.demo_config Demo.demo_platform w).2))) = 6.
Proof.
  intros w.
  destruct (@clock_quality_degrades Demo.demo_config Demo.demo_platform w 0%nat
    (hd (mk_clkdeg 0 false (arb_free 0 0) (arb_free 0 0)) (@clockDegradation Demo.demo_config)))
    as (_ & _ & Hl).
  1, 2: vm_compute; repeat split; discriminate.
  rewrite Hl; [reflexivity..|vm_compute; discriminate].
Defined.

(** Attributes left unset (-1) in the options get defaults that fit the clock class, and
    set ones are kept; applying the options then gives a default data set that announces
    exactly the options' quality. *)
Theorem default_attributes_complete `{Config, Platform} (w : world) :
  let o := rt_opts (glbs w) in
  0 <= opt_clockClass o <= 255 -> -1 <= opt_clockAccuracy o <= 255 ->
  -1 <= opt_offsetScaledLogVariance o <= 65535 ->
  let w1 := (bmc_set_default_device_attributes w).2 in
  let w2 := (bmc_apply_configured_device_attributes w1).2 in
  quality_configured (glbs w1) /\
  (opt_clockAccuracy o <> -1 -> opt_clockAccuracy (rt_opts (glbs w1)) = opt_clockAccuracy o) /\
  def_clockQuality (defaultDS (glbs w2)) =
    mk_cq (opt_clockClass o) (opt_clockAccuracy (rt_opts (glbs w1)))
      (opt_offsetScaledLogVariance (rt_opts (glbs w1))).
Proof.
  intros o Hc Ha Hv w1 w2.
  assert (0 <= dev_clockAccuracy (find_attributes (opt_clockClass o) defaultDeviceAttributes) <= 255 /\
    0 <= dev_offsetScaledLogVariance (find_attributes (opt_clockClass o) defaultDeviceAttributes) <= 65535)
    as [Da Dv].
  { unfold defaultDeviceAttributes. destruct CONFIG_CODEOPT_WRPC_SIZE; cbn [app find_attributes dev_clockClass];
    repeat match goal with |- context [?x =? ?y] => destruct (Z.eqb_spec x y); cbn [negb andb] end;
    vm_compute; intuition congruence. }
  assert (quality_configured (glbs w1)) as Hq.
  { change (quality_configured (glbs w1)) with
      (0 <= opt_clockClass o <= 255 /\
       0 <= (if opt_clockAccuracy o =? -1
             then dev_clockAccuracy (find_attributes (opt_clockClass o) defaultDeviceAttributes)
             else opt_clockAccuracy o) <= 255 /\
       0 <= (if opt_offsetScaledLogVariance o =? -1
             then dev_offsetScaledLogVariance (find_attributes (opt_clockClass o) defaultDeviceAttributes)
             else opt_offsetScaledLogVariance o) <= 65535).
    destruct (Z.eqb_spec (opt_clockAccuracy o) (-1)),
      (Z.eqb_spec (opt_offsetScaledLogVariance o) (-1)); lia. }
  split; [exact Hq|]. split.
  - intros Hs. unfold w1. cbn. destruct (Z.eqb_spec (opt_clockAccuracy (rt_opts (glbs w))) (-1)); [|done].
    exfalso. by apply Hs.
  - exact (apply_configured_quality w1 Hq).
Qed.

Lemma default_attributes_complete_witness :
  let w := (Demo.demo_world [] 0) <| glbs ::= fun g => g <| rt_opts ::= fun o =>
             o <| opt_clockClass := 6 |> <| opt_clockAccuracy := -1 |> |> |> in
  quality_configured (glbs (@bmc_set_default_device_attributes Demo.demo_config Demo.demo_platform w).2).
Proof.
  intros w. apply (@default_attributes_complete Demo.demo_config Demo.demo_platform w);
    vm_compute; split; discriminate.
Defined.

(** The accuracy after a loss depends on the path: a clock that was unlocked
    and then enters holdover keeps the unknown accuracy it never gets when it
    enters holdover directly, if its configured accuracy is the holdover one. *)
Example holdover_after_unlocked :
  let cd := hd (mk_clkdeg 0 false (arb_free 0 0) (arb_free 0 0)) (@clockDegradation Demo.demo_config) in
  let g := (Demo.demo_globals 1) <| rt_opts ::= fun o =>
             o <| opt_clockClass := 6 |> <| opt_clockAccuracy := 0x21 |> |>
             <| defaultDS ::= fun d => d <| def_clockQuality := mk_cq 6 0x21 0xB900 |> |> in
  clockAccuracy (def_clockQuality (defaultDS (degrade (cd_holdover cd) g))) = 0x21 /\
  clockAccuracy (def_clockQuality (defaultDS
    (degrade (cd_holdover cd) (degrade (cd_unlocked cd) g)))) = 0xFE.
Proof. by vm_compute. Qed.
