(* ===== verification/Bmc.v ===== *)
(** * Best master clock algorithm (proto-standard/bmc.c)

    The foreign master table of each port, the choice of Erbest and Ebest, and
    the state decision.  The comparisons are in BmcCmp.v. *)

From S2P Require Import Prelude TimeArith Types World Timeout Hooks Bytes Msg BmcCmp ClockQuality.

Definition FFB_LI61 : Z := 0x01.
Definition FFB_LI59 : Z := 0x02.
Definition FFB_UTCV : Z := 0x04.
Definition FFB_PTP : Z := 0x08.
Definition FFB_TTRA : Z := 0x10.
Definition FFB_FTRA : Z := 0x20.

(** [(frgn_master->flagField[1] & bit) != 0] *)
Definition flag1 (f : pp_frgn_master) (bit : Z) : Z :=
  of_bool (negb (Z.land (nth 1 (fm_flagField f) 0) bit =? 0)).

Section Bmc.
Context `{Config, Platform} {HK : Hooks}.

(** ** Data set updates *)

Definition bmc_m1 (i : nat) : M unit :=
  setCUR (fun c => c <| cur_stepsRemoved := 0 |> <| cur_offsetFromMaster := 0 |>
                     <| cur_meanDelay := 0 |>);;
  setSRV i (fun s => s <| meanDelay := clear_time |> <| offsetFromMaster := clear_time |>);;
  def ← DSDEF;
  setPAR (fun _ => zero_parentDS
    <| par_parentPortIdentity := mk_pid (def_clockIdentity def) 0 |>
    <| par_grandmasterIdentity := def_clockIdentity def |>
    <| par_grandmasterClockQuality := def_clockQuality def |>
    <| par_grandmasterPriority1 := def_priority1 def |>
    <| par_grandmasterPriority2 := def_priority2 def |>);;
  prop ← DSPRO;
  (if truth (ptpTimescale prop) then
     r ← op (t_get_utc_offset i);
     let offset := match r with Some (o, _, _) => o | None => PP_DEFAULT_UTC_OFFSET end in
     when (negb (currentUtcOffset prop =? offset))
       (setPRO (fun p => p <| currentUtcOffset := i16 offset |>);;
        op_ (t_set i None));;
     setPRO (fun p =>
       match r with
       | None => p <| currentUtcOffsetValid := 0 |> <| leap59 := 0 |> <| leap61 := 0 |>
       | Some (_, l59, l61) =>
           p <| currentUtcOffsetValid := 1 |> <| leap59 := of_bool (truth l59) |>
             <| leap61 := of_bool (truth l61) |>
       end)
   else
     setPRO (fun p => p <| currentUtcOffset := PP_DEFAULT_UTC_OFFSET |>
       <| currentUtcOffsetValid := 0 |> <| leap59 := 0 |> <| leap61 := 0 |>));;
  o ← OPTS;
  setPRO (fun p => p <| timeTraceable := opt_timeTraceable o |>
    <| frequencyTraceable := opt_frequencyTraceable o |>
    <| timeSource := u8 (opt_timeSource o) |>).

Definition bmc_m2 (i : nat) : M unit :=
  bmc_m1 i;;
  o ← OPTS;
  when (0 <? opt_gmDelayToGenPpsSec o)
    (dis ← pp_gtimeout_is_disabled PP_TO_GM_BY_BMCA;
     if dis : bool then pp_gtimeout_set PP_TO_GM_BY_BMCA (opt_gmDelayToGenPpsSec o * 1000)
     else
       expired ← pp_gtimeout PP_TO_GM_BY_BMCA;
       when expired
         (pp_gtimeout_disable PP_TO_GM_BY_BMCA;;
          op_ (t_enable_timing_output true))).

Definition bmc_m3 (i : nat) : M unit :=
  o ← OPTS;
  when (0 <? opt_gmDelayToGenPpsSec o) (pp_gtimeout_disable PP_TO_GM_BY_BMCA).

(** The leap flags and the UTC offset of the received Announce. *)
Definition take_leaps (f : pp_frgn_master) (p : timePropertiesDS_t) : timePropertiesDS_t :=
  p <| leap59 := flag1 f FFB_LI59 |> <| leap61 := flag1 f FFB_LI61 |>.
Definition take_flags (f : pp_frgn_master) (p : timePropertiesDS_t) : timePropertiesDS_t :=
  (take_leaps f p) <| currentUtcOffset := fm_currentUtcOffset f |>.

(** The second half of the day. *)
Definition s1_before_midnight (i : nat) (f : pp_frgn_master) (hours minutes seconds : Z) : M unit :=
  port ← DSPOR i;
  if (hours =? 23) && (minutes =? 59) &&
     (60 - 2 * Z.shiftl 1 (logAnnounceInterval port) <=? seconds)
  then _ ← op (t_get_utc_offset i); mret tt
  else
    r ← op (t_get_utc_offset i);
    match r with
    | None => setPRO (take_flags f)
    | Some (offset, l59, l61) =>
        when (negb (Bool.eqb (truth l59) (truth (flag1 f FFB_LI59))) ||
              negb (Bool.eqb (truth l61) (truth (flag1 f FFB_LI61))) ||
              negb (offset =? fm_currentUtcOffset f))
          (setPRO (take_flags f);;
           prop ← DSPRO;
           op_ (t_set_utc_offset i (currentUtcOffset prop)
                  (of_bool (truth (leap59 prop))) (of_bool (truth (leap61 prop)))))
    end.

(** The first half. *)
Definition s1_after_midnight (i : nat) (f : pp_frgn_master) (hours minutes seconds : Z) : M unit :=
  port ← DSPOR i;
  if (hours =? 0) && (minutes =? 0) && (seconds <=? 0 + 2 * Z.shiftl 1 (logAnnounceInterval port))
  then
    r ← op (t_get_utc_offset i);
    (match r with
     | None => mret tt
     | Some (offset, _, _) => setPRO (fun p => p <| currentUtcOffset := i16 offset |>)
     end);;
    setPRO (fun p => p <| leap59 := 0 |> <| leap61 := 0 |>)
  else
    prop ← DSPRO;
    when (negb (currentUtcOffset prop =? fm_currentUtcOffset f))
      (setPRO (fun p => p <| currentUtcOffset := fm_currentUtcOffset f |>);;
       op_ (t_set i None));;
    setPRO (take_leaps f).

(** [ppi->frgn_master[k]] *)
Definition frgn_at (p : pp_instance) (k : Z) : pp_frgn_master :=
  if k <? 0 then past_frgn_table else nth (Z.to_nat k) (frgn_master p) past_frgn_table.

Definition deref (r : frgn_ref) (w : world) : pp_frgn_master := frgn_at (inst w r.1) r.2.

Definition bmc_s1 (i : nat) (r : frgn_ref) : M unit :=
  f ← rdw (deref r);
  setCUR (fun c => c <| cur_stepsRemoved := u16 (fm_stepsRemoved f + 1) |>);;
  setPAR (fun p => p
    <| par_newGrandmaster :=
         of_bool (negb (bmc_pidcmp (par_parentPortIdentity p) (fm_sourcePortIdentity f) =? 0)) |>
    <| par_parentPortIdentity := fm_sourcePortIdentity f |>
    <| par_grandmasterIdentity := fm_grandmasterIdentity f |>
    <| par_grandmasterClockQuality := fm_grandmasterClockQuality f |>
    <| par_grandmasterPriority1 := fm_grandmasterPriority1 f |>
    <| par_grandmasterPriority2 := fm_grandmasterPriority2 f |>);;
  setPRO (fun p => p <| ptpTimescale := flag1 f FFB_PTP |>);;
  (if truth (flag1 f FFB_PTP) then
     r ← op (t_get_utc_time i);
     match r with
     | None => setPRO (take_flags f)
     | Some (hours, minutes, seconds) =>
         if 12 <=? hours then s1_before_midnight i f hours minutes seconds
         else s1_after_midnight i f hours minutes seconds
     end
   else setPRO (take_flags f));;
  setPRO (fun p => p <| currentUtcOffsetValid := flag1 f FFB_UTCV |>
    <| timeTraceable := flag1 f FFB_TTRA |> <| frequencyTraceable := flag1 f FFB_FTRA |>
    <| ptpTimescale := flag1 f FFB_PTP |> <| timeSource := fm_timeSource f |>);;
  pp_gtimeout_disable PP_TO_GM_BY_BMCA;;
  if_hook i hk_bmca_s1 (fun h => _ ← h i r; mret tt) (mret tt).

(** Placeholders in the code, too. *)
Definition bmc_p1 (i : nat) : M unit := mret tt.
Definition bmc_p2 (i : nat) : M unit := mret tt.

(** The local clock's data set D0; fields the code does not set are not read. *)
Definition bmc_setup_local_frgn_master (g : pp_globals) (p : pp_instance) : pp_frgn_master :=
  let def := defaultDS g in
  empty_frgn
    <| fm_qualified := if is_externalPortConfigurationEnabled def then 0 else 1 |>
    <| fm_receivePortIdentity := portIdentity (portDS p) |>
    <| fm_sequenceId := 0 |>
    <| fm_sourcePortIdentity := portIdentity (portDS p) |>
    <| fm_flagField := [0; 0] |>
    <| fm_currentUtcOffset := 0 |>
    <| fm_grandmasterPriority1 := def_priority1 def |>
    <| fm_grandmasterClockQuality := def_clockQuality def |>
    <| fm_grandmasterPriority2 := def_priority2 def |>
    <| fm_grandmasterIdentity := def_clockIdentity def |>
    <| fm_stepsRemoved := 0 |>
    <| fm_timeSource := TIME_SRC_INTERNAL_OSCILLATOR |>
    <| fm_ext_specific := replicate 4 0 |>.

(** ** Qualification *)

(** The address comparison of the code implies the comparison of identities. *)
Definition is_ebest (w : world) (f : pp_frgn_master) : bool :=
  negb (ebest_idx (glbs w) =? -1) &&
  let best := inst w (Z.to_nat (ebest_idx (glbs w))) in
  negb (frgn_rec_best best =? -1) &&
  (bmc_pidcmp (fm_sourcePortIdentity f) (fm_sourcePortIdentity (frgn_at best (frgn_rec_best best))) =? 0).

Definition is_qualified (w : world) (f : pp_frgn_master) : bool :=
  truth (fm_qualified f) || is_ebest w f.

(** ** State decision *)

Definition slave_only_class : M bool :=
  def ← DSDEF; mret (clockClass (def_clockQuality def) =? PP_CLASS_SLAVE_ONLY).

(** Reset the announce receipt timeout when entering [st]. *)
Definition entering (i : nat) (st : Z) : M Z :=
  s ← rd i state;
  when (negb (s =? st)) (pp_timeout_reset i PP_TO_ANN_RECEIPT);;
  mret st.

Definition passive_p (i : nat) (upd_ds : M unit) : M Z :=
  so ← slave_only_class;
  if so : bool then entering i PPS_LISTENING
  else
    s ← rd i state;
    when (negb (s =? PPS_PASSIVE)) (pp_timeout_reset i PP_TO_ANN_RECEIPT);;
    upd_ds;;
    mret PPS_PASSIVE.
Definition passive_p1 (i : nat) : M Z := passive_p i (bmc_p1 i).
Definition passive_p2 (i : nat) : M Z := passive_p i (bmc_p2 i).

(** A port that is a master, or on the way to, keeps its state. *)
Definition master_m (i : nat) (upd_ds : M unit) (qualification : M unit) : M Z :=
  so ← slave_only_class;
  if so : bool then entering i PPS_LISTENING
  else
    upd_ds;;
    s ← rd i state;
    if negb (s =? PPS_MASTER) && negb (s =? PPS_PRE_MASTER) then
      qualification;; mret PPS_PRE_MASTER
    else mret s.
Definition master_m1 (i : nat) : M Z :=
  master_m i (bmc_m1 i) (pp_timeout_reset_N i PP_TO_QUALIFICATION 0).
Definition master_m2 (i : nat) : M Z :=
  master_m i (bmc_m2 i) (pp_timeout_reset_N i PP_TO_QUALIFICATION 0).
Definition master_m3 (i : nat) : M Z :=
  master_m i (bmc_m3 i)
    (pp_timeout_init i;;
     cur ← DSCUR;
     pp_timeout_reset_N i PP_TO_QUALIFICATION (cur_stepsRemoved cur + 1)).

(** [slave_s1:], with Ebest at [r]. *)
Definition slave_s1 (i : nat) (r : frgn_ref) : M Z :=
  idx ← rd i port_idx;
  eidx ← rdG ebest_idx;
  cmpres ←
    (if idx =? eidx then
       par ← DSPAR;
       ebest ← rdw (deref r);
       bmc_s1 i r;;
       mret (bmc_pidcmp (par_parentPortIdentity par) (fm_sourcePortIdentity ebest))
     else mret 0);
  s ← rd i state;
  if negb (s =? PPS_SLAVE) && negb (s =? PPS_UNCALIBRATED) then
    pp_timeout_reset i PP_TO_ANN_RECEIPT;; mret PPS_UNCALIBRATED
  else if negb (cmpres =? 0) then
    when (negb (s =? PPS_UNCALIBRATED)) (pp_timeout_reset i PP_TO_ANN_RECEIPT);;
    mret PPS_UNCALIBRATED
  else
    when (negb (s =? PPS_SLAVE)) (pp_timeout_reset i PP_TO_ANN_RECEIPT);;
    mret s.

(** [check_boundary_clk:] *)
Definition check_boundary_clk (i : nat) (r : frgn_ref) (ebest erbest : pp_frgn_master) : M Z :=
  idx ← rd i port_idx;
  eidx ← rdG ebest_idx;
  if idx =? eidx then slave_s1 i r
  else
    cmpres ← rdw (fun w => bmc_gm_cmp (is_qualified w) ebest erbest);
    if cmpres <? 0 then master_m3 i
    else
      cmpres ← rdw (fun w => bmc_topology_cmp (is_qualified w) ebest erbest);
      if cmpres <? 0 then passive_p2 i
      else if 0 <? cmpres then master_m3 i
      else mret PPS_FAULTY.

(** Comparison of D0 with Ebest, at [r], or Erbest, for a port that may be a
    slave. *)
Definition decide_by_dataset (i : nat) (d0 : pp_frgn_master) (r : frgn_ref) (erbest : pp_frgn_master) : M Z :=
  ebest ← rdw (deref r);
  def ← DSDEF;
  if clockClass (def_clockQuality def) <? 128 then
    cmpres ← rdw (fun w => bmc_dataset_cmp (is_qualified w) d0 erbest);
    if cmpres <? 0 then master_m1 i
    else if 0 <? cmpres then passive_p1 i
    else mret PPS_FAULTY
  else
    cmpres ← rdw (fun w => bmc_dataset_cmp (is_qualified w) d0 ebest);
    if cmpres <? 0 then master_m2 i
    else if 0 <? cmpres then
      if get_numberPorts def =? 1 then slave_s1 i r
      else check_boundary_clk i r ebest erbest
    else mret PPS_FAULTY.

Definition bmc_state_decision (i : nat) : M Z :=
  p ← rd i id;
  let erbestValid := negb (frgn_rec_best p =? -1) in
  let erbest := if erbestValid then frgn_at p (frgn_rec_best p) else empty_frgn in
  if (state p =? PPS_FAULTY) || (state p =? PPS_INITIALIZING) then mret (state p)
  else
    def ← DSDEF;
    eidx ← rdG ebest_idx;
    if is_slaveOnly def then
      if negb erbestValid then mret PPS_LISTENING
      else if port_idx p =? eidx then slave_s1 i (i, frgn_rec_best p)
      else mret PPS_LISTENING
    else if negb erbestValid && (state p =? PPS_LISTENING) then mret PPS_LISTENING
    else
      d0 ← rdw (fun w => bmc_setup_local_frgn_master (glbs w) (inst w i));
      if is_masterOnly (portDS p) then
        if 0 <=? eidx then master_m3 i else master_m1 i
      else if negb (CONFIG_HAS_CODEOPT_SO_ENABLED || CONFIG_HAS_CODEOPT_EPC_ENABLED) then
        if 0 <=? eidx then
          best ← rd (Z.to_nat eidx) id;
          decide_by_dataset i d0 (Z.to_nat eidx, frgn_rec_best best) erbest
        else master_m1 i
      else mret PPS_FAULTY.

(** ** The foreign master table *)

(** The record of the Announce [buf] whose header has just been unpacked. *)
Definition bmc_store_frgn_master (i : nat) (buf : list Z) : M pp_frgn_master :=
  ann ← msg_unpack_announce i buf;
  p ← rd i id;
  let hdr := received_ptp_header p in
  mret (mk_frgn (h_sequenceId hdr) (ann_stepsRemoved ann) (ann_currentUtcOffset ann)
    (portIdentity (portDS p)) (h_sourcePortIdentity hdr)
    (ann_grandmasterClockQuality ann) (ann_grandmasterIdentity ann)
    (ann_grandmasterPriority1 ann) (ann_grandmasterPriority2 ann) (ann_timeSource ann)
    (h_flagField hdr) 0 0 (ann_ext_specific ann) (peer p)).

(** First index of [l] that satisfies [f]. *)
Fixpoint find_index (f : nat -> bool) (l : list nat) : option nat :=
  match l with
  | [] => None
  | k :: l' => if f k then Some k else find_index f l'
  end.

(** The loop that looks for the worst record, all taken as qualified. *)
Definition find_worst (w : world) (p : pp_instance) : nat :=
  let q k := (frgn_at p (Z.of_nat k)) <| fm_qualified := 1 |> in
  foldl (fun worst k => if 0 <? bmc_dataset_cmp (is_qualified w) (q k) (q worst) then k else worst)
    0%nat (seq 1 (Z.to_nat (frgn_rec_num p) - 1)).

(** [memcpy(&ppi->frgn_master[k], f, ...)] *)
Definition put_frgn (i k : nat) (f : pp_frgn_master) : M unit :=
  wr i (fun p => p <| frgn_master ::= <[k := f]> |>).

(** Whether an Announce of this clock's own ports ends here. *)
Definition own_announce (i : nat) (pid : PortIdentity) : M bool :=
  def ← DSDEF;
  if 1 <? get_numberPorts def then
    if bmc_idcmp (clockIdentity pid) (def_clockIdentity def) =? 0 then
      port ← DSPOR i;
      if bmc_pidcmp pid (portIdentity port) <? 0 then
        bmc_p1 i;;
        wr i (fun p => p <| next_state := PPS_PASSIVE |>);;
        pp_timeout_reset i PP_TO_ANN_RECEIPT;;
        mret false
      else mret true
    else mret false
  else mret (bmc_idcmp (clockIdentity pid) (def_clockIdentity def) =? 0).

(** An Announce of the known master [k]. *)
Definition refresh_frgn_master (i k : nat) (f : pp_frgn_master) : M unit :=
  p ← rd i id;
  let old := frgn_at p (Z.of_nat k) in
  let f := f <| fm_qualified := fm_qualified old |>
             <| fm_lastAnnounceMsgMs := fm_lastAnnounceMsgMs old |> in
  f ← (if h_sequenceId (received_ptp_header p) =? fm_sequenceId old + 1 then
         now ← calc_timeout i 0;
         mret (f <| fm_qualified := of_bool (time_before_eq now
                      (ulong (fm_lastAnnounceMsgMs f + frgn_master_time_window_ms p))) |>
                 <| fm_lastAnnounceMsgMs := now |>)
       else mret f);
  put_frgn i k f.

(** Where a new master goes: [None] if it is worse than all of a full table. *)
Definition new_frgn_slot (i : nat) (f : pp_frgn_master) : M (option nat) :=
  p ← rd i id;
  if negb CONFIG_HAS_CODEOPT_SINGLE_FMASTER then
    if frgn_rec_num p <? Z.of_nat CONFIG_NR_FOREIGN_RECORDS then
      wr i (fun p => p <| frgn_rec_num ::= fun n => u16 (n + 1) |>);;
      mret (Some (Z.to_nat (frgn_rec_num p)))
    else
      worst ← rdw (fun w => find_worst w p);
      cmp ← rdw (fun w => bmc_dataset_cmp (is_qualified w)
                   ((frgn_at p (Z.of_nat worst)) <| fm_qualified := 1 |>) (f <| fm_qualified := 1 |>));
      mret (if cmp <? 0 then None else Some worst)
  else
    wr i (fun p => p <| frgn_rec_num := 1 |>);;
    mret (Some 0%nat).

(** After the assertions. *)
Definition add_frgn_body (i : nat) (f : pp_frgn_master) : M (option nat) :=
  p ← rd i id;
  let pid := h_sourcePortIdentity (received_ptp_header p) in
  def ← DSDEF;
  if is_externalPortConfigurationEnabled def then
    if (bmc_idcmp (clockIdentity pid) (def_clockIdentity def) =? 0) && (portNumber pid =? port_idx p)
    then mret None
    else
      wr i (fun p => p <| frgn_rec_num := 1 |> <| frgn_rec_best := 0 |>);;
      put_frgn i 0 f;;
      mret (Some 0%nat)
  else
    own ← own_announce i pid;
    if own : bool then mret None
    else if 255 <=? fm_stepsRemoved f then mret None
    else
      p ← rd i id;
      match find_index (fun k => bmc_pidcmp pid (fm_sourcePortIdentity (frgn_at p (Z.of_nat k))) =? 0)
              (seq 0 (Z.to_nat (frgn_rec_num p))) with
      | Some k => refresh_frgn_master i k f;; mret None
      | None =>
          sel ← new_frgn_slot i f;
          match sel with
          | None => mret None
          | Some sel =>
              now ← calc_timeout i 0;
              put_frgn i sel (f <| fm_qualified := 0 |> <| fm_lastAnnounceMsgMs := now |>);;
              mret (Some sel)
          end
      end.

Definition bmc_add_frgn_master (i : nat) (f : pp_frgn_master) : M (option nat) :=
  s ← rd i state;
  c_assert (negb (s =? PPS_DISABLED));;
  c_assert (negb (s =? PPS_FAULTY));;
  c_assert (negb (s =? PPS_INITIALIZING));;
  add_frgn_body i f.

Definition flush_table (p : pp_instance) : pp_instance :=
  p <| frgn_master := replicate CONFIG_NR_FOREIGN_RECORDS empty_frgn |> <| frgn_rec_num := 0 |>.
Definition bmc_flush_frgn_master (i : nat) : M unit := wr i flush_table.

(** One iteration of the shifting loop. *)
Definition remove_step (idx : nat) (p : pp_instance) (k : nat) : pp_instance :=
  if Z.of_nat idx <? frgn_rec_num p - 1 then
    p <| frgn_master := <[k := frgn_at p (Z.of_nat k + 1)]> (frgn_master p) |>
      <| frgn_rec_best := if frgn_rec_best p =? Z.of_nat k + 1 then Z.of_nat k else frgn_rec_best p |>
  else p <| frgn_master := <[k := empty_frgn]> (frgn_master p) |>.

Definition remove_frgn (idx : nat) (p : pp_instance) : pp_instance :=
  let p := if frgn_rec_best p =? Z.of_nat idx then p <| frgn_rec_best := -1 |> else p in
  let p := foldl (remove_step idx) p (seq idx (CONFIG_NR_FOREIGN_RECORDS - idx)) in
  p <| frgn_rec_num ::= fun n => u16 (n - 1) |>.
Definition bmc_remove_foreign_master (i idx : nat) : M unit := wr i (remove_frgn idx).

Definition bmc_flush_erbest (i : nat) : M unit :=
  p ← rd i id;
  when (negb (frgn_rec_best p =? -1) && (frgn_rec_best p <? frgn_rec_num p))
    (bmc_remove_foreign_master i (Z.to_nat (frgn_rec_best p)));;
  wr i (fun p => p <| frgn_rec_best := -1 |>).

(** The [while] loop from index [k]. The result is [true] when the loop ended
    because its condition was false, [false] when it was cut off by the fuel. *)
Fixpoint age_loop (fuel : nat) (i k : nat) (now : Z) : M bool :=
  match fuel with
  | O => mret false
  | S fuel =>
      p ← rd i id;
      if Z.of_nat k <? frgn_rec_num p then
        let f := frgn_at p (Z.of_nat k) in
        eb ← rdw (fun w => is_ebest w f);
        if negb eb && time_after now (ulong (fm_lastAnnounceMsgMs f + frgn_master_time_window_ms p))
        then bmc_remove_foreign_master i k;; age_loop fuel i k now
        else age_loop fuel i (S k) now
      else mret true
  end.

(** The fuel lets the loop go round twice more often than there are records,
    so that it is the condition that stops it. *)
Definition bmc_age_frgn_master (i : nat) : M bool :=
  now ← calc_timeout i 0;
  n ← rd i frgn_rec_num;
  age_loop (2 * Z.to_nat n + 2) i 0 now.

Definition bmc_age_frgn_masters : M unit :=
  def ← DSDEF;
  for_each (ports def) (fun i => bmc_age_frgn_master i;; mret tt).

Definition bmc_check_frgn_master (i : nat) : M bool :=
  p ← rd i id;
  def ← DSDEF;
  mret (existsb (fun k =>
    let src := fm_sourcePortIdentity (frgn_at p (Z.of_nat k)) in
    (bmc_idcmp (clockIdentity src) (def_clockIdentity def) =? 0) &&
    (bmc_pidcmp src (portIdentity (portDS p)) <? 0)) (seq 0 (Z.to_nat (frgn_rec_num p)))).

Definition bmc_any_port_initializing : M bool :=
  def ← DSDEF;
  rdw (fun w => existsb (fun k => truth (link_up (inst w k)) && (state (inst w k) =? PPS_INITIALIZING))
                  (ports def)).

Definition bmc_is_erbest (i : nat) (srcPortIdentity : PortIdentity) : M bool :=
  p ← rd i id;
  mret ((0 <? frgn_rec_num p) && negb (frgn_rec_best p =? -1) &&
        (bmc_pidcmp (fm_sourcePortIdentity (frgn_at p (frgn_rec_best p))) srcPortIdentity =? 0)).

(** ** Erbest and Ebest *)

(** The best of the records [0 .. n-1]. *)
Definition find_best (isq : pp_frgn_master -> bool) (p : pp_instance) : nat :=
  foldl (fun best k => if bmc_dataset_cmp isq (frgn_at p (Z.of_nat k)) (frgn_at p (Z.of_nat best)) <? 0
                       then k else best)
    0%nat (seq 1 (Z.to_nat (frgn_rec_num p) - 1)).

Definition bmc_update_erbest_inst (i : nat) : M unit :=
  p ← rd i id;
  when (negb (truth (link_up p)) && (0 <? frgn_rec_num p)) (bmc_flush_frgn_master i);;
  p ← rd i id;
  def ← DSDEF;
  (if 0 <? frgn_rec_num p then
     if negb (state p =? PPS_FAULTY) && negb (state p =? PPS_DISABLED) then
       best ← rdw (fun w =>
         if is_externalPortConfigurationEnabled def then 0
         else
           let best := if CONFIG_HAS_CODEOPT_SINGLE_FMASTER then 0%nat else find_best (is_qualified w) p in
           if is_qualified w (frgn_at p (Z.of_nat best)) then Z.of_nat best else -1);
       wr i (fun p => p <| frgn_rec_best := best |>)
     else wr i (fun p => (flush_table p) <| frgn_rec_best := -1 |>)
   else wr i (fun p => p <| frgn_rec_best := -1 |>));;
  p ← rd i id;
  when (0 <=? frgn_rec_best p)
    (wr i (fun p => p <| activePeer := fm_peer_mac (frgn_at p (frgn_rec_best p)) |>)).

Definition bmc_update_erbest : M unit :=
  def ← DSDEF;
  for_each (ports def) bmc_update_erbest_inst.

(** One iteration of the search over the ports. *)
Definition ebest_step (w : world) (best : Z) (k : nat) : Z :=
  let tppi := inst w k in
  if (best =? -1) && negb (frgn_rec_best tppi =? -1) then Z.of_nat k
  else
    let ppi_best := inst w (Z.to_nat best) in
    if negb (frgn_rec_best tppi =? -1) &&
       ((bmc_dataset_cmp (is_qualified w) (frgn_at tppi (frgn_rec_best tppi))
           (frgn_at ppi_best (frgn_rec_best ppi_best)) <? 0) || (frgn_rec_num ppi_best =? 0))
    then Z.of_nat k else best.

Definition bmc_update_ebest : M unit :=
  def ← DSDEF;
  best ← rdw (fun w => foldl (ebest_step w) (-1) (ports def));
  wrG (fun g => (if ebest_idx g =? best then g else g <| ebest_updated := 1 |>)
                <| ebest_idx := best |>).

Definition bmc_calculate_ebest : M unit :=
  bmc_update_clock_quality;;
  def ← DSDEF;
  when (negb (is_externalPortConfigurationEnabled def)) bmc_age_frgn_masters;;
  any ← bmc_any_port_initializing;
  if any : bool then mret tt
  else
    when (negb (is_externalPortConfigurationEnabled def)) (bmc_update_erbest;; bmc_update_ebest);;
    for_each (ports def) (fun k => wr k (fun p => p <| bmca_execute := 1 |>)).

(** ** Applying the decision *)

Definition bmc_state_descision_epc (i : nat) : M Z :=
  p ← rd i id;
  (if (state p =? PPS_SLAVE) || (state p =? PPS_UNCALIBRATED) then
     when (0 <? frgn_rec_num p) (bmc_s1 i (i, 0))
   else if (state p =? PPS_MASTER) || (state p =? PPS_PRE_MASTER) || (state p =? PPS_PASSIVE) then
     def ← DSDEF;
     exec_m2 ← rdw (fun w => negb (existsb (fun k =>
       (state (inst w k) =? PPS_SLAVE) || (state (inst w k) =? PPS_UNCALIBRATED)) (rev (ports def))));
     when exec_m2 (bmc_m2 i)
   else mret tt);;
  rd i desiredState.

Definition bmc_apply_state_descision (i : nat) : M Z :=
  p ← rd i id;
  def ← DSDEF;
  let epc := is_externalPortConfigurationEnabled def in
  next_st ←
    (if negb (truth (link_up p)) then mret PPS_INITIALIZING
     else if epc then bmc_state_descision_epc i
     else if 1 <? get_numberPorts def then
       better ← bmc_check_frgn_master i;
       if better : bool then bmc_p1 i;; mret PPS_PASSIVE else mret (-1)
     else mret (-1));
  next_st ← (if negb epc && (next_st =? -1) then bmc_state_decision i else mret next_st);
  next_st ← if_hook i hk_state_decision (fun h => ns ← rd i next_state; h i ns) (mret next_st);
  s ← rd i state;
  mret (if epc then s else next_st).

End Bmc.
