(* ===== verification/BmcTable.v ===== *)
(** * The foreign master table

    What the table operations of Bmc.v do to the list of records of a port:
    removal deletes one record, aging filters, adding keeps one record per
    source port.  The choice of Erbest and Ebest gives minima of the data set
    order. *)

From S2P Require Import Prelude TimeArith Types World Timeout Hooks Bytes Msg BmcCmp ClockQuality Bmc.

Section Table.
Context `{Config, Platform} {HK : Hooks}.

(** The records in use. *)
Definition records (p : pp_instance) : list pp_frgn_master :=
  take (Z.to_nat (frgn_rec_num p)) (frgn_master p).

(** The numbers of the table fit together. *)
Record table_shape (p : pp_instance) : Prop := {
  ts_len : length (frgn_master p) = CONFIG_NR_FOREIGN_RECORDS;
  ts_num : 0 <= frgn_rec_num p <= Z.of_nat CONFIG_NR_FOREIGN_RECORDS;
  ts_best : -1 <= frgn_rec_best p < frgn_rec_num p }.

(** One record per source port, with identities of eight bytes. *)
Record table_ok (p : pp_instance) : Prop := {
  tk_shape : table_shape p;
  tk_nodup : NoDup (map fm_sourcePortIdentity (records p));
  tk_wf : Forall (fun f => wf_pid (fm_sourcePortIdentity f)) (records p) }.

Lemma length_records p : table_shape p -> length (records p) = Z.to_nat (frgn_rec_num p).
Proof. intros [Hl Hn _]. unfold records. rewrite length_take, Hl. lia. Qed.

Lemma lookup_frgn_at p k : table_shape p -> (k < Z.to_nat (frgn_rec_num p))%nat ->
  records p !! k = Some (frgn_at p (Z.of_nat k)).
Proof.
  intros [Hl Hn _] Hk. unfold records, frgn_at. rewrite lookup_take_lt by done.
  destruct (Z.ltb_spec (Z.of_nat k) 0); [lia|]. rewrite Nat2Z.id.
  destruct (lookup_lt_is_Some_2 (frgn_master p) k) as [x Hx]; [lia|].
  by rewrite (nth_lookup_Some _ _ _ _ Hx).
Qed.

(** ** Removal *)

Section Shift.
Context (idx : nat).

Lemma remove_step_shift p k : Z.of_nat idx < frgn_rec_num p - 1 ->
  remove_step idx p k =
  p <| frgn_master := <[k := frgn_at p (Z.of_nat k + 1)]> (frgn_master p) |>
    <| frgn_rec_best := if frgn_rec_best p =? Z.of_nat k + 1 then Z.of_nat k else frgn_rec_best p |>.
Proof. intros Hi. unfold remove_step. by rewrite (proj2 (Z.ltb_lt _ _) Hi). Qed.

(** The loop from [k] on, when the record is not the last one. *)
Lemma shift_loop n k p : Z.of_nat idx < frgn_rec_num p - 1 ->
  let p' := foldl (remove_step idx) p (seq k n) in
  length (frgn_master p') = length (frgn_master p) /\
  frgn_rec_num p' = frgn_rec_num p /\
  frgn_rec_best p' = (if (Z.of_nat k <? frgn_rec_best p) && (frgn_rec_best p <=? Z.of_nat (k + n))
                      then frgn_rec_best p - 1 else frgn_rec_best p) /\
  (forall j, (S j < length (frgn_master p))%nat -> frgn_master p' !! j =
     if decide (k <= j < k + n)%nat then frgn_master p !! S j else frgn_master p !! j).
Proof.
  revert k p. induction n as [|n IH]; intros k p Hi; cbn [seq foldl].
  - cbn zeta. split_and!; [done..| |].
    + zcases; lia.
    + intros j _. rewrite decide_False by lia. done.
  - rewrite remove_step_shift by done.
    set (p1 := p <| frgn_master := _ |> <| frgn_rec_best := _ |>).
    assert (frgn_rec_num p1 = frgn_rec_num p) as N1 by done.
    assert (frgn_master p1 = <[k := frgn_at p (Z.of_nat k + 1)]> (frgn_master p)) as L1 by done.
    assert (frgn_rec_best p1 = if frgn_rec_best p =? Z.of_nat k + 1 then Z.of_nat k else frgn_rec_best p)
      as B1 by done.
    clearbody p1. destruct (IH (S k) p1 ltac:(lia)) as (IHl & IHn & IHb & IHt).
    cbn zeta. rewrite IHl, IHn, IHb, N1, B1, L1, length_insert. split_and!; [done..| |].
    + zcases; lia.
    + intros j Hj. rewrite IHt by (rewrite L1, length_insert; done). rewrite L1.
      destruct (decide (j = k)) as [->|Hjk].
      * repeat case_decide; try lia.
        rewrite list_lookup_insert_eq by lia. unfold frgn_at.
        destruct (Z.ltb_spec (Z.of_nat k + 1) 0); [lia|].
        destruct (lookup_lt_is_Some_2 (frgn_master p) (S k) Hj) as [x Hx]. rewrite Hx.
        f_equal. replace (Z.to_nat (Z.of_nat k + 1)) with (S k) by lia. by apply nth_lookup_Some.
      * repeat case_decide; try lia; by rewrite list_lookup_insert_ne by lia.
Qed.

(** The loop when the record is the last one: the rest is cleared. *)
Lemma clear_loop n k p : frgn_rec_num p - 1 <= Z.of_nat idx -> (idx <= k)%nat ->
  let p' := foldl (remove_step idx) p (seq k n) in
  length (frgn_master p') = length (frgn_master p) /\
  frgn_rec_num p' = frgn_rec_num p /\ frgn_rec_best p' = frgn_rec_best p /\
  take idx (frgn_master p') = take idx (frgn_master p).
Proof.
  revert k p. induction n as [|n IH]; intros k p Hi Hk; cbn [seq foldl]; [done|].
  unfold remove_step at 2 4 6 8. rewrite (proj2 (Z.ltb_ge _ _) Hi).
  destruct (IH (S k) (p <| frgn_master := <[k := empty_frgn]> (frgn_master p) |>)) as (IHl & IHn & IHb & IHt);
    [done|lia|].
  cbn zeta. rewrite IHl, IHn, IHb, IHt. cbn. rewrite length_insert, take_insert_ge by done. done.
Qed.

End Shift.

Definition best_after (idx : nat) (best : Z) : Z :=
  if best =? Z.of_nat idx then -1 else if Z.of_nat idx <? best then best - 1 else best.

(** Removal deletes the record and keeps track of Erbest. *)
Lemma remove_frgn_spec idx p : table_shape p -> Z.of_nat idx < frgn_rec_num p ->
  let p' := remove_frgn idx p in
  records p' = delete idx (records p) /\ frgn_rec_num p' = frgn_rec_num p - 1 /\
  frgn_rec_best p' = best_after idx (frgn_rec_best p) /\ table_shape p'.
Proof.
  intros Hs Hi. pose proof Hs as [Hl Hn Hb]. pose proof nr_foreign_bounds as Hnr.
  cbn zeta. unfold remove_frgn. set (p0 := if _ =? _ then _ else p).
  assert (frgn_master p0 = frgn_master p /\ frgn_rec_num p0 = frgn_rec_num p /\
    frgn_rec_best p0 = if frgn_rec_best p =? Z.of_nat idx then -1 else frgn_rec_best p)
    as (M0 & N0 & B0) by (unfold p0; by destruct (_ =? _)).
  clearbody p0. set (n := (CONFIG_NR_FOREIGN_RECORDS - idx)%nat).
  set (p1 := foldl _ _ _).
  assert (length (frgn_master p1) = length (frgn_master p) /\ frgn_rec_num p1 = frgn_rec_num p /\
    frgn_rec_best p1 = best_after idx (frgn_rec_best p) /\
    take (Z.to_nat (frgn_rec_num p - 1)) (frgn_master p1) = delete idx (records p)) as (L1 & N1 & B1 & T1).
  { destruct (Z.ltb_spec (Z.of_nat idx) (frgn_rec_num p0 - 1)) as [Hm|Hm].
    - destruct (shift_loop idx n idx p0 Hm) as (Sl & Sn & Sb & St). fold p1 in Sl, Sn, Sb, St.
      rewrite Sl, Sn, Sb, M0, N0, B0. split_and!; [done..| |].
      + unfold best_after. zcases; lia.
      + rewrite M0 in St. apply list_eq. intros j. rewrite lookup_take.
        case_decide as Hj.
        * rewrite St by lia. rewrite list_lookup_delete. unfold records.
          repeat case_decide; try lia; by rewrite lookup_take_lt by lia.
        * rewrite list_lookup_delete, decide_False by lia. unfold records.
          by rewrite lookup_take_ge by lia.
    - destruct (clear_loop idx n idx p0 Hm ltac:(lia)) as (Sl & Sn & Sb & St).
      fold p1 in Sl, Sn, Sb, St. rewrite Sl, Sn, Sb, M0, N0, B0. split_and!; [done..| |].
      + unfold best_after. zcases; lia.
      + replace (Z.to_nat (frgn_rec_num p - 1)) with idx by lia. rewrite St, M0. unfold records.
        apply list_eq. intros j. rewrite list_lookup_delete, !lookup_take.
        repeat case_decide; (done || lia). }
  clearbody p1. unfold best_after in *. cbn zeta. split_and!.
  - rewrite <- T1. unfold records. cbn. rewrite N1, u16_id by lia. done.
  - cbn. rewrite N1, u16_id by lia. done.
  - done.
  - split; cbn; rewrite ?L1, ?N1, ?B1, ?u16_id by lia; [done|lia|]. zcases; lia.
Qed.

(** A table with fewer records. *)
Lemma table_ok_sublist p p' : table_ok p -> table_shape p' -> records p' `sublist_of` records p ->
  table_ok p'.
Proof.
  intros [Hs Hn Hw] Hs' Hsub. split; [done| |].
  - eapply sublist_NoDup; [exact Hn|]. by apply (fmap_sublist fm_sourcePortIdentity).
  - rewrite Forall_forall in *. intros x Hx%list_elem_of_In. apply Hw, list_elem_of_In.
    by eapply elem_of_submseteq, sublist_submseteq.
Qed.

Lemma table_ok_remove idx p : table_ok p -> Z.of_nat idx < frgn_rec_num p -> table_ok (remove_frgn idx p).
Proof.
  intros Hok Hi. destruct (remove_frgn_spec idx p (tk_shape p Hok) Hi) as (Hr & _ & _ & Hs).
  apply (table_ok_sublist p); [done..|]. rewrite Hr. apply sublist_delete.
Qed.

(** ** Aging *)

(** The source of Ebest, the only thing [is_ebest] looks at. *)
Definition ebest_pid (w : world) : option PortIdentity :=
  if ebest_idx (glbs w) =? -1 then None
  else
    let best := inst w (Z.to_nat (ebest_idx (glbs w))) in
    if frgn_rec_best best =? -1 then None
    else Some (fm_sourcePortIdentity (frgn_at best (frgn_rec_best best))).

Lemma is_ebest_pid w f : is_ebest w f =
  match ebest_pid w with Some e => bmc_pidcmp (fm_sourcePortIdentity f) e =? 0 | None => false end.
Proof. unfold is_ebest, ebest_pid. cbn zeta. by destruct (_ =? _), (_ =? _). Qed.

Lemma pidcmp_refl a : bmc_pidcmp a a = 0.
Proof. unfold bmc_pidcmp, bmc_idcmp. rewrite memcmp_refl. cbn. lia. Qed.

(** Erbest is the same record before and after another one is removed. *)
Lemma remove_frgn_best idx p : table_shape p -> Z.of_nat idx < frgn_rec_num p ->
  frgn_rec_best p <> Z.of_nat idx -> frgn_rec_best p <> -1 ->
  let p' := remove_frgn idx p in
  frgn_rec_best p' <> -1 /\ frgn_at p' (frgn_rec_best p') = frgn_at p (frgn_rec_best p).
Proof.
  intros Hs Hi Hne Hv. cbn zeta.
  destruct (remove_frgn_spec idx p Hs Hi) as (Hr & Hn & Hb & Hs'). pose proof Hs as [_ Hnum Hbest].
  set (b' := frgn_rec_best (remove_frgn idx p)) in *.
  assert (b' = if Z.of_nat idx <? frgn_rec_best p then frgn_rec_best p - 1 else frgn_rec_best p) as Eb.
  { rewrite Hb. unfold best_after. by rewrite (proj2 (Z.eqb_neq _ _) Hne). }
  assert (0 <= b') by (rewrite Eb; zcases; lia). split; [lia|].
  pose proof (lookup_frgn_at (remove_frgn idx p) (Z.to_nat b') Hs') as L1.
  pose proof (lookup_frgn_at p (Z.to_nat (frgn_rec_best p)) Hs) as L2.
  rewrite Z2Nat.id in L1, L2 by lia. rewrite Hn, Hr in L1.
  specialize (L1 ltac:(rewrite Eb; zcases; lia)). specialize (L2 ltac:(lia)).
  rewrite list_lookup_delete in L1.
  destruct (Z.ltb_spec (Z.of_nat idx) (frgn_rec_best p)).
  - rewrite decide_False in L1 by lia. replace (S (Z.to_nat b')) with (Z.to_nat (frgn_rec_best p)) in L1 by lia.
    congruence.
  - rewrite decide_True in L1 by lia. rewrite Eb in L1 at 1. congruence.
Qed.

(** Removing a record that does not come from Ebest keeps Ebest. *)
Lemma remove_keeps_ebest w i k : (i < length (insts w))%nat -> table_shape (inst w i) ->
  Z.of_nat k < frgn_rec_num (inst w i) -> is_ebest w (frgn_at (inst w i) (Z.of_nat k)) = false ->
  ebest_pid (set_inst w i (remove_frgn k)) = ebest_pid w.
Proof.
  intros Hi Hs Hk He. rewrite is_ebest_pid in He. unfold ebest_pid in *. rewrite glbs_set_inst.
  destruct (Z.eqb_spec (ebest_idx (glbs w)) (-1)); [done|].
  destruct (decide (Z.to_nat (ebest_idx (glbs w)) = i)) as [Ei|Ei];
    [|by rewrite inst_set_other by done].
  rewrite Ei in *. rewrite inst_set_same by done.
  destruct (Z.eqb_spec (frgn_rec_best (inst w i)) (-1)) as [Hb|Hb].
  - destruct (remove_frgn_spec k (inst w i) Hs Hk) as (_ & _ & -> & _). unfold best_after. rewrite Hb.
    zcases; (done || lia).
  - assert (frgn_rec_best (inst w i) <> Z.of_nat k) as Hne.
    { intros E. rewrite E, pidcmp_refl in He. done. }
    destruct (remove_frgn_best k (inst w i) Hs Hk Hne Hb) as [Hb' Ef].
    rewrite (proj2 (Z.eqb_neq _ _) Hb'). cbn zeta. by rewrite Ef.
Qed.

(** The records aging keeps. *)
Definition keep (e : option PortIdentity) (now window : Z) (f : pp_frgn_master) : bool :=
  match e with Some pid => bmc_pidcmp (fm_sourcePortIdentity f) pid =? 0 | None => false end ||
  negb (time_after now (ulong (fm_lastAnnounceMsgMs f + window))).

(** Removing touches the table only. *)
Lemma remove_frgn_other {K} (c : pp_instance -> K) k p :
  (forall p x y, c (p <| frgn_master := x |> <| frgn_rec_best := y |>) = c p) ->
  (forall p x, c (p <| frgn_master := x |>) = c p) -> (forall p x, c (p <| frgn_rec_best := x |>) = c p) ->
  (forall p h, c (p <| frgn_rec_num ::= h |>) = c p) -> c (remove_frgn k p) = c p.
Proof.
  intros Hmb Hm Hb Hn. unfold remove_frgn. cbn zeta. rewrite Hn. set (p0 := if _ =? _ then _ else p).
  transitivity (c p0); [|unfold p0; by destruct (_ =? _)]. clearbody p0. revert p0.
  induction (seq k (CONFIG_NR_FOREIGN_RECORDS - k)) as [|x l IH]; intros p0; [done|].
  cbn [foldl]. rewrite IH. unfold remove_step. by destruct (_ <? _).
Qed.

Lemma remove_frgn_window k p :
  frgn_master_time_window_ms (remove_frgn k p) = frgn_master_time_window_ms p.
Proof. by apply remove_frgn_other. Qed.

(** What a step of aging changes: the table of one instance. *)
Record aged (i : nat) (w w' : world) : Prop := {
  ag_glbs : glbs w' = glbs w;
  ag_len : length (insts w') = length (insts w);
  ag_other : forall j, j <> i -> inst w' j = inst w j;
  ag_window : frgn_master_time_window_ms (inst w' i) = frgn_master_time_window_ms (inst w i);
  ag_ebest : ebest_pid w' = ebest_pid w }.

Lemma aged_refl i w : aged i w w.
Proof. by split. Qed.
Lemma aged_trans i w1 w2 w3 : aged i w1 w2 -> aged i w2 w3 -> aged i w1 w3.
Proof.
  intros [G1 L1 O1 W1 E1] [G2 L2 O2 W2 E2]. split; try congruence.
  intros j Hj. rewrite O2 by done. auto.
Qed.

Lemma aged_remove w i k : (i < length (insts w))%nat -> table_shape (inst w i) ->
  Z.of_nat k < frgn_rec_num (inst w i) -> is_ebest w (frgn_at (inst w i) (Z.of_nat k)) = false ->
  aged i w (set_inst w i (remove_frgn k)).
Proof.
  intros Hi Hs Hk He. split; [done|apply length_set_inst| | |by apply remove_keeps_ebest].
  - intros j Hj. by apply inst_set_other.
  - by rewrite inst_set_same, remove_frgn_window by done.
Qed.

Lemma age_loop_S fuel i k now w :
  age_loop (S fuel) i k now w =
  let p := inst w i in
  if Z.of_nat k <? frgn_rec_num p then
    let f := frgn_at p (Z.of_nat k) in
    if keep (ebest_pid w) now (frgn_master_time_window_ms p) f
    then age_loop fuel i (S k) now w
    else age_loop fuel i k now (set_inst w i (remove_frgn k))
  else (true, w).
Proof.
  cbn [age_loop]. rewrite bind_unfold. unfold rd. cbn [fst snd]. unfold id.
  destruct (_ <? _); [|done]. rewrite bind_unfold. unfold rdw. cbn [fst snd].
  unfold keep. rewrite is_ebest_pid. cbn zeta.
  match goal with |- context [time_after ?x ?y] => destruct (time_after x y) end;
    destruct (ebest_pid w); [destruct (_ =? _)| |destruct (_ =? _)|]; done.
Qed.

Lemma age_loop_spec fuel : forall i k now w, (i < length (insts w))%nat -> table_ok (inst w i) ->
  (Z.to_nat (frgn_rec_num (inst w i)) - k < fuel)%nat ->
  let w' := (age_loop fuel i k now w).2 in
  (age_loop fuel i k now w).1 = true /\
  records (inst w' i) = take k (records (inst w i)) ++
    List.filter (keep (ebest_pid w) now (frgn_master_time_window_ms (inst w i))) (drop k (records (inst w i))) /\
  table_ok (inst w' i) /\ aged i w w'.
Proof.
  induction fuel as [|fuel IH]; intros i k now w Hi Hok Hf; cbn zeta.
  { lia. }
  rewrite age_loop_S. cbn zeta. pose proof (tk_shape _ Hok) as Hs.
  pose proof (length_records _ Hs) as Hl.
  destruct (Z.ltb_spec (Z.of_nat k) (frgn_rec_num (inst w i))) as [Hk|Hk].
  2:{ cbn. rewrite drop_ge, take_ge by lia. cbn. rewrite app_nil_r. auto using aged_refl. }
  pose proof (lookup_frgn_at _ k Hs ltac:(lia)) as Hlk.
  set (f := frgn_at (inst w i) (Z.of_nat k)) in *.
  destruct (keep _ now _ f) eqn:Hkeep.
  - destruct (IH i (S k) now w Hi Hok ltac:(lia)) as (Hb & Hr & Hok' & Hag). split; [done|]. split; [|done].
    rewrite Hr, (drop_S _ _ _ Hlk), (take_S_r _ _ _ Hlk), <- app_assoc. cbn. by rewrite Hkeep.
  - assert (is_ebest w f = false) as He.
    { rewrite is_ebest_pid. unfold keep in Hkeep. by apply orb_false_iff in Hkeep as [-> _]. }
    pose proof (aged_remove w i k Hi Hs Hk He) as Hag.
    destruct (remove_frgn_spec k (inst w i) Hs Hk) as (Hr & Hn & _ & _).
    set (w1 := set_inst w i (remove_frgn k)) in *.
    assert (inst w1 i = remove_frgn k (inst w i)) as E1 by (by apply inst_set_same).
    destruct (IH i k now w1) as (Hb1 & Hr1 & Hok1 & Hag1).
    { by rewrite (ag_len _ _ _ Hag). }
    { rewrite E1. by apply table_ok_remove. }
    { rewrite E1, Hn. lia. }
    split; [done|]. split; [|split; [done|by eapply aged_trans]].
    rewrite Hr1, (ag_ebest _ _ _ Hag), (ag_window _ _ _ Hag), E1, Hr, delete_take_drop.
    rewrite (drop_S _ _ _ Hlk). cbn. rewrite Hkeep.
    rewrite take_app_le, drop_app_ge by (rewrite length_take; lia).
    rewrite take_take, length_take. f_equal; [f_equal; lia|]. f_equal.
    by replace (k - Nat.min k (length (records (inst w i))))%nat with 0%nat by lia.
Qed.

Lemma age_frgn_master_spec i w : (i < length (insts w))%nat -> table_ok (inst w i) ->
  let now := (calc_timeout i 0 w).1 in
  let w' := (bmc_age_frgn_master i w).2 in
  (bmc_age_frgn_master i w).1 = true /\
  records (inst w' i) =
    List.filter (fun f => is_ebest w f || negb (time_after now
      (ulong (fm_lastAnnounceMsgMs f + frgn_master_time_window_ms (inst w i))))) (records (inst w i)) /\
  table_ok (inst w' i) /\ aged i w w'.
Proof.
  intros Hi Hok. cbn zeta. unfold bmc_age_frgn_master. rewrite bind_unfold.
  set (now := (calc_timeout i 0 w).1). set (w1 := (calc_timeout i 0 w).2).
  assert (glbs w1 = glbs w /\ insts w1 = insts w) as [Hg Hin].
  { unfold w1, calc_timeout, op. rewrite bind_unfold. by destruct (t_calc_timeout i 0 (the_env w)). }
  assert (forall j, inst w1 j = inst w j) as Hin' by (intros j; unfold inst; by rewrite Hin).
  assert (ebest_pid w1 = ebest_pid w) as He by (unfold ebest_pid; by rewrite Hg, Hin').
  clearbody w1. rewrite bind_unfold. unfold rd. cbn [fst snd].
  destruct (age_loop_spec (2 * Z.to_nat (frgn_rec_num (inst w1 i)) + 2) i 0 now w1) as (Hb & Hr & Hok' & [AG AL AO AW AE]);
    [by rewrite Hin|by rewrite Hin'|lia|].
  rewrite Hin' in *. rewrite Hr, He, take_0, drop_0. cbn [app]. split_and!; [done|..].
  - apply List.filter_ext. intros f. unfold keep. by rewrite is_ebest_pid.
  - done.
  - split; try congruence. intros j Hj. by rewrite AO, Hin' by done.
Qed.

(** ** Adding *)

Lemma NoDup_insert {A} (l : list A) k x : NoDup l -> (forall j, l !! j = Some x -> j = k) ->
  NoDup (<[k := x]> l).
Proof.
  rewrite !NoDup_alt. intros Hn Hx a b y.
  destruct (decide (k < length l)%nat) as [Hk|Hk]; [|rewrite list_insert_ge by lia; apply Hn].
  rewrite !list_lookup_insert. repeat case_decide; destruct_and?; subst; try done; intros E1 E2; simplify_eq.
  - symmetry. by apply Hx.
  - by apply Hx.
  - by eapply Hn.
Qed.

(** Overwriting a record: by one of the same source, or a new source. *)
Lemma table_ok_put p k f : table_ok p -> (k < Z.to_nat (frgn_rec_num p))%nat ->
  wf_pid (fm_sourcePortIdentity f) ->
  (forall j g, records p !! j = Some g -> fm_sourcePortIdentity g = fm_sourcePortIdentity f -> j = k) ->
  table_ok (p <| frgn_master ::= <[k := f]> |>).
Proof.
  intros [[Hl Hn Hb] Hnd Hwf] Hk Hf Hu.
  assert (records (p <| frgn_master ::= <[k := f]> |>) = <[k := f]> (records p)) as Er
    by (unfold records; cbn; by rewrite take_insert_lt by lia).
  split; [split; cbn; [by rewrite length_insert|done..]|..]; rewrite Er.
  - change (NoDup (fm_sourcePortIdentity <$> <[k := f]> (records p))). rewrite list_fmap_insert.
    apply NoDup_insert; [done|]. intros j Hj. apply list_lookup_fmap_Some in Hj as (g & Hg & Eg). by eapply Hu.
  - by apply Forall_insert.
Qed.

(** A record of a new source in a free place. *)
Lemma table_ok_append p f : table_ok p -> frgn_rec_num p < Z.of_nat CONFIG_NR_FOREIGN_RECORDS ->
  wf_pid (fm_sourcePortIdentity f) ->
  (forall g, g ∈ records p -> fm_sourcePortIdentity g <> fm_sourcePortIdentity f) ->
  let p' := p <| frgn_rec_num ::= fun n => u16 (n + 1) |>
              <| frgn_master ::= <[Z.to_nat (frgn_rec_num p) := f]> |> in
  table_ok p' /\ records p' = records p ++ [f].
Proof.
  intros [[Hl Hn Hb] Hnd Hwf] Hr Hf Hu p'. pose proof nr_foreign_bounds.
  assert (frgn_rec_num p' = frgn_rec_num p + 1) as En by (unfold p'; cbn; by rewrite u16_id by lia).
  assert (records p' = records p ++ [f]) as Er.
  { unfold records. rewrite En. replace (Z.to_nat (frgn_rec_num p + 1)) with (S (Z.to_nat (frgn_rec_num p))) by lia.
    unfold p'. cbn [frgn_master upd setter]. erewrite take_S_r by (apply list_lookup_insert_eq; lia).
    by rewrite take_insert_ge by done. }
  split; [|done]. split; [split; rewrite ?En; unfold p'; cbn; [by rewrite length_insert|lia..]|..]; rewrite Er.
  - rewrite map_app. apply list.NoDup_app. split_and!; [done| |cbn; apply NoDup_singleton].
    intros pid Hp Hin. cbn in Hin. apply list_elem_of_singleton in Hin as ->.
    apply (list_elem_of_fmap fm_sourcePortIdentity) in Hp as (g & Eg & Hg). by eapply Hu.
  - apply Forall_app. auto.
Qed.

(** A table of one record. *)
Lemma table_ok_single p f best : length (frgn_master p) = CONFIG_NR_FOREIGN_RECORDS ->
  wf_pid (fm_sourcePortIdentity f) -> -1 <= best <= 0 ->
  let p' := p <| frgn_rec_num := 1 |> <| frgn_rec_best := best |> <| frgn_master ::= <[0%nat := f]> |> in
  table_ok p' /\ records p' = [f].
Proof.
  intros Hl Hf Hb p'. pose proof nr_foreign_bounds.
  assert (records p' = [f]) as Er.
  { unfold records, p'. cbn. destruct (frgn_master p) as [|x l]; [cbn in Hl; lia|]. reflexivity. }
  split; [|done]. split; [split; unfold p'; cbn; [by rewrite length_insert|lia..]|..]; rewrite Er.
  - apply NoDup_singleton.
  - auto.
Qed.

(** Everything but the next state and the timers. *)
Definition quiet (p : pp_instance) : pp_instance := p <| next_state := 0 |> <| tmo_cfg := [] |>.

Lemma own_announce_quiet i pid : guar (same_view quiet id) (own_announce i pid).
Proof.
  unfold own_announce. walk. unfold pp_timeout_reset. by apply view_timeout_reset_N.
Qed.

Lemma quiet_table p p' : quiet p = quiet p' ->
  frgn_master p = frgn_master p' /\ frgn_rec_num p = frgn_rec_num p' /\
  frgn_rec_best p = frgn_rec_best p' /\ received_ptp_header p = received_ptp_header p' /\
  frgn_master_time_window_ms p = frgn_master_time_window_ms p'.
Proof.
  intros E. split_and!.
  - exact (f_equal frgn_master E).
  - exact (f_equal frgn_rec_num E).
  - exact (f_equal frgn_rec_best E).
  - exact (f_equal received_ptp_header E).
  - exact (f_equal frgn_master_time_window_ms E).
Qed.

Lemma table_ok_quiet p p' : quiet p = quiet p' -> table_ok p -> table_ok p'.
Proof.
  intros (E1 & E2 & E3 & _)%quiet_table [[Hl Hn Hb] Hnd Hwf].
  assert (records p' = records p) as Er by (unfold records; congruence).
  split; [split; congruence|by rewrite Er..].
Qed.

Lemma find_index_seq_none f n : find_index f (seq 0 n) = None -> forall k, (k < n)%nat -> f k = false.
Proof.
  assert (forall l, find_index f l = None -> forall k, k ∈ l -> f k = false) as Hg.
  { induction l as [|x l IH]; intros Hf k Hk; [by apply elem_of_nil in Hk|]. cbn in Hf.
    destruct (f x) eqn:E; [done|]. apply elem_of_cons in Hk as [->|]; [done|by apply IH]. }
  intros Hf k Hk. apply (Hg _ Hf). apply elem_of_seq. lia.
Qed.

Lemma find_index_seq_some f n k : find_index f (seq 0 n) = Some k -> (k < n)%nat /\ f k = true.
Proof.
  assert (forall l, find_index f l = Some k -> k ∈ l /\ f k = true) as Hg.
  { induction l as [|x l IH]; intros Hf; [done|]. cbn in Hf. destruct (f x) eqn:E.
    - simplify_eq. split; [apply elem_of_cons; auto|done].
    - destruct (IH Hf). split; [apply elem_of_cons; auto|done]. }
  intros Hf. destruct (Hg _ Hf) as [Hin ?]. apply elem_of_seq in Hin. split; [lia|done].
Qed.

(** The index a search over [seq 1 (n-1)] ends with. *)
Lemma foldl_select_lt (sel : nat -> nat -> bool) n : (0 < n)%nat ->
  (foldl (fun b k => if sel k b then k else b) 0%nat (seq 1 (n - 1)) < n)%nat.
Proof.
  intros Hn. assert (forall l b, (b < n)%nat -> (forall k, k ∈ l -> (k < n)%nat) ->
    (foldl (fun b k => if sel k b then k else b) b l < n)%nat) as Hg.
  { induction l as [|x l IH]; intros b Hb Hl; [done|]. cbn [foldl]. apply IH.
    - destruct (sel x b); [apply Hl, elem_of_cons; auto|done].
    - intros k Hk. apply Hl, elem_of_cons. auto. }
  apply Hg; [done|]. intros k Hk. apply elem_of_seq in Hk. lia.
Qed.

Lemma find_worst_lt w p : 0 < frgn_rec_num p -> (find_worst w p < Z.to_nat (frgn_rec_num p))%nat.
Proof. intros Hn. unfold find_worst. apply (foldl_select_lt _ _). lia. Qed.
Lemma find_best_lt isq p : 0 < frgn_rec_num p -> (find_best isq p < Z.to_nat (frgn_rec_num p))%nat.
Proof.
  intros Hn. unfold find_best.
  apply (foldl_select_lt (fun k b => bmc_dataset_cmp isq (frgn_at p (Z.of_nat k)) (frgn_at p (Z.of_nat b)) <? 0)).
  lia.
Qed.

Lemma calc_timeout_frame i ms w :
  glbs (calc_timeout i ms w).2 = glbs w /\ insts (calc_timeout i ms w).2 = insts w /\
  assert_failed (calc_timeout i ms w).2 = assert_failed w.
Proof. unfold calc_timeout, op. rewrite bind_unfold. by destruct (t_calc_timeout i ms (the_env w)). Qed.

(** ** The table as a list of records

    What an Announce does to the records of a port, as a function on lists. *)

Definition fresh_record (now : Z) (f : pp_frgn_master) : pp_frgn_master :=
  f <| fm_qualified := 0 |> <| fm_lastAnnounceMsgMs := now |>.

(** The record of a known master: the next sequence number in time qualifies it. *)
Definition refreshed_record (p : pp_instance) (now : Z) (old f : pp_frgn_master) : pp_frgn_master :=
  let next := h_sequenceId (received_ptp_header p) =? fm_sequenceId old + 1 in
  f <| fm_qualified := if next then of_bool (time_before_eq now
         (ulong (fm_lastAnnounceMsgMs old + frgn_master_time_window_ms p))) else fm_qualified old |>
    <| fm_lastAnnounceMsgMs := if next then now else fm_lastAnnounceMsgMs old |>.

(** An Announce this clock sent itself, on a port the receiving one does not yield to. *)
Definition own_port (w : world) (i : nat) (pid : PortIdentity) : bool :=
  let def := defaultDS (glbs w) in
  (bmc_idcmp (clockIdentity pid) (def_clockIdentity def) =? 0) &&
  negb ((1 <? get_numberPorts def) && (bmc_pidcmp pid (portIdentity (portDS (inst w i))) <? 0)).

Definition as_qualified (f : pp_frgn_master) : pp_frgn_master := f <| fm_qualified := 1 |>.

(** The slot a record [g] made from [f] gets when its source is new, and the records left: the
    next free one, or the one of the worst record unless that beats [f]. *)
Definition slot_for (w : world) (p : pp_instance) (f g : pp_frgn_master) : option nat * list pp_frgn_master :=
  let rs := records p in
  if CONFIG_HAS_CODEOPT_SINGLE_FMASTER then (Some 0%nat, [g])
  else if frgn_rec_num p <? Z.of_nat CONFIG_NR_FOREIGN_RECORDS then (Some (length rs), rs ++ [g])
  else
    let worst := find_worst w p in
    if bmc_dataset_cmp (is_qualified w) (as_qualified (frgn_at p (Z.of_nat worst))) (as_qualified f) <? 0
    then (None, rs) else (Some worst, <[worst := g]> rs).

(** The slot returned and the records left. *)
Definition table_add (w : world) (i : nat) (now : Z) (f : pp_frgn_master) : option nat * list pp_frgn_master :=
  let p := inst w i in
  let rs := records p in
  let src := fm_sourcePortIdentity f in
  let def := defaultDS (glbs w) in
  if is_externalPortConfigurationEnabled def then
    if (bmc_idcmp (clockIdentity src) (def_clockIdentity def) =? 0) && (portNumber src =? port_idx p)
    then (None, rs) else (Some 0%nat, [f])
  else if own_port w i src || (255 <=? fm_stepsRemoved f) then (None, rs)
  else match list_find (fun g => src = fm_sourcePortIdentity g) rs with
  | Some (k, old) => (None, <[k := refreshed_record p now old f]> rs)
  | None => slot_for w p f (fresh_record now f)
  end.

(** A value the clock of the timers can return. *)
Definition clock_reading (i : nat) (now : Z) : Prop := exists e : env, now = ulong (t_calc_timeout i 0 e).1.

Lemma calc_timeout_reading i w : clock_reading i (calc_timeout i 0 w).1.
Proof.
  exists (the_env w). unfold calc_timeout, op. rewrite bind_unfold. by destruct (t_calc_timeout i 0 (the_env w)).
Qed.

(** The slot chosen for a record [g] of a new source. *)
Lemma new_slot_ok w i f g : (i < length (insts w))%nat -> table_ok (inst w i) ->
  wf_pid (fm_sourcePortIdentity g) ->
  (forall h, h ∈ records (inst w i) -> fm_sourcePortIdentity h <> fm_sourcePortIdentity g) ->
  let r := (new_frgn_slot i f w).1 in
  let w1 := (new_frgn_slot i f w).2 in
  length (insts w1) = length (insts w) /\ assert_failed w1 = assert_failed w /\
  match r with
  | None => w1 = w /\ (None, records (inst w i)) = slot_for w (inst w i) f g
  | Some sel =>
      let p' := (inst w1 i) <| frgn_master ::= <[sel := g]> |> in
      table_ok p' /\ (Some sel, records p') = slot_for w (inst w i) f g
  end.
Proof.
  intros Hi Hok Hwf Hnew. cbn zeta. unfold new_frgn_slot, slot_for. rewrite bind_unfold. unfold rd. cbn [fst snd].
  unfold id. pose proof (tk_shape _ Hok) as Hs. pose proof Hs as [Hl Hn Hb].
  pose proof nr_foreign_bounds. destruct CONFIG_HAS_CODEOPT_SINGLE_FMASTER eqn:Esingle; cbn [negb].
  { rewrite bind_unfold. unfold wr. cbn [fst snd mret M_ret]. rewrite length_set_inst, inst_set_same by done.
    split; [done|]. split; [done|]. pose proof (single_fmaster_nr Esingle).
    destruct (table_ok_single (inst w i) g (frgn_rec_best (inst w i))) as [T R]; [done..|lia|].
    split; [exact T|]. change (records _) with (records ((inst w i) <| frgn_rec_num := 1 |>
      <| frgn_rec_best := frgn_rec_best (inst w i) |> <| frgn_master ::= <[0%nat := g]> |>)). by rewrite R. }
  destruct (Z.ltb_spec (frgn_rec_num (inst w i)) (Z.of_nat CONFIG_NR_FOREIGN_RECORDS)) as [Hlt|Hge].
  - rewrite bind_unfold. unfold wr. cbn [fst snd mret M_ret]. rewrite length_set_inst, inst_set_same by done.
    split; [done|]. split; [done|]. destruct (table_ok_append (inst w i) g Hok Hlt Hwf Hnew) as [T R].
    split; [exact T|]. by rewrite R, (length_records _ Hs).
  - rewrite bind_unfold. unfold rdw. cbn [fst snd]. rewrite bind_unfold. cbn [fst snd]. unfold as_qualified.
    destruct (_ <? 0); cbn [mret M_ret fst snd]; [done|]. split_and!; [done..| |].
    + apply table_ok_put; [done|apply find_worst_lt; lia|done|].
      intros j h Hj Eh. exfalso. eapply Hnew; [by eapply list_elem_of_lookup_2|done].
    + unfold records. cbn. by rewrite take_insert_lt by (apply find_worst_lt; lia).
Qed.

(** The refreshed record. *)
Lemma refresh_ok w i k f : (i < length (insts w))%nat -> table_ok (inst w i) ->
  (k < Z.to_nat (frgn_rec_num (inst w i)))%nat ->
  fm_sourcePortIdentity (frgn_at (inst w i) (Z.of_nat k)) = fm_sourcePortIdentity f ->
  let p := inst w i in
  let w' := (refresh_frgn_master i k f w).2 in
  length (insts w') = length (insts w) /\ assert_failed w' = assert_failed w /\ table_ok (inst w' i) /\
  records (inst w' i) = <[k := refreshed_record p (calc_timeout i 0 w).1 (frgn_at p (Z.of_nat k)) f]> (records p).
Proof.
  intros Hi Hok Hk Hsrc. cbn zeta. unfold refreshed_record. cbn zeta. unfold refresh_frgn_master. rewrite bind_unfold. unfold rd. cbn [fst snd].
  unfold id. set (old := frgn_at (inst w i) (Z.of_nat k)) in *. pose proof (tk_shape _ Hok) as Hs.
  pose proof (lookup_frgn_at _ k Hs Hk) as Hlk. fold old in Hlk.
  assert (wf_pid (fm_sourcePortIdentity f)) as Hwf.
  { rewrite <- Hsrc. exact (proj1 (list.Forall_forall _ _) (tk_wf _ Hok) _ (list_elem_of_lookup_2 _ _ _ Hlk)). }
  rewrite bind_unfold. set (m := if _ =? _ then _ else _). set (next := _ =? _).
  destruct (calc_timeout_frame i 0 w) as (_ & Hin & Haf).
  assert (insts (m w).2 = insts w /\ assert_failed (m w).2 = assert_failed w) as [Hin' Haf'].
  { unfold m, next. destruct (_ =? _); [|done]. rewrite bind_unfold. done. }
  set (g := f <| fm_qualified := _ |> <| fm_lastAnnounceMsgMs := _ |>).
  assert ((m w).1 = g) as ->.
  { unfold m, g, next. destruct (_ =? _); [|done]. rewrite bind_unfold. done. }
  unfold put_frgn, wr. cbn [fst snd]. rewrite length_set_inst, inst_set_same by (by rewrite Hin').
  assert (inst (m w).2 i = inst w i) as -> by (unfold inst; by rewrite Hin').
  rewrite Hin'. split_and!; [done..| |].
  - apply table_ok_put; [done..|]. intros j h Hj Eh.
    eapply (NoDup_lookup (map fm_sourcePortIdentity (records (inst w i)))); [apply Hok|..];
      apply list_lookup_fmap_Some; eauto. exists old. split; [|done]. rewrite Eh, Hsrc. reflexivity.
  - unfold records. cbn. by rewrite take_insert_lt.
Qed.

(** States in which an Announce may be handled. *)
Definition announce_state (s : Z) : Prop := s <> PPS_DISABLED /\ s <> PPS_FAULTY /\ s <> PPS_INITIALIZING.

Lemma c_assert_true w b : b = true -> c_assert b w = (tt, w).
Proof. by intros ->. Qed.

(** The record belongs to the Announce whose header was unpacked last. *)
Definition announced (p : pp_instance) (f : pp_frgn_master) : Prop :=
  wf_pid (fm_sourcePortIdentity f) /\
  h_sourcePortIdentity (received_ptp_header p) = fm_sourcePortIdentity f.

Definition added (w : world) (i : nat) (f : pp_frgn_master) (r : option nat) (w' : world) : Prop :=
  length (insts w') = length (insts w) /\ assert_failed w' = assert_failed w /\ table_ok (inst w' i) /\
  exists now, clock_reading i now /\ (r, records (inst w' i)) = table_add w i now f.

(** The search of the code and the search on the list. *)
Lemma find_index_records p src : table_ok p -> wf_pid src ->
  find_index (fun k => bmc_pidcmp src (fm_sourcePortIdentity (frgn_at p (Z.of_nat k))) =? 0)
    (seq 0 (Z.to_nat (frgn_rec_num p))) =
  fst <$> list_find (fun g => src = fm_sourcePortIdentity g) (records p).
Proof.
  intros Hok Hsrc. pose proof (tk_shape _ Hok) as Hs. pose proof (tk_wf _ Hok) as Hwf.
  rewrite Forall_lookup in Hwf. destruct (find_index _ _) as [k|] eqn:Ek.
  - apply find_index_seq_some in Ek as [Hk Eq]. pose proof (lookup_frgn_at _ k Hs Hk) as Lk.
    apply Z.eqb_eq, pidcmp_eq in Eq; [|done|by eapply Hwf].
    destruct (list_find _ _) as [[k' old]|] eqn:Ef.
    + apply list_find_Some in Ef as (Lo & Eo & _). cbn. f_equal.
      eapply (NoDup_lookup (map fm_sourcePortIdentity (records p)) k k' src); [apply Hok|..];
        apply list_lookup_fmap_Some; eauto.
    + apply list_find_None in Ef. rewrite Forall_lookup in Ef. by destruct (Ef k _ Lk).
  - destruct (list_find _ _) as [[k old]|] eqn:Ef; [|done]. apply list_find_Some in Ef as (Lo & Eo & _).
    pose proof (lookup_lt_Some _ _ _ Lo) as Hlt. rewrite length_records in Hlt by done.
    pose proof (find_index_seq_none _ _ Ek k Hlt) as Hn. cbn beta in Hn.
    rewrite (lookup_frgn_at _ k Hs Hlt) in Lo. simplify_eq. by rewrite pidcmp_refl in Hn.
Qed.

(** [table_add] sees of the world what the checks of the header leave alone. *)
Lemma quiet_insts w w' : same_view quiet id w w' -> forall j, quiet (inst w' j) = quiet (inst w j).
Proof.
  intros Hv j. destruct (decide (j < length (insts w))%nat) as [Hj|Hj].
  - by destruct (same_view_inst _ _ _ _ j Hv Hj).
  - destruct (same_view_parts _ _ _ _ Hv) as (Hl & _). unfold inst. by rewrite !lookup_ge_None_2 by lia.
Qed.

Lemma quiet_is_qualified w w' : same_view quiet id w w' -> is_qualified w' = is_qualified w.
Proof.
  intros Hv. destruct (same_view_parts _ _ _ _ Hv) as (_ & Hg & _). unfold id in Hg.
  unfold is_qualified, is_ebest, frgn_at. rewrite Hg.
  destruct (quiet_table _ _ (quiet_insts w w' Hv (Z.to_nat (ebest_idx (glbs w))))) as (-> & _ & -> & _). done.
Qed.

Lemma quiet_slot_for w w' i f g : same_view quiet id w w' ->
  slot_for w' (inst w' i) f g = slot_for w (inst w i) f g.
Proof.
  intros Hv. unfold slot_for, find_worst, records, frgn_at. rewrite (quiet_is_qualified w w' Hv).
  by destruct (quiet_table _ _ (quiet_insts w w' Hv i)) as (-> & -> & _).
Qed.

Lemma own_announce_own_port i pid w : (own_announce i pid w).1 = own_port w i pid.
Proof.
  unfold own_announce, own_port, DSDEF, DSPOR. rewrite bind_rdG.
  destruct (1 <? _); cbn [andb]; [|cbn [negb]; by rewrite andb_true_r].
  destruct (_ =? 0); cbn [andb]; [|done]. rewrite bind_rd. destruct (_ <? 0); [by rewrite !bind_unfold|done].
Qed.

(** A new or a known master, after the checks of the header. *)
Lemma add_known_or_new w i f : (i < length (insts w))%nat -> table_ok (inst w i) -> announced (inst w i) f ->
  let m := p ← rd i id;
    match find_index (fun k => bmc_pidcmp (fm_sourcePortIdentity f)
                                 (fm_sourcePortIdentity (frgn_at p (Z.of_nat k))) =? 0)
            (seq 0 (Z.to_nat (frgn_rec_num p))) with
    | Some k => refresh_frgn_master i k f;; mret None
    | None =>
        sel ← new_frgn_slot i f;
        match sel with
        | None => mret None
        | Some sel =>
            now ← calc_timeout i 0;
            put_frgn i sel (f <| fm_qualified := 0 |> <| fm_lastAnnounceMsgMs := now |>);;
            mret (Some sel)
        end
    end in
  let w' := (m w).2 in
  length (insts w') = length (insts w) /\ assert_failed w' = assert_failed w /\ table_ok (inst w' i) /\
  exists now, clock_reading i now /\ ((m w).1, records (inst w' i)) =
    match list_find (fun g => fm_sourcePortIdentity f = fm_sourcePortIdentity g) (records (inst w i)) with
    | Some (k, old) => (None, <[k := refreshed_record (inst w i) now old f]> (records (inst w i)))
    | None => slot_for w (inst w i) f (fresh_record now f)
    end.
Proof.
  intros Hi Hok [Hwf Hpid] m. unfold m. rewrite bind_unfold. unfold rd. cbn [fst snd]. unfold id.
  pose proof (tk_shape _ Hok) as Hs. rewrite find_index_records by done.
  destruct (list_find _ _) as [[k old]|] eqn:Ef; cbn [fmap option_fmap option_map fst].
  - apply list_find_Some in Ef as (Lk & Eo & _). pose proof (lookup_lt_Some _ _ _ Lk) as Hk.
    rewrite length_records in Hk by done. rewrite (lookup_frgn_at _ k Hs Hk) in Lk. injection Lk as <-.
    rewrite bind_unfold. cbn [mret M_ret fst snd].
    destruct (refresh_ok w i k f Hi Hok Hk) as (? & ? & ? & Hr); [done|]. split_and!; [done..|].
    eexists. split; [apply calc_timeout_reading|]. by rewrite Hr.
  - apply list_find_None in Ef. rewrite list.Forall_forall in Ef. rewrite bind_unfold.
    pose proof (fun t => new_slot_ok w i f (fresh_record t f) Hi Hok Hwf (fun h Hh E => Ef h Hh (eq_sym E))) as Hslot.
    cbn zeta in Hslot. destruct (new_frgn_slot i f w) as [[sel|] w1]; cbn [fst snd] in *.
    2:{ destruct (Hslot (calc_timeout i 0 w).1) as (_ & _ & -> & Hr). split_and!; [done..|].
        eexists. split; [apply calc_timeout_reading|exact Hr]. }
    rewrite bind_unfold. destruct (calc_timeout_frame i 0 w1) as (_ & Hin & Haf).
    destruct (Hslot (calc_timeout i 0 w1).1) as (Hl & Ha & Ht & Hr).
    rewrite bind_unfold. unfold put_frgn, wr. cbn [fst snd mret M_ret].
    rewrite length_set_inst, inst_set_same, Hin by (rewrite Hin; lia).
    assert (inst (calc_timeout i 0 w1).2 i = inst w1 i) as -> by (unfold inst; by rewrite Hin).
    split_and!; [done|by rewrite <- Ha, <- Haf|done|]. eexists. split; [apply calc_timeout_reading|exact Hr].
Qed.

Lemma added_same w i f w' : (forall now, table_add w i now f = (None, records (inst w i))) ->
  same_view quiet id w w' -> (i < length (insts w))%nat -> table_ok (inst w i) -> added w i f None w'.
Proof.
  intros Ht Hv Hi Hok. pose proof (quiet_insts w w' Hv i) as Eq.
  destruct (same_view_parts _ _ _ _ Hv) as (Hl & _ & Ha).
  split_and!; [done..|by eapply table_ok_quiet|]. eexists. split; [apply (calc_timeout_reading i w)|].
  rewrite Ht. unfold records. by destruct (quiet_table _ _ Eq) as (-> & -> & _).
Qed.

Lemma add_frgn_master_ok w i f : (i < length (insts w))%nat -> table_ok (inst w i) ->
  announced (inst w i) f -> announce_state (state (inst w i)) ->
  added w i f (bmc_add_frgn_master i f w).1 (bmc_add_frgn_master i f w).2.
Proof.
  intros Hi Hok Hann (Sd & Sf & Si). pose proof Hann as [Hwf Hpid]. unfold bmc_add_frgn_master.
  rewrite bind_rd, !bind_assert by (by apply negb_true_iff, Z.eqb_neq).
  unfold add_frgn_body. rewrite bind_rd_id. cbn zeta. unfold DSDEF. rewrite bind_rdG, Hpid.
  destruct (is_externalPortConfigurationEnabled _) eqn:Ee.
  - destruct (_ && _) eqn:Eo.
    { apply added_same; [|reflexivity|done..]. intros now. unfold table_add. cbn zeta. by rewrite Ee, Eo. }
    unfold put_frgn. rewrite !bind_wr. cbn [fst snd mret M_ret]. unfold added, table_add. cbn zeta. rewrite Ee, Eo.
    rewrite !length_set_inst, !inst_set_same by (rewrite ?length_set_inst; done).
    destruct (table_ok_single (inst w i) f 0) as [T R]; [apply Hok|done|lia|].
    split_and!; [done..|exact T|]. eexists. split; [apply (calc_timeout_reading i w)|]. f_equal. exact R.
  - rewrite bind_unfold. set (pid := fm_sourcePortIdentity f) in *.
    pose proof (own_announce_quiet i pid w) as Hq. pose proof (own_announce_own_port i pid w) as Ho.
    destruct (own_announce i _ w) as [own w1]. cbn [fst snd] in *. subst own.
    pose proof (quiet_insts w w1 Hq i) as Eq. destruct (same_view_parts _ _ _ _ Hq) as (El & _ & Ea).
    destruct (own_port w i pid || (255 <=? fm_stepsRemoved f)) eqn:Er.
    { replace (if own_port w i pid then _ else _) with (mret (M := M) (@None nat)) by
        (destruct (own_port w i pid); [done|cbn in Er; by rewrite Er]).
      apply added_same; [|done..]. intros now. unfold table_add. cbn zeta. fold pid. by rewrite Ee, Er. }
    pose proof Er as [-> ->]%orb_false_iff. pose proof (quiet_table _ _ Eq) as (Em & En & _ & Eh & Et).
    destruct (add_known_or_new w1 i f) as (A1 & A2 & A3 & now & Hnow & A4);
      [lia|by eapply table_ok_quiet|split; [done|by rewrite Eh]|].
    split_and!; [exact (eq_trans A1 El)|exact (eq_trans A2 Ea)|exact A3|].
    exists now. split; [done|]. etrans; [exact A4|]. unfold table_add. cbn zeta. fold pid. rewrite Ee, Er, (quiet_slot_for w w1 i f _ Hq).
    unfold records, refreshed_record. rewrite Em, En, Eh, Et. done.
Qed.

(** ** Erbest and Ebest *)

Lemma foldl_pointwise {A B} (f g : A -> B -> A) (l : list B) : (forall a b, f a b = g a b) ->
  forall a, foldl f a l = foldl g a l.
Proof. intros E. induction l as [|x l IH]; intros a; cbn [foldl]; [done|]. by rewrite E. Qed.

(** Selecting by comparison from left to right gives a minimum. *)
Lemma foldl_min (cmp : nat -> nat -> Z) (P : nat -> Prop) :
  (forall a, P a -> cmp a a <= 0) ->
  (forall a b, P a -> P b -> Z.sgn (cmp b a) = - Z.sgn (cmp a b)) ->
  (forall a b c, P a -> P b -> P c -> cmp a b <= 0 -> cmp b c <= 0 -> cmp a c <= 0) ->
  forall l b, P b -> Forall P l ->
  let r := foldl (fun b k => if cmp k b <? 0 then k else b) b l in
  P r /\ (r = b \/ r ∈ l) /\ cmp r b <= 0 /\ forall k, k ∈ l -> cmp r k <= 0.
Proof.
  intros Hrefl Hanti Htrans. induction l as [|x l IH]; intros b Hb Hl; cbn [foldl].
  { cbn zeta. split_and!; auto. intros k Hk. by apply elem_of_nil in Hk. }
  inversion_clear Hl as [|? ? Hx Hl']. cbn zeta.
  pose proof (Hanti x b Hx Hb) as Ha.
  destruct (Z.ltb_spec (cmp x b) 0) as [Hlt|Hge].
  - destruct (IH x Hx Hl') as (Pr & Hin & Hrx & Hall). split_and!; [done| | |].
    + right. destruct Hin as [->|]; apply elem_of_cons; auto.
    + eapply (Htrans _ x b); auto with lia.
    + intros k [->|Hk]%elem_of_cons; auto.
  - destruct (IH b Hb Hl') as (Pr & Hin & Hrb & Hall). split_and!; [done| |done|].
    + destruct Hin as [->|]; [auto|right; apply elem_of_cons; auto].
    + intros k [->|Hk]%elem_of_cons; [|auto]. eapply (Htrans _ b); auto with lia.
Qed.

(** Records that can be compared with each other. *)
Definition orderly (l : list pp_frgn_master) : Prop := forall a b, a ∈ l -> b ∈ l -> comparable a b.

Lemma find_best_min isq p : table_shape p -> 0 < frgn_rec_num p -> orderly (records p) ->
  let f := frgn_at p (Z.of_nat (find_best isq p)) in
  records p !! find_best isq p = Some f /\ forall g, g ∈ records p -> bmc_dataset_cmp isq f g <= 0.
Proof.
  intros Hs Hn Ho f. pose proof (find_best_lt isq p Hn) as Hlt.
  split; [by apply lookup_frgn_at|]. set (n := Z.to_nat (frgn_rec_num p)) in *.
  set (F k := frgn_at p (Z.of_nat k)).
  assert (forall k, (k < n)%nat -> F k ∈ records p) as HF
    by (intros k Hk; by eapply list_elem_of_lookup_2, lookup_frgn_at).
  destruct (foldl_min (fun a b => bmc_dataset_cmp isq (F a) (F b)) (fun k => (k < n)%nat)) with
    (l := seq 1 (n - 1)) (b := 0%nat) as (_ & _ & H0' & Hall).
  - intros a Ha. destruct (Ho _ _ (HF a Ha) (HF a Ha)) as (? & _ & ? & _). by apply dataset_cmp_refl_le.
  - intros a b Ha Hb. apply dataset_cmp_antisym, Ho; by apply HF.
  - intros a b c Ha Hb Hc. apply dataset_cmp_trans; apply Ho; by apply HF.
  - lia.
  - apply list.Forall_forall. intros k Hk. apply elem_of_seq in Hk. lia.
  - intros g (k & Hk)%list_elem_of_lookup_1. pose proof (lookup_lt_Some _ _ _ Hk) as Hk'.
    rewrite length_records in Hk' by done. rewrite (lookup_frgn_at p k Hs Hk') in Hk. simplify_eq.
    destruct k as [|k]; [exact H0'|]. apply Hall, elem_of_seq. unfold n in *. lia.
Qed.

Lemma find_worst_max w p : table_shape p -> 0 < frgn_rec_num p -> orderly (records p) ->
  forall g, g ∈ records p ->
  bmc_dataset_cmp (is_qualified w) (as_qualified g) (as_qualified (frgn_at p (Z.of_nat (find_worst w p)))) <= 0.
Proof.
  intros Hs Hn Ho. set (n := Z.to_nat (frgn_rec_num p)) in *. set (F k := as_qualified (frgn_at p (Z.of_nat k))).
  set (cmp a b := - bmc_dataset_cmp (is_qualified w) (F a) (F b)).
  assert (forall a b, (a < n)%nat -> (b < n)%nat -> comparable (F a) (F b)) as HC.
  { intros a b Ha Hb. exact (Ho _ _ (list_elem_of_lookup_2 _ _ _ (lookup_frgn_at p a Hs Ha))
      (list_elem_of_lookup_2 _ _ _ (lookup_frgn_at p b Hs Hb))). }
  assert (forall a b, (a < n)%nat -> (b < n)%nat -> Z.sgn (cmp b a) = - Z.sgn (cmp a b)) as Anti.
  { intros a b Ha Hb. unfold cmp. rewrite !Z.sgn_opp. f_equal. apply dataset_cmp_antisym, HC; done. }
  assert (find_worst w p = foldl (fun b k => if cmp k b <? 0 then k else b) 0%nat (seq 1 (n - 1))) as Ew.
  { unfold find_worst. apply foldl_pointwise. intros b k. unfold cmp. fold (F k) (F b).
    set (d := bmc_dataset_cmp _ (F k) (F b)). change (bmc_dataset_cmp _ _ _) with d.
    by destruct (Z.ltb_spec 0 d), (Z.ltb_spec (- d) 0); try lia. }
  destruct (foldl_min cmp (fun k => (k < n)%nat)) with (l := seq 1 (n - 1)) (b := 0%nat) as (_ & _ & H0' & Hall).
  - intros a Ha. pose proof (Anti a a Ha Ha). lia.
  - done.
  - intros a b c Ha Hb Hc. pose proof (Anti a b Ha Hb). pose proof (Anti b c Hb Hc). pose proof (Anti a c Ha Hc).
    pose proof (dataset_cmp_trans (is_qualified w) (F c) (F b) (F a) (HC c b Hc Hb) (HC b a Hb Ha) (HC c a Hc Ha)).
    unfold cmp in *. lia.
  - lia.
  - apply list.Forall_forall. intros k Hk. apply elem_of_seq in Hk. lia.
  - intros g (k & Hk)%list_elem_of_lookup_1. pose proof (lookup_lt_Some _ _ _ Hk) as Hk'.
    rewrite length_records in Hk' by done. rewrite (lookup_frgn_at p k Hs Hk') in Hk. simplify_eq.
    pose proof (find_worst_lt w p Hn). rewrite Ew in *. fold (F k).
    set (r := foldl _ _ _) in *. fold (F r). assert (cmp r k <= 0) as Hr.
    { destruct k as [|k]; [exact H0'|]. apply Hall, elem_of_seq. unfold n in *. lia. }
    pose proof (Anti r k ltac:(done) Hk'). unfold cmp in *. lia.
Qed.

(** The value [bmc_update_erbest_inst] stores, with a record to choose from. *)
Definition erbest_of (isq : pp_frgn_master -> bool) (p : pp_instance) : Z :=
  let best := if CONFIG_HAS_CODEOPT_SINGLE_FMASTER then 0%nat else find_best isq p in
  if isq (frgn_at p (Z.of_nat best)) then Z.of_nat best else -1.

Lemma erbest_of_min isq p : table_ok p -> 0 < frgn_rec_num p -> orderly (records p) ->
  (erbest_of isq p = -1 /\ forall f, f ∈ records p -> isq f = false) \/
  (0 <= erbest_of isq p /\ exists f, records p !! Z.to_nat (erbest_of isq p) = Some f /\ isq f = true /\
     forall g, g ∈ records p -> bmc_dataset_cmp isq f g <= 0).
Proof.
  intros Hok Hn Ho. pose proof (tk_shape _ Hok) as Hs. unfold erbest_of.
  assert ((if CONFIG_HAS_CODEOPT_SINGLE_FMASTER then 0%nat else find_best isq p) = find_best isq p) as ->.
  { destruct CONFIG_HAS_CODEOPT_SINGLE_FMASTER eqn:Es; [|done]. pose proof (find_best_lt isq p Hn).
    pose proof (single_fmaster_nr Es). destruct Hs as [_ ? _]. lia. }
  destruct (find_best_min isq p Hs Hn Ho) as [Hf Hmin]. cbn zeta.
  set (b := find_best isq p) in *. set (f := frgn_at p (Z.of_nat b)) in *.
  destruct (isq f) eqn:Eq.
  - right. split; [lia|]. exists f. by rewrite Nat2Z.id.
  - left. split; [done|]. intros g Hg. specialize (Hmin g Hg).
    apply dataset_cmp_le in Hmin as [|[? _]]; [done|congruence|].
    apply Ho; [by eapply list_elem_of_lookup_2|done].
Qed.

(** The Erbest of a port, if it has one. *)
Definition has_erbest (w : world) (k : nat) : Prop := frgn_rec_best (inst w k) <> -1.
Definition erbest (w : world) (k : nat) : pp_frgn_master :=
  frgn_at (inst w k) (frgn_rec_best (inst w k)).

(** The search over the ports [l] finds a minimum of their Erbests. *)
Definition ebest_choice (w : world) (l : list nat) (best : Z) : Prop :=
  (best = -1 /\ forall k, k ∈ l -> ~ has_erbest w k) \/
  (exists b, best = Z.of_nat b /\ b ∈ l /\ has_erbest w b /\
     forall k, k ∈ l -> has_erbest w k ->
       bmc_dataset_cmp (is_qualified w) (erbest w b) (erbest w k) <= 0).

Lemma ebest_fold w l :
  (forall k, k ∈ l -> has_erbest w k -> frgn_rec_num (inst w k) <> 0) ->
  (forall j k, j ∈ l -> k ∈ l -> has_erbest w j -> has_erbest w k -> comparable (erbest w j) (erbest w k)) ->
  ebest_choice w l (foldl (ebest_step w) (-1) l).
Proof.
  induction l as [|x l IH] using rev_ind; intros Hnum Hcmp.
  { left. split; [done|]. intros k Hk. by apply elem_of_nil in Hk. }
  rewrite foldl_app. cbn [foldl].
  assert (forall k, k ∈ l -> k ∈ l ++ [x]) as Hsub by (intros; apply elem_of_app; auto).
  assert (x ∈ l ++ [x]) as Hx by (apply elem_of_app; right; by apply list_elem_of_singleton).
  destruct IH as [[-> Hnone]|(b & -> & Hb & Eb & Hmin)]; [eauto..| |].
  - unfold ebest_step. cbn zeta. rewrite Z.eqb_refl. cbn [andb].
    destruct (Z.eqb_spec (frgn_rec_best (inst w x)) (-1)) as [Ex|Ex]; cbn [negb andb].
    + left. split; [done|]. intros k [Hk| ->%list_elem_of_singleton]%elem_of_app; [auto|].
      intros Hh. by apply Hh.
    + right. exists x. split_and!; [done..|]. intros k Hk Hh.
      apply elem_of_app in Hk as [Hk| ->%list_elem_of_singleton]; [by destruct (Hnone k Hk)|].
      destruct (Hcmp x x Hx Hx Ex Ex) as (? & _ & ? & _). by apply dataset_cmp_refl_le.
  - unfold ebest_step. cbn zeta. rewrite (proj2 (Z.eqb_neq _ (-1))) by lia. cbn [andb].
    rewrite Nat2Z.id. right.
    rewrite (proj2 (Z.eqb_neq (frgn_rec_num (inst w b)) 0)) by auto. rewrite orb_false_r.
    fold (erbest w x). fold (erbest w b).
    destruct (Z.eqb_spec (frgn_rec_best (inst w x)) (-1)) as [Ex|Ex]; cbn [negb andb].
    { exists b. split_and!; auto. intros k [Hk| ->%list_elem_of_singleton]%elem_of_app Hh; auto. by destruct Hh. }
    pose proof (dataset_cmp_antisym (is_qualified w) _ _ (Hcmp x b Hx (Hsub b Hb) Ex Eb)) as Ha.
    destruct (Z.ltb_spec (bmc_dataset_cmp (is_qualified w) (erbest w x) (erbest w b)) 0).
    + exists x. split_and!; auto. intros k [Hk| ->%list_elem_of_singleton]%elem_of_app Hh.
      * eapply (dataset_cmp_trans _ _ (erbest w b)); [apply Hcmp; auto..| |auto]. lia.
      * destruct (Hcmp x x Hx Hx Ex Ex) as (? & _ & ? & _). by apply dataset_cmp_refl_le.
    + exists b. split_and!; auto. intros k [Hk| ->%list_elem_of_singleton]%elem_of_app Hh; [auto|lia].
Qed.

(** ** One round of the algorithm keeps the tables well formed *)

Definition tables_ok (w : world) : Prop := Forall table_ok (insts w).

Lemma tables_ok_inst w i : tables_ok w -> (i < length (insts w))%nat -> table_ok (inst w i).
Proof.
  intros Ht Hi. unfold inst. destruct (lookup_lt_is_Some_2 _ _ Hi) as [p Hp]. rewrite Hp. cbn.
  exact (proj1 (Forall_lookup _ _) Ht i p Hp).
Qed.

(** Only the table of instance [i] differs, and it is well formed. *)
Lemma tables_ok_other w w' i : tables_ok w -> length (insts w') = length (insts w) ->
  (forall j, j <> i -> inst w' j = inst w j) ->
  ((i < length (insts w))%nat -> table_ok (inst w' i)) -> tables_ok w'.
Proof.
  intros Ht Hl Ho Hi. apply Forall_lookup. intros j p Hp. pose proof (lookup_lt_Some _ _ _ Hp) as Hj.
  assert (p = inst w' j) as -> by (unfold inst; by rewrite Hp).
  destruct (decide (j = i)) as [->|Hne]; [apply Hi; lia|]. rewrite Ho by done.
  apply tables_ok_inst; [done|lia].
Qed.

Lemma tables_ok_set w i g : tables_ok w -> ((i < length (insts w))%nat -> table_ok (g (inst w i))) ->
  tables_ok (set_inst w i g).
Proof.
  intros Ht Hg. apply (tables_ok_other w _ i); [done|apply length_set_inst| |].
  - intros j Hj. by apply inst_set_other.
  - intros Hi. rewrite inst_set_same; auto.
Qed.

Lemma guar_tables_wr i g : (forall p, table_ok p -> table_ok (g p)) -> guar (inv_rel tables_ok) (wr i g).
Proof. intros Hg w Ht. apply tables_ok_set; [done|]. intros Hi. by apply Hg, tables_ok_inst. Qed.

(** What the invariant depends on: an extension may write its private part
    of a record. *)
Definition table_view (p : pp_instance) : list PortIdentity * Z * Z :=
  (map fm_sourcePortIdentity (frgn_master p), frgn_rec_num p, frgn_rec_best p).

Lemma table_ok_view p p' : table_view p' = table_view p -> table_ok p -> table_ok p'.
Proof.
  unfold table_view. intros E [[Tl Tn Tb] Td Tw].
  assert (map fm_sourcePortIdentity (frgn_master p') = map fm_sourcePortIdentity (frgn_master p)) as E1
    by exact (f_equal (fun v => v.1.1) E).
  assert (frgn_rec_num p' = frgn_rec_num p) as E2 by exact (f_equal (fun v => v.1.2) E).
  assert (frgn_rec_best p' = frgn_rec_best p) as E3 by exact (f_equal snd E).
  assert (map fm_sourcePortIdentity (records p') = map fm_sourcePortIdentity (records p)) as Er
    by (unfold records; rewrite E2, <- !firstn_map; congruence).
  split; [split; [|congruence..]|by rewrite Er|].
  - rewrite <- (length_map fm_sourcePortIdentity), E1, length_map. done.
  - apply (Forall_fmap fm_sourcePortIdentity wf_pid). change (Forall wf_pid (map fm_sourcePortIdentity (records p'))).
    rewrite Er. by apply (Forall_fmap fm_sourcePortIdentity wf_pid).
Qed.

(** Everything but the tables, and fields no table reads. *)
Lemma tables_ok_view {K G} (c : pp_instance -> K) (g : pp_globals -> G) (h : K -> list PortIdentity * Z * Z)
  {A} (m : M A) :
  (forall p, h (c p) = table_view p) -> guar (same_view c g) m -> guar (inv_rel tables_ok) m.
Proof.
  intros Hc Hm w Ht. specialize (Hm w). unfold same_view, view in Hm.
  assert (map c (insts (m w).2) = map c (insts w)) as Em by exact (f_equal (fun v => v.1.1) Hm).
  unfold tables_ok. apply Forall_lookup. intros j p' Hp'.
  assert (map c (insts w) !! j = Some (c p')) as Hj by (rewrite <- Em, list_lookup_fmap, Hp'; done).
  rewrite list_lookup_fmap in Hj. destruct (insts w !! j) as [p|] eqn:Hp; [|done]. cbn in Hj. simplify_eq.
  pose proof (f_equal h Hj) as Hh. rewrite !Hc in Hh.
  eapply table_ok_view; [by rewrite Hh|exact (proj1 (Forall_lookup _ _) Ht j p Hp)].
Qed.

(** What [bmc_update_erbest_inst] makes of its instance. *)
Definition erbest_upd (isq : pp_frgn_master -> bool) (epc : bool) (p : pp_instance) : pp_instance :=
  let p1 := if negb (truth (link_up p)) && (0 <? frgn_rec_num p) then flush_table p else p in
  let p2 := if 0 <? frgn_rec_num p1 then
              if negb (state p1 =? PPS_FAULTY) && negb (state p1 =? PPS_DISABLED)
              then p1 <| frgn_rec_best := if epc then 0 else erbest_of isq p1 |>
              else (flush_table p1) <| frgn_rec_best := -1 |>
            else p1 <| frgn_rec_best := -1 |> in
  if 0 <=? frgn_rec_best p2
  then p2 <| activePeer := fm_peer_mac (frgn_at p2 (frgn_rec_best p2)) |> else p2.

(** Only instance [i] differs. *)
Record only_inst (i : nat) (w w' : world) : Prop := {
  oi_glbs : glbs w' = glbs w;
  oi_len : length (insts w') = length (insts w);
  oi_other : forall j, j <> i -> inst w' j = inst w j;
  oi_assert : assert_failed w' = assert_failed w }.

Lemma only_inst_set i w g : only_inst i w (set_inst w i g).
Proof. split; [done|apply length_set_inst| |done]. intros j Hj. by apply inst_set_other. Qed.
Lemma only_inst_refl i w : only_inst i w w.
Proof. by split. Qed.
Lemma only_inst_trans i w1 w2 w3 : only_inst i w1 w2 -> only_inst i w2 w3 -> only_inst i w1 w3.
Proof.
  intros [G1 L1 O1 A1] [G2 L2 O2 A2]. split; try congruence. intros j Hj. rewrite O2 by done. auto.
Qed.

Lemma store_peer_run i w : (i < length (insts w))%nat ->
  let w' := ((q ← rd i id; when (0 <=? frgn_rec_best q)
    (wr i (fun p => p <| activePeer := fm_peer_mac (frgn_at p (frgn_rec_best p)) |>))) w).2 in
  only_inst i w w' /\
  inst w' i = let p := inst w i in if 0 <=? frgn_rec_best p
    then p <| activePeer := fm_peer_mac (frgn_at p (frgn_rec_best p)) |> else p.
Proof.
  intros Hi. cbn zeta. rewrite bind_rd_id. destruct (0 <=? frgn_rec_best (inst w i)); cbn [when].
  - cbn [wr snd]. rewrite inst_set_same by done. split; [apply only_inst_set|done].
  - split; [apply only_inst_refl|done].
Qed.

Lemma update_erbest_inst_run i w : (i < length (insts w))%nat ->
  let w' := (bmc_update_erbest_inst i w).2 in
  only_inst i w w' /\
  inst w' i = erbest_upd (is_qualified w) (is_externalPortConfigurationEnabled (defaultDS (glbs w))) (inst w i).
Proof.
  intros Hi. cbn zeta. unfold bmc_update_erbest_inst, bmc_flush_frgn_master, DSDEF, erbest_upd.
  set (epc := is_externalPortConfigurationEnabled (defaultDS (glbs w))).
  assert (forall w1 q, only_inst i w w1 -> inst w1 i = q ->
    let w2 := ((q ← rd i id; when (0 <=? frgn_rec_best q)
      (wr i (fun p => p <| activePeer := fm_peer_mac (frgn_at p (frgn_rec_best p)) |>))) w1).2 in
    only_inst i w w2 /\ inst w2 i = if 0 <=? frgn_rec_best q
      then q <| activePeer := fm_peer_mac (frgn_at q (frgn_rec_best q)) |> else q) as Hlast.
  { intros w1 q Ho <-. destruct (store_peer_run i w1) as [Ho' Hq']; [by rewrite (oi_len _ _ _ Ho)|].
    split; [by eapply only_inst_trans|exact Hq']. }
  rewrite bind_rd_id.
  destruct (negb (truth (link_up (inst w i))) && (0 <? frgn_rec_num (inst w i))).
  - cbn [when]. rewrite bind_wr, bind_rd_id, bind_rdG, inst_set_same by done.
    change (0 <? frgn_rec_num (flush_table (inst w i))) with false. cbn iota. rewrite bind_wr.
    apply (Hlast _ ((flush_table (inst w i)) <| frgn_rec_best := -1 |>)).
    + eapply only_inst_trans; apply only_inst_set.
    + by rewrite inst_set_same, inst_set_same by (by rewrite ?length_set_inst).
  - cbn [when]. rewrite bind_ret, bind_rd_id, bind_rdG. fold epc. set (p := inst w i).
    destruct (0 <? frgn_rec_num p); [destruct (negb _ && negb _)|].
    + rewrite bind_unfold, bind_rdw. cbn [wr snd fst].
      apply (Hlast _ (p <| frgn_rec_best := if epc then 0 else erbest_of (is_qualified w) p |>));
        [apply only_inst_set|by rewrite inst_set_same].
    + rewrite bind_wr. apply (Hlast _ ((flush_table p) <| frgn_rec_best := -1 |>));
        [apply only_inst_set|by rewrite inst_set_same].
    + rewrite bind_wr. apply (Hlast _ (p <| frgn_rec_best := -1 |>));
        [apply only_inst_set|by rewrite inst_set_same].
Qed.

Lemma table_ok_flush p : table_ok ((flush_table p) <| frgn_rec_best := -1 |>).
Proof.
  split; [split; cbn; [by rewrite length_replicate|lia..]|..].
  - change (NoDup (@nil PortIdentity)). apply NoDup_nil_2.
  - change (Forall (fun f => wf_pid (fm_sourcePortIdentity f)) []). constructor.
Qed.

Lemma table_ok_best p b : table_ok p -> -1 <= b < frgn_rec_num p -> table_ok (p <| frgn_rec_best := b |>).
Proof. intros [[Hl Hn Hb] Hnd Hwf] Hr. split; [by split|exact Hnd|exact Hwf]. Qed.

Lemma erbest_of_range isq p : table_shape p -> 0 < frgn_rec_num p -> -1 <= erbest_of isq p < frgn_rec_num p.
Proof.
  intros Hs Hn. unfold erbest_of. pose proof (find_best_lt isq p Hn). cbn zeta.
  destruct CONFIG_HAS_CODEOPT_SINGLE_FMASTER; destruct (isq _); lia.
Qed.

Lemma table_ok_erbest_upd isq epc p : table_ok p -> table_ok (erbest_upd isq epc p).
Proof.
  intros Hok. unfold erbest_upd.
  assert (forall q, table_ok q -> table_ok (if 0 <=? frgn_rec_best q
    then q <| activePeer := fm_peer_mac (frgn_at q (frgn_rec_best q)) |> else q)) as Hpeer
    by (intros q [[Hl Hn Hb] Hnd Hwf]; destruct (_ <=? _); (split; [by split|exact Hnd|exact Hwf])).
  apply Hpeer. destruct (_ && _).
  - change (0 <? frgn_rec_num (flush_table p)) with false. apply table_ok_flush.
  - destruct (Z.ltb_spec 0 (frgn_rec_num p)).
    + destruct (_ && _); [|apply table_ok_flush]. apply table_ok_best; [done|].
      destruct epc; [lia|apply erbest_of_range; [apply Hok|done]].
    + apply table_ok_best; [done|]. destruct Hok as [[_ ? _] _ _]. lia.
Qed.

(** Operations of an instance that does not exist do nothing to the others. *)
Definition oob (i : nat) : relation world :=
  fun w w' => (length (insts w) <= i)%nat -> insts w' = insts w.
#[local] Instance oob_preorder i : PreOrder (oob i).
Proof.
  split; unfold oob; repeat intro; [done|]. assert (insts y = insts x) as E by auto.
  rewrite <- E in *. auto.
Qed.
Lemma guar_oob_wr i f : guar (oob i) (wr i f).
Proof. intros w Hi. cbn. rewrite <- (set_inst_oob w i f Hi) at 2. done. Qed.
Lemma guar_oob_op {T} i (f : env -> T * env) : guar (oob i) (op f).
Proof. intros w Hi. unfold op. by destruct (f (the_env w)). Qed.
Hint Resolve guar_oob_wr guar_oob_op : guar.

Lemma oob_tables {A} i (m : M A) : guar (oob i) m ->
  (forall w, (i < length (insts w))%nat -> tables_ok w -> tables_ok (m w).2) -> guar (inv_rel tables_ok) m.
Proof.
  intros Ho Hm w Ht. destruct (decide (i < length (insts w))%nat) as [Hi|Hi]; [by apply Hm|].
  unfold tables_ok. rewrite Ho by lia. done.
Qed.

Lemma tables_update_erbest_inst i : guar (inv_rel tables_ok) (bmc_update_erbest_inst i).
Proof.
  apply (oob_tables i).
  - unfold bmc_update_erbest_inst, bmc_flush_frgn_master. walk.
  - intros w Hi Ht. destruct (update_erbest_inst_run i w Hi) as [[_ Hl Ho _] Hp].
    apply (tables_ok_other w _ i); [done..|]. intros _. rewrite Hp. by apply table_ok_erbest_upd, tables_ok_inst.
Qed.

Lemma oob_age_loop fuel : forall i k now, guar (oob i) (age_loop fuel i k now).
Proof.
  induction fuel as [|n IH]; intros i k now; cbn [age_loop]; [walk|].
  unfold bmc_remove_foreign_master. walk.
Qed.

Lemma tables_age_frgn_master i : guar (inv_rel tables_ok) (bmc_age_frgn_master i).
Proof.
  apply (oob_tables i).
  - unfold bmc_age_frgn_master, calc_timeout. walk. apply oob_age_loop.
  - intros w Hi Ht. destruct (age_frgn_master_spec i w Hi) as (_ & _ & Hok & [_ Hl Ho _ _]);
      [by apply tables_ok_inst|].
    by apply (tables_ok_other w _ i).
Qed.

Lemma tables_view {A} (m : M A) : guar (same_view table_view (fun _ => tt)) m -> guar (inv_rel tables_ok) m.
Proof. by apply (tables_ok_view table_view (fun _ => tt) id). Qed.

Hint Resolve tables_update_erbest_inst tables_age_frgn_master : guar.

Lemma tables_calculate_ebest : guar (inv_rel tables_ok) bmc_calculate_ebest.
Proof.
  unfold bmc_calculate_ebest, bmc_age_frgn_masters, bmc_any_port_initializing, bmc_update_erbest,
    bmc_update_ebest. walk.
  - by apply tables_view, view_update_clock_quality.
  - apply tables_view. walk.
  - apply tables_view. walk.
Qed.

Lemma tables_flush_erbest i : guar (inv_rel tables_ok) (bmc_flush_erbest i).
Proof.
  apply (oob_tables i).
  - unfold bmc_flush_erbest, bmc_remove_foreign_master. walk.
  - intros w Hi Ht. unfold bmc_flush_erbest, bmc_remove_foreign_master. rewrite bind_rd_id, bind_unfold.
    pose proof (tables_ok_inst w i Ht Hi) as Hok. pose proof Hok as [[_ _ Hb] _ _].
    set (m := when _ _). assert (tables_ok (m w).2) as Hm.
    { unfold m. destruct (Z.eqb_spec (frgn_rec_best (inst w i)) (-1)); [done|]. cbn [negb andb].
      destruct (_ <? _); [|done]. apply tables_ok_set; [done|]. intros _. apply table_ok_remove; [done|lia]. }
    clearbody m. cbn [wr snd]. apply tables_ok_set; [done|]. intros Hi'. apply table_ok_best; [by apply tables_ok_inst|].
    pose proof (tables_ok_inst _ i Hm Hi') as [[_ ? _] _ _]. lia.
Qed.

End Table.

(** ** Theorems *)

(** Removing a record deletes exactly that one from the records in use, keeps the order of
    the others, and lets [frgn_rec_best] follow: it is cleared if Erbest was removed and
    designates the same record as before otherwise. *)
Theorem remove_foreign_master_correct `{Config, Platform} (w : world) (i idx : nat) :
  (i < length (insts w))%nat -> table_ok (inst w i) -> Z.of_nat idx < frgn_rec_num (inst w i) ->
  let p := inst w i in
  let p' := inst (bmc_remove_foreign_master i idx w).2 i in
  records p' = delete idx (records p) /\ table_ok p' /\
  (frgn_rec_best p = Z.of_nat idx -> frgn_rec_best p' = -1) /\
  (frgn_rec_best p <> Z.of_nat idx -> frgn_rec_best p <> -1 ->
   frgn_at p' (frgn_rec_best p') = frgn_at p (frgn_rec_best p)).
Proof.
  intros Hi Hok Hidx. cbn zeta. unfold bmc_remove_foreign_master. cbn [wr snd].
  rewrite inst_set_same by done.
  destruct (remove_frgn_spec idx (inst w i) (tk_shape _ Hok) Hidx) as (Hr & _ & Hb & _).
  split_and!; [done|by apply table_ok_remove| |].
  - intros E. rewrite Hb. unfold best_after. by rewrite E, Z.eqb_refl.
  - intros Hne Hv. by apply remove_frgn_best; [apply Hok|..].
Qed.

(** A port with two foreign masters, the second one Erbest. *)
Definition demo_port : pp_instance :=
  (Demo.demo_inst 0 PPS_LISTENING) <| frgn_rec_num := 2 |> <| frgn_rec_best := 1 |>
    <| frgn_master := [demo_frgn 3 5; demo_frgn 2 1; empty_frgn; empty_frgn] |>
    <| frgn_master_time_window_ms := 8000 |>.

Lemma demo_port_ok : @table_ok Demo.demo_config demo_port.
Proof.
  split; [split; vm_compute; intuition congruence|..].
  - apply (bool_decide_unpack _). by vm_compute.
  - repeat constructor.
Qed.

Lemma remove_foreign_master_correct_witness :
  records (inst (@bmc_remove_foreign_master Demo.demo_config Demo.demo_platform 0 0
    (Demo.demo_world [demo_port] 0)).2 0) = [demo_frgn 2 1].
Proof.
  destruct (@remove_foreign_master_correct Demo.demo_config Demo.demo_platform
    (Demo.demo_world [demo_port] 0) 0 0) as (Hr & _).
  - cbn. lia.
  - exact demo_port_ok.
  - by vm_compute.
  - rewrite Hr. reflexivity.
Defined.

(** C10. Aging a port's table, which is well formed, keeps exactly the records of Ebest's source
    and those whose last Announce is not older than the time window, in their order; the table
    stays well formed, and every other port and the identity of Ebest are left alone. The loop
    ends because its condition is false (the result [true]), not because of the fuel, which would
    allow for twice as many rounds as there are records. *)
Theorem age_frgn_master_filters `{Config, Platform} (w : world) (i : nat) :
  (i < length (insts w))%nat -> table_ok (inst w i) ->
  let now := (calc_timeout i 0 w).1 in
  let w' := (bmc_age_frgn_master i w).2 in
  (bmc_age_frgn_master i w).1 = true /\
  records (inst w' i) =
    List.filter (fun f => is_ebest w f || negb (time_after now
      (ulong (fm_lastAnnounceMsgMs f + frgn_master_time_window_ms (inst w i))))) (records (inst w i)) /\
  table_ok (inst w' i) /\ (forall f, is_ebest w' f = is_ebest w f) /\
  (forall j, j <> i -> inst w' j = inst w j).
Proof.
  intros Hi Hok. destruct (age_frgn_master_spec i w Hi Hok) as (Hb & Hr & Hok' & [_ _ Ho _ He]).
  cbn zeta. split_and!; [done..| |done]. intros f. by rewrite !is_ebest_pid, He.
Qed.

Lemma age_frgn_master_filters_witness :
  records (inst (@bmc_age_frgn_master Demo.demo_config Demo.demo_platform 0
    (Demo.demo_world [demo_port <| frgn_master := [demo_frgn 3 5;
       (demo_frgn 2 1) <| fm_lastAnnounceMsgMs := 5000 |>; empty_frgn; empty_frgn] |>] 9000)).2 0) =
  [(demo_frgn 2 1) <| fm_lastAnnounceMsgMs := 5000 |>].
Proof.
  set (w := Demo.demo_world _ _).
  destruct (@age_frgn_master_filters Demo.demo_config Demo.demo_platform w 0) as (_ & Hr & _).
  - cbn. lia.
  - apply (table_ok_put (H := Demo.demo_config) demo_port 1); [exact demo_port_ok|vm_compute; lia|done|].
    intros [|[|j]] g Hj Hg; [|done|]; vm_compute in Hj; [|done]. injection Hj as <-. done.
  - rewrite Hr. vm_compute. reflexivity.
Defined.



(** The Erbest a port settles on, by cases. *)
Lemma erbest_cases `{Config, Platform} (w : world) (i : nat) :
  (i < length (insts w))%nat -> table_ok (inst w i) -> orderly (records (inst w i)) ->
  is_externalPortConfigurationEnabled (defaultDS (glbs w)) = false ->
  let p := inst w i in
  let p' := inst (bmc_update_erbest_inst i w).2 i in
  let isq := is_qualified w in
  let usable := truth (link_up p) && negb (state p =? PPS_FAULTY) && negb (state p =? PPS_DISABLED) in
  (frgn_rec_best p' = -1 /\ (usable = true -> forall f, f ∈ records p -> isq f = false)) \/
  (usable = true /\ 0 <= frgn_rec_best p' /\ records p' = records p /\
   exists f, records p !! Z.to_nat (frgn_rec_best p') = Some f /\ isq f = true /\
     activePeer p' = fm_peer_mac f /\ forall g, g ∈ records p -> bmc_dataset_cmp isq f g <= 0).
Proof.
  intros Hi Hok Ho Hepc. cbn zeta. destruct (update_erbest_inst_run i w Hi) as [_ ->]. rewrite Hepc.
  set (p := inst w i) in *. set (isq := is_qualified w). unfold erbest_upd.
  pose proof (tk_shape _ Hok) as Hs. pose proof (length_records _ Hs) as Hlen.
  destruct (truth (link_up p)); cbn [negb andb].
  2:{ left. split; [|done]. destruct (0 <? frgn_rec_num p) eqn:En.
      - done.
      - cbn. rewrite En. done. }
  destruct (Z.ltb_spec 0 (frgn_rec_num p)) as [Hn|Hn].
  2:{ left. split; [done|]. intros _ f Hf. apply list_elem_of_lookup_1 in Hf as [k Hk].
      apply lookup_lt_Some in Hk. lia. }
  destruct (_ && _); [|left; done].
  destruct (erbest_of_min isq p Hok Hn Ho) as [[Eb Hall]|[Hb (f & Hf & Hq & Hmin)]].
  - left. rewrite Eb. done.
  - right. split; [done|]. cbn [frgn_rec_best upd setter]. rewrite (proj2 (Z.leb_le _ _) Hb).
    split; [exact Hb|]. split; [done|]. exists f. split_and!; [exact Hf|done| |done].
    change (fm_peer_mac (frgn_at p (erbest_of isq p)) = fm_peer_mac f).
    pose proof (lookup_frgn_at p (Z.to_nat (erbest_of isq p)) Hs) as Hl. rewrite Z2Nat.id in Hl by done.
    rewrite Hl in Hf by (apply lookup_lt_Some in Hf; lia). congruence.
Qed.

(** C8. The Erbest of a port, without external port configuration. Let the table be well formed
    and its records pairwise [comparable]: eight-byte identities, none received by the very port
    it is from, and all Announces of one grandmaster in agreement on its attributes (without that
    the comparison can be circular, [dataset_cmp_cycle]). Then the port has no Erbest if and only
    if its link is down, it is faulty or disabled, or none of its records is qualified; and an
    Erbest is a qualified record of the table that no record of the table beats in the data set
    comparison, the table is left as it is, and the sender of the Erbest becomes the active peer.
    *)
Theorem erbest_is_best `{Config, Platform} (w : world) (i : nat) :
  (i < length (insts w))%nat -> table_ok (inst w i) -> orderly (records (inst w i)) ->
  is_externalPortConfigurationEnabled (defaultDS (glbs w)) = false ->
  let p := inst w i in
  let p' := inst (bmc_update_erbest_inst i w).2 i in
  let isq := is_qualified w in
  let usable := truth (link_up p) && negb (state p =? PPS_FAULTY) && negb (state p =? PPS_DISABLED) in
  (frgn_rec_best p' = -1 <-> usable = false \/ forall f, f ∈ records p -> isq f = false) /\
  (frgn_rec_best p' <> -1 ->
   records p' = records p /\
   exists f, records p !! Z.to_nat (frgn_rec_best p') = Some f /\ isq f = true /\
     activePeer p' = fm_peer_mac f /\ forall g, g ∈ records p -> bmc_dataset_cmp isq f g <= 0).
Proof.
  intros Hi Hok Ho Hepc p p' isq usable. pose proof (erbest_cases w i Hi Hok Ho Hepc) as Hc. cbn zeta in Hc.
  fold p in Hc. fold p' isq usable in Hc. destruct Hc as [[E Hn]|(Hu & Hb & Hr & f & Hf & Hq & Hrest)].
  - split; [|done]. split; [|done]. intros _. destruct usable; [right; auto|by left].
  - split; [|intros _; by eauto]. split; [lia|]. intros [Hu'|Hall]; [congruence|].
    apply list_elem_of_lookup_2 in Hf. rewrite (Hall _ Hf) in Hq. done.
Qed.

Lemma demo_port_orderly : orderly (records demo_port).
Proof.
  intros a b Ha Hb.
  assert (forall x, x ∈ records demo_port -> x = demo_frgn 3 5 \/ x = demo_frgn 2 1) as Hin.
  { intros x Hx%list_elem_of_In. vm_compute in Hx. destruct Hx as [<-|[<-|[]]]; [left|right]; by vm_compute. }
  destruct (Hin a Ha) as [->| ->], (Hin b Hb) as [->| ->]; unfold comparable; split_and!;
    vm_compute; intuition congruence.
Qed.

Lemma erbest_is_best_witness :
  let w := Demo.demo_world [demo_port] 0 in
  let p' := inst (@bmc_update_erbest_inst Demo.demo_config Demo.demo_platform 0 w).2 0 in
  exists f, records demo_port !! Z.to_nat (frgn_rec_best p') = Some f /\
    @is_qualified Demo.demo_config Demo.demo_platform w f = true.
Proof.
  intros w p'. destruct (@erbest_is_best Demo.demo_config Demo.demo_platform w 0 ltac:(cbn; lia)
    demo_port_ok demo_port_orderly eq_refl) as [_ Hbest].
  destruct Hbest as (_ & f & Hf & Hq & _); [by vm_compute|]. exists f. split; [exact Hf|exact Hq].
Defined.

(** Ebest is the port whose Erbest no other port's Erbest beats; -1 exactly if no port
    has an Erbest; and [ebest_updated] is raised when it changed. *)
Theorem ebest_is_best `{Config, Platform} (w : world) :
  let l := ports (defaultDS (glbs w)) in
  let w' := (bmc_update_ebest w).2 in
  tables_ok w -> (forall k, k ∈ l -> (k < length (insts w))%nat) ->
  (forall j k, j ∈ l -> k ∈ l -> has_erbest w j -> has_erbest w k -> comparable (erbest w j) (erbest w k)) ->
  ebest_choice w l (ebest_idx (glbs w')) /\ insts w' = insts w /\
  (ebest_idx (glbs w') <> ebest_idx (glbs w) -> ebest_updated (glbs w') = 1).
Proof.
  intros l w' Ht Hl Hc. unfold w', bmc_update_ebest, DSDEF. rewrite bind_rdG, bind_rdw. fold l.
  set (best := foldl (ebest_step w) (-1) l). cbn [wrG snd]. split_and!.
  - cbn. apply ebest_fold; [|done]. intros k Hk He. pose proof (tables_ok_inst w k Ht (Hl k Hk)) as [[_ _ Hb] _ _].
    unfold has_erbest in He. lia.
  - done.
  - cbn. destruct (Z.eqb_spec (ebest_idx (glbs w)) best); cbn; congruence.
Qed.

Lemma ebest_is_best_witness :
  let w := Demo.demo_world [Demo.demo_inst 0 PPS_LISTENING; demo_port] 0 in
  ebest_idx (glbs (@bmc_update_ebest Demo.demo_config Demo.demo_platform w).2) = 1.
Proof.
  intros w. pose proof (@ebest_is_best Demo.demo_config Demo.demo_platform w) as Hb.
  destruct Hb as ([[E Hn]|(b & E & Hb & He & _)] & _).
  - repeat constructor; try exact demo_port_ok; cbn; try lia.
    all: try (apply (bool_decide_unpack _); by vm_compute). all: constructor.
  - intros k Hk. vm_compute in Hk. apply list_elem_of_In in Hk. cbn in Hk. cbn. intuition lia.
  - intros j k Hj Hk Ej Ek. apply list_elem_of_In in Hj, Hk. vm_compute in Hj, Hk.
    destruct Hj as [<-|[<-|[]]], Hk as [<-|[<-|[]]]; try (exfalso; by apply Ej); try (exfalso; by apply Ek).
    vm_compute. intuition congruence.
  - exfalso. apply (Hn 1%nat); [apply list_elem_of_In; vm_compute; auto|]. vm_compute. congruence.
  - rewrite E. apply list_elem_of_In in Hb. vm_compute in Hb. destruct Hb as [<-|[<-|[]]]; [|done].
    exfalso. by apply He.
Defined.

(** A whole round of the algorithm (clock quality, aging, Erbest and Ebest of every port)
    and the flushing of a port's Erbest leave all foreign master tables well formed: sizes
    within the array, [frgn_rec_best] a record in use or -1, one record per source port. *)
Theorem bmc_round_keeps_tables `{Config, Platform} (w : world) (i : nat) :
  tables_ok w -> tables_ok (bmc_calculate_ebest w).2 /\ tables_ok (bmc_flush_erbest i w).2.
Proof. intros Ht. split; [by apply tables_calculate_ebest|by apply tables_flush_erbest]. Qed.

Lemma bmc_round_keeps_tables_witness :
  @tables_ok Demo.demo_config Demo.demo_platform
    (@bmc_calculate_ebest Demo.demo_config Demo.demo_platform (Demo.demo_world [demo_port] 9000)).2.
Proof.
  assert (@tables_ok Demo.demo_config Demo.demo_platform (Demo.demo_world [demo_port] 9000)) as Ht
    by (constructor; [exact demo_port_ok|constructor]).
  exact (proj1 (@bmc_round_keeps_tables Demo.demo_config Demo.demo_platform
    (Demo.demo_world [demo_port] 9000) 0 Ht)).
Defined.
