(* ===== verification/BmcDecision.v ===== *)
(** * The state decision

    Which states the decision algorithm of Bmc.v can recommend, and what the
    data sets hold afterwards (tables 13 and 16 of the standard). *)

From S2P Require Import Prelude TimeArith Types World Timeout Hooks Bytes Msg BmcCmp ClockQuality Bmc.

Section Decision.
Context `{Config, Platform} {HK : Hooks}.

(** ** The states each branch can return *)

Lemma slave_s1_val i e w : (slave_s1 i e w).1 = PPS_UNCALIBRATED \/ (slave_s1 i e w).1 = PPS_SLAVE.
Proof.
  unfold slave_s1. rewrite bind_rd, bind_rdG, bind_unfold.
  set (m := if port_idx (inst w i) =? ebest_idx (glbs w) then _ else _). destruct (m w) as [cmpres w1].
  cbn [fst snd]. rewrite bind_rd.
  destruct (Z.eqb_spec (state (inst w1 i)) PPS_SLAVE), (Z.eqb_spec (state (inst w1 i)) PPS_UNCALIBRATED);
    cbn [negb andb]; try destruct (cmpres =? 0); cbn [negb when]; rewrite ?bind_unfold; cbn; auto.
Qed.

Definition so_class (w : world) : Prop := clockClass (def_clockQuality (defaultDS (glbs w))) = PP_CLASS_SLAVE_ONLY.

Lemma entering_val i st w : (entering i st w).1 = st.
Proof. unfold entering. rewrite bind_rd, bind_unfold. done. Qed.

Lemma master_m_val i m q w :
  (so_class w -> (master_m i m q w).1 = PPS_LISTENING) /\
  (~ so_class w -> (master_m i m q w).1 = PPS_PRE_MASTER \/ (master_m i m q w).1 = PPS_MASTER).
Proof.
  unfold master_m, slave_only_class, DSDEF, so_class. rewrite bind_unfold, bind_rdG. cbn [mret M_ret fst snd].
  destruct (Z.eqb_spec (clockClass (def_clockQuality (defaultDS (glbs w)))) PP_CLASS_SLAVE_ONLY);
    (split; [|]); intros; try done; [apply entering_val|].
  rewrite bind_unfold, bind_rd. set (w1 := (m w).2).
  destruct (Z.eqb_spec (state (inst w1 i)) PPS_MASTER), (Z.eqb_spec (state (inst w1 i)) PPS_PRE_MASTER);
    cbn [negb andb]; rewrite ?bind_unfold; cbn; auto.
Qed.

Lemma passive_p_val i m w :
  (so_class w -> (passive_p i m w).1 = PPS_LISTENING) /\ (~ so_class w -> (passive_p i m w).1 = PPS_PASSIVE).
Proof.
  unfold passive_p, slave_only_class, DSDEF, so_class. rewrite bind_unfold, bind_rdG. cbn [mret M_ret fst snd].
  destruct (Z.eqb_spec (clockClass (def_clockQuality (defaultDS (glbs w)))) PP_CLASS_SLAVE_ONLY);
    (split; [|]); intros; try done; [apply entering_val|].
  rewrite bind_rd, !bind_unfold. done.
Qed.

(** The recommended states that are not a slave's. *)
Definition master_side (w : world) (st : Z) : Prop :=
  (so_class w -> st = PPS_LISTENING) /\
  (~ so_class w -> st = PPS_PRE_MASTER \/ st = PPS_MASTER).
Definition passive_side (w : world) (st : Z) : Prop :=
  (so_class w -> st = PPS_LISTENING) /\ (~ so_class w -> st = PPS_PASSIVE).
Definition slave_side (st : Z) : Prop := st = PPS_UNCALIBRATED \/ st = PPS_SLAVE.

Lemma check_boundary_val i b e r w :
  let st := (check_boundary_clk i b e r w).1 in
  (slave_side st /\ port_idx (inst w i) = ebest_idx (glbs w)) \/
  master_side w st \/ passive_side w st \/ st = PPS_FAULTY.
Proof.
  cbn zeta. unfold check_boundary_clk. rewrite bind_rd, bind_rdG.
  destruct (Z.eqb_spec (port_idx (inst w i)) (ebest_idx (glbs w))) as [E|E].
  { left. split; [apply slave_s1_val|done]. }
  right. rewrite bind_rdw. destruct (_ <? 0); [left; apply master_m_val|].
  rewrite bind_rdw. destruct (_ <? 0); [right; left; apply passive_p_val|].
  destruct (0 <? _); [left; apply master_m_val|auto].
Qed.

Lemma decide_by_dataset_val i d e r w :
  let st := (decide_by_dataset i d e r w).1 in
  (slave_side st /\ (port_idx (inst w i) = ebest_idx (glbs w) \/ get_numberPorts (defaultDS (glbs w)) = 1)) \/
  master_side w st \/ passive_side w st \/ st = PPS_FAULTY.
Proof.
  cbn zeta. unfold decide_by_dataset, DSDEF. rewrite bind_rdw, bind_rdG.
  destruct (_ <? 128).
  { rewrite bind_rdw. destruct (_ <? 0); [right; left; apply master_m_val|].
    destruct (0 <? _); [right; right; left; apply passive_p_val|auto]. }
  rewrite bind_rdw. destruct (_ <? 0); [right; left; apply master_m_val|].
  destruct (0 <? _); [|auto].
  destruct (Z.eqb_spec (get_numberPorts (defaultDS (glbs w))) 1).
  { left. split; [apply slave_s1_val|auto]. }
  destruct (check_boundary_val i e (deref e w) r w) as [[? ?]|]; auto.
Qed.

(** Figure 26, by the outcomes it allows. *)
Inductive decision (w : world) (i : nat) : Z -> Prop :=
  | dec_keep : state (inst w i) = PPS_FAULTY \/ state (inst w i) = PPS_INITIALIZING ->
      decision w i (state (inst w i))
  | dec_listen : is_slaveOnly (defaultDS (glbs w)) = true \/ frgn_rec_best (inst w i) = -1 ->
      decision w i PPS_LISTENING
  | dec_slave st : slave_side st -> frgn_rec_best (inst w i) <> -1 \/ 0 <= ebest_idx (glbs w) ->
      port_idx (inst w i) = ebest_idx (glbs w) \/ get_numberPorts (defaultDS (glbs w)) = 1 ->
      is_slaveOnly (defaultDS (glbs w)) = true \/ is_masterOnly (portDS (inst w i)) = false ->
      decision w i st
  | dec_master st : master_side w st -> is_slaveOnly (defaultDS (glbs w)) = false -> decision w i st
  | dec_passive st : passive_side w st -> is_slaveOnly (defaultDS (glbs w)) = false ->
      is_masterOnly (portDS (inst w i)) = false -> decision w i st
  | dec_faulty : is_slaveOnly (defaultDS (glbs w)) = false ->
      is_masterOnly (portDS (inst w i)) = false -> decision w i PPS_FAULTY.

Lemma state_decision_sound i w : decision w i (bmc_state_decision i w).1.
Proof.
  unfold bmc_state_decision, DSDEF. rewrite bind_rd_id. cbn zeta.
  destruct (Z.eqb_spec (state (inst w i)) PPS_FAULTY); [apply dec_keep; auto|].
  destruct (Z.eqb_spec (state (inst w i)) PPS_INITIALIZING); [apply dec_keep; auto|]. cbn [orb].
  rewrite !bind_rdG. destruct (is_slaveOnly (defaultDS (glbs w))) eqn:So.
  { destruct (Z.eqb_spec (frgn_rec_best (inst w i)) (-1)); cbn [negb]; [apply dec_listen; auto|].
    destruct (Z.eqb_spec (port_idx (inst w i)) (ebest_idx (glbs w))); [|apply dec_listen; auto].
    apply dec_slave; [apply slave_s1_val|auto..]. }
  destruct (Z.eqb_spec (frgn_rec_best (inst w i)) (-1)) as [Hb|Hb]; cbn [negb andb].
  1: destruct (Z.eqb_spec (state (inst w i)) PPS_LISTENING); [apply dec_listen; auto|].
  all: rewrite bind_rdw; destruct (is_masterOnly (portDS (inst w i))) eqn:Mo;
    [destruct (0 <=? _); (apply dec_master; [apply master_m_val|done])|];
    destruct (_ || _); cbn [negb]; [by apply dec_faulty|];
    destruct (Z.leb_spec 0 (ebest_idx (glbs w))); [|apply dec_master; [apply master_m_val|done]];
    rewrite bind_rd_id;
    (edestruct decide_by_dataset_val as [[Hs Hp]|[Hm|[Hp|Hf]]];
      [eapply dec_slave; [exact Hs|auto..]|by apply dec_master|by apply dec_passive|
       rewrite Hf; by apply dec_faulty]).
Qed.

Lemma decision_slave_port w i st : decision w i st -> slave_side st ->
  port_idx (inst w i) = ebest_idx (glbs w) \/ get_numberPorts (defaultDS (glbs w)) = 1.
Proof.
  assert (so_class w \/ ~ so_class w) as Hdec by (unfold so_class; lia).
  unfold slave_side. intros [[E|E]|Hl|st' Hs Hv Hp Hm|st' [Hm1 Hm2] So|st' [Hp1 Hp2] So Mo|So Mo] Hst;
    [rewrite E in Hst; by destruct Hst..|by destruct Hst|done| | |by destruct Hst].
  - destruct Hdec as [Hc|Hc]; [rewrite (Hm1 Hc) in Hst; by destruct Hst|].
    destruct (Hm2 Hc) as [E|E]; rewrite E in Hst; by destruct Hst.
  - destruct Hdec as [Hc|Hc]; [rewrite (Hp1 Hc) in Hst|rewrite (Hp2 Hc) in Hst]; by destruct Hst.
Qed.

End Decision.

(** ** What the updates leave alone *)

Section Frame.
Context `{Config, Platform} {HK : Hooks}.
Context {K G : Type} (c : pp_instance -> K) (g : pp_globals -> G).
Hypothesis c_tmo : forall p h, c (p <| tmo_cfg ::= h |>) = c p.
Hypothesis c_srv : forall p h, c (p <| servo ::= h |>) = c p.
Hypothesis g_cur : forall x h, g (x <| currentDS ::= h |>) = g x.
Hypothesis g_par : forall x h, g (x <| parentDS ::= h |>) = g x.
Hypothesis g_pro : forall x h, g (x <| timePropertiesDS ::= h |>) = g x.
Hypothesis s1_quiet : forall e h i f, hk_bmca_s1 (hooks_of e) = Some h -> guar (same_view c g) (h i f).

Lemma view_setPRO h : guar (same_view c g) (setPRO h).
Proof. apply guar_view_wrG. intros. apply g_pro. Qed.
Lemma view_setPAR h : guar (same_view c g) (setPAR h).
Proof. apply guar_view_wrG. intros. apply g_par. Qed.
Lemma view_setCUR' h : guar (same_view c g) (setCUR h).
Proof. apply guar_view_wrG. intros. apply g_cur. Qed.
Lemma view_setSRV' i h : guar (same_view c g) (setSRV i h).
Proof. apply guar_view_wr. intros. apply c_srv. Qed.
Hint Resolve view_setPRO view_setPAR view_setCUR' view_setSRV' : guar.

Lemma view_gtimeout_disable k : guar (same_view c g) (pp_gtimeout_disable k).
Proof. unfold pp_gtimeout_disable, pp_timeout_disable. by apply view_timeout_set. Qed.
Lemma view_timeout_reset i k : guar (same_view c g) (pp_timeout_reset i k).
Proof. by apply view_timeout_reset_N. Qed.
Hint Resolve view_gtimeout_disable view_timeout_reset view_timeout_reset_N view_timeout_init
  view_timeout_set view_timeout : guar.

Lemma view_bmc_m1 i : guar (same_view c g) (bmc_m1 i).
Proof. unfold bmc_m1. walk. Qed.
Hint Resolve view_bmc_m1 : guar.
Lemma view_bmc_m2 i : guar (same_view c g) (bmc_m2 i).
Proof.
  unfold bmc_m2, pp_gtimeout_is_disabled, pp_timeout_is_disabled, pp_timeout_get, pp_get_counter,
    pp_gtimeout_set, pp_gtimeout. walk.
Qed.
Lemma view_bmc_m3 i : guar (same_view c g) (bmc_m3 i).
Proof. unfold bmc_m3. walk. Qed.
Lemma view_bmc_s1 i f : guar (same_view c g) (bmc_s1 i f).
Proof.
  unfold bmc_s1, s1_before_midnight, s1_after_midnight. walk.
  apply guar_if_hook; [apply _| |walk]. intros h e He. walk.
Qed.
Hint Resolve view_bmc_m2 view_bmc_m3 view_bmc_s1 : guar.

Lemma view_entering i st : guar (same_view c g) (entering i st).
Proof. unfold entering. walk. Qed.
Hint Resolve view_entering : guar.
Lemma view_master_m i m q : guar (same_view c g) m -> guar (same_view c g) q ->
  guar (same_view c g) (master_m i m q).
Proof. intros. unfold master_m, slave_only_class. walk. Qed.
Lemma view_passive_p1 i : guar (same_view c g) (passive_p1 i).
Proof. unfold passive_p1, bmc_p1, passive_p, slave_only_class. walk. Qed.
Lemma view_passive_p2 i : guar (same_view c g) (passive_p2 i).
Proof. unfold passive_p2, bmc_p2, passive_p, slave_only_class. walk. Qed.
Lemma view_master_m1 i : guar (same_view c g) (master_m1 i).
Proof. apply view_master_m; walk. Qed.
Lemma view_master_m2 i : guar (same_view c g) (master_m2 i).
Proof. apply view_master_m; walk. Qed.
Lemma view_master_m3 i : guar (same_view c g) (master_m3 i).
Proof. apply view_master_m; walk. Qed.
Lemma view_slave_s1 i e : guar (same_view c g) (slave_s1 i e).
Proof. unfold slave_s1. walk. Qed.
Hint Resolve view_master_m1 view_master_m2 view_master_m3 view_passive_p1 view_passive_p2 view_slave_s1 : guar.

Lemma view_state_decision i : guar (same_view c g) (bmc_state_decision i).
Proof. unfold bmc_state_decision, decide_by_dataset, check_boundary_clk. walk. Qed.
Hint Resolve view_state_decision : guar.

Lemma view_apply_state_descision i :
  (forall e h i s, hk_state_decision (hooks_of e) = Some h -> guar (same_view c g) (h i s)) ->
  guar (same_view c g) (bmc_apply_state_descision i).
Proof.
  intros Hq. unfold bmc_apply_state_descision, bmc_state_descision_epc, bmc_check_frgn_master, bmc_p1. walk.
  apply guar_if_hook; [apply _| |walk]. intros h e He. walk.
Qed.

End Frame.

(** ** Data sets *)

Section DataSets.
Context `{Config, Platform} {HK : Hooks}.

(** Current and parent data set, which the rest of an update does not touch. *)
Definition cur_par (x : pp_globals) := (currentDS x, parentDS x).

Lemma bmc_m1_cur_par i w :
  let g := glbs w in let def := defaultDS g in
  cur_par (glbs (bmc_m1 i w).2) =
  (mk_currentDS 0 0 0,
   mk_parentDS (mk_pid (def_clockIdentity def) 0) 0 0 (def_clockIdentity def)
     (def_clockQuality def) (def_priority1 def) (def_priority2 def) 0).
Proof.
  cbn zeta. unfold bmc_m1, setCUR, setSRV, DSDEF, setPAR at 1. rewrite bind_unfold, bind_wr, bind_rdG, bind_unfold.
  match goal with |- context [(?m ≫= ?k) ?x] =>
    assert (guar (same_view (fun _ => tt) cur_par) (m ≫= k)) as Hg by (unfold DSPRO, setPRO; walk);
    destruct (same_view_parts _ _ _ _ (Hg x)) as (_ & -> & _)
  end.
  reflexivity.
Qed.

Lemma bmc_s1_cur_par i r w :
  (forall e h i f, hk_bmca_s1 (hooks_of e) = Some h -> guar (same_view (fun _ => tt) cur_par) (h i f)) ->
  let par := parentDS (glbs w) in
  let f := deref r w in
  cur_par (glbs (bmc_s1 i r w).2) =
  ((currentDS (glbs w)) <| cur_stepsRemoved := u16 (fm_stepsRemoved f + 1) |>,
   mk_parentDS (fm_sourcePortIdentity f) (par_observedParentOffsetScaledLogVariance par)
     (par_observedParentClockPhaseChangeRate par) (fm_grandmasterIdentity f) (fm_grandmasterClockQuality f)
     (fm_grandmasterPriority1 f) (fm_grandmasterPriority2 f)
     (of_bool (negb (bmc_pidcmp (par_parentPortIdentity par) (fm_sourcePortIdentity f) =? 0)))).
Proof.
  intros Hq. cbn zeta. unfold bmc_s1, setCUR, setPAR. rewrite bind_rdw, bind_unfold, bind_unfold.
  match goal with |- context [(?m ≫= ?k) ?x] =>
    assert (guar (same_view (fun _ => tt) cur_par) (m ≫= k)) as Hg;
    [|destruct (same_view_parts _ _ _ _ (Hg x)) as (_ & -> & _); reflexivity]
  end.
  unfold s1_before_midnight, s1_after_midnight, setPRO. walk.
  - unfold pp_gtimeout_disable, pp_timeout_disable. by apply view_timeout_set.
  - apply guar_if_hook; [apply _| |walk]. intros h e He. walk.
Qed.

(** The last assignment of the time properties is what remains of them. *)
Lemma bmc_s1_props i r w :
  (forall e h i f, hk_bmca_s1 (hooks_of e) = Some h -> guar (same_view (fun _ => tt) timePropertiesDS) (h i f)) ->
  let f := deref r w in
  let p := timePropertiesDS (glbs (bmc_s1 i r w).2) in
  (currentUtcOffsetValid p, timeTraceable p, frequencyTraceable p, ptpTimescale p, timeSource p) =
  (flag1 f FFB_UTCV, flag1 f FFB_TTRA, flag1 f FFB_FTRA, flag1 f FFB_PTP, fm_timeSource f).
Proof.
  intros Hq. cbn zeta. unfold bmc_s1. rewrite bind_rdw. do 5 rewrite bind_unfold.
  match goal with |- context [(pp_gtimeout_disable ?n ≫= ?k) ?x] =>
    assert (guar (same_view (fun _ => tt) timePropertiesDS) (pp_gtimeout_disable n ≫= k)) as Hg;
    [|destruct (same_view_parts _ _ _ _ (Hg x)) as (_ & -> & _); reflexivity]
  end.
  walk.
  - unfold pp_gtimeout_disable, pp_timeout_disable. by apply view_timeout_set.
  - apply guar_if_hook; [apply _| |walk]. intros h e He. walk.
Qed.

End DataSets.

(** ** No shortcut to MASTER or SLAVE *)

Section NoJump.
Context `{Config, Platform} {HK : Hooks}.
Abbreviation state_view := (same_view state (fun _ => tt)).
Hypothesis s1_quiet : forall e h i f, hk_bmca_s1 (hooks_of e) = Some h -> guar state_view (h i f).

Definition no_jump (w : world) (i : nat) (st : Z) : Prop :=
  (st = PPS_MASTER -> state (inst w i) = PPS_MASTER) /\ (st = PPS_SLAVE -> state (inst w i) = PPS_SLAVE).

Lemma no_jump_master i m q w : (i < length (insts w))%nat -> guar state_view m ->
  no_jump w i (master_m i m q w).1.
Proof.
  intros Hi Hm. unfold master_m, slave_only_class, DSDEF. rewrite bind_unfold, bind_rdG.
  cbn [mret M_ret fst snd]. destruct (_ =? _); [rewrite entering_val; by split|].
  rewrite bind_unfold, bind_rd. destruct (same_view_inst _ _ _ _ i (Hm w) Hi) as [Es _]. rewrite Es.
  destruct (Z.eqb_spec (state (inst w i)) PPS_MASTER) as [E|E].
  { rewrite E. by split. }
  destruct (Z.eqb_spec (state (inst w i)) PPS_PRE_MASTER) as [E'|E']; cbn [negb andb].
  - rewrite E'. by split.
  - rewrite bind_unfold. by split.
Qed.

Lemma no_jump_passive i m w : no_jump w i (passive_p i m w).1.
Proof.
  destruct (passive_p_val i m w) as [H1 H2]. unfold so_class in *.
  destruct (decide (clockClass (def_clockQuality (defaultDS (glbs w))) = PP_CLASS_SLAVE_ONLY)) as [E|E];
    [rewrite H1 by done|rewrite H2 by done]; by split.
Qed.

Lemma no_jump_slave i e w : (i < length (insts w))%nat -> no_jump w i (slave_s1 i e w).1.
Proof.
  intros Hi. unfold slave_s1. rewrite bind_rd, bind_rdG, bind_unfold.
  set (m := if port_idx (inst w i) =? ebest_idx (glbs w) then _ else _).
  assert (guar state_view m) as Hm.
  { unfold m. walk. apply view_bmc_s1; done. }
  destruct (same_view_inst _ _ _ _ i (Hm w) Hi) as [Es _]. destruct (m w) as [cmpres w1]. cbn [fst snd] in *.
  rewrite bind_rd, Es.
  destruct (Z.eqb_spec (state (inst w i)) PPS_SLAVE) as [E|E];
    [|destruct (Z.eqb_spec (state (inst w i)) PPS_UNCALIBRATED) as [E'|E']]; cbn [negb andb];
    try destruct (cmpres =? 0); cbn [negb when]; rewrite ?bind_unfold; cbn [fst mret M_ret]; by split.
Qed.

Lemma no_jump_const w i st : st <> PPS_MASTER -> st <> PPS_SLAVE -> no_jump w i st.
Proof. by split. Qed.

Lemma decision_no_jump i w : (i < length (insts w))%nat -> no_jump w i (bmc_state_decision i w).1.
Proof.
  intros Hi.
  assert (forall st, st = PPS_LISTENING \/ st = PPS_FAULTY -> no_jump w i st) as Hc
    by (intros st [->| ->]; by apply no_jump_const).
  assert (no_jump w i (master_m1 i w).1 /\ no_jump w i (master_m2 i w).1 /\ no_jump w i (master_m3 i w).1)
    as (M1 & M2 & M3).
  { split_and!; (apply no_jump_master; [done|]);
      [by apply view_bmc_m1|by apply view_bmc_m2|by apply view_bmc_m3]. }
  assert (no_jump w i (passive_p1 i w).1 /\ no_jump w i (passive_p2 i w).1) as [P1 P2]
    by (split; apply no_jump_passive).
  assert (forall e, no_jump w i (slave_s1 i e w).1) as S1 by (intros; by apply no_jump_slave).
  unfold bmc_state_decision, decide_by_dataset, check_boundary_clk, DSDEF. rewrite bind_rd_id. cbn zeta.
  destruct ((state (inst w i) =? PPS_FAULTY) || _); [by split|].
  repeat first [rewrite bind_rdG | rewrite bind_rdw | rewrite bind_rd_id | rewrite bind_rd
    | progress cbn zeta | progress cbn [mret M_ret fst]
    | match goal with |- no_jump _ _ ((if ?b then _ else _) _).1 => destruct b end]; auto.
Qed.

End NoJump.

(** A recommended state is one of the machine's. *)
Lemma decision_valid `{Config, Platform} {HK : Hooks} i w :
  PPS_INITIALIZING <= (bmc_state_decision i w).1 <= PPS_SLAVE.
Proof.
  pose proof (state_decision_sound i w) as Hd. revert Hd. generalize (bmc_state_decision i w).1. intros st Hd.
  destruct Hd as [[E|E]|Hl|st Hs Hv Hp Hm|st [Hm1 Hm2] So|st [Hp1 Hp2] So Mo|So Mo];
    assert (so_class w \/ ~ so_class w) as Hdec by (unfold so_class; lia);
    unfold slave_side, so_class, PPS_FAULTY, PPS_INITIALIZING, PPS_LISTENING, PPS_PASSIVE, PPS_PRE_MASTER,
      PPS_MASTER, PPS_UNCALIBRATED, PPS_SLAVE in *; try lia; intuition lia.
Qed.

(** ** Theorems *)

(** C6. What the state decision can recommend. A slave state only on the port of Ebest (or the
    only port). A slave-only device listens or is a slave, but a port of it that is faulty or
    initializing may keep that state. A master-only port of a device that is not slave-only is
    neither passive nor a slave (the two settings do not exclude each other, and then slave-only
    has priority). A clock of class 255 is never a master or passive. And a recommended state is
    always one of the state machine's. *)
Theorem state_decision_allowed `{Config, Platform} {HK : Hooks} (w : world) (i : nat) :
  let p := inst w i in
  let def := defaultDS (glbs w) in
  let st := (bmc_state_decision i w).1 in
  let keeps := state p = PPS_FAULTY \/ state p = PPS_INITIALIZING in
  (slave_side st -> port_idx p = ebest_idx (glbs w) \/ get_numberPorts def = 1) /\
  (is_slaveOnly def = true -> (keeps /\ st = state p) \/ st = PPS_LISTENING \/ slave_side st) /\
  (is_slaveOnly def = false -> is_masterOnly (portDS p) = true -> ~ slave_side st /\ st <> PPS_PASSIVE) /\
  (so_class w -> st <> PPS_PRE_MASTER /\ st <> PPS_MASTER /\ st <> PPS_PASSIVE) /\
  PPS_INITIALIZING <= st <= PPS_SLAVE.
Proof.
  cbn zeta. pose proof (state_decision_sound i w) as Hd. revert Hd.
  generalize (bmc_state_decision i w).1. intros st Hd.
  assert (so_class w \/ ~ so_class w) as Hdec by (unfold so_class; lia).
  unfold slave_side, so_class, PPS_FAULTY, PPS_INITIALIZING, PPS_LISTENING, PPS_PASSIVE, PPS_PRE_MASTER,
    PPS_MASTER, PPS_UNCALIBRATED, PPS_SLAVE in *.
  destruct Hd as [[E|E]|Hl|st Hs Hv Hp Hm|st [Hm1 Hm2] So|st [Hp1 Hp2] So Mo|So Mo];
    unfold slave_side, so_class, PPS_FAULTY, PPS_INITIALIZING, PPS_LISTENING, PPS_PASSIVE, PPS_PRE_MASTER,
      PPS_MASTER, PPS_UNCALIBRATED, PPS_SLAVE in *;
    destruct Hdec as [Hc|Hc];
    try (specialize (Hm1 Hc)); try (specialize (Hm2 Hc)); try (specialize (Hp1 Hc)); try (specialize (Hp2 Hc));
    split_and!; intros; try lia; try congruence; intuition (congruence || lia).
Qed.

(** C5. Between two calculations of Ebest, at most one port of a clock with several ports is
    recommended a slave state, whatever happens in between to the other data. *)
Theorem at_most_one_slave `{Config, Platform} {HK : Hooks} (w w' : world) (i j : nat) :
  ebest_idx (glbs w') = ebest_idx (glbs w) ->
  port_idx (inst w i) = Z.of_nat i -> port_idx (inst w' j) = Z.of_nat j ->
  1 < get_numberPorts (defaultDS (glbs w)) -> 1 < get_numberPorts (defaultDS (glbs w')) ->
  slave_side (bmc_state_decision i w).1 -> slave_side (bmc_state_decision j w').1 -> i = j.
Proof.
  intros He Hi Hj Hn Hn' Si Sj.
  destruct (decision_slave_port w i _ (state_decision_sound i w) Si),
    (decision_slave_port w' j _ (state_decision_sound j w') Sj); lia.
Qed.

Definition demo_slave_world : @world Demo.demo_platform :=
  (Demo.demo_world [Demo.demo_inst 0 PPS_LISTENING;
    (Demo.demo_inst 1 PPS_LISTENING) <| frgn_rec_num := 1 |> <| frgn_rec_best := 0 |>
      <| frgn_master := [demo_frgn 2 1; empty_frgn; empty_frgn; empty_frgn] |>] 0)
    <| glbs ::= fun g => g <| ebest_idx := 1 |> |>.

(** The port of Ebest is recommended a slave state; and a master-only port is not, though it has the Ebest. *)
Lemma state_decision_allowed_witness :
  let w := demo_slave_world in
  let w1 := set_inst w 1 (fun p => p <| portDS ::= fun d => d <| masterOnly := 1 |> |>) in
  (slave_side (@bmc_state_decision Demo.demo_config Demo.demo_platform demo_hooks 1 w).1 /\
   (port_idx (inst w 1) = ebest_idx (glbs w) \/ @get_numberPorts Demo.demo_config (defaultDS (glbs w)) = 1)) /\
  (@is_masterOnly Demo.demo_config (portDS (inst w1 1)) = true /\
   ~ slave_side (@bmc_state_decision Demo.demo_config Demo.demo_platform demo_hooks 1 w1).1).
Proof.
  intros w w1.
  assert (slave_side (@bmc_state_decision Demo.demo_config Demo.demo_platform demo_hooks 1 w).1)
    as Hs by (left; by vm_compute).
  split; split; [exact Hs| |by vm_compute|].
  - by apply (@state_decision_allowed Demo.demo_config Demo.demo_platform demo_hooks w 1).
  - apply (@state_decision_allowed Demo.demo_config Demo.demo_platform demo_hooks w1 1); by vm_compute.
Defined.

Lemma at_most_one_slave_witness :
  @slave_side (@bmc_state_decision Demo.demo_config Demo.demo_platform demo_hooks 1 demo_slave_world).1 /\
  1%nat = 1%nat.
Proof.
  assert (slave_side (@bmc_state_decision Demo.demo_config Demo.demo_platform demo_hooks 1 demo_slave_world).1)
    as Hs by (left; by vm_compute).
  split; [exact Hs|].
  apply (@at_most_one_slave Demo.demo_config Demo.demo_platform demo_hooks demo_slave_world demo_slave_world);
    [done..|exact Hs|exact Hs].
Defined.

(** Becoming a grandmaster (decisions M1 and M2) makes the clock its own parent: zero
    steps removed, its own identity and quality announced. Becoming a slave (S1) makes the
    sender of the chosen Announce the parent, its grandmaster the grandmaster, adds one to
    its steps removed, takes its time properties flags, and marks a change of parent. *)
Theorem m1_s1_data_sets `{Config, Platform} {HK : Hooks} (w : world) (i : nat) (r : frgn_ref) :
  (forall e h i f, hk_bmca_s1 (hooks_of e) = Some h -> guar (same_view (fun _ => tt) id) (h i f)) ->
  let def := defaultDS (glbs w) in
  let m := glbs (bmc_m1 i w).2 in
  let f := deref r w in
  let s := glbs (bmc_s1 i r w).2 in
  (currentDS m = mk_currentDS 0 0 0 /\
   parentDS m = mk_parentDS (mk_pid (def_clockIdentity def) 0) 0 0 (def_clockIdentity def)
     (def_clockQuality def) (def_priority1 def) (def_priority2 def) 0) /\
  (cur_stepsRemoved (currentDS s) = u16 (fm_stepsRemoved f + 1) /\
   par_parentPortIdentity (parentDS s) = fm_sourcePortIdentity f /\
   par_grandmasterIdentity (parentDS s) = fm_grandmasterIdentity f /\
   par_grandmasterClockQuality (parentDS s) = fm_grandmasterClockQuality f /\
   par_grandmasterPriority1 (parentDS s) = fm_grandmasterPriority1 f /\
   par_grandmasterPriority2 (parentDS s) = fm_grandmasterPriority2 f /\
   (wf_pid (par_parentPortIdentity (parentDS (glbs w))) -> wf_pid (fm_sourcePortIdentity f) ->
    par_newGrandmaster (parentDS s) = 0 <->
    par_parentPortIdentity (parentDS (glbs w)) = fm_sourcePortIdentity f)) /\
  (let p := timePropertiesDS s in
   (currentUtcOffsetValid p, timeTraceable p, frequencyTraceable p, ptpTimescale p, timeSource p) =
   (flag1 f FFB_UTCV, flag1 f FFB_TTRA, flag1 f FFB_FTRA, flag1 f FFB_PTP, fm_timeSource f)).
Proof.
  intros Hq. cbn zeta.
  assert (forall T (v : pp_globals -> T) e h i f, hk_bmca_s1 (hooks_of e) = Some h ->
    guar (same_view (fun _ => tt) v) (h i f)) as Hv.
  { intros T v e h j f' Hh w0. specialize (Hq e h j f' Hh w0). unfold same_view, view in *.
    destruct (same_view_parts (fun _ => tt) id _ _ Hq) as (_ & Eg & Ea). unfold id in Eg.
    rewrite Eg, Ea. f_equal. f_equal. exact (f_equal (fun v => v.1.1) Hq). }
  pose proof (bmc_m1_cur_par i w) as Hm. pose proof (bmc_s1_cur_par i r w (Hv _ _)) as Hs. unfold cur_par in Hm, Hs.
  injection Hm as -> ->. injection Hs as -> ->. split; [done|]. split; [|exact (bmc_s1_props i r w (Hv _ _))].
  split_and!; [done..|]. intros W1 W2. cbn [par_newGrandmaster].
  rewrite <- (pidcmp_eq _ _ W1 W2). destruct (Z.eqb_spec (bmc_pidcmp (par_parentPortIdentity (parentDS (glbs w)))
    (fm_sourcePortIdentity (deref r w))) 0); cbn; split; (done || lia).
Qed.

Lemma m1_s1_data_sets_witness :
  par_parentPortIdentity (parentDS (glbs (@bmc_s1 Demo.demo_config Demo.demo_platform demo_hooks 1
    (1%nat, 0) demo_slave_world).2)) = fm_sourcePortIdentity (demo_frgn 2 1).
Proof.
  destruct (@m1_s1_data_sets Demo.demo_config Demo.demo_platform demo_hooks demo_slave_world 1
    (1%nat, 0)) as (_ & (_ & Hp & _) & _); [intros ? ? ? ? Hh; discriminate Hh|exact Hp].
Defined.

(** The decision never moves a port straight to MASTER or to SLAVE: it returns these
    states only for a port that is in them, so every new master passes PRE_MASTER (and its
    qualification timeout) and every new slave passes UNCALIBRATED. *)
Theorem decision_never_jumps `{Config, Platform} {HK : Hooks} (w : world) (i : nat) :
  (i < length (insts w))%nat ->
  (forall e h i f, hk_bmca_s1 (hooks_of e) = Some h -> guar (same_view state (fun _ => tt)) (h i f)) ->
  let st := (bmc_state_decision i w).1 in
  (st = PPS_MASTER -> state (inst w i) = PPS_MASTER) /\
  (st = PPS_SLAVE -> state (inst w i) = PPS_SLAVE).
Proof. intros Hi Hq. by apply decision_no_jump. Qed.

Lemma decision_never_jumps_witness :
  (@bmc_state_decision Demo.demo_config Demo.demo_platform demo_hooks 1 demo_slave_world).1 <> PPS_SLAVE.
Proof.
  intros Hs. destruct (@decision_never_jumps Demo.demo_config Demo.demo_platform demo_hooks demo_slave_world 1)
    as [_ Hj]; [cbn; lia|intros ? ? ? ? Hh; discriminate Hh|]. specialize (Hj Hs). vm_compute in Hj. discriminate.
Defined.
