(* ===== verification/Common.v ===== *)
(** * Functions shared by the states
    (proto-standard/common-fun.c, common-fun-p2p.c, fsm-lib.c)

    Announce receipt timeout, periodic transmission, and the peer delay
    messages, which every state handles alike. *)

From S2P Require Import Prelude TimeArith Types World Timeout Hooks Bytes Msg FixedPoint Servo.
From S2P Require Import BmcCmp ClockQuality Bmc.

Definition INT_MAX : Z := 2147483647.

Definition ETH_HLEN : Z := 14.
(** [sizeof(struct pp_vlanhdr)] *)
Definition VLAN_HLEN : Z := 18.

Section Common.
Context `{Config, Platform} {HK : Hooks}.

(** A message handler: instance, received bytes ([buf] is [NULL]: none), length. *)
Definition pp_action : Type := nat -> list Z -> Z -> M Z.

(** ** common-fun.c *)

(** The offsets; the buffers are modelled by their payload. *)
Definition pp_prepare_pointers (i : nat) : M unit :=
  pr ← rd i proto;
  if pr =? PPSI_PROTO_RAW then
    let off := if CONFIG_ARCH_IS_WRPC then 0 else ETH_HLEN in
    wr i (fun p => p <| tx_offset := off |> <| rx_offset := off |>)
  else if pr =? PPSI_PROTO_VLAN then
    wr i (fun p => p <| tx_offset := VLAN_HLEN |> <| rx_offset := ETH_HLEN |>)
  else when (pr =? PPSI_PROTO_UDP) (wr i (fun p => p <| tx_offset := 0 |> <| rx_offset := 0 |>)).

Definition is_grand_master : M bool :=
  def ← DSDEF;
  rdw (fun w =>
    let st k := state (inst w k) in
    let has_slave := existsb (fun k => (st k =? PPS_UNCALIBRATED) || (st k =? PPS_SLAVE)) (ports def) in
    let has_master := existsb (fun k => (st k =? PPS_MASTER) || (st k =? PPS_PRE_MASTER) ||
                                        (st k =? PPS_PASSIVE)) (ports def) in
    has_master && negb has_slave).

Definition st_com_check_announce_receive_timeout (i : nat) : M unit :=
  def ← DSDEF;
  c_assert (negb (is_externalPortConfigurationEnabled def));;
  expired ← pp_timeout i PP_TO_ANN_RECEIPT;
  when expired
    (pp_timeout_reset i PP_TO_ANN_RECEIPT;;
     (if negb (is_slaveOnly def) then
        gm ← is_grand_master;
        (if gm : bool then bmc_m1 i else bmc_m3 i);;
        wr i (fun p => p <| next_state := PPS_MASTER |>)
      else wr i (fun p => p <| next_state := PPS_LISTENING |>));;
     bmc_flush_erbest i).

Definition st_com_handle_announce : pp_action := fun i buf len =>
  if_hook i hk_handle_announce (fun h => h i) (mret 0).

Definition st_com_handle_signaling : pp_action := fun i buf len =>
  if_hook i hk_handle_signaling (fun h => h i buf len) (mret 0).

(** ** fsm-lib.c *)

Definition pp_lib_may_issue_sync (i : nat) : M Z :=
  t ← pp_timeout i PP_TO_SYNC_SEND;
  if negb t then mret 0
  else
    pp_timeout_reset i PP_TO_SYNC_SEND;;
    pp_vlan_issue_sync_followup i.

(** The offset and leap flags just after midnight. *)
Definition refresh_utc (i : nat) : M unit :=
  prop ← DSPRO;
  when (truth (ptpTimescale prop))
    (r ← op (t_get_utc_time i);
     match r with
     | None => mret tt
     | Some (hours, minutes, seconds) =>
         port ← DSPOR i;
         when ((hours =? 0) && (minutes =? 0) &&
               (seconds <=? 0 + 2 * Z.shiftl 1 (logAnnounceInterval port)))
           (r ← op (t_get_utc_offset i);
            (match r with
             | None => mret tt
             | Some (offset, _, _) => setPRO (fun p => p <| currentUtcOffset := i16 offset |>)
             end);;
            setPRO (fun p => p <| leap59 := 0 |> <| leap61 := 0 |>))
     end).

Definition pp_lib_may_issue_announce (i : nat) : M Z :=
  t ← pp_timeout i PP_TO_ANN_SEND;
  if negb t then mret 0
  else
    pp_timeout_reset i PP_TO_ANN_SEND;;
    refresh_utc i;;
    pp_vlan_issue_announce i.

Definition pp_lib_may_issue_request (i : nat) : M Z :=
  t ← pp_timeout i PP_TO_REQUEST;
  if negb t then mret 0
  else
    pp_timeout_reset i PP_TO_REQUEST;;
    e ← msg_issue_request i;
    wr i (fun p => p <| t3 := last_snt_time p |>);;
    mret (if e =? PP_SEND_ERROR then e else 0).

(** ** common-fun-p2p.c *)

Definition presp_call_servo (i : nat) : M Z :=
  t ← rd i t4;
  if is_incorrect t then mret 0
  else
    ret ← if_hook i hk_handle_presp (fun h => h i) (pp_servo_got_presp i;; mret 0);
    s ← rd i state;
    when (s =? PPS_MASTER) (pp_servo_calculate_delays i;; mret tt);;
    mret ret.

(** Whether a response answers our last Pdelay_Req. *)
Definition matches_pdelay_req (p : pp_instance) (requesting : PortIdentity) : bool :=
  (bmc_idcmp (clockIdentity (portIdentity (portDS p))) (clockIdentity requesting) =? 0) &&
  (nth (Z.to_nat PPM_PDELAY_REQ) (sent_seq p) 0 =? h_sequenceId (received_ptp_header p)) &&
  (portNumber (portIdentity (portDS p)) =? portNumber requesting).

(** The correction of [t4]: [cField] and delay asymmetry. *)
Definition correct_t4 (i : nat) : M unit :=
  nc ← cf_not_compliant i;
  wr i (fun p =>
    let cf := h_cField (received_ptp_header p) in
    p <| t4 := if nc : bool then pp_time_add (t4 p) cf
               else pp_time_sub (pp_time_sub (t4 p) cf) (mk_time 0 (delayAsymmetry (portDS p))) |>).

Definition two_step (p : pp_instance) : bool :=
  negb (Z.land (nth 0 (h_flagField (received_ptp_header p)) 0) PP_TWO_STEP_FLAG =? 0).

Definition st_com_peer_handle_pres : pp_action := fun i buf len =>
  p ← rd i id;
  if negb (delayMechanism p =? MECH_P2P) then mret 0
  else
    let '(requestReceiptTimestamp, requesting) := unpack_resp buf in
    if negb (matches_pdelay_req p requesting) then mret 0
    else
      def ← DSDEF;
      if truth (received_dresp p) && negb (is_externalPortConfigurationEnabled def) then
        wr i (fun p => p <| next_state := PPS_FAULTY |>);;
        mret 0
      else
        wr i (fun p => p <| received_dresp := 1 |> <| t4 := requestReceiptTimestamp |>);;
        correct_t4 i;;
        wr i (fun p => p <| t6 := last_rcv_time p |>);;
        (if two_step p then
           wr i (fun p => p <| ppi_flags ::= fun f => Z.lor f PPI_FLAG_WAITING_FOR_RF_UP |>)
         else
           wr i (fun p => p <| ppi_flags ::= fun f => Z.land f (Z.lnot PPI_FLAG_WAITING_FOR_RF_UP) |>
                            <| t5 := clear_time |>));;
        e ← (if negb (two_step p) then presp_call_servo i else mret 0);
        wr i (fun p => p <| activePeer := peer p |>);;
        mret e.

Definition st_com_peer_handle_pres_followup : pp_action := fun i buf len =>
  p ← rd i id;
  if negb (delayMechanism p =? MECH_P2P) then mret 0
  else
    let '(responseOriginTimestamp, requesting) := unpack_resp buf in
    if negb (matches_pdelay_req p requesting) then mret 0
    else
      def ← DSDEF;
      if truth (received_dresp_fup p) && negb (is_externalPortConfigurationEnabled def) then
        wr i (fun p => p <| next_state := PPS_FAULTY |>);;
        mret 0
      else
        wr i (fun p => p <| received_dresp_fup := 1 |>
          <| t5 := pp_time_add responseOriginTimestamp (h_cField (received_ptp_header p)) |>);;
        presp_call_servo i.

Definition st_com_peer_handle_preq : pp_action := fun i buf len =>
  m ← rd i delayMechanism;
  if negb (m =? MECH_P2P) then mret 0
  else
    e ← if_hook i hk_handle_preq (fun h => h i) (mret 0);
    if truth e then mret e
    else
      t ← rd i last_rcv_time;
      msg_issue_pdelay_resp i t;;
      t ← rd i last_snt_time;
      msg_issue_pdelay_resp_followup i t;;
      mret 0.

(** The peer delay entries of the action tables. *)
Definition peer_action (msgtype : Z) : option pp_action :=
  if negb CONFIG_HAS_P2P then None
  else if msgtype =? PPM_PDELAY_REQ then Some st_com_peer_handle_preq
  else if msgtype =? PPM_PDELAY_RESP then Some st_com_peer_handle_pres
  else if msgtype =? PPM_PDELAY_R_FUP then Some st_com_peer_handle_pres_followup
  else None.

(** [if (msgtype < ARRAY_SIZE(actions) && actions[msgtype]) e = actions[..](..);] *)
Definition run_action (actions : Z -> option pp_action) (i : nat) (buf : list Z) (len e : Z) : M Z :=
  hdr ← rd i received_ptp_header;
  match actions (h_messageType hdr) with
  | Some f => f i buf len
  | None => mret e
  end.

End Common.
