(* ===== verification/States.v ===== *)
(** * The states (proto-standard/state-*.c)

    One function per state of the state machine, with the table of message
    handlers of each.  Built without CONFIG_ABSCAL. *)

From S2P Require Import Prelude TimeArith Types World Timeout Hooks Bytes Msg FixedPoint Servo.
From S2P Require Import BmcCmp ClockQuality Bmc Common.

Definition PP_VERSION_PTP : Z := 2.
Definition PP_MINOR_VERSION_PTP : Z := 0.
Definition TIMEOUT_FAULTY_STATE_MS : Z := 60 * 1000.

(** The MAC address of port 0, [remainder] places below [mac]: the loop runs
    from the last byte to the first. *)
Fixpoint mac_sub_rev (mac : list Z) (remainder : Z) : list Z :=
  match mac with
  | [] => []
  | b :: mac' => u8 (b - remainder) :: mac_sub_rev mac' (if remainder <=? b then 0 else 1)
  end.
Definition mac_port1 (mac : list Z) (portIdx : Z) : list Z := rev (mac_sub_rev (rev mac) portIdx).

(** The clock identity: a MAC address with 0xff 0xfe in the middle. *)
Definition mac_identity (mac : list Z) : ClockIdentity := take 3 mac ++ [0xff; 0xfe] ++ take 3 (drop 3 mac).

Section States.
Context `{Config, Platform} {HK : Hooks}.

Definition set_next_delay (i : nat) (d : Z) : M unit := wr i (fun p => p <| next_delay := d |>).
Definition set_next_state (i : nat) (s : Z) : M unit := wr i (fun p => p <| next_state := s |>).

(** The value of [next_delay] for a port that also sends delay requests in
    the peer delay mechanism. *)
Definition delay_p2p (i : nat) (with_req without_req : M Z) : M unit :=
  p2p ← rd i is_delayMechanismP2P;
  d ← (if p2p : bool then with_req else without_req);
  set_next_delay i d.

(** ** state-initializing.c *)

Definition init_parent_ds : M unit :=
  def ← DSDEF;
  setPAR (fun p => p
    <| par_parentPortIdentity := mk_pid (def_clockIdentity def) 0 |>
    <| par_observedParentOffsetScaledLogVariance := 0xffff |>
    <| par_observedParentClockPhaseChangeRate := 0x7fffffff |>
    <| par_grandmasterIdentity := def_clockIdentity def |>
    <| par_grandmasterClockQuality := def_clockQuality def |>
    <| par_grandmasterPriority1 := def_priority1 def |>
    <| par_grandmasterPriority2 := def_priority2 def |>).

(** [initds]: no other port is at work. *)
Definition must_init_ds (def : defaultDS_t) : M bool :=
  rdw (fun w => negb ((1 <? get_numberPorts def) &&
    existsb (fun k => negb (state (inst w k) =? PPS_INITIALIZING) && (link_up (inst w k) =? 1))
      (ports def))).

Definition init_default_ds (i : nat) (def : defaultDS_t) : M unit :=
  mac ← rd i ch_addr;
  let portIdx := u8 (Z.of_nat i) in
  let mac0 := if (1 <? get_numberPorts def) && negb (portIdx =? 0) then mac_port1 mac portIdx else mac in
  setDEF (fun d => d <| def_clockIdentity := mac_identity mac0 |>);;
  init_parent_ds.

Definition init_port_ds (i : nat) : M unit :=
  def ← DSDEF;
  c ← rd i cfg;
  setPOR i (fun p => p
    <| portIdentity := mk_pid (def_clockIdentity def) (u16 (1 + Z.of_nat i)) |>
    <| versionNumber := PP_VERSION_PTP |> <| minorVersionNumber := PP_MINOR_VERSION_PTP |>
    <| logAnnounceInterval := i8 (cfg_announce_interval c) |>
    <| announceReceiptTimeout := u8 (cfg_announce_receipt_timeout c) |>
    <| logSyncInterval := i8 (cfg_sync_interval c) |>
    <| logMinDelayReqInterval := i8 (cfg_min_delay_req_interval c) |>
    <| logMinPdelayReqInterval := i8 (cfg_min_pdelay_req_interval c) |>).

(** A clock of class below 128 may not be configured as a slave. *)
Definition epc_forbidden (def : defaultDS_t) (p : pp_instance) : bool :=
  (clockClass (def_clockQuality def) <? 128) &&
  ((desiredState p =? PPS_SLAVE) || (desiredState p =? PPS_UNCALIBRATED)).

(** The state to enter. *)
Definition after_init (i : nat) : M unit :=
  def ← DSDEF;
  p ← rd i id;
  set_next_state i
    (if is_externalPortConfigurationEnabled def then
       if epc_forbidden def p then PPS_FAULTY
       else if desiredState p =? PPS_SLAVE then PPS_UNCALIBRATED
       else desiredState p
     else PPS_LISTENING).

Definition init_failure (i : nat) : M Z := set_next_delay i 1000;; mret 0.

(** [init] of every platform begins with [pp_prepare_pointers]. *)
Definition n_ops_init (i : nat) : M (Z * list Z) := pp_prepare_pointers i;; op (n_init i).

Definition pp_initializing : pp_action := fun i buf len =>
  o ← OPTS;
  def ← DSDEF;
  if (opt_clockClass o =? PP_PTP_CLASS_GM_LOCKED) &&
     negb (clockClass (def_clockQuality def) =? PP_PTP_CLASS_GM_LOCKED)
  then init_failure i
  else
    '(r, mac) ← n_ops_init i;
    wr i (fun p => p <| ch_addr := mac |>);;
    if r <? 0 then init_failure i
    else
      initds ← must_init_ds def;
      when initds (init_default_ds i def);;
      init_port_ds i;;
      pp_timeout_init i;;
      pp_timeout_setall i;;
      wr i (fun p => p
        <| frgn_master_time_window_ms :=
             u32 (i32 (pp_timeout_log_to_ms (logAnnounceInterval (portDS p)) * PP_FOREIGN_MASTER_TIME_WINDOW)) |>
        <| pdstate := PP_PDSTATE_NONE |>
        <| extState := if bool_decide (protocol_extension p = PPSI_EXT_NONE)
                       then PP_EXSTATE_DISABLE else PP_EXSTATE_ACTIVE |>);;
      ret ← if_hook i hk_init (fun h => h i buf len) (mret 0);
      if truth ret then init_failure i
      else
        msg_init_header i;;
        after_init i;;
        mret 0.

(** ** state-faulty.c, state-disabled.c *)

Definition pp_faulty : pp_action := fun i buf len =>
  def ← DSDEF;
  p ← rd i id;
  if is_externalPortConfigurationEnabled def && epc_forbidden def p then
    set_next_delay i 1000;; mret 0
  else
    leave ← (if is_new_state p then
               pp_timeout_set i PP_TO_IN_STATE TIMEOUT_FAULTY_STATE_MS;; mret false
             else pp_timeout i PP_TO_IN_STATE);
    if leave : bool then
      pp_timeout_disable i PP_TO_IN_STATE;;
      set_next_state i PPS_INITIALIZING;;
      mret 0
    else
      d ← pp_next_delay_1 i PP_TO_IN_STATE;
      set_next_delay i d;;
      mret 0.

Definition pp_disabled : pp_action := fun i buf len =>
  set_next_delay i PP_DEFAULT_NEXT_DELAY_MS;; mret 0.

(** ** Announce messages, as most states handle them *)

(** A masterOnly port does not use them. *)
Definition store_announce (i : nat) (buf : list Z) : M unit :=
  port ← DSPOR i;
  when (negb (is_masterOnly port))
    (f ← bmc_store_frgn_master i buf;
     bmc_add_frgn_master i f;;
     mret tt).

(** [listening_handle_announce] and [master_handle_announce]. *)
Definition plain_handle_announce : pp_action := fun i buf len =>
  ret ← st_com_handle_announce i buf len;
  if truth ret then mret ret
  else store_announce i buf;; mret 0.

(** ** state-listening.c *)

Definition listening_handle_announce : pp_action := plain_handle_announce.

Definition listening_actions (msgtype : Z) : option pp_action :=
  if msgtype =? PPM_ANNOUNCE then Some listening_handle_announce
  else if msgtype =? PPM_SIGNALING then Some st_com_handle_signaling
  else peer_action msgtype.

Definition listening_out (i : nat) (e : Z) : M Z :=
  when (truth e) (set_next_state i PPS_FAULTY);;
  delay_p2p i (pp_next_delay_2 i PP_TO_ANN_RECEIPT PP_TO_REQUEST) (pp_next_delay_1 i PP_TO_ANN_RECEIPT);;
  mret e.

Definition listening_epc_out (i : nat) (e : Z) : M Z :=
  delay_p2p i (pp_next_delay_1 i PP_TO_REQUEST) (mret INT_MAX);;
  mret e.

Definition pp_listening : pp_action := fun i buf len =>
  def ← DSDEF;
  let epc := is_externalPortConfigurationEnabled def in
  e ← if_hook i hk_listening (fun h => h i buf len) (mret 0);
  if truth e then if epc then listening_epc_out i e else listening_out i e
  else
    p2p ← rd i is_delayMechanismP2P;
    e ← (if p2p : bool then pp_lib_may_issue_request i else mret e);
    e ← run_action listening_actions i buf len e;
    if negb epc then
      st_com_check_announce_receive_timeout i;;
      listening_out i e
    else listening_epc_out i e.

(** ** state-passive.c *)

(** [erbest] points into the table: it is read after the new Announce has
    been entered. *)
Definition passive_handle_announce : pp_action := fun i buf len =>
  best ← rd i frgn_rec_best;
  ret ← st_com_handle_announce i buf len;
  if truth ret then mret ret
  else
    store_announce i buf;;
    def ← DSDEF;
    when (negb (is_externalPortConfigurationEnabled def))
      (p ← rd i id;
       when (negb (best =? -1) &&
             (bmc_pidcmp (h_sourcePortIdentity (received_ptp_header p))
                (fm_sourcePortIdentity (frgn_at p best)) =? 0))
         (pp_timeout_reset i PP_TO_ANN_RECEIPT));;
    mret 0.

Definition passive_actions (msgtype : Z) : option pp_action :=
  if msgtype =? PPM_ANNOUNCE then Some passive_handle_announce else peer_action msgtype.

Definition pp_passive : pp_action := fun i buf len =>
  p2p ← rd i is_delayMechanismP2P;
  e ← (if p2p : bool then pp_lib_may_issue_request i else mret 0);
  e ← run_action passive_actions i buf len e;
  def ← DSDEF;
  (if is_externalPortConfigurationEnabled def then
     delay_p2p i (pp_next_delay_1 i PP_TO_REQUEST) (mret INT_MAX)
   else
     st_com_check_announce_receive_timeout i;;
     delay_p2p i (pp_next_delay_2 i PP_TO_ANN_RECEIPT PP_TO_REQUEST) (pp_next_delay_1 i PP_TO_ANN_RECEIPT);;
     when (truth e) (set_next_state i PPS_FAULTY));;
  mret e.

(** ** state-master.c *)

Definition master_handle_announce : pp_action := plain_handle_announce.

Definition master_handle_delay_request : pp_action := fun i buf len =>
  p ← rd i id;
  when (is_delayMechanismE2E p && (state p =? PPS_MASTER))
    (e ← msg_issue_delay_resp i (last_rcv_time p);
     when (negb (truth e))
       (if_hook i hk_handle_dreq (fun h => h i;; mret tt) (mret tt);;
        wr i (fun p => p <| activePeer := peer p |>)));;
  mret 0.

Definition master_actions (msgtype : Z) : option pp_action :=
  if msgtype =? PPM_DELAY_REQ then Some master_handle_delay_request
  else if msgtype =? PPM_ANNOUNCE then Some master_handle_announce
  else if msgtype =? PPM_SIGNALING then Some st_com_handle_signaling
  else peer_action msgtype.

Definition master_next_delay (i : nat) (pre epc : bool) : M unit :=
  if pre then
    if epc then delay_p2p i (pp_next_delay_1 i PP_TO_REQUEST) (mret INT_MAX)
    else delay_p2p i (pp_next_delay_2 i PP_TO_QUALIFICATION PP_TO_REQUEST)
           (pp_next_delay_1 i PP_TO_QUALIFICATION)
  else delay_p2p i (pp_next_delay_3 i PP_TO_ANN_SEND PP_TO_SYNC_SEND PP_TO_REQUEST)
         (pp_next_delay_2 i PP_TO_ANN_SEND PP_TO_SYNC_SEND).

Definition pp_master : pp_action := fun i buf len =>
  st ← rd i state;
  let pre := st =? PPS_PRE_MASTER in
  def ← DSDEF;
  let epc := is_externalPortConfigurationEnabled def in
  upgrade ← (if negb epc && pre then pp_timeout i PP_TO_QUALIFICATION else mret false);
  if upgrade : bool then
    set_next_state i PPS_MASTER;;
    pp_timeout_reset_N i PP_TO_SYNC_SEND 0;;
    pp_timeout_reset_N i PP_TO_ANN_SEND 0;;
    set_next_delay i 0;;
    mret 0
  else
    when (negb pre) (pp_lib_may_issue_sync i;; pp_lib_may_issue_announce i;; mret tt);;
    p2p ← rd i is_delayMechanismP2P;
    when p2p (pp_lib_may_issue_request i;; mret tt);;
    e ← run_action master_actions i buf len 0;
    let e' := if (e =? PP_SEND_ERROR) || (e =? PP_SEND_NO_STAMP) then 0 else e in
    when (negb epc && (e =? PP_SEND_OK) && is_slaveOnly def) (set_next_state i PPS_LISTENING);;
    master_next_delay i pre epc;;
    mret e'.

(** ** state-slave.c *)

(** [msg_from_current_master] (msg.c) *)
Definition msg_from_current_master (i : nat) : M bool :=
  par ← DSPAR;
  hdr ← rd i received_ptp_header;
  mret (bmc_pidcmp (par_parentPortIdentity par) (h_sourcePortIdentity hdr) =? 0).

(** The hook may do it all (1) or fail (negative); else the servo runs. *)
Definition hook_or_servo (i : nat) (h : pp_ext_hooks -> option (nat -> M Z)) (allowTimingOutput : bool) : M Z :=
  ret ← if_hook i h (fun f => f i) (mret 0);
  if ret =? 1 then mret 0
  else if ret <? 0 then mret ret
  else pp_servo_got_sync i allowTimingOutput;; mret 0.

Definition slave_handle_sync : pp_action := fun i buf len =>
  cur ← msg_from_current_master i;
  if negb cur then mret 0
  else
    wr i (fun p => p <| t2 := last_rcv_time p |>);;
    p ← rd i id;
    let hdr := received_ptp_header p in
    if two_step p then
      wr i (fun p => p <| ppi_flags ::= fun f => Z.lor f PPI_FLAG_WAITING_FOR_F_UP |>
        <| recv_sync_sequence_id := h_sequenceId hdr |> <| t1 := h_cField hdr |>);;
      mret 0
    else
      wr i (fun p => p <| ppi_flags ::= fun f => Z.land f (Z.lnot PPI_FLAG_WAITING_FOR_F_UP) |>
        <| t1 := pp_time_add (unpack_origin_timestamp buf) (h_cField hdr) |> <| syncCF := 0 |>);;
      bad ← stamps_incorrect i 3;
      if bad : bool then mret 0 else hook_or_servo i hk_handle_sync true.

Definition slave_handle_followup : pp_action := fun i buf len =>
  cur ← msg_from_current_master i;
  p ← rd i id;
  let hdr := received_ptp_header p in
  if negb cur || (Z.land (ppi_flags p) PPI_FLAG_WAITING_FOR_F_UP =? 0) ||
     negb (recv_sync_sequence_id p =? h_sequenceId hdr)
  then mret 0
  else
    wr i (fun p => p <| ppi_flags ::= fun f => Z.land f (Z.lnot PPI_FLAG_WAITING_FOR_F_UP) |>
      <| t1 := pp_time_add (pp_time_add (t1 p) (unpack_origin_timestamp buf)) (h_cField hdr) |>
      <| syncCF := scaled_nsecs (h_cField hdr) |>);;
    bad ← stamps_incorrect i 3;
    if bad : bool then mret 0 else hook_or_servo i hk_handle_followup false.

Definition slave_handle_response : pp_action := fun i buf len =>
  let '(receiveTimestamp, requesting) := unpack_resp buf in
  p ← rd i id;
  cur ← msg_from_current_master i;
  let hdr := received_ptp_header p in
  let own := portIdentity (portDS p) in
  if negb (bmc_idcmp (clockIdentity own) (clockIdentity requesting) =? 0) ||
     negb (nth (Z.to_nat PPM_DELAY_REQ) (sent_seq p) 0 =? h_sequenceId hdr) ||
     negb (portNumber own =? portNumber requesting) || negb cur
  then mret 0
  else
    wr i (fun p => p <| t4 := receiveTimestamp |>);;
    correct_t4 i;;
    ret ← if_hook i hk_handle_resp (fun h => h i) (pp_servo_got_resp i true);
    p ← rd i id;
    let log := h_logMessageInterval (received_ptp_header p) in
    when (negb (truth ret) && negb (logMinDelayReqInterval (portDS p) =? log))
      (setPOR i (fun q => q <| logMinDelayReqInterval := log |>);;
       pp_timeout_init i);;
    mret 0.

Definition slave_handle_announce : pp_action := fun i buf len =>
  ret ← st_com_handle_announce i buf len;
  if truth ret then mret ret
  else
    f ← bmc_store_frgn_master i buf;
    def ← DSDEF;
    let epc := is_externalPortConfigurationEnabled def in
    cur ← msg_from_current_master i;
    if negb epc && negb cur then
      port ← DSPOR i;
      when (negb (is_masterOnly port)) (bmc_add_frgn_master i f;; mret tt);;
      mret 0
    else
      when (negb epc) (pp_timeout_reset i PP_TO_ANN_RECEIPT);;
      reg ← bmc_add_frgn_master i f;
      (match reg with
       | Some sel =>
           bmc_s1 i (i, Z.of_nat sel);;
           wr i (fun p => p <| activePeer := peer p |>)
       | None => mret tt
       end);;
      mret 0.

Definition slave_actions (msgtype : Z) : option pp_action :=
  if msgtype =? PPM_SYNC then Some slave_handle_sync
  else if msgtype =? PPM_FOLLOW_UP then Some slave_handle_followup
  else if msgtype =? PPM_DELAY_RESP then Some slave_handle_response
  else if msgtype =? PPM_ANNOUNCE then Some slave_handle_announce
  else if msgtype =? PPM_SIGNALING then Some st_com_handle_signaling
  else peer_action msgtype.

(** Between UNCALIBRATED and SLAVE. *)
Definition slave_upgrade (i : nat) (uncalibrated : bool) : M unit :=
  (if uncalibrated then
     ready ← if_hook i hk_ready_for_slave (fun h => v ← h i; mret (truth v)) (mret true);
     when ready (set_next_state i PPS_SLAVE)
   else
     par ← DSPAR;
     when (truth (par_newGrandmaster par))
       (setPAR (fun p => p <| par_newGrandmaster := 0 |>);;
        set_next_state i PPS_UNCALIBRATED));;
  def ← DSDEF;
  p ← rd i id;
  when (is_externalPortConfigurationEnabled def && (next_state p =? PPS_SLAVE) &&
        (desiredState p =? PPS_UNCALIBRATED))
    (set_next_state i PPS_UNCALIBRATED).

Definition slave_out (i : nat) (ret : Z) : M Z :=
  def ← DSDEF;
  d ← (if is_externalPortConfigurationEnabled def then pp_next_delay_1 i PP_TO_REQUEST
       else pp_next_delay_2 i PP_TO_ANN_RECEIPT PP_TO_REQUEST);
  set_next_delay i d;;
  mret (if ret =? PP_SEND_NO_STAMP then PP_SEND_OK else ret).

Definition pp_slave : pp_action := fun i buf len =>
  p ← rd i id;
  let uncalibrated := state p =? PPS_UNCALIBRATED in
  slave_upgrade i uncalibrated;;
  ret ← (if uncalibrated && is_new_state p then
           wr i (fun p => p <| t1 := clear_time |>);;
           pp_servo_init i;;
           if_hook i hk_new_slave (fun h => h i buf len) (mret PP_SEND_OK)
         else mret PP_SEND_OK);
  if negb (ret =? PP_SEND_OK) then slave_out i ret
  else
    pp_lib_may_issue_request i;;
    ret ← run_action slave_actions i buf len ret;
    def ← DSDEF;
    when (negb (is_externalPortConfigurationEnabled def)) (st_com_check_announce_receive_timeout i);;
    slave_out i ret.

End States.
