(* ===== verification/Fsm.v ===== *)
(** * The state machine (fsm.c, proto-standard/fsm-table.c, hooks.c)

    Reception of a frame, the run of the current state, the best master
    clock decision and the change of state. *)

From S2P Require Import Prelude TimeArith Types World Timeout Hooks Bytes Msg FixedPoint Servo.
From S2P Require Import BmcCmp ClockQuality Bmc Common States.

Section Fsm.
Context `{Config, Platform}.

(** ** proto-standard/hooks.c: the table of plain PTP *)

Definition state_change (i : nat) : M unit :=
  p ← rd i id;
  when ((state p =? PPS_SLAVE) && negb (next_state p =? PPS_UNCALIBRATED))
    (o ← OPTS;
     when (negb (truth (opt_forcePpsGen o))) (op_ (t_enable_timing_output false))).

Definition pp_hooks : pp_ext_hooks :=
  mk_hooks None None None None None None None None None None None None None None None None
    None (Some state_change) None None None None None None None.

Context {HK : Hooks}.

(** ** proto-standard/fsm-table.c *)

(** [pp_state_table[state].f1]; no function outside the table. *)
Definition pp_state_table (st : Z) : option pp_action :=
  if st =? PPS_INITIALIZING then Some pp_initializing
  else if st =? PPS_FAULTY then Some pp_faulty
  else if st =? PPS_DISABLED then Some pp_disabled
  else if st =? PPS_LISTENING then Some pp_listening
  else if st =? PPS_PRE_MASTER then Some pp_master
  else if st =? PPS_MASTER then Some pp_master
  else if st =? PPS_PASSIVE then Some pp_passive
  else if st =? PPS_UNCALIBRATED then Some pp_slave
  else if st =? PPS_SLAVE then Some pp_slave
  else None.

(** ** fsm.c *)

(** The item is identified by its index. *)
Definition get_current_state_table_item (i : nat) : M Z :=
  p ← rd i id;
  let nxt := state p in
  (if bool_decide (current_state_item p = Some nxt)
   then wr i (fun p => p <| is_new_state := false |>)
   else wr i (fun p => p <| is_new_state := true |> <| current_state_item := Some nxt |>));;
  mret nxt.

Definition pp_leave_current_state (i : nat) : M Z :=
  if_hook i hk_state_change
    (fun h =>
       s ← rd i state;
       when ((s =? PPS_MASTER) || (s =? PPS_SLAVE))
         (wr i (fun p => p <| activePeer := replicate 6 0 |>));;
       h i)
    (mret tt);;
  p ← rd i id;
  when ((PPS_LAST_STATE <=? state p) || (PPS_LAST_STATE <=? next_state p)) (pp_timeout_setall i);;
  wr i (fun p => p <| state := next_state p |>);;
  wr i (fun p =>
    let p := if state p =? PPS_DISABLED
             then p <| pdstate := PP_PDSTATE_NONE |> <| extState := PP_EXSTATE_DISABLE |> else p in
    p <| ppi_flags ::= fun f => Z.land f (Z.lnot PPI_FLAGS_WAITING) |>);;
  mret 0.

(** [memcmp] of two port identities. *)
Definition same_pid (a b : PortIdentity) : bool :=
  (memcmp (clockIdentity a) (clockIdentity b) =? 0) && (portNumber a =? portNumber b).

(** [true]: the frame is to be ignored (the code returns -1). *)
Definition packet_prefilter (g : pp_globals) (p : pp_instance) : bool :=
  let hdr := received_ptp_header p in
  let own := portIdentity (portDS p) in
  negb (h_domainNumber hdr =? def_domainNumber (defaultDS g)) ||
  negb (Z.land (nth 0 (h_flagField hdr) 0) PP_ALTERNATE_MASTER_FLAG =? 0) ||
  same_pid (h_sourcePortIdentity hdr) own ||
  ((memcmp (clockIdentity (h_sourcePortIdentity hdr)) (clockIdentity own) =? 0) &&
   (1 <? get_numberPorts (defaultDS g)) && negb (h_messageType hdr =? PPM_ANNOUNCE)) ||
  (state p =? PPS_INITIALIZING) || (state p =? PPS_DISABLED) || (state p =? PPS_FAULTY).

Definition pp_packet_prefilter (i : nat) : M bool := rdw (fun w => packet_prefilter (glbs w) (inst w i)).

(** Minimal length of each message type; 0 for the types without an entry. *)
Definition type_length (msgtype : Z) : Z :=
  if msgtype =? PPM_SYNC then PP_SYNC_LENGTH
  else if msgtype =? PPM_DELAY_REQ then PP_DELAY_REQ_LENGTH
  else if msgtype =? PPM_PDELAY_REQ then PP_PDELAY_REQ_LENGTH
  else if msgtype =? PPM_PDELAY_RESP then PP_PDELAY_RESP_LENGTH
  else if msgtype =? PPM_FOLLOW_UP then PP_FOLLOW_UP_LENGTH
  else if msgtype =? PPM_DELAY_RESP then PP_DELAY_RESP_LENGTH
  else if msgtype =? PPM_PDELAY_R_FUP then PP_PDELAY_RESP_FOLLOW_UP_LENGTH
  else if msgtype =? PPM_ANNOUNCE then PP_ANNOUNCE_LENGTH
  else if msgtype =? PPM_SIGNALING then PP_HEADER_LENGTH
  else if msgtype =? PPM_MANAGEMENT then PP_MANAGEMENT_LENGTH
  else 0.

(** Whether the frame can be unpacked. *)
Definition verify_frame (buf : list Z) (len : Z) : bool :=
  let msgtype := if truth len then Z.land (get8 buf 0) 0x0F else 0 in
  negb ((PP_NR_MESSAGES_TYPES <=? msgtype) || (len <? type_length msgtype)) &&
  (Z.land (get8 buf 1) 0x0F =? 2).

(** [true]: error. *)
Definition fsm_unpack_verify_frame (i : nat) (buf : list Z) (len : Z) : M bool :=
  if verify_frame buf len then
    wr i (fun p => p <| received_ptp_header := msg_unpack_header buf |>);;
    mret false
  else mret true.

(** *** Detection of the peer's protocol extension *)

Definition pdstate_disable_extension (i : nat) : M unit :=
  wr i (fun p => p <| pdstate := PP_PDSTATE_FAILURE |>);;
  e ← rd i extState;
  when (bool_decide (e = PP_EXSTATE_ACTIVE))
    (wr i (fun p => p <| extState := PP_EXSTATE_PTP |>);;
     pp_servo_init i;;
     if_hook i hk_extension_state_changed (fun h => h i;; mret tt) (mret tt)).

(** [pdstate_set_state_pdetection] and [pdstate_set_state_pdetected]. *)
Definition pdstate_set (i : nat) (st : pp_pdstate_t) : M unit :=
  d ← rd i pdstate;
  when (negb (bool_decide (d = PP_PDSTATE_NONE)))
    (wr i (fun p => p <| pdstate := st |>);;
     pp_timeout_reset i PP_TO_PROT_STATE).
Definition pdstate_set_state_pdetection (i : nat) : M unit := pdstate_set i PP_PDSTATE_PDETECTION.
Definition pdstate_set_state_pdetected (i : nat) : M unit := pdstate_set i PP_PDSTATE_PDETECTED.

Definition pdstate_enable_extension (i : nat) : M unit :=
  d ← rd i pdstate;
  when (negb (bool_decide (d = PP_PDSTATE_NONE)))
    (wr i (fun p => p <| pdstate := PP_PDSTATE_PDETECTED |>);;
     pp_timeout_reset i PP_TO_PROT_STATE;;
     e ← rd i extState;
     when (negb (bool_decide (e = PP_EXSTATE_ACTIVE)))
       (wr i (fun p => p <| extState := PP_EXSTATE_ACTIVE |>);;
        if_hook i hk_extension_state_changed (fun h => h i;; mret tt) (mret tt))).

(** *** The machine *)

(** [if (ppi->state != ppi->next_state) return pp_leave_current_state(ppi);] *)
Definition leave_or (i : nat) (k : M Z) : M Z :=
  p ← rd i id;
  if negb (state p =? next_state p) then pp_leave_current_state i else k.

Definition first_frame (i : nat) (len : Z) : M unit :=
  if truth len then
    d ← rd i pdstate;
    when (bool_decide (d = PP_PDSTATE_WAIT_MSG))
      (t ← if_hook i hk_get_tmo_lstate_detection (fun h => h i) (mret 20000);
       pp_timeout_set i PP_TO_PROT_STATE t;;
       pdstate_set_state_pdetection i)
  else wr i (fun p => p <| received_ptp_header ::= fun h => h <| h_messageType := PPM_NO_MESSAGE |> |>).

(** [ip->f1(ppi, buf, len)]; outside the table there is no function to call. *)
Definition call_state (st : Z) (i : nat) (buf : list Z) (len : Z) : M Z :=
  match pp_state_table st with
  | Some f => f i buf len
  | None => c_assert false;; mret 0
  end.

Definition check_protocol (i : nat) : M unit :=
  p ← rd i id;
  when (bool_decide (extState p = PP_EXSTATE_ACTIVE) &&
        (bool_decide (pdstate p = PP_PDSTATE_PDETECTION) || bool_decide (pdstate p = PP_PDSTATE_PDETECTED)))
    (t ← pp_timeout i PP_TO_PROT_STATE;
     when t (pdstate_disable_extension i)).

(** The extension's own state machine, and the delay to the next run. *)
Definition run_extension (i : nat) (buf : list Z) (len : Z) : M Z :=
  if_hook i hk_run_ext_state_machine
    (fun h =>
       delay ← h i buf len;
       leave_or i
         (wr i (fun p => p <| next_delay ::= fun d => if delay <? d then delay else d |>);;
          rd i next_delay))
    (rd i next_delay).

Definition run_bmc (i : nat) (k : M Z) : M Z :=
  x ← rd i bmca_execute;
  if truth x then
    wr i (fun p => p <| bmca_execute := 0 |>);;
    st ← bmc_apply_state_descision i;
    wr i (fun p => p <| next_state := st |>);;
    leave_or i k
  else k.

(** The milliseconds to wait before the next run. *)
Definition pp_state_machine (i : nat) (buf : list Z) (len : Z) : M Z :=
  let '(buf, len) := if len <? PP_HEADER_LENGTH then ([], 0) else (buf, len) in
  err ← fsm_unpack_verify_frame i buf len;
  hdr ← rd i received_ptp_header;
  let len := if err : bool then 0 else h_messageLength hdr in
  let buf := if err : bool then [] else buf in
  st ← get_current_state_table_item i;
  wr i (fun p => p <| next_state := st |> <| next_delay := 0 |>);;
  drop_it ← (if err : bool then mret false else pp_packet_prefilter i);
  let len := if drop_it : bool then 0 else len in
  let buf := if drop_it : bool then [] else buf in
  leave_or i
    (first_frame i len;;
     call_state st i buf len;;
     leave_or i
       (check_protocol i;;
        run_bmc i (run_extension i buf len))).

End Fsm.
