(* ===== verification/OpenClose.v ===== *)
(** * Opening and closing (proto-standard/open-close.c)

    The data sets and instances before the first run of the state machine. *)

From S2P Require Import Prelude TimeArith Types World Timeout Hooks Bytes Msg FixedPoint Servo.
From S2P Require Import BmcCmp ClockQuality Bmc Common States.

Section OpenClose.
Context `{Config, Platform} {HK : Hooks}.

(** slaveOnly needs an ordinary clock: all instances on one interface with
    one protocol. *)
Definition ordinary_clock (w : world) : bool :=
  let p0 := inst w 0 in
  forallb (fun k => let p := inst w k in
    (proto p0 =? proto p) && bool_decide (cfg_iface_name (cfg p0) = cfg_iface_name (cfg p)))
    (seq 1 (Z.to_nat (get_numberPorts (defaultDS (glbs w))) - 1)).

(** The configured class changes with the one in use. *)
Definition force_class (class : Z) : M unit :=
  wrG (fun g => g <| rt_opts ::= fun o => o <| opt_clockClass := class |> |>
                  <| defaultDS ::= fun d => d <| def_clockQuality ::= fun q => q <| clockClass := class |> |> |>).

Definition init_slave_only : M unit :=
  def ← DSDEF;
  when (is_externalPortConfigurationEnabled def && is_slaveOnly def)
    (setDEF (fun d => d <| def_slaveOnly := 0 |>));;
  setDEF (fun d => d <| def_slaveOnly := of_bool (is_slaveOnly d) |>);;
  def ← DSDEF;
  when (is_slaveOnly def)
    (oc ← rdw ordinary_clock;
     when ((1 <? get_numberPorts def) && negb oc) (setDEF (fun d => d <| def_slaveOnly := 0 |>));;
     def ← DSDEF;
     when (is_slaveOnly def) (force_class PP_CLASS_SLAVE_ONLY)).

Definition init_instance (i : nat) : M unit :=
  wr i (fun p => p <| state := PPS_DISABLED |> <| pdstate := PP_PDSTATE_NONE |>
    <| current_state_item := None |> <| port_idx := Z.of_nat i |> <| frgn_rec_best := -1 |>);;
  pp_timeout_disable_all i.

(** External port configuration of one port. *)
Definition init_epc_port (i : nat) : M unit :=
  wr i (fun p => p
    <| portDS ::= fun q => if is_masterOnly q then q <| masterOnly := 0 |> else q |>
    <| desiredState := u8 (cfg_desiredState (cfg p)) |>).

Definition init_epc : M unit :=
  def ← DSDEF;
  when (is_externalPortConfigurationEnabled def)
    (for_each (ports def) init_epc_port;;
     isSlavePresent ← rdw (fun w => existsb (fun k =>
       (desiredState (inst w k) =? PPS_SLAVE) || (desiredState (inst w k) =? PPS_UNCALIBRATED)) (ports def));
     when ((clockClass (def_clockQuality def) <? 128) && isSlavePresent) (force_class PP_CLASS_DEFAULT)).

(** Calls the hook of every port; the last failure is returned. *)
Fixpoint for_each_hook (l : list nat) (h : pp_ext_hooks -> option (nat -> M Z)) (ret : Z) : M Z :=
  match l with
  | [] => mret ret
  | i :: l' =>
      r ← if_hook i h (fun f => f i) (mret 0);
      for_each_hook l' h (if r =? 0 then ret else r)
  end.

(** [opts_set]: [ppg->rt_opts] is not [NULL]. *)
Definition pp_init_globals (opts_set : bool) (pp_rt_opts : pp_runtime_opts) : M Z :=
  wrG (fun g => g <| defaultDS ::= fun d => d <| def_numberPorts := u16 (if 0 <? nlinks g then nlinks g else 1) |> |>
                  <| rt_opts ::= fun o => if opts_set then o else pp_rt_opts |>);;
  bmc_set_default_device_attributes;;
  bmc_apply_configured_device_attributes;;
  o ← OPTS;
  setDEF (fun d => d
    <| def_externalPortConfigurationEnabled := opt_externalPortConfigurationEnabled pp_rt_opts |>
    <| def_slaveOnly := opt_slaveOnly o |>);;
  init_slave_only;;
  def ← DSDEF;
  for_each (ports def) init_instance;;
  init_epc;;
  def ← DSDEF;
  for_each_hook (ports def) hk_open 0.

Definition pp_close_globals : M Z :=
  def ← DSDEF;
  for_each_hook (ports def) hk_close 0.

End OpenClose.
