(* ===== verification/Protocol.v ===== *)
(** * What the protocol does with a frame

    Functional theorems on the state machine's front end (fsm.c) and on the
    message exchanges of state-slave.c: which frames are ignored and how, how
    a Sync is matched with its Follow_Up and a Delay_Resp with our request,
    what an announce receipt timeout does, and how the timing output stops. *)

From S2P Require Import Prelude TimeArith Types World Timeout Hooks Bytes Msg FixedPoint Servo.
From S2P Require Import BmcCmp ClockQuality Bmc BmcTable BmcDecision Common States Fsm.

Section Frames.
Context `{Config, Platform} {HK : Hooks}.

(** The header of a received frame, in its place. *)
Definition with_header (i : nat) (buf : list Z) (w : world) : world :=
  set_inst w i (fun p => p <| received_ptp_header := msg_unpack_header buf |>).

(** Without a frame. *)
Lemma machine_no_frame i w :
  pp_state_machine i [] 0 w =
  (st ← get_current_state_table_item i;
   wr i (fun p => p <| next_state := st |> <| next_delay := 0 |>);;
   leave_or i
     (first_frame i 0;; call_state st i [] 0;;
      leave_or i (check_protocol i;; run_bmc i (run_extension i [] 0)))) w.
Proof. reflexivity. Qed.

Lemma machine_frame i buf len w : PP_HEADER_LENGTH <= len -> verify_frame buf len = true ->
  pp_state_machine i buf len w =
  (hdr ← rd i received_ptp_header;
   st ← get_current_state_table_item i;
   wr i (fun p => p <| next_state := st |> <| next_delay := 0 |>);;
   drop_it ← pp_packet_prefilter i;
   let len := if drop_it : bool then 0 else h_messageLength hdr in
   let buf := if drop_it : bool then [] else buf in
   leave_or i
     (first_frame i len;; call_state st i buf len;;
      leave_or i (check_protocol i;; run_bmc i (run_extension i buf len)))) (with_header i buf w).
Proof.
  intros Hl Hv. unfold pp_state_machine. destruct (Z.ltb_spec len PP_HEADER_LENGTH) as [|_]; [lia|].
  unfold fsm_unpack_verify_frame. rewrite Hv. reflexivity.
Qed.

(** What the prefilter reads. *)
Definition pre_view (p : pp_instance) := (received_ptp_header p, portIdentity (portDS p), state p).

Lemma prefilter_view g p p' : pre_view p' = pre_view p -> packet_prefilter g p' = packet_prefilter g p.
Proof. unfold pre_view, packet_prefilter. intros [= -> -> ->]. reflexivity. Qed.

Lemma prefilter_later i w : (i < length (insts w))%nat ->
  let r := get_current_state_table_item i w in
  let w' := set_inst r.2 i (fun p => p <| next_state := r.1 |> <| next_delay := 0 |>) in
  packet_prefilter (glbs w') (inst w' i) = packet_prefilter (glbs w) (inst w i).
Proof.
  intros Hi. set (m := st ← get_current_state_table_item i; wr i (fun p => p <| next_state := st |> <| next_delay := 0 |>)).
  assert (guar (same_view pre_view id) m) as Hm by (unfold m, get_current_state_table_item; walk).
  specialize (Hm w). unfold m in Hm. rewrite bind_unfold in Hm. cbn [wr snd] in Hm. cbn zeta.
  destruct (same_view_parts _ _ _ _ Hm) as (_ & Hg & _). destruct (same_view_inst _ _ _ _ i Hm Hi) as [Hp _].
  unfold id in Hg. rewrite Hg. by apply prefilter_view.
Qed.

Lemma machine_filtered i buf len w : PP_HEADER_LENGTH <= len -> verify_frame buf len = true ->
  (i < length (insts w))%nat -> packet_prefilter (glbs w) (inst (with_header i buf w) i) = true ->
  pp_state_machine i buf len w = pp_state_machine i [] 0 (with_header i buf w).
Proof.
  intros Hl Hv Hi Hp. rewrite (machine_frame i buf len w Hl Hv), machine_no_frame, bind_rd, !bind_unfold.
  pose proof (prefilter_later i (with_header i buf w)) as Hf. unfold with_header in Hf at 1.
  rewrite length_set_inst in Hf. specialize (Hf Hi).
  destruct (get_current_state_table_item i (with_header i buf w)) as [st w1]. cbn [fst snd] in *.
  unfold pp_packet_prefilter, rdw, wr. cbn [fst snd]. rewrite Hf.
  change (glbs (with_header i buf w)) with (glbs w). rewrite Hp. reflexivity.
Qed.

Lemma same_pid_eq a b : wf_pid a -> wf_pid b -> same_pid a b = true <-> a = b.
Proof.
  intros Ha Hb. unfold same_pid. rewrite andb_true_iff, !Z.eqb_eq. destruct a as [ca pa], b as [cb pb].
  unfold wf_pid in *. cbn in *. rewrite memcmp_eq_iff by congruence. intuition congruence.
Qed.

End Frames.

(** The type and the least length of the messages: Sync, Delay_Req, Pdelay_Req, Pdelay_Resp,
    Follow_Up, Delay_Resp, Pdelay_Resp_Follow_Up, Announce, Signaling and Management. *)
Definition least_lengths : list (Z * Z) :=
  [(0, 44); (1, 44); (2, 54); (3, 54); (8, 44); (9, 54); (10, 54); (11, 64); (12, 34); (13, 48)].

(** A frame that is not a PTP message: shorter than a header, of a type above the last one, shorter
    than a message of its type, or of a version other than 2. *)
Definition malformed (buf : list Z) (len : Z) : Prop :=
  len < 34 \/ 13 < Z.land (get8 buf 0) 15 \/
  (exists l, (Z.land (get8 buf 0) 15, l) ∈ least_lengths /\ len < l) \/
  Z.land (get8 buf 1) 15 <> 2.

Lemma short_iff ty len : 0 <= ty < 14 -> 34 <= len ->
  len < type_length ty <-> exists l, (ty, l) ∈ least_lengths /\ len < l.
Proof.
  intros Ht Hl. split.
  - intros Hs. exists (type_length ty). split; [|done]. apply list_elem_of_In. revert Hs.
    assert (ty ∈ seqZ 0 14) as Hin by (apply elem_of_seqZ; lia).
    apply list_elem_of_In in Hin. vm_compute in Hin.
    repeat (destruct Hin as [<-|Hin]; [cbn; intros; first [lia|auto 12]|]). done.
  - intros (l & Hin%list_elem_of_In & Hs). cbn in Hin. revert Hs.
    repeat (destruct Hin as [[= <- <-]|Hin]; [done|]). done.
Qed.

Lemma malformed_iff buf len : malformed buf len <-> len < PP_HEADER_LENGTH \/ verify_frame buf len = false.
Proof.
  unfold malformed, verify_frame, PP_HEADER_LENGTH. destruct (Z.lt_ge_cases len 34) as [|Hl]; [tauto|].
  assert (truth len = true) as -> by (apply negb_true_iff, Z.eqb_neq; lia). cbn zeta.
  assert (0 <= Z.land (get8 buf 0) 15) as Hz by (apply Z.land_nonneg; right; lia).
  rewrite andb_false_iff, negb_false_iff, orb_true_iff, Z.leb_le, Z.ltb_lt, Z.eqb_neq.
  change PP_NR_MESSAGES_TYPES with 14. destruct (Z.lt_ge_cases (Z.land (get8 buf 0) 15) 14) as [Ht|Ht].
  - rewrite (short_iff _ len) by done. intuition lia.
  - intuition lia.
Qed.

Lemma well_formed buf len : ~ malformed buf len -> PP_HEADER_LENGTH <= len /\ verify_frame buf len = true.
Proof. rewrite malformed_iff. destruct (verify_frame buf len); intuition (lia || congruence). Qed.

(** C33. Frames that are ignored. A frame acts exactly like no frame when it is shorter than a
    header (34 bytes) or than a message of its type (the table [least_lengths]; the reserved types
    4 to 7 have no entry and are let through here), of type 14 or 15, or of a version other than
    2. A well-formed frame of another domain, from an alternate master, from this very port, from
    another port of this clock unless it is an Announce (where the clock has more than one port),
    or for a port that is initializing, faulty or disabled acts like no frame once its header has
    been read; no other well-formed frame is filtered (clock identities have eight bytes). *)
Theorem frames_ignored `{Config, Platform} {HK : Hooks} (i : nat) (buf : list Z) (len : Z) (w : world) :
  let w1 := with_header i buf w in
  let p := inst w1 i in
  let hdr := received_ptp_header p in
  let own := portIdentity (portDS p) in
  (malformed buf len -> pp_state_machine i buf len w = pp_state_machine i [] 0 w) /\
  ((i < length (insts w))%nat -> ~ malformed buf len ->
   wf_pid own -> wf_pid (h_sourcePortIdentity hdr) ->
   (packet_prefilter (glbs w) p = true <->
      h_domainNumber hdr <> def_domainNumber (defaultDS (glbs w)) \/
      Z.land (nth 0 (h_flagField hdr) 0) PP_ALTERNATE_MASTER_FLAG <> 0 \/
      h_sourcePortIdentity hdr = own \/
      (clockIdentity (h_sourcePortIdentity hdr) = clockIdentity own /\
       1 < get_numberPorts (defaultDS (glbs w)) /\ h_messageType hdr <> PPM_ANNOUNCE) \/
      state p = PPS_INITIALIZING \/ state p = PPS_DISABLED \/ state p = PPS_FAULTY) /\
   (packet_prefilter (glbs w) p = true ->
      pp_state_machine i buf len w = pp_state_machine i [] 0 w1)).
Proof.
  cbn zeta. split.
  - intros Hb%malformed_iff. unfold pp_state_machine. destruct (Z.ltb_spec len PP_HEADER_LENGTH) as [|Hl]; [done|].
    destruct Hb as [|Hb]; [lia|]. unfold fsm_unpack_verify_frame. rewrite Hb. reflexivity.
  - intros Hi Hm Ho Hs. destruct (well_formed buf len Hm) as [Hl Hv]. split; [|by apply machine_filtered].
    unfold packet_prefilter. rewrite !orb_true_iff, !andb_true_iff, !negb_true_iff, same_pid_eq by done.
    rewrite !Z.eqb_eq, !Z.eqb_neq, Z.ltb_lt, memcmp_eq_iff by (unfold wf_pid in *; congruence). tauto.
Qed.

(** A Sync of domain 9, where the domain is 0. *)
Definition demo_foreign_sync : list Z := 0 :: 2 :: 0 :: 44 :: 9 :: replicate 39 3.

Lemma frames_ignored_witness :
  @pp_state_machine Demo.demo_config Demo.demo_platform (fun _ => pp_hooks) 0 demo_foreign_sync 44
    (Demo.demo_world [Demo.demo_inst 0 PPS_LISTENING] 0) =
  @pp_state_machine Demo.demo_config Demo.demo_platform (fun _ => pp_hooks) 0 [] 0
    (@with_header Demo.demo_platform 0 demo_foreign_sync (Demo.demo_world [Demo.demo_inst 0 PPS_LISTENING] 0)).
Proof.
  destruct (@frames_ignored Demo.demo_config Demo.demo_platform (fun _ => pp_hooks) 0 demo_foreign_sync 44
    (Demo.demo_world [Demo.demo_inst 0 PPS_LISTENING] 0)) as [_ Hf].
  apply Hf; [..|vm_compute; reflexivity]; try (vm_compute; first [lia|reflexivity]).
  intros Hm%malformed_iff. vm_compute in Hm. by destruct Hm.
Defined.

(** ** Sync and Follow_Up *)

Section Exchange.
Context `{Config, Platform} {HK : Hooks}.

(** A frame with header [h] arrives at time [t]. *)
Definition arrive (i : nat) (h : MsgHeader) (t : pp_time) (w : world) : world :=
  set_inst w i (fun p => p <| received_ptp_header := h |> <| last_rcv_time := t |>).

Definition from_parent (w : world) (h : MsgHeader) : Prop :=
  bmc_pidcmp (par_parentPortIdentity (parentDS (glbs w))) (h_sourcePortIdentity h) = 0.

Definition is_two_step (h : MsgHeader) : Prop := Z.land (nth 0 (h_flagField h) 0) PP_TWO_STEP_FLAG <> 0.

(** The timestamps of the exchange, whether its Follow_Up is awaited, and
    the protocol extension. *)
Definition ex_view (p : pp_instance) :=
  (t1 p, t2 p, t4 p, ppi_flags p, recv_sync_sequence_id p, protocol_extension p).

Lemma arrive_inst i h t w : (i < length (insts w))%nat ->
  inst (arrive i h t w) i = (inst w i) <| received_ptp_header := h |> <| last_rcv_time := t |>.
Proof. intros Hi. unfold arrive. by rewrite inst_set_same. Qed.

Lemma msg_from_master_run i h t w : (i < length (insts w))%nat -> from_parent w h ->
  msg_from_current_master i (arrive i h t w) = (true, arrive i h t w).
Proof.
  intros Hi Hp. unfold msg_from_current_master, DSPAR. rewrite bind_rdG, bind_rd, arrive_inst by done.
  unfold from_parent in Hp. unfold mret, M_ret. f_equal. cbn. by rewrite Hp.
Qed.

Lemma ex_servo : servo_frame ex_view.
Proof. by split. Qed.

(** The hook of the port for a Follow_Up, while the extension stays as it is, leaves the
    exchange alone. *)
Definition followup_quiet (i : nat) (w : world) : Prop :=
  forall h w', hk_handle_followup (hooks_of (protocol_extension (inst w i))) = Some h ->
    extState (inst w' i) = extState (inst w i) -> same_view ex_view parentDS w' (h i w').2.

Lemma ex_hook_or_servo i b w w1 : followup_quiet i w ->
  protocol_extension (inst w1 i) = protocol_extension (inst w i) -> extState (inst w1 i) = extState (inst w i) ->
  same_view ex_view parentDS w1 (hook_or_servo i hk_handle_followup b w1).2.
Proof.
  intros Hq Ep Es. unfold hook_or_servo. rewrite bind_unfold.
  match goal with |- context [if_hook i ?h ?f ?d w1] => set (r := if_hook i h f d w1) end.
  assert (same_view ex_view parentDS w1 r.2) as Hr.
  { unfold r, if_hook, ext_hook. rewrite bind_unfold. unfold rd. cbn [fst snd]. rewrite Ep.
    destruct (hk_handle_followup _) as [h|] eqn:Eh; [by apply Hq|cbn; reflexivity]. }
  etrans; [exact Hr|]. clearbody r. destruct r as [ret w2]. cbn [fst snd].
  match goal with |- same_view _ _ _ (?m w2).2 => assert (guar (same_view ex_view parentDS) m) as Hm; [|apply Hm] end.
  walk. by apply view_got_sync; [apply ex_servo|].
Qed.

(** A two-step Sync is stored and its Follow_Up awaited. *)
Lemma sync_stored i buf len h t w : (i < length (insts w))%nat -> from_parent w h -> is_two_step h ->
  slave_handle_sync i buf len (arrive i h t w) =
  (0, set_inst (set_inst (arrive i h t w) i (fun p => p <| t2 := last_rcv_time p |>)) i
    (fun p => p <| ppi_flags ::= fun f => Z.lor f PPI_FLAG_WAITING_FOR_F_UP |>
                <| recv_sync_sequence_id := h_sequenceId h |> <| t1 := h_cField h |>)).
Proof.
  intros Hi Hp Ht. unfold slave_handle_sync. rewrite bind_unfold, msg_from_master_run by done. cbn [fst snd negb].
  rewrite bind_wr, bind_rd_id, inst_set_same, arrive_inst by (unfold arrive; rewrite ?length_set_inst; done).
  match goal with |- context [two_step ?p] => assert (two_step p = true) as -> end.
  { unfold two_step. cbn. by apply negb_true_iff, Z.eqb_neq. }
  rewrite bind_wr. reflexivity.
Qed.

(** A Follow_Up that is not awaited changes nothing. *)
Lemma followup_ignored i buf len h t w : (i < length (insts w))%nat -> from_parent w h ->
  Z.land (ppi_flags (inst w i)) PPI_FLAG_WAITING_FOR_F_UP = 0 \/ recv_sync_sequence_id (inst w i) <> h_sequenceId h ->
  slave_handle_followup i buf len (arrive i h t w) = (0, arrive i h t w).
Proof.
  intros Hi Hp Hn. unfold slave_handle_followup. rewrite bind_unfold, msg_from_master_run by done. cbn [fst snd negb].
  rewrite bind_rd_id, arrive_inst by done. cbn [orb].
  match goal with |- (if ?b then _ else _) _ = _ => assert (b = true) as -> end; [|reflexivity].
  apply orb_true_iff. rewrite negb_true_iff, Z.eqb_eq, Z.eqb_neq. exact Hn.
Qed.

(** One that is completes the exchange. *)
Lemma followup_used i buf len h t w : followup_quiet i w ->
  (i < length (insts w))%nat -> from_parent w h ->
  Z.land (ppi_flags (inst w i)) PPI_FLAG_WAITING_FOR_F_UP <> 0 -> recv_sync_sequence_id (inst w i) = h_sequenceId h ->
  let p := inst w i in
  let p' := inst (slave_handle_followup i buf len (arrive i h t w)).2 i in
  t1 p' = pp_time_add (pp_time_add (t1 p) (unpack_origin_timestamp buf)) (h_cField h) /\ t2 p' = t2 p /\
  ppi_flags p' = Z.land (ppi_flags p) (Z.lnot PPI_FLAG_WAITING_FOR_F_UP) /\
  length (insts (slave_handle_followup i buf len (arrive i h t w)).2) = length (insts w) /\
  parentDS (glbs (slave_handle_followup i buf len (arrive i h t w)).2) = parentDS (glbs w).
Proof.
  intros Hh Hi Hp Hf Hs. cbn zeta. unfold slave_handle_followup.
  rewrite bind_unfold, msg_from_master_run by done. cbn [fst snd negb].
  rewrite bind_rd_id, arrive_inst by done. cbn [orb].
  match goal with |- context [(if ?b then _ else _) _] => assert (b = false) as -> end.
  { apply orb_false_iff. rewrite negb_false_iff, Z.eqb_eq, Z.eqb_neq. done. }
  rewrite bind_wr. set (w1 := set_inst _ i _).
  assert (inst w1 i = (inst w i) <| received_ptp_header := h |> <| last_rcv_time := t |>
    <| ppi_flags := Z.land (ppi_flags (inst w i)) (Z.lnot PPI_FLAG_WAITING_FOR_F_UP) |>
    <| t1 := pp_time_add (pp_time_add (t1 (inst w i)) (unpack_origin_timestamp buf)) (h_cField h) |>
    <| syncCF := scaled_nsecs (h_cField h) |>) as E1.
  { unfold w1. rewrite inst_set_same, arrive_inst by (unfold arrive; rewrite ?length_set_inst; done). reflexivity. }
  assert (length (insts w1) = length (insts w)) as Hl1 by (unfold w1, arrive; rewrite !length_set_inst; done).
  assert (parentDS (glbs w1) = parentDS (glbs w)) as Hp1 by reflexivity.
  assert ((i < length (insts w1))%nat) as Hi1 by (by rewrite Hl1). clearbody w1.
  match goal with |- context [(?m w1).2] => assert (same_view ex_view parentDS w1 (m w1).2) as Hm end.
  { unfold stamps_incorrect. rewrite bind_rd. destruct (truth _); [cbn; reflexivity|].
    apply (ex_hook_or_servo _ _ w); [done|by rewrite E1..]. }
  destruct (same_view_inst _ _ _ _ i Hm Hi1) as [Ev _].
  rewrite (f_equal (fun v => v.1.1.1.1.1) Ev : t1 _ = t1 _), (f_equal (fun v => v.1.1.1.1.2) Ev : t2 _ = t2 _),
    (f_equal (fun v => v.1.1.2) Ev : ppi_flags _ = ppi_flags _), E1.
  destruct (same_view_parts _ _ _ _ Hm) as (Hl & Hg & _). rewrite Hl, Hg. done.
Qed.

Lemma flag_set f k : k <> 0 -> Z.land (Z.lor f k) k <> 0.
Proof. intros Hk He. apply Hk. rewrite Z.land_lor_distr_l, Z.land_diag in He. apply (proj1 (Z.lor_eq_0_iff _ _) He). Qed.
Lemma flag_cleared f k : Z.land (Z.land f (Z.lnot k)) k = 0.
Proof. by rewrite <- Z.land_assoc, (Z.land_comm (Z.lnot k)), Z.land_lnot_diag, Z.land_0_r. Qed.

End Exchange.

(** C34. The two-step exchange, with messages of the current parent, on a port whose hook for
    Follow_Up messages, if there is one, keeps the timestamps: that of L1Sync, or of White Rabbit
    while the extension is not active ([extensions_followup_quiet]; an active White Rabbit port
    corrects [t1] and [t2] further). After a two-step Sync received at [rx1] and the Follow_Up
    with the same sequence number, [t1] is the master's precise origin timestamp plus both
    correction fields and [t2] is [rx1]; a Follow_Up with another sequence number, and a second
    one with the right number, change nothing. *)
Theorem two_step_exchange `{Config, Platform} {HK : Hooks} (i : nat) (w : world) (h1 h2 h3 : MsgHeader)
  (rx1 rx2 rx3 : pp_time) (buf1 buf2 buf3 : list Z) (len1 len2 len3 : Z) :
  followup_quiet i w -> (i < length (insts w))%nat ->
  from_parent w h1 -> from_parent w h2 -> from_parent w h3 -> is_two_step h1 ->
  let w1 := (slave_handle_sync i buf1 len1 (arrive i h1 rx1 w)).2 in
  let r2 := slave_handle_followup i buf2 len2 (arrive i h2 rx2 w1) in
  let r3 := slave_handle_followup i buf3 len3 (arrive i h3 rx3 r2.2) in
  (h_sequenceId h2 <> h_sequenceId h1 -> r2 = (0, arrive i h2 rx2 w1)) /\
  (h_sequenceId h2 = h_sequenceId h1 ->
     t1 (inst r2.2 i) = pp_time_add (pp_time_add (h_cField h1) (unpack_origin_timestamp buf2)) (h_cField h2) /\
     t2 (inst r2.2 i) = rx1 /\
     r3 = (0, arrive i h3 rx3 r2.2)).
Proof.
  intros Hh Hi P1 P2 P3 Ht. cbn zeta. rewrite sync_stored by done. cbn [snd].
  set (w1 := set_inst _ i _).
  assert (length (insts w1) = length (insts w)) as Hl by (unfold w1, arrive; rewrite !length_set_inst; done).
  assert (t1 (inst w1 i) = h_cField h1 /\ t2 (inst w1 i) = rx1 /\ recv_sync_sequence_id (inst w1 i) = h_sequenceId h1 /\
    ppi_flags (inst w1 i) = Z.lor (ppi_flags (inst w i)) PPI_FLAG_WAITING_FOR_F_UP) as (E1 & E2 & Eq & Ef).
  { unfold w1. rewrite !inst_set_same, arrive_inst by (unfold arrive; rewrite ?length_set_inst; done).
    split_and!; reflexivity. }
  assert (parentDS (glbs w1) = parentDS (glbs w)) as Hp by reflexivity.
  assert (followup_quiet i w1) as Hq.
  { unfold followup_quiet, w1. rewrite !inst_set_same, arrive_inst by (unfold arrive; rewrite ?length_set_inst; done).
    exact Hh. }
  clearbody w1.
  assert (from_parent w1 h2) as P2' by (unfold from_parent; by rewrite Hp).
  split; intros Hs.
  - apply followup_ignored; [lia|done|]. right. congruence.
  - destruct (followup_used i buf2 len2 h2 rx2 w1 Hq) as (V1 & V2 & Vf & Vl & Vp); [lia|done|..].
    { rewrite Ef. by apply flag_set. }
    { congruence. }
    rewrite V1, V2, E1, E2. split; [done|]. split; [done|].
    apply followup_ignored; [lia|unfold from_parent; by rewrite Vp, Hp|]. left. rewrite Vf. apply flag_cleared.
Qed.

Definition demo_header (flags seq : Z) : MsgHeader :=
  zero_hdr <| h_flagField := [flags; 0] |> <| h_sequenceId := seq |> <| h_cField := mk_time 0 65536 |>.
Definition demo_slave : @world Demo.demo_platform := Demo.demo_world [Demo.demo_inst 0 PPS_SLAVE] 7000.
(** A Follow_Up whose origin timestamp is 5 s and 9 ns. *)
Definition demo_follow_up : list Z := replicate 34 0 ++ [0; 0; 0; 0; 0; 5; 0; 0; 0; 9].

Lemma two_step_exchange_witness :
  let w1 := (@slave_handle_sync Demo.demo_config Demo.demo_platform demo_hooks 0%nat [] 0
    (@arrive Demo.demo_platform 0%nat (demo_header 2 40) (mk_time 5 1000000) demo_slave)).2 in
  let r2 := @slave_handle_followup Demo.demo_config Demo.demo_platform demo_hooks 0%nat demo_follow_up 44
    (@arrive Demo.demo_platform 0%nat (demo_header 0 40) (mk_time 6 0) w1) in
  t1 (inst r2.2 0) = mk_time 5 (11 * 65536) /\ t2 (inst r2.2 0) = mk_time 5 1000000.
Proof.
  destruct (@two_step_exchange Demo.demo_config Demo.demo_platform demo_hooks 0 demo_slave
    (demo_header 2 40) (demo_header 0 40) (demo_header 0 40) (mk_time 5 1000000) (mk_time 6 0) (mk_time 7 0)
    [] demo_follow_up demo_follow_up 0 44 44) as [_ Hx].
  1: done.
  1: vm_compute; lia.
  1-3: reflexivity.
  1: by vm_compute.
  destruct (Hx eq_refl) as (E1 & E2 & _). cbn zeta. split; [|exact E2]. etrans; [exact E1|]. by vm_compute.
Defined.

(** ** Delay_Resp *)

Section Response.
Context `{Config, Platform} {HK : Hooks}.

(** The response answers our last Delay_Req, and comes from our master. *)
Definition answers (w : world) (i : nat) (requesting : PortIdentity) : Prop :=
  let p := inst w i in
  let own := portIdentity (portDS p) in
  clockIdentity own = clockIdentity requesting /\ portNumber own = portNumber requesting /\
  nth (Z.to_nat PPM_DELAY_REQ) (sent_seq p) 0 = h_sequenceId (received_ptp_header p) /\
  from_parent w (received_ptp_header p).

(** What follows the correction of [t4]. *)
Definition after_t4 (i : nat) : M Z :=
  ret ← if_hook i hk_handle_resp (fun h => h i) (pp_servo_got_resp i true);
  p ← rd i id;
  let log := h_logMessageInterval (received_ptp_header p) in
  when (negb (truth ret) && negb (logMinDelayReqInterval (portDS p) =? log))
    (setPOR i (fun q => q <| logMinDelayReqInterval := log |>);;
     pp_timeout_init i);;
  mret 0.

Lemma ex_after_t4 i : (forall e, hk_handle_resp (hooks_of e) = None) ->
  guar (same_view ex_view parentDS) (after_t4 i).
Proof.
  intros Hh. unfold after_t4, setPOR. walk.
  - apply guar_if_hook; [apply _| |].
    + intros f e He. by rewrite Hh in He.
    + by apply view_got_resp; [apply ex_servo|].
  - by apply view_timeout_init.
Qed.

Lemma response_run i buf len w :
  length (clockIdentity (portIdentity (portDS (inst w i)))) = length (clockIdentity (unpack_resp buf).2) ->
  (answers w i (unpack_resp buf).2 ->
   slave_handle_response i buf len w =
   (wr i (fun p => p <| t4 := (unpack_resp buf).1 |>);; correct_t4 i;; after_t4 i) w) /\
  (~ answers w i (unpack_resp buf).2 -> slave_handle_response i buf len w = (0, w)).
Proof.
  intros Hl. unfold slave_handle_response, answers, from_parent. destruct (unpack_resp buf) as [ts req]. cbn [fst snd] in *.
  rewrite bind_rd_id, bind_unfold.
  assert (msg_from_current_master i w = (bmc_pidcmp (par_parentPortIdentity (parentDS (glbs w)))
    (h_sourcePortIdentity (received_ptp_header (inst w i))) =? 0, w)) as -> by reflexivity. cbn [fst snd].
  unfold bmc_idcmp. set (p := inst w i) in *. set (c := bmc_pidcmp _ _).
  pose proof (memcmp_eq_iff _ _ Hl) as Hm. cbn zeta.
  destruct (Z.eqb_spec (memcmp (clockIdentity (portIdentity (portDS p))) (clockIdentity req)) 0) as [Em|Em];
    destruct (Z.eqb_spec (nth (Z.to_nat PPM_DELAY_REQ) (sent_seq p) 0) (h_sequenceId (received_ptp_header p)));
    destruct (Z.eqb_spec (portNumber (portIdentity (portDS p))) (portNumber req));
    destruct (Z.eqb_spec c 0); cbn [negb orb]; (split; [intros (A1 & A2 & A3 & A4)|intros A]);
    try reflexivity; exfalso; tauto.
Qed.

Lemma correct_t4_run i w : (forall e, hk_is_correction_field_compliant (hooks_of e) = None) ->
  correct_t4 i w = (tt, set_inst w i (fun p => p <| t4 :=
    pp_time_sub (pp_time_sub (t4 p) (h_cField (received_ptp_header p))) (mk_time 0 (delayAsymmetry (portDS p))) |>)).
Proof.
  intros Hh. unfold correct_t4, cf_not_compliant, if_hook, ext_hook. rewrite bind_unfold, bind_rd, Hh. reflexivity.
Qed.

End Response.

(** The delay request exchange. A Delay_Resp that does not answer our last request (other
    requesting port, other sequence number) or is not from our master changes nothing; one that
    does sets [t4] to the receive timestamp less its correction field and the delay asymmetry,
    and leaves the timestamps of the Sync alone. *)
Theorem delay_response_exchange `{Config, Platform} {HK : Hooks} (i : nat) (buf : list Z) (len : Z) (w : world) :
  (forall e, hk_handle_resp (hooks_of e) = None /\ hk_is_correction_field_compliant (hooks_of e) = None) ->
  (i < length (insts w))%nat ->
  let p := inst w i in
  let '(receiveTimestamp, requesting) := unpack_resp buf in
  let r := slave_handle_response i buf len w in
  length (clockIdentity (portIdentity (portDS p))) = length (clockIdentity requesting) ->
  (~ answers w i requesting -> r = (0, w)) /\
  (answers w i requesting ->
     t4 (inst r.2 i) =
       pp_time_sub (pp_time_sub receiveTimestamp (h_cField (received_ptp_header p)))
         (mk_time 0 (delayAsymmetry (portDS p))) /\
     t1 (inst r.2 i) = t1 p /\ t2 (inst r.2 i) = t2 p).
Proof.
  intros Hh Hi. cbn zeta. destruct (unpack_resp buf) as [ts req] eqn:Eu. intros Hl.
  destruct (response_run i buf len w) as [Ha Hn]; [by rewrite Eu|]. rewrite Eu in Ha, Hn. cbn [fst snd] in Ha, Hn.
  split; [exact Hn|]. intros A. rewrite (Ha A), bind_wr, bind_unfold, correct_t4_run by (intros; apply Hh). cbn [fst snd].
  set (w2 := set_inst _ i _).
  assert (t4 (inst w2 i) = pp_time_sub (pp_time_sub ts (h_cField (received_ptp_header (inst w i))))
    (mk_time 0 (delayAsymmetry (portDS (inst w i)))) /\ t1 (inst w2 i) = t1 (inst w i) /\
    t2 (inst w2 i) = t2 (inst w i) /\ (i < length (insts w2))%nat) as (E4 & E1 & E2 & Hi2).
  { unfold w2. rewrite !length_set_inst, !inst_set_same by (by rewrite ?length_set_inst). split_and!; done. }
  clearbody w2. pose proof (ex_after_t4 i (fun e => proj1 (Hh e)) w2) as Hv.
  destruct (same_view_inst _ _ _ _ i Hv Hi2) as [Ev _].
  rewrite (f_equal (fun v => v.1.1.1.2) Ev : t4 _ = t4 _), (f_equal (fun v => v.1.1.1.1.1) Ev : t1 _ = t1 _),
    (f_equal (fun v => v.1.1.1.1.2) Ev : t2 _ = t2 _). done.
Qed.

(** A response to request 7 of port 1: received at 9 s. *)
Definition demo_resp : list Z :=
  replicate 34 0 ++ [0; 0; 0; 0; 0; 9; 0; 0; 0; 0] ++ Demo.demo_id 1 ++ [0; 1].
Definition demo_requesting : @world Demo.demo_platform :=
  Demo.demo_world [(Demo.demo_inst 0 PPS_SLAVE) <| sent_seq := replicate 14 7 |>
    <| received_ptp_header := demo_header 0 7 |>] 7000.

Lemma delay_response_exchange_witness :
  t4 (inst (@slave_handle_response Demo.demo_config Demo.demo_platform demo_hooks 0%nat demo_resp 54
    demo_requesting).2 0) = mk_time 8 (1000000000 * 65536 - 65536).
Proof.
  pose proof (@delay_response_exchange Demo.demo_config Demo.demo_platform demo_hooks 0%nat demo_resp 54
    demo_requesting) as Hd. cbn zeta in Hd.
  destruct (unpack_resp demo_resp) as [ts req] eqn:Eu. vm_compute in Eu. injection Eu as <- <-.
  destruct Hd as [_ Ha]; [by intros []|vm_compute; lia|reflexivity|].
  destruct Ha as (E4 & _); [by vm_compute|]. etrans; [exact E4|]. by vm_compute.
Defined.

(** ** Announce receipt timeout *)

Section AnnounceTimeout.
Context `{Config, Platform} {HK : Hooks}.

Lemma flush_erbest_run i w : (i < length (insts w))%nat -> table_shape (inst w i) ->
  let p := inst w i in
  let p' := inst (bmc_flush_erbest i w).2 i in
  frgn_rec_best p' = -1 /\ next_state p' = next_state p /\
  records p' = (if frgn_rec_best p =? -1 then records p else delete (Z.to_nat (frgn_rec_best p)) (records p)).
Proof.
  intros Hi Hs. cbn zeta. pose proof Hs as [Hl Hn Hb]. unfold bmc_flush_erbest, bmc_remove_foreign_master.
  rewrite bind_rd_id, bind_unfold. destruct (Z.eqb_spec (frgn_rec_best (inst w i)) (-1)) as [E|E]; cbn [negb andb when].
  - cbn [mret M_ret snd wr]. rewrite inst_set_same by done. done.
  - rewrite (proj2 (Z.ltb_lt _ _)) by lia. cbn [when wr snd].
    rewrite !inst_set_same by (rewrite ?length_set_inst; done).
    destruct (remove_frgn_spec (Z.to_nat (frgn_rec_best (inst w i))) (inst w i) Hs) as (Hr & _); [lia|].
    split; [done|]. split; [|exact Hr].
    etrans; [|apply (remove_frgn_other next_state (Z.to_nat (frgn_rec_best (inst w i))))]; done.
Qed.

(** The table with its records. *)
Definition table_of (p : pp_instance) : list pp_frgn_master * Z * Z :=
  (frgn_master p, frgn_rec_num p, frgn_rec_best p).

(** The same with a table that has been read before. *)
Lemma flush_erbest_same i w p : (i < length (insts w))%nat -> table_of (inst w i) = table_of p -> table_shape p ->
  let p' := inst (bmc_flush_erbest i w).2 i in
  frgn_rec_best p' = -1 /\ next_state p' = next_state (inst w i) /\
  records p' = (if frgn_rec_best p =? -1 then records p else delete (Z.to_nat (frgn_rec_best p)) (records p)).
Proof.
  intros Hi Ht [S1 S2 S3].
  assert (frgn_master (inst w i) = frgn_master p) as F1 by exact (f_equal (fun v => v.1.1) Ht).
  assert (frgn_rec_num (inst w i) = frgn_rec_num p) as F2 by exact (f_equal (fun v => v.1.2) Ht).
  assert (frgn_rec_best (inst w i) = frgn_rec_best p) as F3 by exact (f_equal snd Ht).
  assert (records (inst w i) = records p) as F4 by (unfold records; congruence).
  cbn zeta. rewrite <- F3, <- F4. apply flush_erbest_run; [done|]. split; congruence.
Qed.

(** What the data set updates and the timers leave alone. *)
Definition at_view (p : pp_instance) := (table_of p, next_state p).

Lemma at_updates i :
  guar (same_view at_view (fun _ => tt))
    (gm ← is_grand_master; if gm : bool then bmc_m1 i else bmc_m3 i).
Proof.
  unfold is_grand_master. walk; by first [apply view_bmc_m1|apply view_bmc_m3].
Qed.

End AnnounceTimeout.

(** The announce receipt timeout. As long as the timer has not expired nothing happens.
    When it expires, the port is to become a master (a slave-only port listens), Erbest is
    taken out of the foreign master table and the other records are kept in order. *)
Theorem announce_timeout_effect `{Config, Platform} (i : nat) (w : world) :
  (i < length (insts w))%nat -> table_ok (inst w i) ->
  is_externalPortConfigurationEnabled (defaultDS (glbs w)) = false ->
  let t := pp_timeout i PP_TO_ANN_RECEIPT w in
  let p := inst w i in
  let w' := (st_com_check_announce_receive_timeout i w).2 in
  (t.1 = false -> w' = t.2) /\
  (t.1 = true ->
     next_state (inst w' i) = (if is_slaveOnly (defaultDS (glbs w)) then PPS_LISTENING else PPS_MASTER) /\
     frgn_rec_best (inst w' i) = -1 /\
     records (inst w' i) =
       (if frgn_rec_best p =? -1 then records p else delete (Z.to_nat (frgn_rec_best p)) (records p))).
Proof.
  intros Hi [Hs _ _] He. cbn zeta. unfold st_com_check_announce_receive_timeout, DSDEF.
  rewrite bind_rdG, bind_assert by (by rewrite He). rewrite bind_unfold.
  assert (guar (same_view at_view (fun _ => tt)) (pp_timeout i PP_TO_ANN_RECEIPT)) as Q1 by (by apply view_timeout).
  specialize (Q1 w). destruct (pp_timeout i PP_TO_ANN_RECEIPT w) as [b w1]. cbn [fst snd] in *.
  split; intros ->; [done|]. cbn [when]. set (so := is_slaveOnly _). rewrite bind_unfold.
  assert (guar (same_view at_view (fun _ => tt)) (pp_timeout_reset i PP_TO_ANN_RECEIPT)) as Q2
    by (by apply view_timeout_reset).
  specialize (Q2 w1). set (w2 := (pp_timeout_reset i PP_TO_ANN_RECEIPT w1).2) in *. clearbody w2.
  assert (exists w3, same_view at_view (fun _ => tt) w2 w3 /\
    ((if negb so then gm ← is_grand_master; (if gm : bool then bmc_m1 i else bmc_m3 i);;
        wr i (fun p => p <| next_state := PPS_MASTER |>)
      else wr i (fun p => p <| next_state := PPS_LISTENING |>)) w2).2 =
    set_inst w3 i (fun p => p <| next_state := if so then PPS_LISTENING else PPS_MASTER |>)) as (w3 & Q3 & E3).
  { destruct so; cbn [negb]; [exists w2; split; [reflexivity|done]|].
    pose proof (at_updates i w2) as Q. rewrite bind_unfold in *. rewrite bind_unfold. eexists. split; [exact Q|done]. }
  rewrite bind_unfold, E3. clear E3. assert (same_view at_view (fun _ => tt) w w3) as Q
    by (etrans; [exact Q1|]; etrans; [exact Q2|exact Q3]).
  destruct (same_view_inst _ _ _ _ i Q Hi) as [Ev Hi3]. pose proof (f_equal fst Ev) as Et. cbn [at_view fst] in Et.
  set (w4 := set_inst w3 i _).
  assert (table_of (inst w4 i) = table_of (inst w i) /\
    next_state (inst w4 i) = if so then PPS_LISTENING else PPS_MASTER) as [T4 N4].
  { unfold w4. rewrite inst_set_same by done. split; [exact Et|done]. }
  assert ((i < length (insts w4))%nat) as Hi4 by (unfold w4; by rewrite length_set_inst). clearbody w4.
  destruct (flush_erbest_same i w4 (inst w i) Hi4 T4 Hs) as (B & N & R). rewrite N, N4, B, R. done.
Qed.

(** An announce timer that expired long ago, on the port with two foreign masters. *)
Definition demo_expired : @world Demo.demo_platform :=
  Demo.demo_world [demo_port <| tmo_cfg := replicate 14 (zero_tmo <| initValueMs := 3000 |> <| tmo := 1000 |>) |>] 90000.

Lemma announce_timeout_effect_witness :
  records (inst (@st_com_check_announce_receive_timeout Demo.demo_config Demo.demo_platform 0%nat demo_expired).2 0)
  = [demo_frgn 3 5].
Proof.
  destruct (@announce_timeout_effect Demo.demo_config Demo.demo_platform 0%nat demo_expired) as [_ Ht].
  - vm_compute. lia.
  - split; [split; vm_compute; intuition congruence|apply (bool_decide_unpack _); by vm_compute|repeat constructor].
  - by vm_compute.
  - destruct Ht as (_ & _ & R); [by vm_compute|]. etrans; [exact R|]. by vm_compute.
Defined.
