(* ===== verification/Identity.v ===== *)
(** * One identity for all ports (state-initializing.c)

    Each port of a switch has its own MAC address, consecutive in the order
    of the ports.  The clock identity is made of the address of port 0,
    whichever port computes it. *)

From S2P Require Import Prelude TimeArith Types World Timeout Hooks Bytes Msg FixedPoint Servo.
From S2P Require Import BmcCmp ClockQuality Bmc Common States.

(** The loop is a subtraction with borrow. *)
Lemma mac_sub_rev_be n v r : 0 <= r < 256 -> mac_sub_rev (rev (be n v)) r = rev (be n (v - r)).
Proof.
  revert v r. induction n as [|n IH]; intros v r Hr; [done|]. cbn [be]. rewrite !rev_app_distr. cbn [rev app mac_sub_rev].
  assert ((v - r) / 256 = v / 256 - (if r <=? v mod 256 then 0 else 1) /\
    (v - r) mod 256 = u8 (v mod 256 - r)) as [Ed Em].
  { unfold u8. rewrite Zminus_mod_idemp_l. split; [|done].
    pose proof (Z.div_mod v 256 ltac:(lia)). pose proof (Z.mod_pos_bound v 256 ltac:(lia)).
    destruct (Z.leb_spec r (v mod 256)).
    - symmetry. apply (Z.div_unique _ _ _ (v mod 256 - r)); lia.
    - symmetry. apply (Z.div_unique _ _ _ (v mod 256 - r + 256)); lia. }
  rewrite Em, Ed. f_equal. apply IH. destruct (_ <=? _); lia.
Qed.

Lemma mac_port1_be v r : 0 <= r < 256 -> mac_port1 (be 6 v) r = be 6 (v - r).
Proof. intros Hr. unfold mac_port1. by rewrite mac_sub_rev_be, rev_involutive. Qed.

(** One identity for all ports. If the ports have consecutive MAC addresses, from [base] for
    port 0 on (48-bit, with wrap-around), then whichever port initialises the data sets, the
    clock identity is the EUI-64 of the address of port 0, and this clock is its own parent and
    grandmaster. *)
Theorem clock_identity_common `{Config, Platform} (w : world) (i : nat) (base : Z) :
  let def := defaultDS (glbs w) in
  (i < 256)%nat -> 1 < get_numberPorts def -> ch_addr (inst w i) = be 6 (base + Z.of_nat i) ->
  let g := glbs (init_default_ds i def w).2 in
  let id := take 3 (be 6 base) ++ [0xff; 0xfe] ++ drop 3 (be 6 base) in
  def_clockIdentity (defaultDS g) = id /\
  clockIdentity (par_parentPortIdentity (parentDS g)) = id /\ par_grandmasterIdentity (parentDS g) = id.
Proof.
  intros def Hi Hn Hmac g id. unfold g, init_default_ds. rewrite bind_rd, Hmac.
  assert (u8 (Z.of_nat i) = Z.of_nat i) as -> by (apply Z.mod_small; lia).
  set (mac0 := if _ && _ then _ else _).
  assert (mac0 = be 6 base) as ->.
  { unfold mac0. rewrite (proj2 (Z.ltb_lt _ _) Hn). cbn [andb]. destruct (Z.eqb_spec (Z.of_nat i) 0) as [E|E]; cbn [negb].
    - by rewrite E, Z.add_0_r.
    - rewrite mac_port1_be by lia. f_equal. lia. }
  assert (mac_identity (be 6 base) = id) as Hid.
  { unfold mac_identity, id. by do 2 f_equal. }
  rewrite <- Hid. split_and!; reflexivity.
Qed.

Lemma clock_identity_common_witness :
  def_clockIdentity (defaultDS (glbs (@init_default_ds Demo.demo_config Demo.demo_platform 1%nat
    (defaultDS (Demo.demo_globals 2))
    (Demo.demo_world [Demo.demo_inst 0 PPS_INITIALIZING;
       (Demo.demo_inst 1 PPS_INITIALIZING) <| ch_addr := [2; 0; 0; 1; 0; 0] |>] 0)).2))
  = [2; 0; 0; 255; 254; 0; 255; 255].
Proof.
  exact (proj1 (@clock_identity_common Demo.demo_config Demo.demo_platform
    (Demo.demo_world [Demo.demo_inst 0 PPS_INITIALIZING;
       (Demo.demo_inst 1 PPS_INITIALIZING) <| ch_addr := [2; 0; 0; 1; 0; 0] |>] 0) 1%nat 0x02000000ffff
    ltac:(vm_compute; lia) ltac:(by vm_compute) ltac:(by vm_compute))).
Defined.
