(* ===== verification/Safety.v ===== *)
(** * Safety of the state machine

    An invariant of the whole system that every run of the state machine
    keeps: the foreign master tables are well formed, every port is in a
    state of the table, and no assertion of the code has failed.

    The code calls protocol extensions through hooks.  What it relies on is
    the class [HooksSafe]; the plain PTP table fulfils it. *)

From S2P Require Import Prelude TimeArith Types World Timeout Hooks Bytes Msg FixedPoint Servo.
From S2P Require Import BmcCmp ClockQuality Bmc BmcTable BmcDecision Common States Fsm.

Definition valid_state (s : Z) : Prop := PPS_INITIALIZING <= s <= PPS_SLAVE.

(** What no handler changes: the state itself, the sender of the frame at
    hand, and the configuration. *)
Definition core (p : pp_instance) : Z * PortIdentity * Z :=
  (state p, h_sourcePortIdentity (received_ptp_header p), desiredState p).
Definition gcore (x : pp_globals) : Z * Z := (def_externalPortConfigurationEnabled (defaultDS x), nlinks x).

(** Moreover what most functions do not touch: the table, the offset of the
    payload in a received frame and the next state. *)
Definition fview (p : pp_instance) := (core p, table_view p, (rx_offset p, next_state p)).

Lemma fview_msg : msg_frame fview.
Proof. by split. Qed.
Lemma fview_servo : servo_frame fview.
Proof. by split. Qed.

Section Safety.
Context `{Config, Platform} {HK : Hooks}.

Definition epc (w : world) : bool := is_externalPortConfigurationEnabled (defaultDS (glbs w)).

Definition offsets_ok (w : world) : Prop := Forall (fun p => 0 <= rx_offset p) (insts w).
Definition next_ok (i : nat) (w : world) : Prop :=
  ((i < length (insts w))%nat -> valid_state (next_state (inst w i))) /\ offsets_ok w.

(** What is known while an instance is handled: its index, its state, the
    sender of the frame, and whether ports are configured externally. *)
Record situation := mk_sit { sit_i : nat; sit_state : Z; sit_pid : PortIdentity; sit_epc : bool }.

Record ok (s : situation) (w : world) : Prop := {
  ok_i : (sit_i s < length (insts w))%nat;
  ok_tables : tables_ok w;
  ok_next : next_ok (sit_i s) w;
  ok_desired : sit_epc s = true -> Forall (fun p => valid_state (desiredState p)) (insts w);
  ok_epc : epc w = sit_epc s;
  ok_pid : h_sourcePortIdentity (received_ptp_header (inst w (sit_i s))) = sit_pid s;
  ok_state : state (inst w (sit_i s)) = sit_state s }.

(** A handler's guarantee. *)
Definition R (s : situation) : relation world :=
  fun w w' => ok s w -> ok s w' /\ same_view core gcore w w'.

#[global] Instance R_preorder s : PreOrder (R s).
Proof.
  split; unfold R.
  - intros w Hw. split; [done|reflexivity].
  - intros w1 w2 w3 H12 H23 Hw. destruct (H12 Hw) as [Hw2 V12]. destruct (H23 Hw2) as [Hw3 V23].
    split; [done|by etrans].
Qed.

(** ** The contract of the extensions *)

Definition plain_hooks : list (pp_ext_hooks -> option (nat -> M Z)) :=
  [hk_handle_resp; hk_handle_announce; hk_handle_sync; hk_handle_followup; hk_handle_preq;
   hk_handle_presp; hk_handle_dreq; hk_ready_for_slave; hk_get_tmo_lstate_detection;
   hk_extension_state_changed].
Definition buf_hooks : list (pp_ext_hooks -> option (nat -> list Z -> Z -> M Z)) :=
  [hk_init; hk_listening; hk_new_slave; hk_handle_signaling; hk_run_ext_state_machine].
Abbreviation quiet_fview m := (guar (same_view fview gcore) m).

Class HooksSafe := {
  hs_open : forall e h i, hk_open (hooks_of e) = Some h -> quiet_fview (h i);
  hs_send : forall e i,
    (forall h, hk_is_correction_field_compliant (hooks_of e) = Some h -> quiet_fview (h i)) /\
    (forall h, hk_get_egress_latency (hooks_of e) = Some h -> quiet_fview (h i)) /\
    (forall h, hk_pack_announce (hooks_of e) = Some h -> quiet_fview (h i));
  hs_recv : forall e h i, hk_get_ingress_latency (hooks_of e) = Some h -> quiet_fview (h i);
  hs_unpack : forall e h i buf a, hk_unpack_announce (hooks_of e) = Some h -> quiet_fview (h i buf a);
  hs_s1 : forall e h i f, hk_bmca_s1 (hooks_of e) = Some h -> quiet_fview (h i f);
  hs_decision : forall e h i s, hk_state_decision (hooks_of e) = Some h ->
    quiet_fview (h i s) /\ (forall w, valid_state s -> valid_state (h i s w).1);
  hs_change : forall e h i, hk_state_change (hooks_of e) = Some h -> quiet_fview (h i);
  hs_plain : forall e sel h s, sel ∈ plain_hooks -> sel (hooks_of e) = Some h -> guar (R s) (h (sit_i s));
  hs_buf : forall e sel h s buf len, sel ∈ buf_hooks -> sel (hooks_of e) = Some h ->
    guar (R s) (h (sit_i s) buf len) }.

Context `{!HooksSafe}.

(** ** Quiet functions *)

Lemma fview_inst w w' : same_view fview gcore w w' -> forall j, fview (inst w' j) = fview (inst w j).
Proof.
  intros Hv j. destruct (decide (j < length (insts w))%nat) as [Hj|Hj].
  - by destruct (same_view_inst _ _ _ _ j Hv Hj).
  - destruct (same_view_parts _ _ _ _ Hv) as (Hl & _). unfold inst.
    by rewrite !lookup_ge_None_2 by lia.
Qed.

Lemma core_inst w w' : same_view core gcore w w' -> forall j, core (inst w' j) = core (inst w j).
Proof.
  intros Hv j. destruct (decide (j < length (insts w))%nat) as [Hj|Hj].
  - by destruct (same_view_inst _ _ _ _ j Hv Hj).
  - destruct (same_view_parts _ _ _ _ Hv) as (Hl & _). unfold inst.
    by rewrite !lookup_ge_None_2 by lia.
Qed.

(** [Forall] over the instances, by index. *)
Lemma Forall_insts (Q : pp_instance -> Prop) w :
  Forall Q (insts w) <-> forall j, (j < length (insts w))%nat -> Q (inst w j).
Proof.
  rewrite Forall_lookup. unfold inst. split.
  - intros Hq j Hj. destruct (lookup_lt_is_Some_2 _ _ Hj) as [p Hp]. rewrite Hp. cbn. by eapply Hq.
  - intros Hq j p Hp. pose proof (lookup_lt_Some _ _ _ Hp) as Hj. specialize (Hq j Hj). by rewrite Hp in Hq.
Qed.

Lemma Forall_set (Q : pp_instance -> Prop) w i g :
  Q (g (inst w i)) -> Forall Q (insts w) -> Forall Q (insts (set_inst w i g)).
Proof.
  intros Hq Hw. rewrite Forall_insts in *. intros j Hj.
  assert (length (insts (set_inst w i g)) = length (insts w)) as Hl by apply length_alter. rewrite Hl in Hj.
  destruct (decide (j = i)) as [->|]; [by rewrite inst_set_same|]. rewrite inst_set_other by done. auto.
Qed.

Lemma epc_gcore w w' : gcore (glbs w') = gcore (glbs w) -> epc w' = epc w.
Proof.
  unfold epc, gcore, is_externalPortConfigurationEnabled. by intros [= -> _].
Qed.

(** The parts of [ok] that follow from the core. *)
Lemma ok_core s w w' : ok s w -> same_view core gcore w w' -> tables_ok w' -> next_ok (sit_i s) w' -> ok s w'.
Proof.
  intros [I T N D E Hp S] Hv T' N'. pose proof (core_inst _ _ Hv) as Hc.
  destruct (same_view_parts _ _ _ _ Hv) as (Hl & Hg & _). pose proof (epc_gcore _ _ Hg) as He.
  pose proof (Hc (sit_i s)) as Ci. unfold core in Ci. injection Ci as C1 C2 C3.
  split; [by rewrite Hl|done|done| |congruence..].
  intros He'. rewrite Forall_insts. intros j Hj. rewrite Hl in Hj.
  pose proof (f_equal snd (Hc j)) as Ej. cbn in Ej. rewrite Ej.
  exact (proj1 (Forall_insts _ _) (D He') j Hj).
Qed.

Lemma fview_core w w' : same_view fview gcore w w' -> same_view core gcore w w'.
Proof. apply (same_view_comp fview gcore (fun x => x.1.1)). Qed.

Lemma R_intro {A} s (m : M A) : guar (same_view core gcore) m -> guar (inv_rel tables_ok) m ->
  guar (inv_rel (next_ok (sit_i s))) m -> guar (R s) m.
Proof.
  intros Hv Ht Hn w Hw. split; [|apply Hv]. apply (ok_core s w); [done|apply Hv|apply Ht, Hw|apply Hn, Hw].
Qed.

Lemma nexts_fview {A} i (m : M A) : quiet_fview m -> guar (inv_rel (next_ok i)) m.
Proof.
  intros Hm w [Hw Ho]. specialize (Hm w). pose proof (fview_inst _ _ Hm) as Hf.
  destruct (same_view_parts _ _ _ _ Hm) as (Hl & _ & _). split.
  - intros Hi. rewrite Hl in Hi. pose proof (f_equal (fun v => v.2.2) (Hf i)) as E. cbn in E. rewrite E. auto.
  - unfold offsets_ok in *. rewrite Forall_insts in *. intros j Hj. rewrite Hl in Hj.
    pose proof (f_equal (fun v => v.2.1) (Hf j)) as E. cbn in E. rewrite E. auto.
Qed.

Lemma R_view {A} s (m : M A) : quiet_fview m -> guar (R s) m.
Proof.
  intros Hm. apply R_intro.
  - intros w. apply fview_core, Hm.
  - apply (tables_ok_view fview gcore (fun x => x.1.2)); done.
  - by apply nexts_fview.
Qed.

Lemma nexts_wr i j f : (forall p, valid_state (next_state p) -> valid_state (next_state (f p))) ->
  (forall p, 0 <= rx_offset p -> 0 <= rx_offset (f p)) -> guar (inv_rel (next_ok i)) (wr j f).
Proof.
  intros Hf Hg w [Hw Ho]. unfold next_ok, offsets_ok. cbn [wr snd]. rewrite Forall_insts, length_set_inst.
  unfold offsets_ok in Ho. rewrite Forall_insts in Ho. split; [intros Hi|intros k Hk].
  - destruct (decide (j = i)) as [->|]; [rewrite inst_set_same by done|rewrite inst_set_other by done]; auto.
  - destruct (decide (j = k)) as [->|]; [rewrite inst_set_same by done|rewrite inst_set_other by done]; auto.
Qed.

(** Assigning the next state. *)
Lemma R_next s i st : valid_state st -> guar (R s) (wr i (fun p => p <| next_state := st |>)).
Proof.
  intros Hst. apply R_intro.
  - apply guar_view_wr. done.
  - apply guar_tables_wr. intros p [[Tl Tn Tb] Td Tw]. split; [by split|exact Td|exact Tw].
  - by apply nexts_wr.
Qed.

(** Reading what the situation fixes. *)
Lemma R_bind_def {A} s (k : defaultDS_t -> M A) :
  (forall def, is_externalPortConfigurationEnabled def = sit_epc s -> guar (R s) (k def)) ->
  guar (R s) (DSDEF ≫= k).
Proof. intros Hk w Hw. unfold DSDEF. rewrite bind_rdG. apply Hk; [apply Hw|done]. Qed.

Lemma R_bind_inst {A} s (k : pp_instance -> M A) :
  (forall p, state p = sit_state s -> h_sourcePortIdentity (received_ptp_header p) = sit_pid s ->
     (sit_epc s = true -> valid_state (desiredState p)) -> valid_state (next_state p) -> guar (R s) (k p)) ->
  guar (R s) (rd (sit_i s) id ≫= k).
Proof.
  intros Hk w Hw. rewrite bind_rd_id. pose proof Hw as [I T N D E Hp S].
  apply Hk; [done|done| | |done].
  - intros He. exact (proj1 (Forall_insts _ _) (D He) _ I).
  - exact (proj1 N I).
Qed.

Lemma R_bind_state {A} s (k : Z -> M A) : guar (R s) (k (sit_state s)) ->
  guar (R s) (rd (sit_i s) state ≫= k).
Proof. intros Hk w Hw. rewrite bind_rd, (ok_state _ _ Hw). by apply Hk. Qed.

Lemma R_when s b m : (b = true -> guar (R s) m) -> guar (R s) (when b m).
Proof. destruct b; intros Hm; [auto|apply guar_ret, _]. Qed.

Lemma R_assert s b : b = true -> guar (R s) (c_assert b).
Proof. intros -> w Hw. split; [done|reflexivity]. Qed.

(** ** Entering an Announce *)

(** The tables of the other instances. *)
Definition others (i : nat) : relation world := fun w w' =>
  length (insts w') = length (insts w) /\ forall j, j <> i -> table_view (inst w' j) = table_view (inst w j).
#[local] Instance others_preorder i : PreOrder (others i).
Proof.
  split; unfold others; [done|]. intros w1 w2 w3 [L12 V12] [L23 V23].
  split; [congruence|]. intros j Hj. rewrite V23 by done. auto.
Qed.
Lemma others_wr i f : guar (others i) (wr i f).
Proof.
  intros w. split; [apply length_set_inst|]. intros j Hj. cbn [wr snd]. by rewrite inst_set_other by done.
Qed.
Lemma others_view {A G} i (g : pp_globals -> G) (m : M A) : guar (same_view table_view g) m -> guar (others i) m.
Proof.
  intros Hm w. specialize (Hm w). destruct (same_view_parts _ _ _ _ Hm) as (Hl & _). split; [done|].
  intros j _. destruct (decide (j < length (insts w))%nat) as [Hj|Hj].
  - by destruct (same_view_inst _ _ _ _ j Hm Hj).
  - unfold inst. by rewrite !lookup_ge_None_2 by lia.
Qed.

Lemma view_add_body i f : guar (same_view core gcore) (add_frgn_body i f).
Proof.
  unfold add_frgn_body, own_announce, bmc_p1, refresh_frgn_master, new_frgn_slot, put_frgn, pp_timeout_reset.
  walk; by first [apply view_timeout_reset_N|apply view_calc_timeout].
Qed.

Lemma others_add_body i f : guar (others i) (add_frgn_body i f).
Proof.
  unfold add_frgn_body, own_announce, bmc_p1, refresh_frgn_master, new_frgn_slot, put_frgn, pp_timeout_reset.
  walk; first [apply others_wr|apply (others_view _ gcore)]; by first [apply view_timeout_reset_N|apply view_calc_timeout].
Qed.

Lemma nexts_add_body j i f : guar (inv_rel (next_ok j)) (add_frgn_body i f).
Proof.
  unfold add_frgn_body, own_announce, bmc_p1, refresh_frgn_master, new_frgn_slot, put_frgn, pp_timeout_reset.
  walk; first [by apply nexts_wr|apply nexts_fview]; by first [apply view_timeout_reset_N|apply view_calc_timeout].
Qed.

Lemma R_add s f : announce_state (sit_state s) -> wf_pid (sit_pid s) -> fm_sourcePortIdentity f = sit_pid s ->
  guar (R s) (bmc_add_frgn_master (sit_i s) f).
Proof.
  intros Hst Hwf Hf w Hw. pose proof Hw as [I T N D E Hp S].
  assert ((bmc_add_frgn_master (sit_i s) f w) = add_frgn_body (sit_i s) f w) as Ea.
  { unfold bmc_add_frgn_master. rewrite bind_rd, S. destruct Hst as (S1 & S2 & S3).
    by rewrite !bind_assert by (by apply negb_true_iff, Z.eqb_neq). }
  assert (same_view core gcore w (bmc_add_frgn_master (sit_i s) f w).2) as Hv by (rewrite Ea; apply view_add_body).
  split; [|done]. apply (ok_core s w); [done..| |rewrite Ea; by apply nexts_add_body].
  destruct (add_frgn_master_ok w (sit_i s) f) as (Hl & _ & Hok & _); [done|by apply tables_ok_inst| | |].
  { split; congruence. }
  { by rewrite S. }
  apply Forall_insts. intros j Hj. rewrite Hl in Hj. destruct (decide (j = sit_i s)) as [->|Hne]; [done|].
  destruct (others_add_body (sit_i s) f w) as [_ Ho]. specialize (Ho j Hne). rewrite <- Ea in Ho.
  eapply table_ok_view; [exact Ho|by apply tables_ok_inst].
Qed.

Lemma view_store i buf : quiet_fview (bmc_store_frgn_master i buf).
Proof.
  unfold bmc_store_frgn_master, msg_unpack_announce. walk. apply guar_if_hook; [apply _| |walk].
  intros h e He. by eapply hs_unpack.
Qed.

(** The stored record has the sender of the frame at hand. *)
Lemma R_bind_store {A} s buf (k : pp_frgn_master -> M A) :
  (forall f, fm_sourcePortIdentity f = sit_pid s -> guar (R s) (k f)) ->
  guar (R s) (bmc_store_frgn_master (sit_i s) buf ≫= k).
Proof.
  intros Hk w Hw. rewrite bind_unfold.
  destruct (R_view s _ (view_store (sit_i s) buf) w Hw) as [Hw1 V1].
  assert (fm_sourcePortIdentity (bmc_store_frgn_master (sit_i s) buf w).1 = sit_pid s) as Hf.
  { unfold bmc_store_frgn_master in *. rewrite bind_unfold, bind_rd_id in *. cbn.
    exact (ok_pid _ _ Hw1). }
  destruct (Hk _ Hf _ Hw1) as [Hw2 V2]. split; [done|by etrans].
Qed.

(** ** Quiet functions *)

Lemma q_timeout i k : quiet_fview (pp_timeout i k).
Proof. by apply view_timeout. Qed.
Lemma q_timeout_reset_N i k n : quiet_fview (pp_timeout_reset_N i k n).
Proof. by apply view_timeout_reset_N. Qed.
Lemma q_timeout_reset i k : quiet_fview (pp_timeout_reset i k).
Proof. by apply view_timeout_reset_N. Qed.
Lemma q_timeout_set i k ms : quiet_fview (pp_timeout_set i k ms).
Proof. by apply view_timeout_set. Qed.
Lemma q_timeout_disable i k : quiet_fview (pp_timeout_disable i k).
Proof. by apply view_timeout_set. Qed.
Lemma q_timeout_init i : quiet_fview (pp_timeout_init i).
Proof. by apply view_timeout_init. Qed.
Lemma q_timeout_setall i : quiet_fview (pp_timeout_setall i).
Proof. by apply view_timeout_setall. Qed.
Lemma q_next_delay_1 i a : quiet_fview (pp_next_delay_1 i a).
Proof. by apply view_next_delay_1. Qed.
Lemma q_next_delay_2 i a b : quiet_fview (pp_next_delay_2 i a b).
Proof. by apply view_next_delay_2. Qed.
Lemma q_next_delay_3 i a b d : quiet_fview (pp_next_delay_3 i a b d).
Proof. by apply view_next_delay_3. Qed.
Lemma q_bmc_m1 i : quiet_fview (bmc_m1 i).
Proof. by apply view_bmc_m1. Qed.
Lemma q_bmc_m3 i : quiet_fview (bmc_m3 i).
Proof. by apply view_bmc_m3. Qed.
Lemma q_bmc_s1 i f : quiet_fview (bmc_s1 i f).
Proof. apply view_bmc_s1; try done. apply hs_s1. Qed.
Lemma q_apply_decision i : quiet_fview (bmc_apply_state_descision i).
Proof. apply view_apply_state_descision; try done; [apply hs_s1|]. intros. by eapply hs_decision. Qed.
Lemma q_issue_request i : quiet_fview (msg_issue_request i).
Proof. apply view_issue_request; first [apply fview_msg|apply hs_send]. Qed.
Lemma q_issue_delay_resp i t : quiet_fview (msg_issue_delay_resp i t).
Proof. apply view_issue_delay_resp; first [apply fview_msg|apply hs_send]. Qed.
Lemma q_issue_pdelay_resp i t : quiet_fview (msg_issue_pdelay_resp i t).
Proof. apply view_issue_pdelay_resp; first [apply fview_msg|apply hs_send]. Qed.
Lemma q_issue_pdelay_resp_followup i t : quiet_fview (msg_issue_pdelay_resp_followup i t).
Proof. apply view_issue_pdelay_resp_followup; first [apply fview_msg|apply hs_send]. Qed.
Lemma q_vlan_announce i : quiet_fview (pp_vlan_issue_announce i).
Proof.
  apply view_vlan_issue; [apply fview_msg|]. intros j. apply view_issue_announce; first [apply fview_msg|apply hs_send].
Qed.
Lemma q_vlan_sync i : quiet_fview (pp_vlan_issue_sync_followup i).
Proof.
  apply view_vlan_issue; [apply fview_msg|]. intros j.
  apply view_issue_sync_followup; first [apply fview_msg|apply hs_send].
Qed.
Lemma q_servo_init i : quiet_fview (pp_servo_init i).
Proof. apply view_servo_init; first [apply fview_servo|done]. Qed.
Lemma q_stamps i m : quiet_fview (stamps_incorrect i m).
Proof. by apply view_stamps. Qed.
Lemma q_calculate_delays i : quiet_fview (pp_servo_calculate_delays i).
Proof. apply view_calculate_delays; first [apply fview_servo|done]. Qed.
Lemma q_got_sync i b : quiet_fview (pp_servo_got_sync i b).
Proof. apply view_got_sync; first [apply fview_servo|done]. Qed.
Lemma q_got_resp i b : quiet_fview (pp_servo_got_resp i b).
Proof. apply view_got_resp; first [apply fview_servo|done]. Qed.
Lemma q_got_presp i : quiet_fview (pp_servo_got_presp i).
Proof. apply view_got_presp; first [apply fview_servo|done]. Qed.
Lemma q_cf i : quiet_fview (cf_not_compliant i).
Proof. apply view_cf; apply hs_send. Qed.
Hint Resolve q_timeout q_timeout_reset_N q_timeout_reset q_timeout_set q_timeout_disable q_timeout_init
  q_timeout_setall q_next_delay_1 q_next_delay_2 q_next_delay_3 q_bmc_m1 q_bmc_m3 q_bmc_s1 q_apply_decision
  q_issue_request q_issue_delay_resp q_issue_pdelay_resp q_issue_pdelay_resp_followup q_vlan_announce
  q_vlan_sync q_servo_init q_stamps q_calculate_delays q_got_sync q_got_resp q_got_presp q_cf view_store : guar.

Lemma q_may_issue_sync i : quiet_fview (pp_lib_may_issue_sync i).
Proof. unfold pp_lib_may_issue_sync. walk. Qed.
Lemma q_may_issue_announce i : quiet_fview (pp_lib_may_issue_announce i).
Proof. unfold pp_lib_may_issue_announce, refresh_utc, setPRO. walk. Qed.
Lemma q_may_issue_request i : quiet_fview (pp_lib_may_issue_request i).
Proof. unfold pp_lib_may_issue_request. walk. Qed.
Lemma q_is_grand_master : quiet_fview is_grand_master.
Proof. unfold is_grand_master. walk. Qed.
Lemma q_correct_t4 i : quiet_fview (correct_t4 i).
Proof. unfold correct_t4. walk. Qed.
Lemma q_msg_from_current_master i : quiet_fview (msg_from_current_master i).
Proof. unfold msg_from_current_master. walk. Qed.
Lemma q_set_next_delay i d : quiet_fview (set_next_delay i d).
Proof. unfold set_next_delay. walk. Qed.
Hint Resolve q_may_issue_sync q_may_issue_announce q_may_issue_request q_is_grand_master q_correct_t4
  q_msg_from_current_master q_set_next_delay : guar.
Lemma q_delay_p2p i a b : quiet_fview a -> quiet_fview b -> quiet_fview (delay_p2p i a b).
Proof. intros. unfold delay_p2p. walk. Qed.
Lemma q_master_next_delay i pre b : quiet_fview (master_next_delay i pre b).
Proof. unfold master_next_delay. destruct pre, b; apply q_delay_p2p; walk. Qed.
Hint Resolve q_delay_p2p q_master_next_delay : guar.

(** ** Handlers *)

Create HintDb safe.
Hint Extern 3 (guar (R _) _) => apply R_view; solve [eauto 3 with guar] : safe.
Hint Resolve R_next : safe.
Hint Extern 1 (valid_state _) => first [assumption | unfold valid_state; vm_compute; split; discriminate] : safe.
Hint Extern 1 (_ ∈ plain_hooks) => (apply list_elem_of_In; cbn; auto 20) : safe.
Hint Extern 1 (_ ∈ buf_hooks) => (apply list_elem_of_In; cbn; auto 20) : safe.

(** Follow the text of a handler. *)
Ltac rwalk := repeat first
  [ progress intros
  | solve [eauto 3 with safe]
  | match goal with
    | |- PreOrder _ => apply _
    | |- guar (R _) (mbind _ DSDEF) => apply R_bind_def
    | |- guar (R ?s) (mbind _ (rd (sit_i ?s) id)) => apply R_bind_inst
    | |- guar (R ?s) (mbind _ (rd (sit_i ?s) state)) => apply R_bind_state
    | |- guar (R ?s) (mbind _ (bmc_store_frgn_master (sit_i ?s) _)) => apply R_bind_store
    | |- guar (R _) (mbind _ _) => apply guar_bind
    | |- guar (R _) (when _ _) => apply R_when
    | |- guar (R _) (if_hook _ _ _ _) => apply guar_if_hook; [apply _| |]
    | H : ?h (hooks_of _) = Some ?x |- guar (R ?s) (?x (sit_i ?s)) => eapply hs_plain; [|exact H]
    | H : ?h (hooks_of _) = Some ?x |- guar (R ?s) (?x (sit_i ?s) _ _) => eapply hs_buf; [|exact H]
    | |- guar (R _) (wr _ _) => apply R_view, guar_view_wr; intros; reflexivity
    | |- guar (R _) (wrG _) => apply R_view, guar_view_wrG; intros; reflexivity
    | |- guar (R _) (match ?x with _ => _ end) => destruct x eqn:?
    end
  | progress cbn beta zeta ].

(** Removing a record touches the table only. *)
Lemma remove_frgn_rest k p :
  (core (remove_frgn k p), rx_offset (remove_frgn k p), next_state (remove_frgn k p)) =
  (core p, rx_offset p, next_state p).
Proof. by apply (remove_frgn_other (fun p => (core p, rx_offset p, next_state p))). Qed.

Lemma R_flush_erbest s i : guar (R s) (bmc_flush_erbest i).
Proof.
  apply R_intro; [|apply tables_flush_erbest|].
  - unfold bmc_flush_erbest, bmc_remove_foreign_master. walk. apply guar_view_wr. intros p.
    exact (f_equal (fun v => v.1.1) (remove_frgn_rest _ p)).
  - unfold bmc_flush_erbest, bmc_remove_foreign_master. walk; [|by apply nexts_wr].
    apply nexts_wr; intros p; 
    match goal with |- context [remove_frgn ?k _] => pose proof (remove_frgn_rest k p) as E end.
    + by rewrite (f_equal snd E : next_state _ = _).
    + by rewrite (f_equal (fun v => v.1.2) E : rx_offset _ = _).
Qed.

Section Handlers.
Context (s : situation).
Abbreviation i := (sit_i s).

Lemma R_check_announce : sit_epc s = false -> guar (R s) (st_com_check_announce_receive_timeout i).
Proof.
  intros He. unfold st_com_check_announce_receive_timeout. rwalk; auto using R_flush_erbest.
  apply R_assert. match goal with E : _ = sit_epc s |- _ => by rewrite E, He end.
Qed.

Lemma R_presp_call_servo : guar (R s) (presp_call_servo i).
Proof. unfold presp_call_servo. rwalk. Qed.
Hint Resolve R_presp_call_servo : safe.

Lemma R_peer_pres buf len : guar (R s) (st_com_peer_handle_pres i buf len).
Proof. unfold st_com_peer_handle_pres. rwalk. Qed.
Lemma R_peer_pres_followup buf len : guar (R s) (st_com_peer_handle_pres_followup i buf len).
Proof. unfold st_com_peer_handle_pres_followup. rwalk. Qed.
Lemma R_peer_preq buf len : guar (R s) (st_com_peer_handle_preq i buf len).
Proof. unfold st_com_peer_handle_preq. rwalk. Qed.
Lemma R_peer_action m f buf len : peer_action m = Some f -> guar (R s) (f i buf len).
Proof.
  unfold peer_action. repeat case_match; intros; simplify_eq;
    auto using R_peer_pres, R_peer_pres_followup, R_peer_preq.
Qed.
Lemma R_signaling buf len : guar (R s) (st_com_handle_signaling i buf len).
Proof. unfold st_com_handle_signaling. rwalk. Qed.
Lemma R_com_announce buf len : guar (R s) (st_com_handle_announce i buf len).
Proof. unfold st_com_handle_announce. rwalk. Qed.
Hint Resolve R_signaling R_com_announce : safe.

Lemma R_run_action acts buf len e :
  (forall m f, acts m = Some f -> guar (R s) (f i buf len)) -> guar (R s) (run_action acts i buf len e).
Proof. intros Ha. unfold run_action. rwalk. Qed.

(** *** Announce *)

Section Announce.
Hypothesis Hst : announce_state (sit_state s).
Hypothesis Hwf : wf_pid (sit_pid s).

Lemma R_store_announce buf : guar (R s) (store_announce i buf).
Proof. unfold store_announce. rwalk; auto using R_add. Qed.
Hint Resolve R_store_announce : safe.
Lemma R_plain_announce buf len : guar (R s) (plain_handle_announce i buf len).
Proof. unfold plain_handle_announce. rwalk. Qed.
Lemma R_passive_announce buf len : guar (R s) (passive_handle_announce i buf len).
Proof. unfold passive_handle_announce. rwalk. Qed.
Lemma R_slave_announce buf len : guar (R s) (slave_handle_announce i buf len).
Proof. unfold slave_handle_announce. rwalk; auto using R_add. Qed.
Lemma R_delay_request buf len : guar (R s) (master_handle_delay_request i buf len).
Proof. unfold master_handle_delay_request. rwalk. Qed.
Lemma R_hook_or_servo sel b : sel ∈ plain_hooks -> guar (R s) (hook_or_servo i sel b).
Proof. intros. unfold hook_or_servo. rwalk. Qed.
Hint Resolve R_hook_or_servo : safe.
Lemma R_slave_sync buf len : guar (R s) (slave_handle_sync i buf len).
Proof. unfold slave_handle_sync. rwalk. Qed.
Lemma R_slave_followup buf len : guar (R s) (slave_handle_followup i buf len).
Proof. unfold slave_handle_followup. rwalk. Qed.
Lemma R_slave_response buf len : guar (R s) (slave_handle_response i buf len).
Proof. unfold slave_handle_response, setPOR. rwalk. Qed.
Hint Resolve R_plain_announce R_passive_announce R_slave_announce R_delay_request R_slave_sync
  R_slave_followup R_slave_response R_check_announce : safe.

Ltac acts := apply R_run_action; intros ? ?;
  unfold listening_actions, passive_actions, master_actions, slave_actions;
  repeat case_match; intros; simplify_eq; eauto using R_peer_action with safe.

Lemma R_listening_acts buf len e : guar (R s) (run_action listening_actions i buf len e).
Proof. acts. Qed.
Lemma R_passive_acts buf len e : guar (R s) (run_action passive_actions i buf len e).
Proof. acts. Qed.
Lemma R_master_acts buf len e : guar (R s) (run_action master_actions i buf len e).
Proof. acts. Qed.
Lemma R_slave_acts buf len e : guar (R s) (run_action slave_actions i buf len e).
Proof. acts. Qed.
Hint Resolve R_listening_acts R_passive_acts R_master_acts R_slave_acts : safe.

(** *** States *)

Lemma R_listening buf len : guar (R s) (pp_listening i buf len).
Proof.
  unfold pp_listening, listening_out, listening_epc_out, set_next_state. rwalk.
  apply R_check_announce. match goal with E : negb _ = true |- _ => apply negb_true_iff in E end. congruence.
Qed.
Lemma R_passive buf len : guar (R s) (pp_passive i buf len).
Proof.
  unfold pp_passive, set_next_state. rwalk.
Qed.
Lemma R_master buf len : guar (R s) (pp_master i buf len).
Proof. unfold pp_master, set_next_state. rwalk. Qed.
Lemma R_slave buf len : guar (R s) (pp_slave i buf len).
Proof.
  unfold pp_slave, slave_upgrade, slave_out, set_next_state, setPAR. rwalk.
  apply R_check_announce. match goal with E : negb _ = true |- _ => apply negb_true_iff in E end. congruence.
Qed.

End Announce.

Lemma R_faulty buf len : guar (R s) (pp_faulty i buf len).
Proof. unfold pp_faulty, set_next_state. rwalk. Qed.
Lemma R_disabled buf len : guar (R s) (pp_disabled i buf len).
Proof. unfold pp_disabled. rwalk. Qed.

Lemma R_after_init : guar (R s) (after_init i).
Proof.
  unfold after_init, set_next_state. rwalk. apply R_next. repeat case_match; auto with safe.
Qed.
Hint Resolve R_after_init : safe.
Lemma R_prepare_pointers : guar (R s) (pp_prepare_pointers i).
Proof.
  unfold pp_prepare_pointers. rwalk; (apply R_intro; [by apply guar_view_wr|apply guar_tables_wr|
    apply nexts_wr; [done|intros p _; cbn; unfold ETH_HLEN; repeat case_match; lia]]);
    intros p [[Tl Tn Tb] Td Tw]; (split; [by split|exact Td|exact Tw]).
Qed.
Hint Resolve R_prepare_pointers : safe.
Lemma R_initializing buf len : guar (R s) (pp_initializing i buf len).
Proof.
  unfold pp_initializing, n_ops_init, init_failure, init_default_ds, init_parent_ds, init_port_ds, must_init_ds,
    msg_init_header, wbuf, setDEF, setPAR, setPOR. rwalk.
Qed.

Lemma R_call_state buf len : valid_state (sit_state s) -> wf_pid (sit_pid s) ->
  guar (R s) (call_state (sit_state s) i buf len).
Proof.
  intros Hv Hwf. unfold call_state, pp_state_table.
  assert (sit_state s <> PPS_INITIALIZING -> sit_state s <> PPS_FAULTY -> sit_state s <> PPS_DISABLED ->
    announce_state (sit_state s)) as Ha by (unfold announce_state; auto).
  repeat match goal with |- context [?x =? ?y] => destruct (Z.eqb_spec x y) end;
    auto using R_initializing, R_faulty, R_disabled, R_listening, R_master, R_passive, R_slave.
  exfalso. unfold valid_state, PPS_INITIALIZING, PPS_FAULTY, PPS_DISABLED, PPS_LISTENING, PPS_PRE_MASTER,
    PPS_MASTER, PPS_PASSIVE, PPS_UNCALIBRATED, PPS_SLAVE in *. lia.
Qed.

End Handlers.

(** ** The machine *)

(** The number of links. *)
Context (nl : Z).

(** The invariant of the system. *)
Record sys_ok (w : world) : Prop := {
  sk_links : nlinks (glbs w) = nl /\ (Z.to_nat nl <= length (insts w))%nat;
  sk_tables : tables_ok w;
  sk_states : Forall (fun p => valid_state (state p)) (insts w);
  sk_desired : epc w = true -> Forall (fun p => valid_state (desiredState p)) (insts w);
  sk_offsets : offsets_ok w;
  sk_headers : Forall (fun p => wf_pid (h_sourcePortIdentity (received_ptp_header p))) (insts w);
  sk_assert : assert_failed w = false }.

Record good (i : nat) (w : world) : Prop := {
  gd_sys : sys_ok w;
  gd_i : (i < length (insts w))%nat;
  gd_next : valid_state (next_state (inst w i)) }.

Definition sit (w : world) (i : nat) : situation :=
  mk_sit i (state (inst w i)) (h_sourcePortIdentity (received_ptp_header (inst w i))) (epc w).

Lemma sys_ok_core w w' : sys_ok w -> same_view core gcore w w' -> tables_ok w' -> offsets_ok w' -> sys_ok w'.
Proof.
  intros [L T S D O Hh Ha] Hv T' O'. pose proof (core_inst _ _ Hv) as Hc.
  destruct (same_view_parts _ _ _ _ Hv) as (Hl & Hg & Ea). pose proof (epc_gcore _ _ Hg) as He.
  rewrite Forall_insts in *. split; [by rewrite Hl, (f_equal snd Hg : nlinks _ = _)|done| | |done| |congruence]; [|rewrite He; intros Hepc; specialize (D Hepc);
    rewrite Forall_insts in *|]; rewrite ?Forall_insts; intros j Hj; rewrite Hl in Hj;
    pose proof (Hc j) as E; unfold core in E; injection E as E1 E2 E3; rewrite ?E1, ?E2, ?E3; auto.
Qed.

(** An instance that keeps its part of the invariant. *)
Record inst_ok (e : bool) (p : pp_instance) : Prop := {
  ik_table : table_ok p;
  ik_state : valid_state (state p);
  ik_desired : e = true -> valid_state (desiredState p);
  ik_offset : 0 <= rx_offset p;
  ik_header : wf_pid (h_sourcePortIdentity (received_ptp_header p)) }.

Lemma sys_inst w i : sys_ok w -> (i < length (insts w))%nat -> inst_ok (epc w) (inst w i).
Proof.
  intros [L T S D O Hh Ha] Hi. unfold offsets_ok in O. rewrite Forall_insts in S, O, Hh.
  split; [by apply tables_ok_inst|auto| |auto|auto]. intros He. specialize (D He). rewrite Forall_insts in D. auto.
Qed.

Lemma sys_ok_set w i g : sys_ok w ->
  ((i < length (insts w))%nat -> inst_ok (epc w) (inst w i) -> inst_ok (epc w) (g (inst w i))) ->
  sys_ok (set_inst w i g).
Proof.
  intros Hs Hg. destruct (decide (i < length (insts w))%nat) as [Hi|]; [|by rewrite set_inst_oob by lia].
  destruct (Hg Hi (sys_inst w i Hs Hi)) as [T' S' D' O' H']. destruct Hs as [L T S D O Hh Ha].
  split; [by rewrite length_set_inst|by apply tables_ok_set| | | | |done]; try (by apply Forall_set).
  intros He. apply Forall_set; auto.
Qed.

Lemma quiet_sys {A} (m : M A) w : sys_ok w -> quiet_fview m -> sys_ok (m w).2.
Proof.
  intros Hs Hm. apply (sys_ok_core w); [done|apply fview_core, Hm| |].
  - by apply (tables_ok_view fview gcore (fun x => x.1.2)); [..|apply Hs].
  - apply (nexts_fview (length (insts w)) m Hm). split; [lia|apply Hs].
Qed.

Lemma good_ok i w : good i w -> ok (sit w i) w.
Proof. intros [[L T S D O Hh Ha] Hi Hn]. split; cbn; auto. by split. Qed.

Lemma R_step {A} i (m : M A) w : good i w -> guar (R (sit w i)) m ->
  good i (m w).2 /\ sit (m w).2 i = sit w i.
Proof.
  intros Hg Hm. destruct (Hm w (good_ok i w Hg)) as [[I T [N O] D E Hp S] Hv]. cbn in *.
  split; [split; [by apply (sys_ok_core w); [apply Hg|..]|done|auto]|].
  unfold sit. by rewrite E, Hp, S.
Qed.

Lemma quiet_step {A} i (m : M A) w : good i w -> quiet_fview m -> good i (m w).2 /\ sit (m w).2 i = sit w i.
Proof. intros Hg Hm. by apply R_step, R_view. Qed.

Lemma good_state i w : good i w -> valid_state (state (inst w i)) /\
  wf_pid (h_sourcePortIdentity (received_ptp_header (inst w i))).
Proof. intros [[L T S D O Hh Ha] Hi Hn]. rewrite Forall_insts in S, Hh. auto. Qed.

(** Leaving a state for a valid one. *)
Lemma leave_ok i w : good i w -> sys_ok (pp_leave_current_state i w).2.
Proof.
  intros Hg. unfold pp_leave_current_state. rewrite bind_unfold.
  set (m1 := if_hook i hk_state_change _ _). assert (quiet_fview m1) as Q1.
  { unfold m1. apply guar_if_hook; [apply _| |walk]. intros h e He. walk. by eapply hs_change. }
  destruct (quiet_step i m1 w Hg Q1) as [G1 _]. set (w1 := (m1 w).2) in *. clearbody w1. clear m1 Q1.
  rewrite bind_rd_id, bind_unfold. set (m2 := when _ (pp_timeout_setall i)).
  assert (quiet_fview m2) as Q2 by (unfold m2; walk).
  destruct (quiet_step i m2 w1 G1 Q2) as [G2 _]. set (w2 := (m2 w1).2) in *. clearbody w2. clear m2 Q2.
  rewrite !bind_wr. cbn [mret M_ret snd].
  apply sys_ok_set; [apply sys_ok_set; [apply G2|]|].
  - intros Hi [T S D O Hh]. split; [by refine (table_ok_view _ _ _ T)|by apply G2|done..].
  - intros Hi [T S D O Hh]. destruct (_ =? _); (split; [by refine (table_ok_view _ _ _ T)|done..]).
Qed.

Lemma leave_or_ok i k w : good i w -> (good i w -> sys_ok (k w).2) -> sys_ok (leave_or i k w).2.
Proof.
  intros Hg Hk. unfold leave_or. rewrite bind_rd_id. destruct (negb _); [by apply leave_ok|auto].
Qed.

(** The decision recommends a valid state. *)
Lemma apply_decision_valid i w : good i w -> valid_state (bmc_apply_state_descision i w).1.
Proof.
  intros Hg. unfold bmc_apply_state_descision, DSDEF. rewrite bind_rd_id, bind_rdG.
  set (e := is_externalPortConfigurationEnabled _). rewrite bind_unfold. set (m1 := if negb (truth _) then _ else _).
  assert (quiet_fview m1) as Q1.
  { unfold m1, bmc_state_descision_epc, bmc_check_frgn_master, bmc_p1. walk. by apply view_bmc_m2. }
  assert (e = false -> (m1 w).1 = -1 \/ valid_state (m1 w).1) as V1.
  { intros E. unfold m1. rewrite E. destruct (negb _); [by right|]. destruct (1 <? _); [|by left].
    rewrite bind_unfold. destruct (bmc_check_frgn_master i w).1; cbn; [by right|by left]. }
  destruct (quiet_step i m1 w Hg Q1) as [G1 _]. destruct (m1 w) as [n1 w1]. cbn [fst snd] in *. clear m1 Q1.
  rewrite bind_unfold. set (m2 := if negb e && _ then _ else _).
  assert (quiet_fview m2) as Q2.
  { unfold m2. walk. apply view_state_decision; try done. apply hs_s1. }
  assert (e = false -> valid_state (m2 w1).1) as V2.
  { intros E. unfold m2. rewrite E. cbn [negb andb]. destruct (Z.eqb_spec n1 (-1)) as [->|].
    - apply decision_valid.
    - by destruct (V1 E). }
  destruct (quiet_step i m2 w1 G1 Q2) as [G2 _]. destruct (m2 w1) as [n2 w2]. cbn [fst snd] in *. clear m2 Q2 V1.
  rewrite bind_unfold. set (m3 := if_hook _ _ _ _).
  assert (quiet_fview m3) as Q3.
  { unfold m3. apply guar_if_hook; [apply _| |walk]. intros h x Hx. walk. by eapply hs_decision. }
  assert (e = false -> valid_state (m3 w2).1) as V3.
  { intros E. unfold m3, if_hook. rewrite bind_unfold. cbn. destruct (hk_state_decision _) as [h|] eqn:Eh; [|by apply V2].
    rewrite bind_rd. eapply hs_decision; [exact Eh|]. apply G2. }
  destruct (quiet_step i m3 w2 G2 Q3) as [G3 _]. rewrite bind_rd. cbn [mret M_ret fst].
  destruct e; [apply good_state, G3|by apply V3].
Qed.

(** A step that keeps the situation, then the rest. *)
Lemma then_ok {A} i (m : M A) (k : A -> M Z) w : good i w -> guar (R (sit w i)) m ->
  (forall a w', good i w' -> sit w' i = sit w i -> sys_ok (k a w').2) -> sys_ok ((m ≫= k) w).2.
Proof. intros Hg Hm Hk. rewrite bind_unfold. destruct (R_step i m w Hg Hm). by apply Hk. Qed.

Lemma good_of_sys {A} i (m : M A) w : good i w -> guar (R (sit w i)) m -> sys_ok (m w).2.
Proof. intros Hg Hm. apply (R_step i m w Hg Hm). Qed.

Lemma R_first_frame s len : guar (R s) (first_frame (sit_i s) len).
Proof. unfold first_frame, pdstate_set_state_pdetection, pdstate_set. rwalk. Qed.

Lemma R_check_protocol s : guar (R s) (check_protocol (sit_i s)).
Proof. unfold check_protocol, pdstate_disable_extension. rwalk. Qed.

Lemma extension_ok i buf len w : good i w -> sys_ok (run_extension i buf len w).2.
Proof.
  intros Hg. unfold run_extension, if_hook, ext_hook. rewrite bind_rd.
  match goal with |- context [match ?x with Some _ => _ | None => _ end] => destruct x as [h|] eqn:Eh end;
    [|apply Hg].
  apply (then_ok i); [done|refine (hs_buf _ hk_run_ext_state_machine h (sit w i) buf len _ Eh); auto with safe|].
  intros d w' G' _. apply leave_or_ok; [done|]. intros _.
  apply (good_of_sys i); [done|]. apply R_view. walk.
Qed.

Lemma bmc_ok i k w : good i w -> (forall w', good i w' -> sys_ok (k w').2) -> sys_ok (run_bmc i k w).2.
Proof.
  intros Hg Hk. unfold run_bmc. rewrite bind_rd. destruct (truth _); [|auto].
  apply (then_ok i); [done|apply R_view; walk|]. intros [] w1 G1 _.
  rewrite bind_unfold. destruct (quiet_step i (bmc_apply_state_descision i) w1 G1 (q_apply_decision i)) as [G2 _].
  pose proof (apply_decision_valid i w1 G1) as Hv. destruct (bmc_apply_state_descision i w1) as [st w2].
  cbn [fst snd] in *.
  apply (then_ok i); [done|by apply R_next|]. intros [] w3 G3 _. apply leave_or_ok; [done|]. auto.
Qed.

(** The header of a frame that is accepted. *)
Lemma verify_wf buf len : len <= Z.of_nat (length buf) ->
  let '(b, l) := if len <? PP_HEADER_LENGTH then ([], 0) else (buf, len) in
  verify_frame b l = true -> wf_pid (h_sourcePortIdentity (msg_unpack_header b)).
Proof.
  intros Hl. destruct (Z.ltb_spec len PP_HEADER_LENGTH) as [|Hh]; [by vm_compute|]. intros _.
  unfold PP_HEADER_LENGTH in Hh. apply (length_slice 20 8). lia.
Qed.

(** The frame is unpacked, the state item found: the rest starts in a good state. *)
Lemma unpack_ok i buf len w : sys_ok w -> (i < length (insts w))%nat ->
  (verify_frame buf len = true -> wf_pid (h_sourcePortIdentity (msg_unpack_header buf))) ->
  let w' := (fsm_unpack_verify_frame i buf len w).2 in
  sys_ok w' /\ (i < length (insts w'))%nat.
Proof.
  intros Hs Hi Hv. unfold fsm_unpack_verify_frame. destruct (verify_frame buf len); [|by split].
  rewrite bind_wr. cbn [mret M_ret snd]. split; [|by rewrite length_set_inst].
  apply sys_ok_set; [done|]. intros _ [T S D O Hh]. split; [by refine (table_ok_view _ _ _ T)|done..|]. by apply Hv.
Qed.

Lemma get_item_ok i w : sys_ok w -> (i < length (insts w))%nat ->
  exists w', get_current_state_table_item i w = (state (inst w' i), w') /\
    sys_ok w' /\ (i < length (insts w'))%nat.
Proof.
  intros Hs Hi. assert (quiet_fview (get_current_state_table_item i)) as Q
    by (unfold get_current_state_table_item; walk).
  specialize (Q w). pose proof (fview_inst _ _ Q i) as Ei. destruct (same_view_parts _ _ _ _ Q) as (Hl & _ & _).
  exists (get_current_state_table_item i w).2. split_and!; [| |by rewrite Hl].
  - pose proof (f_equal (fun x => x.1.1.1.1) Ei) as E. cbn in E. rewrite E.
    unfold get_current_state_table_item. rewrite bind_rd_id. by destruct (bool_decide _).
  - apply quiet_sys; [done|]. unfold get_current_state_table_item. walk.
Qed.

Lemma set_next_good i w : sys_ok w -> (i < length (insts w))%nat ->
  good i (set_inst w i (fun p => p <| next_state := state (inst w i) |> <| next_delay := 0 |>)).
Proof.
  intros Hs Hi. pose proof (sys_inst w i Hs Hi) as [T S D O Hh].
  split; [|by rewrite length_set_inst|by rewrite inst_set_same by done].
  apply sys_ok_set; [done|]. intros _ _. split; [by refine (table_ok_view _ _ _ T)|done..].
Qed.

(** From the call of the state's function on. *)
Lemma run_ok i buf len w : good i w ->
  sys_ok (leave_or i (first_frame i len;; call_state (state (inst w i)) i buf len;;
    leave_or i (check_protocol i;; run_bmc i (run_extension i buf len))) w).2.
Proof.
  intros Hg. apply leave_or_ok; [done|]. intros _.
  apply (then_ok i); [done|apply (R_first_frame (sit w i))|]. intros [] w1 G1 E1.
  apply (then_ok i); [done| |].
  { rewrite E1. destruct (good_state i w Hg). by apply (R_call_state (sit w i)). }
  intros _ w2 G2 _. apply leave_or_ok; [done|]. intros _.
  apply (then_ok i); [done|apply (R_check_protocol (sit w2 i))|]. intros [] w3 G3 _.
  apply bmc_ok; [done|]. intros w4 G4. by apply extension_ok.
Qed.

Lemma machine_ok i buf len w : sys_ok w -> (i < length (insts w))%nat -> len <= Z.of_nat (length buf) ->
  sys_ok (pp_state_machine i buf len w).2.
Proof.
  intros Hs Hi Hl. unfold pp_state_machine. pose proof (verify_wf buf len Hl) as Hv.
  destruct (if len <? PP_HEADER_LENGTH then _ else _) as [b l]. clear Hl buf len.
  rewrite bind_unfold. destruct (unpack_ok i b l w Hs Hi Hv) as [S1 I1].
  destruct (fsm_unpack_verify_frame i b l w) as [err w1]. cbn [fst snd] in *. clear w Hs Hi Hv.
  rewrite bind_rd. set (l1 := if err then 0 else _). set (b1 := if err then [] else _). clearbody l1 b1.
  rewrite bind_unfold. destruct (get_item_ok i w1 S1 I1) as (w2 & -> & S2 & I2). cbn [fst snd].
  rewrite bind_wr. pose proof (set_next_good i w2 S2 I2) as G3.
  set (w3 := set_inst w2 i _) in *.
  assert (state (inst w2 i) = state (inst w3 i)) as -> by (unfold w3; by rewrite inst_set_same by done).
  clearbody w3. rewrite bind_unfold.
  assert (exists x, (if err then mret false else pp_packet_prefilter i) w3 = (x, w3)) as [x ->]
    by (destruct err; eauto). by apply run_ok.
Qed.

End Safety.

(** Plain PTP fulfils the contract. *)
#[global] Instance plain_hooks_safe `{Config, Platform} : @HooksSafe _ _ (fun _ => pp_hooks).
Proof.
  split; cbn.
  - done.
  - done.
  - done.
  - done.
  - done.
  - done.
  - intros e h i [= <-]. unfold state_change. walk.
  - intros e sel h s Hs. apply list_elem_of_In in Hs. cbn in Hs.
    repeat (destruct Hs as [<-|Hs]; [done|]). done.
  - intros e sel h s buf len Hs. apply list_elem_of_In in Hs. cbn in Hs.
    repeat (destruct Hs as [<-|Hs]; [done|]). done.
Qed.

(** ** Theorems *)

(** C4. Safety of the state machine. Whatever frame arrives, one run on any port keeps the
    invariant of the system: no assertion of the code fails (no state without a function is
    run, no Announce enters the table in a state that must ignore it, no announce timeout is
    handled under external port configuration), every foreign master table stays well formed,
    every port stays in a state of the table, and the sender of the last header is a full
    identity. The extensions are any that keep their contract. *)
Theorem state_machine_safe `{Config, Platform} {HK : Hooks} `{!HooksSafe} (i : nat) (buf : list Z) (len : Z)
  (w : world) :
  forall nl : Z, sys_ok nl w -> (i < length (insts w))%nat -> len <= Z.of_nat (length buf) ->
  sys_ok nl (pp_state_machine i buf len w).2.
Proof. intros nl. apply machine_ok. Qed.

Definition demo_start : @world Demo.demo_platform :=
  Demo.demo_world [Demo.demo_inst 0 PPS_INITIALIZING; Demo.demo_inst 1 PPS_LISTENING] 5000.

Lemma demo_start_ok : @sys_ok Demo.demo_config Demo.demo_platform 2 demo_start.
Proof.
  split; [vm_compute; lia| | |by intros [=]| | |done]; repeat constructor; vm_compute; intuition congruence.
Qed.

Lemma state_machine_safe_witness :
  assert_failed (@pp_state_machine Demo.demo_config Demo.demo_platform (fun _ => pp_hooks) 1
    (0x0B :: 2 :: 0 :: 64 :: replicate 60 0) 64 demo_start).2 = false.
Proof.
  refine (sk_assert _ _ (@state_machine_safe Demo.demo_config Demo.demo_platform (fun _ => pp_hooks) _ 1
    (0x0B :: 2 :: 0 :: 64 :: replicate 60 0) 64 demo_start 2 demo_start_ok _ _)); vm_compute; lia || discriminate.
Defined.
