(* ===== verification/MainLoop.v ===== *)
(** * The main loop (arch-unix/main-loop.c, __recv_and_count of common-fun.h)

    Running all ports, the periodic best master calculation, and the
    reception of frames.  What [select] and the sockets deliver is given as a
    list of events; everything the program does with them is followed. *)

From S2P Require Import Prelude TimeArith Types World Timeout Hooks Bytes Msg FixedPoint Servo.
From S2P Require Import BmcCmp ClockQuality Bmc BmcTable BmcDecision Common States Fsm Safety.

Section Loop.
Context `{Config, Platform} {HK : Hooks}.

(** What [n_ops->recv] gives: its return value, the bytes of the frame
    buffer and the timestamp it stores. *)
Record received := mk_received { r_ret : Z; r_frame : list Z; r_stamp : pp_time }.

Definition __recv_and_count (i : nat) (r : received) : M Z :=
  wr i (fun p => p <| last_rcv_time := r_stamp r |>);;
  when (0 <? r_ret r)
    (adjust ← if_hook i hk_get_ingress_latency (fun h => h i)
                (rd i (fun p => i64 (ingressLatency (timestampCorrectionPortDS p) +
                                     semistaticLatency (timestampCorrectionPortDS p))));
     wr i (fun p => p <| last_rcv_time ::= fun t => pp_time_sub_interval t adjust |>
                      <| ptp_rx_count ::= fun n => (n + 1) mod LONG_MODULUS |>));;
  mret (r_ret r).

(** The link is taken to be up. *)
Definition link_check (j : nat) : M unit :=
  old_lu ← rd j link_up;
  wr j (fun p => p <| link_up := 1 |>);;
  when (negb (old_lu =? 1)) (wr j (fun p => p <| state := PPS_INITIALIZING |>)).

Fixpoint run_ports (l : list nat) (delay_ms : Z) : M Z :=
  match l with
  | [] => mret delay_ms
  | j :: l' =>
      link_check j;;
      delay_ms_j ← pp_state_machine j [] 0;
      let delay_ms := if (j =? 0)%nat then delay_ms_j else delay_ms in
      run_ports l' (if delay_ms_j <? delay_ms then delay_ms_j else delay_ms)
  end.

Definition links : M (list nat) := n ← rdG nlinks; mret (seq 0 (Z.to_nat n)).

Definition run_all_state_machines : M Z :=
  l ← links;
  delay_ms ← run_ports l 0;
  t ← pp_gtimeout PP_TO_BMC;
  if t : bool then
    bmc_calculate_ebest;;
    pp_gtimeout_reset PP_TO_BMC;;
    mret 0
  else
    delay_bmca ← pp_next_delay_1 0 PP_TO_BMC;
    mret (if delay_bmca <? delay_ms then delay_bmca else delay_ms).

Definition PP_RECV_DROP : Z := PP_SEND_DROP.

(** The ports with a packet present, in order. *)
Fixpoint receive_ports (l : list nat) (rx : nat -> option received) (delay_ms : Z) : M Z :=
  match l with
  | [] => mret delay_ms
  | j :: l' =>
      match rx j with
      | None => receive_ports l' rx delay_ms
      | Some r =>
          n ← __recv_and_count j r;
          if (n =? PP_RECV_DROP) || (n =? -1) then receive_ports l' rx delay_ms
          else
            off ← rd j rx_offset;
            tmp_d ← pp_state_machine j (drop (Z.to_nat off) (r_frame r)) (n - off);
            receive_ports l' rx (if (delay_ms =? -1) || (tmp_d <? delay_ms) then tmp_d else delay_ms)
      end
  end.

(** One return of [check_packet]: its value, what happened to the platform
    meanwhile, and the packets present. *)
Record event := mk_event { ev_available : Z; ev_env : env -> env; ev_rx : nat -> option received }.

(** The body of [while (1)]: the new [delay_ms]. *)
Definition loop_body (delay_ms : Z) (ev : event) : M Z :=
  op_ (ev_env ev);;
  if ev_available ev <? 0 then mret delay_ms
  else if ev_available ev =? 0 then run_all_state_machines
  else l ← links; receive_ports l (ev_rx ev) (-1).

Fixpoint loop (delay_ms : Z) (evs : list event) : M Z :=
  match evs with
  | [] => mret delay_ms
  | ev :: evs' => d ← loop_body delay_ms ev; loop d evs'
  end.

Definition unix_main_loop (evs : list event) : M Z :=
  l ← links;
  for_each l (fun j => wr j (fun p => p <| is_new_state := true |>));;
  delay_ms ← run_all_state_machines;
  loop delay_ms evs.

End Loop.

(** ** Safety *)

Section LoopSafety.
Context `{Config, Platform} {HK : Hooks} `{!HooksSafe} (nl : Z).

Abbreviation quiet_fview m := (guar (same_view fview gcore) m).

(** What the best master calculation does not touch. *)
Definition rest (p : pp_instance) := (core p, rx_offset p, next_state p).

Lemma rest_age fuel i k now : guar (same_view rest gcore) (age_loop fuel i k now).
Proof.
  revert k. induction fuel as [|fuel IH]; intros k; cbn [age_loop]; [walk|].
  unfold bmc_remove_foreign_master. walk; auto. apply guar_view_wr. intros p. apply remove_frgn_rest.
Qed.
Hint Resolve rest_age : guar.

Lemma rest_calculate : guar (same_view rest gcore) bmc_calculate_ebest.
Proof.
  unfold bmc_calculate_ebest, bmc_age_frgn_masters, bmc_age_frgn_master, bmc_any_port_initializing,
    bmc_update_erbest, bmc_update_erbest_inst, bmc_update_ebest, bmc_flush_frgn_master. walk;
    first [by apply view_update_clock_quality|by apply view_calc_timeout|
      apply guar_view_wrG; intros x; by destruct (_ =? _)].
Qed.

Lemma calculate_sys w : sys_ok nl w -> sys_ok nl (bmc_calculate_ebest w).2.
Proof.
  intros Hs. pose proof (rest_calculate w) as Hv. apply (sys_ok_core nl w); [done| |by apply tables_calculate_ebest; apply Hs|].
  - apply (same_view_comp rest gcore (fun x => x.1.1)), Hv.
  - unfold offsets_ok. apply Forall_insts. intros j. destruct (same_view_parts _ _ _ _ Hv) as (Hl & _ & _).
    rewrite Hl. intros Hj. destruct (same_view_inst _ _ _ _ j Hv Hj) as [Ej _].
    rewrite (f_equal (fun x => x.1.2) Ej : rx_offset _ = _). by apply (sys_inst nl).
Qed.

Lemma link_check_sys j w : sys_ok nl w -> sys_ok nl (link_check j w).2.
Proof.
  intros Hs. unfold link_check. rewrite bind_rd, bind_wr.
  set (w1 := set_inst w j _). assert (sys_ok nl w1) as S1.
  { apply sys_ok_set; [done|]. intros _ [T S D O Hh]. split; [by refine (table_ok_view _ _ _ T)|done..]. }
  destruct (negb _); [|exact S1]. cbn [when wr snd]. apply sys_ok_set; [done|]. intros _ [T S D O Hh].
  split; [by refine (table_ok_view _ _ _ T)|by unfold valid_state; cbn; vm_compute|done..].
Qed.

Lemma sys_length j w : sys_ok nl w -> (j < Z.to_nat nl)%nat -> (j < length (insts w))%nat.
Proof. intros Hs Hj. destruct (sk_links nl w Hs). lia. Qed.

Lemma links_run w : sys_ok nl w -> links w = (seq 0 (Z.to_nat nl), w).
Proof. intros Hs. unfold links. rewrite bind_rdG. by destruct (sk_links nl w Hs) as [-> _]. Qed.

Lemma run_ports_sys l d w : sys_ok nl w -> Forall (fun j => j < Z.to_nat nl)%nat l -> sys_ok nl (run_ports l d w).2.
Proof.
  intros Hs Hl. revert d w Hs. induction Hl as [|j l Hj Hl IH]; intros d w Hs; [done|].
  cbn [run_ports]. rewrite bind_unfold. pose proof (link_check_sys j w Hs) as S1.
  set (w1 := (link_check j w).2) in *. clearbody w1. rewrite bind_unfold. apply IH.
  apply machine_ok; [done|by apply sys_length|done].
Qed.

Lemma ports_below n : Forall (fun j => j < n)%nat (seq 0 n).
Proof. apply Forall_seq. lia. Qed.

Lemma run_all_sys w : sys_ok nl w -> sys_ok nl (run_all_state_machines w).2.
Proof.
  intros Hs. unfold run_all_state_machines. rewrite bind_unfold, (links_run w Hs). cbn [fst snd].
  rewrite bind_unfold. pose proof (run_ports_sys (seq 0 (Z.to_nat nl)) 0 w Hs (ports_below _)) as S1.
  destruct (run_ports _ 0 w) as [d w1]. cbn [fst snd] in *. rewrite bind_unfold.
  pose proof (quiet_sys nl (pp_gtimeout PP_TO_BMC) w1 S1 (q_timeout 0 _)) as S2.
  destruct (pp_gtimeout PP_TO_BMC w1) as [t w2]. cbn [fst snd] in *. destruct t.
  - rewrite !bind_unfold. apply (quiet_sys nl); [|walk]. apply (quiet_sys nl); [|apply q_timeout_reset_N].
    by apply calculate_sys.
  - apply quiet_sys; [done|]. walk. apply q_next_delay_1.
Qed.

(** A frame is at least as long as [recv] says. *)
Definition event_ok (ev : event) : Prop :=
  forall j r, ev_rx ev j = Some r -> r_ret r <= Z.of_nat (length (r_frame r)).

Lemma q_recv i r : quiet_fview (__recv_and_count i r).
Proof.
  unfold __recv_and_count. walk. apply guar_if_hook; [apply _| |walk]. intros h e He. by eapply hs_recv.
Qed.

Lemma recv_val i r w : (__recv_and_count i r w).1 = r_ret r.
Proof. unfold __recv_and_count. by rewrite !bind_unfold. Qed.

Lemma receive_ports_sys ev l d w : event_ok ev -> sys_ok nl w -> Forall (fun j => j < Z.to_nat nl)%nat l ->
  sys_ok nl (receive_ports l (ev_rx ev) d w).2.
Proof.
  intros Hev Hs Hl. revert d w Hs. induction Hl as [|j l Hj Hl IH]; intros d w Hs; [done|].
  cbn [receive_ports]. destruct (ev_rx ev j) as [r|] eqn:Er; [|by apply IH].
  rewrite bind_unfold, recv_val. pose proof (quiet_sys nl _ w Hs (q_recv j r)) as S1.
  set (w1 := (__recv_and_count j r w).2) in *. clearbody w1. destruct (_ || _); [by apply IH|].
  rewrite bind_rd, bind_unfold. apply IH. pose proof (sys_length j w1 S1 Hj) as Hj1.
  apply machine_ok; [done|done|]. destruct (sys_inst nl w1 j S1 Hj1) as [_ _ _ O _].
  specialize (Hev j r Er). rewrite length_drop. lia.
Qed.

Lemma op_sys f w : sys_ok nl w -> sys_ok nl (op_ f w).2.
Proof. intros Hs. apply quiet_sys; [done|walk]. Qed.

Lemma loop_sys evs d w : Forall event_ok evs -> sys_ok nl w -> sys_ok nl (loop d evs w).2.
Proof.
  intros He. revert d w. induction He as [|ev evs Hev He IH]; intros d w Hs; [done|].
  cbn [loop]. rewrite bind_unfold. apply IH. unfold loop_body. rewrite bind_unfold.
  pose proof (op_sys (ev_env ev) w Hs) as S1. set (w1 := (op_ (ev_env ev) w).2) in *. clearbody w1.
  destruct (_ <? 0); [done|]. destruct (_ =? 0); [by apply run_all_sys|].
  rewrite bind_unfold, (links_run w1 S1). apply receive_ports_sys; [done|done|apply ports_below].
Qed.

Lemma main_loop_sys evs w : Forall event_ok evs -> sys_ok nl w -> sys_ok nl (unix_main_loop evs w).2.
Proof.
  intros He Hs. unfold unix_main_loop. rewrite bind_unfold, (links_run w Hs). cbn [fst snd].
  rewrite bind_unfold. set (m := for_each _ _). assert (quiet_fview m) as Q by (unfold m; walk).
  pose proof (quiet_sys nl m w Hs Q) as S1. rewrite bind_unfold. apply loop_sys; [done|]. by apply run_all_sys.
Qed.

End LoopSafety.

(** ** An example run *)

(** A timeout, then an Announce of 64 bytes on the second port. *)
Definition demo_events : list (@event Demo.demo_platform) :=
  [@mk_event Demo.demo_platform 0 (fun e => Demo.mk_env (Demo.d_now e + 100) (Demo.d_sent e) (Demo.d_pps e))
     (fun _ => None);
   @mk_event Demo.demo_platform 1 (fun e => e)
     (fun j => if (j =? 1)%nat
               then Some (mk_received 64 (0x0B :: 2 :: 0 :: 64 :: replicate 60 7) (mk_time 5 0)) else None)].
