(* ===== verification/Startup.v ===== *)
(** * From allocation to the main loop

    What [pp_init_globals] establishes, and the program as a whole: from
    allocated instances, through initialisation, to any run of the main
    loop. *)

From S2P Require Import Prelude TimeArith Types World Timeout Hooks Bytes Msg FixedPoint Servo.
From S2P Require Import BmcCmp ClockQuality Bmc BmcTable BmcDecision Common States Fsm OpenClose.
From S2P Require Import Safety MainLoop.

(** ** Loops over the ports *)

Section Loops.
Context `{Config, Platform}.

Lemma set_inst_twice w i f g : set_inst (set_inst w i f) i g = set_inst w i (fun p => g (f p)).
Proof.
  unfold set_inst. destruct w as [a l e s d t b]. cbn. f_equal. apply list_eq. intros j.
  destruct (decide (i = j)) as [->|]; [|by rewrite !list_lookup_alter_ne].
  rewrite !list_lookup_alter_eq. by destruct (l !! j).
Qed.

Lemma set_inst_id w i : set_inst w i (fun p => p) = w.
Proof.
  unfold set_inst. destruct w as [a l e s d t b]. cbn. f_equal. apply list_eq. intros j.
  destruct (decide (i = j)) as [->|]; [rewrite list_lookup_alter_eq; by destruct (l !! j)|by rewrite list_lookup_alter_ne].
Qed.

(** Several writes to one instance. *)
Lemma for_each_wr {X} (l : list X) i (g : X -> pp_instance -> pp_instance) w :
  for_each l (fun k => wr i (g k)) w = (tt, set_inst w i (fun p => foldl (fun p k => g k p) p l)).
Proof.
  revert w. induction l as [|x l IH]; intros w; cbn [for_each foldl]; [by rewrite set_inst_id|].
  rewrite bind_wr, IH. f_equal. apply set_inst_twice.
Qed.

(** One write to each instance. *)
Lemma for_each_ports n body (g : nat -> pp_instance -> pp_instance) w :
  (forall k w, body k w = (tt, set_inst w k (g k))) ->
  let w' := (for_each (seq 0 n) body w).2 in
  (forall j, (j < n)%nat -> (j < length (insts w))%nat -> inst w' j = g j (inst w j)) /\
  length (insts w') = length (insts w) /\ glbs w' = glbs w /\ assert_failed w' = assert_failed w.
Proof.
  intros Hb. cbn zeta. assert (forall a m w, let w' := (for_each (seq a m) body w).2 in
    (forall j, (a <= j < a + m)%nat -> (j < length (insts w))%nat -> inst w' j = g j (inst w j)) /\
    (forall j, (j < a)%nat -> inst w' j = inst w j) /\
    length (insts w') = length (insts w) /\ glbs w' = glbs w /\ assert_failed w' = assert_failed w) as Hgen.
  { clear w. intros a m. revert a. induction m as [|m IH]; intros a w; cbn zeta; [cbn; split_and!; (done || lia)|].
    cbn [seq for_each]. rewrite bind_unfold, Hb. cbn [fst snd].
    destruct (IH (S a) (set_inst w a (g a))) as (I1 & I2 & I3 & I4 & I5). rewrite length_set_inst in *.
    split_and!; [intros j Hj Hl|intros j Hj|done..].
    - destruct (decide (j = a)) as [->|Hne]; [rewrite I2 by lia; by apply inst_set_same|].
      rewrite I1 by lia. by rewrite inst_set_other.
    - rewrite I2 by lia. by rewrite inst_set_other by lia. }
  destruct (Hgen 0%nat n w) as (I1 & _ & I3 & I4 & I5). split_and!; try done. intros j Hj Hl. apply I1; lia.
Qed.

End Loops.

(** ** pp_init_globals *)

Section Init.
Context `{Config, Platform} {HK : Hooks}.

Definition disabled (c : timeOutInstCnt_t) : timeOutInstCnt_t :=
  c <| initValueMs := TIMEOUT_DISABLE_VALUE |> <| tmo := 0 |>.
Definition stop_timer (p : pp_instance) (k : nat) : pp_instance := p <| tmo_cfg ::= alter disabled k |>.

(** What [pp_init_globals] makes of instance [i]. *)
Definition reset_inst (i : nat) (p : pp_instance) : pp_instance :=
  foldl stop_timer
    (p <| state := PPS_DISABLED |> <| pdstate := PP_PDSTATE_NONE |>
       <| current_state_item := None |> <| port_idx := Z.of_nat i |> <| frgn_rec_best := -1 |>)
    (seq 0 PP_TO_COUNT).

Lemma init_instance_run i w : init_instance i w = (tt, set_inst w i (reset_inst i)).
Proof.
  unfold init_instance, pp_timeout_disable_all. rewrite bind_wr, for_each_wr, set_inst_twice. reflexivity.
Qed.

Lemma stop_timers_other {K} (c : pp_instance -> K) l p :
  (forall p h, c (p <| tmo_cfg ::= h |>) = c p) -> c (foldl stop_timer p l) = c p.
Proof. intros Hc. revert p. induction l as [|k l IH]; intros p; cbn [foldl]; [done|]. rewrite IH. apply Hc. Qed.

Lemma stop_timers_lookup l p k :
  tmo_cfg (foldl stop_timer p l) !! k = (if decide (k ∈ l) then disabled <$> tmo_cfg p !! k else tmo_cfg p !! k).
Proof.
  revert p. induction l as [|x l IH]; intros p; cbn [foldl].
  - destruct (decide _) as [Hk|]; [by apply elem_of_nil in Hk|done].
  - rewrite IH. unfold stop_timer. cbn. destruct (decide (k = x)) as [->|Hne].
    + rewrite list_lookup_alter_eq. rewrite (decide_True (P := x ∈ x :: l)) by (by left).
      destruct (decide (x ∈ l)); [|done]. by destruct (tmo_cfg p !! x).
    + rewrite list_lookup_alter_ne by done.
      destruct (decide (k ∈ l)); [rewrite decide_True by (by right)|rewrite decide_False by (by rewrite elem_of_cons; intros [])]; done.
Qed.

(** All timers of the instance are disabled. *)
Definition timers_off (p : pp_instance) : Prop :=
  forall k c, (k < PP_TO_COUNT)%nat -> tmo_cfg p !! k = Some c -> initValueMs c = TIMEOUT_DISABLE_VALUE /\ tmo c = 0.

Lemma reset_timers i p : timers_off (reset_inst i p).
Proof.
  intros k c Hk. unfold reset_inst. rewrite stop_timers_lookup, decide_True by (apply elem_of_seq; lia).
  intros (c' & _ & ->)%fmap_Some. done.
Qed.

(** External port configuration of one instance. *)
Definition epc_inst (p : pp_instance) : pp_instance :=
  p <| portDS ::= fun q => if is_masterOnly q then q <| masterOnly := 0 |> else q |>
    <| desiredState := u8 (cfg_desiredState (cfg p)) |>.

Lemma epc_not_master p : is_masterOnly (portDS (epc_inst p)) = false.
Proof.
  unfold epc_inst. cbn. destruct (is_masterOnly (portDS p)) eqn:E; [|done].
  unfold is_masterOnly. by destruct CONFIG_HAS_CODEOPT_MO_FORCE_DISABLED.
Qed.

(** What no step of the initialisation changes in the globals. *)
Definition fixed (g : pp_globals) : Z * Z * Z :=
  (nlinks g, def_numberPorts (defaultDS g), def_externalPortConfigurationEnabled (defaultDS g)).

Lemma fixed_epc g g' : fixed g' = fixed g ->
  is_externalPortConfigurationEnabled (defaultDS g') = is_externalPortConfigurationEnabled (defaultDS g).
Proof. unfold fixed, is_externalPortConfigurationEnabled. by intros [= _ _ ->]. Qed.
Lemma fixed_ports g g' : fixed g' = fixed g -> get_numberPorts (defaultDS g') = get_numberPorts (defaultDS g).
Proof. unfold fixed, get_numberPorts. by intros [= _ -> _]. Qed.

(** Slave-only operation: only without external configuration, and with class 255. *)
Definition slave_only_ok (g : pp_globals) : Prop :=
  is_slaveOnly (defaultDS g) = true ->
  is_externalPortConfigurationEnabled (defaultDS g) = false /\
  clockClass (def_clockQuality (defaultDS g)) = PP_CLASS_SLAVE_ONLY /\
  opt_clockClass (rt_opts g) = PP_CLASS_SLAVE_ONLY.

Lemma is_slaveOnly_0 d : is_slaveOnly (d <| def_slaveOnly := 0 |>) = false.
Proof. unfold is_slaveOnly. cbn. by rewrite andb_false_r. Qed.
Lemma is_slaveOnly_again d : is_slaveOnly (d <| def_slaveOnly := of_bool (is_slaveOnly d) |>) = is_slaveOnly d.
Proof.
  unfold is_slaveOnly. cbn. rewrite truth_of_bool. by destruct (negb _), (negb _), (truth _).
Qed.

Lemma init_slave_only_view : guar (same_view id fixed) init_slave_only.
Proof. unfold init_slave_only, force_class, setDEF. walk. Qed.

Lemma init_slave_only_spec w : slave_only_ok (glbs (init_slave_only w).2).
Proof.
  unfold init_slave_only, DSDEF, setDEF. rewrite bind_rdG, bind_unfold.
  set (m1 := when _ _). set (w1 := (m1 w).2).
  assert (is_slaveOnly (defaultDS (glbs w1)) = true ->
    is_externalPortConfigurationEnabled (defaultDS (glbs w1)) = false) as H1.
  { unfold w1, m1. destruct (is_externalPortConfigurationEnabled _) eqn:E1; [|by destruct (is_slaveOnly _)].
    destruct (is_slaveOnly (defaultDS (glbs w))) eqn:E2; cbn [andb when mret M_ret snd wrG]; [|congruence].
    intros Hs. exfalso. discriminate (eq_trans (eq_sym Hs) (is_slaveOnly_0 (defaultDS (glbs w)))). }
  clearbody w1. clear m1. rewrite bind_unfold, bind_rdG. cbn [wrG snd]. set (w2 := w1 <| glbs ::= _ |>).
  assert (is_slaveOnly (defaultDS (glbs w2)) = is_slaveOnly (defaultDS (glbs w1))) as E2 by apply is_slaveOnly_again.
  assert (is_externalPortConfigurationEnabled (defaultDS (glbs w2)) =
    is_externalPortConfigurationEnabled (defaultDS (glbs w1))) as E2' by reflexivity.
  clearbody w2. rewrite <- E2, <- E2' in H1. clear w1 E2 E2'.
  destruct (is_slaveOnly (defaultDS (glbs w2))) eqn:E; cbn [when]; [|by intros; unfold slave_only_ok; cbn; congruence].
  rewrite bind_rdw, bind_unfold. set (m3 := when _ _). set (w3 := (m3 w2).2).
  assert (is_slaveOnly (defaultDS (glbs w3)) = true ->
    is_externalPortConfigurationEnabled (defaultDS (glbs w3)) = false) as H3.
  { unfold w3, m3. destruct (_ && negb _); cbn [when mret M_ret snd wrG]; [|intros _; by apply H1].
    intros Hs. exfalso. discriminate (eq_trans (eq_sym Hs) (is_slaveOnly_0 (defaultDS (glbs w2)))). }
  clearbody w3. rewrite bind_rdG. unfold slave_only_ok.
  destruct (is_slaveOnly (defaultDS (glbs w3))) eqn:E3; cbn [when mret M_ret snd]; [|congruence].
  intros _. split; [by apply H3|done].
Qed.

Definition slave_desired (p : pp_instance) : bool :=
  (desiredState p =? PPS_SLAVE) || (desiredState p =? PPS_UNCALIBRATED).

Lemma init_epc_spec w :
  let epc := is_externalPortConfigurationEnabled (defaultDS (glbs w)) in
  let n := Z.to_nat (get_numberPorts (defaultDS (glbs w))) in
  let w' := (init_epc w).2 in
  (forall j, (j < n)%nat -> (j < length (insts w))%nat ->
     inst w' j = if epc then epc_inst (inst w j) else inst w j) /\
  length (insts w') = length (insts w) /\ fixed (glbs w') = fixed (glbs w) /\ assert_failed w' = assert_failed w /\
  is_slaveOnly (defaultDS (glbs w')) = is_slaveOnly (defaultDS (glbs w)) /\ (epc = false -> glbs w' = glbs w) /\
  (epc = true -> forall j, (j < n)%nat -> slave_desired (inst w' j) = true ->
     128 <= clockClass (def_clockQuality (defaultDS (glbs w')))).
Proof.
  cbn zeta. unfold init_epc, DSDEF. rewrite bind_rdG.
  destruct (is_externalPortConfigurationEnabled (defaultDS (glbs w))); cbn [when]; [|cbn [mret M_ret snd]; done].
  rewrite bind_unfold. set (n := Z.to_nat _).
  destruct (for_each_ports n init_epc_port (fun _ => epc_inst) w (fun k w => eq_refl)) as (I1 & I2 & I3 & I4).
  change (ports (defaultDS (glbs w))) with (seq 0 n). set (w1 := (for_each (seq 0 n) init_epc_port w).2) in *. clearbody w1.
  rewrite bind_rdw. rewrite <- I3. set (b := existsb _ _).
  assert (forall j, (j < n)%nat -> slave_desired (inst w1 j) = true -> b = true) as Hb.
  { intros j Hj Hs. apply existsb_exists. exists j. split; [apply in_seq; lia|exact Hs]. }
  clearbody b. destruct (Z.ltb_spec (clockClass (def_clockQuality (defaultDS (glbs w1)))) 128) as [Hc|Hc], b;
    cbn [andb when mret M_ret snd]; unfold force_class; cbn [wrG snd]; split_and!; try done.
  intros _ j Hj Hs. discriminate (Hb j Hj Hs).
Qed.

(** An instance but for the data of its extension. *)
Definition no_ext (p : pp_instance) : pp_instance := p <| ext_data := zero_ext |>.

(** A hook that succeeds and only writes those. *)
Definition own_data_only (h : pp_ext_hooks -> option (nat -> M Z)) : Prop :=
  forall e f i, h (hooks_of e) = Some f -> (forall w, (f i w).1 = 0) /\ guar (same_view no_ext id) (f i).

Lemma for_each_hook_own l h r w : own_data_only h ->
  (for_each_hook l h r w).1 = r /\ same_view no_ext id w (for_each_hook l h r w).2.
Proof.
  intros Hh. revert r w. induction l as [|i l IH]; intros r w; cbn [for_each_hook]; [done|].
  rewrite bind_unfold. set (m := if_hook i h _ _).
  assert ((m w).1 = 0 /\ same_view no_ext id w (m w).2) as [-> V].
  { unfold m, if_hook, ext_hook. rewrite bind_rd. destruct (h (hooks_of _)) as [f|] eqn:E; [|done].
    destruct (Hh _ f i E) as [H1 H2]. split; [apply H1|apply H2]. }
  cbn [Z.eqb]. destruct (IH r (m w).2) as [E1 E2]. split; [done|]. by etrans.
Qed.

(** What any hook keeps, a loop over the ports keeps. *)
Lemma for_each_hook_guar (Rel : relation world) `{!PreOrder Rel} l h r :
  (forall e f i, h (hooks_of e) = Some f -> guar Rel (f i)) -> guar Rel (for_each_hook l h r).
Proof.
  intros Hh. revert r. induction l as [|i l IH]; intros r; cbn [for_each_hook]; [by apply guar_ret|].
  apply guar_bind; [apply _| |intros; apply IH]. apply guar_if_hook; [apply _| |by apply guar_ret].
  intros f e He. by eapply Hh.
Qed.

Definition counts (g : pp_globals) : Z * Z := (nlinks g, def_numberPorts (defaultDS g)).

(** The instance after initialisation. *)
Definition ready_inst (epc : bool) (j : nat) (p : pp_instance) : pp_instance :=
  if epc then epc_inst (reset_inst j p) else reset_inst j p.

Record initialised (w w' : world) : Prop := {
  in_insts : forall j, (j < Z.to_nat (get_numberPorts (defaultDS (glbs w'))))%nat -> (j < length (insts w))%nat ->
    inst w' j = ready_inst (is_externalPortConfigurationEnabled (defaultDS (glbs w'))) j (inst w j);
  in_length : length (insts w') = length (insts w);
  in_assert : assert_failed w' = assert_failed w;
  in_counts : counts (glbs w') = (nlinks (glbs w), u16 (if 0 <? nlinks (glbs w) then nlinks (glbs w) else 1));
  in_slave_only : slave_only_ok (glbs w');
  in_class : is_externalPortConfigurationEnabled (defaultDS (glbs w')) = true ->
    forall j, (j < Z.to_nat (get_numberPorts (defaultDS (glbs w'))))%nat -> slave_desired (inst w' j) = true ->
    128 <= clockClass (def_clockQuality (defaultDS (glbs w'))) }.

(** The part that writes the data sets only. *)
Definition init_ds (opts_set : bool) (pp_rt_opts : pp_runtime_opts) : M unit :=
  bmc_set_default_device_attributes;;
  bmc_apply_configured_device_attributes;;
  o ← OPTS;
  setDEF (fun d => d
    <| def_externalPortConfigurationEnabled := opt_externalPortConfigurationEnabled pp_rt_opts |>
    <| def_slaveOnly := opt_slaveOnly o |>).

Lemma init_ds_view s o : guar (same_view id counts) (init_ds s o).
Proof.
  unfold init_ds, bmc_set_default_device_attributes, bmc_apply_configured_device_attributes, setDEF. walk.
Qed.

Lemma globals_init s o w : exists w', initialised w w' /\
  pp_init_globals s o w = for_each_hook (ports (defaultDS (glbs w'))) hk_open 0 w'.
Proof.
  set (w0 := w <| glbs ::= fun g =>
    g <| defaultDS ::= fun d => d <| def_numberPorts := u16 (if 0 <? nlinks g then nlinks g else 1) |> |>
      <| rt_opts ::= fun x => if s then x else o |> |>).
  assert (pp_init_globals s o w = (init_ds s o;; init_slave_only;; def ← DSDEF; for_each (ports def) init_instance;;
    init_epc;; def ← DSDEF; for_each_hook (ports def) hk_open 0) w0) as ->.
  { unfold pp_init_globals, init_ds, OPTS. rewrite bind_wrG. fold w0.
    rewrite bind_assoc, !bind_unfold. reflexivity. }
  assert (insts w0 = insts w /\ assert_failed w0 = assert_failed w /\
    counts (glbs w0) = (nlinks (glbs w), u16 (if 0 <? nlinks (glbs w) then nlinks (glbs w) else 1))) as (A1 & A2 & A3) by done.
  clearbody w0. rewrite bind_unfold. pose proof (init_ds_view s o w0) as V1. set (w1 := (init_ds s o w0).2) in *.
  clearbody w1. rewrite bind_unfold. pose proof (init_slave_only_view w1) as V2. pose proof (init_slave_only_spec w1) as S2.
  set (w2 := (init_slave_only w1).2) in *. clearbody w2.
  destruct (same_view_parts _ _ _ _ V1) as (L1 & C1 & B1). destruct (same_view_parts _ _ _ _ V2) as (L2 & C2 & B2).
  assert (forall j, inst w2 j = inst w j) as I2.
  { intros j. unfold inst. replace (insts w2) with (insts w); [done|].
    pose proof (f_equal (fun v => v.1.1) V1) as X1. pose proof (f_equal (fun v => v.1.1) V2) as X2. cbn in X1, X2.
    rewrite !map_id in X1, X2. congruence. }
  assert (counts (glbs w2) = counts (glbs w0)) as C2'.
  { rewrite <- C1. exact (f_equal (fun v => v.1) C2). }
  unfold DSDEF. rewrite bind_rdG, bind_unfold.
  destruct (for_each_ports (Z.to_nat (get_numberPorts (defaultDS (glbs w2)))) init_instance reset_inst w2 init_instance_run)
    as (I3 & L3 & G3 & B3).
  change (ports (defaultDS (glbs w2))) with (seq 0 (Z.to_nat (get_numberPorts (defaultDS (glbs w2))))).
  set (w3 := (for_each _ init_instance w2).2) in *. clearbody w3. rewrite bind_unfold.
  destruct (init_epc_spec w3) as (I4 & L4 & F4 & B4 & SO4 & G4 & C4). set (w4 := (init_epc w3).2) in *. clearbody w4.
  rewrite bind_rdG. exists w4. split; [|done].
  rewrite G3 in *. pose proof (fixed_epc _ _ F4) as Ee. pose proof (fixed_ports _ _ F4) as En.
  split; rewrite ?Ee, ?En.
  - intros j Hj Hl. rewrite I4, I3, I2 by congruence. done.
  - congruence.
  - congruence.
  - rewrite <- A3, <- C2'. exact (f_equal (fun v => v.1) F4).
  - unfold slave_only_ok. rewrite SO4, Ee. intros Hs. destruct (S2 Hs) as (S2a & S2b & S2c). by rewrite (G4 S2a).
  - exact C4.
Qed.

End Init.

(** ** The program *)

Section Program.
Context `{Config, Platform} {HK : Hooks} `{!HooksSafe}.

(** Memory as the platform allocates it, and a configuration with states of
    the machine only. *)
Definition allocated_inst (p : pp_instance) : Prop :=
  length (frgn_master p) = CONFIG_NR_FOREIGN_RECORDS /\ frgn_rec_num p = 0 /\ 0 <= rx_offset p /\
  wf_pid (h_sourcePortIdentity (received_ptp_header p)) /\ valid_state (u8 (cfg_desiredState (cfg p))).

Record allocated (w : world) : Prop := {
  al_insts : Forall allocated_inst (insts w);
  al_links : nlinks (glbs w) = Z.of_nat (length (insts w));
  al_range : 1 <= nlinks (glbs w) < 65536;
  al_single : CONFIG_HAS_CODEOPT_SINGLE_PORT = true -> nlinks (glbs w) = 1;
  al_assert : assert_failed w = false }.

(** The fields the invariant reads. *)
Lemma ready_inst_ok e j p : allocated_inst p -> inst_ok e (ready_inst e j p).
Proof.
  intros (Hl & Hn & Ho & Hw & Hd). unfold ready_inst.
  set (c := fun p => (state p, (frgn_master p, frgn_rec_num p, frgn_rec_best p), rx_offset p,
    h_sourcePortIdentity (received_ptp_header p), cfg p)).
  assert (c (reset_inst j p) = (PPS_DISABLED, (frgn_master p, frgn_rec_num p, -1), rx_offset p,
    h_sourcePortIdentity (received_ptp_header p), cfg p)) as Ec by (by apply (stop_timers_other c)).
  set (q := reset_inst j p) in *. clearbody q. unfold c in Ec. injection Ec as E1 E2 E3 E4 E5 E6 E7.
  assert (table_ok q) as T.
  { assert (records q = []) as Er by (unfold records; by rewrite E3, Hn).
    split; [split|rewrite Er; constructor|rewrite Er; constructor]; rewrite ?E2, ?E3, ?E4, ?Hn; (done || lia). }
  assert (valid_state (state q)) as S by (rewrite E1; by vm_compute).
  destruct e; (split; [by refine (table_ok_view _ _ _ T)|done|try done|cbn; lia|cbn; congruence]).
  intros _. unfold epc_inst. cbn. congruence.
Qed.

Lemma init_sys s o w : allocated w -> sys_ok (nlinks (glbs w)) (pp_init_globals s o w).2.
Proof.
  intros [Hi Hk Hr Hs Ha]. destruct (globals_init s o w) as (w' & [I L A C _ _] & ->).
  apply quiet_sys; [|apply for_each_hook_guar; [apply _|apply hs_open]].
  unfold counts in C. injection C as C1 C2.
  assert (Z.to_nat (get_numberPorts (defaultDS (glbs w'))) = length (insts w)) as En.
  { unfold get_numberPorts. destruct CONFIG_HAS_CODEOPT_SINGLE_PORT; [specialize (Hs eq_refl); lia|].
    rewrite C2, (proj2 (Z.ltb_lt _ _)) by lia. unfold u16. rewrite Z.mod_small by lia. lia. }
  rewrite En in I.
  assert (forall j, (j < length (insts w'))%nat -> inst_ok (epc w') (inst w' j)) as Hok.
  { intros j Hj. rewrite L in Hj. rewrite (I j Hj Hj). apply ready_inst_ok. by apply Forall_insts. }
  split; [split; [done|rewrite L; lia]| | |intros He| | |congruence];
    apply Forall_insts; intros j Hj; destruct (Hok j Hj); auto.
Qed.

End Program.

(** ** Theorems *)

(** Initialisation. With extensions whose [open] succeeds and only writes their own data,
    [pp_init_globals] succeeds; every port is
    disabled, knows its index, has no best master and no running timer; the device is slave-only
    only without external port configuration and then has class 255; under external port
    configuration no port is master-only and a clock with a port configured as a slave has
    class 128 or more. *)
Theorem init_globals_effect `{Config, Platform} {HK : Hooks} (opts_set : bool) (opts : pp_runtime_opts) (w : world) :
  own_data_only hk_open ->
  let r := pp_init_globals opts_set opts w in
  let def := defaultDS (glbs r.2) in
  let epc := is_externalPortConfigurationEnabled def in
  r.1 = 0 /\ length (insts r.2) = length (insts w) /\
  (is_slaveOnly def = true -> epc = false /\ clockClass (def_clockQuality def) = PP_CLASS_SLAVE_ONLY /\
     opt_clockClass (rt_opts (glbs r.2)) = PP_CLASS_SLAVE_ONLY) /\
  (forall j, (j < Z.to_nat (get_numberPorts def))%nat -> (j < length (insts w))%nat ->
     let p := inst r.2 j in
     state p = PPS_DISABLED /\ pdstate p = PP_PDSTATE_NONE /\ current_state_item p = None /\
     port_idx p = Z.of_nat j /\ frgn_rec_best p = -1 /\ timers_off p /\
     (epc = true -> is_masterOnly (portDS p) = false /\ desiredState p = u8 (cfg_desiredState (cfg p)) /\
        (slave_desired p = true -> 128 <= clockClass (def_clockQuality def)))).
Proof.
  intros Hh. cbn zeta. destruct (globals_init opts_set opts w) as (w' & [I L A C S K] & ->).
  destruct (for_each_hook_own (ports (defaultDS (glbs w'))) hk_open 0 w' Hh) as [Hr V].
  destruct (same_view_parts _ _ _ _ V) as (L' & G' & _). unfold id in G'. rewrite G', L'.
  split; [done|]. split; [done|]. split; [exact S|]. intros j Hj Hl. pose proof (fun e => K e j Hj) as Kj.
  destruct (same_view_inst _ _ _ _ j V ltac:(by rewrite L)) as [N' _].
  set (p := inst (for_each_hook _ _ _ _).2 j) in *. clearbody p.
  assert (forall K (c : pp_instance -> K), (forall p, c (no_ext p) = c p) -> c p = c (inst w' j)) as Hn
    by (intros K0 c Hc; rewrite <- Hc, N'; apply Hc).
  unfold slave_desired, timers_off in *.
  rewrite (Hn _ state), (Hn _ pdstate), (Hn _ current_state_item), (Hn _ port_idx), (Hn _ frgn_rec_best),
    (Hn _ tmo_cfg), (Hn _ portDS), (Hn _ desiredState), (Hn _ cfg) by done.
  clear Hn N' p V Hr L' G' Hh. rewrite (I j Hj Hl) in *. clear I. unfold ready_inst in *.
  assert (forall K (c : pp_instance -> K), (forall p h, c (p <| tmo_cfg ::= h |>) = c p) ->
    c (reset_inst j (inst w j)) = c ((inst w j) <| state := PPS_DISABLED |> <| pdstate := PP_PDSTATE_NONE |>
      <| current_state_item := None |> <| port_idx := Z.of_nat j |> <| frgn_rec_best := -1 |>)) as Hc.
  { intros K0 c Hc. by apply stop_timers_other. }
  pose proof (reset_timers j (inst w j)) as Ht.
  pose proof (Hc _ state ltac:(done)) as E1. pose proof (Hc _ pdstate ltac:(done)) as E2.
  pose proof (Hc _ current_state_item ltac:(done)) as E3. pose proof (Hc _ port_idx ltac:(done)) as E4.
  pose proof (Hc _ frgn_rec_best ltac:(done)) as E5. clear Hc.
  destruct (is_externalPortConfigurationEnabled _); (split_and!; [assumption..|]); [|done].
  intros _. split; [apply epc_not_master|]. split; [done|]. by apply Kj.
Qed.

(** A slave-only configuration of two ports, where it cannot apply. *)
Definition demo_config_opts : pp_runtime_opts := Demo.demo_opts <| opt_slaveOnly := 1 |>.
Definition demo_allocated : @world Demo.demo_platform :=
  Demo.demo_world [(Demo.demo_inst 0 PPS_INITIALIZING) <| cfg := zero_cfg <| cfg_desiredState := PPS_PASSIVE |> |>;
                   (Demo.demo_inst 1 PPS_INITIALIZING) <| cfg := zero_cfg <| cfg_desiredState := PPS_PASSIVE |> |>] 100.

Lemma init_globals_effect_witness :
  state (inst (@pp_init_globals Demo.demo_config Demo.demo_platform (fun _ => pp_hooks) true demo_config_opts
    demo_allocated).2 1) = PPS_DISABLED.
Proof.
  destruct (@init_globals_effect Demo.demo_config Demo.demo_platform (fun _ => pp_hooks) true demo_config_opts
    demo_allocated (fun _ _ _ E => ltac:(discriminate E))) as (_ & _ & _ & Hp).
  destruct (Hp 1%nat) as (Hs & _); [vm_compute; lia..|]. exact Hs.
Defined.

(** C1. The whole program. From allocated memory and any configuration, through
    [pp_init_globals] and any sequence of events of the main loop, with plain PTP or any
    extension that keeps the contract, no assertion fails, every port is in a state of the
    table and every foreign master table is well formed. *)
Theorem program_safe `{Config, Platform} {HK : Hooks} `{!HooksSafe} (opts_set : bool) (opts : pp_runtime_opts)
  (evs : list event) (w : world) :
  allocated w -> Forall event_ok evs ->
  let w' := (unix_main_loop evs (pp_init_globals opts_set opts w).2).2 in
  assert_failed w' = false /\ Forall (fun p => valid_state (state p)) (insts w') /\ tables_ok w'.
Proof.
  intros Hw He. cbn zeta.
  destruct (main_loop_sys (nlinks (glbs w)) evs _ He (init_sys opts_set opts w Hw)) as [_ T S _ _ _ A]. done.
Qed.

Lemma program_safe_witness :
  assert_failed (@unix_main_loop Demo.demo_config Demo.demo_platform (fun _ => pp_hooks) demo_events
    (@pp_init_globals Demo.demo_config Demo.demo_platform (fun _ => pp_hooks) true demo_config_opts demo_allocated).2).2
  = false.
Proof.
  apply (@program_safe Demo.demo_config Demo.demo_platform (fun _ => pp_hooks) _ true demo_config_opts demo_events
    demo_allocated).
  - split; [repeat constructor|..]; vm_compute; intuition congruence.
  - repeat constructor; intros j r; cbn; [done|]. destruct (j =? 1)%nat; [|done]. intros [= <-]. vm_compute. discriminate.
Defined.
