(* ===== verification/Wrh.v ===== *)
(** * The servo of the WR and L1Sync extensions
    (proto-ext-common/wrh-servo.c, include/hw-specific/wrh.h)

    The servo brings the local clock to the master's in steps of decreasing
    size (seconds, ticks of the reference clock, phase) and then tracks the
    phase.  It acts on the hardware through [wrh_operations]. *)

From S2P Require Import Prelude TimeArith Types World FixedPoint Servo.

(** ** Hardware operations

    [struct wrh_operations], filled by arch-wrs and arch-wrpc, and the clock
    of the operating system that a switch sets as well.  arch-unix and arch-sim
    leave [locking_disable] null: their instances ([unix_wrh_oper] and
    [sim_wrh_oper]) record its call, which would end the process, in the
    environment, and what is shown of these programs is shown unless it was
    called. *)
Class WrhOper `{Platform} := {
  locking_enable : nat -> env -> Z * env;
  locking_poll : nat -> env -> Z * env;
  locking_disable : nat -> env -> Z * env;
  locking_reset : nat -> env -> Z * env;
  enable_ptracker : nat -> env -> Z * env;
  adjust_in_progress : env -> Z * env;
  adjust_counters : Z -> Z -> env -> Z * env;
  adjust_phase : Z -> env -> Z * env;
  get_clock_period : env -> Z * env;
  unix_time_set : nat -> pp_time -> env -> env }.

Definition WRH_SPLL_LOCKED : Z := 0.
Definition WRH_SERVO_OFFSET_STABILITY_THRESHOLD : Z := 60.
Definition SNMP_MAX_OFFSET_PS : Z := 500.
Definition SNMP_MAX_DELTA_RTT_PS : Z := 1000.
Definition PP_SERVO_FLAG_WAIT_HW : Z := 2.

(** [wrh_servo_state_t]. *)
Definition WRH_UNINITIALIZED : Z := 0.
Definition WRH_SYNC_TAI : Z := 1.
Definition WRH_SYNC_NSEC : Z := 2.
Definition WRH_SYNC_PHASE : Z := 3.
Definition WRH_TRACK_PHASE : Z := 4.
Definition WRH_WAIT_OFFSET_STABLE : Z := 5.

(** [abs] of a value converted to [int]. *)
Definition c_abs (z : Z) : Z := if i32 z <? 0 then i32 (- i32 z) else i32 z.

(** [WRH_SERVO_RESET_DATA]: everything from [clock_period_ps] on. *)
Definition WRH_SERVO_RESET_DATA (s : wrh_servo_t) : wrh_servo_t :=
  mk_wrh (n_err_state s) (n_err_offset s) (n_err_delta_rtt s) (cur_setpoint_ps s) 0 0 0 0 0 0 0 0 0 0.

Section Wrh.
Context `{Config, Platform} {WO : WrhOper}.

Definition WRH_SRV (i : nat) : M wrh_servo_t := rd i (fun p => wrh_servo (ext_data p)).
Definition setWRH (i : nat) (g : wrh_servo_t -> wrh_servo_t) : M unit :=
  wr i (fun p => p <| ext_data ::= fun d => d <| wrh_servo ::= g |> |>).
Definition rd_tracking : M Z := rdw wrh_tracking_enabled.

Definition setState (i : nat) (newState : Z) : M unit := setSRV i (fun s => s <| srv_state := newState |>).
Definition wait_hw (i : nat) : M unit :=
  setSRV i (fun s => s <| srv_flags ::= fun f => Z.lor f PP_SERVO_FLAG_WAIT_HW |>).

Definition wrh_servo_enable_tracking (enable : Z) : M unit :=
  fun w => (tt, w <| wrh_tracking_enabled := enable |>).

Definition wrh_servo_init (i : nat) : M Z :=
  pp_servo_init i;;
  setWRH i WRH_SERVO_RESET_DATA;;
  period ← op get_clock_period;
  setWRH i (fun s => s <| clock_period_ps := period |>
    <| cur_setpoint_ps ::= fun c => if period <? c then Z.rem c period else c |>);;
  s ← WRH_SRV i;
  op (adjust_phase (cur_setpoint_ps s));;
  setSRV i (fun g => g <| srv_flags ::= fun f => Z.lor f PP_SERVO_FLAG_VALID |>);;
  now ← op (t_get i);
  setSRV i (fun g => g <| update_time := now |>);;
  tr ← rd_tracking;
  setWRH i (fun s => s <| tracking_enabled := u8 tr |>);;
  setState i WRH_SYNC_TAI;;
  mret 0.

Definition wrh_servo_reset (i : nat) : M unit :=
  e ← rd i extState;
  when (bool_decide (e = PP_EXSTATE_ACTIVE))
    (wr i (fun p => p <| ppi_flags := 0 |>);;
     setWRH i WRH_SERVO_RESET_DATA;;
     setState i WRH_UNINITIALIZED).

(** ** One update *)

(** The state the update starts from: a wrong second or tick overrides the
    sequence.  The remaining ticks and picoseconds; they are not used when the
    seconds differ.  With a clock period that is not positive the code goes on
    with uninitialised variables; the theorems assume a positive one. *)
Definition choose_state (st period : Z) (offsetMS : pp_time) : Z * Z * Z :=
  if truth (secs offsetMS) then (WRH_SYNC_TAI, 0, 0)
  else
    match pp_time_hardwarize offsetMS period with
    | Some (ticks, ps) => (if truth ticks then WRH_SYNC_NSEC else st, ticks, ps)
    | None => (st, 0, 0)
    end.

(** [s->cur_setpoint_ps += d; adjust_phase(s->cur_setpoint_ps);] *)
Definition move_setpoint (i : nat) (d : Z) : M unit :=
  setWRH i (fun s => s <| cur_setpoint_ps ::= fun c => i32 (c + d) |>);;
  s ← WRH_SRV i;
  op (adjust_phase (cur_setpoint_ps s));;
  mret tt.

Definition step_sync_tai (i : nat) (offsetMS : pp_time) : M unit :=
  op (adjust_counters (secs offsetMS) 0);;
  wait_hw i;;
  setState i WRH_SYNC_PHASE.

Definition step_sync_nsec (i : nat) (offset_ticks : Z) : M unit :=
  op (adjust_counters 0 offset_ticks);;
  wait_hw i;;
  setState i WRH_SYNC_PHASE.

Definition step_sync_phase (i : nat) (offset_ps : Z) : M unit :=
  move_setpoint i offset_ps;;
  wait_hw i;;
  setState i WRH_WAIT_OFFSET_STABLE;;
  when CONFIG_ARCH_IS_WRS
    (t ← op (t_get i);
     op_ (unix_time_set i t)).

Definition step_wait_stable (i : nat) (offsetMS : pp_time) : M unit :=
  (if c_abs (pp_time_to_picos offsetMS) <? WRH_SERVO_OFFSET_STABILITY_THRESHOLD then
     op_ (t_enable_timing_output true);;
     setWRH i (fun s => s <| prev_delayMS_ps := delayMS_ps s |>);;
     setState i WRH_TRACK_PHASE
   else setWRH i (fun s => s <| missed_iters ::= fun n => i32 (n + 1) |>));;
  s ← WRH_SRV i;
  when (10 <=? missed_iters s)
    (setWRH i (fun s => s <| missed_iters := 0 |>);;
     setState i WRH_SYNC_PHASE).

Definition step_track_phase (i : nat) (offset_ps : Z) : M unit :=
  setWRH i (fun s => s <| skew_ps := i64 (delayMS_ps s - prev_delayMS_ps s) |>);;
  tr ← rd_tracking;
  when (truth tr)
    (if 2 * WRH_SERVO_OFFSET_STABILITY_THRESHOLD <? c_abs offset_ps then setState i WRH_SYNC_PHASE
     else
       move_setpoint i (Z.quot offset_ps 4);;
       setWRH i (fun s => s <| prev_delayMS_ps := delayMS_ps s |>)).

(** [switch (gs->state)] *)
Definition servo_switch (i : nat) (st : Z) (offsetMS : pp_time) (offset_ticks offset_ps : Z) : M unit :=
  if st =? WRH_SYNC_TAI then step_sync_tai i offsetMS
  else if st =? WRH_SYNC_NSEC then step_sync_nsec i offset_ticks
  else if st =? WRH_SYNC_PHASE then step_sync_phase i offset_ps
  else if st =? WRH_WAIT_OFFSET_STABLE then step_wait_stable i offsetMS
  else when (st =? WRH_TRACK_PHASE) (step_track_phase i offset_ps).

(** The lock flag and the error counters. *)
Definition update_counters (i : nat) (prev_delayMM_ps : Z) : M unit :=
  setSRV i (fun g => g <| servo_locked := of_bool (srv_state g =? WRH_TRACK_PHASE) |>);;
  gs ← SRV i;
  setWRH i (fun s => s
    <| n_err_state ::= fun n => if srv_state gs =? WRH_TRACK_PHASE then n else u32 (n + 1) |>
    <| n_err_offset ::= fun n => if SNMP_MAX_OFFSET_PS <? c_abs (offsetMS_ps s) then u32 (n + 1) else n |>
    <| n_err_delta_rtt ::= fun n =>
         if SNMP_MAX_DELTA_RTT_PS <? c_abs (i64 (prev_delayMM_ps - delayMM_ps s)) then u32 (n + 1) else n |>).

(** The measured delays, into the servo's own records. *)
Definition record_delays (i : nat) : M unit :=
  gs ← SRV i;
  tr ← rd_tracking;
  setWRH i (fun s => s
    <| delayMM_ps := pp_time_to_picos (delayMM gs) |>
    <| delayMS_ps := pp_time_to_picos (delayMS gs) |>
    <| offsetMS_ps := pp_time_to_picos (offsetFromMaster gs) |>
    <| tracking_enabled := u8 tr |>);;
  now ← op (t_get i);
  setSRV i (fun g => g <| update_count ::= fun n => u32 (n + 1) |> <| update_time := now |>).

(** The part after the hardware has been found ready. *)
Definition servo_act (i : nat) (prev_delayMM_ps : Z) : M unit :=
  setSRV i (fun g => g <| srv_flags ::= fun f => Z.land f (Z.lnot PP_SERVO_FLAG_WAIT_HW) |>);;
  gs ← SRV i;
  s ← WRH_SRV i;
  let offsetMS := offsetFromMaster gs in
  let '(st, offset_ticks, offset_ps) := choose_state (srv_state gs) (clock_period_ps s) offsetMS in
  setState i st;;
  servo_switch i st offsetMS offset_ticks offset_ps;;
  update_counters i prev_delayMM_ps.

Definition wrh_servo_update (i : nat) : M Z :=
  gs ← SRV i;
  if srv_state gs =? WRH_UNINITIALIZED then mret 0
  else
    s ← WRH_SRV i;
    let prev_delayMM_ps := delayMM_ps s in
    ok ← pp_servo_calculate_delays i;
    if negb ok then mret 0
    else
      record_delays i;;
      s ← WRH_SRV i;
      if negb (truth (readyForSync s)) then mret 1
      else
        locking_poll_ret ← op (locking_poll i);
        if negb (locking_poll_ret =? WRH_SPLL_LOCKED) then
          setWRH i (fun s => s <| doRestart := 1 |>);; mret 0
        else
          busy ← op adjust_in_progress;
          if truth busy then mret 1
          else servo_act i prev_delayMM_ps;; mret 1.

(** ** Entry points *)

Definition wrh_servo_got_sync (i : nat) : M Z :=
  p ← rd i id;
  setSRV i (fun s => s <| srv_t1 := t1 p |> <| srv_t2 := t2 p |>);;
  (if is_delayMechanismP2P p && truth (got_sync (servo p)) then
     setSRV i (fun s => s <| got_sync := 0 |>);;
     wrh_servo_update i;;
     mret tt
   else setSRV i (fun s => s <| got_sync := 1 |>));;
  mret 0.

Definition wrh_servo_got_resp (i : nat) : M Z :=
  gs ← SRV i;
  if negb (truth (got_sync gs)) then mret 0
  else
    setSRV i (fun s => s <| got_sync := 0 |>);;
    bad ← stamps_incorrect i 0xC;
    if bad : bool then mret 0
    else
      p ← rd i id;
      setSRV i (fun s => s <| srv_t3 := t3 p |> <| srv_t4 := t4 p |>);;
      wrh_servo_update i.

Definition wrh_servo_got_presp (i : nat) : M Z :=
  bad ← stamps_incorrect i 0x3C;
  if bad : bool then mret 0
  else
    p ← rd i id;
    setSRV i (fun s => s <| srv_t3 := t3 p |> <| srv_t4 := t4 p |> <| srv_t5 := t5 p |>
      <| srv_t6 := t6 p |> <| got_sync := 1 |>);;
    mret 1.

End Wrh.

(** The example platform with a PLL that locks at once and adjustments that
    take no time; the period of the reference clock is 16 ns. *)
Definition demo_oper : @WrhOper Demo.demo_platform := {|
  locking_enable := fun _ e => (0, e);
  locking_poll := fun _ e => (WRH_SPLL_LOCKED, e);
  locking_disable := fun _ e => (0, e);
  locking_reset := fun _ e => (0, e);
  enable_ptracker := fun _ e => (0, e);
  adjust_in_progress := fun e => (0, e);
  adjust_counters := fun _ _ e => (0, e);
  adjust_phase := fun _ e => (0, e);
  get_clock_period := fun e => (16000, e);
  unix_time_set := fun _ _ e => e |}.
