(* ===== verification/WrhLoop.v ===== *)
(** * What the extensions' servo achieves (proto-ext-common/wrh-servo.c)

    [servo_act] as a controller on a small state, what its lock flag means,
    and the closed loop with an ideal clock: four updates bring any offset to
    zero. *)

From S2P Require Import Prelude TimeArith Types World FixedPoint Servo Wrh.

(** ** The controller *)

(** The part of the servo that decides: state, missed iterations, phase
    setpoint, clock period, last measured offset and lock flag. *)
Record ctl := mk_ctl {
  c_state : Z; c_missed : Z; c_setpoint : Z; c_period : Z; c_offset : pp_time; c_locked : Z }.

Definition ctl_of (p : pp_instance) : ctl :=
  let g := servo p in let s := wrh_servo (ext_data p) in
  mk_ctl (srv_state g) (missed_iters s) (cur_setpoint_ps s) (clock_period_ps s) (offsetFromMaster g) (servo_locked g).

Definition to_state (st : Z) (a : ctl) : ctl :=
  mk_ctl st (c_missed a) (c_setpoint a) (c_period a) (c_offset a) (c_locked a).
Definition to_missed (n : Z) (a : ctl) : ctl :=
  mk_ctl (c_state a) n (c_setpoint a) (c_period a) (c_offset a) (c_locked a).
Definition to_setpoint (sp : Z) (a : ctl) : ctl :=
  mk_ctl (c_state a) (c_missed a) sp (c_period a) (c_offset a) (c_locked a).
Definition to_locked (b : Z) (a : ctl) : ctl :=
  mk_ctl (c_state a) (c_missed a) (c_setpoint a) (c_period a) (c_offset a) b.

Section Controller.
Context `{Config, Platform} {WO : WrhOper}.

(** Moving the phase setpoint. *)
Definition shift (d : Z) (a : ctl) (e : env) : ctl * env :=
  let sp := i32 (c_setpoint a + d) in (to_setpoint sp a, (adjust_phase sp e).2).

(** A long wait for stability goes back to the phase. *)
Definition back_to_phase (a : ctl) : ctl :=
  if 10 <=? c_missed a then to_state WRH_SYNC_PHASE (to_missed 0 a) else a.

Definition switch (i : nat) (tr : Z) (st ticks ps : Z) (a : ctl) (e : env) : ctl * env :=
  if st =? WRH_SYNC_TAI then (to_state WRH_SYNC_PHASE a, (adjust_counters (secs (c_offset a)) 0 e).2)
  else if st =? WRH_SYNC_NSEC then (to_state WRH_SYNC_PHASE a, (adjust_counters 0 ticks e).2)
  else if st =? WRH_SYNC_PHASE then
    let '(a, e) := shift ps a e in
    (to_state WRH_WAIT_OFFSET_STABLE a,
     if CONFIG_ARCH_IS_WRS then let '(t, e) := t_get i e in unix_time_set i t e else e)
  else if st =? WRH_WAIT_OFFSET_STABLE then
    if c_abs (pp_time_to_picos (c_offset a)) <? WRH_SERVO_OFFSET_STABILITY_THRESHOLD
    then (back_to_phase (to_state WRH_TRACK_PHASE a), t_enable_timing_output true e)
    else (back_to_phase (to_missed (i32 (c_missed a + 1)) a), e)
  else if (st =? WRH_TRACK_PHASE) && truth tr then
    if 2 * WRH_SERVO_OFFSET_STABILITY_THRESHOLD <? c_abs ps then (to_state WRH_SYNC_PHASE a, e)
    else shift (Z.quot ps 4) a e
  else (a, e).

Definition controller (i : nat) (tr : Z) (a : ctl) (e : env) : ctl * env :=
  let '(st, ticks, ps) := choose_state (c_state a) (c_period a) (c_offset a) in
  let '(a, e) := switch i tr st ticks ps (to_state st a) e in
  (to_locked (of_bool (c_state a =? WRH_TRACK_PHASE)) a, e).

(** ** [servo_act] is the controller *)

Definition at_ctl (i : nat) (tr : Z) (a : ctl) (e : env) (w : world) : Prop :=
  (i < length (insts w))%nat /\ ctl_of (inst w i) = a /\ the_env w = e /\ wrh_tracking_enabled w = tr.

Section Steps.
Context (i : nat) (tr : Z).

Definition goes {A} (a : ctl) (e : env) (m : M A) (r : ctl * env) : Prop :=
  forall w, at_ctl i tr a e w -> at_ctl i tr r.1 r.2 (m w).2.

Lemma goes_ret {A} a e (x : A) : goes a e (mret x) (a, e).
Proof. by intros w Hw. Qed.
Lemma goes_bind {A B} a e (m : M A) (k : A -> M B) r r' :
  goes a e m r -> (forall x, goes r.1 r.2 (k x) r') -> goes a e (m ≫= k) r'.
Proof. intros Hm Hk w Hw. rewrite bind_unfold. apply Hk, Hm, Hw. Qed.
Lemma goes_wr a e f a' : (forall p, ctl_of p = a -> ctl_of (f p) = a') -> goes a e (wr i f) (a', e).
Proof.
  intros Hf w (Hi & Ha & He & Ht). unfold at_ctl. cbn [wr fst snd].
  rewrite inst_set_same, length_set_inst by done. auto.
Qed.
Lemma goes_op {T} a e (f : env -> T * env) : goes a e (op f) (a, (f e).2).
Proof. intros w (Hi & Ha & <- & Ht). unfold at_ctl, op. by destruct (f (the_env w)). Qed.
Lemma goes_op_ a e f : goes a e (op_ f) (a, f e).
Proof. apply (goes_op a e (fun e => (tt, f e))). Qed.
Lemma goes_op_read {T B} a e (f : env -> T * env) (k : T -> M B) r :
  goes a (f e).2 (k (f e).1) r -> goes a e (op f ≫= k) r.
Proof.
  intros Hk w Hw. rewrite bind_unfold. pose proof (goes_op a e f w Hw) as Hw'. destruct Hw as (_ & _ & <- & _).
  assert ((op f w).1 = (f (the_env w)).1) as -> by (unfold op; by destruct (f (the_env w))). by apply Hk.
Qed.
Lemma goes_srv {B} a e (k : pp_servo -> M B) r :
  (forall g, srv_state g = c_state a -> offsetFromMaster g = c_offset a -> goes a e (k g) r) -> goes a e (SRV i ≫= k) r.
Proof. intros Hk w Hw. unfold SRV. rewrite bind_rd. destruct (Hw) as (_ & <- & _). apply Hk; done. Qed.
Lemma goes_wrh {B} a e (k : wrh_servo_t -> M B) r :
  (forall s, missed_iters s = c_missed a -> cur_setpoint_ps s = c_setpoint a -> clock_period_ps s = c_period a ->
    goes a e (k s) r) -> goes a e (WRH_SRV i ≫= k) r.
Proof. intros Hk w Hw. unfold WRH_SRV. rewrite bind_rd. destruct (Hw) as (_ & <- & _). apply Hk; done. Qed.
Lemma goes_tracking {B} a e (k : Z -> M B) r : goes a e (k tr) r -> goes a e (rd_tracking ≫= k) r.
Proof. intros Hk w Hw. unfold rd_tracking. rewrite bind_unfold. cbn. destruct (Hw) as (_ & _ & _ & ->). by apply Hk. Qed.
Lemma goes_setSRV a e g a' : (forall p, ctl_of p = a -> ctl_of (p <| servo ::= g |>) = a') -> goes a e (setSRV i g) (a', e).
Proof. apply goes_wr. Qed.
Lemma goes_setWRH a e g a' :
  (forall p, ctl_of p = a -> ctl_of (p <| ext_data ::= fun d => d <| wrh_servo ::= g |> |>) = a') ->
  goes a e (setWRH i g) (a', e).
Proof. apply goes_wr. Qed.
Lemma goes_setState a e st : goes a e (setState i st) (to_state st a, e).
Proof. apply goes_setSRV. by intros p <-. Qed.
Lemma goes_wait a e : goes a e (wait_hw i) (a, e).
Proof. apply goes_setSRV. by intros p <-. Qed.
Lemma goes_if {A} a e (b : bool) (m m' : M A) r r' : goes a e m r -> goes a e m' r' ->
  goes a e (if b then m else m') (if b then r else r').
Proof. by destruct b. Qed.
Lemma goes_when a e b (m : M unit) r : goes a e m r -> goes a e (when b m) (if b then r else (a, e)).
Proof. intros Hm. destruct b; [done|apply goes_ret]. Qed.

Lemma goes_shift a e d : goes a e (move_setpoint i d) (shift d a e).
Proof.
  unfold move_setpoint, shift. eapply goes_bind.
  { apply (goes_setWRH a e _ (to_setpoint (i32 (c_setpoint a + d)) a)). by intros p <-. }
  intros _. apply goes_wrh. intros s _ -> _. eapply goes_bind; [apply goes_op|]. intros _. apply goes_ret.
Qed.

Lemma goes_switch a e st ticks ps : goes a e (servo_switch i st (c_offset a) ticks ps) (switch i tr st ticks ps a e).
Proof.
  unfold servo_switch, switch. apply goes_if; [|apply goes_if; [|apply goes_if; [|apply goes_if]]].
  - unfold step_sync_tai. eapply goes_bind; [apply goes_op|]. intros _. eapply goes_bind; [apply goes_wait|].
    intros _. apply goes_setState.
  - unfold step_sync_nsec. eapply goes_bind; [apply goes_op|]. intros _. eapply goes_bind; [apply goes_wait|].
    intros _. apply goes_setState.
  - unfold step_sync_phase. eapply goes_bind; [apply goes_shift|]. intros _. destruct (shift ps a e) as [a' e'].
    eapply goes_bind; [apply goes_wait|]. intros _. eapply goes_bind; [apply goes_setState|]. intros _. cbn [fst snd].
    destruct CONFIG_ARCH_IS_WRS; [|apply goes_ret]. cbn [when]. apply goes_op_read. destruct (t_get i e') as [t e''].
    apply goes_op_.
  - unfold step_wait_stable.
    assert (forall a' e', goes a' e' (s ← WRH_SRV i; when (10 <=? missed_iters s)
      (setWRH i (fun s => s <| missed_iters := 0 |>);; setState i WRH_SYNC_PHASE)) (back_to_phase a', e')) as Hg.
    { intros a' e'. apply goes_wrh. intros s -> _ _. unfold back_to_phase. destruct (10 <=? c_missed a'); [|apply goes_ret].
      cbn [when]. eapply goes_bind; [apply (goes_setWRH a' e' _ (to_missed 0 a')); by intros p <-|]. intros _.
      apply goes_setState. }
    destruct (_ <? _).
    + eapply goes_bind.
      { eapply goes_bind; [apply goes_op_|]. intros _. cbn [fst snd].
        eapply goes_bind; [apply (goes_setWRH a _ _ a); by intros p <-|]. intros _. apply goes_setState. }
      intros _. apply Hg.
    + eapply goes_bind; [apply (goes_setWRH a e _ (to_missed (i32 (c_missed a + 1)) a)); by intros p <-|].
      intros _. apply Hg.
  - destruct (st =? WRH_TRACK_PHASE); cbn [when andb]; [|apply goes_ret]. unfold step_track_phase.
    eapply goes_bind; [apply (goes_setWRH a e _ a); by intros p <-|]. intros _. apply goes_tracking. cbn [fst snd].
    destruct (truth tr); cbn [when]; [|apply goes_ret]. apply goes_if; [apply goes_setState|].
    eapply goes_bind; [apply goes_shift|]. intros _. destruct (shift _ a e) as [a' e'].
    apply (goes_setWRH a' e' _ a'). by intros p <-.
Qed.

Lemma servo_act_goes a e prev : goes a e (servo_act i prev) (controller i tr a e).
Proof.
  unfold servo_act, controller. eapply goes_bind; [apply (goes_setSRV a e _ a); by intros p <-|]. intros _. cbn [fst snd].
  apply goes_srv. intros g -> ->. apply goes_wrh. intros s _ _ ->. cbn zeta.
  destruct (choose_state _ _ _) as [[st ticks] ps]. eapply goes_bind; [apply goes_setState|]. intros _. cbn [fst snd].
  eapply goes_bind; [apply (goes_switch (to_state st a))|]. intros _. destruct (switch _ _ _ _ _ _ _) as [a' e'].
  cbn [fst snd]. unfold update_counters.
  set (a'' := to_locked (of_bool (c_state a' =? WRH_TRACK_PHASE)) a').
  eapply goes_bind; [apply (goes_setSRV a' e' _ a''); by intros p <-|]. intros _. apply goes_srv. intros g' _ _.
  apply (goes_setWRH a'' e' _ a''). by intros p <-.
Qed.
End Steps.

(** ** What the lock flag means *)

Lemma c_abs_small z : Z.abs z < 2147483648 -> c_abs z = Z.abs z.
Proof. intros Hz. unfold c_abs. rewrite (i32_id z) by lia. destruct (Z.ltb_spec z 0); rewrite ?i32_id by lia; lia. Qed.

(** The offset of a controller whose clock period is [k] nanoseconds. *)
Definition small_period (a : ctl) (k : Z) : Prop := c_period a = 1000 * k /\ 0 < k <= 1000000.

Lemma round_ps_range t : Z.abs (scaled_nsecs t) <= SNS_PER_S -> 0 <= round_ps t <= 1000000000000.
Proof. intros Ht. unfold round_ps. unfold_time. dlia. Qed.

Lemma choose_small a k : small_period a k -> Z.abs (scaled_nsecs (c_offset a)) <= SNS_PER_S ->
  let t := c_offset a in
  choose_state (c_state a) (c_period a) t =
  if truth (secs t) then (WRH_SYNC_TAI, 0, 0)
  else (if truth (ns_sign t * (k * (round_ps t / (1000 * k)))) then WRH_SYNC_NSEC else c_state a,
        ns_sign t * (k * (round_ps t / (1000 * k))), ns_sign t * (round_ps t mod (1000 * k))).
Proof. intros [-> Hk] Ht. unfold choose_state. cbn zeta. by rewrite hardwarize_value by lia. Qed.

Lemma no_ticks t k : 0 < k -> Z.abs (scaled_nsecs t) <= SNS_PER_S ->
  truth (ns_sign t * (k * (round_ps t / (1000 * k)))) = false -> round_ps t < 1000 * k.
Proof.
  intros Hk Ht Hz. apply negb_false_iff, Z.eqb_eq in Hz. pose proof (round_ps_range t Ht).
  assert (round_ps t / (1000 * k) = 0) as Hq by (unfold ns_sign in Hz; case_match; nia).
  apply Z.div_small_iff in Hq; lia.
Qed.

Lemma controller_lock i tr a e k : small_period a k -> Z.abs (scaled_nsecs (c_offset a)) <= SNS_PER_S ->
  truth tr = true -> c_locked (controller i tr a e).1 = 1 ->
  secs (c_offset a) = 0 /\ round_ps (c_offset a) <= 2 * WRH_SERVO_OFFSET_STABILITY_THRESHOLD /\
  (c_state a = WRH_WAIT_OFFSET_STABLE \/ c_state a = WRH_TRACK_PHASE).
Proof.
  intros Hp Ht Htr. unfold controller. rewrite (choose_small a k) by done. cbn zeta.
  set (t := c_offset a) in *. destruct Hp as [Hp Hk]. pose proof (round_ps_range t Ht) as Hr.
  destruct (truth (secs t)) eqn:Hs; [done|]. apply negb_false_iff, Z.eqb_eq in Hs.
  destruct (truth (ns_sign t * _)) eqn:Hq; [done|]. apply no_ticks in Hq; [|lia|done].
  rewrite (Z.mod_small (round_ps t)) by lia.
  assert (c_abs (ns_sign t * round_ps t) = round_ps t) as Hc
    by (rewrite c_abs_small by (unfold ns_sign; case_match; lia); unfold ns_sign; case_match; lia).
  unfold switch. cbn [to_state c_state c_offset].
  destruct (Z.eqb_spec (c_state a) WRH_SYNC_TAI); [done|]. destruct (Z.eqb_spec (c_state a) WRH_SYNC_NSEC); [done|].
  destruct (Z.eqb_spec (c_state a) WRH_SYNC_PHASE); [done|].
  destruct (Z.eqb_spec (c_state a) WRH_WAIT_OFFSET_STABLE) as [Hw|Hw].
  - fold t. rewrite to_picos_small, Hc by done. destruct (Z.ltb_spec (round_ps t) WRH_SERVO_OFFSET_STABILITY_THRESHOLD) as [Hl|Hl].
    + intros _. split; [done|]. split; [unfold WRH_SERVO_OFFSET_STABILITY_THRESHOLD in *; lia|by left].
    + unfold back_to_phase. cbn [c_missed to_missed]. destruct (_ <=? _); cbn; rewrite ?Hw; done.
  - destruct (Z.eqb_spec (c_state a) WRH_TRACK_PHASE) as [Hx|Hx]; cbn [andb].
    + rewrite Htr, Hc. destruct (Z.ltb_spec (2 * WRH_SERVO_OFFSET_STABILITY_THRESHOLD) (round_ps t)); [done|].
      intros _. split; [done|]. split; [lia|by right].
    + cbn. intros Hl. destruct (Z.eqb_spec (c_state a) WRH_TRACK_PHASE); done.
Qed.

(** The lock flag is sound: when an update of the extensions' servo, with
    tracking enabled and a clock period of whole nanoseconds, leaves
    [servo_locked] set, the offset it acted on was zero in seconds and at most
    120 ps below, and the servo was already waiting for a stable offset or
    tracking the phase. *)
Theorem lock_means_small_offset i prev w k :
  let p := inst w i in
  let t := offsetFromMaster (servo p) in
  (i < length (insts w))%nat -> clock_period_ps (wrh_servo (ext_data p)) = 1000 * k -> 0 < k <= 1000000 ->
  Z.abs (scaled_nsecs t) <= SNS_PER_S -> wrh_tracking_enabled w <> 0 ->
  servo_locked (servo (inst (servo_act i prev w).2 i)) = 1 ->
  secs t = 0 /\ Z.abs (pp_time_to_picos t) <= 120 /\
  (srv_state (servo p) = WRH_WAIT_OFFSET_STABLE \/ srv_state (servo p) = WRH_TRACK_PHASE).
Proof.
  intros p t Hi Hk Hk' Ht Htr Hl.
  destruct (servo_act_goes i (wrh_tracking_enabled w) (ctl_of p) (the_env w) prev w) as (_ & Ha & _); [done|].
  assert (c_locked (controller i (wrh_tracking_enabled w) (ctl_of p) (the_env w)).1 = 1) as Hl' by (by rewrite <- Ha).
  apply (controller_lock _ _ _ _ k) in Hl' as (Hs & Hr & Hst); [|done|done|by apply negb_true_iff, Z.eqb_neq].
  split; [done|]. split; [|done]. rewrite to_picos_small by done. change (c_offset (ctl_of p)) with t in Hr.
  pose proof (round_ps_range t Ht). unfold WRH_SERVO_OFFSET_STABILITY_THRESHOLD in Hr. unfold ns_sign. case_match; lia.
Qed.

(** ** The closed loop

    The clock the servo steers, as an observer sees it: [gap], its distance
    from the master in picoseconds, and [phase], the phase in effect.  The
    operations of the hardware move them by what they are asked, and the
    measured offset is the gap. *)

Definition PS_PER_S : Z := 1000000000000.

Class IdealClock := {
  gap : env -> Z; phase : env -> Z;
  gap_counters s n e : gap (adjust_counters s n e).2 = gap e - (s * PS_PER_S + n * 1000);
  phase_counters s n e : phase (adjust_counters s n e).2 = phase e;
  gap_phase sp e : gap (adjust_phase sp e).2 = gap e - (sp - phase e);
  phase_phase sp e : phase (adjust_phase sp e).2 = sp;
  idle_output b e : gap (t_enable_timing_output b e) = gap e /\ phase (t_enable_timing_output b e) = phase e;
  idle_get i e : gap (t_get i e).2 = gap e /\ phase (t_get i e).2 = phase e;
  idle_set i t e : gap (unix_time_set i t e) = gap e /\ phase (unix_time_set i t e) = phase e }.

Context `{!IdealClock}.

(** A gap as a measured time. *)
Definition measured (g : Z) : pp_time :=
  mk_time (Z.quot g PS_PER_S) (Z.quot (Z.rem g PS_PER_S * 65536) 1000).

(** One cycle: measure, then act. *)
Definition cycle (i : nat) (prev : Z) : M unit :=
  g ← rdw (fun w => gap (the_env w));
  setSRV i (fun s => s <| offsetFromMaster := measured g |>);;
  servo_act i prev.
Fixpoint cycles (i : nat) (prevs : list Z) (w : world) : world :=
  match prevs with [] => w | p :: l => cycles i l (cycle i p w).2 end.

Lemma measured_parts g : let t := measured g in
  secs t = Z.quot g PS_PER_S /\ Z.abs (scaled_nsecs t) <= SNS_PER_S /\
  ns_sign t * round_ps t = Z.rem g PS_PER_S /\ round_ps t = Z.abs (Z.rem g PS_PER_S).
Proof.
  cbn zeta. unfold measured, ns_sign, round_ps. cbn [secs scaled_nsecs]. split; [done|].
  change SNS_PER_S with 65536000000000.
  assert (Z.abs (Z.rem g PS_PER_S) < PS_PER_S) as Hr
    by (pose proof (Z.rem_bound_abs g PS_PER_S ltac:(done)); unfold PS_PER_S in *; lia).
  generalize dependent (Z.rem g PS_PER_S). intros r Hr. unfold PS_PER_S in Hr.
  destruct (decide (0 <= r)) as [Hp|Hp].
  - rewrite Z.quot_div_nonneg by lia. assert (0 <= r * 65536 / 1000) by dlia.
    rewrite (proj2 (Z.ltb_ge _ 0)), Z.abs_eq, (Z.abs_eq r) by lia. repeat split; dlia.
  - replace (r * 65536) with (- (- r * 65536)) by lia. rewrite Z.quot_opp_l, Z.quot_div_nonneg by lia.
    assert (65 <= - r * 65536 / 1000) by dlia. rewrite (proj2 (Z.ltb_lt _ 0)), Z.abs_opp, Z.abs_eq, (Z.abs_neq r) by lia.
    repeat split; dlia.
Qed.

(** What a cycle does to controller and clock. *)
Definition with_offset (t : pp_time) (a : ctl) : ctl :=
  mk_ctl (c_state a) (c_missed a) (c_setpoint a) (c_period a) t (c_locked a).
Lemma cycle_goes i tr a e prev : goes i tr a e (cycle i prev) (controller i tr (with_offset (measured (gap e)) a) e).
Proof.
  intros w Hw. unfold cycle. rewrite bind_unfold. cbn [rdw fst snd]. destruct (Hw) as (_ & _ & -> & _).
  revert w Hw. change (goes i tr a e (setSRV i (fun s => s <| offsetFromMaster := measured (gap e) |>);; servo_act i prev)
    (controller i tr (with_offset (measured (gap e)) a) e)).
  eapply goes_bind; [apply (goes_setSRV i tr a e _ (with_offset (measured (gap e)) a)); by intros p <-|].
  intros _. apply servo_act_goes.
Qed.

(** The stages of synchronisation. *)
Record loop_ok (k lim : Z) (st : Z) (bound : Z) (a : ctl) (e : env) : Prop := {
  lo_period : small_period a k;
  lo_state : c_state a = st;
  lo_missed : c_missed a = 0;
  lo_phase : c_setpoint a = phase e;
  lo_lim : Z.abs (phase e) <= lim;
  lo_gap : Z.abs (gap e) < bound }.

Section Loop.
Context (i : nat) (tr k : Z).

Definition step (a : ctl) (e : env) : ctl * env := controller i tr (with_offset (measured (gap e)) a) e.

(** The step, in terms of the gap. *)
Lemma step_small a e : small_period a k ->
  let r := Z.rem (gap e) PS_PER_S in
  let ticks := Z.sgn r * (k * (Z.abs r / (1000 * k))) in
  let a' := with_offset (measured (gap e)) a in
  step a e =
  let '(st, n, ps) := if truth (Z.quot (gap e) PS_PER_S) then (WRH_SYNC_TAI, 0, 0)
    else (if truth ticks then WRH_SYNC_NSEC else c_state a, ticks, Z.sgn r * (Z.abs r mod (1000 * k))) in
  let '(a, e) := switch i tr st n ps (to_state st a') e in
  (to_locked (of_bool (c_state a =? WRH_TRACK_PHASE)) a, e).
Proof.
  intros Hp. cbn zeta. unfold step, controller. destruct (measured_parts (gap e)) as (E1 & E2 & E3 & E4).
  rewrite (choose_small _ k) by done. cbn zeta. cbn [with_offset c_offset c_state]. rewrite E1, E4.
  destruct (truth _); [done|]. set (r := Z.rem (gap e) PS_PER_S) in *.
  assert (r <> 0 -> ns_sign (measured (gap e)) = Z.sgn r) as Hs by (rewrite <- E3; unfold ns_sign in *; case_match; lia).
  destruct (decide (r = 0)) as [Hz|Hz]; [|by rewrite Hs].
  rewrite Hz. cbn [Z.abs Z.sgn]. rewrite Z.div_0_l, Z.mod_0_l by (destruct Hp as [_ ?]; lia).
  by rewrite ?Z.mul_0_r, ?Z.mul_0_l.
Qed.

Lemma rem_abs g : Z.abs (Z.rem g PS_PER_S) < PS_PER_S.
Proof. pose proof (Z.rem_bound_abs g PS_PER_S ltac:(done)). unfold PS_PER_S in *. lia. Qed.

(** The operations of the hardware, on the stages. *)
Lemma counters_ok lim st b b' a e s n : loop_ok k lim st b a e ->
  Z.abs (gap e - (s * PS_PER_S + n * 1000)) < b' ->
  loop_ok k lim WRH_SYNC_PHASE b'
    (to_locked 0 (to_state WRH_SYNC_PHASE (with_offset (measured (gap e)) a))) (adjust_counters s n e).2.
Proof.
  intros [Hp Hs Hm Hph Hl Hg] Hb. split; cbn [to_locked to_state with_offset c_state c_missed c_setpoint];
    rewrite ?gap_counters, ?phase_counters; done.
Qed.

Lemma from_tai b a e : loop_ok k 1073741824 WRH_SYNC_TAI b a e ->
  let r := step a e in loop_ok k 1073741824 WRH_SYNC_PHASE PS_PER_S r.1 r.2.
Proof.
  intros Ho. pose proof Ho as [Hp Hs _ _ _ _]. cbn zeta. rewrite step_small by done. cbn zeta.
  set (r := Z.rem (gap e) PS_PER_S). pose proof (rem_abs (gap e)) as Hr. fold r in Hr.
  pose proof (Z.quot_rem' (gap e) PS_PER_S) as Hq. fold r in Hq.
  destruct (truth (Z.quot (gap e) PS_PER_S)) eqn:Hz.
  - unfold switch. cbn [Z.eqb WRH_SYNC_TAI Pos.eqb fst snd]. apply (counters_ok _ _ b _ a e _ _ Ho).
    destruct (measured_parts (gap e)) as (E1 & _). cbn [to_state with_offset c_offset]. rewrite E1. lia.
  - apply negb_false_iff, Z.eqb_eq in Hz. rewrite Hz in Hq.
    set (ticks := Z.sgn r * (k * (Z.abs r / (1000 * k)))).
    assert (Z.abs (r - 1000 * ticks) <= Z.abs r) as Ht.
    { subst ticks. pose proof (Z.div_mod (Z.abs r) (1000 * k) ltac:(destruct Hp; lia)).
      pose proof (Z.mod_pos_bound (Z.abs r) (1000 * k) ltac:(destruct Hp; lia)).
      assert (0 <= Z.abs r / (1000 * k)) by (apply Z.div_pos; destruct Hp; lia).
      destruct (Z.sgn_spec r) as [[? ->]|[[? ->]|[? ->]]]; lia. }
    destruct (truth ticks); [|rewrite Hs]; unfold switch; cbn [Z.eqb WRH_SYNC_TAI WRH_SYNC_NSEC Pos.eqb fst snd].
    + apply (counters_ok _ _ b _ a e _ _ Ho). lia.
    + apply (counters_ok _ _ b _ a e _ _ Ho). destruct (measured_parts (gap e)) as (E1 & _).
      cbn [to_state with_offset c_offset]. rewrite E1, Hz. lia.
Qed.

Lemma small_gap a e b lim st : loop_ok k lim st b a e -> b <= PS_PER_S -> Z.quot (gap e) PS_PER_S = 0 /\ Z.rem (gap e) PS_PER_S = gap e.
Proof.
  intros [_ _ _ _ _ Hg] Hb. assert (Z.quot (gap e) PS_PER_S = 0) as Hq by (apply Z.quot_small_iff; [done|]; unfold PS_PER_S in *; lia).
  split; [done|]. pose proof (Z.quot_rem' (gap e) PS_PER_S). lia.
Qed.

Lemma shift_ok lim lim' b st st' a e d (out : env -> env) :
  loop_ok k lim st b a e -> Z.abs (phase e + d) <= lim' -> lim' < 2147483648 -> Z.abs (gap e - d) < 1 ->
  (forall e, gap (out e) = gap e /\ phase (out e) = phase e) ->
  forall l, loop_ok k lim' st' 1
    (to_locked l (to_state st' (shift d (with_offset (measured (gap e)) a) e).1))
    (out (shift d (with_offset (measured (gap e)) a) e).2).
Proof.
  intros [Hp Hs Hm Hph Hl Hg] Hd Hlim Hgap Ho l. unfold shift. cbn [with_offset c_setpoint]. rewrite Hph, i32_id by lia.
  split; cbn [fst snd to_locked to_state to_setpoint with_offset c_state c_missed c_setpoint]; try done.
  - destruct (Ho (adjust_phase (phase e + d) e).2) as [_ ->]. by rewrite phase_phase.
  - destruct (Ho (adjust_phase (phase e + d) e).2) as [_ ->]. by rewrite phase_phase.
  - destruct (Ho (adjust_phase (phase e + d) e).2) as [-> _]. rewrite gap_phase. lia.
Qed.

Abbreviation lim2 := (1073741824 + 1000 * k).

Lemma from_phase b a e : loop_ok k 1073741824 WRH_SYNC_PHASE b a e -> b <= PS_PER_S ->
  let r := step a e in
  (1000 * k < b /\ loop_ok k 1073741824 WRH_SYNC_PHASE (1000 * k) r.1 r.2) \/
  loop_ok k lim2 WRH_WAIT_OFFSET_STABLE 1 r.1 r.2.
Proof.
  intros Ho Hb. destruct (small_gap _ _ _ _ _ Ho Hb) as [Hz Hr]. pose proof Ho as [[Hp Hk] Hs _ _ Hl Hg].
  cbn zeta. rewrite step_small by done. cbn zeta. rewrite Hz, Hr. cbn [truth negb Z.eqb].
  pose proof (Z.div_mod (Z.abs (gap e)) (1000 * k) ltac:(lia)) as Hdm.
  pose proof (Z.mod_pos_bound (Z.abs (gap e)) (1000 * k) ltac:(lia)) as Hmod.
  set (ticks := Z.sgn (gap e) * (k * (Z.abs (gap e) / (1000 * k)))).
  destruct (truth ticks) eqn:Ht.
  - left. unfold switch. cbn [Z.eqb WRH_SYNC_TAI WRH_SYNC_NSEC Pos.eqb fst snd].
    assert (0 < Z.abs (gap e) / (1000 * k)) as Hq.
    { assert (0 <= Z.abs (gap e) / (1000 * k)) by (apply Z.div_pos; lia). apply negb_true_iff, Z.eqb_neq in Ht.
      destruct (decide (Z.abs (gap e) / (1000 * k) = 0)) as [E|]; [|lia]. subst ticks. rewrite E, !Z.mul_0_r in Ht. done. }
    split; [nia|]. apply (counters_ok _ _ b _ a e _ _ Ho). subst ticks.
    destruct (Z.sgn_spec (gap e)) as [[? ->]|[[? ->]|[? ->]]]; lia.
  - right. assert (Z.abs (gap e) < 1000 * k) as Hsm.
    { apply negb_false_iff, Z.eqb_eq in Ht. destruct (decide (gap e = 0)) as [->|]; [lia|]. subst ticks.
      assert (Z.abs (gap e) / (1000 * k) = 0) as Hq by (destruct (Z.sgn_spec (gap e)) as [[? E]|[[? E]|[? E]]]; rewrite E in Ht; nia).
      apply Z.div_small_iff in Hq; lia. }
    rewrite (Z.mod_small (Z.abs (gap e))) by lia. replace (Z.sgn (gap e) * Z.abs (gap e)) with (gap e) by lia.
    rewrite Hs. unfold switch. cbn [Z.eqb WRH_SYNC_TAI WRH_SYNC_NSEC WRH_SYNC_PHASE Pos.eqb].
    set (out e := if CONFIG_ARCH_IS_WRS then let '(t, e) := t_get i e in unix_time_set i t e else e).
    assert (to_state WRH_SYNC_PHASE (with_offset (measured (gap e)) a) = with_offset (measured (gap e)) a) as ->
      by (rewrite <- Hs; by destruct a).
    assert (Z.abs (phase e + gap e) <= lim2) as L1 by lia. assert (lim2 < 2147483648) as L2 by lia.
    assert (Z.abs (gap e - gap e) < 1) as L3 by lia.
    pose proof (shift_ok 1073741824 lim2 b _ WRH_WAIT_OFFSET_STABLE a e (gap e) out Ho L1 L2 L3) as Hsh.
    destruct (shift (gap e) (with_offset (measured (gap e)) a) e) as [a' e']. cbn [fst snd] in *. apply Hsh.
    intros e0. subst out. cbn beta. destruct CONFIG_ARCH_IS_WRS; [|done]. destruct (t_get i e0) as [t e1] eqn:Et.
    destruct (idle_get i e0) as [G P]. rewrite Et in G, P. destruct (idle_set i t e1) as [-> ->]. done.
Qed.

(** The offset is zero. *)
Lemma zero_gap a e lim st : loop_ok k lim st 1 a e -> gap e = 0.
Proof. intros [_ _ _ _ _ Hg]. lia. Qed.

Lemma step_zero a e : small_period a k -> gap e = 0 ->
  step a e =
  let '(a, e) := switch i tr (c_state a) 0 0 (with_offset (measured 0) a) e in
  (to_locked (of_bool (c_state a =? WRH_TRACK_PHASE)) a, e).
Proof.
  intros Hp Hz. rewrite step_small by done. cbn zeta. rewrite Hz.
  change (Z.quot 0 PS_PER_S) with 0. change (Z.rem 0 PS_PER_S) with 0. cbn [Z.sgn]. rewrite !Z.mul_0_l.
  change (truth 0) with false. cbn iota. by destruct a.
Qed.

Lemma from_wait a e : loop_ok k lim2 WRH_WAIT_OFFSET_STABLE 1 a e ->
  let r := step a e in loop_ok k lim2 WRH_TRACK_PHASE 1 r.1 r.2 /\ c_locked r.1 = 1.
Proof.
  intros Ho. pose proof Ho as [Hp Hs Hm Hph Hl Hg]. cbn zeta. rewrite step_zero by (done || by eapply zero_gap).
  rewrite Hs. unfold switch. cbn [Z.eqb WRH_SYNC_TAI WRH_SYNC_NSEC WRH_SYNC_PHASE WRH_WAIT_OFFSET_STABLE Pos.eqb with_offset c_offset].
  change (c_abs (pp_time_to_picos (measured 0)) <? WRH_SERVO_OFFSET_STABILITY_THRESHOLD) with true. cbn iota.
  unfold back_to_phase. cbn [to_state with_offset c_missed]. rewrite Hm. cbn [Z.leb Z.compare fst snd]. split; [|done].
  destruct (idle_output true e) as [G P]. split; cbn; rewrite ?G, ?P; try done.
Qed.

Lemma from_track a e : loop_ok k lim2 WRH_TRACK_PHASE 1 a e ->
  let r := step a e in loop_ok k lim2 WRH_TRACK_PHASE 1 r.1 r.2 /\ c_locked r.1 = 1.
Proof.
  intros Ho. pose proof Ho as [[Hp Hk] Hs Hm Hph Hl Hg]. pose proof (zero_gap _ _ _ _ Ho) as Hz. cbn zeta.
  rewrite step_zero by done. rewrite Hs. unfold switch.
  cbn [Z.eqb WRH_SYNC_TAI WRH_SYNC_NSEC WRH_SYNC_PHASE WRH_WAIT_OFFSET_STABLE WRH_TRACK_PHASE Pos.eqb andb].
  destruct (truth tr).
  - change (2 * WRH_SERVO_OFFSET_STABILITY_THRESHOLD <? c_abs 0) with false. change (Z.quot 0 4) with 0. cbn iota.
    assert (Z.abs (phase e + 0) <= lim2) as L1 by lia. assert (lim2 < 2147483648) as L2 by lia.
    assert (Z.abs (gap e - 0) < 1) as L3 by lia.
    pose proof (shift_ok lim2 lim2 1 _ WRH_TRACK_PHASE a e 0 (fun e => e) Ho L1 L2 L3 (fun _ => conj eq_refl eq_refl) 1) as Hsh.
    rewrite Hz in Hsh. unfold shift in *. cbn [fst snd to_setpoint with_offset c_state] in *. rewrite Hs.
    split; [|done]. destruct a. cbn [c_state] in Hs. subst c_state0. exact Hsh.
  - cbn [fst snd with_offset c_state]. rewrite Hs. split; [|done]. by split.
Qed.

(** From a stage, enough cycles end in lock. *)
Definition synced (w : world) : Prop :=
  gap (the_env w) = 0 /\ srv_state (servo (inst w i)) = WRH_TRACK_PHASE /\ servo_locked (servo (inst w i)) = 1.
Definition ends (n : nat) (P : ctl -> env -> Prop) : Prop :=
  forall prevs w a e, P a e -> at_ctl i tr a e w -> (n <= length prevs)%nat -> synced (cycles i prevs w).

Lemma ends_step n (P P' : ctl -> env -> Prop) :
  (forall a e, P a e -> let r := step a e in P' r.1 r.2) -> ends n P' -> ends (S n) P.
Proof.
  intros Hs He prevs w a e Ha Hw Hn. destruct prevs as [|p l]; [cbn in Hn; lia|]. cbn [cycles].
  eapply He; [by apply Hs|by apply cycle_goes|cbn in Hn; lia].
Qed.
Lemma ends_track : ends 0 (fun a e => loop_ok k lim2 WRH_TRACK_PHASE 1 a e /\ c_locked a = 1).
Proof.
  intros prevs. induction prevs as [|p l IH]; intros w a e [Ho Hl] Hw _.
  - destruct Hw as (_ & <- & <- & _). split; [by eapply zero_gap|]. split; [apply Ho|done].
  - cbn [cycles]. eapply IH; [by apply from_track|by apply cycle_goes|lia].
Qed.
Lemma ends_wait : ends 1 (loop_ok k lim2 WRH_WAIT_OFFSET_STABLE 1).
Proof. exact (ends_step 0 _ _ from_wait ends_track). Qed.
Lemma ends_more n P : ends n P -> ends (S n) P.
Proof. intros He prevs w a e Ha Hw Hn. eapply He; [done..|lia]. Qed.
Lemma ends_or n P P' : ends n P -> ends n P' -> ends n (fun a e => P a e \/ P' a e).
Proof. intros H1' H2 prevs w a e [?|?]; eauto. Qed.
Lemma ends_small : 1000 * k <= PS_PER_S -> ends 2 (loop_ok k 1073741824 WRH_SYNC_PHASE (1000 * k)).
Proof.
  intros Hk. apply (ends_step 1 _ (loop_ok k lim2 WRH_WAIT_OFFSET_STABLE 1)); [|apply ends_wait].
  intros a e Ho. destruct (from_phase _ a e Ho Hk) as [[? _]|?]; [lia|done].
Qed.
Lemma ends_phase : 1000 * k <= PS_PER_S -> ends 3 (loop_ok k 1073741824 WRH_SYNC_PHASE PS_PER_S).
Proof.
  intros Hk. eapply ends_step; [|exact (ends_or 2 _ _ (ends_small Hk) (ends_more 1 _ ends_wait))].
  intros a e Ho. destruct (from_phase _ a e Ho ltac:(lia)) as [[_ ?]|?]; [by left|by right].
Qed.
Lemma ends_tai b : 1000 * k <= PS_PER_S -> ends 4 (loop_ok k 1073741824 WRH_SYNC_TAI b).
Proof. intros Hk. exact (ends_step 3 _ _ (from_tai b) (ends_phase Hk)). Qed.
End Loop.

(** C13. The servo converges: with a clock that follows it (an [IdealClock])
    and from the state [wrh_servo_init] leaves, whatever the initial gap to
    the master (seconds, ticks, picoseconds), after four update cycles and
    from then on the gap is zero, the servo tracks the phase and reports
    lock. *)
Theorem servo_converges i prevs w k :
  let p := inst w i in let s := wrh_servo (ext_data p) in
  (i < length (insts w))%nat ->
  srv_state (servo p) = WRH_SYNC_TAI -> missed_iters s = 0 ->
  clock_period_ps s = 1000 * k -> 0 < k <= 1000000 ->
  cur_setpoint_ps s = phase (the_env w) -> Z.abs (phase (the_env w)) <= 1073741824 ->
  (4 <= length prevs)%nat ->
  let w' := cycles i prevs w in
  gap (the_env w') = 0 /\ srv_state (servo (inst w' i)) = WRH_TRACK_PHASE /\ servo_locked (servo (inst w' i)) = 1.
Proof.
  intros p s Hi Hst Hm Hk Hk' Hsp Hlim Hn. cbn zeta.
  apply (ends_tai i (wrh_tracking_enabled w) k (Z.abs (gap (the_env w)) + 1)) with (a := ctl_of p) (e := the_env w);
    [unfold PS_PER_S; lia| |done|done].
  split; try done. lia.
Qed.

End Controller.

(** ** A clock that follows the servo *)

Module LoopDemo.
Import Demo.
#[local] Existing Instance demo_config.

(** The gap and the phase; the rest of the platform is that of [Demo]. *)
Record clock := mk_clock { k_gap : Z; k_phase : Z }.
Definition clock_platform : Platform := {|
  env := clock;
  t_calc_timeout := fun _ ms e => (ms, e);
  t_get := fun _ e => (mk_time 0 0, e);
  t_set := fun _ _ e => e;
  t_adjust := fun _ _ _ e => e;
  t_adjust_offset := fun _ _ e => e;
  t_adjust_freq := None;
  t_init_servo := None;
  t_get_utc_time := fun _ e => (None, e);
  t_get_utc_offset := fun _ e => (None, e);
  t_set_utc_offset := fun _ _ _ _ e => e;
  t_get_GM_lock_state := fun e => (None, e);
  t_enable_timing_output := fun _ e => e;
  n_init := fun _ e => ((0, []), e);
  n_send := fun _ _ len _ e => ((len, None), e) |}.
#[local] Existing Instance clock_platform.

#[local] Instance clock_oper : WrhOper := {|
  locking_enable := fun _ e => (0, e);
  locking_poll := fun _ e => (WRH_SPLL_LOCKED, e);
  locking_disable := fun _ e => (0, e);
  locking_reset := fun _ e => (0, e);
  enable_ptracker := fun _ e => (0, e);
  adjust_in_progress := fun e => (0, e);
  adjust_counters := fun s n e => (0, mk_clock (k_gap e - (s * PS_PER_S + n * 1000)) (k_phase e));
  adjust_phase := fun sp e => (0, mk_clock (k_gap e - (sp - k_phase e)) sp);
  get_clock_period := fun e => (16000, e);
  unix_time_set := fun _ _ e => e |}.

#[local] Instance clock_ideal : IdealClock.
Proof. by refine {| gap := k_gap; phase := k_phase |}. Defined.

(** 37 s, 123 us, 456 ns and 789 ps away. *)
Definition far_world : world :=
  mk_world (demo_globals 1)
    [(demo_inst 0 PPS_SLAVE) <| servo ::= fun g => g <| srv_state := WRH_SYNC_TAI |> |>
       <| ext_data ::= fun d => d <| wrh_servo ::= fun s => s <| clock_period_ps := 16000 |> |> |>]
    (mk_clock 37000123456789 0) 0 [-1; -1; -1; -1] 1 false.

Lemma servo_converges_witness :
  let w' := cycles 0 [0; 0; 0; 0] far_world in
  gap (the_env w') = 0 /\ srv_state (servo (inst w' 0%nat)) = WRH_TRACK_PHASE /\ servo_locked (servo (inst w' 0%nat)) = 1.
Proof.
  apply (servo_converges 0 [0; 0; 0; 0] far_world 16); try reflexivity; vm_compute;
    try (split; [reflexivity|discriminate]); try discriminate; repeat constructor.
Defined.

Lemma lock_means_small_offset_witness :
  let w := cycles 0 [0; 0; 0; 0] far_world in
  secs (offsetFromMaster (servo (inst w 0%nat))) = 0 /\
  Z.abs (pp_time_to_picos (offsetFromMaster (servo (inst w 0%nat)))) <= 120.
Proof.
  set (w := cycles _ _ _). cbn zeta.
  assert (0 < length (insts w))%nat as H1 by (vm_compute; apply le_n).
  assert (clock_period_ps (wrh_servo (ext_data (inst w 0%nat))) = 1000 * 16) as H2 by (vm_compute; reflexivity).
  assert (0 < 16 <= 1000000) as H3 by lia.
  assert (Z.abs (scaled_nsecs (offsetFromMaster (servo (inst w 0%nat)))) <= SNS_PER_S) as H4 by (vm_compute; discriminate).
  assert (wrh_tracking_enabled w <> 0) as H5 by (vm_compute; discriminate).
  assert (servo_locked (servo (inst (servo_act 0 0 w).2 0%nat)) = 1) as H6 by (vm_compute; reflexivity).
  destruct (lock_means_small_offset 0 0 w 16 H1 H2 H3 H4 H5 H6) as (E1 & E2 & _). split; [exact E1|exact E2].
Defined.
End LoopDemo.
