(* ===== verification/WrMsg.v ===== *)
(** * Messages of the White Rabbit extension (proto-ext-whiterabbit/wr-msg.c)

    The TLV a WR node adds to its Announce messages and the Signaling
    messages of the handshake. *)

From S2P Require Import Prelude TimeArith Types World Timeout Hooks Bytes Msg FixedPoint Servo.
From S2P Require Import BmcCmp ClockQuality Bmc Common States Fsm.

Definition TLV_TYPE_ORG_EXTENSION : Z := 3.
Definition WR_IS_CALIBRATED : Z := 4.
Definition WR_IS_WR_MODE : Z := 8.
Definition WR_NODE_MODE : Z := 3.
Definition WR_ANNOUNCE_TLV_LENGTH : Z := 10.
Definition WR_ANNOUNCE_LENGTH : Z := PP_ANNOUNCE_LENGTH + WR_ANNOUNCE_TLV_LENGTH + 4.
Definition WR_TLV_ORGANIZATION_ID : Z := 0x080030.
Definition WR_TLV_MAGIC_NUMBER : Z := 0xDEAD.
Definition WR_TLV_WR_VERSION_NUMBER : Z := 1.
Definition WR_SIGNALING_MSG_BASE_LENGTH : Z := 48.

(** Message ids. *)
Definition SLAVE_PRESENT : Z := 0x1000.
Definition LOCK : Z := 0x1001.
Definition LOCKED : Z := 0x1002.
Definition CALIBRATE : Z := 0x1003.
Definition CALIBRATED : Z := 0x1004.
Definition WR_MODE_ON : Z := 0x1005.
Definition ANN_SUFIX : Z := 0x2000.

(** ** The identification of a WR TLV: organization, magic number, version *)

Definition put_wr_ids (k : nat) (buf : list Z) : list Z :=
  let buf := put16 k (Z.shiftr WR_TLV_ORGANIZATION_ID 8) buf in
  let buf := put16 (k + 2) (Z.land 0xFFFF (Z.lor (Z.shiftl WR_TLV_ORGANIZATION_ID 8)
               (Z.shiftr WR_TLV_MAGIC_NUMBER 8))) buf in
  put16 (k + 4) (Z.land 0xFFFF (Z.lor (Z.shiftl WR_TLV_MAGIC_NUMBER 8) WR_TLV_WR_VERSION_NUMBER)) buf.

(** [tlv_organizationID], [tlv_magicNumber] and [tlv_versionNumber]. *)
Definition get_wr_ids (k : nat) (buf : list Z) : Z * Z * Z :=
  (Z.lor (Z.shiftr (get16 buf (k + 2)) 8) (Z.shiftl (get16 buf k) 8),
   Z.lor (Z.shiftr (get16 buf (k + 4)) 8) (Z.land 0xFF00 (Z.shiftl (get16 buf (k + 2)) 8)),
   Z.land 0xFF (get16 buf (k + 4))).

Definition is_wr_ids (ids : Z * Z * Z) : bool :=
  let '(org, magic, version) := ids in
  (org =? WR_TLV_ORGANIZATION_ID) && (magic =? WR_TLV_MAGIC_NUMBER) && (version =? WR_TLV_WR_VERSION_NUMBER).

(** ** Announce *)

Definition announce_wr_flags (p : wr_dsport) : Z :=
  let f := wrConfig p in
  let f := if truth (calibrated p) then Z.lor f WR_IS_CALIBRATED else f in
  if truth (wrModeOn p) then Z.lor f WR_IS_WR_MODE else f.

Definition pack_announce_wr_tlv (p : wr_dsport) (buf : list Z) : list Z :=
  let buf := put16 2 WR_ANNOUNCE_LENGTH buf in
  let buf := put16 64 TLV_TYPE_ORG_EXTENSION buf in
  let buf := put16 66 WR_ANNOUNCE_TLV_LENGTH buf in
  let buf := put_wr_ids 68 buf in
  let buf := put16 74 ANN_SUFIX buf in
  put16 76 (announce_wr_flags p) buf.

Definition msg_unpack_announce_wr_tlv (buf : list Z) : Z :=
  if (get16 buf 64 =? TLV_TYPE_ORG_EXTENSION) && is_wr_ids (get_wr_ids 68 buf) &&
     (get16 buf 74 =? ANN_SUFIX)
  then get16 buf 76 else 0.

(** ** Signaling *)

(** [htonl] as an integer of the host. *)
Definition htonl (big : bool) (v : Z) : Z := of_be (host_order big (be 4 v)).

(** The two halves of [calPeriod] are stored without further conversion. *)
Definition put_calPeriod (big : bool) (v : Z) (buf : list Z) : list Z :=
  put16h big 60 (Z.shiftr (htonl big v) 16) (put16h big 58 (Z.land (htonl big v) 0xFFFF) buf).

(** The payload that depends on the message, and its length. *)
Definition pack_wrsig_body (big : bool) (p : wr_dsport) (wr_msg_id : Z) (buf : list Z) : list Z * Z :=
  if wr_msg_id =? CALIBRATE then
    (put_calPeriod big (calPeriod p)
       (put16 56 (Z.lor (calRetry p) (if truth (calibrated p) then 0x0000 else 0x0100)) buf), 14)
  else if wr_msg_id =? CALIBRATED then
    (put32 68 (fd_lsb (deltaRx p)) (put32 64 (fd_msb (deltaRx p))
      (put32 60 (fd_lsb (deltaTx p)) (put32 56 (fd_msb (deltaTx p)) buf))), 24)
  else (buf, 8).

Definition pack_wrsig (big : bool) (p : wr_dsport) (parent : PortIdentity) (wr_msg_id : Z) (buf : list Z)
    : list Z * Z :=
  let buf := put8 0 (Z.lor (Z.land (get8 buf 0) 0xF0) 0x0C) buf in
  let buf := put8 32 0x05 buf in
  let buf := put8 33 0x7F buf in
  let buf := write 34 (clockIdentity parent) buf in
  let buf := put16 42 (portNumber parent) buf in
  let buf := put16 44 TLV_TYPE_ORG_EXTENSION buf in
  let buf := put_wr_ids 48 buf in
  let buf := put16 54 wr_msg_id buf in
  let '(buf, len) := pack_wrsig_body big p wr_msg_id buf in
  let buf := put16 2 (WR_SIGNALING_MSG_BASE_LENGTH + len) buf in
  let buf := put16 46 len buf in
  (buf, WR_SIGNALING_MSG_BASE_LENGTH + len).

(** The message id of a WR Signaling message. *)
Definition wrsig_id (buf : list Z) : option Z :=
  if (get16 buf 44 =? TLV_TYPE_ORG_EXTENSION) && is_wr_ids (get_wr_ids 48 buf)
  then Some (get16 buf 54) else None.

(** What the message says about the other node. *)
Definition store_wrsig (wr_msg_id : Z) (buf : list Z) (p : wr_dsport) : wr_dsport :=
  if wr_msg_id =? CALIBRATE then
    p <| otherNodeCalSendPattern := Z.land 0x00FF (Z.shiftr (get16 buf 56) 8) |>
      <| otherNodeCalRetry := Z.land 0x00FF (get16 buf 56) |>
      <| otherNodeCalPeriod := Z.lor (u32 (Z.shiftl (get16 buf 58) 16)) (get16 buf 60) |>
  else if wr_msg_id =? CALIBRATED then
    p <| otherNodeDeltaTx := mk_fd (get32 buf 60) (get32 buf 56) |>
      <| otherNodeDeltaRx := mk_fd (get32 buf 68) (get32 buf 64) |>
  else p.

Section WrMsg.
Context `{Config, Platform} {HK : Hooks}.

Definition WR_DSPOR (i : nat) : M wr_dsport := rd i (fun p => wrp (ext_data p)).
Definition setWRP (i : nat) (g : wr_dsport -> wr_dsport) : M unit :=
  wr i (fun p => p <| ext_data ::= fun d => d <| wrp ::= g |> |>).

Definition msg_pack_announce_wr_tlv (i : nat) : M unit :=
  p ← WR_DSPOR i;
  wbuf i (pack_announce_wr_tlv p).

Definition msg_pack_wrsig (i : nat) (wr_msg_id : Z) : M Z :=
  p ← WR_DSPOR i;
  par ← DSPAR;
  buf ← rd i tx_ptp;
  let '(buf, len) := pack_wrsig BIG_ENDIAN_HOST p (par_parentPortIdentity par) wr_msg_id buf in
  wbuf i (fun _ => buf);;
  mret len.

(** [None]: not a WR message (the code returns 0). *)
Definition msg_unpack_wrsig (i : nat) (buf : list Z) : M (option Z) :=
  match wrsig_id buf with
  | None => mret None
  | Some wr_msg_id =>
      setWRP i (store_wrsig wr_msg_id buf);;
      d ← rd i pdstate;
      when (bool_decide (d = PP_PDSTATE_PDETECTION)) (pdstate_set_state_pdetected i);;
      mret (Some wr_msg_id)
  end.

Definition msg_issue_wrsig (i : nat) (wr_msg_id : Z) : M Z :=
  len ← msg_pack_wrsig i wr_msg_id;
  send_and_log i len PP_NP_GEN PPM_SIGNALING_FMT.

End WrMsg.

(** ** Round trips *)

Lemma length_host_order big l : length (host_order big l) = length l.
Proof. destruct big; [done|apply length_reverse]. Qed.

Lemma wr_ids_found k buf : (k + 6 <= length buf)%nat -> is_wr_ids (get_wr_ids k (put_wr_ids k buf)) = true.
Proof.
  intros Hl. unfold get_wr_ids, put_wr_ids, get16, put16.
  rewrite slice_put_same by blen.
  rewrite (slice_write_other (k + 2) 2 (k + 4)), slice_put_same by blen.
  rewrite (slice_write_other k 2 (k + 4)), (slice_write_other k 2 (k + 2)), slice_put_same by blen.
  vm_compute. reflexivity.
Qed.

(** A field outside the identification. *)
Lemma slice_wr_ids j n k buf : (j + n <= k \/ k + 6 <= j)%nat -> slice j n (put_wr_ids k buf) = slice j n buf.
Proof.
  intros Hj. unfold put_wr_ids, put16. rewrite !slice_write_other by (rewrite length_be; lia). done.
Qed.
Lemma length_wr_ids k buf : length (put_wr_ids k buf) = length buf.
Proof. unfold put_wr_ids, put16. by rewrite !length_write. Qed.
Lemma get_wr_ids_slices k b b' : slice k 2 b = slice k 2 b' -> slice (k + 2) 2 b = slice (k + 2) 2 b' ->
  slice (k + 4) 2 b = slice (k + 4) 2 b' -> get_wr_ids k b = get_wr_ids k b'.
Proof. unfold get_wr_ids, get16. congruence. Qed.

Ltac wblen := repeat rewrite ?length_write, ?length_wr_ids, ?length_be, ?length_host_order; lia.
(** Reads of a slice through writes elsewhere. *)
Ltac wslices :=
  repeat match goal with
    | |- context [slice ?k ?n (write ?k (be ?n ?v) ?b)] => rewrite (slice_put_same k n v b) by wblen
    | |- context [slice ?k ?n (write ?j ?l ?b)] => rewrite (slice_write_other k n j l b) by wblen
    | |- context [slice ?k ?n (put_wr_ids ?j ?b)] => rewrite (slice_wr_ids k n j b) by lia
    end.

Lemma announce_tlv_found p buf : (78 <= length buf)%nat ->
  msg_unpack_announce_wr_tlv (pack_announce_wr_tlv p buf) = u16 (announce_wr_flags p).
Proof.
  intros Hl. unfold msg_unpack_announce_wr_tlv, pack_announce_wr_tlv.
  rewrite (get_wr_ids_slices 68 _ (put_wr_ids 68 (put16 66 WR_ANNOUNCE_TLV_LENGTH (put16 64 TLV_TYPE_ORG_EXTENSION
    (put16 2 WR_ANNOUNCE_LENGTH buf))))) by (unfold put16; wslices; done).
  rewrite wr_ids_found by (unfold put16; wblen). unfold get16, put16. wslices.
  rewrite !of_be_be. done.
Qed.

(** The standard part of the message stays. *)
Lemma announce_tlv_body p buf : (78 <= length buf)%nat ->
  unpack_announce (pack_announce_wr_tlv p buf) = unpack_announce buf /\
  (msg_unpack_header (pack_announce_wr_tlv p buf)) = (msg_unpack_header buf) <| h_messageLength := WR_ANNOUNCE_LENGTH |>.
Proof.
  intros Hl. unfold unpack_announce, msg_unpack_header, unpack_origin_timestamp, pack_announce_wr_tlv. split.
  - unfold get16, get32, put16. rewrite !get8_slice by wblen. wslices. done.
  - unfold get16, get64, put16. rewrite !get8_slice by wblen. wslices. done.
Qed.

(** *** Signaling *)

Lemma calPeriod_le v : let h := htonl false v in
  host_order false (be 2 (Z.land h 0xFFFF)) = [v / 16777216 mod 256; v / 65536 mod 256] /\
  host_order false (be 2 (Z.shiftr h 16)) = [v / 256 mod 256; v mod 256].
Proof.
  cbn zeta. unfold htonl, host_order. cbn [be app reverse rev_append]. unfold of_be. cbn [reverse rev_append fold_left].
  change 0xFFFF with (Z.ones 16). rewrite Z.land_ones, Z.shiftr_div_pow2 by lia.
  change (2 ^ 16) with 65536. rewrite !Zdiv.Zdiv_Zdiv by lia. change (256 * 256) with 65536.
  change (65536 * 256) with 16777216.
  pose proof (Z.mod_pos_bound v 256 ltac:(lia)). pose proof (Z.mod_pos_bound (v / 256) 256 ltac:(lia)).
  pose proof (Z.mod_pos_bound (v / 65536) 256 ltac:(lia)). pose proof (Z.mod_pos_bound (v / 16777216) 256 ltac:(lia)).
  generalize dependent (v mod 256). generalize dependent (v / 256 mod 256).
  generalize dependent (v / 65536 mod 256). generalize dependent (v / 16777216 mod 256). intros a Ha b Hb c Hc d Hd.
  split; (f_equal; [|f_equal]); dlia.
Qed.

Lemma slice_body big p id j n buf : (j + n <= 56)%nat ->
  slice j n (pack_wrsig_body big p id buf).1 = slice j n buf.
Proof.
  intros Hj. unfold pack_wrsig_body, put_calPeriod, put16h, put16, put32.
  repeat case_match; cbn [fst]; rewrite ?slice_write_other by (rewrite ?length_host_order, ?length_be; lia); done.
Qed.
Lemma length_body big p id buf : length (pack_wrsig_body big p id buf).1 = length buf.
Proof.
  unfold pack_wrsig_body, put_calPeriod, put16h, put16, put32. repeat case_match; cbn [fst]; by rewrite !length_write || done.
Qed.
Lemma body_len big p id buf : (pack_wrsig_body big p id buf).2 =
  if id =? CALIBRATE then 14 else if id =? CALIBRATED then 24 else 8.
Proof. unfold pack_wrsig_body. by repeat case_match. Qed.

(** The frame up to its length fields. *)
Definition wrsig_front (parent : PortIdentity) (id : Z) (buf : list Z) : list Z :=
  put16 54 id (put_wr_ids 48 (put16 44 TLV_TYPE_ORG_EXTENSION (put16 42 (portNumber parent)
    (write 34 (clockIdentity parent) (put8 33 0x7F (put8 32 0x05
      (put8 0 (Z.lor (Z.land (get8 buf 0) 0xF0) 0x0C) buf))))))).
Lemma length_wrsig_front parent id buf : length (wrsig_front parent id buf) = length buf.
Proof. unfold wrsig_front, put16, put8. wblen. Qed.
Lemma pack_wrsig_unfold big p parent id buf :
  let b := pack_wrsig_body big p id (wrsig_front parent id buf) in
  pack_wrsig big p parent id buf =
  (put16 46 b.2 (put16 2 (WR_SIGNALING_MSG_BASE_LENGTH + b.2) b.1), WR_SIGNALING_MSG_BASE_LENGTH + b.2).
Proof.
  cbn zeta. unfold pack_wrsig. fold (wrsig_front parent id buf).
  by destruct (pack_wrsig_body big p id (wrsig_front parent id buf)).
Qed.

(** A field the handshake message writes before its payload, apart from the
    two length fields. *)
Lemma slice_wrsig big p parent id j n buf : (j + n <= 56)%nat -> (j + n <= 2 \/ 4 <= j)%nat ->
  (j + n <= 46 \/ 48 <= j)%nat ->
  slice j n (pack_wrsig big p parent id buf).1 = slice j n (wrsig_front parent id buf).
Proof.
  intros H1 H2 H3. rewrite pack_wrsig_unfold. cbn [fst]. unfold put16.
  rewrite !slice_write_other by (rewrite length_be; lia). by apply slice_body.
Qed.

Lemma wrsig_id_found big p parent id buf : (72 <= length buf)%nat -> 0 <= id < 65536 ->
  wrsig_id (pack_wrsig big p parent id buf).1 = Some id.
Proof.
  intros Hl Hid. unfold wrsig_id. rewrite (get_wr_ids_slices 48 _ (put_wr_ids 48 buf)).
  - rewrite wr_ids_found by lia. unfold get16. rewrite !slice_wrsig by lia.
    unfold wrsig_front, put16, put8. wslices. rewrite !of_be_be. change (256 ^ Z.of_nat 2) with 65536.
    rewrite (Z.mod_small id) by lia. done.
  - rewrite slice_wrsig by lia. unfold wrsig_front, put_wr_ids, put16, put8. wslices. done.
  - rewrite slice_wrsig by lia. unfold wrsig_front, put_wr_ids, put16, put8. wslices. done.
  - rewrite slice_wrsig by lia. unfold wrsig_front, put_wr_ids, put16, put8. wslices. done.
Qed.

Lemma slice_wrsig_body big p parent id j n buf : (56 <= j)%nat ->
  slice j n (pack_wrsig big p parent id buf).1 =
  slice j n (pack_wrsig_body big p id (wrsig_front parent id buf)).1.
Proof.
  intros Hj. rewrite pack_wrsig_unfold. cbn [fst]. unfold put16.
  by rewrite !slice_write_other by (rewrite length_be; lia).
Qed.

Definition wire_delta (d : FixedDelta) : Prop := 0 <= fd_msb d < 4294967296 /\ 0 <= fd_lsb d < 4294967296.

Lemma calibrated_stored big p q parent buf : (72 <= length buf)%nat ->
  wire_delta (deltaTx p) -> wire_delta (deltaRx p) ->
  store_wrsig CALIBRATED (pack_wrsig big p parent CALIBRATED buf).1 q =
  q <| otherNodeDeltaTx := deltaTx p |> <| otherNodeDeltaRx := deltaRx p |>.
Proof.
  intros Hl [T1 T2] [R1 R2]. unfold store_wrsig. cbn [Z.eqb CALIBRATED CALIBRATE Pos.eqb].
  unfold get32. rewrite !slice_wrsig_body by lia. unfold pack_wrsig_body. cbn [Z.eqb CALIBRATED CALIBRATE Pos.eqb fst].
  pose proof (length_wrsig_front parent CALIBRATED buf) as Hf.
  generalize dependent (wrsig_front parent CALIBRATED buf). intros b Hf.
  unfold put32. wslices. rewrite !of_be_be. change (256 ^ Z.of_nat 4) with 4294967296.
  rewrite !Z.mod_small by lia. by destruct (deltaTx p), (deltaRx p).
Qed.

Lemma calibrate_stored p q parent buf : (72 <= length buf)%nat ->
  0 <= calPeriod p < 4294967296 -> 0 <= calRetry p < 256 ->
  store_wrsig CALIBRATE (pack_wrsig false p parent CALIBRATE buf).1 q =
  q <| otherNodeCalSendPattern := of_bool (negb (truth (calibrated p))) |>
    <| otherNodeCalRetry := calRetry p |> <| otherNodeCalPeriod := calPeriod p |>.
Proof.
  intros Hl Hp Hr. unfold store_wrsig. cbn [Z.eqb CALIBRATE Pos.eqb].
  unfold get16. rewrite !slice_wrsig_body by lia. unfold pack_wrsig_body. cbn [Z.eqb CALIBRATE Pos.eqb fst].
  pose proof (length_wrsig_front parent CALIBRATE buf) as Hf.
  generalize dependent (wrsig_front parent CALIBRATE buf). intros b Hf.
  unfold put_calPeriod, put16h. destruct (calPeriod_le (calPeriod p)) as [E1 E2]. rewrite E1, E2.
  assert (forall k l b, length l = 2%nat -> (k + 2 <= length b)%nat -> slice k 2 (write k l b) = l) as Hs.
  { intros k l b' Hl2 Hk. pose proof (slice_write_same k l b') as X. rewrite Hl2 in X. by apply X. }
  rewrite (slice_write_other 56 2 60), (slice_write_other 56 2 58), (slice_write_other 58 2 60) by (cbn; lia).
  unfold put16. rewrite slice_put_same by lia. rewrite !Hs by (done || wblen).
  rewrite of_be_be. change (256 ^ Z.of_nat 2) with 65536. unfold of_be. cbn [fold_left].
  assert (Z.lor (calRetry p) (if truth (calibrated p) then 0 else 0x0100) =
          calRetry p + 256 * of_bool (negb (truth (calibrated p)))) as ->.
  { destruct (truth _); cbn [negb of_bool]; [rewrite Z.lor_0_r; lia|].
    pose proof (lor_shiftl_add 1 (calRetry p) 8 ltac:(lia) ltac:(lia)) as X. change (Z.shiftl 1 8) with 0x0100 in X.
    rewrite Z.lor_comm, X. lia. }
  set (u := of_bool _). assert (0 <= u <= 1) by (subst u; by destruct (truth _)). clearbody u.
  rewrite (Z.mod_small (calRetry p + 256 * u)) by lia.
  assert (Z.land 0x00FF (calRetry p + 256 * u) = calRetry p) as ->
    by (rewrite Z.land_comm; change 0x00FF with (Z.ones 8); rewrite Z.land_ones by lia; dlia).
  rewrite Z.shiftr_div_pow2 by lia. change (2 ^ 8) with 256.
  replace ((calRetry p + 256 * u) / 256) with u by dlia.
  assert (Z.land 0x00FF u = u) as -> by (rewrite Z.land_comm; change 0x00FF with (Z.ones 8); rewrite Z.land_ones by lia; dlia).
  set (v := calPeriod p) in *.
  assert (Z.lor (u32 (Z.shiftl ((0 * 256 + v / 16777216 mod 256) * 256 + v / 65536 mod 256) 16))
            ((0 * 256 + v / 256 mod 256) * 256 + v mod 256) = v) as ->; [|done].
  pose proof (Z.mod_pos_bound v 256 ltac:(lia)). pose proof (Z.mod_pos_bound (v / 256) 256 ltac:(lia)).
  pose proof (Z.mod_pos_bound (v / 65536) 256 ltac:(lia)). pose proof (Z.mod_pos_bound (v / 16777216) 256 ltac:(lia)).
  assert (v / 16777216 mod 256 * 16777216 + v / 65536 mod 256 * 65536 + v / 256 mod 256 * 256 + v mod 256 = v)
    as Ev by dlia.
  etrans; [|exact Ev]. clear Ev E1 E2. generalize dependent (v mod 256). generalize dependent (v / 256 mod 256).
  generalize dependent (v / 65536 mod 256). generalize dependent (v / 16777216 mod 256). clear.
  intros a Ha b Hb c Hc d Hd. rewrite u32_id by (rewrite Z.shiftl_mul_pow2 by lia; lia).
  rewrite lor_shiftl_add by (change (2 ^ 16) with 65536; lia). change (2 ^ 16) with 65536. lia.
Qed.

(** ** What a WR node hears is what the other said *)

(** Round trip of the handshake messages: a receiver of a message packed
    by a WR node recognises it, whatever was in the buffer before, and records
    from it exactly the sender's fixed delays (CALIBRATED) or calibration
    request (CALIBRATE, on a little-endian sender); other messages change
    nothing in its records. *)
Theorem wrsig_roundtrip big p parent id buf q :
  (72 <= length buf)%nat -> 0 <= id < 65536 ->
  wire_delta (deltaTx p) -> wire_delta (deltaRx p) -> 0 <= calPeriod p < 4294967296 -> 0 <= calRetry p < 256 ->
  let frame := (pack_wrsig big p parent id buf).1 in
  wrsig_id frame = Some id /\
  (id = CALIBRATED ->
     store_wrsig id frame q = q <| otherNodeDeltaTx := deltaTx p |> <| otherNodeDeltaRx := deltaRx p |>) /\
  (id = CALIBRATE -> big = false ->
     store_wrsig id frame q = q <| otherNodeCalSendPattern := of_bool (negb (truth (calibrated p))) |>
       <| otherNodeCalRetry := calRetry p |> <| otherNodeCalPeriod := calPeriod p |>) /\
  (id <> CALIBRATE -> id <> CALIBRATED -> store_wrsig id frame q = q).
Proof.
  intros Hl Hid Htx Hrx Hp Hr frame. subst frame. split; [by apply wrsig_id_found|]. split; [|split].
  - intros ->. by apply calibrated_stored.
  - intros -> ->. by apply calibrate_stored.
  - intros H1 H2. unfold store_wrsig. by rewrite (proj2 (Z.eqb_neq _ _) H1), (proj2 (Z.eqb_neq _ _) H2).
Qed.

Lemma wrsig_roundtrip_witness :
  let p := zero_wrp <| deltaTx := mk_fd 5 6 |> <| deltaRx := mk_fd 7 8 |> in
  let frame := (pack_wrsig true p (mk_pid [1; 2; 3; 4; 5; 6; 7; 8] 1) CALIBRATED (replicate 72 0xFF)).1 in
  wrsig_id frame = Some CALIBRATED /\
  store_wrsig CALIBRATED frame zero_wrp =
    zero_wrp <| otherNodeDeltaTx := mk_fd 5 6 |> <| otherNodeDeltaRx := mk_fd 7 8 |>.
Proof.
  intros p frame.
  destruct (wrsig_roundtrip true p (mk_pid [1; 2; 3; 4; 5; 6; 7; 8] 1) CALIBRATED (replicate 72 0xFF) zero_wrp)
    as (E1 & E2 & _); unfold wire_delta; cbn [p deltaTx deltaRx fd_lsb fd_msb calPeriod calRetry zero_wrp upd setter];
    [rewrite length_replicate; apply le_n|unfold CALIBRATED; lia|lia|lia|lia|lia|].
  split; [exact E1|exact (E2 eq_refl)].
Defined.

(** Round trip of the WR Announce: the receiver finds the flags the sender
    announces (its configuration, calibrated, WR mode), and every field of the
    standard Announce and its header is as without the TLV, except for the
    message length. *)
Theorem announce_tlv_roundtrip p buf : (78 <= length buf)%nat -> 0 <= wrConfig p < 4 ->
  let frame := pack_announce_wr_tlv p buf in
  let flags := msg_unpack_announce_wr_tlv frame in
  Z.land flags WR_NODE_MODE = wrConfig p /\
  Z.testbit flags 2 = truth (calibrated p) /\ Z.testbit flags 3 = truth (wrModeOn p) /\
  unpack_announce frame = unpack_announce buf /\
  msg_unpack_header frame = (msg_unpack_header buf) <| h_messageLength := WR_ANNOUNCE_LENGTH |>.
Proof.
  intros Hl Hc frame flags. subst flags frame. rewrite announce_tlv_found by done.
  destruct (announce_tlv_body p buf Hl) as [-> ->].
  assert (wrConfig p = 0 \/ wrConfig p = 1 \/ wrConfig p = 2 \/ wrConfig p = 3) as [E|[E|[E|E]]] by lia;
    unfold announce_wr_flags; rewrite E; by destruct (truth (calibrated p)), (truth (wrModeOn p)).
Qed.

Lemma announce_tlv_roundtrip_witness :
  let p := zero_wrp <| wrConfig := WR_M_AND_S |> <| calibrated := 1 |> in
  let flags := msg_unpack_announce_wr_tlv (pack_announce_wr_tlv p (replicate 128 0)) in
  Z.land flags WR_NODE_MODE = WR_M_AND_S /\ Z.testbit flags 2 = true /\ Z.testbit flags 3 = false.
Proof.
  intros p flags. destruct (announce_tlv_roundtrip p (replicate 128 0)) as (E1 & E2 & E3 & _);
    [apply Nat.leb_le; reflexivity|split; [discriminate|reflexivity]|].
  split; [exact E1|split; [exact E2|exact E3]].
Defined.
