(* ===== verification/WrStates.v ===== *)
(** * The White Rabbit handshake
    (proto-ext-whiterabbit: common-fun.c, state-wr-*.c, wr-state-machine.c, wr-servo.c)

    A WR slave and its master lock frequencies, exchange their calibrated
    fixed delays and switch the link to WR mode.  Each side runs a state
    machine next to the one of the protocol. *)

From S2P Require Import Prelude TimeArith Types World Timeout Hooks Bytes Msg FixedPoint Servo.
From S2P Require Import BmcCmp ClockQuality Bmc Common States Fsm Wrh WrMsg.

Definition WR_DEFAULT_STATE_TIMEOUT_MS : Z := 300.
Definition WR_PRESENT_TIMEOUT_MS : Z := 1000.
Definition WR_M_LOCK_TIMEOUT_MS : Z := 15000.
Definition WR_LOCKED_TIMEOUT_MS : Z := 300.
Definition WR_CALIBRATION_TIMEOUT_MS : Z := 3000.
Definition WR_RESP_CALIB_REQ_TIMEOUT_MS : Z := 300.
Definition WR_CALIBRATED_TIMEOUT_MS : Z := 300.
Definition WR_DEFAULT_CAL_PERIOD : Z := WR_CALIBRATION_TIMEOUT_MS.
Definition WR_STATE_RETRY : Z := 3.

(** The time a slave has to lock depends on the target board. *)
Class WrConfig := { WR_S_LOCK_TIMEOUT_MS : Z }.

Section WrStates.
Context `{Config, Platform} {WO : WrhOper} {HK : Hooks} {WC : WrConfig}.

(** ** wr-servo.c *)

Definition WRE_SRV (i : nat) : M wr_servo_ext := rd i (fun p => wre_servo (ext_data p)).
Definition setWRE (i : nat) (g : wr_servo_ext -> wr_servo_ext) : M unit :=
  wr i (fun p => p <| ext_data ::= fun d => d <| wre_servo ::= g |> |>).

(** [_calculate_raw_delayMM]: [(td - ta) - (tc - tb)]. *)
Definition raw_delayMM (ta tb tc td : pp_time) : pp_time :=
  pp_time_sub (pp_time_sub td ta) (pp_time_sub tc tb).

Definition wr_servo_init (i : nat) : M Z :=
  r ← wrh_servo_init i;
  if truth r then setWRE i (fun _ => zero_wre);; mret 1 else mret 0.

Definition wr_servo_got_sync (i : nat) : M Z :=
  p ← rd i id;
  setWRE i (fun s => s <| rawT1 := t1 p |> <| rawT2 := t2 p |>);;
  when (is_delayMechanismP2P p && truth (got_sync (servo p)))
    (setWRE i (fun s => s <| rawDelayMM := raw_delayMM (rawT3 s) (rawT4 s) (rawT5 s) (rawT6 s) |>));;
  se ← WRE_SRV i;
  wr i (fun p => p <| t1 ::= fun t => pp_time_add t (delta_txm se) |>
                   <| t2 ::= fun t => pp_time_sub t (delta_rxs se) |>);;
  wrh_servo_got_sync i.

Definition wr_servo_got_resp (i : nat) : M Z :=
  p ← rd i id;
  setWRE i (fun s => s <| rawT3 := t3 p |> <| rawT4 := t4 p |>);;
  when (is_delayMechanismE2E p && truth (got_sync (servo p)))
    (setWRE i (fun s => s <| rawDelayMM := raw_delayMM (rawT1 s) (rawT2 s) (rawT3 s) (rawT4 s) |>));;
  se ← WRE_SRV i;
  wr i (fun p => p <| t3 ::= fun t => pp_time_add t (delta_txs se) |>
                   <| t4 ::= fun t => pp_time_sub t (delta_rxm se) |>);;
  wrh_servo_got_resp i.

Definition wr_servo_got_presp (i : nat) : M Z :=
  p ← rd i id;
  setWRE i (fun s => s <| rawT3 := t3 p |> <| rawT4 := t4 p |> <| rawT5 := t5 p |> <| rawT6 := t6 p |>);;
  se ← WRE_SRV i;
  wr i (fun p => p <| t3 ::= fun t => pp_time_add t (delta_txs se) |>
                   <| t4 ::= fun t => pp_time_sub t (delta_rxm se) |>
                   <| t5 ::= fun t => pp_time_add t (delta_txm se) |>
                   <| t6 ::= fun t => pp_time_sub t (delta_rxs se) |>);;
  wrh_servo_got_presp i.

(** ** common-fun.c *)

Definition wr_reset_process (i : nat) (role : Z) : M unit :=
  setWRP i (fun p =>
    let p := p <| wrStateTimeout := WR_DEFAULT_STATE_TIMEOUT_MS |> <| calPeriod := WR_DEFAULT_CAL_PERIOD |>
               <| wrMode := role |> <| wrModeOn := 0 |> <| calibrated := 1 |> in
    if negb (role =? WR_SLAVE)
    then p <| parentWrConfig := NON_WR |> <| parentIsWRnode := 0 |> <| parentWrModeOn := 0 |>
           <| parentCalibrated := 0 |>
    else p).

(** The handshake failed: try again, or fall back to plain PTP. *)
Definition wr_handshake_fail (i : nat) : M unit :=
  setWRP i (fun p => p <| wr_next_state := WRS_IDLE |>);;
  fallback ← rd i ptp_fallback;
  if negb (truth fallback) then setWRH i (fun s => s <| doRestart := 1 |>)
  else
    wr_reset_process i WR_ROLE_NONE;;
    wrh_servo_reset i;;
    pdstate_disable_extension i.

(** [true]: retry. *)
Definition wr_handshake_retry (i : nat) : M bool :=
  p ← WR_DSPOR i;
  if 0 <? wrStateRetry p then
    setWRP i (fun p => p <| wrStateRetry ::= fun n => u8 (n - 1) |>);; mret true
  else mret false.

(** ** What the states share *)

Definition set_wr_state (i : nat) (st : Z) : M unit := setWRP i (fun p => p <| wr_next_state := st |>).

(** Entry: all the retries ahead. *)
Definition arm_timer (i : nat) (tmo_ms : Z) : M unit :=
  setWRP i (fun p => p <| wrStateRetry := WR_STATE_RETRY |>);;
  pp_timeout_set_rename i PP_TO_WR_EXT_0 (tmo_ms * (WR_STATE_RETRY + 1)).

(** The signaling message just received, if it is one of WR. *)
Definition received_wrsig (i : nat) (buf : list Z) : M (option Z) :=
  hdr ← rd i received_ptp_header;
  if h_messageType hdr =? PPM_SIGNALING then msg_unpack_wrsig i buf else mret None.

(** Outcome of the check of the remaining time. *)
Inductive tmo_check := tmo_failed | tmo_retry | tmo_none.

(** [{ /* Check remaining time */ ... }]; [before] is what the code does when a
    period has passed. *)
Definition check_remaining (i : nat) (tmo_ms : Z) (before : M unit) : M tmo_check :=
  rms ← pp_next_delay_1 i PP_TO_WR_EXT_0;
  p ← WR_DSPOR i;
  if rms <=? wrStateRetry p * tmo_ms then
    before;;
    if rms =? 0 then wr_handshake_fail i;; mret tmo_failed
    else
      r ← wr_handshake_retry i;
      mret (if r : bool then tmo_retry else tmo_none)
  else mret tmo_none.

(** The delay to the next retry. *)
Definition wr_delay (i : nat) (tmo_ms : Z) : M Z :=
  d ← pp_next_delay_1 i PP_TO_WR_EXT_0;
  p ← WR_DSPOR i;
  mret (i32 (d - wrStateRetry p * tmo_ms)).

(** A state that sends [msg] until it gets an answer: [enter] is its
    initialisation, [answer] the state to go to on a message. *)
Definition sending_state (enter : M unit) (tmo_ms msg : Z) (answer : wr_dsport -> Z -> option Z)
    (i : nat) (buf : list Z) (new_state : bool) : M Z :=
  if new_state then
    enter;;
    arm_timer i tmo_ms;;
    msg_issue_wrsig i msg;;
    wr_delay i tmo_ms
  else
    r ← received_wrsig i buf;
    match r with
    | Some wrMsgId =>
        p ← WR_DSPOR i;
        (match answer p wrMsgId with Some st => set_wr_state i st | None => mret tt end);;
        mret 0
    | None =>
        c ← check_remaining i tmo_ms (mret tt);
        match c with
        | tmo_failed => mret 0
        | tmo_retry => msg_issue_wrsig i msg;; wr_delay i tmo_ms
        | tmo_none => wr_delay i tmo_ms
        end
    end.

(** ** The states *)

Definition wr_action : Type := nat -> list Z -> bool -> M Z.

(** A master waits for a slave. *)
Definition idle_master (i : nat) (buf : list Z) : M Z :=
  r ← received_wrsig i buf;
  match r with
  | Some wrMsgId =>
      when (wrMsgId =? SLAVE_PRESENT) (set_wr_state i WRS_M_LOCK);;
      pdstate_enable_extension i;;
      mret (if wrMsgId =? SLAVE_PRESENT then 0 else 1000)
  | None => mret 1000
  end.

(** A new parent that speaks WR. *)
Definition idle_wr_parent (i : nat) : M unit :=
  e ← rd i extState;
  when (bool_decide (e = PP_EXSTATE_PTP)) (pdstate_enable_extension i);;
  e ← rd i extState;
  if bool_decide (e = PP_EXSTATE_ACTIVE) then
    p ← WR_DSPOR i;
    when (wr_state p =? WRS_IDLE)
      (s ← rd i state;
       when (s =? PPS_SLAVE) (wr i (fun p => p <| next_state := PPS_UNCALIBRATED |>));;
       wr_reset_process i WR_SLAVE;;
       set_wr_state i WRS_PRESENT;;
       setWRP i (fun p => p <| parentDetection := PD_NO_DETECTION |>))
  else setWRP i (fun p => p <| parentDetection := PD_NO_DETECTION |>).

(** A new parent that does not. *)
Definition idle_not_wr_parent (i : nat) : M unit :=
  e ← rd i extState;
  when (bool_decide (e = PP_EXSTATE_ACTIVE)) (pdstate_disable_extension i);;
  s ← rd i state;
  when (s =? PPS_SLAVE) (wr i (fun p => p <| next_state := PPS_UNCALIBRATED |>));;
  setWRP i (fun p => p <| parentDetection := PD_NO_DETECTION |>).

Definition wr_idle : wr_action := fun i buf new_state =>
  s ← rd i state;
  if s =? PPS_MASTER then idle_master i buf
  else
    p ← WR_DSPOR i;
    match parentDetection p with
    | PD_WR_PARENT => idle_wr_parent i;; mret 0
    | PD_NOT_WR_PARENT => idle_not_wr_parent i;; mret 1000
    | PD_NO_DETECTION => mret 1000
    end.

Definition wr_present : wr_action := fun i =>
  sending_state (wr_servo_init i;; mret tt) WR_PRESENT_TIMEOUT_MS SLAVE_PRESENT
    (fun _ m => if m =? LOCK then Some WRS_S_LOCK else None) i.

Definition wr_m_lock : wr_action := fun i =>
  sending_state (wr_reset_process i WR_MASTER) WR_M_LOCK_TIMEOUT_MS LOCK
    (fun _ m => if m =? LOCKED then Some WRS_CALIBRATION else None) i.

Definition wr_locked : wr_action := fun i =>
  sending_state (setWRH i (fun s => s <| readyForSync := 1 |>)) WR_LOCKED_TIMEOUT_MS LOCKED
    (fun _ m => if m =? CALIBRATE then Some WRS_RESP_CALIB_REQ else None) i.

Definition wr_calibrated : wr_action := fun i =>
  sending_state (mret tt) WR_CALIBRATED_TIMEOUT_MS CALIBRATED
    (fun p m => if (m =? CALIBRATE) && (wrMode p =? WR_MASTER) then Some WRS_RESP_CALIB_REQ
                else if (m =? WR_MODE_ON) && (wrMode p =? WR_SLAVE) then Some WRS_WR_LINK_ON
                else None) i.

Definition wr_s_lock : wr_action := fun i buf new_state =>
  if new_state then
    arm_timer i WR_S_LOCK_TIMEOUT_MS;;
    op (locking_enable i);;
    mret 0
  else
    poll_ret ← op (locking_poll i);
    if poll_ret =? WRH_SPLL_LOCKED then set_wr_state i WRS_LOCKED;; mret 0
    else
      c ← check_remaining i WR_S_LOCK_TIMEOUT_MS (op (locking_disable i);; mret tt);
      match c with
      | tmo_retry => op (locking_enable i);; mret 0
      | _ => mret 0
      end.

(** A latency (scaled nanoseconds) as scaled picoseconds in two halves. *)
Definition fixed_delta (ti : Z) : FixedDelta := mk_fd (Z.land ti 0xFFFFFFFF) (u32 (Z.shiftr ti 32)).

Definition wr_calibration : wr_action := fun i buf new_state =>
  ts ← rd i timestampCorrectionPortDS;
  let dtx := fixed_delta (i64 (egressLatency ts * 1000)) in
  setWRP i (fun p => p <| deltaTx := dtx |>);;
  setWRE i (fun s => s <| delta_txs := fixedDelta_to_pp_time dtx |>);;
  let drx := fixed_delta (i64 (i64 (ingressLatency ts + semistaticLatency ts) * 1000)) in
  setWRP i (fun p => p <| deltaRx := drx |>);;
  setWRE i (fun s => s <| delta_rxs := fixedDelta_to_pp_time drx |>);;
  setWRP i (fun p => p <| wr_next_state := WRS_CALIBRATED |> <| calibrated := 1 |>);;
  msg_issue_wrsig i CALIBRATE;;
  setWRP i (fun p => p <| wrPortState := 0 |>);;
  mret 0.

Definition wr_resp_calib_req : wr_action := fun i buf new_state =>
  when new_state (arm_timer i WR_RESP_CALIB_REQ_TIMEOUT_MS);;
  r ← received_wrsig i buf;
  match r with
  | Some wrMsgId =>
      when (wrMsgId =? CALIBRATED)
        (p ← WR_DSPOR i;
         setWRE i (fun s => s <| delta_txm := fixedDelta_to_pp_time (otherNodeDeltaTx p) |>
                              <| delta_rxm := fixedDelta_to_pp_time (otherNodeDeltaRx p) |>);;
         set_wr_state i (if wrMode p =? WR_MASTER then WRS_WR_LINK_ON else WRS_CALIBRATION));;
      mret 0
  | None =>
      c ← check_remaining i WR_RESP_CALIB_REQ_TIMEOUT_MS (mret tt);
      match c with
      | tmo_failed => mret 0
      | _ => wr_delay i WR_RESP_CALIB_REQ_TIMEOUT_MS
      end
  end.

Definition link_on (i : nat) : M Z :=
  op (enable_ptracker i);;
  setWRP i (fun p => p <| parentWrModeOn := 1 |> <| wrModeOn := 1 |> <| wr_next_state := WRS_IDLE |>);;
  mret 0.

Definition wr_link_on : wr_action := fun i buf new_state =>
  p ← WR_DSPOR i;
  if wrMode p =? WR_MASTER then
    e ← msg_issue_wrsig i WR_MODE_ON;
    if truth e then mret 0 else link_on i
  else link_on i.

(** ** The machine *)

Definition wr_state_actions (st : Z) : option wr_action :=
  if st =? WRS_IDLE then Some wr_idle
  else if st =? WRS_PRESENT then Some wr_present
  else if st =? WRS_M_LOCK then Some wr_m_lock
  else if st =? WRS_S_LOCK then Some wr_s_lock
  else if st =? WRS_LOCKED then Some wr_locked
  else if st =? WRS_CALIBRATION then Some wr_calibration
  else if st =? WRS_CALIBRATED then Some wr_calibrated
  else if st =? WRS_RESP_CALIB_REQ then Some wr_resp_calib_req
  else if st =? WRS_WR_LINK_ON then Some wr_link_on
  else None.

(** [MAX_STATE_ACTIONS]: a structure of one pointer has the size of a pointer. *)
Definition MAX_STATE_ACTIONS : Z := WRS_MAX_STATES.

(** The states are unsigned; outside the table there is no function to call. *)
Definition wr_run_state_machine (i : nat) (buf : list Z) (len : Z) : M Z :=
  q ← rd i id;
  when ((MAX_STATE_ACTIONS <=? u32 (wr_next_state (wrp (ext_data q)))) || (state q =? PPS_INITIALIZING) ||
        negb (bool_decide (extState q = PP_EXSTATE_ACTIVE)))
    (set_wr_state i WRS_IDLE);;
  p ← WR_DSPOR i;
  let newState := negb (wr_state p =? wr_next_state p) in
  when newState (setWRP i (fun p => p <| wr_state := wr_next_state p |>));;
  p ← WR_DSPOR i;
  match wr_state_actions (u32 (wr_state p)) with
  | Some f => f i buf newState
  | None => c_assert false;; mret 0
  end.

End WrStates.

(** Fifteen seconds to lock, as on a switch. *)
Definition demo_wrconfig : WrConfig := {| WR_S_LOCK_TIMEOUT_MS := 15000 |}.
