(* ===== verification/WrHooks.v ===== *)
(** * The hooks of the White Rabbit extension (proto-ext-whiterabbit/hooks.c)

    What the extension adds to the standard states: its TLV in Announce
    messages, the detection of a WR parent, the start and the end of a
    handshake with the changes of state, and its own servo. *)

From S2P Require Import Prelude TimeArith Types World Timeout Hooks Bytes Msg FixedPoint Servo.
From S2P Require Import BmcCmp ClockQuality Bmc Common States Fsm Wrh WrMsg WrStates.

Section WrHooks.
Context `{Config, Platform} {WO : WrhOper} {HK : Hooks} {WC : WrConfig}.

(** [wr_announce_field_t]: two 16-bit fields of the host in [ext_specific]. *)
Definition notTreated (ext : list Z) : Z := get16h BIG_ENDIAN_HOST ext 0.
Definition wrFlags (ext : list Z) : Z := get16h BIG_ENDIAN_HOST ext 2.
Definition set_notTreated (v : Z) (ext : list Z) : list Z := put16h BIG_ENDIAN_HOST 0 v ext.
Definition set_wrFlags (v : Z) (ext : list Z) : list Z := put16h BIG_ENDIAN_HOST 2 v ext.

Definition wr_init (i : nat) (buf : list Z) (len : Z) : M Z :=
  pp_timeout_get_timer i PP_TO_WR_EXT_0 TO_RAND_NONE;;
  wr_reset_process i WR_ROLE_NONE;;
  wr i (fun p => p <| pdstate := PP_PDSTATE_WAIT_MSG |>);;
  mret 0.

Definition wr_config_of (def : defaultDS_t) (p : pp_instance) : Z :=
  let epc := is_externalPortConfigurationEnabled def in
  if is_slaveOnly def || (epc && (desiredState p =? PPS_SLAVE)) then WR_S_ONLY
  else if is_masterOnly (portDS p) || (epc && (desiredState p =? PPS_MASTER)) then WR_M_ONLY
  else WR_M_AND_S.

Definition wr_open (i : nat) : M Z :=
  def ← DSDEF;
  p ← rd i id;
  setWRP i (fun q => q <| wrConfig := wr_config_of def p |>);;
  mret 0.

(** The extension keeps its detection alive while it is in use. *)
Definition keep_detected (i : nat) : M unit :=
  d ← rd i pdstate;
  when (bool_decide (d = PP_PDSTATE_PDETECTED)) (pdstate_set_state_pdetected i).

Definition wr_handle_resp (i : nat) : M Z :=
  e ← rd i extState;
  (if bool_decide (e = PP_EXSTATE_ACTIVE) then
     wr_servo_got_resp i;;
     keep_detected i
   else
     o ← OPTS;
     pp_servo_got_resp i (truth (opt_ptpFallbackPpsGen o));;
     mret tt);;
  mret 0.

Definition wr_handle_dreq (i : nat) : M Z :=
  e ← rd i extState;
  when (bool_decide (e = PP_EXSTATE_ACTIVE)) (keep_detected i);;
  mret 0.

Definition wr_sync_followup (i : nat) : M Z :=
  e ← rd i extState;
  (if bool_decide (e = PP_EXSTATE_ACTIVE) then wr_servo_got_sync i;; mret tt
   else
     o ← OPTS;
     pp_servo_got_sync i (truth (opt_ptpFallbackPpsGen o)));;
  mret 1.
Definition wr_handle_sync (i : nat) : M Z := wr_sync_followup i.
Definition wr_handle_followup (i : nat) : M Z := wr_sync_followup i.

Definition wr_handle_presp (i : nat) : M Z :=
  e ← rd i extState;
  (if bool_decide (e = PP_EXSTATE_ACTIVE) then
     wr_servo_got_presp i;;
     keep_detected i
   else pp_servo_got_presp i;; mret tt);;
  mret 0.

Definition wr_pack_announce (i : nat) : M Z :=
  p ← WR_DSPOR i;
  if negb (wrConfig p =? WR_S_ONLY) then
    msg_pack_announce_wr_tlv i;; mret WR_ANNOUNCE_LENGTH
  else mret PP_ANNOUNCE_LENGTH.

Definition wr_unpack_announce (i : nat) (buf : list Z) (ann : MsgAnnounce) : M MsgAnnounce :=
  let msg_len := get16 buf 2 in
  let wr_flags := if WR_ANNOUNCE_LENGTH <=? msg_len then msg_unpack_announce_wr_tlv buf else 0 in
  mret (ann <| ann_ext_specific ::= fun e => set_wrFlags wr_flags (set_notTreated 1 e) |>).

(** ** A parent's Announce *)

(** The Announce does not continue the sequence of the last one. *)
Definition new_parent (f : pp_frgn_master) (p : wr_dsport) : bool :=
  let samePid := bmc_pidcmp (fm_receivePortIdentity f) (parentAnnPortIdentity p) =? 0 in
  let contSeqId := (fm_sequenceId f =? u16 (parentAnnSequenceId p + 1)) ||
                   (fm_sequenceId f =? u16 (parentAnnSequenceId p + 2)) in
  negb samePid || (samePid && negb contSeqId).

Definition wr_parent_flags (flags : Z) : bool := (flags =? WR_MASTER) || (flags =? WR_M_AND_S).

(** Detection, and the flags as they are then used. *)
Definition detect_parent (new : bool) (flags : Z) (d : ParentDetection) : ParentDetection * Z :=
  if negb (Z.land flags WR_NODE_MODE =? NON_WR) then
    if new && negb (bool_decide (d = PD_WR_PARENT)) then
      let flags := Z.land flags WR_NODE_MODE in
      (if wr_parent_flags flags then PD_WR_PARENT else d, flags)
    else (d, flags)
  else (if new then PD_NOT_WR_PARENT else d, 0).

Definition parent_update (f : pp_frgn_master) (new : bool) (p : wr_dsport) : wr_dsport :=
  let '(d, flags) := detect_parent new (wrFlags (fm_ext_specific f)) (parentDetection p) in
  p <| parentDetection := d |>
    <| parentIsWRnode := of_bool (negb (Z.land flags WR_NODE_MODE =? NON_WR)) |>
    <| parentWrModeOn := of_bool (negb (Z.land flags WR_IS_WR_MODE =? 0)) |>
    <| parentCalibrated := of_bool (negb (Z.land flags WR_IS_CALIBRATED =? 0)) |>
    <| parentWrConfig := Z.land flags WR_NODE_MODE |>
    <| parentAnnPortIdentity := fm_receivePortIdentity f |>
    <| parentAnnSequenceId := fm_sequenceId f |>.

(** A write through a pointer into a foreign master table. *)
Definition wr_frgn (r : frgn_ref) (g : pp_frgn_master -> pp_frgn_master) : M unit :=
  wr r.1 (fun p => if r.2 <? 0 then p else p <| frgn_master ::= alter g (Z.to_nat r.2) |>).

Definition wr_bmca_s1 (i : nat) (r : frgn_ref) : M Z :=
  f ← rdw (deref r);
  when (truth (notTreated (fm_ext_specific f)))
    (s ← WRH_SRV i;
     p ← WR_DSPOR i;
     let new := if negb (truth (doRestart s)) then new_parent f p else true in
     when (truth (doRestart s)) (setWRH i (fun s => s <| doRestart := 0 |>));;
     setWRP i (parent_update f new);;
     wr_frgn r (fun f => f <| fm_ext_specific ::= set_notTreated 0 |>));;
  mret 0.

(** ** Changes of state *)

(** Entering a state with the extension active. *)
Definition wr_enter (i : nat) : M unit :=
  q ← rd i id;
  let p := wrp (ext_data q) in
  if next_state q =? PPS_MASTER then
    set_wr_state i WRS_IDLE;;
    wr_reset_process i WR_MASTER
  else if next_state q =? PPS_UNCALIBRATED then
    if state q =? PPS_SLAVE then
      when (wr_parent_flags (parentWrConfig p))
        (set_wr_state i WRS_PRESENT;;
         wr_reset_process i WR_SLAVE)
    else when (negb (wr_parent_flags (parentWrConfig p))) (wr_handshake_fail i)
  else when (next_state q =? PPS_LISTENING) (wr_reset_process i WR_ROLE_NONE).

Definition wr_state_change (i : nat) : M unit :=
  q ← rd i id;
  when ((state q =? PPS_SLAVE) && (next_state q =? PPS_UNCALIBRATED) &&
        truth (parentIsWRnode (wrp (ext_data q))))
    (pdstate_enable_extension i);;
  q ← rd i id;
  (if bool_decide (extState q = PP_EXSTATE_ACTIVE) then
     when (truth (wrModeOn (wrp (ext_data q))) && ((state q =? PPS_SLAVE) || (state q =? PPS_MASTER)))
       (wr_reset_process i WR_ROLE_NONE);;
     wr_enter i
   else wr_reset_process i WR_ROLE_NONE);;
  s ← rd i state;
  when (s =? PPS_SLAVE)
    (op (locking_reset i);;
     o ← OPTS;
     when (negb (truth (opt_forcePpsGen o))) (op_ (t_enable_timing_output false))).

(** ** The rest *)

Definition wr_ready_for_slave (i : nat) : M Z :=
  q ← rd i id;
  let p := wrp (ext_data q) in
  mret (if bool_decide (extState q = PP_EXSTATE_ACTIVE)
        then of_bool (truth (wrModeOn p) && truth (parentWrModeOn p) && (wr_state p =? WRS_IDLE))
        else 1).

Definition wr_get_tmo_lstate_detection (i : nat) : M Z :=
  def ← DSDEF;
  if is_externalPortConfigurationEnabled def then mret 20000
  else
    t ← pp_timeout_get i PP_TO_ANN_RECEIPT;
    mret (i32 (Z.shiftl t 3)).

Definition wr_get_latency (i : nat) : M Z := mret 0.
Definition wr_is_correction_field_compliant (i : nat) : M Z := mret 0.

Definition wr_extension_state_changed (i : nat) : M Z :=
  e ← rd i extState;
  when (bool_decide (e = PP_EXSTATE_DISABLE) || bool_decide (e = PP_EXSTATE_PTP)) (wr_reset_process i WR_ROLE_NONE);;
  mret 0.

Definition wr_new_slave (i : nat) (buf : list Z) (len : Z) : M Z :=
  e ← rd i extState;
  when (bool_decide (e = PP_EXSTATE_ACTIVE))
    (wr_servo_init i;;
     setWRH i (fun s => s <| doRestart := 1 |>));;
  mret 0.

Definition wr_ext_hooks : pp_ext_hooks := {|
  hk_init := Some wr_init;
  hk_open := Some wr_open;
  hk_close := None;
  hk_listening := None;
  hk_new_slave := Some wr_new_slave;
  hk_handle_resp := Some wr_handle_resp;
  hk_handle_announce := None;
  hk_handle_sync := Some wr_handle_sync;
  hk_handle_followup := Some wr_handle_followup;
  hk_handle_preq := None;
  hk_handle_presp := if CONFIG_HAS_P2P then Some wr_handle_presp else None;
  hk_handle_signaling := None;
  hk_handle_dreq := Some wr_handle_dreq;
  hk_pack_announce := Some wr_pack_announce;
  hk_unpack_announce := Some wr_unpack_announce;
  hk_ready_for_slave := Some wr_ready_for_slave;
  hk_state_decision := None;
  hk_state_change := Some wr_state_change;
  hk_run_ext_state_machine := Some wr_run_state_machine;
  hk_get_ingress_latency := Some wr_get_latency;
  hk_get_egress_latency := Some wr_get_latency;
  hk_is_correction_field_compliant := Some wr_is_correction_field_compliant;
  hk_get_tmo_lstate_detection := Some wr_get_tmo_lstate_detection;
  hk_extension_state_changed := Some wr_extension_state_changed;
  hk_bmca_s1 := Some wr_bmca_s1 |}.

End WrHooks.
