(* ===== verification/L1Sync.v ===== *)
(** * The L1Sync extension
    (proto-ext-l1sync: l1e-msg.c, l1e-state-machine.c, l1e-hooks.c)

    Annex L of the standard: two ports exchange what they require and what
    they have reached (transmit and receive coherence, congruence) and go
    from IDLE over LINK_ALIVE and CONFIG_MATCH to UP. *)

From S2P Require Import Prelude Div64 TimeArith Types World Timeout Hooks Bytes Msg FixedPoint Servo.
From S2P Require Import BmcCmp ClockQuality Bmc Common States Fsm Wrh.

Definition TLV_TYPE_L1_SYNC : Z := 0x8001.
Definition L1E_TX_COHERENT : Z := 1.
Definition L1E_RX_COHERENT : Z := 2.
Definition L1E_CONGRUENT : Z := 4.
Definition L1E_OPT_PARAMS : Z := 8.
Definition MSG_L1SYNC_LEN : Z := 50.
Definition MSG_L1SYNC_TLV_LENGTH : Z := 2.
Definition MSG_L1SYNC_TLV_EXTENDED_LENGTH : Z := 40.

(** [enum l1_sync_states]. *)
Definition L1SYNC_DISABLED : Z := 1.
Definition L1SYNC_IDLE : Z := 2.
Definition L1SYNC_LINK_ALIVE : Z := 3.
Definition L1SYNC_CONFIG_MATCH : Z := 4.
Definition L1SYNC_UP : Z := 5.
Definition L1E_MAX_STATE_ACTIONS : Z := 6.

(** ** Messages *)

Definition l1e_creat_L1Sync_bitmask (tx_coh rx_coh congru : Z) : Z :=
  let m := if truth tx_coh then Z.lor 0 L1E_TX_COHERENT else 0 in
  let m := if truth rx_coh then Z.lor m L1E_RX_COHERENT else m in
  if truth congru then Z.lor m L1E_CONGRUENT else m.

Definition l1e_config_mask (b : L1SyncBasicPortDS_t) : Z :=
  let m := l1e_creat_L1Sync_bitmask (txCoherentIsRequired b) (rxCoherentIsRequired b) (congruentIsRequired b) in
  if truth (optParamsEnabled b) then Z.lor m L1E_OPT_PARAMS else m.
Definition l1e_active_mask (b : L1SyncBasicPortDS_t) : Z :=
  l1e_creat_L1Sync_bitmask (isTxCoherent b) (isRxCoherent b) (isCongruent b).
Definition l1e_opt_mask (d : l1e_ext_portDS_t) : Z :=
  Z.lor (if truth (timestampsCorrectedTx d) then 1 else 0)
    (Z.lor (if truth (phaseOffsetTxValid d) then 2 else 0) (if truth (frequencyOffsetTxValid d) then 4 else 0)).

(** The TLV after the generic part of the message, and the message length. *)
Definition l1e_pack_tlv (d : l1e_ext_portDS_t) (buf : list Z) : list Z * Z :=
  let b := l1_basic d in
  let buf := put8 49 (l1e_active_mask b) (put8 48 (l1e_config_mask b) buf) in
  let '(buf, msgLen) :=
    if truth (optParamsEnabled b)
    then (put16 46 MSG_L1SYNC_TLV_EXTENDED_LENGTH (put8 50 (l1e_opt_mask d) buf), MSG_L1SYNC_LEN + 38)
    else (buf, MSG_L1SYNC_LEN) in
  (put16 2 msgLen buf, msgLen).

Definition has_bits (v m : Z) : Z := of_bool (Z.land v m =? m).

(** [None]: not a valid L1Sync message (the code returns -1). *)
Definition l1e_unpack_tlv (buf : list Z) (plen : Z) (b : L1SyncBasicPortDS_t) : option L1SyncBasicPortDS_t :=
  if negb (get16 buf 44 =? TLV_TYPE_L1_SYNC) then None
  else if negb (get16 buf 46 =? 2) || negb (plen =? MSG_L1SYNC_LEN) then None
  else
    let conf := get8 buf 48 in
    let acti := get8 buf 49 in
    Some (b
      <| peerTxCoherentIsRequired := has_bits conf L1E_TX_COHERENT |>
      <| peerRxCoherentIsRequired := has_bits conf L1E_RX_COHERENT |>
      <| peerCongruentIsRequired := has_bits conf L1E_CONGRUENT |>
      <| peerIsTxCoherent := has_bits acti L1E_TX_COHERENT |>
      <| peerIsRxCoherent := has_bits acti L1E_RX_COHERENT |>
      <| peerIsCongruent := has_bits acti L1E_CONGRUENT |>).

(** [4 << (bds->logL1SyncInterval + 8)], times the number of intervals. *)
Definition l1e_get_rx_tmo_ms (b : L1SyncBasicPortDS_t) : Z :=
  i32 (Z.shiftl 4 (logL1SyncInterval b + 8) * L1SyncReceiptTimeout b).

(** The six members that hold what the peer said. *)
Definition forget_peer (b : L1SyncBasicPortDS_t) : L1SyncBasicPortDS_t :=
  b <| peerTxCoherentIsRequired := 0 |> <| peerRxCoherentIsRequired := 0 |>
    <| peerCongruentIsRequired := 0 |> <| peerIsTxCoherent := 0 |> <| peerIsRxCoherent := 0 |>
    <| peerIsCongruent := 0 |>.
Definition forget_own (b : L1SyncBasicPortDS_t) : L1SyncBasicPortDS_t :=
  b <| isTxCoherent := 0 |> <| isRxCoherent := 0 |> <| isCongruent := 0 |>.

(** ** Events *)

Definition le1_evt_L1_SYNC_RESET (p : pp_instance) : bool :=
  (link_up p =? 0) || (state p =? PPS_INITIALIZING).
Definition le1_evt_L1_SYNC_ENABLED (b : L1SyncBasicPortDS_t) : bool := L1SyncEnabled b =? 1.
Definition le1_evt_CONFIG_OK (b : L1SyncBasicPortDS_t) : bool :=
  (txCoherentIsRequired b =? peerTxCoherentIsRequired b) &&
  (rxCoherentIsRequired b =? peerRxCoherentIsRequired b) &&
  (congruentIsRequired b =? peerCongruentIsRequired b).
Definition le1_evt_LINK_OK (b : L1SyncBasicPortDS_t) : bool := L1SyncLinkAlive b =? 1.

(** What is required is reached on both sides. *)
Definition l1e_state_ok (b : L1SyncBasicPortDS_t) : bool :=
  (negb (truth (txCoherentIsRequired b)) || (truth (isTxCoherent b) && truth (peerIsTxCoherent b))) &&
  (negb (truth (rxCoherentIsRequired b)) || (truth (isRxCoherent b) && truth (peerIsRxCoherent b))) &&
  (negb (truth (congruentIsRequired b)) || (truth (isCongruent b) && truth (peerIsCongruent b))).

Section L1Sync.
Context `{Config, Platform} {WO : WrhOper} {HK : Hooks}.

Definition L1E_DSPOR (i : nat) : M l1e_ext_portDS_t := rd i (fun p => l1e_portDS (ext_data p)).
Definition L1E_DSPOR_BS (i : nat) : M L1SyncBasicPortDS_t := rd i (fun p => l1_basic (l1e_portDS (ext_data p))).
Definition setL1E (i : nat) (g : l1e_ext_portDS_t -> l1e_ext_portDS_t) : M unit :=
  wr i (fun p => p <| ext_data ::= fun d => d <| l1e_portDS ::= g |> |>).
Definition setL1B (i : nat) (g : L1SyncBasicPortDS_t -> L1SyncBasicPortDS_t) : M unit :=
  setL1E i (fun d => d <| l1_basic ::= g |>).
Definition l1e_goto (i : nat) (st : Z) : M unit := setL1B i (fun b => b <| l1e_next_state := st |>).

(** The target is all ones: every port on the link. *)
Definition l1e_pack_signal (i : nat) : M Z :=
  msg_pack_signaling_no_fowardable i (mk_pid (replicate 8 255) 0xFFFF) TLV_TYPE_L1_SYNC MSG_L1SYNC_TLV_LENGTH;;
  d ← L1E_DSPOR i;
  buf ← rd i tx_ptp;
  let '(buf, msgLen) := l1e_pack_tlv d buf in
  wbuf i (fun _ => buf);;
  mret msgLen.

(** [true]: a valid message. *)
Definition l1e_unpack_signal (i : nat) (buf : list Z) (plen : Z) : M bool :=
  b ← L1E_DSPOR_BS i;
  match l1e_unpack_tlv buf plen b with
  | Some b' => setL1B i (fun _ => b');; mret true
  | None => mret false
  end.

(** ** l1e-state-machine.c *)

(** The shorter timeout. *)
Definition l1e_delay (i : nat) : M Z := pp_next_delay_2 i PP_TO_L1E_TX_SYNC PP_TO_L1E_RX_SYNC.

(** Milliseconds of the clock, modulo 65536 seconds. *)
Definition measure_first_time (i : nat) : M Z :=
  t ← op (t_get i);
  let ns := u64 (Z.shiftr (i64 (scaled_nsecs t + 0x8000)) TIME_INTERVAL_FRACBITS) in
  mret (i32 (Z.land (secs t) 0xFFFF * 1000 + fst (div64_32 ns 1000000))).
Definition measure_last_time (i : nat) (fmeas : Z) : M Z :=
  ms ← measure_first_time i;
  mret (if ms <? fmeas then i32 (ms + 0xFFFF * 1000) else ms).

(** The next transmission: the time this one took is subtracted. *)
Definition l1e_send_sync_msg (i : nat) (immediatSend : bool) : M unit :=
  t ← (if immediatSend then mret true else pp_timeout i PP_TO_L1E_TX_SYNC);
  when t
    (fmeas ← measure_first_time i;
     len ← l1e_pack_signal i;
     send_and_log i len PP_NP_GEN PPM_SIGNALING_NO_FWD_FMT;;
     lmeas ← measure_last_time i fmeas;
     b ← L1E_DSPOR_BS i;
     let tmo_ms := pp_timeout_log_to_ms (logL1SyncInterval b) in
     let diff := i32 (lmeas - fmeas) in
     pp_timeout_set i PP_TO_L1E_TX_SYNC (if diff <=? tmo_ms then tmo_ms - diff else tmo_ms)).

(** STATE_OK: refreshes the own receive coherence and congruence. *)
Definition le1_evt_STATE_OK (i : nat) : M bool :=
  s ← rd i state;
  (if (s =? PPS_SLAVE) || (s =? PPS_UNCALIBRATED) then
     pll_state ← op (locking_poll i);
     let l := of_bool (pll_state =? WRH_SPLL_LOCKED) in
     setL1B i (fun b => b <| isRxCoherent := l |> <| isCongruent := l |>)
   else if s =? PPS_MASTER then
     setL1B i (fun b => b
       <| isRxCoherent := of_bool (truth (peerIsTxCoherent b) && truth (peerIsRxCoherent b) && truth (isTxCoherent b)) |>
       <| isCongruent := 1 |>)
   else setL1B i (fun b => b <| isCongruent := 0 |>));;
  b ← L1E_DSPOR_BS i;
  mret (l1e_state_ok b).

Definition l1e_empty_action (i : nat) (new_state : bool) : M Z := l1e_delay i.

Definition l1e_handle_state_disabled (i : nat) (new_state : bool) : M Z :=
  when new_state (setL1B i (fun b => forget_peer (forget_own b)));;
  p ← rd i id;
  if le1_evt_L1_SYNC_ENABLED (l1_basic (l1e_portDS (ext_data p))) && negb (le1_evt_L1_SYNC_RESET p) then
    l1e_goto i L1SYNC_IDLE;; mret 0
  else l1e_delay i.

Definition l1e_handle_state_idle (i : nat) (new_state : bool) : M Z :=
  when new_state (setL1B i forget_peer;; l1e_send_sync_msg i true);;
  p ← rd i id;
  let b := l1_basic (l1e_portDS (ext_data p)) in
  if negb (le1_evt_L1_SYNC_ENABLED b) || le1_evt_L1_SYNC_RESET p then
    l1e_goto i L1SYNC_DISABLED;;
    pdstate_disable_extension i;;
    mret 0
  else if le1_evt_LINK_OK b then l1e_goto i L1SYNC_LINK_ALIVE;; mret 0
  else
    l1e_send_sync_msg i false;;
    l1e_delay i.

Definition l1e_handle_state_link_alive (i : nat) (new_state : bool) : M Z :=
  b ← L1E_DSPOR_BS i;
  when new_state (pp_timeout_set i PP_TO_L1E_RX_SYNC (l1e_get_rx_tmo_ms b));;
  s ← rd i state;
  if negb (le1_evt_LINK_OK b) then l1e_goto i L1SYNC_IDLE;; mret 0
  else if le1_evt_CONFIG_OK b && ((s =? PPS_UNCALIBRATED) || (s =? PPS_SLAVE) || (s =? PPS_MASTER)) then
    l1e_goto i L1SYNC_CONFIG_MATCH;; mret 0
  else
    l1e_send_sync_msg i false;;
    l1e_delay i.

(** Entering CONFIG_MATCH a slave starts to lock. *)
Definition l1e_enter_config_match (i : nat) : M unit :=
  p ← rd i id;
  when (((state p =? PPS_SLAVE) || (state p =? PPS_UNCALIBRATED)) &&
        truth (congruentIsRequired (l1_basic (l1e_portDS (ext_data p)))))
    (setL1B i (fun b => b <| isRxCoherent := 0 |>);;
     op (locking_enable i);;
     wrh_servo_init i;;
     mret tt).

Definition l1e_handle_state_config_match (i : nat) (new_state : bool) : M Z :=
  when new_state (l1e_enter_config_match i);;
  b ← L1E_DSPOR_BS i;
  if negb (le1_evt_LINK_OK b) then l1e_goto i L1SYNC_IDLE;; mret 0
  else if negb (le1_evt_CONFIG_OK b) then l1e_goto i L1SYNC_LINK_ALIVE;; mret 0
  else
    ok ← le1_evt_STATE_OK i;
    if ok : bool then l1e_goto i L1SYNC_UP;; mret 0
    else
      l1e_send_sync_msg i false;;
      s ← rd i state;
      if CONFIG_ARCH_IS_WRPC && (s =? PPS_SLAVE) then mret 0 else l1e_delay i.

(** Leaving UP a slave stops the lock and its servo. *)
Definition l1e_leave_up (i : nat) (next_state : Z) : M Z :=
  l1e_goto i next_state;;
  s ← rd i state;
  when ((s =? PPS_SLAVE) || (s =? PPS_UNCALIBRATED))
    (op (locking_disable i);;
     wrh_servo_reset i);;
  mret 0.

Definition l1e_handle_state_up (i : nat) (new_state : bool) : M Z :=
  when new_state
    (op (enable_ptracker i);;
     setWRH i (fun s => s <| readyForSync := 1 |>));;
  b ← L1E_DSPOR_BS i;
  let next_state := if negb (le1_evt_LINK_OK b) then L1SYNC_IDLE else 0 in
  when (negb (le1_evt_LINK_OK b)) (pdstate_disable_extension i);;
  b ← L1E_DSPOR_BS i;
  let next_state := if negb (le1_evt_CONFIG_OK b) then L1SYNC_LINK_ALIVE else next_state in
  ok ← le1_evt_STATE_OK i;
  let next_state := if negb ok then L1SYNC_CONFIG_MATCH else next_state in
  if negb (next_state =? 0) then l1e_leave_up i next_state
  else
    when new_state (pdstate_enable_extension i);;
    l1e_send_sync_msg i false;;
    l1e_delay i.

Definition le1_state_actions (st : Z) : option (nat -> bool -> M Z) :=
  if st =? 0 then Some l1e_empty_action
  else if st =? L1SYNC_DISABLED then Some l1e_handle_state_disabled
  else if st =? L1SYNC_IDLE then Some l1e_handle_state_idle
  else if st =? L1SYNC_LINK_ALIVE then Some l1e_handle_state_link_alive
  else if st =? L1SYNC_CONFIG_MATCH then Some l1e_handle_state_config_match
  else if st =? L1SYNC_UP then Some l1e_handle_state_up
  else None.

Definition set_execute (i : nat) (v : Z) : M unit := setL1E i (fun d => d <| execute_state_machine := v |>).

(** The reception timeout, the transmission timeout, and a change of state
    make the machine run. *)
Definition l1e_events (i : nat) (nextState : Z) (newState : bool) : M unit :=
  wr i (fun p => p <| ext_data ::= fun d => d <| l1e_portDS ::= fun l => l <| l1_basic ::= fun b =>
    b <| isTxCoherent := of_bool (truth (link_up p)) |> |> |> |>);;
  t ← pp_timeout i PP_TO_L1E_RX_SYNC;
  when t
    (b ← L1E_DSPOR_BS i;
     pp_timeout_set i PP_TO_L1E_RX_SYNC (l1e_get_rx_tmo_ms b);;
     setL1B i (fun b => b <| L1SyncLinkAlive := 0 |>);;
     set_execute i 1);;
  t ← pp_timeout i PP_TO_L1E_TX_SYNC;
  when t (set_execute i 1);;
  when newState
    (setL1B i (fun b => b <| L1SyncState := nextState |>);;
     set_execute i 1).

(** The states are 8-bit enumerations. *)
Definition l1e_run_state_machine (i : nat) (buf : list Z) (len : Z) : M Z :=
  p ← rd i id;
  let b := l1_basic (l1e_portDS (ext_data p)) in
  let nextState := u8 (l1e_next_state b) in
  let newState := negb (nextState =? u8 (L1SyncState b)) in
  if negb (nextState =? L1SYNC_DISABLED) &&
     (negb (bool_decide (extState p = PP_EXSTATE_ACTIVE)) || (state p =? PPS_INITIALIZING))
  then mret PP_DEFAULT_NEXT_DELAY_MS
  else if L1E_MAX_STATE_ACTIONS <=? nextState then l1e_delay i
  else
    l1e_events i nextState newState;;
    d ← L1E_DSPOR i;
    delay ←
      (if truth (execute_state_machine d) then
         match le1_state_actions (u8 (L1SyncState (l1_basic d))) with
         | Some f => f i newState
         | None => c_assert false;; mret 0
         end
       else l1e_delay i);
    set_execute i (of_bool (delay =? 0));;
    mret delay.

(** ** l1e-hooks.c *)

Definition l1e_open (i : nat) : M Z := mret 0.

Definition l1e_init (i : nat) (buf : list Z) (len : Z) : M Z :=
  pp_timeout_get_timer i PP_TO_L1E_TX_SYNC TO_RAND_NONE;;
  pp_timeout_get_timer i PP_TO_L1E_RX_SYNC TO_RAND_NONE;;
  pp_timeout_set i PP_TO_L1E_TX_SYNC 100;;
  pp_timeout_set i PP_TO_L1E_RX_SYNC 100;;
  c ← rd i cfg;
  setL1B i (fun b => (forget_peer (forget_own b)) <| L1SyncLinkAlive := 0 |> <| L1SyncState := L1SYNC_DISABLED |>
    <| logL1SyncInterval := i8 (cfg_l1syncInterval c) |>
    <| L1SyncReceiptTimeout := i8 (cfg_l1syncReceiptTimeout c) |>
    <| l1e_next_state := L1SYNC_DISABLED |>);;
  setL1E i (fun d => d <| timestampsCorrectedTx := 1 |>);;
  wr i (fun p => p <| pdstate := PP_PDSTATE_WAIT_MSG |>);;
  mret 0.

Definition l1e_handle_signaling (i : nat) (buf : list Z) (len : Z) : M Z :=
  ok ← l1e_unpack_signal i buf len;
  when ok
    (b ← L1E_DSPOR_BS i;
     pp_timeout_set i PP_TO_L1E_RX_SYNC (l1e_get_rx_tmo_ms b);;
     setL1B i (fun b => b <| L1SyncLinkAlive := 1 |>);;
     e ← rd i extState;
     when (bool_decide (e = PP_EXSTATE_PTP)) (pdstate_enable_extension i);;
     d ← rd i pdstate;
     when (bool_decide (d = PP_PDSTATE_PDETECTION)) (pdstate_set_state_pdetected i));;
  mret 0.

(** The extension keeps its detection alive while it is in use. *)
Definition l1e_keep_detected (i : nat) : M unit :=
  d ← rd i pdstate;
  when (bool_decide (d = PP_PDSTATE_PDETECTED)) (pdstate_set_state_pdetected i).

Definition l1e_handle_resp (i : nat) : M Z :=
  e ← rd i extState;
  (if bool_decide (e = PP_EXSTATE_ACTIVE) then
     wrh_servo_got_resp i;;
     l1e_keep_detected i
   else
     o ← OPTS;
     pp_servo_got_resp i (truth (opt_ptpFallbackPpsGen o));;
     mret tt);;
  mret 0.

Definition l1e_handle_dreq (i : nat) : M Z :=
  e ← rd i extState;
  when (bool_decide (e = PP_EXSTATE_ACTIVE)) (l1e_keep_detected i);;
  mret 0.

Definition l1e_sync_followup (i : nat) : M Z :=
  e ← rd i extState;
  (if bool_decide (e = PP_EXSTATE_ACTIVE) then wrh_servo_got_sync i;; mret tt
   else
     o ← OPTS;
     pp_servo_got_sync i (truth (opt_ptpFallbackPpsGen o)));;
  mret 1.
Definition l1e_handle_sync (i : nat) : M Z := l1e_sync_followup i.
Definition l1e_handle_followup (i : nat) : M Z := l1e_sync_followup i.

Definition l1e_handle_presp (i : nat) : M Z :=
  e ← rd i extState;
  (if bool_decide (e = PP_EXSTATE_ACTIVE) then
     wrh_servo_got_presp i;;
     l1e_keep_detected i
   else pp_servo_got_presp i;; mret tt);;
  mret 0.

Definition l1e_ready_for_slave (i : nat) : M Z := mret 1.

Definition l1e_state_change (i : nat) : M unit :=
  p ← rd i id;
  when (bool_decide (extState p = PP_EXSTATE_PTP) && (next_state p =? PPS_UNCALIBRATED))
    (pdstate_enable_extension i);;
  p ← rd i id;
  let running := negb (L1SyncState (l1_basic (l1e_portDS (ext_data p))) =? L1SYNC_DISABLED) in
  let active := bool_decide (extState p = PP_EXSTATE_ACTIVE) in
  if ((next_state p =? PPS_DISABLED) || negb active) && running then
    l1e_goto i L1SYNC_DISABLED;;
    l1e_run_state_machine i [] 0;;
    mret tt
  else if active && (next_state p =? PPS_INITIALIZING) then
    setL1B i (fun b => b <| l1e_next_state := L1SYNC_DISABLED |> <| L1SyncState := L1SYNC_DISABLED |>)
  else when ((state p =? PPS_SLAVE) && negb (next_state p =? PPS_UNCALIBRATED) && running)
    (o ← OPTS;
     when (negb (truth (opt_forcePpsGen o))) (op_ (t_enable_timing_output false));;
     op (locking_disable i);;
     op (locking_reset i);;
     wrh_servo_reset i).

Definition l1e_new_slave (i : nat) (buf : list Z) (len : Z) : M Z :=
  e ← rd i extState;
  when (bool_decide (e = PP_EXSTATE_ACTIVE)) (wrh_servo_init i;; mret tt);;
  mret 0.

Definition l1e_get_tmo_lstate_detection (i : nat) : M Z :=
  def ← DSDEF;
  b ← L1E_DSPOR_BS i;
  mret (if is_externalPortConfigurationEnabled def then 10000 else l1e_get_rx_tmo_ms b).

Definition l1e_get_ingress_latency (i : nat) : M Z :=
  rd i (fun p => i64 (ingressLatency (timestampCorrectionPortDS p) +
                      semistaticLatency (timestampCorrectionPortDS p))).
Definition l1e_get_egress_latency (i : nat) : M Z :=
  rd i (fun p => egressLatency (timestampCorrectionPortDS p)).
Definition l1e_is_correction_field_compliant (i : nat) : M Z := mret 1.

Definition l1e_extension_state_changed (i : nat) : M Z :=
  p ← rd i id;
  (if bool_decide (extState p = PP_EXSTATE_ACTIVE) then wrh_servo_init i;; mret tt
   else when (negb (L1SyncState (l1_basic (l1e_portDS (ext_data p))) =? L1SYNC_DISABLED))
     (l1e_goto i L1SYNC_DISABLED;;
      l1e_run_state_machine i [] 0;;
      mret tt));;
  mret 0.

Definition l1e_ext_hooks : pp_ext_hooks := {|
  hk_init := Some l1e_init;
  hk_open := Some l1e_open;
  hk_close := None;
  hk_listening := None;
  hk_new_slave := Some l1e_new_slave;
  hk_handle_resp := Some l1e_handle_resp;
  hk_handle_announce := None;
  hk_handle_sync := Some l1e_handle_sync;
  hk_handle_followup := Some l1e_handle_followup;
  hk_handle_preq := None;
  hk_handle_presp := if CONFIG_HAS_P2P then Some l1e_handle_presp else None;
  hk_handle_signaling := Some l1e_handle_signaling;
  hk_handle_dreq := Some l1e_handle_dreq;
  hk_pack_announce := None;
  hk_unpack_announce := None;
  hk_ready_for_slave := Some l1e_ready_for_slave;
  hk_state_decision := None;
  hk_state_change := Some l1e_state_change;
  hk_run_ext_state_machine := Some l1e_run_state_machine;
  hk_get_ingress_latency := Some l1e_get_ingress_latency;
  hk_get_egress_latency := Some l1e_get_egress_latency;
  hk_is_correction_field_compliant := Some l1e_is_correction_field_compliant;
  hk_get_tmo_lstate_detection := Some l1e_get_tmo_lstate_detection;
  hk_extension_state_changed := Some l1e_extension_state_changed;
  hk_bmca_s1 := None |}.

End L1Sync.
