(* ===== verification/Extensions.v ===== *)
(** * The extensions under the state machine

    The tables of hooks, tied together: the functions of an extension call
    the state machine's, which call the hooks of the extension again.  The
    White Rabbit and L1Sync tables keep the contract of Safety.v, so the
    safety theorems hold with them. *)

From S2P Require Import Prelude TimeArith Types World Timeout Hooks Bytes Msg FixedPoint Servo.
From S2P Require Import BmcCmp ClockQuality Bmc BmcTable BmcDecision Common States Fsm OpenClose.
From S2P Require Import Safety MainLoop Startup Wrh WrMsg WrStates WrHooks L1Sync.

(** ** The tables *)

Section Tables.
Context `{Config, Platform} {WO : WrhOper} {WC : WrConfig}.

(** The tables whose functions find [HK] in [ppi->ext_hooks]. *)
Definition tables (HK : Hooks) : Hooks := fun e =>
  match e with
  | PPSI_EXT_NONE => pp_hooks
  | PPSI_EXT_WR => @wr_ext_hooks _ _ WO HK WC
  | PPSI_EXT_L1S => @l1e_ext_hooks _ _ WO HK
  end.

(** Calls from an extension back into its hooks end after two rounds. *)
Definition ext_hooks : Hooks := tables (tables (fun _ => no_hooks)).

End Tables.

(** ** What the extensions leave alone *)

Section Contract.
Context `{Config, Platform} {HK : Hooks}.

(** The hooks that the extensions' own functions reach. *)
Class InnerQuiet := {
  iq_send : forall e i,
    (forall h, hk_is_correction_field_compliant (hooks_of e) = Some h -> guar (same_view fview gcore) (h i)) /\
    (forall h, hk_get_egress_latency (hooks_of e) = Some h -> guar (same_view fview gcore) (h i)) /\
    (forall h, hk_pack_announce (hooks_of e) = Some h -> guar (same_view fview gcore) (h i));
  iq_changed : forall e h i, hk_extension_state_changed (hooks_of e) = Some h -> guar (same_view fview gcore) (h i) }.
End Contract.

Section Quiet.
Context `{Config, Platform} {WO : WrhOper} {WC : WrConfig} {HK : Hooks}.

Abbreviation quiet_fview m := (guar (same_view fview gcore) m).

Context `{!InnerQuiet}.


Hint Resolve q_timeout q_timeout_reset_N q_timeout_reset q_timeout_set q_timeout_disable
  q_next_delay_1 q_next_delay_2 q_servo_init q_stamps q_calculate_delays q_got_sync q_got_resp q_got_presp : guar.

(** *** The servo *)

Lemma q_setSRV i g : quiet_fview (setSRV i g).
Proof. unfold setSRV. walk. Qed.
Lemma q_setWRH i g : quiet_fview (setWRH i g).
Proof. unfold setWRH. walk. Qed.
Lemma q_setState i s : quiet_fview (setState i s).
Proof. apply q_setSRV. Qed.
Lemma q_wait_hw i : quiet_fview (wait_hw i).
Proof. apply q_setSRV. Qed.
Hint Resolve q_setSRV q_setWRH q_setState q_wait_hw : guar.
Hint Unfold WRH_SRV rd_tracking WRE_SRV WR_DSPOR L1E_DSPOR L1E_DSPOR_BS : guar.

Lemma q_wrh_init i : quiet_fview (wrh_servo_init i).
Proof. unfold wrh_servo_init. walk. Qed.
Lemma q_wrh_reset i : quiet_fview (wrh_servo_reset i).
Proof. unfold wrh_servo_reset. walk. Qed.
Lemma q_wrh_switch i st o t p : quiet_fview (servo_switch i st o t p).
Proof.
  unfold servo_switch, step_sync_tai, step_sync_nsec, step_sync_phase, step_wait_stable, step_track_phase,
    move_setpoint. walk.
Qed.
Hint Resolve q_wrh_init q_wrh_reset q_wrh_switch : guar.
Lemma q_wrh_update i : quiet_fview (wrh_servo_update i).
Proof. unfold wrh_servo_update, record_delays, servo_act, update_counters. walk. Qed.
Hint Resolve q_wrh_update : guar.
Lemma q_wrh_got_sync i : quiet_fview (wrh_servo_got_sync i).
Proof. unfold wrh_servo_got_sync. walk. Qed.
Lemma q_wrh_got_resp i : quiet_fview (wrh_servo_got_resp i).
Proof. unfold wrh_servo_got_resp. walk. Qed.
Lemma q_wrh_got_presp i : quiet_fview (wrh_servo_got_presp i).
Proof. unfold wrh_servo_got_presp. walk. Qed.
Hint Resolve q_wrh_got_sync q_wrh_got_resp q_wrh_got_presp : guar.

(** *** Detection of the protocol *)

Lemma q_changed i (k : (nat -> M Z) -> M unit) : (forall h, quiet_fview (h i) -> quiet_fview (k h)) ->
  quiet_fview (if_hook i hk_extension_state_changed k (mret tt)).
Proof. intros Hk. apply guar_if_hook; [apply _| |walk]. intros h e He. apply Hk. by eapply iq_changed. Qed.
Lemma q_pdstate_disable i : quiet_fview (pdstate_disable_extension i).
Proof. unfold pdstate_disable_extension. walk. apply q_changed. intros h Hh. walk. Qed.
Lemma q_pdstate_enable i : quiet_fview (pdstate_enable_extension i).
Proof. unfold pdstate_enable_extension. walk. apply q_changed. intros h Hh. walk. Qed.
Lemma q_pdstate_detected i : quiet_fview (pdstate_set_state_pdetected i).
Proof. unfold pdstate_set_state_pdetected, pdstate_set. walk. Qed.
Hint Resolve q_pdstate_disable q_pdstate_enable q_pdstate_detected : guar.

(** *** Sending *)

Lemma q_wbuf i f : quiet_fview (wbuf i f).
Proof. apply view_wbuf, fview_msg. Qed.
Lemma q_send_and_log i len ch fmt : quiet_fview (send_and_log i len ch fmt).
Proof. apply view_send_and_log; [apply fview_msg|apply iq_send]. Qed.
Lemma q_pack_header i mf : quiet_fview (msg_pack_header i mf).
Proof. apply view_pack_header, fview_msg. Qed.
Lemma q_set_seq_id i mf : quiet_fview (msg_set_seq_id i mf).
Proof. apply view_set_seq_id, fview_msg. Qed.
Hint Resolve q_wbuf q_send_and_log q_pack_header q_set_seq_id : guar.

(** *** White Rabbit *)

Lemma q_setWRP i g : quiet_fview (setWRP i g).
Proof. unfold setWRP. walk. Qed.
Lemma q_setWRE i g : quiet_fview (setWRE i g).
Proof. unfold setWRE. walk. Qed.
Lemma q_set_wr_state i s : quiet_fview (set_wr_state i s).
Proof. apply q_setWRP. Qed.
Lemma q_wr_reset i r : quiet_fview (wr_reset_process i r).
Proof. apply q_setWRP. Qed.
Hint Resolve q_setWRP q_setWRE q_set_wr_state q_wr_reset : guar.
Lemma q_wrsig i m : quiet_fview (msg_issue_wrsig i m).
Proof. unfold msg_issue_wrsig, msg_pack_wrsig. walk. Qed.
Lemma q_received i buf : quiet_fview (received_wrsig i buf).
Proof. unfold received_wrsig, msg_unpack_wrsig. walk. Qed.
Lemma q_wr_servo_init i : quiet_fview (wr_servo_init i).
Proof. unfold wr_servo_init. walk. Qed.
Lemma q_wr_fail i : quiet_fview (wr_handshake_fail i).
Proof. unfold wr_handshake_fail. walk. Qed.
Lemma q_arm i t : quiet_fview (arm_timer i t).
Proof. unfold arm_timer. apply guar_bind; [apply _|walk|]. intros _. apply q_timeout_set. Qed.
Lemma q_wr_delay i t : quiet_fview (wr_delay i t).
Proof. unfold wr_delay. walk. Qed.
Hint Resolve q_wrsig q_received q_wr_servo_init q_wr_fail q_arm q_wr_delay : guar.
Lemma q_check_remaining i t m : quiet_fview m -> quiet_fview (check_remaining i t m).
Proof. intros Hm. unfold check_remaining, wr_handshake_retry. walk. Qed.
Hint Resolve q_check_remaining : guar.
Lemma q_sending enter t m a i buf new : quiet_fview enter -> quiet_fview (sending_state enter t m a i buf new).
Proof. intros He. unfold sending_state. walk; apply q_check_remaining; walk. Qed.
Lemma q_wr_open i : quiet_fview (wr_open i).
Proof. unfold wr_open. walk. Qed.
Lemma q_keep i : quiet_fview (keep_detected i).
Proof. unfold keep_detected. walk. Qed.
Lemma q_get_timer i k r : quiet_fview (pp_timeout_get_timer i k r).
Proof. unfold pp_timeout_get_timer, set_counter. walk. Qed.
Lemma q_timeout_get i k : quiet_fview (pp_timeout_get i k).
Proof. unfold pp_timeout_get, pp_get_counter. walk. Qed.
Hint Resolve q_wr_open q_keep q_get_timer q_timeout_get : guar.

Lemma q_wr_frgn r : quiet_fview (wr_frgn r (fun f => f <| fm_ext_specific ::= set_notTreated 0 |>)).
Proof.
  unfold wr_frgn. apply guar_view_wr. intros p. destruct (_ <? 0); [done|]. unfold fview, table_view. f_equal. f_equal.
  cbn [core state received_ptp_header desiredState upd setter frgn_master frgn_rec_num frgn_rec_best]. f_equal. f_equal.
  apply list_eq. intros k. rewrite !list_lookup_fmap.
  destruct (decide (Z.to_nat r.2 = k)) as [->|]; [|by rewrite list_lookup_alter_ne].
  rewrite list_lookup_alter_eq. by destruct (frgn_master p !! k).
Qed.
Lemma q_wr_s1 i r : quiet_fview (wr_bmca_s1 i r).
Proof. unfold wr_bmca_s1. walk. apply q_wr_frgn. Qed.
Lemma q_wr_state_change i : quiet_fview (wr_state_change i).
Proof. unfold wr_state_change, wr_enter. walk. Qed.
Lemma q_wr_changed i : quiet_fview (wr_extension_state_changed i).
Proof. unfold wr_extension_state_changed. walk. Qed.
Lemma q_wr_pack i : quiet_fview (wr_pack_announce i).
Proof. unfold wr_pack_announce, msg_pack_announce_wr_tlv. walk. Qed.

(** *** L1Sync *)

Lemma q_setL1E i g : quiet_fview (setL1E i g).
Proof. unfold setL1E. walk. Qed.
Lemma q_setL1B i g : quiet_fview (setL1B i g).
Proof. apply q_setL1E. Qed.
Lemma q_l1_goto i s : quiet_fview (l1e_goto i s).
Proof. apply q_setL1E. Qed.
Lemma q_l1_execute i v : quiet_fview (set_execute i v).
Proof. apply q_setL1E. Qed.
Lemma q_l1_delay i : quiet_fview (l1e_delay i).
Proof. unfold l1e_delay. walk. Qed.
Lemma q_l1_pack i : quiet_fview (l1e_pack_signal i).
Proof. unfold l1e_pack_signal, msg_pack_signaling_no_fowardable, msg_pack_signaling_fmt. walk. Qed.
Hint Resolve q_setL1E q_setL1B q_l1_goto q_l1_execute q_l1_delay q_l1_pack : guar.
Lemma q_l1_send i b : quiet_fview (l1e_send_sync_msg i b).
Proof. unfold l1e_send_sync_msg, measure_last_time, measure_first_time. walk. Qed.
Lemma q_l1_state_ok i : quiet_fview (le1_evt_STATE_OK i).
Proof. unfold le1_evt_STATE_OK. walk. Qed.
Lemma q_l1_leave_up i s : quiet_fview (l1e_leave_up i s).
Proof. unfold l1e_leave_up. walk. Qed.
Hint Resolve q_l1_send q_l1_state_ok q_l1_leave_up : guar.
Lemma q_l1_disabled i n : quiet_fview (l1e_handle_state_disabled i n).
Proof. unfold l1e_handle_state_disabled. walk. Qed.
Lemma q_l1_idle i n : quiet_fview (l1e_handle_state_idle i n).
Proof. unfold l1e_handle_state_idle. walk. Qed.
Lemma q_l1_alive i n : quiet_fview (l1e_handle_state_link_alive i n).
Proof. unfold l1e_handle_state_link_alive. walk. Qed.
Lemma q_l1_match i n : quiet_fview (l1e_handle_state_config_match i n).
Proof. unfold l1e_handle_state_config_match, l1e_enter_config_match. walk. Qed.
Lemma q_l1_up i n : quiet_fview (l1e_handle_state_up i n).
Proof. unfold l1e_handle_state_up. walk. Qed.
Lemma q_l1_events i s n : quiet_fview (l1e_events i s n).
Proof. unfold l1e_events. walk. Qed.
Hint Resolve q_l1_events : guar.
Lemma q_l1_action st f i n : le1_state_actions st = Some f -> quiet_fview (f i n).
Proof.
  unfold le1_state_actions. intros Hf. repeat case_match; simplify_eq;
    auto using q_l1_disabled, q_l1_idle, q_l1_alive, q_l1_match, q_l1_up. apply q_l1_delay.
Qed.

(** The state the machine runs is the one it was told to enter. *)
Definition l1_state (p : pp_instance) : Z := L1SyncState (l1_basic (l1e_portDS (ext_data p))).
Lemma inst_oob w i : (length (insts w) <= i)%nat -> inst w i = zero_inst.
Proof. intros Hi. unfold inst. by rewrite lookup_ge_None_2. Qed.

Lemma l1_events_state i st new w : (i < length (insts w))%nat ->
  l1_state (inst (l1e_events i st new w).2 i) = if new : bool then st else l1_state (inst w i).
Proof.
  intros Hi. unfold l1e_events.
  rewrite bind_unfold. cbn [wr snd]. set (w1 := set_inst w i _).
  assert (l1_state (inst w1 i) = l1_state (inst w i) /\ (i < length (insts w1))%nat) as [E1 I1]
    by (unfold w1; by rewrite inst_set_same, length_set_inst by done). clearbody w1. rewrite <- E1.
  assert (forall A (m : M A) w, (i < length (insts w))%nat -> guar (same_view l1_state (fun _ => tt)) m ->
    l1_state (inst (m w).2 i) = l1_state (inst w i) /\ (i < length (insts (m w).2))%nat) as Hq.
  { intros A m v Hv Hm. by destruct (same_view_inst _ _ _ _ i (Hm v) Hv). }
  assert (forall k, guar (same_view l1_state (fun _ => tt)) (pp_timeout i k)) as Ht by (intros; by apply view_timeout).
  rewrite bind_unfold. destruct (Hq _ (pp_timeout i PP_TO_L1E_RX_SYNC) w1 I1 (Ht _)) as [E2 I2].
  destruct (pp_timeout i PP_TO_L1E_RX_SYNC w1) as [t w2]. cbn [fst snd] in *. rewrite <- E2. clear E1 E2.
  rewrite bind_unfold. set (m3 := when t _).
  assert (guar (same_view l1_state (fun _ => tt)) m3) as G3.
  { unfold m3, set_execute, setL1B, setL1E. walk. by apply view_timeout_set. }
  destruct (Hq _ m3 w2 I2 G3) as [E3 I3]. rewrite <- E3. set (w3 := (m3 w2).2) in *. clearbody w3. clear m3 G3 E3.
  rewrite bind_unfold. destruct (Hq _ (pp_timeout i PP_TO_L1E_TX_SYNC) w3 I3 (Ht _)) as [E4 I4].
  destruct (pp_timeout i PP_TO_L1E_TX_SYNC w3) as [t4 w4]. cbn [fst snd] in *. rewrite <- E4. clear E4.
  rewrite bind_unfold. destruct (Hq _ (when t4 (set_execute i 1)) w4 I4) as [E5 I5].
  { unfold set_execute, setL1E. walk. }
  rewrite <- E5. set (w5 := (when t4 _ w4).2) in *. clearbody w5.
  destruct new; [|done]. cbn [when]. rewrite bind_unfold. unfold setL1B, set_execute, setL1E. cbn [wr snd].
  rewrite inst_set_same by (by rewrite length_set_inst). by rewrite inst_set_same.
Qed.

Lemma l1_actions_total st : 0 <= st < L1E_MAX_STATE_ACTIONS -> exists f, le1_state_actions st = Some f.
Proof.
  unfold L1E_MAX_STATE_ACTIONS. intros Hst.
  assert (st = 0 \/ st = 1 \/ st = 2 \/ st = 3 \/ st = 4 \/ st = 5) as Hc by lia.
  repeat (destruct Hc as [->|Hc]; [by eexists|]). subst. by eexists.
Qed.

Lemma q_l1_run i buf len : quiet_fview (l1e_run_state_machine i buf len).
Proof.
  intros w. unfold l1e_run_state_machine. rewrite bind_rd_id. cbn zeta.
  set (b := l1_basic _). destruct (_ && _); [reflexivity|].
  destruct (Z.leb_spec L1E_MAX_STATE_ACTIONS (u8 (l1e_next_state b))); [by apply q_l1_delay|].
  rewrite bind_unfold. pose proof (q_l1_events i (u8 (l1e_next_state b)) (negb (u8 (l1e_next_state b) =? u8 (L1SyncState b))) w) as Q1.
  etrans; [exact Q1|].
  assert (exists f, le1_state_actions (u8 (l1_state (inst (l1e_events i (u8 (l1e_next_state b))
    (negb (u8 (l1e_next_state b) =? u8 (L1SyncState b))) w).2 i))) = Some f) as [f Hf].
  { apply l1_actions_total. destruct (decide (i < length (insts w))%nat) as [Hi|Hi].
    - rewrite l1_events_state by done. pose proof (u8_range (l1e_next_state b)).
      destruct (Z.eqb_spec (u8 (l1e_next_state b)) (u8 (L1SyncState b))) as [E|E]; cbn [negb].
      + change (l1_state (inst w i)) with (L1SyncState b). lia.
      + unfold u8 in *. rewrite Z.mod_mod by lia. lia.
    - destruct (same_view_parts _ _ _ _ Q1) as (Hl & _). rewrite inst_oob by lia. done. }
  set (w1 := (l1e_events i _ _ w).2) in *. clearbody w1. clear Q1.
  unfold L1E_DSPOR. rewrite bind_rd. fold (l1_state (inst w1 i)). rewrite Hf.
  match goal with |- same_view _ _ _ ((?m ≫= ?k) _).2 => assert (quiet_fview (m ≫= k)) as Q; [|apply Q] end.
  walk. by eapply q_l1_action.
Qed.
Hint Resolve q_l1_run : guar.
Lemma q_l1_changed i : quiet_fview (l1e_extension_state_changed i).
Proof. unfold l1e_extension_state_changed. walk. Qed.

(** *** The White Rabbit machine *)

Lemma wr_actions_total st : 0 <= st < MAX_STATE_ACTIONS -> exists f, wr_state_actions st = Some f.
Proof.
  unfold MAX_STATE_ACTIONS, WRS_MAX_STATES. intros Hst.
  assert (st = 0 \/ st = 1 \/ st = 2 \/ st = 3 \/ st = 4 \/ st = 5 \/ st = 6 \/ st = 7 \/ st = 8) as Hc by lia.
  repeat (destruct Hc as [->|Hc]; [by eexists|]). subst. by eexists.
Qed.

Ltac rw := repeat first
  [ progress intros
  | solve [apply R_view; eauto 2 with guar]
  | match goal with
    | |- guar (R _) (mbind _ _) => apply guar_bind; [apply _| |]
    | |- guar (R _) (when _ _) => apply guar_when; [apply _|]
    | |- guar (R _) (wr _ (fun p => p <| next_state := _ |>)) => apply R_next; vm_compute; split; discriminate
    | |- guar (R _) (match ?x with _ => _ end) => destruct x eqn:?
    end ].

Lemma R_wr_idle s buf new : guar (R s) (wr_idle (sit_i s) buf new).
Proof. unfold wr_idle, idle_master, idle_wr_parent, idle_not_wr_parent. rw. Qed.

Lemma R_wr_action s st f buf new : wr_state_actions st = Some f -> guar (R s) (f (sit_i s) buf new).
Proof.
  unfold wr_state_actions. intros Hf. repeat case_match; simplify_eq; [apply R_wr_idle|..]; apply R_view;
    try (apply q_sending; walk).
  - unfold wr_s_lock. walk; apply q_check_remaining; walk.
  - unfold wr_calibration. walk.
  - unfold wr_resp_calib_req. walk; apply q_check_remaining; walk.
  - unfold wr_link_on, link_on. walk.
Qed.

Lemma R_wr_run s buf len : guar (R s) (wr_run_state_machine (sit_i s) buf len).
Proof.
  intros w. destruct (decide (sit_i s < length (insts w))%nat) as [Hi|Hi]; [|intros Hw; destruct (Hi (ok_i _ _ Hw))].
  unfold wr_run_state_machine. rewrite bind_rd_id, bind_unfold.
  set (m1 := when _ _). assert (quiet_fview m1) as Q1 by (unfold m1; walk).
  assert (0 <= u32 (wr_next_state (wrp (ext_data (inst (m1 w).2 (sit_i s))))) < MAX_STATE_ACTIONS /\
    (sit_i s < length (insts (m1 w).2))%nat) as [N1 I1].
  { assert (forall b, (sit_i s < length (insts w))%nat -> (b = false ->
        0 <= u32 (wr_next_state (wrp (ext_data (inst w (sit_i s))))) < MAX_STATE_ACTIONS) ->
        let w1 := (when b (set_wr_state (sit_i s) WRS_IDLE) w).2 in
        0 <= u32 (wr_next_state (wrp (ext_data (inst w1 (sit_i s))))) < MAX_STATE_ACTIONS /\
        (sit_i s < length (insts w1))%nat) as Hb.
    { intros [] Hl Hr; cbn [when mret M_ret snd]; [|auto]. unfold set_wr_state, setWRP. cbn [wr snd].
      rewrite inst_set_same, length_set_inst by done. split; [|done]. cbn [ext_data wrp wr_next_state upd setter].
      unfold u32, WRS_IDLE, MAX_STATE_ACTIONS, WRS_MAX_STATES. split; reflexivity || discriminate. }
    apply Hb; [done|]. intros Ho. apply orb_false_iff in Ho as [Ho _]. apply orb_false_iff in Ho as [Ho _].
    apply Z.leb_gt in Ho. pose proof (u32_range (wr_next_state (wrp (ext_data (inst w (sit_i s)))))). lia. }
  etrans; [exact (R_view s m1 Q1 w)|].
  set (w1 := (m1 w).2) in *. clearbody w1. clear m1 Q1 Hi w.
  unfold WR_DSPOR. rewrite bind_rd, bind_unfold. set (q := wrp (ext_data (inst w1 (sit_i s)))) in *.
  set (m2 := when _ _). assert (quiet_fview m2) as Q2 by (unfold m2; walk).
  assert (exists f, wr_state_actions (u32 (wr_state (wrp (ext_data (inst (m2 w1).2 (sit_i s)))))) = Some f) as [f Hf].
  { apply wr_actions_total. unfold m2. destruct (Z.eqb_spec (wr_state q) (wr_next_state q)) as [E|E];
      cbn [negb when mret M_ret snd].
    - fold q. congruence.
    - unfold setWRP. cbn [wr snd]. rewrite inst_set_same by done. exact N1. }
  etrans; [exact (R_view s m2 Q2 w1)|]. rewrite bind_rd, Hf. by eapply R_wr_action.
Qed.

(** ** The contract *)

Ltac pick Hs := apply list_elem_of_In in Hs; cbn in Hs;
  repeat (destruct Hs as [<-|Hs]; [|]); try done.

Lemma q_l1_state_change i : quiet_fview (l1e_state_change i).
Proof. unfold l1e_state_change. walk. Qed.

Lemma wr_plain sel h s : sel ∈ plain_hooks -> sel wr_ext_hooks = Some h -> guar (R s) (h (sit_i s)).
Proof.
  intros Hs. pick Hs; cbn; intros Hh; simplify_eq; apply R_view.
  - unfold wr_handle_resp, wr_servo_got_resp. walk.
  - unfold wr_handle_sync, wr_sync_followup, wr_servo_got_sync. walk.
  - unfold wr_handle_followup, wr_sync_followup, wr_servo_got_sync. walk.
  - destruct CONFIG_HAS_P2P; simplify_eq. unfold wr_handle_presp, wr_servo_got_presp. walk.
  - unfold wr_handle_dreq. walk.
  - unfold wr_ready_for_slave. walk.
  - unfold wr_get_tmo_lstate_detection. walk.
  - apply q_wr_changed.
Qed.
Lemma wr_buf sel h s buf len : sel ∈ buf_hooks -> sel wr_ext_hooks = Some h -> guar (R s) (h (sit_i s) buf len).
Proof.
  intros Hs. pick Hs; cbn; intros Hh; simplify_eq; [apply R_view; unfold wr_init; walk| |apply R_wr_run].
  apply R_view. unfold wr_new_slave. walk.
Qed.
Lemma l1e_plain sel h s : sel ∈ plain_hooks -> sel l1e_ext_hooks = Some h -> guar (R s) (h (sit_i s)).
Proof.
  intros Hs. pick Hs; cbn; intros Hh; simplify_eq; apply R_view.
  - unfold l1e_handle_resp, l1e_keep_detected. walk.
  - unfold l1e_handle_sync, l1e_sync_followup. walk.
  - unfold l1e_handle_followup, l1e_sync_followup. walk.
  - destruct CONFIG_HAS_P2P; simplify_eq. unfold l1e_handle_presp, l1e_keep_detected. walk.
  - unfold l1e_handle_dreq, l1e_keep_detected. walk.
  - unfold l1e_ready_for_slave. walk.
  - unfold l1e_get_tmo_lstate_detection. walk.
  - apply q_l1_changed.
Qed.
Lemma l1e_buf sel h s buf len : sel ∈ buf_hooks -> sel l1e_ext_hooks = Some h -> guar (R s) (h (sit_i s) buf len).
Proof.
  intros Hs. pick Hs; cbn; intros Hh; simplify_eq; apply R_view;
    [unfold l1e_init; walk|unfold l1e_new_slave; walk|unfold l1e_handle_signaling, l1e_unpack_signal; walk|apply q_l1_run].
Qed.

#[global] Instance tables_safe : HooksSafe (HK := tables HK).
Proof.
  split.
  - intros [] h i; cbn; intros Hh; simplify_eq; [apply q_wr_open|unfold l1e_open; walk].
  - intros [] i; cbn; (split_and!; intros h Hh; simplify_eq);
      unfold wr_is_correction_field_compliant, wr_get_latency, l1e_is_correction_field_compliant,
        l1e_get_egress_latency; try apply q_wr_pack; walk.
  - intros [] h i; cbn; intros Hh; simplify_eq; unfold wr_get_latency, l1e_get_ingress_latency; walk.
  - intros [] h i buf a; cbn; intros Hh; simplify_eq. unfold wr_unpack_announce. walk.
  - intros [] h i f; cbn; intros Hh; simplify_eq. apply q_wr_s1.
  - intros [] h i s; cbn; intros Hh; discriminate Hh.
  - intros [] h i; cbn; intros Hh; simplify_eq;
      [unfold state_change; walk|apply q_wr_state_change|apply q_l1_state_change].
  - intros [] sel h s Hs; [|apply wr_plain|apply l1e_plain]; try done. pick Hs.
  - intros [] sel h s buf len Hs; [|apply wr_buf|apply l1e_buf]; try done. pick Hs.
Qed.

#[global] Instance tables_inner : InnerQuiet (HK := tables HK).
Proof.
  split; [exact hs_send|]. intros [] h i; cbn; intros Hh; simplify_eq; [apply q_wr_changed|apply q_l1_changed].
Qed.

End Quiet.

(** ** The whole program *)

#[global] Instance no_inner `{Config, Platform} : InnerQuiet (HK := fun _ => no_hooks).
Proof. by split. Qed.

#[global] Instance ext_hooks_safe `{Config, Platform} {WO : WrhOper} {WC : WrConfig} : HooksSafe (HK := ext_hooks).
Proof.
  pose proof no_inner as I0. pose proof (tables_inner (HK := fun _ => no_hooks)) as I1. exact (tables_safe (HK := tables (fun _ => no_hooks))).
Qed.
