(* ===== verification/ExtClosed.v ===== *)
(** * The tables of hooks are closed

    The functions of an extension call functions of the state machine that
    call the extension's hooks again.  The functions of [ext_hooks] are those
    that find [ext_hooks] itself there, as in the program. *)

From Stdlib Require Import FunctionalExtensionality.
From S2P Require Import Prelude TimeArith Types World Timeout Hooks Bytes Msg FixedPoint Servo.
From S2P Require Import BmcCmp ClockQuality Bmc BmcTable BmcDecision Common States Fsm OpenClose.
From S2P Require Import Protocol Safety MainLoop Startup Wrh WrMsg WrStates WrHooks L1Sync Extensions.

Section Closed.
Context `{Config, Platform} {WO : WrhOper} {WC : WrConfig}.

(** Two tables with the same hooks where the extensions call back. *)
Definition same_inner (HK HK' : Hooks) : Prop := forall e,
  hk_extension_state_changed (HK e) = hk_extension_state_changed (HK' e) /\
  hk_get_egress_latency (HK e) = hk_get_egress_latency (HK' e).

Lemma same_ext_hook {T} (h : pp_ext_hooks -> option T) (HK HK' : Hooks) :
  (forall e, h (HK e) = h (HK' e)) -> forall i, @ext_hook _ HK T i h = @ext_hook _ HK' T i h.
Proof.
  intros Hh i. unfold ext_hook, rd. apply functional_extensionality. intros w. unfold hooks_of. by rewrite Hh.
Qed.

Section Same.
Context (HK HK' : Hooks) (Hs : same_inner HK HK').

Lemma same_disable : pdstate_disable_extension (HK := HK) = pdstate_disable_extension (HK := HK').
Proof.
  apply functional_extensionality. intros i. unfold pdstate_disable_extension, if_hook.
  by rewrite (same_ext_hook hk_extension_state_changed HK HK') by apply Hs.
Qed.
Lemma same_enable : pdstate_enable_extension (HK := HK) = pdstate_enable_extension (HK := HK').
Proof.
  apply functional_extensionality. intros i. unfold pdstate_enable_extension, if_hook.
  by rewrite (same_ext_hook hk_extension_state_changed HK HK') by apply Hs.
Qed.
Lemma same_send : send_and_log (HK := HK) = send_and_log (HK := HK').
Proof.
  apply functional_extensionality. intros i. unfold send_and_log, if_hook.
  by rewrite (same_ext_hook hk_get_egress_latency HK HK') by apply Hs.
Qed.

(** *** White Rabbit *)

Lemma same_wrsig : msg_issue_wrsig (HK := HK) = msg_issue_wrsig (HK := HK').
Proof. unfold msg_issue_wrsig. by rewrite same_send. Qed.
Lemma same_fail : wr_handshake_fail (HK := HK) = wr_handshake_fail (HK := HK').
Proof. unfold wr_handshake_fail. by rewrite same_disable. Qed.
Lemma same_check : check_remaining (HK := HK) = check_remaining (HK := HK').
Proof. unfold check_remaining. by rewrite same_fail. Qed.
Lemma same_sending : sending_state (HK := HK) = sending_state (HK := HK').
Proof. unfold sending_state. by rewrite same_check, same_wrsig. Qed.
Lemma same_wr_run : wr_run_state_machine (HK := HK) = wr_run_state_machine (HK := HK').
Proof.
  unfold wr_run_state_machine, wr_state_actions, wr_idle, idle_master, idle_wr_parent, idle_not_wr_parent,
    wr_present, wr_m_lock, wr_s_lock, wr_locked, wr_calibration, wr_calibrated, wr_resp_calib_req, wr_link_on.
  by rewrite same_enable, same_disable, same_sending, same_check, same_wrsig.
Qed.
Lemma same_wr : wr_ext_hooks (HK := HK) = wr_ext_hooks (HK := HK').
Proof.
  unfold wr_ext_hooks, wr_state_change, wr_enter. by rewrite same_wr_run, same_enable, same_fail.
Qed.

(** *** L1Sync *)

Lemma same_l1_send : l1e_send_sync_msg (HK := HK) = l1e_send_sync_msg (HK := HK').
Proof. unfold l1e_send_sync_msg. by rewrite same_send. Qed.
Lemma same_l1_run : l1e_run_state_machine (HK := HK) = l1e_run_state_machine (HK := HK').
Proof.
  unfold l1e_run_state_machine, le1_state_actions, l1e_handle_state_idle, l1e_handle_state_link_alive,
    l1e_handle_state_config_match, l1e_handle_state_up.
  by rewrite same_l1_send, same_disable, same_enable.
Qed.
Lemma same_l1 : l1e_ext_hooks (HK := HK) = l1e_ext_hooks (HK := HK').
Proof.
  unfold l1e_ext_hooks, l1e_state_change, l1e_extension_state_changed, l1e_handle_signaling.
  by rewrite same_l1_run, same_enable.
Qed.

Lemma same_tables : tables HK = tables HK'.
Proof. apply functional_extensionality. intros []; [done|apply same_wr|apply same_l1]. Qed.
End Same.

(** *** A forced stop calls no hook *)

Lemma l1_disabled_run (HK HK' : Hooks) i w : u8 (l1e_next_state (l1_basic (l1e_portDS (ext_data (inst w i))))) = 1 ->
  (i < length (insts w))%nat ->
  l1e_run_state_machine (HK := HK) i [] 0 w = l1e_run_state_machine (HK := HK') i [] 0 w.
Proof.
  intros Hn Hi. unfold l1e_run_state_machine. rewrite !bind_rd_id. cbn zeta. set (b := l1_basic _) in *. rewrite Hn.
  change (1 =? L1SYNC_DISABLED) with true. cbn [negb andb]. change (L1E_MAX_STATE_ACTIONS <=? 1) with false. cbn iota.
  rewrite !(bind_unfold (l1e_events i 1 _)).
  pose proof (l1_events_state i 1 (negb (1 =? u8 (L1SyncState b))) w Hi) as Hs.
  set (w1 := (l1e_events i 1 _ w).2) in *. clearbody w1. unfold L1E_DSPOR. rewrite !bind_rd.
  fold (l1_state (inst w1 i)). assert (u8 (l1_state (inst w1 i)) = 1) as ->; [|done].
  rewrite Hs. change (l1_state (inst w i)) with (L1SyncState b). destruct (Z.eqb_spec 1 (u8 (L1SyncState b))); [|done].
  cbn [negb]. congruence.
Qed.

Lemma same_rd {A} i (k k' : pp_instance -> M A) w : k (inst w i) w = k' (inst w i) w ->
  (rd i id ≫= k) w = (rd i id ≫= k') w.
Proof. by rewrite !bind_rd_id. Qed.

Lemma same_run_oob (HK HK' : Hooks) i w : (length (insts w) <= i)%nat ->
  l1e_run_state_machine (HK := HK) i [] 0 w = l1e_run_state_machine (HK := HK') i [] 0 w.
Proof.
  intros Hi. unfold l1e_run_state_machine. apply same_rd. rewrite inst_oob by done. cbn zeta beta.
  match goal with |- (if ?c then _ else _) _ = _ => assert (c = true) as -> by (vm_compute; reflexivity) end.
  reflexivity.
Qed.

Lemma same_force (g : M unit) (m m' : M Z) w : m (g w).2 = m' (g w).2 ->
  ((g;; m;; mret tt);; mret 0) w = ((g;; m';; mret tt);; mret (M := M) 0) w.
Proof. intros E. rewrite !bind_unfold. by rewrite !E. Qed.

Lemma same_l1_changed (HK HK' : Hooks) :
  l1e_extension_state_changed (HK := HK) = l1e_extension_state_changed (HK := HK').
Proof.
  apply functional_extensionality. intros i. apply functional_extensionality. intros w.
  unfold l1e_extension_state_changed. apply same_rd. destruct (bool_decide _); [reflexivity|].
  destruct (negb _); cbn [when]; [|reflexivity]. apply same_force.
  unfold l1e_goto, setL1B, setL1E. cbn [wr snd]. destruct (decide (i < length (insts w))%nat) as [Hi|Hi].
  - apply l1_disabled_run; [by rewrite inst_set_same|by rewrite length_set_inst].
  - apply same_run_oob. rewrite length_set_inst. lia.
Qed.

(** The hooks the extensions reach, of a table. *)
Lemma inner_tables (HK : Hooks) e :
  hk_extension_state_changed (tables HK e) =
    match e with
    | PPSI_EXT_NONE => None
    | PPSI_EXT_WR => Some wr_extension_state_changed
    | PPSI_EXT_L1S => Some (l1e_extension_state_changed (HK := HK))
    end /\
  hk_get_egress_latency (tables HK e) =
    match e with
    | PPSI_EXT_NONE => None
    | PPSI_EXT_WR => Some wr_get_latency
    | PPSI_EXT_L1S => Some l1e_get_egress_latency
    end.
Proof. by destruct e. Qed.

Lemma same_inner_tables (HK HK' : Hooks) : same_inner (tables HK) (tables HK').
Proof.
  intros e. destruct (inner_tables HK e) as [-> ->]. destruct (inner_tables HK' e) as [-> ->].
  by rewrite (same_l1_changed HK HK').
Qed.

Lemma two_rounds (HK : Hooks) : tables (tables (tables HK)) = tables (tables HK).
Proof. exact (same_tables _ _ (same_inner_tables (tables HK) HK)). Qed.

Lemma ext_hooks_closed : tables ext_hooks = ext_hooks.
Proof. unfold ext_hooks. exact (two_rounds (fun _ => no_hooks)). Qed.

End Closed.

(** ** The two-step exchange under the extensions

    Plain PTP has no hook for a Follow_Up, and those of L1Sync and, while the extension is not
    active, of White Rabbit keep the timestamps of the exchange; an active White Rabbit port goes
    on to correct [t1] and [t2] by the fixed delays. *)

Section Exchange.
Context `{Config, Platform} {WO : WrhOper} {WC : WrConfig}.
Local Abbreviation quiet_ex m := (guar (same_view ex_view parentDS) m).

Lemma ex_got_sync i b : quiet_ex (pp_servo_got_sync i b).
Proof. by apply view_got_sync; [apply ex_servo|]. Qed.

Lemma ex_wrh_update i : quiet_ex (wrh_servo_update i).
Proof.
  unfold wrh_servo_update, record_delays, servo_act, update_counters, servo_switch, step_sync_tai, step_sync_nsec,
    step_sync_phase, step_wait_stable, step_track_phase, move_setpoint, setState, wait_hw, setSRV, setWRH, SRV, WRH_SRV,
    rd_tracking.
  walk. by apply view_calculate_delays; [apply ex_servo|].
Qed.

Lemma extensions_followup_quiet (HK : Hooks) (i : nat) (w : world) : HK = tables HK ->
  (protocol_extension (inst w i) = PPSI_EXT_WR -> extState (inst w i) <> PP_EXSTATE_ACTIVE) ->
  followup_quiet i w.
Proof.
  intros E Hwr h w' Eh Es. unfold hooks_of in Eh. rewrite E in Eh.
  destruct (protocol_extension (inst w i)); cbn in Eh; [done|..]; injection Eh as <-.
  - unfold wr_handle_followup, wr_sync_followup. rewrite !bind_rd, Es, bool_decide_false by auto.
    match goal with |- same_view _ _ _ (?m w').2 => assert (quiet_ex m) as Hm; [|apply Hm] end.
    walk. apply ex_got_sync.
  - assert (quiet_ex (l1e_handle_followup i)) as Hm; [|apply Hm].
    unfold l1e_handle_followup, l1e_sync_followup, wrh_servo_got_sync, setSRV. walk.
    + apply ex_wrh_update.
    + apply ex_got_sync.
Qed.

(** The latency that [__send_and_log] takes from each extension. *)
Lemma extensions_egress_latency (HK : Hooks) (i : nat) (p : pp_instance) : HK = tables HK ->
  egress_latency_is i p
    (if bool_decide (protocol_extension p = PPSI_EXT_WR) then 0 else egressLatency (timestampCorrectionPortDS p)).
Proof.
  intros E. unfold egress_latency_is, hooks_of. rewrite E. destruct (protocol_extension p); cbn; [done..|].
  intros w Ew. unfold l1e_get_egress_latency, rd. by rewrite Ew.
Qed.

End Exchange.

(** ** The whole program with its extensions *)

Section Program.
Context `{Config, Platform} {WO : WrhOper} {WC : WrConfig}.

(** The equation of the tables has one solution. *)
Lemma tables_unique (HK : Hooks) : HK = tables HK -> HK = ext_hooks.
Proof.
  intros E. rewrite E. rewrite E. unfold ext_hooks. apply same_tables. apply same_inner_tables.
Qed.

(** C2. The whole program with White Rabbit and L1Sync. When the tables of hooks
    are those of plain PTP, White Rabbit and L1Sync, whose functions call back
    into the same tables, the program, from allocated memory and any
    configuration through [pp_init_globals] and any sequence of events, fails
    no assertion and keeps every port in a state of the table and every
    foreign master table well formed. *)
Theorem extensions_safe (HK : Hooks) (opts_set : bool) (opts : pp_runtime_opts) (evs : list event) (w : world) :
  HK = tables HK -> allocated w -> Forall event_ok evs ->
  let w' := (unix_main_loop evs (pp_init_globals opts_set opts w).2).2 in
  assert_failed w' = false /\ Forall (fun p => valid_state (state p)) (insts w') /\ tables_ok w'.
Proof.
  intros E Hw He. apply tables_unique in E. subst HK. cbn zeta.
  destruct (main_loop_sys (HK := ext_hooks) (nlinks (glbs w)) evs _ He (init_sys (HK := ext_hooks) opts_set opts w Hw))
    as [_ T S _ _ _ A]. done.
Qed.

End Program.

Lemma extensions_safe_witness :
  let HK := @ext_hooks Demo.demo_config Demo.demo_platform demo_oper demo_wrconfig in
  assert_failed (@unix_main_loop Demo.demo_config Demo.demo_platform HK demo_events
    (@pp_init_globals Demo.demo_config Demo.demo_platform HK true demo_config_opts demo_allocated).2).2 = false.
Proof.
  intros HK.
  apply (@extensions_safe Demo.demo_config Demo.demo_platform demo_oper demo_wrconfig HK true demo_config_opts demo_events
    demo_allocated).
  - symmetry. apply ext_hooks_closed.
  - split; [repeat constructor|..]; vm_compute; intuition congruence.
  - repeat constructor; intros j r; cbn; [done|]. destruct (j =? 1)%nat; [|done]. intros [= <-]. vm_compute. discriminate.
Defined.
