(* ===== verification/WrHandshake.v ===== *)
(** * The White Rabbit handshake as an abstract protocol

    What a run of the WR state machine can do to the state of the handshake,
    whatever frame arrives and whatever the hardware answers: an abstract
    step relation that [wr_run_state_machine] refines, and what follows from
    it for sequences of runs. *)

From stdpp Require Import relations.
From S2P Require Import Prelude TimeArith Types World Timeout Hooks Bytes Msg FixedPoint Servo.
From S2P Require Import BmcCmp ClockQuality Bmc BmcTable BmcDecision Common States Fsm OpenClose.
From S2P Require Import Safety Wrh WrMsg WrStates WrHooks L1Sync Extensions.

(** ** The abstract protocol *)

(** State being run, state to enter next, role, whether WR mode is on, and
    the state of the extension. *)
Record hs := mk_hs { hs_state : Z; hs_next : Z; hs_mode : Z; hs_on : Z; hs_ext : pp_exstate_t }.

(** What a run learns: a WR message, or that the PLL has locked. *)
Inductive hs_event := Heard (msg : Z) | PllLocked.

(** The answer that takes a side to its next state. *)
Definition hs_answer (mode st msg : Z) : option Z :=
  if (st =? WRS_PRESENT) && (msg =? LOCK) then Some WRS_S_LOCK
  else if (st =? WRS_M_LOCK) && (msg =? LOCKED) then Some WRS_CALIBRATION
  else if (st =? WRS_LOCKED) && (msg =? CALIBRATE) then Some WRS_RESP_CALIB_REQ
  else if (st =? WRS_CALIBRATED) && (msg =? CALIBRATE) && (mode =? WR_MASTER) then Some WRS_RESP_CALIB_REQ
  else if (st =? WRS_CALIBRATED) && (msg =? WR_MODE_ON) && (mode =? WR_SLAVE) then Some WRS_WR_LINK_ON
  else if (st =? WRS_RESP_CALIB_REQ) && (msg =? CALIBRATED) then
    Some (if mode =? WR_MASTER then WRS_WR_LINK_ON else WRS_CALIBRATION)
  else None.

(** The states that wait with a timeout. *)
Definition hs_waiting (st : Z) : bool :=
  (st =? WRS_PRESENT) || (st =? WRS_S_LOCK) || (st =? WRS_M_LOCK) || (st =? WRS_LOCKED) ||
  (st =? WRS_CALIBRATED) || (st =? WRS_RESP_CALIB_REQ).

(** Whether a state listens in the run that enters it. *)
Definition hs_listens (new : bool) (st : Z) : Prop := new = false \/ st = WRS_RESP_CALIB_REQ.

(** One run in state [hs_state], entered just now ([new]) or not, with what
    the run learns, on a port that is a PTP master or not. *)
Inductive hs_step (new : bool) (evs : list hs_event) (ptp_master : bool) : hs -> hs -> Prop :=
  | step_stay h : ~ (new = true /\ hs_state h = WRS_M_LOCK) -> hs_step new evs ptp_master h h
  | step_answer h m n : hs_listens new (hs_state h) -> Heard m ∈ evs ->
      hs_answer (hs_mode h) (hs_state h) m = Some n ->
      hs_step new evs ptp_master h (mk_hs (hs_state h) n (hs_mode h) (hs_on h) (hs_ext h))
  | step_locked h : hs_state h = WRS_S_LOCK -> new = false -> PllLocked ∈ evs ->
      hs_step new evs ptp_master h (mk_hs (hs_state h) WRS_LOCKED (hs_mode h) (hs_on h) (hs_ext h))
  | step_calibration h : hs_state h = WRS_CALIBRATION ->
      hs_step new evs ptp_master h (mk_hs (hs_state h) WRS_CALIBRATED (hs_mode h) (hs_on h) (hs_ext h))
  | step_link_on h : hs_state h = WRS_WR_LINK_ON ->
      hs_step new evs ptp_master h (mk_hs (hs_state h) WRS_IDLE (hs_mode h) 1 (hs_ext h))
  | step_enter_m_lock h : hs_state h = WRS_M_LOCK -> new = true ->
      hs_step new evs ptp_master h (mk_hs (hs_state h) (hs_next h) WR_MASTER 0 (hs_ext h))
  | step_failed h : hs_listens new (hs_state h) -> hs_waiting (hs_state h) = true ->
      hs_step new evs ptp_master h (mk_hs (hs_state h) WRS_IDLE (hs_mode h) (hs_on h) (hs_ext h))
  | step_fallback h e : hs_listens new (hs_state h) -> hs_waiting (hs_state h) = true -> e <> PP_EXSTATE_ACTIVE ->
      hs_step new evs ptp_master h (mk_hs (hs_state h) WRS_IDLE WR_ROLE_NONE 0 e)
  | step_heard h e : hs_state h = WRS_IDLE -> ptp_master = true -> evs <> [] ->
      e = hs_ext h \/ e = PP_EXSTATE_ACTIVE ->
      hs_step new evs ptp_master h (mk_hs (hs_state h) (hs_next h) (hs_mode h) (hs_on h) e)
  | step_slave_present h e : hs_state h = WRS_IDLE -> ptp_master = true -> Heard SLAVE_PRESENT ∈ evs ->
      e = hs_ext h \/ e = PP_EXSTATE_ACTIVE ->
      hs_step new evs ptp_master h (mk_hs (hs_state h) WRS_M_LOCK (hs_mode h) (hs_on h) e)
  | step_wr_parent h : hs_state h = WRS_IDLE -> ptp_master = false ->
      hs_step new evs ptp_master h (mk_hs (hs_state h) WRS_PRESENT WR_SLAVE 0 PP_EXSTATE_ACTIVE)
  | step_not_wr_parent h : hs_state h = WRS_IDLE -> ptp_master = false -> hs_ext h = PP_EXSTATE_ACTIVE ->
      hs_step new evs ptp_master h (mk_hs (hs_state h) (hs_next h) WR_ROLE_NONE 0 PP_EXSTATE_PTP).

(** The state a run executes. *)
Definition hs_target (init : bool) (h : hs) : Z :=
  if (MAX_STATE_ACTIONS <=? u32 (hs_next h)) || init || negb (bool_decide (hs_ext h = PP_EXSTATE_ACTIVE))
  then WRS_IDLE else hs_next h.
Definition hs_enter (init : bool) (h : hs) : hs :=
  mk_hs (hs_target init h) (hs_target init h) (hs_mode h) (hs_on h) (hs_ext h).
Definition hs_new (init : bool) (h : hs) : bool := negb (hs_state h =? hs_target init h).

(** The handshake of an instance. *)
Definition hs_wrp (q : wr_dsport) (e : pp_exstate_t) : hs :=
  mk_hs (wr_state q) (wr_next_state q) (wrMode q) (wrModeOn q) e.
Definition hs_of (p : pp_instance) : hs := hs_wrp (wrp (ext_data p)) (extState p).

Section Refine.
Context `{Config, Platform} {WO : WrhOper} {WC : WrConfig}.
#[local] Existing Instance ext_hooks.

(** ** What does not touch the handshake *)

(** Sending with the tables of the extensions. *)
Lemma view_send_ext {K G} (c : pp_instance -> K) (g : pp_globals -> G) (Hc : msg_frame c) i len ch fmt :
  guar (same_view c g) (send_and_log i len ch fmt).
Proof.
  apply view_send_and_log; [done|]. intros e j. destruct e; cbn; (split_and!; intros h Hh; simplify_eq);
    unfold wr_is_correction_field_compliant, wr_get_latency, l1e_is_correction_field_compliant, l1e_get_egress_latency,
      wr_pack_announce, msg_pack_announce_wr_tlv, WR_DSPOR; walk; by apply view_wbuf.
Qed.
Lemma view_issue_wrsig {K G} (c : pp_instance -> K) (g : pp_globals -> G) (Hc : msg_frame c) i m :
  guar (same_view c g) (msg_issue_wrsig i m).
Proof.
  unfold msg_issue_wrsig, msg_pack_wrsig, WR_DSPOR. walk; [by apply view_wbuf|by apply view_send_ext].
Qed.

(** The handshake, and what decides how a run goes on. *)
Definition hview (p : pp_instance) := (hs_of p, (protocol_extension p, h_messageType (received_ptp_header p), state p)).
Abbreviation quiet m := (guar (same_view hview (fun _ => tt)) m).

Lemma hview_msg : msg_frame hview.
Proof. by split. Qed.
Lemma hview_servo : servo_frame hview.
Proof. by split. Qed.

Lemma h_timeout_set i k t : quiet (pp_timeout_set_rename i k t).
Proof. by apply (view_timeout_set hview (fun _ => tt)). Qed.
Lemma h_next_delay_1 i a : quiet (pp_next_delay_1 i a).
Proof. by apply view_next_delay_1. Qed.
Lemma h_timeout_reset i k : quiet (pp_timeout_reset i k).
Proof. by apply view_timeout_reset_N. Qed.
Lemma h_servo_init i : quiet (pp_servo_init i).
Proof. apply view_servo_init; [apply hview_servo|done..]. Qed.
Lemma h_setSRV i g : quiet (setSRV i g).
Proof. unfold setSRV. walk. Qed.
Lemma h_setWRH i g : quiet (setWRH i g).
Proof. unfold setWRH. walk. Qed.
Lemma h_setWRE i g : quiet (setWRE i g).
Proof. unfold setWRE. walk. Qed.
Hint Resolve h_timeout_set h_next_delay_1 h_timeout_reset h_servo_init h_setSRV h_setWRH h_setWRE : guar.
Hint Unfold WRH_SRV rd_tracking WRE_SRV WR_DSPOR : guar.
Lemma h_wrh_init i : quiet (wrh_servo_init i).
Proof. unfold wrh_servo_init, setState. walk. Qed.
Lemma h_wrh_reset i : quiet (wrh_servo_reset i).
Proof. unfold wrh_servo_reset, setState. walk. Qed.
Hint Resolve h_wrh_init h_wrh_reset : guar.
Lemma h_wr_servo_init i : quiet (wr_servo_init i).
Proof. unfold wr_servo_init. walk. Qed.
Lemma h_wrsig i m : quiet (msg_issue_wrsig i m).
Proof. by apply view_issue_wrsig, hview_msg. Qed.
Lemma h_arm i t : quiet (arm_timer i t).
Proof. unfold arm_timer, setWRP. walk. Qed.
Lemma h_wr_delay i t : quiet (wr_delay i t).
Proof. unfold wr_delay. walk. Qed.
Lemma hs_store m buf q e : hs_wrp (store_wrsig m buf q) e = hs_wrp q e.
Proof. unfold store_wrsig. repeat case_match; done. Qed.
Lemma h_received i buf : quiet (received_wrsig i buf).
Proof.
  unfold received_wrsig, msg_unpack_wrsig, setWRP, pdstate_set_state_pdetected, pdstate_set. walk.
  apply guar_view_wr. intros p. unfold hview, hs_of. cbn [ext_data wrp upd setter]. by rewrite hs_store.
Qed.
Hint Resolve h_wr_servo_init h_wrsig h_arm h_wr_delay h_received : guar.

(** ** Steps of the handshake

    A program logic over the abstract state: from the handshake [h] of port
    [i], [m] ends in a handshake that [Q] allows. *)

Context (i : nat) (mt st : Z).

Definition sit (h : hs) (w : world) : Prop :=
  (i < length (insts w))%nat /\ hview (inst w i) = (h, (PPSI_EXT_WR, mt, st)).
Definition ht {A} (h : hs) (m : M A) (Q : A -> hs -> Prop) : Prop :=
  forall w, sit h w -> exists h', sit h' (m w).2 /\ Q (m w).1 h'.

Lemma sit_hs h w : sit h w -> hs_of (inst w i) = h.
Proof. intros [_ Hv]. exact (f_equal fst Hv). Qed.
Lemma sit_state h w : sit h w -> state (inst w i) = st.
Proof. intros [_ Hv]. exact (f_equal (fun v => v.2.2) Hv). Qed.

Lemma ht_ret {A} h (a : A) Q : Q a h -> ht h (mret a) Q.
Proof. intros HQ w Hw. by exists h. Qed.
Lemma ht_mono {A} h (m : M A) (Q Q' : A -> hs -> Prop) : ht h m Q -> (forall a h', Q a h' -> Q' a h') -> ht h m Q'.
Proof. intros Hm HQ w Hw. destruct (Hm w Hw) as (h' & Hs & Hq). eauto. Qed.
Lemma ht_bind {A B} h (m : M A) (k : A -> M B) Q : ht h m (fun a h' => ht h' (k a) Q) -> ht h (m ≫= k) Q.
Proof. intros Hm w Hw. rewrite bind_unfold. destruct (Hm w Hw) as (h1 & Hs & Hk). exact (Hk _ Hs). Qed.
Lemma ht_quiet {A B} h (m : M A) (k : A -> M B) Q : quiet m -> (forall a, ht h (k a) Q) -> ht h (m ≫= k) Q.
Proof.
  intros Hm Hk. apply ht_bind. intros w [Hi Hw]. destruct (same_view_inst _ _ _ _ i (Hm w) Hi) as [Hv Hl].
  exists h. split; [split; [done|by rewrite Hv]|apply Hk].
Qed.
Lemma ht_quiet_end {A} h (m : M A) Q : quiet m -> (forall a, Q a h) -> ht h m Q.
Proof.
  intros Hm HQ w [Hi Hw]. destruct (same_view_inst _ _ _ _ i (Hm w) Hi) as [Hv Hl].
  exists h. split; [split; [done|by rewrite Hv]|apply HQ].
Qed.
Lemma ht_if {A} h (b : bool) (m m' : M A) Q : (b = true -> ht h m Q) -> (b = false -> ht h m' Q) ->
  ht h (if b then m else m') Q.
Proof. destruct b; auto. Qed.
Lemma ht_when h (b : bool) (m : M unit) Q : (b = true -> ht h m Q) -> (b = false -> Q tt h) -> ht h (when b m) Q.
Proof. destruct b; cbn [when]; [auto|]. intros _ HQ. by apply ht_ret, HQ. Qed.

(** Reads. *)
Lemma ht_dspor {B} h (k : wr_dsport -> M B) Q : (forall q, hs_wrp q (hs_ext h) = h -> ht h (k q) Q) -> ht h (WR_DSPOR i ≫= k) Q.
Proof.
  intros Hk w Hw. unfold WR_DSPOR. rewrite bind_rd. apply Hk; [|done].
  destruct Hw as [_ [= <- _]]. done.
Qed.
Lemma ht_state {B} h (k : Z -> M B) Q : ht h (k st) Q -> ht h (rd i state ≫= k) Q.
Proof. intros Hk w Hw. rewrite bind_rd. destruct (Hw) as [_ [= _ _ _ <-]]. by apply Hk. Qed.
Lemma ht_ext {B} h (k : pp_exstate_t -> M B) Q : ht h (k (hs_ext h)) Q -> ht h (rd i extState ≫= k) Q.
Proof. intros Hk w Hw. rewrite bind_rd. destruct (Hw) as [_ [= <- _ _ _]]. by apply Hk. Qed.

(** Writes. *)
Lemma ht_wr h f h' (Q : unit -> hs -> Prop) :
  (forall p, hview p = (h, (PPSI_EXT_WR, mt, st)) -> hview (f p) = (h', (PPSI_EXT_WR, mt, st))) -> Q tt h' -> ht h (wr i f) Q.
Proof.
  intros Hf HQ w [Hi Hw]. exists h'. split; [|done]. unfold sit. cbn [wr snd].
  rewrite inst_set_same, length_set_inst by done. auto.
Qed.
Lemma ht_setWRP h g h' (Q : unit -> hs -> Prop) :
  (forall q, hs_wrp q (hs_ext h) = h -> hs_wrp (g q) (hs_ext h) = h') -> Q tt h' -> ht h (setWRP i g) Q.
Proof.
  intros Hg. apply ht_wr. intros p Hp. unfold hview, hs_of in *.
  cbn [ext_data wrp extState upd setter protocol_extension received_ptp_header state].
  injection Hp as <- -> -> ->. f_equal. exact (Hg _ eq_refl).
Qed.
Lemma ht_next h n Q : Q tt (mk_hs (hs_state h) n (hs_mode h) (hs_on h) (hs_ext h)) -> ht h (set_wr_state i n) Q.
Proof. apply ht_setWRP. by intros q <-. Qed.
Lemma ht_reset h r Q : Q tt (mk_hs (hs_state h) (hs_next h) r 0 (hs_ext h)) -> ht h (wr_reset_process i r) Q.
Proof. apply ht_setWRP. intros q <-. by destruct (negb (r =? WR_SLAVE)). Qed.
Lemma ht_set_ext h e Q : Q tt (mk_hs (hs_state h) (hs_next h) (hs_mode h) (hs_on h) e) ->
  ht h (wr i (fun p => p <| extState := e |>)) Q.
Proof. apply ht_wr. unfold hview, hs_of. intros p.
  cbn [ext_data extState upd setter protocol_extension received_ptp_header state]. by intros [= <- -> -> ->].
Qed.

(** ** The operations *)

Ltac hstep := match goal with
  | |- ht _ (WR_DSPOR _ ≫= _) _ => apply ht_dspor; intros ?q ?Hq
  | |- ht _ (rd _ state ≫= _) _ => apply ht_state
  | |- ht _ (rd _ extState ≫= _) _ => apply ht_ext
  | |- ht _ (if _ then _ else _) _ => apply ht_if; intros ?
  | |- ht _ (when _ _ ≫= _) _ => apply ht_bind, ht_when; intros ?
  | |- ht _ (set_wr_state _ _ ≫= _) _ => apply ht_bind, ht_next
  | |- ht _ (wr_reset_process _ _ ≫= _) _ => apply ht_bind, ht_reset
  | |- ht _ (_ ≫= _) _ => apply ht_quiet; [solve [walk]|intros ?]
  | |- ht _ (when _ _) _ => apply ht_when; intros ?
  | |- ht _ (set_wr_state _ _) _ => apply ht_next
  | |- ht _ (wr_reset_process _ _) _ => apply ht_reset
  | |- ht _ (mret _) _ => apply ht_ret
  end.

(** A hook of the extension. *)
Lemma ht_if_hook {T A} h (hk : pp_ext_hooks -> option T) x (f : T -> M A) d Q :
  hk (hooks_of PPSI_EXT_WR) = Some x -> ht h (f x) Q -> ht h (if_hook i hk f d) Q.
Proof.
  intros Hx Hf w Hw. unfold if_hook, ext_hook. rewrite bind_rd.
  destruct (Hw) as [_ [= _ -> _ _]]. rewrite Hx. by apply Hf.
Qed.

(** What [extension_state_changed] does with the state of the extension. *)
Definition hs_changed (h : hs) : hs :=
  if bool_decide (hs_ext h = PP_EXSTATE_ACTIVE) then h
  else mk_hs (hs_state h) (hs_next h) WR_ROLE_NONE 0 (hs_ext h).
Lemma ht_changed h Q : Q tt (hs_changed h) ->
  ht h (if_hook i hk_extension_state_changed (fun f => f i;; mret tt) (mret tt)) Q.
Proof.
  intros HQ. eapply ht_if_hook; [reflexivity|]. unfold wr_extension_state_changed. apply ht_bind. apply ht_ext.
  unfold hs_changed in HQ. destruct (bool_decide (hs_ext h = PP_EXSTATE_ACTIVE)) eqn:E.
  - apply bool_decide_eq_true in E. rewrite E. apply ht_bind, ht_ret, ht_ret, ht_ret. exact HQ.
  - apply bool_decide_eq_false in E. apply ht_bind, ht_when; intros E'; [apply ht_reset, ht_ret, ht_ret; exact HQ|].
    destruct (hs_ext h); [discriminate E'|done|discriminate E'].
Qed.

(** Turning the extension off, and on. *)
Lemma ht_disable h Q : 
  Q tt (if bool_decide (hs_ext h = PP_EXSTATE_ACTIVE)
        then mk_hs (hs_state h) (hs_next h) WR_ROLE_NONE 0 PP_EXSTATE_PTP else h) ->
  ht h (pdstate_disable_extension i) Q.
Proof.
  intros HQ. unfold pdstate_disable_extension. do 2 hstep. apply ht_when; intros E; rewrite E in HQ; [|done].
  apply ht_bind, ht_set_ext. hstep. by apply ht_changed.
Qed.
Lemma ht_enable h Q : 
  Q tt h -> Q tt (mk_hs (hs_state h) (hs_next h) (hs_mode h) (hs_on h) PP_EXSTATE_ACTIVE) ->
  ht h (pdstate_enable_extension i) Q.
Proof.
  intros HQ HQ'. unfold pdstate_enable_extension. hstep. apply ht_when; intros E; [|done].
  do 3 hstep. apply ht_when; intros E'; [|done]. apply ht_bind, ht_set_ext. by apply ht_changed.
Qed.

(** The handshake failed. *)
Lemma ht_fail h (Q : unit -> hs -> Prop) :
  Q tt (mk_hs (hs_state h) WRS_IDLE (hs_mode h) (hs_on h) (hs_ext h)) ->
  (forall e, e <> PP_EXSTATE_ACTIVE -> Q tt (mk_hs (hs_state h) WRS_IDLE WR_ROLE_NONE 0 e)) ->
  ht h (wr_handshake_fail i) Q.
Proof.
  intros HQ HQ'. unfold wr_handshake_fail. apply ht_bind, ht_next. hstep. hstep; [apply ht_quiet_end; [walk|intros []; exact HQ]|].
  hstep. hstep. apply ht_disable. cbn [hs_ext hs_state hs_next]. case_bool_decide; auto.
Qed.

(** The remaining time: [hs_expired] when it is over. *)
Lemma ht_check h t (m : M unit) (Q : tmo_check -> hs -> Prop) : quiet m ->
  Q tmo_failed (mk_hs (hs_state h) WRS_IDLE (hs_mode h) (hs_on h) (hs_ext h)) ->
  (forall e, e <> PP_EXSTATE_ACTIVE -> Q tmo_failed (mk_hs (hs_state h) WRS_IDLE WR_ROLE_NONE 0 e)) ->
  Q tmo_retry h -> Q tmo_none h -> ht h (check_remaining i t m) Q.
Proof.
  intros Hm Hf Hb Hr Hn. unfold check_remaining. do 2 hstep. hstep; [|by hstep]. apply ht_quiet; [done|intros _].
  hstep.
  - apply ht_bind, ht_fail; [|intros e He]; hstep; auto.
  - apply ht_quiet; [unfold wr_handshake_retry, setWRP; walk|]. intros []; by hstep.
Qed.

(** The message of a run. *)
Definition wr_message (buf : list Z) : option Z := if mt =? PPM_SIGNALING then wrsig_id buf else None.
Definition heard (o : option Z) : list hs_event := match o with Some m => [Heard m] | None => [] end.
Lemma ht_received {B} h buf (k : option Z -> M B) Q : ht h (k (wr_message buf)) Q ->
  ht h (received_wrsig i buf ≫= k) Q.
Proof.
  intros Hk w Hw. rewrite bind_unfold.
  assert ((received_wrsig i buf w).1 = wr_message buf) as ->.
  { unfold received_wrsig, wr_message. rewrite bind_rd. destruct (Hw) as [_ [= _ _ -> _]].
    destruct (_ =? _); [|done]. unfold msg_unpack_wrsig. destruct (wrsig_id buf); [|done].
    rewrite !bind_unfold. done. }
  apply Hk. destruct Hw as [Hi Hw].
  destruct (same_view_inst _ _ _ _ i (h_received i buf w) Hi) as [Hv Hl]. split; [done|by rewrite Hv].
Qed.

(** ** The states *)

Abbreviation master := (st =? PPS_MASTER).

(** What a run learns from the PLL. *)
Definition pll_event (poll : Z) : list hs_event := if poll =? WRH_SPLL_LOCKED then [PllLocked] else [].

(** A sending state. *)
Lemma ht_sending h enter t m a buf new evs Q :
  heard (wr_message buf) ⊆ evs ->
  (new = true -> ht h enter Q) ->
  (forall m n q, new = false -> Heard m ∈ evs -> hs_wrp q (hs_ext h) = h -> a q m = Some n ->
    Q tt (mk_hs (hs_state h) n (hs_mode h) (hs_on h) (hs_ext h))) ->
  (new = false -> Q tt h) ->
  (new = false -> Q tt (mk_hs (hs_state h) WRS_IDLE (hs_mode h) (hs_on h) (hs_ext h))) ->
  (forall e, new = false -> e <> PP_EXSTATE_ACTIVE -> Q tt (mk_hs (hs_state h) WRS_IDLE WR_ROLE_NONE 0 e)) ->
  ht h (sending_state enter t m a i buf new) (fun _ => Q tt).
Proof.
  intros He Hn Ha Hs Hf Hb. unfold sending_state. destruct new.
  - apply ht_bind. eapply ht_mono; [by apply Hn|]. intros [] h' HQ. do 2 hstep. apply ht_quiet_end; [walk|done].
  - apply ht_received. destruct (wr_message buf) as [m'|].
    + hstep. destruct (a q m') as [n|] eqn:Ea; [apply ht_bind, ht_next, ht_ret|apply ht_bind, ht_ret, ht_ret; auto].
      apply (Ha m' n q); [done| |done..]. apply He. cbn. left.
    + apply ht_bind, ht_check; [walk|apply ht_ret; auto|intros e He'; apply ht_ret; auto|cbn beta iota; hstep|];
        (apply ht_quiet_end; [walk|auto]).
Qed.

(** The abstract steps from a state that waits. *)
Section Waiting.
Context (h : hs) (new : bool) (evs : list hs_event).
Abbreviation next h' := (hs_step new evs master h h').
Hypothesis Hw : hs_waiting (hs_state h) = true.

Lemma next_failed : hs_listens new (hs_state h) -> next (mk_hs (hs_state h) WRS_IDLE (hs_mode h) (hs_on h) (hs_ext h)).
Proof. intros Hl. by apply step_failed. Qed.
Lemma next_fallback e : hs_listens new (hs_state h) -> e <> PP_EXSTATE_ACTIVE ->
  next (mk_hs (hs_state h) WRS_IDLE WR_ROLE_NONE 0 e).
Proof. intros Hl He. by apply step_fallback. Qed.
Lemma next_stay : new = false -> next h.
Proof. intros ->. apply step_stay. by intros []. Qed.

Lemma ht_sending_state enter t m a buf :
  heard (wr_message buf) ⊆ evs ->
  (new = true -> ht h enter (fun _ h' => next h')) ->
  (forall q m, hs_wrp q (hs_ext h) = h -> a q m = hs_answer (hs_mode h) (hs_state h) m) ->
  ht h (sending_state enter t m a i buf new) (fun _ h' => next h').
Proof.
  intros He Hn Ha. apply (ht_sending h enter t m a buf new evs (fun _ h' => next h')); [done|done|..].
  - intros m' n q Hf Hm Hq Hx. apply (step_answer _ _ _ _ m'); [by left|done|]. by rewrite <- (Ha q) by done.
  - apply next_stay.
  - intros Hf. apply next_failed. by left.
  - intros e Hf. apply next_fallback. by left.
Qed.
End Waiting.

Abbreviation run_ok h new evs m := (ht h m (fun _ h' => hs_step new evs master h h')).

Lemma wr_present_steps h new evs buf : hs_state h = WRS_PRESENT -> heard (wr_message buf) ⊆ evs ->
  run_ok h new evs (wr_present i buf new).
Proof.
  intros Hs He. unfold wr_present. apply ht_sending_state; [by rewrite Hs|done| |].
  - intros _. hstep. hstep. apply step_stay. rewrite Hs. by intros [].
  - intros q m Hq. by rewrite Hs.
Qed.

Lemma wr_m_lock_steps h new evs buf : hs_state h = WRS_M_LOCK -> heard (wr_message buf) ⊆ evs ->
  run_ok h new evs (wr_m_lock i buf new).
Proof.
  intros Hs He. unfold wr_m_lock. apply ht_sending_state; [by rewrite Hs|done| |].
  - intros Hn. apply ht_reset. by apply step_enter_m_lock.
  - intros q m Hq. by rewrite Hs.
Qed.
Lemma wr_locked_steps h new evs buf : hs_state h = WRS_LOCKED -> heard (wr_message buf) ⊆ evs ->
  run_ok h new evs (wr_locked i buf new).
Proof.
  intros Hs He. unfold wr_locked. apply ht_sending_state; [by rewrite Hs|done| |].
  - intros _. apply ht_quiet_end; [walk|]. intros _. apply step_stay. rewrite Hs. by intros [].
  - intros q m Hq. by rewrite Hs.
Qed.
Lemma wr_calibrated_steps h new evs buf : hs_state h = WRS_CALIBRATED -> heard (wr_message buf) ⊆ evs ->
  run_ok h new evs (wr_calibrated i buf new).
Proof.
  intros Hs He. unfold wr_calibrated. apply ht_sending_state; [by rewrite Hs|done| |].
  - intros _. apply ht_ret, step_stay. rewrite Hs. by intros [].
  - intros q m Hq. rewrite Hs. by rewrite <- Hq.
Qed.

(** The slave's lock. *)
Lemma wr_s_lock_steps h new buf w : hs_state h = WRS_S_LOCK -> sit h w ->
  forall evs, (new = false -> pll_event (locking_poll i (the_env w)).1 ⊆ evs) ->
  exists h', sit h' (wr_s_lock i buf new w).2 /\ hs_step new evs master h h'.
Proof.
  intros Hs Hw evs He. unfold wr_s_lock. destruct new.
  - assert (run_ok h true evs (arm_timer i WR_S_LOCK_TIMEOUT_MS;; op (locking_enable i);; mret 0)) as Hr.
    { do 2 hstep. hstep. apply step_stay. rewrite Hs. by intros []. }
    exact (Hr w Hw).
  - specialize (He eq_refl). rewrite bind_unfold.
    assert (sit h (op (locking_poll i) w).2) as Hw'
      by (unfold op; by destruct (locking_poll i (the_env w))).
    assert ((op (locking_poll i) w).1 = (locking_poll i (the_env w)).1) as ->
      by (unfold op; by destruct (locking_poll i (the_env w))).
    set (w1 := (op _ w).2) in *. set (poll := (locking_poll i (the_env w)).1) in *. clearbody w1 poll.
    match goal with |- exists h', sit h' (?m w1).2 /\ _ => assert (run_ok h false evs m) as Hr; [|exact (Hr w1 Hw')] end.
    hstep.
    + hstep. hstep. apply step_locked; [done|done|]. apply He. unfold pll_event. rewrite H1. left.
    + apply ht_bind, ht_check; [walk|apply ht_ret, next_failed; [by rewrite Hs|by left]|
        intros e He'; apply ht_ret, next_fallback; [by rewrite Hs|by left|done]|cbn beta iota; hstep; hstep|apply ht_ret];
      by apply next_stay.
Qed.

Lemma wr_calibration_steps h new evs buf : hs_state h = WRS_CALIBRATION -> run_ok h new evs (wr_calibration i buf new).
Proof.
  intros Hs. unfold wr_calibration. hstep. cbn zeta.
  apply ht_bind, (ht_setWRP h _ h); [by intros q <-|]. hstep.
  apply ht_bind, (ht_setWRP h _ h); [by intros q <-|]. hstep.
  set (h' := mk_hs (hs_state h) WRS_CALIBRATED (hs_mode h) (hs_on h) (hs_ext h)).
  apply ht_bind, (ht_setWRP h _ h'); [intros q Hq; unfold h'; by rewrite <- Hq|]. hstep.
  apply ht_bind, (ht_setWRP h' _ h'); [intros q Hq; by rewrite <- Hq at 2|]. hstep. by apply step_calibration.
Qed.

Lemma wr_resp_calib_req_steps h new evs buf : hs_state h = WRS_RESP_CALIB_REQ -> heard (wr_message buf) ⊆ evs ->
  run_ok h new evs (wr_resp_calib_req i buf new).
Proof.
  intros Hs He. unfold wr_resp_calib_req. apply ht_quiet; [walk|]. intros _.
  assert (hs_step new evs master h h) as Hst by (apply step_stay; rewrite Hs; by intros []).
  assert (hs_listens new (hs_state h)) as Hl by (rewrite Hs; by right).
  apply ht_received. destruct (wr_message buf) as [m|].
  - hstep; [|apply ht_ret; exact Hst]. hstep. apply ht_quiet; [walk|]. intros _. hstep. hstep.
    apply (step_answer _ _ _ _ m); [done|apply He; left|].
    match goal with E : (m =? CALIBRATED) = true |- _ => apply Z.eqb_eq in E; subst m end. rewrite Hs. by rewrite <- Hq.
  - apply ht_bind, ht_check; [walk|apply ht_ret, next_failed; [by rewrite Hs|done]|
      intros e He'; apply ht_ret, next_fallback; [by rewrite Hs|done..]|..]; (apply ht_quiet_end; [walk|intros; exact Hst]).
Qed.

Lemma link_on_steps h new evs : hs_state h = WRS_WR_LINK_ON -> run_ok h new evs (link_on i).
Proof.
  intros Hs. unfold link_on. hstep.
  apply ht_bind, (ht_setWRP h _ (mk_hs (hs_state h) WRS_IDLE (hs_mode h) 1 (hs_ext h))); [by intros q <-|].
  hstep. by apply step_link_on.
Qed.
Lemma wr_link_on_steps h new evs buf : hs_state h = WRS_WR_LINK_ON -> run_ok h new evs (wr_link_on i buf new).
Proof.
  intros Hs. unfold wr_link_on. hstep. hstep; [|by apply link_on_steps]. hstep. hstep; [|by apply link_on_steps].
  hstep. apply step_stay. rewrite Hs. by intros [].
Qed.

Lemma ht_detection h d Q : Q tt h -> ht h (setWRP i (fun p => p <| parentDetection := d |>)) Q.
Proof. apply ht_setWRP. by intros q <-. Qed.

(** Idle: a master that hears a slave. *)
Lemma idle_master_steps h new evs buf : hs_state h = WRS_IDLE -> master = true -> heard (wr_message buf) ⊆ evs ->
  run_ok h new evs (idle_master i buf).
Proof.
  intros Hs Hm He. unfold idle_master. apply ht_received. destruct (wr_message buf) as [m|].
  - assert (Heard m ∈ evs) as Hin by (apply He; left). assert (evs <> []) as Hne by (by intros ->; inversion Hin).
    hstep; [hstep|]; (apply ht_bind, ht_enable; hstep).
    1,2: apply Z.eqb_eq in H1; subst m; cbn beta; apply (step_slave_present _ _ _ h); auto.
    all: destruct h; apply step_heard; auto.
  - hstep. apply step_stay. rewrite Hs. by intros [].
Qed.
(** Idle: a slave with a new parent. *)
Lemma idle_wr_parent_steps h new evs : hs_state h = WRS_IDLE -> master = false ->
  ht h (idle_wr_parent i) (fun _ h' => hs_step new evs master h h').
Proof.
  intros Hs Hm. unfold idle_wr_parent. hstep. apply ht_bind.
  assert (hs_step new evs master h h) as Hst by (apply step_stay; rewrite Hs; by intros []).
  assert (forall h', hs_state h' = hs_state h -> (hs_ext h' = PP_EXSTATE_ACTIVE \/ h' = h) ->
    ht h' (e ← rd i extState;
      if bool_decide (e = PP_EXSTATE_ACTIVE) then
        p ← WR_DSPOR i;
        when (wr_state p =? WRS_IDLE)
          (s ← rd i state;
           when (s =? PPS_SLAVE) (wr i (fun p => p <| next_state := PPS_UNCALIBRATED |>));;
           wr_reset_process i WR_SLAVE;;
           set_wr_state i WRS_PRESENT;;
           setWRP i (fun p => p <| parentDetection := PD_NO_DETECTION |>))
      else setWRP i (fun p => p <| parentDetection := PD_NO_DETECTION |>))
     (fun _ h' => hs_step new evs master h h')) as Hrest.
  { intros h' Hs' Hh. hstep. case_bool_decide as Hx.
    - hstep. assert (wr_state q = WRS_IDLE) as -> by (rewrite <- Hs, <- Hs'; by rewrite <- Hq). cbn [when].
      change (WRS_IDLE =? WRS_IDLE) with true. cbn [when]. hstep. apply ht_quiet; [walk|]. intros _. do 2 hstep.
      apply ht_detection. cbn. rewrite Hs', Hx. by apply step_wr_parent.
    - destruct Hh as [Hh| ->]; [done|]. by apply ht_detection. }
  hstep; [apply ht_enable|]; apply Hrest; auto.
Qed.
Lemma idle_not_wr_parent_steps h new evs : hs_state h = WRS_IDLE -> master = false ->
  ht h (idle_not_wr_parent i) (fun _ h' => hs_step new evs master h h').
Proof.
  intros Hs Hm. unfold idle_not_wr_parent. hstep. hstep.
  - apply bool_decide_eq_true in H1. apply ht_disable. rewrite H1. cbn. hstep. apply ht_quiet; [walk|]. intros _.
    apply ht_detection. by apply step_not_wr_parent.
  - hstep. apply ht_quiet; [walk|]. intros _. apply ht_detection. apply step_stay. rewrite Hs. by intros [].
Qed.
Lemma wr_idle_steps h new evs buf : hs_state h = WRS_IDLE -> heard (wr_message buf) ⊆ evs ->
  run_ok h new evs (wr_idle i buf new).
Proof.
  intros Hs He. unfold wr_idle. hstep. destruct (master) eqn:Hm.
  - rewrite <- Hm. by apply idle_master_steps.
  - rewrite <- Hm. hstep. destruct (parentDetection q); [apply ht_ret, step_stay; rewrite Hs; by intros []|..]; apply ht_bind.
    + eapply ht_mono; [by apply idle_wr_parent_steps|]. intros [] h' Hh. by apply ht_ret.
    + eapply ht_mono; [by apply idle_not_wr_parent_steps|]. intros [] h' Hh. by apply ht_ret.
Qed.

(** ** A run of the machine *)

Abbreviation init := (st =? PPS_INITIALIZING).

(** What a run learns. *)
Definition run_events (h : hs) (buf : list Z) (w : world) : list hs_event :=
  heard (wr_message buf) ++
  (if (hs_target init h =? WRS_S_LOCK) && negb (hs_new init h) then pll_event (locking_poll i (the_env w)).1 else []).

Lemma run_ok_at h new evs (m : M Z) w : run_ok h new evs m -> sit h w ->
  exists h', sit h' (m w).2 /\ hs_step new evs master h h'.
Proof. intros Hr. exact (Hr w). Qed.
Lemma action_steps h new evs buf f w : wr_state_actions (u32 (hs_state h)) = Some f -> u32 (hs_state h) = hs_state h ->
  heard (wr_message buf) ⊆ evs ->
  (hs_state h = WRS_S_LOCK -> new = false -> pll_event (locking_poll i (the_env w)).1 ⊆ evs) ->
  sit h w -> exists h', sit h' (f i buf new w).2 /\ hs_step new evs master h h'.
Proof.
  intros Hf Hu He Hp Hw. rewrite Hu in Hf. unfold wr_state_actions in Hf.
  repeat match type of Hf with (if ?c =? ?d then _ else _) = _ =>
    destruct (Z.eqb_spec c d) as [Hs|_]; [injection Hf as <-|] end; [..|done].
  4: exact (wr_s_lock_steps h new buf w Hs Hw evs (Hp Hs)).
  all: eapply run_ok_at; [|exact Hw].
  all: auto using wr_idle_steps, wr_present_steps, wr_m_lock_steps, wr_locked_steps, wr_calibration_steps,
    wr_calibrated_steps, wr_resp_calib_req_steps, wr_link_on_steps.
Qed.

Lemma run_steps h buf len w : u32 (hs_next h) = hs_next h -> sit h w ->
  exists h', sit h' (wr_run_state_machine i buf len w).2 /\
    hs_step (hs_new init h) (run_events h buf w) master (hs_enter init h) h'.
Proof.
  intros Hu Hw. unfold wr_run_state_machine. rewrite bind_rd_id.
  assert (hs_of (inst w i) = h /\ state (inst w i) = st) as [Ho Hst] by exact (conj (sit_hs _ _ Hw) (sit_state _ _ Hw)).
  assert (((MAX_STATE_ACTIONS <=? u32 (wr_next_state (wrp (ext_data (inst w i))))) ||
    (state (inst w i) =? PPS_INITIALIZING) || negb (bool_decide (extState (inst w i) = PP_EXSTATE_ACTIVE))) =
    ((MAX_STATE_ACTIONS <=? u32 (hs_next h)) || init || negb (bool_decide (hs_ext h = PP_EXSTATE_ACTIVE)))) as ->
    by (rewrite Hst, <- Ho; done).
  rewrite bind_unfold. set (m1 := when _ _).
  set (h1 := mk_hs (hs_state h) (hs_target init h) (hs_mode h) (hs_on h) (hs_ext h)).
  assert (ht h m1 (fun _ h' => h' = h1)) as H1.
  { unfold m1, h1, hs_target. hstep; [hstep|]; rewrite H1; [done|]. by destruct h. }
  assert (u32 (hs_target init h) = hs_target init h /\ 0 <= u32 (hs_target init h) < MAX_STATE_ACTIONS) as [Ht Ht'].
  { unfold hs_target. destruct (Z.leb_spec MAX_STATE_ACTIONS (u32 (hs_next h))); cbn [orb]; [by split|].
    destruct (_ || _); [by split|]. pose proof (u32_range (hs_next h)). lia. }
  assert (the_env (m1 w).2 = the_env w) as He by (unfold m1; by destruct (_ || _)).
  destruct (H1 w Hw) as (? & Hw1 & ->). set (w1 := (m1 w).2) in *. clearbody w1. clear m1 H1.
  unfold WR_DSPOR. rewrite bind_rd, bind_unfold.
  assert (hs_of (inst w1 i) = h1) as Ho1 by exact (sit_hs _ _ Hw1).
  assert (negb (wr_state (wrp (ext_data (inst w1 i))) =? wr_next_state (wrp (ext_data (inst w1 i)))) = hs_new init h) as ->.
  { unfold hs_new. change (wr_state (wrp (ext_data (inst w1 i)))) with (hs_state (hs_of (inst w1 i))).
    change (wr_next_state (wrp (ext_data (inst w1 i)))) with (hs_next (hs_of (inst w1 i))). by rewrite Ho1. }
  set (m2 := when _ _).
  assert (ht h1 m2 (fun _ h' => h' = hs_enter init h)) as H2.
  { unfold m2, hs_new, hs_enter. hstep.
    - eapply ht_setWRP; [|reflexivity]. intros q Hq. unfold h1, hs_wrp in *. cbn in *. congruence.
    - apply negb_false_iff, Z.eqb_eq in H1. unfold h1. by rewrite H1. }
  assert (the_env (m2 w1).2 = the_env w1) as He2 by (unfold m2; by destruct (hs_new _ _)).
  destruct (H2 w1 Hw1) as (? & Hw2 & ->). set (w2 := (m2 w1).2) in *. clearbody w2. clear m2 H2.
  rewrite bind_rd. change (wr_state (wrp (ext_data (inst w2 i)))) with (hs_state (hs_of (inst w2 i))).
  assert (hs_of (inst w2 i) = hs_enter init h) as -> by exact (sit_hs _ _ Hw2).
  destruct (wr_actions_total (u32 (hs_state (hs_enter init h)))) as [f Hf]; [exact Ht'|]. rewrite Hf.
  eapply action_steps; [exact Hf|exact Ht|..]; [| |exact Hw2]; unfold run_events.
  - intros x Hx. apply elem_of_app. by left.
  - intros Hs Hn x Hx. apply elem_of_app. right. change (hs_state (hs_enter init h)) with (hs_target init h) in Hs.
    rewrite Hs, Hn. cbn. by rewrite <- He, <- He2.
Qed.

(** ** The other hooks *)

(** What the changes of state and of the extension do to a handshake. *)
Inductive hs_env : hs -> hs -> Prop :=
  | env_ext h e : hs_env h (mk_hs (hs_state h) (hs_next h) (hs_mode h) (hs_on h) e)
  | env_reset h : hs_env h (mk_hs (hs_state h) (hs_next h) WR_ROLE_NONE 0 (hs_ext h))
  | env_idle h : hs_env h (mk_hs (hs_state h) WRS_IDLE (hs_mode h) (hs_on h) (hs_ext h))
  | env_master h : hs_env h (mk_hs (hs_state h) WRS_IDLE WR_MASTER 0 (hs_ext h))
  | env_present h : hs_env h (mk_hs (hs_state h) WRS_PRESENT WR_SLAVE 0 (hs_ext h)).

Lemma env_once h h' : hs_env h h' -> rtc hs_env h h'.
Proof. apply rtc_once. Qed.
Lemma env_fail_reset h e : rtc hs_env h (mk_hs (hs_state h) WRS_IDLE WR_ROLE_NONE 0 e).
Proof.
  exact (rtc_l _ _ _ _ (env_idle h) (rtc_l _ _ _ _ (env_reset _) (env_once _ _ (env_ext _ e)))).
Qed.

Abbreviation env_ok h m := (ht h m (fun _ h' => rtc hs_env h h')).

Lemma env_bind {A B} h (m : M A) (k : A -> M B) : env_ok h m -> (forall a h', env_ok h' (k a)) -> env_ok h (m ≫= k).
Proof.
  intros Hm Hk. apply ht_bind. eapply ht_mono; [exact Hm|]. intros a h' Hh.
  eapply ht_mono; [apply Hk|]. intros b h'' Hh'. exact (transitivity Hh Hh').
Qed.
Lemma env_when h b (m : M unit) : env_ok h m -> env_ok h (when b m).
Proof. intros Hm. apply ht_when; [auto|]. intros _. apply rtc_refl. Qed.
Lemma env_quiet {A} h (m : M A) : quiet m -> env_ok h m.
Proof. intros Hm. apply ht_quiet_end; [done|]. intros _. apply rtc_refl. Qed.
Lemma wr_fail_env h : env_ok h (wr_handshake_fail i).
Proof. apply ht_fail; [apply env_once, env_idle|]. intros e _. apply env_fail_reset. Qed.
Lemma enable_env h : env_ok h (pdstate_enable_extension i).
Proof. apply ht_enable; [apply rtc_refl|]. apply env_once, env_ext. Qed.
Lemma reset_env h : env_ok h (wr_reset_process i WR_ROLE_NONE).
Proof. apply ht_reset. exact (env_once _ _ (env_reset h)). Qed.

Lemma wr_enter_env h : env_ok h (wr_enter i).
Proof.
  unfold wr_enter. hstep. cbn zeta. hstep; [|hstep; [hstep|]].
  - hstep. hstep. exact (env_once _ _ (env_master h)).
  - apply env_when. hstep. hstep. exact (env_once _ _ (env_present h)).
  - apply env_when, wr_fail_env.
  - apply env_when, reset_env.
Qed.
Lemma wr_state_change_env h : env_ok h (wr_state_change i).
Proof.
  unfold wr_state_change. hstep. apply env_bind; [apply env_when, enable_env|]. intros _ h1. hstep.
  apply env_bind; [|intros _ h2; apply env_quiet; walk]. hstep; [|apply reset_env].
  apply env_bind; [apply env_when, reset_env|]. intros _ h2. apply wr_enter_env.
Qed.
Lemma wr_changed_env h : env_ok h (wr_extension_state_changed i).
Proof.
  unfold wr_extension_state_changed. apply ht_ext.
  apply env_bind; [apply env_when, reset_env|]. intros _ h1. apply ht_ret, rtc_refl.
Qed.
Lemma wr_init_env h buf len : env_ok h (wr_init i buf len).
Proof.
  unfold wr_init. apply ht_quiet; [unfold pp_timeout_get_timer, set_counter; walk|]. intros _.
  apply env_bind; [apply reset_env|]. intros _ h1. hstep. apply ht_ret, rtc_refl.
Qed.

End Refine.

(** ** What a history tells *)

(** The messages a master, and a slave, must have heard. *)
Definition master_done (evs : list hs_event) : Prop :=
  Heard LOCKED ∈ evs /\ Heard CALIBRATE ∈ evs /\ Heard CALIBRATED ∈ evs.
Definition slave_locked (evs : list hs_event) : Prop := Heard LOCK ∈ evs /\ PllLocked ∈ evs.
Definition slave_done (evs : list hs_event) : Prop :=
  slave_locked evs /\ Heard CALIBRATE ∈ evs /\ Heard CALIBRATED ∈ evs /\ Heard WR_MODE_ON ∈ evs.
Definition done_by (evs : list hs_event) : Prop := master_done evs \/ slave_done evs.

(** What has been heard when a state is about to run. *)
Definition phase_ok (h : hs) (evs : list hs_event) (st : Z) : Prop :=
  if st =? WRS_PRESENT then hs_on h = 0 /\ hs_mode h <> WR_MASTER
  else if st =? WRS_S_LOCK then hs_mode h <> WR_MASTER /\ Heard LOCK ∈ evs
  else if st =? WRS_M_LOCK then hs_state h = WRS_M_LOCK -> hs_mode h <> WR_SLAVE
  else if st =? WRS_LOCKED then hs_mode h <> WR_MASTER /\ slave_locked evs
  else if (st =? WRS_CALIBRATION) || (st =? WRS_CALIBRATED) then
    hs_mode h <> WR_SLAVE /\ Heard LOCKED ∈ evs \/
    hs_mode h <> WR_MASTER /\ slave_locked evs /\ Heard CALIBRATE ∈ evs /\ Heard CALIBRATED ∈ evs
  else if st =? WRS_RESP_CALIB_REQ then
    (hs_mode h <> WR_SLAVE /\ Heard LOCKED ∈ evs \/ hs_mode h <> WR_MASTER /\ slave_locked evs) /\
    Heard CALIBRATE ∈ evs
  else if st =? WRS_WR_LINK_ON then done_by evs
  else True.

Definition hs_inv (h : hs) (evs : list hs_event) : Prop :=
  0 <= hs_next h < MAX_STATE_ACTIONS /\ (hs_on h <> 0 -> done_by evs) /\ phase_ok h evs (hs_next h).

Lemma done_mono evs evs' : evs ⊆ evs' -> done_by evs -> done_by evs'.
Proof. unfold done_by, master_done, slave_done, slave_locked. intros Hs. intuition auto. Qed.
Lemma phase_mono h evs evs' st : evs ⊆ evs' -> phase_ok h evs st -> phase_ok h evs' st.
Proof.
  intros Hs. unfold phase_ok, slave_locked. repeat case_match; try done; [..|by apply done_mono]; intuition auto.
Qed.

Lemma env_inv h h' evs : hs_env h h' -> hs_inv h evs -> hs_inv h' evs.
Proof.
  intros He (Hn & Ho & Hp). destruct He; (split; [|split]); cbn in *; auto; try done.
  unfold phase_ok in *. repeat case_match; cbn in *; intuition (auto; try discriminate).
Qed.

(** A state that starts a handshake forgets the last one. *)
Definition starts (init : bool) (h : hs) : bool :=
  hs_new init h && ((hs_target init h =? WRS_PRESENT) || (hs_target init h =? WRS_M_LOCK)).
Definition log_before (init : bool) (h : hs) (evs : list hs_event) : list hs_event :=
  if starts init h then [] else evs.

Lemma enter_inv init h evs : ~ (hs_new init h = true /\ hs_target init h = WRS_M_LOCK) -> hs_inv h evs ->
  hs_inv (hs_enter init h) (log_before init h evs).
Proof.
  intros Hm (Hn & Ho & Hp). unfold log_before, starts, hs_new, hs_enter in *.
  assert (hs_target init h = WRS_IDLE \/ hs_target init h = hs_next h) as [Ht|Ht]
    by (unfold hs_target; destruct (_ || _); auto).
  - rewrite Ht. replace (_ && _) with false by (rewrite andb_comm; done). split; [done|]. split; [exact Ho|done].
  - rewrite Ht in *. split; [exact Hn|]. destruct (Z.eqb_spec (hs_state h) (hs_next h)) as [E|E].
    + cbn. split; [exact Ho|]. unfold phase_ok in *. cbn. by rewrite E in *.
    + cbn [negb andb] in *. unfold phase_ok in *. destruct (Z.eqb_spec (hs_next h) WRS_PRESENT) as [E1|E1].
      * cbn. rewrite E1. split; [|exact Hp]. destruct Hp as [-> _]. done.
      * destruct (Z.eqb_spec (hs_next h) WRS_M_LOCK) as [E2|E2]; [destruct Hm; auto|]. cbn. split; [exact Ho|].
        apply Z.eqb_neq in E1, E2. rewrite ?E1, ?E2 in Hp. rewrite E1, E2. exact Hp.
Qed.

(** The step preserves the invariant. *)
Lemma answer_inv h m n evs : hs_inv h evs -> hs_state h = hs_next h -> Heard m ∈ evs ->
  hs_answer (hs_mode h) (hs_state h) m = Some n ->
  hs_inv (mk_hs (hs_state h) n (hs_mode h) (hs_on h) (hs_ext h)) evs.
Proof.
  intros (Hn & Ho & Hp) Hs Hm Ha. rewrite <- Hs in *. clear Hs Hn. unfold hs_answer in Ha.
  repeat case_match; simplify_eq; (split; [by cbn|split; [exact Ho|]]);
    repeat match goal with E : _ && _ = true |- _ => apply andb_true_iff in E as [? ?] end;
    repeat match goal with E : (_ =? _) = true |- _ => apply Z.eqb_eq in E end;
    repeat match goal with E : hs_state h = _ |- _ => rewrite E in * end; subst m;
    unfold phase_ok, done_by, master_done, slave_done in *; cbn in *; intuition congruence.
Qed.
Lemma step_inv new evs master h h' : hs_step new evs master h h' -> hs_state h = hs_next h ->
  hs_inv h evs -> hs_inv h' evs.
Proof.
  intros Hst Hs Hi. pose proof Hi as (Hn & Ho & Hp). destruct Hst; cbn in *.
  - done.
  - by apply (answer_inv _ m).
  - rewrite <- Hs, H in Hp. unfold phase_ok in *. cbn in *. split; [done|]. split; [done|]. unfold phase_ok, slave_locked. cbn. tauto.
  - rewrite <- Hs, H in Hp. unfold phase_ok in *. cbn in *. by split.
  - rewrite <- Hs, H in Hp. unfold phase_ok in *. cbn in *. by split.
  - rewrite <- Hs, H. by split.
  - by split.
  - by split.
  - split; [done|]. split; [done|]. rewrite <- Hs, H. done.
  - split; [done|]. split; [done|]. unfold phase_ok. cbn. by rewrite H.
  - by split.
  - split; [done|]. split; [done|]. rewrite <- Hs, H. done.
Qed.
Lemma step_mono new evs evs' master h h' : evs ⊆ evs' -> hs_step new evs master h h' -> hs_step new evs' master h h'.
Proof.
  intros Hs Hst. assert (evs <> [] -> evs' <> []) as Hne.
  { destruct evs as [|x l]; [done|]. intros _ ->. pose proof (Hs x (list_elem_of_here x l)) as Hx. inversion Hx. }
  destruct Hst; [apply step_stay|eapply step_answer|apply step_locked|apply step_calibration|apply step_link_on|
    apply step_enter_m_lock|apply step_failed|apply step_fallback|apply step_heard|apply step_slave_present|
    apply step_wr_parent|apply step_not_wr_parent]; eauto.
Qed.
Lemma m_lock_inv evs master h h' : hs_step true evs master h h' -> hs_state h = WRS_M_LOCK -> hs_next h = WRS_M_LOCK ->
  hs_inv h' evs.
Proof.
  intros Hst Hs Hx. destruct Hst; try (by rewrite Hs in *); try (by destruct H; [done|rewrite Hs in H]).
  - by destruct H.
  - split; cbn; [by rewrite Hx|]. split; [done|]. by rewrite Hx.
Qed.

(** ** Histories of a port *)

Section History.
Context `{Config, Platform} {WO : WrhOper} {WC : WrConfig}.
#[local] Existing Instance ext_hooks.

(** What is logged of a run in world [w]. *)
Definition run_log (i : nat) (buf : list Z) (w : world) (evs : list hs_event) : list hs_event :=
  let p := inst w i in
  log_before (state p =? PPS_INITIALIZING) (hs_of p) evs ++
  run_events i (h_messageType (received_ptp_header p)) (state p) (hs_of p) buf w.

(** The worlds a port of the WR extension can reach, with what was heard in
    the current handshake: runs of the machine, the other hooks of the
    extension, and any other code, which leaves the handshake alone but may
    turn the extension on or off. *)
Inductive wr_history (i : nat) : world -> list hs_event -> Prop :=
  | wh_start w : (i < length (insts w))%nat -> protocol_extension (inst w i) = PPSI_EXT_WR ->
      wr_next_state (wrp (ext_data (inst w i))) = WRS_IDLE -> wrModeOn (wrp (ext_data (inst w i))) = 0 ->
      wr_history i w []
  | wh_run w evs buf len : wr_history i w evs ->
      wr_history i (wr_run_state_machine i buf len w).2 (run_log i buf w evs)
  | wh_state_change w evs : wr_history i w evs -> wr_history i (wr_state_change i w).2 evs
  | wh_extension w evs : wr_history i w evs -> wr_history i (wr_extension_state_changed i w).2 evs
  | wh_init w evs buf len : wr_history i w evs -> wr_history i (wr_init i buf len w).2 evs
  | wh_other w w' evs : wr_history i w evs -> (i < length (insts w'))%nat ->
      protocol_extension (inst w' i) = protocol_extension (inst w i) ->
      (forall e, hs_wrp (wrp (ext_data (inst w' i))) e = hs_wrp (wrp (ext_data (inst w i))) e) ->
      wr_history i w' evs.

Lemma sit_now i w : (i < length (insts w))%nat -> protocol_extension (inst w i) = PPSI_EXT_WR ->
  sit i (h_messageType (received_ptp_header (inst w i))) (state (inst w i)) (hs_of (inst w i)) w.
Proof. intros Hi Hx. split; [done|]. unfold hview. by rewrite Hx. Qed.
Lemma sit_parts i mt st h w : sit i mt st h w ->
  (i < length (insts w))%nat /\ protocol_extension (inst w i) = PPSI_EXT_WR /\ hs_of (inst w i) = h.
Proof. intros Hs. pose proof (sit_hs _ _ _ _ _ Hs) as Ho. destruct Hs as [Hi [= _ Hx _ _]]. auto. Qed.

Lemma env_kept {A} i (m : M A) w evs :
  (forall mt st h, ht i mt st h m (fun _ h' => rtc hs_env h h')) ->
  (i < length (insts w))%nat /\ protocol_extension (inst w i) = PPSI_EXT_WR /\ hs_inv (hs_of (inst w i)) evs ->
  (i < length (insts (m w).2))%nat /\ protocol_extension (inst (m w).2 i) = PPSI_EXT_WR /\
    hs_inv (hs_of (inst (m w).2 i)) evs.
Proof.
  intros Hm (Hi & Hx & Hv). destruct (Hm _ _ _ w (sit_now i w Hi Hx)) as (h' & Hs & Hr).
  destruct (sit_parts _ _ _ _ _ Hs) as (Hi' & Hx' & ->). split; [done|]. split; [done|].
  clear - Hr Hv. induction Hr; eauto using env_inv.
Qed.

Lemma run_kept i buf len w evs :
  (i < length (insts w))%nat -> protocol_extension (inst w i) = PPSI_EXT_WR -> hs_inv (hs_of (inst w i)) evs ->
  let w' := (wr_run_state_machine i buf len w).2 in
  (i < length (insts w'))%nat /\ protocol_extension (inst w' i) = PPSI_EXT_WR /\
    hs_inv (hs_of (inst w' i)) (run_log i buf w evs).
Proof.
  intros Hi Hx Hv. cbn zeta. pose proof (sit_now i w Hi Hx) as Hs.
  assert (u32 (hs_next (hs_of (inst w i))) = hs_next (hs_of (inst w i))) as Hu.
  { destruct Hv as [Hn _]. apply u32_id. unfold MAX_STATE_ACTIONS, WRS_MAX_STATES in Hn. lia. }
  destruct (run_steps i _ _ _ buf len w Hu Hs) as (h' & Hs' & Hst).
  destruct (sit_parts _ _ _ _ _ Hs') as (Hi' & Hx' & ->). split; [done|]. split; [done|].
  set (init := state (inst w i) =? PPS_INITIALIZING) in *. set (h := hs_of (inst w i)) in *.
  unfold run_log. fold init h. set (new := run_events _ _ _ _ _ _) in *.
  assert (new ⊆ log_before init h evs ++ new) as Hsub by (intros x ?; apply elem_of_app; by right).
  assert (hs_step (hs_new init h) (log_before init h evs ++ new) (state (inst w i) =? PPS_MASTER) (hs_enter init h) h')
    as Hst' by (by eapply step_mono).
  destruct (decide (hs_new init h = true /\ hs_target init h = WRS_M_LOCK)) as [[En Em]|Hne].
  - rewrite En in Hst'. by eapply m_lock_inv.
  - eapply step_inv; [exact Hst'|done|].
    pose proof (enter_inv init h evs Hne Hv) as (Hn & Ho & Hp). split; [done|].
    assert (log_before init h evs ⊆ log_before init h evs ++ new) by (intros x ?; apply elem_of_app; by left).
    split; [|by eapply phase_mono]. intros Hon. by eapply done_mono, Ho.
Qed.

Lemma history_inv i w evs : wr_history i w evs ->
  (i < length (insts w))%nat /\ protocol_extension (inst w i) = PPSI_EXT_WR /\ hs_inv (hs_of (inst w i)) evs.
Proof.
  induction 1 as [w Hi Hx Hn Ho|w evs buf len _ IH|w evs _ IH|w evs _ IH|w evs buf len _ IH|w w' evs _ IH Hi Hx Ho].
  - split; [done|]. split; [done|]. unfold hs_inv, hs_of, hs_wrp. cbn. by rewrite Hn, Ho.
  - destruct IH as (Hi & Hx & Hv). by apply run_kept.
  - apply env_kept; [intros; apply wr_state_change_env|done].
  - apply env_kept; [intros; apply wr_changed_env|done].
  - apply env_kept; [intros; apply wr_init_env|done].
  - destruct IH as (_ & Hx' & Hv). split; [done|]. split; [congruence|]. unfold hs_of at 1. rewrite Ho.
    exact (env_inv _ _ _ (env_ext _ (extState (inst w' i))) Hv).
Qed.

(** A sequence of runs, with the frame each one is given. *)
Fixpoint play (i : nat) (frames : list (list Z)) (w : world) (evs : list hs_event) : world * list hs_event :=
  match frames with
  | [] => (w, evs)
  | f :: frames => play i frames (wr_run_state_machine i f (Z.of_nat (length f)) w).2 (run_log i f w evs)
  end.
Lemma play_history i frames : forall w evs, wr_history i w evs ->
  wr_history i (play i frames w evs).1 (play i frames w evs).2.
Proof. induction frames as [|f l IH]; intros w evs Hh; [done|]. apply IH. by apply wh_run. Qed.

(** C12. Refinement: a run of the WR state machine on a port of the extension,
    in any world and with any received frame, is one step of the abstract
    handshake: it enters the state it was told to (Idle when the port is
    initializing or the extension is not active) and then does what
    [hs_step] allows with the message heard and the answer of the PLL. *)
Theorem wr_run_refines i buf len w :
  (i < length (insts w))%nat -> protocol_extension (inst w i) = PPSI_EXT_WR ->
  0 <= wr_next_state (wrp (ext_data (inst w i))) < 4294967296 ->
  let p := inst w i in
  let init := state p =? PPS_INITIALIZING in
  hs_step (hs_new init (hs_of p)) (run_events i (h_messageType (received_ptp_header p)) (state p) (hs_of p) buf w)
    (state p =? PPS_MASTER) (hs_enter init (hs_of p)) (hs_of (inst (wr_run_state_machine i buf len w).2 i)).
Proof.
  intros Hi Hx Hn p init.
  destruct (run_steps i _ _ (hs_of (inst w i)) buf len w (u32_id _ Hn) (sit_now i w Hi Hx)) as (h' & Hs' & Hst).
  by destruct (sit_parts _ _ _ _ _ Hs') as (_ & _ & ->).
Qed.

(** C11. Safety of the handshake: in every history of a port, WR mode is on
    only if in the current handshake the port has heard LOCKED, CALIBRATE and
    CALIBRATED (as a master), or LOCK, CALIBRATE, CALIBRATED and WR_MODE_ON
    and its PLL has locked (as a slave): both sides are locked and know each
    other's fixed delays. *)
Theorem wr_mode_on_after_handshake i w evs : wr_history i w evs ->
  wrModeOn (wrp (ext_data (inst w i))) <> 0 ->
  (Heard LOCKED ∈ evs /\ Heard CALIBRATE ∈ evs /\ Heard CALIBRATED ∈ evs) \/
  (Heard LOCK ∈ evs /\ PllLocked ∈ evs /\ Heard CALIBRATE ∈ evs /\ Heard CALIBRATED ∈ evs /\ Heard WR_MODE_ON ∈ evs).
Proof.
  intros Hh Hon. destruct (history_inv _ _ _ Hh) as (_ & _ & _ & Hd & _).
  destruct (Hd Hon) as [Hm|[[? ?] ?]]; [by left|right; tauto].
Qed.

End History.

(** ** A handshake on the example platform *)

Module HandshakeDemo.
Import Demo.
#[local] Existing Instance demo_config.
#[local] Existing Instance demo_platform.
#[local] Existing Instance demo_oper.
#[local] Existing Instance demo_wrconfig.
#[local] Existing Instance ext_hooks.

(** A port of the extension, with a Signaling message received. *)
Definition wr_demo_inst (k st : Z) : pp_instance :=
  (demo_inst k st) <| protocol_extension := PPSI_EXT_WR |> <| extState := PP_EXSTATE_ACTIVE |>
    <| pdstate := PP_PDSTATE_PDETECTED |> <| received_ptp_header ::= fun h => h <| h_messageType := PPM_SIGNALING |> |>.
Definition frame (msg : Z) : list Z :=
  (pack_wrsig false zero_wrp (mk_pid (demo_id 9) 1) msg (replicate 128 0)).1.

Definition master0 : world := demo_world [wr_demo_inst 0 PPS_MASTER] 1000.
Definition master_frames : list (list Z) :=
  [frame SLAVE_PRESENT; []; frame LOCKED; []; []; frame CALIBRATE; frame CALIBRATED; []].
Definition slave0 : world :=
  demo_world [(wr_demo_inst 0 PPS_UNCALIBRATED)
    <| ext_data ::= fun d => d <| wrp ::= fun q => q <| parentDetection := PD_WR_PARENT |> |> |>] 1000.
Definition slave_frames : list (list Z) :=
  [[]; []; frame LOCK; []; []; []; frame CALIBRATE; []; frame CALIBRATED; []; []; frame WR_MODE_ON; []].

Lemma master_starts : wr_history 0 master0 [].
Proof. apply wh_start; [apply Nat.lt_0_1|done..]. Qed.
Lemma slave_starts : wr_history 0 slave0 [].
Proof. apply wh_start; [apply Nat.lt_0_1|done..]. Qed.

(** Both sides reach WR mode. *)
Example master_reaches_wr_mode : wrModeOn (wrp (ext_data (inst (play 0 master_frames master0 []).1 0))) = 1.
Proof. vm_compute. reflexivity. Qed.
Example slave_reaches_wr_mode : wrModeOn (wrp (ext_data (inst (play 0 slave_frames slave0 []).1 0))) = 1.
Proof. vm_compute. reflexivity. Qed.

Lemma wr_run_refines_witness :
  hs_step true [] true (mk_hs WRS_M_LOCK WRS_M_LOCK 0 0 PP_EXSTATE_ACTIVE)
    (mk_hs WRS_M_LOCK WRS_M_LOCK WR_MASTER 0 PP_EXSTATE_ACTIVE).
Proof.
  pose proof (wr_run_refines 0 [] 0 (play 0 [frame SLAVE_PRESENT] master0 []).1) as Hr.
  vm_compute in Hr. vm_compute. apply Hr; [apply le_n|reflexivity|split; [discriminate|reflexivity]].
Defined.

Lemma wr_mode_on_after_handshake_witness :
  let evs := (play 0 slave_frames slave0 []).2 in
  wrModeOn (wrp (ext_data (inst (play 0 slave_frames slave0 []).1 0))) = 1 /\
  ((Heard LOCKED ∈ evs /\ Heard CALIBRATE ∈ evs /\ Heard CALIBRATED ∈ evs) \/
   (Heard LOCK ∈ evs /\ PllLocked ∈ evs /\ Heard CALIBRATE ∈ evs /\ Heard CALIBRATED ∈ evs /\ Heard WR_MODE_ON ∈ evs)).
Proof.
  cbn zeta. split; [apply slave_reaches_wr_mode|].
  apply (wr_mode_on_after_handshake 0 (play 0 slave_frames slave0 []).1); [apply play_history, slave_starts|].
  rewrite slave_reaches_wr_mode. discriminate.
Defined.
End HandshakeDemo.
