(* ===== verification/WrCalib.v ===== *)
(** * Calibration across a White Rabbit link

    The fixed delays one node computes from its latencies
    (state-wr-calibration.c) are, after the CALIBRATED message, the delays the
    other node's servo uses (state-wr-resp-calib-req.c). *)

From S2P Require Import Prelude Div64 TimeArith Types World Timeout Hooks Bytes Msg FixedPoint Servo.
From S2P Require Import BmcCmp ClockQuality Bmc BmcTable BmcDecision Common States Fsm OpenClose.
From S2P Require Import Safety Wrh WrMsg WrStates WrHooks L1Sync Extensions WrHandshake.

(** ** Latencies as fixed deltas *)

(** A latency below one second survives the conversions. *)
Lemma fixed_delta_wire ti : 0 <= ti < 18446744073709551616 -> wire_delta (fixed_delta ti).
Proof.
  intros Ht. unfold wire_delta, fixed_delta. cbn [fd_msb fd_lsb]. change 0xFFFFFFFF with (Z.ones 32).
  rewrite Z.land_ones by lia. pose proof (u32_range (Z.shiftr ti 32)).
  pose proof (Z.mod_pos_bound ti (2 ^ 32) ltac:(lia)). change (2 ^ 32) with 4294967296 in *. lia.
Qed.

Lemma fixed_delta_value ti : 0 <= ti < 9223372036854775808 ->
  Z.lor (u64 (Z.shiftl (fd_msb (fixed_delta ti)) 32)) (fd_lsb (fixed_delta ti)) = ti.
Proof.
  intros Ht. unfold fixed_delta. cbn [fd_msb fd_lsb]. change 0xFFFFFFFF with (Z.ones 32). rewrite Z.land_ones by lia.
  rewrite Z.shiftr_div_pow2 by lia. change (2 ^ 32) with 4294967296.
  rewrite u32_id by dlia. pose proof (Z.mod_pos_bound ti 4294967296 ltac:(lia)).
  rewrite u64_id by (rewrite Z.shiftl_mul_pow2 by lia; change (2 ^ 32) with 4294967296; dlia).
  rewrite lor_shiftl_add by (change (2 ^ 32) with 4294967296; lia). change (2 ^ 32) with 4294967296. dlia.
Qed.

Lemma latency_exact lat : 0 <= lat < SNS_PER_S ->
  fixedDelta_to_pp_time (fixed_delta (i64 (lat * 1000))) = mk_time 0 lat.
Proof.
  intros Hl. change SNS_PER_S with 65536000000000 in Hl. rewrite i64_id by lia.
  unfold fixedDelta_to_pp_time. rewrite fixed_delta_value by lia. rewrite div64_32_spec by lia. cbn [fst].
  rewrite Z.div_mul, i64_id by lia. unfold normalize_pp_time.
  assert (norm_sign (mk_time 0 lat) = 1) as ->
    by (unfold norm_sign; cbn [secs scaled_nsecs]; by rewrite (proj2 (Z.ltb_ge lat 0)) by lia).
  rewrite (time_scale_spec 1 (mk_time 0 lat)) by (cbn [secs scaled_nsecs]; lia). cbn [secs scaled_nsecs].
  rewrite norm_borrow_id, norm_carry_id by (cbn [scaled_nsecs]; change SNS_PER_S with 65536000000000; lia).
  rewrite time_scale_spec by (cbn [secs scaled_nsecs]; lia). cbn [secs scaled_nsecs]. f_equal; lia.
Qed.

(** ** One node computes *)

Section Link.
Context `{Config, Platform} {WO : WrhOper} {WC : WrConfig}.
#[local] Existing Instance ext_hooks.

(** The delays of a node: as it announces them, and as its servo uses them. *)
Definition own_delays (p : pp_instance) : FixedDelta * FixedDelta * pp_time * pp_time :=
  let q := wrp (ext_data p) in let s := wre_servo (ext_data p) in (deltaTx q, deltaRx q, delta_txs s, delta_rxs s).
Lemma own_delays_msg : msg_frame own_delays.
Proof. by split. Qed.

Lemma view_at {A K} (c : pp_instance -> K) (m : M A) w i : (i < length (insts w))%nat ->
  guar (same_view c (fun _ => tt)) m -> c (inst (m w).2 i) = c (inst w i) /\ (i < length (insts (m w).2))%nat.
Proof. intros Hi Hm. by destruct (same_view_inst _ _ _ _ i (Hm w) Hi). Qed.

Definition tx_latency (p : pp_instance) : Z := egressLatency (timestampCorrectionPortDS p).
Definition rx_latency (p : pp_instance) : Z :=
  ingressLatency (timestampCorrectionPortDS p) + semistaticLatency (timestampCorrectionPortDS p).

Lemma calibration_delays i buf new w : (i < length (insts w))%nat ->
  let w' := (wr_calibration i buf new w).2 in
  let dtx := fixed_delta (i64 (tx_latency (inst w i) * 1000)) in
  let drx := fixed_delta (i64 (i64 (rx_latency (inst w i)) * 1000)) in
  own_delays (inst w' i) = (dtx, drx, fixedDelta_to_pp_time dtx, fixedDelta_to_pp_time drx) /\
  (i < length (insts w'))%nat.
Proof.
  intros Hi. cbn zeta. unfold wr_calibration. rewrite bind_rd. cbn zeta.
  set (dtx := fixed_delta (i64 (egressLatency _ * 1000))). set (drx := fixed_delta _).
  change (fixed_delta (i64 (tx_latency (inst w i) * 1000))) with dtx.
  change (fixed_delta (i64 (i64 (rx_latency (inst w i)) * 1000))) with drx.
  unfold setWRP, setWRE. do 5 (rewrite bind_unfold; cbn [wr snd fst]).
  set (w1 := set_inst _ i _).
  assert (own_delays (inst w1 i) = (dtx, drx, fixedDelta_to_pp_time dtx, fixedDelta_to_pp_time drx) /\
    (i < length (insts w1))%nat) as [E1 I1].
  { subst w1. rewrite !length_set_inst. split; [|done]. rewrite !inst_set_same by (rewrite ?length_set_inst; done). done. }
  clearbody w1. rewrite <- E1. rewrite bind_unfold.
  destruct (view_at own_delays (msg_issue_wrsig i CALIBRATE) w1 i I1) as [E2 I2];
    [apply view_issue_wrsig, own_delays_msg|].
  rewrite <- E2. set (w2 := (msg_issue_wrsig i CALIBRATE w1).2) in *. clearbody w2.
  rewrite bind_unfold. cbn [wr snd fst mret M_ret]. by rewrite inst_set_same, length_set_inst by done.
Qed.

(** The message a node then packs. *)
Lemma packed_wrsig i m w : (i < length (insts w))%nat ->
  tx_ptp (inst (msg_pack_wrsig i m w).2 i) =
  (pack_wrsig BIG_ENDIAN_HOST (wrp (ext_data (inst w i))) (par_parentPortIdentity (parentDS (glbs w))) m
    (tx_ptp (inst w i))).1.
Proof.
  intros Hi. unfold msg_pack_wrsig, WR_DSPOR, DSPAR, rdG. rewrite bind_rd, bind_unfold. cbn [fst snd]. rewrite bind_rd.
  destruct (pack_wrsig _ _ _ _ _) as [b len]. rewrite bind_unfold. unfold wbuf. cbn [wr fst snd mret M_ret].
  by rewrite inst_set_same by done.
Qed.

(** ** The other node learns *)

Lemma arm_type i t w : (i < length (insts w))%nat ->
  h_messageType (received_ptp_header (inst (arm_timer i t w).2 i)) = h_messageType (received_ptp_header (inst w i)) /\
  (i < length (insts (arm_timer i t w).2))%nat.
Proof.
  intros Hi. apply (view_at (fun p => h_messageType (received_ptp_header p))); [done|].
  unfold arm_timer, setWRP. apply guar_bind; [apply _|walk|]. intros _. by apply (view_timeout_set _ (fun _ => tt)).
Qed.
(** The message is read into the records of the port. *)
Lemma received_stores i buf m w : (i < length (insts w))%nat ->
  h_messageType (received_ptp_header (inst w i)) = PPM_SIGNALING -> wrsig_id buf = Some m ->
  let r := received_wrsig i buf w in
  r.1 = Some m /\ (i < length (insts r.2))%nat /\ wrp (ext_data (inst r.2 i)) = store_wrsig m buf (wrp (ext_data (inst w i))).
Proof.
  intros Hi Ht Hb. cbn zeta. unfold received_wrsig. rewrite bind_rd, Ht. change (_ =? _) with true. cbn iota.
  unfold msg_unpack_wrsig. rewrite Hb, bind_unfold. unfold setWRP. cbn [wr fst snd].
  match goal with |- (?k ?v).1 = _ /\ _ =>
    destruct (view_at ext_data k v i) as [E I]; [by rewrite length_set_inst| |] end.
  { unfold pdstate_set_state_pdetected, pdstate_set. walk. by apply view_timeout_reset_N. }
  rewrite E. rewrite inst_set_same by done. split; [|done]. by rewrite bind_rd, bind_unfold.
Qed.

Lemma calib_req_learns i buf new w : (i < length (insts w))%nat ->
  h_messageType (received_ptp_header (inst w i)) = PPM_SIGNALING -> wrsig_id buf = Some CALIBRATED ->
  let s := wre_servo (ext_data (inst (wr_resp_calib_req i buf new w).2 i)) in
  delta_txm s = fixedDelta_to_pp_time (mk_fd (get32 buf 60) (get32 buf 56)) /\
  delta_rxm s = fixedDelta_to_pp_time (mk_fd (get32 buf 68) (get32 buf 64)).
Proof.
  intros Hi Ht Hb. cbn zeta. unfold wr_resp_calib_req. rewrite bind_unfold.
  set (w1 := (when new _ w).2).
  assert (h_messageType (received_ptp_header (inst w1 i)) = PPM_SIGNALING /\ (i < length (insts w1))%nat) as [T1 I1].
  { subst w1. destruct new; [|done]. cbn [when]. destruct (arm_type i WR_RESP_CALIB_REQ_TIMEOUT_MS w Hi) as [-> ?]. done. }
  clearbody w1. rewrite bind_unfold. destruct (received_stores i buf CALIBRATED w1 I1 T1 Hb) as (-> & I2 & E2).
  set (w2 := (received_wrsig i buf w1).2) in *. clearbody w2.
  change (CALIBRATED =? CALIBRATED) with true. cbn [when]. unfold WR_DSPOR. rewrite bind_unfold, bind_rd, bind_unfold.
  unfold setWRE, set_wr_state, setWRP. cbn [wr fst snd mret M_ret].
  rewrite !inst_set_same by (by rewrite ?length_set_inst). rewrite E2. done.
Qed.

(** ** From latency to servo *)

(** C14. Calibration crosses the link exactly: when a node has run its
    Calibration state, the CALIBRATED message it then packs gives the other
    node, in its Resp_calib_req state, fixed delays equal to the egress
    latency and to the sum of the ingress and semistatic latencies of the
    first node (scaled nanoseconds, below one second), which are also the
    ones the first node's own servo uses. *)
Theorem calibration_crosses_link i buf new w j new' w' :
  let w1 := (wr_calibration i buf new w).2 in
  let frame := tx_ptp (inst (msg_pack_wrsig i CALIBRATED w1).2 i) in
  let own := wre_servo (ext_data (inst w1 i)) in
  let other := wre_servo (ext_data (inst (wr_resp_calib_req j frame new' w').2 j)) in
  (i < length (insts w))%nat -> (72 <= length (tx_ptp (inst w1 i)))%nat ->
  0 <= tx_latency (inst w i) < SNS_PER_S -> 0 <= rx_latency (inst w i) < SNS_PER_S ->
  (j < length (insts w'))%nat -> h_messageType (received_ptp_header (inst w' j)) = PPM_SIGNALING ->
  delta_txm other = mk_time 0 (tx_latency (inst w i)) /\ delta_rxm other = mk_time 0 (rx_latency (inst w i)) /\
  delta_txs own = delta_txm other /\ delta_rxs own = delta_rxm other.
Proof.
  intros w1 frame own other Hi Hl Htx Hrx Hj Hm.
  destruct (calibration_delays i buf new w Hi) as [E I]. fold w1 in E, I.
  unfold own_delays in E. cbn zeta in E. injection E as E1 E2 E3 E4. fold own in E3, E4.
  assert (i64 (rx_latency (inst w i)) = rx_latency (inst w i)) as Er
    by (apply i64_id; change SNS_PER_S with 65536000000000 in Hrx; lia).
  rewrite Er in E2, E4. rewrite latency_exact in E3, E4 by done. rewrite E3, E4.
  assert (forall lat, 0 <= lat < SNS_PER_S -> wire_delta (fixed_delta (i64 (lat * 1000)))) as Hw.
  { intros lat Hlat. change SNS_PER_S with 65536000000000 in Hlat. rewrite i64_id by lia. apply fixed_delta_wire. lia. }
  assert (frame = (pack_wrsig BIG_ENDIAN_HOST (wrp (ext_data (inst w1 i))) (par_parentPortIdentity (parentDS (glbs w1)))
    CALIBRATED (tx_ptp (inst w1 i))).1) as Ef by (by apply packed_wrsig).
  assert (wrsig_id frame = Some CALIBRATED) as Hid by (rewrite Ef; by apply wrsig_id_found).
  destruct (calib_req_learns j frame new' w' Hj Hm Hid) as [L1 L2]. fold other in L1, L2. rewrite L1, L2.
  pose proof (calibrated_stored BIG_ENDIAN_HOST (wrp (ext_data (inst w1 i))) zero_wrp
    (par_parentPortIdentity (parentDS (glbs w1))) (tx_ptp (inst w1 i)) Hl) as Hs.
  rewrite <- Ef, E1, E2 in Hs. specialize (Hs (Hw _ Htx) (Hw _ Hrx)).
  pose proof (f_equal otherNodeDeltaTx Hs) as S1. pose proof (f_equal otherNodeDeltaRx Hs) as S2. cbn in S1, S2.
  rewrite S1, S2. by rewrite !latency_exact.
Qed.

End Link.

(** ** On the example platform *)

Module CalibDemo.
Import Demo HandshakeDemo.
#[local] Existing Instance demo_config.
#[local] Existing Instance demo_platform.
#[local] Existing Instance demo_oper.
#[local] Existing Instance demo_wrconfig.
#[local] Existing Instance ext_hooks.

(** A node with 227 ns of egress and 229 + 3 ns of ingress latency. *)
Definition sender : world :=
  demo_world [(wr_demo_inst 0 PPS_SLAVE) <| timestampCorrectionPortDS ::= fun t =>
    t <| egressLatency := 14876672 |> <| ingressLatency := 15007744 |> <| semistaticLatency := 196608 |> |>] 1000.
Definition receiver : world := demo_world [wr_demo_inst 0 PPS_MASTER] 1000.

Lemma calibration_crosses_link_witness :
  let w1 := (wr_calibration 0%nat [] true sender).2 in
  let frame := tx_ptp (inst (msg_pack_wrsig 0%nat CALIBRATED w1).2 0%nat) in
  let other := wre_servo (ext_data (inst (wr_resp_calib_req 0%nat frame true receiver).2 0%nat)) in
  delta_txm other = mk_time 0 14876672 /\ delta_rxm other = mk_time 0 15204352.
Proof.
  cbn zeta.
  destruct (calibration_crosses_link 0%nat [] true sender 0%nat true receiver) as (E1 & E2 & _); [apply Nat.lt_0_1|..].
  - apply Nat.leb_le. vm_compute. reflexivity.
  - vm_compute. split; [discriminate|reflexivity].
  - vm_compute. split; [discriminate|reflexivity].
  - apply Nat.lt_0_1.
  - reflexivity.
  - split; [exact E1|exact E2].
Defined.
End CalibDemo.
