(* ===== verification/L1SyncSpec.v ===== *)
(** * What L1Sync guarantees (proto-ext-l1sync)

    The round trip of its message, and the conditions under which a port
    comes up. *)

From S2P Require Import Prelude Div64 TimeArith Types World Timeout Hooks Bytes Msg FixedPoint Servo.
From S2P Require Import BmcCmp ClockQuality Bmc BmcTable BmcDecision Common States Fsm OpenClose.
From S2P Require Import Safety Wrh WrMsg WrStates WrHooks L1Sync Extensions WrHandshake.

(** ** The message *)

Lemma has_bits_mask a b c : let m := l1e_creat_L1Sync_bitmask a b c in
  forall o, o = 0 \/ o = L1E_OPT_PARAMS ->
  has_bits (Z.lor m o) L1E_TX_COHERENT = of_bool (truth a) /\ has_bits (Z.lor m o) L1E_RX_COHERENT = of_bool (truth b) /\
  has_bits (Z.lor m o) L1E_CONGRUENT = of_bool (truth c) /\ 0 <= Z.lor m o < 256.
Proof.
  intros m o Ho. subst m. unfold l1e_creat_L1Sync_bitmask.
  destruct (truth a), (truth b), (truth c), Ho as [-> | ->]; vm_compute; intuition discriminate.
Qed.

(** What a port says of itself, as its peer records it. *)
Definition peer_of (d b : L1SyncBasicPortDS_t) : L1SyncBasicPortDS_t :=
  b <| peerTxCoherentIsRequired := of_bool (truth (txCoherentIsRequired d)) |>
    <| peerRxCoherentIsRequired := of_bool (truth (rxCoherentIsRequired d)) |>
    <| peerCongruentIsRequired := of_bool (truth (congruentIsRequired d)) |>
    <| peerIsTxCoherent := of_bool (truth (isTxCoherent d)) |>
    <| peerIsRxCoherent := of_bool (truth (isRxCoherent d)) |>
    <| peerIsCongruent := of_bool (truth (isCongruent d)) |>.

Ltac l1len := repeat rewrite ?length_write, ?length_be, ?length_host_order; lia.

Lemma pack_signaling_length big target ty len buf : length (pack_signaling big target ty len buf) = length buf.
Proof. unfold pack_signaling, put16, put16h. by rewrite !length_write. Qed.
Lemma pack_signaling_tlv big target ty len buf : (48 <= length buf)%nat -> 0 <= ty < 65536 -> 0 <= len < 65536 ->
  get16 (pack_signaling big target ty len buf) 44 = ty /\ get16 (pack_signaling big target ty len buf) 46 = len.
Proof.
  intros Hl Ht Hn. unfold pack_signaling, get16, put16, put16h. rewrite (slice_write_other 44 2 46) by l1len.
  rewrite !slice_put_same by l1len. rewrite !of_be_be. change (256 ^ Z.of_nat 2) with 65536. by rewrite !Z.mod_small by lia.
Qed.

(** Round trip of the L1Sync message: what a port says in a basic message
    (coherence and congruence, required and reached) is what its peer
    records; a message with optional parameters, which is longer, is rejected
    by the peer. *)
Theorem l1sync_roundtrip big target d b buf : (88 <= length buf)%nat ->
  let '(frame, len) := l1e_pack_tlv d (pack_signaling big target TLV_TYPE_L1_SYNC MSG_L1SYNC_TLV_LENGTH buf) in
  l1e_unpack_tlv frame len b = if truth (optParamsEnabled (l1_basic d)) then None else Some (peer_of (l1_basic d) b).
Proof.
  intros Hl. unfold l1e_pack_tlv. destruct (pack_signaling_tlv big target TLV_TYPE_L1_SYNC MSG_L1SYNC_TLV_LENGTH buf)
    as [Et El]; [lia|done|done|].
  pose proof (pack_signaling_length big target TLV_TYPE_L1_SYNC MSG_L1SYNC_TLV_LENGTH buf) as Hn.
  set (s := pack_signaling _ _ _ _ _) in *. clearbody s. cbn zeta. set (bd := l1_basic d).
  destruct (has_bits_mask (txCoherentIsRequired bd) (rxCoherentIsRequired bd) (congruentIsRequired bd) 0 ltac:(by left))
    as (C1 & C2 & C3 & C4).
  destruct (has_bits_mask (isTxCoherent bd) (isRxCoherent bd) (isCongruent bd) 0 ltac:(by left)) as (A1 & A2 & A3 & A4).
  rewrite Z.lor_0_r in *.
  destruct (truth (optParamsEnabled bd)) eqn:Ho; unfold l1e_unpack_tlv.
  - destruct (negb _); [done|]. change (negb (MSG_L1SYNC_LEN + 38 =? MSG_L1SYNC_LEN)) with true. by rewrite orb_true_r.
  - assert (l1e_config_mask bd = l1e_creat_L1Sync_bitmask (txCoherentIsRequired bd) (rxCoherentIsRequired bd)
      (congruentIsRequired bd)) as -> by (unfold l1e_config_mask; by rewrite Ho).
    fold (l1e_active_mask bd) in *. set (cm := l1e_creat_L1Sync_bitmask _ _ _) in *. set (am := l1e_active_mask bd) in *.
    clearbody cm am. unfold get16, put16, put8 in *. rewrite !get8_slice by l1len.
    rewrite !(slice_write_other _ _ 2) by l1len. rewrite !(slice_write_other 44 2), !(slice_write_other 46 2) by l1len.
    rewrite Et, El.
    rewrite (slice_write_other 48 1 49) by l1len. rewrite !slice_put_same by l1len. rewrite !of_be_be.
    change (256 ^ Z.of_nat 1) with 256. rewrite !Z.mod_small by lia.
    cbn [negb Z.eqb orb TLV_TYPE_L1_SYNC MSG_L1SYNC_LEN MSG_L1SYNC_TLV_LENGTH Pos.eqb].
    rewrite C1, C2, C3, A1, A2, A3. done.
Qed.

Lemma l1sync_roundtrip_witness :
  let d := zero_l1e <| l1_basic ::= fun b => b <| txCoherentIsRequired := 1 |> <| isTxCoherent := 1 |> |> in
  let '(frame, len) := l1e_pack_tlv d (pack_signaling false (mk_pid (replicate 8 255) 0xFFFF)
    TLV_TYPE_L1_SYNC MSG_L1SYNC_TLV_LENGTH (replicate 128 0)) in
  l1e_unpack_tlv frame len (l1_basic zero_l1e) = Some (peer_of (l1_basic d) (l1_basic zero_l1e)).
Proof.
  intros d. apply (l1sync_roundtrip false (mk_pid (replicate 8 255) 0xFFFF) d (l1_basic zero_l1e) (replicate 128 0)).
  apply Nat.leb_le. reflexivity.
Defined.

(** ** The state machine *)

(** Link alive, configurations equal, requirements reached on both sides. *)
Definition up_ok (b : L1SyncBasicPortDS_t) : Prop :=
  le1_evt_LINK_OK b = true /\ le1_evt_CONFIG_OK b = true /\ l1e_state_ok b = true.

Section Machine.
Context `{Config, Platform} {WO : WrhOper} {WC : WrConfig}.
#[local] Existing Instance ext_hooks.
Context (i : nat).

(** The data set of the extension and what decides how a run goes on. *)
Record l1v := mk_l1v { v_basic : L1SyncBasicPortDS_t; v_state : Z; v_ext : pp_exstate_t; v_prot : pp_extension }.
Definition l1view (p : pp_instance) : l1v :=
  mk_l1v (l1_basic (l1e_portDS (ext_data p))) (state p) (extState p) (protocol_extension p).
Abbreviation quiet m := (guar (same_view l1view (fun _ => tt)) m).
Abbreviation tr := (port_triple l1view i).

Lemma l1view_msg : msg_frame l1view.
Proof. by split. Qed.
Lemma l1view_servo : servo_frame l1view.
Proof. by split. Qed.

Lemma l_timeout k : quiet (pp_timeout i k).
Proof. by apply view_timeout. Qed.
Lemma l_timeout_set k t : quiet (pp_timeout_set i k t).
Proof. by apply view_timeout_set. Qed.
Lemma l_timeout_reset k : quiet (pp_timeout_reset i k).
Proof. by apply view_timeout_reset_N. Qed.
Lemma l_delay : quiet (l1e_delay i).
Proof. by apply view_next_delay_2. Qed.
Lemma l_servo_init : quiet (pp_servo_init i).
Proof. apply view_servo_init; [apply l1view_servo|done..]. Qed.
Hint Resolve l_timeout l_timeout_set l_timeout_reset l_delay l_servo_init : guar.
Hint Unfold WRH_SRV rd_tracking L1E_DSPOR L1E_DSPOR_BS : guar.
Lemma l_wrh_init : quiet (wrh_servo_init i).
Proof. unfold wrh_servo_init, setState, setSRV, setWRH. walk. Qed.
Lemma l_wrh_reset : quiet (wrh_servo_reset i).
Proof. unfold wrh_servo_reset, setState, setSRV, setWRH. walk. Qed.
Lemma l_pack : quiet (l1e_pack_signal i).
Proof.
  unfold l1e_pack_signal, msg_pack_signaling_no_fowardable, msg_pack_signaling_fmt.
  walk; [apply view_pack_header, l1view_msg|apply view_set_seq_id, l1view_msg|apply view_wbuf, l1view_msg..].
Qed.
Lemma l_send_ext len ch fmt : quiet (send_and_log i len ch fmt).
Proof. apply view_send_ext, l1view_msg. Qed.
Hint Resolve l_wrh_init l_wrh_reset l_pack l_send_ext : guar.
Lemma l_send b : quiet (l1e_send_sync_msg i b).
Proof. unfold l1e_send_sync_msg, measure_last_time, measure_first_time. walk. Qed.
Hint Resolve l_send : guar.

(** Writes of the data set. *)
Definition on_basic (g : L1SyncBasicPortDS_t -> L1SyncBasicPortDS_t) (a : l1v) : l1v :=
  mk_l1v (g (v_basic a)) (v_state a) (v_ext a) (v_prot a).
Abbreviation next a := (l1e_next_state (v_basic a)).
Lemma tr_setL1B a g (Q : unit -> l1v -> Prop) : Q tt (on_basic g a) -> tr a (setL1B i g) Q.
Proof. apply tr_wr. by intros p <-. Qed.
Lemma tr_goto a st (Q : unit -> l1v -> Prop) : Q tt (on_basic (fun b => b <| l1e_next_state := st |>) a) -> tr a (l1e_goto i st) Q.
Proof. apply tr_setL1B. Qed.
Lemma l_execute v : quiet (set_execute i v).
Proof. unfold set_execute, setL1E. walk. Qed.
Hint Resolve l_execute : guar.
Lemma tr_basic {B} a (k : L1SyncBasicPortDS_t -> M B) Q : tr a (k (v_basic a)) Q -> tr a (L1E_DSPOR_BS i ≫= k) Q.
Proof. by apply (tr_rd l1view i _ v_basic). Qed.
Lemma tr_state {B} a (k : Z -> M B) Q : tr a (k (v_state a)) Q -> tr a (rd i state ≫= k) Q.
Proof. by apply (tr_rd l1view i _ v_state). Qed.

(** *** Events *)

(** Same target, same place; the state run is the target. *)
Definition moved (st : Z) (a a' : l1v) : Prop :=
  next a' = next a /\ v_state a' = v_state a /\ v_ext a' = v_ext a /\ v_prot a' = v_prot a /\
  u8 (L1SyncState (v_basic a')) = st.
Definition aside (a a' : l1v) : Prop :=
  next a' = next a /\ v_state a' = v_state a /\ v_ext a' = v_ext a /\ v_prot a' = v_prot a /\
  L1SyncState (v_basic a') = L1SyncState (v_basic a).

Lemma events_moved a st : 0 <= st < 256 ->
  tr a (l1e_events i st (negb (st =? u8 (L1SyncState (v_basic a))))) (fun _ a' => moved st a a').
Proof.
  intros Hst. set (new := negb _). unfold l1e_events. apply tr_bind.
  match goal with |- tr a (wr i ?f) ?Q => assert (tr a (wr i f) (fun _ a' => aside a a')) as H1 end.
  { intros w Hi Hv. cbn [wr fst snd]. rewrite inst_set_same, length_set_inst by done. split; [done|].
    rewrite <- Hv. by split_and!. }
  eapply tr_mono; [exact H1|]. intros [] a1 A1. apply tr_quiet_bind; [walk|]. intros t.
  assert (tr a1 (when t (b ← L1E_DSPOR_BS i;
     pp_timeout_set i PP_TO_L1E_RX_SYNC (l1e_get_rx_tmo_ms b);;
     setL1B i (fun b => b <| L1SyncLinkAlive := 0 |>);;
     set_execute i 1)) (fun _ a' => aside a a')) as H2.
  { apply tr_when; intros _; [|done]. apply tr_basic. apply tr_quiet_bind; [walk|]. intros _.
    apply tr_bind, tr_setL1B. apply tr_quiet; [walk|]. intros _. exact A1. }
  apply tr_bind. eapply tr_mono; [exact H2|]. intros [] a2 A2.
  apply tr_quiet_bind; [walk|]. intros t'. apply tr_quiet_bind; [walk|]. intros _.
  destruct A2 as (E1 & E2 & E3 & E4 & E5). apply tr_when; intros Hn.
  - apply tr_bind, tr_setL1B. apply tr_quiet; [walk|]. intros _. split_and!; try done. cbn. unfold u8. apply Z.mod_small. lia.
  - split_and!; try done. rewrite E5. subst new. by apply negb_false_iff, Z.eqb_eq in Hn.
Qed.

(** *** The states *)

(** Towards IDLE or DISABLED, or not at all. *)
Definition down (a a' : l1v) : Prop := next a' = next a \/ next a' = L1SYNC_DISABLED \/ next a' = L1SYNC_IDLE.

Lemma disabled_down new a : tr a (l1e_handle_state_disabled i new) (fun _ a' => down a a').
Proof.
  unfold l1e_handle_state_disabled. apply tr_bind.
  assert (forall a1, next a1 = next a -> tr a1 (p ← rd i id;
    if le1_evt_L1_SYNC_ENABLED (l1_basic (l1e_portDS (ext_data p))) && negb (le1_evt_L1_SYNC_RESET p)
    then l1e_goto i L1SYNC_IDLE;; mret 0 else l1e_delay i) (fun _ a' => down a a')) as Hk.
  { intros a1 E1. apply tr_rd_any. intros p _. apply tr_if; intros _.
    - apply tr_bind, tr_goto, tr_ret. right; right. done.
    - apply tr_quiet; [walk|]. intros _. by left. }
  apply tr_when; intros _; [apply tr_setL1B|]; by apply Hk.
Qed.

(** A forced stop, with any table of hooks behind it. *)
Lemma stop_down (HK : Hooks) a : next a = L1SYNC_DISABLED ->
  tr a (l1e_run_state_machine (HK := HK) i [] 0) (fun _ a' => down a a').
Proof.
  intros Hn. unfold l1e_run_state_machine. apply tr_rd_any. intros p Hp. cbn zeta.
  change (l1_basic (l1e_portDS (ext_data (id p)))) with (v_basic (l1view p)). rewrite Hp, Hn.
  change (negb (u8 L1SYNC_DISABLED =? L1SYNC_DISABLED)) with false. change (L1E_MAX_STATE_ACTIONS <=? u8 L1SYNC_DISABLED) with false.
  cbn [andb]. change (u8 L1SYNC_DISABLED) with 1. apply tr_bind.
  eapply tr_mono; [apply events_moved; lia|]. intros [] a1 (E1 & _ & _ & _ & E5).
  apply tr_rd_any. intros p1 Hp1. apply tr_bind.
  match goal with |- tr a1 ?m ?Q => assert (tr a1 m (fun _ a' => down a a')) as Hm end.
  { apply tr_if; intros _; [|apply tr_quiet; [walk|]; intros _; by left].
    change (l1_basic (l1e_portDS (ext_data p1))) with (v_basic (l1view p1)). rewrite Hp1, E5.
    change (le1_state_actions (HK := HK) 1) with (Some l1e_handle_state_disabled). cbn iota.
    eapply tr_mono; [apply disabled_down|]. intros x a2. unfold down. by rewrite E1. }
  eapply tr_mono; [exact Hm|]. intros x a2 D2. apply tr_quiet_bind; [walk|]. intros _. by apply tr_ret.
Qed.

(** A hook of the extension. *)
Lemma tr_if_hook {T A} a (hk : pp_ext_hooks -> option T) x (f : T -> M A) d Q :
  v_prot a = PPSI_EXT_L1S -> hk (hooks_of PPSI_EXT_L1S) = Some x -> tr a (f x) Q -> tr a (if_hook i hk f d) Q.
Proof.
  intros Ha Hx Hf. unfold if_hook, ext_hook. apply tr_rd_any. intros p Hp.
  change (protocol_extension p) with (v_prot (l1view p)). by rewrite Hp, Ha, Hx.
Qed.

Lemma changed_down a (HK : Hooks) : tr a (l1e_extension_state_changed (HK := HK) i) (fun _ a' => down a a').
Proof.
  unfold l1e_extension_state_changed. apply tr_rd_any. intros p Hp. apply tr_bind. apply tr_if; intros _.
  - apply tr_quiet_bind; [walk|]. intros _. apply tr_ret, tr_ret. by left.
  - apply tr_when; intros _; [|apply tr_ret; by left]. apply tr_bind, tr_goto, tr_bind.
    eapply tr_mono; [by apply stop_down|]. intros x a2 D2. apply tr_ret, tr_ret.
    unfold down in *. cbn in D2. destruct D2 as [D2|[D2|D2]]; auto.
Qed.

Lemma disable_down a : v_prot a = PPSI_EXT_L1S -> tr a (pdstate_disable_extension i) (fun _ a' => down a a').
Proof.
  intros Ha. unfold pdstate_disable_extension. apply tr_quiet_bind; [walk|]. intros _. apply tr_rd_any. intros p Hp.
  apply tr_when; intros _; [|by left]. apply tr_bind.
  set (a1 := mk_l1v (v_basic a) (v_state a) PP_EXSTATE_PTP (v_prot a)).
  apply (tr_wr l1view i a _ a1); [by intros q <-|]. apply tr_quiet_bind; [walk|]. intros _.
  eapply (tr_if_hook a1 hk_extension_state_changed); [done|reflexivity|].
  apply tr_bind. eapply tr_mono; [apply changed_down|]. intros x a2 D2. by apply tr_ret.
Qed.

(** An extension in use stays in use. *)
Lemma enable_active a : v_ext a = PP_EXSTATE_ACTIVE -> tr a (pdstate_enable_extension i) (fun _ a' => a' = a).
Proof.
  intros Ha. unfold pdstate_enable_extension. apply tr_quiet_bind; [walk|]. intros d. apply tr_when; intros _; [|done].
  apply tr_quiet_bind; [walk|]. intros _. apply tr_quiet_bind; [walk|]. intros _.
  apply tr_rd_any. intros p Hp. change (extState p) with (v_ext (l1view p)). rewrite Hp, Ha. by apply tr_ret.
Qed.

(** UP is new only from CONFIG_MATCH, when everything is in order. *)
Definition climb (st : Z) (a a' : l1v) : Prop :=
  next a' = L1SYNC_UP -> next a = L1SYNC_UP \/ (st = L1SYNC_CONFIG_MATCH /\ up_ok (v_basic a')).
Lemma down_climb st a a1 a' : down a1 a' -> next a1 <> L1SYNC_UP \/ next a1 = next a -> climb st a a'.
Proof. intros [D|[D|D]] Hn E; rewrite D in E; try done. destruct Hn as [Hn|<-]; [done|by left]. Qed.
Lemma same_climb st a a' : next a' = next a -> climb st a a'.
Proof. intros E Hu. left. congruence. Qed.
Lemma goto_climb st n a b : n <> L1SYNC_UP -> climb st a (on_basic (fun d => d <| l1e_next_state := n |>) b).
Proof. intros Hn Hu. done. Qed.

Lemma idle_climb new a : v_prot a = PPSI_EXT_L1S -> tr a (l1e_handle_state_idle i new) (fun _ a' => climb L1SYNC_IDLE a a').
Proof.
  intros Ha. unfold l1e_handle_state_idle. apply tr_bind.
  match goal with |- tr a ?m _ => assert (tr a m (fun _ a1 => next a1 = next a /\ v_prot a1 = PPSI_EXT_L1S)) as Hm end.
  { apply tr_when; intros _; [|done]. apply tr_bind, tr_setL1B. by apply tr_quiet; [walk|]. }
  eapply tr_mono; [exact Hm|]. intros [] a1 [E1 P1]. apply tr_rd_any. intros p _. cbn zeta. apply tr_if; intros _.
  - apply tr_bind, tr_goto, tr_bind. eapply tr_mono; [by apply disable_down|]. intros [] a2 D2. apply tr_ret.
    eapply down_climb; [exact D2|by left].
  - apply tr_if; intros _.
    + apply tr_bind, tr_goto, tr_ret. by apply goto_climb.
    + apply tr_quiet_bind; [walk|]. intros _. apply tr_quiet; [walk|]. intros _. by apply same_climb.
Qed.
Lemma alive_climb new a : tr a (l1e_handle_state_link_alive i new) (fun _ a' => climb L1SYNC_LINK_ALIVE a a').
Proof.
  unfold l1e_handle_state_link_alive. apply tr_basic. apply tr_quiet_bind; [walk|]. intros _. apply tr_state.
  apply tr_if; intros _; [apply tr_bind, tr_goto, tr_ret; by apply goto_climb|].
  apply tr_if; intros _; [apply tr_bind, tr_goto, tr_ret; by apply goto_climb|].
  apply tr_quiet_bind; [walk|]. intros _. apply tr_quiet; [walk|]. intros _. by apply same_climb.
Qed.

(** The check of the state refreshes what the port has reached, not what is
    required nor what the peer says. *)
Definition rechecked (a a' : l1v) : Prop :=
  next a' = next a /\ v_ext a' = v_ext a /\ v_prot a' = v_prot a /\
  le1_evt_LINK_OK (v_basic a') = le1_evt_LINK_OK (v_basic a) /\
  le1_evt_CONFIG_OK (v_basic a') = le1_evt_CONFIG_OK (v_basic a).
Lemma state_ok_tr a : tr a (le1_evt_STATE_OK i) (fun ok a' => rechecked a a' /\ ok = l1e_state_ok (v_basic a')).
Proof.
  unfold le1_evt_STATE_OK. apply tr_state. apply tr_bind.
  match goal with |- tr a ?m _ => assert (tr a m (fun _ a1 => rechecked a a1)) as Hm end.
  { apply tr_if; intros _; [apply tr_quiet_bind; [walk|]; intros s; by apply tr_setL1B|].
    apply tr_if; intros _; by apply tr_setL1B. }
  eapply tr_mono; [exact Hm|]. intros [] a1 R1. apply tr_basic, tr_ret. done.
Qed.

Lemma match_climb new a : tr a (l1e_handle_state_config_match i new) (fun _ a' => climb L1SYNC_CONFIG_MATCH a a').
Proof.
  unfold l1e_handle_state_config_match. apply tr_bind.
  match goal with |- tr a ?m _ => assert (tr a m (fun _ a1 => next a1 = next a)) as Hm end.
  { apply tr_when; intros _; [|done]. unfold l1e_enter_config_match. apply tr_rd_any. intros p _.
    apply tr_when; intros _; [|done]. apply tr_bind, tr_setL1B. apply tr_quiet_bind; [walk|]. intros _.
    apply tr_quiet_bind; [walk|]. intros _. by apply tr_ret. }
  eapply tr_mono; [exact Hm|]. intros [] a1 E1. apply tr_basic.
  apply tr_if; intros Hl; [apply tr_bind, tr_goto, tr_ret; by apply goto_climb|].
  apply tr_if; intros Hc; [apply tr_bind, tr_goto, tr_ret; by apply goto_climb|]. apply tr_bind.
  eapply tr_mono; [apply state_ok_tr|]. intros ok a2 [(N & _ & _ & L & C) ->].
  apply negb_false_iff in Hl, Hc. destruct (l1e_state_ok (v_basic a2)) eqn:Ho.
  - apply tr_bind, tr_goto, tr_ret. intros _. right. split; [done|].
    split; [exact (eq_trans L Hl)|]. split; [exact (eq_trans C Hc)|exact Ho].
  - apply tr_quiet_bind; [walk|]. intros _. apply tr_state. apply tr_if; intros _; [apply tr_ret|apply tr_quiet; [walk|]; intros _];
      apply same_climb; congruence.
Qed.

(** In UP the port stays up only while everything is in order. *)
Lemma leave_up_tr a st Q : Q (on_basic (fun d => d <| l1e_next_state := st |>) a) -> tr a (l1e_leave_up i st) (fun _ a' => Q a').
Proof.
  intros HQ. unfold l1e_leave_up. apply tr_bind, tr_goto, tr_state. apply tr_quiet_bind; [walk|]. intros _. by apply tr_ret.
Qed.
Lemma up_stays new a : v_prot a = PPSI_EXT_L1S -> v_ext a = PP_EXSTATE_ACTIVE ->
  tr a (l1e_handle_state_up i new) (fun _ a' => next a' = L1SYNC_UP -> next a = L1SYNC_UP /\ up_ok (v_basic a')).
Proof.
  intros Ha He. unfold l1e_handle_state_up. apply tr_quiet_bind; [unfold setWRH; walk|]. intros _. apply tr_basic.
  set (n1 := if negb (le1_evt_LINK_OK (v_basic a)) then L1SYNC_IDLE else 0). cbn zeta.
  apply tr_bind.
  match goal with |- tr a ?m _ =>
    assert (tr a m (fun _ a1 => n1 = L1SYNC_IDLE \/ n1 = 0 /\ a1 = a /\ le1_evt_LINK_OK (v_basic a) = true)) as Hm end.
  { subst n1. destruct (le1_evt_LINK_OK (v_basic a)); cbn [negb when].
    - apply tr_ret. by right.
    - eapply tr_mono; [by apply disable_down|]. intros [] a1 _. by left. }
  eapply tr_mono; [exact Hm|]. intros [] a1 H1. clear Hm. clearbody n1. apply tr_basic. cbn zeta. apply tr_bind.
  eapply tr_mono; [apply state_ok_tr|]. intros ok a2 [(N & X & P & L & C) ->].
  apply tr_if; intros Hn.
  - apply leave_up_tr. cbn. intros Hu. exfalso. revert Hn Hu.
    destruct H1 as [->|(-> & _)]; destruct (l1e_state_ok (v_basic a2)), (le1_evt_CONFIG_OK (v_basic a1)); cbn; done.
  - assert (n1 = 0 /\ le1_evt_CONFIG_OK (v_basic a1) = true /\ l1e_state_ok (v_basic a2) = true) as (Hz & Hc & Ho).
    { revert Hn. destruct H1 as [->|(-> & _)]; destruct (l1e_state_ok (v_basic a2)), (le1_evt_CONFIG_OK (v_basic a1)); cbn; done. }
    destruct H1 as [->|(_ & -> & Hl)]; [discriminate Hz|].
    apply tr_bind. match goal with |- tr a2 ?m _ => assert (tr a2 m (fun _ a' => a' = a2)) as Hm end.
    { apply tr_when; intros _; [|done]. apply enable_active. congruence. }
    eapply tr_mono; [exact Hm|]. intros [] a3 ->. apply tr_quiet_bind; [walk|]. intros _. apply tr_quiet; [walk|]. intros _ Hu.
    split; [congruence|]. split; [congruence|]. split; [congruence|done].
Qed.

(** ** A run *)

Lemma action_climb st f new a : le1_state_actions st = Some f -> v_prot a = PPSI_EXT_L1S ->
  (st = L1SYNC_UP -> v_ext a = PP_EXSTATE_ACTIVE) -> tr a (f i new) (fun _ a' => climb st a a').
Proof.
  unfold le1_state_actions. intros Hf Ha He.
  repeat match type of Hf with (if ?c =? ?d then _ else _) = _ =>
    destruct (Z.eqb_spec c d) as [->|_]; [injection Hf as <-|] end; [..|done].
  - apply tr_quiet; [walk|]. intros _. by apply same_climb.
  - eapply tr_mono; [apply disabled_down|]. intros x a1 D. eapply down_climb; [exact D|by right].
  - by apply idle_climb.
  - apply alive_climb.
  - apply match_climb.
  - eapply tr_mono; [apply up_stays; auto|]. intros x a1 Hu E. left. by apply Hu.
Qed.

Lemma run_climb buf len a : v_prot a = PPSI_EXT_L1S ->
  tr a (l1e_run_state_machine i buf len) (fun _ a' => climb (u8 (next a)) a a').
Proof.
  intros Ha. unfold l1e_run_state_machine. apply tr_rd_any. intros p Hp. cbn zeta.
  change (l1_basic (l1e_portDS (ext_data (id p)))) with (v_basic (l1view p)).
  change (extState (id p)) with (v_ext (l1view p)). rewrite Hp.
  apply tr_if; intros Hstop; [apply tr_ret; by apply same_climb|].
  apply tr_if; intros Hmax; [apply tr_quiet; [walk|]; intros _; by apply same_climb|].
  apply tr_bind. eapply tr_mono; [apply events_moved; apply u8_range|]. intros [] a1 (E1 & _ & E3 & E4 & E5).
  apply tr_rd_any. intros p1 Hp1. apply tr_bind.
  change (l1_basic (l1e_portDS (ext_data p1))) with (v_basic (l1view p1)). rewrite Hp1, E5.
  match goal with |- tr a1 ?m ?Q => assert (tr a1 m (fun _ a' => climb (u8 (next a)) a a')) as Hm end.
  { apply tr_if; intros _; [|apply tr_quiet; [walk|]; intros _; by apply same_climb].
    apply Z.leb_gt in Hmax. pose proof (u8_range (next a)).
    destruct (l1_actions_total (u8 (next a)) ltac:(lia)) as [f Hf]. rewrite Hf.
    eapply tr_mono; [apply (action_climb _ _ _ _ Hf); [congruence|]|].
    - intros Hup. rewrite Hup in Hstop. change (negb (L1SYNC_UP =? L1SYNC_DISABLED)) with true in Hstop. cbn [andb] in Hstop.
      apply orb_false_iff in Hstop as [Hx _]. apply negb_false_iff, bool_decide_eq_true in Hx. congruence.
    - intros x a2. unfold climb. by rewrite E1. }
  eapply tr_mono; [exact Hm|]. intros x a2 C2. apply tr_quiet_bind; [walk|]. intros _. by apply tr_ret.
Qed.

End Machine.

(** C15. L1Sync comes up only when it may: when a run of the L1Sync state machine
    first sends a port to UP, the port was in CONFIG_MATCH, its link is alive,
    its configuration equals the peer's, and every coherence and congruence it
    requires is reached by itself and by the peer. *)
Theorem l1sync_up_requires `{Config, Platform} {WO : WrhOper} {WC : WrConfig} i buf len w :
  let basic w := l1_basic (l1e_portDS (ext_data (inst w i))) in
  let b := basic w in
  let b' := basic (l1e_run_state_machine (HK := ext_hooks) i buf len w).2 in
  (i < length (insts w))%nat -> protocol_extension (inst w i) = PPSI_EXT_L1S ->
  l1e_next_state b <> L1SYNC_UP -> l1e_next_state b' = L1SYNC_UP ->
  u8 (l1e_next_state b) = L1SYNC_CONFIG_MATCH /\
  L1SyncLinkAlive b' = 1 /\
  txCoherentIsRequired b' = peerTxCoherentIsRequired b' /\ rxCoherentIsRequired b' = peerRxCoherentIsRequired b' /\
  congruentIsRequired b' = peerCongruentIsRequired b' /\
  (txCoherentIsRequired b' <> 0 -> isTxCoherent b' <> 0 /\ peerIsTxCoherent b' <> 0) /\
  (rxCoherentIsRequired b' <> 0 -> isRxCoherent b' <> 0 /\ peerIsRxCoherent b' <> 0) /\
  (congruentIsRequired b' <> 0 -> isCongruent b' <> 0 /\ peerIsCongruent b' <> 0).
Proof.
  intros basic b b' Hi Hx Hn Hn'.
  destruct (run_climb i buf len (l1view (inst w i)) Hx w Hi eq_refl) as [_ Hc].
  destruct (Hc Hn') as [?|[Hst (Hl & Hcf & Ho)]]; [done|]. split; [exact Hst|].
  change (v_basic _) with b' in Hl, Hcf, Ho. unfold le1_evt_LINK_OK, le1_evt_CONFIG_OK, l1e_state_ok, truth in *.
  rewrite ?andb_true_iff, ?orb_true_iff, ?negb_true_iff, ?andb_true_iff, ?negb_false_iff, ?negb_true_iff,
    ?Z.eqb_eq, ?Z.eqb_neq in *. intuition congruence.
Qed.

(** A port in CONFIG_MATCH whose peer is coherent. *)
Definition matched_world : @world Demo.demo_platform :=
  Demo.demo_world [(Demo.demo_inst 0 PPS_MASTER) <| protocol_extension := PPSI_EXT_L1S |>
    <| extState := PP_EXSTATE_ACTIVE |> <| tmo_cfg := replicate 20 (mk_tmo TO_RAND_NONE 500 500) |>
    <| ext_data ::= fun d => d <| l1e_portDS ::= fun l => l <| execute_state_machine := 1 |> <| l1_basic ::= fun b =>
         b <| L1SyncEnabled := 1 |> <| L1SyncLinkAlive := 1 |> <| L1SyncState := L1SYNC_CONFIG_MATCH |>
           <| l1e_next_state := L1SYNC_CONFIG_MATCH |> <| txCoherentIsRequired := 1 |>
           <| peerTxCoherentIsRequired := 1 |> <| peerIsTxCoherent := 1 |> <| L1SyncReceiptTimeout := 3 |> |> |> |>] 0.

Lemma l1sync_up_requires_witness :
  let HK := @ext_hooks Demo.demo_config Demo.demo_platform demo_oper demo_wrconfig in
  let w' := (@l1e_run_state_machine Demo.demo_config Demo.demo_platform demo_oper HK 0%nat [] 0 matched_world).2 in
  let b' := l1_basic (l1e_portDS (ext_data (@inst Demo.demo_platform w' 0%nat))) in
  l1e_next_state b' = L1SYNC_UP /\ L1SyncLinkAlive b' = 1.
Proof.
  assert (E : l1e_next_state (l1_basic (l1e_portDS (ext_data (@inst Demo.demo_platform
    (@l1e_run_state_machine Demo.demo_config Demo.demo_platform demo_oper
      (@ext_hooks Demo.demo_config Demo.demo_platform demo_oper demo_wrconfig) 0%nat [] 0 matched_world).2 0%nat)))) = L1SYNC_UP)
    by (vm_compute; reflexivity).
  cbn zeta. split; [exact E|].
  apply (@l1sync_up_requires Demo.demo_config Demo.demo_platform demo_oper demo_wrconfig 0%nat [] 0 matched_world).
  - apply Nat.lt_0_1.
  - reflexivity.
  - vm_compute. discriminate.
  - exact E.
Defined.
