(* ===== verification/Scan.v ===== *)
(** * C strings and sscanf

    A C string is the list of its characters without the final NUL.  This
    file has what lib/conf.c and lib/cmdline.c use of the C library: the
    conversions of [sscanf] ([%i], [%d] at 64 bits, and the two compound
    formats of the parser) with the saturation of [strtol] and the cast to
    the type of the argument; and the decimal printing that the round trips
    are stated with. *)

From stdpp Require Import strings.
From S2P Require Import Prelude TimeArith Types.

Definition str (s : string) : list Z :=
  map (fun c => Z.of_nat (Ascii.nat_of_ascii c)) (String.list_ascii_of_string s).

Fixpoint drop_while (f : Z -> bool) (l : list Z) : list Z :=
  match l with c :: r => if f c then drop_while f r else l | [] => [] end.
Fixpoint take_while (f : Z -> bool) (l : list Z) : list Z :=
  match l with c :: r => if f c then c :: take_while f r else [] | [] => [] end.

Lemma take_drop_while f l : take_while f l ++ drop_while f l = l.
Proof. induction l as [|c l IH]; [done|]. cbn. destruct (f c); cbn; [by rewrite IH|done]. Qed.

Lemma take_while_app f a b : forallb f a = true -> take_while f (a ++ b) = a ++ take_while f b.
Proof.
  induction a as [|c a IH]; [done|]. cbn. intros (-> & Ha)%andb_true_iff. by rewrite IH.
Qed.
Lemma drop_while_app f a b : forallb f a = true -> drop_while f (a ++ b) = drop_while f b.
Proof.
  induction a as [|c a IH]; [done|]. cbn. intros (-> & Ha)%andb_true_iff. by rewrite IH.
Qed.

(** Nothing to skip. *)
Definition starts_not (f : Z -> bool) (l : list Z) : bool :=
  match l with c :: _ => negb (f c) | [] => true end.
Lemma drop_while_none f l : starts_not f l = true -> drop_while f l = l.
Proof. destruct l as [|c l]; [done|]. cbn. by destruct (f c). Qed.
Lemma take_while_none f l : starts_not f l = true -> take_while f l = [].
Proof. destruct l as [|c l]; [done|]. cbn. by destruct (f c). Qed.
Lemma drop_while_starts f l : starts_not f (drop_while f l) = true.
Proof. induction l as [|c l IH]; [done|]. cbn. destruct (f c) eqn:E; [done|]. cbn. by rewrite E. Qed.
Lemma take_while_all f l : forallb f (take_while f l) = true.
Proof. induction l as [|c l IH]; [done|]. cbn. destruct (f c) eqn:E; [|done]. cbn. by rewrite E. Qed.
Lemma length_drop_while f l : (length (drop_while f l) <= length l)%nat.
Proof. induction l as [|c l IH]; [done|]. cbn. destruct (f c); cbn; lia. Qed.

(** Boolean comparisons in the context and the goal as propositions. *)
Ltac zbool := repeat match goal with
  | H : (_ && _) = true |- _ => apply andb_true_iff in H as [? ?]
  | H : (_ || _) = false |- _ => apply orb_false_iff in H as [? ?]
  | H : (_ <=? _) = true |- _ => apply Z.leb_le in H
  | H : (_ <? _) = true |- _ => apply Z.ltb_lt in H
  | H : (_ <=? _) = false |- _ => apply Z.leb_gt in H
  | H : (_ <? _) = false |- _ => apply Z.ltb_ge in H
  | |- (_ <? _) = false => apply Z.ltb_ge
  | |- (_ <? _) = true => apply Z.ltb_lt
  | |- (_ || _) = false => apply orb_false_iff; split
  | |- (_ =? _) = false => apply Z.eqb_neq
  end.

(** ** Conversions *)

Definition isspace (c : Z) : bool := (c =? 32) || ((9 <=? c) && (c <=? 13)).

Definition digit_value (c : Z) : option Z :=
  if (48 <=? c) && (c <=? 57) then Some (c - 48)
  else if (97 <=? c) && (c <=? 102) then Some (c - 87)
  else if (65 <=? c) && (c <=? 70) then Some (c - 55)
  else None.
Definition in_base (base c : Z) : bool :=
  match digit_value c with Some d => d <? base | None => false end.
Definition digits_value (base : Z) (ds : list Z) : Z :=
  foldl (fun acc c => acc * base + default 0 (digit_value c)) 0 ds.

(** The outcome of one conversion: end of input, no match, or a value and what is left. *)
Inductive scan_result := scan_eof | scan_fail | scan_got (v : Z) (rest : list Z).

Definition clamp (lo hi v : Z) : Z := Z.max lo (Z.min hi v).

Definition scan_sign (l : list Z) : bool * list Z :=
  match l with
  | c :: r => if c =? 45 then (true, r) else if c =? 43 then (false, r) else (false, l)
  | [] => (false, [])
  end.

(** The digits after the sign; [zero] if a zero was read as part of the prefix. *)
Definition scan_digits (lo hi : Z) (neg zero : bool) (base : Z) (l : list Z) : scan_result :=
  let ds := take_while (in_base base) l in
  let v := digits_value base ds in
  if bool_decide (ds = []) && negb zero then scan_fail
  else scan_got (clamp lo hi (if neg then - v else v)) (drop_while (in_base base) l).

(** [%i]: the base comes from the prefix. *)
Definition scan_base0 (lo hi : Z) (l : list Z) : scan_result :=
  match drop_while isspace l with
  | [] => scan_eof
  | l =>
      let '(neg, l) := scan_sign l in
      match l with
      | c :: r =>
          if c =? 48 then
            match r with
            | x :: r' => if (x =? 120) || (x =? 88) then scan_digits lo hi neg true 16 r'
                         else scan_digits lo hi neg true 8 r
            | [] => scan_digits lo hi neg true 8 r
            end
          else scan_digits lo hi neg false 10 l
      | [] => scan_fail
      end
  end.

Definition scan_map (f : Z -> Z) (r : scan_result) : scan_result :=
  match r with scan_got v rest => scan_got (f v) rest | r => r end.

Section Scanf.
Context `{Config}.

Definition LONG_MIN : Z := - (LONG_MODULUS / 2).
Definition LONG_MAX : Z := LONG_MODULUS / 2 - 1.

(** [sscanf(l, "%i", &i)]: the value of [strtol], stored in an [int]. *)
Definition scan_i (l : list Z) : scan_result := scan_map i32 (scan_base0 LONG_MIN LONG_MAX l).

(** [sscanf(l, "%" SCNd64, &i64)] *)
Definition scan_d64 (l : list Z) : scan_result :=
  match drop_while isspace l with
  | [] => scan_eof
  | l => let '(neg, l) := scan_sign l in scan_digits INT64_MIN INT64_MAX neg false 10 l
  end.

(** [sscanf(l, "%i,%i", a, b)]: the value returned and what was stored. *)
Definition scan_i_i (l : list Z) : Z * option Z * option Z :=
  match scan_i l with
  | scan_eof => (-1, None, None)
  | scan_fail => (0, None, None)
  | scan_got a (44 :: r) =>
      match scan_i r with scan_got b _ => (2, Some a, Some b) | _ => (1, Some a, None) end
  | scan_got a _ => (1, Some a, None)
  end.

(** [sscanf(l, "%i %c", v, &ch)] *)
Definition scan_i_c (l : list Z) : Z * option Z * option Z :=
  match scan_i l with
  | scan_eof => (-1, None, None)
  | scan_fail => (0, None, None)
  | scan_got v r =>
      match drop_while isspace r with
      | c :: _ => (2, Some v, Some c)
      | [] => (1, Some v, None)
      end
  end.

End Scanf.

(** ** Decimal printing *)

Fixpoint dec_digits (fuel : nat) (n : Z) : list Z :=
  match fuel with
  | O => []
  | S fuel => (if n <? 10 then [] else dec_digits fuel (n / 10)) ++ [48 + n mod 10]
  end.

(** Twenty digits are enough for 64 bits. *)
Definition show (z : Z) : list Z := if z <? 0 then 45 :: dec_digits 20 (- z) else dec_digits 20 z.

Definition is_dec (c : Z) : bool := (48 <=? c) && (c <=? 57).

Lemma dec_in_base c : is_dec c = true -> in_base 10 c = true /\ digit_value c = Some (c - 48).
Proof.
  unfold is_dec, in_base, digit_value. intros Hc. rewrite Hc. split; [|done].
  apply andb_true_iff in Hc as [H1 H2]. apply Z.leb_le in H1, H2. apply Z.ltb_lt. lia.
Qed.

Lemma digits_value_snoc base ds c :
  digits_value base (ds ++ [c]) = digits_value base ds * base + default 0 (digit_value c).
Proof. unfold digits_value. by rewrite foldl_app. Qed.

Lemma dec_char n : is_dec (48 + n mod 10) = true.
Proof. unfold is_dec. pose proof (Z.mod_pos_bound n 10). apply andb_true_iff. split; apply Z.leb_le; lia. Qed.

Lemma dec_digits_ok fuel n : (0 < fuel)%nat -> 0 <= n < 10 ^ Z.of_nat fuel ->
  forallb is_dec (dec_digits fuel n) = true /\ digits_value 10 (dec_digits fuel n) = n /\
  exists c r, dec_digits fuel n = c :: r /\ (n <> 0 -> c <> 48) /\ (n = 0 -> r = []).
Proof.
  revert n. induction fuel as [|fuel IH]; intros n Hf Hn; [lia|]. cbn [dec_digits].
  destruct (dec_in_base _ (dec_char n)) as [_ Ev].
  destruct (Z.ltb_spec n 10) as [Hlt|Hge].
  - cbn [app forallb]. rewrite dec_char, Z.mod_small by lia. split_and!; [done| |].
    + unfold digits_value. cbn [foldl]. rewrite Z.mod_small in Ev by lia. rewrite Ev. cbn. lia.
    + eexists _, _. split; [done|]. split; [lia|done].
  - destruct fuel as [|fuel']; [cbn in Hn; lia|].
    destruct (IH (n / 10)) as (I1 & I2 & c & r & I3 & I4 & _); [lia| |].
    { rewrite Nat2Z.inj_succ, Z.pow_succ_r in Hn by lia. split; [dlia|]. apply Z.div_lt_upper_bound; lia. }
    split_and!.
    + rewrite forallb_app, I1. cbn [forallb]. by rewrite dec_char.
    + rewrite digits_value_snoc, I2, Ev. cbn. dlia.
    + rewrite I3. exists c, (r ++ [48 + n mod 10]). split_and!; [done| |lia].
      intros _. apply I4. dlia.
Qed.

Arguments dec_digits : simpl never.

(** What is no decimal digit is none of a smaller base either. *)
Lemma starts_not_base base l : base <= 10 -> starts_not is_dec l = true -> starts_not (in_base base) l = true.
Proof.
  intros Hb. destruct l as [|c l]; [done|]. cbn. unfold is_dec, in_base, digit_value.
  destruct ((48 <=? c) && (c <=? 57)); [done|]. intros _.
  destruct ((97 <=? c) && (c <=? 102)) eqn:E1; [|destruct ((65 <=? c) && (c <=? 70)) eqn:E2; [|done]];
    apply negb_true_iff; zbool; lia.
Qed.

Lemma take_while_dec ds rest : forallb is_dec ds = true -> starts_not is_dec rest = true ->
  take_while (in_base 10) (ds ++ rest) = ds /\ drop_while (in_base 10) (ds ++ rest) = rest.
Proof.
  intros Hd Hr. assert (forallb (in_base 10) ds = true) as Hb.
  { rewrite forallb_forall in *. intros x Hx. by apply dec_in_base, Hd. }
  assert (starts_not (in_base 10) rest = true) as Hs.
  { by apply starts_not_base. }
  rewrite take_while_app, drop_while_app, take_while_none, drop_while_none, app_nil_r by done. done.
Qed.

(** A number printed, followed by something that is not a digit, is scanned back. *)
Definition scans (lo hi : Z) (scan : list Z -> scan_result) : Prop :=
  forall n rest, lo <= n <= hi -> - 10 ^ 20 < n < 10 ^ 20 ->
  starts_not (fun c => is_dec c || (c =? 120) || (c =? 88)) rest = true -> scan (show n ++ rest) = scan_got n rest.

Lemma starts_not_dec rest : starts_not (fun c => is_dec c || (c =? 120) || (c =? 88)) rest = true ->
  starts_not is_dec rest = true.
Proof. destruct rest as [|c r]; [done|]. cbn. by destruct (is_dec c). Qed.

Lemma scan_digits_show lo hi (neg : bool) n rest : 0 <= n < 10 ^ 20 ->
  lo <= (if neg then - n else n) <= hi -> starts_not is_dec rest = true ->
  scan_digits lo hi neg false 10 (dec_digits 20 n ++ rest) = scan_got (if neg then - n else n) rest.
Proof.
  intros Hn Hr Hs. destruct (dec_digits_ok 20 n) as (D1 & D2 & c & r & D3 & _); [lia|done|].
  destruct (take_while_dec _ rest D1 Hs) as [T1 T2]. unfold scan_digits. rewrite T1, T2, D2, D3.
  cbn. f_equal. unfold clamp. destruct neg; lia.
Qed.

(** The first character printed. *)
Lemma show_cons n rest : - 10 ^ 20 < n < 10 ^ 20 -> exists c r,
  show n ++ rest = c :: r /\ isspace c = false /\ (is_dec c = true \/ c = 45).
Proof.
  intros Hn. unfold show. destruct (Z.ltb_spec n 0).
  { eexists _, _. cbn [app]. split; [done|]. auto. }
  destruct (dec_digits_ok 20 n) as (D1 & _ & c & r & D3 & _); [lia..|]. rewrite D3 in *. cbn in D1 |- *.
  apply andb_true_iff in D1 as [Dc _]. eexists _, _. split; [done|]. split; [|auto].
  unfold is_dec, isspace in *. zbool; [lia|]. apply andb_false_iff. right. apply Z.leb_gt. lia.
Qed.

Lemma scan_sign_show n rest : - 10 ^ 20 < n < 10 ^ 20 ->
  scan_sign (show n ++ rest) = (n <? 0, dec_digits 20 (Z.abs n) ++ rest).
Proof.
  intros Hn. unfold show. destruct (Z.ltb_spec n 0); [by rewrite Z.abs_neq by lia|].
  rewrite Z.abs_eq by lia. destruct (dec_digits_ok 20 n) as (D1 & _ & c & r & D3 & _); [lia..|].
  rewrite D3 in *. cbn in D1 |- *. apply andb_true_iff in D1 as [Dc _]. unfold is_dec in Dc. zbool.
  destruct (Z.eqb_spec c 45); [lia|]. destruct (Z.eqb_spec c 43); [lia|done].
Qed.

Lemma signed_abs n : (if n <? 0 then - Z.abs n else Z.abs n) = n.
Proof. destruct (Z.ltb_spec n 0); lia. Qed.

Lemma scans_base0 lo hi : lo <= 0 <= hi -> scans lo hi (scan_base0 lo hi).
Proof.
  intros H0 n rest Hr Hn Hs. destruct (show_cons n rest Hn) as (c & r & E & Hc & _).
  unfold scan_base0. rewrite drop_while_none by (rewrite E; cbn; by rewrite Hc).
  rewrite E, <- E, scan_sign_show by done. cbn zeta beta iota.
  pose proof (starts_not_dec _ Hs) as Hd.
  pose proof (scan_digits_show lo hi (n <? 0) (Z.abs n) rest ltac:(lia) ltac:(by rewrite signed_abs) Hd) as Hsd.
  rewrite signed_abs in Hsd.
  destruct (dec_digits_ok 20 (Z.abs n)) as (D1 & D2 & c' & r' & D3 & D4 & D5); [lia..|]. rewrite D3 in *.
  cbn [app] in *. destruct (Z.eqb_spec c' 48) as [->|]; [|done].
  assert (n = 0) as -> by (destruct (decide (n = 0)); [done|]; destruct D4; lia). rewrite D5 by done. cbn [app].
  assert (scan_digits lo hi false true 8 rest = scan_got 0 rest) as H8.
  { unfold scan_digits. rewrite take_while_none, drop_while_none by (by apply starts_not_base).
    cbn. f_equal. unfold clamp. lia. }
  change (0 <? 0) with false. destruct rest as [|x rest]; [done|].
  destruct ((x =? 120) || (x =? 88)) eqn:Ex; [|done].
  cbn in Hs. destruct (is_dec x); [done|]. cbn in Hs. by rewrite Ex in Hs.
Qed.

Lemma scans_i `{Config} : scans (- 2147483648) 2147483647 scan_i.
Proof.
  intros n rest Hr Hn Hs. unfold scan_i. rewrite (scans_base0 LONG_MIN LONG_MAX); [|..|done|done].
  - cbn. by rewrite i32_id by lia.
  - unfold LONG_MIN, LONG_MAX. destruct long_width as [-> | ->]; dlia.
  - unfold LONG_MIN, LONG_MAX. destruct long_width as [-> | ->]; dlia.
Qed.

Lemma scans_d64 `{Config} : scans INT64_MIN INT64_MAX scan_d64.
Proof.
  intros n rest Hr Hn Hs. destruct (show_cons n rest Hn) as (c & r & E & Hc & _).
  unfold scan_d64. rewrite drop_while_none by (rewrite E; cbn; by rewrite Hc).
  rewrite E, <- E, scan_sign_show by done.
  rewrite (scan_digits_show INT64_MIN INT64_MAX (n <? 0) (Z.abs n) rest);
    rewrite ?signed_abs; auto using starts_not_dec. lia.
Qed.
