(* ===== verification/Conf.v ===== *)
(** * The configuration parser: lib/conf.c

    The tables of options, the handlers that store a value, the parser of a
    line and of a whole text, and the reading of a file.

    The parser addresses the member it stores to by [offsetof]: a member is
    a constructor here, and the base it is added to is the current instance
    or the run-time options, whichever [needs_port] says.  A store that is
    outside the object the member belongs to (a member of [struct
    pp_globals] added to the run-time options, a [strcpy] past the end of a
    name) is recorded in [cf_wild]; what it destroys depends on the layout
    of memory and is not modelled, so theorems say nothing after one. *)

From stdpp Require Import strings.
From S2P Require Import Prelude TimeArith Types World Scan.

(** ** Parameters: build options, [double] and what the stack holds

    [scan_lf] is [sscanf] with ["%lf"]: no result at the end of the input,
    [Some None] when nothing matches.  [stack_i2] and [stack_d] are the
    contents of the uninitialised [cfg_arg] when a line is parsed;
    [double_to_reldiff d] is [(RelativeDifference)(d * REL_DIFF_TWO_POW_FRACBITS)]. *)
Class ConfBuild `{Config} := {
  CONFIG_HAS_PROFILE_WR : bool;
  CONFIG_HAS_PROFILE_HA : bool;
  CONFIG_HAS_PROFILE_CUSTOM : bool;
  CONFIG_HAS_EXT_L1SYNC : bool;
  PP_MAX_LINKS : Z;
  double : Type;
  double_of_Z : Z -> double;
  double_lt : double -> double -> bool;
  double_to_reldiff : double -> Z;
  scan_lf : list Z -> option (option double);
  stack_i2 : list Z -> Z * Z;
  stack_d : list Z -> double;
  max_links_range : 1 <= PP_MAX_LINKS < 65536;
  vlan_size_nonneg : 0 <= CONFIG_VLAN_ARRAY_SIZE }.

(** ** Constants *)

Definition PPSI_PROFILE_PTP : Z := 0.
Definition PPSI_PROFILE_WR : Z := 1.
Definition PPSI_PROFILE_HA : Z := 2.
Definition PPSI_PROFILE_CUSTOM : Z := 3.
Definition PP_MIN_SYNC_INTERVAL : Z := -1.
Definition PP_MAX_SYNC_INTERVAL : Z := 1.
Definition PP_MIN_ANNOUNCE_INTERVAL : Z := 0.
Definition PP_MAX_ANNOUNCE_INTERVAL : Z := 4.
Definition PP_MIN_ANNOUNCE_RECEIPT_TIMEOUT : Z := 2.
Definition PP_MAX_ANNOUNCE_RECEIPT_TIMEOUT : Z := 255.
Definition PP_MIN_MIN_DELAY_REQ_INTERVAL : Z := 0.
Definition PP_MAX_MIN_DELAY_REQ_INTERVAL : Z := 5.
Definition PP_MIN_MIN_PDELAY_REQ_INTERVAL : Z := 0.
Definition PP_MAX_MIN_PDELAY_REQ_INTERVAL : Z := 5.
Definition L1E_MIN_L1SYNC_INTERVAL : Z := -4.
Definition L1E_MAX_L1SYNC_INTERVAL : Z := 4.
Definition L1E_MIN_L1SYNC_RECEIPT_TIMEOUT : Z := 2.
Definition L1E_MAX_L1SYNC_RECEIPT_TIMEOUT : Z := 10.
Definition PP_MIN_DELAY_COEFFICIENT_AS_RELDIFF : Z := - 2 ^ 62.
Definition PP_MAX_DELAY_COEFFICIENT_AS_RELDIFF : Z := 2 ^ 62.
Definition INT_MIN : Z := -2147483648.

(** ** What the parser writes *)

(** The numeric members of [struct pp_instance] and its [cfg]. *)
Inductive inst_field :=
  | F_proto | F_profile | F_delayMechanism | F_announce_interval | F_announce_receipt_timeout
  | F_sync_interval | F_min_delay_req_interval | F_min_pdelay_req_interval
  | F_l1SyncEnabled | F_l1SyncRxCoherentIsRequired | F_l1SyncTxCoherentIsRequired
  | F_l1SyncCongruentIsRequired | F_l1SyncOptParamsEnabled | F_l1syncInterval | F_l1syncReceiptTimeout
  | F_l1SyncOptParamsTimestampsCorrectedTx
  | F_egressLatency_ps | F_ingressLatency_ps | F_constantAsymmetry_ps | F_scaledDelayCoefficient
  | F_desiredState | F_masterOnly | F_asymmetryCorrectionEnable.
(** The members of [struct pp_runtime_opts] with an option. *)
Inductive opt_field :=
  | O_clockClass | O_clockAccuracy | O_offsetScaledLogVariance | O_timeSource | O_domainNumber
  | O_priority1 | O_priority2 | O_ptpPpsThresholdMs | O_gmDelayToGenPpsSec
  | O_externalPortConfigurationEnabled | O_slaveOnly | O_forcePpsGen | O_ptpFallbackPpsGen.
Inductive glob_field := G_rxdrop | G_txdrop.
#[export] Instance inst_field_eq_dec : EqDecision inst_field.
Proof. solve_decision. Defined.
#[export] Instance opt_field_eq_dec : EqDecision opt_field.
Proof. solve_decision. Defined.

(** The argument of [offsetof]; [m_cfg] is the unused one of [INST_OPTION_FCT]. *)
Inductive member :=
  | m_inst (f : inst_field) | m_cfg | m_iface_name | m_delayCoefficient
  | m_opt (f : opt_field) | m_glob (f : glob_field).

Section Model.
Context `{Config} `{!ConfBuild}.

(** [struct pp_instance_cfg], and the members of [struct pp_instance] the parser writes. *)
Record port_conf := mk_pc {
  pc_port_name : list Z; pc_iface_name : list Z;
  pc_proto : Z; pc_profile : Z; pc_delayMechanism : Z; pc_announce_interval : Z;
  pc_announce_receipt_timeout : Z; pc_sync_interval : Z; pc_min_delay_req_interval : Z;
  pc_min_pdelay_req_interval : Z; pc_l1SyncEnabled : Z; pc_l1SyncRxCoherentIsRequired : Z;
  pc_l1SyncTxCoherentIsRequired : Z; pc_l1SyncCongruentIsRequired : Z; pc_l1SyncOptParamsEnabled : Z;
  pc_l1syncInterval : Z; pc_l1syncReceiptTimeout : Z; pc_l1SyncOptParamsTimestampsCorrectedTx : Z;
  pc_egressLatency_ps : Z; pc_ingressLatency_ps : Z; pc_constantAsymmetry_ps : Z;
  pc_delayCoefficient : double; pc_scaledDelayCoefficient : Z; pc_desiredState : Z;
  pc_masterOnly : Z; pc_asymmetryCorrectionEnable : Z;
  pc_vlans : list Z; pc_nvlans : Z; pc_d_flags : Z }.
#[global] Instance eta_pc : Eta port_conf := fun p =>
  mk_pc (pc_port_name p) (pc_iface_name p) (pc_proto p) (pc_profile p) (pc_delayMechanism p)
    (pc_announce_interval p) (pc_announce_receipt_timeout p) (pc_sync_interval p)
    (pc_min_delay_req_interval p) (pc_min_pdelay_req_interval p) (pc_l1SyncEnabled p)
    (pc_l1SyncRxCoherentIsRequired p) (pc_l1SyncTxCoherentIsRequired p) (pc_l1SyncCongruentIsRequired p)
    (pc_l1SyncOptParamsEnabled p) (pc_l1syncInterval p) (pc_l1syncReceiptTimeout p)
    (pc_l1SyncOptParamsTimestampsCorrectedTx p) (pc_egressLatency_ps p) (pc_ingressLatency_ps p)
    (pc_constantAsymmetry_ps p) (pc_delayCoefficient p) (pc_scaledDelayCoefficient p) (pc_desiredState p)
    (pc_masterOnly p) (pc_asymmetryCorrectionEnable p) (pc_vlans p) (pc_nvlans p) (pc_d_flags p).

Definition get_num (f : inst_field) (p : port_conf) : Z :=
  match f with
  | F_proto => pc_proto p | F_profile => pc_profile p | F_delayMechanism => pc_delayMechanism p
  | F_announce_interval => pc_announce_interval p
  | F_announce_receipt_timeout => pc_announce_receipt_timeout p
  | F_sync_interval => pc_sync_interval p
  | F_min_delay_req_interval => pc_min_delay_req_interval p
  | F_min_pdelay_req_interval => pc_min_pdelay_req_interval p
  | F_l1SyncEnabled => pc_l1SyncEnabled p
  | F_l1SyncRxCoherentIsRequired => pc_l1SyncRxCoherentIsRequired p
  | F_l1SyncTxCoherentIsRequired => pc_l1SyncTxCoherentIsRequired p
  | F_l1SyncCongruentIsRequired => pc_l1SyncCongruentIsRequired p
  | F_l1SyncOptParamsEnabled => pc_l1SyncOptParamsEnabled p
  | F_l1syncInterval => pc_l1syncInterval p
  | F_l1syncReceiptTimeout => pc_l1syncReceiptTimeout p
  | F_l1SyncOptParamsTimestampsCorrectedTx => pc_l1SyncOptParamsTimestampsCorrectedTx p
  | F_egressLatency_ps => pc_egressLatency_ps p | F_ingressLatency_ps => pc_ingressLatency_ps p
  | F_constantAsymmetry_ps => pc_constantAsymmetry_ps p
  | F_scaledDelayCoefficient => pc_scaledDelayCoefficient p
  | F_desiredState => pc_desiredState p | F_masterOnly => pc_masterOnly p
  | F_asymmetryCorrectionEnable => pc_asymmetryCorrectionEnable p
  end.

Definition set_num (f : inst_field) (v : Z) (p : port_conf) : port_conf :=
  match f with
  | F_proto => p <| pc_proto := v |> | F_profile => p <| pc_profile := v |>
  | F_delayMechanism => p <| pc_delayMechanism := v |>
  | F_announce_interval => p <| pc_announce_interval := v |>
  | F_announce_receipt_timeout => p <| pc_announce_receipt_timeout := v |>
  | F_sync_interval => p <| pc_sync_interval := v |>
  | F_min_delay_req_interval => p <| pc_min_delay_req_interval := v |>
  | F_min_pdelay_req_interval => p <| pc_min_pdelay_req_interval := v |>
  | F_l1SyncEnabled => p <| pc_l1SyncEnabled := v |>
  | F_l1SyncRxCoherentIsRequired => p <| pc_l1SyncRxCoherentIsRequired := v |>
  | F_l1SyncTxCoherentIsRequired => p <| pc_l1SyncTxCoherentIsRequired := v |>
  | F_l1SyncCongruentIsRequired => p <| pc_l1SyncCongruentIsRequired := v |>
  | F_l1SyncOptParamsEnabled => p <| pc_l1SyncOptParamsEnabled := v |>
  | F_l1syncInterval => p <| pc_l1syncInterval := v |>
  | F_l1syncReceiptTimeout => p <| pc_l1syncReceiptTimeout := v |>
  | F_l1SyncOptParamsTimestampsCorrectedTx => p <| pc_l1SyncOptParamsTimestampsCorrectedTx := v |>
  | F_egressLatency_ps => p <| pc_egressLatency_ps := v |>
  | F_ingressLatency_ps => p <| pc_ingressLatency_ps := v |>
  | F_constantAsymmetry_ps => p <| pc_constantAsymmetry_ps := v |>
  | F_scaledDelayCoefficient => p <| pc_scaledDelayCoefficient := v |>
  | F_desiredState => p <| pc_desiredState := v |> | F_masterOnly => p <| pc_masterOnly := v |>
  | F_asymmetryCorrectionEnable => p <| pc_asymmetryCorrectionEnable := v |>
  end.

Definition get_opt (f : opt_field) (o : pp_runtime_opts) : Z :=
  match f with
  | O_clockClass => opt_clockClass o | O_clockAccuracy => opt_clockAccuracy o
  | O_offsetScaledLogVariance => opt_offsetScaledLogVariance o | O_timeSource => opt_timeSource o
  | O_domainNumber => opt_domainNumber o | O_priority1 => opt_priority1 o
  | O_priority2 => opt_priority2 o | O_ptpPpsThresholdMs => opt_ptpPpsThresholdMs o
  | O_gmDelayToGenPpsSec => opt_gmDelayToGenPpsSec o
  | O_externalPortConfigurationEnabled => opt_externalPortConfigurationEnabled o
  | O_slaveOnly => opt_slaveOnly o | O_forcePpsGen => opt_forcePpsGen o
  | O_ptpFallbackPpsGen => opt_ptpFallbackPpsGen o
  end.

Definition set_opt (f : opt_field) (v : Z) (o : pp_runtime_opts) : pp_runtime_opts :=
  match f with
  | O_clockClass => o <| opt_clockClass := v |> | O_clockAccuracy => o <| opt_clockAccuracy := v |>
  | O_offsetScaledLogVariance => o <| opt_offsetScaledLogVariance := v |>
  | O_timeSource => o <| opt_timeSource := v |> | O_domainNumber => o <| opt_domainNumber := v |>
  | O_priority1 => o <| opt_priority1 := v |> | O_priority2 => o <| opt_priority2 := v |>
  | O_ptpPpsThresholdMs => o <| opt_ptpPpsThresholdMs := v |>
  | O_gmDelayToGenPpsSec => o <| opt_gmDelayToGenPpsSec := v |>
  | O_externalPortConfigurationEnabled => o <| opt_externalPortConfigurationEnabled := v |>
  | O_slaveOnly => o <| opt_slaveOnly := v |> | O_forcePpsGen => o <| opt_forcePpsGen := v |>
  | O_ptpFallbackPpsGen => o <| opt_ptpFallbackPpsGen := v |>
  end.

(** The part of [struct pp_globals] the parser works on: the instances, how many are in use,
    [ppg->cfg], the run-time options, and the global [pp_global_d_flags]. *)
Record conf := mk_conf {
  cf_ports : list port_conf; cf_nlinks : Z; cf_max_links : Z; cf_cfg_items : Z; cf_cur_ppi_n : Z;
  cf_opts : pp_runtime_opts; cf_rxdrop : Z; cf_txdrop : Z; cf_global_d_flags : Z; cf_wild : bool }.
#[global] Instance eta_conf : Eta conf := fun c =>
  mk_conf (cf_ports c) (cf_nlinks c) (cf_max_links c) (cf_cfg_items c) (cf_cur_ppi_n c) (cf_opts c)
    (cf_rxdrop c) (cf_txdrop c) (cf_global_d_flags c) (cf_wild c).

(** [CUR_PPI]: whether there is a current instance, and a store to it. *)
Definition has_ppi (c : conf) : bool := 0 <=? cf_cur_ppi_n c.
Definition cur_port (c : conf) : option port_conf :=
  if has_ppi c then cf_ports c !! Z.to_nat (cf_cur_ppi_n c) else None.
Definition on_port (g : port_conf -> port_conf) (c : conf) : conf :=
  c <| cf_ports ::= alter g (Z.to_nat (cf_cur_ppi_n c)) |>.
Definition wild (c : conf) : conf := c <| cf_wild := true |>.

(** [strcpy] into one of the two names, which have room for 15 characters. *)
Definition NAME_SIZE : nat := 16.
Definition strcpy_name (set : list Z -> port_conf -> port_conf) (s : list Z) (c : conf) : conf :=
  let c := on_port (set s) c in
  if bool_decide (NAME_SIZE <= length s)%nat then wild c else c.

(** ** Options *)

Record pp_argname := mk_name { an_name : list Z; an_value : Z }.

Inductive pp_argtype :=
  ARG_NONE | ARG_INT | ARG_INT2 | ARG_STR | ARG_NAMES | ARG_TIME | ARG_DOUBLE | ARG_INT64.

(** [union pp_cfg_arg], by the member written last. *)
Inductive pp_cfg_arg :=
  | a_none | a_i (i : Z) | a_i2 (i j : Z) | a_i64 (i : Z) | a_d (d : double) | a_s (s : list Z)
  | a_ts (sec nsec : Z).

Inductive cfg_handler :=
  | h_port | h_simple_int | h_simple_int64 | h_simple_double | h_simple_bool | h_string
  | h_diag | h_vlan | h_servo_pi.

Record pp_argline := mk_arg {
  al_f : cfg_handler; al_keyword : list Z; al_t : pp_argtype; al_args : list pp_argname;
  al_field : member; al_needs_port : bool; al_min : Z; al_max : Z }.

(** ** Handlers *)

(** [CHECK_PPI] passes. *)
Definition CHECK_PPI (need : bool) (c : conf) : bool := Bool.eqb need (has_ppi c).

(** The index of the port with this name among the first [n], as the loop of [f_port] finds it. *)
Fixpoint find_port (s : list Z) (ports : list port_conf) (n : nat) : option nat :=
  match n, ports with
  | S n, p :: ports => if bool_decide (s = pc_port_name p) then Some O else S <$> find_port s ports n
  | _, _ => None
  end.

Definition f_port (c : conf) (arg : pp_cfg_arg) : conf * Z :=
  match arg with
  | a_s s =>
      match find_port s (cf_ports c) (Z.to_nat (cf_nlinks c)) with
      | Some i => (c <| cf_cur_ppi_n := Z.of_nat i |>, 0)
      | None =>
          if cf_max_links c <=? cf_nlinks c then (c <| cf_cur_ppi_n := -1 |>, -1)
          else
            let c := c <| cf_cur_ppi_n := cf_nlinks c |> in
            let c := strcpy_name (fun s p => p <| pc_port_name := s |>) s c in
            let c := strcpy_name (fun s p => p <| pc_iface_name := s |>) s c in
            (c <| cf_nlinks ::= fun n => i32 (n + 1) |>, 0)
      end
  | _ => (c, 0)
  end.

(** [dest + l->field_offset]: the member of the base [needs_port] selects, or another place. *)
Definition store_num (l : pp_argline) (v : Z) (c : conf) : conf :=
  match al_field l, al_needs_port l with
  | m_inst f, true => on_port (set_num f v) c
  | m_opt f, false => c <| cf_opts ::= set_opt f v |>
  | _, _ => wild c
  end.

Definition ASSIGN_INT_FIELD (l : pp_argline) (v : Z) (c : conf) : conf :=
  if (v <? al_min l) || (al_max l <? v) then c else store_num l v c.

Definition f_simple_int (l : pp_argline) (c : conf) (arg : pp_cfg_arg) : conf * Z :=
  match arg with
  | a_i i => if CHECK_PPI (al_needs_port l) c then (ASSIGN_INT_FIELD l i c, 0) else (c, -1)
  | _ => (c, 0)
  end.

Definition f_simple_int64 (l : pp_argline) (c : conf) (arg : pp_cfg_arg) : conf * Z :=
  match arg with
  | a_i64 i => if CHECK_PPI (al_needs_port l) c then (ASSIGN_INT_FIELD l i c, 0) else (c, -1)
  | _ => (c, 0)
  end.

(** The limits of the only option of this kind are -1.0 and 1.0. *)
Definition ASSIGN_DOUBLE_FIELD (l : pp_argline) (v : double) (c : conf) : conf :=
  if double_lt v (double_of_Z (al_min l)) || double_lt (double_of_Z (al_max l)) v then c
  else match al_field l, al_needs_port l with
       | m_delayCoefficient, true => on_port (fun p => p <| pc_delayCoefficient := v |>) c
       | _, _ => wild c
       end.

Definition f_simple_double (l : pp_argline) (c : conf) (arg : pp_cfg_arg) : conf * Z :=
  match arg with
  | a_d d => if CHECK_PPI (al_needs_port l) c then (ASSIGN_DOUBLE_FIELD l d c, 0) else (c, -1)
  | _ => (c, 0)
  end.

(** [arg->b] after [arg->i] was written: the first byte of the [int]. *)
Definition arg_b (i : Z) : Z := if BIG_ENDIAN_HOST then u8 (Z.shiftr (u32 i) 24) else u8 i.

Definition f_simple_bool (l : pp_argline) (c : conf) (arg : pp_cfg_arg) : conf * Z :=
  match arg with
  | a_i i => if CHECK_PPI (al_needs_port l) c then (store_num l (arg_b i) c, 0) else (c, -1)
  | _ => (c, 0)
  end.

Definition f_string (l : pp_argline) (c : conf) (arg : pp_cfg_arg) : conf * Z :=
  match arg with
  | a_s s =>
      if CHECK_PPI (al_needs_port l) c then
        (match al_field l, al_needs_port l with
         | m_iface_name, true => strcpy_name (fun s p => p <| pc_iface_name := s |>) s c
         | _, _ => wild c
         end, 0)
      else (c, -1)
  | _ => (c, 0)
  end.

(** [pp_diag_parse] of diag.c: a nibble per digit, from the top. *)
Definition DIAG_THINGS : Z := 7.
Fixpoint diag_loop (s : list Z) (i res : Z) : Z :=
  match s with
  | c :: r =>
      if (32 - 4 * DIAG_THINGS <=? i) && negb ((c <? 48) || (51 <? c))
      then diag_loop r (i - 4) (Z.lor res (Z.shiftl (c - 48) i))
      else res
  | [] => res
  end.
Definition pp_diag_parse (s : list Z) : Z := diag_loop s 28 0.

Definition f_diag (c : conf) (arg : pp_cfg_arg) : conf * Z :=
  match arg with
  | a_s s =>
      let level := pp_diag_parse s in
      (if has_ppi c then on_port (fun p => p <| pc_d_flags := level |>) c
       else c <| cf_global_d_flags := level |>, 0)
  | _ => (c, 0)
  end.

(** The loop of [f_vlan]: the array as it is left, and the value of [n] at the exit, or an error. *)
Inductive vlan_exit := vlan_done (n : Z) | vlan_error.
Definition after_comma (s : list Z) : list Z := tail (drop_while (fun c => negb (c =? 44)) s).
Fixpoint vlan_loop (slots : nat) (s : list Z) (n : nat) (v : list Z) : list Z * vlan_exit :=
  match slots with
  | O => (v, vlan_done (Z.of_nat n))
  | S slots =>
      match scan_i_c s with
      | (i, got, ch) =>
          let v := match got with Some x => <[n := x]> v | None => v end in
          if i =? 0 then (v, vlan_done (Z.of_nat n))
          else
            let vn := nth n v 0 in
            if (4095 <? vn) || (vn <? 0) then (v, vlan_error)
            else if (i =? 2) && negb (bool_decide (ch = Some 44)) then (v, vlan_error)
            else if i =? 2 then vlan_loop slots (after_comma s) (S n) v
            else (v, vlan_done (Z.of_nat n))
      end
  end.

Definition f_vlan (c : conf) (arg : pp_cfg_arg) : conf * Z :=
  match arg, cur_port c with
  | a_s s, Some p =>
      if pc_proto p =? PPSI_PROTO_UDP then (c, -1)
      else if CONFIG_VLAN_ARRAY_SIZE =? 0 then (c, 0)
      else
        let '(v, e) := vlan_loop (Z.to_nat CONFIG_VLAN_ARRAY_SIZE) s 0 (pc_vlans p) in
        let c := on_port (fun p => p <| pc_vlans := v |>) c in
        match e with
        | vlan_error => (c, -1)
        | vlan_done n =>
            if n =? CONFIG_VLAN_ARRAY_SIZE then (c, -1)
            else (on_port (fun p => p <| pc_nvlans := n + 1 |> <| pc_proto := PPSI_PROTO_VLAN |>) c, 0)
        end
  | _, _ => (c, -1)
  end.

(** [ap] and [ai] are [Integer16]. *)
Definition f_servo_pi (c : conf) (arg : pp_cfg_arg) : conf * Z :=
  match arg with
  | a_i2 n1 n2 =>
      if CHECK_PPI false c then
        if (n1 <? 1) || (n2 <? 1) then (c, -1)
        else (c <| cf_opts ::= fun o => o <| opt_ap := i16 n1 |> <| opt_ai := i16 n2 |> |>, 0)
      else (c, -1)
  | _ => (c, 0)
  end.

(** [l->f(l, lineno, ppg, &cfg_arg)] *)
Definition call_handler (l : pp_argline) (c : conf) (arg : pp_cfg_arg) : conf * Z :=
  match al_f l with
  | h_port => f_port c arg
  | h_simple_int => f_simple_int l c arg
  | h_simple_int64 => f_simple_int64 l c arg
  | h_simple_double => f_simple_double l c arg
  | h_simple_bool => f_simple_bool l c arg
  | h_string => f_string l c arg
  | h_diag => f_diag c arg
  | h_vlan => f_vlan c arg
  | h_servo_pi => f_servo_pi c arg
  end.

(** ** Tables *)

Definition arg_proto : list pp_argname := [mk_name (str "raw") PPSI_PROTO_RAW; mk_name (str "udp") PPSI_PROTO_UDP].

Definition STR_BOOL_TRUE : list Z := str "t true 1 on y yes".
Definition STR_BOOL_FALSE : list Z := str "f false 0 off n no".
Definition arg_bool : list pp_argname := [mk_name STR_BOOL_TRUE 1; mk_name STR_BOOL_FALSE 0].
Definition arg_bool_true : list pp_argname := [mk_name STR_BOOL_TRUE 1].
Definition arg_bool_false : list pp_argname := [mk_name STR_BOOL_FALSE 0].

Definition arg_states : list pp_argname :=
  [mk_name (str "initializing") PPS_INITIALIZING; mk_name (str "faulty") PPS_FAULTY;
   mk_name (str "disabled") PPS_DISABLED; mk_name (str "listening") PPS_LISTENING;
   mk_name (str "pre_master") PPS_PRE_MASTER; mk_name (str "master") PPS_MASTER;
   mk_name (str "passive") PPS_PASSIVE; mk_name (str "uncalibrated") PPS_UNCALIBRATED;
   mk_name (str "slave") PPS_SLAVE].

(** [#if cond] around entries of a table. *)
Definition ifdef {A} (cond : bool) (l : list A) : list A := if cond then l else [].

Definition arg_profile : list pp_argname :=
  mk_name (str "none ptp") PPSI_PROFILE_PTP ::
  ifdef CONFIG_HAS_PROFILE_WR [mk_name (str "whiterabbit wr") PPSI_PROFILE_WR] ++
  ifdef CONFIG_HAS_PROFILE_HA [mk_name (str "highaccuracy ha") PPSI_PROFILE_HA] ++
  ifdef CONFIG_HAS_PROFILE_CUSTOM [mk_name (str "custom") PPSI_PROFILE_CUSTOM].
Definition arg_delayMechanism : list pp_argname :=
  mk_name (str "request-response delay e2e") MECH_E2E ::
  ifdef CONFIG_HAS_P2P [mk_name (str "peer-delay pdelay p2p") MECH_P2P].

(** The macros of include/ppsi/conf.h. *)
Definition INST_OPTION_FCT (f : cfg_handler) (k : string) (t : pp_argtype) : pp_argline :=
  mk_arg f (str k) t [] m_cfg true 0 0.
Definition INST_OPTION_STR (k : string) (m : member) : pp_argline :=
  mk_arg h_string (str k) ARG_STR [] m true 0 0.
Definition INST_OPTION_INT_RANGE (k : string) (t : pp_argtype) (a : list pp_argname) (f : inst_field) (mn mx : Z) :=
  mk_arg h_simple_int (str k) t a (m_inst f) true mn mx.
Definition INST_OPTION_INT (k : string) (t : pp_argtype) (a : list pp_argname) (f : inst_field) :=
  INST_OPTION_INT_RANGE k t a f INT_MIN INT_MAX.
Definition INST_OPTION_BOOL (k : string) (f : inst_field) : pp_argline :=
  mk_arg h_simple_bool (str k) ARG_NAMES arg_bool (m_inst f) true 0 0.
Definition INST_OPTION_INT64_RANGE (k : string) (f : inst_field) (mn mx : Z) : pp_argline :=
  mk_arg h_simple_int64 (str k) ARG_INT64 [] (m_inst f) true mn mx.
Definition INST_OPTION_DOUBLE_RANGE (k : string) (m : member) (mn mx : Z) : pp_argline :=
  mk_arg h_simple_double (str k) ARG_DOUBLE [] m true mn mx.
Definition RT_OPTION_INT_RANGE (k : string) (f : opt_field) (mn mx : Z) : pp_argline :=
  mk_arg h_simple_int (str k) ARG_INT [] (m_opt f) false mn mx.
Definition RT_OPTION (k : string) (a : list pp_argname) (f : opt_field) : pp_argline :=
  mk_arg h_simple_bool (str k) ARG_NAMES a (m_opt f) false 0 0.
Definition RT_OPTION_BOOL (k : string) (f : opt_field) : pp_argline := RT_OPTION k arg_bool f.
Definition RT_OPTION_BOOL_TRUE (k : string) (f : opt_field) : pp_argline := RT_OPTION k arg_bool_true f.
Definition RT_OPTION_BOOL_FALSE (k : string) (f : opt_field) : pp_argline := RT_OPTION k arg_bool_false f.
Definition GLOB_OPTION_INT (k : string) (f : glob_field) : pp_argline :=
  mk_arg h_simple_int (str k) ARG_INT [] (m_glob f) false INT_MIN INT_MAX.

Definition pp_global_arglines : list pp_argline :=
  [INST_OPTION_FCT h_port "link port" ARG_STR;
   INST_OPTION_FCT h_servo_pi "servo-pi" ARG_INT2;
   INST_OPTION_FCT h_vlan "vlan" ARG_STR;
   INST_OPTION_FCT h_diag "diagnostic" ARG_STR;
   INST_OPTION_STR "iface" m_iface_name;
   INST_OPTION_BOOL "masterOnly" F_masterOnly;
   INST_OPTION_INT "proto" ARG_NAMES arg_proto F_proto;
   INST_OPTION_INT "extension profile" ARG_NAMES arg_profile F_profile;
   INST_OPTION_INT "mechanism dm" ARG_NAMES arg_delayMechanism F_delayMechanism;
   INST_OPTION_INT_RANGE "sync-interval logSyncInterval" ARG_INT [] F_sync_interval
     PP_MIN_SYNC_INTERVAL PP_MAX_SYNC_INTERVAL;
   INST_OPTION_INT_RANGE "announce-interval logAnnounceInterval" ARG_INT [] F_announce_interval
     PP_MIN_ANNOUNCE_INTERVAL PP_MAX_ANNOUNCE_INTERVAL;
   INST_OPTION_INT_RANGE "announce-receipt-timeout announceReceiptTimeout" ARG_INT [] F_announce_receipt_timeout
     PP_MIN_ANNOUNCE_RECEIPT_TIMEOUT PP_MAX_ANNOUNCE_RECEIPT_TIMEOUT;
   INST_OPTION_INT_RANGE "min-delay-req-interval logMinDelayReqInterval" ARG_INT [] F_min_delay_req_interval
     PP_MIN_MIN_DELAY_REQ_INTERVAL PP_MAX_MIN_DELAY_REQ_INTERVAL;
   INST_OPTION_INT_RANGE "min-pdelay-req-interval logMinPDelayReqInterval" ARG_INT [] F_min_pdelay_req_interval
     PP_MIN_MIN_PDELAY_REQ_INTERVAL PP_MAX_MIN_PDELAY_REQ_INTERVAL] ++
  ifdef CONFIG_HAS_EXT_L1SYNC
  [INST_OPTION_INT_RANGE "l1sync-interval logL1SyncInterval" ARG_INT [] F_l1syncInterval
     L1E_MIN_L1SYNC_INTERVAL L1E_MAX_L1SYNC_INTERVAL;
   INST_OPTION_INT_RANGE "l1sync-receipt-timeout l1SyncReceiptTimeout" ARG_INT [] F_l1syncReceiptTimeout
     L1E_MIN_L1SYNC_RECEIPT_TIMEOUT L1E_MAX_L1SYNC_RECEIPT_TIMEOUT;
   INST_OPTION_BOOL "l1SyncEnabled" F_l1SyncEnabled;
   INST_OPTION_BOOL "l1SyncRxCoherentIsRequired" F_l1SyncRxCoherentIsRequired;
   INST_OPTION_BOOL "l1SyncTxCoherentIsRequired" F_l1SyncTxCoherentIsRequired;
   INST_OPTION_BOOL "l1SyncCongruentIsRequired" F_l1SyncCongruentIsRequired;
   INST_OPTION_BOOL "l1SyncOptParamsEnabled" F_l1SyncOptParamsEnabled;
   INST_OPTION_BOOL "l1SyncTimestampsCorrectedTxEnabled" F_l1SyncOptParamsTimestampsCorrectedTx] ++
  [INST_OPTION_BOOL "asymmetryCorrectionEnable" F_asymmetryCorrectionEnable;
   INST_OPTION_INT64_RANGE "constantAsymmetry" F_constantAsymmetry_ps
     TIME_INTERVAL_MIN_PICOS_VALUE_AS_INT64 TIME_INTERVAL_MAX_PICOS_VALUE_AS_INT64;
   INST_OPTION_INT "desiredState" ARG_NAMES arg_states F_desiredState;
   INST_OPTION_INT64_RANGE "egressLatency" F_egressLatency_ps
     TIME_INTERVAL_MIN_PICOS_VALUE_AS_INT64 TIME_INTERVAL_MAX_PICOS_VALUE_AS_INT64;
   INST_OPTION_INT64_RANGE "ingressLatency" F_ingressLatency_ps
     TIME_INTERVAL_MIN_PICOS_VALUE_AS_INT64 TIME_INTERVAL_MAX_PICOS_VALUE_AS_INT64;
   INST_OPTION_INT64_RANGE "scaledDelayCoefficient" F_scaledDelayCoefficient
     PP_MIN_DELAY_COEFFICIENT_AS_RELDIFF PP_MAX_DELAY_COEFFICIENT_AS_RELDIFF;
   INST_OPTION_DOUBLE_RANGE "delayCoefficient" m_delayCoefficient (-1) 1;
   RT_OPTION_INT_RANGE "clock-class" O_clockClass 0 255;
   RT_OPTION_INT_RANGE "clock-accuracy" O_clockAccuracy 0 255;
   RT_OPTION_INT_RANGE "clock-allan-variance" O_offsetScaledLogVariance 0 65535;
   RT_OPTION_INT_RANGE "time-source" O_timeSource 0x10 0xFF;
   RT_OPTION_INT_RANGE "domain-number" O_domainNumber 0 255;
   RT_OPTION_INT_RANGE "priority1" O_priority1 0 255;
   RT_OPTION_INT_RANGE "priority2" O_priority2 0 255;
   RT_OPTION_INT_RANGE "ptpPpsThresholdMs" O_ptpPpsThresholdMs 1 1000;
   RT_OPTION_INT_RANGE "gmDelayToGenPpsSec" O_gmDelayToGenPpsSec 0 1000] ++
  ifdef (negb CONFIG_HAS_CODEOPT_EPC_ENABLED && negb CONFIG_HAS_CODEOPT_SO_ENABLED)
  [RT_OPTION_BOOL "externalPortConfigurationEnabled" O_externalPortConfigurationEnabled;
   RT_OPTION_BOOL "slaveOnly" O_slaveOnly] ++
  ifdef CONFIG_HAS_CODEOPT_EPC_ENABLED
  [RT_OPTION_BOOL_TRUE "externalPortConfigurationEnabled" O_externalPortConfigurationEnabled;
   RT_OPTION_BOOL_FALSE "slaveOnly" O_slaveOnly] ++
  ifdef CONFIG_HAS_CODEOPT_SO_ENABLED
  [RT_OPTION_BOOL_FALSE "externalPortConfigurationEnabled" O_externalPortConfigurationEnabled;
   RT_OPTION_BOOL_TRUE "slaveOnly" O_slaveOnly] ++
  [RT_OPTION_BOOL "forcePpsGen" O_forcePpsGen;
   RT_OPTION_BOOL "ptpFallbackPpsGen" O_ptpFallbackPpsGen].

(** arch-unix/unix-conf.c *)
Definition pp_arch_arglines : list pp_argline :=
  [GLOB_OPTION_INT "rx-drop" G_rxdrop; GLOB_OPTION_INT "tx-drop" G_txdrop].

Definition pp_arglines : list (list pp_argline) := [pp_global_arglines; pp_arch_arglines].

(** ** Lexing *)

Definition blank (c : Z) : bool := (c =? 32) || (c =? 9) || (c =? 10).
Definition digit (c : Z) : bool := (48 <=? c) && (c <=? 57).

Definition remove_trailing (line : list Z) : list Z := rev (drop_while blank (rev line)).

(** The first word and what follows the blank that ends it. *)
Definition first_word (line : list Z) : list Z * list Z :=
  let line := drop_while blank (remove_trailing line) in
  (take_while (fun c => negb (blank c)) line, tail (drop_while (fun c => negb (blank c)) line)).

Fixpoint word_loop (fuel : nat) (word next : list Z) : bool :=
  match fuel, next with
  | S fuel, _ :: _ =>
      let '(curr, next) := first_word next in
      if bool_decide (curr = word) then true else word_loop fuel word next
  | _, _ => false
  end.

(** The list is copied to a buffer of 64 characters; the word and the blank it ends with are
    consumed by each iteration. *)
Definition word_in_list (word list : list Z) : bool :=
  if 63 <? Z.of_nat (length list) then false else word_loop (length list) word list.

(** The arithmetic of a [long]. *)
Definition slong (z : Z) : Z := (z + LONG_MODULUS / 2) mod LONG_MODULUS - LONG_MODULUS / 2.
Definition long_digits (num : Z) (ds : list Z) : Z :=
  foldl (fun num c => slong (slong (num * 10) + (c - 48))) num ds.

(** The seconds and nanoseconds, or -1 for a syntax error. *)
Definition parse_time (s : list Z) : option (Z * Z) :=
  let s := drop_while blank s in
  let '(sign, s) := match s with
                    | c :: r => if c =? 45 then (-1, r) else if c =? 43 then (1, r) else (1, s)
                    | [] => (1, s)
                    end in
  match s with
  | [] => None
  | _ =>
      let tv_sec := slong (sign * long_digits 0 (take_while digit s)) in
      match drop_while digit s with
      | [] => Some (tv_sec, 0)
      | c :: s =>
          if c =? 46 then
            let ds := take_while digit (take 9 s) in
            match drop (length ds) s with
            | [] => Some (tv_sec, slong (sign * slong (long_digits 0 ds * 10 ^ (9 - Z.of_nat (length ds)))))
            | _ => None
            end
          else None
      end
  end.

(** A pointer to the first character that is not blank, or NULL. *)
Definition trim (s : list Z) : option (list Z) :=
  match drop_while blank s with [] => None | s => Some s end.

(** ** Parsing *)

(** [for (n = l->args; n->name; n++)] *)
Fixpoint find_name (line : list Z) (names : list pp_argname) : option Z :=
  match names with
  | n :: names => if word_in_list line (an_name n) then Some (an_value n) else find_name line names
  | [] => None
  end.

Fixpoint find_argline (word : list Z) (l : list pp_argline) : option pp_argline :=
  match l with
  | a :: l => if word_in_list word (al_keyword a) then Some a else find_argline word l
  | [] => None
  end.
Fixpoint find_keyword (word : list Z) (tables : list (list pp_argline)) : option pp_argline :=
  match tables with
  | t :: tables => match find_argline word t with Some a => Some a | None => find_keyword word tables end
  | [] => None
  end.

(** The [switch] on the type of the argument. *)
Definition parse_arg (l : pp_argline) (line : list Z) : option pp_cfg_arg :=
  match al_t l with
  | ARG_NONE => Some a_none
  | ARG_INT => match scan_i line with scan_got v _ => Some (a_i v) | _ => None end
  | ARG_INT64 => match scan_d64 line with scan_got v _ => Some (a_i64 v) | _ => None end
  | ARG_INT2 =>
      let '(ret, a, b) := scan_i_i line in
      if ret <? 0 then None else Some (a_i2 (default (stack_i2 line).1 a) (default (stack_i2 line).2 b))
  | ARG_DOUBLE =>
      match scan_lf line with
      | None => None
      | Some got => Some (a_d (default (stack_d line) got))
      end
  | ARG_STR => Some (a_s line)
  | ARG_NAMES => a_i <$> find_name line (al_args l)
  | ARG_TIME => (fun '(s, n) => a_ts s n) <$> parse_time line
  end.

(** The line ends at its NUL; 1 is a comment. *)
Definition pp_config_line (c : conf) (line : list Z) : conf * Z :=
  let '(word, line) := first_word line in
  if bool_decide (head word = Some 35) then (c, 1)
  else if bool_decide (word = []) then (c <| cf_cur_ppi_n := -1 |>, 0)
  else
    match find_keyword word pp_arglines with
    | None => (c, -1)
    | Some l =>
        let line := trim line in
        match al_t l, line with
        | ARG_NONE, _ =>
            let '(c, r) := call_handler l c a_none in (c, if truth r then -1 else 0)
        | _, None => (c, -1)
        | _, Some line =>
            match parse_arg l line with
            | None => (c, -1)
            | Some arg => let '(c, r) := call_handler l c arg in (c, if truth r then -1 else 0)
            end
        end
    end.

Definition is_term (c : Z) : bool := (c =? 10) || (c =? 59).

(** The [do] loop: one iteration takes the text up to a newline, a semicolon or its end. *)
Fixpoint parse_lines (fuel : nat) (c : conf) (text : list Z) (in_comment : bool) (errcount : Z) : conf * Z :=
  match fuel with
  | O => (c, errcount)
  | S fuel =>
      let line := take_while (fun x => negb (is_term x)) text in
      let '(c, ret) :=
        if in_comment then (c, 0) else if bool_decide (line = []) then (c, 0) else pp_config_line c line in
      let in_comment := in_comment || (ret =? 1) in
      let errcount := if ret <? 0 then i32 (errcount + 1) else errcount in
      match drop_while (fun x => negb (is_term x)) text with
      | [] => (c, errcount)
      | term :: rest => parse_lines fuel c rest (in_comment && negb (term =? 10)) errcount
      end
  end.

Definition pp_parse_conf (c : conf) (text : list Z) : conf * Z :=
  let '(c, errcount) := parse_lines (S (length text)) (c <| cf_cur_ppi_n := -1 |>) text false 0 in
  (c, if truth errcount then -1 else 0).

Definition pp_config_string (c : conf) (s : list Z) : conf * Z := pp_parse_conf c s.

(** ** Files *)

(** What [open], [fstat] and the successive calls of [read] give; an empty read ends the file
    (or is an error). *)
Record conf_file := mk_file { st_size : Z; reads : list (list Z) }.

Definition strlen (buf : list Z) : nat := length (take_while truth buf).
Definition store_bytes (buf : list Z) (k : nat) (data : list Z) : list Z :=
  take k buf ++ data ++ drop (k + length data) buf.

(** [read] returns at most the number of bytes asked for. *)
Fixpoint read_loop (size : Z) (rs : list (list Z)) (buf : list Z) (conf_len : nat) : list Z :=
  match rs with
  | [] => buf
  | data :: rs =>
      let data := take (Z.to_nat (size - Z.of_nat conf_len)) data in
      if bool_decide (data = []) then buf
      else
        let buf := store_bytes buf conf_len data in
        let conf_len := strlen buf in
        if Z.of_nat conf_len <? size then read_loop size rs buf conf_len else buf
  end.

Definition pp_config_file (c : conf) (force : bool) (file : option conf_file) : conf * Z :=
  match file with
  | None => (if force then c <| cf_cfg_items ::= fun n => i32 (n + 1) |> else c, -1)
  | Some f =>
      let c := c <| cf_cfg_items ::= fun n => i32 (n + 1) |> in
      let buf := read_loop (st_size f) (reads f) (replicate (Z.to_nat (st_size f) + 2) 0) 0 in
      pp_parse_conf c (take (strlen buf) buf)
  end.

(** ** Defaults: proto-standard/open-close.c, without the Kconfig overrides *)

Definition pp_default_rt_opts : pp_runtime_opts :=
  mk_opts 248 (-1) (-1) (-1) (u8 (-1)) (u8 (-1)) (u8 (-1)) 0 10 1000 6 128 128 0 500 0 0 0 0 0.

(** [__pp_default_instance_cfg] copied to a cleared instance; the members of L1Sync are there only
    if the extension is built in, and not looked at otherwise. *)
Definition pp_default_instance_cfg : port_conf :=
  mk_pc [] [] 0 PPSI_PROFILE_PTP MECH_E2E 1 3 0 0 0 0 0 0 0 0
    0 3 0
    0 0 0 (double_of_Z 0) 0 PPS_PASSIVE 0 0 (replicate (Z.to_nat CONFIG_VLAN_ARRAY_SIZE) 0) 0 0.

(** What [main] of arch-unix starts from. *)
Definition initial_conf : conf :=
  mk_conf (replicate (Z.to_nat PP_MAX_LINKS) pp_default_instance_cfg) 0 PP_MAX_LINKS 0 0 pp_default_rt_opts 0 0 0 false.

End Model.
