(* ===== verification/ConfLex.v ===== *)
(** * The words and the statements of a configuration text

    The lexing of lib/conf.c against reference definitions that split a list:
    [word_in_list] searches the words of a list, and [pp_parse_conf] runs the
    statements of a text one after the other. *)

From stdpp Require Import strings.
From S2P Require Import Prelude TimeArith Types World Scan Conf.

(** ** Splitting *)

(** The pieces between the characters that satisfy [f]; there is one more piece than separators. *)
Fixpoint split_on (f : Z -> bool) (l : list Z) : list (list Z) :=
  match l with
  | [] => [[]]
  | c :: l =>
      if f c then [] :: split_on f l
      else match split_on f l with p :: ps => (c :: p) :: ps | [] => [[c]] end
  end.

Lemma split_on_cut f a l : forallb (fun c => negb (f c)) a = true -> starts_not (fun c => negb (f c)) l = true ->
  split_on f (a ++ l) = match l with [] => [a] | _ :: r => a :: split_on f r end.
Proof.
  intros Ha Hl. induction a as [|c a IH].
  - destruct l as [|c l]; [done|]. cbn in Hl |- *. by destruct (f c).
  - cbn in Ha |- *. apply andb_true_iff in Ha as [Hc Ha]. destruct (f c); [done|].
    rewrite IH by done. by destruct l.
Qed.

Lemma split_on_none f a : forallb (fun c => negb (f c)) a = true -> split_on f a = [a].
Proof. intros Ha. rewrite <- (app_nil_r a) at 1. by rewrite split_on_cut. Qed.

Lemma split_on_step f l : split_on f l =
  let a := take_while (fun c => negb (f c)) l in
  match drop_while (fun c => negb (f c)) l with [] => [a] | _ :: r => a :: split_on f r end.
Proof.
  cbn zeta. rewrite <- (take_drop_while (fun c => negb (f c)) l) at 1.
  apply split_on_cut; [apply take_while_all|apply drop_while_starts].
Qed.

Lemma split_on_ne f l : split_on f l <> [].
Proof. rewrite split_on_step. cbn zeta. by destruct (drop_while _ l). Qed.

(** The words of a line. *)
Definition words (l : list Z) : list (list Z) := filter (fun w => w <> []) (split_on blank l).

Lemma words_step l : words l =
  let a := take_while (fun c => negb (blank c)) l in
  let r := tail (drop_while (fun c => negb (blank c)) l) in
  match a with [] => match l with [] => [] | _ => words (tail l) end | _ => a :: words r end.
Proof.
  unfold words. rewrite split_on_step. cbn zeta. destruct l as [|c l]; [done|]. cbn [take_while drop_while].
  destruct (blank c) eqn:Eb; cbn [negb]; [done|].
  destruct (drop_while _ l) as [|x r]; rewrite filter_cons_True by done; [|done].
  f_equal.
Qed.

Lemma words_blanks l : words (drop_while blank l) = words l.
Proof.
  induction l as [|c l IH]; [done|]. cbn [drop_while]. destruct (blank c) eqn:E; [|done].
  rewrite IH. unfold words. cbn [split_on]. by rewrite E.
Qed.

(** Trailing blanks make no word. *)
Lemma split_on_snoc f l c : split_on f (l ++ [c]) =
  if f c then split_on f l ++ [[]]
  else match rev (split_on f l) with [] => [[c]] | p :: ps => rev ps ++ [p ++ [c]] end.
Proof.
  induction l as [|x l IH]; [cbn; by destruct (f c)|]. cbn [app split_on]. rewrite IH.
  assert (split_on f l <> []) as Hne.
  { apply split_on_ne. }
  destruct (f c), (f x).
  - done.
  - by destruct (split_on f l).
  - cbn [rev]. destruct (rev (split_on f l)) as [|p ps] eqn:E; cbn [app].
    + by rewrite <- (rev_involutive (split_on f l)), E in Hne.
    + rewrite rev_app_distr. done.
  - destruct (split_on f l) as [|q qs] eqn:Es; [done|]. cbn [rev] in *.
    destruct (rev qs) as [|p ps] eqn:E; cbn [app] in *.
    + done.
    + rewrite !rev_app_distr in *. cbn [app rev]. done.
Qed.

Lemma remove_trailing_snoc l c : remove_trailing (l ++ [c]) = if blank c then remove_trailing l else l ++ [c].
Proof.
  unfold remove_trailing. rewrite rev_app_distr. cbn [app rev drop_while]. destruct (blank c); [done|].
  cbn [rev]. by rewrite rev_involutive.
Qed.

Lemma words_remove_trailing l : words (remove_trailing l) = words l.
Proof.
  induction l as [|c l IH] using rev_ind; [done|]. rewrite remove_trailing_snoc.
  destruct (blank c) eqn:E; [|done]. rewrite IH. unfold words. rewrite split_on_snoc, E, list.filter_app.
  by rewrite filter_cons_False, app_nil_r by auto.
Qed.

Lemma length_remove_trailing l : (length (remove_trailing l) <= length l)%nat.
Proof. unfold remove_trailing. rewrite length_rev, <- (length_rev l). apply length_drop_while. Qed.

(** [first_word] takes the first word off. *)
Lemma words_first_word l : words l =
  let '(w, r) := first_word l in if decide (w = []) then [] else w :: words r.
Proof.
  unfold first_word. rewrite <- words_remove_trailing, <- words_blanks.
  pose proof (drop_while_starts blank (remove_trailing l)) as Hs.
  set (m := drop_while blank (remove_trailing l)) in *. rewrite words_step. cbn zeta.
  destruct m as [|c m]; [done|]. cbn in Hs |- *. destruct (blank c); [done|]. done.
Qed.

(** What is left is shorter. *)
Lemma first_word_shorter c l : (length (first_word (c :: l)).2 < S (length l))%nat.
Proof.
  unfold first_word. cbn [fst snd].
  pose proof (length_remove_trailing (c :: l)) as H1.
  pose proof (length_drop_while blank (remove_trailing (c :: l))) as H2.
  pose proof (drop_while_starts blank (remove_trailing (c :: l))) as H3.
  destruct (drop_while blank (remove_trailing (c :: l))) as [|x m]; [cbn; lia|]. cbn in *.
  destruct (blank x); [done|]. cbn.
  pose proof (length_drop_while (fun c => negb (blank c)) m). destruct (drop_while _ m); cbn in *; lia.
Qed.

Lemma first_word_empty l : (first_word l).1 = [] -> (first_word l).2 = [].
Proof.
  unfold first_word. cbn [fst snd]. pose proof (drop_while_starts blank (remove_trailing l)) as H.
  destruct (drop_while blank (remove_trailing l)) as [|x m]; [done|]. cbn in *. by destruct (blank x).
Qed.

Lemma word_loop_words `{Config, !ConfBuild} fuel w l : w <> [] -> (length l <= fuel)%nat ->
  word_loop fuel w l = bool_decide (w ∈ words l).
Proof.
  intros Hw. revert l. induction fuel as [|fuel IH]; intros l Hl.
  { destruct l; [|cbn in Hl; lia]. symmetry. apply bool_decide_eq_false. cbn. by intros ?%elem_of_nil. }
  destruct l as [|c l].
  { symmetry. apply bool_decide_eq_false. by intros ?%elem_of_nil. }
  cbn [word_loop]. pose proof (first_word_shorter c l) as Hs. pose proof (first_word_empty (c :: l)) as He.
  rewrite words_first_word. destruct (first_word (c :: l)) as [curr next]. cbn [fst snd] in *. cbn in Hl.
  rewrite IH by lia. destruct (decide (curr = [])) as [->|Hc].
  { rewrite He, bool_decide_false by congruence. done. }
  destruct (decide (curr = w)) as [->|Hne]; rewrite ?bool_decide_true, ?(bool_decide_false (curr = w)) by done.
  - rewrite bool_decide_true; [done|]. apply elem_of_cons. auto.
  - apply bool_decide_ext. rewrite elem_of_cons. split; [auto|]. intros [E|E]; [by destruct Hne|done].
Qed.

(** [word_in_list] finds the words of the list. *)
Lemma word_in_list_words `{Config, !ConfBuild} w l : w <> [] -> (length l <= 63)%nat ->
  word_in_list w l = bool_decide (w ∈ words l).
Proof.
  intros Hw Hl. unfold word_in_list. destruct (Z.ltb_spec 63 (Z.of_nat (length l))); [lia|].
  by apply word_loop_words.
Qed.

(** ** Statements *)

Definition is_nl (c : Z) : bool := c =? 10.
Definition is_semi (c : Z) : bool := c =? 59.

Definition is_comment (s : list Z) : bool := bool_decide (head (first_word s).1 = Some 35).

(** A comment hides the rest of its line. *)
Fixpoint until_comment (l : list (list Z)) : list (list Z) :=
  match l with s :: l => if is_comment s then [] else s :: until_comment l | [] => [] end.
Definition line_statements (line : list Z) : list (list Z) := until_comment (split_on is_semi line).

(** The statements of a text, the first line of which may be in a comment already. *)
Definition statements_from (in_comment : bool) (text : list Z) : list (list Z) :=
  match split_on is_nl text with
  | line :: lines => (if in_comment then [] else line_statements line) ++ concat (map line_statements lines)
  | [] => []
  end.
Definition statements (text : list Z) : list (list Z) := filter (fun s => s <> []) (statements_from false text).

Lemma no_term_semi l : forallb (fun c => negb (is_term c)) l = true ->
  forallb (fun c => negb (is_semi c)) l = true /\ forallb (fun c => negb (is_nl c)) l = true.
Proof.
  rewrite !forallb_forall. unfold is_term, is_semi, is_nl. intros Hl. split; intros x Hx; specialize (Hl x Hx);
    by destruct (x =? 10), (x =? 59).
Qed.

Lemma statements_from_end ic l : forallb (fun c => negb (is_term c)) l = true ->
  statements_from ic l = if ic then [] else until_comment [l].
Proof.
  intros [Hs Hn]%no_term_semi. unfold statements_from, line_statements.
  rewrite !split_on_none by done. cbn [map concat]. by rewrite app_nil_r.
Qed.

Lemma statements_from_nl ic l rest : forallb (fun c => negb (is_term c)) l = true ->
  statements_from ic (l ++ 10 :: rest) = (if ic then [] else until_comment [l]) ++ statements_from false rest.
Proof.
  intros [Hs Hn]%no_term_semi. unfold statements_from, line_statements at 1.
  rewrite split_on_cut by done. f_equal.
  - destruct ic; [done|]. by rewrite split_on_none.
  - assert (split_on is_nl rest <> []) as Hne by apply split_on_ne.
    by destruct (split_on is_nl rest).
Qed.

Lemma statements_from_semi ic l rest : forallb (fun c => negb (is_term c)) l = true ->
  statements_from ic (l ++ 59 :: rest) =
  (if ic || is_comment l then [] else [l]) ++ statements_from (ic || is_comment l) rest.
Proof.
  intros [Hs Hn]%no_term_semi. unfold statements_from. pose proof (split_on_ne is_nl rest) as Hne.
  assert (split_on is_nl (l ++ 59 :: rest) =
    match split_on is_nl rest with p :: ps => (l ++ 59 :: p) :: ps | [] => [] end) as ->.
  { clear Hs. induction l as [|c l IH]; cbn [app split_on].
    - change (is_nl 59) with false. by destruct (split_on is_nl rest).
    - cbn in Hn. apply andb_true_iff in Hn as [Hc Hn]. apply negb_true_iff in Hc. rewrite Hc, IH by done.
      by destruct (split_on is_nl rest). }
  destruct (split_on is_nl rest) as [|p ps]; [done|].
  unfold line_statements. rewrite (split_on_cut is_semi l (59 :: p)) by done. cbn [until_comment].
  destruct ic; cbn [orb]; [done|]. by destruct (is_comment l).
Qed.

(** Running statements one after the other, and counting the ones that fail. *)
Section Run.
Context `{Config} `{!ConfBuild}.

Definition run_statement (ce : conf * Z) (s : list Z) : conf * Z :=
  let '(c, r) := pp_config_line ce.1 s in (c, if r <? 0 then ce.2 + 1 else ce.2).
Definition run_statements (ce : conf * Z) (l : list (list Z)) : conf * Z := foldl run_statement ce l.

Lemma call_result (cr : conf * Z) : (let '(c, r) := cr in (c, if truth r then -1 else 0)).2 <> 1.
Proof. destruct cr as [c r]. cbn. by destruct (truth r). Qed.

Lemma config_line_comment c s : ((pp_config_line c s).2 =? 1) = is_comment s.
Proof.
  unfold pp_config_line, is_comment. destruct (first_word s) as [w r]. cbn [fst].
  destruct (bool_decide (head w = Some 35)); [done|]. apply Z.eqb_neq.
  destruct (bool_decide (w = [])); [done|]. destruct (find_keyword _ _) as [l|]; [|done].
  destruct (al_t l), (trim r); try done; try apply call_result;
    (destruct (parse_arg _ _); [apply call_result|done]).
Qed.

Lemma config_line_comment_id c s : is_comment s = true -> pp_config_line c s = (c, 1).
Proof.
  unfold pp_config_line, is_comment. destruct (first_word s) as [w r]. cbn [fst]. by intros ->.
Qed.

(** One iteration of the loop runs at most one statement. *)
Lemma line_step (c : conf) (n : Z) (ic : bool) (line : list Z) : 0 <= n < 2147483647 ->
  let cr := if ic then (c, 0) else if bool_decide (line = []) then (c, 0) else pp_config_line c line in
  let ss := if ic || is_comment line then [] else [line] in
  (cr.1, if cr.2 <? 0 then i32 (n + 1) else n) = run_statements (c, n) (filter (fun s => s <> []) ss) /\
  ic || (cr.2 =? 1) = ic || is_comment line.
Proof.
  intros Hn. cbn zeta. destruct ic; [done|]. cbn [orb].
  destruct (decide (line = [])) as [->|Hl]; [done|]. rewrite bool_decide_false by done.
  rewrite config_line_comment. split; [|done]. destruct (is_comment line) eqn:Ec.
  { by rewrite config_line_comment_id by done. }
  rewrite filter_cons_True by done. cbn [filter list_filter run_statements foldl]. unfold run_statement. cbn [fst snd].
  destruct (pp_config_line c line) as [c' r]. cbn [fst snd]. rewrite i32_id by lia. done.
Qed.

Lemma parse_lines_statements fuel : forall c text ic n, (length text < fuel)%nat -> 0 <= n ->
  n + Z.of_nat fuel < 2147483647 ->
  parse_lines fuel c text ic n = run_statements (c, n) (filter (fun s => s <> []) (statements_from ic text)).
Proof.
  induction fuel as [|fuel IH]; intros c text ic n Hf Hn Hb; [lia|]. cbn [parse_lines].
  pose proof (take_drop_while (fun x => negb (is_term x)) text) as Et.
  pose proof (take_while_all (fun x => negb (is_term x)) text) as Ha.
  pose proof (drop_while_starts (fun x => negb (is_term x)) text) as Hd.
  set (line := take_while _ text) in *. set (rest := drop_while _ text) in *. clearbody line rest. subst text.
  destruct (line_step c n ic line ltac:(lia)) as [Hs Hc]. cbn zeta in Hs, Hc.
  destruct (if ic then _ else _) as [c1 r]. cbn [fst snd] in Hs, Hc. rewrite Hc.
  destruct rest as [|term rest].
  { rewrite app_nil_r, statements_from_end by done. rewrite Hs. f_equal.
    destruct ic; [done|]. cbn [orb until_comment]. by destruct (is_comment line). }
  rewrite length_app in Hf. cbn in Hf, Hd.
  set (n1 := if r <? 0 then i32 (n + 1) else n) in *.
  assert (0 <= n1 <= n + 1) as Hn1.
  { unfold n1. destruct (r <? 0); [rewrite i32_id|]; lia. }
  rewrite IH by lia.
  assert (statements_from ic (line ++ term :: rest) = (if ic || is_comment line then [] else [line]) ++
    statements_from ((ic || is_comment line) && negb (term =? 10)) rest) as ->.
  { apply negb_true_iff, negb_false_iff in Hd. unfold is_term in Hd. destruct (Z.eqb_spec term 10) as [->|].
    - rewrite statements_from_nl, andb_false_r by done. destruct ic; [done|]. cbn. by destruct (is_comment line).
    - destruct (Z.eqb_spec term 59) as [->|]; [|done]. by rewrite statements_from_semi, andb_true_r. }
  rewrite list.filter_app. unfold run_statements in *. by rewrite foldl_app, <- Hs.
Qed.

(** [pp_parse_conf] runs the statements of the text, and fails iff one of them does. *)
Lemma parse_conf_statements c text : Z.of_nat (length text) < 2147483646 ->
  let ce := run_statements (c <| cf_cur_ppi_n := -1 |>, 0) (statements text) in
  pp_parse_conf c text = (ce.1, if 0 <? ce.2 then -1 else 0) /\ 0 <= ce.2.
Proof.
  intros Hl. cbn zeta. unfold pp_parse_conf, statements. rewrite parse_lines_statements by lia.
  assert (forall ss ce, 0 <= ce.2 -> 0 <= (run_statements ce ss).2) as Hp.
  { induction ss as [|s ss IH]; intros ce Hc; [done|]. cbn. apply IH. unfold run_statement.
    destruct (pp_config_line ce.1 s) as [c' r]. cbn. destruct (r <? 0); lia. }
  specialize (Hp (filter (fun s => s <> []) (statements_from false text)) (c <| cf_cur_ppi_n := -1 |>, 0)).
  destruct (run_statements _ _) as [c' n]. cbn [fst snd] in *. split; [|by apply Hp].
  f_equal. unfold truth. destruct (Z.eqb_spec n 0) as [->|]; [done|]. cbn.
  destruct (Z.ltb_spec 0 n); [done|]. specialize (Hp ltac:(lia)). lia.
Qed.

End Run.
