(* ===== verification/ConfInv.v ===== *)
(** * What a configuration text can do

    The invariant of the configuration: whatever the text, the parser stores
    in every member only values of the range of its option, keeps the table
    of ports well formed with one port per name, and selects a port that
    exists.  The only ways out of it are the stores outside of their object
    that [cf_wild] records. *)

From stdpp Require Import strings.
From S2P Require Import Prelude TimeArith Types World Scan Conf ConfLex.

(** ** Ranges *)

Definition in_range (r : Z * Z) (v : Z) : Prop := r.1 <= v <= r.2.
Definition in_rangeb (r : Z * Z) (v : Z) : bool := (r.1 <=? v) && (v <=? r.2).
Lemma in_rangeb_spec r v : in_rangeb r v = true <-> in_range r v.
Proof. unfold in_rangeb, in_range. rewrite andb_true_iff, !Z.leb_le. done. Qed.

Definition bool_range : Z * Z := (0, 1).
Definition picos_range : Z * Z := (TIME_INTERVAL_MIN_PICOS_VALUE_AS_INT64, TIME_INTERVAL_MAX_PICOS_VALUE_AS_INT64).

(** The values each member may have. *)
Definition inst_range (f : inst_field) : Z * Z :=
  match f with
  | F_proto => (PPSI_PROTO_RAW, PPSI_PROTO_VLAN)
  | F_profile => (PPSI_PROFILE_PTP, PPSI_PROFILE_CUSTOM)
  | F_delayMechanism => (MECH_E2E, MECH_P2P)
  | F_announce_interval => (0, 4) | F_announce_receipt_timeout => (2, 255)
  | F_sync_interval => (-1, 1) | F_min_delay_req_interval => (0, 5) | F_min_pdelay_req_interval => (0, 5)
  | F_l1syncInterval => (-4, 4) | F_l1syncReceiptTimeout => (2, 10)
  | F_egressLatency_ps | F_ingressLatency_ps | F_constantAsymmetry_ps => picos_range
  | F_scaledDelayCoefficient => (- 2 ^ 62, 2 ^ 62)
  | F_desiredState => (PPS_INITIALIZING, PPS_SLAVE)
  | F_l1SyncEnabled | F_l1SyncRxCoherentIsRequired | F_l1SyncTxCoherentIsRequired
  | F_l1SyncCongruentIsRequired | F_l1SyncOptParamsEnabled | F_l1SyncOptParamsTimestampsCorrectedTx
  | F_masterOnly | F_asymmetryCorrectionEnable => bool_range
  end.
Definition opt_range (f : opt_field) : Z * Z :=
  match f with
  | O_clockClass | O_clockAccuracy | O_domainNumber | O_priority1 | O_priority2 => (0, 255)
  | O_offsetScaledLogVariance => (0, 65535) | O_timeSource => (16, 255)
  | O_ptpPpsThresholdMs => (1, 1000) | O_gmDelayToGenPpsSec => (0, 1000)
  | O_externalPortConfigurationEnabled | O_slaveOnly | O_forcePpsGen | O_ptpFallbackPpsGen => bool_range
  end.

Section Invariant.
Context `{Config} `{!ConfBuild}.

Lemma get_set_num f g v p : get_num f (set_num g v p) = if decide (f = g) then v else get_num f p.
Proof. destruct f, g; reflexivity. Qed.
Lemma get_set_opt f g v o : get_opt f (set_opt g v o) = if decide (f = g) then v else get_opt f o.
Proof. destruct f, g; reflexivity. Qed.
Lemma set_num_frame f v p :
  pc_port_name (set_num f v p) = pc_port_name p /\ pc_iface_name (set_num f v p) = pc_iface_name p /\
  pc_vlans (set_num f v p) = pc_vlans p /\ pc_nvlans (set_num f v p) = pc_nvlans p.
Proof. by destruct f. Qed.

(** ** The invariant *)

Definition VLAN_SLOTS : nat := Z.to_nat CONFIG_VLAN_ARRAY_SIZE.

Record port_ok (p : port_conf) : Prop := {
  po_num : forall f, in_range (inst_range f) (get_num f p);
  po_port_name : (length (pc_port_name p) < NAME_SIZE)%nat;
  po_iface_name : (length (pc_iface_name p) < NAME_SIZE)%nat;
  po_vlans : length (pc_vlans p) = VLAN_SLOTS;
  po_nvlans : 0 <= pc_nvlans p <= Z.of_nat VLAN_SLOTS }.

(** The names of the ports in use. *)
Definition port_names (c : conf) : list (list Z) := map pc_port_name (take (Z.to_nat (cf_nlinks c)) (cf_ports c)).

(** An option has its initial value, of the options [o], or one of its range. *)
Record conf_ok (o : pp_runtime_opts) (c : conf) : Prop := {
  ok_len : Z.of_nat (length (cf_ports c)) = cf_max_links c;
  ok_max : cf_max_links c < 65536;
  ok_links : 0 <= cf_nlinks c <= cf_max_links c;
  ok_cur : -1 <= cf_cur_ppi_n c < cf_nlinks c;
  ok_ports : Forall port_ok (cf_ports c);
  ok_names : NoDup (port_names c);
  ok_opts : forall f, get_opt f (cf_opts c) = get_opt f o \/ in_range (opt_range f) (get_opt f (cf_opts c)) }.

(** After a store out of bounds nothing is promised. *)
Definition conf_inv (o : pp_runtime_opts) (c : conf) : Prop := cf_wild c = true \/ conf_ok o c.

(** ** Stores *)

Context (o : pp_runtime_opts).

Lemma set_num_ok f v p : in_range (inst_range f) v -> port_ok p -> port_ok (set_num f v p).
Proof.
  intros Hv [P1 P2 P3 P4 P5]. destruct (set_num_frame f v p) as (E1 & E2 & E3 & E4).
  split; rewrite ?E1, ?E2, ?E3, ?E4; try done. intros g. rewrite get_set_num. destruct (decide (g = f)) as [->|]; auto.
Qed.

Lemma names_alter g n k l : (forall p, pc_port_name (g p) = pc_port_name p) ->
  map pc_port_name (take n (alter g k l)) = map pc_port_name (take n l).
Proof.
  intros Hg. apply list_eq. intros j. rewrite !list_lookup_fmap, !lookup_take.
  destruct (decide (j < n)%nat); rewrite ?option_guard_True, ?option_guard_False by done; [|done].
  destruct (decide (k = j)) as [->|]; [|by rewrite list_lookup_alter_ne].
  rewrite list_lookup_alter_eq. destruct (l !! j); cbn; [by rewrite Hg|done].
Qed.

Lemma on_port_ok g c : (forall p, port_ok p -> port_ok (g p)) -> (forall p, pc_port_name (g p) = pc_port_name p) ->
  conf_ok o c -> conf_ok o (on_port g c).
Proof.
  intros Hg Hn [C1 C2 C3 C4 C5 C6 C7]. split; try done.
  - unfold on_port. cbn. by rewrite length_alter.
  - unfold on_port. cbn. by apply Forall_alter; [|auto].
  - unfold port_names, on_port. cbn. by rewrite names_alter.
Qed.

(** A store never takes a previous stray one back. *)
Lemma wild_strcpy set s c : cf_wild c = true -> cf_wild (strcpy_name set s c) = true.
Proof. unfold strcpy_name. intros Hc. by destruct (bool_decide _). Qed.
Lemma wild_store_num l v c : cf_wild c = true -> cf_wild (store_num l v c) = true.
Proof. unfold store_num. intros Hc. by repeat case_match. Qed.

Lemma wild_handler l c a : cf_wild c = true -> cf_wild (call_handler l c a).1 = true.
Proof.
  intros Hc. unfold call_handler. destruct (al_f l).
  - unfold f_port. destruct a; try done. destruct (find_port _ _ _); [done|]. destruct (_ <=? _); [done|].
    cbn [fst cf_wild upd setter]. by apply wild_strcpy, wild_strcpy.
  - unfold f_simple_int, ASSIGN_INT_FIELD. repeat case_match; try done. by apply wild_store_num.
  - unfold f_simple_int64, ASSIGN_INT_FIELD. repeat case_match; try done. by apply wild_store_num.
  - unfold f_simple_double, ASSIGN_DOUBLE_FIELD. by repeat case_match.
  - unfold f_simple_bool. repeat case_match; try done. by apply wild_store_num.
  - unfold f_string. repeat case_match; try done. by apply wild_strcpy.
  - unfold f_diag. by repeat case_match.
  - unfold f_vlan. by repeat case_match.
  - unfold f_servo_pi. by repeat case_match.
Qed.

(** ** Handlers *)

(** The types and the limits of an option fit the member it stores to. *)
Definition within (r : Z * Z) (mn mx : Z) : bool := (r.1 <=? mn) && (mx <=? r.2).
Definition values_in (r : Z * Z) (names : list pp_argname) : bool := forallb (fun n => in_rangeb r (an_value n)) names.
Definition option_ok (l : pp_argline) : bool :=
  match al_f l, al_t l, al_field l, al_needs_port l with
  | h_simple_int, ARG_INT, m_inst f, true => within (inst_range f) (al_min l) (al_max l)
  | h_simple_int, ARG_INT, m_opt f, false => within (opt_range f) (al_min l) (al_max l)
  | h_simple_int, ARG_INT, m_glob _, false => true
  | h_simple_int, ARG_NAMES, m_inst f, true => values_in (inst_range f) (al_args l)
  | h_simple_int64, ARG_INT64, m_inst f, true => within (inst_range f) (al_min l) (al_max l)
  | h_simple_double, ARG_DOUBLE, m_delayCoefficient, true => true
  | h_simple_bool, ARG_NAMES, m_inst f, true =>
      bool_decide (inst_range f = bool_range) && values_in bool_range (al_args l)
  | h_simple_bool, ARG_NAMES, m_opt f, false =>
      bool_decide (opt_range f = bool_range) && values_in bool_range (al_args l)
  | h_string, ARG_STR, m_iface_name, true => true
  | h_port, ARG_STR, _, _ | h_vlan, ARG_STR, _, _ | h_diag, ARG_STR, _, _ | h_servo_pi, ARG_INT2, _, _ => true
  | _, _, _, _ => false
  end.

Lemma tables_option_ok : forallb option_ok (concat pp_arglines) = true.
Proof.
  unfold pp_arglines, pp_global_arglines, ifdef. cbn [concat]. rewrite !forallb_app.
  repeat (apply andb_true_iff; split); repeat case_match; try reflexivity.
  all: unfold arg_profile, arg_delayMechanism, ifdef; repeat case_match; try reflexivity.
Qed.

Lemma find_name_in line names v : find_name line names = Some v -> exists n, n ∈ names /\ an_value n = v.
Proof.
  induction names as [|n names IH]; [done|]. cbn. destruct (word_in_list _ _).
  - intros [= <-]. exists n. split; [apply elem_of_cons; auto|done].
  - intros (m & Hm & E)%IH. exists m. split; [apply elem_of_cons; auto|done].
Qed.

Lemma find_keyword_in w tables l : find_keyword w tables = Some l -> l ∈ concat tables.
Proof.
  induction tables as [|t ts IH]; [done|]. cbn. destruct (find_argline w t) as [l'|] eqn:E.
  - intros [= ->]. apply elem_of_app. left. clear IH. induction t as [|a t IH]; [done|]. cbn in E.
    destruct (word_in_list _ _); [simplify_eq; apply elem_of_cons; auto|]. apply elem_of_cons. auto.
  - intros Hl%IH. apply elem_of_app. auto.
Qed.

Lemma store_opt_ok f v c : in_range (opt_range f) v -> conf_ok o c -> conf_ok o (c <| cf_opts ::= set_opt f v |>).
Proof.
  intros Hv [C1 C2 C3 C4 C5 C6 C7]. split; try done. cbn. intros g. rewrite get_set_opt.
  destruct (decide (g = f)) as [->|]; auto.
Qed.

Lemma on_num_ok f v c : in_range (inst_range f) v -> conf_ok o c -> conf_ok o (on_port (set_num f v) c).
Proof.
  intros Hv. apply on_port_ok; [intros p; by apply set_num_ok|]. intros p. by destruct (set_num_frame f v p).
Qed.

Lemma arg_b_range v : in_range bool_range v -> in_range bool_range (arg_b v).
Proof.
  unfold in_range, bool_range, arg_b. cbn. intros Hv. assert (v = 0 \/ v = 1) as [->| ->] by lia;
    destruct BIG_ENDIAN_HOST; vm_compute; intuition congruence.
Qed.

Lemma values_in_name r line names v : values_in r names = true -> find_name line names = Some v -> in_range r v.
Proof.
  unfold values_in. rewrite forallb_forall. intros Hf (n & Hn & <-)%find_name_in. apply in_rangeb_spec, Hf.
  by apply list_elem_of_In.
Qed.

Lemma strcpy_name_ok set s c : (forall p, port_ok p -> (length s < NAME_SIZE)%nat -> port_ok (set s p)) ->
  (forall p, pc_port_name (set s p) = pc_port_name p) -> conf_ok o c -> conf_inv o (strcpy_name set s c).
Proof.
  intros Hs Hn C. unfold strcpy_name. destruct (decide (NAME_SIZE <= length s)%nat) as [Hl|Hl].
  - left. by rewrite bool_decide_true.
  - right. rewrite bool_decide_false by done. apply on_port_ok; auto with lia.
Qed.

Lemma vlan_loop_bounds slots s n v : length (vlan_loop slots s n v).1 = length v /\
  forall m, (vlan_loop slots s n v).2 = vlan_done m -> Z.of_nat n <= m <= Z.of_nat (n + slots).
Proof.
  revert s n v. induction slots as [|slots IH]; intros s n v; cbn [vlan_loop].
  { split; [done|]. intros m [= <-]. lia. }
  destruct (scan_i_c s) as [[i got] ch]. set (v' := match got with Some x => <[n := x]> v | None => v end).
  assert (length v' = length v) as Hv by (unfold v'; destruct got; [apply length_insert|done]).
  assert (Z.of_nat n <= Z.of_nat n <= Z.of_nat (n + S slots)) as Hn by lia.
  destruct (i =? 0); [split; [done|]; by intros m [= <-]|]. destruct (_ || _); [done|]. destruct (_ && _); [done|].
  destruct (i =? 2).
  - destruct (IH (after_comma s) (S n) v') as [I1 I2]. split; [by rewrite I1|]. intros m Hm%I2. lia.
  - split; [done|]. by intros m [= <-].
Qed.

Lemma f_vlan_ok c s : conf_ok o c -> conf_ok o (f_vlan c (a_s s)).1.
Proof.
  intros C. unfold f_vlan, cur_port. destruct (has_ppi c); [|done].
  destruct (cf_ports c !! _) as [p|] eqn:Ep; [|done].
  destruct (_ =? PPSI_PROTO_UDP); [done|]. destruct (Z.eqb_spec CONFIG_VLAN_ARRAY_SIZE 0) as [|Hz]; [done|].
  pose proof (proj1 (Forall_lookup _ _) (ok_ports _ _ C) _ _ Ep) as P.
  destruct (vlan_loop_bounds (Z.to_nat CONFIG_VLAN_ARRAY_SIZE) s 0 (pc_vlans p)) as [V1 V2].
  destruct (vlan_loop _ _ _ _) as [v e]. cbn [fst snd] in V1, V2. rewrite (po_vlans _ P) in V1.
  assert (conf_ok o (on_port (fun p => p <| pc_vlans := v |>) c)) as C1.
  { apply on_port_ok; [|done|done]. by intros q []. }
  destruct e as [n|]; [|done]. destruct (Z.eqb_spec n CONFIG_VLAN_ARRAY_SIZE) as [|Hne]; [done|]. cbn [fst].
  specialize (V2 n eq_refl). apply on_port_ok; [|done|done]. intros q Q.
  assert (0 <= n < Z.of_nat VLAN_SLOTS) as Hn by (pose proof vlan_size_nonneg; unfold VLAN_SLOTS; lia).
  destruct Q as [Q1 Q2 Q3 Q4 Q5]. split; cbn; try done; [|lia]. intros f. specialize (Q1 f).
  destruct f; try exact Q1. unfold in_range, PPSI_PROTO_VLAN. cbn. unfold PPSI_PROTO_RAW, PPSI_PROTO_VLAN. lia.
Qed.

(** ** The port line *)

Lemma alter_alter {A} (f g : A -> A) i (l : list A) : alter f i (alter g i l) = alter (fun x => f (g x)) i l.
Proof.
  apply list_eq. intros j. destruct (decide (i = j)) as [->|]; [|by rewrite !list_lookup_alter_ne].
  rewrite !list_lookup_alter_eq. by destruct (l !! j).
Qed.


Lemma find_port_spec s ports n : (n <= length ports)%nat ->
  match find_port s ports n with
  | Some i => (i < n)%nat /\ map pc_port_name (take n ports) !! i = Some s
  | None => s ∉ map pc_port_name (take n ports)
  end.
Proof.
  revert n. induction ports as [|p ports IH]; intros [|n] Hn; cbn; try (by intros ?%elem_of_nil).
  destruct (decide (s = pc_port_name p)) as [->|Hne].
  - rewrite bool_decide_true by done. split; [lia|done].
  - rewrite bool_decide_false by done. cbn in Hn. specialize (IH n ltac:(lia)).
    destruct (find_port s ports n) as [i|]; cbn.
    + destruct IH. split; [lia|done].
    + intros [?|?]%elem_of_cons; done.
Qed.

Definition name_port (s : list Z) (p : port_conf) : port_conf :=
  p <| pc_port_name := s |> <| pc_iface_name := s |>.

Lemma new_port_ok c s : conf_ok o c -> cf_nlinks c < cf_max_links c -> (length s < NAME_SIZE)%nat ->
  s ∉ port_names c ->
  conf_ok o (on_port (name_port s) (c <| cf_cur_ppi_n := cf_nlinks c |>)) <| cf_nlinks ::= fun n => i32 (n + 1) |>.
Proof.
  intros [C1 C2 C3 C4 C5 C6 C7] Hl Hs Hnew. assert (i32 (cf_nlinks c + 1) = cf_nlinks c + 1) as Ei by (apply i32_id; lia).
  split; cbn; rewrite ?Ei, ?length_alter; try done; try lia.
  - apply Forall_alter; [done|]. intros q _ [Q1 Q2 Q3 Q4 Q5]. by split.
  - unfold port_names. cbn. rewrite ?Ei. replace (Z.to_nat (cf_nlinks c + 1)) with (S (Z.to_nat (cf_nlinks c))) by lia.
    destruct (lookup_lt_is_Some_2 (cf_ports c) (Z.to_nat (cf_nlinks c)) ltac:(lia)) as [p Hp].
    erewrite take_S_r by (rewrite list_lookup_alter_eq, Hp; reflexivity).
    rewrite take_alter, decide_False by lia. rewrite map_app. cbn [map name_port pc_port_name upd setter].
    apply list.NoDup_app. split_and!; [done| |apply NoDup_singleton].
    intros x Hx ->%list_elem_of_singleton. by apply Hnew.
Qed.

Lemma select_port_ok c i : conf_ok o c -> -1 <= i < cf_nlinks c -> conf_ok o (c <| cf_cur_ppi_n := i |>).
Proof. intros [C1 C2 C3 C4 C5 C6 C7] Hi. by split. Qed.

Lemma f_port_ok c s : conf_ok o c -> conf_inv o (f_port c (a_s s)).1.
Proof.
  intros C. pose proof C as [C1 C2 C3 C4 C5 C6 C7]. unfold f_port.
  pose proof (find_port_spec s (cf_ports c) (Z.to_nat (cf_nlinks c)) ltac:(lia)) as Hf.
  destruct (find_port s _ _) as [i|]; [right; apply select_port_ok; [done|lia]|].
  destruct (Z.leb_spec (cf_max_links c) (cf_nlinks c)) as [|Hlt]; [right; apply select_port_ok; [done|lia]|].
  cbn [fst]. unfold strcpy_name. destruct (decide (NAME_SIZE <= length s)%nat) as [Hs|Hs].
  { left. by rewrite !bool_decide_true. }
  right. rewrite !bool_decide_false by done. pose proof (new_port_ok c s C Hlt ltac:(lia) Hf) as N.
  unfold on_port in *. cbn in N |- *. by rewrite alter_alter.
Qed.

(** What an option parses its argument to. *)
Lemma handler_inv l line a c : option_ok l = true -> parse_arg l line = Some a -> conf_ok o c ->
  conf_inv o (call_handler l c a).1.
Proof.
  intros Hl Ha C. assert (conf_inv o c) as Ci by (by right). unfold option_ok in Hl. unfold parse_arg in Ha. unfold call_handler.
  destruct (al_f l) eqn:Ef, (al_t l) eqn:Et; try discriminate Hl.
  - injection Ha as <-. by apply f_port_ok.
  - destruct (scan_i line); simplify_eq. unfold f_simple_int. destruct (CHECK_PPI _ _); [|done].
    unfold ASSIGN_INT_FIELD. destruct (_ || _) eqn:Er; [done|]. zbool. cbn [fst]. unfold store_num.
    destruct (al_field l) as [f| | | |f|f], (al_needs_port l); try discriminate Hl; [..|by left];
      unfold within in Hl; zbool; right; [apply on_num_ok|apply store_opt_ok]; [split; lia|done|split; lia|done].
  - destruct (find_name line (al_args l)) as [v|] eqn:En; simplify_eq/=. unfold f_simple_int.
    destruct (CHECK_PPI _ _); [|done]. unfold ASSIGN_INT_FIELD. destruct (_ || _); [done|]. cbn [fst]. unfold store_num.
    destruct (al_field l) as [f| | | |f|f], (al_needs_port l); try discriminate Hl.
    right. apply on_num_ok; [|done]. by eapply values_in_name.
  - destruct (scan_d64 line); simplify_eq. unfold f_simple_int64. destruct (CHECK_PPI _ _); [|done].
    unfold ASSIGN_INT_FIELD. destruct (_ || _) eqn:Er; [done|]. zbool. cbn [fst]. unfold store_num.
    destruct (al_field l) as [f| | | |f|f], (al_needs_port l); try discriminate Hl.
    unfold within in Hl. zbool. right. apply on_num_ok; [split; lia|done].
  - destruct (scan_lf line); simplify_eq. unfold f_simple_double. destruct (CHECK_PPI _ _); [|done].
    unfold ASSIGN_DOUBLE_FIELD. destruct (_ || _); [done|]. cbn [fst].
    destruct (al_field l) as [f| | | |f|f], (al_needs_port l); try discriminate Hl.
    right. apply on_port_ok; [by intros q []|done..].
  - destruct (find_name line (al_args l)) as [v|] eqn:En; simplify_eq/=. unfold f_simple_bool.
    destruct (CHECK_PPI _ _); [|done]. cbn [fst]. unfold store_num.
    destruct (al_field l) as [f| | | |f|f], (al_needs_port l); try discriminate Hl;
      apply andb_true_iff in Hl as [Hr%bool_decide_eq_true Hv]; right; [apply on_num_ok|apply store_opt_ok];
      try done; rewrite Hr; apply arg_b_range; by eapply values_in_name.
  - injection Ha as <-. unfold f_string. destruct (CHECK_PPI _ _); [|done]. cbn [fst].
    destruct (al_field l) as [f| | | |f|f], (al_needs_port l); try discriminate Hl.
    apply strcpy_name_ok; [by intros q []|done..].
  - injection Ha as <-. unfold f_diag. right. destruct (has_ppi c); cbn [fst]; [|by destruct C].
    apply on_port_ok; [by intros q []|done..].
  - injection Ha as <-. right. by apply f_vlan_ok.
  - destruct (scan_i_i line) as [[r i] j]. destruct (r <? 0); simplify_eq. unfold f_servo_pi.
    destruct (CHECK_PPI _ _); [|done]. destruct (_ || _); [done|]. right. cbn [fst]. destruct C as [C1 C2 C3 C4 C5 C6 C7].
    by split.
Qed.

Lemma config_line_inv c line : conf_inv o c -> conf_inv o (pp_config_line c line).1.
Proof.
  intros Hc. unfold pp_config_line. destruct (first_word line) as [w r].
  destruct (bool_decide _); [done|]. destruct (bool_decide _).
  { destruct Hc as [Hw|C]; [by left|]. right. apply select_port_ok; [done|]. pose proof (ok_links _ _ C). lia. }
  destruct (find_keyword w pp_arglines) as [l|] eqn:Ef; [|done].
  assert (option_ok l = true) as Hl.
  { apply find_keyword_in, list_elem_of_In in Ef. exact (proj1 (forallb_forall _ _) tables_option_ok l Ef). }
  assert (forall line a, parse_arg l line = Some a ->
    conf_inv o (let '(c, r) := call_handler l c a in (c, if truth r then -1 else 0)).1) as Hh.
  { intros ln a Ha. assert (conf_inv o (call_handler l c a).1) as Hi.
    { destruct Hc as [Hw|C]; [left; by apply wild_handler|by eapply handler_inv]. }
    by destruct (call_handler l c a). }
  destruct (al_t l) eqn:Et; destruct (trim r) as [ln|]; try done;
    try (destruct (parse_arg l ln) as [a|] eqn:Ea; [by eapply Hh|done]);
    (apply (Hh []); unfold parse_arg; by rewrite Et).
Qed.

Lemma statements_inv ss ce : conf_inv o ce.1 -> conf_inv o (run_statements ce ss).1.
Proof.
  revert ce. induction ss as [|s ss IH]; intros ce Hc; [done|]. cbn. apply IH. unfold run_statement.
  pose proof (config_line_inv ce.1 s Hc) as Hl. by destruct (pp_config_line ce.1 s).
Qed.

Lemma parse_conf_inv c text : Z.of_nat (length text) < 2147483646 -> conf_inv o (c <| cf_cur_ppi_n := -1 |>) ->
  conf_inv o (pp_parse_conf c text).1.
Proof.
  intros Hl Hc. destruct (parse_conf_statements c text Hl) as [-> _]. cbn [fst]. by apply statements_inv.
Qed.

(** A text selects its ports anew. *)
Lemma deselect_inv c : conf_inv o c -> conf_inv o (c <| cf_cur_ppi_n := -1 |>).
Proof.
  intros [Hw|C]; [by left|]. right. apply select_port_ok; [done|]. pose proof (ok_links _ _ C). lia.
Qed.

End Invariant.

(** The configuration [main] starts from. *)
Lemma initial_ok `{Config} `{!ConfBuild} : conf_ok pp_default_rt_opts (initial_conf <| cf_cur_ppi_n := -1 |>).
Proof.
  pose proof max_links_range. split; cbn; try lia.
  - rewrite length_replicate. lia.
  - apply Forall_replicate. split; cbn; try (unfold NAME_SIZE; lia); [|apply length_replicate].
    intros []; unfold in_range; cbn; unfold MECH_E2E, MECH_P2P, PPSI_PROFILE_PTP, PPSI_PROFILE_CUSTOM, PPSI_PROTO_RAW,
      PPSI_PROTO_VLAN, PPS_INITIALIZING, PPS_SLAVE, PPS_PASSIVE; try lia; vm_compute; intuition congruence.
  - apply NoDup_nil_2.
Qed.
