(* ===== verification/ConfSpec.v ===== *)
(** * Configuration files, written and read

    The claims about lib/conf.c: the invariant, the equivalence with running
    the statements of the text, and the round trip: a configuration that is
    written with the options of the tables is read back as it was. *)

From stdpp Require Import strings.
From S2P Require Import Prelude TimeArith Types World Scan Conf ConfLex ConfInv.

(** ** Words *)

(** A text without blanks and terminators. *)
Definition plain (w : list Z) : bool := forallb (fun c => negb (blank c) && negb (is_term c)) w.
Definition is_word (w : list Z) : bool := match w with c :: _ => negb (c =? 35) && plain w | [] => false end.

Lemma plain_blank w : plain w = true -> forallb (fun c => negb (blank c)) w = true.
Proof. unfold plain. rewrite !forallb_forall. intros Hw x Hx. by destruct (andb_prop _ _ (Hw x Hx)). Qed.
Lemma plain_term w : plain w = true -> forallb (fun c => negb (is_term c)) w = true.
Proof. unfold plain. rewrite !forallb_forall. intros Hw x Hx. by destruct (andb_prop _ _ (Hw x Hx)). Qed.
Lemma word_plain w : is_word w = true -> plain w = true /\ w <> [].
Proof. destruct w as [|c w]; [done|]. intros Hw. split; [|done]. cbn [is_word] in Hw. by destruct (andb_prop _ _ Hw). Qed.

Lemma remove_trailing_plain l a : a <> [] -> plain a = true -> remove_trailing (l ++ a) = l ++ a.
Proof.
  intros Hne Ha. destruct (exists_last Hne) as (a' & c & ->). unfold plain in Ha. rewrite forallb_app in Ha.
  apply andb_prop in Ha as [_ Hc]. cbn in Hc. rewrite app_assoc, remove_trailing_snoc. by destruct (blank c).
Qed.

(** A keyword, a blank and an argument. *)
Lemma first_word_pair w a : w <> [] -> plain w = true -> a <> [] -> plain a = true ->
  first_word (w ++ 32 :: a) = (w, a).
Proof.
  intros Hw Pw Ha Pa. unfold first_word. replace (w ++ 32 :: a) with ((w ++ [32]) ++ a) by (by rewrite <- app_assoc).
  rewrite remove_trailing_plain by done. rewrite <- app_assoc. cbn [app].
  rewrite drop_while_none.
  - rewrite take_while_app, drop_while_app by (by apply plain_blank). cbn. by rewrite app_nil_r.
  - destruct w as [|c w]; [done|]. apply plain_blank in Pw. cbn in Pw |- *. by apply andb_prop in Pw as [-> _].
Qed.

Lemma trim_plain a : a <> [] -> plain a = true -> trim a = Some a.
Proof.
  intros Ha Pa. unfold trim. rewrite drop_while_none; [by destruct a|]. destruct a as [|c a]; [done|].
  apply plain_blank in Pa. cbn in Pa |- *. by apply andb_prop in Pa as [-> _].
Qed.

Lemma show_plain v : - 10 ^ 20 < v < 10 ^ 20 -> plain (show v) = true /\ show v <> [].
Proof.
  intros Hv. assert (forall n, 0 <= n < 10 ^ 20 -> plain (dec_digits 20 n) = true) as Hd.
  { intros n Hn. destruct (dec_digits_ok 20 n) as (D1 & _); [lia|done|]. unfold plain. rewrite forallb_forall in *.
    intros x Hx. specialize (D1 x Hx). unfold is_dec, blank, is_term in *. zbool. apply andb_true_iff.
    split; apply negb_true_iff; repeat (apply orb_false_iff; split); apply Z.eqb_neq; lia. }
  destruct (show_cons v [] Hv) as (c & r & E & _). rewrite app_nil_r in E. split; [|by rewrite E].
  unfold show. destruct (Z.ltb_spec v 0); [|apply Hd; lia]. exact (Hd (- v) ltac:(lia)).
Qed.

(** ** Configurations *)

Section Roundtrip.
Context `{Config} `{!ConfBuild}.

(** A setting: a keyword of the option [st_option] and how its value is written. *)
Record setting := mk_set { st_word : list Z; st_option : pp_argline; st_text : list Z; st_value : Z }.

Definition setting_text (s : setting) : list Z := st_word s ++ 32 :: st_text s.

(** The text is a number, or one of the names of the option, for a value within its limits.  A flag is
    stored as the first byte of its integer, so one that is on is read back on a little-endian host. *)
Definition setting_ok (s : setting) : Prop :=
  let l := st_option s in let v := st_value s in
  is_word (st_word s) = true /\ find_keyword (st_word s) pp_arglines = Some l /\
  match al_f l, al_t l with
  | h_simple_int, ARG_INT => st_text s = show v /\ INT_MIN <= v <= INT_MAX /\ al_min l <= v <= al_max l
  | h_simple_int64, ARG_INT64 => st_text s = show v /\ INT64_MIN <= v <= INT64_MAX /\ al_min l <= v <= al_max l
  | h_simple_int, ARG_NAMES =>
      plain (st_text s) = true /\ st_text s <> [] /\ find_name (st_text s) (al_args l) = Some v /\
      al_min l <= v <= al_max l
  | h_simple_bool, ARG_NAMES =>
      plain (st_text s) = true /\ st_text s <> [] /\ find_name (st_text s) (al_args l) = Some v /\
      (v = 0 \/ v = 1 /\ BIG_ENDIAN_HOST = false)
  | _, _ => False
  end.

Lemma setting_text_plain s : setting_ok s -> plain (st_text s) = true /\ st_text s <> [].
Proof.
  intros (_ & _ & Hs). destruct (al_f (st_option s)), (al_t (st_option s)); try done;
    try (by destruct Hs as (? & ? & _)); destruct Hs as (-> & Hr & _); apply show_plain;
    unfold INT_MIN, INT_MAX, INT64_MIN, INT64_MAX in Hr; lia.
Qed.

(** A setting is read as the store of its value. *)
Lemma setting_line s c : setting_ok s -> al_needs_port (st_option s) = has_ppi c ->
  pp_config_line c (setting_text s) = (store_num (st_option s) (st_value s) c, 0).
Proof.
  intros Hs Hp. destruct (setting_text_plain s Hs) as [Ha Hne]. destruct Hs as (Hw & Hk & Hs).
  destruct (word_plain _ Hw) as [Pw Nw]. unfold pp_config_line, setting_text.
  rewrite first_word_pair by done. rewrite bool_decide_false, (bool_decide_false (st_word s = [])), Hk, trim_plain by
    (done || (destruct (st_word s) as [|x y]; [done|]; cbn [head is_word] in *; intros [= ->]; done)).
  unfold parse_arg, call_handler, f_simple_int, f_simple_int64, f_simple_bool, ASSIGN_INT_FIELD, CHECK_PPI.
  rewrite Hp, eqb_reflx.
  assert (forall v, al_min (st_option s) <= v <= al_max (st_option s) ->
    (v <? al_min (st_option s)) || (al_max (st_option s) <? v) = false) as Hr by (intros; zbool; lia).
  destruct (al_f (st_option s)), (al_t (st_option s)); try done.
  - destruct Hs as (-> & Hv & Hl). unfold INT_MIN, INT_MAX in Hv.
    pose proof (scans_i (st_value s) [] ltac:(lia) ltac:(lia) eq_refl) as Hsc. rewrite app_nil_r in Hsc.
    by rewrite Hsc, Hr.
  - destruct Hs as (_ & _ & -> & Hl). cbn. by rewrite Hr.
  - destruct Hs as (-> & Hv & Hl).
    pose proof (scans_d64 (st_value s) [] Hv ltac:(unfold INT64_MIN, INT64_MAX in Hv; lia) eq_refl) as Hsc.
    rewrite app_nil_r in Hsc. by rewrite Hsc, Hr.
  - destruct Hs as (_ & _ & -> & Hv). cbn. unfold arg_b.
    destruct Hv as [->|[-> ->]]; [by destruct BIG_ENDIAN_HOST|done].
Qed.

(** A configuration: settings of the clock, then the ports with their settings. *)
Record port_section := mk_sec { sec_name : list Z; sec_settings : list setting }.
Record configuration := mk_cfgn { global_settings : list setting; sections : list port_section }.

Definition inst_setting (s : setting) : Prop :=
  setting_ok s /\ al_needs_port (st_option s) = true /\ exists f, al_field (st_option s) = m_inst f.
Definition opt_setting (s : setting) : Prop :=
  setting_ok s /\ al_needs_port (st_option s) = false /\ exists f, al_field (st_option s) = m_opt f.
Definition section_ok (s : port_section) : Prop :=
  plain (sec_name s) = true /\ sec_name s <> [] /\ (length (sec_name s) < NAME_SIZE)%nat /\
  Forall inst_setting (sec_settings s).

(** One statement per line. *)
Definition section_texts (s : port_section) : list (list Z) :=
  (str "port" ++ 32 :: sec_name s) :: map setting_text (sec_settings s).
Definition texts (g : configuration) : list (list Z) :=
  map setting_text (global_settings g) ++ concat (map section_texts (sections g)).
Definition render (g : configuration) : list Z := concat (map (fun t => t ++ [10]) (texts g)).

(** What the configuration says. *)
Definition opt_set (o : pp_runtime_opts) (s : setting) : pp_runtime_opts :=
  match al_field (st_option s) with m_opt f => set_opt f (st_value s) o | _ => o end.
Definition port_set (p : port_conf) (s : setting) : port_conf :=
  match al_field (st_option s) with m_inst f => set_num f (st_value s) p | _ => p end.
Definition port_of (s : port_section) (p : port_conf) : port_conf :=
  foldl port_set (name_port (sec_name s) p) (sec_settings s).

(** ** The statements of the text *)

Definition statement_ok (t : list Z) : Prop :=
  t <> [] /\ forallb (fun c => negb (is_term c)) t = true /\ is_comment t = false.

Lemma statements_render ts : Forall statement_ok ts -> statements (concat (map (fun t => t ++ [10]) ts)) = ts.
Proof.
  unfold statements. induction 1 as [|t ts (Hne & Ht & Hc) Hts IH]; [done|].
  cbn [map concat]. rewrite <- app_assoc. cbn [app]. rewrite statements_from_nl, list.filter_app, IH by done.
  cbn [until_comment]. rewrite Hc, filter_cons_True by done. done.
Qed.

Lemma pair_statement w a : is_word w = true -> a <> [] -> plain a = true -> statement_ok (w ++ 32 :: a).
Proof.
  intros Hw Ha Pa. destruct (word_plain _ Hw) as [Pw Nw]. split_and!.
  - by destruct w.
  - rewrite forallb_app. cbn. by rewrite (plain_term w), (plain_term a).
  - unfold is_comment. rewrite first_word_pair by done. apply bool_decide_eq_false. cbn [fst].
    destruct w as [|x y]; [done|]. cbn [head is_word] in *. by intros [= ->].
Qed.

Lemma texts_ok g : Forall opt_setting (global_settings g) -> Forall section_ok (sections g) ->
  Forall statement_ok (texts g).
Proof.
  assert (forall s, setting_ok s -> statement_ok (setting_text s)) as Hset.
  { intros s Hs. destruct (setting_text_plain s Hs). apply pair_statement; [apply Hs|done..]. }
  intros Hg Hs. unfold texts. apply Forall_app. split.
  - apply Forall_map. eapply Forall_impl; [|exact Hg]. intros s (Ho & _). by apply Hset.
  - induction Hs as [|s ss (Pn & Nn & _ & Hi) Hs IH]; [done|]. cbn [map concat]. apply Forall_app. split; [|done].
    constructor; [by apply (pair_statement (str "port"))|]. apply Forall_map. eapply Forall_impl; [|exact Hi].
    intros x (Ho & _). by apply Hset.
Qed.

(** ** Running them *)

Lemma run_cons c c' t ts : pp_config_line c t = (c', 0) -> run_statements (c, 0) (t :: ts) = run_statements (c', 0) ts.
Proof. intros Ht. cbn [run_statements foldl]. unfold run_statements, run_statement at 2. cbn [fst snd]. by rewrite Ht. Qed.

Lemma run_global gs c : Forall opt_setting gs -> has_ppi c = false ->
  run_statements (c, 0) (map setting_text gs) = (c <| cf_opts ::= fun o => foldl opt_set o gs |>, 0).
Proof.
  intros Hg. revert c. induction Hg as [|s gs (Hs & Hn & f & Hf) Hg IH]; intros c Hc; [by destruct c|].
  cbn [map foldl]. erewrite run_cons by (apply setting_line; [done|by rewrite Hn, Hc]).
  unfold store_num. rewrite Hf, Hn, IH by done.
  assert (opt_set (cf_opts c) s = set_opt f (st_value s) (cf_opts c)) as E by (unfold opt_set; by rewrite Hf).
  cbn. by rewrite E.
Qed.

Lemma on_port_on_port f g c : on_port f (on_port g c) = on_port (fun p => f (g p)) c.
Proof. unfold on_port. cbn. by rewrite alter_alter. Qed.

Lemma run_port_settings ss c : Forall inst_setting ss -> has_ppi c = true ->
  run_statements (c, 0) (map setting_text ss) = (on_port (fun p => foldl port_set p ss) c, 0).
Proof.
  intros Hg. revert c. induction Hg as [|s gs (Hs & Hn & f & Hf) Hg IH]; intros c Hc.
  { cbn. unfold on_port. destruct c. cbn. by rewrite list_alter_id. }
  cbn [map foldl]. erewrite run_cons by (apply setting_line; [done|by rewrite Hn, Hc]).
  unfold store_num. rewrite Hf, Hn, IH, on_port_on_port by done.
  change (fun p => foldl port_set (port_set p s) gs) with (fun p => foldl port_set
    (match al_field (st_option s) with m_inst f => set_num f (st_value s) p | _ => p end) gs). by rewrite Hf.
Qed.

(** A section takes the next free port. *)
Definition load_section (c : conf) (s : port_section) : conf :=
  (on_port (port_of s) (c <| cf_cur_ppi_n := cf_nlinks c |>)) <| cf_nlinks ::= fun n => n + 1 |>.

Lemma run_section s c : section_ok s -> Z.of_nat (length (cf_ports c)) = cf_max_links c -> cf_max_links c < 65536 ->
  0 <= cf_nlinks c < cf_max_links c -> sec_name s ∉ port_names c ->
  run_statements (c, 0) (section_texts s) = (load_section c s, 0).
Proof.
  intros (Pn & Nn & Ln & Hi) Hlen Hmax Hl Hnew. unfold section_texts.
  rewrite (run_cons _ (on_port (name_port (sec_name s)) (c <| cf_cur_ppi_n := cf_nlinks c |>))
    <| cf_nlinks ::= fun n => n + 1 |>).
  - rewrite run_port_settings by (done || (unfold has_ppi; cbn; lia)). f_equal.
    unfold load_section, on_port. cbn. by rewrite alter_alter.
  - unfold pp_config_line. rewrite first_word_pair by done. rewrite trim_plain, !bool_decide_false by done.
    change (find_keyword _ pp_arglines) with (Some (INST_OPTION_FCT h_port "link port" ARG_STR)).
    cbn [al_t INST_OPTION_FCT parse_arg call_handler al_f]. unfold f_port.
    pose proof (find_port_spec (sec_name s) (cf_ports c) (Z.to_nat (cf_nlinks c)) ltac:(lia)) as Hf.
    destruct (find_port _ _ _) as [i|].
    { destruct Hf as [_ Hf]. exfalso. apply Hnew. by eapply list_elem_of_lookup_2. }
    destruct (Z.leb_spec (cf_max_links c) (cf_nlinks c)); [lia|].
    unfold strcpy_name. rewrite !bool_decide_false by lia. rewrite on_port_on_port. cbn.
    by rewrite i32_id by lia.
Qed.

(** The ports of the sections [ss], from the first one on. *)
Definition section_port (ss : list port_section) (j : nat) (p : port_conf) : port_conf :=
  match ss !! j with Some s => port_of s p | None => p end.
Definition loaded (ss : list port_section) (c : conf) : conf :=
  c <| cf_ports ::= imap (section_port ss) |> <| cf_nlinks := Z.of_nat (length ss) |>
    <| cf_cur_ppi_n := Z.of_nat (length ss) - 1 |>.

Lemma loaded_snoc ss s c : (length ss < length (cf_ports c))%nat ->
  load_section (loaded ss c) s = loaded (ss ++ [s]) c.
Proof.
  intros Hl. unfold load_section, loaded, on_port. destruct c as [ports nl mx it cur op rx tx fl wl]. cbn in *.
  f_equal; rewrite ?length_app; cbn; try lia.
  apply list_eq. intros j. rewrite Nat2Z.id, list_lookup_imap. unfold section_port.
  destruct (decide (length ss = j)) as [<-|Hne].
  - rewrite list_lookup_alter_eq, list_lookup_imap. destruct (ports !! length ss); [|done]. cbn.
    rewrite lookup_ge_None_2, list_lookup_middle by done. done.
  - rewrite list_lookup_alter_ne, list_lookup_imap by done. destruct (ports !! j); [|done]. cbn.
    destruct (decide (j < length ss)%nat).
    + by rewrite lookup_app_l by done.
    + rewrite !lookup_ge_None_2; [done|rewrite length_app; cbn; lia|lia].
Qed.

Lemma port_of_name s p : pc_port_name (port_of s p) = sec_name s.
Proof.
  unfold port_of. change (sec_name s) with (pc_port_name (name_port (sec_name s) p)) at 2.
  generalize (name_port (sec_name s) p) as q. induction (sec_settings s) as [|x l IH]; intros q; [done|].
  cbn [foldl]. rewrite IH. unfold port_set. destruct (al_field _) as [f| | | | |]; try done.
  by destruct (set_num_frame f (st_value x) q).
Qed.

Lemma loaded_names ss c : (length ss <= length (cf_ports c))%nat -> port_names (loaded ss c) = map sec_name ss.
Proof.
  intros Hl. unfold port_names, loaded. cbn. rewrite Nat2Z.id. apply list_eq. intros j.
  rewrite !list_lookup_fmap. destruct (decide (j < length ss)%nat) as [Hj|Hj].
  - rewrite lookup_take_lt, list_lookup_imap by done.
    destruct (lookup_lt_is_Some_2 (cf_ports c) j ltac:(lia)) as [p ->].
    destruct (lookup_lt_is_Some_2 ss j Hj) as [s Es]. rewrite Es. cbn. unfold section_port. by rewrite Es, port_of_name.
  - rewrite lookup_take_ge, (lookup_ge_None_2 ss) by lia. done.
Qed.

Lemma run_sections ss c : Forall section_ok ss -> Z.of_nat (length (cf_ports c)) = cf_max_links c ->
  cf_max_links c < 65536 -> (length ss <= length (cf_ports c))%nat -> NoDup (map sec_name ss) ->
  run_statements (loaded [] c, 0) (concat (map section_texts ss)) = (loaded ss c, 0).
Proof.
  intros Hok Hlen Hmax. induction ss as [|s ss IH] using rev_ind; intros Hl Hnd; [done|].
  rewrite length_app in Hl. cbn in Hl. apply Forall_app in Hok as [Hss Hs]. inversion_clear Hs as [|? ? Hs' _].
  rewrite map_app in Hnd. apply list.NoDup_app in Hnd as (Hnd & Hnew & _).
  rewrite map_app, concat_app. unfold run_statements in *. rewrite foldl_app, IH by (done || lia).
  cbn [map concat]. rewrite app_nil_r.
  pose proof (run_section s (loaded ss c) Hs') as Hr. unfold run_statements in Hr. rewrite Hr.
  - by rewrite loaded_snoc by lia.
  - unfold loaded. cbn. by rewrite length_imap.
  - done.
  - unfold loaded. cbn. lia.
  - rewrite loaded_names by lia. intros Hin. apply (Hnew _ Hin). by apply list_elem_of_singleton.
Qed.

End Roundtrip.

(** ** VLAN lists *)

Section Vlan.
Context `{Config} `{!ConfBuild}.

Fixpoint show_vlans (vs : list Z) : list Z :=
  match vs with [] => [] | [v] => show v | v :: vs => show v ++ 44 :: show_vlans vs end.

Definition vlan_range (v : Z) : Prop := 0 <= v <= 4095.

Lemma scan_vlan v rest : vlan_range v -> starts_not (fun c => is_dec c || (c =? 120) || (c =? 88)) rest = true ->
  starts_not isspace rest = true ->
  scan_i_c (show v ++ rest) = match rest with c :: _ => (2, Some v, Some c) | [] => (1, Some v, None) end.
Proof.
  intros Hv Hs Hr. unfold vlan_range in Hv. unfold scan_i_c. rewrite scans_i by (done || lia).
  by rewrite drop_while_none.
Qed.

Lemma after_comma_show v rest : vlan_range v -> after_comma (show v ++ 44 :: rest) = rest.
Proof.
  intros Hv. unfold vlan_range in Hv. unfold after_comma. rewrite drop_while_app; [done|].
  destruct (dec_digits_ok 20 v) as (D & _); [lia..|]. unfold show. destruct (Z.ltb_spec v 0); [lia|].
  rewrite forallb_forall in *. intros x Hx. specialize (D x Hx). unfold is_dec in D. zbool.
  apply negb_true_iff, Z.eqb_neq. lia.
Qed.

(** The loop fills the array from [n] on. *)
Lemma vlan_loop_show vs : forall slots n v, vs <> [] -> Forall vlan_range vs -> (length vs <= slots)%nat ->
  (n + slots <= length v)%nat -> exists v',
  vlan_loop slots (show_vlans vs) n v = (v', vlan_done (Z.of_nat (n + length vs) - 1)) /\ length v' = length v /\
  take (n + length vs) v' = take n v ++ vs.
Proof.
  induction vs as [|x vs IH]; intros slots n v Hne Hr Hs Hl; [done|]. inversion_clear Hr as [|? ? Hx Hvs].
  destruct slots as [|slots]; [cbn in Hs; lia|]. cbn in Hs. cbn [vlan_loop].
  assert (nth n (<[n := x]> v) 0 = x) as En by (rewrite nth_lookup, list_lookup_insert_eq by lia; done).
  assert (forall b, (4095 <? x) || (x <? 0) || b = b) as Eb.
  { intros b. unfold vlan_range in Hx. assert ((4095 <? x) || (x <? 0) = false) as -> by (zbool; lia). done. }
  destruct vs as [|y vs].
  - cbn [show_vlans]. rewrite <- (app_nil_r (show x)), scan_vlan by done. cbn [Z.eqb]. rewrite En.
    specialize (Eb false). rewrite orb_false_r in Eb. rewrite Eb. cbn. exists (<[n := x]> v).
    split; [do 2 f_equal; lia|]. split; [apply length_insert|]. rewrite Nat.add_1_r.
    erewrite take_S_r by (apply list_lookup_insert_eq; lia). by rewrite take_insert_ge.
  - change (show_vlans (x :: y :: vs)) with (show x ++ 44 :: show_vlans (y :: vs)).
    rewrite scan_vlan by done. cbn [Z.eqb Pos.eqb]. rewrite En. specialize (Eb false). rewrite orb_false_r in Eb. rewrite Eb.
    rewrite after_comma_show by done. cbn [andb negb bool_decide].
    destruct (IH slots (S n) (<[n := x]> v)) as (v' & -> & L & T); [done..|cbn in *; lia|rewrite length_insert; lia|].
    exists v'. rewrite length_insert in L. cbn [length] in *. split; [|split; [done|]].
    + do 2 f_equal. lia.
    + replace (n + S (S (length vs)))%nat with (S n + S (length vs))%nat by lia. rewrite T.
      erewrite take_S_r by (apply list_lookup_insert_eq; lia). rewrite take_insert_ge by done. by rewrite <- app_assoc.
Qed.

(** A list of VLANs that fits the array is stored, and the port uses the VLAN transport. *)
Theorem f_vlan_list c p vs : conf_ok pp_default_rt_opts c -> cur_port c = Some p -> pc_proto p <> PPSI_PROTO_UDP ->
  vs <> [] -> Forall vlan_range vs -> Z.of_nat (length vs) <= CONFIG_VLAN_ARRAY_SIZE ->
  exists v, take (length vs) v = vs /\
  f_vlan c (a_s (show_vlans vs)) =
    (on_port (fun q => q <| pc_vlans := v |> <| pc_nvlans := Z.of_nat (length vs) |> <| pc_proto := PPSI_PROTO_VLAN |>) c, 0).
Proof.
  intros C Hp Hu Hne Hr Hl. unfold f_vlan. rewrite Hp. unfold cur_port in Hp. destruct (has_ppi c); [|done].
  pose proof (proj1 (Forall_lookup _ _) (ok_ports _ _ C) _ _ Hp) as [_ _ _ Hv _]. unfold VLAN_SLOTS in Hv.
  destruct vs as [|x vs]; [done|]. cbn [length] in Hl. rewrite (proj2 (Z.eqb_neq _ _) Hu).
  destruct (Z.eqb_spec CONFIG_VLAN_ARRAY_SIZE 0); [lia|].
  destruct (vlan_loop_show (x :: vs) (Z.to_nat CONFIG_VLAN_ARRAY_SIZE) 0 (pc_vlans p)) as (v & -> & L & T);
    [done..|cbn; lia|lia|].
  exists v. split; [exact T|]. cbn [length] in *. destruct (Z.eqb_spec (Z.of_nat (0 + S (length vs)) - 1) CONFIG_VLAN_ARRAY_SIZE); [lia|].
  rewrite on_port_on_port. by replace (Z.of_nat (0 + S (length vs)) - 1 + 1) with (Z.of_nat (S (length vs))) by lia.
Qed.

End Vlan.

Section Claims.
Context `{Config} `{!ConfBuild}.

(** C17. Any text. Whatever a configuration file or string holds, after it was read every integer,
    enumeration or flag member of every port ([inst_field]) is in the range of its option, every
    member of the clock's options with a range of its own ([opt_field]; not the attenuations of
    [servo-pi], which are stored unchecked, and not the decimal [delayCoefficient]) has its
    initial value or one in range, there are no more ports than allocated and no two with a name,
    the selected port is one of them, names fit their arrays and the VLANs theirs; provided that
    this held before and the text did not make the parser store outside of an object ([cf_wild]).
    *)
Theorem parse_conf_sound (o : pp_runtime_opts) (c : conf) (text : list Z) :
  Z.of_nat (length text) < 2147483646 -> conf_ok o (c <| cf_cur_ppi_n := -1 |>) ->
  cf_wild (pp_parse_conf c text).1 = false -> conf_ok o (pp_parse_conf c text).1.
Proof. intros Hl Hc Hw. destruct (parse_conf_inv o c text Hl) as [Hx|]; [by right|congruence|done]. Qed.

(** The reading of a text is the running of its statements: the text is split at newlines,
    each line at semicolons, a statement whose first word starts with a hash ends its line, empty
    statements are skipped; the result is -1 iff a statement failed, and a failed statement does
    not stop the ones after it. *)
Theorem parse_conf_equiv (c : conf) (text : list Z) :
  Z.of_nat (length text) < 2147483646 ->
  let ce := foldl run_statement (c <| cf_cur_ppi_n := -1 |>, 0) (statements text) in
  pp_parse_conf c text = (ce.1, if 0 <? ce.2 then -1 else 0).
Proof. intros Hl. by destruct (parse_conf_statements c text Hl) as [-> _]. Qed.

(** C16. A configuration, shorter than 2^31 characters, is read back into a program that has no
    port yet and instances for all. It consists of settings of the clock and then of a section per
    port, with distinct names that fit; a setting is a keyword of the tables whose option is an
    integer, an enumeration or a flag of a port or of the clock ([setting_ok]: not the interface
    name, [vlan], [servo-pi], [diagnostic], [delayCoefficient], [rx-drop] and [tx-drop], and on a
    big-endian host no flag that is on), with a value within its limits. Then no statement fails,
    the ports are the sections in their order, each with its name and the last value given to each
    of its members, the clock's options are those set, and nothing else is touched. *)
Theorem config_roundtrip (c : conf) (g : configuration) :
  Z.of_nat (length (render g)) < 2147483646 ->
  Z.of_nat (length (cf_ports c)) = cf_max_links c -> cf_max_links c < 65536 -> cf_nlinks c = 0 ->
  Forall opt_setting (global_settings g) -> Forall section_ok (sections g) ->
  (length (sections g) <= length (cf_ports c))%nat -> NoDup (map sec_name (sections g)) ->
  pp_parse_conf c (render g) =
  (c <| cf_opts ::= fun o => foldl opt_set o (global_settings g) |>
     <| cf_ports ::= imap (fun j p => match sections g !! j with Some s => port_of s p | None => p end) |>
     <| cf_nlinks := Z.of_nat (length (sections g)) |> <| cf_cur_ppi_n := Z.of_nat (length (sections g)) - 1 |>, 0).
Proof.
  intros Hl Hlen Hmax Hn Hg Hs Hle Hnd. destruct (parse_conf_statements c (render g) Hl) as [-> _].
  unfold render. rewrite statements_render by (by apply texts_ok). unfold texts, run_statements. rewrite foldl_app.
  pose proof (run_global (global_settings g) (c <| cf_cur_ppi_n := -1 |>) Hg eq_refl) as Hr. unfold run_statements in Hr.
  rewrite Hr. set (c1 := _ <| cf_opts ::= _ |>).
  assert (c1 = loaded [] (c <| cf_opts ::= fun o => foldl opt_set o (global_settings g) |>)) as ->.
  { unfold c1, loaded. cbn [length Z.of_nat Z.sub]. clear -Hn. destruct c as [ports nl mx it cur op rx tx fl wl].
    cbn in *. subst nl. f_equal. apply list_eq. intros j. rewrite list_lookup_imap. by destruct (ports !! j). }
  pose proof (run_sections (sections g) (c <| cf_opts ::= fun o => foldl opt_set o (global_settings g) |>)
    Hs Hlen Hmax Hle Hnd) as Hs'. unfold run_statements in Hs'. rewrite Hs'. done.
Qed.

End Claims.

(** ** A small build *)

Module ConfDemo.

#[local] Instance demo_cfg : Config := Demo.demo_config.

(** All profiles, three ports, and numbers for [double]. *)
Definition demo_build : @ConfBuild Demo.demo_config.
Proof.
  refine {| CONFIG_HAS_PROFILE_WR := true; CONFIG_HAS_PROFILE_HA := true; CONFIG_HAS_PROFILE_CUSTOM := true;
    CONFIG_HAS_EXT_L1SYNC := true; PP_MAX_LINKS := 3; double := Z; double_of_Z := fun z => z; double_lt := Z.ltb;
    double_to_reldiff := fun d => d * 2 ^ 62; scan_lf := fun l => Some (Some 0);
    stack_i2 := fun _ => (7, 7); stack_d := fun _ => 0 |}; cbn; lia.
Defined.
#[local] Existing Instance demo_build.

Definition num (w : string) (l : pp_argline) (v : Z) : setting := mk_set (str w) l (show v) v.
Definition choice (w : string) (l : pp_argline) (t : string) (v : Z) : setting := mk_set (str w) l (str t) v.

Definition demo_configuration : configuration :=
  mk_cfgn [num "priority1" (RT_OPTION_INT_RANGE "priority1" O_priority1 0 255) 10;
           choice "slaveOnly" (RT_OPTION_BOOL "slaveOnly" O_slaveOnly) "yes" 1]
    [mk_sec (str "up") [choice "proto" (INST_OPTION_INT "proto" ARG_NAMES arg_proto F_proto) "raw" 0;
       num "logSyncInterval" (INST_OPTION_INT_RANGE "sync-interval logSyncInterval" ARG_INT [] F_sync_interval (-1) 1) (-1)];
     mk_sec (str "down") [num "egressLatency" (INST_OPTION_INT64_RANGE "egressLatency" F_egressLatency_ps
       TIME_INTERVAL_MIN_PICOS_VALUE_AS_INT64 TIME_INTERVAL_MAX_PICOS_VALUE_AS_INT64) (-123456)]].

Example demo_text : render demo_configuration =
  str "priority1 10" ++ [10] ++ str "slaveOnly yes" ++ [10] ++ str "port up" ++ [10] ++ str "proto raw" ++ [10] ++
  str "logSyncInterval -1" ++ [10] ++ str "port down" ++ [10] ++ str "egressLatency -123456" ++ [10].
Proof. vm_compute. reflexivity. Qed.

Ltac check_setting := split; [split; [reflexivity|]; split; [vm_compute; reflexivity|vm_compute; intuition congruence]|];
  split; [reflexivity|eexists; reflexivity].

Lemma config_roundtrip_witness :
  let c := (pp_parse_conf initial_conf (render demo_configuration)).1 in
  cf_nlinks c = 2 /\ opt_priority1 (cf_opts c) = 10 /\
  (pc_sync_interval <$> cf_ports c !! 0%nat) = Some (-1) /\ (pc_egressLatency_ps <$> cf_ports c !! 1%nat) = Some (-123456).
Proof.
  rewrite (config_roundtrip initial_conf demo_configuration); [vm_compute; done|vm_compute; reflexivity..| | |vm_compute; lia|].
  - repeat (apply Forall_nil_2 || (apply Forall_cons_2; [check_setting|])).
  - apply Forall_cons_2; [|apply Forall_cons_2; [|apply Forall_nil_2]]; (split; [reflexivity|]; split; [discriminate|]; split; [vm_compute; lia|]);
      repeat (apply Forall_nil_2 || (apply Forall_cons_2; [check_setting|])).
  - apply (bool_decide_unpack _). vm_compute. done.
Defined.

Lemma parse_conf_equiv_witness :
  pp_parse_conf initial_conf (str "port a; vlan 7 # x; port b") =
  let ce := foldl run_statement (initial_conf <| cf_cur_ppi_n := -1 |>, 0) [str "port a"; str " vlan 7 # x"; str " port b"] in
  (ce.1, if 0 <? ce.2 then -1 else 0).
Proof.
  rewrite (parse_conf_equiv initial_conf (str "port a; vlan 7 # x; port b")); [|vm_compute; reflexivity].
  change (statements _) with [str "port a"; str " vlan 7 # x"; str " port b"]. reflexivity.
Defined.

Lemma parse_conf_sound_witness :
  conf_ok pp_default_rt_opts (pp_parse_conf initial_conf (str "port a; desiredState slave; priority1 300")).1.
Proof.
  apply (parse_conf_sound pp_default_rt_opts initial_conf); [vm_compute; reflexivity|apply initial_ok|vm_compute; reflexivity].
Defined.

(** ** Deviations *)

Definition parsed (s : string) : conf * Z := pp_config_string initial_conf (str s).
Definition first_port {A} (h : port_conf -> A) (c : conf) : option A := h <$> cf_ports c !! 0%nat.

(** The attenuations are checked as [int] and stored as [Integer16]: a zero one is accepted. *)
Example servo_pi_zero : opt_ap (cf_opts (parsed "servo-pi 65536,7").1) = 0 /\ (parsed "servo-pi 65536,7").2 = 0.
Proof. vm_compute. done. Qed.

(** The second number may be missing: what the stack holds is stored. *)
Example servo_pi_stack : opt_ai (cf_opts (parsed "servo-pi 5").1) = (stack_i2 (str "5")).2 /\ (parsed "servo-pi 5").2 = 0.
Proof. vm_compute. done. Qed.

(** A list that ends with something else than a number counts a VLAN that was not given; it is
    the one a rejected line left there, out of range. *)
Example vlan_stale : let c := parsed "port a; vlan 1,5000; vlan 1,x" in
  first_port pc_nvlans c.1 = Some 2 /\ first_port (fun p => nth 1 (pc_vlans p) 0) c.1 = Some 5000.
Proof. vm_compute. done. Qed.

(** [rx-drop] and [tx-drop] are members of [struct pp_globals] stored relative to the run-time options. *)
Example rx_drop_wild : cf_wild (parsed "rx-drop 100").1 = true /\ cf_rxdrop (parsed "rx-drop 100").1 = 0.
Proof. vm_compute. done. Qed.

(** A name of 16 characters runs over the end of its array. *)
Example long_name_wild : cf_wild (parsed "port a123456789abcdef").1 = true.
Proof. vm_compute. done. Qed.

(** A line of blanks ends a port, an empty line does not. *)
Example blank_lines :
  (pp_config_string initial_conf (str "port a" ++ [10; 10] ++ str "proto udp")).2 = 0 /\
  (pp_config_string initial_conf (str "port a" ++ [10; 32; 10] ++ str "proto udp")).2 = -1.
Proof. vm_compute. done. Qed.

(** A value out of range is not stored, and not an error. *)
Example out_of_range_accepted : (parsed "priority1 300").2 = 0 /\ opt_priority1 (cf_opts (parsed "priority1 300").1) = 128.
Proof. vm_compute. done. Qed.

End ConfDemo.

(** On a big-endian host every flag is stored as false. *)
Lemma big_endian_flags `{Config} : BIG_ENDIAN_HOST = true -> arg_b 1 = 0.
Proof. unfold arg_b. by intros ->. Qed.
