(* ===== verification/UnixMain.v ===== *)
(** * The program from its command line

    lib/cmdline.c, lib/drop.c and [main] of arch-unix/unix-startup.c: the
    defaults, the options of the command line, the configuration files, the
    set-up of each port from its configuration, up to [pp_init_globals] and
    the main loop.  [world_of] is the memory at that call. *)

From stdpp Require Import strings.
From S2P Require Import Prelude TimeArith Types World Timeout Hooks Bytes Msg FixedPoint Servo.
From S2P Require Import BmcCmp ClockQuality Bmc BmcTable OpenClose MainLoop Wrh L1Sync Scan Conf.

(** ** Fault injection: lib/drop.c *)

Section Drop.
Context `{Config}.

Record ppsi_drop := mk_drop { rxrand : Z; txrand : Z; rxrate : Z; txrate : Z }.

(** The new seed and whether to drop; [rate] is converted to [unsigned long]. *)
Definition drop_this (p rate : Z) : Z * bool :=
  let p := Z.land (ulong (ulong (p * 1103515245) + 12345)) 0x7fffffff in
  (p, p mod 1000 <? ulong rate).

Definition ppsi_drop_init (rxdrop txdrop seed : Z) : ppsi_drop :=
  mk_drop seed (ulong (seed + 1)) rxdrop txdrop.
Definition ppsi_drop_rx (d : ppsi_drop) : ppsi_drop * bool :=
  if truth (rxrate d) then
    let '(p, b) := drop_this (rxrand d) (rxrate d) in (mk_drop p (txrand d) (rxrate d) (txrate d), b)
  else (d, false).
Definition ppsi_drop_tx (d : ppsi_drop) : ppsi_drop * bool :=
  if truth (txrate d) then
    let '(p, b) := drop_this (txrand d) (txrate d) in (mk_drop (rxrand d) p (rxrate d) (txrate d), b)
  else (d, false).

End Drop.

(** ** The operations of the extensions

    [wrh_oper] of arch-unix: a perfect world, in which [locking_disable] is a null pointer.  The
    environment of the platform is extended by whether a null pointer was called, which ends the
    process; every other operation leaves that as it is. *)

Definition on_left {E} (f : E -> E) (e : E * bool) : E * bool := (f e.1, e.2).
Definition ask_left {E T} (f : E -> T * E) (e : E * bool) : T * (E * bool) := ((f e.1).1, ((f e.1).2, e.2)).

Definition call_null {E} (e : E * bool) : Z * (E * bool) := (0, (e.1, true)).

Section NullCalls.
Context (P : Platform).

Definition null_platform : Platform := {|
  env := env * bool;
  t_calc_timeout i ms := ask_left (t_calc_timeout i ms);
  t_get i := ask_left (t_get i);
  t_set i t := on_left (t_set i t);
  t_adjust i o f := on_left (t_adjust i o f);
  t_adjust_offset i o := on_left (t_adjust_offset i o);
  t_adjust_freq := (fun g i f => on_left (g i f)) <$> t_adjust_freq;
  t_init_servo := (fun g i => ask_left (g i)) <$> t_init_servo;
  t_get_utc_time i := ask_left (t_get_utc_time i);
  t_get_utc_offset i := ask_left (t_get_utc_offset i);
  t_set_utc_offset i a b c := on_left (t_set_utc_offset i a b c);
  t_get_GM_lock_state := ask_left t_get_GM_lock_state;
  t_enable_timing_output b := on_left (t_enable_timing_output b);
  n_init i := ask_left (n_init i);
  n_send i pkt len fmt := ask_left (n_send i pkt len fmt) |}.

#[local] Existing Instance null_platform | 0.

(** [unix_time_ops] is called from the servo on a switch only. *)
Definition unix_wrh_oper : @WrhOper null_platform := {|
  locking_enable _ e := (0, e);
  locking_poll _ e := (WRH_SPLL_LOCKED, e);
  locking_disable _ := call_null;
  locking_reset _ e := (0, e);
  enable_ptracker _ e := (0, e);
  adjust_in_progress e := (0, e);
  adjust_counters _ _ e := (0, e);
  adjust_phase _ e := (0, e);
  get_clock_period e := (8000, e);
  unix_time_set _ _ e := e |}.

Definition null_event (ev : @event P) : @event null_platform :=
  @mk_event null_platform (@ev_available P ev) (on_left (@ev_env P ev)) (@ev_rx P ev).

(** Whether a null pointer was called. *)
Definition null_called (w : @world null_platform) : bool :=
  snd (@the_env null_platform w : @env P * bool).

End NullCalls.

Section Model.
Context `{Config} `{!ConfBuild} `{Platform}.

(** ** The command line *)

(** The process runs on, returns from [main] or exits, or follows a null pointer. *)
Inductive outcome (A : Type) := goes_on (a : A) | exits (code : Z) | crashes.
#[global] Arguments goes_on {A}.
#[global] Arguments exits {A}.
#[global] Arguments crashes {A}.

(** [atoi] of the C library: [strtol] in base 10, to an [int]. *)
Definition atoi (s : list Z) : Z :=
  let s := drop_while isspace s in
  let '(neg, s) := scan_sign s in
  match scan_digits LONG_MIN LONG_MAX neg true 10 s with scan_got v _ => i32 v | _ => 0 end.


Definition name_eq (a : list Z) (s : string) : bool := bool_decide (a = str s).

(** The loop over [argv[1]], ...; [fs] is what opening a file gives.  An option that takes an
    argument reads the next string, which is NULL after the last one. *)
Fixpoint pp_parse_cmdline (fs : list Z -> option conf_file) (argv : list (list Z)) (c : conf) : outcome (conf * Z) :=
  match argv with
  | [] => goes_on (c, 0)
  | a :: rest =>
      let err := match a with
                 | c0 :: r => negb (c0 =? 45) || match r with
                     | c1 :: r2 => (c1 =? 63) || negb (bool_decide (r2 = [])) | [] => false end
                 | [] => true end in
      if err then goes_on (c, -1)
      else if name_eq a "-d" then
        match rest with
        | [] => crashes
        | s :: rest => pp_parse_cmdline fs rest (c <| cf_global_d_flags := pp_diag_parse s |>)
        end
      else if name_eq a "-C" then
        match rest with
        | [] => crashes
        | s :: rest =>
            let '(c, r) := pp_config_string c s in
            if truth r then goes_on (c, -1) else pp_parse_cmdline fs rest c
        end
      else if name_eq a "-f" then
        match rest with
        | [] => goes_on ((pp_config_file c true None).1, -1)
        | s :: rest =>
            let '(c, r) := pp_config_file c true (fs s) in
            if truth r then goes_on (c, -1) else pp_parse_cmdline fs rest c
        end
      else if name_eq a "-t" then
        pp_parse_cmdline fs rest (c <| cf_opts ::= fun o => o <| opt_flags ::= fun f => Z.lor f PP_FLAG_NO_ADJUST |> |>)
      else if name_eq a "-w" then
        match rest with
        | [] => crashes
        | s :: rest => pp_parse_cmdline fs rest (c <| cf_opts ::= fun o => o <| opt_s := i16 (atoi s) |> |>)
        end
      else if name_eq a "-h" then pp_parse_cmdline fs rest c
      else goes_on (c, -1)
  end.

(** ** Setting a port up *)

(** The instance as [calloc] and the parser leave it. *)
Definition inst_of (p : port_conf) : pp_instance :=
  zero_inst <| proto := pc_proto p |>
    <| frgn_master := replicate CONFIG_NR_FOREIGN_RECORDS empty_frgn |>
    <| tmo_cfg := replicate PP_TO_COUNT zero_tmo |>
    <| sent_seq := replicate (Z.to_nat PP_NR_MESSAGES_TYPES) 0 |>
    <| vlans := pc_vlans p |> <| nvlans := pc_nvlans p |>
    <| cfg := mk_cfg (pc_announce_interval p) (pc_announce_receipt_timeout p) (pc_sync_interval p)
                (pc_min_delay_req_interval p) (pc_min_pdelay_req_interval p) (pc_desiredState p)
                (pc_iface_name p) (pc_l1syncInterval p) (pc_l1syncReceiptTimeout p) |>.

Definition enable_asymmetryCorrection (pc : port_conf) (enable : Z) (p : pp_instance) : pp_instance :=
  let p := p <| asymmetryCorrectionPortDS ::= fun d => d <| asym_enable := enable |> |> in
  let p :=
    if enable =? 1 then
      let c := if truth (pc_scaledDelayCoefficient pc) then pc_scaledDelayCoefficient pc
               else double_to_reldiff (pc_delayCoefficient pc) in
      p <| asymmetryCorrectionPortDS ::= fun d => d <| scaledDelayCoefficient := c |> |>
        <| portDS ::= fun d => d <| delayAsymCoeff := pp_servo_calculateDelayAsymCoefficient c |> |>
    else p in
  p <| asymmetryCorrectionPortDS ::= fun d => d <| constantAsymmetry := picos_to_interval (pc_constantAsymmetry_ps pc) |> |>.

Definition set_l1b (g : L1SyncBasicPortDS_t -> L1SyncBasicPortDS_t) (p : pp_instance) : pp_instance :=
  p <| ext_data ::= fun e => e <| l1e_portDS ::= fun d => d <| l1_basic ::= g |> |> |>.

(** The memory allocated is clear; the state and the flag are set here. *)
Definition enable_l1Sync (p : pp_instance) : pp_instance :=
  set_l1b (fun b => b <| L1SyncState := L1SYNC_DISABLED |> <| L1SyncEnabled := 1 |>)
    (p <| protocol_extension := PPSI_EXT_L1S |>).

(** The [switch] on the profile; [None] is the exit for one that is not built in. *)
Definition apply_profile (pc : port_conf) (p : pp_instance) : option pp_instance :=
  if pc_profile pc =? PPSI_PROFILE_WR then
    if CONFIG_HAS_PROFILE_WR
    then Some (enable_asymmetryCorrection pc 1 (p <| protocol_extension := PPSI_EXT_WR |>)) else None
  else if pc_profile pc =? PPSI_PROFILE_HA then
    if CONFIG_HAS_PROFILE_HA then
      Some (enable_asymmetryCorrection pc 1
        (set_l1b (fun b => b <| rxCoherentIsRequired := 1 |> <| txCoherentIsRequired := 1 |>
                             <| congruentIsRequired := 1 |> <| L1SyncEnabled := 1 |> <| optParamsEnabled := 0 |>)
           (enable_l1Sync p)))
    else None
  else if pc_profile pc =? PPSI_PROFILE_PTP then
    Some ((enable_asymmetryCorrection pc (pc_asymmetryCorrectionEnable pc) p) <| protocol_extension := PPSI_EXT_NONE |>)
  else if pc_profile pc =? PPSI_PROFILE_CUSTOM then
    if CONFIG_HAS_PROFILE_CUSTOM then
      let p := p <| protocol_extension := PPSI_EXT_NONE |> in
      if CONFIG_HAS_EXT_L1SYNC then
        let p :=
          if truth (pc_l1SyncEnabled pc) then
            let p := set_l1b (fun b => b <| rxCoherentIsRequired := pc_l1SyncRxCoherentIsRequired pc |>
                       <| txCoherentIsRequired := pc_l1SyncTxCoherentIsRequired pc |>
                       <| congruentIsRequired := pc_l1SyncCongruentIsRequired pc |>
                       <| optParamsEnabled := pc_l1SyncOptParamsEnabled pc |>) (enable_l1Sync p) in
            if truth (pc_l1SyncOptParamsEnabled pc)
            then p <| ext_data ::= fun e => e <| l1e_portDS ::= fun d =>
                       d <| timestampsCorrectedTx := pc_l1SyncOptParamsTimestampsCorrectedTx pc |> |> |>
            else p
          else p in
        Some (enable_asymmetryCorrection pc (pc_asymmetryCorrectionEnable pc) p)
      else Some p
    else None
  else Some p.

(** The body of the loop over the ports; [tx] is the transmit buffer [malloc] gives. *)
Definition init_port (tx : list Z) (pc : port_conf) : option pp_instance :=
  let p := (inst_of pc) <| delayMechanism := pc_delayMechanism pc |> <| ptp_fallback := 1 |> in
  p ← apply_profile pc p;
  Some (p <| timestampCorrectionPortDS := mk_tsDS (picos_to_interval (pc_egressLatency_ps pc))
               (picos_to_interval (pc_ingressLatency_ps pc)) (semistaticLatency (timestampCorrectionPortDS p)) |>
          <| portDS ::= fun d => d <| masterOnly := pc_masterOnly pc |> |> <| tx_ptp := tx |>).

Fixpoint init_ports (tx : nat -> list Z) (oom : nat -> bool) (i : nat) (l : list port_conf) : outcome (list pp_instance) :=
  match l with
  | [] => goes_on []
  | pc :: l =>
      if oom i then exits 1
      else match init_port (tx i) pc with
           | None => exits 1
           | Some p => match init_ports tx oom (S i) l with goes_on ps => goes_on (p :: ps) | r => r end
           end
  end.

(** ** main *)

(** What the machine gives [main]: the files, the offset of the kernel ([None] when [adjtimex]
    fails), the contents of allocated buffers, whether the allocation of the instances or of a port
    fails, the environment of the platform, and the seed of the fault injection. *)
Record machine := mk_machine {
  m_files : list Z -> option conf_file; m_tai : option Z; m_tx : nat -> list Z;
  m_oom_start : bool; m_oom : nat -> bool;
  m_env : env; m_seed : Z }.

(** The default file, then the default string, when nothing was counted. *)
Definition default_config (fs : list Z -> option conf_file) (c : conf) : conf :=
  let c := if cf_cfg_items c =? 0 then (pp_config_file c false (fs (str "/etc/ppsi.conf"))).1 else c in
  if cf_cfg_items c =? 0 then (pp_config_string c (str "link 0; iface eth0; proto udp")).1 else c.

Definition zero_globals (c : conf) (tai : option Z) : pp_globals :=
  mk_glbs (cf_opts c) (mk_defaultDS (replicate 8 0) 0 (mk_cq 0 0 0) 0 0 0 0 0) (mk_currentDS 0 0 0) zero_parentDS
    (mk_timePropertiesDS (default 0 (i16 <$> tai)) 0 0 0 0 0 0 0) 0 0 (cf_nlinks c).

Definition world_of (m : machine) (c : conf) (l : list pp_instance) : world :=
  mk_world (zero_globals c (m_tai m)) l (m_env m) 0
    (if CONFIG_CODEOPT_WRPC_SIZE then [-1; -1] else [-1; -1; -1; -1]) 1 false.

(** [main] up to [pp_init_globals] and the main loop: the configuration and the memory they are
    entered with, and the state of the fault injection. *)
Definition unix_main (m : machine) (argv : list (list Z)) : outcome (conf * world * ppsi_drop) :=
  if m_oom_start m then exits 1
  else match pp_parse_cmdline (m_files m) argv initial_conf with
  | goes_on (c, r) =>
      if truth r then exits (-1)
      else
        let c := default_config (m_files m) c in
        match init_ports (m_tx m) (m_oom m) 0 (take (Z.to_nat (cf_nlinks c)) (cf_ports c)) with
        | goes_on l => goes_on (c, world_of m c l, ppsi_drop_init (cf_rxdrop c) (cf_txdrop c) (m_seed m))
        | exits r => exits r
        | crashes => crashes
        end
  | exits r => exits r
  | crashes => crashes
  end.

End Model.
