(* ===== verification/UnixStart.v ===== *)
(** * From the command line to a running program

    What [main] of arch-unix establishes: whatever the command line and the
    configuration files, either it ends or the main loop is entered with
    memory that fits the configuration, and then runs without a failed
    assertion. *)

From stdpp Require Import strings.
From S2P Require Import Prelude TimeArith Types World Timeout Hooks Bytes Msg FixedPoint Servo.
From S2P Require Import BmcCmp ClockQuality Bmc BmcTable BmcDecision Common States Fsm OpenClose Safety MainLoop Startup.
From S2P Require Import Wrh WrhLoop WrMsg WrStates WrHooks L1Sync Extensions ExtClosed.
From S2P Require Import Scan Conf ConfLex ConfInv ConfSpec UnixMain.

Section Start.
Context `{Config} `{!ConfBuild} `{Platform}.

(** ** Configuration *)

(** Before a text is read, no port is selected. *)
Definition conf_pre (c : conf) : Prop := conf_inv pp_default_rt_opts (c <| cf_cur_ppi_n := -1 |>).

Lemma initial_pre : conf_pre initial_conf.
Proof. right. apply initial_ok. Qed.

(** Sizes that fit an [int]. *)
Definition text_fits (s : list Z) : Prop := Z.of_nat (length s) < 2147483646.
Definition file_fits (f : conf_file) : Prop := 0 <= st_size f < 2147483640.

Lemma length_store_bytes buf k data : (k + length data <= length buf)%nat ->
  length (store_bytes buf k data) = length buf.
Proof. intros Hk. unfold store_bytes. rewrite !length_app, length_take, length_drop. lia. Qed.

Lemma strlen_le buf : (strlen buf <= length buf)%nat.
Proof.
  unfold strlen. rewrite <- (take_drop_while truth buf) at 2. rewrite length_app. lia.
Qed.

Lemma length_read_loop size rs : forall buf k, 0 <= size -> Z.of_nat (length buf) = size + 2 -> Z.of_nat k <= size ->
  length (read_loop size rs buf k) = length buf.
Proof.
  induction rs as [|data rs IH]; intros buf k Hs Hb Hk; [done|]. cbn [read_loop].
  set (d := take _ data). destruct (bool_decide (d = [])); [done|].
  assert (length (store_bytes buf k d) = length buf) as Hl.
  { apply length_store_bytes. unfold d. rewrite length_take. lia. }
  destruct (Z.ltb_spec (Z.of_nat (strlen (store_bytes buf k d))) size) as [Hlt|]; [|done]. rewrite IH; lia.
Qed.

Lemma config_string_pre c s : text_fits s -> conf_pre c -> conf_pre (pp_config_string c s).1.
Proof. intros Hs Hc. by apply deselect_inv, parse_conf_inv. Qed.

Lemma items_pre c g : conf_pre c -> conf_pre (c <| cf_cfg_items ::= g |>).
Proof. intros [Hw|[]]; [by left|]. by right. Qed.

Lemma config_file_pre c force file : (forall f, file = Some f -> file_fits f) -> conf_pre c ->
  conf_pre (pp_config_file c force file).1.
Proof.
  intros Hf Hc. unfold pp_config_file. destruct file as [f|]; [|by destruct force; [apply items_pre|]].
  apply config_string_pre; [|by apply items_pre]. specialize (Hf f eq_refl). unfold text_fits, file_fits in *.
  rewrite length_take, (length_read_loop (st_size f)); rewrite ?length_replicate; lia.
Qed.

Lemma opts_pre c g : (forall o f, get_opt f (g o) = get_opt f o) -> conf_pre c -> conf_pre (c <| cf_opts ::= g |>).
Proof. intros Hg [Hw|[]]; [by left|]. right. split; try done. cbn. intros f. rewrite Hg. auto. Qed.

Context (fs : list Z -> option conf_file) (Hfs : forall s f, fs s = Some f -> file_fits f).

Lemma cmdline_pre argv : Forall text_fits argv -> forall c c' r,
  pp_parse_cmdline fs argv c = goes_on (c', r) -> conf_pre c -> conf_pre c'.
Proof.
  induction argv as [argv IH] using (induction_ltof1 _ (@length (list Z))). unfold ltof in IH.
  destruct argv as [|a rest]; intros Hargv c c' r; cbn [pp_parse_cmdline]; [by intros [= <- <-]|].
  inversion_clear Hargv as [|? ? _ Hr]. destruct (match a with [] => _ | _ => _ end); [by intros [= <- <-]|].
  destruct (name_eq a "-d").
  { destruct rest as [|s rest]; [done|]. inversion_clear Hr. intros E Hc. eapply IH; [| |exact E|]; [cbn; lia|done|].
    destruct Hc as [Hw|[]]; [by left|by right]. }
  destruct (name_eq a "-C").
  { destruct rest as [|s rest]; [done|]. inversion_clear Hr. intros E Hc.
    pose proof (config_string_pre c s ltac:(done) Hc) as Hp. destruct (pp_config_string c s) as [c1 r1].
    destruct (truth r1); [by simplify_eq|]. eapply IH; [| |exact E|]; [cbn; lia|done..]. }
  destruct (name_eq a "-f").
  { destruct rest as [|s rest]; [intros [= <- <-] Hc; by apply (config_file_pre c true None)|]. inversion_clear Hr. intros E Hc.
    pose proof (config_file_pre c true (fs s) (Hfs s) Hc) as Hp. destruct (pp_config_file c true (fs s)) as [c1 r1].
    destruct (truth r1); [by simplify_eq|]. eapply IH; [| |exact E|]; [cbn; lia|done..]. }
  destruct (name_eq a "-t").
  { intros E Hc. eapply IH; [| |exact E|]; [cbn; lia|done|]. apply opts_pre; [by intros o []|done]. }
  destruct (name_eq a "-w").
  { destruct rest as [|s rest]; [done|]. inversion_clear Hr. intros E Hc. eapply IH; [| |exact E|]; [cbn; lia|done|].
    apply opts_pre; [by intros o []|done]. }
  destruct (name_eq a "-h").
  { intros E Hc. eapply IH; [| |exact E|]; [cbn; lia|done..]. }
  by intros [= <- <-].
Qed.

Lemma default_config_pre c : conf_pre c -> conf_pre (default_config fs c).
Proof.
  intros Hc. unfold default_config. set (c1 := if cf_cfg_items c =? 0 then _ else c).
  assert (conf_pre c1) as Hp by (unfold c1; destruct (_ =? 0); [apply config_file_pre; [apply Hfs|done]|done]).
  clearbody c1. destruct (cf_cfg_items c1 =? 0); [|done]. by apply config_string_pre.
Qed.

(** ** Ports *)

(** What the profile leaves as it was. *)
Lemma profile_frame {A} (h : pp_instance -> A) pc p p' :
  (forall q g, h (q <| asymmetryCorrectionPortDS ::= g |>) = h q) -> (forall q g, h (q <| portDS ::= g |>) = h q) ->
  (forall q g, h (q <| ext_data ::= g |>) = h q) -> (forall q g, h (q <| protocol_extension ::= g |>) = h q) ->
  apply_profile pc p = Some p' -> h p' = h p.
Proof.
  intros Ha Hp He Hx.
  assert (forall e q, h (enable_asymmetryCorrection pc e q) = h q) as Hea.
  { intros e q. unfold enable_asymmetryCorrection. destruct (e =? 1); by rewrite ?Ha, ?Hp, ?Ha. }
  assert (forall g q, h (set_l1b g q) = h q) as Hl by (intros; apply He).
  assert (forall q, h (enable_l1Sync q) = h q) as Hel by (intros q; unfold enable_l1Sync; by rewrite Hl, Hx).
  unfold apply_profile. repeat case_match; intros E; try discriminate E; apply (inj Some) in E as <-; repeat first [rewrite Hea | rewrite Hel | rewrite Hl | rewrite Hx | rewrite He]; done.
Qed.

Lemma init_port_allocated tx pc p : port_ok pc -> init_port tx pc = Some p -> allocated_inst p.
Proof.
  intros Hok. unfold init_port. destruct (apply_profile _ _) as [q|] eqn:Eq; [|done]. intros [= <-].
  pose proof (fun A (h : pp_instance -> A) H1 H2 H3 H4 => profile_frame h _ _ _ H1 H2 H3 H4 Eq) as F. clear Eq.
  unfold allocated_inst. cbn.
  rewrite (F _ frgn_master), (F _ frgn_rec_num), (F _ rx_offset), (F _ received_ptp_header), (F _ cfg) by done.
  cbn. rewrite length_replicate. split_and!; [done..|].
  pose proof (po_num _ Hok F_desiredState) as Hd. unfold in_range in Hd. cbn in Hd.
  unfold PPS_INITIALIZING, PPS_SLAVE in Hd. rewrite u8_id by lia. unfold valid_state, PPS_INITIALIZING, PPS_SLAVE. lia.
Qed.

Lemma init_ports_lookup tx oom l : forall i ps, init_ports tx oom i l = goes_on ps ->
  length ps = length l /\ forall j pc, l !! j = Some pc -> exists p, ps !! j = Some p /\ init_port (tx (i + j)%nat) pc = Some p.
Proof.
  induction l as [|pc l IH]; intros i ps; cbn [init_ports]; [by intros [= <-]|].
  destruct (oom i); [done|]. destruct (init_port (tx i) pc) as [p|] eqn:Ep; [|done].
  destruct (init_ports tx oom (S i) l) as [ps'| |] eqn:El; try done. intros [= <-].
  destruct (IH _ _ El) as [I1 I2]. split; [cbn; by rewrite I1|]. intros [|j] pc' Hj; cbn in *.
  - simplify_eq. exists p. by rewrite Nat.add_0_r.
  - destruct (I2 j pc' Hj) as (p' & ? & ?). exists p'. by rewrite <- Nat.add_succ_comm.
Qed.

End Start.

(** The extension a profile selects. *)
Section Profile.
Context `{Config} `{!ConfBuild} `{Platform}.

Definition profile_extension (pc : port_conf) : pp_extension :=
  if pc_profile pc =? PPSI_PROFILE_WR then PPSI_EXT_WR
  else if pc_profile pc =? PPSI_PROFILE_HA then PPSI_EXT_L1S
  else if (pc_profile pc =? PPSI_PROFILE_CUSTOM) && CONFIG_HAS_EXT_L1SYNC && truth (pc_l1SyncEnabled pc)
  then PPSI_EXT_L1S else PPSI_EXT_NONE.

(** Whether a profile corrects the asymmetry: always, as configured, or (a custom profile in a build
    without L1Sync) not at all. *)
Definition profile_asymmetry (pc : port_conf) : Z :=
  if (pc_profile pc =? PPSI_PROFILE_WR) || (pc_profile pc =? PPSI_PROFILE_HA) then 1
  else if (pc_profile pc =? PPSI_PROFILE_CUSTOM) && negb CONFIG_HAS_EXT_L1SYNC then 0
  else pc_asymmetryCorrectionEnable pc.

(** The delay coefficient in units of 2^-62: the scaled one or, when that is 0, the decimal one. *)
Definition configured_coefficient (pc : port_conf) : Z :=
  if truth (pc_scaledDelayCoefficient pc) then pc_scaledDelayCoefficient pc
  else double_to_reldiff (pc_delayCoefficient pc).

(** The delay asymmetry of a port, as its configuration has it. *)
Definition asym_as_configured (pc : port_conf) (enable : Z) (p : pp_instance) : Prop :=
  let d := asymmetryCorrectionPortDS p in
  asym_enable d = enable /\
  (enable = 1 ->
   scaledDelayCoefficient d = configured_coefficient pc /\
   delayAsymCoeff (portDS p) = pp_servo_calculateDelayAsymCoefficient (configured_coefficient pc)).

Lemma enable_asym_configured pc e p : asym_as_configured pc e (enable_asymmetryCorrection pc e p).
Proof.
  unfold asym_as_configured, enable_asymmetryCorrection. by destruct (Z.eqb_spec e 1) as [->|Hne]; cbn; (split; [|intros]).
Qed.

Lemma profile_effect pc p p' : port_ok pc -> apply_profile pc p = Some p' -> protocol_extension p = PPSI_EXT_NONE ->
  asym_enable (asymmetryCorrectionPortDS p) = 0 ->
  protocol_extension p' = profile_extension pc /\ asym_as_configured pc (profile_asymmetry pc) p'.
Proof.
  intros Hok Hprof Hp Hz. revert Hprof. pose proof (po_num _ Hok F_profile) as Hr. unfold in_range in Hr. cbn in Hr.
  assert (forall e q, protocol_extension (enable_asymmetryCorrection pc e q) = protocol_extension q) as Hea.
  { intros e q. unfold enable_asymmetryCorrection. by destruct (e =? 1). }
  unfold apply_profile, profile_extension, profile_asymmetry.
  destruct (Z.eqb_spec (pc_profile pc) PPSI_PROFILE_WR); cbn [orb].
  { destruct CONFIG_HAS_PROFILE_WR; intros E; [apply (inj Some) in E as <-|done].
    rewrite Hea. split; [done|]. apply enable_asym_configured. }
  destruct (Z.eqb_spec (pc_profile pc) PPSI_PROFILE_HA).
  { destruct CONFIG_HAS_PROFILE_HA; intros E; [apply (inj Some) in E as <-|done].
    rewrite Hea. split; [done|]. apply enable_asym_configured. }
  destruct (Z.eqb_spec (pc_profile pc) PPSI_PROFILE_PTP) as [->|].
  { intros E. apply (inj Some) in E as <-. split; [done|].
    exact (enable_asym_configured pc (pc_asymmetryCorrectionEnable pc) p). }
  destruct (Z.eqb_spec (pc_profile pc) PPSI_PROFILE_CUSTOM) as [Hc|];
    [|unfold PPSI_PROFILE_PTP, PPSI_PROFILE_WR, PPSI_PROFILE_HA, PPSI_PROFILE_CUSTOM in *; lia].
  destruct CONFIG_HAS_PROFILE_CUSTOM; [|done]. destruct CONFIG_HAS_EXT_L1SYNC; intros E; apply (inj Some) in E as <-.
  - rewrite Hea. split; [|apply enable_asym_configured]. cbn [andb].
    destruct (truth (pc_l1SyncEnabled pc)); [|done]. by destruct (truth (pc_l1SyncOptParamsEnabled pc)).
  - by split.
Qed.

End Profile.

(** ** main *)

Section Main.
Context `{Config} `{!ConfBuild} `{Platform}.

(** A machine whose files and arguments have sizes of type [int]. *)
Definition machine_ok (m : machine) (argv : list (list Z)) : Prop :=
  Forall text_fits argv /\ forall s f, m_files m s = Some f -> file_fits f.

(** What [main] enters the loop with. *)
Lemma unix_main_inv m argv c w d : machine_ok m argv -> unix_main m argv = goes_on (c, w, d) ->
  conf_pre c /\ exists l, w = world_of m c l /\
  init_ports (m_tx m) (m_oom m) 0 (take (Z.to_nat (cf_nlinks c)) (cf_ports c)) = goes_on l.
Proof.
  intros [Ha Hf] Hm. unfold unix_main in Hm. destruct (m_oom_start m); [done|].
  destruct (pp_parse_cmdline _ argv initial_conf) as [[c0 r]| |] eqn:E; try done.
  destruct (truth r); [done|]. pose proof (cmdline_pre _ Hf argv Ha _ _ _ E initial_pre) as P.
  pose proof (default_config_pre _ Hf c0 P) as Pd. set (c1 := default_config (m_files m) c0) in *.
  destruct (init_ports _ _ _ _) as [l| |] eqn:Ei; try done. simplify_eq. split; [done|]. eauto.
Qed.

Lemma conf_pre_ok c : conf_pre c -> cf_wild c = false -> conf_ok pp_default_rt_opts (c <| cf_cur_ppi_n := -1 |>).
Proof. intros [Hw|C] Hc; [cbn in Hw; congruence|done]. Qed.

Lemma world_allocated m c l : conf_pre c ->
  init_ports (m_tx m) (m_oom m) 0 (take (Z.to_nat (cf_nlinks c)) (cf_ports c)) = goes_on l ->
  cf_wild c = false -> 1 <= cf_nlinks c -> (CONFIG_HAS_CODEOPT_SINGLE_PORT = true -> cf_nlinks c = 1) ->
  allocated (world_of m c l).
Proof.
  intros P Hi Hw Hl Hs. destruct (conf_pre_ok c P Hw) as [C1 C2 C3 C4 C5 C6 C7]. cbn in C1, C2, C3, C5.
  destruct (init_ports_lookup _ _ _ _ _ Hi) as [L1 L2].
  assert (length l = Z.to_nat (cf_nlinks c)) as Ll by (rewrite L1, length_take; lia).
  split; cbn; try done; try lia. apply Forall_lookup. intros j p Hj.
  destruct (lookup_lt_is_Some_2 (take (Z.to_nat (cf_nlinks c)) (cf_ports c)) j) as [pc Hpc].
  { rewrite <- L1. by eapply lookup_lt_Some. }
  destruct (L2 j pc Hpc) as (p' & Hp' & Ep). assert (p' = p) as -> by congruence.
  eapply init_port_allocated; [|exact Ep]. apply lookup_take_Some in Hpc as [Hpc _].
  exact (proj1 (Forall_lookup _ _) C5 _ _ Hpc).
Qed.

Lemma unix_main_allocated m argv c w d : machine_ok m argv -> unix_main m argv = goes_on (c, w, d) ->
  cf_wild c = false -> 1 <= cf_nlinks c -> (CONFIG_HAS_CODEOPT_SINGLE_PORT = true -> cf_nlinks c = 1) -> allocated w.
Proof.
  intros Hk Hm Hw Hl Hs. destruct (unix_main_inv m argv c w d Hk Hm) as (P & l & -> & Hi). by apply world_allocated.
Qed.

End Main.

Section Claims.
Context `{Config} `{!ConfBuild} `{Platform} {WO : WrhOper} {WC : WrConfig}.

(** From the command line on: what [main] enters runs safely on any events the main loop admits. *)
Lemma unix_main_runs (HK : Hooks) (m : machine) (argv : list (list Z)) (c : conf) (w : world) (d : ppsi_drop)
  (evs : list event) :
  HK = tables HK -> machine_ok m argv -> unix_main m argv = goes_on (c, w, d) ->
  cf_wild c = false -> 1 <= cf_nlinks c -> (CONFIG_HAS_CODEOPT_SINGLE_PORT = true -> cf_nlinks c = 1) ->
  Forall event_ok evs ->
  let w' := (unix_main_loop evs (pp_init_globals true (cf_opts c) w).2).2 in
  assert_failed w' = false /\ Forall (fun p => valid_state (state p)) (insts w') /\ tables_ok w'.
Proof.
  intros E Hk Hm Hw Hl Hs He. apply tables_unique in E. subst HK. cbn zeta.
  pose proof (unix_main_allocated m argv c w d Hk Hm Hw Hl Hs) as Ha.
  destruct (main_loop_sys (HK := ext_hooks) (nlinks (glbs w)) evs _ He
    (init_sys (HK := ext_hooks) true (cf_opts c) w Ha)) as [_ T S _ _ _ A]. done.
Qed.


End Claims.

(** ** A run *)

Module StartDemo.
#[local] Instance demo_cfg : Config := Demo.demo_config.
#[local] Existing Instance ConfSpec.ConfDemo.demo_build.
#[local] Existing Instance Demo.demo_platform.
#[local] Existing Instance demo_oper.
#[local] Existing Instance demo_wrconfig.

(** A machine with one file. *)
Definition demo_file : conf_file := mk_file 29 [str "port wr0; profile wr"; str "; dm e2e;"].
Definition demo_machine : @machine Demo.demo_platform :=
  @mk_machine Demo.demo_platform (fun s => if bool_decide (s = str "wr.conf") then Some demo_file else None) (Some 37)
    (fun _ => replicate 128 0) false (fun _ => false) (Demo.mk_env 0 [] false) 1.

Definition started (argv : list string) : option (conf * world * ppsi_drop) :=
  match unix_main demo_machine (map str argv) with goes_on r => Some r | _ => None end.

Example demo_start : match started ["-f"; "wr.conf"; "-t"] with
  | Some (c, w, _) => (cf_nlinks c, map protocol_extension (insts w), opt_flags (rt_opts (glbs w))) = (1, [PPSI_EXT_WR], 1)
  | None => False
  end.
Proof. vm_compute. reflexivity. Qed.

Lemma demo_machine_ok (argv : list string) : forallb (fun s => Z.of_nat (length (str s)) <? 2147483646) argv = true ->
  machine_ok demo_machine (map str argv).
Proof.
  intros Ha. split.
  - apply Forall_map, list.Forall_forall. intros s Hs%list_elem_of_In. rewrite forallb_forall in Ha.
    unfold text_fits. by apply Z.ltb_lt, Ha.
  - intros s f. cbn. destruct (bool_decide _); [|done]. intros [= <-]. unfold file_fits. cbn. lia.
Qed.

(** Options of [-C] are not counted as configuration: the default port is added to theirs. *)
Example command_line_port : match started ["-C"; "port wr0; iface eth1"] with
  | Some (c, _, _) => cf_nlinks c = 2 /\ port_names c = [str "wr0"; str "0"]
  | None => False
  end.
Proof. vm_compute. done. Qed.

(** The help lists [-g]; it is refused.  An option without its argument follows a null pointer. *)
Example slave_only_flag : unix_main demo_machine [str "-g"] = exits (-1) /\ unix_main demo_machine [str "-w"] = crashes.
Proof. vm_compute. done. Qed.

Definition demo_run : conf * world * ppsi_drop :=
  default (initial_conf, Demo.demo_world [] 0, mk_drop 0 0 0 0) (started ["-f"; "wr.conf"; "-t"]).

Lemma demo_run_main : unix_main demo_machine (map str ["-f"; "wr.conf"; "-t"]) = goes_on demo_run.
Proof. vm_compute. reflexivity. Qed.


End StartDemo.
