(* ===== verification/UnixNet.v ===== *)
(** * The network layer of time-unix

    time-unix/unix-socket.c: opening and closing of the sockets, reception
    with its filters, sending with the headers of each transport, and the
    wait for packets.  The kernel is a parameter: one operation per system
    call.  The network members of [struct pp_instance] are a [link]. *)

From stdpp Require Import gmap.
From S2P Require Import Prelude TimeArith Types World Timeout Hooks Bytes Msg FixedPoint Servo.
From S2P Require Import BmcCmp ClockQuality Bmc BmcTable Common MainLoop Scan Conf UnixMain.

Definition PP_MAX_FRAME_LENGTH : nat := 128.
Definition ETH_P_1588 : Z := 0x88F7.
Definition ETH_P_ALL : Z := 3.
Definition PP_EVT_PORT : Z := 319.
Definition PP_GEN_PORT : Z := 320.
Definition PP_MCAST_MACADDRESS : list Z := [0x01; 0x1B; 0x19; 0x00; 0x00; 0x00].
Definition PP_PDELAY_MACADDRESS : list Z := [0x01; 0x80; 0xC2; 0x00; 0x00; 0x0E].
(** [inet_aton] of the two constant strings: the address as it is in memory. *)
Definition PP_DEFAULT_DOMAIN_ADDRESS : list Z := [224; 0; 1; 129].
Definition PP_PDELAY_DOMAIN_ADDRESS : list Z := [224; 0; 0; 107].
Definition EINTR : Z := 4.
Definition EAGAIN : Z := 11.
Definition EINVAL : Z := 22.

(** ** The kernel *)

Inductive sock_kind := S_PACKET | S_UDP.

Inductive sockopt :=
  | PACKET_ADD_MEMBERSHIP (iindex : Z) (mac : list Z) | SO_TIMESTAMP | PACKET_AUXDATA | SO_REUSEADDR
  | IP_MULTICAST_IF (iface : list Z) | IP_ADD_MEMBERSHIP (group iface : list Z)
  | IP_DROP_MEMBERSHIP (group iface : list Z) | IP_MULTICAST_TTL (ttl : Z) | IP_MULTICAST_LOOP (on : Z).

(** What [recvmsg] gives: its value and [errno], the bytes it stored, the flags, and the control
    messages: the time stamp (seconds, microseconds) and [tp_vlan_tci] of [PACKET_AUXDATA]. *)
Record recvmsg_t := mk_recvmsg {
  rm_ret : Z; rm_errno : Z; rm_data : list Z; rm_trunc : bool; rm_ctrunc : bool;
  rm_tv : option (Z * Z); rm_aux : option Z }.

(** What [select] gives: an error, or how many descriptors are ready, which, and the time left. *)
Inductive select_t := sel_error (errno : Z) | sel_ready (n : Z) (ready : Z -> bool) (tv_left : Z * Z).

(** The system calls; a negative value is a failure, and [None] one of the queries. *)
Class Kernel := {
  kst : Type;
  k_socket : sock_kind -> kst -> Z * kst;
  k_close : Z -> kst -> kst;
  k_ifindex : Z -> list Z -> kst -> option Z * kst;
  k_hwaddr : Z -> list Z -> kst -> option (list Z) * kst;
  k_ifaddr : Z -> list Z -> kst -> option (list Z) * kst;
  k_bind_packet : Z -> Z -> Z -> kst -> Z * kst;
  k_bind_udp : Z -> Z -> kst -> Z * kst;
  k_setsockopt : Z -> sockopt -> kst -> Z * kst;
  k_recvmsg : Z -> kst -> recvmsg_t * kst;
  k_send : Z -> list Z -> kst -> Z * kst;
  k_sendto : Z -> Z -> list Z -> list Z -> kst -> Z * kst;
  k_select : Z -> list Z -> Z * Z -> kst -> select_t * kst;
  k_realtime : kst -> (Z * Z) * kst }.

(** ** The state *)

(** [struct pp_channel]. *)
Record channel := mk_chan { c_fd : Z; c_addr : list Z; c_present : Z }.
#[export] Instance eta_channel : Eta channel := fun c => mk_chan (c_fd c) (c_addr c) (c_present c).

(** The network members of an instance, and the values it reads elsewhere: the TTL of the options
    and the UTC offset of the time properties. *)
Record link := mk_link {
  lk_proto : Z; lk_nvlans : Z; lk_vlans : list Z; lk_iface : list Z; lk_gen : channel; lk_evt : channel;
  lk_mcast_e2e : list Z; lk_mcast_p2p : list Z; lk_peer : list Z; lk_peer_vid : Z; lk_ttl : Z; lk_utc : Z }.
#[export] Instance eta_link : Eta link := fun l =>
  mk_link (lk_proto l) (lk_nvlans l) (lk_vlans l) (lk_iface l) (lk_gen l) (lk_evt l) (lk_mcast_e2e l)
    (lk_mcast_p2p l) (lk_peer l) (lk_peer_vid l) (lk_ttl l) (lk_utc l).

Definition chan (t : Z) (l : link) : channel := if t =? PP_NP_GEN then lk_gen l else lk_evt l.
Definition on_chan (t : Z) (g : channel -> channel) (l : link) : link :=
  if t =? PP_NP_GEN then l <| lk_gen ::= g |> else l <| lk_evt ::= g |>.

Section Net.
Context `{Config} `{Kernel}.

Record net := mk_net { n_link : link; n_kst : kst; n_drop : ppsi_drop }.
#[global] Instance eta_net : Eta net := fun n => mk_net (n_link n) (n_kst n) (n_drop n).

(** Code on one instance, the kernel and the fault injection. *)
Definition NM (A : Type) : Type := net -> A * net.
#[global] Instance NM_ret : MRet NM := fun A a n => (a, n).
#[global] Instance NM_bind : MBind NM := fun A B k m n => let '(a, n') := m n in k a n'.

Definition getl {T} (f : link -> T) : NM T := fun n => (f (n_link n), n).
Definition setl (g : link -> link) : NM unit := fun n => (tt, n <| n_link ::= g |>).
Definition sys {T} (f : kst -> T * kst) : NM T :=
  fun n => let '(r, k) := f (n_kst n) in (r, n <| n_kst := k |>).
Definition sys_close (fd : Z) : NM unit := sys (fun k => (tt, k_close fd k)).
Definition drop_rx : NM bool := fun n => let '(d, b) := ppsi_drop_rx (n_drop n) in (b, n <| n_drop := d |>).
Definition drop_tx : NM bool := fun n => let '(d, b) := ppsi_drop_tx (n_drop n) in (b, n <| n_drop := d |>).
Definition set_fd (t fd : Z) : NM unit := setl (on_chan t (fun c => c <| c_fd := fd |>)).

(** [unix_time_get] of unix-time.c. *)
Definition unix_time_get : NM pp_time :=
  '(sec, nsec) ← sys k_realtime;
  utc ← getl lk_utc;
  mret (mk_time (i64 (sec + utc)) (i64 (Z.shiftl nsec 16))).

(** ** Reception *)

(** The value returned, the frame buffer, and the timestamp when one was stored. *)
Definition rx : Type := Z * list Z * option pp_time.

Definition rx_stamp (tv : option (Z * Z)) : NM pp_time :=
  match tv with
  | Some (sec, usec) =>
      utc ← getl lk_utc;
      mret (mk_time (i64 (sec + utc)) (i64 (Z.shiftl (usec * 1000) 16)))
  | None => unix_time_get
  end.

(** The end of [unix_recv_msg]: fault injection. *)
Definition recv_end (ret : Z) (frame : list Z) (t : pp_time) : NM rx :=
  d ← drop_rx;
  mret (if d : bool then PP_RECV_DROP else ret, frame, Some t).

(** [recvmsg] overwrites the front of the buffer; the headers are then read from the buffer. *)
Definition unix_recv_msg (fd : Z) (buf : list Z) : NM rx :=
  r ← sys (k_recvmsg fd);
  let frame := rm_data r ++ drop (length (rm_data r)) buf in
  if rm_ret r <=? 0 then
    mret (if (rm_errno r =? EAGAIN) || (rm_errno r =? EINTR) then 0 else rm_ret r, frame, None)
  else if rm_trunc r then mret (PP_RECV_DROP, frame, None)
  else if rm_ctrunc r then mret (0, frame, None)
  else
    t ← rx_stamp (rm_tv r);
    match rm_aux r with
    | Some tci =>
        if negb (get16 frame 12 =? ETH_P_1588) then mret (PP_RECV_DROP, frame, Some t)
        else
          vs ← getl (fun l => take (Z.to_nat (lk_nvlans l)) (lk_vlans l));
          if existsb (fun v => v =? Z.land tci 0xfff) vs then
            setl (fun l => l <| lk_peer_vid := u16 (Z.land tci 0xfff) |>);;
            recv_end (rm_ret r) frame t
          else mret (PP_RECV_DROP, frame, Some t)
    | None =>
        setl (fun l => l <| lk_peer_vid := 0 |>);;
        recv_end (rm_ret r) frame t
    end.

Definition unix_net_recv (buf : list Z) : NM rx :=
  pr ← getl lk_proto;
  if (pr =? PPSI_PROTO_RAW) || (pr =? PPSI_PROTO_VLAN) then
    fd ← getl (fun l => c_fd (lk_gen l));
    '(ret, frame, t) ← unix_recv_msg fd buf;
    if ret <=? 0 then mret (ret, frame, t)
    else if negb (get16 frame 12 =? ETH_P_1588) then mret (PP_RECV_DROP, frame, t)
    else
      setl (fun l => l <| lk_peer := slice 6 6 frame |>);;
      mret (ret, frame, t)
  else if pr =? PPSI_PROTO_UDP then
    l ← getl id;
    if truth (c_present (lk_evt l)) then unix_recv_msg (c_fd (lk_evt l)) buf
    else if truth (c_present (lk_gen l)) then unix_recv_msg (c_fd (lk_gen l)) buf
    else mret (-1, buf, None)
  else mret (-1, buf, None).

(** ** Sending *)

Definition macaddr (mech : Z) : list Z := if mech =? MECH_E2E then PP_MCAST_MACADDRESS else PP_PDELAY_MACADDRESS.
Definition udpport (chtype : Z) : Z := if chtype =? PP_NP_GEN then PP_GEN_PORT else PP_EVT_PORT.
Definition mcast (mech : Z) (l : link) : list Z := if mech =? MECH_E2E then lk_mcast_e2e l else lk_mcast_p2p l.

(** [struct ethhdr] and [struct pp_vlanhdr] at the front of the frame. *)
Definition raw_header (mech : Z) (src pkt : list Z) : list Z :=
  write 6 src (write 0 (macaddr mech) (put16 12 ETH_P_1588 pkt)).
Definition vlan_header (mech vid : Z) (src pkt : list Z) : list Z :=
  write 6 src (write 0 (macaddr mech) (put16 12 0x8100 (put16 14 vid (put16 16 ETH_P_1588 pkt)))).

(** The value returned, the frame buffer, and the timestamp stored, if any. *)
Definition send_udp (pkt : list Z) (len chtype mech : Z) : NM rx :=
  t ← unix_time_get;
  l ← getl id;
  ret ← sys (k_sendto (c_fd (chan chtype l)) (udpport chtype) (mcast mech l) (take (Z.to_nat len) pkt));
  mret (ret, pkt, Some t).

(** The case of VLANs has no [return] or [break]: it goes on as UDP. *)
Definition unix_net_send (pkt : list Z) (len : Z) (fmt : nat) : NM rx :=
  let chtype := mf_chtype (msg_fmt fmt) in
  let mech := mf_delay_mechanism (msg_fmt fmt) in
  d ← drop_tx;
  if d : bool then t ← unix_time_get; mret (len, pkt, Some t)
  else
    pr ← getl lk_proto;
    g ← getl lk_gen;
    if pr =? PPSI_PROTO_RAW then
      let pkt := raw_header mech (c_addr g) pkt in
      t ← unix_time_get;
      ret ← sys (k_send (c_fd g) (take (Z.to_nat len) pkt));
      mret (ret, pkt, Some t)
    else if pr =? PPSI_PROTO_VLAN then
      vid ← getl lk_peer_vid;
      let pkt := vlan_header mech vid (c_addr g) pkt in
      t ← unix_time_get;
      ret ← sys (k_send (c_fd g) (take (Z.to_nat len) pkt));
      if ret <? 0 then mret (ret, pkt, Some t) else send_udp pkt len chtype mech
    else if pr =? PPSI_PROTO_UDP then send_udp pkt len chtype mech
    else mret (-1, pkt, None).

(** ** Opening and closing *)

Definition open_failed (chtype sock : Z) : NM Z :=
  (if 0 <=? sock then sys_close sock else mret tt);;
  set_fd chtype (-1);;
  mret (-1).

(** [if (call < 0) goto err_out;] *)
Definition or_fail (chtype sock : Z) (call : NM Z) (k : NM Z) : NM Z :=
  r ← call;
  if r <? 0 then open_failed chtype sock else k.
Definition or_fail_opt {T} (chtype sock : Z) (call : NM (option T)) (k : T -> NM Z) : NM Z :=
  r ← call;
  match r with Some x => k x | None => open_failed chtype sock end.

Definition unix_open_ch_raw (chtype : Z) : NM Z :=
  sock ← sys (k_socket S_PACKET);
  if sock <? 0 then open_failed chtype sock
  else
    l ← getl id;
    or_fail_opt chtype sock (sys (k_ifindex sock (lk_iface l))) (fun iindex =>
    or_fail_opt chtype sock (sys (k_hwaddr sock (lk_iface l))) (fun hw =>
    setl (on_chan chtype (fun c => c <| c_addr := hw |>));;
    or_fail chtype sock
      (sys (k_bind_packet sock (if truth (lk_nvlans l) then ETH_P_ALL else ETH_P_1588) iindex))
      (sys (k_setsockopt sock (PACKET_ADD_MEMBERSHIP iindex PP_MCAST_MACADDRESS));;
       sys (k_setsockopt sock (PACKET_ADD_MEMBERSHIP iindex PP_PDELAY_MACADDRESS));;
       sys (k_setsockopt sock SO_TIMESTAMP);;
       (if lk_proto l =? PPSI_PROTO_VLAN then sys (k_setsockopt sock PACKET_AUXDATA) else mret 0);;
       set_fd chtype sock;;
       mret 0))).

Definition unix_open_ch_udp (chtype : Z) : NM Z :=
  sock ← sys (k_socket S_UDP);
  if sock <? 0 then open_failed chtype sock
  else
    set_fd chtype sock;;
    l ← getl id;
    or_fail_opt chtype sock (sys (k_ifindex sock (lk_iface l))) (fun _ =>
    or_fail_opt chtype sock (sys (k_hwaddr sock (lk_iface l))) (fun hw =>
    setl (on_chan chtype (fun c => c <| c_addr := hw |>));;
    or_fail_opt chtype sock (sys (k_ifaddr sock (lk_iface l))) (fun iface =>
    sys (k_setsockopt sock SO_REUSEADDR);;
    or_fail chtype sock (sys (k_bind_udp sock (udpport chtype)))
    (setl (fun l => l <| lk_mcast_e2e := PP_DEFAULT_DOMAIN_ADDRESS |>);;
    or_fail chtype sock (sys (k_setsockopt sock (IP_MULTICAST_IF iface)))
    (or_fail chtype sock (sys (k_setsockopt sock (IP_ADD_MEMBERSHIP PP_DEFAULT_DOMAIN_ADDRESS iface)))
    (setl (fun l => l <| lk_mcast_p2p := PP_PDELAY_DOMAIN_ADDRESS |>);;
    or_fail chtype sock (sys (k_setsockopt sock (IP_ADD_MEMBERSHIP PP_PDELAY_DOMAIN_ADDRESS iface)))
    (or_fail chtype sock (sys (k_setsockopt sock (IP_MULTICAST_TTL (lk_ttl l))))
    (or_fail chtype sock (sys (k_setsockopt sock (IP_MULTICAST_LOOP 0)))
    (or_fail chtype sock (sys (k_setsockopt sock SO_TIMESTAMP))
    (set_fd chtype sock;;
     mret 0)))))))))).

(** A channel of [unix_net_exit] in UDP mode. *)
Definition close_udp (chtype : Z) : NM unit :=
  fd ← getl (fun l => c_fd (chan chtype l));
  if fd <? 0 then mret tt
  else
    l ← getl id;
    sys (k_setsockopt fd (IP_DROP_MEMBERSHIP (lk_mcast_e2e l) [0; 0; 0; 0]));;
    sys (k_setsockopt fd (IP_DROP_MEMBERSHIP (lk_mcast_p2p l) [0; 0; 0; 0]));;
    sys_close fd;;
    set_fd chtype (-1).

Definition unix_net_exit : NM Z :=
  pr ← getl lk_proto;
  if (pr =? PPSI_PROTO_RAW) || (pr =? PPSI_PROTO_VLAN) then
    fd ← getl (fun l => c_fd (lk_gen l));
    (if 0 <? fd then sys_close fd;; set_fd PP_NP_GEN (-1) else mret tt);;
    mret 0
  else if pr =? PPSI_PROTO_UDP then
    close_udp PP_NP_GEN;;
    close_udp PP_NP_EVT;;
    setl (fun l => l <| lk_mcast_e2e := [0; 0; 0; 0] |> <| lk_mcast_p2p := [0; 0; 0; 0] |>);;
    mret 0
  else mret (-1).

(** [pp_prepare_pointers] is in Common.v.  [exits]: UDP with VLANs ends the program. *)
Definition unix_net_init : NM (outcome Z) :=
  fd ← getl (fun l => c_fd (lk_gen l));
  (if 0 <? fd then unix_net_exit else mret 0);;
  pr ← getl lk_proto;
  if (pr =? PPSI_PROTO_RAW) || (pr =? PPSI_PROTO_VLAN) then
    r ← unix_open_ch_raw PP_NP_GEN; mret (goes_on r)
  else if pr =? PPSI_PROTO_UDP then
    nv ← getl lk_nvlans;
    if truth nv then mret (exits 1)
    else
      r ← unix_open_ch_udp PP_NP_GEN;
      if truth r then mret (goes_on (-1))
      else
        r ← unix_open_ch_udp PP_NP_EVT;
        mret (goes_on (if truth r then -1 else 0))
  else mret (goes_on (-1)).

(** ** Waiting for packets *)

(** The timeout of the next [select], in seconds and microseconds. *)
Definition next_tv (tv : Z * Z) (delay_ms : Z) : Z * Z :=
  let old_delay_ms := i32 (tv.1 * 1000 + Z.quot tv.2 1000) in
  if (0 <=? delay_ms) && ((old_delay_ms =? 0) || (delay_ms <? old_delay_ms))
  then (Z.quot delay_ms 1000, Z.rem delay_ms 1000 * 1000) else tv.

Definition clear_present (l : link) : link :=
  l <| lk_gen ::= fun c => c <| c_present := 0 |> |> <| lk_evt ::= fun c => c <| c_present := 0 |> |>.
Definition link_fds (l : link) : list Z := filter (fun fd => 0 <= fd) [c_fd (lk_gen l); c_fd (lk_evt l)].

(** The channels that are ready, marked and counted. *)
Definition mark_chan (ready : Z -> bool) (c : channel) : Z * channel :=
  if (0 <=? c_fd c) && ready (c_fd c) then (1, c <| c_present := 1 |>) else (0, c).
Definition mark_link (ready : Z -> bool) (l : link) : Z * link :=
  let '(a, g) := mark_chan ready (lk_gen l) in
  let '(b, e) := mark_chan ready (lk_evt l) in
  (a + b, l <| lk_gen := g |> <| lk_evt := e |>).

Definition unix_net_check_packet (ls : list link) (delay_ms : Z) (tv : Z * Z) (k : kst)
    : outcome (Z * list link * (Z * Z)) * kst :=
  let tv := next_tv tv delay_ms in
  let ls := map clear_present ls in
  let fds := concat (map link_fds ls) in
  let maxfd := foldl Z.max (-1) fds in
  let '(r, k) := k_select (maxfd + 1) fds tv k in
  match r with
  | sel_error e => if (e =? EINVAL) || (e =? EINTR) then (goes_on (-1, ls, (0, 0)), k) else (exits e, k)
  | sel_ready n ready tv_left =>
      if n =? 0 then (goes_on (0, ls, tv_left), k)
      else
        let ms := map (mark_link ready) ls in
        (goes_on (foldl Z.add 0 (map fst ms), map snd ms, tv_left), k)
  end.

End Net.
