(* ===== verification/UnixNetSpec.v ===== *)
(** * What the network layer of time-unix guarantees

    Over any kernel that keeps its documented contract: descriptors are
    never leaked or closed twice, received frames fit the buffer, so the
    program driven by them is safe, frames cross a link unchanged, frames of
    other VLANs are dropped, and the wait for packets ends in time. *)

From stdpp Require Import gmap strings.
From S2P Require Import Prelude TimeArith Types World Timeout Hooks Bytes Msg FixedPoint Servo.
From S2P Require Import BmcCmp ClockQuality Bmc BmcTable BmcDecision Common States Fsm OpenClose Safety MainLoop Startup.
From S2P Require Import Wrh WrhLoop WrMsg WrStates WrHooks L1Sync Extensions ExtClosed.
From S2P Require Import Scan Conf ConfLex ConfInv ConfSpec UnixMain UnixStart UnixNet.

(** ** The contract of the kernel

    [socket] gives a new positive descriptor or fails, [close] removes one, no other call changes
    what is open; [recvmsg] stores no more than the buffer it was given holds. *)
Class KernelLaws `{Kernel} := {
  k_open : kst -> gset Z;
  law_socket : forall kind k, (((k_socket kind k).1 < 0) /\ k_open (k_socket kind k).2 = k_open k) \/
    (0 < (k_socket kind k).1 /\ ((k_socket kind k).1 ∉ k_open k) /\
     k_open (k_socket kind k).2 = {[(k_socket kind k).1]} ∪ k_open k);
  law_close : forall fd k, k_open (k_close fd k) = k_open k ∖ {[fd]};
  law_ifindex : forall fd s k, k_open (k_ifindex fd s k).2 = k_open k;
  law_hwaddr : forall fd s k, k_open (k_hwaddr fd s k).2 = k_open k;
  law_ifaddr : forall fd s k, k_open (k_ifaddr fd s k).2 = k_open k;
  law_bind_packet : forall fd p i k, k_open (k_bind_packet fd p i k).2 = k_open k;
  law_bind_udp : forall fd p k, k_open (k_bind_udp fd p k).2 = k_open k;
  law_setsockopt : forall fd o k, k_open (k_setsockopt fd o k).2 = k_open k }.

(** A message that is received fits the buffer, and is as long as [recvmsg] says. *)
Class MsgFits `{Kernel} := {
  law_recvmsg : forall fd k, (length (rm_data (k_recvmsg fd k).1) <= PP_MAX_FRAME_LENGTH)%nat /\
    rm_ret (k_recvmsg fd k).1 <= Z.of_nat (length (rm_data (k_recvmsg fd k).1)) }.

Section Fds.
Context `{Config} `{KernelLaws}.

Lemma nbind_unfold {A B} (m : NM A) (k : A -> NM B) n : (m ≫= k) n = k (m n).1 (m n).2.
Proof. unfold mbind, NM_bind. by destruct (m n). Qed.

Lemma sys_unfold {T} (f : kst -> T * kst) n : sys f n = ((f (n_kst n)).1, n <| n_kst := (f (n_kst n)).2 |>).
Proof. unfold sys. by destruct (f (n_kst n)). Qed.

(** ** Descriptors *)

(** The transport and the descriptors of a link. *)
Definition fdv (l : link) : Z * Z * Z := (lk_proto l, c_fd (lk_gen l), c_fd (lk_evt l)).
Definition with_fd (t fd : Z) (v : Z * Z * Z) : Z * Z * Z :=
  if t =? PP_NP_GEN then (v.1.1, fd, v.2) else (v.1, fd).

Lemma set_fd_fdv t fd n : fdv (n_link (set_fd t fd n).2) = with_fd t fd (fdv (n_link n)).
Proof. unfold fdv, with_fd, set_fd, setl, on_chan. cbn. by destruct (t =? _). Qed.
Lemma set_fd_kst t fd n : n_kst (set_fd t fd n).2 = n_kst n.
Proof. done. Qed.
Lemma with_fd_twice t a b v : with_fd t a (with_fd t b v) = with_fd t a v.
Proof. unfold with_fd. by destruct (t =? _). Qed.

(** Code that opens and closes nothing. *)
Definition keeps {A} (m : NM A) : Prop := forall n,
  k_open (n_kst (m n).2) = k_open (n_kst n) /\ fdv (n_link (m n).2) = fdv (n_link n).

Lemma keeps_ret {A} (a : A) : keeps (mret a).
Proof. done. Qed.
Lemma keeps_bind {A B} (m : NM A) (k : A -> NM B) : keeps m -> (forall a, keeps (k a)) -> keeps (m ≫= k).
Proof. intros Hm Hk n. rewrite nbind_unfold. destruct (Hm n), (Hk (m n).1 (m n).2). split; congruence. Qed.
Lemma keeps_getl {T} (f : link -> T) : keeps (getl f).
Proof. done. Qed.
Lemma keeps_setl g : (forall l, fdv (g l) = fdv l) -> keeps (setl g).
Proof. intros Hg n. cbn. by rewrite Hg. Qed.
Lemma keeps_sys {T} (f : kst -> T * kst) : (forall k, k_open (f k).2 = k_open k) -> keeps (sys f).
Proof. intros Hf n. unfold sys. specialize (Hf (n_kst n)). by destruct (f (n_kst n)). Qed.
Lemma keeps_addr t hw : keeps (setl (on_chan t (fun c => c <| c_addr := hw |>))).
Proof. apply keeps_setl. intros l. unfold fdv, on_chan. by destruct (t =? _). Qed.

Create HintDb keeps.
Hint Resolve keeps_ret keeps_getl keeps_addr : keeps.
Hint Extern 1 (keeps (setl _)) => by apply keeps_setl : keeps.
Hint Extern 1 (keeps (sys _)) => apply keeps_sys; intros; auto using law_ifindex, law_hwaddr, law_ifaddr,
  law_bind_packet, law_bind_udp, law_setsockopt : keeps.

(** [m] ends the opening of a channel for which [sock] was obtained: it gets [sock], or [sock] is
    closed and the channel gets none. *)
Definition opens (t sock : Z) (O : gset Z) (v : Z * Z * Z) (m : NM Z) : Prop := forall n,
  k_open (n_kst n) = {[sock]} ∪ O -> (exists fd, fdv (n_link n) = with_fd t fd v) ->
  ((m n).1 = 0 /\ k_open (n_kst (m n).2) = {[sock]} ∪ O /\ fdv (n_link (m n).2) = with_fd t sock v) \/
  ((m n).1 = -1 /\ k_open (n_kst (m n).2) = O /\ fdv (n_link (m n).2) = with_fd t (-1) v).

Section Opens.
Context (t sock : Z) (O : gset Z) (v : Z * Z * Z) (Hs : 0 < sock) (Hf : sock ∉ O).

Lemma opens_done : opens t sock O v (set_fd t sock;; mret 0).
Proof.
  intros n Ho [fd Hv]. left. rewrite nbind_unfold. cbn [mret NM_ret fst snd]. by rewrite set_fd_fdv, set_fd_kst, Hv, with_fd_twice.
Qed.
Lemma opens_failed : opens t sock O v (open_failed t sock).
Proof.
  intros n Ho [fd Hv]. right. unfold open_failed. rewrite (proj2 (Z.leb_le 0 sock)) by lia.
  rewrite !nbind_unfold. cbn [mret NM_ret fst snd]. rewrite set_fd_fdv, set_fd_kst. cbn [sys_close sys fst snd n_kst n_link upd setter].
  rewrite law_close, Ho, Hv, with_fd_twice. split_and!; [done| |done]. set_solver.
Qed.
Lemma opens_after {A} (m : NM A) k : keeps m -> (forall a, opens t sock O v (k a)) -> opens t sock O v (m ≫= k).
Proof.
  intros Hm Hk n Ho Hv. rewrite nbind_unfold. destruct (Hm n) as [E1 E2]. apply Hk; [congruence|by rewrite E2].
Qed.
Lemma opens_if (b : bool) m1 m2 : opens t sock O v m1 -> opens t sock O v m2 -> opens t sock O v (if b then m1 else m2).
Proof. by destruct b. Qed.
Lemma opens_or_fail call k : keeps call -> opens t sock O v k -> opens t sock O v (or_fail t sock call k).
Proof. intros Hc Hk. apply opens_after; [done|]. intros r. apply opens_if; [apply opens_failed|done]. Qed.
Lemma opens_or_fail_opt {T} (call : NM (option T)) k : keeps call -> (forall x, opens t sock O v (k x)) ->
  opens t sock O v (or_fail_opt t sock call k).
Proof. intros Hc Hk. apply opens_after; [done|]. intros [x|]; [apply Hk|apply opens_failed]. Qed.
Lemma opens_set k : opens t sock O v k -> opens t sock O v (set_fd t sock;; k).
Proof.
  intros Hk n Ho [fd Hv]. rewrite nbind_unfold. apply Hk; [done|]. exists sock. by rewrite set_fd_fdv, Hv, with_fd_twice.
Qed.
End Opens.

(** Follow the text of a function that opens a channel. *)
Ltac open_walk := repeat first
  [ progress intros
  | apply opens_done
  | apply opens_failed; [assumption..]
  | apply opens_or_fail; [assumption..|solve [auto with keeps]|]
  | apply opens_or_fail_opt; [assumption..|solve [auto with keeps]|]
  | apply opens_set
  | apply opens_after; [solve [auto with keeps]|]
  | match goal with |- opens _ _ _ _ ((if ?b then _ else _) ≫= _) => destruct b end ].

(** What opening a channel does, for both kinds. *)
Definition opens_channel (t : Z) (m : NM Z) : Prop := forall n,
  (exists sock, 0 < sock /\ (sock ∉ k_open (n_kst n)) /\ (m n).1 = 0 /\
     k_open (n_kst (m n).2) = {[sock]} ∪ k_open (n_kst n) /\ fdv (n_link (m n).2) = with_fd t sock (fdv (n_link n))) \/
  ((m n).1 = -1 /\ k_open (n_kst (m n).2) = k_open (n_kst n) /\
     fdv (n_link (m n).2) = with_fd t (-1) (fdv (n_link n))).

Lemma with_fd_own t v : exists fd, v = with_fd t fd v.
Proof. unfold with_fd. destruct (t =? _); [exists v.1.2; by destruct v as [[]]|exists v.2; by destruct v]. Qed.

Lemma socket_then t kind (k : Z -> NM Z) :
  (forall sock O v, 0 < sock -> (sock ∉ O) -> opens t sock O v (k sock)) ->
  opens_channel t (sock ← sys (k_socket kind); if sock <? 0 then open_failed t sock else k sock).
Proof.
  intros Hk n. rewrite nbind_unfold. unfold sys. destruct (law_socket kind (n_kst n)) as [[Hs Ho]|(Hs & Hf & Ho)];
    destruct (k_socket kind (n_kst n)) as [sock k1]; cbn in *.
  - right. rewrite (proj2 (Z.ltb_lt sock 0)) by done. unfold open_failed. rewrite (proj2 (Z.leb_gt 0 sock)) by done.
    rewrite !nbind_unfold. cbn [mret NM_ret fst snd]. by rewrite set_fd_fdv, set_fd_kst.
  - rewrite (proj2 (Z.ltb_ge sock 0)) by lia.
    set (n1 := n <| n_kst := k1 |>).
    assert (k_open (n_kst n1) = {[sock]} ∪ k_open (n_kst n)) as Ho1 by exact Ho.
    destruct (Hk sock _ (fdv (n_link n)) Hs Hf n1 Ho1 (with_fd_own _ _)) as [(E1 & E2 & E3)|(E1 & E2 & E3)];
      [left; exists sock|right]; by split_and!.
Qed.

Lemma open_raw t : opens_channel t (unix_open_ch_raw t).
Proof. apply socket_then. open_walk. Qed.

Lemma open_udp t : opens_channel t (unix_open_ch_udp t).
Proof. apply socket_then. open_walk. Qed.

(** The descriptors of the channels are open, apart from the ones in [base]; the event channel is
    open only in UDP mode, with the general one. *)
Record fds_ok (base : gset Z) (n : net) : Prop := {
  fo_open : k_open (n_kst n) = base ∪ list_to_set (link_fds (n_link n));
  fo_gen : c_fd (lk_gen (n_link n)) = -1 \/ 0 < c_fd (lk_gen (n_link n)) /\ (c_fd (lk_gen (n_link n)) ∉ base);
  fo_evt : c_fd (lk_evt (n_link n)) = -1 \/
    0 < c_fd (lk_evt (n_link n)) /\ (c_fd (lk_evt (n_link n)) ∉ base) /\
    0 < c_fd (lk_gen (n_link n)) /\ c_fd (lk_evt (n_link n)) <> c_fd (lk_gen (n_link n)) /\
    lk_proto (n_link n) = PPSI_PROTO_UDP;
  fo_proto : lk_proto (n_link n) <> PPSI_PROTO_UDP -> lk_proto (n_link n) <> PPSI_PROTO_RAW ->
    lk_proto (n_link n) <> PPSI_PROTO_VLAN -> c_fd (lk_gen (n_link n)) = -1 }.

Lemma fdv_fields l pr g e : fdv l = (pr, g, e) -> lk_proto l = pr /\ c_fd (lk_gen l) = g /\ c_fd (lk_evt l) = e.
Proof. by intros [= -> -> ->]. Qed.

Lemma link_fds_closed l pr : fdv l = (pr, -1, -1) -> link_fds l = [].
Proof. intros (_ & Eg & Ee)%fdv_fields. unfold link_fds. by rewrite Eg, Ee. Qed.
Lemma link_fds_gen l pr g : fdv l = (pr, g, -1) -> 0 < g -> link_fds l = [g].
Proof.
  intros (_ & Eg & Ee)%fdv_fields Hg. unfold link_fds. rewrite Eg, Ee.
  by rewrite filter_cons_True, filter_cons_False by lia.
Qed.
Lemma link_fds_both l pr g e : fdv l = (pr, g, e) -> 0 < g -> 0 < e -> link_fds l = [g; e].
Proof.
  intros (_ & Eg & Ee)%fdv_fields Hg He. unfold link_fds. rewrite Eg, Ee. by rewrite !filter_cons_True by lia.
Qed.

Lemma closed_ok n pr : fdv (n_link n) = (pr, -1, -1) -> fds_ok (k_open (n_kst n)) n.
Proof.
  intros Hv. pose proof (link_fds_closed _ _ Hv) as Hl. apply fdv_fields in Hv as (Ep & Eg & Ee).
  split; rewrite ?Hl, ?Eg, ?Ee; [set_solver|by left|by left|done].
Qed.

(** The three shapes of an instance. *)
Lemma fds_ok_cases base n : fds_ok base n ->
  (fdv (n_link n) = (lk_proto (n_link n), -1, -1) /\ k_open (n_kst n) = base) \/
  (exists g, fdv (n_link n) = (lk_proto (n_link n), g, -1) /\ 0 < g /\ (g ∉ base) /\ k_open (n_kst n) = {[g]} ∪ base /\
    (lk_proto (n_link n) = PPSI_PROTO_UDP \/ lk_proto (n_link n) = PPSI_PROTO_RAW \/ lk_proto (n_link n) = PPSI_PROTO_VLAN)) \/
  (exists g e, fdv (n_link n) = (PPSI_PROTO_UDP, g, e) /\ 0 < g /\ 0 < e /\ e <> g /\ (g ∉ base) /\ (e ∉ base) /\
    k_open (n_kst n) = {[g; e]} ∪ base).
Proof.
  intros [Fo Fg Fe Fp].
  assert (fdv (n_link n) = (lk_proto (n_link n), c_fd (lk_gen (n_link n)), c_fd (lk_evt (n_link n)))) as Hv by done.
  destruct Fe as [Ee|(He1 & He2 & Hg & Hne & Ep)].
  - rewrite Ee in Hv. destruct Fg as [Eg|[Hg1 Hg2]].
    + left. rewrite Eg in Hv. split; [done|]. rewrite Fo, (link_fds_closed _ _ Hv). set_solver.
    + right; left. exists (c_fd (lk_gen (n_link n))). split_and!; [done..| |].
      * rewrite Fo, (link_fds_gen _ _ _ Hv Hg1). set_solver.
      * destruct (decide (lk_proto (n_link n) = PPSI_PROTO_UDP)) as [|N1]; [auto|].
        destruct (decide (lk_proto (n_link n) = PPSI_PROTO_RAW)) as [|N2]; [auto|].
        destruct (decide (lk_proto (n_link n) = PPSI_PROTO_VLAN)) as [|N3]; [auto|]. specialize (Fp N1 N2 N3). lia.
  - right; right. destruct Fg as [Eg|[Hg1 Hg2]]; [lia|].
    exists (c_fd (lk_gen (n_link n))), (c_fd (lk_evt (n_link n))). rewrite Ep in Hv. split_and!; [done..|].
    rewrite Fo, (link_fds_both _ _ _ _ Hv Hg1 He1). set_solver.
Qed.

(** *** Closing *)

Lemma close_udp_open t n fd : c_fd (chan t (n_link n)) = fd -> 0 <= fd ->
  k_open (n_kst (close_udp t n).2) = k_open (n_kst n) ∖ {[fd]} /\
  fdv (n_link (close_udp t n).2) = with_fd t (-1) (fdv (n_link n)).
Proof.
  intros Ef Hf. unfold close_udp. rewrite nbind_unfold. cbn [getl fst snd]. rewrite Ef, (proj2 (Z.ltb_ge fd 0)) by done.
  rewrite nbind_unfold. cbn [getl fst snd id].
  assert (keeps (sys (k_setsockopt fd (IP_DROP_MEMBERSHIP (lk_mcast_e2e (n_link n)) [0; 0; 0; 0])))) as K1 by auto with keeps.
  assert (keeps (sys (k_setsockopt fd (IP_DROP_MEMBERSHIP (lk_mcast_p2p (n_link n)) [0; 0; 0; 0])))) as K2 by auto with keeps.
  destruct (K1 n) as [O1 V1]. rewrite nbind_unfold. set (n1 := (sys _ n).2) in *. clearbody n1.
  destruct (K2 n1) as [O2 V2]. rewrite nbind_unfold. set (n2 := (sys _ n1).2) in *. clearbody n2.
  rewrite nbind_unfold, set_fd_fdv, set_fd_kst. cbn [sys_close sys fst snd n_kst n_link upd setter].
  rewrite law_close, O2, O1. split; [done|]. cbn. by rewrite V2, V1.
Qed.

Lemma close_udp_closed t n : c_fd (chan t (n_link n)) < 0 -> (close_udp t n).2 = n.
Proof. intros Ef. unfold close_udp. rewrite nbind_unfold. cbn [getl fst snd]. by rewrite (proj2 (Z.ltb_lt _ 0)). Qed.

(** Both channels. *)
Lemma close_both base n : fds_ok base n -> lk_proto (n_link n) = PPSI_PROTO_UDP ->
  let n2 := (close_udp PP_NP_EVT (close_udp PP_NP_GEN n).2).2 in
  k_open (n_kst n2) = base /\ fdv (n_link n2) = (PPSI_PROTO_UDP, -1, -1).
Proof.
  intros Hn Eu. cbn zeta.
  destruct (fds_ok_cases base n Hn) as [[Hv Ho]|[(g & Hv & Hg & Hf & Ho & _)|(g & e & Hv & Hg & He & Hne & Hf & Hf' & Ho)]];
    pose proof (fdv_fields _ _ _ _ Hv) as (_ & Eg & Ee).
  - rewrite (close_udp_closed PP_NP_GEN n), close_udp_closed by (cbn; lia). by rewrite Hv, Eu.
  - destruct (close_udp_open PP_NP_GEN n g Eg ltac:(lia)) as [O1 V1]. rewrite Hv in V1.
    pose proof (fdv_fields _ _ _ _ V1) as (_ & _ & Ee1). rewrite close_udp_closed by (cbn in *; lia).
    rewrite O1, V1, Ho, Eu. split; [set_solver|done].
  - destruct (close_udp_open PP_NP_GEN n g Eg ltac:(lia)) as [O1 V1]. rewrite Hv in V1.
    pose proof (fdv_fields _ _ _ _ V1) as (_ & _ & Ee1).
    destruct (close_udp_open PP_NP_EVT _ e Ee1 ltac:(lia)) as [O2 V2]. rewrite O2, O1, V2, V1, Ho.
    split; [set_solver|done].
Qed.

(** [unix_net_exit] leaves nothing open. *)
Lemma net_exit_closes base n : fds_ok base n ->
  k_open (n_kst (unix_net_exit n).2) = base /\
  fdv (n_link (unix_net_exit n).2) = (lk_proto (n_link n), -1, -1).
Proof.
  intros Hn. unfold unix_net_exit. rewrite nbind_unfold. cbn [getl fst snd].
  destruct (Z.eqb_spec (lk_proto (n_link n)) PPSI_PROTO_UDP) as [Eu|Nu].
  { rewrite Eu. change ((PPSI_PROTO_UDP =? PPSI_PROTO_RAW) || (PPSI_PROTO_UDP =? PPSI_PROTO_VLAN)) with false.
    cbv iota. rewrite !nbind_unfold. exact (close_both base n Hn Eu). }
  destruct (fds_ok_cases base n Hn) as [[Hv Ho]|[(g & Hv & Hg & Hf & Ho & Hp)|(g & e & Hv & _)]];
    pose proof (fdv_fields _ _ _ _ Hv) as (Ep & Eg & _); [| |done].
  - destruct (_ || _); [|cbn [mret NM_ret fst snd]; by rewrite Hv]. rewrite nbind_unfold. cbn [getl fst snd]. rewrite Eg.
    change (0 <? -1) with false. cbv iota. rewrite nbind_unfold. cbn [mret NM_ret fst snd]. by rewrite Hv.
  - assert ((lk_proto (n_link n) =? PPSI_PROTO_RAW) || (lk_proto (n_link n) =? PPSI_PROTO_VLAN) = true) as ->
      by (destruct Hp as [?|[->| ->]]; done).
    rewrite nbind_unfold. cbn [getl fst snd]. rewrite Eg, (proj2 (Z.ltb_lt 0 g)) by done.
    rewrite !nbind_unfold. cbn [mret NM_ret fst snd]. rewrite set_fd_fdv, set_fd_kst.
    cbn [sys_close sys fst snd n_kst n_link upd setter]. rewrite law_close, Ho.
    split; [set_solver|]. change (with_fd PP_NP_GEN (-1) (fdv (n_link n)) = (lk_proto (n_link n), -1, -1)). by rewrite Hv.
Qed.

(** *** Opening *)

(** An opened channel, from a closed link. *)
Lemma opened_gen n pr base m : opens_channel PP_NP_GEN m -> fdv (n_link n) = (pr, -1, -1) -> k_open (n_kst n) = base ->
  pr = PPSI_PROTO_UDP \/ pr = PPSI_PROTO_RAW \/ pr = PPSI_PROTO_VLAN -> fds_ok base (m n).2 /\
  ((m n).1 = 0 /\ (exists g, 0 < g /\ (g ∉ base) /\ fdv (n_link (m n).2) = (pr, g, -1) /\ k_open (n_kst (m n).2) = {[g]} ∪ base) \/
   (m n).1 = -1 /\ fdv (n_link (m n).2) = (pr, -1, -1)).
Proof.
  intros Hm Hv Ho Hp. destruct (Hm n) as [(g & Hg & Hf & Er & O & V)|(Er & O & V)]; rewrite Hv in V;
    change (with_fd PP_NP_GEN ?fd (pr, -1, -1)) with (pr, fd, -1) in V.
  - pose proof (fdv_fields _ _ _ _ V) as (Ep & Eg & Ee). rewrite Ho in *. split; [|left; eauto 6].
    split; rewrite ?(link_fds_gen _ _ _ V Hg), ?Ep, ?Eg, ?Ee; [set_solver|by right|by left|]. intros; naive_solver.
  - pose proof (closed_ok _ _ V) as C. rewrite O, Ho in C. split; [done|by right].
Qed.

(** The event channel, after the general one. *)
Lemma opened_evt n g base : fdv (n_link n) = (PPSI_PROTO_UDP, g, -1) -> 0 < g -> (g ∉ base) ->
  k_open (n_kst n) = {[g]} ∪ base -> fds_ok base (unix_open_ch_udp PP_NP_EVT n).2.
Proof.
  intros Hv Hg Hf Ho. destruct (open_udp PP_NP_EVT n) as [(e & He & Hfe & _ & O & V)|(_ & O & V)]; rewrite Hv in V;
    change (with_fd PP_NP_EVT ?fd (PPSI_PROTO_UDP, g, -1)) with (PPSI_PROTO_UDP, g, fd) in V;
    pose proof (fdv_fields _ _ _ _ V) as (Ep & Eg & Ee); rewrite Ho in *.
  - split; rewrite ?(link_fds_both _ _ _ _ V Hg He), ?Ep, ?Eg, ?Ee; [set_solver|by right| |done].
    right. split_and!; [done|set_solver|done| |done]. intros ->. set_solver.
  - split; rewrite ?(link_fds_gen _ _ _ V Hg), ?Ep, ?Eg, ?Ee; [set_solver|by right|by left|done].
Qed.

(** [unix_net_init], also on a link that is open. *)
Lemma net_init_ok base n : fds_ok base n -> fds_ok base (unix_net_init n).2.
Proof.
  intros Hn. unfold unix_net_init. rewrite nbind_unfold. cbn [getl fst snd]. rewrite nbind_unfold.
  set (m := if 0 <? _ then _ else _).
  assert (k_open (n_kst (m n).2) = base /\ fdv (n_link (m n).2) = (lk_proto (n_link n), -1, -1)) as [O V].
  { unfold m. destruct (Z.ltb_spec 0 (c_fd (lk_gen (n_link n)))) as [|Hg]; [by apply net_exit_closes|].
    destruct (fds_ok_cases base n Hn) as [[Hv Ho]|[(g & Hv & Hg' & _)|(g & e & Hv & Hg' & _)]];
      [cbn [mret NM_ret fst snd]; by rewrite Hv|..];
      apply fdv_fields in Hv as (_ & Eg & _); lia. }
  set (n1 := (m n).2) in *. clearbody n1. clear m Hn. set (pr := lk_proto (n_link n)) in *. clearbody pr. clear n.
  rewrite nbind_unfold. cbn [getl fst snd]. pose proof (fdv_fields _ _ _ _ V) as (-> & _ & _).
  pose proof (closed_ok _ _ V) as C. rewrite O in C.
  destruct (Z.eqb_spec pr PPSI_PROTO_UDP) as [->|Nu].
  - change ((PPSI_PROTO_UDP =? PPSI_PROTO_RAW) || (PPSI_PROTO_UDP =? PPSI_PROTO_VLAN)) with false. cbv iota.
    rewrite nbind_unfold. cbn [getl fst snd]. destruct (truth _); [done|]. rewrite nbind_unfold.
    destruct (opened_gen n1 _ base _ (open_udp PP_NP_GEN) V O ltac:(auto)) as [C1 [(-> & g & Hg & Hf & V1 & O1)|[-> V1]]];
      [|done].
    change (truth 0) with false. cbv iota. rewrite nbind_unfold. by eapply opened_evt.
  - destruct (Z.eqb_spec pr PPSI_PROTO_RAW) as [->|Nr]; [|destruct (Z.eqb_spec pr PPSI_PROTO_VLAN) as [->|Nv]; [|done]];
      cbn [orb]; rewrite nbind_unfold; by apply (opened_gen n1 _ base _ (open_raw PP_NP_GEN) V O); auto.
Qed.

(** *** Any sequence of calls *)

Inductive net_call := call_init | call_exit.
Definition do_call (n : net) (c : net_call) : net :=
  match c with call_init => (unix_net_init n).2 | call_exit => (unix_net_exit n).2 end.

Lemma calls_ok base cs n : fds_ok base n -> fds_ok base (foldl do_call n cs).
Proof.
  revert n. induction cs as [|[] cs IH]; intros n Hn; cbn [foldl]; [done|apply IH..].
  - by apply net_init_ok.
  - cbn. destruct (net_exit_closes base n Hn) as [O V]. pose proof (closed_ok _ _ V) as C. by rewrite O in C.
Qed.

End Fds.

(** ** Reception *)

Section Reception.
Context `{Config} `{Kernel} `{!MsgFits}.

(** The buffer stays as long as it is, and no more than it holds is reported. *)
Definition fits (r : rx) : Prop :=
  length r.1.2 = PP_MAX_FRAME_LENGTH /\ r.1.1 <= Z.of_nat PP_MAX_FRAME_LENGTH.

Lemma fits_ret ret frame t n : length frame = PP_MAX_FRAME_LENGTH -> ret <= Z.of_nat PP_MAX_FRAME_LENGTH ->
  fits ((mret (ret, frame, t) : NM rx) n).1.
Proof. by split. Qed.
Ltac fit := apply fits_ret; [assumption|first [lia | by vm_compute]].
Lemma recv_end_fits ret frame t n : length frame = PP_MAX_FRAME_LENGTH -> ret <= Z.of_nat PP_MAX_FRAME_LENGTH ->
  fits (recv_end ret frame t n).1.
Proof. intros Hl Hr. unfold recv_end. rewrite nbind_unfold. cbn. destruct (drop_rx n).1; split; (done || by vm_compute). Qed.

Lemma recv_msg_fits fd buf n : length buf = PP_MAX_FRAME_LENGTH -> fits (unix_recv_msg fd buf n).1.
Proof.
  intros Hb. unfold unix_recv_msg. rewrite nbind_unfold. rewrite sys_unfold.
  destruct (law_recvmsg fd (n_kst n)) as [Hl Hr]. destruct (k_recvmsg fd (n_kst n)) as [r k]. cbn [fst snd] in *. cbv zeta.
  set (frame := rm_data r ++ drop (length (rm_data r)) buf). assert (length frame = PP_MAX_FRAME_LENGTH) as Hf.
  { unfold frame. rewrite length_app, length_drop. lia. }
  clearbody frame. destruct (Z.leb_spec (rm_ret r) 0) as [Hz|].
  { apply fits_ret; [done|]. destruct (_ || _); lia. }
  destruct (rm_trunc r); [fit|]. destruct (rm_ctrunc r); [fit|]. rewrite nbind_unfold.
  destruct (rm_aux r) as [tci|].
  - destruct (negb _); [fit|]. rewrite nbind_unfold. destruct (existsb _ _); [|fit].
    rewrite nbind_unfold. apply recv_end_fits; [done|lia].
  - rewrite nbind_unfold. apply recv_end_fits; [done|lia].
Qed.

Lemma net_recv_fits buf n : length buf = PP_MAX_FRAME_LENGTH -> fits (unix_net_recv buf n).1.
Proof.
  intros Hb. unfold unix_net_recv. rewrite nbind_unfold. cbn [getl fst snd].
  destruct (_ || _).
  - rewrite nbind_unfold, nbind_unfold. cbn [getl fst snd]. pose proof (recv_msg_fits (c_fd (lk_gen (n_link n))) buf n Hb) as Hf.
    destruct (unix_recv_msg _ buf n) as [[[ret frame] t] n1]. cbn [fst snd] in *. destruct Hf as [Hf1 Hf2].
    destruct (ret <=? 0); [fit|]. destruct (negb _); [fit|]. rewrite nbind_unfold. fit.
  - destruct (_ =? _); [|fit]. rewrite nbind_unfold. cbn [getl fst snd]. destruct (truth _); [by apply recv_msg_fits|].
    destruct (truth _); [by apply recv_msg_fits|fit].
Qed.

(** What [unix_net_recv] hands to the main loop. *)
Definition net_received (buf : list Z) (n : net) : received :=
  let '(ret, frame, t) := (unix_net_recv buf n).1 in mk_received ret frame (default clear_time t).

Definition network_event `{Platform} (ev : event) : Prop :=
  forall j r, ev_rx ev j = Some r -> exists buf n, length buf = PP_MAX_FRAME_LENGTH /\ r = net_received buf n.

Lemma network_event_ok `{Platform} ev : network_event ev -> event_ok ev.
Proof.
  intros Hev j r Hr. destruct (Hev j r Hr) as (buf & n & Hb & ->). unfold net_received.
  pose proof (net_recv_fits buf n Hb) as [Hf1 Hf2]. destruct (unix_net_recv buf n) as [[[ret frame] t] n1].
  cbn in *. lia.
Qed.

End Reception.

(** ** Frames *)

Section Frames.
Context `{Config} `{Kernel}.

Lemma length_raw_header mech src pkt : length (raw_header mech src pkt) = length pkt.
Proof. unfold raw_header, put16. by rewrite !length_write. Qed.
Lemma length_vlan_header mech vid src pkt : length (vlan_header mech vid src pkt) = length pkt.
Proof. unfold vlan_header, put16. by rewrite !length_write. Qed.
Lemma length_macaddr mech : length (macaddr mech) = 6%nat.
Proof. unfold macaddr. by destruct (_ =? _). Qed.

Lemma slice_write_len k n l buf : length l = n -> (k + n <= length buf)%nat -> slice k n (write k l buf) = l.
Proof. intros <-. apply slice_write_same. Qed.

(** The fields of the headers, and the payload, which is left alone. *)
Lemma raw_fields mech src pkt k n : length src = 6%nat -> (14 <= length pkt)%nat -> (14 <= k)%nat ->
  get16 (raw_header mech src pkt) 12 = ETH_P_1588 /\ slice 6 6 (raw_header mech src pkt) = src /\
  slice k n (raw_header mech src pkt) = slice k n pkt.
Proof.
  intros Hs Hl Hk. unfold raw_header, get16, put16. pose proof (length_macaddr mech) as Hm.
  split_and!.
  - rewrite !slice_write_other by (rewrite ?Hs, ?Hm; lia). rewrite slice_put_same by lia. by rewrite of_be_be.
  - apply slice_write_len; rewrite ?length_write; lia.
  - by rewrite !slice_write_other by (rewrite ?Hs, ?Hm, ?length_be; lia).
Qed.

Lemma vlan_fields mech vid src pkt k n : length src = 6%nat -> (18 <= length pkt)%nat -> (18 <= k)%nat ->
  let f := vlan_header mech vid src pkt in
  get16 f 12 = 0x8100 /\ get16 f 14 = vid mod 65536 /\ get16 f 16 = ETH_P_1588 /\ slice 6 6 f = src /\
  slice k n f = slice k n pkt.
Proof.
  intros Hs Hl Hk. cbn zeta. unfold vlan_header, get16, put16. pose proof (length_macaddr mech) as Hm.
  split_and!.
  - rewrite !slice_write_other by (rewrite ?Hs, ?Hm; lia). rewrite slice_put_same by (rewrite !length_write; lia). by rewrite of_be_be.
  - rewrite !slice_write_other by (rewrite ?Hs, ?Hm, ?length_be; lia). rewrite slice_put_same by (rewrite !length_write; lia). by rewrite of_be_be.
  - rewrite !slice_write_other by (rewrite ?Hs, ?Hm, ?length_be; lia). rewrite slice_put_same by lia. by rewrite of_be_be.
  - apply slice_write_len; rewrite ?length_write; lia.
  - by rewrite !slice_write_other by (rewrite ?Hs, ?Hm, ?length_be; lia).
Qed.

(** A slice of the front of a list. *)
Lemma slice_take k n m (l : list Z) : (k + n <= m)%nat -> slice k n (take m l) = slice k n l.
Proof. intros Hk. unfold slice. rewrite skipn_firstn_comm, take_take. f_equal. lia. Qed.
Lemma slice_app_l k n (l l' : list Z) : (k + n <= length l)%nat -> slice k n (l ++ l') = slice k n l.
Proof. intros Hk. unfold slice. rewrite drop_app_le, take_app_le by (rewrite ?length_drop; lia). done. Qed.

(** What a packet socket with [PACKET_AUXDATA] delivers: the tag is cut out and reported apart. *)
Definition untag (f : list Z) : list Z := take 12 f ++ drop 16 f.

Lemma slice_untag_hi k n f : (12 <= k)%nat -> (16 <= length f)%nat -> slice k n (untag f) = slice (k + 4) n f.
Proof.
  intros Hk Hl. unfold slice, untag. rewrite drop_app_ge by (rewrite length_take; lia).
  rewrite length_take, Nat.min_l, drop_drop by lia. do 2 f_equal. lia.
Qed.
Lemma slice_untag_lo k n f : (k + n <= 12)%nat -> (12 <= length f)%nat -> slice k n (untag f) = slice k n f.
Proof. intros Hk Hl. unfold untag. rewrite slice_app_l by (rewrite length_take; lia). by apply slice_take. Qed.

(** *** Receiving a frame as the kernel delivers it *)

(** No fault injection, and a datagram without flags. *)
Definition no_drop (n : net) : Prop := rxrate (n_drop n) = 0.
Definition delivers (fd : Z) (n : net) (data : list Z) (aux : option Z) : Prop :=
  exists tv, (k_recvmsg fd (n_kst n)).1 = mk_recvmsg (Z.of_nat (length data)) 0 data false false tv aux.

Lemma recv_end_run ret frame t n : no_drop n -> recv_end ret frame t n = ((ret, frame, Some t), n).
Proof.
  unfold no_drop. intros Hd. unfold recv_end. rewrite nbind_unfold. unfold drop_rx, ppsi_drop_rx. rewrite Hd. cbn.
  by destruct n.
Qed.

Lemma rx_stamp_link tv n : n_link (rx_stamp tv n).2 = n_link n /\ n_drop (rx_stamp tv n).2 = n_drop n.
Proof.
  unfold rx_stamp, unix_time_get. destruct tv as [[]|]; [done|]. rewrite nbind_unfold. rewrite sys_unfold.
  by destruct (k_realtime (n_kst n)) as [[sec nsec] k].
Qed.

(** A frame that passes the filters: its length, the buffer, and the VLAN noted. *)
Definition accepted (fd : Z) (buf data : list Z) (aux : option Z) (n : net) : Prop :=
  let frame := data ++ drop (length data) buf in
  exists t n', unix_recv_msg fd buf n = ((Z.of_nat (length data), frame, Some t), n') /\
    n_link n' = (n_link n) <| lk_peer_vid := match aux with Some tci => u16 (Z.land tci 0xfff) | None => 0 end |>.

Lemma recv_msg_accepts fd buf data aux n : no_drop n -> delivers fd n data aux -> data <> [] ->
  (forall tci, aux = Some tci -> get16 (data ++ drop (length data) buf) 12 = ETH_P_1588 /\
     Z.land tci 0xfff ∈ take (Z.to_nat (lk_nvlans (n_link n))) (lk_vlans (n_link n))) ->
  accepted fd buf data aux n.
Proof.
  intros Hd [tv Er] Hne Haux. unfold accepted, unix_recv_msg. cbn zeta. rewrite nbind_unfold. rewrite sys_unfold.
  destruct (k_recvmsg fd (n_kst n)) as [r k]. cbn [fst snd] in *. subst r. cbn [rm_data rm_ret rm_trunc rm_ctrunc rm_tv rm_aux]. cbv zeta.
  set (frame := data ++ drop (length data) buf) in *. set (n1 := n <| n_kst := k |>).
  assert (n_link n1 = n_link n /\ n_drop n1 = n_drop n) as [L1 D1] by done. clearbody n1 frame.
  rewrite (proj2 (Z.leb_gt _ 0)) by (destruct data; [done|cbn; lia]). rewrite nbind_unfold.
  destruct (rx_stamp_link tv n1) as [L2 D2]. set (n2 := (rx_stamp tv n1).2) in *. set (t := (rx_stamp tv n1).1). clearbody n2 t.
  assert (forall v, no_drop (setl (fun l => l <| lk_peer_vid := v |>) n2).2) as Hnd by (intros v; unfold no_drop; cbn; congruence).
  destruct aux as [tci|].
  - destruct (Haux tci eq_refl) as [-> Hin]. change (negb (ETH_P_1588 =? ETH_P_1588)) with false. cbv iota.
    rewrite nbind_unfold. cbn [getl fst snd]. rewrite L2, L1.
    assert (existsb (fun v => v =? Z.land tci 0xfff) (take (Z.to_nat (lk_nvlans (n_link n))) (lk_vlans (n_link n))) = true) as ->.
    { apply existsb_exists. exists (Z.land tci 0xfff). split; [by apply list_elem_of_In|apply Z.eqb_refl]. }
    rewrite nbind_unfold, recv_end_run by done. eexists _, _. split; [done|]. cbn. by rewrite L2, L1.
  - rewrite nbind_unfold, recv_end_run by done. eexists _, _. split; [done|]. cbn. by rewrite L2, L1.
Qed.

End Frames.

(** ** Sending *)

Section Sending.
Context `{Config} `{Kernel}.

(** The frame put together for the wire, by transport. *)
Definition sent_frame (l : link) (fmt : nat) (pkt : list Z) (len : nat) : list Z :=
  let mech := mf_delay_mechanism (msg_fmt fmt) in
  take len (if lk_proto l =? PPSI_PROTO_VLAN then vlan_header mech (lk_peer_vid l) (c_addr (lk_gen l)) pkt
            else raw_header mech (c_addr (lk_gen l)) pkt).
(** Its header, as [pp_prepare_pointers] reserves it. *)
Definition tx_header (pr : Z) : nat := if pr =? PPSI_PROTO_VLAN then 18 else 14.
Definition on_wire (pr : Z) (f : list Z) : list Z := if pr =? PPSI_PROTO_VLAN then untag f else f.

Definition no_drop_tx (n : net) : Prop := txrate (n_drop n) = 0.

(** What the kernel is asked to send: the frame, and with a VLAN, when that succeeded, the
    packet once more on the way of UDP. *)
Lemma send_hands_over n pkt len fmt : no_drop_tx n ->
  lk_proto (n_link n) = PPSI_PROTO_RAW \/ lk_proto (n_link n) = PPSI_PROTO_VLAN ->
  let f := sent_frame (n_link n) fmt pkt len in
  let s := k_send (c_fd (lk_gen (n_link n))) f (k_realtime (n_kst n)).2 in
  let n1 := n <| n_kst := s.2 |> in
  exists pkt' t, take len pkt' = f /\
    unix_net_send pkt (Z.of_nat len) fmt n =
    if (lk_proto (n_link n) =? PPSI_PROTO_RAW) || (s.1 <? 0) then ((s.1, pkt', Some t), n1)
    else send_udp pkt' (Z.of_nat len) (mf_chtype (msg_fmt fmt)) (mf_delay_mechanism (msg_fmt fmt)) n1.
Proof.
  intros Hd Hp. cbn zeta. unfold unix_net_send, sent_frame. rewrite nbind_unfold.
  assert (drop_tx n = (false, n)) as ->.
  { unfold drop_tx, ppsi_drop_tx. unfold no_drop_tx in Hd. rewrite Hd. cbn. by destruct n. }
  cbn [fst snd]. rewrite nbind_unfold. cbn [getl fst snd]. rewrite nbind_unfold. cbn [getl fst snd].
  destruct Hp as [Ep|Ep]; rewrite Ep.
  - change (PPSI_PROTO_RAW =? PPSI_PROTO_RAW) with true. change (PPSI_PROTO_RAW =? PPSI_PROTO_VLAN) with false. cbv iota.
    cbn [orb]. rewrite Nat2Z.id. unfold unix_time_get. rewrite !nbind_unfold. unfold sys.
    destruct (k_realtime (n_kst n)) as [[sec nsec] k1]. cbn [fst snd]. rewrite nbind_unfold. cbn [getl mret NM_ret fst snd].
    cbn [n_kst upd setter]. destruct (k_send _ _ k1) as [ret k2]. eexists _, _. split; reflexivity.
  - change (PPSI_PROTO_VLAN =? PPSI_PROTO_RAW) with false. change (PPSI_PROTO_VLAN =? PPSI_PROTO_VLAN) with true. cbv iota.
    cbn [orb]. rewrite nbind_unfold. cbn [getl fst snd]. rewrite Nat2Z.id. unfold unix_time_get.
    rewrite !nbind_unfold. unfold sys.
    destruct (k_realtime (n_kst n)) as [[sec nsec] k1]. cbn [fst snd] in *. rewrite nbind_unfold. cbn [getl mret NM_ret fst snd].
    cbn [n_kst upd setter]. destruct (k_send _ _ k1) as [ret k2]. cbn [fst snd] in *.
    eexists _, _. split; [reflexivity|]. by destruct (ret <? 0).
Qed.

(** The frame on the wire, at the receiver. *)
Lemma wire_fields l fmt pkt len : lk_proto l = PPSI_PROTO_RAW \/ lk_proto l = PPSI_PROTO_VLAN ->
  length (c_addr (lk_gen l)) = 6%nat -> (len <= length pkt)%nat -> (tx_header (lk_proto l) <= len)%nat ->
  let data := on_wire (lk_proto l) (sent_frame l fmt pkt len) in
  (length data = len - tx_header (lk_proto l) + 14)%nat /\ get16 data 12 = ETH_P_1588 /\
  slice 6 6 data = c_addr (lk_gen l) /\
  slice 14 (len - tx_header (lk_proto l)) data = slice (tx_header (lk_proto l)) (len - tx_header (lk_proto l)) pkt.
Proof.
  intros Hp Hs Hl Hh. cbn zeta. unfold on_wire, sent_frame, tx_header in *. destruct Hp as [Ep|Ep]; rewrite Ep in *.
  - change (PPSI_PROTO_RAW =? PPSI_PROTO_VLAN) with false in *. cbv iota in *.
    destruct (raw_fields (mf_delay_mechanism (msg_fmt fmt)) (c_addr (lk_gen l)) pkt 14 (len - 14) Hs) as (F1 & F2 & F3); [lia..|].
    set (f := raw_header _ _ _) in *. assert (length f = length pkt) as Lf by apply length_raw_header.
    unfold get16 in *. rewrite length_take, !slice_take by lia. split_and!; [lia|done..].
  - change (PPSI_PROTO_VLAN =? PPSI_PROTO_VLAN) with true in *. cbv iota in *.
    destruct (vlan_fields (mf_delay_mechanism (msg_fmt fmt)) (lk_peer_vid l) (c_addr (lk_gen l)) pkt 18 (len - 18) Hs)
      as (_ & _ & F1 & F2 & F3); [lia..|].
    set (f := vlan_header _ _ _ _) in *. assert (length f = length pkt) as Lf by apply length_vlan_header.
    assert (length (take len f) = len) as Lt by (rewrite length_take; lia).
    unfold get16 in *. rewrite (slice_untag_lo 6 6), (slice_untag_hi 12 2), (slice_untag_hi 14 (len - 18)) by lia.
    rewrite !slice_take by lia.
    split_and!; [unfold untag; rewrite length_app, length_take, length_drop; lia|done..].
Qed.

End Sending.

Section Claims.
Context `{Config} `{KernelLaws}.

(** C22. No descriptor is leaked. Let the kernel be one where [socket] fails or opens a new
    positive descriptor, [close] closes the one it is given, and no other call opens or closes
    any. After any sequence of calls of [unix_net_init] and [unix_net_exit] on a port that starts
    closed, in any order and whatever system calls fail, the descriptors open are the ones that
    were open before and those of the port's channels, and closing the port gives back what was
    open before. *)
Theorem unix_net_no_leak (n : net) (cs : list net_call) :
  c_fd (lk_gen (n_link n)) = -1 -> c_fd (lk_evt (n_link n)) = -1 ->
  let n' := foldl do_call n cs in
  k_open (n_kst n') = k_open (n_kst n) ∪ list_to_set (link_fds (n_link n')) /\
  k_open (n_kst (unix_net_exit n').2) = k_open (n_kst n).
Proof.
  intros Hg He. cbn zeta.
  assert (fds_ok (k_open (n_kst n)) n) as Hn.
  { apply (closed_ok n (lk_proto (n_link n))). unfold fdv. by rewrite Hg, He. }
  pose proof (calls_ok _ cs n Hn) as Hc. split; [apply Hc|by apply net_exit_closes].
Qed.

(** C19. Frames cross a link, with the fault injection off at both ends, buffers of the size of a
    frame and a MAC address of six bytes. On raw Ethernet and with VLANs, [unix_net_send] gives
    the sender's kernel the frame with the headers of the transport; it returns what the kernel
    answered, except that with a VLAN and a kernel that took the frame the code goes on with the
    [sendto] of UDP on the same packet and returns the answer to that. When a receiver's kernel
    delivers that frame (with a VLAN, which must be one of the receiver's, the tag cut out and
    reported apart), [unix_net_recv] returns its length and a buffer with the sender's payload
    where [rx_offset] says, and notes the sender's address and VLAN. *)
Theorem frame_crosses_link (ns nr : net) (pkt buf : list Z) (len fmt : nat) (tci : Z) :
  let pr := lk_proto (n_link ns) in
  let f := sent_frame (n_link ns) fmt pkt len in
  pr = PPSI_PROTO_RAW \/ pr = PPSI_PROTO_VLAN -> lk_proto (n_link nr) = pr -> no_drop_tx ns -> no_drop nr ->
  length (c_addr (lk_gen (n_link ns))) = 6%nat -> length buf = PP_MAX_FRAME_LENGTH ->
  (tx_header pr <= len <= length pkt)%nat ->
  (pr = PPSI_PROTO_VLAN -> 0 <= lk_peer_vid (n_link ns) /\ Z.land tci 0xfff = lk_peer_vid (n_link ns) /\
     lk_peer_vid (n_link ns) ∈ take (Z.to_nat (lk_nvlans (n_link nr))) (lk_vlans (n_link nr))) ->
  delivers (c_fd (lk_gen (n_link nr))) nr (on_wire pr f) (if pr =? PPSI_PROTO_VLAN then Some tci else None) ->
  let s := k_send (c_fd (lk_gen (n_link ns))) f (k_realtime (n_kst ns)).2 in
  let ns' := ns <| n_kst := s.2 |> in
  (exists pkt' t, take len pkt' = f /\
     unix_net_send pkt (Z.of_nat len) fmt ns =
     if (pr =? PPSI_PROTO_RAW) || (s.1 <? 0) then ((s.1, pkt', Some t), ns')
     else send_udp pkt' (Z.of_nat len) (mf_chtype (msg_fmt fmt)) (mf_delay_mechanism (msg_fmt fmt)) ns') /\
  exists frame t nr', unix_net_recv buf nr = ((Z.of_nat (len - tx_header pr + 14), frame, Some t), nr') /\
    slice 14 (len - tx_header pr) frame = slice (tx_header pr) (len - tx_header pr) pkt /\
    lk_peer (n_link nr') = c_addr (lk_gen (n_link ns)) /\
    lk_peer_vid (n_link nr') = if pr =? PPSI_PROTO_VLAN then lk_peer_vid (n_link ns) else 0.
Proof.
  intros pr f Hp Hr Ht Hd Ha Hb Hlen Hv Hdel s ns'. split; [by apply send_hands_over|].
  destruct (wire_fields (n_link ns) fmt pkt len Hp Ha ltac:(lia) ltac:(unfold pr in *; lia)) as (L & F1 & F2 & F3).
  fold pr f in L, F1, F2, F3. set (data := on_wire pr f) in *. clearbody data.
  assert (forall k n, (k + n <= length data)%nat -> slice k n (data ++ drop (length data) buf) = slice k n data) as Hsl
    by (intros; by apply slice_app_l).
  assert (get16 (data ++ drop (length data) buf) 12 = ETH_P_1588) as F1' by (unfold get16 in *; rewrite Hsl by lia; done).
  destruct (recv_msg_accepts (c_fd (lk_gen (n_link nr))) buf data (if pr =? PPSI_PROTO_VLAN then Some tci else None) nr)
    as (t & n1 & E & L1); [done|done|intros ->; cbn in L; lia| |].
  { intros tci'. destruct (Z.eqb_spec pr PPSI_PROTO_VLAN) as [Ev|]; [|done]. intros [= <-].
    destruct (Hv Ev) as (_ & -> & ?). done. }
  unfold unix_net_recv. rewrite nbind_unfold. cbn [getl fst snd]. rewrite Hr.
  assert ((pr =? PPSI_PROTO_RAW) || (pr =? PPSI_PROTO_VLAN) = true) as -> by (destruct Hp as [-> | ->]; done).
  rewrite nbind_unfold. cbn [getl fst snd]. rewrite nbind_unfold, E. cbn [fst snd]. rewrite F1'.
  rewrite (proj2 (Z.leb_gt (Z.of_nat (length data)) 0)) by lia. change (negb (ETH_P_1588 =? ETH_P_1588)) with false. cbv iota.
  rewrite nbind_unfold, <- L. eexists _, _, _. split; [reflexivity|]. rewrite !Hsl by lia. split; [done|]. cbn. rewrite L1. cbn.
  split; [done|].
  destruct (Z.eqb_spec pr PPSI_PROTO_VLAN) as [Ev|]; [|done]. destruct (Hv Ev) as (Hv0 & Hv1 & _). rewrite Hv1.
  unfold u16. apply Z.mod_small. assert (Z.land tci 0xfff < 2 ^ 12); [|lia].
  change 0xfff with (Z.ones 12). rewrite Z.land_ones by lia. by apply Z.mod_pos_bound.
Qed.

(** What passes the filter of [unix_recv_msg] in a link with VLANs. *)
Lemma recv_msg_vlan fd buf n ret frame t n' : unix_recv_msg fd buf n = ((ret, frame, t), n') -> 0 < ret ->
  lk_proto (n_link n') = lk_proto (n_link n) /\
  match rm_aux (k_recvmsg fd (n_kst n)).1 with
  | Some tci => get16 frame 12 = ETH_P_1588 /\ lk_peer_vid (n_link n') = u16 (Z.land tci 0xfff) /\
      Z.land tci 0xfff ∈ take (Z.to_nat (lk_nvlans (n_link n))) (lk_vlans (n_link n))
  | None => lk_peer_vid (n_link n') = 0
  end.
Proof.
  unfold unix_recv_msg. rewrite nbind_unfold. rewrite sys_unfold.
  destruct (k_recvmsg fd (n_kst n)) as [r k]. cbn [fst snd]. cbv zeta. set (fr := rm_data r ++ drop (length (rm_data r)) buf). set (n1 := n <| n_kst := k |>).
  assert (n_link n1 = n_link n) as L1 by done. clearbody n1 fr. intros E Hret. revert E.
  destruct (Z.leb_spec (rm_ret r) 0) as [Hz|]; [destruct (_ || _); intros [= <- _ _ _]; lia|].
  destruct (rm_trunc r); [intros [= <- _ _ _]; done|]. destruct (rm_ctrunc r); [intros [= <- _ _ _]; lia|].
  rewrite nbind_unfold. destruct (rx_stamp_link (rm_tv r) n1) as [L2 _]. set (n2 := (rx_stamp (rm_tv r) n1).2) in *.
  set (ts := (rx_stamp (rm_tv r) n1).1). clearbody n2 ts.
  assert (forall v, recv_end (rm_ret r) fr ts (setl (fun l => l <| lk_peer_vid := v |>) n2).2 = ((ret, frame, t), n') ->
    frame = fr /\ n_link n' = (n_link n) <| lk_peer_vid := v |>) as Hend.
  { intros v. unfold recv_end, drop_rx, mret, NM_ret. rewrite nbind_unfold. destruct (ppsi_drop_rx _) as [d b].
    cbn. intros [= _ <- _ <-]. cbn. by rewrite L2, L1. }
  destruct (rm_aux r) as [tci|].
  - destruct (Z.eqb_spec (get16 fr 12) ETH_P_1588) as [Eh|]; [|intros [= <- _ _ _]; done]. cbn [negb].
    rewrite nbind_unfold. cbn [getl fst snd]. rewrite L2, L1. destruct (existsb _ _) eqn:Ex; [|intros [= <- _ _ _]; done].
    rewrite nbind_unfold. intros E. destruct (Hend _ E) as [-> ->]. split; [done|]. split_and!; [done..|].
    apply existsb_exists in Ex as (v & Hv & Ev). apply Z.eqb_eq in Ev as <-. by apply list_elem_of_In.
  - rewrite nbind_unfold. intros E. by destruct (Hend _ E) as [-> ->].
Qed.

(** C20. Only frames meant for the port reach the protocol. On raw Ethernet and with VLANs,
    whatever the kernel delivers, a frame that [unix_net_recv] hands on has the Ethernet type of
    PTP; when the kernel reported a VLAN it is one of the port's, and answers will go there. *)
Theorem recv_only_ours (n : net) (buf : list Z) :
  lk_proto (n_link n) = PPSI_PROTO_RAW \/ lk_proto (n_link n) = PPSI_PROTO_VLAN ->
  let '((ret, frame, t), n') := unix_net_recv buf n in
  0 < ret -> get16 frame 12 = ETH_P_1588 /\ lk_peer (n_link n') = slice 6 6 frame /\
  match rm_aux (k_recvmsg (c_fd (lk_gen (n_link n))) (n_kst n)).1 with
  | Some tci => Z.land tci 0xfff ∈ take (Z.to_nat (lk_nvlans (n_link n))) (lk_vlans (n_link n)) /\
      lk_peer_vid (n_link n') = u16 (Z.land tci 0xfff)
  | None => lk_peer_vid (n_link n') = 0
  end.
Proof.
  intros Hp. unfold unix_net_recv. rewrite nbind_unfold. cbn [getl fst snd].
  assert ((lk_proto (n_link n) =? PPSI_PROTO_RAW) || (lk_proto (n_link n) =? PPSI_PROTO_VLAN) = true) as ->
    by (destruct Hp as [-> | ->]; done).
  rewrite nbind_unfold. cbn [getl fst snd]. rewrite nbind_unfold.
  destruct (unix_recv_msg _ buf n) as [[[ret frame] t] n1] eqn:E. cbn [fst snd].
  destruct (Z.leb_spec ret 0) as [Hz|Hr]; [cbn; lia|].
  destruct (Z.eqb_spec (get16 frame 12) ETH_P_1588) as [Eh|]; [|done]. cbn. intros _. split_and!; [done..|].
  destruct (recv_msg_vlan _ _ _ _ _ _ _ E Hr) as [_ Hv]. destruct (rm_aux _); [|exact Hv]. split; apply Hv.
Qed.

(** *** Waiting *)

(** A timeout in microseconds. *)
Definition usecs (tv : Z * Z) : Z := tv.1 * 1000000 + tv.2.

(** The channels of the links. *)
Definition channels (ls : list link) : list channel := concat (map (fun l => [lk_gen l; lk_evt l]) ls).

Lemma mark_links ready ls : let ms := map (mark_link ready) (map clear_present ls) in
  forall acc, foldl Z.add acc (map fst ms) = acc + Z.of_nat (length (List.filter (fun c => c_present c =? 1) (channels (map snd ms)))) /\
  map (fun c => (c_fd c, c_present c)) (channels (map snd ms)) =
  map (fun c => (c_fd c, if (0 <=? c_fd c) && ready (c_fd c) then 1 else 0)) (channels ls).
Proof.
  cbn zeta. induction ls as [|l ls IH]; intros acc; [cbn; split; [lia|done]|].
  cbn [map foldl channels concat]. fold (channels (map snd (map (mark_link ready) (map clear_present ls)))).
  fold (channels ls). destruct (IH (acc + (mark_link ready (clear_present l)).1)) as [I1 I2]. rewrite I1.
  cbn [app map]. rewrite I2. set (rest := channels (map snd _)). clearbody rest. clear I1 I2 IH. unfold mark_link, mark_chan. cbn.
  destruct ((0 <=? c_fd (lk_gen l)) && ready _), ((0 <=? c_fd (lk_evt l)) && ready _); cbn;
    (split; [lia|done]).
Qed.

(** C21. The wait for packets ends in time and reports what is there. [select] is called with at
    most the time to the next run of a state machine (up to the millisecond it is given in), and,
    when a millisecond or more was left of the previous wait, with no more than that; without a
    new delay the wait goes on. On success exactly the channels that are ready are marked, and
    their number is returned; a signal gives -1, no packet and a fresh wait. *)
Theorem check_packet_waits (ls : list link) (delay_ms : Z) (tv : Z * Z) (k : kst) :
  0 <= tv.1 < 1000000 -> 0 <= tv.2 < 1000000 -> delay_ms < 2147483648 ->
  let tv' := next_tv tv delay_ms in
  let fds := concat (map link_fds (map clear_present ls)) in
  (0 <= delay_ms -> usecs tv' < (delay_ms + 1) * 1000 /\ (1000 <= usecs tv -> usecs tv' <= usecs tv)) /\
  (delay_ms < 0 -> tv' = tv) /\
  match (k_select (foldl Z.max (-1) fds + 1) fds tv' k).1 with
  | sel_ready m ready tv_left => m <> 0 ->
      exists ls' c, (unix_net_check_packet ls delay_ms tv k).1 = goes_on (c, ls', tv_left) /\
        c = Z.of_nat (length (List.filter (fun c => c_present c =? 1) (channels ls'))) /\
        map (fun c => (c_fd c, c_present c)) (channels ls') =
        map (fun c => (c_fd c, if (0 <=? c_fd c) && ready (c_fd c) then 1 else 0)) (channels ls)
  | sel_error e => (unix_net_check_packet ls delay_ms tv k).1 =
      if (e =? EINVAL) || (e =? EINTR) then goes_on (-1, map clear_present ls, (0, 0)) else exits e
  end.
Proof.
  intros Ht1 Ht2 Hd. cbn zeta. split_and!.
  - intros Hd0. unfold next_tv, usecs. rewrite (proj2 (Z.leb_le 0 delay_ms)) by done. cbn [andb].
    rewrite (i32_id (tv.1 * 1000 + _)) by (rewrite Z.quot_div_nonneg by lia; pose proof (Z.div_lt_upper_bound tv.2 1000 1000); pose proof (Z.div_pos tv.2 1000); lia).
    rewrite !Z.quot_div_nonneg, Z.rem_mod_nonneg by lia. pose proof (Z.div_mod tv.2 1000). pose proof (Z.mod_pos_bound tv.2 1000).
    pose proof (Z.div_mod delay_ms 1000). pose proof (Z.mod_pos_bound delay_ms 1000).
    destruct (Z.eqb_spec (tv.1 * 1000 + tv.2 / 1000) 0); destruct (Z.ltb_spec delay_ms (tv.1 * 1000 + tv.2 / 1000)); cbn [orb fst snd]; lia.
  - intros Hd0. unfold next_tv. by rewrite (proj2 (Z.leb_gt 0 delay_ms)).
  - unfold unix_net_check_packet. set (fds := concat _). destruct (k_select _ fds _ k) as [[e|m ready tv_left] k']; cbn [fst].
    + by destruct (_ || _).
    + intros Hm. rewrite (proj2 (Z.eqb_neq m 0)) by done. destruct (mark_links ready ls 0) as [M1 M2].
      eexists _, _. split; [reflexivity|]. split; [exact M1|exact M2].
Qed.

End Claims.

(** ** The program over this network *)

Section Daemon.
Context `{Config} `{!ConfBuild} (P : Platform) {WC : WrConfig} `{Kernel} `{!MsgFits}.

(** The machine, when no null pointer was called yet. *)
Definition null_machine (m : @machine P) : @machine (null_platform P) :=
  @mk_machine (null_platform P) (m_files m) (m_tai m) (m_tx m) (m_oom_start m) (m_oom m) (m_env m, false) (m_seed m).

Lemma null_event_ok ev : network_event ev -> event_ok (null_event P ev).
Proof. intros Hev. exact (network_event_ok ev Hev). Qed.


End Daemon.

(** ** A run *)

Module NetDemo.
#[local] Instance demo_cfg : Config := Demo.demo_config.

(** A kernel that hands out descriptors in order, fails the calls listed, delivers what was queued
    for a descriptor and records what is sent; [sendto] works on UDP sockets only. *)
Record kern := mk_kern {
  kn_next : Z; kn_fds : gset Z; kn_udp : list Z; kn_fail_udp_bind : bool; kn_queue : list recvmsg_t;
  kn_sent : list (list Z) }.
Definition nothing : recvmsg_t := mk_recvmsg (-1) EAGAIN [] false false None None.
Definition clip (r : recvmsg_t) : recvmsg_t :=
  let data := take PP_MAX_FRAME_LENGTH (rm_data r) in
  mk_recvmsg (Z.min (rm_ret r) (Z.of_nat (length data))) (rm_errno r) data (rm_trunc r) (rm_ctrunc r) (rm_tv r) (rm_aux r).

#[export] Instance demo_kernel : Kernel := {|
  kst := kern;
  k_socket kind k :=
    let fd := 3 + Z.of_nat (Z.to_nat (kn_next k)) in
    if bool_decide (fd ∈ kn_fds k) then (-1, k)
    else (fd, mk_kern (kn_next k + 1) ({[fd]} ∪ kn_fds k)
                (match kind with S_UDP => fd :: kn_udp k | S_PACKET => kn_udp k end)
                (kn_fail_udp_bind k) (kn_queue k) (kn_sent k));
  k_close fd k := mk_kern (kn_next k) (kn_fds k ∖ {[fd]}) (kn_udp k) (kn_fail_udp_bind k) (kn_queue k) (kn_sent k);
  k_ifindex _ _ k := (Some 2, k);
  k_hwaddr _ _ k := (Some [2; 0; 0; 0; 0; 7], k);
  k_ifaddr _ _ k := (Some [10; 0; 0; 1], k);
  k_bind_packet _ _ _ k := (0, k);
  k_bind_udp _ port k := (if kn_fail_udp_bind k && (port =? PP_EVT_PORT) then -1 else 0, k);
  k_setsockopt _ _ k := (0, k);
  k_recvmsg _ k :=
    match kn_queue k with
    | [] => (nothing, k)
    | r :: q => (clip r, mk_kern (kn_next k) (kn_fds k) (kn_udp k) (kn_fail_udp_bind k) q (kn_sent k))
    end;
  k_send _ f k := (Z.of_nat (length f),
    mk_kern (kn_next k) (kn_fds k) (kn_udp k) (kn_fail_udp_bind k) (kn_queue k) (f :: kn_sent k));
  k_sendto fd _ _ f k := (if bool_decide (fd ∈ kn_udp k) then Z.of_nat (length f) else -1, k);
  k_select _ fds tv k := (sel_ready (Z.of_nat (length fds)) (fun fd => bool_decide (fd ∈ fds)) tv, k);
  k_realtime k := ((1000, 5), k) |}.

#[export, refine] Instance demo_laws : KernelLaws := {| k_open := kn_fds |}.
Proof.
  all: try (intros; reflexivity).
  intros kind k. cbn. case_bool_decide; cbn; [by left|right]. split; [lia|done].
Defined.
#[export] Instance demo_recv : MsgFits.
Proof.
  constructor. intros fd k. cbn -[take PP_MAX_FRAME_LENGTH]. destruct (kn_queue k) as [|r q]; cbn -[take PP_MAX_FRAME_LENGTH];
      [unfold PP_MAX_FRAME_LENGTH; lia|]. rewrite !length_take. lia.
Defined.

Definition demo_link (pr vid : Z) : link :=
  mk_link pr (if pr =? PPSI_PROTO_VLAN then 1 else 0) [vid; 0; 0; 0] (str "eth0") (mk_chan (-1) [0; 0; 0; 0; 0; 0] 0)
    (mk_chan (-1) [0; 0; 0; 0; 0; 0] 0) [0; 0; 0; 0] [0; 0; 0; 0] [0; 0; 0; 0; 0; 0] vid 1 37.
Definition demo_net (pr vid : Z) (bind_fails : bool) (q : list recvmsg_t) : net :=
  mk_net (demo_link pr vid) (mk_kern 0 ∅ [] bind_fails q []) (mk_drop 1 2 0 0).
Definition opened (n : net) : net := (unix_net_init n).2.

(** UDP: both channels are open; when the second cannot be bound, only the first is. *)
Example udp_opened : link_fds (n_link (opened (demo_net PPSI_PROTO_UDP 0 false []))) = [3; 4] /\
  link_fds (n_link (opened (demo_net PPSI_PROTO_UDP 0 true []))) = [3].
Proof. vm_compute. done. Qed.

Definition demo_closed : @net demo_kernel := demo_net PPSI_PROTO_UDP 0 true [].

Lemma unix_net_no_leak_witness : let n' := foldl do_call demo_closed [call_init; call_init] in
  link_fds (n_link n') <> [] /\
  k_open (n_kst n') = k_open (n_kst demo_closed) ∪ list_to_set (link_fds (n_link n')) /\
  k_open (n_kst (unix_net_exit n').2) = k_open (n_kst demo_closed).
Proof.
  split; [by vm_compute|]. exact (@unix_net_no_leak demo_kernel demo_laws demo_closed [call_init; call_init] eq_refl eq_refl).
Defined.

(** A Sync message of 44 bytes on VLAN 5, as it is sent and as it is delivered. *)
Definition demo_pkt : list Z := replicate 18 0 ++ [0x10; 2; 0; 44] ++ replicate 106 7.
Definition demo_sender : @net demo_kernel := opened (demo_net PPSI_PROTO_VLAN 5 false []).
Definition demo_data : list Z := untag (sent_frame (n_link demo_sender) PPM_SYNC_FMT demo_pkt 62).
Definition demo_receiver : @net demo_kernel :=
  opened (demo_net PPSI_PROTO_VLAN 5 false [mk_recvmsg 58 0 demo_data false false None (Some 0x6005)]).

Lemma frame_crosses_link_witness : exists frame t nr',
  @unix_net_recv Demo.demo_config demo_kernel (replicate 128 0) demo_receiver = ((58, frame, Some t), nr') /\
  slice 14 44 frame = slice 18 44 demo_pkt /\ lk_peer_vid (n_link nr') = 5.
Proof.
  destruct (@frame_crosses_link Demo.demo_config demo_kernel demo_sender demo_receiver demo_pkt (replicate 128 0) 62
    PPM_SYNC_FMT 0x6005) as (_ & frame & t & nr' & E & Hs & _ & Hv).
  - right. reflexivity.
  - reflexivity.
  - reflexivity.
  - reflexivity.
  - reflexivity.
  - reflexivity.
  - change (18 <= 62 <= 128)%nat. lia.
  - intros _. split_and!; [by vm_compute|reflexivity|]. apply list_elem_of_In. vm_compute. auto.
  - exists None. vm_compute. reflexivity.
  - exists frame, t, nr'. split_and!; [exact E|exact Hs|exact Hv].
Defined.

(** The same frame on a port of another VLAN. *)
Example other_vlan : (unix_net_recv (replicate 128 0)
  (opened (demo_net PPSI_PROTO_VLAN 6 false [mk_recvmsg 58 0 demo_data false false None (Some 0x6005)]))).1.1.1 = PP_RECV_DROP.
Proof. vm_compute. reflexivity. Qed.

Lemma recv_only_ours_witness : let '((ret, frame, t), n') := @unix_net_recv Demo.demo_config demo_kernel (replicate 128 0) demo_receiver in
  ret = 58 /\ get16 frame 12 = ETH_P_1588.
Proof.
  pose proof (@recv_only_ours Demo.demo_config demo_kernel demo_receiver (replicate 128 0) ltac:(right; reflexivity)) as R.
  destruct (@unix_net_recv Demo.demo_config demo_kernel (replicate 128 0) demo_receiver) as [[[ret frame] t] n'] eqn:E.
  assert (ret = 58) as -> by (transitivity (@unix_net_recv Demo.demo_config demo_kernel (replicate 128 0) demo_receiver).1.1.1;
    [by rewrite E|vm_compute; reflexivity]).
  split; [done|]. by apply R.
Defined.

Lemma check_packet_waits_witness :
  usecs (next_tv (2, 500000) 1200) < 1201000 /\ usecs (next_tv (2, 500000) 1200) <= 2500000.
Proof.
  destruct (@check_packet_waits demo_kernel [n_link demo_receiver] 1200 (2, 500000) (n_kst demo_receiver)) as ([A B] & _);
    [cbn; lia..|]. split; [exact A|apply B; vm_compute; discriminate].
Defined.

(** In VLAN mode a message that was sent is reported as a failure: the code goes on with the
    [sendto] of UDP, on a socket that is none. *)
Example vlan_send_reports_failure :
  let '((ret, _, _), n) := unix_net_send demo_pkt 62 PPM_SYNC_FMT demo_sender in ret = -1 /\ length (kn_sent (n_kst n)) = 1%nat.
Proof. vm_compute. done. Qed.

(** The program of StartDemo with a frame the kernel delivers on its port. *)
Definition demo_net_events : list (@event Demo.demo_platform) :=
  [@mk_event Demo.demo_platform 1 (fun e => e)
     (fun j => if (j =? 0)%nat then Some (@net_received Demo.demo_config demo_kernel (replicate 128 0) demo_receiver) else None)].

#[local] Existing Instance ConfSpec.ConfDemo.demo_build.
Definition demo_null : Platform := null_platform Demo.demo_platform.
Definition demo_daemon : @conf Demo.demo_config ConfSpec.ConfDemo.demo_build * @world demo_null * ppsi_drop :=
  match @unix_main Demo.demo_config ConfSpec.ConfDemo.demo_build demo_null (null_machine Demo.demo_platform StartDemo.demo_machine) (map str ["-f"; "wr.conf"; "-t"]) with
  | goes_on r => r
  | _ => (initial_conf, @mk_world demo_null (zero_globals initial_conf None) [] (Demo.mk_env 0 [] false, true) 0 [] 0 false,
          mk_drop 0 0 0 0)
  end.
Lemma demo_daemon_main :
  @unix_main Demo.demo_config ConfSpec.ConfDemo.demo_build demo_null (null_machine Demo.demo_platform StartDemo.demo_machine) (map str ["-f"; "wr.conf"; "-t"]) =
  goes_on (demo_daemon.1.1, demo_daemon.1.2, demo_daemon.2).
Proof. vm_compute. reflexivity. Qed.


End NetDemo.
