(* ===== verification/Sim.v ===== *)
(** * The simulator (time-sim, arch-sim)

    Two instances of one program, a master and a slave, run as two machines
    with clocks and data sets of their own.  time-sim/sim-time.c has the
    clocks, time-sim/sim-socket.c the packets in flight, arch-sim the set-up
    and the main loop.  Time is simulated: when nothing is to be done, both
    clocks are advanced to the next timeout or packet.  The operations are an
    instance of the class [Platform]; the sockets are the class [Kernel]. *)

From S2P Require Import Prelude TimeArith Types World Timeout Hooks Bytes Msg FixedPoint Servo.
From S2P Require Import BmcCmp ClockQuality Bmc BmcTable Common States Fsm OpenClose MainLoop Scan Conf UnixMain UnixNet.

Definition SIM_SLAVE : Z := 1.
Definition SIM_MASTER : Z := 0.
Definition PP_MASTER_GEN_PORT : Z := 10000 + PP_GEN_PORT.
Definition PP_MASTER_EVT_PORT : Z := 10000 + PP_EVT_PORT.
Definition PP_SLAVE_GEN_PORT : Z := 20000 + PP_GEN_PORT.
Definition PP_SLAVE_EVT_PORT : Z := 20000 + PP_EVT_PORT.
Definition RAND_MAX : Z := 2147483647.
Definition MAX_PENDING : nat := 64.

(** [rand] of the C library: the sequence of its values. *)
Class CRand := { rand_nth : nat -> Z; rand_range : forall n, 0 <= rand_nth n <= RAND_MAX }.

(** ** Data *)

Record pp_sim_time_instance := mk_simt { current_ns : Z; freq_ppb_real : Z; freq_ppb_servo : Z }.
#[export] Instance eta_simt : Eta pp_sim_time_instance := fun t =>
  mk_simt (current_ns t) (freq_ppb_real t) (freq_ppb_servo t).

Record pp_sim_net_delay := mk_simd { t_prop_ns : Z; jit_ns : Z; last_outgoing_jit_ns : Z }.
#[export] Instance eta_simd : Eta pp_sim_net_delay := fun d =>
  mk_simd (t_prop_ns d) (jit_ns d) (last_outgoing_jit_ns d).

Record sim_pending_pkt := mk_pkt { delay_ns : Z; which_ppi : Z; pk_chtype : Z }.
#[export] Instance eta_pkt : Eta sim_pending_pkt := fun p => mk_pkt (delay_ns p) (which_ppi p) (pk_chtype p).
#[export] Instance pkt_eq_dec : EqDecision sim_pending_pkt.
Proof. solve_decision. Defined.
Definition zero_pkt : sim_pending_pkt := mk_pkt 0 0 0.

(** [pending] is an array of 64. *)
Record sim_ppg_arch_data := mk_simg {
  n_pending : nat; pending : list sim_pending_pkt; sim_iter_max : Z; sim_iter_n : Z;
  enable_runtime_delay_updates : Z }.
#[export] Instance eta_simg : Eta sim_ppg_arch_data := fun d =>
  mk_simg (n_pending d) (pending d) (sim_iter_max d) (sim_iter_n d) (enable_runtime_delay_updates d).

(** [struct sim_ppi_arch_data], with the channels and the receive buffer of the instance; the data
    sets it points to are in SimLoop.v. *)
Record sim_ppi_arch_data := mk_simi {
  sp_time : pp_sim_time_instance; n_delay : pp_sim_net_delay; sp_gen : channel; sp_evt : channel; sp_rx : list Z }.
#[export] Instance eta_simi : Eta sim_ppi_arch_data := fun d =>
  mk_simi (sp_time d) (n_delay d) (sp_gen d) (sp_evt d) (sp_rx d).

Definition zero_simi : sim_ppi_arch_data :=
  mk_simi (mk_simt 0 0 0) (mk_simd 0 0 0) (mk_chan 0 (replicate 6 0) 0) (mk_chan 0 (replicate 6 0) 0) [].

(** ** The packets in flight *)

(** Whether the first has priority over the second. *)
Definition compare_pending (p1 p2 : sim_pending_pkt) : bool :=
  if delay_ns p1 <? delay_ns p2 then true
  else if delay_ns p1 =? delay_ns p2 then
    if which_ppi p2 <? which_ppi p1 then true
    else if which_ppi p1 =? which_ppi p2 then pk_chtype p2 <? pk_chtype p1
    else false
  else false.

(** The loop of [insert_pending]: the new packet is at [i], [pkt] before it.  The comparison with what
    is before the array, when [i] is 0, has no effect. *)
Fixpoint sift (new : sim_pending_pkt) (i : nat) (a : list sim_pending_pkt) : list sim_pending_pkt :=
  match i with
  | O => a
  | S k =>
      let pkt := default zero_pkt (a !! k) in
      if compare_pending new pkt then sift new k (<[S k := pkt]> (<[k := new]> a)) else a
  end.

(** The array has no room for a packet more: the store outside of it is recorded by the caller. *)
Definition pending_full (d : sim_ppg_arch_data) : bool := (MAX_PENDING <=? n_pending d)%nat.

Definition insert_pending (d : sim_ppg_arch_data) (new : sim_pending_pkt) : sim_ppg_arch_data :=
  let i := n_pending d in
  d <| pending := sift new i (<[i := new]> (pending d)) |> <| n_pending := S i |>.

(** The last step reads the element after the ones in use. *)
Fixpoint move_down (n : nat) (i : nat) (a : list sim_pending_pkt) : list sim_pending_pkt :=
  match n with
  | O => a
  | S n' => move_down n' (S i) (<[i := default zero_pkt (a !! S i)]> a)
  end.

Definition pending_received (d : sim_ppg_arch_data) : sim_ppg_arch_data :=
  match n_pending d with
  | O => d
  | S k => d <| pending := move_down (n_pending d) 0 (pending d) |> <| n_pending := k |>
  end.

Definition queue (d : sim_ppg_arch_data) : list sim_pending_pkt := take (n_pending d) (pending d).

(** ** The environment *)

Section Env.
Context `{Config} `{Kernel} `{CRand}.

(** [se_wild]: a packet was stored outside of [pending], or a delay left the range of its type;
    [se_null]: a null pointer was called.  The program is undefined from then on. *)
Record sim_env := mk_sim {
  se_ppi : list sim_ppi_arch_data; se_ppg : sim_ppg_arch_data; se_kst : kst; se_rand : nat; se_wild : bool; se_null : bool }.
#[global] Instance eta_sim : Eta sim_env := fun e =>
  mk_sim (se_ppi e) (se_ppg e) (se_kst e) (se_rand e) (se_wild e) (se_null e).

Definition SIM_PPI_ARCH (e : sim_env) (i : nat) : sim_ppi_arch_data := default zero_simi (se_ppi e !! i).
Definition set_ppi (i : nat) (g : sim_ppi_arch_data -> sim_ppi_arch_data) (e : sim_env) : sim_env :=
  e <| se_ppi ::= alter g i |>.
Definition set_time (i : nat) (g : pp_sim_time_instance -> pp_sim_time_instance) : sim_env -> sim_env :=
  set_ppi i (fun d => d <| sp_time ::= g |>).
Definition sim_time (e : sim_env) (i : nat) : pp_sim_time_instance := sp_time (SIM_PPI_ARCH e i).

Definition pp_sim_is_master (i : nat) : bool := Z.of_nat i =? SIM_MASTER.
Definition pp_sim_is_slave (i : nat) : bool := Z.of_nat i =? SIM_SLAVE.

(** A value that leaves the range of [int64_t] is recorded. *)
Definition in_i64 (z : Z) : bool := i64 z =? z.
Definition wild_if (b : bool) (e : sim_env) : sim_env := if b then e <| se_wild := true |> else e.

(** ** The clocks *)

(** [x * y / 1000 / 1000 / 1000] *)
Definition ppb (x y : Z) : Z := Z.quot (Z.quot (Z.quot (i64 (x * y)) 1000) 1000) 1000.

Definition ff_clock (ff_ns : Z) (t : pp_sim_time_instance) : pp_sim_time_instance :=
  let tmp := i64 (ff_ns + ppb (freq_ppb_real t) ff_ns) in
  t <| current_ns ::= fun n => i64 (n + i64 (tmp + ppb (freq_ppb_servo t) tmp)) |>.

(** The delay of a packet in flight; it does not go below 0. *)
Definition shift_pkt (master slave : Z) (p : sim_pending_pkt) : sim_pending_pkt :=
  let d := if which_ppi p =? SIM_SLAVE then i64 (delay_ns p + master)
           else if which_ppi p =? SIM_MASTER then i64 (delay_ns p + slave) else delay_ns p in
  p <| delay_ns := if d <? 0 then 0 else d |>.

Definition set_queue (q : list sim_pending_pkt) (d : sim_ppg_arch_data) : sim_ppg_arch_data :=
  d <| pending ::= fun a => q ++ drop (length q) a |>.

Definition add_10us (i : nat) : sim_env -> sim_env :=
  set_ppi i (fun d => d <| n_delay ::= fun d => d <| t_prop_ns ::= fun n => u32 (n + 10000) |> |>).

Definition update_and_print_propagation_delays (e : sim_env) : sim_env :=
  if negb (truth (enable_runtime_delay_updates (se_ppg e))) then e
  else
    let m := Z.to_nat SIM_MASTER in
    let s := Z.to_nat SIM_SLAVE in
    let old_master_delay := t_prop_ns (n_delay (SIM_PPI_ARCH e m)) in
    let old_slave_delay := t_prop_ns (n_delay (SIM_PPI_ARCH e s)) in
    let e := add_10us s (add_10us m e) in
    let master_delay_change := i32 (i32 (t_prop_ns (n_delay (SIM_PPI_ARCH e m))) - i32 old_master_delay) in
    let slave_delay_change := i32 (i32 (t_prop_ns (n_delay (SIM_PPI_ARCH e s))) - i32 old_slave_delay) in
    let q := queue (se_ppg e) in
    let e := wild_if (existsb (fun p => negb (in_i64 (delay_ns p + master_delay_change)) ||
                                        negb (in_i64 (delay_ns p + slave_delay_change))) q) e in
    e <| se_ppg ::= set_queue (map (shift_pkt master_delay_change slave_delay_change) q) |>.

(** The packets come nearer; one that should have been received ends the program. *)
Fixpoint ff_packets (ff_ns : Z) (q : list sim_pending_pkt) : option (list sim_pending_pkt) :=
  match q with
  | [] => Some []
  | p :: q =>
      let d := i64 (delay_ns p - ff_ns) in
      if d <? 0 then None
      else q' ← ff_packets ff_ns q; Some ((p <| delay_ns := d |>) :: q')
  end.

(** The exit code, if the program ends. *)
Definition sim_fast_forward_ns (nlinks : nat) (ff_ns : Z) (e : sim_env) : option Z * sim_env :=
  let e := e <| se_ppi ::= fun l => map (fun d => d <| sp_time ::= ff_clock ff_ns |>) (take nlinks l) ++ drop nlinks l |> in
  let e := update_and_print_propagation_delays e in
  let q := queue (se_ppg e) in
  let e := wild_if (existsb (fun p => negb (in_i64 (delay_ns p - ff_ns))) q) e in
  match ff_packets ff_ns q with
  | None => (Some 1, e)
  | Some q' => (None, e <| se_ppg ::= set_queue q' |>)
  end.

Definition sim_time_get (i : nat) (e : sim_env) : pp_time * sim_env :=
  let n := current_ns (sim_time e i) in
  (mk_time (Z.quot n PP_NSEC_PER_SEC) (i64 (Z.shiftl (Z.rem n PP_NSEC_PER_SEC) 16)), e).

Definition sim_time_set (i : nat) (t : option pp_time) (e : sim_env) : sim_env :=
  match t with
  | None => e
  | Some t => set_time i (fun c => c <| current_ns :=
      i64 (Z.shiftr (scaled_nsecs t) 16 + i64 (secs t * PP_NSEC_PER_SEC)) |>) e
  end.

Definition sim_time_adjust (i : nat) (offset_ns freq_ppb : Z) (e : sim_env) : sim_env :=
  let e :=
    if truth freq_ppb then
      let freq_ppb := if PP_ADJ_FREQ_MAX <? freq_ppb then PP_ADJ_FREQ_MAX else freq_ppb in
      let freq_ppb := if freq_ppb <? - PP_ADJ_FREQ_MAX then - PP_ADJ_FREQ_MAX else freq_ppb in
      set_time i (fun c => c <| freq_ppb_servo := freq_ppb |>) e
    else e in
  if truth offset_ns then set_time i (fun c => c <| current_ns ::= fun n => i64 (n + offset_ns) |>) e else e.

Definition sim_adjust_freq (i : nat) (freq_ppb : Z) : sim_env -> sim_env := sim_time_adjust i 0 freq_ppb.
Definition sim_adjust_offset (i : nat) (offset_ns : Z) : sim_env -> sim_env := sim_time_adjust i offset_ns 0.

Definition sim_init_servo (i : nat) (e : sim_env) : Z * sim_env := (i32 (freq_ppb_real (sim_time e i)), e).

Definition sim_calc_timeout (i : nat) (millisec : Z) (e : sim_env) : Z * sim_env :=
  (millisec + Z.quot (Z.quot (current_ns (sim_time e i)) 1000) 1000, e).

(** ** The network *)

Definition sp_chan (t : Z) (d : sim_ppi_arch_data) : channel := if t =? PP_NP_GEN then sp_gen d else sp_evt d.
Definition on_sp_chan (t : Z) (g : channel -> channel) (d : sim_ppi_arch_data) : sim_ppi_arch_data :=
  if t =? PP_NP_GEN then d <| sp_gen ::= g |> else d <| sp_evt ::= g |>.
Definition set_sp_fd (i : nat) (t fd : Z) : sim_env -> sim_env := set_ppi i (on_sp_chan t (fun c => c <| c_fd := fd |>)).
Definition on_kst {T} (f : kst -> T * kst) (e : sim_env) : T * sim_env :=
  let '(r, k) := f (se_kst e) in (r, e <| se_kst := k |>).

Definition close_ch (i : nat) (t : Z) (e : sim_env) : sim_env :=
  let fd := c_fd (sp_chan t (SIM_PPI_ARCH e i)) in
  if fd <? 0 then e else set_sp_fd i t (-1) (e <| se_kst := k_close fd (se_kst e) |>).
Definition sim_net_exit (i : nat) (e : sim_env) : sim_env := close_ch i PP_NP_EVT (close_ch i PP_NP_GEN e).

(** The port an instance is bound to, and the one it sends to. *)
Definition bound_port (i : nat) (chtype : Z) : Z :=
  if pp_sim_is_master i then (if chtype =? PP_NP_GEN then PP_MASTER_GEN_PORT else PP_MASTER_EVT_PORT)
  else (if chtype =? PP_NP_GEN then PP_SLAVE_GEN_PORT else PP_SLAVE_EVT_PORT).
Definition dest_port (i : nat) (chtype : Z) : Z :=
  if pp_sim_is_slave i then (if chtype =? PP_NP_GEN then PP_MASTER_GEN_PORT else PP_MASTER_EVT_PORT)
  else (if chtype =? PP_NP_GEN then PP_SLAVE_GEN_PORT else PP_SLAVE_EVT_PORT).

Definition sim_open_ch (i : nat) (chtype : Z) (e : sim_env) : Z * sim_env :=
  let '(sock, e) := on_kst (k_socket S_UDP) e in
  if sock <? 0 then (-1, set_sp_fd i chtype (-1) e)
  else
    let e := set_sp_fd i chtype sock e in
    let '(_, e) := on_kst (k_setsockopt sock SO_REUSEADDR) e in
    let '(r, e) := on_kst (k_bind_udp sock (bound_port i chtype)) e in
    if r <? 0 then (-1, set_sp_fd i chtype (-1) (e <| se_kst := k_close sock (se_kst e) |>))
    else
      let e := set_sp_fd i chtype sock e in
      (0, if pp_sim_is_master i then set_ppi i (on_sp_chan chtype (fun c => c <| c_addr ::= <[0%nat := 111]> |>)) e else e).

(** [pp_prepare_pointers] is in Common.v.  The value and the address of the general channel. *)
Definition sim_net_init (i : nat) (e : sim_env) : (Z * list Z) * sim_env :=
  let e := if 0 <? c_fd (sp_gen (SIM_PPI_ARCH e i)) then sim_net_exit i e else e in
  let '(r, e) := sim_open_ch i PP_NP_GEN e in
  let '(r, e) := if truth r then (-1, e) else
    let '(r, e) := sim_open_ch i PP_NP_EVT e in (if truth r then -1 else 0, e) in
  ((r, c_addr (sp_gen (SIM_PPI_ARCH e i))), e).

(** The jitter of a packet; a Follow_Up adds to the one of the Sync before it. *)
Definition out_jitter (d : pp_sim_net_delay) (rand : Z) (pkt : list Z) : Z :=
  let jit := if Z.land (get8 pkt 0) 0x0F =? PPM_FOLLOW_UP then i64 (last_outgoing_jit_ns d) else 0 in
  i64 (u64 (u64 jit + u64 (rand * jit_ns d) / RAND_MAX)).

(** [sendto] is followed by the entry in the queue, whatever it returned. *)
Definition sim_net_send (i : nat) (pkt : list Z) (len : Z) (fmt : nat) (e : sim_env)
    : (Z * option pp_time) * sim_env :=
  let chtype := mf_chtype (msg_fmt fmt) in
  let '(t, e) := sim_time_get i e in
  let '(ret, e) := on_kst (k_sendto (c_fd (sp_chan chtype (SIM_PPI_ARCH e i))) (dest_port i chtype) [0; 0; 0; 0] (take (Z.to_nat len) pkt)) e in
  let d := n_delay (SIM_PPI_ARCH e i) in
  let jit := out_jitter d (rand_nth (se_rand e)) pkt in
  let e := set_ppi i (fun d => d <| n_delay ::= fun d => d <| last_outgoing_jit_ns := u64 jit |> |>) (e <| se_rand ::= S |>) in
  let e := wild_if (negb (in_i64 (t_prop_ns d + jit)) || (jit <? 0) || pending_full (se_ppg e)) e in
  let new := mk_pkt (i64 (t_prop_ns d + jit)) (if pp_sim_is_master i then SIM_SLAVE else SIM_MASTER) chtype in
  let e := if pending_full (se_ppg e) then e else e <| se_ppg ::= fun d => insert_pending d new |> in
  let e := set_ppi (1 - i)%nat (on_sp_chan chtype (fun c => c <| c_present ::= fun n => i32 (n + 1) |>)) e in
  ((ret, Some t), e).

(** The value and the timestamp stored, if any; the buffer of the instance is overwritten from the
    front by what [recvmsg] stores. *)
Definition sim_recv_msg (i : nat) (fd : Z) (e : sim_env) : (Z * option pp_time) * sim_env :=
  let '(r, e) := on_kst (k_recvmsg fd) e in
  let e := set_ppi i (fun d => d <| sp_rx ::= fun b => rm_data r ++ drop (length (rm_data r)) b |>) e in
  if rm_ret r <=? 0 then ((if (rm_errno r =? EAGAIN) || (rm_errno r =? EINTR) then 0 else rm_ret r, None), e)
  else if rm_trunc r then ((0, None), e)
  else if rm_ctrunc r then ((0, None), e)
  else
    let '(t, e) := sim_time_get i e in
    let e := if Z.land (get8 (sp_rx (SIM_PPI_ARCH e i)) 0) 0x0F =? PPM_DELAY_RESP
             then e <| se_ppg ::= fun d => d <| sim_iter_n ::= fun n => i64 (n + 1) |> |> else e in
    ((rm_ret r, Some t), e).

Definition head_pkt (e : sim_env) : sim_pending_pkt := default zero_pkt (pending (se_ppg e) !! 0%nat).

Definition sim_net_recv (i : nat) (e : sim_env) : (Z * option pp_time) * sim_env :=
  if (n_pending (se_ppg e) =? 0)%nat then ((0, None), e)
  else
    let chtype := pk_chtype (head_pkt e) in
    let ch := sp_chan chtype (SIM_PPI_ARCH e i) in
    let '((ret, t), e) :=
      if 0 <? c_present ch then
        let '((ret, t), e) := sim_recv_msg i (c_fd ch) e in
        ((ret, t), if 0 <? ret then set_ppi i (on_sp_chan chtype (fun c => c <| c_present ::= fun n => i32 (n - 1) |>)) e else e)
      else ((-1, None), e) in
    ((ret, t), e <| se_ppg ::= pending_received |>).

(** ** Configuration *)

(** The handlers of arch-sim/sim-conf.c: the integer, or seconds and nanoseconds, of the option. *)
Definition on_slave (g : pp_sim_time_instance -> pp_sim_time_instance) : sim_env -> sim_env :=
  set_time (Z.to_nat SIM_SLAVE) g.
Definition f_ppm_real (i : Z) : sim_env -> sim_env := on_slave (fun t => t <| freq_ppb_real := i32 (i * 1000) |>).
Definition f_ppm_servo (i : Z) : sim_env -> sim_env := on_slave (fun t => t <| freq_ppb_servo := i32 (i * 1000) |>).
Definition f_ofm (ts : Z * Z) (e : sim_env) : sim_env :=
  let m := current_ns (sim_time e (Z.to_nat SIM_MASTER)) in
  on_slave (fun t => t <| current_ns := i64 (i64 (m + ts.2) + i64 (ts.1 * PP_NSEC_PER_SEC)) |>) e.
Definition f_init_time (ts : Z * Z) : sim_env -> sim_env :=
  set_time (Z.to_nat SIM_MASTER) (fun t => t <| current_ns := i64 (ts.2 + i64 (ts.1 * PP_NSEC_PER_SEC)) |>).
Definition set_delay (i : Z) (g : pp_sim_net_delay -> pp_sim_net_delay) : sim_env -> sim_env :=
  set_ppi (Z.to_nat i) (fun d => d <| n_delay ::= g |>).
Definition f_fwd_t_prop (i : Z) : sim_env -> sim_env := set_delay SIM_MASTER (fun d => d <| t_prop_ns := u32 i |>).
Definition f_bckwd_t_prop (i : Z) : sim_env -> sim_env := set_delay SIM_SLAVE (fun d => d <| t_prop_ns := u32 i |>).
Definition f_t_prop (i : Z) (e : sim_env) : sim_env := f_bckwd_t_prop i (f_fwd_t_prop i e).
Definition f_fwd_jit (i : Z) : sim_env -> sim_env := set_delay SIM_MASTER (fun d => d <| jit_ns := u64 i |>).
Definition f_bckwd_jit (i : Z) : sim_env -> sim_env := set_delay SIM_SLAVE (fun d => d <| jit_ns := u64 i |>).
Definition f_jit (i : Z) (e : sim_env) : sim_env := f_bckwd_jit i (f_fwd_jit i e).
(** The option is parsed as a time and read as an [int]: the one at the address of the seconds. *)
Definition f_iter (ts : Z * Z) (e : sim_env) : sim_env :=
  let i := i32 (if BIG_ENDIAN_HOST then Z.shiftr ts.1 (if LONG_MODULUS =? 4294967296 then 0 else 32) else ts.1) in
  e <| se_ppg ::= fun d => d <| sim_iter_max := i |> |>.
Definition f_enable_runtime_delay_updates (i : Z) (e : sim_env) : sim_env :=
  e <| se_ppg ::= fun d => d <| enable_runtime_delay_updates := i |> |>.

(** [pp_arch_arglines]: the options with their arguments. *)
Inductive sim_option :=
  | O_sim_ppm_real (i : Z) | O_sim_init_ppm_servo (i : Z) | O_sim_init_ofm (ts : Z * Z)
  | O_sim_init_master_time (ts : Z * Z) | O_sim_t_prop_ns (i : Z) | O_sim_fwd_t_prop_ns (i : Z)
  | O_sim_bckwd_t_prop (i : Z) | O_sim_jit_ns (i : Z) | O_sim_fwd_jit_ns (i : Z) | O_sim_bckwd_jit_ns (i : Z)
  | O_sim_iter_max (ts : Z * Z) | O_sim_enable_runtime_delay_updates (i : Z).

Definition apply_option (o : sim_option) : sim_env -> sim_env :=
  match o with
  | O_sim_ppm_real i => f_ppm_real i
  | O_sim_init_ppm_servo i => f_ppm_servo i
  | O_sim_init_ofm ts => f_ofm ts
  | O_sim_init_master_time ts => f_init_time ts
  | O_sim_t_prop_ns i => f_t_prop i
  | O_sim_fwd_t_prop_ns i => f_fwd_t_prop i
  | O_sim_bckwd_t_prop i => f_bckwd_t_prop i
  | O_sim_jit_ns i => f_jit i
  | O_sim_fwd_jit_ns i => f_fwd_jit i
  | O_sim_bckwd_jit_ns i => f_bckwd_jit i
  | O_sim_iter_max ts => f_iter ts
  | O_sim_enable_runtime_delay_updates i => f_enable_runtime_delay_updates i
  end.

(** What [main] allocates; [rx] are the receive buffers [malloc] gives. *)
Definition sim_initial (k : kst) (rx : nat -> list Z) : sim_env :=
  mk_sim [zero_simi <| sp_rx := rx 0%nat |>; zero_simi <| sp_rx := rx 1%nat |>]
    (mk_simg 0 (replicate MAX_PENDING zero_pkt) 0 0 0) k 0 false false.

End Env.
