(* ===== verification/SimQueue.v ===== *)
(** * The simulator: packets in flight

    The array of time-sim/sim-socket.c is a priority queue: the insertion
    that shifts packets in place is ordered insertion into a list, and time
    passing keeps the order.  The invariant of the simulated environment and
    that every operation of it keeps it. *)

From stdpp Require Import sorting.
From S2P Require Import Prelude TimeArith Types World Timeout Hooks Bytes Msg FixedPoint Servo.
From S2P Require Import BmcCmp ClockQuality Bmc BmcTable Common MainLoop Scan Conf UnixMain UnixNet Sim.

(** ** The order *)

Lemma compare_true p q : compare_pending p q = true <->
  delay_ns p < delay_ns q \/ (delay_ns p = delay_ns q /\
    (which_ppi q < which_ppi p \/ (which_ppi p = which_ppi q /\ pk_chtype q < pk_chtype p))).
Proof.
  unfold compare_pending. destruct (Z.ltb_spec (delay_ns p) (delay_ns q)); [naive_solver|].
  destruct (Z.eqb_spec (delay_ns p) (delay_ns q)); [|split; [done|lia]].
  destruct (Z.ltb_spec (which_ppi q) (which_ppi p)); [naive_solver|].
  destruct (Z.eqb_spec (which_ppi p) (which_ppi q)); [rewrite Z.ltb_lt; lia|split; [done|lia]].
Qed.
Lemma compare_false p q : compare_pending p q = false <-> ~ compare_pending p q = true.
Proof. by rewrite not_true_iff_false. Qed.

Ltac by_order := rewrite ?compare_false, ?compare_true in *; lia.

(** [b] may come after [a]. *)
Definition may_follow (a b : sim_pending_pkt) : Prop := compare_pending b a = false.
Definition sorted : list sim_pending_pkt -> Prop := StronglySorted may_follow.

(** The specification of insertion: before the first packet the new one has priority over. *)
Fixpoint pq_insert (new : sim_pending_pkt) (l : list sim_pending_pkt) : list sim_pending_pkt :=
  match l with
  | [] => [new]
  | x :: l => if compare_pending new x then new :: x :: l else x :: pq_insert new l
  end.

Lemma pq_insert_perm new l : Permutation (pq_insert new l) (new :: l).
Proof.
  induction l as [|x l IH]; cbn; [done|]. destruct (compare_pending new x); [done|].
  rewrite IH. apply perm_swap.
Qed.
Lemma pq_insert_forall (P : sim_pending_pkt -> Prop) new l : P new -> Forall P l -> Forall P (pq_insert new l).
Proof. intros Hn Hl. eapply Permutation_Forall; [symmetry; apply pq_insert_perm|by constructor]. Qed.
Lemma length_pq_insert new l : length (pq_insert new l) = S (length l).
Proof. exact (Permutation_length (pq_insert_perm new l)). Qed.

Lemma pq_insert_sorted new l : sorted l -> sorted (pq_insert new l).
Proof.
  unfold sorted. induction 1 as [|x l Hs IH Hx]; cbn; [repeat constructor|].
  destruct (compare_pending new x) eqn:E.
  - constructor; [by constructor|]. apply list.Forall_cons. split; [unfold may_follow; by_order|].
    eapply list.Forall_impl; [exact Hx|]. unfold may_follow. intros y Hy. by_order.
  - constructor; [done|]. apply pq_insert_forall; [done|exact Hx].
Qed.

Lemma pq_insert_before new l x : compare_pending new x = true -> pq_insert new (l ++ [x]) = pq_insert new l ++ [x].
Proof.
  intros Hx. induction l as [|y l IH]; cbn; [by rewrite Hx|]. destruct (compare_pending new y); [done|]. by rewrite IH.
Qed.
Lemma pq_insert_after new l x : sorted (l ++ [x]) -> compare_pending new x = false -> pq_insert new (l ++ [x]) = l ++ [x; new].
Proof.
  intros Hs Hx. induction l as [|y l IH]; cbn in *; [by rewrite Hx|].
  apply StronglySorted_inv in Hs as [Hs Hy]. rewrite list.Forall_app, list.Forall_singleton in Hy. destruct Hy as [_ Hy].
  unfold may_follow in Hy. assert (compare_pending new y = false) as -> by by_order. by rewrite IH.
Qed.

Lemma sorted_app_l l k : sorted (l ++ k) -> sorted l.
Proof.
  unfold sorted. induction l as [|x l IH]; cbn; intros Hs; [constructor|].
  apply StronglySorted_inv in Hs as [Hs Hx]. rewrite list.Forall_app in Hx. constructor; [auto|apply Hx].
Qed.

(** The loop that shifts in place is ordered insertion. *)
Lemma sift_insert new l r : sorted l -> sift new (length l) (l ++ new :: r) = pq_insert new l ++ r.
Proof.
  revert r. induction l as [|x l IH] using rev_ind; intros r Hs; [done|].
  rewrite length_app, Nat.add_1_r. cbn [sift]. rewrite <- app_assoc. cbn [app].
  rewrite lookup_app_r, Nat.sub_diag by lia. cbn [lookup list_lookup default from_option id].
  destruct (compare_pending new x) eqn:E; [|rewrite (pq_insert_after new l x Hs E), <- app_assoc; reflexivity].
  rewrite insert_app_r_alt by lia. rewrite Nat.sub_diag. cbn [insert list_insert].
  rewrite insert_app_r_alt by lia. replace (S (length l) - length l)%nat with 1%nat by lia. cbn.
  change (x :: r) with ([x] ++ r). rewrite pq_insert_before, <- app_assoc by done. apply (IH (x :: r)).
  by eapply sorted_app_l.
Qed.

(** Of two packets, which is received first is not changed by later insertions. *)
Lemma pq_insert_keeps new l : sublist l (pq_insert new l).
Proof.
  induction l as [|x l IH]; cbn; [repeat constructor|]. destruct (compare_pending new x); [by apply sublist_cons|by apply sublist_skip].
Qed.

(** ** The array *)

Lemma length_sift new i a : length (sift new i a) = length a.
Proof. revert a. induction i as [|i IH]; intros a; cbn; [done|]. destruct (compare_pending _ _); [by rewrite IH, !length_insert|done]. Qed.

Lemma lookup_move_down n i a j : move_down n i a !! j =
  if decide (i <= j < i + n /\ j < length a)%nat then Some (default zero_pkt (a !! S j)) else a !! j.
Proof.
  revert i a. induction n as [|n IH]; intros i a; cbn [move_down]; [rewrite decide_False by lia; done|].
  rewrite IH, length_insert. destruct (decide (j = i)) as [->|Hj].
  - case_decide; [lia|]. destruct (decide (i < length a)%nat).
    + rewrite list_lookup_insert_eq by done. case_decide; (done || lia).
    + case_decide; [lia|]. by rewrite list_insert_ge by lia.
  - case_decide; case_decide; try lia; rewrite list_lookup_insert_ne by lia; done.
Qed.
Lemma length_move_down n i a : length (move_down n i a) = length a.
Proof. revert i a. induction n as [|n IH]; intros i a; cbn; [done|]. by rewrite IH, length_insert. Qed.

(** A packet to one of the two machines. *)
Definition to_machine (p : sim_pending_pkt) : Prop := which_ppi p = SIM_MASTER \/ which_ppi p = SIM_SLAVE.

Lemma forall_insert (P : sim_pending_pkt -> Prop) i x a : P x -> Forall P a -> Forall P (<[i := x]> a).
Proof.
  intros Hx Ha. rewrite list.Forall_forall in *. intros y Hy. apply list_elem_of_lookup in Hy as [j Hj].
  destruct (decide (j = i)) as [->|Hne].
  - destruct (decide (i < length a)%nat); [|by rewrite lookup_ge_None_2 in Hj by (rewrite length_insert; lia)].
    rewrite list_lookup_insert_eq in Hj by done. by injection Hj as <-.
  - rewrite list_lookup_insert_ne in Hj by done. by apply Ha, (list_elem_of_lookup_2 _ j).
Qed.
Lemma forall_default (P : sim_pending_pkt -> Prop) a k : P zero_pkt -> Forall P a -> P (default zero_pkt (a !! k)).
Proof.
  intros Hz Ha. destruct (a !! k) eqn:E; [|done]. rewrite list.Forall_forall in Ha. by apply Ha, (list_elem_of_lookup_2 _ k).
Qed.
Lemma forall_sift (P : sim_pending_pkt -> Prop) new i a : P zero_pkt -> P new -> Forall P a -> Forall P (sift new i a).
Proof.
  intros Hz Hn. revert a. induction i as [|i IH]; intros a Ha; cbn; [done|].
  destruct (compare_pending _ _); [|done]. apply IH. apply forall_insert; [by apply forall_default|by apply forall_insert].
Qed.
Lemma forall_move_down (P : sim_pending_pkt -> Prop) n i a : P zero_pkt -> Forall P a -> Forall P (move_down n i a).
Proof.
  intros Hz. revert i a. induction n as [|n IH]; intros i a Ha; cbn [move_down]; [done|]. apply IH.
  apply forall_insert; [by apply forall_default|done].
Qed.

(** The array has its size, the queue is a part of it, and every packet has a destination. *)
Definition array_ok (d : sim_ppg_arch_data) : Prop :=
  length (pending d) = MAX_PENDING /\ (n_pending d <= MAX_PENDING)%nat /\ Forall to_machine (pending d).

Lemma length_queue d : array_ok d -> length (queue d) = n_pending d.
Proof. intros (Hl & Hn & _). unfold queue. rewrite length_take. lia. Qed.
Lemma queue_to_machine d : array_ok d -> Forall to_machine (queue d).
Proof. intros (_ & _ & Hm). by apply Forall_take. Qed.

Lemma insert_array d new : array_ok d -> pending_full d = false -> to_machine new -> array_ok (insert_pending d new).
Proof.
  intros (Hl & Hn & Hm) Hf Hw. unfold pending_full in Hf. apply Nat.leb_gt in Hf. split_and!; cbn; [|lia|].
  - by rewrite length_sift, length_insert.
  - apply forall_sift; [by left|done|]. by apply forall_insert.
Qed.

Lemma insert_queue d new : array_ok d -> pending_full d = false -> sorted (queue d) ->
  queue (insert_pending d new) = pq_insert new (queue d).
Proof.
  intros Hd Hf Hs. pose proof (length_queue d Hd) as Hq. destruct Hd as (Hl & Hn & _). unfold pending_full in Hf.
  apply Nat.leb_gt in Hf. unfold queue at 1, insert_pending. cbn -[take].
  rewrite insert_take_drop by lia. fold (queue d). rewrite <- Hq at 2. rewrite sift_insert by done.
  rewrite take_app_le by (rewrite length_pq_insert; lia). apply take_ge. rewrite length_pq_insert. lia.
Qed.

Lemma received_array d : array_ok d -> array_ok (pending_received d).
Proof.
  intros (Hl & Hn & Hm). unfold pending_received. destruct (n_pending d) as [|k] eqn:E; [by split_and!; rewrite ?E|].
  split_and!; cbn -[move_down]; [by rewrite length_move_down|lia|]. apply forall_move_down; [by left|done].
Qed.

Lemma received_queue d : array_ok d -> queue (pending_received d) = tail (queue d).
Proof.
  intros (Hl & Hn & _). unfold pending_received, queue. destruct (n_pending d) as [|k] eqn:E; [by rewrite E|]. cbn -[take move_down].
  apply list_eq. intros j. rewrite lookup_tail. destruct (decide (j < k)%nat) as [Hj|Hj].
  - rewrite !lookup_take_lt by lia. rewrite lookup_move_down, decide_True by lia.
    destruct (lookup_lt_is_Some_2 (pending d) (S j)) as [x ->]; [lia|done].
  - rewrite !lookup_ge_None_2; [done|rewrite length_take; lia|rewrite length_take, length_move_down; lia].
Qed.

Lemma set_queue_queue q d : array_ok d -> map which_ppi q = map which_ppi (queue d) ->
  array_ok (set_queue q d) /\ queue (set_queue q d) = q.
Proof.
  intros Hd Hq. assert (length q = n_pending d) as El by (rewrite <- (length_queue d Hd), <- !(length_map which_ppi); by rewrite Hq).
  assert (Forall to_machine q) as Hm.
  { pose proof (queue_to_machine d Hd) as Hf. unfold to_machine in *. rewrite <- (List.Forall_map which_ppi (fun z => z = SIM_MASTER \/ z = SIM_SLAVE)) in *. by rewrite Hq. }
  destruct Hd as (Hl & Hn & Ha). unfold set_queue, queue, array_ok. cbn -[take drop]. rewrite length_app, length_drop.
  split; [split_and!; [lia|lia|]|]; [apply list.Forall_app; split; [done|by apply Forall_drop]|]. rewrite take_app_le by lia. apply take_ge. lia.
Qed.

Lemma head_queue d : array_ok d -> pending d !! 0%nat = (if (n_pending d =? 0)%nat then pending d !! 0%nat else queue d !! 0%nat).
Proof. intros (Hl & Hn & _). destruct (Nat.eqb_spec (n_pending d) 0); [done|]. unfold queue. by rewrite lookup_take_lt by lia. Qed.

Create HintDb sim.

(** ** The environment *)

Section Env.
Context `{Config} `{Kernel} `{CRand}.

(** A packet on its way to one of the two machines. *)
Definition in_flight (p : sim_pending_pkt) : Prop := 0 <= delay_ns p < 9223372036854775808 /\ to_machine p.
Definition queue_ok (q : list sim_pending_pkt) : Prop := sorted q /\ Forall in_flight q.

(** The invariant: two machines, an array of its size, and, as long as nothing was stored outside of
    it and no delay overflowed, a queue in the order of arrival. *)
Record env_ok (e : sim_env) : Prop := {
  eo_ppi : length (se_ppi e) = 2%nat;
  eo_prop : Forall (fun d => 0 <= t_prop_ns (n_delay d)) (se_ppi e);
  eo_array : array_ok (se_ppg e);
  eo_queue : se_wild e = false -> queue_ok (queue (se_ppg e)) }.

(** A change that leaves the propagation delays not negative. *)
Definition keeps_prop (g : sim_ppi_arch_data -> sim_ppi_arch_data) : Prop :=
  forall d, 0 <= t_prop_ns (n_delay d) -> 0 <= t_prop_ns (n_delay (g d)).
#[local] Hint Extern 1 (keeps_prop _) => (let h := fresh in intros ? h; exact h) : sim.
Lemma keeps_prop_chan t g : keeps_prop (on_sp_chan t g).
Proof. intros d Hd. unfold on_sp_chan. by destruct (t =? PP_NP_GEN). Qed.
Lemma env_ok_set_ppi i g e : env_ok e -> keeps_prop g -> env_ok (set_ppi i g e).
Proof.
  intros [L P A Q] Hg. split; [cbn; by rewrite length_alter| |done..]. cbn. by apply Forall_alter; [|intros d _; apply Hg].
Qed.
Lemma t_prop_range e i : env_ok e -> 0 <= t_prop_ns (n_delay (SIM_PPI_ARCH e i)).
Proof.
  intros [_ P _ _]. unfold SIM_PPI_ARCH. destruct (se_ppi e !! i) as [d|] eqn:E; [|done]. cbn.
  rewrite list.Forall_forall in P. by apply P, (list_elem_of_lookup_2 _ i).
Qed.
Lemma env_ok_kst {T} (f : kst -> T * kst) e : env_ok e -> env_ok (on_kst f e).2.
Proof. intros [L P A Q]. unfold on_kst. by destruct (f (se_kst e)). Qed.
Lemma env_ok_wild b e : env_ok e -> env_ok (wild_if b e).
Proof. intros [L P A Q]. unfold wild_if. by destruct b. Qed.
Lemma env_ok_null e : env_ok e -> env_ok (e <| se_null := true |>).
Proof. by intros [L P A Q]. Qed.
Lemma env_ok_rand e : env_ok e -> env_ok (e <| se_rand ::= S |>).
Proof. by intros [L P A Q]. Qed.
Lemma env_ok_iter g e : env_ok e -> env_ok (e <| se_ppg ::= fun d => d <| sim_iter_n ::= g |> |>).
Proof. by intros [L P A Q]. Qed.
#[local] Hint Resolve keeps_prop_chan env_ok_set_ppi env_ok_kst env_ok_wild env_ok_rand env_ok_iter : sim.

Lemma env_ok_ppg e d : env_ok e -> array_ok d -> (se_wild e = false -> queue_ok (queue d)) -> env_ok (e <| se_ppg := d |>).
Proof. intros [L P A Q] Hd Hq. by split. Qed.

Lemma queue_ok_tail q : queue_ok q -> queue_ok (tail q).
Proof.
  intros [Hs Hf]. destruct q as [|p q]; [done|]. apply StronglySorted_inv in Hs as [Hs _].
  apply list.Forall_cons in Hf as [_ Hf]. by split.
Qed.
Lemma env_ok_received e : env_ok e -> env_ok (e <| se_ppg ::= pending_received |>).
Proof.
  intros He. apply (env_ok_ppg e (pending_received (se_ppg e))); [done|by apply received_array, He|].
  intros Hw. rewrite received_queue by apply He. by apply queue_ok_tail, He.
Qed.
Lemma env_ok_insert e new : env_ok e -> pending_full (se_ppg e) = false -> to_machine new ->
  (se_wild e = false -> 0 <= delay_ns new < 9223372036854775808) -> env_ok (e <| se_ppg ::= fun d => insert_pending d new |>).
Proof.
  intros He Hf Hm Hn. apply (env_ok_ppg e (insert_pending (se_ppg e) new)); [done|by apply insert_array; [apply He|..]|].
  intros Hw. destruct (eo_queue e He Hw) as [Hs Hq]. rewrite insert_queue by (done || apply He).
  split; [by apply pq_insert_sorted|apply pq_insert_forall; [split; [by apply Hn|done]|done]].
Qed.
#[local] Hint Resolve env_ok_received : sim.

(** *** Time *)

Lemma env_ok_adjust i o f e : env_ok e -> env_ok (sim_time_adjust i o f e).
Proof.
  intros He. unfold sim_time_adjust. assert (forall g e, env_ok e -> env_ok (set_time i g e)) as Ht
    by (unfold set_time; auto with sim). destruct (truth f), (truth o); auto.
Qed.
Lemma env_ok_time_set i t e : env_ok e -> env_ok (sim_time_set i t e).
Proof. intros He. destruct t; [apply env_ok_set_ppi|]; auto with sim. Qed.

(** All packets move by the same amount. *)
Lemma sorted_shift f l k : (forall p, In p l -> delay_ns (f p) = delay_ns p + k /\ which_ppi (f p) = which_ppi p /\
    pk_chtype (f p) = pk_chtype p) -> sorted l -> sorted (map f l).
Proof.
  unfold sorted. intros Hf. induction 1 as [|x l Hs IH Hx]; cbn; [constructor|]. constructor; [apply IH; cbn in Hf; auto|].
  apply List.Forall_map. rewrite list.Forall_forall in *. intros y Hy. specialize (Hx y Hy). apply list_elem_of_In in Hy.
  destruct (Hf x) as (A & B & C); [by left|]. destruct (Hf y) as (A' & B' & C'); [by right|].
  unfold may_follow in *. by_order.
Qed.

Lemma in_i64_iff z : in_i64 z = true <-> -9223372036854775808 <= z < 9223372036854775808.
Proof.
  unfold in_i64. rewrite Z.eqb_eq. split; [|apply i64_id]. intros <-. apply i64_range.
Qed.

Lemma ff_packets_some ff q : Forall (fun p => in_i64 (delay_ns p - ff) = true /\ ff <= delay_ns p) q ->
  ff_packets ff q = Some (map (fun p => p <| delay_ns ::= fun d => d - ff |>) q).
Proof.
  induction 1 as [|p q [Hi Hp] Hq IH]; cbn; [done|]. apply in_i64_iff in Hi. rewrite i64_id by lia.
  rewrite (proj2 (Z.ltb_ge _ 0)) by lia. by rewrite IH.
Qed.
Lemma ff_packets_nonneg ff q q' : ff_packets ff q = Some q' -> map which_ppi q' = map which_ppi q /\
  (Forall (fun p => in_i64 (delay_ns p - ff) = true) q ->
   q' = map (fun p => p <| delay_ns ::= fun d => d - ff |>) q /\ Forall (fun p => 0 <= delay_ns p) q').
Proof.
  revert q'. induction q as [|p q IH]; intros q'; cbn; [by intros [= <-]|].
  destruct (Z.ltb_spec (i64 (delay_ns p - ff)) 0) as [|Hz]; [done|].
  destruct (ff_packets ff q) as [q1|] eqn:E; cbn; [|done]. intros [= <-]. destruct (IH q1 eq_refl) as [Hl Hm].
  split; [cbn; by rewrite Hl|]. rewrite list.Forall_cons, in_i64_iff. intros [Hi Hq]. destruct (Hm Hq) as [-> Hn].
  rewrite i64_id in * by lia. split; [done|]. by constructor.
Qed.

(** Overflow is not forgotten. *)
Lemma wild_if_false b e : se_wild (wild_if b e) = false -> b = false /\ se_wild e = false.
Proof. unfold wild_if. by destruct b. Qed.

Definition delayed (k : Z) (p : sim_pending_pkt) : sim_pending_pkt := p <| delay_ns ::= fun d => d + k |>.

Lemma queue_ok_delayed k q : queue_ok q -> Forall (fun p => 0 <= delay_ns p + k < 9223372036854775808) q ->
  queue_ok (map (delayed k) q).
Proof.
  intros [Hs Hf] Hk. split; [by apply (sorted_shift (delayed k) q k)|]. apply List.Forall_map.
  rewrite list.Forall_forall in *. intros p Hp. split; [by apply Hk|apply (Hf p Hp)].
Qed.

(** With the delays updated at run time, everything in flight is 10 us later. *)
Lemma delay_change a : i32 (i32 (u32 (a + 10000)) - i32 a) = 10000.
Proof. unfold i32, u32. dlia. Qed.

Lemma update_delays e : env_ok e -> let e' := update_and_print_propagation_delays e in
  env_ok e' /\ (se_wild e' = false -> se_wild e = false /\ exists k, 0 <= k /\ queue (se_ppg e') = map (delayed k) (queue (se_ppg e))).
Proof.
  intros He. cbn zeta. unfold update_and_print_propagation_delays. destruct (truth _); cbn [negb].
  2:{ split; [done|]. intros Hw. split; [done|]. exists 0. split; [done|]. rewrite <- (map_id (queue _)) at 1. apply map_ext. intros [d i c]. unfold delayed. cbn. f_equal. lia. }
  set (e1 := add_10us _ (add_10us _ e)). assert (env_ok e1) as He1
    by (apply env_ok_set_ppi; [apply env_ok_set_ppi; [done|]|]; intros d _; apply u32_range).
  assert (se_ppg e1 = se_ppg e) as Eg by done. assert (se_wild e1 = se_wild e) as Ew by done.
  assert (forall i, (i < 2)%nat -> t_prop_ns (n_delay (SIM_PPI_ARCH e1 i)) = u32 (t_prop_ns (n_delay (SIM_PPI_ARCH e i)) + 10000)) as Hp.
  { unfold e1, add_10us, SIM_PPI_ARCH, set_ppi. intros i Hi. cbn. destruct (se_ppi e) as [|a [|b [|]]] eqn:El;
      try (pose proof (eo_ppi e He) as L; by rewrite El in L). destruct i as [|[|]]; [done|done|lia]. }
  clearbody e1. rewrite !Hp by (unfold SIM_MASTER, SIM_SLAVE; lia). rewrite !delay_change. set (q := queue (se_ppg e1)).
  set (b := existsb _ q). set (e2 := wild_if b e1). assert (env_ok e2) as He2 by (unfold e2; auto with sim).
  assert (se_ppg e2 = se_ppg e1) as Eg2 by (unfold e2, wild_if; by destruct b).
  set (q' := map _ q). assert (map which_ppi q' = map which_ppi (queue (se_ppg e2))) as Hl.
  { unfold q', q. rewrite Eg2, map_map. done. }
  destruct (set_queue_queue q' (se_ppg e2) (eo_array e2 He2) Hl) as [Ha Hq].
  assert (se_wild e2 = false -> se_wild e = false /\ queue_ok q' /\ q' = map (delayed 10000) q) as Hfin.
  { intros Hw. apply wild_if_false in Hw as [Hb Hw]. rewrite <- Ew. split; [done|].
    pose proof (eo_queue e1 He1 Hw) as Hqo. fold q in Hqo.
    assert (Forall (fun p => 0 <= delay_ns p + 10000 < 9223372036854775808) q) as Hr.
    { rewrite list.Forall_forall. intros p Hin. destruct Hqo as [_ Hf]. rewrite list.Forall_forall in Hf. destruct (Hf p Hin) as [Hd _].
      assert (in_i64 (delay_ns p + 10000) = true) as Hi; [|apply in_i64_iff in Hi; lia].
      destruct (in_i64 _) eqn:Ei; [done|]. exfalso. assert (b = true); [|congruence]. apply existsb_exists. exists p.
      split; [by apply list_elem_of_In|]. by rewrite Ei. }
    assert (q' = map (delayed 10000) q) as ->; [|split; [by apply queue_ok_delayed|done]].
    apply map_ext_in. intros p Hin. apply list_elem_of_In in Hin. rewrite list.Forall_forall in Hr. specialize (Hr p Hin).
    destruct Hqo as [_ Hf]. rewrite list.Forall_forall in Hf. destruct (Hf p Hin) as [Hd Hwp].
    unfold shift_pkt, to_machine in *. destruct p as [d i c]. cbn in *. rewrite !i64_id by lia.
    destruct Hwp as [-> | ->]; cbn; (rewrite (proj2 (Z.ltb_ge _ 0)) by lia); done. }
  split.
  - apply (env_ok_ppg e2 (set_queue q' (se_ppg e2))); [done|done|]. rewrite Hq. intros Hw. by apply Hfin.
  - intros Hw. destruct (Hfin Hw) as (Hw' & _ & Hd). split; [done|]. exists 10000. split; [lia|]. etrans; [exact Hq|]. rewrite Hd. unfold q. by rewrite Eg.
Qed.

(** *** Time passing *)

Lemma existsb_none {A} (f : A -> bool) l : existsb (fun x => negb (f x)) l = false -> Forall (fun x => f x = true) l.
Proof.
  induction l as [|x l IH]; cbn; [constructor|]. rewrite orb_false_iff, negb_false_iff. intros [Hx Hl]. constructor; auto.
Qed.

Lemma fast_forward n ff e : env_ok e -> let r := sim_fast_forward_ns n ff e in
  env_ok r.2 /\ (se_wild r.2 = false -> se_wild e = false /\ (Forall (fun p => ff <= delay_ns p) (queue (se_ppg e)) -> r.1 = None)).
Proof.
  intros He. cbn zeta. unfold sim_fast_forward_ns. set (e1 := e <| se_ppi ::= _ |>).
  assert (env_ok e1) as He1.
  { destruct He as [L P A Q]. split; [cbn; rewrite length_app, length_map, length_take, length_drop; lia| |done..].
    cbn. rewrite <- (take_drop n (se_ppi e)) in P. apply list.Forall_app in P as [P1 P2]. apply list.Forall_app.
    split; [by apply List.Forall_map|done]. }
  assert (se_wild e1 = se_wild e) as Ew by done. assert (se_ppg e1 = se_ppg e) as Eg by done. clearbody e1.
  destruct (update_delays e1 He1) as [He2 Hu]. set (e2 := update_and_print_propagation_delays e1) in *. clearbody e2.
  set (q := queue (se_ppg e2)). set (b := existsb _ q). set (e3 := wild_if b e2).
  assert (env_ok e3) as He3 by (unfold e3; auto with sim).
  assert (se_ppg e3 = se_ppg e2) as Eg3 by (unfold e3, wild_if; by destruct b).
  assert (se_wild e3 = false -> Forall (fun p => in_i64 (delay_ns p - ff) = true) q /\ queue_ok q /\ se_wild e = false /\
    exists k, 0 <= k /\ q = map (delayed k) (queue (se_ppg e))) as Hfin.
  { intros [Hb Hw]%wild_if_false. destruct (Hu Hw) as [Hw1 Hk]. rewrite Eg in Hk. rewrite <- Ew.
    split_and!; [by apply existsb_none|by apply He2|done|exact Hk]. }
  destruct (ff_packets ff q) as [q'|] eqn:Eq; cbn [fst snd].
  - destruct (ff_packets_nonneg ff q q' Eq) as [Hl Hq].
    assert (map which_ppi q' = map which_ppi (queue (se_ppg e3))) as Hl3 by (by rewrite Hl, Eg3).
    destruct (set_queue_queue q' (se_ppg e3) (eo_array e3 He3) Hl3) as [Ha Hs]. split; [|intros Hw; split; [by apply Hfin|done]].
    apply (env_ok_ppg e3 (set_queue q' (se_ppg e3))); [done|done|]. rewrite Hs. intros Hw. destruct (Hfin Hw) as (Hr & Hqo & _).
    destruct (Hq Hr) as [-> Hn]. apply (queue_ok_delayed (- ff)); [done|].
    rewrite List.Forall_map in Hn. rewrite list.Forall_forall in *. intros p Hp. specialize (Hn p Hp). specialize (Hr p Hp).
    apply in_i64_iff in Hr. cbn in Hn. lia.
  - split; [done|]. intros Hw. destruct (Hfin Hw) as (Hr & _ & Hw' & k & Hk & Ek). split; [done|]. intros Hff. exfalso.
    rewrite ff_packets_some in Eq; [done|]. rewrite Ek in *. rewrite List.Forall_map in *. rewrite list.Forall_forall in *.
    intros p Hp. split; [by apply Hr|]. specialize (Hff p Hp). cbn. lia.
Qed.

(** The packet at the head is the first to arrive. *)
Lemma head_first e : env_ok e -> se_wild e = false -> n_pending (se_ppg e) <> 0%nat ->
  queue (se_ppg e) !! 0%nat = Some (head_pkt e) /\ in_flight (head_pkt e) /\
  Forall (fun p => delay_ns (head_pkt e) <= delay_ns p) (queue (se_ppg e)).
Proof.
  intros He Hw Hn. pose proof (head_queue (se_ppg e) (eo_array e He)) as Hh. rewrite (proj2 (Nat.eqb_neq _ 0)) in Hh by done.
  destruct (eo_queue e He Hw) as [Hs Hf]. pose proof (length_queue _ (eo_array e He)) as Hl. unfold head_pkt. rewrite Hh.
  destruct (queue (se_ppg e)) as [|p q]; [cbn in Hl; lia|]. cbn. apply StronglySorted_inv in Hs as [_ Hx].
  split_and!; [done|by apply list.Forall_cons in Hf as [? _]|]. apply list.Forall_cons. split; [lia|].
  eapply list.Forall_impl; [exact Hx|]. intros x Hp. unfold may_follow in Hp. by_order.
Qed.

(** *** The network *)

Lemma env_ok_close i t e : env_ok e -> env_ok (close_ch i t e).
Proof. intros He. unfold close_ch. destruct (_ <? 0); [done|]. apply env_ok_set_ppi; [by destruct He|apply keeps_prop_chan]. Qed.
Lemma env_ok_open i t e : env_ok e -> env_ok (sim_open_ch i t e).2.
Proof.
  intros He. unfold sim_open_ch. pose proof (env_ok_kst (k_socket S_UDP) e He) as H1'. destruct (on_kst _ e) as [sock e1]. cbn [snd] in *.
  destruct (sock <? 0); [by apply env_ok_set_ppi, keeps_prop_chan|]. set (e2 := set_sp_fd i t sock e1). assert (env_ok e2) as H2 by (by apply env_ok_set_ppi, keeps_prop_chan).
  clearbody e2. pose proof (env_ok_kst (k_setsockopt sock SO_REUSEADDR) e2 H2) as H3. destruct (on_kst _ e2) as [r e3]. cbn [snd] in *.
  pose proof (env_ok_kst (k_bind_udp sock (bound_port i t)) e3 H3) as H4.
  destruct (on_kst _ e3) as [r' e4]. cbn [snd] in *. destruct (r' <? 0); cbn [snd].
  - apply env_ok_set_ppi; [by destruct H4|apply keeps_prop_chan].
  - destruct (pp_sim_is_master i); [apply env_ok_set_ppi; [|apply keeps_prop_chan]|]; by apply env_ok_set_ppi, keeps_prop_chan.
Qed.
Lemma env_ok_init i e : env_ok e -> env_ok (sim_net_init i e).2.
Proof.
  intros He. unfold sim_net_init. set (e1 := if 0 <? c_fd (sp_gen (SIM_PPI_ARCH e i)) then sim_net_exit i e else e).
  assert (env_ok e1) as H1' by (unfold e1, sim_net_exit; destruct (_ <? _); auto using env_ok_close). clearbody e1.
  pose proof (env_ok_open i PP_NP_GEN e1 H1') as H2. destruct (sim_open_ch i PP_NP_GEN e1) as [r e2]. cbn [snd] in *.
  destruct (truth r); [done|]. pose proof (env_ok_open i PP_NP_EVT e2 H2) as H3. by destruct (sim_open_ch i PP_NP_EVT e2).
Qed.

Lemma env_ok_send i pkt len fmt e : env_ok e -> env_ok (sim_net_send i pkt len fmt e).2.
Proof.
  intros He. unfold sim_net_send. cbn [sim_time_get]. set (f := k_sendto _ _ _ _). pose proof (env_ok_kst f e He) as H1'. destruct (on_kst f e) as [ret e1]. cbn [fst snd] in *.
  set (d := n_delay (SIM_PPI_ARCH e1 i)). set (jit := out_jitter d _ pkt).
  set (e2 := set_ppi i _ _). assert (env_ok e2) as H2 by (unfold e2; auto with sim). clearbody e2.
  set (b := negb _ || _ || _). set (e3 := wild_if b e2). assert (env_ok e3) as H3 by (by apply env_ok_wild).
  apply env_ok_set_ppi; [|apply keeps_prop_chan]. destruct (pending_full (se_ppg e3)) eqn:Ef; [done|]. apply env_ok_insert; [done|done|unfold to_machine; cbn; destruct (pp_sim_is_master i); auto|].
  intros [Hb _]%wild_if_false. unfold b in Hb. rewrite !orb_false_iff, negb_false_iff, in_i64_iff in Hb. destruct Hb as [[Hr Hj] _].
  apply Z.ltb_ge in Hj. cbn. rewrite i64_id by done. pose proof (t_prop_range e1 i H1') as Hp. fold d in Hp. lia.
Qed.

Lemma env_ok_recv_msg i fd e : env_ok e -> env_ok (sim_recv_msg i fd e).2.
Proof.
  intros He. unfold sim_recv_msg. pose proof (env_ok_kst (k_recvmsg fd) e He) as H1'. destruct (on_kst _ e) as [r e1]. cbn [fst snd] in *.
  set (e2 := set_ppi i _ e1). assert (env_ok e2) as H2 by (unfold e2; auto with sim). clearbody e2.
  destruct (_ <=? 0); [done|]. destruct (rm_trunc r); [done|]. destruct (rm_ctrunc r); [done|].
  cbn [sim_time_get snd]. destruct (_ =? _); [by apply env_ok_iter|done].
Qed.

Lemma env_ok_recv i e : env_ok e -> env_ok (sim_net_recv i e).2.
Proof.
  intros He. unfold sim_net_recv. destruct (_ =? _)%nat; [done|]. set (ch := sp_chan _ _). destruct (0 <? c_present ch).
  - pose proof (env_ok_recv_msg i (c_fd ch) e He) as H1'. destruct (sim_recv_msg i (c_fd ch) e) as [[ret t] e1]. cbn [snd] in *.
    apply env_ok_received. destruct (0 <? ret); [by apply env_ok_set_ppi, keeps_prop_chan|done].
  - by apply env_ok_received.
Qed.

(** *** Configuration *)

Lemma env_ok_option o e : env_ok e -> env_ok (apply_option o e).
Proof.
  intros He. assert (forall i g e, env_ok e -> (forall d, 0 <= t_prop_ns d -> 0 <= t_prop_ns (g d)) -> env_ok (set_delay i g e)) as Hd.
  { intros i g e' He' Hg. apply env_ok_set_ppi; [done|]. intros d. apply Hg. }
  assert (forall i g e, env_ok e -> env_ok (set_time i g e)) as Ht by (unfold set_time; auto with sim).
  pose proof u32_range as Hu. destruct o; cbn [apply_option]; first [by apply Ht|by destruct He|idtac];
    unfold f_t_prop, f_fwd_t_prop, f_bckwd_t_prop, f_jit, f_fwd_jit, f_bckwd_jit; repeat (apply Hd; [|intros; cbn; try apply Hu; assumption]); done.
Qed.
Lemma env_ok_options os e : env_ok e -> env_ok (foldl (fun e o => apply_option o e) e os).
Proof. revert e. induction os as [|o os IH]; intros e He; cbn; [done|]. by apply IH, env_ok_option. Qed.
Lemma env_ok_initial k rx : env_ok (sim_initial k rx).
Proof. split; [done|do 2 (apply List.Forall_cons; [done|]); apply List.Forall_nil| |]. 2:{ intros _. split; constructor. } split_and!; [done|cbn; lia|]. apply Forall_replicate. by left. Qed.

End Env.
#[export] Hint Resolve keeps_prop_chan env_ok_set_ppi env_ok_kst env_ok_wild env_ok_rand env_ok_iter env_ok_received env_ok_adjust env_ok_time_set : sim.
