(* ===== verification/SimLoop.v ===== *)
(** * The simulator: platform and main loop (arch-sim)

    The operations of the simulated environment as an instance of [Platform],
    on environments that keep the invariant; the data sets of the two
    machines, which the globals point to in turn; set-up and main loop. *)

From S2P Require Import Prelude TimeArith Types World Timeout Hooks Bytes Msg FixedPoint Servo.
From S2P Require Import BmcCmp ClockQuality Bmc BmcTable Common States Fsm OpenClose MainLoop Scan Conf UnixMain UnixNet Wrh Sim SimQueue.

(** ** The platform *)

Section SimPlatform.
Context `{Config} `{Kernel} `{CRand}.

(** An environment of which the invariant is known. *)
Definition senv : Type := { e : sim_env | env_ok e }.
Definition raw (s : senv) : sim_env := proj1_sig s.
Definition on_env (f : sim_env -> sim_env) (Hf : forall e, env_ok e -> env_ok (f e)) (s : senv) : senv :=
  exist _ (f (raw s)) (Hf _ (proj2_sig s)).
Definition op_env {T} (f : sim_env -> T * sim_env) (Hf : forall e, env_ok e -> env_ok (f e).2) (s : senv) : T * senv :=
  let r := f (raw s) in (r.1, exist _ r.2 (Hf _ (proj2_sig s))).
Definition peek {T} (f : sim_env -> T * sim_env) (s : senv) : T * senv := ((f (raw s)).1, s).

(** [sim_time_ops] and [sim_net_ops].  The functions of UTC have none to give, and the timing output
    is a message. *)
#[global] Instance sim_platform : Platform := {|
  env := senv;
  t_calc_timeout i ms := peek (sim_calc_timeout i ms);
  t_get i := peek (sim_time_get i);
  t_set i t := on_env (sim_time_set i t) (env_ok_time_set i t);
  t_adjust i o f := on_env (sim_time_adjust i o f) (env_ok_adjust i o f);
  t_adjust_offset i o := on_env (sim_adjust_offset i o) (env_ok_adjust i o 0);
  t_adjust_freq := Some (fun i f => on_env (sim_adjust_freq i f) (env_ok_adjust i 0 f));
  t_init_servo := Some (fun i => peek (sim_init_servo i));
  t_get_utc_time _ s := (None, s);
  t_get_utc_offset _ s := (None, s);
  t_set_utc_offset _ _ _ _ s := s;
  t_get_GM_lock_state s := (Some PP_TIMING_MODE_STATE_LOCKED, s);
  t_enable_timing_output _ s := s;
  n_init i := op_env (sim_net_init i) (env_ok_init i);
  n_send i pkt len fmt := op_env (sim_net_send i pkt len fmt) (env_ok_send i pkt len fmt) |}.

(** [wrh_oper]: a perfect world.  [locking_disable] is a null pointer, and its call is recorded;
    [unix_time_ops] is used by another architecture only. *)
#[global] Instance sim_wrh_oper : WrhOper := {|
  locking_enable _ s := (0, s);
  locking_poll _ s := (WRH_SPLL_LOCKED, s);
  locking_disable _ s := (0, on_env (fun e => e <| se_null := true |>) env_ok_null s);
  locking_reset _ s := (0, s);
  enable_ptracker _ s := (0, s);
  adjust_in_progress s := (0, s);
  adjust_counters _ _ s := (0, s);
  adjust_phase _ s := (0, s);
  get_clock_period s := (8000, s);
  unix_time_set _ _ s := s |}.

End SimPlatform.

(** ** The data sets of the machines *)

(** The data sets of one machine, which [ppg] points to while it runs. *)
Record sim_ds := mk_ds {
  ds_rt_opts : pp_runtime_opts; ds_defaultDS : defaultDS_t; ds_currentDS : currentDS_t;
  ds_parentDS : parentDS_t; ds_timePropertiesDS : timePropertiesDS_t }.
Definition zero_ds (opts : pp_runtime_opts) : sim_ds :=
  mk_ds opts (mk_defaultDS (replicate 8 0) 0 (mk_cq 0 0 0) 0 0 0 0 0) (mk_currentDS 0 0 0) zero_parentDS
    (mk_timePropertiesDS 0 0 0 0 0 0 0 0).
Definition ds_of (g : pp_globals) : sim_ds :=
  mk_ds (rt_opts g) (defaultDS g) (currentDS g) (parentDS g) (timePropertiesDS g).
Definition load_ds (d : sim_ds) (g : pp_globals) : pp_globals :=
  g <| rt_opts := ds_rt_opts d |> <| defaultDS := ds_defaultDS d |> <| currentDS := ds_currentDS d |>
    <| parentDS := ds_parentDS d |> <| timePropertiesDS := ds_timePropertiesDS d |>.

(** Members of the static [sim_master_rt_opts] that are not named are 0. *)
Definition sim_master_rt_opts : pp_runtime_opts :=
  mk_opts 0 0 0 0 0 0 0 0 10 1000 6 128 128 0 0 0 0 0 0 0.

Section Loop.
Context `{Config} `{Kernel} `{CRand} {HK : Hooks}.

(** The program, with the data sets each machine has of its own: [sw_active] is the machine whose
    data sets are the ones of the globals, and its entry of [sw_ds] is out of date. *)
Record sim_world := mk_sw { sw_w : world; sw_ds : list sim_ds; sw_active : nat }.
#[global] Instance eta_sw : Eta sim_world := fun s => mk_sw (sw_w s) (sw_ds s) (sw_active s).

Definition SM (A : Type) : Type := sim_world -> A * sim_world.
#[global] Instance SM_ret : MRet SM := fun A a s => (a, s).
#[global] Instance SM_bind : MBind SM := fun A B k m s => let '(a, s') := m s in k a s'.
Definition lift {A} (m : M A) : SM A := fun s => let '(a, w) := m (sw_w s) in (a, s <| sw_w := w |>).
Definition rde {T} (f : sim_env -> T) : SM T := fun s => (f (raw (the_env (sw_w s))), s).

Definition sim_set_global_DS (i : nat) : SM unit := fun s =>
  let ds := <[sw_active s := ds_of (glbs (sw_w s))]> (sw_ds s) in
  (tt, mk_sw ((sw_w s) <| glbs ::= load_ds (default (zero_ds sim_master_rt_opts) (ds !! i)) |>) ds i).

(** ** The loop *)

Fixpoint sim_run_ports (l : list nat) (delay_ms : Z) : SM Z :=
  match l with
  | [] => mret delay_ms
  | j :: l' =>
      sim_set_global_DS j;;
      delay_ms_j ← lift (pp_state_machine j [] 0);
      let delay_ms := if (j =? 0)%nat then delay_ms_j else delay_ms in
      sim_run_ports l' (if delay_ms_j <? delay_ms then delay_ms_j else delay_ms)
  end.

(** [run_all_state_machines] of arch-sim/main-loop.c. *)
Definition sim_run_all : SM Z :=
  l ← lift links;
  delay_ms ← sim_run_ports l 0;
  t ← lift (pp_gtimeout PP_TO_BMC);
  if t : bool then
    lift bmc_calculate_ebest;;
    lift (pp_gtimeout_reset PP_TO_BMC);;
    mret 0
  else
    delay_bmca ← lift (pp_next_delay_1 0 PP_TO_BMC);
    mret (if delay_bmca <? delay_ms then delay_bmca else delay_ms).

(** The time passes for all; the exit code, if the program ends. *)
Definition pass_time (ff_ns : Z) : M (option Z) :=
  n ← rdG nlinks;
  op (op_env (sim_fast_forward_ns (Z.to_nat n) ff_ns) (fun e He => proj1 (fast_forward (Z.to_nat n) ff_ns e He))).

(** The reception and the run of the inner loop. *)
Definition sim_receive (j : nat) : SM Z :=
  old ← lift (rd j last_rcv_time);
  '(ret, t) ← lift (op (op_env (sim_net_recv j) (env_ok_recv j)));
  frame ← rde (fun e => sp_rx (SIM_PPI_ARCH e j));
  i ← lift (__recv_and_count j (mk_received ret frame (default old t)));
  sim_set_global_DS j;;
  off ← lift (rd j rx_offset);
  lift (pp_state_machine j (drop (Z.to_nat off) frame) (i - off)).

Definition packet_due (delay : Z) (e : sim_env) : bool :=
  negb (n_pending (se_ppg e) =? 0)%nat && (delay_ns (head_pkt e) <=? delay).

Inductive sim_result := sim_running (delay_ns : Z) | sim_done | sim_exit (code : Z).

(** One pass of the inner loop, or, when no packet is due, the end of a pass of the outer one. *)
Definition sim_step (delay : Z) : SM sim_result :=
  due ← rde (packet_due delay);
  if due : bool then
    j ← rde (fun e => Z.to_nat (which_ppi (head_pkt e)));
    ff ← rde (fun e => delay_ns (head_pkt e));
    x ← lift (pass_time ff);
    match x with
    | Some c => mret (sim_exit c)
    | None =>
        left ← rde (fun e => delay_ns (head_pkt e));
        let delay := i64 (delay - left) in
        ms ← sim_receive j;
        let tmp := 1000 * 1000 * ms in
        mret (sim_running (if tmp <? delay then tmp else delay))
    end
  else
    x ← lift (pass_time delay);
    match x with
    | Some c => mret (sim_exit c)
    | None =>
        ms ← sim_run_all;
        go ← rde (fun e => sim_iter_n (se_ppg e) <=? sim_iter_max (se_ppg e));
        mret (if go : bool then sim_running (ms * 1000 * 1000) else sim_done)
    end.

(** [steps] bounds the passes: the loop need not end, since only answers of the master are counted. *)
Fixpoint sim_loop (steps : nat) (delay : Z) : SM sim_result :=
  match steps with
  | O => mret (sim_running delay)
  | S n =>
      r ← sim_step delay;
      match r with sim_running d => sim_loop n d | _ => mret r end
  end.

Definition sim_main_loop (steps : nat) : SM sim_result :=
  l ← lift links;
  lift (for_each l (fun j => wr j (fun p => p <| is_new_state := true |> <| state := PPS_INITIALIZING |> <| link_up := 1 |>)));;
  ms ← sim_run_all;
  go ← rde (fun e => sim_iter_n (se_ppg e) <=? sim_iter_max (se_ppg e));
  if go : bool then sim_loop steps (ms * 1000 * 1000) else mret sim_done.

(** ** Start *)

Section Start.
Context `{!ConfBuild} (CONFIG_HAS_EXT_WR : bool).

(** The instance part of [sim_ppi_init]; [tx] is the buffer [malloc] gives. *)
Definition sim_ppi_init (p : pp_instance) (tx : list Z) : pp_instance :=
  let p := p <| tx_ptp := tx |> <| protocol_extension := if CONFIG_HAS_EXT_WR then PPSI_EXT_WR else PPSI_EXT_NONE |> in
  if CONFIG_HAS_EXT_L1SYNC then
    enable_asymmetryCorrection pp_default_instance_cfg 1
      (set_l1b (fun b => b <| rxCoherentIsRequired := 1 |> <| txCoherentIsRequired := 1 |>
                           <| congruentIsRequired := 1 |> <| L1SyncEnabled := 1 |> <| optParamsEnabled := 0 |>)
         (enable_l1Sync p))
  else p.

Definition sim_configured (k : kst) (rx : nat -> list Z) (os : list sim_option) : senv :=
  exist _ (foldl (fun e o => apply_option o e) (sim_initial k rx) os) (env_ok_options os _ (env_ok_initial k rx)).

(** What [main] has when both machines are allocated and configured: [pcs] and [opts] are what the
    parser made of the ports and of the options of the slave, [os] the options of the simulator. *)
Definition sim_start (k : kst) (rx tx : nat -> list Z) (pcs : list port_conf) (opts : pp_runtime_opts)
    (os : list sim_option) : sim_world :=
  mk_sw
    (mk_world (load_ds (zero_ds opts)
        (mk_glbs sim_master_rt_opts (ds_defaultDS (zero_ds sim_master_rt_opts)) (mk_currentDS 0 0 0) zero_parentDS
           (mk_timePropertiesDS 0 0 0 0 0 0 0 0) 0 0 (Z.of_nat (length pcs))))
      (imap (fun i pc => sim_ppi_init (inst_of pc) (tx i)) pcs) (sim_configured k rx os)
      0 (if CONFIG_CODEOPT_WRPC_SIZE then [-1; -1] else [-1; -1; -1; -1]) 1 false)
    [zero_ds sim_master_rt_opts; zero_ds opts] (Z.to_nat SIM_SLAVE).

(** The last loop of [main]. *)
Definition sim_init_port (pcs : list port_conf) (j : nat) : SM unit :=
  sim_set_global_DS j;;
  lift (wr j (fun p => p <| delayMechanism := pc_delayMechanism (nth j pcs pp_default_instance_cfg) |>));;
  lift (op_ (on_env (fun e => set_sp_fd j PP_NP_EVT (-1) (set_sp_fd j PP_NP_GEN (-1) e)) (fun e He =>
    env_ok_set_ppi _ _ _ (env_ok_set_ppi _ _ _ He (keeps_prop_chan _ _)) (keeps_prop_chan _ _))));;
  lift (wr j (fun p => p <| portDS ::= fun d => d <| logAnnounceInterval := 1 |> |>));;
  lift (opts ← OPTS; pp_init_globals true opts);;
  mret tt.

Fixpoint sim_init_ports (pcs : list port_conf) (l : list nat) : SM unit :=
  match l with
  | [] => mret tt
  | j :: l' => sim_init_port pcs j;; sim_init_ports pcs l'
  end.

Definition sim_main (k : kst) (rx tx : nat -> list Z) (pcs : list port_conf) (opts : pp_runtime_opts)
    (os : list sim_option) (steps : nat) : sim_result * sim_world :=
  (sim_init_ports pcs (seq 0 (length pcs));; sim_main_loop steps) (sim_start k rx tx pcs opts os).

End Start.
End Loop.
