(* ===== verification/SimSafe.v ===== *)
(** * The simulator: safety

    A run of the state machine leaves the configured states alone, so the
    invariant of the system holds for both machines of the simulator,
    whichever's data sets are in use.  The program exits only after an
    overflow. *)

From S2P Require Import Prelude TimeArith Types World Timeout Hooks Bytes Msg FixedPoint Servo.
From S2P Require Import BmcCmp ClockQuality Bmc BmcTable BmcDecision Common States Fsm OpenClose Safety MainLoop Startup.
From S2P Require Import Scan Conf UnixMain UnixNet Sim SimQueue SimLoop.

(** ** The configured states *)

Section Desired.
Context `{Config, Platform} {HK : Hooks} `{!HooksSafe} (nl : Z).

Definition des (w : world) : list Z := map desiredState (insts w).

Lemma des_core w w' : same_view core gcore w w' -> des w' = des w.
Proof. intros Hv. exact (f_equal (fun v => v.1.1) (same_view_comp core gcore (fun x => x.2) _ _ Hv)). Qed.
Lemma des_quiet {A} (m : M A) w : guar (same_view fview gcore) m -> des (m w).2 = des w.
Proof. intros Hm. apply des_core, (same_view_comp fview gcore (fun x => x.1.1)), Hm. Qed.
Lemma des_wr i g w : (forall p, desiredState (g p) = desiredState p) -> des (set_inst w i g) = des w.
Proof. intros Hg. exact (f_equal (fun v => v.1.1) (guar_view_wr desiredState (fun _ => tt) i g Hg w)). Qed.

(** Port [i] is in order, and nothing was reconfigured since [w0]. *)
Definition kept (i : nat) (w0 w : world) : Prop := good nl i w /\ des w = des w0.

Lemma kept_R {A} i (m : M A) w0 w : kept i w0 w -> guar (R (sit w i)) m -> kept i w0 (m w).2.
Proof.
  intros [Hg Hd] Hm. split; [by apply R_step|]. rewrite <- Hd. apply des_core, (Hm w), (good_ok nl), Hg.
Qed.
Lemma kept_then {A} i (m : M A) (k : A -> M Z) w0 w : kept i w0 w -> guar (R (sit w i)) m ->
  (forall a w', kept i w0 w' -> sit w' i = sit w i -> des (k a w').2 = des w0) -> des ((m ≫= k) w).2 = des w0.
Proof.
  intros Hg Hm Hk. rewrite bind_unfold. apply Hk; [by apply kept_R|]. by apply (R_step nl i m w); [apply Hg|].
Qed.
Lemma kept_end {A} i (m : M A) w0 w : kept i w0 w -> guar (R (sit w i)) m -> des (m w).2 = des w0.
Proof. intros Hg Hm. apply (kept_R i m w0 w Hg Hm). Qed.

Lemma des_leave i w : des (pp_leave_current_state i w).2 = des w.
Proof.
  unfold pp_leave_current_state. rewrite bind_unfold. set (m1 := if_hook i hk_state_change _ _).
  assert (guar (same_view fview gcore) m1) as Q1.
  { unfold m1. apply guar_if_hook; [apply _| |walk]. intros h e He. walk. by eapply hs_change. }
  rewrite <- (des_quiet m1 w Q1). set (w1 := (m1 w).2). clearbody w1. rewrite bind_rd_id, bind_unfold.
  set (m2 := when _ _). assert (guar (same_view fview gcore) m2) as Q2 by (unfold m2; walk; apply q_timeout_setall).
  rewrite <- (des_quiet m2 w1 Q2). set (w2 := (m2 w1).2). clearbody w2. rewrite !bind_wr. cbn [mret M_ret snd].
  rewrite !des_wr; [done|done|]. intros p. by destruct (_ =? _).
Qed.
Lemma des_leave_or i k w0 w : kept i w0 w -> (kept i w0 w -> des (k w).2 = des w0) -> des (leave_or i k w).2 = des w0.
Proof.
  intros Hg Hk. unfold leave_or. rewrite bind_rd_id. destruct (negb _); [rewrite des_leave; apply Hg|auto].
Qed.

Lemma des_extension i buf len w0 w : kept i w0 w -> des (run_extension i buf len w).2 = des w0.
Proof.
  intros Hg. unfold run_extension, if_hook, ext_hook. rewrite bind_rd.
  match goal with |- context [match ?x with Some _ => _ | None => _ end] => destruct x as [h|] eqn:Eh end; [|apply Hg].
  apply (kept_then i); [done|refine (hs_buf _ hk_run_ext_state_machine h (sit w i) buf len _ Eh); apply list_elem_of_In; cbn; auto 20|].
  intros d w' G' _. apply des_leave_or; [done|]. intros _. apply (kept_end i); [done|]. apply R_view. walk.
Qed.

Lemma des_bmc i k w0 w : kept i w0 w -> (forall w', kept i w0 w' -> des (k w').2 = des w0) -> des (run_bmc i k w).2 = des w0.
Proof.
  intros Hg Hk. unfold run_bmc. rewrite bind_rd. destruct (truth _); [|auto].
  apply (kept_then i); [done|apply R_view; walk|]. intros [] w1 [G1 D1] _. rewrite bind_unfold.
  destruct (quiet_step nl i (bmc_apply_state_descision i) w1 G1 (q_apply_decision i)) as [G2 _].
  pose proof (apply_decision_valid nl i w1 G1) as Hv. pose proof (des_quiet _ w1 (q_apply_decision i)) as D2.
  destruct (bmc_apply_state_descision i w1) as [st w2]. cbn [fst snd] in *.
  apply (kept_then i); [by split; [|congruence]|by apply R_next|]. intros [] w3 G3 _. apply des_leave_or; auto.
Qed.

Lemma des_run i buf len w0 w : kept i w0 w ->
  des (leave_or i (first_frame i len;; call_state (state (inst w i)) i buf len;;
    leave_or i (check_protocol i;; run_bmc i (run_extension i buf len))) w).2 = des w0.
Proof.
  intros Hg. apply des_leave_or; [done|]. intros _.
  apply (kept_then i); [done|apply (R_first_frame (sit w i))|]. intros [] w1 G1 E1.
  apply (kept_then i); [done| |].
  { rewrite E1. destruct (good_state nl i w (proj1 Hg)). by apply (R_call_state (sit w i)). }
  intros _ w2 G2 _. apply des_leave_or; [done|]. intros _.
  apply (kept_then i); [done|apply (R_check_protocol (sit w2 i))|]. intros [] w3 G3 _.
  apply des_bmc; [done|]. intros w4 G4. by apply des_extension.
Qed.

Lemma des_machine i buf len w : sys_ok nl w -> (i < length (insts w))%nat -> len <= Z.of_nat (length buf) ->
  des (pp_state_machine i buf len w).2 = des w.
Proof.
  intros Hs Hi Hl. unfold pp_state_machine. pose proof (verify_wf buf len Hl) as Hv.
  destruct (if len <? PP_HEADER_LENGTH then _ else _) as [b l]. clear Hl buf len.
  rewrite bind_unfold. destruct (unpack_ok nl i b l w Hs Hi Hv) as [S1 I1].
  assert (des (fsm_unpack_verify_frame i b l w).2 = des w) as D1.
  { unfold fsm_unpack_verify_frame. destruct (verify_frame b l); [|done]. rewrite bind_wr. by apply des_wr. }
  destruct (fsm_unpack_verify_frame i b l w) as [err w1]. cbn [fst snd] in *. rewrite <- D1. clear w Hs Hi Hv D1.
  rewrite bind_rd. set (l1 := if err then 0 else _). set (b1 := if err then [] else _). clearbody l1 b1.
  rewrite bind_unfold. assert (des (get_current_state_table_item i w1).2 = des w1) as D2
    by (apply des_quiet; unfold get_current_state_table_item; walk).
  destruct (get_item_ok nl i w1 S1 I1) as (w2 & E2 & S2 & I2). rewrite E2 in *. cbn [fst snd] in *.
  rewrite bind_wr. pose proof (set_next_good nl i w2 S2 I2) as G3. rewrite <- D2.
  rewrite <- (des_wr i (fun p => p <| next_state := state (inst w2 i) |> <| next_delay := 0 |>) w2) by done.
  set (w3 := set_inst w2 i _) in *.
  assert (state (inst w2 i) = state (inst w3 i)) as -> by (unfold w3; by rewrite inst_set_same by done).
  clearbody w3. rewrite bind_unfold.
  assert (exists x, (if err then mret false else pp_packet_prefilter i) w3 = (x, w3)) as [x ->] by (destruct err; eauto).
  by apply des_run.
Qed.

End Desired.

(** ** Initialisation, once per machine *)

Section Init.
Context `{Config, Platform} {HK : Hooks} `{!HooksSafe}.

Definition alloc_view (p : pp_instance) :=
  (frgn_master p, frgn_rec_num p, rx_offset p, h_sourcePortIdentity (received_ptp_header p), cfg p).

Lemma alloc_view_inst p p' : alloc_view p' = alloc_view p -> allocated_inst p -> allocated_inst p'.
Proof. unfold alloc_view, allocated_inst. intros E. injection E as E1 E2 E3 E4 E5. by rewrite E1, E2, E3, E4, E5. Qed.

Lemma ready_views e j p : alloc_view (ready_inst e j p) = alloc_view p /\
  (desiredState (ready_inst e j p) = desiredState p \/ desiredState (ready_inst e j p) = u8 (cfg_desiredState (cfg p))).
Proof.
  set (c := fun p => (alloc_view p, desiredState p)).
  assert (c (reset_inst j p) = c p) as E by (etrans; [by apply (stop_timers_other c)|done]).
  pose proof (f_equal fst E : alloc_view _ = _) as E1. pose proof (f_equal snd E : desiredState _ = _) as E2. cbn [fst snd c] in E1, E2.
  unfold ready_inst. destruct e; [|auto]. split; [by rewrite <- E1|right].
  unfold epc_inst. cbn. f_equal. f_equal. exact (f_equal (fun x => x.2) E1).
Qed.

(** [pp_init_globals] can be run again, and leaves valid configured states valid. *)
Lemma init_again s o w : own_data_only hk_open -> allocated w ->
  let w' := (pp_init_globals s o w).2 in
  allocated w' /\ (Forall valid_state (des w) -> Forall valid_state (des w')).
Proof.
  intros Ho Hw. pose proof Hw as [Hi Hk Hr Hs Ha]. cbn zeta. destruct (globals_init s o w) as (w' & [I L A C _ _] & ->).
  destruct (for_each_hook_own (ports (defaultDS (glbs w'))) hk_open 0 w' Ho) as [_ V].
  destruct (same_view_parts _ _ _ _ V) as (L' & G' & A'). unfold id in G'. unfold counts in C. injection C as C1 C2.
  assert (Z.to_nat (get_numberPorts (defaultDS (glbs w'))) = length (insts w)) as En.
  { unfold get_numberPorts. destruct CONFIG_HAS_CODEOPT_SINGLE_PORT; [specialize (Hs eq_refl); lia|].
    rewrite C2, (proj2 (Z.ltb_lt _ _)) by lia. unfold u16. rewrite Z.mod_small by lia. lia. }
  rewrite En in I. set (w2 := (for_each_hook _ _ _ _).2) in *. clearbody w2.
  assert (forall j, (j < length (insts w))%nat -> alloc_view (inst w2 j) = alloc_view (inst w j) /\
    (desiredState (inst w2 j) = desiredState (inst w j) \/ desiredState (inst w2 j) = u8 (cfg_desiredState (cfg (inst w j))))) as Hv.
  { intros j Hj. destruct (same_view_inst _ _ _ _ j V ltac:(lia)) as [N _].
    assert (forall K (c : pp_instance -> K), (forall p, c (no_ext p) = c p) -> c (inst w2 j) = c (inst w' j)) as Hn
      by (intros K0 c Hc; rewrite <- Hc, N; apply Hc).
    rewrite (Hn _ alloc_view), (Hn _ desiredState) by done. rewrite (I j Hj Hj). apply ready_views. }
  rewrite Forall_insts in Hi. split; [split|].
  - apply Forall_insts. intros j. rewrite L', L. intros Hj. destruct (Hv j Hj) as [Hv1 _]. by eapply alloc_view_inst; [|apply Hi].
  - rewrite G', C1, L', L. done.
  - by rewrite G', C1.
  - rewrite G', C1. done.
  - congruence.
  - unfold des. rewrite !List.Forall_map, !Forall_insts. intros Hd j. rewrite L', L. intros Hj.
    destruct (Hv j Hj) as [_ [-> | ->]]; [auto|]. apply (Hi j Hj).
Qed.

End Init.

(** ** The simulator *)

(** What the simulator needs of [recvmsg]: a message is as long as it says. *)
Class RecvLaw `{Kernel} := {
  recv_fits : forall fd k, rm_ret (k_recvmsg fd k).1 <= Z.of_nat (length (rm_data (k_recvmsg fd k).1)) }.

Section SimInv.
Context `{Config} `{Kernel} `{!RecvLaw} `{CRand} {HK : Hooks} `{!HooksSafe} (nl : Z).

Lemma sbind_unfold {A B} (m : SM A) (k : A -> SM B) s : (m ≫= k) s = k (m s).1 (m s).2.
Proof. unfold mbind, SM_bind. by destruct (m s). Qed.
Lemma lift_unfold {A} (m : M A) s : lift m s = ((m (sw_w s)).1, s <| sw_w := (m (sw_w s)).2 |>).
Proof. unfold lift. by destruct (m (sw_w s)). Qed.

Definition ds_epc (d : sim_ds) : bool := is_externalPortConfigurationEnabled (ds_defaultDS d).

(** The invariant of the system, whichever machine's data sets are in use. *)
Record sim_ok (s : sim_world) : Prop := {
  so_sys : sys_ok nl (sw_w s);
  so_two : length (sw_ds s) = 2%nat /\ (sw_active s < 2)%nat /\ (2 <= length (insts (sw_w s)))%nat;
  so_ds : Forall (fun d => ds_epc d = true -> Forall valid_state (des (sw_w s))) (sw_ds s) }.

Lemma sys_globals w g : sys_ok nl w -> nlinks g = nlinks (glbs w) ->
  (is_externalPortConfigurationEnabled (defaultDS g) = true -> Forall valid_state (des w)) -> sys_ok nl (w <| glbs := g |>).
Proof.
  intros [L T S D O Hh Ha] Hn Hd. split; [cbn; rewrite Hn; done|done|done| |done|done|done].
  intros He. specialize (Hd He). unfold des in Hd. by rewrite List.Forall_map in Hd.
Qed.

Lemma sys_desired w : sys_ok nl w -> epc w = true -> Forall valid_state (des w).
Proof. intros Hs He. unfold des. apply List.Forall_map. by apply (sk_desired nl w Hs). Qed.

Lemma set_DS_ok i s : sim_ok s -> (i < 2)%nat -> sim_ok (sim_set_global_DS i s).2.
Proof.
  intros [Hs (L & Ha & Hi) Hd] Hlt. unfold sim_set_global_DS. cbn [snd].
  set (ds := <[sw_active s := _]> _). assert (length ds = 2%nat) as Lds by (unfold ds; by rewrite length_insert).
  assert (Forall (fun d => ds_epc d = true -> Forall valid_state (des (sw_w s))) ds) as Hds.
  { rewrite Forall_lookup in *. intros k d. unfold ds. destruct (decide (k = sw_active s)) as [->|Hne].
    - rewrite list_lookup_insert_eq by lia. intros [= <-]. apply sys_desired, Hs.
    - rewrite list_lookup_insert_ne by done. apply Hd. }
  clearbody ds. destruct (lookup_lt_is_Some_2 ds i ltac:(lia)) as [d Ed]. rewrite Ed. cbn [default from_option id].
  split; [apply (sys_globals (sw_w s)); [done|done|]|done|exact Hds]. rewrite Forall_lookup in Hds. apply (Hds i d Ed).
Qed.

(** Code of the protocol that keeps the invariant and the configured states. *)
Lemma lift_ok {A} (m : M A) s : sim_ok s -> sys_ok nl (m (sw_w s)).2 -> des (m (sw_w s)).2 = des (sw_w s) -> sim_ok (lift m s).2.
Proof.
  intros [Hs (L & Ha & Hi) Hd] Hm Ed. rewrite lift_unfold. split; [done| |cbn; by rewrite Ed]. split_and!; [done..|]. cbn.
  rewrite <- (length_map desiredState). fold (des (m (sw_w s)).2). rewrite Ed. unfold des. by rewrite length_map.
Qed.
Lemma lift_quiet {A} (m : M A) s : sim_ok s -> guar (same_view fview gcore) m -> sim_ok (lift m s).2.
Proof. intros Hs Hm. apply lift_ok; [done|by apply quiet_sys; [apply Hs|]|by apply des_quiet]. Qed.
Lemma lift_machine i buf len s : sim_ok s -> (i < 2)%nat -> len <= Z.of_nat (length buf) -> sim_ok (lift (pp_state_machine i buf len) s).2.
Proof.
  intros Hs Hi Hl. assert (i < length (insts (sw_w s)))%nat by (destruct (so_two s Hs); lia).
  apply lift_ok; [done|by apply machine_ok; [apply Hs|..]|by apply (des_machine nl); [apply Hs|..]].
Qed.
Lemma lift_calculate s : sim_ok s -> sim_ok (lift bmc_calculate_ebest s).2.
Proof.
  intros Hs. apply lift_ok; [done|by apply calculate_sys, Hs|].
  apply des_core, (same_view_comp rest gcore (fun x => x.1.1)), rest_calculate.
Qed.

Lemma run_ports_ok l d s : sim_ok s -> Forall (fun j => j < 2)%nat l -> sim_ok (sim_run_ports l d s).2.
Proof.
  intros Hs Hl. revert d s Hs. induction Hl as [|j l Hj Hl IH]; intros d s Hs; [done|].
  cbn [sim_run_ports]. rewrite sbind_unfold, sbind_unfold. apply IH. apply lift_machine; [by apply set_DS_ok|done|done].
Qed.

End SimInv.

Section SimRun.
Context `{Config} `{Kernel} `{!RecvLaw} `{CRand} {HK : Hooks} `{!HooksSafe}.

Lemma links_two s : sim_ok 2 s -> lift links s = ([0%nat; 1%nat], s).
Proof. intros Hs. rewrite lift_unfold, (links_run 2) by apply Hs. by destruct s. Qed.

Lemma run_all_ok s : sim_ok 2 s -> sim_ok 2 (sim_run_all s).2.
Proof.
  intros Hs. unfold sim_run_all. rewrite sbind_unfold, (links_two s Hs). cbn [fst snd]. rewrite sbind_unfold.
  pose proof (run_ports_ok 2 [0%nat; 1%nat] 0 s Hs ltac:(repeat constructor; lia)) as S1.
  destruct (sim_run_ports _ 0 s) as [d s1]. cbn [fst snd] in *. rewrite sbind_unfold.
  pose proof (lift_quiet 2 (pp_gtimeout PP_TO_BMC) s1 S1 (q_timeout 0 _)) as S2.
  destruct (lift (pp_gtimeout PP_TO_BMC) s1) as [t s2]. cbn [fst snd] in *. destruct t.
  - rewrite !sbind_unfold. apply lift_quiet; [by apply lift_calculate|apply q_timeout_reset_N].
  - rewrite sbind_unfold. cbn [mret SM_ret snd]. apply lift_quiet; [done|apply q_next_delay_1].
Qed.

(** A frame is at least as long as what [sim_net_recv] returns. *)
Definition rx_length (e : sim_env) (j : nat) : Z := Z.of_nat (length (sp_rx (SIM_PPI_ARCH e j))).

Lemma rx_length_chan j t g e : rx_length (set_ppi j (on_sp_chan t g) e) j = rx_length e j.
Proof.
  unfold rx_length, set_ppi, SIM_PPI_ARCH. cbn. rewrite list_lookup_alter_eq. destruct (se_ppi e !! j); [|done]. cbn.
  unfold on_sp_chan. by destruct (t =? _).
Qed.

Lemma recv_msg_length j fd e : (j < length (se_ppi e))%nat ->
  (sim_recv_msg j fd e).1.1 <= rx_length (sim_recv_msg j fd e).2 j.
Proof.
  intros Hj. unfold sim_recv_msg, on_kst. pose proof (recv_fits fd (se_kst e)) as Hr.
  destruct (k_recvmsg fd (se_kst e)) as [r k]. cbn [fst snd] in *. set (e2 := set_ppi j _ _).
  assert (rm_ret r <= rx_length e2 j) as Hlen.
  { unfold rx_length, e2, set_ppi, SIM_PPI_ARCH. cbn. destruct (lookup_lt_is_Some_2 (se_ppi e) j Hj) as [d Ed].
    rewrite list_lookup_alter_eq, Ed. cbn. rewrite length_app. lia. }
  assert (0 <= rx_length e2 j) as Hpos by (unfold rx_length; lia). clearbody e2.
  destruct (Z.leb_spec (rm_ret r) 0); [cbn [fst snd]; destruct (_ || _); lia|].
  destruct (rm_trunc r); [done|]. destruct (rm_ctrunc r); [done|]. cbn [sim_time_get].
  destruct (_ =? PPM_DELAY_RESP); done.
Qed.

Lemma recv_length j e : (j < length (se_ppi e))%nat -> (sim_net_recv j e).1.1 <= rx_length (sim_net_recv j e).2 j.
Proof.
  intros Hj. assert (forall e, 0 <= rx_length e j) as Hpos by (unfold rx_length; lia).
  unfold sim_net_recv. destruct (_ =? _)%nat; [apply Hpos|]. set (ch := sp_chan _ _).
  destruct (0 <? c_present ch); [|etrans; [|apply Hpos]; done].
  pose proof (recv_msg_length j (c_fd ch) e Hj) as Hm. destruct (sim_recv_msg j (c_fd ch) e) as [[ret t] e2]. cbn [fst snd] in *.
  destruct (0 <? ret); [|exact Hm]. etrans; [exact Hm|]. apply Z.eq_le_incl. symmetry. exact (rx_length_chan j _ _ e2).
Qed.

(** The two machines are there, and an answer is for one of them. *)
Lemma env_facts (s : senv) : length (se_ppi (raw s)) = 2%nat /\ (Z.to_nat (which_ppi (head_pkt (raw s))) < 2)%nat.
Proof.
  destruct s as [e He]. cbn. split; [apply He|]. destruct (eo_array e He) as (_ & _ & Hm).
  pose proof (forall_default to_machine (pending (se_ppg e)) 0 ltac:(by left) Hm) as Hh. fold (head_pkt e) in Hh.
  unfold to_machine in Hh. destruct Hh as [-> | ->]; unfold SIM_MASTER, SIM_SLAVE; lia.
Qed.

Lemma op_quiet {T} (f : senv -> T * senv) s : sim_ok 2 s -> sim_ok 2 (lift (op f) s).2.
Proof. intros Hs. apply lift_quiet; [done|walk]. Qed.

Lemma receive_ok j s : sim_ok 2 s -> (j < 2)%nat -> sim_ok 2 (sim_receive j s).2.
Proof.
  intros Hs Hj. unfold sim_receive. rewrite sbind_unfold. change ((lift (rd j last_rcv_time) s).2) with (s <| sw_w := sw_w s |>).
  set (s0 := s <| sw_w := sw_w s |>). assert (sim_ok 2 s0) as S0 by (by destruct s). clearbody s0. rewrite sbind_unfold.
  pose proof (op_quiet (op_env (sim_net_recv j) (env_ok_recv j)) s0 S0) as S1. set (m0 := lift _) in *.
  assert ((m0 s0).1.1 <= rx_length (raw (the_env (sw_w (m0 s0).2))) j) as Hl.
  { unfold m0. rewrite lift_unfold. cbn. apply recv_length. destruct (env_facts (the_env (sw_w s0))) as [-> _]. lia. }
  destruct (m0 s0) as [[ret t] s1]. cbn [fst snd] in *. clear s0 S0 m0. rewrite sbind_unfold. cbn [rde fst snd].
  set (frame := sp_rx _) in *. unfold rx_length in Hl. fold frame in Hl. clearbody frame. rewrite sbind_unfold.
  set (old := (lift (rd j last_rcv_time) s).1). set (m := __recv_and_count j _).
  pose proof (lift_quiet 2 m s1 S1 (q_recv j _)) as S2. assert ((lift m s1).1 = ret) as Er by (rewrite lift_unfold; apply recv_val).
  destruct (lift m s1) as [n s2]. cbn [fst snd] in *. subst n. clear m. rewrite sbind_unfold.
  pose proof (set_DS_ok 2 j s2 S2 Hj) as S3. set (s3 := (sim_set_global_DS j s2).2) in *. clearbody s3. rewrite sbind_unfold.
  rewrite !(lift_unfold (rd j rx_offset) s3). cbn [fst snd rd]. replace (s3 <| sw_w := sw_w s3 |>) with s3 by (by destruct s3).
  apply lift_machine; [done|done|]. assert (j < length (insts (sw_w s3)))%nat as Hj3 by (destruct (so_two 2 s3 S3); lia).
  destruct (sys_inst 2 (sw_w s3) j (so_sys 2 s3 S3) Hj3) as [_ _ _ O _]. rewrite length_drop. lia.
Qed.

Lemma pass_ok ff s : sim_ok 2 s -> sim_ok 2 (lift (pass_time ff) s).2.
Proof. intros Hs. apply lift_quiet; [done|]. unfold pass_time. walk. Qed.

Lemma step_ok delay s : sim_ok 2 s -> sim_ok 2 (sim_step delay s).2.
Proof.
  intros Hs. unfold sim_step. rewrite sbind_unfold. cbn [rde fst snd]. destruct (packet_due _ _).
  - rewrite sbind_unfold. cbn [rde fst snd]. rewrite sbind_unfold. cbn [rde fst snd]. rewrite sbind_unfold.
    set (j := Z.to_nat _). assert (j < 2)%nat as Hj by apply env_facts. clearbody j. set (ff := delay_ns _). clearbody ff.
    pose proof (pass_ok ff s Hs) as S1. destruct (lift (pass_time ff) s) as [[c|] s1]; [done|]. cbn [fst snd] in *.
    rewrite sbind_unfold. cbn [rde fst snd]. rewrite sbind_unfold. by apply receive_ok.
  - rewrite sbind_unfold. pose proof (pass_ok delay s Hs) as S1. destruct (lift (pass_time delay) s) as [[c|] s1]; [done|].
    cbn [fst snd] in *. rewrite sbind_unfold, sbind_unfold. by apply run_all_ok.
Qed.

Lemma sim_loop_ok n delay s : sim_ok 2 s -> sim_ok 2 (sim_loop n delay s).2.
Proof.
  revert delay s. induction n as [|n IH]; intros delay s Hs; [done|]. cbn [sim_loop]. rewrite sbind_unfold.
  pose proof (step_ok delay s Hs) as S1. destruct (sim_step delay s) as [[d| |c] s1]; [by apply IH|done..].
Qed.

Lemma main_loop_ok n s : sim_ok 2 s -> sim_ok 2 (sim_main_loop n s).2.
Proof.
  intros Hs. unfold sim_main_loop. rewrite sbind_unfold, (links_two s Hs). cbn [fst snd]. rewrite sbind_unfold.
  set (g := fun p => p <| is_new_state := true |> <| state := PPS_INITIALIZING |> <| link_up := 1 |>).
  set (m := for_each _ _). assert (sim_ok 2 (lift m s).2) as S1.
  { apply lift_ok; [done| |]; unfold m; cbn [for_each]; rewrite !bind_wr; cbn [mret M_ret snd].
    - assert (forall w i, sys_ok 2 w -> sys_ok 2 (set_inst w i g)) as Hg; [|by apply Hg, Hg, Hs]. intros w i Hw.
      apply sys_ok_set; [done|]. intros _ [T S D O Hh]. split; [by refine (table_ok_view _ _ _ T)|by vm_compute|done..].
    - by rewrite !des_wr. }
  set (s1 := (lift m s).2) in *. clearbody s1. rewrite sbind_unfold. pose proof (run_all_ok s1 S1) as S2.
  destruct (sim_run_all s1) as [ms s2]. cbn [fst snd] in *. rewrite sbind_unfold. cbn [rde fst snd].
  destruct (_ <=? _); [by apply sim_loop_ok|done].
Qed.

End SimRun.

(** ** From [main] *)

Section SimStart.
Context `{Config} `{Kernel} `{!RecvLaw} `{CRand} {HK : Hooks} `{!HooksSafe} `{!ConfBuild} (has_wr : bool).

(** Before [pp_init_globals] of a machine. *)
Record sim_pre (s : sim_world) : Prop := {
  sp_alloc : allocated (sw_w s);
  sp_links : nlinks (glbs (sw_w s)) = 2;
  sp_two : length (sw_ds s) = 2%nat /\ (sw_active s < 2)%nat }.

(** Every machine has external configuration. *)
Definition epc_always : bool :=
  negb CONFIG_HAS_CODEOPT_EXT_PORT_CONF_FORCE_DISABLED && CONFIG_HAS_CODEOPT_EPC_ENABLED.
Lemma epc_of_always d : epc_always = true -> is_externalPortConfigurationEnabled d = true.
Proof. unfold epc_always, is_externalPortConfigurationEnabled. by intros [-> ->]%andb_true_iff. Qed.
Lemma epc_zero d : epc_always = false -> def_externalPortConfigurationEnabled d = 0 -> is_externalPortConfigurationEnabled d = false.
Proof. unfold epc_always, is_externalPortConfigurationEnabled. intros E ->. cbn. by rewrite orb_false_r. Qed.

(** The configured states are valid for a machine with external configuration. *)
Definition ds_ok (s : sim_world) : Prop := epc_always = false ->
  Forall (fun d => ds_epc d = true -> Forall valid_state (des (sw_w s))) (sw_ds s) /\
  (epc (sw_w s) = true -> Forall valid_state (des (sw_w s))).

(** Code on the instances and the platform that changes nothing the invariant reads. *)
Lemma pre_lift {A} (m : M A) s : guar (same_view (fun p => (alloc_view p, desiredState p)) id) m -> sim_pre s -> ds_ok s ->
  sim_pre (lift m s).2 /\ ds_ok (lift m s).2.
Proof.
  intros Hm [[Hi Hk Hr Hs Ha] L T] D. rewrite lift_unfold. set (w := sw_w s) in *. specialize (Hm w). set (w' := (m w).2) in *. clearbody w'.
  destruct (same_view_parts _ _ _ _ Hm) as (Hl & Hg & Ha'). unfold id in Hg.
  assert (des w' = des w) as Ed by exact (f_equal (fun v => v.1.1) (same_view_comp _ _ snd _ _ Hm)).
  split; [split; cbn; [split| |done]|intros E; destruct (D E); split; cbn].
  - rewrite Forall_insts in *. rewrite Hl. intros j Hj. destruct (same_view_inst _ _ _ _ j Hm Hj) as [E _].
    eapply alloc_view_inst; [exact (f_equal fst E)|auto].
  - by rewrite Hg, Hl.
  - by rewrite Hg.
  - by rewrite Hg.
  - by rewrite Ha'.
  - by rewrite Hg.
  - by rewrite Ed.
  - unfold epc. by rewrite Hg, Ed.
Qed.

Lemma pre_set_DS j s : sim_pre s -> ds_ok s -> (j < 2)%nat ->
  sim_pre (sim_set_global_DS j s).2 /\ ds_ok (sim_set_global_DS j s).2.
Proof.
  intros [[Hi Hk Hr Hs Ha] L (T1 & T2)] D Hj. unfold sim_set_global_DS. cbn [snd].
  set (ds := <[sw_active s := _]> _). assert (length ds = 2%nat) as Lds by (unfold ds; by rewrite length_insert).
  assert (epc_always = false -> Forall (fun d => ds_epc d = true -> Forall valid_state (des (sw_w s))) ds) as Hds
    by (intros E; destruct (D E); by apply Forall_insert).
  clearbody ds. destruct (lookup_lt_is_Some_2 ds j ltac:(lia)) as [d Ed]. rewrite Ed. cbn [default from_option id].
  split; [split; [split|done|by split]; done|]. intros E. specialize (Hds E). split; [exact Hds|].
  rewrite Forall_lookup in Hds. apply (Hds j d Ed).
Qed.

Lemma init_port_pre pcs j s : own_data_only hk_open -> (j < 2)%nat -> sim_pre s -> ds_ok s ->
  let s' := (sim_init_port pcs j s).2 in sim_pre s' /\ ds_ok s' /\ sys_ok 2 (sw_w s').
Proof.
  intros Ho Hj P0 D0. cbn zeta. unfold sim_init_port. rewrite sbind_unfold. destruct (pre_set_DS j s P0 D0 Hj) as [P1 D1].
  set (s1 := (sim_set_global_DS j s).2) in *. clearbody s1. rewrite sbind_unfold.
  match goal with |- context [lift ?m s1] => destruct (pre_lift m s1 ltac:(walk) P1 D1) as [P2 D2]; set (s2 := (lift m s1).2) in *; clearbody s2 end.
  rewrite sbind_unfold.
  match goal with |- context [lift ?m s2] => destruct (pre_lift m s2 ltac:(walk) P2 D2) as [P3 D3]; set (s3 := (lift m s2).2) in *; clearbody s3 end.
  rewrite sbind_unfold.
  match goal with |- context [lift ?m s3] => destruct (pre_lift m s3 ltac:(walk) P3 D3) as [P4 D4]; set (s4 := (lift m s3).2) in *; clearbody s4 end.
  rewrite sbind_unfold. cbn [mret SM_ret snd]. clear s s1 s2 s3 P0 P1 P2 P3 D0 D1 D2 D3. rewrite lift_unfold. cbn [snd].
  unfold OPTS. rewrite !bind_rdG. set (o := rt_opts _). destruct P4 as [A L T]. pose proof (init_sys true o (sw_w s4) A) as S.
  destruct (init_again true o (sw_w s4) Ho A) as [A' Dn]. rewrite L in S. set (w' := (pp_init_globals true o (sw_w s4)).2) in *. clearbody w'.
  split; [split; [done|apply S|done]|]. split; [|exact S]. intros E. destruct (D4 E) as [F _]. split; [|apply (sys_desired 2), S].
  eapply list.Forall_impl; [exact F|]. intros d Hd He. cbn. by apply Dn, Hd.
Qed.

Lemma asym_alloc pc e q : alloc_view (enable_asymmetryCorrection pc e q) = alloc_view q.
Proof. unfold enable_asymmetryCorrection. destruct (e =? 1); reflexivity. Qed.
Lemma sim_ppi_alloc p tx : alloc_view (sim_ppi_init has_wr p tx) = alloc_view p.
Proof. unfold sim_ppi_init. destruct CONFIG_HAS_EXT_L1SYNC; [rewrite asym_alloc|]; reflexivity. Qed.

Lemma sim_start_pre k rx tx pcs opts os : length pcs = 2%nat -> CONFIG_HAS_CODEOPT_SINGLE_PORT = false ->
  Forall (fun pc => valid_state (u8 (pc_desiredState pc))) pcs ->
  let s := sim_start has_wr k rx tx pcs opts os in sim_pre s /\ ds_ok s.
Proof.
  intros Hl Hs Hv. cbn zeta. assert (length (imap (fun i pc => sim_ppi_init has_wr (inst_of pc) (tx i)) pcs) = 2%nat) as Li by (by rewrite length_imap).
  split; [split; [split|cbn; by rewrite Hl|split; [done|cbn; unfold SIM_SLAVE; lia]]|].
  - cbn. apply Forall_lookup. intros i p. rewrite list_lookup_imap. intros (pc & Ep & ->)%fmap_Some.
    apply (proj1 (Forall_lookup _ _)) with (i := i) (x := pc) in Hv; [|done].
    eapply alloc_view_inst; [apply sim_ppi_alloc|]. split_and!; [apply length_replicate|done|done|done|exact Hv].
  - cbn. by rewrite length_imap.
  - cbn. rewrite Hl. lia.
  - rewrite Hs. done.
  - done.
  - intros E. split; [|intros He; exfalso; revert He]; cbn.
    + do 2 (apply List.Forall_cons; [by (unfold ds_epc; rewrite epc_zero)|]). apply List.Forall_nil.
    + unfold epc. cbn. by rewrite epc_zero.
Qed.

Lemma sim_init_ok k rx tx pcs opts os : own_data_only hk_open -> length pcs = 2%nat -> CONFIG_HAS_CODEOPT_SINGLE_PORT = false ->
  Forall (fun pc => valid_state (u8 (pc_desiredState pc))) pcs ->
  sim_ok 2 (sim_init_ports pcs (seq 0 (length pcs)) (sim_start has_wr k rx tx pcs opts os)).2.
Proof.
  intros Ho Hl Hs Hv. destruct (sim_start_pre k rx tx pcs opts os Hl Hs Hv) as [P0 D0].
  set (s := sim_start has_wr k rx tx pcs opts os) in *. clearbody s. rewrite Hl. cbn [seq sim_init_ports].
  rewrite sbind_unfold. destruct (init_port_pre pcs 0 s Ho ltac:(lia) P0 D0) as (P1 & D1 & _). set (s1 := (sim_init_port pcs 0 s).2) in *. clearbody s1.
  rewrite sbind_unfold. destruct (init_port_pre pcs 1 s1 Ho ltac:(lia) P1 D1) as (P2 & D2 & S2). set (s2 := (sim_init_port pcs 1 s1).2) in *. clearbody s2.
  cbn [mret SM_ret snd]. destruct P2 as [A L (T1 & T2)]. split; [exact S2|split_and!; [done..|]|].
  - pose proof (al_links _ A). lia.
  - destruct epc_always eqn:E; [|apply (D2 E)]. apply List.Forall_forall. intros d _ _. apply (sys_desired 2); [done|].
    unfold epc. by apply epc_of_always.
Qed.

End SimStart.
