(* ===== verification/SimSpec.v ===== *)
(** * The simulator: theorems

    The queue of packets in flight refines ordered insertion; Sync messages
    arrive before their Follow_Up; clocks advance at their rate; the
    simulation is safe.  A run of master and slave, from the initial offset
    to a slave that follows, is evaluated at the end. *)

From stdpp Require Import sorting.
From S2P Require Import Prelude TimeArith Types World Timeout Hooks Bytes Msg FixedPoint Servo.
From S2P Require Import BmcCmp ClockQuality Bmc BmcTable BmcDecision Common States Fsm OpenClose Safety MainLoop Startup.
From S2P Require Import Scan Conf ConfSpec UnixMain UnixNet Sim SimQueue SimLoop SimSafe Wrh WrMsg WrStates WrHooks L1Sync Extensions.

(** ** The queue *)

Inductive q_op := q_send (p : sim_pending_pkt) | q_receive.

Definition q_array (d : sim_ppg_arch_data) (o : q_op) : sim_ppg_arch_data :=
  match o with q_send p => insert_pending d p | q_receive => pending_received d end.
Definition q_list (l : list sim_pending_pkt) (o : q_op) : list sim_pending_pkt :=
  match o with q_send p => pq_insert p l | q_receive => tail l end.

(** Packets are sent to the two machines only, and there is room for each. *)
Fixpoint q_fits (l : list sim_pending_pkt) (os : list q_op) : Prop :=
  match os with
  | [] => True
  | o :: os => match o with q_send p => to_machine p /\ (length l < MAX_PENDING)%nat | q_receive => True end /\
      q_fits (q_list l o) os
  end.

Lemma sorted_tail l : sorted l -> sorted (tail l).
Proof. destruct l; [done|]. by intros [Hs _]%StronglySorted_inv. Qed.

Lemma q_step d o : array_ok d -> sorted (queue d) ->
  match o with q_send p => to_machine p /\ (length (queue d) < MAX_PENDING)%nat | q_receive => True end ->
  array_ok (q_array d o) /\ sorted (queue (q_array d o)) /\ queue (q_array d o) = q_list (queue d) o.
Proof.
  intros Ha Hs Ho. destruct o as [p|]; cbn [q_array q_list].
  - destruct Ho as [Hp Hl]. assert (pending_full d = false) as Hf.
    { unfold pending_full. apply Nat.leb_gt. by rewrite <- length_queue. }
    rewrite insert_queue by done. split_and!; [by apply insert_array|by apply pq_insert_sorted|done].
  - rewrite received_queue by done. split_and!; [by apply received_array|by apply sorted_tail|done].
Qed.

(** C24. The packets in flight. Over any sequence of sendings and receptions that fits, the array
    of 64 packets, with its insertion by shifting in place and its removal by moving everything
    down, holds what ordered insertion into a list and removal of the head give; it stays sorted,
    and no packet has priority over the first. *)
Theorem pending_refines (os : list q_op) (d : sim_ppg_arch_data) :
  array_ok d -> sorted (queue d) -> q_fits (queue d) os ->
  let d' := foldl q_array d os in
  queue d' = foldl q_list (queue d) os /\ sorted (queue d') /\
  forall p q, head (queue d') = Some p -> In q (queue d') -> compare_pending q p = false.
Proof.
  revert d. induction os as [|o os IH]; intros d Ha Hs Hf; cbn [foldl].
  - split_and!; [done..|]. intros p q Hp Hq. destruct (queue d) as [|x l]; [done|]. injection Hp as ->.
    apply StronglySorted_inv in Hs as [_ Hx]. destruct Hq as [->|Hq]; [by_order|].
    rewrite list.Forall_forall in Hx. by apply Hx, list_elem_of_In.
  - destruct Hf as [Ho Hf]. destruct (q_step d o Ha Hs Ho) as (Ha' & Hs' & Eq). rewrite <- Eq. apply IH; [done..|]. by rewrite Eq.
Qed.

(** ** Sync and Follow_Up *)

Section Network.
Context `{Config} `{Kernel} `{CRand}.

(** What a sending adds to the queue. *)
Lemma send_queue i pkt len fmt e : env_ok e -> (i < 2)%nat -> let e' := (sim_net_send i pkt len fmt e).2 in
  let d := n_delay (SIM_PPI_ARCH e i) in let jit := out_jitter d (rand_nth (se_rand e)) pkt in
  se_wild e' = false ->
  se_wild e = false /\ 0 <= jit /\
  queue (se_ppg e') = pq_insert (mk_pkt (t_prop_ns d + jit) (if pp_sim_is_master i then SIM_SLAVE else SIM_MASTER)
    (mf_chtype (msg_fmt fmt))) (queue (se_ppg e)) /\
  n_delay (SIM_PPI_ARCH e' i) = d <| last_outgoing_jit_ns := u64 jit |>.
Proof.
  intros He Hi. cbn zeta. unfold sim_net_send. cbn [sim_time_get]. set (f := k_sendto _ _ _ _).
  unfold on_kst. destruct (f (se_kst e)) as [ret k]. cbn [fst snd].
  change (SIM_PPI_ARCH (e <| se_kst := k |>) i) with (SIM_PPI_ARCH e i). set (d := n_delay _).
  change (se_rand (e <| se_kst := k |>)) with (se_rand e). set (jit := out_jitter _ _ _).
  set (new := mk_pkt _ _ _). set (e2 := set_ppi i _ _). change (se_ppg e2) with (se_ppg e).
  set (b := negb _ || _ || _). set (e3 := wild_if b e2).
  assert (se_ppg e3 = se_ppg e /\ se_ppi e3 = se_ppi e2) as [Eg Ep] by (unfold e3, wild_if; by destruct b).
  rewrite Eg. intros Hw. assert (se_wild e3 = false) as [Hb Hw2]%wild_if_false by (by destruct (pending_full (se_ppg e))).
  pose proof Hb as Hb'. unfold b in Hb. rewrite !orb_false_iff, negb_false_iff, in_i64_iff, Z.ltb_ge in Hb. destruct Hb as [[Hr Hj] Hf].
  rewrite Hf. split_and!; [done|done| |].
  - transitivity (queue (insert_pending (se_ppg e3) new)); [reflexivity|]. rewrite Eg, insert_queue; [|apply He|done|by apply (eo_queue e He)]. unfold new. by rewrite i64_id by done.
  - unfold SIM_PPI_ARCH. cbn. rewrite Ep. unfold e2. cbn.
    pose proof (eo_ppi e He) as L. destruct (lookup_lt_is_Some_2 (se_ppi e) i ltac:(lia)) as [x Ex].
    rewrite list_lookup_alter_ne by lia. rewrite list_lookup_alter_eq, Ex. cbn. unfold d, SIM_PPI_ARCH. by rewrite Ex.
Qed.

(** A packet that has no priority over one in the queue is put after it. *)
Lemma pq_insert_follows p s l : sorted l -> In s l -> compare_pending p s = false ->
  exists l1 l2 l3, pq_insert p l = l1 ++ s :: l2 ++ p :: l3.
Proof.
  intros Hs Hin Hc. induction Hs as [|x l Hs IH Hx]; [done|]. cbn [pq_insert]. destruct Hin as [->|Hin].
  - rewrite Hc. clear. assert (exists l2 l3, pq_insert p l = l2 ++ p :: l3) as (l2 & l3 & ->); [|by exists [], l2, l3].
    induction l as [|y l (l2 & l3 & IH)]; cbn; [by exists [], []|]. destruct (compare_pending p y); [by exists [], (y :: l)|].
    exists (y :: l2), l3. by rewrite IH.
  - assert (compare_pending p x = false) as ->.
    { rewrite list.Forall_forall in Hx. specialize (Hx s). rewrite list_elem_of_In in Hx. specialize (Hx Hin). unfold may_follow in Hx. by_order. }
    destruct (IH Hin) as (l1 & l2 & l3 & ->). by exists (x :: l1), l2, l3.
Qed.

(** Sync before Follow_Up. A Follow_Up that is sent after a Sync, with no time passing in
    between and whatever the jitter, is behind it in the queue; the packets already in flight
    are still there. *)
Theorem follow_up_after_sync (e : sim_env) (sync fup : list Z) (len len' : Z) :
  env_ok e -> Z.land (get8 fup 0) 0x0F = PPM_FOLLOW_UP ->
  let e1 := (sim_net_send 0 sync len PPM_SYNC_FMT e).2 in
  let e2 := (sim_net_send 0 fup len' PPM_FOLLOW_UP_FMT e1).2 in
  se_wild e2 = false ->
  exists s f l1 l2 l3, queue (se_ppg e2) = l1 ++ s :: l2 ++ f :: l3 /\
    which_ppi s = SIM_SLAVE /\ pk_chtype s = PP_NP_EVT /\ which_ppi f = SIM_SLAVE /\ pk_chtype f = PP_NP_GEN /\
    0 <= delay_ns s <= delay_ns f /\ Permutation (queue (se_ppg e2)) (f :: s :: queue (se_ppg e)).
Proof.
  intros He Hf e1 e2 Hw. assert (env_ok e1) as He1 by (by apply env_ok_send).
  destruct (send_queue 0 fup len' PPM_FOLLOW_UP_FMT e1 He1 ltac:(lia) Hw) as (Hw1 & J2 & Q2 & _).
  destruct (send_queue 0 sync len PPM_SYNC_FMT e He ltac:(lia) Hw1) as (Hw0 & J1 & Q1 & D1).
  set (d := n_delay (SIM_PPI_ARCH e 0)) in *. set (j1 := out_jitter d _ sync) in *. fold e1 in Q1, D1. fold e2 in Q2.
  rewrite D1 in J2, Q2. set (j2 := out_jitter _ _ fup) in *. cbn [t_prop_ns] in Q2.
  assert (j1 <= j2) as Hj.
  { unfold j2, out_jitter. cbn [last_outgoing_jit_ns]. rewrite Hf, Z.eqb_refl.
    unfold j2, out_jitter in J2. cbn [last_outgoing_jit_ns] in J2. rewrite Hf, Z.eqb_refl in J2.
    change (last_outgoing_jit_ns (d <| last_outgoing_jit_ns := u64 j1 |>)) with (u64 j1) in *.
    assert (j1 < 9223372036854775808) as Hm by (unfold j1, out_jitter; apply i64_range).
    rewrite (u64_id j1), (i64_id j1), (u64_id j1) in * by lia.
    match goal with |- context [u64 ?a / RAND_MAX] => pose proof (u64_range a) as Hx; set (x := u64 a) in * end.
    assert (0 <= x / RAND_MAX < 9223372036854775808) as Hq by (unfold RAND_MAX; clearbody x; dlia).
    rewrite u64_id in * by lia. set (y := x / RAND_MAX) in *. clearbody y. unfold i64 in *. dlia. }
  pose proof (t_prop_range e 0 He) as Hp. fold d in Hp.
  set (s := mk_pkt (t_prop_ns d + j1) _ _) in Q1. rewrite Q1 in Q2. set (f := mk_pkt _ _ _) in Q2.
  destruct (eo_queue e He Hw0) as [Hso _]. rewrite Q2.
  assert (delay_ns f = t_prop_ns d + j2 /\ delay_ns s = t_prop_ns d + j1) as [Df Ds] by done.
  assert (which_ppi f = SIM_SLAVE /\ which_ppi s = SIM_SLAVE /\ pk_chtype f = PP_NP_GEN /\ pk_chtype s = PP_NP_EVT)
    as (Wf & Ws & Cf & Cs) by done. clearbody s f.
  assert (compare_pending f s = false) as Hc.
  { rewrite compare_false, compare_true, Df, Ds, Wf, Ws, Cf, Cs. unfold PP_NP_GEN, PP_NP_EVT. lia. }
  destruct (pq_insert_follows f s (pq_insert s (queue (se_ppg e)))) as (l1 & l2 & l3 & E); [by apply pq_insert_sorted| |done|].
  { apply (Permutation_in _ (Permutation_sym (pq_insert_perm s _))). by left. }
  exists s, f, l1, l2, l3. split_and!; [exact E|done|done|done|done| | |].
  - lia.
  - lia.
  - rewrite pq_insert_perm. apply perm_skip, pq_insert_perm.
Qed.

End Network.

(** ** The clocks *)

Lemma ppb_quot x y : -9223372036854775808 <= x * y < 9223372036854775808 -> ppb x y = Z.quot (x * y) 1000000000.
Proof. intros Hr. unfold ppb. rewrite i64_id by done. by rewrite !Z.quot_quot by lia. Qed.

Lemma quot_error a b : 0 < b -> Z.abs (a - b * Z.quot a b) < b.
Proof. intros Hb. pose proof (Z.quot_rem' a b). pose proof (Z.rem_bound_abs a b ltac:(lia)). lia. Qed.

(** The rate of a simulated clock. A clock of at most 1000 ppm whose servo applies a correction
    within its limit advances, when up to 9000 s pass, by the time times both rates with an error
    of less than 3 ns, and never goes back. *)
Theorem sim_clock_rate (t : pp_sim_time_instance) (ff : Z) :
  Z.abs (freq_ppb_real t) <= 1000000 -> Z.abs (freq_ppb_servo t) <= PP_ADJ_FREQ_MAX ->
  0 <= ff <= 9000000000000 -> 0 <= current_ns t < 4611686018427387904 ->
  let advance := current_ns (ff_clock ff t) - current_ns t in
  Z.abs (advance * (1000000000 * 1000000000) - ff * (1000000000 + freq_ppb_real t) * (1000000000 + freq_ppb_servo t))
    < 3 * (1000000000 * 1000000000) /\
  0 <= advance /\ freq_ppb_real (ff_clock ff t) = freq_ppb_real t /\ freq_ppb_servo (ff_clock ff t) = freq_ppb_servo t.
Proof.
  intros Hr Hs Hf Hc. unfold PP_ADJ_FREQ_MAX in Hs. unfold ff_clock. cbn zeta. set (r := freq_ppb_real t) in *. set (v := freq_ppb_servo t) in *.
  set (c := current_ns t) in *. assert (Z.abs (r * ff) <= 1000000 * 9000000000000) as Br by nia.
  rewrite (ppb_quot r ff) by lia. pose proof (quot_error (r * ff) 1000000000 ltac:(lia)) as E1.
  set (q1 := Z.quot (r * ff) 1000000000) in *. clearbody q1.
  assert (0 <= ff + q1 <= 10000000000000) as Bt by nia. rewrite (i64_id (ff + q1)) by lia. set (tmp := ff + q1) in *.
  assert (Z.abs (v * tmp) <= 512000 * 10000000000000) as Bv by nia.
  rewrite (ppb_quot v tmp) by lia. pose proof (quot_error (v * tmp) 1000000000 ltac:(lia)) as E2.
  set (q2 := Z.quot (v * tmp) 1000000000) in *. clearbody q2.
  assert (0 <= tmp + q2 <= 11000000000000) as Ba by nia. rewrite (i64_id (tmp + q2)) by lia.
  change (current_ns (upd current_ns (fun n => i64 (n + (tmp + q2))) t)) with (i64 (c + (tmp + q2))).
  rewrite i64_id by lia. replace (c + (tmp + q2) - c) with (tmp + q2) by lia. split; [|split; [lia|done]].
  assert ((tmp + q2) * (1000000000 * 1000000000) - ff * (1000000000 + r) * (1000000000 + v) =
    - (v * tmp - 1000000000 * q2) * 1000000000 - (r * ff - 1000000000 * q1) * (1000000000 + v)) as -> by (unfold tmp; ring).
  set (a := v * tmp - 1000000000 * q2) in *. set (b := r * ff - 1000000000 * q1) in *. clearbody a b.
  assert (Z.abs (b * (1000000000 + v)) <= 1000000000 * 1000512000) by (clear - E1 Hs; nia). lia.
Qed.

(** What is set is read back, in whole nanoseconds. *)
Theorem sim_time_set_get `{Config} `{Kernel} `{CRand} (e : sim_env) (i : nat) (t : pp_time) :
  (i < length (se_ppi e))%nat -> 0 <= secs t < 9000000000 -> 0 <= scaled_nsecs t < 65536000000000 ->
  (sim_time_get i (sim_time_set i (Some t) e)).1 = mk_time (secs t) (Z.shiftl (Z.shiftr (scaled_nsecs t) 16) 16).
Proof.
  intros Hi Hs Hn. unfold sim_time_get, sim_time_set, sim_time, set_time, set_ppi, SIM_PPI_ARCH, PP_NSEC_PER_SEC. cbn [fst].
  destruct (lookup_lt_is_Some_2 (se_ppi e) i Hi) as [d Ed].
  change (se_ppi (upd se_ppi (alter ?g i) e)) with (alter g i (se_ppi e)).
  cbn. rewrite list_lookup_alter_eq, Ed. cbn. rewrite Z.shiftr_div_pow2 by lia. change (2 ^ 16) with 65536.
  set (n := scaled_nsecs t / 65536). assert (0 <= n < 1000000000) as Bn by (unfold n; dlia). clearbody n.
  rewrite (i64_id (secs t * _)), i64_id by lia. rewrite Z.quot_div_nonneg, Z.rem_mod_nonneg by lia.
  rewrite Z.div_add, Z.mod_add, Z.div_small, Z.mod_small by lia. rewrite Z.shiftl_mul_pow2 by lia. rewrite i64_id by lia. f_equal; lia.
Qed.

(** ** Safety *)

Section Exit.
Context `{Config} `{Kernel} `{CRand} {HK : Hooks}.

Definition overflowed (s : sim_world) : bool := se_wild (raw (the_env (sw_w s))).
Definition sim_null_called (s : sim_world) : bool := se_null (raw (the_env (sw_w s))).

Lemma pass_exit ff s c : (lift (pass_time ff) s).1 = Some c ->
  (se_wild (raw (the_env (sw_w s))) = false -> Forall (fun p => ff <= delay_ns p) (queue (se_ppg (raw (the_env (sw_w s)))))) ->
  overflowed (lift (pass_time ff) s).2 = true.
Proof.
  rewrite lift_unfold. unfold overflowed, pass_time. rewrite !bind_rdG. unfold op, op_env. destruct (the_env (sw_w s)) as [e He]. cbn [fst snd raw proj1_sig].
  set (n := Z.to_nat _). destruct (fast_forward n ff e He) as [_ Hff]. intros Hc Hq. cbn in *.
  destruct (se_wild (sim_fast_forward_ns n ff e).2) eqn:Ew; [done|]. destruct (Hff eq_refl) as [Hw Hn]. rewrite Hn in Hc by auto. done.
Qed.

Lemma step_exit delay s c : (sim_step delay s).1 = sim_exit c -> overflowed (sim_step delay s).2 = true.
Proof.
  unfold sim_step. rewrite sbind_unfold. cbn [rde fst snd].
  assert (forall s, env_ok (raw (the_env (sw_w s)))) as Hok by (intros s0; apply (proj2_sig (the_env (sw_w s0)))). specialize (Hok s).
  set (e := raw (the_env (sw_w s))) in *. destruct (packet_due delay e) eqn:Ed.
  - rewrite sbind_unfold. cbn [rde fst snd]. rewrite sbind_unfold. cbn [rde fst snd]. rewrite sbind_unfold. fold e.
    pose proof (pass_exit (delay_ns (head_pkt e)) s) as Hp. fold e in Hp. destruct (lift (pass_time _) s) as [[c'|] s1]; cbn [fst snd] in *.
    + intros _. apply (Hp c'); [done|]. intros Hw. apply head_first; [done|done|].
      unfold packet_due in Ed. by destruct (Nat.eqb_spec (n_pending (se_ppg e)) 0).
    + rewrite sbind_unfold. cbn [rde fst snd]. rewrite sbind_unfold. by destruct (sim_receive _ s1).
  - rewrite sbind_unfold. pose proof (pass_exit delay s) as Hp. fold e in Hp. destruct (lift (pass_time _) s) as [[c'|] s1]; cbn [fst snd] in *.
    + intros _. apply (Hp c'); [done|]. intros Hw. unfold packet_due in Ed. destruct (Nat.eqb_spec (n_pending (se_ppg e)) 0) as [En|Hn].
      * pose proof (length_queue _ (eo_array e Hok)) as L. rewrite En in L. by destruct (queue (se_ppg e)).
      * cbn in Ed. apply Z.leb_gt in Ed. destruct (head_first e Hok Hw Hn) as (_ & _ & Hf).
        eapply list.Forall_impl; [exact Hf|]. intros p. cbn. lia.
    + rewrite sbind_unfold. destruct (sim_run_all s1) as [ms s2]. cbn [fst snd]. rewrite sbind_unfold. cbn [rde fst snd].
      by destruct (_ <=? _).
Qed.

Lemma loop_exit n delay s c : (sim_loop n delay s).1 = sim_exit c -> overflowed (sim_loop n delay s).2 = true.
Proof.
  revert delay s. induction n as [|n IH]; intros delay s; cbn [sim_loop]; [done|]. rewrite !sbind_unfold.
  pose proof (step_exit delay s c) as Hs. destruct (sim_step delay s) as [[d| |c'] s1]; cbn [fst snd] in *; [apply IH|done|exact Hs].
Qed.

Lemma main_loop_exit n s c : (sim_main_loop n s).1 = sim_exit c -> overflowed (sim_main_loop n s).2 = true.
Proof.
  unfold sim_main_loop. rewrite !sbind_unfold. cbn [rde fst snd]. set (s1 := (sim_run_all _).2). set (ms := (sim_run_all _).1).
  destruct (_ <=? _); [apply loop_exit|done].
Qed.
End Exit.

(** C23. The simulator, in a build for several ports. From [main] on, with two ports whose desired
    states are states, any options, any jitter, any behaviour of the sockets (a message has the
    length [recvmsg] says) and any number of steps, with plain PTP or any extension that keeps the
    contract and whose [open] hook writes the data of its own port only: unless on the way a
    packet was stored outside of the array of packets or a delay overflowed, or the null pointer
    [locking_disable] was called, the two machines, which take turns with the data sets, have run
    without a failed assertion, are in states of the table, have well-formed foreign master
    tables, and the exit on a packet that should have been received before was not taken. *)
Theorem simulator_safe `{Config} `{Kernel} `{!RecvLaw} `{CRand} {HK : Hooks} `{!HooksSafe} `{!ConfBuild} (has_wr : bool)
  (k : kst) (rx tx : nat -> list Z) (pcs : list port_conf) (opts : pp_runtime_opts) (os : list sim_option) (steps : nat) :
  own_data_only hk_open -> length pcs = 2%nat -> CONFIG_HAS_CODEOPT_SINGLE_PORT = false ->
  Forall (fun pc => valid_state (u8 (pc_desiredState pc))) pcs ->
  let r := sim_main has_wr k rx tx pcs opts os steps in
  overflowed r.2 = true \/ sim_null_called r.2 = true \/
  assert_failed (sw_w r.2) = false /\ Forall (fun p => valid_state (state p)) (insts (sw_w r.2)) /\ tables_ok (sw_w r.2) /\
  forall c, r.1 <> sim_exit c.
Proof.
  intros Ho Hl Hs Hv. cbn zeta. unfold sim_main. rewrite sbind_unfold.
  pose proof (sim_init_ok has_wr k rx tx pcs opts os Ho Hl Hs Hv) as S. set (s := (sim_init_ports _ _ _).2) in *. clearbody s.
  pose proof (main_loop_exit steps s) as Hx. destruct (main_loop_ok steps s S) as [[L T St D O Hh Ha] _ _].
  destruct (overflowed _); [by left|]. right. right. split_and!; [done..|]. intros c Hc. by specialize (Hx c Hc).
Qed.

(** White Rabbit and L1Sync keep to their own data when they are opened. *)
Lemma ext_open_own `{Config, Platform} {WO : WrhOper} {WC : WrConfig} : own_data_only (HK := ext_hooks) hk_open.
Proof.
  intros [] f i; cbn; intros [= <-]; (split; [by intros w|]); [|unfold l1e_open; walk].
  unfold wr_open, setWRP. walk.
Qed.

(** ** Runs *)

Module SimDemo.
#[local] Instance demo_cfg : Config := Demo.demo_config.

(** The UDP of one host: a datagram waits at the port it was sent to. *)
Record kern := mk_kern { kn_next : Z; kn_port : list (Z * Z); kn_q : list (Z * list (list Z)) }.
Definition find {A} (k : Z) (l : list (Z * A)) (d : A) : A :=
  match List.find (fun x => x.1 =? k) l with Some x => x.2 | None => d end.
Definition waiting (k : kern) (port : Z) : list (list Z) := find port (kn_q k) [].
Definition set_waiting (k : kern) (port : Z) (q : list (list Z)) : kern :=
  mk_kern (kn_next k) (kn_port k) ((port, q) :: List.filter (fun x => negb (x.1 =? port)) (kn_q k)).

#[export] Instance udp_kernel : Kernel := {|
  kst := kern;
  k_socket _ k := (kn_next k, mk_kern (kn_next k + 1) (kn_port k) (kn_q k));
  k_close fd k := mk_kern (kn_next k) (List.filter (fun x => negb (x.1 =? fd)) (kn_port k)) (kn_q k);
  k_ifindex _ _ k := (Some 1, k);
  k_hwaddr _ _ k := (None, k);
  k_ifaddr _ _ k := (None, k);
  k_bind_packet _ _ _ k := (0, k);
  k_bind_udp fd port k := (0, mk_kern (kn_next k) ((fd, port) :: kn_port k) (kn_q k));
  k_setsockopt _ _ k := (0, k);
  k_recvmsg fd k :=
    let port := find fd (kn_port k) 0 in
    match waiting k port with
    | [] => (mk_recvmsg (-1) EAGAIN [] false false None None, k)
    | d :: q => (mk_recvmsg (Z.of_nat (length d)) 0 d false false None None, set_waiting k port q)
    end;
  k_send _ f k := (Z.of_nat (length f), k);
  k_sendto _ port _ f k := (Z.of_nat (length f), set_waiting k port (waiting k port ++ [f]));
  k_select _ _ _ k := (sel_error 0, k);
  k_realtime k := ((1000, 5), k) |}.

#[export] Instance udp_recv : RecvLaw.
Proof. constructor. intros fd k. cbn. by destruct (waiting k _). Defined.

#[export] Instance demo_rand : CRand.
Proof.
  refine {| rand_nth n := (Z.of_nat n * 1103515245 + 12345) mod 2147483648 |}. intros n.
  pose proof (Z.mod_pos_bound (Z.of_nat n * 1103515245 + 12345) 2147483648 ltac:(lia)). unfold RAND_MAX. lia.
Defined.

(** A build with the L1Sync extension or without. *)
Definition build (l1 : bool) : ConfBuild.
Proof.
  refine {| CONFIG_HAS_PROFILE_WR := true; CONFIG_HAS_PROFILE_HA := true; CONFIG_HAS_PROFILE_CUSTOM := true;
    CONFIG_HAS_EXT_L1SYNC := l1; PP_MAX_LINKS := 2; double := Z; double_of_Z := fun z => z; double_lt := Z.ltb;
    double_to_reldiff := fun d => d * 2 ^ 62; scan_lf := fun l => Some (Some 0);
    stack_i2 := fun _ => (7, 7); stack_d := fun _ => 0 |}; cbn; lia.
Defined.

Section Run.
Context {HK : Hooks} (l1 wr : bool).
#[local] Instance this_build : ConfBuild := build l1.

Definition demo_port : port_conf := pp_default_instance_cfg <| pc_proto := PPSI_PROTO_UDP |>.
Definition demo_bufs (_ : nat) : list Z := replicate 128 0.
Definition demo_opts : list sim_option :=
  [O_sim_iter_max (10000, 0); O_sim_init_master_time (0, 900000000); O_sim_ppm_real 10;
   O_sim_init_ofm (0, 5000000); O_sim_jit_ns 100; O_sim_t_prop_ns 1000].

(** What [main] does: the master with its built-in text, then a slave 5 ms off, 10 ppm fast. *)
Definition demo_sim (steps : nat) : sim_result * sim_world :=
  sim_main wr (mk_kern 3 [] []) demo_bufs demo_bufs [demo_port; demo_port] pp_default_rt_opts demo_opts steps.

(** States of the ports, answers of the master received, whether an assertion failed, whether
    something was out of range, and how far apart the clocks are. *)
Definition outcome (s : sim_world) : list Z * Z * bool * bool * Z :=
  let e := raw (the_env (sw_w s)) in
  (map state (insts (sw_w s)), sim_iter_n (se_ppg e), assert_failed (sw_w s), se_wild e,
   current_ns (sim_time e 1) - current_ns (sim_time e 0)).
End Run.

#[local] Instance ptp_hooks : Hooks := fun _ => pp_hooks.
#[local] Instance demo_wr : WrConfig := {| WR_S_LOCK_TIMEOUT_MS := 60000 |}.

(** Plain PTP: the slave follows, and is at a quarter of its initial offset. *)
Example ptp_run : outcome (demo_sim false false 150).2 = ([PPS_MASTER; PPS_SLAVE], 12, false, false, 1389022).
Proof. vm_compute. reflexivity. Qed.

(** White Rabbit: the handshake is over and both ends are in White Rabbit mode. *)
Example wr_run_mode : let w := sw_w (demo_sim (HK := ext_hooks) false true 150).2 in
  (map state (insts w), map (fun p => (extState p, wrModeOn (wrp (ext_data p)))) (insts w), assert_failed w) =
  ([PPS_MASTER; PPS_SLAVE], [(PP_EXSTATE_ACTIVE, 1); (PP_EXSTATE_ACTIVE, 1)], false).
Proof. vm_compute. reflexivity. Qed.

(** L1Sync: up on both ends. *)
Example l1_run_up : let w := sw_w (demo_sim (HK := ext_hooks) true false 150).2 in
  (map state (insts w), map (fun p => L1SyncState (l1_basic (l1e_portDS (ext_data p)))) (insts w), assert_failed w) =
  ([PPS_MASTER; PPS_SLAVE], [L1SYNC_UP; L1SYNC_UP], false).
Proof. vm_compute. reflexivity. Qed.

(** An environment with two packets in flight, on which the claims are applied. *)
Definition sync_pkt : list Z := PPM_SYNC :: replicate 43 0.
Definition fup_pkt : list Z := PPM_FOLLOW_UP :: replicate 43 0.
Definition demo_env0 : sim_env := raw (sim_configured (H0 := udp_kernel) (mk_kern 3 [] []) demo_bufs demo_opts).
Lemma demo_env0_ok : env_ok demo_env0.
Proof. apply (proj2_sig (sim_configured (H0 := udp_kernel) (mk_kern 3 [] []) demo_bufs demo_opts)). Qed.
Definition demo_flight : sim_env :=
  (sim_net_send 0 fup_pkt 44 PPM_FOLLOW_UP_FMT (sim_net_send 0 sync_pkt 44 PPM_SYNC_FMT demo_env0).2).2.

(** The main loop forwards the time to the first packet and then subtracts what is left of the
    packet's delay from its own: nothing, however long the packet was under way. *)
Example nothing_left : let p := head_pkt demo_flight in
  (delay_ns p, delay_ns (head_pkt (sim_fast_forward_ns 2 (delay_ns p) demo_flight).2)) = (1000, 0).
Proof. vm_compute. reflexivity. Qed.

Definition demo_array : sim_ppg_arch_data := mk_simg 0 (replicate MAX_PENDING zero_pkt) 0 0 0.
Definition demo_ops : list q_op :=
  [q_send (mk_pkt 30 1 0); q_send (mk_pkt 20 0 1); q_send (mk_pkt 30 1 1); q_receive; q_send (mk_pkt 30 0 1)].

Lemma pending_refines_witness :
  queue (foldl q_array demo_array demo_ops) = [mk_pkt 30 1 1; mk_pkt 30 1 0; mk_pkt 30 0 1] /\
  sorted (queue (foldl q_array demo_array demo_ops)).
Proof.
  assert (array_ok demo_array) as Ha. { split_and!; [reflexivity|cbn; lia|]. repeat constructor. }
  destruct (pending_refines demo_ops demo_array Ha) as (E & Hs & _).
  - constructor.
  - unfold demo_ops, demo_array, to_machine, SIM_SLAVE, SIM_MASTER. cbn. unfold MAX_PENDING. split_and!; first [by left|by right|lia|done].
  - split; [|exact Hs]. rewrite E. vm_compute. reflexivity.
Defined.

Lemma follow_up_after_sync_witness : se_wild demo_flight = false /\
  exists s f l1 l2 l3, queue (se_ppg demo_flight) = l1 ++ s :: l2 ++ f :: l3 /\ pk_chtype s = PP_NP_EVT /\ pk_chtype f = PP_NP_GEN.
Proof.
  split; [vm_compute; reflexivity|].
  destruct (follow_up_after_sync demo_env0 sync_pkt fup_pkt 44 44 demo_env0_ok) as (s & f & l1 & l2 & l3 & E & _ & Cs & _ & Cf & _).
  - vm_compute. reflexivity.
  - vm_compute. reflexivity.
  - exact (ex_intro _ s (ex_intro _ f (ex_intro _ l1 (ex_intro _ l2 (ex_intro _ l3 (conj E (conj Cs Cf))))))).
Defined.

(** A second of a clock 10 ppm fast that is slowed down by 8 ppm. *)
Lemma sim_clock_rate_witness :
  let t := mk_simt 5000000 10000 (-8000) in
  Z.abs ((current_ns (ff_clock 1000000000 t) - current_ns t) * (1000000000 * 1000000000)
    - 1000000000 * (1000000000 + 10000) * (1000000000 - 8000)) < 3 * (1000000000 * 1000000000).
Proof.
  intros t. apply (sim_clock_rate t 1000000000); subst t; cbn; unfold PP_ADJ_FREQ_MAX; lia.
Defined.

(** The White Rabbit run. *)
Lemma simulator_safe_witness : let r := demo_sim (HK := ext_hooks) false true 40 in
  overflowed r.2 = false /\ sim_null_called r.2 = false /\ assert_failed (sw_w r.2) = false /\ forall c, r.1 <> sim_exit c.
Proof.
  destruct (@simulator_safe demo_cfg udp_kernel udp_recv demo_rand ext_hooks _ (build false) true (mk_kern 3 [] [])
    demo_bufs demo_bufs [demo_port false; demo_port false] pp_default_rt_opts demo_opts 40) as [Hx|[Hx|(Ha & _ & _ & He)]].
  - apply ext_open_own.
  - reflexivity.
  - reflexivity.
  - repeat constructor; vm_compute; intuition discriminate.
  - exfalso. vm_compute in Hx. discriminate Hx.
  - exfalso. vm_compute in Hx. discriminate Hx.
  - split; [vm_compute; reflexivity|]. split; [vm_compute; reflexivity|]. exact (conj Ha He).
Defined.

End SimDemo.
