(* ===== verification/UnixTime.v ===== *)
(** * The clock of arch-unix

    time-unix/unix-time.c: the time of the operating system, its offset to TAI
    and the leap second flags, through [adjtimex], [clock_gettime] and
    [clock_settime] of the kernel, which are a parameter; and theorems: what
    is set is read back. *)

From S2P Require Import Prelude TimeArith Types World Timeout Hooks Bytes Msg FixedPoint Servo.
From S2P Require Import BmcCmp ClockQuality Bmc BmcTable Common MainLoop Scan Conf UnixMain UnixNet.

Definition ADJ_OFFSET : Z := 0x1.
Definition ADJ_FREQUENCY : Z := 0x2.
Definition ADJ_MAXERROR : Z := 0x4.
Definition ADJ_STATUS : Z := 0x10.
Definition MOD_TAI : Z := 0x80.
Definition STA_PLL : Z := 0x1.
Definition STA_INS : Z := 0x10.
Definition STA_DEL : Z := 0x20.

(** The members of [struct timex] that are used; [tx_sec] is [time.tv_sec]. *)
Record timex := mk_timex {
  tx_modes : Z; tx_offset : Z; tx_freq : Z; tx_maxerror : Z; tx_status : Z; tx_constant : Z; tx_sec : Z;
  tx_stbcnt : Z; tx_tai : Z }.
#[export] Instance eta_timex : Eta timex := fun t =>
  mk_timex (tx_modes t) (tx_offset t) (tx_freq t) (tx_maxerror t) (tx_status t) (tx_constant t) (tx_sec t)
    (tx_stbcnt t) (tx_tai t).
Definition zero_timex : timex := mk_timex 0 0 0 0 0 0 0 0 0.

Class TimexKernel `{Kernel} := {
  k_adjtimex : timex -> kst -> (Z * timex) * kst;
  k_settime : Z * Z -> kst -> Z * kst;
  k_monotonic : kst -> (Z * Z) * kst }.

(** [gmtime]: the time of the day. *)
Definition gmtime (now : Z) : Z * Z * Z :=
  let s := now mod 86400 in (s / 3600, s mod 3600 / 60, s mod 60).

Section UnixTime.
Context `{Config} `{TimexKernel}.

Definition adjtimex (t : timex) : NM (Z * timex) := sys (k_adjtimex t).

(** [stack] is what an uninitialised [struct timex] holds. *)
Definition unix_time_clear_utc_flags (stack : timex) : NM unit :=
  '(_, t) ← adjtimex (stack <| tx_modes := ADJ_STATUS |> <| tx_status := STA_PLL |>);
  '(_, t) ← adjtimex (t <| tx_modes := ADJ_MAXERROR |> <| tx_maxerror := 0 |>);
  adjtimex (t <| tx_modes := ADJ_STATUS |> <| tx_status := 0 |>);;
  mret tt.

Definition unix_time_get_utc_time : NM (Z * (Z * Z * Z)) :=
  '(ret, t) ← adjtimex zero_timex;
  mret (if 0 <=? ret then (0, gmtime (tx_sec t)) else (-1, (0, 0, 0))).

(** [*((int * )(&t.stbcnt) + 1)]: the member after [stbcnt] where a [long] has 32 bits, else the upper
    half of [stbcnt] on a little-endian machine. *)
Definition int_after_stbcnt (t : timex) : Z :=
  if LONG_MODULUS =? 4294967296 then i32 (tx_tai t) else i32 (Z.shiftr (tx_stbcnt t) 32).

(** The value returned, the offset and the two leap flags. *)
Definition unix_time_get_utc_offset (stack : timex) : NM (Z * Z * Z * Z) :=
  '(_, (hours, _, _)) ← unix_time_get_utc_time;
  '(ret, t) ← adjtimex zero_timex;
  if 0 <=? ret then
    '(leap59, leap61) ←
      (if 12 <=? hours then
         mret (if Z.land (tx_status t) STA_INS =? STA_INS then (0, 1)
               else if Z.land (tx_status t) STA_DEL =? STA_DEL then (1, 0) else (0, 0))
       else unix_time_clear_utc_flags stack;; mret (0, 0));
    mret (0, int_after_stbcnt t, leap59, leap61)
  else mret (-1, 0, 0, 0).

Definition leap_status (leap59 leap61 status : Z) : Z :=
  if truth leap59 then Z.land (Z.lor status STA_DEL) (Z.lnot STA_INS)
  else if truth leap61 then Z.land (Z.lor status STA_INS) (Z.lnot STA_DEL)
  else Z.land (Z.land status (Z.lnot STA_INS)) (Z.lnot STA_DEL).

Definition unix_time_set_utc_offset (stack : timex) (offset leap59 leap61 : Z) : NM Z :=
  unix_time_clear_utc_flags stack;;
  '(ret, t) ← adjtimex zero_timex;
  '(ret, t) ← (if 0 <=? ret
               then adjtimex (t <| tx_modes := ADJ_STATUS |> <| tx_status ::= leap_status leap59 leap61 |>)
               else mret (0, t));
  if ret <? 0 then mret (-1)
  else
    '(ret, _) ← adjtimex (t <| tx_modes := MOD_TAI |> <| tx_constant := offset |>);
    mret (if ret <? 0 then -1 else 0).

(** The process exits when the kernel refuses. *)
Definition unix_time_set (stack : timex) (t : option pp_time) : NM (outcome Z) :=
  utc ← getl lk_utc;
  match t with
  | None =>
      '(ret, _) ← adjtimex (stack <| tx_modes := MOD_TAI |> <| tx_constant := utc |>);
      mret (if ret <? 0 then exits 1 else goes_on 0)
  | Some t =>
      let tv_sec := slong (secs t - utc) in
      let tv_nsec := slong (Z.shiftr (scaled_nsecs t) 16) in
      if (tv_sec <? 0) || (tv_nsec <? 0) then mret (goes_on 0)
      else
        ret ← sys (k_settime (tv_sec, tv_nsec));
        mret (if ret <? 0 then exits 1 else goes_on 0)
  end.

Definition unix_time_init_servo : NM Z :=
  '(_, t) ← adjtimex zero_timex;
  '(ret, t) ← adjtimex (t <| tx_modes := ADJ_STATUS |> <| tx_status ::= fun s => Z.lor s STA_PLL |>);
  mret (if ret <? 0 then -1 else i32 (slong (Z.shiftr (tx_freq t) 16 * 1000))).

(** What is asked of the kernel. *)
Definition adjust_request (stack : timex) (offset_ns freq_ppb : Z) : timex :=
  let t := stack <| tx_modes := 0 |> in
  let t := if truth freq_ppb then
             let f := if PP_ADJ_FREQ_MAX <? freq_ppb then PP_ADJ_FREQ_MAX else freq_ppb in
             let f := if f <? - PP_ADJ_FREQ_MAX then - PP_ADJ_FREQ_MAX else f in
             t <| tx_freq := slong (f * (65536 / 1000)) |> <| tx_modes := ADJ_FREQUENCY |>
           else t in
  if truth offset_ns then t <| tx_offset := Z.quot offset_ns 1000 |> <| tx_modes ::= fun m => Z.lor m ADJ_OFFSET |> else t.
Definition unix_time_adjust (stack : timex) (offset_ns freq_ppb : Z) : NM Z :=
  '(ret, _) ← adjtimex (adjust_request stack offset_ns freq_ppb); mret ret.
Definition unix_time_adjust_offset (stack : timex) (offset_ns : Z) : NM Z := unix_time_adjust stack offset_ns 0.
Definition unix_time_adjust_freq (stack : timex) (freq_ppb : Z) : NM Z := unix_time_adjust stack 0 freq_ppb.

Definition unix_calc_timeout (millisec : Z) : NM Z :=
  '(sec, nsec) ← sys k_monotonic;
  mret (ulong (u64 (1000 * sec + Z.quot (Z.quot nsec 1000) 1000) + millisec)).

Definition unix_get_GM_lock_state : Z * Z := (0, PP_TIMING_MODE_STATE_LOCKED).
(** The static variable [prev_enable], and the value. *)
Definition unix_enable_timing_output (enable prev_enable : Z) : Z * Z :=
  (if negb (prev_enable =? enable) then enable else prev_enable, 0).

End UnixTime.

(** ** Theorems *)

(** The kernel as adjtimex(2) and clock_settime(2) describe it, for a process with the right to set the
    clock: [tk_leap] are the two leap bits of the status, insertion and deletion.  A call that only reads
    or sets the status word succeeds; any other may be refused ([EINVAL]), and then changes nothing. *)
Class TimexLaws `{TimexKernel} := {
  tk_leap : kst -> bool * bool;
  tk_tai : kst -> Z;
  law_adj_ok : forall t k, tx_modes t = 0 \/ tx_modes t = ADJ_STATUS -> 0 <= (k_adjtimex t k).1.1;
  law_adj_fails : forall t k, (k_adjtimex t k).1.1 < 0 ->
    tk_leap (k_adjtimex t k).2 = tk_leap k /\ tk_tai (k_adjtimex t k).2 = tk_tai k;
  law_adj_status : forall t k, 0 <= (k_adjtimex t k).1.1 -> tk_leap (k_adjtimex t k).2 =
    if Z.testbit (tx_modes t) 4 then (Z.testbit (tx_status t) 4, Z.testbit (tx_status t) 5) else tk_leap k;
  law_adj_tai : forall t k, 0 <= (k_adjtimex t k).1.1 ->
    tk_tai (k_adjtimex t k).2 = if Z.testbit (tx_modes t) 7 then tx_constant t else tk_tai k;
  law_adj_out : forall t k, let r := k_adjtimex t k in 0 <= r.1.1 ->
    (Z.testbit (tx_status r.1.2) 4, Z.testbit (tx_status r.1.2) 5) = tk_leap r.2 /\ tx_tai r.1.2 = tk_tai r.2;
  law_settime : forall tp k, 0 <= (k_settime tp k).1 -> (k_realtime (k_settime tp k).2).1 = tp }.

Section Spec.
Context `{Config} `{TimexLaws}.

Lemma nbind {A B} (m : NM A) (k : A -> NM B) n : (m ≫= k) n = k (m n).1 (m n).2.
Proof. unfold mbind, NM_bind. by destruct (m n). Qed.
Lemma adj_run t n : adjtimex t n = ((k_adjtimex t (n_kst n)).1, n <| n_kst := (k_adjtimex t (n_kst n)).2 |>).
Proof. unfold adjtimex, sys. by destruct (k_adjtimex t (n_kst n)). Qed.

(** The kernel's view in a state. *)
Definition leaps (n : net) : bool * bool := tk_leap (n_kst n).
Definition tai (n : net) : Z := tk_tai (n_kst n).

(** Any call. *)
Lemma adj_any t n : exists ret t', adjtimex t n = ((ret, t'), (adjtimex t n).2) /\
  (tx_modes t = 0 \/ tx_modes t = ADJ_STATUS -> 0 <= ret) /\
  leaps (adjtimex t n).2 = (if (0 <=? ret) && Z.testbit (tx_modes t) 4
                            then (Z.testbit (tx_status t) 4, Z.testbit (tx_status t) 5) else leaps n) /\
  tai (adjtimex t n).2 = (if (0 <=? ret) && Z.testbit (tx_modes t) 7 then tx_constant t else tai n) /\
  (0 <= ret -> (Z.testbit (tx_status t') 4, Z.testbit (tx_status t') 5) = leaps (adjtimex t n).2 /\
     tx_tai t' = tai (adjtimex t n).2).
Proof.
  rewrite adj_run. set (k := n_kst n). pose proof (law_adj_ok t k) as Hok. pose proof (law_adj_fails t k) as Hf.
  pose proof (law_adj_status t k) as E1. pose proof (law_adj_tai t k) as E2. pose proof (law_adj_out t k) as E3.
  unfold leaps, tai. cbn. destruct (k_adjtimex t k) as [[ret t'] k']. cbn in *. exists ret, t'. split_and!; try done.
  - destruct (Z.leb_spec 0 ret); [by apply E1|by apply Hf].
  - destruct (Z.leb_spec 0 ret); [by apply E2|by apply Hf].
Qed.

(** A call that reads or sets the status. *)
Lemma adj_spec t n : tx_modes t = 0 \/ tx_modes t = ADJ_STATUS ->
  exists ret t', adjtimex t n = ((ret, t'), (adjtimex t n).2) /\ 0 <= ret /\
  leaps (adjtimex t n).2 = (if Z.testbit (tx_modes t) 4 then (Z.testbit (tx_status t) 4, Z.testbit (tx_status t) 5) else leaps n) /\
  tai (adjtimex t n).2 = tai n /\
  (Z.testbit (tx_status t') 4, Z.testbit (tx_status t') 5) = leaps (adjtimex t n).2 /\ tx_tai t' = tai (adjtimex t n).2.
Proof.
  intros Hm. destruct (adj_any t n) as (ret & t' & E & P & L & A & O). specialize (P Hm). exists ret, t'.
  rewrite (proj2 (Z.leb_le 0 ret)) in L, A by done. split_and!; try done; try (by apply O).
  rewrite A. by destruct Hm as [-> | ->].
Qed.

Lemma clear_flags stack n : let n' := (unix_time_clear_utc_flags stack n).2 in leaps n' = (false, false) /\ tai n' = tai n.
Proof.
  cbn zeta. unfold unix_time_clear_utc_flags. rewrite nbind.
  match goal with |- context [adjtimex ?t n] => destruct (adj_spec t n) as (r1 & t1 & E1 & _ & _ & A1 & _); [by right|] end. rewrite E1.
  set (n1 := (adjtimex _ n).2) in *. clearbody n1. cbn [fst snd]. rewrite nbind.
  match goal with |- context [adjtimex ?t n1] => destruct (adj_any t n1) as (r2 & t2 & E2 & _ & _ & A2 & _) end. rewrite E2.
  set (n2 := (adjtimex _ n1).2) in *. clearbody n2. cbn [fst snd]. rewrite nbind.
  match goal with |- context [adjtimex ?t n2] => destruct (adj_spec t n2) as (r3 & t3 & E3 & _ & L3 & A3 & _); [by right|] end.
  cbn [mret NM_ret snd]. rewrite L3, A3. cbn in A2 |- *. rewrite andb_false_r in A2. split; [done|congruence].
Qed.

Lemma flag_test x b : 0 <= b -> (Z.land x (2 ^ b) =? 2 ^ b) = Z.testbit x b.
Proof.
  intros Hb. destruct (Z.testbit x b) eqn:E.
  - apply Z.eqb_eq, Z.bits_inj'. intros k Hk. rewrite Z.land_spec, Z.pow2_bits_eqb by done.
    destruct (Z.eqb_spec b k) as [<-|]; [by rewrite E|by rewrite andb_false_r].
  - apply Z.eqb_neq. intros F. apply (f_equal (fun z => Z.testbit z b)) in F. rewrite Z.land_spec, Z.pow2_bits_true, E in F by done. done.
Qed.

Lemma leap_status_bits a b s : (Z.testbit (leap_status a b s) 4, Z.testbit (leap_status a b s) 5) = (negb (truth a) && truth b, truth a).
Proof.
  unfold leap_status, STA_DEL, STA_INS. destruct (truth a); [|destruct (truth b)];
    rewrite !Z.land_spec, ?Z.lor_spec, ?Z.lnot_spec by lia; cbn; by rewrite ?andb_false_r, ?orb_true_r, ?andb_true_r.
Qed.

Lemma set_offset_effect stack offset a b n : let r := unix_time_set_utc_offset stack offset a b n in
  r.1 = 0 -> leaps r.2 = (negb (truth a) && truth b, truth a) /\ tai r.2 = offset.
Proof.
  cbn zeta. unfold unix_time_set_utc_offset. rewrite nbind. set (n0 := (unix_time_clear_utc_flags stack n).2). clearbody n0. rewrite nbind.
  destruct (adj_spec zero_timex n0) as (r1 & t1 & E1 & P1 & _); [by left|]. rewrite E1. set (n1 := (adjtimex _ n0).2). clearbody n1. clear E1. cbn [fst snd].
  rewrite nbind. rewrite (proj2 (Z.leb_le 0 r1)) by done.
  match goal with |- context [adjtimex ?t n1] => destruct (adj_spec t n1) as (r2 & t2 & E2 & P2 & L2 & _); [by right|] end. rewrite E2.
  set (n2 := (adjtimex _ n1).2) in *. clearbody n2. cbn [fst snd]. destruct (Z.ltb_spec r2 0); [lia|]. rewrite nbind.
  match goal with |- context [adjtimex ?t n2] => destruct (adj_any t n2) as (r3 & t3 & E3 & _ & L3 & A3 & _) end. rewrite E3.
  cbn [fst snd mret NM_ret]. destruct (Z.ltb_spec r3 0) as [|Hr]; [done|]. intros _. rewrite (proj2 (Z.leb_le 0 r3)) in L3, A3 by done.
  rewrite L3, A3. cbn in L2 |- *. split; [|done]. rewrite L2. apply leap_status_bits.
Qed.

(** C32. UTC offset and leap seconds. Where a [long] has 32 bits, and the process may set the
    clock, what [unix_time_set_utc_offset] was given when it reports success is what
    [unix_time_get_utc_offset] tells afterwards: the offset, and, in the second half of the UTC
    day, which leap second is announced (a removed second if both are); in the first half none is
    told and the kernel's flags are cleared. *)
Theorem utc_offset_roundtrip (s1 s2 : timex) (offset leap59 leap61 : Z) (n n1 : net) :
  LONG_MODULUS = 4294967296 -> -2147483648 <= offset < 2147483648 ->
  unix_time_set_utc_offset s1 offset leap59 leap61 n = (0, n1) ->
  let hours := (unix_time_get_utc_time n1).1.2.1.1 in
  let r := unix_time_get_utc_offset s2 n1 in
  if 12 <=? hours then r.1 = (0, offset, of_bool (truth leap59), of_bool (negb (truth leap59) && truth leap61))
  else r.1 = (0, offset, 0, 0) /\ leaps r.2 = (false, false).
Proof.
  intros Hl Ho Hs. destruct (set_offset_effect s1 offset leap59 leap61 n) as (L1 & A1); [by rewrite Hs|]. rewrite Hs in L1, A1. cbn [snd] in L1, A1. clear Hs.
  cbn zeta. unfold unix_time_get_utc_offset. rewrite nbind. unfold unix_time_get_utc_time. rewrite nbind.
  destruct (adj_spec zero_timex n1) as (r2 & t2 & E2 & P2 & L2 & A2 & _); [by left|]. rewrite E2. set (n2 := (adjtimex _ n1).2) in *. clearbody n2. cbn [fst snd mret NM_ret].
  rewrite (proj2 (Z.leb_le 0 r2)) by done. cbn [fst snd]. destruct (gmtime (tx_sec t2)) as [[hours mi] se]. cbn [fst snd].
  rewrite nbind. destruct (adj_spec zero_timex n2) as (r3 & t3 & E3 & P3 & L3 & A3 & O3 & T3); [by left|]. rewrite E3. set (n3 := (adjtimex _ n2).2) in *. clearbody n3. cbn [fst snd].
  rewrite (proj2 (Z.leb_le 0 r3)) by done. cbn in L2, A2, L3, A3. rewrite L3, L2, L1 in O3.
  pose proof (f_equal fst O3 : Z.testbit (tx_status t3) 4 = _) as B1. pose proof (f_equal snd O3 : Z.testbit (tx_status t3) 5 = _) as B2. clear O3.
  cbn [fst snd] in B1, B2.
  assert (int_after_stbcnt t3 = offset) as Ei by (unfold int_after_stbcnt; rewrite Hl, T3, A3, A2, A1; by apply i32_id).
  rewrite nbind. destruct (12 <=? hours).
  - cbn [mret NM_ret fst snd]. change STA_INS with (2 ^ 4). change STA_DEL with (2 ^ 5). rewrite !flag_test, B1, B2, Ei by lia.
    by destruct (truth leap59), (truth leap61).
  - rewrite nbind. cbn [mret NM_ret fst snd]. rewrite Ei. split; [done|]. apply clear_flags.
Qed.

(** Setting the time. When the kernel takes it, the time that was set is read back from the clock
    with whole nanoseconds; a time before the epoch of UTC, or with negative nanoseconds, is not set
    and nothing changes. *)
Theorem unix_time_roundtrip (stack : timex) (t : pp_time) (n n' : net) :
  0 <= scaled_nsecs t < SNS_PER_S -> Z.abs (secs t) < 2147483648 / 2 -> Z.abs (lk_utc (n_link n)) < 65536 ->
  unix_time_set stack (Some t) n = (goes_on 0, n') ->
  (secs t < lk_utc (n_link n) /\ n' = n) \/
  (lk_utc (n_link n) <= secs t /\ (unix_time_get n').1 = mk_time (secs t) (scaled_nsecs t / 65536 * 65536)).
Proof.
  intros Hn Hs Hu Hset. rewrite SNS_PER_S_val in Hn. unfold unix_time_set in Hset. rewrite nbind in Hset. cbn [getl fst snd] in Hset.
  set (utc := lk_utc (n_link n)) in *.
  assert (forall z, -2147483648 <= z < 2147483648 -> slong z = z) as Hsl.
  { intros z Hz. unfold slong. destruct long_width as [E | E]; rewrite E; clear - Hz; [change (4294967296 / 2) with 2147483648|change (18446744073709551616 / 2) with 9223372036854775808]; rewrite Z.mod_small; lia. }
  rewrite Z.shiftr_div_pow2 in Hset by lia. change (2 ^ 16) with 65536 in Hset. change (2147483648 / 2) with 1073741824 in Hs. rewrite !Hsl in Hset by dlia.
  destruct (Z.ltb_spec (secs t - utc) 0); cbn [orb] in Hset; [injection Hset as <-; left; split; [lia|done]|].
  destruct (Z.ltb_spec (scaled_nsecs t / 65536) 0); [dlia|]. right. split; [lia|]. rewrite nbind in Hset. unfold sys in Hset.
  set (tp := (secs t - utc, scaled_nsecs t / 65536)) in *. pose proof (law_settime tp (n_kst n)) as Hk.
  destruct (k_settime tp (n_kst n)) as [ret k]. cbn [fst snd mret NM_ret] in *. destruct (Z.ltb_spec ret 0); [done|]. injection Hset as <-.
  unfold unix_time_get. rewrite nbind. unfold sys. cbn [n_kst]. change (n_kst (n <| n_kst := k |>)) with k. specialize (Hk ltac:(lia)).
  destruct (k_realtime k) as [[sec nsec] k']. cbn [fst snd] in *. injection Hk as -> ->. rewrite nbind. cbn. fold utc.
  rewrite Z.shiftl_mul_pow2 by lia. change (2 ^ 16) with 65536. rewrite !i64_id by dlia. f_equal. lia.
Qed.

(** The frequency is scaled by 65 where 65.536 is meant. *)
Lemma adjust_freq_scale stack f : f <> 0 -> Z.abs f <= PP_ADJ_FREQ_MAX ->
  tx_freq (adjust_request stack 0 f) = 65 * f /\ 0 <= Z.abs (f * 65536) - Z.abs (1000 * tx_freq (adjust_request stack 0 f)) <= 536 * Z.abs f.
Proof.
  unfold PP_ADJ_FREQ_MAX. intros Hf Hm. unfold adjust_request, PP_ADJ_FREQ_MAX. apply truth_true in Hf. rewrite Hf. change (truth 0) with false.
  destruct (Z.ltb_spec 512000 f); [lia|]. match goal with |- context [f <? ?y] => destruct (Z.ltb_spec f y) end; [lia|].
  assert (slong (f * 65) = 65 * f) as E.
  { unfold slong. destruct long_width as [E | E]; rewrite E; [change (4294967296 / 2) with 2147483648|change (18446744073709551616 / 2) with 9223372036854775808]; rewrite Z.mod_small; lia. }
  match goal with |- tx_freq ?x = _ /\ _ => change (tx_freq x) with (slong (f * 65)) end. rewrite E. split; [done|lia].
Qed.

End Spec.

(** ** An example *)

Module TimexDemo.
(** A build for the switch, which has 32 bits. *)
#[refine] Definition switch_config : Config := {|
  CONFIG_HAS_P2P := true;
  CONFIG_HAS_CODEOPT_EXT_PORT_CONF_FORCE_DISABLED := false;
  CONFIG_HAS_CODEOPT_EPC_ENABLED := false;
  CONFIG_HAS_CODEOPT_SO_FORCE_DISABLED := false;
  CONFIG_HAS_CODEOPT_SO_ENABLED := false;
  CONFIG_HAS_CODEOPT_MO_FORCE_DISABLED := false;
  CONFIG_HAS_CODEOPT_SINGLE_PORT := false;
  CONFIG_HAS_CODEOPT_SINGLE_FMASTER := false;
  CONFIG_CODEOPT_WRPC_SIZE := false;
  CONFIG_ARCH_IS_WRS := true;
  CONFIG_ARCH_IS_WRPC := false;
  CONFIG_VLAN_ARRAY_SIZE := 4;
  CONFIG_NR_FOREIGN_RECORDS := 4;
  LONG_MODULUS := 4294967296;
  BIG_ENDIAN_HOST := false;
  past_frgn_table := empty_frgn |}.
Proof. all: auto with lia. Defined.
#[local] Existing Instance switch_config.

(** A kernel with a clock, its offset and its status; the sockets do nothing. *)
Record tclock := mk_tclock { ck_sec : Z; ck_nsec : Z; ck_tai : Z; ck_status : Z }.
#[local] Instance demo_timex_kernel : Kernel := {|
  kst := tclock;
  k_socket _ k := (-1, k); k_close _ k := k; k_ifindex _ _ k := (None, k); k_hwaddr _ _ k := (None, k); k_ifaddr _ _ k := (None, k);
  k_bind_packet _ _ _ k := (-1, k); k_bind_udp _ _ k := (-1, k); k_setsockopt _ _ k := (-1, k);
  k_recvmsg _ k := (mk_recvmsg (-1) 0 [] false false None None, k); k_send _ _ k := (-1, k); k_sendto _ _ _ _ k := (-1, k);
  k_select _ _ _ k := (sel_error 0, k);
  k_realtime k := ((ck_sec k, ck_nsec k), k) |}.
#[local] Instance demo_timex : TimexKernel := {|
  k_adjtimex t k :=
    let k := mk_tclock (ck_sec k) (ck_nsec k) (if Z.testbit (tx_modes t) 7 then tx_constant t else ck_tai k)
               (if Z.testbit (tx_modes t) 4 then tx_status t else ck_status k) in
    ((0, mk_timex 0 0 0 0 (ck_status k) 0 (ck_sec k) 0 (ck_tai k)), k);
  k_settime tp k := (0, mk_tclock tp.1 tp.2 (ck_tai k) (ck_status k));
  k_monotonic k := ((0, 0), k) |}.
#[local] Instance demo_timex_laws : TimexLaws.
Proof.
  refine {| tk_leap k := (Z.testbit (ck_status k) 4, Z.testbit (ck_status k) 5); tk_tai := ck_tai |}; try done.
  - intros t k. cbn -[Z.testbit]. by destruct (Z.testbit (tx_modes t) 4).
  - by intros [] k.
Defined.

(** Half past eleven at night. *)
Definition demo_evening : net :=
  mk_net (mk_link 0 0 [] [] (mk_chan (-1) [] 0) (mk_chan (-1) [] 0) [] [] [] 0 0 37) (mk_tclock 84600 5 0 0) (mk_drop 1 2 0 0).

Lemma utc_offset_roundtrip_witness : let n1 := (unix_time_set_utc_offset zero_timex 37 0 1 demo_evening).2 in
  (unix_time_get_utc_offset zero_timex n1).1 = (0, 37, 0, 1).
Proof.
  exact (utc_offset_roundtrip zero_timex zero_timex 37 0 1 demo_evening (unix_time_set_utc_offset zero_timex 37 0 1 demo_evening).2
    eq_refl ltac:(lia) eq_refl).
Defined.

Lemma unix_time_roundtrip_witness : let n' := (unix_time_set zero_timex (Some (mk_time 1000 70000)) demo_evening).2 in
  (unix_time_get n').1 = mk_time 1000 65536.
Proof.
  destruct (unix_time_roundtrip zero_timex (mk_time 1000 70000) demo_evening
    (unix_time_set zero_timex (Some (mk_time 1000 70000)) demo_evening).2) as [[Hlt _]|[_ E]].
  - split; by vm_compute.
  - by vm_compute.
  - by vm_compute.
  - reflexivity.
  - exfalso. revert Hlt. by vm_compute.
  - exact E.
Defined.
End TimexDemo.
