(* ===== verification/WrsNet.v ===== *)
(** * The network layer of the White Rabbit switch

    time-wrs/wrs-socket.c: the sockets of time-unix with hardware timestamps.
    A received frame is stamped by two counters, one per edge of the clock,
    and by the phase of the frame's clock; [wrs_linearize_rx_timestamp] joins
    them.  The stamp of a sent frame is fetched from the error queue of the
    socket.  The kernel and the HAL's shared memory are parameters. *)

From S2P Require Import Prelude TimeArith Types World Timeout Hooks Bytes Msg FixedPoint Servo.
From S2P Require Import BmcCmp ClockQuality Bmc BmcTable Common MainLoop Scan Conf UnixMain UnixNet.

Definition DMTD_UPDATE_INTERVAL : Z := 500.
Definition HAL_REF_CLOCK_PERIOD_PS : Z := 1600.
Definition HAL_DEF_T2_PHASE_TRANS : Z := 0.
Definition N_RETRY : nat := 3.

(** ** Data *)

Record timeout_t := mk_tmo { start_tics : Z; timeout : Z }.
#[export] Instance eta_tmo : Eta timeout_t := fun t => mk_tmo (start_tics t) (timeout t).

Record wrs_socket := mk_wsock {
  clock_period : Z; phase_transition : Z; dmtd_phase : Z; dmtd_phase_valid : Z; dmtd_update_tmo : timeout_t }.
#[export] Instance eta_wsock : Eta wrs_socket := fun s =>
  mk_wsock (clock_period s) (phase_transition s) (dmtd_phase s) (dmtd_phase_valid s) (dmtd_update_tmo s).
Definition zero_wsock : wrs_socket := mk_wsock 0 0 0 0 (mk_tmo 0 0).

(** The members of [struct hal_port_state] that are read; [hal_up] is what [state_up] answers, and
    [alpha] is a [double] by its 64 bits. *)
Record hal_port_state := mk_hal {
  in_use : bool; hal_name : list Z; hal_clock_period : Z; t2_phase_transition : Z; phase_val : Z; phase_val_valid : Z;
  hal_up : bool; bitslide_ps : Z; alpha : Z; delta_tx_ps : Z; delta_rx_ps : Z }.

(** Control messages: [SO_TIMESTAMPING] with [hwtimeraw], [PACKET_AUXDATA] with [tp_vlan_tci],
    [PACKET_TX_TIMESTAMP]. *)
Inductive cmsg := C_timestamping (sec nsec : Z) | C_auxdata (tci : Z) | C_tx_timestamp | C_other.

Record wrs_msg := mk_wmsg { wm_ret : Z; wm_errno : Z; wm_data : list Z; wm_ctrl : list cmsg }.

(** What is called beyond the class [Kernel]; [w_recvmsg] has whether the error queue is read, and
    [w_now] is the clock of the platform's [get]. *)
Class WrsKernel `{Kernel} := {
  w_recvmsg : Z -> bool -> kst -> wrs_msg * kst;
  w_poll : Z -> kst -> Z * kst;
  w_gettimeofday : kst -> (Z * Z) * kst;
  w_calloc : kst -> bool * kst;
  w_hwtstamp : Z -> list Z -> kst -> Z * kst;
  w_so_timestamping : Z -> kst -> Z * kst;
  w_now : kst -> pp_time * kst;
  hal_ports : kst -> list hal_port_state }.

(** ** The timestamp of a received frame *)

(** The nanoseconds and the phase; [c_int] overflow does not occur for the values of a timestamp. *)
Definition wrs_linearize_rx_timestamp (ts : pp_time) (dmtd_phase : Z) (cntr_ahead : bool)
    (transition_point clock_period : Z) : pp_time :=
  let raw_phase := dmtd_phase in
  let nsec := i32 (Z.shiftr (scaled_nsecs ts) 16) in
  let nsec_r := nsec in
  let nsec_f := if cntr_ahead then i32 (nsec - Z.quot clock_period 1000) else nsec in
  let phase_r := i32 (raw_phase - transition_point) in
  let phase_r := if phase_r <? 0 then i32 (phase_r + clock_period) else phase_r in
  let phase_f := i32 (raw_phase - transition_point + Z.quot clock_period 2) in
  let phase_f := if phase_f <? 0 then i32 (phase_f + clock_period) else phase_f in
  let phase_f := if clock_period <=? phase_f then i32 (phase_f - clock_period) else phase_f in
  let '(nsec, phase) :=
    if (Z.quot (i32 (3 * clock_period)) 4 <? phase_r) || (phase_r <? Z.quot clock_period 4) then
      let nsec := nsec_f in
      let phase := i32 (phase_f + Z.quot clock_period 2) in
      if clock_period <=? phase then (i32 (nsec + Z.quot clock_period 1000), i32 (phase - clock_period)) else (nsec, phase)
    else (nsec_r, phase_r) in
  let '(nsec, s) := if 1000000000 <=? nsec then (i32 (nsec - 1000000000), i64 (secs ts + 1)) else (nsec, secs ts) in
  mk_time s (i64 (i64 (Z.shiftl nsec 16) + Z.quot (i64 (Z.shiftl phase 16)) 1000)).

Section WrsNet.
Context `{Config} `{WrsKernel}.

(** [wn_sock]: [arch_chan_data] of both channels, which are set together.  [wn_heap]: how many
    [wrs_socket] are allocated.  [wn_null]: a null pointer was read through. *)
Record wnet := mk_wnet { wn_net : net; wn_sock : option wrs_socket; wn_heap : Z; wn_null : bool }.
#[global] Instance eta_wnet : Eta wnet := fun n => mk_wnet (wn_net n) (wn_sock n) (wn_heap n) (wn_null n).

Definition WM (A : Type) : Type := wnet -> A * wnet.
#[global] Instance WM_ret : MRet WM := fun A a n => (a, n).
#[global] Instance WM_bind : MBind WM := fun A B k m n => let '(a, n') := m n in k a n'.
Definition onet {A} (m : NM A) : WM A := fun n => let '(a, n') := m (wn_net n) in (a, n <| wn_net := n' |>).
Definition sock : WM wrs_socket := fun n =>
  match wn_sock n with Some s => (s, n) | None => (zero_wsock, n <| wn_null := true |>) end.
Definition heap (d : Z) : WM unit := fun n => (tt, n <| wn_heap ::= Z.add d |>).
Definition set_sock (s : option wrs_socket) : WM unit := fun n => (tt, n <| wn_sock := s |>).

(** ** Timeouts *)

Definition get_tics : WM Z := '(sec, usec) ← onet (sys w_gettimeofday); mret (u64 (u64 sec * 1000000 + u64 usec)).
Definition tmo_init (milliseconds : Z) : WM timeout_t :=
  t ← get_tics; mret (mk_tmo t (u64 (u32 milliseconds * 1000))).
Definition tmo_restart (tmo : timeout_t) : WM timeout_t := t ← get_tics; mret (tmo <| start_tics := t |>).
Definition tmo_expired (tmo : timeout_t) : WM bool :=
  t ← get_tics; mret (timeout tmo <? u64 (t - start_tics tmo)).

Definition pp_wrs_lookup_port (name : list Z) (ports : list hal_port_state) : option hal_port_state :=
  List.find (fun p => in_use p && bool_decide (name = hal_name p)) ports.
Definition lookup_port : WM (option hal_port_state) :=
  name ← onet (getl lk_iface);
  onet (sys (fun k => (pp_wrs_lookup_port name (hal_ports k), k))).

Definition update_dmtd : WM unit :=
  s ← sock;
  expired ← tmo_expired (dmtd_update_tmo s);
  if expired : bool then
    p ← lookup_port;
    match p with
    | None => mret tt
    | Some p =>
        tmo ← tmo_restart (dmtd_update_tmo s);
        set_sock (Some (s <| dmtd_phase := u32 (phase_val p) |> <| dmtd_phase_valid := i32 (phase_val_valid p) |>
                          <| dmtd_update_tmo := tmo |>))
    end
  else mret tt.

(** ** Reception *)

(** The last control message of each kind. *)
Definition find_sts (l : list cmsg) : option (Z * Z) :=
  foldl (fun o c => match c with C_timestamping s n => Some (s, n) | _ => o end) None l.
Definition find_aux (l : list cmsg) : option Z :=
  foldl (fun o c => match c with C_auxdata v => Some v | _ => o end) None l.

(** The timestamp; [precise] is what [require_precise_timestamp] of the extension answers. *)
Definition wrs_rx_stamp (precise : bool) (sts : option (Z * Z)) (old : pp_time) : WM pp_time :=
  match sts with
  | None => mret (mark_incorrect old)
  | Some (sec, nsec) =>
      let cntr_ahead := truth (Z.land sec 0x80000000) in
      let t := mk_time (Z.land sec 0x7fffffff) (i64 (Z.shiftl nsec 16)) in
      update_dmtd;;
      if precise then
        s ← sock;
        mret (if truth (dmtd_phase_valid s)
              then wrs_linearize_rx_timestamp t (i32 (dmtd_phase s)) cntr_ahead (i32 (phase_transition s)) (i32 (clock_period s))
              else mark_incorrect t)
      else mret t
  end.

(** The end: fault injection. *)
Definition wrs_recv_end (ret : Z) (frame : list Z) (t : pp_time) : WM (Z * list Z * pp_time) :=
  d ← onet drop_rx;
  mret (if d : bool then PP_RECV_DROP else ret, frame, t).

(** The value returned, the buffer and the timestamp ([old] when none is stored). *)
Definition wrs_recv_msg (precise : bool) (fd : Z) (buf : list Z) (old : pp_time) : WM (Z * list Z * pp_time) :=
  r ← onet (sys (w_recvmsg fd false));
  let frame := wm_data r ++ drop (length (wm_data r)) buf in
  if (wm_ret r <? 0) && (wm_errno r =? EAGAIN) then mret (0, frame, old)
  else if wm_ret r =? - EAGAIN then mret (0, frame, old)
  else if wm_ret r <=? 0 then mret (wm_ret r, frame, old)
  else
    t ← wrs_rx_stamp precise (find_sts (wm_ctrl r)) old;
    pr ← onet (getl lk_proto);
    if pr =? PPSI_PROTO_UDP then wrs_recv_end (wm_ret r) frame t
    else if negb (get16 frame 12 =? ETH_P_1588) then mret (PP_RECV_DROP, frame, t)
    else
      match find_aux (wm_ctrl r) with
      | Some tci =>
          vs ← onet (getl (fun l => take (Z.to_nat (lk_nvlans l)) (lk_vlans l)));
          if existsb (fun v => v =? Z.land tci 0xfff) vs then
            onet (setl (fun l => l <| lk_peer_vid := u16 (Z.land tci 0xfff) |>));;
            wrs_recv_end (wm_ret r) frame t
          else mret (PP_RECV_DROP, frame, t)
      | None =>
          onet (setl (fun l => l <| lk_peer_vid := 0 |>));;
          wrs_recv_end (wm_ret r) frame t
      end.

Definition wrs_net_recv (precise : bool) (buf : list Z) (old : pp_time) : WM (Z * list Z * pp_time) :=
  pr ← onet (getl lk_proto);
  if (pr =? PPSI_PROTO_RAW) || (pr =? PPSI_PROTO_VLAN) then
    fd ← onet (getl (fun l => c_fd (lk_gen l)));
    '(ret, frame, t) ← wrs_recv_msg precise fd buf old;
    if ret <=? 0 then mret (ret, frame, t)
    else
      onet (setl (fun l => l <| lk_peer := slice 6 6 frame |>));;
      mret (ret, frame, t)
  else if pr =? PPSI_PROTO_UDP then
    l ← onet (getl id);
    if truth (c_present (lk_evt l)) then wrs_recv_msg precise (c_fd (lk_evt l)) buf old
    else if truth (c_present (lk_gen l)) then wrs_recv_msg precise (c_fd (lk_gen l)) buf old
    else mret (-1, buf, old)
  else mret (-1, buf, old).

(** ** Sending *)

(** The loop of [poll_tx_timestamp]: the control messages that came with our frame, in [n] tries. *)
Fixpoint poll_loop (n : nat) (fd : Z) (pkt : list Z) (len : Z) : WM (option (list cmsg)) :=
  match n with
  | O => mret None
  | S n' =>
      res ← onet (sys (w_poll fd));
      if res <? 1 then poll_loop n' fd pkt len
      else
        r ← onet (sys (w_recvmsg fd true));
        if wm_ret r <=? 0 then poll_loop n' fd pkt len
        else if (0 <=? wm_ret r - len) &&
          bool_decide (slice (Z.to_nat (wm_ret r - len)) (Z.to_nat len) (wm_data r) = take (Z.to_nat len) pkt)
        then mret (Some (wm_ctrl r))
        else poll_loop n' fd pkt len
  end.

(** The pass over the control messages: whether it is marked as a transmit stamp, the stamp, and [t]. *)
Definition tx_cmsg (st : bool * option (Z * Z) * pp_time) (c : cmsg) : bool * option (Z * Z) * pp_time :=
  let '(serr, sts, t) := st in
  let serr := match c with C_tx_timestamp => true | _ => serr end in
  let sts := match c with C_timestamping s n => Some (s, n) | _ => sts end in
  (serr, sts,
   match sts with
   | Some (sec, nsec) => if serr then mk_time (Z.land sec 0x7fffffff) (i64 (Z.shiftl nsec 16)) else t
   | None => t
   end).

Definition poll_tx_timestamp (pkt : list Z) (len fd : Z) (t : pp_time) : WM pp_time :=
  let t := mark_incorrect t in
  r ← poll_loop N_RETRY fd pkt len;
  match r with
  | None => mret t
  | Some l =>
      pr ← onet (getl lk_proto);
      mret (foldl tx_cmsg (pr =? PPSI_PROTO_UDP, None, t) l).2
  end.

(** [hdr->h_proto++], of a member in network order. *)
Definition corrupt (pkt : list Z) : list Z :=
  put16h BIG_ENDIAN_HOST 12 (u16 (get16h BIG_ENDIAN_HOST pkt 12 + 1)) pkt.

(** Raw frames and VLANs: the platform's time, the system call, the stamp. *)
Definition send_frame (pkt : list Z) (len : Z) : WM (Z * list Z * pp_time) :=
  g ← onet (getl lk_gen);
  t ← onet (sys w_now);
  ret ← onet (sys (k_send (c_fd g) (take (Z.to_nat len) pkt)));
  if ret <? 0 then mret (ret, pkt, t)
  else
    t ← poll_tx_timestamp pkt len (c_fd g) t;
    mret (ret, pkt, t).

(** A frame to be dropped is sent with a wrong type or to a wrong port, to get its stamp; [old] is
    [last_snt_time]. *)
Definition wrs_net_send (pkt : list Z) (len : Z) (fmt : nat) (old : pp_time) : WM (Z * list Z * pp_time) :=
  let chtype := mf_chtype (msg_fmt fmt) in
  let mech := mf_delay_mechanism (msg_fmt fmt) in
  d ← onet drop_tx;
  pr ← onet (getl lk_proto);
  l ← onet (getl id);
  let wrong (b : list Z) := if d : bool then corrupt b else b in
  if pr =? PPSI_PROTO_RAW then
    send_frame (write 6 (c_addr (lk_gen l)) (write 0 (macaddr mech) (wrong (put16 12 ETH_P_1588 pkt)))) len
  else if pr =? PPSI_PROTO_VLAN then
    send_frame (write 6 (c_addr (lk_gen l)) (write 0 (macaddr mech)
      (wrong (put16 12 0x8100 (put16 14 (lk_peer_vid l) (put16 16 ETH_P_1588 pkt))))))
      (if len <? 64 then 64 else len)
  else if pr =? PPSI_PROTO_UDP then
    let fd := c_fd (chan chtype l) in
    let port := if d : bool then (if BIG_ENDIAN_HOST then 3200 else 32780) else udpport chtype in
    ret ← onet (sys (k_sendto fd port (mcast mech l) (take (Z.to_nat len) pkt)));
    if ret <? 0 then mret (ret, pkt, old)
    else
      t ← poll_tx_timestamp pkt len fd old;
      mret (ret, pkt, t)
  else mret (-1, pkt, old).

(** ** Opening and closing *)

Definition wrs_enable_timestamps (fd : Z) : WM Z :=
  if fd <? 0 then mret 0
  else
    iface ← onet (getl lk_iface);
    r ← onet (sys (w_hwtstamp fd iface));
    if r <? 0 then mret (-1)
    else
      r ← onet (sys (w_so_timestamping fd));
      mret (if r <? 0 then -1 else 0).

Definition free_sock : WM unit :=
  a ← (fun n => (wn_sock n, n));
  (match a with Some _ => heap (-1) | None => mret tt end);;
  set_sock None.

Definition wrs_net_exit : WM Z :=
  onet unix_net_exit;;
  free_sock;;
  mret 0.

(** The end of [wrs_net_init]. *)
Definition enable_channels : WM Z :=
  gen ← onet (getl (fun l => c_fd (lk_gen l)));
  r ← wrs_enable_timestamps gen;
  evt ← onet (getl (fun l => c_fd (lk_evt l)));
  r ← (if truth r then mret r else wrs_enable_timestamps evt);
  (if truth r then free_sock else mret tt);;
  mret r.

Definition wrs_net_init : WM (outcome Z) :=
  a ← (fun n => (wn_sock n, n));
  (match a with Some _ => wrs_net_exit | None => mret 0 end);;
  o ← onet unix_net_init;
  match o with
  | goes_on r =>
      if truth r then mret (goes_on r)
      else
        p ← lookup_port;
        match p with
        | None => mret (goes_on (-1))
        | Some p =>
            ok ← onet (sys w_calloc);
            if ok : bool then
              heap 1;;
              tmo ← tmo_init DMTD_UPDATE_INTERVAL;
              set_sock (Some (mk_wsock
                (u32 (if truth (hal_clock_period p) then hal_clock_period p else HAL_REF_CLOCK_PERIOD_PS))
                (u32 (if truth (t2_phase_transition p) then t2_phase_transition p else HAL_DEF_T2_PHASE_TRANS))
                (u32 (phase_val p)) 0 tmo));;
              r ← enable_channels;
              mret (goes_on r)
            else mret (goes_on (-1))
        end
  | exits c => mret (exits c)
  | crashes => mret crashes
  end.

Definition wrs_net_check_packet := unix_net_check_packet.

End WrsNet.
