(* ===== verification/WrsNetSpec.v ===== *)
(** * The network layer of the White Rabbit switch: theorems

    The linearised timestamp is the time of arrival, whichever counter was
    read at a moment of its own transition; a transmit timestamp is the one of
    the frame that was sent; nothing is leaked over openings and closings. *)

From stdpp Require Import gmap strings.
From S2P Require Import Prelude TimeArith Types World Timeout Hooks Bytes Msg FixedPoint Servo.
From S2P Require Import BmcCmp ClockQuality Bmc BmcTable Common MainLoop Scan Conf UnixMain UnixNet UnixNetSpec WrsNet.

(** ** Linearisation *)

(** A phase is brought back into a period. *)
Lemma wrap_low x p : - p <= x < p -> (if x <? 0 then x + p else x) = x mod p.
Proof.
  intros Hx. destruct (Z.ltb_spec x 0); [|symmetry; apply Z.mod_small; lia].
  rewrite <- (Z.mod_add x 1 p), Z.mul_1_l, Z.mod_small; lia.
Qed.
Lemma wrap_both x p : - p <= x < 2 * p ->
  (let y := if x <? 0 then x + p else x in if p <=? y then y - p else y) = x mod p.
Proof.
  intros Hx. cbn zeta. destruct (Z.ltb_spec x 0).
  - destruct (Z.leb_spec p (x + p)); [lia|]. rewrite <- (Z.mod_add x 1 p), Z.mul_1_l, Z.mod_small; lia.
  - destruct (Z.leb_spec p x); [|symmetry; apply Z.mod_small; lia].
    rewrite <- (Z.mod_add x (-1) p), Z.mod_small; lia.
Qed.

(** The clock of the counters: its period in ns, and the phase at which the rising counter changes. *)
Record rx_clock := mk_rxc { rc_n : Z; rc_transition : Z }.
Definition period (h : rx_clock) : Z := 1000 * rc_n h.
Definition clock_ok (h : rx_clock) : Prop :=
  0 < rc_n h <= 500000 /\ 0 <= rc_transition h < period h.

(** A frame that arrives at time [t] (in ps): [c] is the rising counter, [ahead] says that it is one
    ahead of the falling one, [phase] is measured.  Each counter is right but within a quarter of a
    period of its own change, where it can be anything. *)
Record reading (h : rx_clock) (t c : Z) (ahead : bool) (phase : Z) : Prop := {
  rd_phase : phase = (t + rc_transition h) mod period h;
  rd_rising : period h <= 4 * (t mod period h) <= 3 * period h -> c = t / period h;
  rd_falling : 4 * (t mod period h) < period h \/ 3 * period h < 4 * (t mod period h) ->
    c - Z.b2z ahead = (t - period h / 2) / period h }.

(** A timestamp for [t] ps: as near as 2^-16 ns allow. *)
Definition stamps (t : Z) (ts : pp_time) : Prop :=
  0 <= 65536 * t - 1000 * (secs ts * SNS_PER_S + scaled_nsecs ts) < 1000.

Definition counter_time (h : rx_clock) (c : Z) : pp_time :=
  mk_time (c * rc_n h / 1000000000) (Z.shiftl (c * rc_n h mod 1000000000) 16).

(** The value of nanoseconds with a phase, after the carry. *)
Lemma joined_stamp t s nsec phase : 0 <= s < 4294967296 -> -1000000 <= nsec < 1001000000 -> 0 <= phase < 1000000000 ->
  1000 * (s * 1000000000 + nsec) + phase = t ->
  stamps t (let '(nsec, s) := if 1000000000 <=? nsec then (i32 (nsec - 1000000000), i64 (s + 1)) else (nsec, s) in
    mk_time s (i64 (i64 (Z.shiftl nsec 16) + Z.quot (i64 (Z.shiftl phase 16)) 1000))).
Proof.
  intros Hs Hn Hp <-. unfold stamps, SNS_PER_S. rewrite (Z.shiftl_mul_pow2 phase), (Z.shiftl_mul_pow2 (1000 * 1000 * 1000)) by lia.
  change (2 ^ 16) with 65536. rewrite (i64_id (phase * 65536)) by lia. rewrite Z.quot_div_nonneg by lia.
  destruct (Z.leb_spec 1000000000 nsec); cbn [secs scaled_nsecs]; rewrite Z.shiftl_mul_pow2 by lia; change (2 ^ 16) with 65536.
  - rewrite (i32_id (nsec - _)), (i64_id (s + 1)), (i64_id ((nsec - _) * _)), i64_id by dlia. dlia.
  - rewrite (i64_id (nsec * _)), i64_id by dlia. dlia.
Qed.

(** The two phases. *)
Lemma phase_rising h t : clock_ok h -> let raw := (t + rc_transition h) mod period h in
  let x := i32 (raw - rc_transition h) in (if x <? 0 then i32 (x + period h) else x) = t mod period h.
Proof.
  intros [Hn Ht]. unfold period in *. cbn zeta. set (p := 1000 * rc_n h) in *.
  pose proof (Z.mod_pos_bound (t + rc_transition h) p ltac:(lia)) as Hb. rewrite !i32_id by lia.
  rewrite wrap_low by lia. rewrite Zminus_mod_idemp_l. f_equal. lia.
Qed.
Lemma phase_falling h t : clock_ok h -> let raw := (t + rc_transition h) mod period h in
  let x := i32 (raw - rc_transition h + Z.quot (period h) 2) in
  let y := if x <? 0 then i32 (x + period h) else x in
  (if period h <=? y then i32 (y - period h) else y) = (t + period h / 2) mod period h.
Proof.
  intros [Hn Ht]. unfold period in *. cbn zeta. set (p := 1000 * rc_n h) in *. rewrite Z.quot_div_nonneg by lia.
  pose proof (Z.mod_pos_bound (t + rc_transition h) p ltac:(lia)) as Hb.
  rewrite (i32_id (_ - _ + _)), (i32_id (_ + p)) by dlia.
  pose proof (wrap_both ((t + rc_transition h) mod p - rc_transition h + p / 2) p ltac:(dlia)) as W. cbn zeta in W.
  set (y := if _ <? 0 then _ else _) in *. assert (- p <= y < 2 * p) as Hy.
  { unfold y. destruct (Z.ltb_spec ((t + rc_transition h) mod p - rc_transition h + p / 2) 0); dlia. }
  rewrite (i32_id (y - p)) by lia. rewrite W. replace ((t + rc_transition h) mod p - rc_transition h + p / 2)
    with ((t + rc_transition h) mod p - (rc_transition h - p / 2)) by lia.
  rewrite Zminus_mod_idemp_l. f_equal. lia.
Qed.

Lemma period_parts n : 1000 * n / 1000 = n /\ 1000 * n / 2 = 500 * n /\ 1000 * n / 4 = 250 * n /\ 3 * (1000 * n) / 4 = 750 * n.
Proof. split_and!; dlia. Qed.

Lemma linearize_exact h t c ahead phase : clock_ok h -> reading h t c ahead phase ->
  0 <= c -> c * rc_n h < 2147483648 * 1000000000 ->
  stamps t (wrs_linearize_rx_timestamp (counter_time h c) phase ahead (rc_transition h) (period h)).
Proof.
  intros Hk [-> Hr Hf] Hc Hmax. unfold wrs_linearize_rx_timestamp, counter_time. cbn [scaled_nsecs secs]. cbv zeta.
  rewrite Z.shiftr_shiftl_l, Z.shiftl_0_r by lia.
  rewrite (phase_rising h t Hk), (phase_falling h t Hk). destruct Hk as [Hn Ht]. unfold period in *.
  assert (0 <= c * rc_n h) as HN by nia.
  assert (0 <= c * rc_n h / 1000000000 < 2147483648) as HS by dlia.
  pose proof (Z.div_mod (c * rc_n h) 1000000000 ltac:(lia)) as ES.
  pose proof (Z.mod_pos_bound (c * rc_n h) 1000000000 ltac:(lia)) as HR.
  set (S := c * rc_n h / 1000000000) in *. set (R := c * rc_n h mod 1000000000) in *. clearbody S R.
  set (n := rc_n h) in *. set (p := 1000 * n) in *.
  pose proof (Z.mod_pos_bound t p ltac:(lia)) as Hm. pose proof (Z.div_mod t p ltac:(lia)) as Em.
  pose proof (Z.mod_pos_bound (t + p / 2) p ltac:(lia)) as Hm'.
  rewrite !Z.quot_div_nonneg by (rewrite ?i32_id; lia). rewrite (i32_id (3 * p)), (i32_id R) by lia.
  destruct (period_parts n) as (E1 & E2 & E4 & E34). fold p in E1, E2, E4, E34. rewrite E1, E2, E4, E34 in *. clear E1 E2 E4 E34.
  assert (p = 1000 * n) as Ep by done. clearbody p.  destruct ((750 * n <? t mod p) || (t mod p <? 250 * n)) eqn:Ez.
  - apply orb_true_iff in Ez. rewrite !Z.ltb_lt in Ez.
    assert (c - Z.b2z ahead = (t - 500 * n) / p) as Ec by (apply Hf; lia).
    pose proof (Z.div_mod (t - 500 * n) p ltac:(lia)) as Ef. rewrite <- Ec in Ef.
    assert ((t - 500 * n) mod p = (t + 500 * n) mod p) as Eh.
    { rewrite <- (Z.mod_add (t - 500 * n) 1 p) by lia. f_equal. lia. }
    rewrite Eh in Ef. set (f := (t + 500 * n) mod p) in *. clearbody f.
    assert (1000 * (S * 1000000000 + R) - 1000 * (Z.b2z ahead * n) + f + 500 * n = t) as Et by (rewrite Ep in Ef; lia).
    assert ((if ahead then i32 (R - n) else R) = R - Z.b2z ahead * n) as -> by (destruct ahead; cbn; rewrite ?i32_id; lia).
    assert (0 <= Z.b2z ahead * n <= n) as Ha by (destruct ahead; cbn; lia). set (a := Z.b2z ahead * n) in *. clearbody a.
    rewrite (i32_id (f + _)) by lia. destruct (Z.leb_spec p (f + 500 * n)).
    + rewrite (i32_id (R - a + n)), (i32_id (f + _ - p)) by lia. apply joined_stamp; lia.
    + apply joined_stamp; lia.
  - apply orb_false_iff in Ez. rewrite !Z.ltb_ge in Ez. rewrite Hr in ES by lia.
    apply joined_stamp; lia.
Qed.

(** Only a carry is handled: a rising counter that has passed the second already, with the falling
    one still before it, gives negative nanoseconds. *)
Example linearize_negative :
  wrs_linearize_rx_timestamp (counter_time (mk_rxc 16 0) 62500000) 15000 true 0 16000 = mk_time 1 (-65536).
Proof. reflexivity. Qed.

(** ** Reception *)

Section Wrs.
Context `{Config} `{WrsKernel}.

Lemma wbind_unfold {A B} (m : WM A) (k : A -> WM B) n : (m ≫= k) n = k (m n).1 (m n).2.
Proof. unfold mbind, WM_bind. by destruct (m n). Qed.
Lemma onet_unfold {A} (m : NM A) n : onet m n = ((m (wn_net n)).1, n <| wn_net := (m (wn_net n)).2 |>).
Proof. unfold onet. by destruct (m (wn_net n)). Qed.
Lemma osys_unfold {T} (f : kst -> T * kst) n :
  onet (sys f) n = ((f (n_kst (wn_net n))).1, n <| wn_net := (wn_net n) <| n_kst := (f (n_kst (wn_net n))).2 |> |>).
Proof. rewrite onet_unfold, sys_unfold. reflexivity. Qed.

Lemma ogetl_unfold {T} (f : link -> T) n : onet (getl f) n = (f (n_link (wn_net n)), n).
Proof. by destruct n. Qed.

(** The timestamp of a message is the one [wrs_rx_stamp] gives. *)
Lemma recv_stamp precise fd buf old n r k : w_recvmsg fd false (n_kst (wn_net n)) = (r, k) -> 0 < wm_ret r ->
  (wrs_recv_msg precise fd buf old n).1.2 =
  (wrs_rx_stamp precise (find_sts (wm_ctrl r)) old (n <| wn_net := (wn_net n) <| n_kst := k |> |>)).1.
Proof.
  intros Er Hr. unfold wrs_recv_msg. rewrite wbind_unfold, osys_unfold, Er. cbn [fst snd].
  assert ((wm_ret r <? 0) = false /\ (wm_ret r =? - EAGAIN) = false /\ (wm_ret r <=? 0) = false) as (-> & -> & ->)
    by (unfold EAGAIN; lia).
  cbn [andb]. rewrite wbind_unfold. set (st := wrs_rx_stamp _ _ _ _). rewrite wbind_unfold, onet_unfold. cbn [getl fst snd].
  assert (forall ret frame t n, (wrs_recv_end ret frame t n).1.2 = t) as He.
  { intros. unfold wrs_recv_end. by rewrite wbind_unfold, onet_unfold. }
  destruct (_ =? PPSI_PROTO_UDP); [apply He|]. destruct (negb _); [done|].
  destruct (find_aux _); rewrite wbind_unfold, onet_unfold; cbn [getl setl fst snd]; [|apply He].
  destruct (existsb _ _); [|done]. rewrite wbind_unfold, onet_unfold. apply He.
Qed.

Lemma truth_land_bit a n : 0 <= n -> truth (Z.land a (2 ^ n)) = Z.testbit a n.
Proof.
  intros Hn. unfold truth. destruct (Z.eqb_spec (Z.land a (2 ^ n)) 0) as [E|Hne]; cbn [negb].
  - by rewrite <- (Z.bits_0 n), <- E, Z.land_spec, Z.pow2_bits_true, andb_true_r.
  - destruct (Z.testbit a n) eqn:Et; [done|]. exfalso. apply Hne, Z.bits_inj'. intros m Hm.
    rewrite Z.land_spec, Z.bits_0, Z.pow2_bits_eqb by done. destruct (Z.eqb_spec n m) as [<-|]; [by rewrite Et|apply andb_false_r].
Qed.

(** The top bit of the seconds says whether the rising counter is ahead. *)
Lemma hw_sec_split s ahead : 0 <= s < 2147483648 -> let sec := s + Z.b2z ahead * 2147483648 in
  truth (Z.land sec 0x80000000) = ahead /\ Z.land sec 0x7fffffff = s.
Proof.
  intros Hs. cbn zeta. split.
  - change 0x80000000 with (2 ^ 31). rewrite truth_land_bit, Z.testbit_eqb by lia. change (2 ^ 31) with 2147483648.
    rewrite Z.div_add, Z.div_small by lia. by destruct ahead.
  - change 0x7fffffff with (Z.ones 31). rewrite Z.land_ones by lia. change (2 ^ 31) with 2147483648.
    by rewrite Z.mod_add, Z.mod_small by lia.
Qed.

(** The parameters of a socket are those of a clock, and its phase is valid. *)
Definition sock_of (h : rx_clock) (phase : Z) (s : wrs_socket) : Prop :=
  clock_period s = period h /\ phase_transition s = rc_transition h /\ dmtd_phase s = phase /\ truth (dmtd_phase_valid s) = true.

(** C27. Receive timestamps. A frame arrives at time [t], to the picosecond. Its hardware stamp
    has the seconds and nanoseconds of the rising counter and, in the top bit of the seconds,
    whether that is ahead of the falling one; each of the two counters, which have a period of
    whole nanoseconds, is right but within a quarter of a period of its own change. With the phase
    known, the timestamp is [t] up to 2^-16 ns, also when a counter was read while it changed, and
    across the end of a second. *)
Theorem rx_stamp_exact (h : rx_clock) (t c : Z) (ahead : bool) (phase fd : Z) (buf : list Z) (old : pp_time)
    (n : wnet) (r : wrs_msg) (k : kst) (s : wrs_socket) :
  clock_ok h -> reading h t c ahead phase -> 0 <= c -> c * rc_n h < 2147483648 * 1000000000 ->
  w_recvmsg fd false (n_kst (wn_net n)) = (r, k) -> 0 < wm_ret r ->
  find_sts (wm_ctrl r) = Some (c * rc_n h / 1000000000 + Z.b2z ahead * 2147483648, c * rc_n h mod 1000000000) ->
  wn_sock (update_dmtd (n <| wn_net := (wn_net n) <| n_kst := k |> |>)).2 = Some s -> sock_of h phase s ->
  stamps t (wrs_recv_msg true fd buf old n).1.2.
Proof.
  intros Hk Hr Hc Hm Er Hpos Es Ek (Ep & Et & Ef & Ev). rewrite (recv_stamp true fd buf old n r k Er Hpos), Es. cbn [wrs_rx_stamp].
  assert (0 <= c * rc_n h) by (destruct Hk; nia).
  destruct (hw_sec_split (c * rc_n h / 1000000000) ahead) as [-> ->]; [dlia|].
  rewrite wbind_unfold. set (n1 := (update_dmtd _).2) in *. rewrite wbind_unfold. unfold sock. rewrite Ek. cbn [fst snd mret WM_ret].
  rewrite Ev, Ep, Et, Ef. pose proof (linearize_exact h t c ahead phase Hk Hr Hc Hm) as L. destruct Hk as [Hn Ht].
  unfold counter_time in L. assert (0 <= phase < period h) as Hp.
  { destruct Hr as [-> _ _]. apply Z.mod_pos_bound. unfold period. lia. }
  unfold period in *. rewrite !i32_id by lia. rewrite (Z.shiftl_mul_pow2 _ 16) in * by lia. rewrite i64_id; [exact L|]. dlia.
Qed.

(** ** Sending *)

(** A message of the error queue that holds our frame at its end. *)
Definition ours (frame : list Z) (len : Z) (m : wrs_msg) : Prop :=
  len <= wm_ret m /\ slice (Z.to_nat (wm_ret m - len)) (Z.to_nat len) (wm_data m) = take (Z.to_nat len) frame.

(** A transmit timestamp among control messages. *)
Definition tx_stamp (udp : bool) (l : list cmsg) (t : pp_time) : Prop :=
  (udp = true \/ In C_tx_timestamp l) /\
  exists sec nsec, In (C_timestamping sec nsec) l /\ t = mk_time (Z.land sec 0x7fffffff) (i64 (Z.shiftl nsec 16)).

Lemma marked_is_incorrect t : is_incorrect (mark_incorrect t) = true.
Proof.
  unfold is_incorrect, mark_incorrect. cbn [secs upd]. change (secs _) with
    (Z.lor (Z.land (secs t) (Z.lnot (i64 (Z.shiftl 0xc0 56)))) (i64 (Z.shiftl 0x8f 56))).
  rewrite Z.shiftr_lor, Z.shiftr_land, Z.land_lor_distr_l, <- Z.land_assoc.
  change (Z.land (Z.shiftr (Z.lnot (i64 (Z.shiftl 0xc0 56))) 56) 0xc0) with 0. by rewrite Z.land_0_r.
Qed.

Lemma poll_loop_ours k fd frame len n l : (poll_loop k fd frame len n).1 = Some l ->
  exists st, ours frame len (w_recvmsg fd true st).1 /\ l = wm_ctrl (w_recvmsg fd true st).1.
Proof.
  revert n. induction k as [|k IH]; intros n; cbn [poll_loop]; [done|].
  rewrite wbind_unfold, osys_unfold. cbn [fst snd]. destruct (_ <? 1); [apply IH|].
  rewrite wbind_unfold, osys_unfold. cbn [fst snd]. set (st := n_kst _). destruct (_ <=? 0); [apply IH|].
  destruct (Z.leb_spec 0 (wm_ret (w_recvmsg fd true st).1 - len)); cbn [andb]; [|apply IH].
  case_bool_decide as E; [|apply IH]. intros [= <-]. exists st. split; [split; [lia|done]|done].
Qed.

Lemma poll_loop_link k fd frame len n : n_link (wn_net (poll_loop k fd frame len n).2) = n_link (wn_net n).
Proof.
  revert n. induction k as [|k IH]; intros n; cbn [poll_loop]; [done|].
  rewrite wbind_unfold, osys_unfold. cbn [fst snd]. destruct (_ <? 1); [by rewrite IH|].
  rewrite wbind_unfold, osys_unfold. cbn [fst snd]. destruct (_ <=? 0); [by rewrite IH|]. destruct (_ && _); [done|by rewrite IH].
Qed.

Lemma tx_fold udp t0 l : let '(serr, sts, t) := foldl tx_cmsg (udp, None, t0) l in
  (serr = true -> udp = true \/ In C_tx_timestamp l) /\
  (forall sec nsec, sts = Some (sec, nsec) -> In (C_timestamping sec nsec) l) /\ (t = t0 \/ tx_stamp udp l t).
Proof.
  induction l as [|c l IH] using rev_ind; cbn [foldl]; [split_and!; [by left|done|by left]|]. rewrite foldl_app. cbn [foldl].
  destruct (foldl tx_cmsg (udp, None, t0) l) as [[serr sts] t]. destruct IH as (I1 & I2 & I3). cbn [tx_cmsg].
  set (serr' := match c with C_tx_timestamp => true | _ => serr end).
  set (sts' := match c with C_timestamping s n => Some (s, n) | _ => sts end).
  assert (serr' = true -> udp = true \/ In C_tx_timestamp (l ++ [c])) as J1.
  { unfold serr'. rewrite in_app_iff. destruct c; intros E; try (destruct (I1 E); auto). right. right. by left. }
  assert (forall sec nsec, sts' = Some (sec, nsec) -> In (C_timestamping sec nsec) (l ++ [c])) as J2.
  { intros sec nsec. unfold sts'. rewrite in_app_iff. destruct c; intros E; [injection E as -> ->; right; by left|left; auto..]. }
  split_and!; [done..|]. destruct sts' as [[sec nsec]|] eqn:Es.
  - destruct serr' eqn:Ee; [|destruct I3 as [->|[A (s & m & B & ->)]]; [by left|]].
    + right. split; [auto|]. exists sec, nsec. auto.
    + right. split; [rewrite in_app_iff; tauto|]. exists s, m. rewrite in_app_iff. auto.
  - destruct I3 as [->|[A (s & m & B & ->)]]; [by left|]. right. split; [rewrite in_app_iff; tauto|]. exists s, m. rewrite in_app_iff. auto.
Qed.

(** What a caller may rely on after a successful send. *)
Definition stamp_of_frame (udp : bool) (fd : Z) (frame : list Z) (len : Z) (t : pp_time) : Prop :=
  is_incorrect t = true \/
  exists st, let m := (w_recvmsg fd true st).1 in ours frame len m /\ tx_stamp udp (wm_ctrl m) t.

Lemma poll_tx_ours frame len fd t n :
  stamp_of_frame (lk_proto (n_link (wn_net n)) =? PPSI_PROTO_UDP) fd frame len (poll_tx_timestamp frame len fd t n).1.
Proof.
  unfold poll_tx_timestamp. rewrite wbind_unfold. pose proof (poll_loop_ours N_RETRY fd frame len n) as Ho.
  pose proof (poll_loop_link N_RETRY fd frame len n) as El. destruct (poll_loop N_RETRY fd frame len n) as [[l|] n1]; cbn [fst snd] in *.
  - rewrite wbind_unfold, onet_unfold. cbn [getl fst snd mret WM_ret]. rewrite El. destruct (Ho l eq_refl) as (st & Hm & ->).
    set (udp := _ =? _). pose proof (tx_fold udp (mark_incorrect t) (wm_ctrl (w_recvmsg fd true st).1)) as Hf.
    destruct (foldl _ _ _) as [[serr sts] t']. cbn [snd]. destruct Hf as (_ & _ & [->|Ht]); [left; apply marked_is_incorrect|].
    right. by exists st.
  - left. apply marked_is_incorrect.
Qed.

Lemma send_frame_ours frame len n : let r := (send_frame frame len n).1 in
  r.1.2 = frame /\ (0 <= r.1.1 -> stamp_of_frame (lk_proto (n_link (wn_net n)) =? PPSI_PROTO_UDP) (c_fd (lk_gen (n_link (wn_net n)))) frame len r.2).
Proof.
  cbn zeta. unfold send_frame. rewrite wbind_unfold, ogetl_unfold. cbn [fst snd]. rewrite wbind_unfold, osys_unfold. cbn [fst snd].
  rewrite wbind_unfold, osys_unfold. cbn [fst snd]. set (m := _ <| wn_net := _ |>). assert (n_link (wn_net m) = n_link (wn_net n)) as <- by done.
  match goal with |- context [?x <? 0] => destruct (Z.ltb_spec x 0) end; [split; [done|]; intros Hx; exfalso; cbn [fst snd mret WM_ret] in Hx; lia|].
  rewrite wbind_unfold. split; [done|]. intros _. apply poll_tx_ours.
Qed.

(** C28. Transmit timestamps. After a successful [send], on any transport and whether the frame is
    spoilt to simulate a loss or not, the timestamp is marked as incorrect or it is the hardware stamp
    of a message of the error queue whose last bytes are the frame that was sent; but on UDP that
    message was marked as a transmit stamp. *)
Theorem tx_stamp_ours (pkt : list Z) (len : Z) (fmt : nat) (old : pp_time) (n : wnet) :
  let l := n_link (wn_net n) in
  let r := (wrs_net_send pkt len fmt old n).1 in
  0 <= r.1.1 ->
  stamp_of_frame (lk_proto l =? PPSI_PROTO_UDP)
    (if lk_proto l =? PPSI_PROTO_UDP then c_fd (chan (mf_chtype (msg_fmt fmt)) l) else c_fd (lk_gen l))
    r.1.2 (if lk_proto l =? PPSI_PROTO_VLAN then Z.max 64 len else len) r.2.
Proof.
  cbn zeta. unfold wrs_net_send. rewrite wbind_unfold, onet_unfold. set (n1 := n <| wn_net := _ |>).
  assert (n_link (wn_net n1) = n_link (wn_net n)) as El.
  { unfold n1, drop_tx. cbn. by destruct (ppsi_drop_tx _). }
  cbn [fst snd]. rewrite wbind_unfold, ogetl_unfold. cbn [fst snd]. rewrite wbind_unfold, ogetl_unfold. cbn [fst snd id].
  rewrite El. clearbody n1. set (l := n_link (wn_net n)) in *.
  destruct (Z.eqb_spec (lk_proto l) PPSI_PROTO_RAW) as [Er|Nr].
  { rewrite Er. change (PPSI_PROTO_RAW =? PPSI_PROTO_UDP) with false. change (PPSI_PROTO_RAW =? PPSI_PROTO_VLAN) with false.
    match goal with |- context [send_frame ?f len n1] => destruct (send_frame_ours f len n1) as [Ef Hf] end.
    rewrite El in Hf. fold l in Hf. rewrite Er in Hf. rewrite Ef. exact Hf. }
  destruct (Z.eqb_spec (lk_proto l) PPSI_PROTO_VLAN) as [Ev|Nv].
  { rewrite Ev. change (PPSI_PROTO_VLAN =? PPSI_PROTO_UDP) with false. set (len' := if _ <? _ then _ else _).
    assert (len' = Z.max 64 len) as <- by (unfold len'; destruct (Z.ltb_spec len 64); lia).
    match goal with |- context [send_frame ?f len' n1] => destruct (send_frame_ours f len' n1) as [Ef Hf] end.
    rewrite El in Hf. fold l in Hf. rewrite Ev in Hf. rewrite Ef. exact Hf. }
  destruct (Z.eqb_spec (lk_proto l) PPSI_PROTO_UDP) as [Eu|Nu]; [|intros Hx; exfalso; cbn [fst snd mret WM_ret] in Hx; lia].
  rewrite wbind_unfold, osys_unfold. cbn [fst snd]. set (m := _ <| wn_net := _ |>). assert (n_link (wn_net m) = l) as Em by done.
  match goal with |- context [?x <? 0] => destruct (Z.ltb_spec x 0) end; [intros Hx; exfalso; cbn [fst snd mret WM_ret] in Hx; lia|].
  intros _. rewrite wbind_unfold. cbn [fst snd mret WM_ret].
  pose proof (poll_tx_ours pkt len (c_fd (chan (mf_chtype (msg_fmt fmt)) l)) old m) as Hp. rewrite Em, Eu in Hp. exact Hp.
Qed.
End Wrs.

(** ** Opening and closing *)

(** No system call of this layer opens or closes a descriptor. *)
Class WrsLaws `{KernelLaws} {WK : WrsKernel} := {
  law_gettimeofday : forall k, k_open (w_gettimeofday k).2 = k_open k;
  law_calloc : forall k, k_open (w_calloc k).2 = k_open k;
  law_hwtstamp : forall fd s k, k_open (w_hwtstamp fd s k).2 = k_open k;
  law_so_timestamping : forall fd k, k_open (w_so_timestamping fd k).2 = k_open k }.

Section Leaks.
Context `{Config} `{WrsLaws}.

(** Code that keeps the descriptors in order and does not touch the socket data. *)
Definition wquiet {A} (m : WM A) : Prop := forall n,
  wn_sock (m n).2 = wn_sock n /\ wn_heap (m n).2 = wn_heap n /\
  forall base, fds_ok base (wn_net n) -> fds_ok base (wn_net (m n).2).

Lemma wquiet_ret {A} (a : A) : wquiet (mret a).
Proof. by intros n. Qed.
Lemma wquiet_bind {A B} (m : WM A) (k : A -> WM B) : wquiet m -> (forall a, wquiet (k a)) -> wquiet (m ≫= k).
Proof.
  intros Hm Hk n. rewrite wbind_unfold. destruct (Hm n) as (S1 & H1' & F1). destruct (Hk (m n).1 (m n).2) as (S2 & H2' & F2).
  split_and!; [congruence|congruence|auto].
Qed.
Lemma wquiet_sys {T} (f : kst -> T * kst) : (forall k, k_open (f k).2 = k_open k) -> wquiet (onet (sys f)).
Proof.
  intros Hf n. rewrite osys_unfold. split_and!; [done..|]. intros base [O G E P]. split; [|done..]. cbn. by rewrite Hf.
Qed.
Lemma wquiet_getl {T} (f : link -> T) : wquiet (onet (getl f)).
Proof. intros n. by rewrite ogetl_unfold. Qed.

Ltac wquiet := repeat first
  [ apply wquiet_ret | apply wquiet_getl
  | apply wquiet_bind; [|intros ?]
  | match goal with
    | |- wquiet (onet (sys _)) => apply wquiet_sys; intros k; first [apply law_gettimeofday|apply law_calloc|apply law_hwtstamp|apply law_so_timestamping|done]
    | |- wquiet (let '(_, _) := ?x in _) => destruct x
    | |- wquiet (if ?b then _ else _) => destruct b
    | |- wquiet (match ?x with Some _ => _ | None => _ end) => destruct x
    end ].

Lemma q_lookup_port : wquiet lookup_port.
Proof. unfold lookup_port. wquiet. Qed.
Lemma q_tmo_init ms : wquiet (tmo_init ms).
Proof. unfold tmo_init, get_tics. wquiet. Qed.
Lemma q_enable_timestamps fd : wquiet (wrs_enable_timestamps fd).
Proof. unfold wrs_enable_timestamps. wquiet. Qed.

(** The balance: as many [wrs_socket] as there are pointers to one. *)
Definition owned (n : wnet) : Z := match wn_sock n with Some _ => 1 | None => 0 end.
Definition balanced (base : gset Z) (h : Z) (n : wnet) : Prop := fds_ok base (wn_net n) /\ wn_heap n = h + owned n.

Lemma wquiet_balanced {A} (m : WM A) base h n : wquiet m -> balanced base h n -> balanced base h (m n).2.
Proof. intros Hm [Hf Hh]. destruct (Hm n) as (S & E & F). split; [auto|]. unfold owned. by rewrite S, E. Qed.

Lemma free_sock_balanced base h n : balanced base h n -> let n' := (free_sock n).2 in
  wn_sock n' = None /\ wn_heap n' = h /\ wn_net n' = wn_net n.
Proof.
  intros [_ Hh]. cbn zeta. unfold free_sock. rewrite wbind_unfold. cbn [fst snd]. rewrite wbind_unfold.
  unfold owned in Hh. destruct (wn_sock n); cbn; split_and!; try done; lia.
Qed.

(** [wrs_net_exit] gives back all. *)
Lemma wrs_exit_closes base h n : balanced base h n -> let n' := (wrs_net_exit n).2 in
  balanced base h n' /\ wn_sock n' = None /\ wn_heap n' = h /\ k_open (n_kst (wn_net n')) = base.
Proof.
  intros [Hf Hh]. cbn zeta. unfold wrs_net_exit. rewrite wbind_unfold, onet_unfold. cbn [fst snd].
  destruct (net_exit_closes base (wn_net n) Hf) as [O V]. set (n1 := n <| wn_net := _ |>).
  assert (balanced base h n1) as B1.
  { split; [|done]. pose proof (closed_ok _ _ V) as C. by rewrite O in C. }
  rewrite wbind_unfold. destruct (free_sock_balanced base h n1 B1) as (S & E & W). cbn [mret WM_ret snd].
  split_and!; [|done|done|by rewrite W]. split; [rewrite W; apply B1|]. unfold owned. rewrite S, E. lia.
Qed.

Lemma enable_channels_balanced base h n : balanced base h n -> balanced base h (enable_channels n).2.
Proof.
  intros Hb. unfold enable_channels. rewrite wbind_unfold, ogetl_unfold. cbn [fst snd]. rewrite wbind_unfold.
  set (m1 := wrs_enable_timestamps _). assert (wquiet m1) as Q1 by apply q_enable_timestamps.
  pose proof (wquiet_balanced _ base h n Q1 Hb) as B1. rewrite wbind_unfold, ogetl_unfold. cbn [fst snd]. rewrite wbind_unfold.
  set (m2 := if truth _ then _ else _).
  assert (wquiet m2) as Q2 by (unfold m2; destruct (truth _); [apply wquiet_ret|apply q_enable_timestamps]).
  pose proof (wquiet_balanced _ base h _ Q2 B1) as B2. set (n2 := (m2 _).2) in *. rewrite wbind_unfold.
  destruct (truth (m2 (m1 n).2).1); [|exact B2]. cbn [mret WM_ret snd]. destruct (free_sock_balanced base h n2 B2) as (S & E & W).
  split; [rewrite W; apply B2|]. unfold owned. rewrite S, E. lia.
Qed.

Lemma wrs_init_balanced base h n : balanced base h n -> balanced base h (wrs_net_init n).2.
Proof.
  intros Hb. unfold wrs_net_init. rewrite wbind_unfold. cbn [fst snd]. rewrite wbind_unfold. set (n1 := (_ n).2).
  assert (balanced base h n1 /\ wn_sock n1 = None) as [B1 S1].
  { unfold n1. destruct (wn_sock n) eqn:E; [|done]. split; apply (wrs_exit_closes base h n Hb). }
  clearbody n1. clear Hb n. rewrite wbind_unfold, onet_unfold. cbn [fst snd]. set (n2 := n1 <| wn_net := _ |>).
  assert (balanced base h n2 /\ wn_sock n2 = None) as [B2 S2].
  { split; [|done]. destruct B1 as [F E]. split; [by apply net_init_ok|done]. }
  clearbody n2. destruct (unix_net_init _).1 as [r| |]; [|done|done]. destruct (truth r); [done|].
  rewrite wbind_unfold. destruct (q_lookup_port n2) as (S3 & _ & _). rewrite S2 in S3.
  pose proof (wquiet_balanced _ base h n2 q_lookup_port B2) as B3. set (n3 := (lookup_port n2).2) in *. clearbody n3.
  destruct (lookup_port n2).1 as [p|]; [|done]. rewrite wbind_unfold. set (m4 := onet (sys w_calloc)).
  assert (wquiet m4) as Q4 by (apply wquiet_sys, law_calloc). pose proof (wquiet_balanced _ base h n3 Q4 B3) as B4.
  destruct (Q4 n3) as (S4 & _ & _). rewrite S3 in S4. set (n4 := (m4 n3).2) in *. clearbody n4.
  destruct (m4 n3).1; [|done]. rewrite wbind_unfold. cbn [heap fst snd]. rewrite wbind_unfold.
  destruct (q_tmo_init DMTD_UPDATE_INTERVAL (n4 <| wn_heap ::= Z.add 1 |>)) as (S5 & E5 & F5).
  set (n5 := (tmo_init _ _).2) in *. rewrite wbind_unfold. cbn [set_sock fst snd]. set (n6 := n5 <| wn_sock := _ |>).
  assert (balanced base h n6) as B6.
  { destruct B4 as [F4 E4]. split; [exact (F5 base F4)|]. unfold owned in *. rewrite S4 in E4. cbn in *. lia. }
  rewrite wbind_unfold. by apply enable_channels_balanced.
Qed.

Definition do_wcall (n : wnet) (c : net_call) : wnet :=
  match c with call_init => (wrs_net_init n).2 | call_exit => (wrs_net_exit n).2 end.

Lemma wcalls_balanced base h cs n : balanced base h n -> balanced base h (foldl do_wcall n cs).
Proof.
  revert n. induction cs as [|[] cs IH]; intros n Hb; cbn [foldl]; [done|apply IH..].
  - by apply wrs_init_balanced.
  - by apply (wrs_exit_closes base h n Hb).
Qed.

(** Nothing is leaked on the switch. After any sequence of openings and closings of a port that
    starts closed, whatever fails on the way, the open descriptors are the ones of before and those of
    the port, and exactly one [wrs_socket] is allocated if the port points to one, else none; closing
    the port gives back all. *)
Theorem wrs_net_no_leak (n : wnet) (cs : list net_call) :
  c_fd (lk_gen (n_link (wn_net n))) = -1 -> c_fd (lk_evt (n_link (wn_net n))) = -1 -> wn_sock n = None ->
  let n' := foldl do_wcall n cs in
  k_open (n_kst (wn_net n')) = k_open (n_kst (wn_net n)) ∪ list_to_set (link_fds (n_link (wn_net n'))) /\
  wn_heap n' = wn_heap n + owned n' /\
  k_open (n_kst (wn_net (wrs_net_exit n').2)) = k_open (n_kst (wn_net n)) /\ wn_heap (wrs_net_exit n').2 = wn_heap n.
Proof.
  intros Hg He Hs. cbn zeta. set (base := k_open (n_kst (wn_net n))).
  assert (balanced base (wn_heap n) n) as Hb.
  { split; [|unfold owned; rewrite Hs; lia]. apply (closed_ok _ (lk_proto (n_link (wn_net n)))). unfold fdv. by rewrite Hg, He. }
  assert (balanced base (wn_heap n) (foldl do_wcall n cs)) as Hc by (by apply wcalls_balanced).
  destruct (wrs_exit_closes base _ _ Hc) as (_ & _ & E & O). split_and!; [apply Hc|apply Hc|done|done].
Qed.

End Leaks.

(** ** Examples *)

Module WrsDemo.
#[local] Instance demo_cfg : Config := Demo.demo_config.
#[local] Existing Instance NetDemo.demo_kernel.
#[local] Existing Instance NetDemo.demo_laws.

(** A 16 ns clock; the counters are read 1 ns before the end of a second, when the rising one has
    passed it already. *)
Definition demo_clock : rx_clock := mk_rxc 16 2000.
Definition demo_arrival : Z := 1000000000000 - 1000.
Definition demo_rx : wrs_msg := mk_wmsg 60 0 (replicate 12 0 ++ [0x88; 0xF7] ++ replicate 46 0)
  [C_other; C_timestamping (1 + 2147483648) 0].
(** The error queue has somebody else's frame, then ours. *)
Definition demo_frame : list Z := raw_header MECH_E2E [2; 0; 0; 0; 0; 7] (replicate 58 0).
Definition demo_port : hal_port_state := mk_hal true (str "wri1") 16000 2000 1000 1 true 0 0 0 0.

#[local] Instance demo_wrs : WrsKernel := {|
  w_recvmsg _ err k :=
    if err then
      match NetDemo.kn_queue k with
      | [] => (mk_wmsg 58 0 (replicate 58 1) [C_tx_timestamp; C_timestamping 7 7],
               NetDemo.mk_kern (NetDemo.kn_next k) (NetDemo.kn_fds k) (NetDemo.kn_udp k) false [NetDemo.nothing] (NetDemo.kn_sent k))
      | _ => (mk_wmsg 58 0 demo_frame [C_timestamping 5 600; C_tx_timestamp], k)
      end
    else (demo_rx, k);
  w_poll _ k := (1, k);
  w_gettimeofday k := ((1000, 0), k);
  w_calloc k := (true, k);
  w_hwtstamp _ _ k := (if bool_decide (NetDemo.kn_sent k = []) then 0 else -1, k);
  w_so_timestamping _ k := (0, k);
  w_now k := (mk_time 4 0, k);
  hal_ports _ := [demo_port] |}.

#[local] Instance demo_wrs_laws : WrsLaws.
Proof. by split. Defined.

Definition demo_wnet : wnet :=
  mk_wnet (NetDemo.demo_closed <| n_link ::= fun l => l <| lk_iface := str "wri1" |> |>)
    (Some (mk_wsock 16000 2000 1000 1 (mk_tmo 1000000000 500000))) 0 false.

Lemma rx_stamp_exact_witness : let t := (wrs_recv_msg true 3 (replicate 128 0) clear_time demo_wnet).1.2 in
  t = mk_time 1 (-65536) /\ stamps demo_arrival t.
Proof.
  split; [vm_compute; reflexivity|].
  apply (rx_stamp_exact demo_clock demo_arrival 62500000 true 1000 3 (replicate 128 0) clear_time demo_wnet demo_rx
    (n_kst (wn_net demo_wnet)) (mk_wsock 16000 2000 1000 1 (mk_tmo 1000000000 500000))).
  - unfold clock_ok, period. cbn. lia.
  - split; unfold period, demo_arrival; cbn [demo_clock rc_n rc_transition]; [reflexivity|vm_compute; intros []; congruence|reflexivity].
  - lia.
  - cbn. lia.
  - reflexivity.
  - cbn. lia.
  - reflexivity.
  - reflexivity.
  - by vm_compute.
Defined.

Definition demo_raw : wnet := mk_wnet (NetDemo.opened (NetDemo.demo_net PPSI_PROTO_RAW 0 false [])) None 0 false.

(** The second message of the queue is ours, and its stamp is taken. *)
Lemma tx_stamp_ours_witness : let r := (wrs_net_send (replicate 58 0) 58 PPM_SYNC_FMT clear_time demo_raw).1 in
  r = (58, demo_frame, mk_time 5 39321600) /\
  stamp_of_frame false (c_fd (lk_gen (n_link (wn_net demo_raw)))) r.1.2 58 r.2.
Proof.
  split; [vm_compute; reflexivity|]. apply (tx_stamp_ours (replicate 58 0) 58 PPM_SYNC_FMT clear_time demo_raw).
  vm_compute. discriminate.
Defined.

Definition demo_shut : wnet :=
  mk_wnet ((NetDemo.demo_net PPSI_PROTO_RAW 0 false []) <| n_link ::= fun l => l <| lk_iface := str "wri1" |> |>) None 0 false.

Lemma wrs_net_no_leak_witness : let n' := foldl do_wcall demo_shut [call_init; call_init; call_exit; call_init] in
  owned n' = 1 /\ wn_heap n' = owned n' /\ wn_heap (wrs_net_exit n').2 = 0.
Proof.
  split; [vm_compute; reflexivity|].
  destruct (wrs_net_no_leak demo_shut [call_init; call_init; call_exit; call_init] eq_refl eq_refl eq_refl) as (_ & E & _ & E').
  exact (conj E E').
Defined.
End WrsDemo.
