(* ===== verification/WrsTime.v ===== *)
(** * Time and timing modes of the White Rabbit switch

    time-wrs/wrs-time.c: the counters and the PLL of the switch, which the HAL
    process controls on request, the time registers of the FPGA, and the
    operations of the extensions' hardware.  The HAL's answers, the registers
    and the clock of the operating system are a parameter. *)

From S2P Require Import Prelude TimeArith Types World Timeout Hooks Bytes Msg FixedPoint Servo.
From S2P Require Import BmcCmp ClockQuality Bmc BmcTable Common States Fsm OpenClose MainLoop Scan Conf UnixMain Wrh.

Definition WRH_TM_LOCKING_STATE_LOCKING : Z := 1.
Definition WRH_TM_LOCKING_STATE_LOCKED : Z := 2.
Definition WRH_TM_LOCKING_STATE_ERROR : Z := 4.
Definition WRH_TM_PLL_STATE_LOCKED : Z := 0.
Definition WRH_TM_PLL_STATE_UNLOCKED : Z := 1.
Definition WRH_TM_PLL_STATE_HOLDOVER : Z := 2.
Definition WRH_TM_GRAND_MASTER : Z := 0.
Definition WRH_TM_FREE_MASTER : Z := 1.
Definition WRH_TM_BOUNDARY_CLOCK : Z := 2.
Definition WRS_TM_PLL_STATE_UNLOCKED : Z := 0.
Definition WRS_TM_PLL_STATE_LOCKED : Z := 1.
Definition WRS_TM_PLL_STATE_HOLDOVER : Z := 2.
Definition WRH_SPLL_ERROR : Z := -1.
Definition WRH_SPLL_OK : Z := 0.
Definition WRH_SPLL_UNLOCKED : Z := 1.
Definition PP_TO_WRS_SEND_PORT_INFO : nat := 12.
Definition PP_TO_WRS_GM_REFRESH : nat := 13.
Definition TIMEOUT_REFRESH_GRAND_MASTER_MS : Z := 60000.
Definition THRESHOLD_MS : Z := 20.

(** ** The HAL and the hardware *)

(** The commands of [__rpcdef_pps_cmd] and [__rpcdef_lock_cmd]. *)
Inductive pps_cmd :=
  | ADJUST_SEC (sec : Z) | ADJUST_NSEC (nsec : Z) | ADJUST_PHASE (ps : Z) | POLL | SET_VALID (on : Z)
  | SET_TIMING_MODE (tm : Z) | GET_TIMING_MODE_STATE | GET_TIMING_MODE.
Inductive lock_cmd := LOCK_START | LOCK_CHECK | LOCK_ENABLE_TRACKING.
Inductive lock_status := LOCK_LOCKED | LOCK_UNLOCKED | LOCK_RELOCK_ERROR | LOCK_UNKNOWN.

Record wrs_arch_data := mk_warch { timingModeLockingState : Z; timingMode : Z; gmUnlockErr : Z }.
#[export] Instance eta_warch : Eta wrs_arch_data := fun d =>
  mk_warch (timingModeLockingState d) (timingMode d) (gmUnlockErr d).

(** A call gives its own value and, when that is not negative, the one of the HAL.  [hal_get] is the
    command GET with the current seconds and nanoseconds.  [pps_reg] is a read of a time register.
    [arch_data] is the data of the architecture, which these operations share with those the hooks call. *)
Class WrsHal `{Platform} := {
  hal_pps : pps_cmd -> env -> (Z * Z) * env;
  hal_get : env -> (Z * Z * Z * Z) * env;
  hal_lock : nat -> lock_cmd -> env -> (Z * Z) * env;
  hal_lock_status : Z -> lock_status;
  hal_map : env -> bool * env;
  pps_reg : nat -> env -> Z * env;
  dac_write : Z -> env -> env;
  unix_set : nat -> option pp_time -> env -> env;
  wr_date : env -> env;
  arch_data : env -> wrs_arch_data;
  upd_arch_data : (wrs_arch_data -> wrs_arch_data) -> env -> env }.

Section WrsTime.
Context `{Config} `{WrsHal} {HK : Hooks}.

(** The program with the static variables: [tmoIndex] of
    [wrs_get_timing_mode_state], the mappings of the registers and of the DAC, [portInfoTmoIdx] and [initialized] of
    main-loop.c. *)
Record wrs_world := mk_ww {
  ww_w : world; ww_tmoIndex : Z; ww_mapped : bool; ww_dac : bool; ww_portInfoTmoIdx : Z; ww_initialized : bool }.
#[global] Instance eta_ww : Eta wrs_world := fun s =>
  mk_ww (ww_w s) (ww_tmoIndex s) (ww_mapped s) (ww_dac s) (ww_portInfoTmoIdx s) (ww_initialized s).

Definition TM (A : Type) : Type := wrs_world -> A * wrs_world.
#[global] Instance TM_ret : MRet TM := fun A a s => (a, s).
#[global] Instance TM_bind : MBind TM := fun A B k m s => let '(a, s') := m s in k a s'.
Definition liftM {A} (m : M A) : TM A := fun s => let '(a, w) := m (ww_w s) in (a, s <| ww_w := w |>).
Definition gets {T} (f : wrs_world -> T) : TM T := fun s => (f s, s).
Definition puts (g : wrs_world -> wrs_world) : TM unit := fun s => (tt, g s).
Definition arch {T} (f : wrs_arch_data -> T) : TM T := gets (fun s => f (arch_data (the_env (ww_w s)))).
Definition set_arch (g : wrs_arch_data -> wrs_arch_data) : TM unit := liftM (op_ (upd_arch_data g)).
Definition pps (c : pps_cmd) : TM (Z * Z) := liftM (op (hal_pps c)).
Definition failed (r : Z * Z) : bool := (r.1 <? 0) || (r.2 <? 0).

(** ** Counters and phase *)

(** The arguments are an [int64_t] and an [int32_t]. *)
Definition wrs_adjust_counters (adjust_sec adjust_nsec : Z) : TM (outcome Z) :=
  if (adjust_nsec =? 0) && (adjust_sec =? 0) then mret (goes_on 0)
  else if truth adjust_sec && truth adjust_nsec then mret (exits 1)
  else
    r ← pps (if truth adjust_sec then ADJUST_SEC adjust_sec else ADJUST_NSEC adjust_nsec);
    mret (goes_on (if failed r then -1 else 0)).

Definition wrs_adjust_phase (phase_ps : Z) : TM Z :=
  '(ret, rval) ← pps (ADJUST_PHASE phase_ps);
  mret (if ret <? 0 then ret else rval).

Definition wrs_adjust_in_progress : TM Z :=
  '(ret, rval) ← pps POLL;
  mret (if ret <? 0 then -1 else rval).

Definition wrs_enable_ptracker (i : nat) : TM Z :=
  r ← liftM (op (hal_lock i LOCK_ENABLE_TRACKING));
  mret (if failed r then WRH_SPLL_ERROR else WRH_SPLL_OK).

Definition wrs_enable_timing_output (enable : Z) : TM Z :=
  r ← pps (SET_VALID enable);
  mret (if failed r then WRH_SPLL_ERROR else WRH_SPLL_OK).

(** ** Timing modes *)

Definition wrs_set_timing_mode (tm : Z) : TM Z :=
  r ← pps (SET_TIMING_MODE tm);
  if failed r then mret (-1)
  else
    set_arch (fun d => d <| timingMode := tm |> <| timingModeLockingState := WRH_TM_LOCKING_STATE_LOCKING |>);;
    mret 0.

(** The mode, if it could be read. *)
Definition wrs_get_timing_mode : TM (option Z) :=
  '(ret, rval) ← pps GET_TIMING_MODE;
  if ret <? 0 then mret None
  else
    set_arch (fun d => d <| timingMode := rval |>);;
    mret (Some rval).

(** A grand master that is not locked sets its mode again every 60 s. *)
Definition refresh_grand_master : TM unit :=
  idx ← gets ww_tmoIndex;
  (if idx =? 0 then
     liftM (pp_timeout_get_timer 0 PP_TO_WRS_GM_REFRESH TO_RAND_NONE);;
     liftM (pp_gtimeout_set PP_TO_WRS_GM_REFRESH TIMEOUT_REFRESH_GRAND_MASTER_MS);;
     puts (fun s => s <| ww_tmoIndex := 1 |>)
   else mret tt);;
  idx ← gets ww_tmoIndex;
  if 0 <? idx then
    t ← liftM (pp_gtimeout PP_TO_WRS_GM_REFRESH);
    if t : bool then
      wrs_set_timing_mode WRH_TM_GRAND_MASTER;;
      liftM (pp_gtimeout_reset PP_TO_WRS_GM_REFRESH)
    else mret tt
  else mret tt.

(** The value returned, and the state stored, if any. *)
Definition wrs_get_timing_mode_state : TM (Z * option Z) :=
  '(ret, rval) ← pps GET_TIMING_MODE_STATE;
  if failed (ret, rval) then mret (-1, None)
  else
    (if rval =? WRS_TM_PLL_STATE_UNLOCKED then
       m ← wrs_get_timing_mode;
       match m with
       | Some tm => if tm =? WRH_TM_GRAND_MASTER then refresh_grand_master else mret tt
       | None => mret tt
       end
     else puts (fun s => s <| ww_tmoIndex ::= fun n => if 0 <? n then 0 else n |>));;
    mret (if rval =? WRS_TM_PLL_STATE_LOCKED then (ret, Some WRH_TM_PLL_STATE_LOCKED)
          else if rval =? WRS_TM_PLL_STATE_UNLOCKED then (ret, Some WRH_TM_PLL_STATE_UNLOCKED)
          else if rval =? WRS_TM_PLL_STATE_HOLDOVER then (ret, Some WRH_TM_PLL_STATE_HOLDOVER)
          else (-1, None)).

(** The lock state of a grand master, as the best master clock algorithm asks for it. *)
Definition wrs_get_GM_lock_state : TM (Z * option Z) :=
  '(ret, st) ← wrs_get_timing_mode_state;
  if ret <? 0 then mret (ret, None)
  else
    mret (match st with
          | Some s => if s =? WRH_TM_PLL_STATE_HOLDOVER then (ret, Some PP_TIMING_MODE_STATE_HOLDOVER)
                      else if s =? WRH_TM_PLL_STATE_LOCKED then (ret, Some PP_TIMING_MODE_STATE_LOCKED)
                      else if s =? WRH_TM_PLL_STATE_UNLOCKED then (ret, Some PP_TIMING_MODE_STATE_UNLOCKED)
                      else (-1, None)
          | None => (-1, None)
          end).

(** ** Locking *)

Definition wrs_locking_disable (i : nat) : TM Z :=
  m ← wrs_get_timing_mode;
  match m with
  | None => mret (-1)
  | Some tm => if tm =? WRH_TM_BOUNDARY_CLOCK then wrs_set_timing_mode WRH_TM_FREE_MASTER else mret 0
  end.

Definition wrs_locking_enable (i : nat) : TM Z :=
  set_arch (fun d => d <| timingModeLockingState := WRH_TM_LOCKING_STATE_LOCKING |>);;
  wrs_set_timing_mode WRH_TM_BOUNDARY_CLOCK;;
  r ← liftM (op (hal_lock i LOCK_START));
  mret (if failed r then WRH_SPLL_ERROR else WRH_SPLL_OK).

Definition wrs_locking_reset (i : nat) : TM Z :=
  def ← liftM DSDEF;
  r ← (if negb (clockClass (def_clockQuality def) =? PP_PTP_CLASS_GM_LOCKED)
       then wrs_set_timing_mode WRH_TM_FREE_MASTER else mret 0);
  if r <? 0 then mret WRH_SPLL_ERROR
  else
    set_arch (fun d => d <| timingModeLockingState := WRH_TM_LOCKING_STATE_LOCKING |>);;
    mret WRH_SPLL_OK.

Definition wrs_locking_poll (i : nat) : TM Z :=
  '(ret, rval) ← liftM (op (hal_lock i LOCK_CHECK));
  mret (if ret <? 0 then WRH_SPLL_ERROR
        else match hal_lock_status rval with
             | LOCK_LOCKED => WRH_SPLL_LOCKED
             | LOCK_UNLOCKED => WRH_SPLL_UNLOCKED
             | LOCK_RELOCK_ERROR => WRH_SPLL_ERROR
             | LOCK_UNKNOWN => WRH_SPLL_ERROR
             end).

(** ** The time *)

(** The loop of [wrdate_get]: the registers 3 and 2 are the seconds, 1 the cycles of 16 ns.  [fuel]
    bounds the rounds. *)
Fixpoint read_regs (fuel : nat) : TM (option pp_time) :=
  match fuel with
  | O => mret None
  | S n =>
      taih ← liftM (op (pps_reg 3));
      tail ← liftM (op (pps_reg 2));
      cyc ← liftM (op (pps_reg 1));
      tmp1 ← liftM (op (pps_reg 3));
      tmp2 ← liftM (op (pps_reg 2));
      if negb (tmp1 =? taih) || negb (tmp2 =? tail) then read_regs n
      else mret (Some (mk_time (i64 (Z.lor tail (u64 (Z.shiftl taih 32)))) (i64 (Z.shiftl (ulong (cyc * 16)) 16))))
  end.

(** The registers are mapped once; the value returned and the time, if it was stored. *)
Definition wrdate_get (fuel : nat) : TM (Z * option pp_time) :=
  m ← gets ww_mapped;
  ok ← (if m : bool then mret true
        else b ← liftM (op hal_map); (if b : bool then puts (fun s => s <| ww_mapped := true |>) else mret tt);; mret b);
  if ok : bool then t ← read_regs fuel; mret (0, t) else mret (-1, None).

Definition wrs_time_get (fuel : nat) : TM (Z * option pp_time) :=
  '(ret, rval, sec, nsec) ← liftM (op hal_get);
  if (ret <? 0) || (rval <? 0) then wrdate_get fuel
  else mret (rval, Some (mk_time sec (i64 (Z.shiftl nsec 16)))).

(** The difference that is adjusted: seconds, or nanoseconds, or nothing. *)
Definition time_step (diff : pp_time) : Z * Z :=
  let msec := i32 (Z.quot (Z.quot (Z.shiftr (scaled_nsecs diff) 16) 1000) 1000) in
  if truth (secs diff) then
    (if 500 <? msec then i64 (secs diff + 1) else if msec <? -500 then i64 (secs diff - 1) else secs diff, 0)
  else if ((THRESHOLD_MS <? msec) && (msec <? 1000 - THRESHOLD_MS)) ||
          ((msec <? - THRESHOLD_MS) && (-1000 + THRESHOLD_MS <? msec))
  then (0, i32 (Z.shiftr (scaled_nsecs diff) 16))
  else (secs diff, 0).

(** [now] is what the stack holds when the registers cannot be read. *)
Definition wrs_time_set (fuel : nat) (i : nat) (t : option pp_time) (stack : pp_time) : TM (outcome Z) :=
  tm ← arch timingMode;
  if tm =? WRH_TM_GRAND_MASTER then liftM (op_ wr_date);; mret (goes_on 0)
  else
    match t with
    | None => liftM (op_ (unix_set i None));; mret (goes_on 0)
    | Some t =>
        '(_, now) ← wrdate_get fuel;
        let diff := pp_time_sub t (default stack now) in
        let '(s, n) := time_step diff in
        r ← wrs_adjust_counters s n;
        match r with
        | goes_on _ =>
            (if secs t <? 1420730822 then mret tt else liftM (op_ (unix_set i (Some t))));;
            mret (goes_on 0)
        | exits c => mret (exits c)
        | crashes => mret crashes
        end
    end.

Definition wrs_time_adjust_offset (offset_ns : Z) : TM (outcome Z) :=
  if offset_ns =? 0 then mret (goes_on 0) else wrs_adjust_counters 0 (i32 offset_ns).

Definition wrs_time_adjust (offset_ns freq_ppb : Z) : TM (outcome Z) := wrs_time_adjust_offset offset_ns.

(** The value for the DAC: 1.2 ppm for 0x1000 counts. *)
Definition dac_value (freq_ppb : Z) : Z :=
  let tmp := Z.quot (slong (freq_ppb * 0x1000)) 1200 in
  let tmp := if 0x7fff <? tmp then 0x7fff else tmp in
  let tmp := if tmp <? -0x8000 then -0x8000 else tmp in
  i32 (0x8000 + tmp).

Definition wrs_time_adjust_freq (freq_ppb : Z) : TM (outcome Z) :=
  m ← gets ww_dac;
  ok ← (if m : bool then mret true
        else b ← liftM (op hal_map); (if b : bool then puts (fun s => s <| ww_dac := true |>) else mret tt);; mret b);
  if ok : bool then liftM (op_ (dac_write (u32 (dac_value freq_ppb))));; mret (goes_on 0)
  else mret (exits 1).

End WrsTime.
