(* ===== verification/WrsTimeSpec.v ===== *)
(** * Time of the White Rabbit switch: theorems

    Reading the time registers gives an instant of the call; setting the time
    never asks for two adjustments at once and comes nearer to the target; the
    value for the DAC is in its range. *)

From S2P Require Import Prelude TimeArith Types World Timeout Hooks Bytes Msg FixedPoint Servo.
From S2P Require Import BmcCmp ClockQuality Bmc BmcTable Common States Fsm OpenClose MainLoop Scan Conf UnixMain Wrh WrsTime.

Section Spec.
Context `{Config} `{WrsHal} {HK : Hooks}.

Lemma tbind_unfold {A B} (m : TM A) (k : A -> TM B) s : (m ≫= k) s = k (m s).1 (m s).2.
Proof. unfold mbind, TM_bind. by destruct (m s). Qed.
Lemma lop_unfold {A} (f : env -> A * env) s :
  liftM (op f) s = ((f (the_env (ww_w s))).1, s <| ww_w := (ww_w s) <| the_env := (f (the_env (ww_w s))).2 |> |>).
Proof. unfold liftM, op. by destruct (f _). Qed.

(** ** Reading the registers *)

(** The counter of seconds and cycles as it is at each read: [reads] counts them.  The seconds do not
    go back, and ten reads take less than a second. *)
Class PpsClock := {
  reads : env -> nat;
  pps_sec : nat -> Z;
  pps_cyc : nat -> Z;
  reg_hi : forall e, (pps_reg 3 e).1 = pps_sec (reads e) / 4294967296;
  reg_lo : forall e, (pps_reg 2 e).1 = pps_sec (reads e) mod 4294967296;
  reg_cyc : forall e, (pps_reg 1 e).1 = pps_cyc (reads e);
  reg_step : forall k e, reads (pps_reg k e).2 = S (reads e);
  sec_mono : forall n, pps_sec n <= pps_sec (S n);
  sec_slow : forall n, pps_sec (n + 9) <= pps_sec n + 1;
  sec_range : forall n, 0 <= pps_sec n < 9223372036854775808;
  cyc_range : forall n, 0 <= pps_cyc n < 62500000 }.

Context `{!PpsClock}.

Definition instant (n : nat) : pp_time := mk_time (pps_sec n) (Z.shiftl (pps_cyc n * 16) 16).
Definition now_reads (s : wrs_world) : nat := reads (the_env (ww_w s)).

Lemma sec_le a b : (a <= b)%nat -> pps_sec a <= pps_sec b.
Proof. induction 1 as [|b Hb IH]; [lia|]. pose proof (sec_mono b). lia. Qed.

Lemma join_secs n : i64 (Z.lor (pps_sec n mod 4294967296) (u64 (Z.shiftl (pps_sec n / 4294967296) 32))) = pps_sec n.
Proof.
  pose proof (sec_range n) as Hr. set (x := pps_sec n) in *. clearbody x.
  rewrite Z.shiftl_mul_pow2 by lia. change (2 ^ 32) with 4294967296. rewrite u64_id by dlia.
  assert (Z.land (x mod 4294967296) (x / 4294967296 * 4294967296) = 0) as Hd.
  { apply Z.bits_inj'. intros m Hm. rewrite Z.land_spec, Z.bits_0. change 4294967296 with (2 ^ 32).
    destruct (Z.ltb_spec m 32) as [Hl|Hl].
    - rewrite (Z.mul_pow2_bits_low (x / 2 ^ 32)) by lia. apply andb_false_r.
    - by rewrite Z.mod_pow2_bits_high by lia. }
  rewrite <- Z.lxor_lor, <- Z.add_nocarry_lxor by done. rewrite i64_id by dlia. dlia.
Qed.

(** One round: the five reads at [n], and either the seconds were the same throughout or not. *)
Lemma read_round fuel s : let n := now_reads s in
  (exists s', now_reads s' = (n + 5)%nat /\ ww_mapped s' = ww_mapped s /\
     (read_regs (S fuel) s = read_regs fuel s' /\ pps_sec n < pps_sec (n + 4) \/
      read_regs (S fuel) s = (Some (instant (n + 2)), s'))).
Proof.
  cbn zeta. cbn [read_regs].
  rewrite tbind_unfold, lop_unfold. cbn [fst snd]. set (s1 := s <| ww_w := _ |>). assert (now_reads s1 = S (now_reads s)) as E1 by apply reg_step.
  rewrite tbind_unfold, lop_unfold. cbn [fst snd]. set (s2 := s1 <| ww_w := _ |>). assert (now_reads s2 = S (now_reads s1)) as E2 by apply reg_step.
  rewrite tbind_unfold, lop_unfold. cbn [fst snd]. set (s3 := s2 <| ww_w := _ |>). assert (now_reads s3 = S (now_reads s2)) as E3 by apply reg_step.
  rewrite tbind_unfold, lop_unfold. cbn [fst snd]. set (s4 := s3 <| ww_w := _ |>). assert (now_reads s4 = S (now_reads s3)) as E4 by apply reg_step.
  rewrite tbind_unfold, lop_unfold. cbn [fst snd]. set (s5 := s4 <| ww_w := _ |>). assert (now_reads s5 = S (now_reads s4)) as E5 by apply reg_step.
  exists s5. split; [lia|]. split; [done|].
  rewrite !reg_hi, !reg_lo, reg_cyc. fold (now_reads s) (now_reads s1) (now_reads s2) (now_reads s3) (now_reads s4).
  rewrite E4, E3, E2, E1. clearbody s1 s2 s3 s4 s5. clear E1 E2 E3 E4 E5. set (n := now_reads s).
  replace (n + 2)%nat with (S (S n)) by lia. replace (n + 4)%nat with (S (S (S (S n)))) by lia.
  pose proof (sec_mono n) as M1. pose proof (sec_mono (S n)) as M2. pose proof (sec_mono (S (S n))) as M3. pose proof (sec_mono (S (S (S n)))) as M4.
  assert (pps_sec (S (S (S (S n)))) <= pps_sec n + 1) as Hs.
  { pose proof (sec_slow n). pose proof (sec_le (S (S (S (S n)))) (n + 9) ltac:(lia)). lia. }
  destruct (_ || _) eqn:Eo; [left|right].
  - split; [done|]. destruct (Z.eq_dec (pps_sec n) (pps_sec (S (S (S (S n)))))) as [E|]; [|lia]. exfalso.
    assert (pps_sec (S n) = pps_sec n /\ pps_sec (S (S (S n))) = pps_sec n) as [F1 F2] by lia.
    rewrite F1, F2, <- E, !Z.eqb_refl in Eo. done.
  - apply orb_false_iff in Eo. rewrite !negb_false_iff, !Z.eqb_eq in Eo. destruct Eo as [Eh El]. cbn [mret TM_ret].
    f_equal. f_equal. unfold instant.
    assert (pps_sec (S n) = pps_sec (S (S (S (S n))))) as F by (clear - El Hs M1 M2 M3 M4; dlia).
    assert (pps_sec (S (S n)) = pps_sec (S n)) as F2 by lia. f_equal.
    + rewrite F2, <- Eh. assert (pps_sec (S (S (S n))) = pps_sec (S n)) as -> by lia. rewrite join_secs. done.
    + pose proof (cyc_range (S (S n))). rewrite !Z.shiftl_mul_pow2 by lia. change (2 ^ 16) with 65536.
      unfold ulong. rewrite Z.mod_small. { apply i64_id. lia. } destruct long_width as [-> | ->]; lia.
Qed.

(** C29. Reading the time. Once the registers are mapped and while they count on, a call of
    [wrdate_get] ends after at most two rounds of its loop, and what it returns is the exact value
    of the counter at an instant of the call: never the seconds of one moment with the nanoseconds
    of another. *)
Theorem wrdate_get_exact (fuel : nat) (s : wrs_world) : (2 <= fuel)%nat -> ww_mapped s = true ->
  exists n, (now_reads s <= n < now_reads (wrdate_get fuel s).2)%nat /\ (wrdate_get fuel s).1 = (0, Some (instant n)).
Proof.
  intros Hf Hm. unfold wrdate_get. rewrite tbind_unfold. cbn [gets fst snd]. rewrite Hm. rewrite tbind_unfold. cbn [mret TM_ret fst snd].
  rewrite tbind_unfold. cbn [mret TM_ret fst snd]. destruct fuel as [|[|fuel]]; [lia|lia|].
  destruct (read_round (S fuel) s) as (s1 & E1 & _ & [[-> Hlt]| ->]); [|exists (now_reads s + 2)%nat; cbn [fst snd]; split; [lia|done]].
  destruct (read_round fuel s1) as (s2 & E2 & _ & [[_ Hlt2]| ->]); [exfalso|exists (now_reads s1 + 2)%nat; cbn [fst snd]; split; [lia|done]].
  rewrite E1 in Hlt2. pose proof (sec_slow (now_reads s)) as Hs. replace (now_reads s + 5 + 4)%nat with (now_reads s + 9)%nat in Hlt2 by lia.
  pose proof (sec_le (now_reads s + 4) (now_reads s + 5) ltac:(lia)). lia.
Qed.

End Spec.

(** ** Setting the time *)

(** What is left of a difference after its step, in 2^-16 ns. *)
Definition left_over (diff : pp_time) : Z := tval diff - (time_step diff).1 * SNS_PER_S - (time_step diff).2 * 65536.
Definition MS : Z := 65536000000.

Lemma msec_of diff : Z.abs (scaled_nsecs diff) <= SNS_PER_S ->
  i32 (Z.quot (Z.quot (Z.shiftr (scaled_nsecs diff) 16) 1000) 1000) = Z.quot (scaled_nsecs diff / 65536) 1000000.
Proof.
  intros Hn. rewrite SNS_PER_S_val in Hn. rewrite Z.shiftr_div_pow2, Z.quot_quot by lia. change (2 ^ 16) with 65536.
  change (1000 * 1000) with 1000000. apply i32_id. dlia.
Qed.

Lemma quot_ms n : let m := Z.quot (n / 65536) 1000000 in
  n / 65536 - 1000000 < 1000000 * m /\ 1000000 * m < n / 65536 + 1000000 /\
  (0 <= n -> 0 <= m /\ 1000000 * m <= n / 65536) /\ (n <= 0 -> m <= 0 /\ n / 65536 <= 1000000 * m).
Proof. cbn zeta. split_and!; intros; dlia. Qed.

Lemma step_one diff : (time_step diff).1 = 0 \/ (time_step diff).2 = 0.
Proof. unfold time_step. destruct (truth (secs diff)); [by right|]. destruct (_ || _); [by left|by right]. Qed.

Lemma step_nearer diff : normal_time diff -> Z.abs (secs diff) < 4611686018427387904 ->
  Z.abs (left_over diff) <= Z.abs (tval diff) /\
  (secs diff <> 0 -> Z.abs (left_over diff) <= 501 * MS) /\
  (secs diff = 0 -> 21 * MS <= Z.abs (scaled_nsecs diff) < 979 * MS -> 0 <= left_over diff < 65536).
Proof.
  intros Hn Hs. assert (Z.abs (scaled_nsecs diff) <= SNS_PER_S) as Hb by (unfold normal_time in Hn; lia).
  unfold left_over, time_step, tval, MS, THRESHOLD_MS. rewrite msec_of by done. unfold normal_time in Hn. rewrite SNS_PER_S_val in *.
  rewrite Z.shiftr_div_pow2 by lia. change (2 ^ 16) with 65536.
  set (n := scaled_nsecs diff) in *. set (x := secs diff) in *. pose proof (quot_ms n) as (M1 & M2 & M3 & M4). set (m := Z.quot (n / 65536) 1000000) in *.
  assert (65536 * (n / 65536) <= n < 65536 * (n / 65536) + 65536) as Hd by dlia. set (q := n / 65536) in *. clearbody m q n x.
  unfold truth. destruct (Z.eqb_spec x 0) as [->|Hx]; cbn [negb].
  - rewrite i32_id by lia. destruct (_ || _) eqn:Eo; cbn [fst snd].
    + assert (20 < m < 980 \/ -980 < m < -20) as Em by lia. split_and!; lia.
    + assert (m <= 20 /\ -20 <= m \/ 980 <= m \/ m <= -980) as Em by lia. split_and!; lia.
  - cbn [fst snd]. destruct (Z.ltb_spec 500 m); [rewrite i64_id by lia; split_and!; lia|].
    destruct (Z.ltb_spec m (-500)); [rewrite i64_id by lia; split_and!; lia|]. split_and!; lia.
Qed.

Section Setting.
Context `{Config} `{WrsHal} {HK : Hooks}.

(** Counters that are moved as asked: [pps_clock] is their value in 2^-16 ns. *)
Class IdealCounters := {
  pps_clock : env -> Z;
  adjust_sec : forall n e, pps_clock (hal_pps (ADJUST_SEC n) e).2 = pps_clock e + n * SNS_PER_S;
  adjust_nsec : forall n e, pps_clock (hal_pps (ADJUST_NSEC n) e).2 = pps_clock e + n * 65536;
  unix_keeps : forall i t e, pps_clock (unix_set i t e) = pps_clock e }.

Context `{!IdealCounters}.
Definition counter (s : wrs_world) : Z := pps_clock (the_env (ww_w s)).

Lemma adjust_counters_moves a n s : a = 0 \/ n = 0 ->
  (exists v, (wrs_adjust_counters a n s).1 = goes_on v) /\
  counter (wrs_adjust_counters a n s).2 = counter s + a * SNS_PER_S + n * 65536.
Proof.
  intros Ho. unfold wrs_adjust_counters. destruct (Z.eqb_spec n 0) as [->|Hn]; destruct (Z.eqb_spec a 0) as [->|Ha]; cbn [andb].
  - cbn. split; [by exists 0|lia].
  - unfold truth. destruct (Z.eqb_spec a 0); [done|]. cbn [negb andb Z.eqb]. rewrite tbind_unfold. unfold pps. rewrite lop_unfold. cbn [fst snd].
    split; [by eexists|]. unfold counter. cbn. rewrite adjust_sec. lia.
  - change (truth 0) with false. cbn [andb]. rewrite tbind_unfold. unfold pps. rewrite lop_unfold. cbn [fst snd].
    split; [by eexists|]. unfold counter. cbn. rewrite adjust_nsec. lia.
  - lia.
Qed.

Lemma time_set_runs fuel i t now stack s s1 :
  timingMode (arch_data (the_env (ww_w s))) <> WRH_TM_GRAND_MASTER -> wrdate_get fuel s = ((0, Some now), s1) ->
  let st := time_step (pp_time_sub t now) in let r := wrs_time_set fuel i (Some t) stack s in
  r.1 = goes_on 0 /\ counter r.2 = counter s1 + st.1 * SNS_PER_S + st.2 * 65536.
Proof.
  intros Hg Hw. cbn zeta. unfold wrs_time_set. rewrite tbind_unfold. cbn [arch gets fst snd].
  destruct (Z.eqb_spec (timingMode (arch_data (the_env (ww_w s)))) WRH_TM_GRAND_MASTER); [done|]. rewrite tbind_unfold, Hw. cbn [fst snd from_option id].
  pose proof (step_one (pp_time_sub t now)) as Ho. destruct (time_step (pp_time_sub t now)) as [a b]. cbn [fst snd] in *.
  rewrite tbind_unfold. destruct (adjust_counters_moves a b s1 Ho) as [[v ->] Ec]. rewrite <- Ec.
  set (s2 := (wrs_adjust_counters a b s1).2) in *. clearbody s2. clear Ec Ho. rewrite tbind_unfold. cbn [mret TM_ret fst snd]. split; [reflexivity|].
  destruct (_ <? _); [reflexivity|]. unfold op_. rewrite lop_unfold. apply (unix_keeps i (Some t)).
Qed.

Lemma diff_secs t now : half_time t -> half_time now -> normal_time t -> normal_time now ->
  normal_time (pp_time_sub t now) /\ Z.abs (secs (pp_time_sub t now)) < 4611686018427387904 /\
  tval (pp_time_sub t now) = tval t - tval now.
Proof.
  intros Ht Hn Nt Nn. pose proof (pp_time_sub_tval t now Ht Hn) as Ev. pose proof (pp_time_sub_normal t now Ht Hn Nt Nn) as Nd.
  split; [done|]. split; [|done]. revert Ev Nd. generalize (pp_time_sub t now). intros d Ev Nd.
  unfold half_time, normal_time, tval in *. rewrite SNS_PER_S_val in *. lia.
Qed.

(** Setting the time. Outside of grand master mode, whatever the difference between the time to be
    set and the counters, [wrs_time_set] never asks for seconds and nanoseconds at once, on which the
    program would end; with counters that are moved as asked the error does not grow, it is at most
    501 ms when the seconds differed, and less than a nanosecond when it was between 21 and 979 ms. *)
Theorem wrs_time_set_nearer (fuel : nat) (i : nat) (t now stack : pp_time) (s s1 : wrs_world) :
  timingMode (arch_data (the_env (ww_w s))) <> WRH_TM_GRAND_MASTER -> wrdate_get fuel s = ((0, Some now), s1) -> tval now = counter s1 ->
  half_time t -> half_time now -> normal_time t -> normal_time now ->
  let diff := pp_time_sub t now in
  let s' := (wrs_time_set fuel i (Some t) stack s).2 in
  let err := Z.abs (tval t - counter s1) in
  let err' := Z.abs (tval t - counter s') in
  (wrs_time_set fuel i (Some t) stack s).1 = goes_on 0 /\ err' <= err /\
  (secs diff <> 0 -> err' <= 501 * MS) /\ (secs diff = 0 -> 21 * MS <= err < 979 * MS -> err' < 65536).
Proof.
  intros Hg Hw Hc Ht Hn Nt Nn. cbn zeta. destruct (time_set_runs fuel i t now stack s s1 Hg Hw) as [E1 E2].
  destruct (diff_secs t now Ht Hn Nt Nn) as (Nd & Hs & Ev). revert E2 Nd Hs Ev. generalize (pp_time_sub t now). intros d E2 Nd Hs Ev.
  split; [exact E1|]. rewrite E2, <- Hc. destruct (step_nearer d Nd Hs) as (L1 & L2 & L3). unfold left_over in *. rewrite Ev in *.
  split; [lia|]. split; [intros Hx; specialize (L2 Hx); lia|]. intros Hx Hr. specialize (L3 Hx). unfold tval in Ev. rewrite Hx in Ev.
  change (secs t * SNS_PER_S + scaled_nsecs t) with (tval t) in Ev. change (secs now * SNS_PER_S + scaled_nsecs now) with (tval now) in Ev. lia.
Qed.

End Setting.

(** ** The DAC *)

(** The frequency DAC. Whatever frequency is asked for, the value written fits the 16 bits that do
    not select another DAC; within the range of a [long] it is the middle plus 4096 counts for
    1.2 ppm, to less than a count, or the end of the range. *)
Theorem dac_value_range `{Config} (freq_ppb : Z) : let v := dac_value freq_ppb in
  0 <= v <= 0xffff /\
  (Z.abs freq_ppb <= PP_ADJ_FREQ_MAX ->
   (Z.abs ((v - 0x8000) * 1200 - freq_ppb * 0x1000) < 1200 \/
    (v = 0xffff /\ 0x7fff * 1200 < freq_ppb * 0x1000) \/ (v = 0 /\ freq_ppb * 0x1000 < -0x8000 * 1200))).
Proof.
  cbn zeta. unfold dac_value. set (x := slong (freq_ppb * 0x1000)). set (q := Z.quot x 1200).
  assert (Z.abs (1200 * q - x) < 1200) as Hq. { unfold q. pose proof (Z.quot_rem' x 1200). pose proof (Z.rem_bound_abs x 1200). lia. }
  split.
  - destruct (Z.ltb_spec 0x7fff q); [|destruct (Z.ltb_spec q (-0x8000))]; [split; by vm_compute|split; by vm_compute|rewrite i32_id; lia].
  - unfold PP_ADJ_FREQ_MAX. intros Hf. assert (x = freq_ppb * 0x1000) as Ex.
    { unfold x, slong. destruct long_width as [E | E]; rewrite E; clear - Hf; [change (4294967296 / 2) with 2147483648|change (18446744073709551616 / 2) with 9223372036854775808]; rewrite Z.mod_small; lia. }
    rewrite <- Ex. destruct (Z.ltb_spec 0x7fff q).
    + right. left. split; [reflexivity|lia].
    + destruct (Z.ltb_spec q (-0x8000)); [right; right; split; [reflexivity|lia]|]. left. rewrite i32_id by lia. lia.
Qed.

(** ** Examples *)

Module WrsTimeDemo.
#[local] Instance demo_cfg : Config := Demo.demo_config.

(** The registers count on at each read, ten reads a second; the counters are moved as asked. *)
Record denv := mk_denv { de_reads : nat; de_clock : Z }.
#[export] Instance demo_plat : Platform := {|
  env := denv;
  t_calc_timeout _ ms e := (ms, e);
  t_get _ e := (clear_time, e);
  t_set _ _ e := e;
  t_adjust _ _ _ e := e;
  t_adjust_offset _ _ e := e;
  t_adjust_freq := None;
  t_init_servo := None;
  t_get_utc_time _ e := (None, e);
  t_get_utc_offset _ e := (None, e);
  t_set_utc_offset _ _ _ _ e := e;
  t_get_GM_lock_state e := (None, e);
  t_enable_timing_output _ e := e;
  n_init _ e := ((0, []), e);
  n_send _ _ _ _ e := ((0, None), e) |}.

Definition sec_at (n : nat) : Z := 8589934599 + Z.min 1000000 (Z.of_nat n / 10).
Definition cyc_at (n : nat) : Z := Z.of_nat n mod 10 * 6000000.

#[export] Instance demo_hal : WrsHal := {|
  hal_pps c e := ((0, 0), match c with
    | ADJUST_SEC n => mk_denv (de_reads e) (de_clock e + n * SNS_PER_S)
    | ADJUST_NSEC n => mk_denv (de_reads e) (de_clock e + n * 65536)
    | _ => e end);
  hal_get e := ((-1, 0, 0, 0), e);
  hal_lock _ _ e := ((0, 0), e);
  hal_lock_status r := if r =? 0 then LOCK_LOCKED else LOCK_UNKNOWN;
  hal_map e := (true, e);
  pps_reg k e := (match k with
    | 3%nat => sec_at (de_reads e) / 4294967296 | 2%nat => sec_at (de_reads e) mod 4294967296 | _ => cyc_at (de_reads e) end,
    mk_denv (S (de_reads e)) (de_clock e));
  dac_write _ e := e;
  unix_set _ _ e := e;
  wr_date e := e;
  arch_data _ := mk_warch 1 1 0;
  upd_arch_data _ e := e |}.

#[export] Instance demo_pps : PpsClock.
Proof.
  refine {| reads := de_reads; pps_sec := sec_at; pps_cyc := cyc_at |}; try done; intros n; unfold sec_at, cyc_at; dlia.
Defined.

#[export] Instance demo_counters : IdealCounters.
Proof. refine {| pps_clock := de_clock |}; done. Defined.

#[local] Instance demo_hooks : Hooks := fun _ => pp_hooks.

(** The fourth read of a call at [n] is in another second when [n] is 7. *)
Definition demo_wrs_world (n : nat) (clock : Z) : wrs_world :=
  mk_ww (mk_world (Demo.demo_globals 1) [] (mk_denv n clock) 0 [-1; -1; -1; -1] 1 false) 0 true false (-1) false.

(** The first round straddles the change of the second, the second round is taken. *)
Lemma wrdate_get_exact_witness : (wrdate_get 2 (demo_wrs_world 7 0)).1 = (0, Some (instant 14)) /\
  exists n, (7 <= n < now_reads (wrdate_get 2 (demo_wrs_world 7 0)).2)%nat /\
    (wrdate_get 2 (demo_wrs_world 7 0)).1 = (0, Some (instant n)).
Proof. split; [vm_compute; reflexivity|]. exact (wrdate_get_exact 2 (demo_wrs_world 7 0) (le_n 2) eq_refl). Defined.

(** 3.9 s behind: the seconds are moved by four, and 100 ms are left. *)
Definition demo_now : pp_time := instant 2.
Definition demo_target : pp_time := mk_time (secs demo_now + 3) (scaled_nsecs demo_now + 900 * MS - 192 * MS).

Lemma wrs_time_set_nearer_witness : let s := demo_wrs_world 0 (tval demo_now) in
  let r := wrs_time_set 2 0 (Some demo_target) clear_time s in
  r.1 = goes_on 0 /\ Z.abs (tval demo_target - counter r.2) <= 501 * MS.
Proof.
  cbn zeta. set (s := demo_wrs_world 0 (tval demo_now)).
  assert (normal_time demo_target /\ normal_time demo_now /\ half_time demo_target /\ half_time demo_now) as (N1 & N2 & H1 & H2).
  { split_and!; vm_compute; (left; done) || (split; done) || done. }
  destruct (wrs_time_set_nearer 2 0 demo_target demo_now clear_time s (wrdate_get 2 s).2) as (E & _ & L & _).
  - by vm_compute.
  - vm_compute. reflexivity.
  - vm_compute. reflexivity.
  - exact H1.
  - exact H2.
  - exact N1.
  - exact N2.
  - split; [exact E|]. apply L. by vm_compute.
Defined.

Lemma dac_value_range_witness : dac_value 1000 = 0x8000 + 3413 /\ 0 <= dac_value 1000000 <= 0xffff /\
  (Z.abs ((dac_value 1000 - 0x8000) * 1200 - 1000 * 0x1000) < 1200 \/
   (dac_value 1000 = 0xffff /\ 0x7fff * 1200 < 1000 * 0x1000) \/ (dac_value 1000 = 0 /\ 1000 * 0x1000 < -0x8000 * 1200)).
Proof.
  split; [vm_compute; reflexivity|]. split; [apply (dac_value_range 1000000)|]. apply (dac_value_range 1000). by vm_compute.
Defined.
End WrsTimeDemo.
