(* ===== verification/WrsMain.v ===== *)
(** * The switch: main and its loop

    arch-wrs: main-loop.c, wrs-port.c, wrs-calibration.c, wrs-ipcserver.c and
    wrs-startup.c.  The loop follows the links as the HAL reports them, sets
    the timing mode of a grand master and watches its PLL, serves commands,
    and runs the ports by an alarm.  The HAL's shared memory and its remote
    calls are a parameter. *)

From stdpp Require Import strings.
From S2P Require Import Prelude TimeArith Types World Timeout Hooks Bytes Msg FixedPoint Servo.
From S2P Require Import BmcCmp ClockQuality Bmc BmcTable BmcDecision Common States Fsm OpenClose MainLoop.
From S2P Require Import Wrh L1Sync Scan Conf UnixMain UnixNet WrsNet WrsTime.

Definition WRH_TM_DISABLED : Z := 3.
Definition WRH_HW_CALIB_OK : Z := 0.
Definition WRH_HW_CALIB_ERROR : Z := -1.
Definition TMO_DEFAULT_BMCA_MS : Z := 2000.
Definition PPSIEXP_COMMAND_WR_TRACKING : Z := 1.
Definition PPSIEXP_COMMAND_L1SYNC_TRACKING : Z := 2.
Definition WRS_NUMBER_PHYSICAL_PORTS : nat := 18.
Definition UINT_MAX : Z := 4294967295.

(** What is reported of a port to the HAL. *)
Record port_slot := mk_slot { slot_name : list Z; slot_mode : Z; slot_synchronized : Z }.
#[export] Instance eta_slot : Eta port_slot := fun s => mk_slot (slot_name s) (slot_mode s) (slot_synchronized s).

(** The shared memory of the HAL and the rest of the machine; [double_bits] is a [double] from its
    bits, [net_exit] closes the sockets of a port. *)
Class HalShm `{WrsHal} `{ConfBuild} := {
  shm_ports : env -> list hal_port_state;
  shm_initialized : env -> bool;
  double_bits : Z -> double;
  net_exit : nat -> env -> env;
  sleep_1s : env -> env;
  port_info_cmd : list port_slot -> env -> (Z * Z) * env;
  PORT_MODE_OTHER : Z;
  PORT_MODE_MASTER : Z;
  PORT_MODE_SLAVE : Z }.

Section Main.
Context `{Config} `{!ConfBuild} `{Platform} {WO : WrhOper} {HK : Hooks} {WH : WrsHal} {SH : HalShm}.

(** ** Calibration *)

Definition wrs_get_clock_period : M Z :=
  op (fun e => (match shm_ports e with
                | p :: _ => if truth (hal_clock_period p) then i32 (hal_clock_period p) else HAL_REF_CLOCK_PERIOD_PS
                | [] => HAL_REF_CLOCK_PERIOD_PS
                end, e)).

Definition lookup (name : list Z) : M (option hal_port_state) := op (fun e => (pp_wrs_lookup_port name (shm_ports e), e)).

(** Bit slide, delay coefficient, and the delays of the transceiver. *)
Definition wrs_read_calibration_data (j : nat) : M (Z * option (Z * Z * Z * Z)) :=
  name ← rd j (fun p => cfg_iface_name (cfg p));
  p ← lookup name;
  mret (match p with
        | None => (WRH_HW_CALIB_ERROR, None)
        | Some p => (WRH_HW_CALIB_OK, Some (picos_to_interval (bitslide_ps p), double_to_reldiff (double_bits (alpha p)),
                       picos_to_interval (delta_tx_ps p), picos_to_interval (delta_rx_ps p)))
        end).

(** ** Links *)

(** [pc] is the configuration of the port.  The coefficient that is stored into it is read by
    [enable_asymmetryCorrection] only, which always follows the store. *)
Definition link_went_up (j : nat) (pc : port_conf) : M unit :=
  wr j (fun p => p <| state := PPS_INITIALIZING |>);;
  '(_, r) ← wrs_read_calibration_data j;
  let '(bitSlide, coefficient, deltaTx, deltaRx) := default (0, 0, 0, 0) r in
  wr j (fun p => p <| timestampCorrectionPortDS ::= fun d => d <| semistaticLatency := bitSlide |> |>);;
  when ((PP_MIN_DELAY_COEFFICIENT_AS_RELDIFF <=? coefficient) && (coefficient <=? PP_MAX_DELAY_COEFFICIENT_AS_RELDIFF))
    (wr j (fun p => if truth (asym_enable (asymmetryCorrectionPortDS p))
                    then enable_asymmetryCorrection (pc <| pc_scaledDelayCoefficient := coefficient |>) 1 p else p);;
     wr j (fun p => p <| timestampCorrectionPortDS ::= fun d => d
             <| egressLatency := i64 (picos_to_interval (pc_egressLatency_ps pc) + deltaTx) |>
             <| ingressLatency := i64 (picos_to_interval (pc_ingressLatency_ps pc) + deltaRx) |> |>)).

(** The hook [servo_reset] of the White Rabbit and L1Sync tables; plain PTP has neither the hook nor
    the data of an extension. *)
Definition restart_servo (j : nat) : M unit :=
  e ← rd j protocol_extension;
  when (negb (bool_decide (e = PPSI_EXT_NONE)))
    (wrh_servo_reset j;;
     setWRH j (fun s => s <| doRestart := 1 |>)).

Definition link_went_down (j : nat) : M unit :=
  wr j (fun p => p <| next_state := PPS_DISABLED |>);;
  pp_leave_current_state j;;
  op_ (net_exit j);;
  wr j (fun p => p <| frgn_rec_num := 0 |> <| frgn_rec_best := -1 |>);;
  ebest ← rdG ebest_idx;
  idx ← rd j port_idx;
  when (ebest =? idx) (restart_servo j).

Definition follow_link (j : nat) (pc : port_conf) (h : hal_port_state) : M unit :=
  old_lu ← rd j link_up;
  ini ← op (fun e => (shm_initialized e, e));
  let up := of_bool (hal_up h && ini) in
  wr j (fun p => p <| link_up := up |>);;
  when (negb (old_lu =? up)) (if truth up then link_went_up j pc else link_went_down j).

Fixpoint wrs_run_ports (pcs : nat -> port_conf) (l : list nat) (delay_ms : Z) : M Z :=
  match l with
  | [] => mret delay_ms
  | j :: l' =>
      name ← rd j (fun p => cfg_iface_name (cfg p));
      h ← lookup name;
      match h with
      | None => wrs_run_ports pcs l' delay_ms
      | Some h =>
          follow_link j (pcs j) h;;
          up ← rd j link_up;
          delay_ms_j ← (if truth up then pp_state_machine j [] 0 else mret PP_DEFAULT_NEXT_DELAY_MS);
          let delay_ms := if (j =? 0)%nat then delay_ms_j else delay_ms in
          wrs_run_ports pcs l' (if delay_ms_j <? delay_ms then delay_ms_j else delay_ms)
      end
  end.

(** ** Reports to the HAL *)

(** [getPortSlot], and the write through the pointer it returns. *)
Fixpoint on_slot (name : list Z) (g : port_slot -> port_slot) (l : list port_slot) : list port_slot :=
  match l with
  | [] => [g (mk_slot name PORT_MODE_OTHER 0)]
  | s :: l => if bool_decide (slot_name s = name) then g s :: l else s :: on_slot name g l
  end.

(** The extension runs and its peer was found. *)
Definition ext_active (p : pp_instance) : bool :=
  (bool_decide (protocol_extension p = PPSI_EXT_WR) || bool_decide (protocol_extension p = PPSI_EXT_L1S)) &&
  bool_decide (extState p = PP_EXSTATE_ACTIVE) && bool_decide (pdstate p = PP_PDSTATE_PDETECTED).

Definition report_instance (p : pp_instance) (s : port_slot) : port_slot :=
  let s := s <| slot_mode := 0 |> in
  if state p =? PPS_SLAVE then
    let s := if truth (slot_synchronized s) then s
             else s <| slot_synchronized := of_bool (truth (servo_locked (servo p)) && ext_active p) |> in
    if truth (slot_synchronized s) then s <| slot_mode := PORT_MODE_SLAVE |> else s
  else if (state p =? PPS_MASTER) && negb (slot_mode s =? PORT_MODE_SLAVE) then
    if ext_active p then s <| slot_mode := PORT_MODE_MASTER |> else s
  else s.

Definition port_infos (l : list pp_instance) : list port_slot :=
  foldl (fun infos p => if truth (link_up p) then on_slot (cfg_iface_name (cfg p)) (report_instance p) infos else infos) [] l.

Definition wrs_update_port_info : M Z :=
  n ← rdG nlinks;
  infos ← rdw (fun w => port_infos (take (Z.to_nat n) (insts w)));
  '(ret, rval) ← op (port_info_cmd infos);
  mret (if ret <? 0 then -1 else rval).

(** ** The PLL and the timing mode *)

Definition check_PLL_state : TM unit :=
  '(ret, st) ← wrs_get_timing_mode_state;
  match st with
  | Some pllState =>
      if 0 <=? ret then
        d ← arch id;
        (if (timingMode d =? WRH_TM_GRAND_MASTER) && (pllState =? WRH_TM_PLL_STATE_LOCKED) &&
            ((timingModeLockingState d =? WRH_TM_LOCKING_STATE_LOCKING) ||
             (timingModeLockingState d =? WRH_TM_LOCKING_STATE_ERROR))
         then wrs_time_set 0 0 None clear_time;; wrs_enable_timing_output 1;; mret tt
         else mret tt);;
        if pllState =? WRH_TM_PLL_STATE_LOCKED then
          set_arch (fun d => d <| timingModeLockingState := WRH_TM_LOCKING_STATE_LOCKED |>)
        else if pllState =? WRH_TM_PLL_STATE_UNLOCKED then
          set_arch (fun d =>
            if timingModeLockingState d =? WRH_TM_LOCKING_STATE_LOCKED then
              d <| timingModeLockingState := WRH_TM_LOCKING_STATE_ERROR |>
                <| gmUnlockErr ::= fun n => if timingMode d =? WRH_TM_GRAND_MASTER then i32 (n + 1) else n |>
            else d)
        else mret tt
      else mret tt
  | None => mret tt
  end.

Definition grand_master_initialized : TM (outcome bool) :=
  i ← gets ww_initialized;
  if i : bool then mret (goes_on true)
  else
    def ← liftM DSDEF;
    if negb (clockClass (def_clockQuality def) =? PP_PTP_CLASS_GM_LOCKED) then
      liftM bmc_update_clock_quality;;
      puts (fun s => s <| ww_initialized := true |>);;
      mret (goes_on true)
    else
      ini ← liftM (op (fun e => (shm_initialized e, e)));
      if ini : bool then
        m ← wrs_get_timing_mode;
        match m with
        | None => mret (exits 1)
        | Some tm =>
            if negb (tm =? WRH_TM_GRAND_MASTER) then
              wrs_set_timing_mode WRH_TM_GRAND_MASTER;;
              mret (goes_on false)
            else
              set_arch (fun d => d <| timingMode := WRH_TM_GRAND_MASTER |>);;
              liftM bmc_update_clock_quality;;
              puts (fun s => s <| ww_initialized := true |>);;
              mret (goes_on true)
        end
      else mret (goes_on false).

(** ** The loop *)

(** The timers of the loop, once. *)
Definition start_timers : TM unit :=
  idx ← gets ww_portInfoTmoIdx;
  if idx =? -1 then
    liftM (pp_timeout_get_timer 0 PP_TO_WRS_SEND_PORT_INFO TO_RAND_NONE);;
    puts (fun s => s <| ww_portInfoTmoIdx := 1 |>);;
    liftM (pp_gtimeout_set PP_TO_WRS_SEND_PORT_INFO 2000);;
    liftM (pp_gtimeout_set PP_TO_BMC TMO_DEFAULT_BMCA_MS)
  else mret tt.

(** The best master calculation, or the delay until it. *)
Definition periodic_bmc (delay_ms : Z) : TM Z :=
  t ← liftM (pp_gtimeout PP_TO_BMC);
  if t : bool then
    liftM bmc_calculate_ebest;;
    liftM (pp_gtimeout_reset PP_TO_BMC);;
    check_PLL_state;;
    mret 0
  else
    delay_bmca ← liftM (pp_next_delay_1 0 PP_TO_BMC);
    mret (if delay_bmca <? delay_ms then delay_bmca else delay_ms).

Definition periodic_report : TM unit :=
  t ← liftM (pp_gtimeout PP_TO_WRS_SEND_PORT_INFO);
  if t : bool then
    liftM wrs_update_port_info;;
    liftM (pp_gtimeout_reset PP_TO_WRS_SEND_PORT_INFO)
  else mret tt.

(** The delay is returned as an [unsigned int]. *)
Definition wrs_run_all (pcs : nat -> port_conf) : TM (outcome Z) :=
  start_timers;;
  g ← grand_master_initialized;
  match g with
  | goes_on true =>
      l ← liftM links;
      d ← liftM (wrs_run_ports pcs l 0);
      d ← periodic_bmc d;
      periodic_report;;
      mret (goes_on (u32 d))
  | goes_on false => mret (goes_on PP_DEFAULT_NEXT_DELAY_MS)
  | exits c => mret (exits c)
  | crashes => mret crashes
  end.

Definition wrsipc_cmd (CONFIG_HAS_EXT_WR : bool) (cmd value : Z) : M Z :=
  if (cmd =? PPSIEXP_COMMAND_WR_TRACKING) && CONFIG_HAS_EXT_WR then wrh_servo_enable_tracking value;; mret 0
  else if (cmd =? PPSIEXP_COMMAND_L1SYNC_TRACKING) && CONFIG_HAS_EXT_L1SYNC then wrh_servo_enable_tracking value;; mret 0
  else mret (-1).

(** One turn of the loop as the machine sees it: whether the alarm is raised before the first test,
    before the second and before the last; the command of another process, if one comes; what
    [check_packet] returns and what happens to the platform meanwhile; the packets present; and the
    time left when the alarm is stopped. *)
Record wrs_event := mk_wev {
  we_alarm1 : bool; we_alarm2 : bool; we_alarm3 : bool; we_cmd : option (Z * Z); we_available : Z;
  we_env : env -> env; we_rx : nat -> option received; we_rem : Z }.

Record loop_state := mk_lst { alarmDetected : bool; skipped_checks : Z; delay_ms : Z }.
#[global] Instance eta_lst : Eta loop_state := fun l => mk_lst (alarmDetected l) (skipped_checks l) (delay_ms l).

(** The ports with a packet present; [delay_ms] is unsigned. *)
Fixpoint wrs_receive_ports (l : list nat) (rx : nat -> option received) (delay_ms : Z) : M Z :=
  match l with
  | [] => mret delay_ms
  | j :: l' =>
      match rx j with
      | None => wrs_receive_ports l' rx delay_ms
      | Some r =>
          n ← __recv_and_count j r;
          if (n =? PP_RECV_DROP) || (n =? -1) then wrs_receive_ports l' rx delay_ms
          else
            off ← rd j rx_offset;
            tmp_d ← pp_state_machine j (drop (Z.to_nat off) (r_frame r)) (n - off);
            wrs_receive_ports l' rx (if u32 tmp_d <? delay_ms then u32 tmp_d else delay_ms)
      end
  end.

(** The checks for commands and frames, unless they are skipped: the packets available. *)
Definition checks (has_wr : bool) (ev : wrs_event) (st : loop_state) : TM (Z * loop_state) :=
  if negb (alarmDetected st) && ((10 <? skipped_checks st) || truth (delay_ms st)) then
    (match we_cmd ev with Some (c, v) => liftM (wrsipc_cmd has_wr c v);; mret tt | None => mret tt end);;
    liftM (op_ (we_env ev));;
    mret (we_available ev, st <| skipped_checks := 0 |>)
  else
    mret (0, st <| skipped_checks ::= fun n => i32 (n + 1) |>).

(** The body of [while (1)]. *)
Definition wrs_turn (has_wr : bool) (pcs : nat -> port_conf) (ev : wrs_event) (st : loop_state) : TM (outcome loop_state) :=
  let st := st <| alarmDetected ::= orb (we_alarm1 ev) |> in
  '(packet_available, st) ← checks has_wr ev st;
  let st := st <| alarmDetected ::= orb (we_alarm2 ev) |> in
  if (packet_available <=? 0) && (alarmDetected st || (delay_ms st =? 0)) then
    o ← wrs_run_all pcs;
    mret (match o with
          | goes_on d => goes_on (st <| delay_ms := if PP_DEFAULT_NEXT_DELAY_MS <? d then PP_DEFAULT_NEXT_DELAY_MS else d |>
                                     <| alarmDetected := false |>)
          | exits c => exits c
          | crashes => crashes
          end)
  else if 0 <? packet_available then
    l ← liftM links;
    d ← liftM (wrs_receive_ports l (we_rx ev) UINT_MAX);
    let st := st <| alarmDetected ::= orb (we_alarm3 ev) |> in
    mret (goes_on (if negb (d =? UINT_MAX) && negb (alarmDetected st)
                   then st <| delay_ms := if u32 (we_rem ev) <? d then u32 (we_rem ev) else d |>
                   else st <| delay_ms := d |>))
  else mret (goes_on st).

Fixpoint wrs_loop (has_wr : bool) (pcs : nat -> port_conf) (evs : list wrs_event) (st : loop_state) : TM (outcome loop_state) :=
  match evs with
  | [] => mret (goes_on st)
  | ev :: evs =>
      o ← wrs_turn has_wr pcs ev st;
      match o with
      | goes_on st => wrs_loop has_wr pcs evs st
      | exits c => mret (exits c)
      | crashes => mret crashes
      end
  end.

(** The alarm counts as raised at first; [alarm_ok] is whether its handler and timer can be set up. *)
Definition wrs_main_loop (has_wr : bool) (pcs : nat -> port_conf) (alarm_ok : bool) (evs : list wrs_event) : TM (outcome loop_state) :=
  l ← liftM links;
  liftM (for_each l (fun j => wr j (fun p => p <| is_new_state := true |>)));;
  o ← wrs_run_all pcs;
  match o with
  | goes_on d => if alarm_ok then wrs_loop has_wr pcs evs (mk_lst true 0 d) else mret (exits 1)
  | exits c => mret (exits c)
  | crashes => mret crashes
  end.

(** ** main *)

(** The default port texts; without the profile HA the buffer is not filled, and [stack i] is what it
    holds in the round [i] (the parser works on it in place). *)
Definition port_text (i : nat) : list Z :=
  str "port " ++ show (Z.of_nat i + 1) ++ str "; iface wri" ++ show (Z.of_nat i + 1) ++ str "; proto raw; profile ha".

Definition wrs_default_ports (stack : nat -> list Z) (c : conf) : conf :=
  foldl (fun c i => (pp_config_string c (if CONFIG_HAS_PROFILE_HA then port_text i else stack i)).1) c
    (seq 0 WRS_NUMBER_PHYSICAL_PORTS).

Definition wrs_default_config (fs : list Z -> option conf_file) (stack : nat -> list Z) (c : conf) : conf :=
  let c := if cf_cfg_items c =? 0 then (pp_config_file c false (fs (str "/etc/ppsi.conf"))).1 else c in
  if cf_cfg_items c =? 0 then wrs_default_ports stack c else c.

(** Up to [pp_init_globals]; [m_oom_start] is also a failure to reach the HAL or the shared memory, or
    another instance of the program. *)
Definition wrs_main (m : machine) (stack : nat -> list Z) (argv : list (list Z)) : outcome (conf * world * ppsi_drop) :=
  if m_oom_start m then exits 1
  else match pp_parse_cmdline (m_files m) argv initial_conf with
  | goes_on (c, r) =>
      if truth r then exits (-1)
      else
        let c := wrs_default_config (m_files m) stack c in
        match init_ports (m_tx m) (m_oom m) 0 (take (Z.to_nat (cf_nlinks c)) (cf_ports c)) with
        | goes_on l => goes_on (c, world_of m c l, ppsi_drop_init (cf_rxdrop c) (cf_txdrop c) (m_seed m))
        | exits r => exits r
        | crashes => crashes
        end
  | exits r => exits r
  | crashes => crashes
  end.

(** The mode the switch starts with. *)
Definition start_mode (tm : Z) : TM unit :=
  def ← liftM DSDEF;
  if tm =? WRH_TM_FREE_MASTER then set_arch (fun d => d <| timingMode := WRH_TM_FREE_MASTER |>)
  else if (tm =? WRH_TM_GRAND_MASTER) && (clockClass (def_clockQuality def) =? PP_PTP_CLASS_GM_LOCKED) then
    set_arch (fun d => d <| timingMode := WRH_TM_GRAND_MASTER |>)
  else if (tm =? WRH_TM_GRAND_MASTER) || (tm =? WRH_TM_BOUNDARY_CLOCK) || (tm =? WRH_TM_DISABLED) then
    wrs_set_timing_mode WRH_TM_FREE_MASTER;; mret tt
  else mret tt.

(** The wait for the PLL: the last state that was stored; [pll] is what the stack holds. *)
Fixpoint wait_pll (nbRetry : nat) (pll : Z) : TM Z :=
  match nbRetry with
  | O => mret pll
  | S n =>
      '(ret, st) ← wrs_get_timing_mode_state;
      let pll := default pll st in
      if (ret =? 0) && (pll =? WRH_TM_PLL_STATE_LOCKED) then mret pll
      else
        liftM (op_ sleep_1s);;
        wait_pll n pll
  end.

Definition start_timing (pll : Z) : TM (outcome unit) :=
  m ← wrs_get_timing_mode;
  match m with
  | None => mret (exits 1)
  | Some tm =>
      set_arch (fun d => d <| timingModeLockingState := WRH_TM_LOCKING_STATE_LOCKING |>);;
      start_mode tm;;
      pll ← wait_pll 2 pll;
      (if pll =? WRH_TM_PLL_STATE_UNLOCKED then
         set_arch (fun d => d <| timingModeLockingState := WRH_TM_LOCKING_STATE_LOCKING |>)
       else if pll =? WRH_TM_PLL_STATE_LOCKED then
         wrs_time_set 0 0 None clear_time;;
         set_arch (fun d => d <| timingModeLockingState := WRH_TM_LOCKING_STATE_LOCKED |>)
       else mret tt);;
      l ← arch timingModeLockingState;
      def ← liftM DSDEF;
      o ← liftM OPTS;
      wrs_enable_timing_output
        (of_bool ((l =? WRH_TM_LOCKING_STATE_LOCKED) && (clockClass (def_clockQuality def) =? PP_PTP_CLASS_GM_LOCKED) ||
                  truth (opt_forcePpsGen o)));;
      mret (goes_on tt)
  end.

(** The program from there on. *)
Definition wrs_run (has_wr : bool) (c : conf) (pll : Z) (alarm_ok : bool) (evs : list wrs_event) : TM (outcome loop_state) :=
  liftM (pp_init_globals true (cf_opts c));;
  o ← start_timing pll;
  match o with
  | goes_on _ => wrs_main_loop has_wr (fun j => nth j (cf_ports c) pp_default_instance_cfg) alarm_ok evs
  | exits c => mret (exits c)
  | crashes => mret crashes
  end.

(** The static variables at the start. *)
Definition wrs_start (w : world) : wrs_world := mk_ww w 0 false false (-1) false.

End Main.
