(* ===== verification/WrsMainSpec.v ===== *)
(** * The switch: theorems

    The program of the switch keeps the invariant of the system, whatever its
    links, the HAL and the network do; a port whose link is lost forgets its
    masters; what is reported to the HAL; checks for frames are not starved. *)

From stdpp Require Import sets strings.
From S2P Require Import Prelude TimeArith Types World Timeout Hooks Bytes Msg FixedPoint Servo.
From S2P Require Import BmcCmp ClockQuality Bmc BmcTable BmcDecision Common States Fsm OpenClose Safety MainLoop Startup.
From S2P Require Import Wrh WrhLoop WrMsg WrStates WrHooks L1Sync Extensions ExtClosed.
From S2P Require Import Scan Conf ConfLex ConfInv ConfSpec UnixMain UnixStart UnixNet UnixNetSpec UnixTime WrsNet WrsNetSpec WrsTime WrsTimeSpec WrsMain.

(** ** The invariant *)

Section Sys.
Context `{Config} `{!ConfBuild} `{Platform} {WO : WrhOper} {HK : Hooks} `{!HooksSafe} {WH : WrsHal} {SH : HalShm} (nl : Z).

Abbreviation quiet_fview m := (guar (same_view fview gcore) m).

(** Code that keeps the invariant. *)
Definition tsys {A} (m : TM A) : Prop := forall s, sys_ok nl (ww_w s) -> sys_ok nl (ww_w (m s).2).

Lemma tsys_ret {A} (a : A) : tsys (mret a).
Proof. by intros s. Qed.
Lemma tsys_bind {A B} (m : TM A) (k : A -> TM B) : tsys m -> (forall a, tsys (k a)) -> tsys (m ≫= k).
Proof. intros Hm Hk s Hs. rewrite tbind_unfold. by apply Hk, Hm. Qed.
Lemma tsys_lift {A} (m : M A) : (forall w, sys_ok nl w -> sys_ok nl (m w).2) -> tsys (liftM m).
Proof. intros Hm s Hs. unfold liftM. specialize (Hm _ Hs). by destruct (m (ww_w s)). Qed.
Lemma tsys_quiet {A} (m : M A) : quiet_fview m -> tsys (liftM m).
Proof. intros Hm. apply tsys_lift. intros w Hw. by apply quiet_sys. Qed.
Lemma tsys_gets {T} (f : wrs_world -> T) : tsys (gets f).
Proof. by intros s. Qed.
Lemma tsys_puts g : (forall s, ww_w (g s) = ww_w s) -> tsys (puts g).
Proof. intros Hg s. cbn. by rewrite Hg. Qed.

Create HintDb tsys.
Hint Resolve tsys_ret tsys_gets : tsys.
Ltac tsys := repeat first
  [ solve [auto with tsys nocore]
  | apply tsys_puts; reflexivity
  | apply tsys_bind; [|intros ?]
  | progress unfold pps, arch, set_arch
  | match goal with
    | |- tsys (liftM (op _)) => apply tsys_quiet; walk
    | |- tsys (liftM (op_ _)) => apply tsys_quiet; walk
    | |- tsys (liftM (rdG _)) => apply tsys_quiet; walk
    | |- tsys (let '(_, _) := ?x in _) => destruct x
    | |- tsys (if ?b then _ else _) => destruct b
    | |- tsys (match ?x with Some _ => _ | None => _ end) => destruct x
    | |- tsys (match ?x with goes_on _ => _ | exits _ => _ | crashes => _ end) => destruct x
    end ].

(** *** wrs-time.c *)

Lemma ts_get_timer i k r : tsys (liftM (pp_timeout_get_timer i k r)).
Proof. apply tsys_quiet, q_get_timer. Qed.
Lemma ts_gtimeout_set k ms : tsys (liftM (pp_gtimeout_set k ms)).
Proof. apply tsys_quiet, q_timeout_set. Qed.
Lemma ts_gtimeout k : tsys (liftM (pp_gtimeout k)).
Proof. apply tsys_quiet, q_timeout. Qed.
Lemma ts_gtimeout_reset k : tsys (liftM (pp_gtimeout_reset k)).
Proof. apply tsys_quiet, q_timeout_reset_N. Qed.
Hint Resolve ts_get_timer ts_gtimeout_set ts_gtimeout ts_gtimeout_reset : tsys.
Lemma ts_set_timing_mode tm : tsys (wrs_set_timing_mode tm).
Proof. unfold wrs_set_timing_mode. tsys. Qed.
Lemma ts_get_timing_mode : tsys wrs_get_timing_mode.
Proof. unfold wrs_get_timing_mode. tsys. Qed.
Hint Resolve ts_set_timing_mode ts_get_timing_mode : tsys.
Lemma ts_refresh : tsys refresh_grand_master.
Proof. unfold refresh_grand_master. tsys. Qed.
Hint Resolve ts_refresh : tsys.
Lemma ts_get_state : tsys wrs_get_timing_mode_state.
Proof. unfold wrs_get_timing_mode_state. tsys. Qed.
Lemma ts_enable_output b : tsys (wrs_enable_timing_output b).
Proof. unfold wrs_enable_timing_output. tsys. Qed.
Lemma ts_time_set_now i t : tsys (wrs_time_set 0 i None t).
Proof. unfold wrs_time_set. tsys. Qed.
Hint Resolve ts_get_state ts_enable_output ts_time_set_now : tsys.

(** *** Links *)

Lemma set_quiet j g w : (forall p, fview (g p) = fview p) -> sys_ok nl w -> sys_ok nl (set_inst w j g).
Proof. intros Hg Hs. apply (quiet_sys nl (wr j g) w Hs). by apply guar_view_wr. Qed.

Lemma asym_fview pc e p : fview (enable_asymmetryCorrection pc e p) = fview p.
Proof. unfold enable_asymmetryCorrection. by destruct (e =? 1). Qed.

Lemma went_up_sys j pc w : sys_ok nl w -> sys_ok nl (link_went_up j pc w).2.
Proof.
  intros Hs. unfold link_went_up. rewrite bind_wr. set (w1 := set_inst w j _). assert (sys_ok nl w1) as S1.
  { apply sys_ok_set; [done|]. intros _ [T S D O Hh].
    split; [by refine (table_ok_view _ _ _ T)|by unfold valid_state; cbn; vm_compute|done..]. }
  clearbody w1. apply (quiet_sys nl _ w1 S1). unfold wrs_read_calibration_data, lookup. walk.
  apply guar_view_wr. intros q. destruct (truth _); [apply asym_fview|done].
Qed.

Lemma empty_table p : table_ok p -> table_ok (p <| frgn_rec_num := 0 |> <| frgn_rec_best := -1 |>).
Proof.
  intros [[Hl _ _] _ _]. set (q := p <| frgn_rec_num := 0 |> <| frgn_rec_best := -1 |>).
  assert (records q = []) as Er by done. split; [split; cbn; (done || lia)|rewrite Er; constructor|rewrite Er; constructor].
Qed.

Lemma went_down_sys j w : sys_ok nl w -> (j < length (insts w))%nat -> sys_ok nl (link_went_down j w).2.
Proof.
  intros Hs Hj. unfold link_went_down. rewrite bind_wr. set (w1 := set_inst w j _).
  assert (good nl j w1) as G1.
  { split; [|by unfold w1; rewrite length_set_inst|unfold w1; rewrite inst_set_same by done; by unfold valid_state; cbn; vm_compute].
    apply sys_ok_set; [done|]. intros _ [T S D O Hh]. split; [by refine (table_ok_view _ _ _ T)|done..]. }
  clearbody w1. rewrite bind_unfold. pose proof (leave_ok nl j w1 G1) as S2. set (w2 := (pp_leave_current_state j w1).2) in *.
  clearbody w2. rewrite bind_unfold. pose proof (op_sys nl (net_exit j) w2 S2) as S3. set (w3 := (op_ _ w2).2) in *.
  clearbody w3. rewrite bind_wr. set (w4 := set_inst w3 j _). assert (sys_ok nl w4) as S4.
  { apply sys_ok_set; [done|]. intros _ [T S D O Hh]. split; [by apply empty_table|done..]. }
  clearbody w4. apply (quiet_sys nl _ w4 S4). unfold restart_servo. walk; [apply q_wrh_reset|apply q_setWRH].
Qed.

Lemma follow_link_sys j pc h w : sys_ok nl w -> (j < length (insts w))%nat -> sys_ok nl (follow_link j pc h w).2.
Proof.
  intros Hs Hj. unfold follow_link. rewrite bind_rd, bind_unfold. pose proof (quiet_sys nl (op (fun e => (shm_initialized e, e))) w Hs ltac:(walk)) as S1.
  assert (length (insts (op (fun e => (shm_initialized e, e)) w).2) = length (insts w)) as L1 by done.
  destruct (op _ w) as [ini w1]. cbn [fst snd] in *. rewrite bind_wr. set (w2 := set_inst w1 j _).
  assert (sys_ok nl w2) as S2 by (by apply set_quiet).
  assert (j < length (insts w2))%nat as J2 by (unfold w2; rewrite length_set_inst; lia). clearbody w2.
  destruct (negb _); [|done]. cbn [when]. destruct (truth _); [by apply went_up_sys|by apply went_down_sys].
Qed.

Lemma wrs_run_ports_sys pcs l d w : sys_ok nl w -> Forall (fun j => j < Z.to_nat nl)%nat l -> sys_ok nl (wrs_run_ports pcs l d w).2.
Proof.
  intros Hs Hl. revert d w Hs. induction Hl as [|j l Hj Hl IH]; intros d w Hs; [done|].
  cbn [wrs_run_ports]. rewrite bind_rd, bind_unfold.
  pose proof (quiet_sys nl (lookup (cfg_iface_name (cfg (inst w j)))) w Hs ltac:(unfold lookup; walk)) as S1.
  destruct (lookup _ w) as [[h|] w1]; cbn [fst snd] in *; [|by apply IH]. rewrite bind_unfold.
  pose proof (follow_link_sys j (pcs j) h w1 S1 (sys_length nl j w1 S1 Hj)) as S2. set (w2 := (follow_link _ _ _ w1).2) in *. clearbody w2.
  rewrite bind_rd, bind_unfold. apply IH. destruct (truth _); [|done]. apply Safety.machine_ok; [done|by apply (sys_length nl)|done].
Qed.

(** *** The loop *)

Lemma ts_update_clock_quality : tsys (liftM bmc_update_clock_quality).
Proof. apply tsys_quiet. by apply view_update_clock_quality. Qed.
Hint Resolve ts_update_clock_quality : tsys.
Lemma ts_check_PLL : tsys check_PLL_state.
Proof. unfold check_PLL_state. tsys. Qed.
Lemma ts_grand_master : tsys grand_master_initialized.
Proof. unfold grand_master_initialized, DSDEF. tsys. Qed.
Lemma ts_start_timers : tsys start_timers.
Proof. unfold start_timers. tsys. Qed.
Lemma ts_calculate : tsys (liftM bmc_calculate_ebest).
Proof. apply tsys_lift. intros w Hw. by apply calculate_sys. Qed.
Lemma ts_next_delay i k : tsys (liftM (pp_next_delay_1 i k)).
Proof. apply tsys_quiet, q_next_delay_1. Qed.
Lemma ts_update_port_info : tsys (liftM wrs_update_port_info).
Proof. apply tsys_quiet. unfold wrs_update_port_info. walk. Qed.
Lemma ts_wrsipc b c v : tsys (liftM (wrsipc_cmd b c v)).
Proof.
  apply tsys_lift. intros w Hw. unfold wrsipc_cmd.
  destruct (_ && b); [|destruct (_ && CONFIG_HAS_EXT_L1SYNC)]; [..|done]; rewrite bind_unfold; by destruct Hw.
Qed.
Hint Resolve ts_check_PLL ts_grand_master ts_start_timers ts_calculate ts_next_delay ts_update_port_info ts_wrsipc : tsys.
Lemma ts_periodic_bmc d : tsys (periodic_bmc d).
Proof. unfold periodic_bmc. tsys. Qed.
Lemma ts_periodic_report : tsys periodic_report.
Proof. unfold periodic_report. tsys. Qed.
Hint Resolve ts_periodic_bmc ts_periodic_report : tsys.

(** What is done with the list of the ports. *)
Lemma tsys_links {A} (k : list nat -> TM A) : tsys (k (seq 0 (Z.to_nat nl))) -> tsys (liftM links ≫= k).
Proof.
  intros Hk s Hs. rewrite tbind_unfold. unfold liftM. rewrite (links_run nl _ Hs). cbn [fst snd]. by apply Hk.
Qed.

Lemma ts_run_all pcs : tsys (wrs_run_all pcs).
Proof.
  unfold wrs_run_all. apply tsys_bind; [tsys|]. intros _. apply tsys_bind; [tsys|]. intros [[]| |]; [|tsys..].
  apply tsys_links. apply tsys_bind; [|intros d; tsys]. apply tsys_lift. intros w Hw. apply wrs_run_ports_sys; [done|apply ports_below].
Qed.

(** A frame is at least as long as [recv] says. *)
Definition wrs_event_ok (ev : wrs_event) : Prop :=
  forall j r, we_rx ev j = Some r -> r_ret r <= Z.of_nat (length (r_frame r)).

Lemma wrs_receive_sys rx l d w : (forall j r, rx j = Some r -> r_ret r <= Z.of_nat (length (r_frame r))) ->
  sys_ok nl w -> Forall (fun j => j < Z.to_nat nl)%nat l -> sys_ok nl (wrs_receive_ports l rx d w).2.
Proof.
  intros Hev Hs Hl. revert d w Hs. induction Hl as [|j l Hj Hl IH]; intros d w Hs; [done|].
  cbn [wrs_receive_ports]. destruct (rx j) as [r|] eqn:Er; [|by apply IH].
  rewrite bind_unfold, recv_val. pose proof (quiet_sys nl _ w Hs (q_recv j r)) as S1.
  set (w1 := (__recv_and_count j r w).2) in *. clearbody w1. destruct (_ || _); [by apply IH|].
  rewrite bind_rd, bind_unfold. apply IH. pose proof (sys_length nl j w1 S1 Hj) as Hj1.
  apply Safety.machine_ok; [done|done|]. destruct (sys_inst nl w1 j S1 Hj1) as [_ _ _ O _].
  specialize (Hev j r Er). rewrite length_drop. lia.
Qed.

Lemma ts_checks b ev st : tsys (checks b ev st).
Proof. unfold checks. tsys. Qed.

Lemma ts_turn b pcs ev st : wrs_event_ok ev -> tsys (wrs_turn b pcs ev st).
Proof.
  intros Hev. unfold wrs_turn. apply tsys_bind; [apply ts_checks|]. intros [av st1]. destruct (_ && _).
  - apply tsys_bind; [apply ts_run_all|intros o; tsys].
  - destruct (0 <? av); [|tsys]. apply tsys_links. apply tsys_bind; [|intros d; tsys]. apply tsys_lift. intros w Hw.
    apply wrs_receive_sys; [exact Hev|done|apply ports_below].
Qed.

Lemma ts_loop b pcs evs st : Forall wrs_event_ok evs -> tsys (wrs_loop b pcs evs st).
Proof.
  intros He. revert st. induction He as [|ev evs Hev He IH]; intros st; cbn [wrs_loop]; [tsys|].
  apply tsys_bind; [by apply ts_turn|]. intros [st'| |]; [apply IH|tsys..].
Qed.

Lemma ts_main_loop b pcs ok evs : Forall wrs_event_ok evs -> tsys (wrs_main_loop b pcs ok evs).
Proof.
  intros He. unfold wrs_main_loop. apply tsys_links. apply tsys_bind; [apply tsys_quiet; walk|]. intros _.
  apply tsys_bind; [apply ts_run_all|]. intros [d| |]; [|tsys..]. destruct ok; [by apply ts_loop|tsys].
Qed.

(** *** The start *)

Lemma ts_start_mode tm : tsys (start_mode tm).
Proof. unfold start_mode, DSDEF. tsys. Qed.
Lemma ts_wait_pll n pll : tsys (wait_pll n pll).
Proof. revert pll. induction n as [|n IH]; intros pll; cbn [wait_pll]; [tsys|]. apply tsys_bind; [tsys|]. intros [r st]. destruct (_ && _); [tsys|].
  apply tsys_bind; [tsys|intros _; apply IH]. Qed.
Hint Resolve ts_start_mode ts_wait_pll : tsys.
Lemma ts_start_timing pll : tsys (start_timing pll).
Proof. unfold start_timing, DSDEF, OPTS. tsys. Qed.

End Sys.

(** ** A lost link *)

Section Links.
Context `{Config} `{!ConfBuild} `{Platform} {WO : WrhOper} {HK : Hooks} `{!HooksSafe} {WH : WrsHal} {SH : HalShm}.

(** What is left of a port: its state, the detection of its extension and its masters. *)
Definition port_view (p : pp_instance) := (state p, pdstate p, extState p, records p, frgn_rec_best p, port_idx p, protocol_extension p).

Lemma leave_disables j w : (j < length (insts w))%nat -> next_state (inst w j) = PPS_DISABLED ->
  let w' := (pp_leave_current_state j w).2 in (j < length (insts w'))%nat /\
  state (inst w' j) = PPS_DISABLED /\ pdstate (inst w' j) = PP_PDSTATE_NONE /\ extState (inst w' j) = PP_EXSTATE_DISABLE.
Proof.
  intros Hj Hn. cbn zeta. unfold pp_leave_current_state. rewrite bind_unfold. set (m1 := if_hook j hk_state_change _ _).
  assert (guar (same_view fview gcore) m1) as Q1.
  { unfold m1. apply guar_if_hook; [apply _| |walk]. intros h e He. walk. by eapply hs_change. }
  pose proof (Q1 w) as V1. rewrite bind_rd_id, bind_unfold. set (m2 := when _ (pp_timeout_setall j)).
  assert (guar (same_view fview gcore) m2) as Q2 by (unfold m2; walk; apply q_timeout_setall).
  pose proof (Q2 (m1 w).2) as V2. destruct (same_view_parts _ _ _ _ V1) as (L1 & _ & _). destruct (same_view_parts _ _ _ _ V2) as (L2 & _ & _).
  pose proof (fview_inst _ _ V1 j) as E1. pose proof (fview_inst _ _ V2 j) as E2. set (w2 := (m2 (m1 w).2).2) in *.
  assert (next_state (inst w2 j) = PPS_DISABLED) as N2.
  { rewrite <- Hn. transitivity (next_state (inst (m1 w).2 j)); [exact (f_equal (fun x => x.2.2) E2)|exact (f_equal (fun x => x.2.2) E1)]. }
  assert (j < length (insts w2))%nat as J2 by lia. clearbody w2. rewrite !bind_wr. cbn [mret M_ret snd].
  rewrite !length_set_inst. split; [done|]. rewrite !inst_set_same; rewrite ?length_set_inst; [|done..]. cbn. by rewrite N2.
Qed.

Lemma restart_view j : guar (same_view port_view ebest_idx) (restart_servo j).
Proof. unfold restart_servo, wrh_servo_reset, setWRH, setState, setSRV. walk. Qed.

Lemma restart_sets j w : (j < length (insts w))%nat -> protocol_extension (inst w j) <> PPSI_EXT_NONE ->
  doRestart (wrh_servo (ext_data (inst (restart_servo j w).2 j))) = 1.
Proof.
  intros Hj He. unfold restart_servo. rewrite bind_rd, bool_decide_eq_false_2 by done. cbn [negb when]. rewrite bind_unfold.
  set (w1 := (wrh_servo_reset j w).2). assert (length (insts w1) = length (insts w)) as L1.
  { assert (guar (same_view port_view ebest_idx) (wrh_servo_reset j)) as G by (unfold wrh_servo_reset, setWRH, setState, setSRV; walk).
    by destruct (same_view_parts _ _ _ _ (G w)) as (L & _ & _). }
  clearbody w1. unfold setWRH. cbn [wr snd]. by rewrite inst_set_same by lia.
Qed.

(** C26. A lost link. When the HAL reports that the link of a port that was up is down, the port is
    disabled and its extension undetected, it has no foreign master left, and if it was the port with
    the best master, an extension's link set-up will be done again. *)
Theorem link_down_forgets (j : nat) (pc : port_conf) (h : hal_port_state) (w : world) :
  (j < length (insts w))%nat -> link_up (inst w j) = 1 -> hal_up h && shm_initialized (the_env w) = false ->
  let w' := (follow_link j pc h w).2 in let p := inst w' j in
  state p = PPS_DISABLED /\ pdstate p = PP_PDSTATE_NONE /\ extState p = PP_EXSTATE_DISABLE /\
  records p = [] /\ frgn_rec_best p = -1 /\
  (ebest_idx (glbs w') = port_idx p -> protocol_extension p <> PPSI_EXT_NONE -> doRestart (wrh_servo (ext_data p)) = 1).
Proof.
  intros Hj Hu Hh. cbn zeta. unfold follow_link. rewrite bind_rd, Hu, bind_unfold. cbn [op fst snd]. rewrite Hh. cbn [of_bool].
  rewrite bind_wr. change (negb (1 =? 0)) with true. change (truth 0) with false. cbn [when]. unfold link_went_down. rewrite bind_wr.
  set (w1 := set_inst _ j (fun p => p <| next_state := _ |>)).
  assert ((j < length (insts w1))%nat /\ next_state (inst w1 j) = PPS_DISABLED) as [J1 N1].
  { unfold w1. rewrite !length_set_inst. split; [exact Hj|]. by rewrite inst_set_same by (by rewrite length_set_inst). }
  clearbody w1. rewrite bind_unfold. destruct (leave_disables j w1 J1 N1) as (J2 & E1 & E2 & E3).
  set (w2 := (pp_leave_current_state j w1).2) in *. clearbody w2. rewrite bind_unfold. set (w3 := (op_ _ w2).2).
  assert (insts w3 = insts w2) as I3 by done. rewrite bind_wr. set (w4 := set_inst w3 j _).
  assert (port_view (inst w4 j) = (PPS_DISABLED, PP_PDSTATE_NONE, PP_EXSTATE_DISABLE, [], -1, port_idx (inst w3 j), protocol_extension (inst w3 j))) as V4.
  { unfold w4. rewrite inst_set_same by (by rewrite I3). unfold port_view, inst. rewrite I3. cbn. fold (inst w2 j). by rewrite E1, E2, E3. }
  assert (j < length (insts w4))%nat as J4 by (unfold w4; by rewrite length_set_inst, I3). clearbody w4.
  rewrite bind_rdG, bind_rd. destruct (Z.eqb_spec (ebest_idx (glbs w4)) (port_idx (inst w4 j))) as [Eb|Nb]; cbn [when].
  - pose proof (restart_view j w4) as V. destruct (same_view_inst _ _ _ _ j V J4) as [V5 _]. rewrite V4 in V5. pose proof V5 as V6. unfold port_view in V5. injection V5 as -> -> -> -> -> _ Ex.
    split_and!; try done. intros _ He. apply restart_sets; [done|]. rewrite Ex in He. injection V4 as _ _ _ _ _ _ ->. exact He.
  - cbn [mret M_ret snd]. unfold port_view in V4. injection V4 as -> -> -> -> -> _ _. split_and!; try done.
Qed.

End Links.

(** ** Reports to the HAL *)

Section Reports.
Context `{Config} `{!ConfBuild} `{Platform} {WH : WrsHal} {SH : HalShm}.

Definition iface (p : pp_instance) : list Z := cfg_iface_name (cfg p).
(** The instances of an interface that are up. *)
Definition up_on (name : list Z) (l : list pp_instance) : list pp_instance :=
  List.filter (fun p => truth (link_up p) && bool_decide (iface p = name)) l.
Definition synchronized_slave (p : pp_instance) : bool :=
  (state p =? PPS_SLAVE) && truth (servo_locked (servo p)) && ext_active p.

Lemma report_name p s : slot_name (report_instance p s) = slot_name s.
Proof. unfold report_instance. repeat case_match; done. Qed.

Lemma on_slot_in name g l : (forall s, slot_name (g s) = slot_name s) -> NoDup (map slot_name l) ->
  NoDup (map slot_name (on_slot name g l)) /\
  (forall n, n ∈ map slot_name (on_slot name g l) <-> n = name \/ n ∈ map slot_name l) /\
  forall s, s ∈ on_slot name g l -> (slot_name s <> name /\ s ∈ l) \/
    exists s0, s = g s0 /\ slot_name s0 = name /\ (s0 ∈ l \/ ((name ∉ map slot_name l) /\ s0 = mk_slot name PORT_MODE_OTHER 0)).
Proof.
  intros Hg. induction l as [|t l IH]; intros Hn.
  - cbn. rewrite Hg. split_and!; [apply NoDup_singleton|intros n; rewrite list_elem_of_singleton; set_solver|].
    intros s ->%list_elem_of_singleton. right. eexists. split_and!; [done..|]. right. split; [apply not_elem_of_nil|done].
  - cbn [map] in Hn. apply list.NoDup_cons in Hn as [Ht Hn]. cbn [on_slot]. destruct (bool_decide_reflect (slot_name t = name)) as [<-|Hne].
    + cbn. rewrite Hg. split_and!; [by apply list.NoDup_cons|set_solver|]. intros s [->|Hs]%elem_of_cons; [right; exists t; split_and!; [done..|]; left; by left|].
      left. split; [|by right]. intros E. apply Ht. rewrite <- E. by apply list_elem_of_fmap_2.
    + destruct (IH Hn) as (I1 & I2 & I3). cbn. split_and!.
      * apply list.NoDup_cons. split; [|done]. rewrite I2. intros [?|?]; done.
      * intros n. rewrite !elem_of_cons, I2. tauto.
      * intros s [->|Hs]%elem_of_cons; [left; split; [done|by left]|]. destruct (I3 s Hs) as [[? ?]|(s0 & ? & ? & [?|[? ?]])].
        -- left. split; [done|by right].
        -- right. exists s0. split_and!; [done..|]. left. by right.
        -- right. exists s0. split_and!; [done..|]. right. split; [|done]. rewrite elem_of_cons. intros [?|?]; [congruence|done].
Qed.

(** The slots after [l]: each interface once, and its slot as the instances on it leave it. *)
Record infos_ok (l : list pp_instance) (infos : list port_slot) : Prop := {
  io_nodup : NoDup (map slot_name infos);
  io_names : forall n, n ∈ map slot_name infos <-> up_on n l <> [];
  io_slots : forall s, s ∈ infos ->
    s = foldl (fun s p => report_instance p s) (mk_slot (slot_name s) PORT_MODE_OTHER 0) (up_on (slot_name s) l) }.

Lemma fold_report_name s l : slot_name (foldl (fun s p => report_instance p s) s l) = slot_name s.
Proof. revert s. induction l as [|p l IH]; intros s; [done|]. cbn [foldl]. by rewrite IH, report_name. Qed.

Lemma port_infos_ok l : infos_ok l (port_infos l).
Proof.
  unfold port_infos. induction l as [|p l IH] using rev_ind.
  { split; [constructor|intros n; cbn; set_solver|intros s Hs; by apply list.elem_of_nil in Hs]. }
  rewrite foldl_app. cbn [foldl]. set (infos := foldl _ [] l) in *. clearbody infos. destruct IH as [I1 I2 I3].
  assert (forall n, up_on n (l ++ [p]) = up_on n l ++ (if truth (link_up p) && bool_decide (iface p = n) then [p] else [])) as Eu
    by (intros n; unfold up_on; by rewrite List.filter_app).
  destruct (truth (link_up p)) eqn:Ep; cbn [andb] in Eu.
  2:{ split; [done|intros n; rewrite I2, Eu; by rewrite app_nil_r|]. intros s Hs. rewrite Eu, app_nil_r. by apply I3. }
  destruct (on_slot_in (iface p) (report_instance p) infos (report_name p) I1) as (O1 & O2 & O3).
  split; [done| |].
  - intros n. rewrite (O2 n), I2, Eu. destruct (bool_decide_reflect (iface p = n)) as [<-|Hne].
    + split; [|by left]. intros _ E. by apply app_eq_nil in E as [_ ?].
    + rewrite app_nil_r. split; [intros [?|?]; congruence|by right].
  - intros s Hs. destruct (O3 s Hs) as [[Hne Hin]|(s0 & -> & En & Hs0)].
    + rewrite Eu, bool_decide_eq_false_2, app_nil_r by congruence. by apply I3.
    + rewrite report_name, En, Eu, bool_decide_eq_true_2, foldl_app by done. cbn [foldl]. f_equal. destruct Hs0 as [Hin|[Hno ->]].
      * rewrite <- En at 1 2. by apply I3.
      * rewrite I2 in Hno. destruct (up_on (iface p) l); [done|]. exfalso. apply Hno. done.
Qed.

Lemma fold_report name l : PORT_MODE_SLAVE <> 0 ->
  let s := foldl (fun s p => report_instance p s) (mk_slot name PORT_MODE_OTHER 0) l in
  slot_synchronized s = of_bool (existsb synchronized_slave l) /\
  slot_mode s = match list.last l with
    | None => PORT_MODE_OTHER
    | Some p => if state p =? PPS_SLAVE then (if existsb synchronized_slave l then PORT_MODE_SLAVE else 0)
                else if (state p =? PPS_MASTER) && ext_active p then PORT_MODE_MASTER else 0
    end.
Proof.
  intros Hne. cbn zeta. induction l as [|p l [IH1 _]] using rev_ind; [done|].
  rewrite foldl_app, existsb_app, list.last_snoc. cbn [foldl existsb]. rewrite orb_false_r. set (s := foldl _ _ l) in *. clearbody s.
  unfold report_instance, synchronized_slave at 2 4. destruct (state p =? PPS_SLAVE); cbn [andb].
  - cbn. rewrite IH1, truth_of_bool. destruct (existsb synchronized_slave l); cbn; [done|].
    rewrite truth_of_bool. destruct (truth (servo_locked (servo p)) && ext_active p); done.
  - rewrite orb_false_r. match goal with |- context [?a =? PORT_MODE_SLAVE] => destruct (Z.eqb_spec a PORT_MODE_SLAVE) as [E|_]; [cbn in E; congruence|] end.
    cbn [negb]. rewrite andb_true_r.
    destruct (state p =? PPS_MASTER), (ext_active p); done.
Qed.

(** What the HAL is told of the ports. Each interface with an instance that is up is reported
    once.  It is synchronized when some instance on it is a slave that tracks its master by a working
    extension.  The mode is the one of the last instance on it: slave when that is one and the
    interface is synchronized, master when that is one with a working extension, else 0. *)
Theorem port_info_reports (l : list pp_instance) : PORT_MODE_SLAVE <> 0 ->
  NoDup (map slot_name (port_infos l)) /\
  (forall n, n ∈ map slot_name (port_infos l) <-> exists p, p ∈ l /\ link_up p <> 0 /\ iface p = n) /\
  forall s, s ∈ port_infos l ->
    slot_synchronized s = of_bool (existsb synchronized_slave (up_on (slot_name s) l)) /\
    exists p, list.last (up_on (slot_name s) l) = Some p /\
      slot_mode s = if state p =? PPS_SLAVE then (if truth (slot_synchronized s) then PORT_MODE_SLAVE else 0)
                    else if (state p =? PPS_MASTER) && ext_active p then PORT_MODE_MASTER else 0.
Proof.
  intros Hne. destruct (port_infos_ok l) as [I1 I2 I3]. split_and!; [done| |].
  - intros n. rewrite I2. split.
    + destruct (up_on n l) as [|p r] eqn:E; [done|]. intros _. exists p.
      assert (In p (up_on n l)) as (Hp & (Hu & Hi)%andb_true_iff)%filter_In by (rewrite E; by left).
      apply bool_decide_eq_true in Hi. apply truth_true in Hu. split_and!; [by apply list_elem_of_In|done|done].
    + intros (p & Hp & Hu & Hi) E. assert (In p (up_on n l)) as F; [|by rewrite E in F].
      apply filter_In. split; [by apply list_elem_of_In|]. apply andb_true_iff. split; [by apply truth_true|by apply bool_decide_eq_true].
  - intros s Hs. destruct (fold_report (slot_name s) (up_on (slot_name s) l) Hne) as [F1 F2].
    rewrite <- (I3 s Hs) in F1, F2. split; [done|]. rewrite F1, truth_of_bool.
    assert (up_on (slot_name s) l <> []) as Hl by (apply I2; by apply list_elem_of_fmap_2).
    destruct (list.last _) as [p|] eqn:El; [by exists p|]. by apply list.last_None in El.
Qed.

End Reports.

(** ** Turns of the loop *)

Section Turns.
Context `{Config} `{!ConfBuild} `{Platform} {WO : WrhOper} {HK : Hooks} {WH : WrsHal} {SH : HalShm}.

(** The states after each turn. *)
Fixpoint turns (b : bool) (pcs : nat -> port_conf) (evs : list wrs_event) (st : loop_state) (s : wrs_world) : list loop_state :=
  match evs with
  | [] => []
  | ev :: evs =>
      match wrs_turn b pcs ev st s with
      | (goes_on st', s') => st' :: turns b pcs evs st' s'
      | _ => []
      end
  end.

Definition quiet_alarm (ev : wrs_event) : Prop := we_alarm1 ev = false /\ we_alarm2 ev = false /\ we_alarm3 ev = false.

(** One turn: the frames are looked for, or there is a reason not to. *)
Lemma turn_skips b pcs ev st s st' s' : 0 <= skipped_checks st < 2147483647 -> wrs_turn b pcs ev st s = (goes_on st', s') ->
  let alarm := we_alarm1 ev || alarmDetected st in
  (skipped_checks st' = 0 /\ alarm = false \/
   skipped_checks st' = skipped_checks st + 1 /\ (alarm = true \/ skipped_checks st <= 10 /\ delay_ms st = 0)) /\
  (quiet_alarm ev -> alarmDetected st = false -> alarmDetected st' = false).
Proof.
  intros Hs. unfold wrs_turn. cbn zeta. rewrite tbind_unfold.
  set (st1 := st <| alarmDetected ::= orb (we_alarm1 ev) |>). unfold quiet_alarm.
  assert (exists av st2 s2, checks b ev st1 s = ((av, st2), s2) /\ alarmDetected st2 = alarmDetected st1 /\
    (skipped_checks st2 = 0 /\ alarmDetected st1 = false \/ skipped_checks st2 = skipped_checks st + 1 /\
     (alarmDetected st1 = true \/ skipped_checks st <= 10 /\ delay_ms st = 0))) as (av & st2 & s2 & -> & A2 & K2).
  { unfold checks. destruct (alarmDetected st1) eqn:Ea; cbn [negb andb].
    - eexists _, _, _. split; [reflexivity|]. split; [done|]. right. cbn. rewrite i32_id by lia. auto.
    - destruct ((10 <? skipped_checks st1) || truth (delay_ms st1)) eqn:Ec.
      + rewrite tbind_unfold. rewrite tbind_unfold. eexists _, _, _. split; [reflexivity|]. split; [done|]. by left.
      + apply orb_false_iff in Ec as [E1 E2]. apply Z.ltb_ge in E1. apply truth_false in E2. eexists _, _, _. split; [reflexivity|].
        split; [done|]. right. cbn in *. rewrite i32_id by lia. auto. }
  cbn [fst snd]. change (alarmDetected st1) with (we_alarm1 ev || alarmDetected st) in *.
  set (st3 := st2 <| alarmDetected ::= _ |>). assert (skipped_checks st3 = skipped_checks st2) as K3 by done.
  assert (alarmDetected st3 = we_alarm2 ev || (we_alarm1 ev || alarmDetected st)) as A3 by (unfold st3; cbn; by rewrite A2).
  rewrite <- K3 in K2. clearbody st3. clear st2 K3 A2. destruct (_ && _).
  - rewrite tbind_unfold. destruct (wrs_run_all pcs s2).1; cbn; intros [= <- _]. done.
  - destruct (0 <? av); [|cbn; intros [= <- _]; split; [done|]; rewrite A3; by intros (-> & -> & _) ->].
    rewrite tbind_unfold, tbind_unfold. cbn [mret TM_ret]. intros [= <- _]. destruct (_ && _); (split; [done|]); cbn; rewrite A3; by intros (-> & -> & ->) ->.
Qed.

(** Frames and commands are not starved. From a turn on in which no alarm is pending, as long as
    none is raised, the checks for frames and commands are skipped at most eleven times in a row, even
    when every run of the state machines asks to be called again at once. *)
Theorem checks_not_starved (b : bool) (pcs : nat -> port_conf) (evs : list wrs_event) (st : loop_state) (s : wrs_world) :
  Forall quiet_alarm evs -> alarmDetected st = false -> 0 <= skipped_checks st <= 11 ->
  Forall (fun st' => 0 <= skipped_checks st' <= 11) (turns b pcs evs st s).
Proof.
  intros He. revert st s. induction He as [|ev evs Hev He IH]; intros st s Ha Hs; cbn [turns]; [constructor|].
  destruct (wrs_turn b pcs ev st s) as [[st'| |] s'] eqn:Et; [|constructor..].
  destruct (turn_skips b pcs ev st s st' s' ltac:(lia) Et) as [K A]. specialize (A Hev Ha). destruct Hev as (E1 & _ & _).
  rewrite E1, Ha in K. cbn [orb] in K. assert (0 <= skipped_checks st' <= 11) as Hs' by (destruct K as [[-> _]|[-> [?|[? _]]]]; [lia|done|lia]).
  constructor; [done|by apply IH].
Qed.

End Turns.

(** ** The program *)

Section Program.
Context `{Config} `{!ConfBuild} `{Platform}.

Lemma wrs_default_pre fs stack c : (forall s f, fs s = Some f -> file_fits f) -> (forall i, text_fits (stack i)) -> conf_pre c ->
  conf_pre (wrs_default_config fs stack c).
Proof.
  intros Hfs Hst Hc. unfold wrs_default_config. set (c1 := if cf_cfg_items c =? 0 then _ else c).
  assert (conf_pre c1) as Hp by (unfold c1; destruct (_ =? 0); [apply config_file_pre; [apply Hfs|done]|done]).
  clearbody c1. destruct (cf_cfg_items c1 =? 0); [|done]. unfold wrs_default_ports.
  assert (Forall (fun i => text_fits (port_text i)) (seq 0 WRS_NUMBER_PHYSICAL_PORTS)) as Ht
    by (cbn; repeat constructor; by vm_compute).
  revert c1 Hp. induction Ht as [|i l Hi Hl IH]; intros c1 Hp; [done|]. cbn [foldl]. apply IH, config_string_pre; [|done].
  by destruct CONFIG_HAS_PROFILE_HA.
Qed.

Lemma wrs_main_allocated m stack argv c w d : machine_ok m argv -> (forall i, text_fits (stack i)) -> wrs_main m stack argv = goes_on (c, w, d) ->
  cf_wild c = false -> 1 <= cf_nlinks c -> (CONFIG_HAS_CODEOPT_SINGLE_PORT = true -> cf_nlinks c = 1) -> allocated w.
Proof.
  intros [Ha Hf] Hst Hm. unfold wrs_main in Hm. destruct (m_oom_start m); [done|].
  destruct (pp_parse_cmdline _ argv initial_conf) as [[c0 r]| |] eqn:E; try done.
  destruct (truth r); [done|]. pose proof (cmdline_pre _ Hf argv Ha _ _ _ E initial_pre) as P.
  pose proof (wrs_default_pre _ stack c0 Hf Hst P) as Pd. set (c1 := wrs_default_config (m_files m) stack c0) in *.
  destruct (init_ports _ _ _ _) as [l| |] eqn:Ei; try done. simplify_eq. by apply world_allocated.
Qed.

End Program.

(** ** Frames *)

Section Frames.
Context `{Config} `{WrsKernel}.

(** [recvmsg] returns how many bytes it stored. *)
Class WrsRecvLaw := { law_wrecv : forall fd e k, wm_ret (w_recvmsg fd e k).1 <= Z.of_nat (length (wm_data (w_recvmsg fd e k).1)) }.
Context `{!WrsRecvLaw}.

Definition wfits (r : Z * list Z * pp_time) : Prop := r.1.1 <= Z.of_nat (length r.1.2).

Lemma wfit_bind {A} (m : WM A) (k : A -> WM (Z * list Z * pp_time)) n :
  (forall a n, wfits (k a n).1) -> wfits ((m ≫= k) n).1.
Proof. intros Hk. rewrite wbind_unfold. apply Hk. Qed.
Lemma wfit_neg r frame t n : r <= 0 -> wfits ((mret (r, frame, t) : WM (Z * list Z * pp_time)) n).1.
Proof. unfold wfits. cbn. lia. Qed.
Lemma wfit_end ret frame t n : ret <= Z.of_nat (length frame) -> wfits (wrs_recv_end ret frame t n).1.
Proof. intros Hr. apply wfit_bind. intros [] n'; [by apply wfit_neg|done]. Qed.

Lemma wrs_msg_fits precise fd buf old n : wfits (wrs_recv_msg precise fd buf old n).1.
Proof.
  unfold wrs_recv_msg. rewrite wbind_unfold, osys_unfold. cbn [fst snd]. set (n1 := _ <| wn_net := _ |>). clearbody n1.
  pose proof (law_wrecv fd false (n_kst (wn_net n))) as Hr. set (r := (w_recvmsg fd false _).1) in *. clearbody r.
  set (frame := wm_data r ++ _). assert (wm_ret r <= Z.of_nat (length frame)) as Hf by (unfold frame; rewrite length_app; lia).
  clearbody frame. destruct (_ && _); [by apply wfit_neg|]. destruct (_ =? _); [by apply wfit_neg|].
  destruct (Z.leb_spec (wm_ret r) 0); [by apply wfit_neg|]. apply wfit_bind. intros t n2. apply wfit_bind. intros pr n3.
  destruct (_ =? _); [by apply wfit_end|]. destruct (negb _); [by apply wfit_neg|]. destruct (find_aux _) as [tci|].
  - apply wfit_bind. intros vs n4. destruct (existsb _ _); [|by apply wfit_neg]. apply wfit_bind. intros _ n5. by apply wfit_end.
  - apply wfit_bind. intros _ n4. by apply wfit_end.
Qed.

Lemma wrs_recv_fits precise buf old n : wfits (wrs_net_recv precise buf old n).1.
Proof.
  unfold wrs_net_recv. apply wfit_bind. intros pr n1. destruct (_ || _).
  - apply wfit_bind. intros fd n2. rewrite wbind_unfold. pose proof (wrs_msg_fits precise fd buf old n2) as Hf.
    destruct (wrs_recv_msg _ _ _ _ _) as [[[ret frame] t] n3]. cbn [fst snd] in *. destruct (_ <=? 0); [exact Hf|].
    apply wfit_bind. intros _ n4. exact Hf.
  - destruct (_ =? _); [|by apply wfit_neg]. apply wfit_bind. intros l n2.
    destruct (truth _); [apply wrs_msg_fits|]. destruct (truth _); [apply wrs_msg_fits|by apply wfit_neg].
Qed.

(** What [wrs_net_recv] gives to the loop. *)
Definition wrs_received (precise : bool) (buf : list Z) (old : pp_time) (n : wnet) : received :=
  let '(ret, frame, t) := (wrs_net_recv precise buf old n).1 in mk_received ret frame t.

Definition wrs_network_event `{Platform} (ev : wrs_event) : Prop :=
  forall j r, we_rx ev j = Some r -> exists precise buf old n, r = wrs_received precise buf old n.

Lemma wrs_network_ok `{Platform} ev : wrs_network_event ev -> wrs_event_ok ev.
Proof.
  intros Hev j r Hr. destruct (Hev j r Hr) as (precise & buf & old & n & ->). unfold wrs_received.
  pose proof (wrs_recv_fits precise buf old n) as Hf. by destruct (wrs_net_recv precise buf old n) as [[[ret frame] t] n1].
Qed.
End Frames.

Section Claims.
Context `{Config} `{!ConfBuild} `{Platform} {WO : WrhOper} {WC : WrConfig} {WH : WrsHal} {SH : HalShm} `{WK : WrsKernel} `{!WrsRecvLaw}.

(** C25. The program of the switch. Whatever the command line and the configuration files, if
    [main] gets to [pp_init_globals] with at least one port (one port in a build for a single one)
    and the parser stored nothing out of bounds, then the program, with its extensions, keeps the
    invariant of the system for any answers of the HAL, links that go up and down, commands,
    alarms and frames of [wrs_net_recv] (a message is as long as [recvmsg] says): no assertion
    fails, every port is in a state of the table and every foreign master table is well formed. *)
Theorem wrs_program_safe (HK : Hooks) (has_wr : bool) (m : machine) (stack : nat -> list Z) (argv : list (list Z)) (c : conf)
  (w : world) (d : ppsi_drop) (pll : Z) (alarm_ok : bool) (evs : list wrs_event) :
  HK = tables HK -> machine_ok m argv -> (forall i, text_fits (stack i)) -> wrs_main m stack argv = goes_on (c, w, d) ->
  cf_wild c = false -> 1 <= cf_nlinks c -> (CONFIG_HAS_CODEOPT_SINGLE_PORT = true -> cf_nlinks c = 1) ->
  Forall wrs_network_event evs ->
  let w' := ww_w (wrs_run has_wr c pll alarm_ok evs (wrs_start w)).2 in
  assert_failed w' = false /\ Forall (fun p => valid_state (state p)) (insts w') /\ tables_ok w'.
Proof.
  intros E Hk Hst Hm Hw Hl Hs He. apply tables_unique in E. subst HK. cbn zeta.
  pose proof (wrs_main_allocated m stack argv c w d Hk Hst Hm Hw Hl Hs) as Ha.
  pose proof (init_sys (HK := ext_hooks) true (cf_opts c) w Ha) as Hi. unfold wrs_run. rewrite tbind_unfold.
  set (s1 := (liftM _ (wrs_start w)).2). assert (sys_ok (nlinks (glbs w)) (ww_w s1)) as S1.
  { unfold s1, liftM. change (ww_w (wrs_start w)) with w. by destruct (pp_init_globals true (cf_opts c) w). }
  clearbody s1. enough (sys_ok (nlinks (glbs w)) (ww_w ((start_timing pll ≫= fun o => match o with
    | goes_on _ => wrs_main_loop has_wr (fun j => nth j (cf_ports c) pp_default_instance_cfg) alarm_ok evs
    | exits c => mret (exits c) | crashes => mret crashes end) s1).2)) as [_ T S _ _ _ A] by done.
  apply (tsys_bind (nlinks (glbs w))); [apply ts_start_timing| |done]. intros [?| |]; [|apply tsys_ret..].
  apply ts_main_loop. rewrite list.Forall_forall in *. intros ev Hev. by apply wrs_network_ok, He.
Qed.

End Claims.

(** ** A run *)

Module WrsMainDemo.
#[local] Existing Instance TimexDemo.switch_config.
Definition switch_build : ConfBuild.
Proof.
  refine {| CONFIG_HAS_PROFILE_WR := true; CONFIG_HAS_PROFILE_HA := true; CONFIG_HAS_PROFILE_CUSTOM := true;
    CONFIG_HAS_EXT_L1SYNC := true; PP_MAX_LINKS := 64; double := Z; double_of_Z := fun z => z; double_lt := Z.ltb;
    double_to_reldiff := fun d => d * 2 ^ 62; scan_lf := fun l => Some (Some 0);
    stack_i2 := fun _ => (7, 7); stack_d := fun _ => 0 |}; cbn; lia.
Defined.
#[local] Existing Instance switch_build.
#[local] Existing Instance WrsTimeDemo.demo_plat.
#[local] Existing Instance WrsTimeDemo.demo_hal.
#[local] Existing Instance NetDemo.demo_kernel.
#[local] Existing Instance WrsDemo.demo_wrs.
#[local] Existing Instance demo_wrconfig.

#[export] Instance demo_switch_oper : WrhOper := {|
  locking_enable _ e := (0, e); locking_poll _ e := (0, e); locking_disable _ e := (0, e); locking_reset _ e := (0, e);
  enable_ptracker _ e := (0, e); adjust_in_progress e := (0, e); adjust_counters _ _ e := (0, e); adjust_phase _ e := (0, e);
  get_clock_period e := (16000, e); Wrh.unix_time_set _ _ e := e |}.

(** One port, whose link is up while the counter is at 0. *)
#[export] Instance demo_shm : HalShm := {|
  shm_ports e := [mk_hal true (str "wri1") 16000 2000 1000 1 (WrsTimeDemo.de_clock e =? 0) 800 0 100 200];
  shm_initialized _ := true;
  double_bits z := z;
  net_exit _ e := e;
  sleep_1s e := e;
  port_info_cmd _ e := ((0, 0), e);
  PORT_MODE_OTHER := 0; PORT_MODE_MASTER := 1; PORT_MODE_SLAVE := 2 |}.

#[local] Instance demo_recv_law : WrsRecvLaw.
Proof. split. intros fd e k. cbn. destruct e; [destruct (NetDemo.kn_queue k)|]; by vm_compute. Qed.

Definition demo_file : conf_file := mk_file 30 [str "port 1; iface wri1; profile wr"].
Definition demo_machine : machine :=
  mk_machine (fun s => if bool_decide (s = str "wrs.conf") then Some demo_file else None) (Some 37)
    (fun _ => replicate 128 0) false (fun _ => false) (WrsTimeDemo.mk_denv 0 0) 1.
Definition demo_argv : list (list Z) := map str ["-f"; "wrs.conf"].

Definition demo_run : conf * world * ppsi_drop :=
  match wrs_main demo_machine (fun _ => []) demo_argv with goes_on r => r | _ => (initial_conf, ww_w (WrsTimeDemo.demo_wrs_world 0 0), mk_drop 0 0 0 0) end.
Lemma switch_run_main : wrs_main demo_machine (fun _ => []) demo_argv = goes_on demo_run.
Proof. vm_compute. reflexivity. Qed.

#[local] Instance demo_ext_hooks : Hooks := ext_hooks.

(** A frame comes in, and the link is lost. *)
Definition demo_events : list wrs_event :=
  [mk_wev true false false None 0 id (fun _ => None) 0;
   mk_wev false false false (Some (1, 0)) 1 id
     (fun j => if (j =? 0)%nat then Some (wrs_received true (replicate 128 0) clear_time WrsDemo.demo_wnet) else None) 500;
   mk_wev false true false None 0 (fun e => WrsTimeDemo.mk_denv (WrsTimeDemo.de_reads e) 1) (fun _ => None) 0].
Definition demo_end : outcome loop_state * wrs_world := wrs_run true demo_run.1.1 1 true demo_events (wrs_start demo_run.1.2).

Lemma demo_network : Forall wrs_network_event demo_events.
Proof.
  repeat constructor; intros j r; [done| |done]. cbn [we_rx]. destruct (j =? 0)%nat; [|done]. intros [= <-]. by eexists _, _, _, _.
Qed.

Lemma demo_fits : machine_ok demo_machine demo_argv.
Proof.
  split; [repeat constructor; by vm_compute|]. intros s f. cbn. destruct (bool_decide _); [|done]. intros [= <-]. by vm_compute.
Qed.

Lemma switch_run_facts : cf_wild demo_run.1.1 = false /\ cf_nlinks demo_run.1.1 = 1.
Proof. split; vm_compute; reflexivity. Qed.

(** Without a configuration file, all eighteen ports of the switch. *)
Example default_switch : match wrs_main demo_machine (fun _ => []) [] with
  | goes_on (c, w, _) => cf_nlinks c = 18 /\ map protocol_extension (insts w) = replicate 18 PPSI_EXT_L1S /\
      map (fun p => cfg_iface_name (cfg p)) (take 2 (insts w)) = [str "wri1"; str "wri2"]
  | _ => False
  end.
Proof. vm_compute. done. Qed.

(** The link is lost at the end. *)
Lemma wrs_program_safe_witness : let w' := ww_w demo_end.2 in
  map state (insts w') = [PPS_DISABLED] /\ assert_failed w' = false /\ tables_ok w'.
Proof.
  split; [vm_compute; reflexivity|]. destruct switch_run_facts as [F1 F2].
  destruct (wrs_program_safe ext_hooks true demo_machine (fun _ => []) demo_argv demo_run.1.1 demo_run.1.2 demo_run.2 1 true demo_events)
    as (A & _ & T).
  - symmetry. apply ext_hooks_closed.
  - exact demo_fits.
  - by vm_compute.
  - rewrite switch_run_main. by destruct demo_run as [[? ?] ?].
  - exact F1.
  - lia.
  - by intros _.
  - exact demo_network.
  - exact (conj A T).
Defined.

(** The world before that, and a link that is lost there. *)
Definition demo_before : world :=
  (ww_w (wrs_run true demo_run.1.1 1 true (take 2 demo_events) (wrs_start demo_run.1.2)).2)
    <| the_env := WrsTimeDemo.mk_denv 0 1 |>.
Definition demo_lost : hal_port_state := mk_hal true (str "wri1") 16000 2000 1000 1 false 800 0 100 200.

Lemma link_down_forgets_witness : let p := inst (follow_link 0 pp_default_instance_cfg demo_lost demo_before).2 0 in
  (state (inst demo_before 0), link_up (inst demo_before 0)) = (PPS_LISTENING, 1) /\ state p = PPS_DISABLED /\ records p = [].
Proof.
  split; [vm_compute; reflexivity|].
  destruct (link_down_forgets 0 pp_default_instance_cfg demo_lost demo_before) as (E1 & _ & _ & E2 & _).
  - vm_compute. lia.
  - vm_compute. reflexivity.
  - reflexivity.
  - exact (conj E1 E2).
Defined.

(** Two instances on one interface: a synchronized slave, and after it a master. *)
Definition demo_instance (st : Z) : pp_instance :=
  zero_inst <| state := st |> <| link_up := 1 |> <| protocol_extension := PPSI_EXT_WR |> <| extState := PP_EXSTATE_ACTIVE |>
    <| pdstate := PP_PDSTATE_PDETECTED |> <| servo ::= fun v => v <| servo_locked := 1 |> |>
    <| cfg ::= fun c => c <| cfg_iface_name := str "wri1" |> |>.

(** The slave is hidden by the master. *)
Example last_instance_wins : map (fun s => (slot_mode s, slot_synchronized s))
  (port_infos [demo_instance PPS_SLAVE; demo_instance PPS_MASTER]) = [(PORT_MODE_MASTER, 1)].
Proof. vm_compute. reflexivity. Qed.

Lemma port_info_reports_witness : let infos := port_infos [demo_instance PPS_MASTER; demo_instance PPS_SLAVE] in
  map slot_mode infos = [PORT_MODE_SLAVE] /\ NoDup (map slot_name infos) /\ str "wri1" ∈ map slot_name infos.
Proof.
  split; [vm_compute; reflexivity|].
  destruct (port_info_reports [demo_instance PPS_MASTER; demo_instance PPS_SLAVE]) as (N & I & _).
  - discriminate.
  - split; [exact N|]. apply I. exists (demo_instance PPS_MASTER). split; [left|by split].
Defined.

Definition demo_calm : list wrs_event := replicate 13 (mk_wev false false false None 0 id (fun _ => None) 0).

Lemma checks_not_starved_witness : let ts := turns true (fun _ => pp_default_instance_cfg) demo_calm (mk_lst false 0 0)
    (wrs_start demo_before) in
  length ts = 13%nat /\ Forall (fun st => 0 <= skipped_checks st <= 11) ts.
Proof.
  split; [vm_compute; reflexivity|].
  apply (checks_not_starved true (fun _ => pp_default_instance_cfg) demo_calm (mk_lst false 0 0) (wrs_start demo_before)).
  - repeat constructor.
  - reflexivity.
  - cbn. lia.
Defined.

End WrsMainDemo.
