(* ===== verification/Shmem.v ===== *)
(** * The shared memory of the switch

    arch-wrs/shmem.c: an area of one writer and many readers.  The writer
    allocates in the area and brackets its changes; a reader takes a sequence
    number before it reads and asks afterwards whether to try again.  The
    header that declares the layout of the area is not part of the sources:
    its constants are a parameter. *)

From S2P Require Import Prelude TimeArith Types World Timeout.

(** What <libwr/shmem.h> defines; [HEAD_SIZE] and [NAME_SIZE] are sizes of [struct wrs_shm_head] and of its
    member [name]. *)
Class ShmHeader := {
  WRS_SHM_MAX_SIZE : Z; WRS_SHM_MIN_SIZE : Z; WRS_SHM_N_NAMES : Z; WRS_SHM_LOCK_MASK : Z;
  WRS_SHM_READ : Z; WRS_SHM_WRITE : Z; WRS_SHM_LOCKED : Z; WRS_SHM_WRITE_BEGIN : Z; WRS_SHM_WRITE_END : Z;
  WRS_SHM_OPEN_FAILED : Z; WRS_SHM_WRONG_VERSION : Z; WRS_SHM_INCONSISTENT_DATA : Z;
  HEAD_SIZE : Z; NAME_SIZE : nat }.

Definition SHM_LOCK_TIMEOUT_MS : Z := 50.

(** [mapbase] is the address of the area in the writer. *)
Record wrs_shm_head := mk_shm {
  sh_pid : Z; sh_sequence : Z; sh_mapbase : Z; sh_name : list Z; sh_stamp : Z; sh_data_off : Z; sh_data_size : Z;
  sh_pidsequence : Z; sh_version : Z }.
#[export] Instance eta_shm : Eta wrs_shm_head := fun h =>
  mk_shm (sh_pid h) (sh_sequence h) (sh_mapbase h) (sh_name h) (sh_stamp h) (sh_data_off h) (sh_data_size h)
    (sh_pidsequence h) (sh_version h).

(** The area: its head, and its bytes by their offset. *)
Record shm_area := mk_area { ar_head : wrs_shm_head; ar_mem : Z -> Z }.
#[export] Instance eta_area : Eta shm_area := fun a => mk_area (ar_head a) (ar_mem a).

(** What a process holds: descriptors and mappings. *)
Record shm_held := mk_held { held_fds : Z; held_maps : Z }.

Inductive shm_errno := EINVAL | ETIMEDOUT | EBUSY | errno_kept.

(** What the system answers to [open], [fstat] and [mmap], the process and which processes live, the
    address of the mapping, and what a reader finds at each look: the writer's pid, whether it lives, and
    the time in us after the wait that follows. *)
Record shm_sys := mk_ssys {
  ss_open : bool; ss_fstat : bool; ss_mmap : bool; ss_getpid : Z; ss_alive : Z -> bool; ss_base : Z; ss_now : Z;
  ss_looks : list (Z * bool * Z) }.

Section Shmem.
Context `{Config} `{ShmHeader}.

(** ** Opening and closing *)

(** The value of [wrs_shm_locked]. *)
Definition wrs_shm_ignore_flag_locked (ignore_flag : Z) : Z := if truth ignore_flag then 0 else WRS_SHM_LOCKED.

(** The reader's wait: whether a writer was seen.  When the looks run out the process still waits. *)
Fixpoint wait_writer (tv1 : Z) (looks : list (Z * bool * Z)) : option bool :=
  match looks with
  | [] => None
  | (pid, alive, tv2) :: looks =>
      if truth pid && alive then Some true
      else if u64 (tv2 - tv1) / 1000 <? SHM_LOCK_TIMEOUT_MS then wait_writer tv1 looks
      else Some false
  end.

Definition open_area (s : shm_sys) (name : list Z) (locked : bool) (h : wrs_shm_head) : wrs_shm_head :=
  h <| sh_mapbase := ss_base s |> <| sh_name := take (NAME_SIZE - 1) name |> <| sh_stamp := 0 |> <| sh_data_off := HEAD_SIZE |>
    <| sh_data_size := 0 |> <| sh_sequence := if locked then 1 else 0 |> <| sh_pid := ss_getpid s |>
    <| sh_pidsequence ::= fun n => u32 (n + 1) |>.

(** [None] is a reader that waits on. *)
Definition wrs_shm_get (s : shm_sys) (wrs_shm_locked name_id : Z) (name : list Z) (flags : Z) (h : wrs_shm_head) (p : shm_held)
    : option (unit + shm_errno) * wrs_shm_head * shm_held :=
  if WRS_SHM_N_NAMES <=? name_id then (Some (inr EINVAL), h, p)
  else if negb (ss_open s) then (Some (inr errno_kept), h, p)
  else if negb (ss_fstat s) || negb (ss_mmap s) then (Some (inr errno_kept), h, p)
  else
    let both := mk_held (held_fds p + 1) (held_maps p + 1) in
    if negb (truth (Z.land flags WRS_SHM_WRITE)) then
      if negb (truth (Z.land flags wrs_shm_locked)) then (Some (inl tt), h, both)
      else match wait_writer (ss_now s) (ss_looks s) with
           | None => (None, h, both)
           | Some true => (Some (inl tt), h, both)
           | Some false => (Some (inr ETIMEDOUT), h, mk_held (held_fds p) (held_maps p + 1))
           end
    else if truth (sh_pid h) && ss_alive s (sh_pid h) then (Some (inr EBUSY), h, p)
    else (Some (inl tt), open_area s name (truth (Z.land flags wrs_shm_locked)) h, both).

(** [unmap] is what [munmap] returns. *)
Definition wrs_shm_put (pid unmap : Z) (h : wrs_shm_head) (p : shm_held) : Z * wrs_shm_head * shm_held :=
  let ours := sh_pid h =? pid in
  (if unmap <? 0 then unmap else 0,
   if ours then h <| sh_pid := 0 |> else h,
   mk_held (if ours then held_fds p - 1 else held_fds p) (if unmap <? 0 then held_maps p else held_maps p - 1)).

(** ** Reading *)

Definition wrs_shm_seqbegin (h : wrs_shm_head) : Z := sh_sequence h.
Definition wrs_shm_seqretry (h : wrs_shm_head) (start : Z) : Z :=
  if truth (Z.land start WRS_SHM_LOCK_MASK) then 1 else of_bool (negb (sh_sequence h =? start)).

Definition wrs_shm_age (now : Z) (h : wrs_shm_head) : Z := i32 (now - sh_stamp h).

(** The address for a reader that maps the area at [headptr]; [None] is NULL. *)
Definition wrs_shm_data (h : wrs_shm_head) (headptr version : Z) : option Z :=
  if negb (sh_version h =? version) then None else Some (headptr + sh_data_off h).
Definition wrs_shm_follow (h : wrs_shm_head) (headptr ptr : Z) : option Z :=
  if (ptr <? sh_mapbase h) || (sh_mapbase h + WRS_SHM_MAX_SIZE <? ptr) then None else Some (headptr + (ptr - sh_mapbase h)).

(** The check of an area that is open: [h1], [h2] and [h3] are the head as each read finds it.  The
    value, and whether the area is kept. *)
Definition check_open (h1 h2 h3 : wrs_shm_head) : Z * bool :=
  let ii := wrs_shm_seqbegin h1 in
  let version := sh_version h2 in
  if truth (wrs_shm_seqretry h3 ii) then (WRS_SHM_INCONSISTENT_DATA, false)
  else if version =? 0 then (WRS_SHM_WRONG_VERSION, false)
  else (0, true).

(** [opened]: the area is open already.  The value and whether it is open afterwards. *)
Definition wrs_shm_get_and_check (s : shm_sys) (wrs_shm_locked shm_name : Z) (opened : bool) (h1 h2 h3 : wrs_shm_head) (unmap : Z)
    (p : shm_held) : option (Z * bool) * shm_held :=
  let check (p : shm_held) :=
    let '(v, kept) := check_open h1 h2 h3 in
    (Some (v, kept), if kept then p else (wrs_shm_put (ss_getpid s) unmap h3 p).2) in
  if opened then check p
  else match wrs_shm_get s wrs_shm_locked shm_name [] (Z.lor WRS_SHM_READ WRS_SHM_LOCKED) h1 p with
       | (None, _, p) => (None, p)
       | (Some (inr _), _, p) => (Some (WRS_SHM_OPEN_FAILED, false), p)
       | (Some (inl _), _, p) => check p
       end.

(** ** Writing *)

(** [(size + 7) & ~7] of a [size_t]. *)
Definition round8 (size : Z) : Z := ulong (Z.land (ulong (size + 7)) (Z.lnot 7)).

(** [pid] calls; the offset of the block, if there is one. *)
Definition wrs_shm_alloc (pid size : Z) (a : shm_area) : option Z * shm_area :=
  let h := ar_head a in
  if negb (sh_pid h =? pid) then (None, a)
  else if WRS_SHM_MAX_SIZE <? ulong (sh_data_off h + sh_data_size h + size) then (None, a)
  else
    let nextptr := sh_data_off h + sh_data_size h in
    (Some nextptr,
     mk_area (h <| sh_data_size := sh_data_size h + round8 size |>)
       (fun k => if (nextptr <=? k) && (k <? nextptr + size) then 0 else ar_mem a k)).

(** The sequence is an [unsigned]; [now] is the monotonic time in seconds. *)
Definition wrs_shm_write_caller (now flags : Z) (h : wrs_shm_head) : wrs_shm_head :=
  let h := h <| sh_sequence ::= fun n => u32 (n + 2) |> in
  let h := if flags =? WRS_SHM_WRITE_BEGIN then h <| sh_sequence ::= fun n => Z.lor n WRS_SHM_LOCK_MASK |> else h in
  if flags =? WRS_SHM_WRITE_END
  then h <| sh_stamp := now |> <| sh_sequence ::= fun n => Z.land n (Z.lnot WRS_SHM_LOCK_MASK) |> else h.

End Shmem.
