(* ===== verification/ShmemSpec.v ===== *)
(** * The shared memory of the switch: theorems

    A reader that is not told to try again has read from one state of the
    area; what the writer allocates does not overlap and can be followed from
    any mapping. *)

From S2P Require Import Prelude TimeArith Types World Timeout Shmem.

(** The mask is the lowest bit, as the comment on odd numbers in [wrs_shm_seqretry] says; the head is
    aligned and the area smaller than an [int]. *)
Class ShmLaws `{ShmHeader} := {
  lock_mask_one : WRS_SHM_LOCK_MASK = 1;
  begin_not_end : WRS_SHM_WRITE_BEGIN <> WRS_SHM_WRITE_END;
  head_size : 0 <= HEAD_SIZE <= WRS_SHM_MAX_SIZE;
  head_aligned : HEAD_SIZE mod 8 = 0;
  area_size : WRS_SHM_MAX_SIZE < 1073741824 }.

(** ** The sequence number *)

Section Seqlock.
Context `{Config} `{ShmLaws}.

(** What a writer does to the area, in the order another process sees it. *)
Inductive wstep := w_begin (now : Z) | w_store (k v : Z) | w_end (now : Z).

Definition do_wstep (a : shm_area) (s : wstep) : shm_area :=
  match s with
  | w_begin now => a <| ar_head ::= wrs_shm_write_caller now WRS_SHM_WRITE_BEGIN |>
  | w_store k v => a <| ar_mem ::= fun m j => if j =? k then v else m j |>
  | w_end now => a <| ar_head ::= wrs_shm_write_caller now WRS_SHM_WRITE_END |>
  end.
Definition do_wsteps (a : shm_area) (l : list wstep) : shm_area := foldl do_wstep a l.

(** Stores between a begin and an end only; [locked] is whether one is open. *)
Fixpoint disciplined (locked : bool) (l : list wstep) : bool :=
  match l with
  | [] => true
  | w_begin _ :: l => negb locked && disciplined true l
  | w_store _ _ :: l => locked && disciplined locked l
  | w_end _ :: l => locked && disciplined false l
  end.
Fixpoint locked_after (locked : bool) (l : list wstep) : bool :=
  match l with
  | [] => locked
  | w_begin _ :: l => locked_after true l
  | w_store _ _ :: l => locked_after locked l
  | w_end _ :: l => locked_after false l
  end.

Lemma disciplined_app locked l r : disciplined locked (l ++ r) = disciplined locked l && disciplined (locked_after locked l) r.
Proof.
  revert locked. induction l as [|[] l IH]; intros locked; cbn; rewrite ?IH; [done|..]; by rewrite andb_assoc.
Qed.

Definition seq_ok (locked : bool) (a : shm_area) : Prop :=
  0 <= sh_sequence (ar_head a) < 4294967296 /\ sh_sequence (ar_head a) mod 2 = of_bool locked.

(** How far a step moves the number. *)
Definition cost (s : wstep) : Z := match s with w_begin _ => 3 | w_store _ _ => 0 | w_end _ => 1 end.
Definition costs (l : list wstep) : Z := foldr (fun s c => cost s + c) 0 l.

Lemma lor_one n : n mod 2 = 0 -> Z.lor n 1 = n + 1.
Proof.
  intros Hn. assert (Z.land n 1 = 0) as Hl by (change 1 with (Z.ones 1); rewrite Z.land_ones by lia; exact Hn).
  pose proof (Z.add_lor_land n 1). lia.
Qed.
Lemma land_not_one n : n mod 2 = 1 -> Z.land n (Z.lnot 1) = n - 1.
Proof.
  intros Hn. change (Z.land n (Z.lnot 1)) with (Z.land n (Z.lnot (Z.ones 1))). rewrite <- Z.ldiff_land, Z.ldiff_ones_r by lia.
  rewrite Z.shiftr_div_pow2, Z.shiftl_mul_pow2 by lia. change (2 ^ 1) with 2. dlia.
Qed.

Lemma step_begin now a : seq_ok false a -> seq_ok true (do_wstep a (w_begin now)) /\
  sh_sequence (ar_head (do_wstep a (w_begin now))) = (sh_sequence (ar_head a) + 3) mod 4294967296.
Proof.
  intros [Hr Hp]. unfold seq_ok. cbn. unfold wrs_shm_write_caller. rewrite Z.eqb_refl. rewrite (proj2 (Z.eqb_neq _ _) begin_not_end). cbn.
  rewrite lock_mask_one. set (n := sh_sequence (ar_head a)) in *. clearbody n. unfold u32. cbn in Hp.
  assert ((n + 2) mod 4294967296 mod 2 = 0) as He by dlia. rewrite lor_one by done. cbn. dlia.
Qed.
Lemma step_end now a : seq_ok true a -> seq_ok false (do_wstep a (w_end now)) /\
  sh_sequence (ar_head (do_wstep a (w_end now))) = (sh_sequence (ar_head a) + 1) mod 4294967296.
Proof.
  intros [Hr Hp]. unfold seq_ok. cbn. unfold wrs_shm_write_caller. rewrite Z.eqb_refl.
  rewrite (proj2 (Z.eqb_neq WRS_SHM_WRITE_END WRS_SHM_WRITE_BEGIN)) by (intros E; by apply begin_not_end). cbn.
  rewrite lock_mask_one. set (n := sh_sequence (ar_head a)) in *. clearbody n. unfold u32. cbn in Hp.
  assert ((n + 2) mod 4294967296 mod 2 = 1) as He by dlia. rewrite land_not_one by done. cbn. dlia.
Qed.

Lemma steps_seq l : forall locked a, seq_ok locked a -> disciplined locked l = true ->
  seq_ok (locked_after locked l) (do_wsteps a l) /\
  sh_sequence (ar_head (do_wsteps a l)) = (sh_sequence (ar_head a) + costs l) mod 4294967296.
Proof.
  induction l as [|s l IH]; intros locked a Ha Hd; [split; [done|]; cbn; rewrite Z.add_0_r, Z.mod_small; [done|apply Ha]|].
  unfold do_wsteps in *. cbn [foldl costs foldr locked_after]. fold (costs l).
  destruct s as [now|k v|now]; cbn [disciplined] in Hd; apply andb_true_iff in Hd as [Hl Hd].
  - destruct locked; [done|]. destruct (step_begin now a Ha) as [H1' E1]. destruct (IH true _ H1' Hd) as [H2' E2].
    split; [done|]. rewrite E2, E1. cbn [cost]. rewrite Z.add_mod_idemp_l by lia. f_equal. lia.
  - destruct locked; [|done]. by destruct (IH true (do_wstep a (w_store k v)) Ha Hd) as [H2' E2].
  - destruct locked; [|done]. destruct (step_end now a Ha) as [H1' E1]. destruct (IH false _ H1' Hd) as [H2' E2].
    split; [done|]. rewrite E2, E1. cbn [cost]. rewrite Z.add_mod_idemp_l by lia. f_equal. lia.
Qed.

Lemma costs_bound l : 0 <= costs l <= 3 * Z.of_nat (length l).
Proof. induction l as [|s l IH]; [done|]. change (costs (s :: l)) with (cost s + costs l). destruct s; cbn [cost length]; lia. Qed.

(** From outside of a bracket, nothing can be done for free. *)
Lemma costs_zero l : disciplined false l = true -> costs l = 0 -> l = [].
Proof. destruct l as [|[] l]; [done| |done..]. intros _. change (costs (w_begin now :: l)) with (3 + costs l). pose proof (costs_bound l). lia. Qed.

Lemma open_seq_ok s name locked h mem : seq_ok locked (mk_area (open_area s name locked h) mem).
Proof. by destruct locked. Qed.

(** C30. Readers see one state. Let a writer open the area, locked or not, and bracket its stores, in
    any number; let a reader take its number after the steps [pre], read at any moments, and ask
    whether to retry after [mid1 ++ mid2].  Unless the writer took 2^30 steps meanwhile, when
    the answer is no then the number was taken outside of all brackets and the memory at each such
    moment is the one of that time.  And the answer is no when the writer was outside and did nothing. *)
Theorem seqlock_consistent (s : shm_sys) (name : list Z) (locked : bool) (h : wrs_shm_head) (mem : Z -> Z)
  (pre mid1 mid2 : list wstep) :
  disciplined locked (pre ++ mid1 ++ mid2) = true -> Z.of_nat (length (mid1 ++ mid2)) <= 1073741824 ->
  let a := do_wsteps (mk_area (open_area s name locked h) mem) pre in
  let start := wrs_shm_seqbegin (ar_head a) in
  (wrs_shm_seqretry (ar_head (do_wsteps a (mid1 ++ mid2))) start = 0 ->
   locked_after locked pre = false /\ forall k, ar_mem (do_wsteps a mid1) k = ar_mem a k) /\
  (locked_after locked pre = false -> mid1 ++ mid2 = [] -> wrs_shm_seqretry (ar_head (do_wsteps a (mid1 ++ mid2))) start = 0).
Proof.
  intros Hd Hl. rewrite disciplined_app in Hd. apply andb_true_iff in Hd as [Hp Hm].
  pose proof (steps_seq pre locked _ (open_seq_ok s name locked h mem) Hp) as [Ha _]. cbn zeta.
  set (a := do_wsteps _ pre) in *. set (mid := mid1 ++ mid2) in *. set (lk := locked_after locked pre) in *. clearbody a lk.
  destruct (steps_seq mid lk a Ha Hm) as [_ Es]. unfold wrs_shm_seqretry, wrs_shm_seqbegin. rewrite lock_mask_one.
  assert (Z.land (sh_sequence (ar_head a)) 1 = of_bool lk) as -> by (change 1 with (Z.ones 1); rewrite Z.land_ones by lia; apply Ha).
  rewrite truth_of_bool. split.
  - destruct lk; [done|]. destruct (Z.eqb_spec (sh_sequence (ar_head (do_wsteps a mid))) (sh_sequence (ar_head a))) as [E|]; [|done].
    intros _. split; [done|]. assert (mid = []) as Em.
    { apply costs_zero; [done|]. rewrite Es in E. destruct Ha as [Hr _]. pose proof (costs_bound mid). dlia. }
    unfold mid in Em. by apply app_eq_nil in Em as [-> _].
  - intros -> Em. unfold mid in Em. unfold mid. rewrite Em. cbn. by rewrite Z.eqb_refl.
Qed.

End Seqlock.

(** ** Allocation *)

Section Alloc.
Context `{Config} `{ShmLaws}.

(** The blocks that a sequence of requests gets, with their sizes, and the area afterwards. *)
Fixpoint blocks (pid : Z) (sizes : list Z) (a : shm_area) : list (Z * Z) * shm_area :=
  match sizes with
  | [] => ([], a)
  | size :: sizes =>
      let '(r, a) := wrs_shm_alloc pid size a in
      let '(l, a) := blocks pid sizes a in
      (match r with Some o => (o, size) :: l | None => l end, a)
  end.

(** [top]: where the next block starts. *)
Definition top (a : shm_area) : Z := sh_data_off (ar_head a) + sh_data_size (ar_head a).
Record alloc_ok (a : shm_area) : Prop := {
  ao_off : sh_data_off (ar_head a) = HEAD_SIZE;
  ao_size : 0 <= sh_data_size (ar_head a) /\ top a <= WRS_SHM_MAX_SIZE + 7;
  ao_aligned : sh_data_size (ar_head a) mod 8 = 0 }.

Lemma round8_spec size : 0 <= size <= 1073741824 -> round8 size mod 8 = 0 /\ size <= round8 size < size + 8.
Proof.
  intros Hs. unfold round8, ulong.
  assert ((size + 7) mod LONG_MODULUS = size + 7) as -> by (rewrite Z.mod_small; [done|destruct long_width as [-> | ->]; lia]).
  change (Z.land (size + 7) (Z.lnot 7)) with (Z.land (size + 7) (Z.lnot (Z.ones 3))). rewrite <- Z.ldiff_land, Z.ldiff_ones_r by lia.
  rewrite Z.shiftr_div_pow2, Z.shiftl_mul_pow2 by lia. change (2 ^ 3) with 8.
  rewrite (Z.mod_small _ LONG_MODULUS) by (destruct long_width as [-> | ->]; dlia). dlia.
Qed.

(** A request whose sum with what is allocated cannot wrap around in a [size_t]. *)
Definition request_ok (size : Z) : Prop := 0 <= size < LONG_MODULUS - (WRS_SHM_MAX_SIZE + 7).

(** One request. *)
Lemma alloc_step pid size a : alloc_ok a -> request_ok size ->
  let r := wrs_shm_alloc pid size a in
  alloc_ok r.2 /\ sh_mapbase (ar_head r.2) = sh_mapbase (ar_head a) /\
  match r.1 with
  | None => r.2 = a
  | Some o => o = top a /\ o mod 8 = 0 /\ HEAD_SIZE <= o /\ o + size <= WRS_SHM_MAX_SIZE /\ o + size <= top r.2 /\
      forall k, ar_mem r.2 k = if (o <=? k) && (k <? o + size) then 0 else ar_mem a k
  end.
Proof.
  intros [A1 A2 A3] Hs. cbn zeta. unfold wrs_shm_alloc, top in *. pose proof head_size. pose proof head_aligned. pose proof area_size.
  destruct (negb _); [done|]. destruct (Z.ltb_spec WRS_SHM_MAX_SIZE (ulong (sh_data_off (ar_head a) + sh_data_size (ar_head a) + size))) as [|Hle]; [done|].
  unfold request_ok in Hs. unfold ulong in Hle. rewrite Z.mod_small in Hle by lia.
  destruct (round8_spec size ltac:(lia)) as [R1 R2]. cbn [fst snd ar_head ar_mem]. split_and!; try done; try (cbn; lia); try (cbn; dlia).
  split; cbn; unfold top; cbn; [done|lia|dlia].
Qed.

(** What is known of a list of blocks. *)
Definition block_in (lo : Z) (a : shm_area) (b : Z * Z) : Prop :=
  lo <= b.1 /\ b.1 mod 8 = 0 /\ b.1 + b.2 <= WRS_SHM_MAX_SIZE /\ forall k, b.1 <= k < b.1 + b.2 -> ar_mem a k = 0.

(** Later requests do not touch what is below [top]. *)
Lemma blocks_spec pid sizes : Forall request_ok sizes -> forall a, alloc_ok a ->
  let r := blocks pid sizes a in
  ForallOrdPairs (fun b b' => b.1 + b.2 <= b'.1) r.1 /\ Forall (block_in (top a) r.2) r.1 /\
  (forall k, k < top a -> ar_mem r.2 k = ar_mem a k) /\ sh_mapbase (ar_head r.2) = sh_mapbase (ar_head a).
Proof.
  induction 1 as [|size sizes Hs Hf IH]; intros a Ha; cbn zeta; [split_and!; (done || constructor)|].
  assert (0 <= size) by apply Hs. cbn [blocks]. destruct (alloc_step pid size a Ha Hs) as (A1 & M1 & A2). destruct (wrs_shm_alloc pid size a) as [r a1]. cbn [fst snd] in *.
  destruct (IH a1 A1) as (I1 & I2 & I3 & I4). destruct (blocks pid sizes a1) as [l a2]. cbn [fst snd] in *.
  destruct r as [o|]; cbn [fst snd]; [|subst a1; done]. destruct A2 as (-> & Al & Hh & Hm & Ht & Hz).
  assert (top a + size <= top a1) as Ht' by done. split_and!.
  - constructor; [|done]. eapply list.Forall_impl; [exact I2|]. intros b (Hb & _). cbn in *. lia.
  - constructor.
    + split_and!; cbn; [lia|done|done|]. intros k Hk. rewrite I3, Hz by lia. destruct (Z.leb_spec (top a) k), (Z.ltb_spec k (top a + size)); (done || lia).
    + eapply list.Forall_impl; [exact I2|]. intros b (Hb & ? & ? & ?). split_and!; [lia|done..].
  - intros k Hk. rewrite I3, Hz by lia. destruct (Z.leb_spec (top a) k); [lia|done].
  - congruence.
Qed.

Lemma blocks_sizes pid sizes a : Forall request_ok sizes -> Forall (fun b => 0 <= b.2) (blocks pid sizes a).1.
Proof.
  intros Hf. revert a. induction Hf as [|size sizes Hs Hf IH]; intros a; [constructor|]. cbn [blocks].
  destruct (wrs_shm_alloc pid size a) as [[o|] a1]; specialize (IH a1); destruct (blocks pid sizes a1) as [l a2]; [constructor; [cbn; apply Hs|done]|done].
Qed.

(** C31. Allocation in the area. Of any requests of the writer that opened it, none so large that
    its sum with what is allocated can wrap around in a [size_t] (a request of nearly the whole
    address space is granted a block that does not fit, [huge_request_granted]), those that are
    granted get blocks in the order of the addresses that do not overlap, aligned, behind the head
    and within the area, and clear; each can be followed from any mapping of the area to the same
    bytes. *)
Theorem shm_alloc_blocks (s : shm_sys) (name : list Z) (locked : bool) (h : wrs_shm_head) (mem : Z -> Z) (sizes : list Z) (base : Z) :
  Forall request_ok sizes ->
  let r := blocks (ss_getpid s) sizes (mk_area (open_area s name locked h) mem) in
  ForallOrdPairs (fun b b' => b.1 + b.2 <= b'.1) r.1 /\
  Forall (fun b => block_in HEAD_SIZE r.2 b /\
    wrs_shm_follow (ar_head r.2) base (ss_base s + b.1) = Some (base + b.1)) r.1.
Proof.
  intros Hf. cbn zeta. set (a := mk_area _ mem). pose proof head_size as Hh.
  assert (alloc_ok a) as Ha by (split; unfold top; cbn; (done || lia)).
  destruct (blocks_spec (ss_getpid s) sizes Hf a Ha) as (B1 & B2 & _ & B4). change (top a) with (HEAD_SIZE + 0) in B2.
  rewrite Z.add_0_r in B2. change (sh_mapbase (ar_head a)) with (ss_base s) in B4.
  pose proof (blocks_sizes (ss_getpid s) sizes a Hf) as Hpos.
  split; [done|]. eapply list.Forall_impl; [apply list.Forall_and; split; [exact B2|exact Hpos]|]. intros b [Hb Hp]. split; [done|].
  destruct Hb as (Hlo & _ & Hhi & _). unfold wrs_shm_follow. rewrite B4.
  destruct (Z.ltb_spec (ss_base s + b.1) (ss_base s)); [lia|].
  destruct (Z.ltb_spec (ss_base s + WRS_SHM_MAX_SIZE) (ss_base s + b.1)); [lia|]. cbn. f_equal. lia.
Qed.

(** ** Descriptors *)

(** A process that opens the area to read and closes it again keeps a descriptor. *)
Lemma reader_keeps_descriptor s locked id name flags h p h' p' pid : wrs_shm_get s locked id name flags h p = (Some (inl tt), h', p') ->
  Z.land flags WRS_SHM_WRITE = 0 -> sh_pid h' <> pid -> held_fds (wrs_shm_put pid 0 h' p').2 = held_fds p + 1.
Proof.
  unfold wrs_shm_get. intros Hg Hf Hp. rewrite Hf in Hg. change (truth 0) with false in Hg. cbn [negb] in Hg.
  repeat case_match; simplify_eq; unfold wrs_shm_put; cbn; rewrite (proj2 (Z.eqb_neq _ _)) by done; done.
Qed.

(** A second writer is turned away and leaves the head alone. *)
Lemma second_writer_busy s locked id name flags h p : id < WRS_SHM_N_NAMES -> ss_open s = true -> ss_fstat s = true -> ss_mmap s = true ->
  Z.land flags WRS_SHM_WRITE <> 0 -> sh_pid h <> 0 -> ss_alive s (sh_pid h) = true ->
  wrs_shm_get s locked id name flags h p = (Some (inr EBUSY), h, p).
Proof.
  intros Hi Ho Hs Hm Hf Hp Ha. unfold wrs_shm_get. rewrite Ho, Hs, Hm, Ha. destruct (Z.leb_spec WRS_SHM_N_NAMES id); [lia|].
  apply truth_true in Hf, Hp. by rewrite Hf, Hp.
Qed.

End Alloc.

(** ** An example *)

Module ShmDemo.
#[local] Instance demo_cfg : Config := Demo.demo_config.
#[local] Instance demo_header : ShmHeader := {|
  WRS_SHM_MAX_SIZE := 524288; WRS_SHM_MIN_SIZE := 4096; WRS_SHM_N_NAMES := 10; WRS_SHM_LOCK_MASK := 1;
  WRS_SHM_READ := 0; WRS_SHM_WRITE := 1; WRS_SHM_LOCKED := 2; WRS_SHM_WRITE_BEGIN := 1; WRS_SHM_WRITE_END := 0;
  WRS_SHM_OPEN_FAILED := 1; WRS_SHM_WRONG_VERSION := 2; WRS_SHM_INCONSISTENT_DATA := 3; HEAD_SIZE := 96; NAME_SIZE := 32 |}.
#[local] Instance demo_shm_laws : ShmLaws.
Proof. split; vm_compute; (done || intuition discriminate). Defined.

Definition demo_ssys : shm_sys := mk_ssys true true true 42 (fun _ => false) 65536 0 [].
Definition demo_head : wrs_shm_head := mk_shm 0 0 0 [] 0 0 0 0 0.
(** The area is opened locked and released; then one more bracket. *)
Definition demo_pre : list wstep := [w_store 200 1; w_end 5; w_begin 6; w_store 200 2; w_store 201 3; w_end 7].

(** A reader that comes after them, one that comes in the middle, and one that is overtaken. *)
Lemma seqlock_consistent_witness :
  let a := do_wsteps (mk_area (open_area demo_ssys [] true demo_head) (fun _ => 0)) in
  wrs_shm_seqretry (ar_head (a (take 4 demo_pre))) (wrs_shm_seqbegin (ar_head (a (take 4 demo_pre)))) = 1 /\
  wrs_shm_seqretry (ar_head (a demo_pre)) (wrs_shm_seqbegin (ar_head (a (take 2 demo_pre)))) = 1 /\
  wrs_shm_seqretry (ar_head (a demo_pre)) (wrs_shm_seqbegin (ar_head (a demo_pre))) = 0.
Proof.
  split; [vm_compute; reflexivity|]. split; [vm_compute; reflexivity|].
  destruct (seqlock_consistent demo_ssys [] true demo_head (fun _ => 0) demo_pre [] [] eq_refl) as [_ E].
  - cbn. lia.
  - exact (E eq_refl eq_refl).
Defined.

Lemma shm_alloc_blocks_witness :
  let r := blocks 42 [100; 600000; 13; 8] (mk_area (open_area demo_ssys [] true demo_head) (fun _ => 7)) in
  r.1 = [(96, 100); (200, 13); (216, 8)] /\ ForallOrdPairs (fun b b' => b.1 + b.2 <= b'.1) r.1.
Proof.
  split; [vm_compute; reflexivity|].
  apply (shm_alloc_blocks demo_ssys [] true demo_head (fun _ => 7) [100; 600000; 13; 8] 0). repeat constructor; vm_compute; (discriminate || reflexivity).
Defined.

(** The sum of the test wraps around in a [size_t]: a request of nearly the whole address space is
    granted a block, and the size counted shrinks. *)
Example huge_request_granted :
  let r := wrs_shm_alloc 42 (LONG_MODULUS - 64) (mk_area (open_area demo_ssys [] true demo_head) (fun _ => 7)) in
  r.1 = Some 96 /\ WRS_SHM_MAX_SIZE < 96 + (LONG_MODULUS - 64).
Proof. vm_compute. done. Qed.

(** The first address behind the area is followed as if it were inside. *)
Example follow_one_past : let h := open_area demo_ssys [] true demo_head in
  wrs_shm_follow h 0 (sh_mapbase h + WRS_SHM_MAX_SIZE) = Some WRS_SHM_MAX_SIZE.
Proof. reflexivity. Qed.
End ShmDemo.
